(* ===== verification/_CoqProject ===== *)
-Q . S2P
Prelude.v
Io.v
DList.v
Seqnum.v
Segments.v
World.v
SendqMap.v
Request.v
Region.v
Send.v
Large.v
Ack.v
Recv.v
Unexp.v
Connect.v
Progress.v
Test.v
Invariants.v
Views.v
Samples.v
Window.v
Order.v
AckQueues.v
Matching.v
Done.v
EarlyQueue.v
Medium.v
Event.v
EventFifo.v
EventWait.v
Reg.v
RegCopy.v
RegPin.v
RegTable.v
RegRefs.v
RegShared.v
Peer.v
Pull.v
PullFrames.v
PullReplies.v
PullStart.v
PullRounds.v
PullSlots.v
Wire.v
Host.v
SendMsg.v
RecvMsg.v
Crossing.v
AnyPacket.v
PeerTable.v
PeerInv.v
PeerOps.v
PeerSafe.v
PeerSteps.v
PeerIfaces.v
PeerSpec.v
PeerQuery.v
Shared.v
SharedSend.v
SharedMedium.v
SharedPull.v
EndpointTable.v
EndpointRefs.v
EndpointSafe.v
EndpointUse.v
XenGrant.v
XenReg.v
XenGuest.v
XenBack.v
XenRegion.v
XenRing.v
XenRingFifo.v
XenFront.v
XenServe.v
XenServed.v
XenCalls.v
XenSend.v
XenLookup.v
XenEvents.v
XenSamples.v
