(* ===== verification/Prelude.v ===== *)
(** * Xen2MX: a verified model of its message-passing core

    Xen2MX is Open-MX for Xen guests: a user-space library ([src/libxen2mx])
    that implements the MX message-passing interface (matched sends and
    receives) on top of a driver ([src/driver/linux], with a Xen front end and
    back end) that speaks the MX wire protocol over Ethernet.  This development
    models the library's protocol engine and, of the driver, the event queues,
    the endpoints, the memory regions, the pulls of large messages, the packets, the
    table of peers, the messages inside a host and what a Xen guest does through
    the driver of another domain, from the C sources, and proves what makes
    them correct.

    ** The program and the files

    The library keeps, per endpoint, a set of partners (remote endpoints) with
    sequence numbers, request queues linked by intrusive lists, a map of the
    slots of the send queue, and a cache of registered memory regions; it talks
    to the driver by ioctls and reads two rings of events.  The modules, in
    dependency order:

    - [Prelude]: record updates, machine integers ([u8] ... [u64], flags),
      list lemmas; [Io]: the constants of [common/omx_io.h] both sides use.
    - [DList] ([omx_list.h]): the list operations on a heap of pointers, and
      their refinement to queues; the other modules use queues.
    - [Seqnum] (macros of [omx_types.h]): 14-bit sequence numbers and 2-bit
      session numbers packed in 16 bits.
    - [Segments] ([omx_segments.h], [omx_types.h]): byte memory, scattered
      buffers, the gather, scatter and resumable copies, the checksum.
    - [World] ([omx_types.h], [omx_io.h], [omx_misc.c], [omx_error.c]): the
      state of an endpoint as one record, and the state monad [M] with three
      outcomes besides returning: [Aborted] ([omx__abort]), [Undefined] (the C
      program has undefined behaviour) and [Diverged].
    - [SendqMap], [Request] ([omx_request.h], [omx_lib.h]), [Region] and
      [Large] ([omx_large.c]), [Send] ([omx_send.c]), [Ack] ([omx_ack.c]),
      [Recv] and [Unexp] ([omx_recv.c]), [Connect] ([omx_partner.c]),
      [Progress] ([omx_lib.c], the loops of [omx_send.c], the API calls of
      [omx_send.c] and [omx_recv.c]): one definition per C function, under the
      C name where Rocq allows it.
    - [Test] ([omx_test.c], [omx_connect]): the calls that test for completions,
      look at them without taking them, and wait; a wait is given its rounds,
      with what the others do while the lock is released.
    - [Event] ([driver/linux/omx_event.c]): the driver's event rings, its
      reservations of receive slots, the wait ioctl and the wakeups.
    - [Reg] and [RegTable] ([driver/linux/omx_reg.c]): user regions, their
      pages, pinning, copies from and to them; their table, with references,
      grace periods and deferred works.  [RegShared]: the copy from a region to
      a region of the current process.
    - [Peer] ([driver/linux/omx_peer.c]): the table of peers as packets use it;
      [PeerTable] (the same file and [driver/linux/omx_iface.c]): the table with
      its pointers, the operations that change it, the interfaces, the queries
      for host names and their replies.
    - [Pull] ([driver/linux/omx_pull.c]): the pulls of large messages; slots,
      blocks of frames, replies, retransmissions, and the answers of the host
      that has the data.
    - [Wire] ([common/omx_wire.h], [driver/linux/omx_wire_access.h]): packets as
      bytes, the layouts of the headers, the byte order.
    - [Host] (the driver's endpoint with its events and rings), [SendMsg]
      ([driver/linux/omx_send.c]), [RecvMsg] ([driver/linux/omx_recv.c], and the
      reception of raw packets and host queries): the send ioctls and the
      handlers of packets, which decode the packets of [Pull] too.
    - [Shared] ([driver/linux/omx_shared.c]): the commands and the pulls between
      two endpoints of a host, on a [node] with the table of peers, the
      endpoints of its interfaces and the memory.
    - [EndpointTable] ([driver/linux/omx_dev.c], [omx_endpoint.h], [omx_iface.c]):
      the endpoints, their files, their interfaces and the references between
      them, each function cut where others may run; its module [EndpointSteps]: the threads
      that execute the parts, and what the kernel guarantees of their order.
    - [XenGrant] (the grant table of a guest, as a class with its laws and one
      table that has them), [XenReg] ([driver/frontend/omx_xenfront_reg.c],
      [driver/backend/omx_xenback_reg.c] and the two messages in
      [driver/backend/omx_xenback.c]): the regions of a guest.
    - [XenRing] (the rings of [common/omx_xen.h]; the macros of the Xen header
      are a class with its laws, and the ones it has are an instance), [XenFront]
      ([driver/frontend/omx_xenfront.c], [driver/frontend/omx_xenfront_send.c]):
      the guest takes slots, writes and publishes its requests, waits, and
      handles the answers; [XenServe] ([driver/backend/omx_xenback.c]): the
      backend executes the requests on the rest of its driver, which is the class
      [Driver]; [XenEvents] ([driver/backend/omx_recv.c], [omx_xenback.c],
      [driver/frontend/omx_xenfront.c]): the ring of events, from the handlers of
      packets to the queues of the guest's endpoints and back.

    A call of the library is a value of [Invariants.call]; an execution is any
    sequence of calls, of handler-visible changes of the environment and of
    rings of events ([Invariants.endpoint_step]).

    ** What is proved

    - Pure data structures: [DList.list_ops_refine_queues],
      [DList.list_walks_exact], [Seqnum.seqnum_window_exact], the copies of
      [Segments] ([scatter_gather_roundtrip], [partial_copies_any_order],
      [gather_chunks_concat], [copy_from_to_exact], [cache_segments_exact],
      [checksum_of_bytes]), [SendqMap.sendq_map_exact].
    - Invariants of every execution: [Invariants] proves once and for all that
      every function preserves any predicate that a few primitive steps
      preserve (the classes [FrameInv], [TakeInv], [AckInv], [PartnerInv]);
      [Window] instantiates it for the send window, [AckQueues] for the queues
      of owed acknowledgements and proves that the ack loop pays them.
    - Receiving: [Order] (in-order matching; any other packet is matched with
      nothing and duplicates are ignored), [EarlyQueue]
      (packets that come early form a sorted set), [Matching] (oldest matching
      receive, soundness of the split by context identifier), [Medium]
      (reassembly of a message from its fragments).
    - Completions: [Done] (the completed requests are a queue, which tests refine,
      with the requests that are freed or become zombies;
      [test_any_one_context]: a test in any context sees one context; waits end with the completion or
      the deadline; where the deadline wraps).
    - Driver and library together: [EventFifo] (the rings are bounded FIFO
      queues, across every wrap-around), [Delivery] (the reading loops process
      the pending events), [EventWait] (no event is slept over, whatever
      the others do between the steps of the wait and wherever the event comes; what
      the wait reports), [EventRace] (an interleaving of reports that loses events); the
      last three are modules of [EventWait.v].
    - Regions: [RegCopy] (copies are exact, with an overrun), [RegPin] (pinning
      keeps and returns every page), [RegRefs] (no use after free in any
      interleaving).
    - Pulls: [PullFrames], [PullReplies] and [PullStart] (an invariant of the
      handle through which any sequence of replies, timeouts and nacks delivers
      the message or reports the failure, up to the first hazard), [PullSender] and [PullRounds], both in [PullRounds.v] (the
      other host's answers; completion after losses), [PullSlots] (identifiers
      of pulls).
    - Packets: [Crossing] (the command of a host is the event of the other, for
      every kind of message) and [AnyPacket] (no packet breaks the driver).
    - Inside a host: [SharedSend] (a command gives the event that the network
      would deliver; a refusal gives a nack and changes nothing else),
      [SharedMedium] (messages in segments), [SharedPull] (a pull copies the
      bytes of the other region), on the copies of [RegShared].
    - Peers: [PeerInv] and [PeerOps] (the invariant of the table and the steps
      that keep it), [PeerSafe], [PeerSteps] and [PeerIfaces] (every operation
      runs to its end and keeps it; clearing leaves the interfaces, at the first
      indexes; the end frees every peer), [PeerSpec] (every sequence of
      operations; lookups are inverse of each other and refine what [Peer] gives
      the handlers of packets), [PeerQuery] (a query is answered).
    - Endpoints: [EndpointRefs] (the invariant of the references, openings and
      commands), [EndpointSafe] (releases, lookups, closings), [EndpointUse]
      (interfaces, every step; its module [EndpointSamples]: no use after free in any
      interleaving, up to the first step that is not careful; what a forced detachment
      frees too early, in every reachable state; an endpoint that is opened on an
      interface that left).
    - Regions of a guest: [XenGuest] (granting and releasing a segment),
      [XenBack] (mapping and unmapping it), [XenRegion] (a region crosses to the
      backend and back).
    - Rings of a guest: [XenRingFifo] (a ring is three queues: answers, requests,
      slots taken), [XenServed] (the backend answers each request in its slot and
      comes back, or never does if a request has no function), [XenCalls] (any
      interleaving of the two sides is a run of a machine of calls without
      rings; no request is left unseen), [XenSend] (a command of a guest is the
      event of another host: the instance of [Driver] is the host of
      [Crossing]), [XenLookup] (a lookup through the ring is the lookup of
      [PeerTable]), [XenEvents] (the ring of events is a queue of events).
      [XenSamples] has a guest and a backend with rings of eight slots.

    ** Bounds and fuel

    Loops over queues run on the list of the queue at their start; those that
    restart ([Progress.resend_loop], [reconnect_loop]) have one round more than
    the queue has elements; the reading loops have 1025 rounds for 1024 slots,
    which [Delivery.progress_reads_pending] proves to be enough.  The copies of
    a send have a round for each byte and each segment.  Running out
    of fuel is the outcome [Diverged], never a result.  The work queue of the
    backend polls 10^6 times for requests: one pass with more fuel than that is
    enough ([XenServed.handler_served]), as is one pass of each interrupt of the
    guest.

    ** Abstractions

    One endpoint is open; requests, partners, regions and early packets are in
    maps indexed by their addresses, and the linked lists between them are
    queues of typed elements ([World.node]), which [DList] justifies.  Calls
    run to completion with the endpoint lock held, but for the sleeps of a wait; the rings do not change
    during a progression.  The allocator's answers, the errors of the ioctls
    and the clock are streams in the state.  The application's handlers and the
    peer table of the driver are parameters of the library.  In the driver a
    region is pinned when a pull starts, attached pages are read when the packet
    is given to the network, copies are not made by DMA, and the wire format is
    not that of MX.  A packet is its bytes and the length of their linear part;
    a field read behind that part is undefined ([None]).  The peer table starts
    empty; its theorems assume that the interfaces have different addresses, that
    the names in replies have from 1 to 80 bytes with their final zero, and that
    no query or reply is queued for an interface that is detached: the code
    checks none of the three.  The readers of the table (RCU) run between its
    operations.  A page of a guest is its frame; a grant reference names a frame
    and a mapping of the backend names a reference and an address.  Behind the
    two segments a message has room for, outside of an array, and in a list that
    is not aligned, the model faults ([None]); the memory the two ends allocate
    for their lists and arrays is not tracked.  The macros for alignment, the
    debugging checks and the verbose messages are left out.

    ** What the theorems assume of the program's use

    Some theorems hold for the uses that the code relies on without checking them;
    each says so, and the cases left out are those where the code fails:

    - A pull is right up to its first hazard ([PullStart.hazard]): the timer that
      expires during the last copies, or a nack of type 0; and the pulled region is
      not read up to its end when it has several segments ([PullRounds.answers]).
    - A packet has at least 60 bytes, and the header of a rendezvous is linear
      ([AnyPacket]).
    - The operations on the peer table are [PeerSpec.op_ok].
    - Endpoints are right up to the first step that is not [careful]: the file of an
      endpoint that was closed with its interface is not used again, and no command
      runs on an endpoint that is closed so.
    - The application's handler does not change the receive sequence numbers
      ([Order.handler_keeps]).
    - A guest has fewer calls in flight than its ring has slots, each of them takes,
      fills and pushes its slot alone, and asks for its result before 65536 more calls
      ([XenCalls.allowed]); a command that crosses is [plain] and begins on an [idle]
      ring ([XenSend]); the backend receives at most as many events between two
      interrupts as the ring has slots ([XenEvents.eallowed]); a region of a guest has
      at most two segments, not empty, of at most 16384 pages ([XenRegion]).

    ** Not modelled

    Opening an endpoint and reading the environment (I/O), raw endpoints, the
    MX compatibility wrappers, the tools, [dlmalloc.c] (third party); in the
    driver, the rest of the character device, DMA engines, the counters of an
    interface; in the Xen front and back ends, the
    vectorial medium messages of a guest (the backend stops on them), the
    endpoints of the backend, the Xen bus, and the copies of the native driver
    but for what they do with the rings.  [src/libopen-mx] is the library before its renaming
    and is the same program. *)
From stdpp Require Export base tactics functions option list gmap numbers strings.
From Stdlib Require Export ZArith Lia.

#[export] Set Default Goal Selector "!".
Open Scope Z_scope.

(** ** Functional record update

    [Settable R] gives the eta-expansion of a record; [Setter p] is the
    update function of the projection [p]; [set p f r] applies it.  The
    instances are one line each, built by [mk_setter]. *)
Class Settable (R : Type) := eta : R -> R.
Class Setter {R T : Type} (p : R -> T) := set_with : (T -> T) -> R -> R.
Definition set {R T : Type} (p : R -> T) `{!Setter p} (f : T -> T) (r : R) : R :=
  set_with f r.
Arguments set {R T} p {_} f r : simpl never.
Arguments set_with {R T} p {_} f r.

Ltac mk_setter :=
  lazymatch goal with
  | |- @Setter ?R ?T ?p =>
      unfold Setter; intros f r;
      let e := eval cbv [eta] in (eta (R:=R) r) in
      let e' := eval hnf in (eta (R:=R) r) in
      lazymatch eval pattern (p r) in e' with
      | ?g _ => let res := eval cbv beta in (g (f (p r))) in exact res
      end
  end.

Notation "r <| p := v |>" := (set p (fun _ => v) r)
  (at level 1, left associativity, p at level 99, v at level 200).
Notation "r <| p ::= f |>" := (set p f r)
  (at level 1, left associativity, p at level 99, f at level 200).

(** Projections of updated records: conversion decides whether the field is
    the updated one, and no record is ever expanded. *)
Ltac is_proj p := lazymatch p with ?h _ => is_const h | _ => is_const p end.
Ltac fsimp_goal :=
  repeat match goal with
  | |- context [?p (set ?q ?f ?r)] =>
      is_proj p; first [change (p (set q f r)) with (p r) | change (p (set q f r)) with (f (q r))]
  end.
Ltac fsimp :=
  fsimp_goal; cbv beta;
  repeat match goal with
  | H : context [?p (set ?q ?f ?r)] |- _ =>
      is_proj p;
      first [change (p (set q f r)) with (p r) in H | change (p (set q f r)) with (f (q r)) in H];
      cbv beta in H
  end.

(** ** Machine integers

    Unsigned C integers are represented by [Z] and wrapped explicitly where
    the C type wraps. *)
Declare Scope cint_scope.
Delimit Scope cint_scope with cint.
Definition u8 (x : Z) : Z := x mod 256.
Definition u16 (x : Z) : Z := x mod 65536.
Definition u32 (x : Z) : Z := x mod 4294967296.
Definition u64 (x : Z) : Z := x mod 18446744073709551616.

(** C flag tests: [hasf s f] is [s & f] used as a condition, [setf] is
    [s |= f] and [clrf] is [s &= ~f]. *)
Definition hasf (s f : Z) : bool := negb (Z.land s f =? 0).
Definition setf (f s : Z) : Z := Z.lor s f.
Definition clrf (f s : Z) : Z := Z.ldiff s f.

Create HintDb cint.

Lemma u8_range x : 0 <= u8 x < 256.
Proof. apply Z.mod_pos_bound. lia. Qed.
Lemma u16_range x : 0 <= u16 x < 65536.
Proof. apply Z.mod_pos_bound. lia. Qed.
Lemma u32_range x : 0 <= u32 x < 4294967296.
Proof. apply Z.mod_pos_bound. lia. Qed.
Lemma u64_range x : 0 <= u64 x < 18446744073709551616.
Proof. apply Z.mod_pos_bound. lia. Qed.
Lemma u16_small x : 0 <= x < 65536 -> u16 x = x.
Proof. apply Z.mod_small. Qed.
Lemma u32_small x : 0 <= x < 4294967296 -> u32 x = x.
Proof. apply Z.mod_small. Qed.
Lemma u64_small x : 0 <= x < 18446744073709551616 -> u64 x = x.
Proof. apply Z.mod_small. Qed.
Lemma u64_over x : 18446744073709551616 <= x < 2 * 18446744073709551616 -> u64 x = x - 18446744073709551616.
Proof. intros H. unfold u64. by rewrite <- (Z.mod_add x (-1)), Z.mod_small by lia. Qed.
(** Wrapping once at the end is enough. *)
Lemma u32_add_l x y : u32 (u32 x + y) = u32 (x + y).
Proof. apply Zplus_mod_idemp_l. Qed.
Lemma u32_sub_l x y : u32 (u32 x - y) = u32 (x - y).
Proof. apply Zminus_mod_idemp_l. Qed.
Lemma u32_sub x y : u32 (u32 x - u32 y) = u32 (x - y).
Proof. unfold u32. symmetry. apply Zminus_mod. Qed.
#[export] Hint Rewrite u32_add_l u32_sub_l u32_sub : cint.
#[export] Hint Resolve u8_range u16_range u32_range u64_range : cint.

(** Case analysis on the integer comparisons of the goal. *)
Ltac zcases :=
  repeat match goal with
  | |- context [?a <? ?b] => destruct (Z.ltb_spec a b)
  | |- context [?a <=? ?b] => destruct (Z.leb_spec a b)
  | |- context [?a =? ?b] => destruct (Z.eqb_spec a b)
  end.

(** Flags that are single bits: setting, clearing and testing them. *)
Lemma hasf_pow2 s k : 0 <= k -> hasf s (2 ^ k) = Z.testbit s k.
Proof.
  intros Hk. unfold hasf. destruct (Z.testbit s k) eqn:Hb.
  - apply negb_true_iff, Z.eqb_neq. intros H0.
    assert (Hb' : Z.testbit (Z.land s (2 ^ k)) k = true).
    { rewrite Z.land_spec, Hb, Z.pow2_bits_true by lia. done. }
    rewrite H0, Z.bits_0 in Hb'. done.
  - apply negb_false_iff, Z.eqb_eq. apply Z.bits_inj'. intros n Hn.
    rewrite Z.land_spec, Z.bits_0, Z.pow2_bits_eqb by lia.
    destruct (Z.eqb_spec k n) as [->|]; [by rewrite Hb | apply andb_false_r].
Qed.

Lemma clrf_pow2_has s k : 0 <= k -> hasf (clrf (2 ^ k) s) (2 ^ k) = false.
Proof.
  intros Hk. rewrite hasf_pow2 by lia. unfold clrf.
  by rewrite Z.ldiff_spec, Z.pow2_bits_true, andb_false_r by lia.
Qed.

Lemma setf_pow2_has s k : 0 <= k -> hasf (setf (2 ^ k) s) (2 ^ k) = true.
Proof.
  intros Hk. rewrite hasf_pow2 by lia. unfold setf.
  by rewrite Z.lor_spec, Z.pow2_bits_true, orb_true_r by lia.
Qed.

(** [x mod 2^n] as a mask, with the literal the C code writes. *)
Lemma land_mask x n : 0 <= n -> Z.land x (Z.ones n) = x mod 2 ^ n.
Proof. intros. apply Z.land_ones. lia. Qed.

(** ** Lists *)

(** Removal of every occurrence, the effect of unlinking an element. *)
Definition remove_elt {A} `{EqDecision A} (x : A) (l : list A) : list A :=
  filter (fun y => y <> x) l.

Section remove_elt.
Context {A : Type} `{EqDecision A}.
Implicit Types (l : list A) (x y : A).

Lemma elem_of_remove_elt x y l : y ∈ remove_elt x l <-> y <> x /\ y ∈ l.
Proof. unfold remove_elt. by rewrite list_elem_of_filter. Qed.

Lemma remove_elt_notin x l : x ∉ l -> remove_elt x l = l.
Proof.
  unfold remove_elt. induction l as [|y l IH]; [done|].
  intros [Hxy Hl]%not_elem_of_cons.
  rewrite filter_cons_True by congruence. by rewrite IH.
Qed.

Lemma remove_elt_app x l k : remove_elt x (l ++ k) = remove_elt x l ++ remove_elt x k.
Proof. apply filter_app. Qed.

Lemma remove_elt_cons_eq x l : remove_elt x (x :: l) = remove_elt x l.
Proof. unfold remove_elt. rewrite filter_cons_False; [done | tauto]. Qed.

Lemma remove_elt_cons_ne x y l : y <> x -> remove_elt x (y :: l) = y :: remove_elt x l.
Proof. intros. unfold remove_elt. by rewrite filter_cons_True. Qed.

Lemma NoDup_remove_elt x l : NoDup l -> NoDup (remove_elt x l).
Proof. apply NoDup_filter. Qed.

(** An element of a duplicate-free list is removed at its only position. *)
Lemma remove_elt_middle x l k : NoDup (l ++ x :: k) -> remove_elt x (l ++ x :: k) = l ++ k.
Proof.
  intros (Hl & Hd & Hk)%NoDup_app. apply NoDup_cons in Hk as [Hxk _].
  rewrite remove_elt_app, remove_elt_cons_eq, !remove_elt_notin; [done..|].
  intros Hx. apply (Hd x); [done | apply list_elem_of_here].
Qed.

Lemma length_remove_elt_le x l : (length (remove_elt x l) <= length l)%nat.
Proof. apply length_filter. Qed.
End remove_elt.

#[export] Hint Resolve NoDup_remove_elt : core.

Lemma fold_left_ext_in {A B} (f g : A -> B -> A) (l : list B) a :
  (forall acc x, x ∈ l -> f acc x = g acc x) -> fold_left f l a = fold_left g l a.
Proof.
  revert a. induction l as [|x l IH]; intros a H; cbn; [done|].
  rewrite (H a x) by apply list_elem_of_here. apply IH. intros acc y Hy. apply H. by right.
Qed.

Lemma elem_of_rev {A} (x : A) l : x ∈ rev l <-> x ∈ l.
Proof. by rewrite !list_elem_of_In, <- in_rev. Qed.
Lemma NoDup_rev' {A} (l : list A) : NoDup l -> NoDup (rev l).
Proof. intros H. by rewrite <- Permutation_rev. Qed.

Section filters.
Context {A : Type} (P : A -> Prop) `{!forall x, Decision (P x)}.
Lemma list_filter_all (l : list A) : Forall P l -> filter P l = l.
Proof. induction 1; [done|]. rewrite filter_cons_True by done. by f_equal. Qed.
Lemma list_filter_none (l : list A) : Forall (fun x => ~ P x) l -> filter P l = [].
Proof. induction 1; [done|]. by rewrite filter_cons_False. Qed.
End filters.
