(* ===== verification/Io.v ===== *)
(** Constants of the interface between the library and the driver
    ([common/omx_io.h]): the event and receive queues, the status of a wait. *)
From S2P Require Import Prelude.

Module Io.

(** ** Event queues ([omx_eventq_index_t] is 32 bits wide) *)
Definition OMX_EXP_EVENTQ_ENTRY_NR : Z := 1024.
Definition OMX_UNEXP_EVENTQ_ENTRY_NR : Z := 1024.
Definition OMX_RECVQ_ENTRY_NR : Z := 1024.
Definition OMX_RECVQ_ENTRY_SHIFT : Z := 13.
Definition OMX_RECVQ_ENTRY_SIZE : Z := 2 ^ OMX_RECVQ_ENTRY_SHIFT.
Definition OMX_EXP_RELEASE_SLOTS_BATCH_NR : Z := OMX_EXP_EVENTQ_ENTRY_NR / 4.
Definition OMX_UNEXP_RELEASE_SLOTS_BATCH_NR : Z := OMX_UNEXP_EVENTQ_ENTRY_NR / 4.
Definition OMX_EVENT_ID_MAX : Z := 255.
(** The identifier of the event of an index, and its slot. *)
Definition event_id (index : Z) : Z := 1 + index mod OMX_EVENT_ID_MAX.
Definition event_slot (index : Z) : Z := index mod OMX_EXP_EVENTQ_ENTRY_NR.

(** ** Wait *)
Definition OMX_CMD_WAIT_EVENT_STATUS_NONE : Z := 0.
Definition OMX_CMD_WAIT_EVENT_STATUS_EVENT : Z := 1.
Definition OMX_CMD_WAIT_EVENT_STATUS_INTR : Z := 2.
Definition OMX_CMD_WAIT_EVENT_STATUS_PROGRESS : Z := 3.
Definition OMX_CMD_WAIT_EVENT_STATUS_TIMEOUT : Z := 4.
Definition OMX_CMD_WAIT_EVENT_STATUS_RACE : Z := 5.
Definition OMX_CMD_WAIT_EVENT_STATUS_WAKEUP : Z := 6.
Definition OMX_ENDPOINT_DESC_STATUS_EXP_EVENTQ_FULL : Z := 2 ^ 0.
Definition OMX_ENDPOINT_DESC_STATUS_UNEXP_EVENTQ_FULL : Z := 2 ^ 1.
End Io.
