(* ===== verification/DList.v ===== *)
(** Intrusive doubly linked lists ([libxen2mx/omx_list.h]).

    The list nodes live in a heap from locations to [prv]/[nxt] pairs, and
    every operation is the sequence of loads and stores of the C function
    ([None] is a dereference outside the heap).  The abstract side is a
    _family of queues_: a map from list heads to the sequence of linked
    nodes, all heads and nodes being distinct.  [represents] ties the two, and
    every operation of the C file refines its counterpart on families; the
    class [QueueImpl] is the interface the request queues of the endpoint
    rely on. *)
From S2P Require Import Prelude.

Module DList.
Section dlist.
Context `{HL : Countable L}.
Implicit Types (h : gmap L (L * L)) (x y e hd : L) (l k : list L).

(** [struct list_head]: the pair of [prv] and [nxt] pointers. *)
#[local] Abbreviation heap := (gmap L (L * L)).

(** A load of a field and a store to a field; both fault outside the heap. *)
Definition prv_of (h : heap) (x : L) : option L := fst <$> h !! x.
Definition nxt_of (h : heap) (x : L) : option L := snd <$> h !! x.
Definition set_prv (x v : L) (h : heap) : option heap :=
  match h !! x with Some (_, n) => Some (<[x := (v, n)]> h) | None => None end.
Definition set_nxt (x v : L) (h : heap) : option heap :=
  match h !! x with Some (p, _) => Some (<[x := (p, v)]> h) | None => None end.

(* [libxen2mx/omx_list.h:38-45] list_head_init *)
Definition list_head_init (node : L) (h : heap) : option heap :=
  h ← set_prv node node h;
  set_nxt node node h.

(* [libxen2mx/omx_list.h:47-57] list_add_after *)
Definition list_add_after (new node : L) (h : heap) : option heap :=
  h ← set_prv new node h;
  n ← nxt_of h node;
  h ← set_nxt new n h;
  h ← set_nxt node new h;
  n ← nxt_of h new;
  set_prv n new h.

(* [libxen2mx/omx_list.h:59-69] list_add_tail *)
Definition list_add_tail (new node : L) (h : heap) : option heap :=
  p ← prv_of h node;
  h ← set_prv new p h;
  h ← set_nxt new node h;
  h ← set_prv node new h;
  p ← prv_of h new;
  set_nxt p new h.

(* [libxen2mx/omx_list.h:71-78] list_del *)
Definition list_del (node : L) (h : heap) : option heap :=
  p ← prv_of h node;
  n ← nxt_of h node;
  h ← set_nxt p n h;
  n ← nxt_of h node;
  p ← prv_of h node;
  set_prv n p h.

(* [libxen2mx/omx_list.h:80-86] list_empty *)
Definition list_empty (hd : L) (h : heap) : option bool :=
  n ← nxt_of h hd;
  Some (bool_decide (n = hd)).

(* [libxen2mx/omx_list.h:94-102] list_move *)
Definition list_move (node node_to : L) (h : heap) : option heap :=
  h ← list_del node h;
  list_add_after node node_to h.

(* [libxen2mx/omx_list.h:104-114] list_spliceall_tail *)
Definition list_spliceall_tail (src dst : L) (h : heap) : option heap :=
  b ← list_empty src h;
  if (b : bool) then Some h else
  dp ← prv_of h dst;
  sn ← nxt_of h src;
  h ← set_nxt dp sn h;
  sn ← nxt_of h src;
  dp ← prv_of h dst;
  h ← set_prv sn dp h;
  sp ← prv_of h src;
  h ← set_nxt sp dst h;
  sp ← prv_of h src;
  set_prv dst sp h.

(* [libxen2mx/omx_list.h:119-132] __list_check_elt *)
Fixpoint __list_check_elt (fuel : nat) (iter hd elt : L) (h : heap) : option bool :=
  match fuel with
  | O => None
  | S fuel =>
      if decide (iter = hd) then Some false
      else if decide (iter = elt) then Some true
      else n ← nxt_of h iter; __list_check_elt fuel n hd elt h
  end.

(* [libxen2mx/omx_list.h:144-156] list_count *)
Fixpoint list_count (fuel : nat) (iter hd : L) (acc : nat) (h : heap) : option nat :=
  match fuel with
  | O => None
  | S fuel =>
      if decide (iter = hd) then Some acc
      else n ← nxt_of h iter; list_count fuel n hd (S acc) h
  end.

(** ** Representation

    [chain h p l q]: following [nxt] from [p] visits exactly [l] and then
    reaches [q], and the [prv] pointers mirror it. *)
Fixpoint chain (h : heap) (p : L) (l : list L) (q : L) : Prop :=
  match l with
  | [] => nxt_of h p = Some q /\ prv_of h q = Some p
  | x :: l => nxt_of h p = Some x /\ prv_of h x = Some p /\ chain h x l q
  end.

(** The abstract family of queues and its operations. *)
#[local] Abbreviation family := (gmap L (list L)).
Definition q_init (hd : L) (F : family) : family := <[hd := []]> F.
Definition q_add_tail (e hd : L) (F : family) : family := alter (fun l => l ++ [e]) hd F.
Definition q_add_head (e hd : L) (F : family) : family := alter (cons e) hd F.
Definition q_del (e : L) (F : family) : family := remove_elt e <$> F.
Definition q_splice (src dst : L) (F : family) : family :=
  delete src (alter (fun l => l ++ default [] (F !! src)) dst F).

(** All the locations a family uses: heads and linked nodes. *)
Definition used (F : family) (x : L) : Prop :=
  exists hd l, F !! hd = Some l /\ x ∈ hd :: l.

Record represents (h : heap) (F : family) : Prop := {
  rep_chain : forall hd l, F !! hd = Some l -> chain h hd l hd;
  rep_nodup : forall hd l, F !! hd = Some l -> NoDup (hd :: l);
  rep_disj : forall hd1 hd2 l1 l2 x, F !! hd1 = Some l1 -> F !! hd2 = Some l2 ->
    x ∈ hd1 :: l1 -> x ∈ hd2 :: l2 -> hd1 = hd2
}.


(** ** Stores, one at a time *)

Definition in_heap (h : heap) (x : L) : Prop := is_Some (h !! x).

Lemma set_prv_spec x v (h : heap) : in_heap h x ->
  exists h', set_prv x v h = Some h' /\ (forall y, nxt_of h' y = nxt_of h y) /\
    (forall y, prv_of h' y = if decide (y = x) then Some v else prv_of h y) /\
    (forall y, in_heap h' y <-> in_heap h y).
Proof.
  intros [[p n] Hx]. unfold set_prv. rewrite Hx. eexists; split; [done|].
  unfold nxt_of, prv_of, in_heap. repeat split.
  - intros y. destruct (decide (y = x)) as [->|]; [by rewrite lookup_insert_eq, Hx|].
    by rewrite lookup_insert_ne.
  - intros y. case_decide; [subst; by rewrite lookup_insert_eq|].
    by rewrite lookup_insert_ne.
  - intros Hy. destruct (decide (y = x)) as [->|]; [by rewrite Hx|].
    by rewrite lookup_insert_ne in Hy.
  - intros Hy. destruct (decide (y = x)) as [->|]; [by rewrite lookup_insert_eq|].
    by rewrite lookup_insert_ne.
Qed.

Lemma set_nxt_spec x v (h : heap) : in_heap h x ->
  exists h', set_nxt x v h = Some h' /\ (forall y, prv_of h' y = prv_of h y) /\
    (forall y, nxt_of h' y = if decide (y = x) then Some v else nxt_of h y) /\
    (forall y, in_heap h' y <-> in_heap h y).
Proof.
  intros [[p n] Hx]. unfold set_nxt. rewrite Hx. eexists; split; [done|].
  unfold nxt_of, prv_of, in_heap. repeat split.
  - intros y. destruct (decide (y = x)) as [->|]; [by rewrite lookup_insert_eq, Hx|].
    by rewrite lookup_insert_ne.
  - intros y. case_decide; [subst; by rewrite lookup_insert_eq|].
    by rewrite lookup_insert_ne.
  - intros Hy. destruct (decide (y = x)) as [->|]; [by rewrite Hx|].
    by rewrite lookup_insert_ne in Hy.
  - intros Hy. destruct (decide (y = x)) as [->|]; [by rewrite lookup_insert_eq|].
    by rewrite lookup_insert_ne.
Qed.

Lemma nxt_of_in_heap h x n : nxt_of h x = Some n -> in_heap h x.
Proof. unfold nxt_of, in_heap. destruct (h !! x); [eauto | done]. Qed.
Lemma prv_of_in_heap h x n : prv_of h x = Some n -> in_heap h x.
Proof. unfold prv_of, in_heap. destruct (h !! x); [eauto | done]. Qed.
Hint Resolve nxt_of_in_heap prv_of_in_heap : core.

(** One store of a C statement: the new heap and its effect are named. *)
Ltac store_step Hn Hp Hd :=
  match goal with
  | |- context [set_prv ?x ?v ?h] =>
      destruct (set_prv_spec x v h) as (?h & -> & Hn & Hp & Hd);
      [|cbn [mbind option_bind]]
  | |- context [set_nxt ?x ?v ?h] =>
      destruct (set_nxt_spec x v h) as (?h & -> & Hp & Hn & Hd);
      [|cbn [mbind option_bind]]
  end.

(** The pointwise effect of linking [e] between [a] and [b], of unlinking the
    node between [a] and [b], and of moving the nodes [f .. g] between [a] and
    [b]. *)
Definition link_post (h h' : heap) (a e b : L) : Prop :=
  (forall y, nxt_of h' y = if decide (y = a) then Some e
             else if decide (y = e) then Some b else nxt_of h y) /\
  (forall y, prv_of h' y = if decide (y = b) then Some e
             else if decide (y = e) then Some a else prv_of h y) /\
  (forall y, in_heap h' y <-> in_heap h y).
Definition unlink_post (h h' : heap) (a b : L) : Prop :=
  (forall y, nxt_of h' y = if decide (y = a) then Some b else nxt_of h y) /\
  (forall y, prv_of h' y = if decide (y = b) then Some a else prv_of h y) /\
  (forall y, in_heap h' y <-> in_heap h y).
Definition splice_post (h h' : heap) (a f g b : L) : Prop :=
  (forall y, nxt_of h' y = if decide (y = g) then Some b
             else if decide (y = a) then Some f else nxt_of h y) /\
  (forall y, prv_of h' y = if decide (y = b) then Some g
             else if decide (y = f) then Some a else prv_of h y) /\
  (forall y, in_heap h' y <-> in_heap h y).

Lemma list_add_after_link e a b (h : heap) :
  nxt_of h a = Some b -> in_heap h b -> in_heap h e -> e <> a -> e <> b ->
  exists h', list_add_after e a h = Some h' /\ link_post h h' a e b.
Proof.
  intros Ha Hb He Hea Heb. unfold list_add_after.
  store_step N1 P1 D1; [done|]. rewrite N1, Ha; cbn [mbind option_bind].
  store_step N2 P2 D2; [by apply D1|].
  store_step N3 P3 D3; [by apply D2, D1, (nxt_of_in_heap _ _ _ Ha)|].
  rewrite N3, decide_False, N2, decide_True by done; cbn [mbind option_bind].
  store_step N4 P4 D4; [by apply D3, D2, D1|].
  eexists; split; [done|]. split_and!; intros y.
  - rewrite N4, N3, N2, N1. repeat case_decide; done.
  - rewrite P4, P3, P2, P1. repeat case_decide; done.
  - by rewrite D4, D3, D2, D1.
Qed.

Lemma list_add_tail_link e a b (h : heap) :
  prv_of h b = Some a -> in_heap h a -> in_heap h e -> e <> a -> e <> b ->
  exists h', list_add_tail e b h = Some h' /\ link_post h h' a e b.
Proof.
  intros Hb Ha He Hea Heb. unfold list_add_tail. rewrite Hb; cbn [mbind option_bind].
  store_step N1 P1 D1; [done|].
  store_step N2 P2 D2; [by apply D1|].
  store_step N3 P3 D3; [by apply D2, D1, (prv_of_in_heap _ _ _ Hb)|].
  rewrite P3, decide_False, P2, P1, decide_True by done; cbn [mbind option_bind].
  store_step N4 P4 D4; [by apply D3, D2, D1|].
  eexists; split; [done|]. split_and!; intros y.
  - rewrite N4, N3, N2, N1. repeat case_decide; done.
  - rewrite P4, P3, P2, P1. repeat case_decide; done.
  - by rewrite D4, D3, D2, D1.
Qed.

Lemma list_del_unlink e a b (h : heap) :
  prv_of h e = Some a -> nxt_of h e = Some b -> in_heap h a -> in_heap h b -> a <> e ->
  exists h', list_del e h = Some h' /\ unlink_post h h' a b.
Proof.
  intros Hp Hn Ha Hb Hae. unfold list_del. rewrite Hp, Hn; cbn [mbind option_bind].
  store_step N1 P1 D1; [done|].
  rewrite N1, decide_False, Hn, P1, Hp by done; cbn [mbind option_bind].
  store_step N2 P2 D2; [by apply D1|].
  eexists; split; [done|]. split_and!; intros y.
  - rewrite N2, N1. done.
  - rewrite P2, P1. done.
  - by rewrite D2, D1.
Qed.

Lemma list_spliceall_tail_splice src dst f g a (h : heap) :
  nxt_of h src = Some f -> prv_of h src = Some g -> prv_of h dst = Some a ->
  in_heap h f -> in_heap h g -> in_heap h a ->
  f <> src -> f <> dst -> a <> src -> src <> dst ->
  exists h', list_spliceall_tail src dst h = Some h' /\ splice_post h h' a f g dst.
Proof.
  intros Hf Hg Ha Df Dg Da Hfs Hfd Has Hsd. unfold list_spliceall_tail, list_empty.
  rewrite Hf; cbn [mbind option_bind]. rewrite bool_decide_false by done.
  rewrite Ha; cbn [mbind option_bind].
  store_step N1 P1 D1; [done|].
  rewrite N1, decide_False, Hf, P1, Ha by done; cbn [mbind option_bind].
  store_step N2 P2 D2; [by apply D1|].
  rewrite P2, decide_False, P1, Hg by done; cbn [mbind option_bind].
  store_step N3 P3 D3; [by apply D2, D1|].
  rewrite P3, P2, decide_False, P1, Hg by done; cbn [mbind option_bind].
  store_step N4 P4 D4; [by apply D3, D2, D1, (prv_of_in_heap _ _ _ Ha)|].
  eexists; split; [done|]. split_and!; intros y.
  - rewrite N4, N3, N2, N1. repeat case_decide; done.
  - rewrite P4, P3, P2, P1. repeat case_decide; done.
  - by rewrite D4, D3, D2, D1.
Qed.


(** ** Chains under linking, unlinking and splicing *)

Lemma chain_ext h h' p l q :
  (forall y, y ∈ p :: l -> nxt_of h' y = nxt_of h y) ->
  (forall y, y ∈ q :: l -> prv_of h' y = prv_of h y) ->
  chain h p l q -> chain h' p l q.
Proof.
  revert p. induction l as [|x l IH]; intros p Hn Hp; cbn.
  - rewrite Hn, Hp by set_solver. done.
  - intros (H1 & H2 & H3). rewrite Hn, Hp by set_solver. split_and!; [done..|].
    apply IH; [set_solver..|done].
Qed.

Lemma last_cons (l : list L) x p : List.last (x :: l) p = List.last l x.
Proof.
  revert x p. induction l as [|y l IH]; intros x p; [done|].
  change (List.last (x :: y :: l) p) with (List.last (y :: l) p).
  rewrite !IH. done.
Qed.

Lemma chain_last h p l q : chain h p l q -> prv_of h q = Some (List.last l p).
Proof.
  revert p. induction l as [|x l IH]; intros p; cbn [chain]; [tauto|].
  intros (_ & _ & H3). by rewrite (IH _ H3), last_cons.
Qed.

Lemma chain_first h p l q : chain h p l q -> nxt_of h p = Some (List.hd q l).
Proof. destruct l; cbn; tauto. Qed.

Lemma chain_app h p l x k q : chain h p (l ++ x :: k) q <-> chain h p l x /\ chain h x k q.
Proof. revert p. induction l as [|y l IH]; intros p; cbn; [tauto|]. rewrite IH. tauto. Qed.

Lemma chain_in_heap h p l q y : chain h p l q -> y ∈ p :: l -> in_heap h y.
Proof.
  revert p. induction l as [|x l IH]; intros p; cbn.
  - intros [H1 _] ->%list_elem_of_singleton. eauto.
  - intros (H1 & _ & H3) [->|Hy]%elem_of_cons; [eauto|]. by apply (IH x).
Qed.

Lemma last_elem (l : list L) p : List.last l p ∈ p :: l.
Proof.
  revert p. induction l as [|x l IH]; intros p; [set_solver|].
  destruct l as [|y l]; [set_solver|]. specialize (IH p). cbn in *. set_solver.
Qed.

Lemma hd_elem (l : list L) q : List.hd q l ∈ q :: l.
Proof. destruct l; set_solver. Qed.

(** Linking [e] after [l1]: the predecessor is the last node of [l1]. *)
Lemma chain_link h h' p l1 e l2 q :
  link_post h h' (List.last l1 p) e (List.hd q l2) ->
  NoDup (p :: l1 ++ l2) -> q ∉ l1 ++ l2 -> e ∉ p :: q :: l1 ++ l2 ->
  chain h p (l1 ++ l2) q -> chain h' p (l1 ++ e :: l2) q.
Proof.
  intros (Hn & Hp & Hd). revert p Hn Hp. induction l1 as [|x l1 IH]; intros p Hn Hp Hnd Hq He.
  - cbn in Hn, Hp |- *. intros Hc.
    rewrite (Hn p), decide_True by done. split; [done|].
    rewrite (Hp e), decide_False, decide_True by
      first [done | intros ->; pose proof (hd_elem l2 q); set_solver].
    split; [done|]. destruct l2 as [|y l2]; cbn in *.
    + rewrite Hn, Hp. rewrite decide_False, decide_True, decide_True by set_solver. done.
    + rewrite Hn, Hp, decide_False, decide_True, decide_True by set_solver.
      split_and!; [done..|]. destruct Hc as (_ & _ & Hc).
      apply NoDup_cons in Hnd as [Hpl Hnd]. apply NoDup_cons in Hnd as [Hyl Hnd].
      revert Hc. apply chain_ext; intros z Hz; [rewrite Hn | rewrite Hp];
        rewrite !decide_False; set_solver.
  - cbn [app chain] in *. rewrite last_cons in Hn, Hp. intros (H1 & H2 & H3).
    apply NoDup_cons in Hnd as [Hpl Hnd].
    pose proof (last_elem l1 x) as Hlast. pose proof (hd_elem l2 q) as Hhd.
    assert (Hx : x ∉ l1 ++ l2) by (by apply NoDup_cons in Hnd as [??]).
    rewrite Hn, !decide_False; [|set_solver..]. split; [done|].
    rewrite Hp, !decide_False; [|set_solver..]. split; [done|].
    apply IH; [done|done|done|set_solver|set_solver|done].
Qed.

(** Unlinking the node between [l1] and [l2]. *)
Lemma chain_unlink h h' p l1 e l2 q :
  unlink_post h h' (List.last l1 p) (List.hd q l2) ->
  NoDup (p :: l1 ++ e :: l2) -> q ∉ l1 ++ e :: l2 ->
  chain h p (l1 ++ e :: l2) q -> chain h' p (l1 ++ l2) q.
Proof.
  intros (Hn & Hp & Hd). revert p Hn Hp. induction l1 as [|x l1 IH]; intros p Hn Hp Hnd Hq.
  - cbn in Hn, Hp |- *. intros (H1 & H2 & H3).
    apply NoDup_cons in Hnd as [Hpl Hnd]. apply NoDup_cons in Hnd as [Hel Hnd].
    destruct l2 as [|y l2]; cbn in *.
    + rewrite Hn, Hp, !decide_True by done. done.
    + rewrite Hn, Hp, !decide_True by done. split_and!; [done..|].
      destruct H3 as (_ & _ & H3). apply NoDup_cons in Hnd as [Hyl Hnd].
      revert H3. apply chain_ext; intros z Hz; [rewrite Hn | rewrite Hp];
        rewrite decide_False; set_solver.
  - cbn [app chain] in *. rewrite last_cons in Hn, Hp. intros (H1 & H2 & H3).
    apply NoDup_cons in Hnd as [Hpl Hnd].
    pose proof (last_elem l1 x) as Hlast. pose proof (hd_elem l2 q) as Hhd.
    assert (Hx : x ∉ l1 ++ e :: l2) by (by apply NoDup_cons in Hnd as [??]).
    rewrite Hn, !decide_False; [|set_solver..]. split; [done|].
    rewrite Hp, !decide_False; [|set_solver..]. split; [done|].
    apply IH; [done|done|done|set_solver|done].
Qed.

(** A chain whose last link is redirected to another node. *)
Lemma chain_retarget h h' p l q x :
  nxt_of h' (List.last l p) = Some x -> prv_of h' x = Some (List.last l p) ->
  (forall y, y ∈ l -> prv_of h' y = prv_of h y) ->
  (forall y, y ∈ p :: l -> y <> List.last l p -> nxt_of h' y = nxt_of h y) ->
  NoDup (p :: l) -> chain h p l q -> chain h' p l x.
Proof.
  revert p. induction l as [|y l IH]; intros p Hnl Hpx Hpo Hno Hnd Hc; [done|].
  rewrite last_cons in *. destruct Hc as (H1 & H2 & H3).
  apply NoDup_cons in Hnd as [Hpl Hnd]. pose proof (last_elem l y).
  cbn [chain]. rewrite Hno, Hpo by set_solver. split_and!; [done..|].
  apply IH; [done..| | |done|done].
  - intros z Hz. apply Hpo. set_solver.
  - intros z Hz Hne. apply Hno; set_solver.
Qed.

(** Splicing the nodes [x :: k] of the queue [src] at the end of [dst]. *)
Lemma chain_splice h h' src dst x k l :
  splice_post h h' (List.last l dst) x (List.last k x) dst ->
  NoDup (src :: x :: k) -> NoDup (dst :: l) ->
  (forall y, y ∈ src :: x :: k -> y ∈ dst :: l -> False) ->
  chain h src (x :: k) src -> chain h dst l dst -> chain h' dst (l ++ x :: k) dst.
Proof.
  intros (Hn & Hp & Hd) Hs Hdl Hdis (_ & _ & Hcs) Hcd.
  pose proof (last_elem l dst) as Hl. pose proof (last_elem k x) as Hk.
  assert (Hgl : List.last k x ∉ dst :: l) by (intros ?; eapply Hdis; set_solver).
  assert (Hxl : x ∉ dst :: l) by (intros ?; eapply Hdis; set_solver).
  assert (Hal : List.last l dst ∉ src :: x :: k) by (intros ?; eapply Hdis; set_solver).
  assert (Hdk : dst ∉ src :: x :: k) by (intros ?; eapply Hdis; set_solver).
  apply NoDup_cons in Hs as [_ Hs]. apply NoDup_cons in Hs as [Hxk Hs].
  pose proof Hdl as [Hdl' _]%NoDup_cons.
  apply not_elem_of_cons in Hgl as [Hgd Hgl], Hxl as [Hxd Hxl], Hal as [Has Hal], Hdk as [Hds Hdk].
  apply chain_app. split.
  - eapply chain_retarget; [| | | |done|done].
    + rewrite Hn, decide_False, decide_True; [done..|congruence].
    + rewrite Hp, decide_False, decide_True; done.
    + intros y Hy. rewrite Hp, !decide_False; [done|congruence..].
    + intros y Hy Hne. rewrite Hn, !decide_False; [done|done|].
      intros ->. apply elem_of_cons in Hy as [?|?]; congruence.
  - eapply chain_retarget; [| | | |by constructor|done].
    + by rewrite Hn, decide_True.
    + by rewrite Hp, decide_True.
    + intros y Hy. rewrite Hp, !decide_False; [done|congruence|].
      intros ->. apply Hdk. by right.
    + intros y Hy Hne. rewrite Hn, !decide_False; [done|congruence|done].
Qed.

(** ** The operations refine the family operations *)

Lemma not_used F x : ~ used F x <-> forall hd l, F !! hd = Some l -> x ∉ hd :: l.
Proof.
  split.
  - intros Hu hd l HF Hx. apply Hu. by exists hd, l.
  - intros Hu (hd & l & HF & Hx). by apply (Hu hd l).
Qed.

Lemma not_used_compute F x :
  bool_decide (Forall (fun q => x ∉ q.1 :: q.2) (map_to_list F)) = true -> ~ used F x.
Proof.
  intros Hall%bool_decide_eq_true. rewrite Forall_forall in Hall.
  apply not_used. intros hd l HF. by apply (Hall (hd, l)), elem_of_map_to_list.
Qed.

(** Replacing the contents of one queue by old nodes and unused ones. *)
Lemma represents_update h h' F hd l l' :
  represents h F -> F !! hd = Some l -> NoDup (hd :: l') ->
  (forall x, x ∈ l' -> x ∈ l \/ ~ used F x) ->
  chain h' hd l' hd ->
  (forall hd2 l2, F !! hd2 = Some l2 -> hd2 <> hd -> chain h' hd2 l2 hd2) ->
  represents h' (<[hd := l']> F).
Proof.
  intros [Hc Hn Hd] HF Hnd Hsub Hch Hoth.
  assert (Hold : forall hd2 l2 x, F !! hd2 = Some l2 -> hd2 <> hd ->
            x ∈ hd :: l' -> x ∈ hd2 :: l2 -> False).
  { intros hd2 l2 x H2 Hne [->|Hx]%elem_of_cons Hx2.
    - apply Hne. symmetry. apply (Hd _ _ _ _ hd HF H2); [apply list_elem_of_here|done].
    - destruct (Hsub x Hx) as [Hx'|Hu].
      + apply Hne. symmetry. apply (Hd _ _ _ _ x HF H2); [by right|done].
      + apply Hu. by exists hd2, l2. }
  split.
  - intros hd2 l2 [[<- <-]|[? ?]]%lookup_insert_Some; [done|]. by apply Hoth.
  - intros hd2 l2 [[<- <-]|[? ?]]%lookup_insert_Some; [done|]. by apply Hn.
  - intros h1 h2 l1 l2 x [[<- <-]|[? H1]]%lookup_insert_Some
      [[<- <-]|[? H2]]%lookup_insert_Some Hx1 Hx2; [done| | |by eapply Hd].
    + exfalso. by eapply (Hold h2).
    + exfalso. by eapply (Hold h1).
Qed.

(** A queue none of whose locations is touched keeps its chain. *)
Lemma chain_untouched h h' (P : L -> Prop) hd l :
  (forall y, ~ P y -> nxt_of h' y = nxt_of h y /\ prv_of h' y = prv_of h y) ->
  (forall y, y ∈ hd :: l -> ~ P y) -> chain h hd l hd -> chain h' hd l hd.
Proof. intros Hun Hl. apply chain_ext; intros y Hy; apply Hun, Hl, Hy. Qed.

(** Linking a fresh node anywhere in a queue. *)
Lemma represents_link h h' F hd l1 e l2 :
  represents h F -> F !! hd = Some (l1 ++ l2) -> ~ used F e ->
  link_post h h' (List.last l1 hd) e (List.hd hd l2) ->
  represents h' (<[hd := l1 ++ e :: l2]> F).
Proof.
  intros HR HF Hu Hpost. pose proof (rep_nodup _ _ HR _ _ HF) as Hnd.
  pose proof (proj1 (not_used F e) Hu hd _ HF) as He.
  pose proof Hnd as [Hhd Hnd']%NoDup_cons.
  eapply represents_update; [done..| | | |].
  - rewrite <- Permutation_middle. apply not_elem_of_cons in He as [??].
    apply NoDup_cons; split; [by apply not_elem_of_cons|].
    by apply NoDup_cons.
  - intros x Hx. rewrite <- Permutation_middle in Hx.
    apply elem_of_cons in Hx as [->|Hx]; auto.
  - eapply chain_link; [done..| |by eapply rep_chain].
    apply not_elem_of_cons in He as [??]. by rewrite !not_elem_of_cons.
  - intros hd2 l2' H2 Hne.
    apply (chain_untouched h h' (fun y => y ∈ hd :: (l1 ++ l2) \/ y = e));
      [|intros y Hy [Hy'| ->]|by eapply rep_chain].
    + intros y Hy. destruct Hpost as (Hn & Hp & _).
      pose proof (last_elem l1 hd). pose proof (hd_elem l2 hd).
      rewrite Hn, Hp, !decide_False; [done|intros ->; apply Hy; set_solver..].
    + apply Hne. symmetry. by apply (rep_disj _ _ HR _ _ _ _ y HF H2).
    + by apply (proj1 (not_used F e) Hu hd2 _ H2).
Qed.

(** The neighbours of a position of a queue, as the pointers give them. *)
Lemma chain_neighbours h hd l1 l2 :
  chain h hd (l1 ++ l2) hd ->
  nxt_of h (List.last l1 hd) = Some (List.hd hd l2) /\
  prv_of h (List.hd hd l2) = Some (List.last l1 hd).
Proof.
  generalize hd at 1 3 6 as p. intros p. revert p.
  induction l1 as [|x l1 IH]; intros p; cbn [app].
  - destruct l2 as [|y l2]; cbn; tauto.
  - rewrite last_cons. intros (_ & _ & H3). by apply IH.
Qed.

Lemma list_add_tail_refines h F e hd l :
  represents h F -> F !! hd = Some l -> in_heap h e -> ~ used F e ->
  exists h', list_add_tail e hd h = Some h' /\ represents h' (q_add_tail e hd F) /\
    (forall y, in_heap h' y <-> in_heap h y).
Proof.
  intros HR HF He Hu. pose proof (rep_chain _ _ HR _ _ HF) as Hc.
  pose proof (proj1 (not_used F e) Hu hd _ HF) as Hel.
  pose proof (chain_last _ _ _ _ Hc) as Hlast.
  destruct (list_add_tail_link e (List.last l hd) hd h) as (h' & Hop & Hpost).
  - done.
  - eapply chain_in_heap; [done|apply last_elem].
  - done.
  - intros ->. apply Hel, last_elem.
  - intros ->. set_solver.
  - exists h'. split_and!; [done| |apply Hpost].
    unfold q_add_tail. replace (alter _ hd F) with (<[hd := l ++ [e]]> F).
    2:{ apply map_eq. intros i. destruct (decide (i = hd)) as [->|].
        - by rewrite lookup_insert_eq, lookup_alter_eq, HF.
        - by rewrite lookup_insert_ne, lookup_alter_ne. }
    eapply represents_link; [done|by rewrite app_nil_r|done|done].
Qed.

Lemma list_add_after_refines h F e hd l1 l2 :
  represents h F -> F !! hd = Some (l1 ++ l2) -> in_heap h e -> ~ used F e ->
  exists h', list_add_after e (List.last l1 hd) h = Some h' /\
    represents h' (<[hd := l1 ++ e :: l2]> F) /\ (forall y, in_heap h' y <-> in_heap h y).
Proof.
  intros HR HF He Hu. pose proof (rep_chain _ _ HR _ _ HF) as Hc.
  pose proof (proj1 (not_used F e) Hu hd _ HF) as Hel.
  destruct (chain_neighbours _ _ _ _ Hc) as [Hn Hp].
  assert (Ha : List.last l1 hd ∈ hd :: l1 ++ l2) by (pose proof (last_elem l1 hd); set_solver).
  assert (Hb : List.hd hd l2 ∈ hd :: l1 ++ l2) by (pose proof (hd_elem l2 hd); set_solver).
  destruct (list_add_after_link e _ _ h Hn) as (h' & Hop & Hpost).
  - by eapply chain_in_heap.
  - done.
  - intros Heq. by rewrite <- Heq in Ha.
  - intros Heq. by rewrite <- Heq in Hb.
  - exists h'. split_and!; [done| |apply Hpost]. by eapply represents_link.
Qed.

Lemma q_del_insert h F hd l1 e l2 :
  represents h F -> F !! hd = Some (l1 ++ e :: l2) -> q_del e F = <[hd := l1 ++ l2]> F.
Proof.
  intros HR HF. pose proof (rep_nodup _ _ HR _ _ HF) as [_ Hnd]%NoDup_cons.
  unfold q_del. apply map_eq. intros i. rewrite lookup_fmap.
  destruct (decide (i = hd)) as [->|Hne].
  - rewrite lookup_insert_eq, HF. cbn. f_equal. by apply remove_elt_middle.
  - rewrite lookup_insert_ne by done. destruct (F !! i) as [l|] eqn:Hi; [|done].
    cbn. f_equal. apply remove_elt_notin. intros He. apply Hne.
    apply (rep_disj _ _ HR _ _ _ _ e Hi HF); [by right|set_solver].
Qed.

Lemma list_del_refines h F e hd l :
  represents h F -> F !! hd = Some l -> e ∈ l ->
  exists h', list_del e h = Some h' /\ represents h' (q_del e F) /\
    (forall y, in_heap h' y <-> in_heap h y).
Proof.
  intros HR HF (l1 & l2 & ->)%list_elem_of_split.
  pose proof (rep_chain _ _ HR _ _ HF) as Hc. pose proof (rep_nodup _ _ HR _ _ HF) as Hnd.
  assert (Hae : List.last l1 hd <> e).
  { intros Heq. pose proof (last_elem l1 hd) as Hl. rewrite Heq in Hl.
    rewrite <- Permutation_middle in Hnd.
    apply NoDup_cons in Hnd as [Hh Hnd]. apply NoDup_cons in Hnd as [Hx _].
    set_solver. }
  pose proof Hc as [Hc1 Hc2]%chain_app.
  destruct (list_del_unlink e (List.last l1 hd) (List.hd hd l2) h) as (h' & Hop & Hpost).
  - by eapply chain_last.
  - by eapply chain_first.
  - eapply chain_in_heap; [apply Hc1|apply last_elem].
  - eapply chain_in_heap; [apply Hc|]. pose proof (hd_elem l2 hd). set_solver.
  - done.
  - exists h'. split_and!; [done| |apply Hpost].
    replace (q_del e F) with (<[hd := l1 ++ l2]> F).
    { eapply represents_update; [done..| | | |].
      - rewrite <- Permutation_middle in Hnd. by apply (NoDup_cons_1_2 e); rewrite Permutation_swap.
      - intros x Hx. left. set_solver.
      - apply NoDup_cons in Hnd as Hnd'. eapply chain_unlink; [done..|by destruct Hnd'|done].
      - intros hd2 l2' H2 Hne.
        apply (chain_untouched h h' (fun y => y ∈ hd :: (l1 ++ e :: l2)));
          [|intros y Hy Hy'|by eapply rep_chain].
        + intros y Hy. destruct Hpost as (Hn & Hp & _).
          pose proof (last_elem l1 hd). pose proof (hd_elem l2 hd).
          rewrite Hn, Hp, !decide_False; [done|intros ->; apply Hy; set_solver..].
        + apply Hne. symmetry. by apply (rep_disj _ _ HR _ _ _ _ y HF H2). }
    symmetry. by apply (q_del_insert h).
Qed.

Lemma q_del_unused h F e hd l :
  represents h F -> F !! hd = Some l -> e ∈ l -> ~ used (q_del e F) e.
Proof.
  intros HR HF He (hd2 & l2 & H2 & Hx).
  unfold q_del in H2. rewrite lookup_fmap in H2.
  destruct (F !! hd2) as [k|] eqn:Hk; [|done]. injection H2 as <-.
  assert (e <> hd2).
  { intros ->. pose proof (rep_disj _ _ HR _ _ _ _ hd2 HF Hk) as Heq.
    rewrite Heq in HF; [|by right|apply list_elem_of_here].
    rewrite HF in Hk. injection Hk as ->.
    by pose proof (rep_nodup _ _ HR _ _ HF) as [? _]%NoDup_cons. }
  apply elem_of_cons in Hx as [->|Hx]; [done|].
  by apply elem_of_remove_elt in Hx as [? _].
Qed.

Lemma list_move_refines h F e hd l dst k :
  represents h F -> F !! hd = Some l -> e ∈ l -> F !! dst = Some k ->
  exists h', list_move e dst h = Some h' /\ represents h' (q_add_head e dst (q_del e F)) /\
    (forall y, in_heap h' y <-> in_heap h y).
Proof.
  intros HR HF He Hk. unfold list_move.
  assert (Hheap : in_heap h e).
  { apply (chain_in_heap h hd l hd); [by eapply rep_chain|by right]. }
  destruct (list_del_refines h F e hd l) as (h1 & -> & HR1 & Hd1); [done..|].
  cbn [mbind option_bind].
  destruct (list_add_after_refines h1 (q_del e F) e dst [] (remove_elt e k))
    as (h2 & Hop & HR2 & Hd2); [done| | | |].
  - unfold q_del. by rewrite lookup_fmap, Hk.
  - by apply Hd1.
  - by apply (q_del_unused h F e hd l).
  - exists h2. split_and!; [done| |intros y; by rewrite Hd2, Hd1].
    unfold q_add_head. replace (alter _ dst _) with (<[dst := e :: remove_elt e k]> (q_del e F)); [done|].
    apply map_eq. intros i. destruct (decide (i = dst)) as [->|].
    + rewrite lookup_insert_eq, lookup_alter_eq. unfold q_del. by rewrite lookup_fmap, Hk.
    + by rewrite lookup_insert_ne, lookup_alter_ne.
Qed.

Lemma represents_delete h F hd : represents h F -> represents h (delete hd F).
Proof.
  intros [Hc Hn Hd]. split.
  - intros hd2 l [_ ?]%lookup_delete_Some. by apply Hc.
  - intros hd2 l [_ ?]%lookup_delete_Some. by apply Hn.
  - intros h1 h2 l1 l2 x [_ ?]%lookup_delete_Some [_ ?]%lookup_delete_Some. by eapply Hd.
Qed.

Lemma list_empty_refines h F hd l :
  represents h F -> F !! hd = Some l -> list_empty hd h = Some (bool_decide (l = [])).
Proof.
  intros HR HF. pose proof (rep_chain _ _ HR _ _ HF) as Hc.
  pose proof (rep_nodup _ _ HR _ _ HF) as [Hhd _]%NoDup_cons.
  unfold list_empty. rewrite (chain_first _ _ _ _ Hc). cbn. f_equal.
  destruct l as [|x l]; cbn; [by rewrite !bool_decide_true|].
  rewrite !bool_decide_false; [done..|]. set_solver.
Qed.

(** The queue [src] is left out: its head still points into [dst]. *)
Lemma list_spliceall_tail_refines h F src dst k l :
  represents h F -> F !! src = Some k -> F !! dst = Some l -> src <> dst ->
  exists h', list_spliceall_tail src dst h = Some h' /\ represents h' (q_splice src dst F) /\
    (forall y, in_heap h' y <-> in_heap h y).
Proof.
  intros HR Hk Hl Hsd. pose proof (rep_chain _ _ HR _ _ Hk) as Hck.
  pose proof (rep_chain _ _ HR _ _ Hl) as Hcl.
  assert (HF : alter (fun l => l ++ default [] (F !! src)) dst F = <[dst := l ++ k]> F).
  { apply map_eq. intros i. destruct (decide (i = dst)) as [->|].
    - by rewrite lookup_insert_eq, lookup_alter_eq, Hl, Hk.
    - by rewrite lookup_insert_ne, lookup_alter_ne. }
  unfold q_splice. rewrite HF. destruct k as [|x k].
  { exists h. unfold list_spliceall_tail. rewrite (list_empty_refines _ _ _ _ HR Hk).
    split_and!; [done| |done]. apply represents_delete.
    rewrite app_nil_r, insert_id by done. done. }
  assert (Hdis : forall y, y ∈ src :: x :: k -> y ∈ dst :: l -> False).
  { intros y Hy1 Hy2. apply Hsd. by apply (rep_disj _ _ HR _ _ _ _ y Hk Hl). }
  pose proof (last_elem k x) as Hg. pose proof (last_elem l dst) as Ha.
  pose proof (rep_nodup _ _ HR _ _ Hk) as Hndk. pose proof (rep_nodup _ _ HR _ _ Hl) as Hndl.
  destruct (list_spliceall_tail_splice src dst x (List.last k x) (List.last l dst) h)
    as (h' & Hop & Hpost); [| | | | | | | |intros Heq|done|].
  - apply Hck.
  - by rewrite (chain_last _ _ _ _ Hck), last_cons.
  - by eapply chain_last.
  - eapply chain_in_heap; [apply Hck|]. set_solver.
  - eapply chain_in_heap; [apply Hck|]. set_solver.
  - eapply chain_in_heap; [apply Hcl|done].
  - intros ->. by apply NoDup_cons in Hndk as [[??]%not_elem_of_cons _].
  - intros ->. apply (Hdis dst); set_solver.
  - rewrite Heq in Ha. apply (Hdis src); set_solver.
  - exists h'. split_and!; [done| |apply Hpost]. rewrite delete_insert_ne by done.
    eapply represents_update; [by apply represents_delete| | | | |].
    + by rewrite lookup_delete_ne.
    + rewrite app_comm_cons. apply NoDup_app. split_and!; [done| |].
      * intros y Hy1 Hy2. apply (Hdis y); [by right|done].
      * by apply NoDup_cons in Hndk as [_ ?].
    + intros y [Hy|Hy]%elem_of_app; [by left|right].
      intros (hd2 & l2 & [Hne H2]%lookup_delete_Some & Hy2). apply Hne.
      apply (rep_disj _ _ HR _ _ _ _ y Hk H2); [by right|done].
    + by eapply chain_splice.
    + intros hd2 l2 [Hne H2]%lookup_delete_Some Hne2.
      apply (chain_untouched h h' (fun y => y ∈ src :: x :: k \/ y ∈ dst :: l));
        [|intros y Hy [Hy'|Hy']|by eapply rep_chain].
      * intros y Hy. destruct Hpost as (Hn & Hp & _).
        rewrite Hn, Hp, !decide_False; [done|intros ->; apply Hy; set_solver..].
      * apply Hne. by apply (rep_disj _ _ HR _ _ _ _ y Hk H2).
      * apply Hne2. by apply (rep_disj _ _ HR _ _ _ _ y H2 Hl).
Qed.

(** Traversals. *)
Lemma list_count_chain h p l hd acc fuel n :
  chain h p l hd -> hd ∉ l -> nxt_of h p = Some n -> (length l < fuel)%nat ->
  list_count fuel n hd acc h = Some (acc + length l)%nat.
Proof.
  revert p n acc fuel. induction l as [|x l IH]; intros p n acc fuel Hc Hhd Hn Hf.
  - destruct Hc as [Hn' _]. rewrite Hn in Hn'. injection Hn' as ->.
    destruct fuel; [cbn in Hf; lia|]. cbn. rewrite decide_True by done. f_equal. lia.
  - destruct Hc as (Hn' & _ & Hc). rewrite Hn in Hn'. injection Hn' as ->.
    apply not_elem_of_cons in Hhd as [Hne Hhd].
    destruct fuel; [cbn in Hf; lia|]. cbn [list_count]. rewrite decide_False by congruence.
    rewrite (chain_first _ _ _ _ Hc). cbn [mbind option_bind length] in *.
    rewrite (IH x _ _ _ Hc); [|done|by eapply chain_first|lia].
    f_equal. lia.
Qed.

Lemma list_check_chain h p l hd elt fuel n :
  chain h p l hd -> hd ∉ l -> nxt_of h p = Some n -> (length l < fuel)%nat ->
  __list_check_elt fuel n hd elt h = Some (bool_decide (elt ∈ l)).
Proof.
  revert p n fuel. induction l as [|x l IH]; intros p n fuel Hc Hhd Hn Hf.
  - destruct Hc as [Hn' _]. rewrite Hn in Hn'. injection Hn' as ->.
    destruct fuel; [cbn in Hf; lia|]. cbn. rewrite decide_True by done.
    by rewrite bool_decide_false by set_solver.
  - destruct Hc as (Hn' & _ & Hc). rewrite Hn in Hn'. injection Hn' as ->.
    apply not_elem_of_cons in Hhd as [Hne Hhd].
    destruct fuel; [cbn in Hf; lia|]. cbn [__list_check_elt]. rewrite decide_False by congruence.
    destruct (decide (x = elt)) as [->|He].
    + rewrite bool_decide_true by apply list_elem_of_here. done.
    + rewrite (chain_first _ _ _ _ Hc). cbn [mbind option_bind length] in *.
      rewrite (IH x _ _ Hc); [|done|by eapply chain_first|lia].
      f_equal. apply bool_decide_ext. rewrite elem_of_cons. clear -He. naive_solver.
Qed.

Lemma list_head_init_refines h F hd :
  represents h F -> in_heap h hd -> ~ used F hd ->
  exists h', list_head_init hd h = Some h' /\ represents h' (q_init hd F) /\
    (forall y, in_heap h' y <-> in_heap h y).
Proof.
  intros HR Hh Hu. unfold list_head_init.
  store_step N1 P1 D1; [done|]. store_step N2 P2 D2; [by apply D1|].
  eexists; split; [done|]. split; [|intros y; by rewrite D2, D1].
  assert (Hnone : F !! hd = None).
  { destruct (F !! hd) as [l|] eqn:HF; [|done]. exfalso. apply Hu. exists hd, l.
    split; [done|apply list_elem_of_here]. }
  rewrite not_used in Hu. unfold q_init. split.
  - intros hd2 l2 [[<- <-]|[Hne H2]]%lookup_insert_Some.
    + cbn. rewrite N2, P2, P1, !decide_True by done. done.
    + apply (chain_untouched h h1 (fun y => y = hd)); [|intros y Hy ->|by eapply rep_chain].
      * intros y Hy. by rewrite N2, P2, N1, P1, !decide_False.
      * by apply (Hu _ _ H2).
  - intros hd2 l2 [[<- <-]|[Hne H2]]%lookup_insert_Some; [apply NoDup_singleton|].
    by eapply rep_nodup.
  - intros h2 h3 l1 l2 x [[<- <-]|[? H2]]%lookup_insert_Some
      [[<- <-]|[? H3]]%lookup_insert_Some Hx1 Hx2; [done| | |by eapply rep_disj].
    + apply list_elem_of_singleton in Hx1 as ->. by destruct (Hu _ _ H3).
    + apply list_elem_of_singleton in Hx2 as ->. by destruct (Hu _ _ H2).
Qed.

End dlist.

(** ** The interface the queues of the endpoint rely on

    A queue operation as data, its meaning on families and the states in
    which the C callers may use it. *)
Section interface.
Context `{HL : Countable L}.

Inductive qop :=
  | QInit (hd : L)
  | QAddTail (e hd : L)
  | QAddHead (e hd : L)
  | QDel (e : L)
  | QMove (e dst : L)
  | QSplice (src dst : L).

Definition apply_op (op : qop) (F : gmap L (list L)) : gmap L (list L) :=
  match op with
  | QInit hd => q_init hd F
  | QAddTail e hd => q_add_tail e hd F
  | QAddHead e hd => q_add_head e hd F
  | QDel e => q_del e F
  | QMove e dst => q_add_head e dst (q_del e F)
  | QSplice src dst => q_splice src dst F
  end.

Definition linked (F : gmap L (list L)) (e : L) : Prop := exists hd l, F !! hd = Some l /\ e ∈ l.

Definition legal (alloc : L -> Prop) (op : qop) (F : gmap L (list L)) : Prop :=
  match op with
  | QInit hd => alloc hd /\ ~ used F hd
  | QAddTail e hd | QAddHead e hd => alloc e /\ ~ used F e /\ is_Some (F !! hd)
  | QDel e => linked F e
  | QMove e dst => linked F e /\ is_Some (F !! dst)
  | QSplice src dst => is_Some (F !! src) /\ is_Some (F !! dst) /\ src <> dst
  end.

Fixpoint apply_ops (ops : list qop) (F : gmap L (list L)) : gmap L (list L) :=
  match ops with [] => F | op :: ops => apply_ops ops (apply_op op F) end.
Fixpoint legal_ops (alloc : L -> Prop) (ops : list qop) (F : gmap L (list L)) : Prop :=
  match ops with
  | [] => True
  | op :: ops => legal alloc op F /\ legal_ops alloc ops (apply_op op F)
  end.

(** What an implementation of the queues promises. *)
Class QueueImpl (St : Type) (alloc : L -> Prop) := {
  qi_run : qop -> St -> option St;
  qi_empty : L -> St -> option bool;
  qi_rep : St -> gmap L (list L) -> Prop;
  qi_step : forall h F op, qi_rep h F -> legal alloc op F ->
    exists h', qi_run op h = Some h' /\ qi_rep h' (apply_op op F);
  qi_empty_ok : forall h F hd l, qi_rep h F -> F !! hd = Some l ->
    qi_empty hd h = Some (bool_decide (l = []))
}.

Fixpoint run_ops `{QueueImpl St alloc} (ops : list qop) (h : St) : option St :=
  match ops with [] => Some h | op :: ops => h ← qi_run op h; run_ops ops h end.

(** Sequences of operations, proved against the interface only. *)
Lemma run_ops_simulates `{QueueImpl St alloc} ops h F :
  qi_rep h F -> legal_ops alloc ops F ->
  exists h', run_ops ops h = Some h' /\ qi_rep h' (apply_ops ops F).
Proof.
  revert h F. induction ops as [|op ops IH]; intros h F HR; [eauto|].
  intros [Hl Hls]. cbn. destruct (qi_step h F op HR Hl) as (h1 & -> & HR1). cbn. eauto.
Qed.

(** The pointer implementation. *)
Definition run_op (op : qop) (h : gmap L (L * L)) : option (gmap L (L * L)) :=
  match op with
  | QInit hd => list_head_init hd h
  | QAddTail e hd => list_add_tail e hd h
  | QAddHead e hd => list_add_after e hd h
  | QDel e => list_del e h
  | QMove e dst => list_move e dst h
  | QSplice src dst => list_spliceall_tail src dst h
  end.

Definition dl_rep (alloc : L -> Prop) (h : gmap L (L * L)) (F : gmap L (list L)) : Prop :=
  represents h F /\ forall x, alloc x -> in_heap h x.

Lemma run_op_step alloc h F op : dl_rep alloc h F -> legal alloc op F ->
  exists h', run_op op h = Some h' /\ dl_rep alloc h' (apply_op op F).
Proof.
  intros [HR Ha] Hl.
  enough (exists h', run_op op h = Some h' /\ represents h' (apply_op op F) /\
            (forall y, in_heap h' y <-> in_heap h y)) as (h' & Hop & HR' & Hd).
  { exists h'. split; [done|]. split; [done|]. intros x Hx. by apply Hd, Ha. }
  destruct op as [hd|e hd|e hd|e|e dst|src dst]; cbn in *.
  - destruct Hl as [? ?]. apply list_head_init_refines; auto.
  - destruct Hl as (? & ? & l & ?). eapply list_add_tail_refines; eauto.
  - destruct Hl as (? & ? & l & HF).
    assert (Heq : q_add_head e hd F = <[hd := e :: l]> F).
    { unfold q_add_head. apply map_eq. intros i. destruct (decide (i = hd)) as [->|].
      - by rewrite lookup_insert_eq, lookup_alter_eq, HF.
      - by rewrite lookup_insert_ne, lookup_alter_ne. }
    rewrite Heq. apply (list_add_after_refines h F e hd [] l); auto.
  - destruct Hl as (hd & l & ? & ?). by apply (list_del_refines h F e hd l).
  - destruct Hl as [(hd & l & ? & ?) [k ?]]. by apply (list_move_refines h F e hd l dst k).
  - destruct Hl as ([k ?] & [l ?] & ?). by apply (list_spliceall_tail_refines h F src dst k l).
Qed.

Lemma dl_empty_ok alloc h F hd l : dl_rep alloc h F -> F !! hd = Some l ->
  list_empty hd h = Some (bool_decide (l = [])).
Proof. intros [HR _]. by apply list_empty_refines. Qed.

#[export] Instance dlist_queue_impl (alloc : L -> Prop) :
  QueueImpl (gmap L (L * L)) alloc :=
  {| qi_run := run_op; qi_empty := list_empty; qi_rep := dl_rep alloc;
     qi_step := run_op_step alloc; qi_empty_ok := dl_empty_ok alloc |}.


(** ** Properties *)

(** Any legal sequence of initialisations, insertions at either end,
    removals, moves and splices, run on the [prv]/[nxt] pointers, ends in a
    heap that represents exactly the queues the sequence describes; no
    operation dereferences a location outside the heap. *)
Lemma list_ops_refine_queues (alloc : L -> Prop) ops (h : gmap L (L * L)) F :
  dl_rep alloc h F -> legal_ops alloc ops F ->
  exists h', run_ops (St := gmap L (L * L)) (alloc := alloc) ops h = Some h' /\
    dl_rep alloc h' (apply_ops ops F).
Proof. exact (run_ops_simulates (St := gmap L (L * L)) (alloc := alloc) ops h F). Qed.

(** On a represented queue, [list_empty] decides emptiness, [list_count]
    returns the length and [__list_check_elt] decides membership; the two
    loops end within [length l + 1] rounds. *)
Lemma list_walks_exact h F hd (l : list L) elt n fuel :
  represents h F -> F !! hd = Some l -> nxt_of h hd = Some n -> (length l < fuel)%nat ->
  list_empty hd h = Some (bool_decide (l = [])) /\
  list_count fuel n hd 0 h = Some (length l) /\
  __list_check_elt fuel n hd elt h = Some (bool_decide (elt ∈ l)).
Proof.
  intros HR HF Hn Hf. pose proof (rep_nodup _ _ HR _ _ HF) as [Hhd _]%NoDup_cons.
  split_and!; [by eapply list_empty_refines| |].
  - eapply (list_count_chain h hd l hd 0); [by eapply rep_chain|done..].
  - eapply list_check_chain; [by eapply rep_chain|done..].
Qed.

End interface.

Definition wit_heap : gmap nat (nat * nat) :=
  list_to_map ((fun i => (i, (0%nat, 0%nat))) <$> seq 0 6).
Definition wit_ops : list (qop (L := nat)) :=
  [QInit 1; QInit 2; QAddTail 3 1; QAddHead 4 1; QAddTail 5 1; QMove 3 2; QDel 4;
   QSplice 1 2]%nat.

Lemma wit_rep : dl_rep (fun x => (x < 6)%nat) wit_heap ∅.
Proof.
  split; [split; intros *; rewrite ?lookup_empty; done|].
  intros x Hx. do 6 (destruct x as [|x]; [eexists; reflexivity|]). lia.
Qed.

Lemma list_ops_refine_queues_witness :
  exists h', run_ops (St := gmap nat (nat * nat)) (alloc := fun x => (x < 6)%nat)
    wit_ops wit_heap = Some h' /\
    dl_rep (fun x => (x < 6)%nat) h' (apply_ops wit_ops ∅).
Proof.
  apply (list_ops_refine_queues (fun x => (x < 6)%nat) wit_ops wit_heap ∅ wit_rep).
  cbn. split_and!; try lia; try (eexists; reflexivity);
    try (apply not_used_compute; vm_compute; reflexivity).
  - exists 1%nat, [4; 3; 5]%nat. split; [reflexivity|set_solver].
  - exists 1%nat, [4; 5]%nat. split; [reflexivity|set_solver].
Defined.

Lemma list_walks_exact_witness :
  let F := {[ 1%nat := [3; 4]%nat ]} : gmap nat (list nat) in
  let h := list_to_map [(1, (4, 3)); (3, (1, 4)); (4, (3, 1))]%nat : gmap nat (nat * nat) in
  list_empty 1%nat h = Some false /\ list_count 3 3%nat 1%nat 0 h = Some 2%nat /\
  __list_check_elt 3 3%nat 1%nat 4%nat h = Some true.
Proof.
  intros F h. apply (list_walks_exact h F 1%nat [3; 4]%nat 4%nat 3%nat 3%nat).
  - split; subst F h.
    + intros hd l [<- <-]%lookup_singleton_Some. vm_compute. done.
    + intros hd l [<- <-]%lookup_singleton_Some. repeat constructor; set_solver.
    + intros hd1 hd2 l1 l2 x [<- <-]%lookup_singleton_Some [<- <-]%lookup_singleton_Some. done.
  - reflexivity.
  - reflexivity.
  - cbn. lia.
Defined.
End DList.
