(* ===== verification/Seqnum.v ===== *)
(** Message sequence numbers ([libxen2mx/omx_types.h]): 16 bits of which the
    low 14 count messages modulo 2^14 and the high 2 name the session. *)
From S2P Require Import Prelude.

Module Seqnum.

(* [libxen2mx/omx_types.h:81-82] OMX__SEQNUM_MASK *)
Definition OMX__SEQNUM_BITS : Z := 14.
Definition OMX__SEQNUM_MASK : Z := Z.shiftl 1 OMX__SEQNUM_BITS - 1.
(* [libxen2mx/omx_types.h:83-83] OMX__SEQNUM *)
Definition OMX__SEQNUM (x : Z) : Z := Z.land x OMX__SEQNUM_MASK.
(* [libxen2mx/omx_types.h:84-87] OMX__SESNUM_MASK *)
Definition OMX__SESNUM_BITS : Z := 16 - OMX__SEQNUM_BITS.
Definition OMX__SESNUM_ONE : Z := Z.shiftl 1 OMX__SEQNUM_BITS.
Definition OMX__SESNUM_MASK : Z := Z.shiftl (Z.shiftl 1 OMX__SESNUM_BITS - 1) OMX__SEQNUM_BITS.
(* [libxen2mx/omx_types.h:88-88] OMX__SESNUM *)
Definition OMX__SESNUM (x : Z) : Z := Z.land x OMX__SESNUM_MASK.
(* [libxen2mx/omx_types.h:89-89] OMX__SESNUM_SHIFTED *)
Definition OMX__SESNUM_SHIFTED (x : Z) : Z := Z.shiftr (OMX__SESNUM x) OMX__SEQNUM_BITS.

(** The three macros assign an [omx__seqnum_t], hence [u16]. *)
(* [libxen2mx/omx_types.h:91-94] OMX__SEQNUM_INCREASE_BY *)
Definition OMX__SEQNUM_INCREASE_BY (x n : Z) : Z :=
  let old := u16 x in u16 (Z.lor (OMX__SESNUM old) (OMX__SEQNUM (old + n))).
(* [libxen2mx/omx_types.h:96-96] OMX__SEQNUM_INCREASE *)
Definition OMX__SEQNUM_INCREASE (x : Z) : Z := OMX__SEQNUM_INCREASE_BY x 1.
(* [libxen2mx/omx_types.h:98-101] OMX__SEQNUM_RESET *)
Definition OMX__SEQNUM_RESET (x : Z) : Z :=
  let old := u16 x in u16 (Z.lor (OMX__SESNUM old) (OMX__SEQNUM 1)).

(* [libxen2mx/omx_types.h:103-106] OMX__EARLY_PACKET_OFFSET_MAX *)
Definition OMX__EARLY_PACKET_OFFSET_MAX : Z := 255.
(* [libxen2mx/omx_types.h:108-112] OMX__THROTTLING_OFFSET_MAX *)
Definition OMX__THROTTLING_OFFSET_MAX : Z := OMX__SEQNUM_MASK / 2.

(** ** Arithmetic reading of the masks *)

Definition wrap14 : Z := 16384.
Definition is_seqnum (x : Z) : Prop := 0 <= x < 65536.

Lemma seqnum_mod x : OMX__SEQNUM x = x mod 16384.
Proof. unfold OMX__SEQNUM. change OMX__SEQNUM_MASK with (Z.ones 14). by rewrite land_mask. Qed.

Lemma seqnum_range x : 0 <= OMX__SEQNUM x < 16384.
Proof. rewrite seqnum_mod. apply Z.mod_pos_bound. lia. Qed.

Lemma sesnum_mod x : is_seqnum x -> OMX__SESNUM x = x - x mod 16384.
Proof.
  intros Hx. unfold is_seqnum in Hx. unfold OMX__SESNUM.
  change OMX__SESNUM_MASK with (Z.land (Z.ones 16) (Z.lnot (Z.ones 14))).
  rewrite Z.land_assoc, land_mask, Z.mod_small, <- Z.ldiff_land, Z.ldiff_ones_r by lia.
  rewrite Z.shiftl_mul_pow2, Z.shiftr_div_pow2 by lia. change (2 ^ 14) with 16384.
  pose proof (Z.div_mod x 16384). lia.
Qed.

Lemma sesnum_range x : is_seqnum x -> 0 <= OMX__SESNUM x <= 49152 /\ OMX__SESNUM x mod 16384 = 0.
Proof.
  intros Hx. rewrite (sesnum_mod _ Hx). unfold is_seqnum in Hx.
  pose proof (Z.mod_pos_bound x 16384). pose proof (Z.div_mod x 16384).
  assert (x / 16384 < 4) by (apply Z.div_lt_upper_bound; lia).
  assert (0 <= x / 16384) by (apply Z.div_pos; lia).
  split; [lia|]. replace (x - x mod 16384) with (x / 16384 * 16384) by lia.
  by apply Z.mod_mul.
Qed.

(** A session part and a sequence part never share a bit. *)
Lemma lor_sesnum_seqnum x y : is_seqnum x ->
  Z.lor (OMX__SESNUM x) (OMX__SEQNUM y) = OMX__SESNUM x + OMX__SEQNUM y.
Proof.
  intros Hx. symmetry. apply Z.add_nocarry_lor. apply Z.bits_inj'. intros n Hn.
  rewrite Z.bits_0. unfold OMX__SESNUM, OMX__SEQNUM. rewrite !Z.land_spec.
  change OMX__SESNUM_MASK with (Z.land (Z.ones 16) (Z.lnot (Z.ones 14))).
  change OMX__SEQNUM_MASK with (Z.ones 14). rewrite Z.land_spec, Z.lnot_spec by lia.
  destruct (Z.testbit (Z.ones 14) n); by rewrite ?andb_false_r.
Qed.

Lemma increase_by_eq x n : is_seqnum x ->
  OMX__SEQNUM_INCREASE_BY x n = OMX__SESNUM x + (x + n) mod 16384.
Proof.
  intros Hx. unfold OMX__SEQNUM_INCREASE_BY. rewrite (u16_small x Hx).
  rewrite lor_sesnum_seqnum, seqnum_mod by done. apply u16_small.
  pose proof (sesnum_range _ Hx). pose proof (Z.mod_pos_bound (x + n) 16384). lia.
Qed.

Lemma increase_by_range x n : is_seqnum (OMX__SEQNUM_INCREASE_BY x n).
Proof. apply u16_range. Qed.
Lemma increase_range x : is_seqnum (OMX__SEQNUM_INCREASE x).
Proof. apply u16_range. Qed.
Lemma reset_range x : is_seqnum (OMX__SEQNUM_RESET x).
Proof. apply u16_range. Qed.
#[export] Hint Resolve increase_by_range increase_range reset_range : cint.

Lemma increase_by_seqnum x n : is_seqnum x ->
  OMX__SEQNUM (OMX__SEQNUM_INCREASE_BY x n) = (x + n) mod 16384.
Proof.
  intros Hx. rewrite increase_by_eq, seqnum_mod by done.
  destruct (sesnum_range _ Hx) as [_ H0]. rewrite Z.add_mod, H0 by lia.
  by rewrite Z.add_0_l, !Z.mod_mod by lia.
Qed.

Lemma increase_by_sesnum x n : is_seqnum x ->
  OMX__SESNUM (OMX__SEQNUM_INCREASE_BY x n) = OMX__SESNUM x.
Proof.
  intros Hx. rewrite sesnum_mod by apply increase_by_range.
  rewrite <- seqnum_mod, increase_by_seqnum, increase_by_eq by done. lia.
Qed.

(** Two sequence numbers of the same session are equal when their sequence
    parts are. *)
Lemma seqnum_inj x y : is_seqnum x -> is_seqnum y ->
  OMX__SESNUM x = OMX__SESNUM y -> OMX__SEQNUM x = OMX__SEQNUM y -> x = y.
Proof. intros Hx Hy. rewrite !sesnum_mod, !seqnum_mod by done. lia. Qed.

(** [OMX__SESNUM(a ^ b) != 0] is the test of the code for "different sessions". *)
Lemma sesnum_xor a b : OMX__SESNUM (Z.lxor a b) = 0 <-> OMX__SESNUM a = OMX__SESNUM b.
Proof.
  unfold OMX__SESNUM. assert (Hx : Z.land (Z.lxor a b) OMX__SESNUM_MASK
    = Z.lxor (Z.land a OMX__SESNUM_MASK) (Z.land b OMX__SESNUM_MASK)).
  { apply Z.bits_inj'. intros n Hn. rewrite !Z.land_spec, !Z.lxor_spec, !Z.land_spec.
    by destruct (Z.testbit a n), (Z.testbit b n), (Z.testbit OMX__SESNUM_MASK n). }
  rewrite Hx. apply Z.lxor_eq_0_iff.
Qed.

(** ** Windows

    [seq_index base x]: the position of [x] after [base], as the receive and
    ack paths compute it. *)
Definition seq_index (base x : Z) : Z := OMX__SEQNUM (x - base).

Lemma seq_index_range base x : 0 <= seq_index base x < 16384.
Proof. apply seqnum_range. Qed.

Lemma seq_index_increase_by base n : is_seqnum base -> 0 <= n < 16384 ->
  seq_index base (OMX__SEQNUM_INCREASE_BY base n) = n.
Proof.
  intros Hb Hn. unfold seq_index. rewrite seqnum_mod, increase_by_eq, sesnum_mod by done.
  replace (base - base mod 16384 + (base + n) mod 16384 - base)
    with ((base + n) mod 16384 - base mod 16384) by lia.
  rewrite <- Zminus_mod. replace (base + n - base) with n by lia. by apply Z.mod_small.
Qed.

Lemma seq_index_complete base x : is_seqnum base -> is_seqnum x ->
  OMX__SESNUM base = OMX__SESNUM x ->
  OMX__SEQNUM_INCREASE_BY base (seq_index base x) = x.
Proof.
  intros Hb Hx Hs. apply seqnum_inj; [apply increase_by_range|done| |].
  - by rewrite increase_by_sesnum.
  - rewrite increase_by_seqnum by done. unfold seq_index. rewrite !seqnum_mod.
    rewrite Z.add_mod_idemp_r by lia. f_equal. lia.
Qed.

Lemma seq_index_shift base a b : seq_index base a = (seq_index base b + seq_index b a) mod 16384.
Proof.
  unfold seq_index. rewrite !seqnum_mod, <- Z.add_mod by lia. f_equal. lia.
Qed.

Lemma increase_by_add x m n : is_seqnum x ->
  OMX__SEQNUM_INCREASE_BY (OMX__SEQNUM_INCREASE_BY x m) n = OMX__SEQNUM_INCREASE_BY x (m + n).
Proof.
  intros Hx. rewrite (increase_by_eq (OMX__SEQNUM_INCREASE_BY x m)) by apply increase_by_range.
  rewrite increase_by_sesnum by done. rewrite !increase_by_eq by done. f_equal.
  destruct (sesnum_range _ Hx) as [_ H0].
  rewrite (Z.add_mod (_ + _) n), (Z.add_mod (OMX__SESNUM x)), H0, Z.add_0_l by lia.
  rewrite !Z.mod_mod, <- Z.add_mod by lia. f_equal. lia.
Qed.

(** ** Properties *)

(** Stepping a sequence number never touches the session bits, stays in
    16 bits, and within a window of 2^14 the code's index arithmetic is exact:
    [n] steps from [base] have index [n], and a number of the same session is
    reached by exactly its index. *)
Lemma seqnum_window_exact base x n :
  is_seqnum base -> is_seqnum x -> OMX__SESNUM base = OMX__SESNUM x -> 0 <= n < 16384 ->
  is_seqnum (OMX__SEQNUM_INCREASE_BY base n) /\
  OMX__SESNUM (OMX__SEQNUM_INCREASE_BY base n) = OMX__SESNUM base /\
  seq_index base (OMX__SEQNUM_INCREASE_BY base n) = n /\
  OMX__SEQNUM_INCREASE_BY base (seq_index base x) = x /\
  (seq_index base x = n -> x = OMX__SEQNUM_INCREASE_BY base n).
Proof.
  intros Hb Hx Hs Hn. split_and!.
  - apply increase_by_range.
  - by apply increase_by_sesnum.
  - by apply seq_index_increase_by.
  - by apply seq_index_complete.
  - intros <-. by rewrite seq_index_complete.
Qed.

(** The window crosses the wrap-around of the 14 bits in session 1. *)
Lemma seqnum_window_exact_witness :
  is_seqnum (OMX__SEQNUM_INCREASE_BY 32767 3) /\
  OMX__SESNUM (OMX__SEQNUM_INCREASE_BY 32767 3) = OMX__SESNUM 32767 /\
  seq_index 32767 (OMX__SEQNUM_INCREASE_BY 32767 3) = 3 /\
  OMX__SEQNUM_INCREASE_BY 32767 (seq_index 32767 16386) = 16386 /\
  (seq_index 32767 16386 = 3 -> 16386 = OMX__SEQNUM_INCREASE_BY 32767 3).
Proof.
  apply (seqnum_window_exact 32767 16386 3); [unfold is_seqnum; lia|unfold is_seqnum; lia|
    reflexivity|lia].
Defined.
End Seqnum.
