(* ===== verification/Segments.v ===== *)
(** Scatter/gather buffers ([libxen2mx/omx_segments.h]): user segments in a
    byte-addressed memory, the copies between segments and linear buffers,
    resumable partial copies, and the message checksum.  Running over the end
    of a segment array is [None]. *)
From S2P Require Import Prelude.

(** ** Memory *)
Module Mem.
Definition mem : Type := Z -> Z.

#[export] Instance mem_equiv : Equiv mem := fun m1 m2 => forall x, m1 x = m2 x.
#[export] Instance mem_equivalence : Equivalence (≡@{mem}).
Proof. split; [done|by intros ? ? H x|intros ? ? ? H1 H2 x; by rewrite H1]. Qed.

Definition load (m : mem) (a : Z) (n : nat) : list Z := (fun i => m (a + Z.of_nat i)) <$> seq 0 n.
Definition store (m : mem) (a : Z) (bs : list Z) : mem := fun x =>
  if (a <=? x) && (x <? a + Z.of_nat (length bs))
  then default 0 (bs !! Z.to_nat (x - a)) else m x.
(** [memcpy(dst, src, len)]. *)
Definition memcpy (m : mem) (dst src len : Z) : mem := store m dst (load m src (Z.to_nat len)).

#[export] Instance load_proper : Proper ((≡@{mem}) ==> eq ==> eq ==> eq) load.
Proof. intros m1 m2 Hm a ? <- n ? <-. unfold load. apply list_fmap_ext. intros. apply Hm. Qed.
#[export] Instance store_proper : Proper ((≡@{mem}) ==> eq ==> eq ==> (≡)) store.
Proof. intros m1 m2 Hm a ? <- bs ? <- x. unfold store. by rewrite Hm. Qed.

Lemma length_load m a n : length (load m a n) = n.
Proof. unfold load. by rewrite length_fmap, length_seq. Qed.

Lemma load_zero m a n : load m a (Z.to_nat (n - n)) = [].
Proof. by rewrite Z.sub_diag. Qed.

Lemma lookup_load m a n i : (i < n)%nat -> load m a n !! i = Some (m (a + Z.of_nat i)).
Proof. intros. unfold load. rewrite list_lookup_fmap, lookup_seq_lt by lia. done. Qed.

Lemma load_app m a n k : load m a (n + k) = load m a n ++ load m (a + Z.of_nat n) k.
Proof.
  unfold load. rewrite seq_app, fmap_app. f_equal.
  replace (seq (0 + n) k) with (Nat.add n <$> seq 0 k)
    by (rewrite fmap_add_seq; f_equal; lia).
  rewrite <- list_fmap_compose. apply list_fmap_ext. intros i x _. cbn. f_equal. lia.
Qed.

Lemma load_split m a n c : 0 <= c <= n ->
  load m a (Z.to_nat n) = load m a (Z.to_nat c) ++ load m (a + c) (Z.to_nat (n - c)).
Proof.
  intros. replace (Z.to_nat n) with (Z.to_nat c + Z.to_nat (n - c))%nat by lia.
  by rewrite load_app, Z2Nat.id by lia.
Qed.

Lemma load_ext m1 m2 a n :
  (forall x, a <= x < a + Z.of_nat n -> m1 x = m2 x) -> load m1 a n = load m2 a n.
Proof.
  intros Hx. unfold load. apply list_fmap_ext. intros i x Hi.
  apply lookup_seq in Hi as [-> ?]. apply Hx. lia.
Qed.

Lemma store_in m a bs x b : a <= x -> bs !! Z.to_nat (x - a) = Some b -> store m a bs x = b.
Proof.
  intros Hx Hb. unfold store. pose proof (lookup_lt_Some _ _ _ Hb).
  rewrite (proj2 (Z.leb_le _ _)), (proj2 (Z.ltb_lt _ _)) by lia. cbn. by rewrite Hb.
Qed.

Lemma store_out m a bs x : x < a \/ a + Z.of_nat (length bs) <= x -> store m a bs x = m x.
Proof.
  intros Hx. unfold store. destruct (Z.leb_spec a x), (Z.ltb_spec x (a + Z.of_nat (length bs)));
    cbn; done || lia.
Qed.

Lemma load_store_same m a bs : load (store m a bs) a (length bs) = bs.
Proof.
  apply list_eq_same_length with (n := length bs); [done|by rewrite length_load|].
  intros i x y Hi Hx Hy. rewrite lookup_load in Hx by done. injection Hx as <-.
  apply store_in; [lia|]. by replace (Z.to_nat (a + Z.of_nat i - a)) with i by lia.
Qed.

Lemma load_memcpy_same m d a n :
  load (store m d (load m a n)) d n = load m a n.
Proof. rewrite <- (length_load m a n) at 2. apply load_store_same. Qed.

Lemma take_load m a n k : (k <= n)%nat -> take k (load m a n) = load m a k.
Proof.
  intros. replace n with (k + (n - k))%nat by lia. rewrite load_app.
  by rewrite take_app_length' by by rewrite length_load.
Qed.

Lemma drop_load m a n k : (k <= n)%nat -> drop k (load m a n) = load m (a + Z.of_nat k) (n - k).
Proof.
  intros. replace n with (k + (n - k))%nat at 1 by lia. rewrite load_app.
  by rewrite drop_app_length' by by rewrite length_load.
Qed.

(** Disjoint address ranges. *)
Definition disj (a n b k : Z) : Prop := n <= 0 \/ k <= 0 \/ a + n <= b \/ b + k <= a.

Lemma load_store_disj m a bs b n :
  disj a (Z.of_nat (length bs)) b (Z.of_nat n) -> load (store m a bs) b n = load m b n.
Proof. intros Hd. apply load_ext. intros x Hx. apply store_out. unfold disj in Hd. lia. Qed.

Lemma store_app m a bs cs : store m a (bs ++ cs) ≡ store (store m a bs) (a + Z.of_nat (length bs)) cs.
Proof.
  intros x. unfold store at 1 2. rewrite length_app.
  destruct (Z.leb_spec a x) as [H1|H1]; cbn.
  2:{ rewrite (proj2 (Z.leb_gt _ _)) by lia. cbn. symmetry. apply store_out. lia. }
  destruct (Z.leb_spec (a + Z.of_nat (length bs)) x) as [H2|H2]; cbn.
  - replace (x <? a + Z.of_nat (length bs + length cs))
      with (x <? a + Z.of_nat (length bs) + Z.of_nat (length cs)) by (f_equal; lia).
    destruct (x <? _); [|symmetry; apply store_out; lia].
    rewrite lookup_app_r by lia. f_equal. f_equal. lia.
  - rewrite (proj2 (Z.ltb_lt _ _)) by lia. rewrite lookup_app_l by lia.
    symmetry. destruct (lookup_lt_is_Some_2 bs (Z.to_nat (x - a))) as [b Hb]; [lia|].
    rewrite Hb. cbn. by apply store_in.
Qed.

Lemma store_nil m a : store m a [] ≡ m.
Proof. intros x. apply store_out. cbn. lia. Qed.
End Mem.

Module Segs.
Import Mem.

(* [common/omx_io.h:112-117] omx_cmd_user_segment *)
Record segment := Seg { vaddr : Z; len : Z }.

(** The [segs] pointer of a request: its own [single] field or an array owned
    by the request (arrays are never modified once filled). *)
Inductive segs_ptr := PtrSingle | PtrArray (addr : Z) (array : list segment).

(* [libxen2mx/omx_types.h:40-45] omx__req_segs *)
Record req_segs := ReqSegs {
  single : segment; nseg : Z; segs : segs_ptr; total_length : Z
}.
(* [libxen2mx/omx_types.h:47-51] omx_segscan_state *)
Record segscan_state := Scan { ss_seg : nat; ss_offset : Z }.

(** [&reqsegs->segs[0]] and what follows it. *)
Definition seg_array (r : req_segs) : list segment :=
  match segs r with PtrSingle => [single r] | PtrArray _ l => l end.

Definition OMX_MAX_SEGMENTS : Z := 256.
Inductive cache_ret := CacheOk (r : req_segs) | CacheBadCount | CacheNoResources.

(* [libxen2mx/omx_segments.h:30-42] omx_cache_single_segment *)
Definition omx_cache_single_segment (buffer length : Z) : req_segs :=
  let length := u32 length in
  {| single := Seg buffer length; nseg := 1; segs := PtrSingle; total_length := length |}.

(** [alloc] is the result of [omx_malloc_ep] ([None] is NULL). *)
(* [libxen2mx/omx_segments.h:44-77] omx_cache_segments *)
Definition omx_cache_segments (garbage : segment) (alloc : option Z)
    (user_segs : list segment) : cache_ret :=
  match user_segs with
  | [] => CacheOk (omx_cache_single_segment 0 0)
  | [s] => CacheOk (omx_cache_single_segment (vaddr s) (len s))
  | _ =>
      if OMX_MAX_SEGMENTS <? Z.of_nat (length user_segs) then CacheBadCount
      else match alloc with
           | None => CacheNoResources
           | Some a => CacheOk {| single := garbage; nseg := Z.of_nat (length user_segs);
               segs := PtrArray a user_segs;
               total_length := fold_left (fun t s => u32 (t + len s)) user_segs 0 |}
           end
  end.

(** The address given to [omx_free_ep], if any. *)
(* [libxen2mx/omx_segments.h:79-84] omx_free_segments *)
Definition omx_free_segments (r : req_segs) : option Z :=
  if 1 <? nseg r then match segs r with PtrArray a _ => Some a | PtrSingle => None end else None.

(* [libxen2mx/omx_segments.h:86-92] omx_clone_segments *)
Definition omx_clone_segments (src : req_segs) : req_segs :=
  if nseg src =? 1 then {| single := single src; nseg := nseg src; segs := PtrSingle;
                           total_length := total_length src |} else src.

(** The [while (length)] loops over the segment array. *)
Fixpoint copy_from_loop (m : mem) (dst : Z) (l : list segment) (length : Z) : option mem :=
  if length =? 0 then Some m else
  match l with
  | [] => None
  | cseg :: l =>
      let chunk := if length <? len cseg then length else len cseg in
      copy_from_loop (memcpy m dst (vaddr cseg) chunk) (dst + chunk) l (length - chunk)
  end.
(* [libxen2mx/omx_segments.h:94-111] omx_copy_from_segments *)
Definition omx_copy_from_segments (m : mem) (dst : Z) (srcsegs : req_segs) (length : Z) : option mem :=
  if nseg srcsegs =? 1 then Some (memcpy m dst (vaddr (single srcsegs)) length)
  else copy_from_loop m dst (seg_array srcsegs) length.

Fixpoint copy_to_loop (m : mem) (l : list segment) (src length : Z) : option mem :=
  if length =? 0 then Some m else
  match l with
  | [] => None
  | cseg :: l =>
      let chunk := if length <? len cseg then length else len cseg in
      copy_to_loop (memcpy m (vaddr cseg) src chunk) l (src + chunk) (length - chunk)
  end.
(* [libxen2mx/omx_segments.h:113-130] omx_copy_to_segments *)
Definition omx_copy_to_segments (m : mem) (dstsegs : req_segs) (src length : Z) : option mem :=
  if nseg dstsegs =? 1 then Some (memcpy m (vaddr (single dstsegs)) src length)
  else copy_to_loop m (seg_array dstsegs) src length.

(** Both cursors of the segment-to-segment copy.  One round copies something
    or leaves a segment, so [length] plus the number of segments bounds the
    rounds. *)
Fixpoint copy_from_to_loop (fuel : nat) (m : mem) (ls : list segment) (soff : Z)
    (ld : list segment) (doff : Z) (length : Z) : option mem :=
  if length =? 0 then Some m else
  match fuel, ls, ld with
  | S fuel, cs :: ls', cd :: ld' =>
      let chunk := length in
      let chunk := if len cs <? chunk then len cs else chunk in
      let chunk := if len cd <? chunk then len cd else chunk in
      let m := memcpy m (vaddr cd + doff) (vaddr cs + soff) chunk in
      let length := length - chunk in
      let soff := u32 (soff + chunk) in
      let doff := u32 (doff + chunk) in
      let '(ls2, soff) := if len cs <=? soff then (ls', 0) else (cs :: ls', soff) in
      let '(ld2, doff) := if len cd <=? doff then (ld', 0) else (cd :: ld', doff) in
      copy_from_to_loop fuel m ls2 soff ld2 doff length
  | _, _, _ => None
  end.
(* [libxen2mx/omx_segments.h:132-173] omx_copy_from_to_segments *)
Definition omx_copy_from_to_segments (m : mem) (dstsegs srcsegs : req_segs) (length : Z) : option mem :=
  if nseg srcsegs =? 1 then omx_copy_to_segments m dstsegs (vaddr (single srcsegs)) length
  else if nseg dstsegs =? 1 then omx_copy_from_segments m (vaddr (single dstsegs)) srcsegs length
  else copy_from_to_loop (Z.to_nat length + List.length (seg_array srcsegs)
                          + List.length (seg_array dstsegs))
         m (seg_array srcsegs) 0 (seg_array dstsegs) 0 length.

(** The [while (1)] loop of the resumable copies: [curseg] is a position in
    the array, here its index and what follows it. *)
Fixpoint partial_from_loop (m : mem) (dst : Z) (l : list segment) (cur : nat)
    (curoff length : Z) : option (mem * segscan_state) :=
  match l with
  | [] => None
  | curseg :: l =>
      let curchunk := u32 (len curseg - curoff) in
      let chunk := if length <? curchunk then length else curchunk in
      let m := memcpy m dst (vaddr curseg + curoff) chunk in
      let length := length - chunk in
      let dst := dst + chunk in
      if negb (curchunk =? chunk) then Some (m, Scan cur (u32 (curoff + chunk)))
      else if length =? 0 then Some (m, Scan (S cur) 0)
      else partial_from_loop m dst l (S cur) 0 length
  end.
(* [libxen2mx/omx_segments.h:179-214] omx_continue_partial_copy_from_segments *)
Definition omx_continue_partial_copy_from_segments (m : mem) (dst : Z) (srcsegs : req_segs)
    (length : Z) (state : segscan_state) : option (mem * segscan_state) :=
  partial_from_loop m dst (drop (ss_seg state) (seg_array srcsegs)) (ss_seg state)
    (ss_offset state) length.

Fixpoint partial_to_loop (m : mem) (l : list segment) (cur : nat) (src curoff length : Z)
    : option (mem * segscan_state) :=
  match l with
  | [] => None
  | curseg :: l =>
      let curchunk := u32 (len curseg - curoff) in
      let chunk := if length <? curchunk then length else curchunk in
      let m := memcpy m (vaddr curseg + curoff) src chunk in
      let length := length - chunk in
      let src := src + chunk in
      if negb (curchunk =? chunk) then Some (m, Scan cur (u32 (curoff + chunk)))
      else if length =? 0 then Some (m, Scan (S cur) 0)
      else partial_to_loop m l (S cur) src 0 length
  end.
(* [libxen2mx/omx_segments.h:220-255] omx_continue_partial_copy_to_segments *)
Definition omx_continue_partial_copy_to_segments (m : mem) (dstsegs : req_segs) (src length : Z)
    (state : segscan_state) : option (mem * segscan_state) :=
  partial_to_loop m (drop (ss_seg state) (seg_array dstsegs)) (ss_seg state) src
    (ss_offset state) length.

(** The scan for the segment holding [offset]. *)
Fixpoint seek_loop (l : list segment) (cur : nat) (curoffset offset : Z) : option segscan_state :=
  match l with
  | [] => None
  | curseg :: l =>
      if curoffset + len curseg <? offset
      then seek_loop l (S cur) (u32 (curoffset + len curseg)) offset
      else Some (Scan cur (u32 (offset - curoffset)))
  end.
(* [libxen2mx/omx_segments.h:262-284] omx_partial_copy_to_segments *)
Definition omx_partial_copy_to_segments (m : mem) (dstsegs : req_segs) (src length offset : Z)
    (scan_state : segscan_state) (scan_offset : Z) : option (mem * segscan_state * Z) :=
  st ← (if offset =? scan_offset then Some scan_state
        else seek_loop (seg_array dstsegs) 0 0 offset);
  '(m, st) ← omx_continue_partial_copy_to_segments m dstsegs src length st;
  Some (m, st, u32 (offset + length)).

(** The CRC-16 update of one byte, then of a segment, then of the request. *)
Definition crc_bit (crc : Z) : Z :=
  if hasf crc 32768 then u16 (Z.lxor (Z.shiftl crc 1) 4129) else u16 (Z.shiftl crc 1).
Definition crc_byte (crc b : Z) : Z :=
  Nat.iter 8 crc_bit (u16 (Z.lxor crc (Z.shiftl b 8))).
Fixpoint checksum_loop (m : mem) (l : list segment) (length crc : Z) : Z :=
  match l with
  | [] => crc
  | cseg :: l =>
      if 0 <? length then
        let chunk := if length <? len cseg then length else len cseg in
        checksum_loop m l (length - chunk)
          (fold_left crc_byte (load m (vaddr cseg) (Z.to_nat chunk)) crc)
      else crc
  end.
(* [libxen2mx/omx_segments.h:290-324] omx_checksum_segments *)
Definition omx_checksum_segments (m : mem) (r : req_segs) (length : Z) : Z :=
  let segarray := if nseg r =? 1 then [single r] else seg_array r in
  checksum_loop m (take (Z.to_nat (nseg r)) segarray) length 0.

(** ** The bytes a segment list denotes *)

Definition seg_bytes (m : mem) (l : list segment) : list Z :=
  concat ((fun s => load m (vaddr s) (Z.to_nat (len s))) <$> l).
Fixpoint total (l : list segment) : Z :=
  match l with [] => 0 | s :: l => len s + total l end.
Definition segs_wf (l : list segment) : Prop := Forall (fun s => 0 <= len s) l.
(** A range of addresses apart from every segment; segments apart from one
    another. *)
Definition apart (a n : Z) (l : list segment) : Prop := Forall (fun s => disj a n (vaddr s) (len s)) l.
Fixpoint separate (l : list segment) : Prop :=
  match l with [] => True | s :: l => apart (vaddr s) (len s) l /\ separate l end.

Lemma total_nonneg l : segs_wf l -> 0 <= total l.
Proof. induction 1; cbn; lia. Qed.

Lemma length_seg_bytes m l : segs_wf l -> length (seg_bytes m l) = Z.to_nat (total l).
Proof.
  unfold seg_bytes. induction 1 as [|s l Hs Hl IH]; [done|]. cbn.
  rewrite length_app, length_load, IH. pose proof (total_nonneg l Hl). lia.
Qed.

Lemma seg_bytes_cons m s l :
  seg_bytes m (s :: l) = load m (vaddr s) (Z.to_nat (len s)) ++ seg_bytes m l.
Proof. done. Qed.

Lemma seg_bytes_app m l k : seg_bytes m (l ++ k) = seg_bytes m l ++ seg_bytes m k.
Proof. unfold seg_bytes. by rewrite fmap_app, concat_app. Qed.

Lemma total_app l k : total (l ++ k) = total l + total k.
Proof. induction l; cbn; lia. Qed.

Lemma seg_bytes_store m a bs l : segs_wf l -> apart a (Z.of_nat (length bs)) l ->
  seg_bytes (store m a bs) l = seg_bytes m l.
Proof.
  unfold seg_bytes. intros Hwf Ha. f_equal. apply list_fmap_ext.
  intros i s Hi. pose proof (proj1 (Forall_lookup _ _) Ha i s Hi) as Hd.
  pose proof (proj1 (Forall_lookup _ _) Hwf i s Hi) as Hs. cbn in *.
  apply load_store_disj. by rewrite Z2Nat.id.
Qed.

#[export] Instance seg_bytes_proper : Proper ((≡@{mem}) ==> eq ==> eq) seg_bytes.
Proof.
  intros m1 m2 Hm l ? <-. unfold seg_bytes. f_equal. apply list_fmap_ext.
  intros i s _. by rewrite Hm.
Qed.

Lemma disj_sub a n b k a' n' : disj a n b k -> a <= a' -> a' + n' <= a + n -> disj a' n' b k.
Proof. unfold disj. lia. Qed.
Lemma disj_sym a n b k : disj a n b k -> disj b k a n.
Proof. unfold disj. lia. Qed.
Lemma apart_sub a n a' n' l : apart a n l -> a <= a' -> a' + n' <= a + n -> apart a' n' l.
Proof. intros H ? ?. eapply Forall_impl; [exact H|]. intros s Hs. cbn in *. unfold disj in *. lia. Qed.

(** The first chunk of a scan: all of the segment, or all of the length. *)
Lemma take_load_app m a n length chunk bs :
  0 <= n -> 0 <= length -> chunk = (if length <? n then length else n) ->
  take (Z.to_nat length) (load m a (Z.to_nat n) ++ bs) =
  load m a (Z.to_nat chunk) ++ take (Z.to_nat (length - chunk)) bs.
Proof.
  intros Hn Hl ->. destruct (Z.ltb_spec length n).
  - rewrite Z.sub_diag, take_0, app_nil_r, take_app_le by (rewrite length_load; lia).
    by rewrite take_load by lia.
  - rewrite take_app_ge by (rewrite length_load; lia). f_equal. f_equal. rewrite length_load. lia.
Qed.

Lemma drop_load_app m a n length chunk bs :
  0 <= n -> 0 <= length -> chunk = (if length <? n then length else n) ->
  drop (Z.to_nat length) (load m a (Z.to_nat n) ++ bs) =
  load m (a + chunk) (Z.to_nat (n - chunk)) ++ drop (Z.to_nat (length - chunk)) bs.
Proof.
  intros Hn Hl ->. destruct (Z.ltb_spec length n).
  - rewrite Z.sub_diag, drop_0, drop_app_le by (rewrite length_load; lia).
    by rewrite drop_load, Z2Nat.id, Z2Nat.inj_sub by lia.
  - rewrite drop_app_ge by (rewrite length_load; lia). rewrite Z.sub_diag. change (load m (a + n) (Z.to_nat 0)) with (@nil Z). cbn [app].
    f_equal. rewrite length_load. lia.
Qed.

(** Gathering: the first [length] bytes arrive, nothing else changes. *)
Lemma copy_from_loop_spec m dst l length :
  segs_wf l -> 0 <= length <= total l -> apart dst length l ->
  exists m', copy_from_loop m dst l length = Some m' /\
    m' ≡ store m dst (take (Z.to_nat length) (seg_bytes m l)).
Proof.
  intros Hwf. revert m dst length. induction Hwf as [|s l Hs Hwf IH]; intros m dst length Hl Ha.
  - cbn in Hl. assert (length = 0) as -> by lia. exists m. split; [done|].
    by rewrite take_0, store_nil.
  - cbn [copy_from_loop total] in *. destruct (Z.eqb_spec length 0) as [->|Hne].
    { exists m. split; [done|]. by rewrite take_0, store_nil. }
    apply Forall_cons in Ha as [Hd Ha].
    set (chunk := if length <? len s then length else len s).
    assert (Hc : 0 <= chunk <= length /\ chunk <= len s) by (unfold chunk; destruct (Z.ltb_spec length (len s)); lia).
    set (m1 := memcpy m dst (vaddr s) chunk).
    destruct (IH m1 (dst + chunk) (length - chunk)) as (m' & -> & Hm').
    { pose proof (total_nonneg l Hwf). unfold chunk. destruct (Z.ltb_spec length (len s)); lia. }
    { eapply apart_sub; [done|lia..]. }
    exists m'. split; [done|]. rewrite Hm'. unfold m1, memcpy.
    rewrite seg_bytes_store; [|done|].
    2:{ rewrite length_load. eapply apart_sub; [done|lia..]. }
    rewrite seg_bytes_cons.
    rewrite (take_load_app m (vaddr s) (len s) length chunk) by (done || lia).
    rewrite store_app, length_load, Z2Nat.id by lia. done.
Qed.

(** Scattering: the segments receive the source bytes in order. *)
Lemma copy_to_loop_spec m l src length :
  segs_wf l -> separate l -> 0 <= length <= total l -> apart src length l ->
  exists m', copy_to_loop m l src length = Some m' /\
    seg_bytes m' l = load m src (Z.to_nat length) ++ drop (Z.to_nat length) (seg_bytes m l) /\
    (forall x, (forall s, s ∈ l -> x < vaddr s \/ vaddr s + len s <= x) -> m' x = m x).
Proof.
  intros Hwf. revert m src length.
  induction Hwf as [|s l Hs Hwf IH]; intros m src length Hsep Hl Ha.
  - cbn in Hl. assert (length = 0) as -> by lia. exists m. done.
  - cbn [copy_to_loop total separate] in *. destruct (Z.eqb_spec length 0) as [->|Hne].
    { exists m. done. }
    destruct Hsep as [Hsa Hsep]. apply Forall_cons in Ha as [Hd Ha].
    set (chunk := if length <? len s then length else len s).
    assert (Hc : 0 <= chunk <= length /\ chunk <= len s) by (unfold chunk; destruct (Z.ltb_spec length (len s)); lia).
    set (m1 := memcpy m (vaddr s) src chunk).
    assert (Hm1 : seg_bytes m1 l = seg_bytes m l).
    { apply seg_bytes_store; [done|]. rewrite length_load. eapply apart_sub; [exact Hsa|lia..]. }
    assert (Hsrc : load m1 (src + chunk) (Z.to_nat (length - chunk)) =
                   load m (src + chunk) (Z.to_nat (length - chunk))).
    { apply load_store_disj. rewrite length_load. unfold disj in *. lia. }
    destruct (IH m1 (src + chunk) (length - chunk)) as (m' & -> & Hb & Hx); [done| | |].
    { pose proof (total_nonneg l Hwf). unfold chunk. destruct (Z.ltb_spec length (len s)); lia. }
    { eapply apart_sub; [done|lia..]. }
    exists m'. split; [done|]. split.
    + rewrite !seg_bytes_cons, Hb, Hm1, Hsrc.
      assert (Hsm : load m' (vaddr s) (Z.to_nat (len s)) = load m1 (vaddr s) (Z.to_nat (len s))).
      { apply load_ext. intros x Hx'. apply Hx. intros s' Hs'.
        pose proof (proj1 (Forall_forall _ _) Hsa s' Hs') as Hdj.
        pose proof (proj1 (Forall_forall _ _) Hwf s' Hs') as Hlen. unfold disj in Hdj. cbn in *. lia. }
      rewrite Hsm, (drop_load_app m (vaddr s) (len s) length chunk) by (done || lia).
      replace (Z.to_nat (len s)) with (Z.to_nat chunk + Z.to_nat (len s - chunk))%nat by lia.
      replace (Z.to_nat length) with (Z.to_nat chunk + Z.to_nat (length - chunk))%nat at 1 by lia.
      rewrite !load_app, !Z2Nat.id by lia. unfold m1, memcpy.
      rewrite load_memcpy_same by lia.
      rewrite load_store_disj by (rewrite length_load; unfold disj; lia).
      destruct (Z.eqb_spec chunk length) as [->|Hc'].
      * by rewrite load_zero, app_nil_l, app_nil_r, <- app_assoc.
      * assert (chunk = len s) as -> by (unfold chunk in *; destruct (Z.ltb_spec length (len s)); lia).
        by rewrite (load_zero m (vaddr s + len s)), app_nil_l, app_nil_r, app_assoc.
    + intros x Hxl. rewrite Hx by (intros s' Hs'; apply Hxl; by right).
      apply store_out. rewrite length_load. specialize (Hxl s (list_elem_of_here _ _)). lia.
Qed.

(** ** Resumable copies *)

(** [at_pos l st p]: the scan state [st] stands at byte [p] of the segments. *)
Definition at_pos (l : list segment) (st : segscan_state) (p : Z) : Prop :=
  p = total (take (ss_seg st) l) + ss_offset st /\
  ((exists s, l !! ss_seg st = Some s /\ 0 <= ss_offset st <= len s) \/
   (ss_seg st = List.length l /\ ss_offset st = 0)).
(** A state that can be resumed: it is not past the last segment. *)
Definition resumable (l : list segment) (st : segscan_state) : Prop :=
  (ss_seg st < List.length l)%nat.
Definition small_segs (l : list segment) : Prop := Forall (fun s => len s < 4294967296) l.

(** Positions in a tail of the segments are positions in the segments. *)
Definition shift (n : nat) (st : segscan_state) : segscan_state := Scan (n + ss_seg st) (ss_offset st).

Lemma at_pos_shift l k st p :
  (k <= List.length l)%nat -> at_pos (drop k l) st p -> at_pos l (shift k st) (total (take k l) + p).
Proof.
  intros Hk [-> Hv]. unfold at_pos, shift. cbn. split.
  - rewrite <- take_take_drop, total_app. lia.
  - rewrite lookup_drop, length_drop in Hv. destruct Hv as [Hv|[Hv Ho]]; [by left|].
    right. split; [lia|done].
Qed.

Lemma partial_from_loop_spec l : segs_wf l -> small_segs l -> forall m dst cur curoff s0 length,
  head l = Some s0 -> 0 <= curoff <= len s0 -> 0 <= length ->
  curoff + length <= total l -> apart dst length l ->
  exists m' st', partial_from_loop m dst l cur curoff length = Some (m', shift cur st') /\
    m' ≡ store m dst (take (Z.to_nat length) (drop (Z.to_nat curoff) (seg_bytes m l))) /\
    at_pos l st' (curoff + length).
Proof.
  intros Hwf. induction Hwf as [|s l Hs Hwf IH]; intros Hsm m dst cur curoff s0 length H0 Ho Hl Ht Ha; [done|].
  injection H0 as <-. apply Forall_cons in Hsm as [Hss Hsm]. pose proof Ha as [Hd Ha']%Forall_cons.
  cbn [partial_from_loop total] in *. rewrite (u32_small (len s - curoff)) by lia.
  rewrite seg_bytes_cons, drop_app_le by (rewrite length_load; lia).
  rewrite drop_load, Z2Nat.id, <- Z2Nat.inj_sub by lia.
  destruct (Z.ltb_spec length (len s - curoff)) as [Hlt|Hge].
  - rewrite (proj2 (Z.eqb_neq _ _)) by lia. cbn. rewrite u32_small by lia.
    eexists _, (Scan 0 (curoff + length)). unfold shift. cbn. rewrite Nat.add_0_r.
    split; [done|]. split.
    + rewrite take_app_le by (rewrite length_load; lia). by rewrite take_load by lia.
    + split; [done|]. left. exists s. cbn. split; [done|lia].
  - rewrite Z.eqb_refl. cbn [negb]. set (m1 := memcpy _ _ _ _).
    destruct (Z.eqb_spec (length - (len s - curoff)) 0) as [He|Hne].
    + eexists _, (Scan 1 0). unfold shift. cbn. rewrite Nat.add_1_r. split; [done|]. split.
      * rewrite take_app_le by (rewrite length_load; lia). rewrite take_load by lia.
        unfold m1, memcpy. by replace (len s - curoff) with length by lia.
      * unfold at_pos. cbn. rewrite take_0. cbn. split; [lia|]. cbn. destruct l as [|s1 l]; [by right|]. left. exists s1. cbn.
        apply Forall_cons in Hwf as [? _]. split; [done|lia].
    + destruct l as [|s1 l]; [cbn in Ht; lia|].
      pose proof (proj1 (Forall_cons _ _ _) Hwf) as [? _].
      destruct (IH Hsm m1 (dst + (len s - curoff)) (S cur) 0 s1 (length - (len s - curoff)))
        as (m' & st' & -> & Hm' & Hp'); [done|lia..|eapply apart_sub; [exact Ha'|lia..]|].
      exists m', (shift 1 st'). split; [unfold shift; cbn; do 3 f_equal; lia|]. split.
      * rewrite Hm', drop_0. unfold m1, memcpy. rewrite seg_bytes_store; [|done|].
        2:{ rewrite length_load. eapply apart_sub; [exact Ha'|lia..]. }
        rewrite (take_load_app m (vaddr s + curoff) (len s - curoff) length (len s - curoff));
          [|lia..|by rewrite (proj2 (Z.ltb_ge _ _)) by lia].
        rewrite store_app, length_load, Z2Nat.id by lia. done.
      * pose proof (at_pos_shift (s :: s1 :: l) 1 st' _ ltac:(cbn; lia) Hp') as Hq.
        cbn in Hq. by replace (curoff + length) with
          (len s + 0 + (0 + (length - (len s - curoff)))) by lia.
Qed.

(** [bs] written over [l] at offset [off]. *)
Definition splice (off : nat) (bs l : list Z) : list Z :=
  take off l ++ bs ++ drop (off + length bs) l.

Lemma splice_app_r off bs l k : (length l <= off)%nat ->
  splice off bs (l ++ k) = l ++ splice (off - length l) bs k.
Proof.
  intros. unfold splice. rewrite take_app_ge, drop_app_ge by lia.
  rewrite <- app_assoc. do 4 f_equal. lia.
Qed.

Lemma store_off_seg m a bs s :
  vaddr s <= a -> a + Z.of_nat (length bs) <= vaddr s + len s ->
  load (store m a bs) (vaddr s) (Z.to_nat (len s)) =
  splice (Z.to_nat (a - vaddr s)) bs (load m (vaddr s) (Z.to_nat (len s))).
Proof.
  intros H1 H2. unfold splice. rewrite take_load, drop_load by lia.
  replace (Z.to_nat (len s)) with (Z.to_nat (a - vaddr s) + (length bs +
    (Z.to_nat (len s) - (Z.to_nat (a - vaddr s) + length bs))))%nat at 1 by lia.
  rewrite !load_app. rewrite load_store_disj by (unfold disj; lia).
  replace (vaddr s + Z.of_nat (Z.to_nat (a - vaddr s))) with a by lia.
  rewrite load_store_same, load_store_disj by (unfold disj; lia).
  do 3 f_equal. lia.
Qed.

(** The memory outside the segments [l] is that of [m]. *)
Definition frame (l : list segment) (m m' : mem) : Prop :=
  forall x, (forall s, s ∈ l -> x < vaddr s \/ vaddr s + len s <= x) -> m' x = m x.

Lemma frame_seg l m m' s :
  segs_wf l -> 0 <= len s -> apart (vaddr s) (len s) l -> frame l m m' ->
  load m' (vaddr s) (Z.to_nat (len s)) = load m (vaddr s) (Z.to_nat (len s)).
Proof.
  intros Hwf Hs Hap Hf. apply load_ext. intros x Hx. apply Hf. intros s' Hs'.
  pose proof (proj1 (Forall_forall _ _) Hap s' Hs') as Hdj.
  pose proof (proj1 (Forall_forall _ _) Hwf s' Hs') as Hlen. unfold disj in Hdj. cbn in *. lia.
Qed.

Lemma frame_segs k l m m' :
  segs_wf (k ++ l) -> separate (k ++ l) -> frame l m m' -> seg_bytes m' k = seg_bytes m k.
Proof.
  induction k as [|s k IH]; [done|]. intros Hwf Hsep Hf.
  cbn in Hwf, Hsep. apply Forall_cons in Hwf as [Hs Hwf]. destruct Hsep as [Ha Hsep].
  rewrite !seg_bytes_cons, IH by done. f_equal.
  apply Forall_app in Ha as [_ Ha]. apply Forall_app in Hwf as [_ Hwf]. eapply frame_seg; done.
Qed.

Lemma partial_to_loop_spec l : segs_wf l -> small_segs l -> separate l ->
  forall m src cur curoff s0 length,
  head l = Some s0 -> 0 <= curoff <= len s0 -> 0 <= length ->
  curoff + length <= total l -> apart src length l ->
  exists m' st', partial_to_loop m l cur src curoff length = Some (m', shift cur st') /\
    seg_bytes m' l = splice (Z.to_nat curoff) (load m src (Z.to_nat length)) (seg_bytes m l) /\
    frame l m m' /\ at_pos l st' (curoff + length).
Proof.
  intros Hwf. induction Hwf as [|s l Hs Hwf IH];
    intros Hsm Hsep m src cur curoff s0 length H0 Ho Hl Ht Ha; [done|].
  injection H0 as <-. apply Forall_cons in Hsm as [Hss Hsm]. destruct Hsep as [Hsa Hsep].
  pose proof Ha as [Hd Ha']%Forall_cons.
  cbn [partial_to_loop total] in *. rewrite (u32_small (len s - curoff)) by lia.
  rewrite !seg_bytes_cons. destruct (Z.ltb_spec length (len s - curoff)) as [Hlt|Hge].
  - rewrite (proj2 (Z.eqb_neq _ _)) by lia. cbn [negb]. rewrite u32_small by lia.
    eexists _, (Scan 0 (curoff + length)). unfold shift. cbn [ss_seg ss_offset]. rewrite Nat.add_0_r.
    split; [done|]. split; [|split].
    + rewrite seg_bytes_cons. unfold memcpy. rewrite store_off_seg by (rewrite ?length_load; lia).
      rewrite seg_bytes_store; [|done|rewrite length_load; eapply apart_sub; [exact Hsa|lia..]].
      unfold splice. rewrite take_app_le, drop_app_le by (rewrite !length_load; lia).
      replace (vaddr s + curoff - vaddr s) with curoff by lia. by rewrite <- !app_assoc.
    + intros x Hx. specialize (Hx s (list_elem_of_here _ _)). apply store_out. rewrite length_load. lia.
    + split; [done|]. left. exists s. cbn. split; [done|lia].
  - rewrite Z.eqb_refl. cbn [negb]. set (m1 := memcpy _ _ _ _).
    assert (Hm1 : seg_bytes m1 l = seg_bytes m l).
    { apply seg_bytes_store; [done|]. rewrite length_load. eapply apart_sub; [exact Hsa|lia..]. }
    assert (Hf1 : frame (s :: l) m m1).
    { intros x Hx. specialize (Hx s (list_elem_of_here _ _)). apply store_out. rewrite length_load. lia. }
    assert (Hls : load m1 (vaddr s) (Z.to_nat (len s)) =
      take (Z.to_nat curoff) (load m (vaddr s) (Z.to_nat (len s))) ++
      load m src (Z.to_nat (len s - curoff))).
    { unfold m1, memcpy. rewrite store_off_seg by (rewrite ?length_load; lia). unfold splice.
      rewrite drop_ge, app_nil_r by (rewrite !length_load; lia).
      by replace (vaddr s + curoff - vaddr s) with curoff by lia. }
    assert (Hsrc : forall n, (n <= Z.to_nat (length - (len s - curoff)))%nat ->
      load m1 (src + (len s - curoff)) n = load m (src + (len s - curoff)) n).
    { intros n Hn. apply load_store_disj. rewrite length_load. unfold disj in *. lia. }
    destruct (Z.eqb_spec (length - (len s - curoff)) 0) as [He|Hne].
    + eexists _, (Scan 1 0). unfold shift. cbn [ss_seg ss_offset]. rewrite Nat.add_1_r.
      split; [done|]. split; [|split; [done|]].
      * rewrite seg_bytes_cons, Hls, Hm1. unfold splice.
        rewrite take_app_le, drop_app_ge by (rewrite !length_load; lia).
        rewrite !length_load, <- app_assoc. replace (len s - curoff) with length by lia.
        do 2 f_equal. symmetry. replace (_ - _)%nat with 0%nat by lia. done.
      * unfold at_pos. cbn. rewrite take_0. cbn. split; [lia|].
        destruct l as [|s1 l]; [by right|]. left. exists s1. cbn.
        apply Forall_cons in Hwf as [? _]. split; [done|lia].
    + destruct l as [|s1 l]; [cbn in Ht; lia|].
      pose proof (proj1 (Forall_cons _ _ _) Hwf) as [? _].
      destruct (IH Hsm Hsep m1 (src + (len s - curoff)) (S cur) 0 s1 (length - (len s - curoff)))
        as (m' & st' & -> & Hm' & Hf' & Hp'); [done|lia..|eapply apart_sub; [exact Ha'|lia..]|].
      exists m', (shift 1 st'). split; [unfold shift; cbn; do 3 f_equal; lia|]. split; [|split].
      * rewrite seg_bytes_cons, (frame_seg _ _ _ s Hwf Hs Hsa Hf'), Hls, Hm', Hm1, Hsrc by done.
        unfold splice. rewrite take_0, app_nil_l, Nat.add_0_l.
        rewrite take_app_le, drop_app_ge by (rewrite !length_load; lia). rewrite !length_load.
        rewrite <- !app_assoc. f_equal.
        rewrite (load_split m src length (len s - curoff)), <- app_assoc by lia.
        do 3 f_equal. lia.
      * intros x Hx. rewrite (Hf' x) by (intros; apply Hx; by right). by apply Hf1.
      * pose proof (at_pos_shift (s :: s1 :: l) 1 st' _ ltac:(cbn; lia) Hp') as Hq. cbn in Hq.
        by replace (curoff + length) with (len s + 0 + (0 + (length - (len s - curoff)))) by lia.
Qed.

(** The scan stops at a segment that holds the offset. *)
Lemma seek_loop_spec l : segs_wf l -> forall cur base offset,
  0 <= base <= offset -> offset <= base + total l -> l <> [] -> offset < 4294967296 ->
  exists st, seek_loop l cur base offset = Some (shift cur st) /\
    at_pos l st (offset - base) /\ resumable l st.
Proof.
  induction 1 as [|s l Hs Hwf IH]; intros cur base offset Hb Ho Hne Hlt; [done|].
  cbn [seek_loop total] in *. destruct (Z.ltb_spec (base + len s) offset) as [H1|H1].
  - rewrite u32_small by lia.
    destruct (IH (S cur) (base + len s) offset) as (st & -> & Hp & Hr); [lia|lia| |done|].
    { intros ->. cbn in Ho. lia. }
    exists (shift 1 st). split; [unfold shift; cbn; do 2 f_equal; lia|]. split.
    + pose proof (at_pos_shift (s :: l) 1 st _ ltac:(cbn; lia) Hp) as Hq. cbn in Hq.
      by replace (offset - base) with (len s + 0 + (offset - (base + len s))) by lia.
    + unfold resumable, shift in *. cbn. lia.
  - exists (Scan 0 (offset - base)). unfold shift. cbn. rewrite Nat.add_0_r, u32_small by lia.
    split; [done|]. split; [|unfold resumable; cbn; lia].
    split; [done|]. left. exists s. cbn. split; [done|lia].
Qed.

(** ** Well-formed requests *)

(** What [omx_cache_segments] establishes and the copies rely on. *)
Record wf_req (r : req_segs) : Prop := {
  wf_shape : (nseg r = 1 /\ segs r = PtrSingle) \/
             (exists a l, segs r = PtrArray a l /\ nseg r = Z.of_nat (length l) /\ (2 <= length l)%nat);
  wf_lens : segs_wf (seg_array r);
  wf_total : total (seg_array r) = total_length r;
  wf_small : total_length r < 4294967296
}.

Lemma wf_small_segs r : wf_req r -> small_segs (seg_array r).
Proof.
  intros [_ Hwf Ht Hs]. rewrite <- Ht in Hs. clear Ht. revert Hs. unfold small_segs.
  induction Hwf as [|s l H Hwf IH]; [done|]. cbn. intros Hs. pose proof (total_nonneg l Hwf).
  apply Forall_cons. split; [lia|]. apply IH. lia.
Qed.

Lemma wf_single r : wf_req r -> nseg r = 1 -> seg_array r = [single r].
Proof.
  intros [Hsh _ _ _] H1. unfold seg_array.
  destruct Hsh as [[_ ->]|(a & l & _ & H & ?)]; [done|lia].
Qed.

Lemma fold_total l t : segs_wf l -> 0 <= t -> t + total l < 4294967296 ->
  fold_left (fun t s => u32 (t + len s)) l t = t + total l.
Proof.
  intros Hwf. revert t. induction Hwf as [|s l Hs Hwf IH]; intros t Ht Hb; cbn in *; [lia|].
  pose proof (total_nonneg l Hwf). rewrite u32_small, IH by lia. lia.
Qed.

(** [omx_cache_segments] turns any user array of at most
    [OMX_MAX_SEGMENTS] segments whose lengths sum below 2^32 into a
    well-formed request denoting exactly the user's bytes; longer arrays are
    refused before anything is allocated, and [omx_free_segments] frees what
    was allocated and nothing else. *)
Lemma cache_segments_exact garbage alloc l m :
  segs_wf l -> total l < 4294967296 ->
  match omx_cache_segments garbage alloc l with
  | CacheOk r => wf_req r /\ seg_bytes m (seg_array r) = seg_bytes m l /\
      total_length r = total l /\ Z.of_nat (length l) <= OMX_MAX_SEGMENTS /\
      omx_free_segments r = (if (length l <=? 1)%nat then None else alloc) /\
      omx_free_segments (omx_clone_segments r) = omx_free_segments r
  | CacheBadCount => OMX_MAX_SEGMENTS < Z.of_nat (length l)
  | CacheNoResources => alloc = None /\ (2 <= length l)%nat
  end.
Proof.
  intros Hwf Ht. unfold omx_cache_segments.
  destruct l as [|s [|s' l]].
  - repeat split; try done; [by left|by repeat constructor].
  - apply Forall_cons in Hwf as [Hs _]. cbn in Ht.
    unfold omx_cache_single_segment. rewrite u32_small by lia. destruct s as [v n]. cbn in *.
    repeat split; cbn; try done; try lia; [by left|by repeat constructor].
  - destruct (Z.ltb_spec OMX_MAX_SEGMENTS (Z.of_nat (length (s :: s' :: l)))) as [Hn|Hn]; [done|].
    destruct alloc as [a|]; [|cbn; split; [done|lia]].
    rewrite fold_total by (done || lia). split; [|split; [done|split; [done|]]].
    + split; cbn; try done; try lia. right. exists a, (s :: s' :: l). cbn. split; [done|lia].
    + split; [done|]. unfold omx_free_segments, omx_clone_segments. cbn [nseg segs].
      rewrite (proj2 (Z.eqb_neq _ _)) by (cbn; lia). cbn [nseg segs].
      rewrite (proj2 (Z.ltb_lt _ _)) by (cbn; lia). done.
Qed.

Lemma cache_segments_exact_witness :
  match omx_cache_segments (Seg 0 0) (Some 77) [Seg 100 3; Seg 200 0; Seg 300 5] with
  | CacheOk r => total_length r = 8 /\ omx_free_segments r = Some 77
  | _ => False
  end.
Proof.
  pose proof (cache_segments_exact (Seg 0 0) (Some 77) [Seg 100 3; Seg 200 0; Seg 300 5] (fun x => x)
    ltac:(repeat constructor; cbn; lia) ltac:(cbn; lia)) as H. cbn in H |- *.
  destruct H as (_ & _ & H & _ & H' & _). split; [exact H|exact H'].
Defined.

(** The single-segment shortcuts agree with the loops. *)
Lemma copy_from_segments_spec m dst r length :
  wf_req r -> 0 <= length <= total_length r -> apart dst length (seg_array r) ->
  exists m', omx_copy_from_segments m dst r length = Some m' /\
    m' ≡ store m dst (take (Z.to_nat length) (seg_bytes m (seg_array r))).
Proof.
  intros Hw Hl Ha. pose proof (wf_total r Hw) as Ht. unfold omx_copy_from_segments.
  destruct (Z.eqb_spec (nseg r) 1) as [H1|H1].
  - rewrite (wf_single r Hw H1) in *. cbn in Ht. eexists. split; [done|].
    rewrite seg_bytes_cons, app_nil_r, take_load by lia. done.
  - apply copy_from_loop_spec; [apply (wf_lens r Hw)|lia|done].
Qed.

Lemma copy_to_segments_spec m r src length :
  wf_req r -> separate (seg_array r) -> 0 <= length <= total_length r ->
  apart src length (seg_array r) ->
  exists m', omx_copy_to_segments m r src length = Some m' /\
    seg_bytes m' (seg_array r) = load m src (Z.to_nat length) ++
      drop (Z.to_nat length) (seg_bytes m (seg_array r)) /\
    frame (seg_array r) m m'.
Proof.
  intros Hw Hsep Hl Ha. pose proof (wf_total r Hw) as Ht. unfold omx_copy_to_segments.
  destruct (Z.eqb_spec (nseg r) 1) as [H1|H1].
  - rewrite (wf_single r Hw H1) in *. cbn in Ht. eexists. split; [done|].
    set (s := single r) in *. rewrite !seg_bytes_cons, !app_nil_r. split.
    + unfold memcpy. rewrite store_off_seg by (rewrite ?length_load; lia).
      unfold splice. by rewrite Z.sub_diag, take_0, length_load.
    + intros x Hx. specialize (Hx s (list_elem_of_here _ _)). apply store_out. rewrite length_load. lia.
  - apply copy_to_loop_spec; [apply (wf_lens r Hw)|done|lia|done].
Qed.

(** C38. Scatter then gather is the identity on the message: bytes copied from
    a linear buffer into any well-formed segments and copied back from them
    arrive unchanged, both copies stay inside the segment array, and only the
    segments are written by the scatter. *)
Theorem scatter_gather_roundtrip m r src dst length :
  wf_req r -> separate (seg_array r) -> 0 <= length <= total_length r ->
  apart src length (seg_array r) -> apart dst length (seg_array r) ->
  exists m1 m2, omx_copy_to_segments m r src length = Some m1 /\
    frame (seg_array r) m m1 /\
    drop (Z.to_nat length) (seg_bytes m1 (seg_array r)) =
      drop (Z.to_nat length) (seg_bytes m (seg_array r)) /\
    omx_copy_from_segments m1 dst r length = Some m2 /\
    load m2 dst (Z.to_nat length) = load m src (Z.to_nat length) /\
    seg_bytes m2 (seg_array r) = seg_bytes m1 (seg_array r).
Proof.
  intros Hw Hsep Hl Hs Hd.
  destruct (copy_to_segments_spec m r src length) as (m1 & -> & Hb & Hf); [done..|].
  destruct (copy_from_segments_spec m1 dst r length) as (m2 & E2 & Hm2); [done..|].
  exists m1, m2. split; [done|]. split; [done|].
  assert (Ht : take (Z.to_nat length) (seg_bytes m1 (seg_array r)) = load m src (Z.to_nat length)).
  { rewrite Hb. by rewrite take_app_length' by by rewrite length_load. }
  split; [rewrite Hb; by rewrite drop_app_length' by by rewrite length_load|].
  split; [done|]. rewrite Ht in Hm2. split.
  - rewrite Hm2. rewrite <- (length_load m src (Z.to_nat length)) at 2. apply load_store_same.
  - rewrite Hm2. apply seg_bytes_store; [apply (wf_lens r Hw)|]. rewrite length_load.
    eapply apart_sub; [exact Hd|lia..].
Qed.

(** ** Fragments in any order *)

(** A received fragment: where its bytes lie, how many, and their offset. *)
Record fragment := Frag { f_src : Z; f_len : Z; f_off : Z }.

Fixpoint receive_fragments (m : mem) (r : req_segs) (st : segscan_state) (so : Z)
    (fs : list fragment) : option (mem * segscan_state * Z) :=
  match fs with
  | [] => Some (m, st, so)
  | f :: fs =>
      '(m, st, so) ← omx_partial_copy_to_segments m r (f_src f) (f_len f) (f_off f) st so;
      receive_fragments m r st so fs
  end.

Definition frag_ok (r : req_segs) (f : fragment) : Prop :=
  0 < f_len f /\ 0 <= f_off f /\ f_off f + f_len f <= total_length r /\
  apart (f_src f) (f_len f) (seg_array r).

Lemma at_pos_resumable l st p : at_pos l st p -> p < total l -> resumable l st.
Proof.
  intros [-> [(s & Hs & _)|[Hs Ho]]] Hp; unfold resumable.
  - by eapply lookup_lt_Some.
  - rewrite Hs, Ho, take_ge in Hp by lia. lia.
Qed.

Lemma partial_copy_to_spec m r src length offset st so :
  wf_req r -> separate (seg_array r) ->
  0 < length -> 0 <= offset -> offset + length <= total_length r ->
  apart src length (seg_array r) -> (so = offset -> at_pos (seg_array r) st offset) ->
  exists m' st', omx_partial_copy_to_segments m r src length offset st so
      = Some (m', st', offset + length) /\
    seg_bytes m' (seg_array r) = splice (Z.to_nat offset) (load m src (Z.to_nat length))
      (seg_bytes m (seg_array r)) /\
    frame (seg_array r) m m' /\ at_pos (seg_array r) st' (offset + length).
Proof.
  intros Hw Hsep Hl Ho Ht Ha Hso. pose proof (wf_small r Hw) as Hsm.
  unfold omx_partial_copy_to_segments.
  assert (Hseek : exists st1, (if offset =? so then Some st else seek_loop (seg_array r) 0 0 offset)
      = Some st1 /\ at_pos (seg_array r) st1 offset).
  { destruct (Z.eqb_spec offset so) as [->|Hne]; [eexists; split; [done|by apply Hso]|].
    destruct (seek_loop_spec (seg_array r) (wf_lens r Hw) 0 0 offset) as (st1 & -> & Hp & _);
      [lia|rewrite (wf_total r Hw); lia| |lia|].
    - intros He. pose proof (wf_total r Hw) as Hwt. rewrite He in Hwt. cbn in Hwt. lia.
    - eexists. split; [done|]. rewrite Z.sub_0_r in Hp. by destruct st1. }
  destruct Hseek as (st1 & -> & Hp). cbn [mbind option_bind].
  pose proof (at_pos_resumable _ _ _ Hp ltac:(rewrite (wf_total r Hw); lia)) as Hr.
  unfold resumable in Hr. destruct Hp as [Hpos [(s & Hs & Hoff)|[Hbad _]]]; [|lia].
  unfold omx_continue_partial_copy_to_segments.
  set (l := seg_array r) in *. set (k := ss_seg st1) in *.
  assert (Hlk : l = take k l ++ drop k l) by (symmetry; apply take_drop).
  pose proof (wf_lens r Hw) as Hwf. fold l in Hwf. pose proof (wf_small_segs r Hw) as Hss. fold l in Hss.
  pose proof (wf_total r Hw) as Htot. fold l in Htot. rewrite Hlk, total_app in Htot.
  destruct (partial_to_loop_spec (drop k l)) with (m := m) (src := src) (cur := k)
    (curoff := ss_offset st1) (s0 := s) (length := length)
    as (m' & st' & -> & Hb & Hf & Hp').
  - by apply Forall_drop.
  - by apply Forall_drop.
  - clear -Hsep. revert Hsep. generalize l. induction k as [|k IH]; intros l0 H; [by rewrite drop_0|].
    destruct l0; [done|]. cbn. apply IH, H.
  - by rewrite head_lookup, lookup_drop, Nat.add_0_r.
  - done.
  - lia.
  - lia.
  - by apply Forall_drop.
  - exists m', (shift k st'). cbn [mbind option_bind]. rewrite u32_small by lia.
    split; [done|].
    assert (Hlen : List.length (seg_bytes m (take k l)) = Z.to_nat (total (take k l))).
    { apply length_seg_bytes. by apply Forall_take. }
    assert (Hnn : 0 <= total (take k l)) by (apply total_nonneg; by apply Forall_take).
    split; [|split].
    + rewrite Hlk, !seg_bytes_app, Hb, splice_app_r by (rewrite Hlen; lia).
      f_equal; [apply (frame_segs _ (drop k l)); by rewrite <- ?Hlk|]. f_equal. rewrite Hlen. lia.
    + intros x Hx. apply Hf. intros s' Hs'. apply Hx. rewrite Hlk. apply elem_of_app. by right.
    + rewrite Hpos. fold k. rewrite <- Z.add_assoc. apply at_pos_shift; [lia|done].
Qed.

(** Fragments of a message copied into scattered segments in any order,
    each call reusing the scan state the previous one left when it can, write
    exactly their bytes at exactly their offsets and nothing outside the
    segments, and the scan always terminates inside the array.  In
    particular the carried state never goes stale. *)
Lemma partial_copies_any_order m r st fs :
  wf_req r -> separate (seg_array r) -> at_pos (seg_array r) st 0 -> Forall (frag_ok r) fs ->
  exists m' st' so', receive_fragments m r st 0 fs = Some (m', st', so') /\
    seg_bytes m' (seg_array r) = fold_left
      (fun bs f => splice (Z.to_nat (f_off f)) (load m (f_src f) (Z.to_nat (f_len f))) bs)
      fs (seg_bytes m (seg_array r)) /\
    frame (seg_array r) m m'.
Proof.
  intros Hw Hsep Hst Hfs.
  assert (Hso : exists so, so = 0 /\ at_pos (seg_array r) st so) by eauto.
  destruct Hso as (so & <- & Hso). clear Hst.
  assert (Hgen : forall so st m, at_pos (seg_array r) st so -> exists m' st' so',
    receive_fragments m r st so fs = Some (m', st', so') /\
    seg_bytes m' (seg_array r) = fold_left
      (fun bs f => splice (Z.to_nat (f_off f)) (load m (f_src f) (Z.to_nat (f_len f))) bs)
      fs (seg_bytes m (seg_array r)) /\ frame (seg_array r) m m'); [|by apply Hgen].
  clear so st m Hso. induction Hfs as [|f fs (Hl & Ho & Ht & Ha) Hfs IH]; intros so st m Hp.
  - by exists m, st, so.
  - cbn [receive_fragments fold_left].
    destruct (partial_copy_to_spec m r (f_src f) (f_len f) (f_off f) st so)
      as (m1 & st1 & -> & Hb & Hf & Hp1); [done..|by intros ->|].
    cbn [mbind option_bind]. destruct (IH _ _ m1 Hp1) as (m' & st' & so' & -> & Hb' & Hf').
    exists m', st', so'. split; [done|]. split.
    + rewrite Hb', Hb. apply fold_left_ext_in. intros bs g Hg. f_equal.
      pose proof (proj1 (Forall_forall _ _) Hfs g Hg) as (_ & _ & _ & Hag).
      apply load_ext. intros x Hx. apply Hf. intros s Hs.
      pose proof (proj1 (Forall_forall _ _) Hag s Hs) as Hd. cbn in Hd.
      pose proof (proj1 (Forall_forall _ _) (wf_lens r Hw) s Hs) as Hls. cbn in Hls.
      unfold disj in Hd. destruct (decide (len s = 0)); lia.
    + intros x Hx. by rewrite Hf', Hf.
Qed.

Definition example_req : req_segs :=
  {| single := Seg 0 0; nseg := 2; segs := PtrArray 77 [Seg 100 3; Seg 200 5]; total_length := 8 |}.
Lemma example_req_wf : wf_req example_req.
Proof.
  split; cbn; [right|repeat constructor; cbn; lia|lia|lia].
  eexists _, _. split; [done|]. cbn. lia.
Qed.
Lemma example_req_separate : separate (seg_array example_req).
Proof. cbn. unfold apart, disj. repeat constructor; cbn; lia. Qed.
Lemma example_apart a n : 300 <= a -> apart a n (seg_array example_req).
Proof. intros. unfold apart, disj. repeat constructor; cbn; lia. Qed.

Lemma scatter_gather_roundtrip_witness : exists m1 m2,
  omx_copy_to_segments (fun x => x) example_req 1000 7 = Some m1 /\
  omx_copy_from_segments m1 2000 example_req 7 = Some m2 /\
  load m2 2000 7 = [1000; 1001; 1002; 1003; 1004; 1005; 1006].
Proof.
  destruct (scatter_gather_roundtrip (fun x => x) example_req 1000 2000 7 example_req_wf
    example_req_separate ltac:(cbn; lia) (example_apart 1000 7 ltac:(lia)) (example_apart 2000 7 ltac:(lia)))
    as (m1 & m2 & H1 & _ & _ & H2 & H3 & _).
  exists m1, m2. split; [exact H1|]. split; [exact H2|exact H3].
Defined.

(** The second half arrives first, then the first half, then the rest. *)
Lemma partial_copies_any_order_witness : exists m' st' so',
  receive_fragments (fun x => x) example_req (Scan 0 0) 0
    [Frag 1000 3 4; Frag 2000 4 0; Frag 3000 1 7] = Some (m', st', so') /\
  seg_bytes m' (seg_array example_req) = [2000; 2001; 2002; 2003; 1000; 1001; 1002; 3000].
Proof.
  destruct (partial_copies_any_order (fun x => x) example_req (Scan 0 0)
    [Frag 1000 3 4; Frag 2000 4 0; Frag 3000 1 7] example_req_wf example_req_separate)
    as (m' & st' & so' & H1 & H2 & _).
  - split; [done|]. left. exists (Seg 100 3). cbn. split; [done|lia].
  - repeat constructor; cbn; try lia; apply example_apart; lia.
  - exists m', st', so'. split; [exact H1|exact H2].
Defined.

(** ** Fragments sent in order *)

(** The sender's loop: consecutive chunks of the message gathered into
    consecutive slots. *)
Fixpoint gather_chunks (m : mem) (r : req_segs) (st : segscan_state) (slots : list (Z * Z))
    : option (mem * segscan_state) :=
  match slots with
  | [] => Some (m, st)
  | (dst, n) :: slots =>
      '(m, st) ← omx_continue_partial_copy_from_segments m dst r n st;
      gather_chunks m r st slots
  end.

Lemma partial_copy_from_spec m r dst n st p :
  wf_req r -> at_pos (seg_array r) st p -> 0 < n -> p + n <= total_length r ->
  apart dst n (seg_array r) ->
  exists m' st', omx_continue_partial_copy_from_segments m dst r n st = Some (m', st') /\
    m' ≡ store m dst (take (Z.to_nat n) (drop (Z.to_nat p) (seg_bytes m (seg_array r)))) /\
    at_pos (seg_array r) st' (p + n).
Proof.
  intros Hw Hp Hn Ht Ha. rewrite <- (wf_total r Hw) in Ht.
  pose proof (at_pos_resumable _ _ _ Hp ltac:(lia)) as Hr. unfold resumable in Hr.
  destruct Hp as [Hpos [(s & Hs & Hoff)|[Hbad _]]]; [|lia].
  unfold omx_continue_partial_copy_from_segments.
  pose proof (wf_lens r Hw) as Hwf. pose proof (wf_small_segs r Hw) as Hss.
  set (l := seg_array r) in *. set (k := ss_seg st) in *.
  assert (Hlk : l = take k l ++ drop k l) by (symmetry; apply take_drop).
  rewrite Hlk, total_app in Ht.
  destruct (partial_from_loop_spec (drop k l)) with (m := m) (dst := dst) (cur := k)
    (curoff := ss_offset st) (s0 := s) (length := n) as (m' & st' & -> & Hm' & Hp');
    [by apply Forall_drop|by apply Forall_drop| |done|lia|lia|by apply Forall_drop|].
  { by rewrite head_lookup, lookup_drop, Nat.add_0_r. }
  exists m', (shift k st'). split; [done|].
  assert (Hlen : List.length (seg_bytes m (take k l)) = Z.to_nat (total (take k l))).
  { apply length_seg_bytes. by apply Forall_take. }
  assert (Hnn : 0 <= total (take k l)) by (apply total_nonneg; by apply Forall_take).
  split.
  - assert (Hb : seg_bytes m l = seg_bytes m (take k l) ++ seg_bytes m (drop k l))
      by (by rewrite <- seg_bytes_app, <- Hlk).
    rewrite Hm', Hb, drop_app_ge, Hlen by (rewrite Hlen; lia). by do 3 f_equiv; lia.
  - rewrite Hpos. fold k. rewrite <- Z.add_assoc. apply at_pos_shift; [lia|done].
Qed.

Fixpoint slots_ok (r : req_segs) (p : Z) (slots : list (Z * Z)) : Prop :=
  match slots with
  | [] => True
  | (dst, n) :: slots => 0 < n /\ p + n <= total_length r /\ apart dst n (seg_array r) /\
      Forall (fun s => disj dst n (fst s) (snd s)) slots /\ slots_ok r (p + n) slots
  end.
Definition slots_total (slots : list (Z * Z)) : Z := fold_right (fun s t => snd s + t) 0 slots.

Lemma slots_ok_apart r p slots d n : slots_ok r p ((d, n) :: slots) ->
  forall m bs, length bs = Z.to_nat n ->
  concat ((fun s => load (store m d bs) (fst s) (Z.to_nat (snd s))) <$> slots) =
  concat ((fun s => load m (fst s) (Z.to_nat (snd s))) <$> slots).
Proof.
  intros (Hn & _ & _ & Hd & _) m bs Hb. f_equal. apply list_fmap_ext. intros i s Hs.
  pose proof (proj1 (Forall_lookup _ _) Hd i s Hs) as Hds. cbn in Hds.
  apply load_store_disj. rewrite Hb. unfold disj in *. lia.
Qed.

(** Sending a vectorial message as a sequence of chunks, the scan state of
    one chunk resuming the next, puts the message's bytes into the slots in
    order: the concatenation of the slots is the prefix of the message of
    their total length. *)
Lemma gather_chunks_concat m r slots st :
  wf_req r -> at_pos (seg_array r) st 0 -> slots_ok r 0 slots ->
  exists m' st', gather_chunks m r st slots = Some (m', st') /\
    concat ((fun s => load m' (fst s) (Z.to_nat (snd s))) <$> slots) =
      take (Z.to_nat (slots_total slots)) (seg_bytes m (seg_array r)) /\
    seg_bytes m' (seg_array r) = seg_bytes m (seg_array r).
Proof.
  intros Hw Hst Hok.
  enough (Hgen : forall p st m, 0 <= p -> at_pos (seg_array r) st p -> slots_ok r p slots ->
    exists m' st', gather_chunks m r st slots = Some (m', st') /\
    concat ((fun s => load m' (fst s) (Z.to_nat (snd s))) <$> slots) =
      take (Z.to_nat (slots_total slots)) (drop (Z.to_nat p) (seg_bytes m (seg_array r))) /\
    seg_bytes m' (seg_array r) = seg_bytes m (seg_array r) /\
    (forall a n, Forall (fun s => disj (fst s) (snd s) a n) slots ->
      load m' a (Z.to_nat n) = load m a (Z.to_nat n)) /\ 0 <= slots_total slots).
  { destruct (Hgen 0 st m) as (m' & st' & ? & ? & ? & _); [lia|done..|]. by exists m', st'. }
  clear st Hst Hok m. induction slots as [|(d, n) slots IH]; intros p st m Hp Hst Hok.
  { exists m, st. cbn. by rewrite take_0. }
  pose proof (slots_ok_apart _ _ _ _ _ Hok) as Hap. destruct Hok as (Hn & Ht & Ha & Hd & Hok).
  cbn [gather_chunks]. destruct (partial_copy_from_spec m r d n st p) as (m1 & st1 & -> & Hm1 & Hp1); [done..|].
  cbn [mbind option_bind]. destruct (IH (p + n) st1 m1) as (m' & st' & -> & Hc & Hb & Hfr & Hnn); [lia|done..|].
  exists m', st'. split; [done|].
  assert (Hlen : length (take (Z.to_nat n) (drop (Z.to_nat p) (seg_bytes m (seg_array r)))) = Z.to_nat n).
  { rewrite length_take, length_drop, length_seg_bytes by apply (wf_lens r Hw).
    rewrite (wf_total r Hw). lia. }
  assert (Hbm : seg_bytes m1 (seg_array r) = seg_bytes m (seg_array r)).
  { rewrite Hm1. apply seg_bytes_store; [apply (wf_lens r Hw)|]. rewrite Hlen.
    eapply apart_sub; [exact Ha|lia..]. }
  split; [|split; [by rewrite Hb|split]].
  - cbn [fmap list_fmap concat fst snd slots_total fold_right]. fold (slots_total slots).
    rewrite Hfr; [|by eapply Forall_impl; [exact Hd|]; intros s Hs; cbn in *; unfold disj in *; lia].
    pose proof (load_store_same m d (take (Z.to_nat n) (drop (Z.to_nat p) (seg_bytes m (seg_array r)))))
      as Hs. rewrite Hlen in Hs.
    rewrite Hc, Hbm, Hm1, Hs, !Z2Nat.inj_add, <- drop_drop by lia. apply take_take_drop.
  - intros a k [Hda Hds]%Forall_cons. rewrite Hfr by done. rewrite Hm1. apply load_store_disj.
    rewrite Hlen. cbn in Hda. unfold disj in *. lia.
  - cbn. fold (slots_total slots). lia.
Qed.

Lemma gather_chunks_concat_witness : exists m' st',
  gather_chunks (fun x => x) example_req (Scan 0 0) [(1000, 4); (2000, 4)] = Some (m', st') /\
  load m' 1000 4 = [100; 101; 102; 200] /\ load m' 2000 4 = [201; 202; 203; 204].
Proof.
  destruct (gather_chunks_concat (fun x => x) example_req [(1000, 4); (2000, 4)] (Scan 0 0)
    example_req_wf) as (m' & st' & H1 & H2 & _).
  - split; [done|]. left. exists (Seg 100 3). cbn. split; [done|lia].
  - cbn. pose proof (example_apart 1000 4 ltac:(lia)). pose proof (example_apart 2000 4 ltac:(lia)).
    unfold apart, disj in *. cbn in *. repeat split; try lia; try done; repeat constructor; cbn; lia.
  - exists m', st'. split; [exact H1|].
    change (load m' 1000 4 ++ load m' 2000 4 ++ [] =
      [100; 101; 102; 200] ++ [201; 202; 203; 204]) in H2. rewrite app_nil_r in H2.
    apply app_inj_1 in H2; [exact H2|by rewrite length_load].
Defined.

(** ** Checksum *)

Lemma checksum_loop_spec m l length crc :
  segs_wf l -> 0 <= length <= total l ->
  checksum_loop m l length crc = fold_left crc_byte (take (Z.to_nat length) (seg_bytes m l)) crc.
Proof.
  intros Hwf. revert length crc. induction Hwf as [|s l Hs Hwf IH]; intros length crc Hl.
  - cbn. by rewrite take_nil.
  - cbn [checksum_loop total] in *. pose proof (total_nonneg l Hwf).
    destruct (Z.ltb_spec 0 length) as [Hp|Hp].
    + set (chunk := if length <? len s then length else len s).
      assert (Hc : 0 <= chunk <= length /\ (chunk = length \/ chunk = len s))
        by (unfold chunk; destruct (Z.ltb_spec length (len s)); lia).
      rewrite IH by lia. rewrite seg_bytes_cons, (take_load_app m (vaddr s) (len s) length chunk)
        by (done || lia). by rewrite fold_left_app.
    + assert (length = 0) as -> by lia. by rewrite take_0.
Qed.

(** The checksum of a message is the CRC of its bytes: it does not depend
    on how the bytes are split into segments, so sender and receiver agree
    whenever the bytes do. *)
Lemma checksum_of_bytes m r length :
  wf_req r -> 0 <= length <= total_length r ->
  omx_checksum_segments m r length =
    fold_left crc_byte (take (Z.to_nat length) (seg_bytes m (seg_array r))) 0.
Proof.
  intros Hw Hl. rewrite <- (wf_total r Hw) in Hl. unfold omx_checksum_segments.
  destruct (Z.eqb_spec (nseg r) 1) as [H1|H1].
  - rewrite H1, <- (wf_single r Hw H1). change (Z.to_nat 1) with 1%nat.
    rewrite (wf_single r Hw H1) at 1 2. cbn [take].
    rewrite <- (wf_single r Hw H1). apply checksum_loop_spec; [apply (wf_lens r Hw)|done].
  - rewrite take_ge; [apply checksum_loop_spec; [apply (wf_lens r Hw)|done]|].
    destruct (wf_shape r Hw) as [[? _]|(a & l & Hsg & Hn & _)]; [done|].
    unfold seg_array. rewrite Hsg, Hn. lia.
Qed.

Lemma checksum_of_bytes_witness :
  omx_checksum_segments (fun x => x mod 256) example_req 8 =
  fold_left crc_byte [100; 101; 102; 200; 201; 202; 203; 204] 0.
Proof.
  rewrite (checksum_of_bytes (fun x => x mod 256) example_req 8 example_req_wf ltac:(cbn; lia)).
  reflexivity.
Defined.

(** ** Copies between two segment arrays *)

Definition same_layout : relation (list segment) := Forall2 (fun s d => len s = len d).

Lemma copy_from_to_loop_spec ls ld : same_layout ls ld -> forall fuel m length,
  segs_wf ls -> separate ld -> small_segs ls -> 0 <= length <= total ls ->
  (List.length ls <= fuel)%nat ->
  Forall (fun d => apart (vaddr d) (len d) ls) ld ->
  exists m', copy_from_to_loop fuel m ls 0 ld 0 length = Some m' /\
    seg_bytes m' ld = take (Z.to_nat length) (seg_bytes m ls) ++
      drop (Z.to_nat length) (seg_bytes m ld) /\ frame ld m m'.
Proof.
  induction 1 as [|s d ls ld Hsd Hl2 IH]; intros fuel m length Hwf Hsep Hsm Hl Hf Ha.
  - cbn in Hl. assert (length = 0) as -> by lia. exists m. by destruct fuel.
  - apply Forall_cons in Hwf as [Hs Hwf]. apply Forall_cons in Hsm as [Hss Hsm].
    apply Forall_cons in Ha as [Had Ha]. apply Forall_cons in Had as [Hsd' Had].
    destruct Hsep as [Hdd Hsep]. pose proof (total_nonneg ls Hwf).
    assert (Hwfd : segs_wf ld).
    { apply Forall_lookup. intros i d' Hd'. destruct (Forall2_lookup_r _ _ _ _ _ Hl2 Hd') as (s' & Hs' & He).
      pose proof (proj1 (Forall_lookup _ _) Hwf i s' Hs') as Hlen. cbn in Hlen. lia. }
    destruct fuel as [|fuel]; [cbn in Hf; lia|]. cbn [copy_from_to_loop total List.length] in *.
    destruct (Z.eqb_spec length 0) as [->|Hne]; [by exists m|].
    rewrite <- Hsd. rewrite !Z.add_0_r, !Z.add_0_l.
    assert (Hck : (let chunk := if len s <? length then len s else length in
      if len s <? chunk then len s else chunk) = (if length <? len s then length else len s)).
    { cbn zeta. destruct (Z.ltb_spec (len s) length); zcases; lia. }
    cbn zeta in Hck. rewrite Hck. set (chunk := if length <? len s then length else len s).
    assert (Hc : 0 <= chunk <= length /\ chunk <= len s /\ (chunk = length \/ chunk = len s))
      by (unfold chunk; destruct (Z.ltb_spec length (len s)); lia).
    rewrite u32_small by lia. set (m1 := memcpy m (vaddr d) (vaddr s) chunk).
    assert (Hf1 : frame (d :: ld) m m1).
    { intros x Hx. specialize (Hx d (list_elem_of_here _ _)). apply store_out. rewrite length_load. lia. }
    assert (Hls : seg_bytes m1 ls = seg_bytes m ls).
    { apply seg_bytes_store; [done|]. rewrite length_load. eapply apart_sub; [exact Had|lia..]. }
    assert (Hld : seg_bytes m1 ld = seg_bytes m ld).
    { apply seg_bytes_store; [done|]. rewrite length_load. eapply apart_sub; [exact Hdd|lia..]. }
    assert (Hd : load m1 (vaddr d) (Z.to_nat (len d)) = take (Z.to_nat chunk) (load m (vaddr s) (Z.to_nat (len s)))
      ++ drop (Z.to_nat chunk) (load m (vaddr d) (Z.to_nat (len d)))).
    { unfold m1, memcpy. rewrite store_off_seg by (rewrite ?length_load; lia).
      unfold splice. rewrite Z.sub_diag, take_0, app_nil_l, length_load, take_load by lia. done. }
    destruct (Z.leb_spec (len s) chunk) as [Hle|Hgt].
    + assert (chunk = len s) as Hcl by lia.
      destruct (IH fuel m1 (length - chunk)) as (m' & -> & Hb & Hfr); [done|done|done|lia|lia| |].
      { eapply Forall_impl; [exact Ha|]. intros d' Hd'. by apply Forall_cons in Hd' as [_ Hd']. }
      exists m'. split; [done|]. split.
      * rewrite !seg_bytes_cons, (frame_seg _ _ _ d Hwfd ltac:(lia) Hdd Hfr), Hd, Hb, Hls, Hld.
        rewrite take_ge, drop_ge, app_nil_r by (rewrite length_load; lia).
        rewrite take_app_ge, drop_app_ge by (rewrite length_load; lia). rewrite !length_load.
        rewrite <- app_assoc. do 3 f_equal; f_equal; lia.
      * intros x Hx. rewrite (Hfr x) by (intros; apply Hx; by right). by apply Hf1.
    + assert (chunk = length) as -> by lia. rewrite Z.sub_diag.
      exists m1. split; [by destruct fuel|]. split; [|done].
      rewrite !seg_bytes_cons, Hd, Hld, take_app_le, drop_app_le by (rewrite length_load; lia).
      by rewrite <- app_assoc.
Qed.

(** The segment-to-segment copy of a self send is exact when either side
    is a single segment or both sides have the same segment lengths: the
    destination receives the source bytes in order, and nothing outside it is
    written.  (The chunk computation ignores the two offsets inside the
    segments, so other layouts are outside its contract: see
    [copy_from_to_overruns].) *)
Lemma copy_from_to_exact m rd rs length :
  wf_req rd -> wf_req rs -> separate (seg_array rd) ->
  0 <= length <= total_length rs -> length <= total_length rd ->
  Forall (fun d => apart (vaddr d) (len d) (seg_array rs)) (seg_array rd) ->
  Forall (fun s => apart (vaddr s) (len s) (seg_array rd)) (seg_array rs) ->
  nseg rs = 1 \/ nseg rd = 1 \/ same_layout (seg_array rs) (seg_array rd) ->
  exists m', omx_copy_from_to_segments m rd rs length = Some m' /\
    seg_bytes m' (seg_array rd) = take (Z.to_nat length) (seg_bytes m (seg_array rs)) ++
      drop (Z.to_nat length) (seg_bytes m (seg_array rd)) /\
    frame (seg_array rd) m m'.
Proof.
  intros Hwd Hws Hsep Hl Hld Hds Hsd Hcase. unfold omx_copy_from_to_segments.
  destruct (Z.eqb_spec (nseg rs) 1) as [H1|H1].
  { pose proof (wf_single rs Hws H1) as Hs1. pose proof (wf_total rs Hws) as Ht. rewrite Hs1 in *.
    cbn in Ht. apply Forall_cons in Hsd as [Hsd _].
    destruct (copy_to_segments_spec m rd (vaddr (single rs)) length) as (m' & -> & Hb & Hf);
      [done|done|lia|eapply apart_sub; [exact Hsd|lia..]|].
    exists m'. split; [done|]. split; [|done].
    by rewrite Hb, seg_bytes_cons, app_nil_r, take_load by lia. }
  destruct (Z.eqb_spec (nseg rd) 1) as [H2|H2].
  { pose proof (wf_single rd Hwd H2) as Hd1. pose proof (wf_total rd Hwd) as Ht. rewrite Hd1 in *.
    set (d := single rd) in *. cbn in Ht. apply Forall_cons in Hds as [Hds _].
    destruct (copy_from_segments_spec m (vaddr d) rs length) as (m' & -> & Hm');
      [done|done|eapply apart_sub; [exact Hds|lia..]|].
    exists m'. split; [done|].
    assert (Hlen : List.length (take (Z.to_nat length) (seg_bytes m (seg_array rs))) = Z.to_nat length).
    { rewrite length_take, length_seg_bytes by apply (wf_lens rs Hws).
      rewrite (wf_total rs Hws). lia. }
    split.
    - rewrite Hm', !seg_bytes_cons, !app_nil_r, store_off_seg by (rewrite ?Hlen; lia).
      unfold splice. by rewrite Z.sub_diag, take_0, app_nil_l, Hlen.
    - intros x Hx. specialize (Hx d (list_elem_of_here _ _)). rewrite Hm'. apply store_out.
      rewrite Hlen. lia. }
  destruct Hcase as [?|[?|Hsl]]; [done..|].
  apply copy_from_to_loop_spec; [done|apply (wf_lens rs Hws)|done|by apply wf_small_segs| |lia|done].
  rewrite (wf_total rs Hws). lia.
Qed.

Definition example_dst : req_segs :=
  {| single := Seg 0 0; nseg := 2; segs := PtrArray 78 [Seg 300 3; Seg 400 5]; total_length := 8 |}.

Lemma copy_from_to_exact_witness : exists m',
  omx_copy_from_to_segments (fun x => x) example_dst example_req 7 = Some m' /\
  load m' 300 3 = [100; 101; 102] /\ load m' 400 5 = [200; 201; 202; 203; 404].
Proof.
  destruct (copy_from_to_exact (fun x => x) example_dst example_req 7) as (m' & H1 & H2 & _).
  - split; cbn; [right|repeat constructor; cbn; lia|lia|lia].
    eexists _, _. split; [done|]. cbn. lia.
  - exact example_req_wf.
  - cbn. unfold apart, disj. repeat constructor; cbn; lia.
  - cbn. lia.
  - cbn. lia.
  - unfold apart, disj. repeat constructor; cbn; lia.
  - unfold apart, disj. repeat constructor; cbn; lia.
  - right. right. repeat constructor.
  - exists m'. split; [exact H1|].
    change (load m' 300 3 ++ load m' 400 5 ++ [] =
      [100; 101; 102] ++ [200; 201; 202; 203; 404]) in H2. rewrite app_nil_r in H2.
    apply app_inj_1 in H2; [exact H2|by rewrite length_load].
Defined.

(** With source lengths 3 and 5 and destination lengths 5 and 3 the copy
    writes at 605, beyond the destination segment [600, 605), although both
    messages hold the 8 bytes. *)
Definition overrun_dst : req_segs :=
  {| single := Seg 0 0; nseg := 2; segs := PtrArray 79 [Seg 600 5; Seg 700 3]; total_length := 8 |}.

Lemma copy_from_to_overruns :
  (m' ← omx_copy_from_to_segments (fun x => x) overrun_dst example_req 8; Some (m' 605, m' 607))
  = Some (202, 204) /\
  Forall (fun s => 605 < vaddr s \/ vaddr s + len s <= 605) (seg_array overrun_dst).
Proof. split; [vm_compute; reflexivity|]. repeat constructor; cbn; lia. Qed.
End Segs.
