(* ===== verification/World.v ===== *)
(** The state of one endpoint of the library ([libxen2mx/omx_types.h]), the
    state-and-stop monad its code is written in, and the calls to the outside
    (allocator, driver, application handlers). *)
From S2P Require Import Prelude Io DList Segments.
Import Io DList Mem Segs.

(** ** Queue heads and queue elements

    Every [struct list_head] of the endpoint, its partners and its requests is
    a node; the queues are a family of lists of nodes indexed by their head,
    updated with the operations [DList] refines to pointers. *)
Inductive node :=
  | HDone | HUnexp | HCtxUnexp (c : Z) | HCtxRecv (c : Z) | HCtxDone (c : Z)
  | HNeedRes | HMediumSending | HLargeNeedReply | HPulling | HConnect | HNonAcked | HUnexpSelf
  | HAckImm | HAckDelayed | HThrottling | HReg | HRegUnused | HRegVect | HTmp
  | HpNonAcked (p : Z) | HpConnect (p : Z) | HpPartial (p : Z) | HpNeedSeq (p : Z) | HpEarly (p : Z)
  | EQueue (r : Z) | EDone (r : Z) | ECtxid (r : Z) | EPartner (r : Z)
  | EEarly (e : Z) | EAck (p : Z) | EThrot (p : Z) | EReg (g : Z) | EUnused (g : Z).

#[export] Instance node_eq_dec : EqDecision node.
Proof. solve_decision. Defined.

Definition node_code (n : node) : Z * Z :=
  match n with
  | HDone => (0, 0) | HUnexp => (1, 0) | HCtxUnexp c => (2, c) | HCtxRecv c => (3, c)
  | HCtxDone c => (4, c) | HNeedRes => (5, 0) | HMediumSending => (6, 0)
  | HLargeNeedReply => (7, 0) | HPulling => (8, 0) | HConnect => (9, 0) | HNonAcked => (10, 0)
  | HUnexpSelf => (11, 0) | HAckImm => (12, 0) | HAckDelayed => (13, 0) | HThrottling => (14, 0)
  | HReg => (15, 0) | HRegUnused => (16, 0) | HRegVect => (17, 0) | HTmp => (18, 0)
  | HpNonAcked p => (19, p) | HpConnect p => (20, p) | HpPartial p => (21, p)
  | HpNeedSeq p => (22, p) | HpEarly p => (23, p)
  | EQueue r => (24, r) | EDone r => (25, r) | ECtxid r => (26, r) | EPartner r => (27, r)
  | EEarly e => (28, e) | EAck p => (29, p) | EThrot p => (30, p) | EReg g => (31, g)
  | EUnused g => (32, g)
  end.
Definition node_decode (c : Z * Z) : option node :=
  let '(t, x) := c in
  match t with
  | 0 => Some HDone | 1 => Some HUnexp | 2 => Some (HCtxUnexp x) | 3 => Some (HCtxRecv x)
  | 4 => Some (HCtxDone x) | 5 => Some HNeedRes | 6 => Some HMediumSending
  | 7 => Some HLargeNeedReply | 8 => Some HPulling | 9 => Some HConnect | 10 => Some HNonAcked
  | 11 => Some HUnexpSelf | 12 => Some HAckImm | 13 => Some HAckDelayed | 14 => Some HThrottling
  | 15 => Some HReg | 16 => Some HRegUnused | 17 => Some HRegVect | 18 => Some HTmp
  | 19 => Some (HpNonAcked x) | 20 => Some (HpConnect x) | 21 => Some (HpPartial x)
  | 22 => Some (HpNeedSeq x) | 23 => Some (HpEarly x)
  | 24 => Some (EQueue x) | 25 => Some (EDone x) | 26 => Some (ECtxid x) | 27 => Some (EPartner x)
  | 28 => Some (EEarly x) | 29 => Some (EAck x) | 30 => Some (EThrot x) | 31 => Some (EReg x)
  | 32 => Some (EUnused x) | _ => None
  end.
#[export] Instance node_countable : Countable node.
Proof. refine (inj_countable node_code node_decode _). by intros []. Defined.

(** ** Return codes *)
Inductive omx_return :=
  | OMX_SUCCESS | OMX_NO_RESOURCES | OMX_NO_SYSTEM_RESOURCES | OMX_MESSAGE_TRUNCATED
  | OMX_MESSAGE_ABORTED | OMX_TIMEOUT | OMX_BAD_REQUEST | OMX_BAD_MATCH_MASK
  | OMX_BAD_MATCHING_FOR_CONTEXT_ID_MASK | OMX_SEGMENTS_BAD_COUNT | OMX_PEER_NOT_FOUND
  | OMX_NIC_ID_NOT_FOUND
  | OMX_REMOTE_ENDPOINT_BAD_ID | OMX_REMOTE_ENDPOINT_CLOSED | OMX_REMOTE_ENDPOINT_BAD_SESSION
  | OMX_REMOTE_ENDPOINT_UNREACHABLE | OMX_REMOTE_ENDPOINT_BAD_CONNECTION_KEY
  | OMX_REMOTE_RDMA_WINDOW_BAD_ID
  | OMX_INTERNAL_MISSING_RESOURCES | OMX_INTERNAL_MISC_EFAULT | OMX_OTHER (code : Z).
#[export] Instance omx_return_eq_dec : EqDecision omx_return.
Proof. solve_decision. Defined.

(* [libxen2mx/omx_types.h:356-368] omx__request_type *)
Inductive request_type :=
  | OMX_REQUEST_TYPE_NONE | OMX_REQUEST_TYPE_CONNECT | OMX_REQUEST_TYPE_SEND_TINY
  | OMX_REQUEST_TYPE_SEND_SMALL | OMX_REQUEST_TYPE_SEND_MEDIUMSQ
  | OMX_REQUEST_TYPE_SEND_MEDIUMVA | OMX_REQUEST_TYPE_SEND_LARGE | OMX_REQUEST_TYPE_RECV
  | OMX_REQUEST_TYPE_RECV_LARGE | OMX_REQUEST_TYPE_SEND_SELF
  | OMX_REQUEST_TYPE_RECV_SELF_UNEXPECTED.
#[export] Instance request_type_eq_dec : EqDecision request_type.
Proof. solve_decision. Defined.

(* [libxen2mx/omx_types.h:415-442] omx__request_state *)
Definition OMX_REQUEST_STATE_NEED_RESOURCES : Z := 2 ^ 0.
Definition OMX_REQUEST_STATE_NEED_SEQNUM : Z := 2 ^ 1.
Definition OMX_REQUEST_STATE_DRIVER_MEDIUMSQ_SENDING : Z := 2 ^ 2.
Definition OMX_REQUEST_STATE_NEED_ACK : Z := 2 ^ 3.
Definition OMX_REQUEST_STATE_NEED_REPLY : Z := 2 ^ 4.
Definition OMX_REQUEST_STATE_RECV_NEED_MATCHING : Z := 2 ^ 5.
Definition OMX_REQUEST_STATE_RECV_PARTIAL : Z := 2 ^ 6.
Definition OMX_REQUEST_STATE_DRIVER_PULLING : Z := 2 ^ 7.
Definition OMX_REQUEST_STATE_UNEXPECTED_RECV : Z := 2 ^ 8.
Definition OMX_REQUEST_STATE_UNEXPECTED_SELF_SEND : Z := 2 ^ 9.
Definition OMX_REQUEST_STATE_DONE : Z := 2 ^ 10.
Definition OMX_REQUEST_STATE_ZOMBIE : Z := 2 ^ 11.
Definition OMX_REQUEST_STATE_INTERNAL : Z := 2 ^ 12.

(* [libxen2mx/omx_types.h:223-238] omx__request_resource *)
Definition OMX_REQUEST_RESOURCE_EXP_EVENT : Z := 2 ^ 0.
Definition OMX_REQUEST_RESOURCE_SEND_LARGE_REGION : Z := 2 ^ 1.
Definition OMX_REQUEST_RESOURCE_LARGE_REGION : Z := 2 ^ 2.
Definition OMX_REQUEST_RESOURCE_PULL_HANDLE : Z := 2 ^ 3.
Definition OMX_REQUEST_RESOURCE_SENDQ_SLOT : Z := 2 ^ 4.
Definition OMX_REQUEST_SEND_MEDIUMSQ_RESOURCES : Z :=
  Z.lor OMX_REQUEST_RESOURCE_EXP_EVENT OMX_REQUEST_RESOURCE_SENDQ_SLOT.
Definition OMX_REQUEST_SEND_LARGE_RESOURCES : Z :=
  Z.lor OMX_REQUEST_RESOURCE_SEND_LARGE_REGION OMX_REQUEST_RESOURCE_LARGE_REGION.
Definition OMX_REQUEST_PULL_RESOURCES : Z :=
  Z.lor (Z.lor OMX_REQUEST_RESOURCE_EXP_EVENT OMX_REQUEST_RESOURCE_LARGE_REGION)
    OMX_REQUEST_RESOURCE_PULL_HANDLE.

(** Configuration: the medium fragment length of the default MTU and the sizes
    of the shared rings ([common/omx_io.h], [common/omx_wire.h]). *)
Definition OMX_MEDIUM_FRAG_LENGTH_MAX : Z := 8192.
Definition OMX_SENDQ_ENTRY_SHIFT : Z := 13.
Definition OMX_SENDQ_ENTRY_NR : Z := 1024.
Definition OMX_TINY_MSG_LENGTH_MAX : Z := 32.
Definition OMX_SMALL_MSG_LENGTH_MAX : Z := 128.
Definition OMX_USER_REGION_MAX : Z := 256.

(** ** Driver commands *)

(** The parameters of the [SEND_*] commands; each command has the fields of
    its own structure. *)
(* [common/omx_io.h:319-416] omx_cmd_send_tiny *)
Record send_param := SendParam {
  sp_peer_index : Z; sp_dest_endpoint : Z; sp_shared : bool; sp_session_id : Z;
  sp_seqnum : Z; sp_piggyack : Z; sp_length : Z; sp_match_info : Z;
  sp_vaddr : Z;                           (* small; tiny: its inline data array *)
  sp_sendq_offset : Z; sp_frag_length : Z; sp_frag_seqnum : Z;     (* mediumsq frag *)
  sp_nr_segments : Z; sp_segments : segs_ptr;                      (* mediumva *)
  sp_rdma_id : Z; sp_rdma_seqnum : Z      (* rndv, notify *)
}.
(* [common/omx_io.h:418-433] omx_cmd_send_connect_request *)
Record connect_param := ConnectParam {
  cp_peer_index : Z; cp_dest_endpoint : Z; cp_shared_disabled : bool; cp_seqnum : Z;
  cp_src_session_id : Z; cp_app_key : Z; cp_target_recv_seqnum_start : Z; cp_connect_seqnum : Z
}.
(* [common/omx_io.h:453-470] omx_cmd_pull *)
Record pull_param := PullParam {
  pl_peer_index : Z; pl_dest_endpoint : Z; pl_shared : bool; pl_session_id : Z;
  pl_length : Z; pl_resend_timeout_jiffies : Z; pl_puller_rdma_id : Z;
  pl_pulled_rdma_offset : Z; pl_pulled_rdma_id : Z; pl_pulled_rdma_seqnum : Z; pl_lib_cookie : Z
}.
Inductive cmd :=
  | CmdTiny (p : send_param) | CmdSmall (p : send_param) | CmdMediumsqFrag (p : send_param)
  | CmdMediumva (p : send_param) | CmdRndv (p : send_param) | CmdNotify (p : send_param)
  | CmdConnectRequest (p : connect_param)
  | CmdConnectReply (peer_index dest_endpoint : Z) (shared_disabled : bool)
      (src_session_id target_session_id target_recv_seqnum_start connect_seqnum status : Z)
  | CmdLiback (peer_index dest_endpoint : Z) (shared : bool) (session_id acknum lib_seqnum : Z)
  | CmdPull (p : pull_param)
  | CmdCreateRegion (id nseg : Z) (segments : segs_ptr) | CmdDestroyRegion (id : Z)
  | CmdWakeup (status : Z)
  | CmdWaitEvent (user_event_index next_exp_event_index next_unexp_event_index jiffies_expire : Z)
  | CmdReleaseExp | CmdReleaseUnexp.

(** What the process did: commands with the driver's answer ([None] is 0,
    [Some c] an errno translated to [c]) and calls to [omx_free_ep]. *)
Inductive action :=
  | Ioctl (c : cmd) (res : option omx_return)
  | Free (addr : Z).

(** ** Received events *)
(* [common/omx_io.h:946-1014] omx_evt_recv_msg *)
Inductive msg_specific :=
  | MsgTiny (length data : Z)
  | MsgSmall (recvq_offset length : Z)
  | MsgMediumFrag (recvq_offset msg_length frag_length frag_seqnum : Z)
  | MsgRndv (msg_length pulled_rdma_id pulled_rdma_seqnum pulled_rdma_offset checksum : Z)
  | MsgNotify (length pulled_rdma_id pulled_rdma_seqnum : Z).
Record recv_msg := RecvMsg {
  m_peer_index : Z; m_src_endpoint : Z; m_seqnum : Z; m_piggyack : Z; m_match_info : Z;
  m_specific : msg_specific
}.
(** The [omx__process_recv_func_t] callbacks. *)
Inductive recv_func := RecvTiny | RecvSmall | RecvMediumFrag | RecvRndv | RecvNotify.

(* [libxen2mx/omx_types.h:550-556] omx__early_packet *)
Record early_packet := Early {
  e_msg : recv_msg; e_recv_func : recv_func; e_data : Z; e_msg_length : Z
}.

(* [libxen2mx/omx_types.h:120-124] omx__partner_need_ack *)
Inductive need_ack := NEED_NO_ACK | NEED_ACK_DELAYED | NEED_ACK_IMMEDIATE.
#[export] Instance need_ack_eq_dec : EqDecision need_ack.
Proof. solve_decision. Defined.
(* [libxen2mx/omx_types.h:114-118] omx__partner_localization *)
Inductive localization := LOCAL | REMOTE | UNKNOWN.

(* [libxen2mx/omx_types.h:126-205] omx__partner *)
Record partner := Partner {
  p_board_addr : Z; p_peer_index : Z; p_endpoint_index : Z; p_localization : localization;
  p_rndv_threshold : Z; p_true_session_id : Z; p_back_session_id : Z; p_connect_seqnum : Z;
  p_last_send_acknum : Z; p_last_recv_acknum : Z; p_throttling_sends_nr : Z;
  p_next_send_seq : Z; p_next_acked_send_seq : Z;
  p_next_match_recv_seq : Z; p_next_frag_recv_seq : Z; p_last_acked_recv_seq : Z;
  p_need_ack : need_ack; p_oldest_recv_time_not_acked : Z; p_user_context : Z
}.

(* [libxen2mx/omx_types.h:475-542] omx_request *)
Record request := Request {
  r_type : request_type; r_state : Z; r_missing_resources : Z; r_partner : Z;
  r_send_seqnum : Z; r_last_send_jiffies : Z; r_resends_max : Z; r_resends : Z;
  (* status *)
  s_code : omx_return; s_addr : Z * Z; s_match_info : Z; s_msg_length : Z; s_xfer_length : Z;
  s_context : Z;
  (* send.segs and recv.segs, at the same place in both *)
  r_segs : req_segs;
  (* the ioctl parameters of a send or of the notify of a large receive *)
  r_param : send_param;
  small_copy : Z;
  frags_nr : Z; frags_pending_nr : Z; sendq_map_index : list Z;
  large_region : Z; large_region_seqnum : Z;
  (* recv *)
  r_match_info : Z; r_match_mask : Z; r_checksum : Z; r_seqnum : Z;
  frags_received_mask : Z; accumulated_length : Z; scan_offset : Z; scan_state : segscan_state;
  scan_base : segs_ptr;   (* the array [scan_state.seg] points into *)
  local_region : Z; pulled_rdma_id : Z; pulled_rdma_seqnum : Z; pulled_rdma_offset : Z;
  self_sreq : Z;
  (* connect *)
  c_param : connect_param; c_session_id : Z; c_connect_seqnum : Z
}.

(** The [reserver] pointer is not initialised before the first registration. *)
Inductive reserver := RUninit | RNull | RObj (req : Z).
(* [libxen2mx/omx_types.h:62-77] omx__large_region_map *)
Record region := Region {
  g_use_count : Z; g_id : Z; g_last_seqnum : Z; g_segs : req_segs; g_reserver : reserver
}.
Record region_map := RegionMap {
  rm_first_free : Z; rm_nr_free : Z; rm_next_free : gmap Z Z; rm_region : gmap Z region
}.
(* [libxen2mx/omx_types.h:53-60] omx__sendq_map *)
Record sendq_map := SendqMap {
  sm_first_free : Z; sm_nr_free : Z; sm_next_free : gmap Z Z; sm_user : gmap Z Z
}.

(** [omx__globals] and the driver descriptor's constants. *)
(* [libxen2mx/omx_types.h:558-590] omx__globals *)
Record globals := Globals {
  regcache : bool; parallel_regcache : bool; medium_sendq : bool; selfcomms : bool;
  sharedcomms : bool; waitspin : bool; waitintr : bool; connect_pollall : bool; rndv_threshold : Z; shared_rndv_threshold : Z;
  ack_delay_jiffies : Z; resend_delay_jiffies : Z; not_acked_max : Z; endpoint_max : Z; hz : Z
}.

(* [libxen2mx/omx_types.h:240-349] omx_endpoint *)
Record world := World {
  w_globals : globals;
  jiffies : Z;
  (* queues, requests, partners, early packets *)
  qs : gmap node (list node);
  reqs : gmap Z request;
  partners : gmap Z partner;
  earlies : gmap Z early_packet;
  myself : Z;
  (* resources *)
  w_sendq_map : sendq_map;
  w_region_map : region_map;
  large_sends_avail_nr : Z;
  avail_exp_events : Z;
  zombies : Z; zombie_max : Z;
  ctxid_bits : Z; ctxid_max : Z; ctxid_shift : Z; ctxid_mask : Z;
  req_resends_max : Z; pull_resend_timeout_jiffies : Z;
  progression_disabled : Z;
  last_partners_acking_jiffies : Z;
  app_key : Z;
  sendq : Z; recvq : Z;
  sleepers : list (Z * bool);  (* [omx__sleeper] on the stacks of the threads: [need_wakeup] *)
  next_exp_event_index : Z; next_unexp_event_index : Z;
  check_status_delay_jiffies : Z; last_check_jiffies : Z; desc_status : Z;
  (* the endpoint descriptor shared with the driver *)
  session_id : Z; user_event_index : Z; wakeup_jiffies : Z;
  (* memory, future answers of the allocator and the driver, past actions *)
  memory : mem;
  mallocs : list (option Z);
  ioctls : list (option omx_return);
  trace : list action
}.

(** ** Record updates *)
#[export] Instance e_send_param : Settable send_param := fun r => SendParam (sp_peer_index r)
  (sp_dest_endpoint r) (sp_shared r) (sp_session_id r) (sp_seqnum r) (sp_piggyack r) (sp_length
  r) (sp_match_info r) (sp_vaddr r) (sp_sendq_offset r) (sp_frag_length r)
  (sp_frag_seqnum r) (sp_nr_segments r) (sp_segments r) (sp_rdma_id r) (sp_rdma_seqnum r).
#[export] Instance s_sp_peer_index : Setter sp_peer_index. Proof. mk_setter. Defined.
#[export] Instance s_sp_dest_endpoint : Setter sp_dest_endpoint. Proof. mk_setter. Defined.
#[export] Instance s_sp_shared : Setter sp_shared. Proof. mk_setter. Defined.
#[export] Instance s_sp_session_id : Setter sp_session_id. Proof. mk_setter. Defined.
#[export] Instance s_sp_seqnum : Setter sp_seqnum. Proof. mk_setter. Defined.
#[export] Instance s_sp_piggyack : Setter sp_piggyack. Proof. mk_setter. Defined.
#[export] Instance s_sp_length : Setter sp_length. Proof. mk_setter. Defined.
#[export] Instance s_sp_match_info : Setter sp_match_info. Proof. mk_setter. Defined.
#[export] Instance s_sp_vaddr : Setter sp_vaddr. Proof. mk_setter. Defined.
#[export] Instance s_sp_sendq_offset : Setter sp_sendq_offset. Proof. mk_setter. Defined.
#[export] Instance s_sp_frag_length : Setter sp_frag_length. Proof. mk_setter. Defined.
#[export] Instance s_sp_frag_seqnum : Setter sp_frag_seqnum. Proof. mk_setter. Defined.
#[export] Instance s_sp_nr_segments : Setter sp_nr_segments. Proof. mk_setter. Defined.
#[export] Instance s_sp_segments : Setter sp_segments. Proof. mk_setter. Defined.
#[export] Instance s_sp_rdma_id : Setter sp_rdma_id. Proof. mk_setter. Defined.
#[export] Instance s_sp_rdma_seqnum : Setter sp_rdma_seqnum. Proof. mk_setter. Defined.
#[export] Instance e_connect_param : Settable connect_param := fun r => ConnectParam
  (cp_peer_index r) (cp_dest_endpoint r) (cp_shared_disabled r) (cp_seqnum r)
  (cp_src_session_id r) (cp_app_key r) (cp_target_recv_seqnum_start r) (cp_connect_seqnum r).
#[export] Instance s_cp_peer_index : Setter cp_peer_index. Proof. mk_setter. Defined.
#[export] Instance s_cp_dest_endpoint : Setter cp_dest_endpoint. Proof. mk_setter. Defined.
#[export] Instance s_cp_shared_disabled : Setter cp_shared_disabled. Proof. mk_setter. Defined.
#[export] Instance s_cp_seqnum : Setter cp_seqnum. Proof. mk_setter. Defined.
#[export] Instance s_cp_src_session_id : Setter cp_src_session_id. Proof. mk_setter. Defined.
#[export] Instance s_cp_app_key : Setter cp_app_key. Proof. mk_setter. Defined.
#[export] Instance s_cp_target_recv_seqnum_start : Setter cp_target_recv_seqnum_start. Proof. mk_setter. Defined.
#[export] Instance s_cp_connect_seqnum : Setter cp_connect_seqnum. Proof. mk_setter. Defined.
#[export] Instance e_partner : Settable partner := fun r => Partner (p_board_addr r)
  (p_peer_index r) (p_endpoint_index r) (p_localization r) (p_rndv_threshold r)
  (p_true_session_id r) (p_back_session_id r) (p_connect_seqnum r) (p_last_send_acknum r)
  (p_last_recv_acknum r) (p_throttling_sends_nr r) (p_next_send_seq r) (p_next_acked_send_seq
  r) (p_next_match_recv_seq r) (p_next_frag_recv_seq r) (p_last_acked_recv_seq r) (p_need_ack
  r) (p_oldest_recv_time_not_acked r) (p_user_context r).
#[export] Instance s_p_board_addr : Setter p_board_addr. Proof. mk_setter. Defined.
#[export] Instance s_p_peer_index : Setter p_peer_index. Proof. mk_setter. Defined.
#[export] Instance s_p_endpoint_index : Setter p_endpoint_index. Proof. mk_setter. Defined.
#[export] Instance s_p_localization : Setter p_localization. Proof. mk_setter. Defined.
#[export] Instance s_p_rndv_threshold : Setter p_rndv_threshold. Proof. mk_setter. Defined.
#[export] Instance s_p_true_session_id : Setter p_true_session_id. Proof. mk_setter. Defined.
#[export] Instance s_p_back_session_id : Setter p_back_session_id. Proof. mk_setter. Defined.
#[export] Instance s_p_connect_seqnum : Setter p_connect_seqnum. Proof. mk_setter. Defined.
#[export] Instance s_p_last_send_acknum : Setter p_last_send_acknum. Proof. mk_setter. Defined.
#[export] Instance s_p_last_recv_acknum : Setter p_last_recv_acknum. Proof. mk_setter. Defined.
#[export] Instance s_p_throttling_sends_nr : Setter p_throttling_sends_nr. Proof. mk_setter. Defined.
#[export] Instance s_p_next_send_seq : Setter p_next_send_seq. Proof. mk_setter. Defined.
#[export] Instance s_p_next_acked_send_seq : Setter p_next_acked_send_seq. Proof. mk_setter. Defined.
#[export] Instance s_p_next_match_recv_seq : Setter p_next_match_recv_seq. Proof. mk_setter. Defined.
#[export] Instance s_p_next_frag_recv_seq : Setter p_next_frag_recv_seq. Proof. mk_setter. Defined.
#[export] Instance s_p_last_acked_recv_seq : Setter p_last_acked_recv_seq. Proof. mk_setter. Defined.
#[export] Instance s_p_need_ack : Setter p_need_ack. Proof. mk_setter. Defined.
#[export] Instance s_p_oldest_recv_time_not_acked : Setter p_oldest_recv_time_not_acked. Proof. mk_setter. Defined.
#[export] Instance s_p_user_context : Setter p_user_context. Proof. mk_setter. Defined.
#[export] Instance e_request : Settable request := fun r => Request (r_type r) (r_state r)
  (r_missing_resources r) (r_partner r) (r_send_seqnum r) (r_last_send_jiffies r)
  (r_resends_max r) (r_resends r) (s_code r) (s_addr r) (s_match_info r) (s_msg_length r)
  (s_xfer_length r) (s_context r) (r_segs r) (r_param r) (small_copy r) (frags_nr r)
  (frags_pending_nr r) (sendq_map_index r) (large_region r) (large_region_seqnum r)
  (r_match_info r) (r_match_mask r) (r_checksum r) (r_seqnum r) (frags_received_mask r)
  (accumulated_length r) (scan_offset r) (scan_state r) (scan_base r) (local_region r) (pulled_rdma_id r)
  (pulled_rdma_seqnum r) (pulled_rdma_offset r) (self_sreq r) (c_param r) (c_session_id r)
  (c_connect_seqnum r).
#[export] Instance s_r_type : Setter r_type. Proof. mk_setter. Defined.
#[export] Instance s_r_state : Setter r_state. Proof. mk_setter. Defined.
#[export] Instance s_r_missing_resources : Setter r_missing_resources. Proof. mk_setter. Defined.
#[export] Instance s_r_partner : Setter r_partner. Proof. mk_setter. Defined.
#[export] Instance s_r_send_seqnum : Setter r_send_seqnum. Proof. mk_setter. Defined.
#[export] Instance s_r_last_send_jiffies : Setter r_last_send_jiffies. Proof. mk_setter. Defined.
#[export] Instance s_r_resends_max : Setter r_resends_max. Proof. mk_setter. Defined.
#[export] Instance s_r_resends : Setter r_resends. Proof. mk_setter. Defined.
#[export] Instance s_s_code : Setter s_code. Proof. mk_setter. Defined.
#[export] Instance s_s_addr : Setter s_addr. Proof. mk_setter. Defined.
#[export] Instance s_s_match_info : Setter s_match_info. Proof. mk_setter. Defined.
#[export] Instance s_s_msg_length : Setter s_msg_length. Proof. mk_setter. Defined.
#[export] Instance s_s_xfer_length : Setter s_xfer_length. Proof. mk_setter. Defined.
#[export] Instance s_s_context : Setter s_context. Proof. mk_setter. Defined.
#[export] Instance s_r_segs : Setter r_segs. Proof. mk_setter. Defined.
#[export] Instance s_r_param : Setter r_param. Proof. mk_setter. Defined.
#[export] Instance s_small_copy : Setter small_copy. Proof. mk_setter. Defined.
#[export] Instance s_frags_nr : Setter frags_nr. Proof. mk_setter. Defined.
#[export] Instance s_frags_pending_nr : Setter frags_pending_nr. Proof. mk_setter. Defined.
#[export] Instance s_sendq_map_index : Setter sendq_map_index. Proof. mk_setter. Defined.
#[export] Instance s_large_region : Setter large_region. Proof. mk_setter. Defined.
#[export] Instance s_large_region_seqnum : Setter large_region_seqnum. Proof. mk_setter. Defined.
#[export] Instance s_r_match_info : Setter r_match_info. Proof. mk_setter. Defined.
#[export] Instance s_r_match_mask : Setter r_match_mask. Proof. mk_setter. Defined.
#[export] Instance s_r_checksum : Setter r_checksum. Proof. mk_setter. Defined.
#[export] Instance s_r_seqnum : Setter r_seqnum. Proof. mk_setter. Defined.
#[export] Instance s_frags_received_mask : Setter frags_received_mask. Proof. mk_setter. Defined.
#[export] Instance s_accumulated_length : Setter accumulated_length. Proof. mk_setter. Defined.
#[export] Instance s_scan_offset : Setter scan_offset. Proof. mk_setter. Defined.
#[export] Instance s_scan_state : Setter scan_state. Proof. mk_setter. Defined.
#[export] Instance s_scan_base : Setter scan_base. Proof. mk_setter. Defined.
#[export] Instance s_local_region : Setter local_region. Proof. mk_setter. Defined.
#[export] Instance s_pulled_rdma_id : Setter pulled_rdma_id. Proof. mk_setter. Defined.
#[export] Instance s_pulled_rdma_seqnum : Setter pulled_rdma_seqnum. Proof. mk_setter. Defined.
#[export] Instance s_pulled_rdma_offset : Setter pulled_rdma_offset. Proof. mk_setter. Defined.
#[export] Instance s_self_sreq : Setter self_sreq. Proof. mk_setter. Defined.
#[export] Instance s_c_param : Setter c_param. Proof. mk_setter. Defined.
#[export] Instance s_c_session_id : Setter c_session_id. Proof. mk_setter. Defined.
#[export] Instance s_c_connect_seqnum : Setter c_connect_seqnum. Proof. mk_setter. Defined.
#[export] Instance e_region : Settable region := fun r => Region (g_use_count r) (g_id r)
  (g_last_seqnum r) (g_segs r) (g_reserver r).
#[export] Instance s_g_use_count : Setter g_use_count. Proof. mk_setter. Defined.
#[export] Instance s_g_id : Setter g_id. Proof. mk_setter. Defined.
#[export] Instance s_g_last_seqnum : Setter g_last_seqnum. Proof. mk_setter. Defined.
#[export] Instance s_g_segs : Setter g_segs. Proof. mk_setter. Defined.
#[export] Instance s_g_reserver : Setter g_reserver. Proof. mk_setter. Defined.
#[export] Instance e_region_map : Settable region_map := fun r => RegionMap (rm_first_free r)
  (rm_nr_free r) (rm_next_free r) (rm_region r).
#[export] Instance s_rm_first_free : Setter rm_first_free. Proof. mk_setter. Defined.
#[export] Instance s_rm_nr_free : Setter rm_nr_free. Proof. mk_setter. Defined.
#[export] Instance s_rm_next_free : Setter rm_next_free. Proof. mk_setter. Defined.
#[export] Instance s_rm_region : Setter rm_region. Proof. mk_setter. Defined.
#[export] Instance e_sendq_map : Settable sendq_map := fun r => SendqMap (sm_first_free r)
  (sm_nr_free r) (sm_next_free r) (sm_user r).
#[export] Instance s_sm_first_free : Setter sm_first_free. Proof. mk_setter. Defined.
#[export] Instance s_sm_nr_free : Setter sm_nr_free. Proof. mk_setter. Defined.
#[export] Instance s_sm_next_free : Setter sm_next_free. Proof. mk_setter. Defined.
#[export] Instance s_sm_user : Setter sm_user. Proof. mk_setter. Defined.
#[export] Instance e_world : Settable world := fun r => World (w_globals r) (jiffies r) (qs r)
  (reqs r) (partners r) (earlies r) (myself r) (w_sendq_map r) (w_region_map r)
  (large_sends_avail_nr r) (avail_exp_events r) (zombies r) (zombie_max r) (ctxid_bits r)
  (ctxid_max r) (ctxid_shift r) (ctxid_mask r) (req_resends_max r) (pull_resend_timeout_jiffies
  r) (progression_disabled r) (last_partners_acking_jiffies r) (app_key r) (sendq r) (recvq r)
  (sleepers r) (next_exp_event_index r) (next_unexp_event_index r) (check_status_delay_jiffies r) (last_check_jiffies r) (desc_status r) (session_id r) (user_event_index r) (wakeup_jiffies r) (memory r) (mallocs r)
  (ioctls r) (trace r).
#[export] Instance s_w_globals : Setter w_globals. Proof. mk_setter. Defined.
#[export] Instance s_jiffies : Setter jiffies. Proof. mk_setter. Defined.
#[export] Instance s_qs : Setter qs. Proof. mk_setter. Defined.
#[export] Instance s_reqs : Setter reqs. Proof. mk_setter. Defined.
#[export] Instance s_partners : Setter partners. Proof. mk_setter. Defined.
#[export] Instance s_earlies : Setter earlies. Proof. mk_setter. Defined.
#[export] Instance s_myself : Setter myself. Proof. mk_setter. Defined.
#[export] Instance s_w_sendq_map : Setter w_sendq_map. Proof. mk_setter. Defined.
#[export] Instance s_w_region_map : Setter w_region_map. Proof. mk_setter. Defined.
#[export] Instance s_large_sends_avail_nr : Setter large_sends_avail_nr. Proof. mk_setter. Defined.
#[export] Instance s_avail_exp_events : Setter avail_exp_events. Proof. mk_setter. Defined.
#[export] Instance s_zombies : Setter zombies. Proof. mk_setter. Defined.
#[export] Instance s_zombie_max : Setter zombie_max. Proof. mk_setter. Defined.
#[export] Instance s_ctxid_bits : Setter ctxid_bits. Proof. mk_setter. Defined.
#[export] Instance s_ctxid_max : Setter ctxid_max. Proof. mk_setter. Defined.
#[export] Instance s_ctxid_shift : Setter ctxid_shift. Proof. mk_setter. Defined.
#[export] Instance s_ctxid_mask : Setter ctxid_mask. Proof. mk_setter. Defined.
#[export] Instance s_req_resends_max : Setter req_resends_max. Proof. mk_setter. Defined.
#[export] Instance s_pull_resend_timeout_jiffies : Setter pull_resend_timeout_jiffies. Proof. mk_setter. Defined.
#[export] Instance s_progression_disabled : Setter progression_disabled. Proof. mk_setter. Defined.
#[export] Instance s_last_partners_acking_jiffies : Setter last_partners_acking_jiffies. Proof. mk_setter. Defined.
#[export] Instance s_app_key : Setter app_key. Proof. mk_setter. Defined.
#[export] Instance s_sendq : Setter sendq. Proof. mk_setter. Defined.
#[export] Instance s_recvq : Setter recvq. Proof. mk_setter. Defined.
#[export] Instance s_sleepers : Setter sleepers. Proof. mk_setter. Defined.
#[export] Instance s_next_exp_event_index : Setter next_exp_event_index. Proof. mk_setter. Defined.
#[export] Instance s_next_unexp_event_index : Setter next_unexp_event_index. Proof. mk_setter. Defined.
#[export] Instance s_check_status_delay_jiffies : Setter check_status_delay_jiffies. Proof. mk_setter. Defined.
#[export] Instance s_last_check_jiffies : Setter last_check_jiffies. Proof. mk_setter. Defined.
#[export] Instance s_desc_status : Setter desc_status. Proof. mk_setter. Defined.
#[export] Instance s_session_id : Setter session_id. Proof. mk_setter. Defined.
#[export] Instance s_user_event_index : Setter user_event_index. Proof. mk_setter. Defined.
#[export] Instance s_wakeup_jiffies : Setter wakeup_jiffies. Proof. mk_setter. Defined.
#[export] Instance s_memory : Setter memory. Proof. mk_setter. Defined.
#[export] Instance s_mallocs : Setter mallocs. Proof. mk_setter. Defined.
#[export] Instance s_ioctls : Setter ioctls. Proof. mk_setter. Defined.
#[export] Instance s_trace : Setter trace. Proof. mk_setter. Defined.

(** ** The monad of the library's code *)

(** A run stops at [omx__abort] or a fatal error handler ([Aborted]) or at an
    access the code may not make, such as a freed request ([Undefined]), or
    never ends ([Diverged]). *)
Inductive stop := Aborted | Undefined | Diverged.
Inductive outcome (A : Type) := Ret (a : A) (w : world) | Stop (s : stop) (w : world).
Arguments Ret {A} a w.
Arguments Stop {A} s w.
Definition M (A : Type) : Type := world -> outcome A.

#[export] Instance M_ret : MRet M := fun A a w => Ret a w.
#[export] Instance M_bind : MBind M := fun A B k m w =>
  match m w with Ret a w => k a w | Stop s w => Stop s w end.

Definition get : M world := fun w => Ret w w.
Definition modify (f : world -> world) : M unit := fun w => Ret tt (f w).
Definition abort {A} : M A := fun w => Stop Aborted w.
Definition undef {A} : M A := fun w => Stop Undefined w.
Definition diverge {A} : M A := fun w => Stop Diverged w.
Definition when (b : bool) (m : M unit) : M unit := if b then m else mret tt.
Definition of_option {A} (o : option A) : M A := match o with Some a => mret a | None => undef end.

(** Loops over a list: [each] runs the body on every element, [until] stops
    after the first body that returns [false]. *)
Fixpoint each {A} (f : A -> M unit) (l : list A) : M unit :=
  match l with [] => mret tt | x :: l => f x;; each f l end.
Fixpoint until {A} (f : A -> M bool) (l : list A) : M unit :=
  match l with [] => mret tt | x :: l => c ← f x; if (c : bool) then until f l else mret tt end.

(** Running a sequence, forwards and backwards. *)
Lemma bind_run {A B} (m : M A) (k : A -> M B) w a w1 :
  m w = Ret a w1 -> (m ≫= k) w = k a w1.
Proof. intros E. unfold mbind, M_bind. by rewrite E. Qed.
Lemma bind_inv {A B} (m : M A) (k : A -> M B) w b w' :
  (m ≫= k) w = Ret b w' -> exists a w1, m w = Ret a w1 /\ k a w1 = Ret b w'.
Proof. unfold mbind, M_bind. destruct (m w) as [a w1|]; [eauto|done]. Qed.

(** Take a successful run of a sequence apart. *)
Ltac minv H :=
  let a := fresh "a" in let w := fresh "w" in let E := fresh "E" in
  apply bind_inv in H as (a & w & E & H).

Tactic Notation "mstep" hyp(H) "as" ident(a) ident(w) ident(E) :=
  apply bind_inv in H as (a & w & E & H).
Lemma get_bind {A} (k : world -> M A) w : (get ≫= k) w = k w w.
Proof. done. Qed.

(** ** Primitives *)
Definition queue (h : node) (w : world) : list node := default [] (qs w !! h).
Definition node_id (n : node) : Z := snd (node_code n).

Definition read_queue (h : node) : M (list node) := w ← get; mret (queue h w).
(** The identifiers of the objects of a queue, in order. *)
Definition ids (h : node) : M (list Z) := l ← read_queue h; mret (node_id <$> l).
Definition on_qs (f : gmap node (list node) -> gmap node (list node)) : M unit :=
  modify (fun w => w <| qs ::= f |>).
(** [list_add_tail], [list_add_after] on a head, [list_del], [list_move],
    [list_spliceall_tail] and [list_head_init]. *)
Definition add_tail (e h : node) : M unit := on_qs (q_add_tail e h).
Definition add_head (e h : node) : M unit := on_qs (q_add_head e h).
Definition unlink (e : node) : M unit := on_qs (q_del e).
Definition move_head (e h : node) : M unit := on_qs (fun F => q_add_head e h (q_del e F)).
Definition splice_tail (src dst : node) : M unit := on_qs (q_splice src dst).
Definition init_head (h : node) : M unit := on_qs (q_init h).

Definition get_req (r : Z) : M request := w ← get; of_option (reqs w !! r).
Definition get_partner (p : Z) : M partner := w ← get; of_option (partners w !! p).
Definition upd_req (r : Z) (f : request -> request) : M unit :=
  q ← get_req r; modify (fun w => w <| reqs ::= <[r := f q]> |>).
Definition upd_partner (p : Z) (f : partner -> partner) : M unit :=
  q ← get_partner p; modify (fun w => w <| partners ::= <[p := f q]> |>).

Lemma get_req_run r w x : reqs w !! r = Some x -> get_req r w = Ret x w.
Proof. intros E. unfold get_req, get, mbind, M_bind, of_option. by rewrite E. Qed.
Lemma get_partner_run p w q : partners w !! p = Some q -> get_partner p w = Ret q w.
Proof. intros E. unfold get_partner, get, mbind, M_bind, of_option. by rewrite E. Qed.
Lemma upd_req_run r f w x : reqs w !! r = Some x ->
  upd_req r f w = Ret tt (w <| reqs ::= <[r := f x]> |>).
Proof. intros E. unfold upd_req. by rewrite (bind_run _ _ _ _ _ (get_req_run _ _ _ E)). Qed.
Lemma upd_partner_run p f w q : partners w !! p = Some q ->
  upd_partner p f w = Ret tt (w <| partners ::= <[p := f q]> |>).
Proof. intros E. unfold upd_partner. by rewrite (bind_run _ _ _ _ _ (get_partner_run _ _ _ E)). Qed.
Lemma ids_run h w : ids h w = Ret (node_id <$> queue h w) w.
Proof. done. Qed.

(** [omx_malloc_ep]: the allocator's next answer; it never returns a live
    request again, which [fresh] states where it matters. *)
Definition omx_malloc_ep : M (option Z) := fun w =>
  match mallocs w with
  | [] => Ret None w
  | a :: l => Ret a (w <| mallocs := l |>)
  end.
Definition omx_free_ep (addr : Z) : M unit := modify (fun w => w <| trace ::= cons (Free addr) |>).

(** [ioctl]: the driver's next answer, 0 when nothing else is said. *)
Definition ioctl (c : cmd) : M (option omx_return) := fun w =>
  match ioctls w with
  | [] => Ret None (w <| trace ::= cons (Ioctl c None) |>)
  | a :: l => Ret a (w <| ioctls := l |> <| trace ::= cons (Ioctl c a) |>)
  end.
(* [libxen2mx/omx_misc.c:66-90] omx__ioctl_errno_to_return_checked *)
Definition omx__ioctl_errno_to_return_checked (err : omx_return) (ok : list omx_return) : M omx_return :=
  if bool_decide (err ∈ ok) then mret err else abort.

Definition jiffies_now : M Z := w ← get; mret (jiffies w).
Definition on_mem (f : mem -> option mem) : M unit := fun w =>
  match f (memory w) with
  | Some m => Ret tt (w <| memory := m |>)
  | None => Stop Undefined w
  end.

(** ** The application

    The unexpected-message handler runs with the lock released: it may call
    the library again, so it is a function on the state.  The error handler
    returns a code or exits ([None]). *)
Inductive handler_ret := RECV_FINISHED | RECV_CONTINUE | RECV_OTHER.
Record unexp_call := UnexpCall {
  uc_source : Z * Z; uc_match_info : Z; uc_msg_length : Z; uc_data : option Z
}.
Class App := {
  unexp_handler : option (unexp_call -> world -> handler_ret * world);
  error_handler : omx_return -> option omx_return
}.

(* [libxen2mx/omx_error.c:115-134] omx__error_with_req *)
Definition omx__error_with_req `{App} (code : omx_return) : M omx_return :=
  if bool_decide (code = OMX_SUCCESS) then mret OMX_SUCCESS
  else match error_handler code with Some c => mret c | None => abort end.
(* [libxen2mx/omx_error.c:94-113] omx__error_with_ep *)
Definition omx__error_with_ep `{App} (ret : omx_return) : M omx_return :=
  if bool_decide (ret = OMX_SUCCESS) then mret OMX_SUCCESS
  else match error_handler ret with Some c => mret c | None => abort end.

(* [libxen2mx/omx_types.h:215-215] HAS_CTXIDS *)
Definition HAS_CTXIDS (w : world) : bool := 0 <? ctxid_bits w.
(* [libxen2mx/omx_types.h:216-216] MATCHING_CROSS_CTXIDS *)
Definition MATCHING_CROSS_CTXIDS (w : world) (match_info : Z) : bool := hasf match_info (ctxid_mask w).
(* [libxen2mx/omx_types.h:217-217] CTXID_FROM_MATCHING *)
Definition CTXID_FROM_MATCHING (w : world) (match_info : Z) : Z :=
  u32 (Z.land (Z.shiftr match_info (ctxid_shift w)) (ctxid_max w - 1)).
Definition ctxid_of (match_info : Z) : M Z := w ← get; mret (CTXID_FROM_MATCHING w match_info).

(* [libxen2mx/omx_test.c:787-810] omx__wakeup *)
Definition omx__wakeup (status : Z) : M omx_return :=
  w ← get;
  if waitspin (w_globals w) then
    modify (fun w => w <| sleepers ::= map (fun s => (fst s, true)) |>);;
    mret OMX_SUCCESS
  else if bool_decide (sleepers w = []) then mret OMX_SUCCESS
  else
    err ← ioctl (CmdWakeup status);
    match err with
    | Some e => omx__ioctl_errno_to_return_checked e [];; mret OMX_SUCCESS
    | None => mret OMX_SUCCESS
    end.
(* [libxen2mx/omx_test.c:813-819] omx__notify_user_event *)
Definition omx__notify_user_event : M unit :=
  modify (fun w => w <| user_event_index ::= fun i => u32 (i + 1) |>);;
  omx__wakeup OMX_CMD_WAIT_EVENT_STATUS_EVENT;;
  mret tt.
