(* ===== verification/SendqMap.v ===== *)
(** The map of send-queue slots ([omx_lib.h]): a free list threaded through
    the array, and the owner of every allocated slot. *)
From S2P Require Import Prelude DList Segments World.

Module SendqMap.

(** The loop of the allocation: [nr] slots popped from the free list. *)
Fixpoint get_loop (nr : nat) (user index : Z) (m : sendq_map) : option (list Z * Z * sendq_map) :=
  match nr with
  | O => Some ([], index, m)
  | S nr =>
      next_free ← sm_next_free m !! index;
      '(founds, index', m) ← get_loop nr user next_free (m <| sm_user ::= <[index := user]> |>);
      Some (index :: founds, index', m)
  end.
Inductive get_ret := GetFailed | Got (founds : list Z) (m : sendq_map).

(** [None] is an access outside the array. *)
(* [libxen2mx/omx_lib.h:270-307] omx__endpoint_sendq_map_get *)
Definition omx__endpoint_sendq_map_get (nr : nat) (user : Z) (m : sendq_map) : option get_ret :=
  if sm_nr_free m <? Z.of_nat nr then Some GetFailed
  else
    '(founds, index, m) ← get_loop nr user (sm_first_free m) m;
    Some (Got founds (m <| sm_first_free := index |> <| sm_nr_free ::= fun n => n - Z.of_nat nr |>)).

(** The loop of the release: slot [i] links to slot [i-1], the first one to
    the old head. *)
Fixpoint put_loop (indexes : list Z) (prev : Z) (m : sendq_map) : sendq_map :=
  match indexes with
  | [] => m
  | index :: indexes =>
      put_loop indexes index
        (m <| sm_user ::= delete index |> <| sm_next_free ::= <[index := prev]> |>)
  end.
(** With no slot to release [indexes\[nr-1\]] is outside the array. *)
(* [libxen2mx/omx_lib.h:309-335] omx__endpoint_sendq_map_put *)
Definition omx__endpoint_sendq_map_put (indexes : list Z) (m : sendq_map) : option sendq_map :=
  let m' := put_loop indexes (sm_first_free m) m in
  last_index ← last indexes;
  Some (m' <| sm_first_free := last_index |>
           <| sm_nr_free ::= fun n => n + Z.of_nat (length indexes) |>).

(* [libxen2mx/omx_lib.h:337-348] omx__endpoint_sendq_map_user *)
Definition omx__endpoint_sendq_map_user (m : sendq_map) (index : Z) : option Z := sm_user m !! index.

(** ** The free list *)

(** [l] is the free list from [index], ended by -1. *)
Fixpoint free_from (m : sendq_map) (index : Z) (l : list Z) : Prop :=
  match l with
  | [] => index = -1
  | i :: l => index = i /\ exists n, sm_next_free m !! i = Some n /\ free_from m n l
  end.

(** The map holds the free slots [l] and nothing is lost or shared. *)
Record map_ok (m : sendq_map) (l : list Z) : Prop := {
  ok_chain : free_from m (sm_first_free m) l;
  ok_nodup : NoDup l;
  ok_free : forall i, i ∈ l -> sm_user m !! i = None;
  ok_count : sm_nr_free m = Z.of_nat (length l);
  ok_array : forall i, is_Some (sm_user m !! i) -> i ∉ l
}.

Lemma free_from_ext m m' index l :
  (forall i, i ∈ l -> sm_next_free m' !! i = sm_next_free m !! i) ->
  free_from m index l -> free_from m' index l.
Proof.
  revert index. induction l as [|i l IH]; intros index He; cbn; [done|].
  intros (-> & n & Hn & Hl). split; [done|]. exists n. split.
  - rewrite He by apply list_elem_of_here. done.
  - apply IH; [|done]. intros j Hj. apply He. by right.
Qed.

Lemma get_loop_spec nr user index m l :
  free_from m index l -> (nr <= length l)%nat -> NoDup l ->
  exists index' m', get_loop nr user index m = Some (take nr l, index', m') /\
    free_from m index' (drop nr l) /\
    sm_next_free m' = sm_next_free m /\ sm_first_free m' = sm_first_free m /\
    sm_nr_free m' = sm_nr_free m /\
    (forall i, sm_user m' !! i = if decide (i ∈ take nr l) then Some user else sm_user m !! i).
Proof.
  revert index m l. induction nr as [|nr IH]; intros index m l Hf Hl Hnd.
  - exists index, m. rewrite take_0, drop_0. by repeat split.
  - destruct l as [|i l]; [cbn in Hl; lia|]. cbn in Hf. destruct Hf as (-> & n & Hn & Hf).
    apply NoDup_cons in Hnd as [Hi Hnd]. cbn [get_loop]. rewrite Hn. cbn [mbind option_bind].
    destruct (IH n (m <| sm_user ::= <[i := user]> |>) l) as (ix & m' & -> & H1 & H2 & H3 & H4 & H5);
      [by eapply free_from_ext; [|exact Hf]|cbn in Hl; lia|done|].
    exists ix, m'. cbn [mbind option_bind take drop]. fsimp. repeat split; try done.
    + by eapply free_from_ext; [|exact H1].
    + intros j. rewrite H5. fsimp. destruct (decide (j ∈ take nr l)) as [Hj|Hj].
      * rewrite decide_True; [done|]. by right.
      * destruct (decide (j = i)) as [->|Hne].
        -- rewrite lookup_insert_eq, decide_True; [done|]. apply list_elem_of_here.
        -- rewrite lookup_insert_ne by done. rewrite decide_False; [done|].
           intros [?|?]%elem_of_cons; done.
Qed.

Lemma put_loop_spec idxs prev m l :
  free_from m prev l -> NoDup (idxs ++ l) ->
  let m' := put_loop idxs prev m in
  free_from m' (default prev (last idxs)) (rev idxs ++ l) /\
  sm_first_free m' = sm_first_free m /\ sm_nr_free m' = sm_nr_free m /\
  (forall i, sm_user m' !! i = if decide (i ∈ idxs) then None else sm_user m !! i).
Proof.
  revert prev m l. induction idxs as [|i idxs IH]; intros prev m l Hf Hnd.
  - by repeat split.
  - cbn [put_loop]. set (m1 := m <| sm_user ::= delete i |> <| sm_next_free ::= <[i := prev]> |>).
    cbn in Hnd. apply NoDup_cons in Hnd as [Hi Hnd]. rewrite elem_of_app in Hi.
    assert (Hf1 : free_from m1 i (i :: l)).
    { cbn. split; [done|]. exists prev. split; [unfold m1; fsimp; by rewrite lookup_insert_eq|].
      eapply free_from_ext; [|exact Hf]. intros j Hj. unfold m1. fsimp.
      apply lookup_insert_ne. intros ->. tauto. }
    destruct (IH i m1 (i :: l) Hf1) as (H1 & H2 & H3 & H4).
    { rewrite <- Permutation_middle. apply NoDup_cons. rewrite elem_of_app. done. }
    cbn zeta. repeat split.
    + cbn [rev]. rewrite <- app_assoc. cbn [app].
      replace (default prev (last (i :: idxs))) with (default i (last idxs)); [done|].
      destruct idxs as [|j idxs]; [done|]. cbn [last].
      destruct (last (j :: idxs)) eqn:E; [done|]. by apply last_None in E.
    + rewrite H2. unfold m1. by fsimp.
    + rewrite H3. unfold m1. by fsimp.
    + intros j. rewrite H4. unfold m1. fsimp. destruct (decide (j ∈ idxs)).
      * rewrite decide_True; [done|by right].
      * destruct (decide (j = i)) as [->|].
        -- rewrite lookup_delete_eq, decide_True; [done|apply list_elem_of_here].
        -- rewrite lookup_delete_ne by done. rewrite decide_False; [done|].
           intros [?|?]%elem_of_cons; done.
Qed.

(** The slot map never hands out a slot twice: an allocation of [nr]
    slots fails exactly when fewer are free, leaving the map untouched;
    otherwise it returns [nr] distinct slots that had no owner and gives them
    to the requester, every other slot keeping its owner; releasing them makes
    exactly these free again. *)
Lemma sendq_map_exact m l nr user :
  map_ok m l ->
  match omx__endpoint_sendq_map_get nr user m with
  | Some GetFailed => (length l < nr)%nat
  | Some (Got founds m') =>
      length founds = nr /\ NoDup founds /\ map_ok m' (drop nr l) /\
      (forall i, i ∈ founds -> sm_user m !! i = None /\
         omx__endpoint_sendq_map_user m' i = Some user) /\
      (forall i, i ∉ founds -> sm_user m' !! i = sm_user m !! i) /\
      ((0 < nr)%nat -> exists m'', omx__endpoint_sendq_map_put founds m' = Some m'' /\
         map_ok m'' (rev founds ++ drop nr l) /\ forall i, sm_user m'' !! i = sm_user m !! i)
  | None => False
  end.
Proof.
  intros [Hc Hnd Hfr Hn Ha]. unfold omx__endpoint_sendq_map_get. rewrite Hn.
  destruct (Z.ltb_spec (Z.of_nat (length l)) (Z.of_nat nr)); [lia|].
  destruct (get_loop_spec nr user (sm_first_free m) m l) as (ix & m1 & -> & H1 & H2 & H3 & H4 & H5);
    [done|lia|done|]. cbn [mbind option_bind].
  set (m' := m1 <| sm_first_free := ix |> <| sm_nr_free ::= _ |>).
  assert (Hsplit : l = take nr l ++ drop nr l) by (symmetry; apply take_drop).
  pose proof Hnd as Hnd'. rewrite Hsplit in Hnd'. apply NoDup_app in Hnd' as (Hnt & Hdis & Hndd).
  assert (Hok : map_ok m' (drop nr l)).
  { split; unfold m'; fsimp.
    - eapply free_from_ext; [|exact H1]. intros j _. fsimp. by rewrite H2.
    - done.
    - intros i Hi. rewrite H5, decide_False by (intros Ht; by apply (Hdis i)).
      apply Hfr. rewrite Hsplit. apply elem_of_app. by right.
    - rewrite H4, Hn, length_drop. lia.
    - intros i. rewrite H5. destruct (decide (i ∈ take nr l)) as [Ht|Ht]; [by intros _; apply Hdis|].
      intros Hu Hd. apply (Ha i Hu). rewrite Hsplit. apply elem_of_app. by right. }
  split; [rewrite length_take; lia|]. split; [done|]. split; [done|]. split; [|split].
  - intros i Hi. split.
    + apply Hfr. rewrite Hsplit. apply elem_of_app. by left.
    + unfold omx__endpoint_sendq_map_user, m'. fsimp. by rewrite H5, decide_True.
  - intros i Hi. unfold m'. fsimp. by rewrite H5, decide_False.
  - intros Hpos. unfold omx__endpoint_sendq_map_put.
    destruct (last (take nr l)) as [x|] eqn:Hlast.
    2:{ apply last_None in Hlast. apply (f_equal length) in Hlast. rewrite length_take in Hlast.
        cbn in Hlast. lia. }
    cbn [mbind option_bind]. eexists. split; [done|].
    destruct (put_loop_spec (take nr l) (sm_first_free m') m' (drop nr l)) as (P1 & P2 & P3 & P4);
      [apply Hok|by rewrite take_drop|]. rewrite Hlast in P1. cbn [default from_option id] in P1.
    assert (Huser : forall i, sm_user (put_loop (take nr l) (sm_first_free m') m') !! i = sm_user m !! i).
    { intros i. rewrite P4. destruct (decide (i ∈ take nr l)) as [Hi|Hi].
      - symmetry. apply Hfr. rewrite Hsplit. apply elem_of_app. by left.
      - unfold m'. fsimp. by rewrite H5, decide_False. }
    split; [|intros i; fsimp; apply Huser]. split; fsimp.
    + by eapply free_from_ext; [|exact P1].
    + apply NoDup_app. split_and!; [by apply NoDup_rev'|intros i Hi; rewrite elem_of_rev in Hi; by apply Hdis|done].
    + intros i Hi. rewrite Huser. apply Hfr. rewrite Hsplit.
      apply elem_of_app in Hi as [Hi|Hi]; apply elem_of_app; [left|by right].
      by rewrite elem_of_rev in Hi.
    + rewrite P3. unfold m'. fsimp. rewrite H4, Hn, length_app, length_rev, length_take, length_drop. lia.
    + intros i. rewrite Huser. intros Hu Hi. apply (Ha i Hu). rewrite Hsplit.
      apply elem_of_app in Hi as [Hi|Hi]; apply elem_of_app; [left|by right].
      by rewrite elem_of_rev in Hi.
Qed.

Definition example_map : sendq_map :=
  {| sm_first_free := 2; sm_nr_free := 3; sm_next_free := list_to_map [(2, 0); (0, 1); (1, -1)];
     sm_user := {[ 3 := 77 ]} |}.
Lemma example_map_ok : map_ok example_map [2; 0; 1].
Proof.
  split; [|repeat constructor; set_solver| |done|].
  - cbn. split; [done|]. eexists. split; [reflexivity|]. split; [done|].
    eexists. split; [reflexivity|]. split; [done|]. by eexists.
  - intros i Hi. apply lookup_singleton_ne. intros <-. set_solver.
  - intros i [x Hx]. cbn in Hx. apply lookup_singleton_Some in Hx as [<- _]. set_solver.
Qed.

Lemma sendq_map_exact_witness :
  match omx__endpoint_sendq_map_get 2 9 example_map with
  | Some (Got founds m') => NoDup founds /\ map_ok m' [1] /\ sm_user m' !! 3 = Some 77
  | _ => False
  end.
Proof.
  pose proof (sendq_map_exact example_map [2; 0; 1] 2 9 example_map_ok) as H.
  destruct (omx__endpoint_sendq_map_get 2 9 example_map) as [[|founds m']|] eqn:E;
    [vm_compute in E; discriminate| |exact H].
  destruct H as (_ & Hnd & Hok & _ & Ho & _). split; [exact Hnd|]. split; [exact Hok|].
  assert (Hf : founds = [2; 0]) by (vm_compute in E; injection E as <- _; reflexivity).
  rewrite Hf in Ho. rewrite (Ho 3); [reflexivity|set_solver].
Defined.
End SendqMap.
