(* ===== verification/Request.v ===== *)
(** Requests and partners: allocation, queues, early and real completion,
    zombies, and the partner helpers ([libxen2mx/omx_request.h],
    [libxen2mx/omx_lib.h], and the completion routines of [omx_send.c] and
    [omx_recv.c]). *)
From S2P Require Import Prelude DList Seqnum Segments World SendqMap.
Import Seqnum Segs SendqMap.

Module Request.
Section request.
Context `{App}.

(** ** Allocation *)

(** The fields [malloc] leaves uninitialised, at arbitrary fixed values. *)
Definition blank_param : send_param := SendParam 0 0 false 0 0 0 0 0 0 0 0 0 0 PtrSingle 0 0.
Definition blank_request : request :=
  Request OMX_REQUEST_TYPE_NONE 0 0 0 0 0 0 0 OMX_SUCCESS (0, 0) 0 0 0 0
    (ReqSegs (Seg 0 0) 0 PtrSingle 0) blank_param 0 0 0 [] 0 0 0 0 0 0 0 0 0 (Scan 0 0) PtrSingle
    0 0 0 0 0 (ConnectParam 0 0 false 0 0 0 0 0) 0 0.

(* [libxen2mx/omx_request.h:48-68] omx__request_alloc *)
Definition omx__request_alloc : M (option Z) :=
  a ← omx_malloc_ep;
  match a with
  | None => mret None
  | Some req =>
      modify (fun w => w <| reqs ::= <[req := blank_request <| r_state := 0 |> <| s_code := OMX_SUCCESS |>]> |>);;
      mret (Some req)
  end.
(* [libxen2mx/omx_request.h:70-77] omx__request_free *)
Definition omx__request_free (req : Z) : M unit :=
  omx_free_ep req;; modify (fun w => w <| reqs ::= delete req |>).

(** ** Queues of requests *)
(* [libxen2mx/omx_request.h:86-91] omx__enqueue_request *)
Definition omx__enqueue_request (head : node) (req : Z) : M unit := add_tail (EQueue req) head.
(* [libxen2mx/omx_request.h:93-98] omx__requeue_request *)
Definition omx__requeue_request (head : node) (req : Z) : M unit := add_head (EQueue req) head.
(* [libxen2mx/omx_request.h:100-104] omx___dequeue_request *)
Definition omx___dequeue_request (req : Z) : M unit := unlink (EQueue req).
(** [list_check_elt] only runs in debug builds. *)
(* [libxen2mx/omx_request.h:106-114] omx__dequeue_request *)
Definition omx__dequeue_request (head : node) (req : Z) : M unit := omx___dequeue_request req.
(** [list_first_entry]; on an empty queue the code reads past the head. *)
(* [libxen2mx/omx_request.h:116-120] omx__first_request *)
Definition omx__first_request (head : node) : M Z :=
  l ← read_queue head; of_option (node_id <$> l !! 0%nat).
(* [libxen2mx/omx_request.h:122-126] omx__empty_queue *)
Definition omx__empty_queue (head : node) : M bool :=
  l ← read_queue head; mret (bool_decide (l = [])).
(* [libxen2mx/omx_request.h:128-132] omx__queue_count *)
Definition omx__queue_count (head : node) : M nat := l ← read_queue head; mret (length l).
(* [libxen2mx/omx_request.h:144-149] omx__enqueue_ctxid_request *)
Definition omx__enqueue_ctxid_request (head : node) (req : Z) : M unit := add_tail (ECtxid req) head.
(* [libxen2mx/omx_request.h:151-155] omx___dequeue_ctxid_request *)
Definition omx___dequeue_ctxid_request (req : Z) : M unit := unlink (ECtxid req).
(* [libxen2mx/omx_request.h:157-165] omx__dequeue_ctxid_request *)
Definition omx__dequeue_ctxid_request (head : node) (req : Z) : M unit := omx___dequeue_ctxid_request req.

(** ** Done requests *)

Definition enqueue_done (ctxid req : Z) : M unit :=
  add_tail (EDone req) HDone;;
  w ← get;
  when (HAS_CTXIDS w) (add_tail (ECtxid req) (HCtxDone ctxid)).

(* [libxen2mx/omx_request.h:175-199] omx__notify_request_done_early *)
Definition omx__notify_request_done_early (ctxid req : Z) : M unit :=
  w ← get;
  if zombie_max w <=? zombies w then mret tt
  else
    upd_req req (set r_state (setf OMX_REQUEST_STATE_DONE));;
    q ← get_req req;
    when (negb (hasf (r_state q) OMX_REQUEST_STATE_ZOMBIE)) (enqueue_done ctxid req);;
    omx__notify_user_event.

(* [libxen2mx/omx_request.h:201-236] omx__notify_request_done *)
Definition omx__notify_request_done (ctxid req : Z) : M unit :=
  q ← get_req req;
  if hasf (r_state q) OMX_REQUEST_STATE_INTERNAL then
    upd_req req (set r_state (setf OMX_REQUEST_STATE_DONE))
  else if hasf (r_state q) OMX_REQUEST_STATE_ZOMBIE then
    omx__request_free req;;
    modify (fun w => w <| zombies ::= fun z => u32 (z - 1) |>)
  else if negb (hasf (r_state q) OMX_REQUEST_STATE_DONE) then
    upd_req req (set r_state (setf OMX_REQUEST_STATE_DONE));;
    enqueue_done ctxid req
  else mret tt.

(* [libxen2mx/omx_request.h:238-258] omx__dequeue_done_request *)
Definition omx__dequeue_done_request (req : Z) : M unit :=
  unlink (EDone req);;
  w ← get;
  when (HAS_CTXIDS w) (unlink (ECtxid req)).

(* [libxen2mx/omx_request.h:269-273] omx__first_done_anyctxid_request *)
Definition omx__first_done_anyctxid_request : M Z :=
  l ← read_queue HDone; of_option (node_id <$> l !! 0%nat).
(* [libxen2mx/omx_request.h:275-279] omx__empty_done_ctxid_queue *)
Definition omx__empty_done_ctxid_queue (ctxid : Z) : M bool :=
  l ← read_queue (HCtxDone ctxid); mret (bool_decide (l = [])).
(* [libxen2mx/omx_request.h:281-285] omx__empty_done_anyctxid_queue *)
Definition omx__empty_done_anyctxid_queue : M bool :=
  l ← read_queue HDone; mret (bool_decide (l = [])).

(** ** Partner queues *)
(* [libxen2mx/omx_request.h:291-296] omx__enqueue_partner_request *)
Definition omx__enqueue_partner_request (head : node) (req : Z) : M unit := add_tail (EPartner req) head.
(* [libxen2mx/omx_request.h:298-302] omx___dequeue_partner_request *)
Definition omx___dequeue_partner_request (req : Z) : M unit := unlink (EPartner req).
(* [libxen2mx/omx_request.h:304-312] omx__dequeue_partner_request *)
Definition omx__dequeue_partner_request (head : node) (req : Z) : M unit :=
  omx___dequeue_partner_request req.
(* [libxen2mx/omx_request.h:314-318] omx__empty_partner_queue *)
Definition omx__empty_partner_queue (head : node) : M bool :=
  l ← read_queue head; mret (bool_decide (l = [])).
(* [libxen2mx/omx_request.h:320-324] omx__first_partner_request *)
Definition omx__first_partner_request (head : node) : M Z :=
  l ← read_queue head; of_option (node_id <$> l !! 0%nat).
(* [libxen2mx/omx_request.h:326-337] omx__dequeue_first_partner_request *)
Definition omx__dequeue_first_partner_request (head : node) : M (option Z) :=
  l ← read_queue head;
  match l with
  | [] => mret None
  | n :: _ => omx___dequeue_partner_request (node_id n);; mret (Some (node_id n))
  end.

(* [libxen2mx/omx_test.c:226-243] omx__forget *)
Definition omx__forget (req : Z) : M unit :=
  q ← get_req req;
  if r_state q =? OMX_REQUEST_STATE_DONE then
    omx__dequeue_done_request req;;
    omx__request_free req
  else
    when (hasf (r_state q) OMX_REQUEST_STATE_DONE) (
      upd_req req (set r_state (clrf OMX_REQUEST_STATE_DONE));;
      omx__dequeue_done_request req);;
    upd_req req (set r_state (setf OMX_REQUEST_STATE_ZOMBIE));;
    modify (fun w => w <| zombies ::= fun z => u32 (z + 1) |>).
End request.
End Request.

(** ** Partners *)
Module Partner.
Section partner.
Context `{App}.

(* [libxen2mx/omx_lib.h:132-139] omx__partner_session_to_addr *)
Definition omx__partner_session_to_addr (p session_id : Z) : Z * Z := (p, session_id).
(* [libxen2mx/omx_lib.h:141-145] omx__partner_recv_to_addr *)
Definition omx__partner_recv_to_addr (p : Z) : M (Z * Z) :=
  q ← get_partner p; mret (omx__partner_session_to_addr p (p_back_session_id q)).
(* [libxen2mx/omx_lib.h:125-130] omx__partner_from_addr *)
Definition omx__partner_from_addr (addr : Z * Z) : Z := fst addr.
(* [libxen2mx/omx_lib.h:147-152] omx__partner_localization_shared *)
Definition omx__partner_localization_shared (q : partner) : bool :=
  match p_localization q with LOCAL => true | _ => false end.

(** The slot of a partner in [ep->partners]. *)
Definition partner_index (w : world) (peer_index endpoint_index : Z) : Z :=
  u32 (endpoint_index + peer_index * endpoint_max (w_globals w)).
(* [libxen2mx/omx_lib.h:154-162] omx__partner_recv_lookup *)
Definition omx__partner_recv_lookup (peer_index endpoint_index : Z) : M (option Z) :=
  w ← get;
  let p := partner_index w peer_index endpoint_index in
  mret (match partners w !! p with Some _ => Some p | None => None end).

(* [libxen2mx/omx_lib.h:164-175] omx__mark_partner_need_ack_delayed *)
Definition omx__mark_partner_need_ack_delayed (p : Z) : M unit :=
  q ← get_partner p;
  when (bool_decide (p_need_ack q = NEED_NO_ACK)) (
    now ← jiffies_now;
    upd_partner p (fun q => q <| p_need_ack := NEED_ACK_DELAYED |>
                              <| p_oldest_recv_time_not_acked := now |>);;
    add_tail (EAck p) HAckDelayed).
(* [libxen2mx/omx_lib.h:177-193] omx__mark_partner_need_ack_immediate *)
Definition omx__mark_partner_need_ack_immediate (p : Z) : M unit :=
  q ← get_partner p;
  when (negb (bool_decide (p_need_ack q = NEED_ACK_IMMEDIATE))) (
    (if bool_decide (p_need_ack q = NEED_ACK_DELAYED) then move_head (EAck p) HAckImm
     else add_tail (EAck p) HAckImm);;
    upd_partner p (set p_need_ack (fun _ => NEED_ACK_IMMEDIATE))).
(* [libxen2mx/omx_lib.h:195-200] omx__get_partner_needed_ack *)
Definition omx__get_partner_needed_ack (q : partner) : Z := p_next_frag_recv_seq q.
(* [libxen2mx/omx_lib.h:202-214] omx__mark_partner_ack_sent *)
Definition omx__mark_partner_ack_sent (p : Z) : M unit :=
  q ← get_partner p;
  when (negb (bool_decide (p_need_ack q = NEED_NO_ACK))) (
    upd_partner p (set p_need_ack (fun _ => NEED_NO_ACK));;
    unlink (EAck p));;
  upd_partner p (fun q => q <| p_last_acked_recv_seq := p_next_frag_recv_seq q |>).
(* [libxen2mx/omx_lib.h:216-222] omx__mark_partner_throttling *)
Definition omx__mark_partner_throttling (p : Z) : M unit :=
  q ← get_partner p;
  upd_partner p (set p_throttling_sends_nr (fun n => u32 (n + 1)));;
  when (p_throttling_sends_nr q =? 0) (add_tail (EThrot p) HThrottling).
(* [libxen2mx/omx_lib.h:224-231] omx__update_partner_throttling *)
Definition omx__update_partner_throttling (p nr : Z) : M unit :=
  when (negb (nr =? 0)) (
    upd_partner p (set p_throttling_sends_nr (fun n => u32 (n - nr)));;
    q ← get_partner p;
    when (p_throttling_sends_nr q =? 0) (unlink (EThrot p))).
End partner.
End Partner.

(** ** Completion *)
Module Complete.
Import Request.
Section complete.
Context `{App}.

Definition free_segments (s : req_segs) : M unit :=
  match omx_free_segments s with Some a => omx_free_ep a | None => mret tt end.

(** The status code of a completed request: an earlier error is kept. *)
Definition set_status (req : Z) (status : omx_return) : M unit :=
  q ← get_req req;
  when (bool_decide (s_code q = OMX_SUCCESS)) (
    if bool_decide (status = OMX_SUCCESS) then
      when (s_xfer_length q <? s_msg_length q) (
        c ← omx__error_with_req OMX_MESSAGE_TRUNCATED;
        upd_req req (set s_code (fun _ => c)))
    else
      c ← omx__error_with_req status;
      upd_req req (set s_code (fun _ => c))).

Definition sendq_put (indexes : list Z) : M unit :=
  w ← get;
  m ← of_option (omx__endpoint_sendq_map_put indexes (w_sendq_map w));
  modify (fun w => w <| w_sendq_map := m |>).

(* [libxen2mx/omx_send.c:33-72] omx__send_complete *)
Definition omx__send_complete (req : Z) (status : omx_return) : M unit :=
  q ← get_req req;
  ctxid ← ctxid_of (s_match_info q);
  set_status req status;;
  q ← get_req req;
  (if hasf (r_state q) OMX_REQUEST_STATE_NEED_SEQNUM then mret tt
   else match r_type q with
   | OMX_REQUEST_TYPE_SEND_SMALL => omx_free_ep (small_copy q)
   | OMX_REQUEST_TYPE_SEND_MEDIUMSQ =>
       sendq_put (take (Z.to_nat (frags_nr q)) (sendq_map_index q))
   | _ => mret tt
   end);;
  free_segments (r_segs q);;
  omx__notify_request_done ctxid req.

(* [libxen2mx/omx_recv.c:29-52] omx__recv_complete *)
Definition omx__recv_complete (req : Z) (status : omx_return) : M unit :=
  q ← get_req req;
  ctxid ← ctxid_of (s_match_info q);
  set_status req status;;
  free_segments (r_segs q);;
  omx__notify_request_done ctxid req.
End complete.
End Complete.
