(* ===== verification/Region.v ===== *)
(** Registered memory regions and the registration cache
    ([libxen2mx/omx_large.c], first half). *)
From S2P Require Import Prelude DList Segments World Request.
Import Segs Request.

Module Regions.
Section regions.
Context `{App}.

(** ** The region map *)

Definition get_region (g : Z) : M region := w ← get; of_option (rm_region (w_region_map w) !! g).
Definition upd_region (g : Z) (f : region -> region) : M unit :=
  x ← get_region g;
  modify (fun w => w <| w_region_map ::= set rm_region (<[g := f x]>) |>).

(** The slots after the initialisation loop. *)
Definition initial_region (i : Z) : region :=
  {| g_use_count := 0; g_id := i; g_last_seqnum := 23;
     g_segs := ReqSegs (Seg 0 0) 0 PtrSingle 0; g_reserver := RUninit |}.
Definition region_ids : list Z := Z.of_nat <$> seq 0 (Z.to_nat OMX_USER_REGION_MAX).
Definition initial_map : region_map :=
  {| rm_first_free := 0; rm_nr_free := OMX_USER_REGION_MAX;
     rm_next_free := list_to_map ((fun i => (i, if i =? OMX_USER_REGION_MAX - 1 then -1 else i + 1)) <$> region_ids);
     rm_region := list_to_map ((fun i => (i, initial_region i)) <$> region_ids) |}.

(* [libxen2mx/omx_large.c:35-66] omx__endpoint_large_region_map_init *)
Definition omx__endpoint_large_region_map_init : M omx_return :=
  a ← omx_malloc_ep;
  match a with
  | None => mret OMX_NO_RESOURCES
  | Some _ =>
      modify (fun w => w <| w_region_map := initial_map |>);;
      init_head HReg;; init_head HRegUnused;; init_head HRegVect;;
      modify (fun w => w <| large_sends_avail_nr := OMX_USER_REGION_MAX / 2 |>);;
      mret OMX_SUCCESS
  end.

(* [libxen2mx/omx_large.c:68-95] omx__endpoint_large_region_try_alloc *)
Definition omx__endpoint_large_region_try_alloc : M (omx_return * Z) :=
  w ← get;
  let index := rm_first_free (w_region_map w) in
  if index =? -1 then mret (OMX_INTERNAL_MISSING_RESOURCES, -1)
  else
    next_free ← of_option (rm_next_free (w_region_map w) !! index);
    upd_region index (set g_use_count (fun _ => 0));;
    modify (fun w => w <| w_region_map ::= fun m => m <| rm_first_free := next_free |>
                                                     <| rm_nr_free ::= fun n => n - 1 |> |>);;
    mret (OMX_SUCCESS, index).

(* [libxen2mx/omx_large.c:97-112] omx__endpoint_large_region_free *)
Definition omx__endpoint_large_region_free (g : Z) : M unit :=
  x ← get_region g;
  let index := g_id x in
  modify (fun w => w <| w_region_map ::= fun m =>
    m <| rm_next_free ::= <[index := rm_first_free m]> |>
      <| rm_first_free := index |> <| rm_nr_free ::= fun n => n + 1 |> |>).

(** ** Registration in the driver *)

(* [libxen2mx/omx_large.c:138-148] omx__check_driver_pinning_error *)
Definition omx__check_driver_pinning_error (ret : omx_return) : M unit :=
  when (bool_decide (ret = OMX_INTERNAL_MISC_EFAULT)) abort.

(* [libxen2mx/omx_large.c:150-178] omx__register_region *)
Definition omx__register_region (g : Z) : M omx_return :=
  x ← get_region g;
  err ← ioctl (CmdCreateRegion (g_id x) (nseg (g_segs x)) (segs (g_segs x)));
  match err with
  | None => mret OMX_SUCCESS
  | Some e =>
      ret ← omx__ioctl_errno_to_return_checked e [OMX_NO_SYSTEM_RESOURCES; OMX_INTERNAL_MISC_EFAULT];
      omx__check_driver_pinning_error ret;;
      mret OMX_INTERNAL_MISSING_RESOURCES
  end.

(* [libxen2mx/omx_large.c:180-192] omx__deregister_region *)
Definition omx__deregister_region (g : Z) : M unit :=
  x ← get_region g;
  err ← ioctl (CmdDestroyRegion (g_id x));
  match err with
  | None => mret tt
  | Some e => omx__ioctl_errno_to_return_checked e [];; mret tt
  end.

(** ** The registration cache *)

(* [libxen2mx/omx_large.c:198-208] omx__destroy_region *)
Definition omx__destroy_region (g : Z) : M unit :=
  omx__deregister_region g;;
  unlink (EReg g);;
  omx__endpoint_large_region_free g.

(* [libxen2mx/omx_large.c:116-132] omx__endpoint_large_region_map_exit *)
Definition omx__endpoint_large_region_map_exit (array : Z) : M unit :=
  l ← ids HReg;
  each (fun g =>
    x ← get_region g;
    when (g_use_count x =? 0) (unlink (EUnused g));;
    omx__destroy_region g) l;;
  l ← ids HRegVect;
  each omx__destroy_region l;;
  omx_free_ep array.

(* [libxen2mx/omx_large.c:210-235] omx__endpoint_large_region_alloc *)
Definition omx__endpoint_large_region_alloc : M (omx_return * Z) :=
  '(ret, g) ← omx__endpoint_large_region_try_alloc;
  w ← get;
  if bool_decide (ret = OMX_INTERNAL_MISSING_RESOURCES) && regcache (w_globals w) then
    l ← ids HRegUnused;
    match l with
    | [] => mret (ret, g)
    | x :: _ =>
        unlink (EUnused x);;
        omx__destroy_region x;;
        omx__endpoint_large_region_try_alloc
    end
  else mret (ret, g).

(* [libxen2mx/omx_large.c:237-273] omx__create_region *)
Definition omx__create_region (reqsegs : req_segs) : M (omx_return * Z) :=
  '(ret, g) ← omx__endpoint_large_region_alloc;
  if negb (bool_decide (ret = OMX_SUCCESS)) then mret (ret, g)
  else
    upd_region g (set g_segs (fun _ => omx_clone_segments reqsegs));;
    ret ← omx__register_region g;
    if negb (bool_decide (ret = OMX_SUCCESS)) then
      omx__endpoint_large_region_free g;; mret (ret, g)
    else
      upd_region g (set g_reserver (fun _ => RNull));;
      mret (OMX_SUCCESS, g).

Definition reserved (x : region) : M bool :=
  match g_reserver x with RUninit => undef | RNull => mret false | RObj _ => mret true end.

(** The cache lookup of [omx__get_contigous_region]: the first registered
    region that may be reused for the segment. *)
Fixpoint find_region (reserver : option Z) (sg : segment) (l : list Z) : M (option Z) :=
  match l with
  | [] => mret None
  | g :: l =>
      w ← get;
      x ← get_region g;
      free ← (match reserver with None => mret true | Some _ => b ← reserved x; mret (negb b) end);
      if (free : bool) && (parallel_regcache (w_globals w) || (g_use_count x =? 0))
         && (vaddr (single (g_segs x)) =? vaddr sg) && (len sg <=? len (single (g_segs x)))
      then mret (Some g)
      else find_region reserver sg l
  end.

Definition reserve (g : Z) (reserver : option Z) : M unit :=
  match reserver with
  | None => mret tt
  | Some r => upd_region g (set g_reserver (fun _ => RObj r))
  end.

(* [libxen2mx/omx_large.c:275-326] omx__get_contigous_region *)
Definition omx__get_contigous_region (reqsegs : req_segs) (reserver : option Z)
    : M (omx_return * Z) :=
  w ← get;
  cached ← (if regcache (w_globals w)
            then l ← ids HReg; find_region reserver (single reqsegs) l
            else mret None);
  match cached with
  | Some g =>
      x ← get_region g;
      upd_region g (set g_use_count (fun n => n + 1));;
      when (g_use_count x =? 0) (unlink (EUnused g));;
      reserve g reserver;;
      mret (OMX_SUCCESS, g)
  | None =>
      '(ret, g) ← omx__create_region reqsegs;
      if negb (bool_decide (ret = OMX_SUCCESS)) then mret (ret, g)
      else
        add_tail (EReg g) HReg;;
        upd_region g (set g_use_count (fun n => n + 1));;
        reserve g reserver;;
        mret (OMX_SUCCESS, g)
  end.

(* [libxen2mx/omx_large.c:328-364] omx__get_vect_region *)
Definition omx__get_vect_region (reqsegs : req_segs) (reserver : option Z)
    : M (omx_return * Z) :=
  '(ret, g) ← omx__create_region reqsegs;
  if negb (bool_decide (ret = OMX_SUCCESS)) then mret (ret, g)
  else
    add_tail (EReg g) HRegVect;;
    upd_region g (set g_use_count (fun n => n + 1));;
    reserve g reserver;;
    mret (OMX_SUCCESS, g).

(* [libxen2mx/omx_large.c:366-378] omx__get_region *)
Definition omx__get_region (reqsegs : req_segs) (reserver : option Z) : M (omx_return * Z) :=
  if 1 <? nseg reqsegs then omx__get_vect_region reqsegs reserver
  else omx__get_contigous_region reqsegs reserver.

(* [libxen2mx/omx_large.c:380-403] omx__put_region *)
Definition omx__put_region (g : Z) (reserver : option Z) : M unit :=
  upd_region g (set g_use_count (fun n => n - 1));;
  (match reserver with
   | None => mret tt
   | Some _ => upd_region g (set g_reserver (fun _ => RNull))
   end);;
  w ← get;
  x ← get_region g;
  if regcache (w_globals w) && (nseg (g_segs x) =? 1) then
    when (g_use_count x =? 0) (add_tail (EUnused g) HRegUnused)
  else omx__destroy_region g.

(** ** Invalidation *)

(* [libxen2mx/omx_large.c:409-417] omx__segments_intersect *)
Definition omx__segments_intersect (begin1 end1 begin2 end2 : Z) : bool :=
  let min_end := if end2 <? end1 then end2 else end1 in
  let max_begin := if begin2 <? begin1 then begin1 else begin2 in
  max_begin <? min_end.

(* [libxen2mx/omx_large.c:423-453] omx__endpoint_regcache_clean *)
Definition omx__endpoint_regcache_clean (begin end_ : Z) : M unit :=
  l ← ids HReg;
  each (fun g =>
    x ← get_region g;
    let reg_begin := vaddr (single (g_segs x)) in
    let reg_end := reg_begin + len (single (g_segs x)) in
    when (omx__segments_intersect begin end_ reg_begin reg_end) (
      when (negb (g_use_count x =? 0)) abort;;
      unlink (EUnused g);;
      omx__destroy_region g)) l.

(** One endpoint is open. *)
(* [libxen2mx/omx_large.c:455-470] omx__regcache_clean *)
Definition omx__regcache_clean (ptr size : Z) : M unit :=
  w ← get;
  when (regcache (w_globals w)) (omx__endpoint_regcache_clean ptr (ptr + size)).
End regions.
End Regions.
