(* ===== verification/Send.v ===== *)
(** Sends ([libxen2mx/omx_send.c]): for each message kind the posting of the
    command to the driver, the assignment of a sequence number, the
    allocation of resources and the submission; throttling, the notify of a
    large receive, and the release of sends that never left. *)
From S2P Require Import Prelude DList Seqnum Segments World SendqMap Request Region.
Import Seqnum Mem Segs SendqMap Request Partner Complete Regions.

Module Send.
Section send.
Context `{App}.

Definition upd_param (req : Z) (f : send_param -> send_param) : M unit :=
  upd_req req (set r_param f).

(** ** Shared steps *)

(** The piggyacked command of a post and its bookkeeping; an error other than
    [ok] stops, the others are left to the retransmission. *)
Definition post (mk : send_param -> cmd) (check : omx_return -> M unit) (ok : list omx_return)
    (p req : Z) : M unit :=
  q ← get_partner p;
  upd_param req (set sp_piggyack (fun _ => omx__get_partner_needed_ack q));;
  x ← get_req req;
  err ← ioctl (mk (r_param x));
  (match err with
   | None => mret tt
   | Some e => ret ← omx__ioctl_errno_to_return_checked e ok; check ret
   end);;
  now ← jiffies_now;
  upd_req req (fun x => x <| r_resends ::= fun n => u32 (n + 1) |> <| r_last_send_jiffies := now |>);;
  when (bool_decide (err = None)) (omx__mark_partner_ack_sent p).

Definition no_check (ret : omx_return) : M unit := mret tt.

(** [seqnum = partner->next_send_seq; OMX__SEQNUM_INCREASE(...)] and the
    request fields of a first send. *)
Definition take_seqnum (p req : Z) : M unit :=
  w ← get;
  q ← get_partner p;
  let seqnum := p_next_send_seq q in
  upd_partner p (set p_next_send_seq OMX__SEQNUM_INCREASE);;
  upd_req req (fun x => x <| r_send_seqnum := seqnum |> <| r_resends := 0 |>
                         <| r_resends_max := req_resends_max w |>);;
  upd_param req (set sp_seqnum (fun _ => seqnum)).

Definition enqueue_non_acked (p req : Z) : M unit :=
  omx__enqueue_request HNonAcked req;;
  omx__enqueue_partner_request (HpNonAcked p) req.

(** The target of a parameter block. *)
Definition set_target (p req : Z) (session : partner -> Z) : M unit :=
  q ← get_partner p;
  upd_param req (fun s => s <| sp_peer_index := p_peer_index q |>
    <| sp_dest_endpoint := p_endpoint_index q |>
    <| sp_shared := omx__partner_localization_shared q |> <| sp_session_id := session q |>).

(** The window test of every send, and what a throttled request does. *)
(* [libxen2mx/omx_send.c:159-159] omx__alloc_setup_isend_tiny *)
Definition must_throttle (q : partner) : bool :=
  OMX__THROTTLING_OFFSET_MAX <=? OMX__SEQNUM (p_next_send_seq q - p_next_acked_send_seq q).
(* [libxen2mx/omx_send.c:159-170] omx__alloc_setup_isend_tiny *)
Definition throttle_or (p req : Z) (setup : M unit) : M unit :=
  q ← get_partner p;
  if must_throttle q then
    upd_req req (set r_state (setf OMX_REQUEST_STATE_NEED_SEQNUM));;
    omx__enqueue_partner_request (HpNeedSeq p) req;;
    omx__mark_partner_throttling p
  else setup.

Definition notify_early (req : Z) : M unit :=
  x ← get_req req;
  ctxid ← ctxid_of (s_match_info x);
  omx__notify_request_done_early ctxid req.

Definition delay_request (req : Z) : M unit :=
  upd_req req (set r_state (setf OMX_REQUEST_STATE_NEED_RESOURCES));;
  omx__enqueue_request HNeedRes req.

(** ** Tiny *)

(** The address of the data array of the tiny parameter block, inside the
    request. *)
Definition tiny_data (req : Z) : Z := req.

(* [libxen2mx/omx_send.c:78-106] omx__post_isend_tiny *)
Definition omx__post_isend_tiny (p req : Z) : M unit :=
  post CmdTiny no_check [OMX_NO_SYSTEM_RESOURCES] p req.
(* [libxen2mx/omx_send.c:108-133] omx__setup_isend_tiny *)
Definition omx__setup_isend_tiny (p req : Z) : M unit :=
  take_seqnum p req;;
  omx__post_isend_tiny p req;;
  upd_req req (set r_state (setf OMX_REQUEST_STATE_NEED_ACK));;
  enqueue_non_acked p req;;
  notify_early req.
(* [libxen2mx/omx_send.c:137-170] omx__alloc_setup_isend_tiny *)
Definition omx__alloc_setup_isend_tiny (p req : Z) : M unit :=
  x ← get_req req;
  let length := s_msg_length x in
  set_target p req p_true_session_id;;
  upd_param req (fun s => s <| sp_match_info := s_match_info x |> <| sp_length := u8 length |>
    <| sp_vaddr := tiny_data req |>);;
  on_mem (fun m => omx_copy_from_segments m (tiny_data req) (r_segs x) length);;
  throttle_or p req (omx__setup_isend_tiny p req).
(* [libxen2mx/omx_send.c:172-193] omx__submit_isend_tiny *)
Definition omx__submit_isend_tiny (p req : Z) : M unit :=
  upd_req req (fun x => x <| r_type := OMX_REQUEST_TYPE_SEND_TINY |>
    <| s_msg_length := total_length (r_segs x) |> <| s_xfer_length := total_length (r_segs x) |>);;
  empty ← omx__empty_queue HNeedRes;
  if (empty : bool) then omx__alloc_setup_isend_tiny p req else delay_request req.

(** ** Small *)

(* [libxen2mx/omx_send.c:199-227] omx__post_isend_small *)
Definition omx__post_isend_small (p req : Z) : M unit :=
  post CmdSmall no_check [OMX_NO_SYSTEM_RESOURCES] p req.
(* [libxen2mx/omx_send.c:229-254] omx__setup_isend_small *)
Definition omx__setup_isend_small (p req : Z) : M unit :=
  take_seqnum p req;;
  omx__post_isend_small p req;;
  upd_req req (set r_state (setf OMX_REQUEST_STATE_NEED_ACK));;
  enqueue_non_acked p req;;
  notify_early req.
(* [libxen2mx/omx_send.c:256-308] omx__alloc_setup_isend_small *)
Definition omx__alloc_setup_isend_small (p req : Z) : M omx_return :=
  x ← get_req req;
  let length := s_msg_length x in
  let copy := small_copy x in
  set_target p req p_true_session_id;;
  upd_param req (fun s => s <| sp_match_info := s_match_info x |> <| sp_length := u16 length |>);;
  (if nseg (r_segs x) =? 1 then
     upd_param req (set sp_vaddr (fun _ => vaddr (single (r_segs x))))
   else
     on_mem (fun m => omx_copy_from_segments m copy (r_segs x) length);;
     upd_param req (set sp_vaddr (fun _ => copy)));;
  throttle_or p req (omx__setup_isend_small p req);;
  when (nseg (r_segs x) =? 1) (
    on_mem (fun m => omx_copy_from_segments m copy (r_segs x) length);;
    upd_param req (set sp_vaddr (fun _ => copy)));;
  mret OMX_SUCCESS.
(* [libxen2mx/omx_send.c:310-336] omx__submit_isend_small *)
Definition omx__submit_isend_small (p req : Z) : M unit :=
  upd_req req (fun x => x <| r_type := OMX_REQUEST_TYPE_SEND_SMALL |>
    <| s_msg_length := total_length (r_segs x) |> <| s_xfer_length := total_length (r_segs x) |>);;
  empty ← omx__empty_queue HNeedRes;
  if (empty : bool) then
    ret ← omx__alloc_setup_isend_small p req;
    when (negb (bool_decide (ret = OMX_SUCCESS))) (delay_request req)
  else delay_request req.

(** ** Medium from virtual addresses *)

(* [libxen2mx/omx_send.c:342-370] omx__post_isend_mediumva *)
Definition omx__post_isend_mediumva (p req : Z) : M unit :=
  post CmdMediumva no_check [OMX_NO_SYSTEM_RESOURCES] p req.
(* [libxen2mx/omx_send.c:372-395] omx__setup_isend_mediumva *)
Definition omx__setup_isend_mediumva (p req : Z) : M unit :=
  take_seqnum p req;;
  omx__post_isend_mediumva p req;;
  upd_req req (set r_state (setf OMX_REQUEST_STATE_NEED_ACK));;
  enqueue_non_acked p req.
(* [libxen2mx/omx_send.c:397-433] omx__alloc_setup_isend_mediumva *)
Definition omx__alloc_setup_isend_mediumva (p req : Z) : M omx_return :=
  x ← get_req req;
  set_target p req p_true_session_id;;
  upd_param req (fun s => s <| sp_match_info := s_match_info x |>
    <| sp_length := s_msg_length x |> <| sp_nr_segments := nseg (r_segs x) |>
    <| sp_segments := segs (r_segs x) |>);;
  throttle_or p req (omx__setup_isend_mediumva p req);;
  mret OMX_SUCCESS.

(** ** Medium through the send queue *)

Definition slot_addr (w : world) (index : Z) : Z := sendq w + Z.shiftl index OMX_SENDQ_ENTRY_SHIFT.

(** One pass of either fragment loop, from fragment [i] on; the result is the
    number of fragments posted, or that the driver refused fragment [i].
    After a refusal on a first send the code copies the fragments left with
    [for(j=i+1; j<frags_nr; i++)], whose [j] never moves. *)
Inductive frags_ret := AllPosted | RefusedAt (i : Z).
Fixpoint mediumsq_loop (req : Z) (slots : list Z) (i remaining offset frags_nr : Z)
    (state : segscan_state) : M frags_ret :=
  match slots with
  | [] => mret AllPosted
  | slot :: slots =>
      w ← get;
      x ← get_req req;
      let chunk := if OMX_MEDIUM_FRAG_LENGTH_MAX <? remaining then OMX_MEDIUM_FRAG_LENGTH_MAX
                   else remaining in
      upd_param req (fun s => s <| sp_frag_length := u16 chunk |> <| sp_frag_seqnum := u8 i |>
        <| sp_sendq_offset := u32 (Z.shiftl slot OMX_SENDQ_ENTRY_SHIFT) |>);;
      state ← (if negb (r_resends x =? 0) then mret state
               else if nseg (r_segs x) =? 1 then
                 on_mem (fun m => Some (memcpy m (slot_addr w slot)
                                          (vaddr (single (r_segs x)) + offset) chunk));;
                 mret state
               else
                 match omx_continue_partial_copy_from_segments (memory w) (slot_addr w slot)
                         (r_segs x) chunk state with
                 | Some (m, state) => on_mem (fun _ => Some m);; mret state
                 | None => undef
                 end);
      x ← get_req req;
      err ← ioctl (CmdMediumsqFrag (r_param x));
      match err with
      | Some e =>
          when ((r_resends x =? 0) && (i + 1 <? frags_nr)) diverge;;
          omx__ioctl_errno_to_return_checked e [OMX_NO_SYSTEM_RESOURCES];;
          mret (RefusedAt i)
      | None => mediumsq_loop req slots (i + 1) (remaining - chunk) (offset + chunk) frags_nr state
      end
  end.

(* [libxen2mx/omx_send.c:439-566] omx__post_isend_mediumsq *)
Definition omx__post_isend_mediumsq (p req : Z) : M unit :=
  q ← get_partner p;
  upd_param req (set sp_piggyack (fun _ => omx__get_partner_needed_ack q));;
  x ← get_req req;
  let nr := frags_nr x in
  r ← mediumsq_loop req (take (Z.to_nat nr) (sendq_map_index x)) 0 (s_msg_length x) 0 nr (Scan 0 0);
  let ok :=
    now ← jiffies_now;
    upd_req req (fun x => x <| r_resends ::= fun n => u32 (n + 1) |> <| r_last_send_jiffies := now |>
      <| r_state ::= setf OMX_REQUEST_STATE_DRIVER_MEDIUMSQ_SENDING |>);;
    omx__mark_partner_ack_sent p in
  match r with
  | AllPosted => upd_req req (set frags_pending_nr (fun _ => nr));; ok
  | RefusedAt i =>
      upd_req req (set frags_pending_nr (fun _ => i));;
      modify (fun w => w <| avail_exp_events ::= fun n => u32 (n + (nr - i)) |>);;
      when (negb (i =? 0)) ok
  end.
(* [libxen2mx/omx_send.c:568-597] omx__setup_isend_mediumsq *)
Definition omx__setup_isend_mediumsq (p req : Z) : M unit :=
  take_seqnum p req;;
  omx__post_isend_mediumsq p req;;
  upd_req req (set r_state (setf OMX_REQUEST_STATE_NEED_ACK));;
  x ← get_req req;
  omx__enqueue_request (if hasf (r_state x) OMX_REQUEST_STATE_DRIVER_MEDIUMSQ_SENDING
                        then HMediumSending else HNonAcked) req;;
  omx__enqueue_partner_request (HpNonAcked p) req;;
  notify_early req.

Definition got_resource (req res : Z) : M unit :=
  upd_req req (set r_missing_resources (clrf res)).

(* [libxen2mx/omx_send.c:599-656] omx__alloc_setup_isend_mediumsq *)
Definition omx__alloc_setup_isend_mediumsq (p req : Z) : M omx_return :=
  x ← get_req req;
  let res := r_missing_resources x in
  let nr := frags_nr x in
  let need_sendq_map_slot :=
    w ← get;
    got ← of_option (omx__endpoint_sendq_map_get (Z.to_nat nr) req (w_sendq_map w));
    match got with
    | GetFailed => mret OMX_INTERNAL_MISSING_RESOURCES
    | Got founds m =>
        modify (fun w => w <| w_sendq_map := m |>);;
        upd_req req (set sendq_map_index (fun _ => founds));;
        got_resource req OMX_REQUEST_RESOURCE_SENDQ_SLOT;;
        set_target p req p_true_session_id;;
        upd_param req (fun s => s <| sp_match_info := s_match_info x |>
                                  <| sp_length := s_msg_length x |>);;
        throttle_or p req (omx__setup_isend_mediumsq p req);;
        mret OMX_SUCCESS
    end in
  let need_exp_events :=
    w ← get;
    if avail_exp_events w <? nr then mret OMX_INTERNAL_MISSING_RESOURCES
    else
      modify (fun w => w <| avail_exp_events ::= fun n => n - nr |>);;
      got_resource req OMX_REQUEST_RESOURCE_EXP_EVENT;;
      need_sendq_map_slot in
  if hasf res OMX_REQUEST_RESOURCE_EXP_EVENT then need_exp_events
  else if hasf res OMX_REQUEST_RESOURCE_SENDQ_SLOT then need_sendq_map_slot
  else abort.

(* [libxen2mx/omx_send.c:658-710] omx__submit_isend_medium *)
Definition omx__submit_isend_medium (p req : Z) : M unit :=
  w ← get;
  let use_sendq := medium_sendq (w_globals w) in
  upd_req req (fun x =>
    if use_sendq then
      x <| r_type := OMX_REQUEST_TYPE_SEND_MEDIUMSQ |>
        <| r_missing_resources := OMX_REQUEST_SEND_MEDIUMSQ_RESOURCES |>
        <| frags_nr := (total_length (r_segs x) + OMX_MEDIUM_FRAG_LENGTH_MAX - 1)
                       / OMX_MEDIUM_FRAG_LENGTH_MAX |>
    else x <| r_type := OMX_REQUEST_TYPE_SEND_MEDIUMVA |>);;
  upd_req req (fun x => x <| s_msg_length := total_length (r_segs x) |>
                          <| s_xfer_length := total_length (r_segs x) |>);;
  empty ← omx__empty_queue HNeedRes;
  if (empty : bool) then
    ret ← (if use_sendq then omx__alloc_setup_isend_mediumsq p req
           else omx__alloc_setup_isend_mediumva p req);
    when (negb (bool_decide (ret = OMX_SUCCESS))) (delay_request req)
  else delay_request req.

(** ** Rendez-vous *)

(* [libxen2mx/omx_send.c:716-748] omx__post_isend_rndv *)
Definition omx__post_isend_rndv (p req : Z) : M unit :=
  post CmdRndv omx__check_driver_pinning_error
    [OMX_NO_SYSTEM_RESOURCES; OMX_INTERNAL_MISC_EFAULT] p req.
(* [libxen2mx/omx_send.c:750-773] omx__setup_isend_rndv *)
Definition omx__setup_isend_rndv (p req : Z) : M unit :=
  take_seqnum p req;;
  omx__post_isend_rndv p req;;
  upd_req req (set r_state (setf (Z.lor OMX_REQUEST_STATE_NEED_REPLY OMX_REQUEST_STATE_NEED_ACK)));;
  enqueue_non_acked p req.

(* [libxen2mx/omx_send.c:775-837] omx__alloc_setup_isend_large *)
Definition omx__alloc_setup_isend_large (p req : Z) : M omx_return :=
  x ← get_req req;
  let res := r_missing_resources x in
  let need_large_region :=
    '(ret, g) ← omx__get_region (r_segs x) (Some req);
    if negb (bool_decide (ret = OMX_SUCCESS)) then mret ret
    else
      got_resource req OMX_REQUEST_RESOURCE_LARGE_REGION;;
      y ← get_region g;
      upd_req req (fun x => x <| large_region := g |> <| large_region_seqnum := g_last_seqnum y |>);;
      upd_region g (set g_last_seqnum (fun n => u8 (n + 1)));;
      set_target p req p_true_session_id;;
      upd_param req (fun s => s <| sp_match_info := s_match_info x |>
        <| sp_length := s_msg_length x |> <| sp_rdma_id := g_id y |>
        <| sp_rdma_seqnum := g_last_seqnum y |>);;
      throttle_or p req (omx__setup_isend_rndv p req);;
      mret OMX_SUCCESS in
  let need_send_large_region :=
    w ← get;
    if large_sends_avail_nr w =? 0 then mret OMX_INTERNAL_MISSING_RESOURCES
    else
      got_resource req OMX_REQUEST_RESOURCE_SEND_LARGE_REGION;;
      modify (fun w => w <| large_sends_avail_nr ::= fun n => n - 1 |>);;
      need_large_region in
  if hasf res OMX_REQUEST_RESOURCE_SEND_LARGE_REGION then need_send_large_region
  else if hasf res OMX_REQUEST_RESOURCE_LARGE_REGION then need_large_region
  else abort.

(* [libxen2mx/omx_send.c:839-865] omx__submit_isend_large *)
Definition omx__submit_isend_large (p req : Z) : M unit :=
  upd_req req (fun x => x <| r_type := OMX_REQUEST_TYPE_SEND_LARGE |>
    <| r_missing_resources := OMX_REQUEST_SEND_LARGE_RESOURCES |>
    <| s_msg_length := total_length (r_segs x) |>);;
  empty ← omx__empty_queue HNeedRes;
  if (empty : bool) then
    ret ← omx__alloc_setup_isend_large p req;
    when (negb (bool_decide (ret = OMX_SUCCESS))) (delay_request req)
  else delay_request req.

(** ** Notify of a large receive *)

(* [libxen2mx/omx_send.c:871-899] omx__post_notify *)
Definition omx__post_notify (p req : Z) : M unit :=
  post CmdNotify no_check [OMX_NO_SYSTEM_RESOURCES] p req.
(* [libxen2mx/omx_send.c:901-926] omx__setup_notify *)
Definition omx__setup_notify (p req : Z) : M unit :=
  take_seqnum p req;;
  omx__post_notify p req;;
  upd_req req (set r_state (setf OMX_REQUEST_STATE_NEED_ACK));;
  enqueue_non_acked p req;;
  notify_early req.
(* [libxen2mx/omx_send.c:928-954] omx__alloc_setup_notify *)
Definition omx__alloc_setup_notify (req : Z) : M unit :=
  x ← get_req req;
  let p := r_partner x in
  set_target p req p_back_session_id;;
  upd_param req (fun s => s <| sp_length := s_xfer_length x |>
    <| sp_rdma_id := pulled_rdma_id x |> <| sp_rdma_seqnum := pulled_rdma_seqnum x |>);;
  throttle_or p req (omx__setup_notify p req).
(* [libxen2mx/omx_send.c:956-971] omx__submit_notify *)
Definition omx__submit_notify (req : Z) (delayed : bool) : M unit :=
  empty ← omx__empty_queue HNeedRes;
  if negb empty || delayed then
    upd_req req (set r_state (setf OMX_REQUEST_STATE_NEED_RESOURCES));;
    omx__requeue_request HNeedRes req
  else omx__alloc_setup_notify req.

(** ** Throttled requests *)

Definition setup_any (p req : Z) : M unit :=
  x ← get_req req;
  match r_type x with
  | OMX_REQUEST_TYPE_SEND_TINY => omx__setup_isend_tiny p req
  | OMX_REQUEST_TYPE_SEND_SMALL => omx__setup_isend_small p req
  | OMX_REQUEST_TYPE_SEND_MEDIUMSQ => omx__setup_isend_mediumsq p req
  | OMX_REQUEST_TYPE_SEND_MEDIUMVA => omx__setup_isend_mediumva p req
  | OMX_REQUEST_TYPE_SEND_LARGE => omx__setup_isend_rndv p req
  | OMX_REQUEST_TYPE_RECV_LARGE => omx__setup_notify p req
  | _ => abort
  end.

(** The [while (nr > sent && ...)] loop, [nr] rounds left. *)
Fixpoint throttling_loop (nr : nat) (p sent : Z) : M Z :=
  match nr with
  | O => mret sent
  | S nr =>
      r ← omx__dequeue_first_partner_request (HpNeedSeq p);
      match r with
      | None => mret sent
      | Some req =>
          upd_req req (set r_state (clrf OMX_REQUEST_STATE_NEED_SEQNUM));;
          setup_any p req;;
          throttling_loop nr p (sent + 1)
      end
  end.
(* [libxen2mx/omx_send.c:1286-1326] omx__process_throttling_requests *)
Definition omx__process_throttling_requests (p nr : Z) : M unit :=
  sent ← throttling_loop (Z.to_nat nr) p 0;
  omx__update_partner_throttling p sent.

(** ** Sends that never left *)

(* [libxen2mx/omx_send.c:1331-1380] omx__release_unsent_send_resources *)
Definition omx__release_unsent_send_resources (req : Z) : M unit :=
  x ← get_req req;
  let res := r_missing_resources x in
  match r_type x with
  | OMX_REQUEST_TYPE_SEND_MEDIUMSQ =>
      when (negb (hasf res OMX_REQUEST_RESOURCE_EXP_EVENT))
        (modify (fun w => w <| avail_exp_events ::= fun n => u32 (n + frags_nr x) |>));;
      when (hasf res OMX_REQUEST_RESOURCE_SENDQ_SLOT) (upd_req req (set frags_nr (fun _ => 0)))
  | OMX_REQUEST_TYPE_SEND_LARGE =>
      when (negb (hasf res OMX_REQUEST_RESOURCE_SEND_LARGE_REGION))
        (modify (fun w => w <| large_sends_avail_nr ::= fun n => n + 1 |>));;
      when (negb (hasf res OMX_REQUEST_RESOURCE_LARGE_REGION))
        (omx__put_region (large_region x) (Some req))
  | OMX_REQUEST_TYPE_RECV_LARGE =>
      when (hasf (r_state x) OMX_REQUEST_STATE_RECV_PARTIAL) (
        when (negb (hasf res OMX_REQUEST_RESOURCE_EXP_EVENT))
          (modify (fun w => w <| avail_exp_events ::= fun n => u32 (n + 1) |>));;
        when (negb (hasf res OMX_REQUEST_RESOURCE_LARGE_REGION))
          (omx__put_region (local_region x) None))
  | _ => mret tt
  end.

(* [libxen2mx/omx_send.c:1382-1411] omx__complete_unsent_send_request *)
Definition omx__complete_unsent_send_request (req : Z) : M unit :=
  x ← get_req req;
  match r_type x with
  | OMX_REQUEST_TYPE_SEND_TINY | OMX_REQUEST_TYPE_SEND_SMALL | OMX_REQUEST_TYPE_SEND_MEDIUMSQ
  | OMX_REQUEST_TYPE_SEND_MEDIUMVA | OMX_REQUEST_TYPE_SEND_LARGE =>
      omx__release_unsent_send_resources req;;
      omx__send_complete req OMX_REMOTE_ENDPOINT_UNREACHABLE
  | OMX_REQUEST_TYPE_RECV_LARGE =>
      (if hasf (r_state x) OMX_REQUEST_STATE_RECV_PARTIAL then
         upd_req req (set r_state (Z.land OMX_REQUEST_STATE_RECV_PARTIAL))
       else omx__release_unsent_send_resources req);;
      omx__recv_complete req OMX_REMOTE_ENDPOINT_UNREACHABLE
  | _ => abort
  end.
End send.
End Send.
