(* ===== verification/Large.v ===== *)
(** Large messages ([libxen2mx/omx_large.c], second half): the pull request of
    a matched rendez-vous, its completion, and the notify that ends the
    send. *)
From S2P Require Import Prelude DList Seqnum Segments World SendqMap Request Region Send.
Import Seqnum Segs Request Partner Complete Regions Send.

Module Large.
Section large.
Context `{App}.

(** Entering at [need_pull] leaves the local variable [region] uninitialised:
    its use is undefined. *)
(* [libxen2mx/omx_large.c:476-543] omx__alloc_setup_pull *)
Definition omx__alloc_setup_pull (req : Z) : M omx_return :=
  x ← get_req req;
  let res := r_missing_resources x in
  let need_pull region :=
    q ← get_partner (r_partner x);
    w ← get;
    g ← of_option region;
    y ← get_region g;
    err ← ioctl (CmdPull {|
      pl_peer_index := p_peer_index q; pl_dest_endpoint := p_endpoint_index q;
      pl_shared := omx__partner_localization_shared q; pl_length := s_xfer_length x;
      pl_session_id := p_back_session_id q; pl_lib_cookie := req; pl_puller_rdma_id := g_id y;
      pl_pulled_rdma_id := pulled_rdma_id x; pl_pulled_rdma_seqnum := pulled_rdma_seqnum x;
      pl_pulled_rdma_offset := pulled_rdma_offset x;
      pl_resend_timeout_jiffies := pull_resend_timeout_jiffies w |});
    match err with
    | Some e =>
        ret ← omx__ioctl_errno_to_return_checked e [OMX_NO_SYSTEM_RESOURCES; OMX_INTERNAL_MISC_EFAULT];
        omx__check_driver_pinning_error ret;;
        mret OMX_INTERNAL_MISSING_RESOURCES
    | None =>
        got_resource req OMX_REQUEST_RESOURCE_PULL_HANDLE;;
        upd_req req (fun x => x <| local_region := g |>
                                <| r_state ::= setf OMX_REQUEST_STATE_DRIVER_PULLING |>);;
        omx__enqueue_request HPulling req;;
        mret OMX_SUCCESS
    end in
  let need_region :=
    '(ret, g) ← omx__get_region (r_segs x) None;
    if negb (bool_decide (ret = OMX_SUCCESS)) then mret ret
    else
      got_resource req OMX_REQUEST_RESOURCE_LARGE_REGION;;
      need_pull (Some g) in
  let need_exp_event :=
    w ← get;
    if avail_exp_events w <? 1 then mret OMX_INTERNAL_MISSING_RESOURCES
    else
      modify (fun w => w <| avail_exp_events ::= fun n => n - 1 |>);;
      got_resource req OMX_REQUEST_RESOURCE_EXP_EVENT;;
      need_region in
  if hasf res OMX_REQUEST_RESOURCE_EXP_EVENT then need_exp_event
  else if hasf res OMX_REQUEST_RESOURCE_LARGE_REGION then need_region
  else if hasf res OMX_REQUEST_RESOURCE_PULL_HANDLE then need_pull None
  else abort.

(* [libxen2mx/omx_large.c:545-572] omx__submit_pull *)
Definition omx__submit_pull (req : Z) : M unit :=
  x ← get_req req;
  if negb (s_xfer_length x =? 0) then
    upd_req req (set r_missing_resources (fun _ => OMX_REQUEST_PULL_RESOURCES));;
    ret ← omx__alloc_setup_pull req;
    when (negb (bool_decide (ret = OMX_SUCCESS))) (delay_request req)
  else
    upd_req req (set r_state (clrf OMX_REQUEST_STATE_RECV_PARTIAL));;
    omx__submit_notify req true.

(** The status of an [OMX_EVT_PULL_DONE] event. *)
Inductive pull_status :=
  | PULL_DONE_SUCCESS | PULL_DONE_BAD_ENDPT | PULL_DONE_ENDPT_CLOSED | PULL_DONE_BAD_SESSION
  | PULL_DONE_BAD_RDMAWIN | PULL_DONE_ABORTED | PULL_DONE_TIMEOUT | PULL_DONE_OTHER.
Definition pull_done_status (s : pull_status) : option omx_return :=
  match s with
  | PULL_DONE_SUCCESS => Some OMX_SUCCESS
  | PULL_DONE_BAD_ENDPT => Some OMX_REMOTE_ENDPOINT_BAD_ID
  | PULL_DONE_ENDPT_CLOSED => Some OMX_REMOTE_ENDPOINT_CLOSED
  | PULL_DONE_BAD_SESSION => Some OMX_REMOTE_ENDPOINT_BAD_SESSION
  | PULL_DONE_BAD_RDMAWIN => Some OMX_REMOTE_RDMA_WINDOW_BAD_ID
  | PULL_DONE_ABORTED => Some OMX_MESSAGE_ABORTED
  | PULL_DONE_TIMEOUT => Some OMX_REMOTE_ENDPOINT_UNREACHABLE
  | PULL_DONE_OTHER => None
  end.

(* [libxen2mx/omx_large.c:574-649] omx__process_pull_done *)
Definition omx__process_pull_done (lib_cookie puller_rdma_id : Z) (status : pull_status) : M unit :=
  let req := lib_cookie in
  let g := puller_rdma_id in
  match pull_done_status status with
  | None => abort
  | Some status =>
      when (negb (bool_decide (status = OMX_SUCCESS))) (
        c ← omx__error_with_req status;
        upd_req req (fun x => x <| s_code := c |> <| s_xfer_length := 0 |>));;
      omx__put_region g None;;
      omx__dequeue_request HPulling req;;
      upd_req req (set r_state (clrf (Z.lor OMX_REQUEST_STATE_DRIVER_PULLING
                                            OMX_REQUEST_STATE_RECV_PARTIAL)));;
      omx__submit_notify req false
  end.

(* [libxen2mx/omx_large.c:651-678] omx__submit_discarded_notify *)
Definition omx__submit_discarded_notify (p rdma_id rdma_seqnum rdma_offset : Z) : M omx_return :=
  r ← omx__request_alloc;
  match r with
  | None => abort
  | Some fakereq =>
      upd_req fakereq (fun x => x <| r_segs := omx_cache_single_segment 0 0 |> <| r_partner := p |>
        <| r_type := OMX_REQUEST_TYPE_RECV_LARGE |> <| r_state := OMX_REQUEST_STATE_ZOMBIE |>
        <| s_xfer_length := 0 |> <| pulled_rdma_id := rdma_id |>
        <| pulled_rdma_seqnum := rdma_seqnum |> <| pulled_rdma_offset := rdma_offset |>);;
      modify (fun w => w <| zombies ::= fun z => u32 (z + 1) |>);;
      omx__submit_notify fakereq true;;
      mret OMX_SUCCESS
  end.

(* [libxen2mx/omx_large.c:680-733] omx__process_recv_notify *)
Definition omx__process_recv_notify (p : Z) (msg : recv_msg) (xfer_length : Z) : M unit :=
  match m_specific msg with
  | MsgNotify _ region_id region_seqnum =>
      g ← get_region region_id;
      match g_reserver g with
      | RUninit => undef
      | RNull => mret tt
      | RObj req =>
          x ← get_req req;
          if negb (region_seqnum =? large_region_seqnum x) then mret tt
          else
            omx__put_region (large_region x) (Some req);;
            modify (fun w => w <| large_sends_avail_nr ::= fun n => n + 1 |>);;
            upd_req req (fun x => x <| s_xfer_length := xfer_length |>
                                    <| r_state ::= clrf OMX_REQUEST_STATE_NEED_REPLY |>);;
            x ← get_req req;
            if hasf (r_state x) OMX_REQUEST_STATE_NEED_ACK then mret tt
            else
              omx__dequeue_request HLargeNeedReply req;;
              omx__send_complete req OMX_SUCCESS
      end
  | _ => undef
  end.
End large.
End Large.
