(* ===== verification/Ack.v ===== *)
(** Acknowledgements ([libxen2mx/omx_ack.c]): acks and nacks applied to the
    non-acked requests, acks sent back to the partners, wakeup times. *)
From S2P Require Import Prelude DList Seqnum Segments World SendqMap Request Region Send.
Import Seqnum Segs Request Partner Complete Regions Send.

Module Ack.
Definition OMX_TIMEOUT_INFINITE : Z := u32 (-1).
Definition OMX_CMD_WAIT_EVENT_TIMEOUT_INFINITE : Z := u64 (-1).
Section ack.
Context `{App}.

(* [libxen2mx/omx_ack.c:29-84] omx__mark_request_acked *)
Definition omx__mark_request_acked (req : Z) (status : omx_return) : M unit :=
  upd_req req (set r_state (clrf OMX_REQUEST_STATE_NEED_ACK));;
  x ← get_req req;
  match r_type x with
  | OMX_REQUEST_TYPE_SEND_TINY | OMX_REQUEST_TYPE_SEND_SMALL | OMX_REQUEST_TYPE_SEND_MEDIUMVA =>
      omx__dequeue_request HNonAcked req;;
      omx__send_complete req status
  | OMX_REQUEST_TYPE_SEND_MEDIUMSQ =>
      if hasf (r_state x) OMX_REQUEST_STATE_DRIVER_MEDIUMSQ_SENDING then
        when (bool_decide (s_code x = OMX_SUCCESS)) (
          c ← omx__error_with_req status;
          upd_req req (set s_code (fun _ => c)))
      else
        omx__dequeue_request HNonAcked req;;
        omx__send_complete req status
  | OMX_REQUEST_TYPE_SEND_LARGE =>
      omx__dequeue_request HNonAcked req;;
      if negb (bool_decide (status = OMX_SUCCESS)) then
        upd_req req (set r_state (clrf OMX_REQUEST_STATE_NEED_REPLY));;
        omx__put_region (large_region x) (Some req);;
        modify (fun w => w <| large_sends_avail_nr ::= fun n => n + 1 |>);;
        omx__send_complete req status
      else if hasf (r_state x) OMX_REQUEST_STATE_NEED_REPLY then
        omx__enqueue_request HLargeNeedReply req
      else omx__send_complete req status
  | OMX_REQUEST_TYPE_RECV_LARGE =>
      omx__dequeue_request HNonAcked req;;
      omx__recv_complete req status
  | _ => abort
  end.

(** The [foreach_safe] loop of [omx__handle_ack] over the non-acked queue. *)
Definition ack_step (next_acked new_acks req : Z) : M bool :=
  x ← get_req req;
  let req_index := OMX__SEQNUM (r_send_seqnum x - next_acked) in
  if new_acks <=? req_index then mret false
  else
    omx___dequeue_partner_request req;;
    omx__mark_request_acked req OMX_SUCCESS;;
    mret true.

(* [libxen2mx/omx_ack.c:90-136] omx__handle_ack *)
Definition omx__handle_ack (p ack_before : Z) : M unit :=
  q ← get_partner p;
  let missing_acks := OMX__SEQNUM (p_next_send_seq q - p_next_acked_send_seq q) in
  let new_acks := OMX__SEQNUM (ack_before - p_next_acked_send_seq q) in
  if (new_acks =? 0) || (missing_acks <? new_acks) then mret tt
  else
    l ← ids (HpNonAcked p);
    until (ack_step (p_next_acked_send_seq q) new_acks) l;;
    upd_partner p (set p_next_acked_send_seq (fun _ => ack_before));;
    omx__process_throttling_requests p new_acks.

(* [libxen2mx/omx_ack.c:138-166] omx__handle_liback *)
Definition omx__handle_liback (p ack acknum : Z) : M unit :=
  q ← get_partner p;
  if negb (OMX__SESNUM (Z.lxor ack (p_next_send_seq q)) =? 0) then mret tt
  else if acknum <=? p_last_recv_acknum q then mret tt
  else
    upd_partner p (set p_last_recv_acknum (fun _ => acknum));;
    omx__handle_ack p ack.

(** [omx__connect_complete] is in [omx_partner.c]; a nacked connect is
    completed by it. *)
(* [libxen2mx/omx_partner.c:514-540] omx__connect_complete *)
Definition omx__connect_complete (req : Z) (status : omx_return) (session_id : Z) : M unit :=
  x ← get_req req;
  let p := r_partner x in
  ctxid ← ctxid_of (s_match_info x);
  omx__dequeue_request HConnect req;;
  omx__dequeue_partner_request (HpConnect p) req;;
  upd_req req (set r_state (clrf OMX_REQUEST_STATE_NEED_REPLY));;
  x ← get_req req;
  when (bool_decide (s_code x = OMX_SUCCESS)) (
    c ← (if negb (hasf (r_state x) OMX_REQUEST_STATE_INTERNAL) then omx__error_with_req status
         else mret status);
    upd_req req (set s_code (fun _ => c)));;
  when (bool_decide (status = OMX_SUCCESS))
    (upd_req req (set s_addr (fun _ => omx__partner_session_to_addr p session_id)));;
  omx__notify_request_done ctxid req.

(** The loop over the non-acked queue: the request to nack, if any. *)
Fixpoint find_nacked (next_acked nack_index : Z) (l : list Z) : M (option Z) :=
  match l with
  | [] => mret None
  | req :: l =>
      x ← get_req req;
      let req_index := OMX__SEQNUM (r_send_seqnum x - next_acked) in
      if nack_index <? req_index then mret None
      else if nack_index =? req_index then mret (Some req)
      else find_nacked next_acked nack_index l
  end.

(* [libxen2mx/omx_ack.c:172-217] omx__handle_nack *)
Definition omx__handle_nack (p seqnum : Z) (status : omx_return) : M unit :=
  q ← get_partner p;
  let nack_index := OMX__SEQNUM (seqnum - p_next_acked_send_seq q) in
  found ← (if negb (OMX__SESNUM (Z.lxor seqnum (p_next_send_seq q)) =? 0) then mret None
           else l ← ids (HpNonAcked p); find_nacked (p_next_acked_send_seq q) nack_index l);
  match found with
  | Some req =>
      omx___dequeue_partner_request req;;
      omx__mark_request_acked req status
  | None =>
      empty ← omx__empty_partner_queue (HpConnect p);
      if (empty : bool) then mret tt
      else
        req ← omx__first_partner_request (HpConnect p);
        omx__connect_complete req status (u32 (-1))
  end.

(* [libxen2mx/omx_ack.c:223-256] omx__submit_send_liback *)
Definition omx__submit_send_liback (p : Z) : M omx_return :=
  q ← get_partner p;
  let ack_upto := omx__get_partner_needed_ack q in
  upd_partner p (set p_last_send_acknum (fun n => u32 (n + 1)));;
  q ← get_partner p;
  err ← ioctl (CmdLiback (p_peer_index q) (p_endpoint_index q)
                 (omx__partner_localization_shared q) (p_back_session_id q)
                 (p_last_send_acknum q) ack_upto);
  match err with
  | Some e => omx__ioctl_errno_to_return_checked e [OMX_NO_SYSTEM_RESOURCES]
  | None => mret OMX_SUCCESS
  end.

Definition ack_partner (p : Z) : M bool :=
  ret ← omx__submit_send_liback p;
  if negb (bool_decide (ret = OMX_SUCCESS)) then mret false
  else omx__mark_partner_ack_sent p;; mret true.

(* [libxen2mx/omx_ack.c:258-313] omx__process_partners_to_ack *)
Definition omx__process_partners_to_ack : M unit :=
  now ← jiffies_now;
  l ← ids HAckImm;
  until ack_partner l;;
  w ← get;
  if now =? last_partners_acking_jiffies w then mret tt
  else
    modify (fun w => w <| last_partners_acking_jiffies := now |>);;
    l ← ids HAckDelayed;
    until (fun p =>
      q ← get_partner p;
      if u64 (now - p_oldest_recv_time_not_acked q) <? ack_delay_jiffies (w_globals w)
      then mret false else ack_partner p) l.

(* [libxen2mx/omx_ack.c:315-343] omx__flush_partners_to_ack *)
Definition omx__flush_partners_to_ack : M unit :=
  l ← ids HAckDelayed;
  each (fun p => ack_partner p;; mret tt) l.

(** [OMX_NO_WAKEUP_JIFFIES] is 0. *)
Definition OMX_NO_WAKEUP_JIFFIES : Z := 0.
Definition earlier (tmp wakeup : Z) : Z :=
  if (tmp <? wakeup) || (wakeup =? OMX_NO_WAKEUP_JIFFIES) then tmp else wakeup.
(* [libxen2mx/omx_ack.c:345-395] omx__prepare_progress_wakeup *)
Definition omx__prepare_progress_wakeup : M unit :=
  w ← get;
  let g := w_globals w in
  t ← (match queue HAckDelayed w with
       | [] => mret OMX_NO_WAKEUP_JIFFIES
       | n :: _ =>
           q ← get_partner (node_id n);
           mret (earlier (u64 (p_oldest_recv_time_not_acked q + ack_delay_jiffies g))
                         OMX_NO_WAKEUP_JIFFIES)
       end);
  t ← (match queue HNonAcked w with
       | [] => mret t
       | n :: _ =>
           x ← get_req (node_id n);
           mret (earlier (u64 (r_last_send_jiffies x + resend_delay_jiffies g)) t)
       end);
  t ← (match queue HConnect w with
       | [] => mret t
       | n :: _ =>
           x ← get_req (node_id n);
           mret (earlier (u64 (r_last_send_jiffies x + resend_delay_jiffies g)) t)
       end);
  modify (fun w => w <| wakeup_jiffies := t |>).

(* [libxen2mx/omx_lib.h:102-109] omx__timeout_ms_to_relative_jiffies *)
Definition omx__timeout_ms_to_relative_jiffies (hz ms : Z) : Z :=
  if ms =? OMX_TIMEOUT_INFINITE then OMX_CMD_WAIT_EVENT_TIMEOUT_INFINITE
  else u32 (ms * hz + 1023) / 1024.
(* [libxen2mx/omx_lib.h:95-100] omx__timeout_ms_to_resends *)
Definition omx__timeout_ms_to_resends (ms : Z) : Z := u32 (u32 (ms * 2) + 1023) / 1024.

(* [libxen2mx/omx_ack.c:402-419] omx_set_request_timeout *)
Definition omx_set_request_timeout (request : option Z) (ms : Z) : M omx_return :=
  w ← get;
  let jiffies := u32 (omx__timeout_ms_to_relative_jiffies (hz (w_globals w)) ms) in
  let resends := omx__timeout_ms_to_resends ms in
  (match request with
   | Some req => upd_req req (set r_resends_max (fun _ => resends))
   | None => modify (fun w => w <| pull_resend_timeout_jiffies := jiffies |>
                                <| req_resends_max := resends |>)
   end);;
  mret OMX_SUCCESS.
End ack.
End Ack.
