(* ===== verification/Recv.v ===== *)
(** Receives ([libxen2mx/omx_recv.c]): matching, in-order processing of the
    packets of a partner, early packets, medium fragments, messages to
    oneself, and the posting of receives. *)
From S2P Require Import Prelude DList Seqnum Segments World SendqMap Request Region Send Large.
From S2P Require Import Ack.
Import Seqnum Mem Segs Request Partner Complete Regions Send Large Ack.

Module Recv.

(** ** Early packets *)

(** Where a new early packet goes: dropped, at the head, or after a packet. *)
Inductive early_prev := PrevNull | PrevHead | PrevAfter (e : Z).

Definition frag_seqnum_of (m : recv_msg) : option Z :=
  match m_specific m with MsgMediumFrag _ _ _ frag_seqnum => Some frag_seqnum | _ => None end.

(** The reverse scan; comparing fragment numbers reads the fragment of the
    queued packet, which must be a medium fragment too. *)
Fixpoint early_scan (next_match : Z) (msg : recv_msg) (rl : list (Z * recv_msg)) : option early_prev :=
  match rl with
  | [] => Some PrevHead
  | (e, cur) :: rl =>
      let new_index := OMX__SEQNUM (m_seqnum msg - next_match) in
      let current_index := OMX__SEQNUM (m_seqnum cur - next_match) in
      if current_index <? new_index then Some (PrevAfter e)
      else if new_index <? current_index then early_scan next_match msg rl
      else match frag_seqnum_of msg with
      | None => Some PrevNull
      | Some new_frag =>
          current_frag ← frag_seqnum_of cur;
          if current_frag <? new_frag then Some (PrevAfter e)
          else if new_frag <? current_frag then early_scan next_match msg rl
          else Some PrevNull
      end
  end.

(** [list_add_after] on an element of a queue. *)
Definition insert_after (x e : node) : list node -> list node :=
  fix go l := match l with [] => [] | y :: l => if decide (y = x) then y :: e :: l else y :: go l end.

Section recv.
Context `{App}.

Definition get_early (e : Z) : M early_packet := w ← get; of_option (earlies w !! e).
Fixpoint early_msgs (l : list Z) : M (list (Z * recv_msg)) :=
  match l with
  | [] => mret []
  | e :: l => x ← get_early e; r ← early_msgs l; mret ((e, e_msg x) :: r)
  end.

(* [libxen2mx/omx_recv.c:61-140] omx__find_previous_early_packet *)
Definition omx__find_previous_early_packet (p : Z) (msg : recv_msg) : M early_prev :=
  q ← get_partner p;
  l ← ids (HpEarly p);
  ms ← early_msgs l;
  of_option (early_scan (p_next_match_recv_seq q) msg (rev ms)).

Definition free_early (e : Z) : M unit :=
  omx_free_ep e;; modify (fun w => w <| earlies ::= delete e |>).

(** The data buffer of an early packet: [None] when it cannot be allocated,
    [Some 0] (NULL) when none is needed. *)
Definition early_data (src length : Z) : M (option Z) :=
  a ← omx_malloc_ep;
  match a with
  | None => mret None
  | Some d => on_mem (fun m => Some (memcpy m d src length));; mret (Some d)
  end.

(** The data buffer and the message length an early packet keeps. *)
Definition keep_data (msg : recv_msg) (data : Z) : M (option Z * Z) :=
  match m_specific msg with
  | MsgTiny length _ => mret (Some 0, length)
  | MsgSmall _ length => d ← early_data data length; mret (d, length)
  | MsgMediumFrag _ msg_length frag_length _ => d ← early_data data frag_length; mret (d, msg_length)
  | MsgRndv msg_length _ _ _ _ => mret (Some 0, msg_length)
  | MsgNotify _ _ _ => mret (Some 0, 0)
  end.

(* [libxen2mx/omx_recv.c:142-223] omx__postpone_early_packet *)
Definition omx__postpone_early_packet (p : Z) (msg : recv_msg) (data : Z) (func : recv_func) : M unit :=
  prev ← omx__find_previous_early_packet p msg;
  match prev with
  | PrevNull => mret tt
  | _ =>
      a ← omx_malloc_ep;
      match a with
      | None => mret tt
      | Some e =>
          '(d, msg_length) ← keep_data msg data;
          match d with
          | None => omx_free_ep e
          | Some d =>
              modify (fun w => w <| earlies ::= <[e := Early msg func d msg_length]> |>);;
              on_qs (alter (match prev with
                            | PrevAfter x => insert_after (EEarly x) (EEarly e)
                            | _ => cons (EEarly e)
                            end) (HpEarly p))
          end
      end
  end.

(** ** The callbacks of the packet types *)

Definition enqueue_unexp (ctxid req : Z) : M unit :=
  omx__enqueue_request HUnexp req;;
  w ← get;
  when (HAS_CTXIDS w) (omx__enqueue_ctxid_request (HCtxUnexp ctxid) req).

(** The end of a receive that is entirely there. *)
Definition finish_or_unexp (ctxid req : Z) : M unit :=
  x ← get_req req;
  if hasf (r_state x) OMX_REQUEST_STATE_UNEXPECTED_RECV then enqueue_unexp ctxid req
  else omx__recv_complete req OMX_SUCCESS.

(* [libxen2mx/omx_recv.c:237-266] omx__process_recv_tiny *)
Definition omx__process_recv_tiny (req : Z) (msg : recv_msg) (xfer_length : Z) : M unit :=
  ctxid ← ctxid_of (m_match_info msg);
  x ← get_req req;
  (match m_specific msg with
   | MsgTiny _ data => on_mem (fun m => omx_copy_to_segments m (r_segs x) data xfer_length)
   | _ => undef
   end);;
  finish_or_unexp ctxid req.

(* [libxen2mx/omx_recv.c:268-297] omx__process_recv_small *)
Definition omx__process_recv_small (req : Z) (msg : recv_msg) (data xfer_length : Z) : M unit :=
  ctxid ← ctxid_of (m_match_info msg);
  x ← get_req req;
  on_mem (fun m => omx_copy_to_segments m (r_segs x) data xfer_length);;
  finish_or_unexp ctxid req.

(* [libxen2mx/omx_recv.c:299-308] omx__init_process_recv_medium *)
Definition omx__init_process_recv_medium (req : Z) : M unit :=
  upd_req req (fun x => x <| frags_received_mask := 0 |> <| accumulated_length := 0 |>
    <| scan_offset := 0 |> <| scan_state := Scan 0 0 |> <| scan_base := segs (r_segs x) |>).

(** The part of a fragment that fits the receive buffer. *)
Definition xfer_chunk (offset chunk xfer_length : Z) : Z :=
  if offset + chunk <=? xfer_length then chunk
  else if offset <=? xfer_length then xfer_length - offset else 0.

(** A saved scan position is only good for the segment array it was taken
    in: reusing it for another array dereferences a stale pointer. *)
Definition same_array (a b : segs_ptr) : bool :=
  match a, b with
  | PtrSingle, PtrSingle => true
  | PtrArray x _, PtrArray y _ => x =? y
  | _, _ => false
  end.
Definition copy_frag (req data offset chunk : Z) : M unit :=
  w ← get;
  x ← get_req req;
  if nseg (r_segs x) =? 1 then
    on_mem (fun m => Some (memcpy m (vaddr (single (r_segs x)) + offset) data chunk))
  else if (offset =? scan_offset x) && negb (same_array (scan_base x) (segs (r_segs x))) then undef
  else
    match omx_partial_copy_to_segments (memory w) (r_segs x) data chunk offset
            (scan_state x) (scan_offset x) with
    | Some (m, st, so) =>
        on_mem (fun _ => Some m);;
        upd_req req (fun x => x <| scan_state := st |> <| scan_offset := so |>
                                <| scan_base := segs (r_segs x) |>)
    | None => undef
    end.

(** Shifting by 32 or more is undefined. *)
(* [libxen2mx/omx_recv.c:310-434] omx__process_recv_medium_frag *)
Definition omx__process_recv_medium_frag (p req : Z) (msg : recv_msg) (data xfer_length : Z) : M unit :=
  match m_specific msg with
  | MsgMediumFrag _ msg_length chunk frag_seqnum =>
      ctxid ← ctxid_of (m_match_info msg);
      let offset := frag_seqnum * OMX_MEDIUM_FRAG_LENGTH_MAX in
      x ← get_req req;
      let new := frags_received_mask x =? 0 in
      if 32 <=? frag_seqnum then undef
      else if Z.testbit (frags_received_mask x) frag_seqnum then mret tt
      else
        copy_frag req data offset (xfer_chunk offset chunk xfer_length);;
        upd_req req (fun x => x <| frags_received_mask ::= fun m => Z.lor m (2 ^ frag_seqnum) |>
                                <| accumulated_length ::= fun l => u32 (l + chunk) |>);;
        when new (
          x ← get_req req;
          when (hasf (r_state x) OMX_REQUEST_STATE_UNEXPECTED_RECV) (enqueue_unexp ctxid req);;
          upd_req req (set r_state (setf OMX_REQUEST_STATE_RECV_PARTIAL));;
          omx__enqueue_partner_request (HpPartial p) req);;
        x ← get_req req;
        when (accumulated_length x =? msg_length) (
          upd_req req (set r_state (clrf OMX_REQUEST_STATE_RECV_PARTIAL));;
          omx__dequeue_partner_request (HpPartial p) req;;
          x ← get_req req;
          when (negb (hasf (r_state x) OMX_REQUEST_STATE_UNEXPECTED_RECV))
            (omx__recv_complete req OMX_SUCCESS))
  | _ => undef
  end.

(* [libxen2mx/omx_recv.c:437-468] omx__process_recv_rndv *)
Definition omx__process_recv_rndv (req : Z) (msg : recv_msg) : M unit :=
  match m_specific msg with
  | MsgRndv _ rdma_id rdma_seqnum rdma_offset checksum =>
      ctxid ← ctxid_of (m_match_info msg);
      upd_req req (fun x => x <| r_checksum := checksum |> <| pulled_rdma_id := rdma_id |>
        <| pulled_rdma_seqnum := rdma_seqnum |> <| pulled_rdma_offset := rdma_offset |>
        <| r_type := OMX_REQUEST_TYPE_RECV_LARGE |>
        <| r_state ::= setf OMX_REQUEST_STATE_RECV_PARTIAL |>);;
      x ← get_req req;
      if hasf (r_state x) OMX_REQUEST_STATE_UNEXPECTED_RECV then enqueue_unexp ctxid req
      else omx__submit_pull req
  | _ => undef
  end.

Definition recv_callback (f : recv_func) (p req : Z) (msg : recv_msg) (data xfer_length : Z) : M unit :=
  match f with
  | RecvTiny => omx__process_recv_tiny req msg xfer_length
  | RecvSmall => omx__process_recv_small req msg data xfer_length
  | RecvMediumFrag => omx__process_recv_medium_frag p req msg data xfer_length
  | RecvRndv => omx__process_recv_rndv req msg
  | RecvNotify => omx__process_recv_notify p msg xfer_length
  end.

(** ** Matching *)

(** [match_info == (match_mask & msg's match_info)] *)
Definition recv_matches (x : request) (match_info : Z) : bool :=
  r_match_info x =? Z.land (r_match_mask x) match_info.

Fixpoint find_recv (match_info : Z) (l : list Z) : M (option Z) :=
  match l with
  | [] => mret None
  | req :: l =>
      x ← get_req req;
      if recv_matches x match_info then mret (Some req) else find_recv match_info l
  end.

(* [libxen2mx/omx_recv.c:474-489] omx__match_recv *)
Definition omx__match_recv (match_info : Z) : M (option Z) :=
  ctxid ← ctxid_of match_info;
  l ← ids (HCtxRecv ctxid);
  r ← find_recv match_info l;
  match r with
  | None => mret None
  | Some req => omx___dequeue_request req;; mret (Some req)
  end.

Definition OMX_PROGRESSION_DISABLED_IN_HANDLER : Z := 1.
Definition OMX_PROGRESSION_DISABLED_BY_API : Z := 2.

(** The handler runs with progression disabled. *)
Definition call_handler (h : unexp_call -> world -> handler_ret * world) (c : unexp_call)
    : M handler_ret :=
  modify (set progression_disabled (fun _ => OMX_PROGRESSION_DISABLED_IN_HANDLER));;
  r ← (fun w => let '(r, w) := h c w in Ret r w);
  modify (set progression_disabled (fun _ => 0));;
  mret r.

Definition is_medium (msg : recv_msg) : bool :=
  match m_specific msg with MsgMediumFrag _ _ _ _ => true | _ => false end.

(** Matched, consumed by the handler, or unmatched. *)
Inductive matched := MatchedReq (req : Z) | Consumed | Unmatched.

Definition try_handler (match_info : Z) (call : unexp_call) : M matched :=
  r ← omx__match_recv match_info;
  match r, unexp_handler with
  | Some req, _ => mret (MatchedReq req)
  | None, None => mret Unmatched
  | None, Some h =>
      ret ← call_handler h call;
      match ret with
      | RECV_FINISHED => mret Consumed
      | RECV_OTHER => abort
      | RECV_CONTINUE =>
          r ← omx__match_recv match_info;
          match r with Some req => mret (MatchedReq req) | None => mret Unmatched end
      end
  end.

(** What the handler may look at before the message is received. *)
Definition data_if_available (msg : recv_msg) (data msg_length : Z) : option Z :=
  match m_specific msg with
  | MsgTiny _ d => Some d
  | MsgSmall _ _ => Some data
  | MsgMediumFrag _ _ frag_length _ => if msg_length =? frag_length then Some data else None
  | _ => None
  end.

(* [libxen2mx/omx_recv.c:491-628] omx__try_match_next_recv *)
Definition omx__try_match_next_recv (p seqnum : Z) (msg : recv_msg) (data msg_length : Z)
    (func : recv_func) : M omx_return :=
  source ← omx__partner_recv_to_addr p;
  r ← try_handler (m_match_info msg) (UnexpCall source (m_match_info msg) msg_length
                                       (data_if_available msg data msg_length));
  match r with
  | Consumed =>
      match m_specific msg with
      | MsgRndv _ rdma_id rdma_seqnum rdma_offset _ =>
          omx__submit_discarded_notify p rdma_id rdma_seqnum rdma_offset;; mret OMX_SUCCESS
      | _ => mret OMX_SUCCESS
      end
  | MatchedReq req =>
      upd_req req (fun x => x <| r_partner := p |> <| r_seqnum := seqnum |> <| s_addr := source |>
        <| s_match_info := m_match_info msg |>
        <| r_state ::= clrf OMX_REQUEST_STATE_RECV_NEED_MATCHING |> <| s_msg_length := msg_length |>
        <| s_xfer_length := if total_length (r_segs x) <? msg_length then total_length (r_segs x)
                            else msg_length |>);;
      x ← get_req req;
      when (is_medium msg) (omx__init_process_recv_medium req);;
      recv_callback func p req msg data (s_xfer_length x);;
      mret OMX_SUCCESS
  | Unmatched =>
      a ← omx__request_alloc;
      match a with
      | None => mret OMX_NO_RESOURCES
      | Some req =>
          upd_req req (fun x => x <| r_type := OMX_REQUEST_TYPE_RECV |>
                                  <| r_state := OMX_REQUEST_STATE_UNEXPECTED_RECV |>);;
          when (is_medium msg) (omx__init_process_recv_medium req);;
          buffer ← (match m_specific msg with
            | MsgRndv _ _ _ _ _ => mret (Some None)
            | _ => if msg_length =? 0 then mret (Some (Some 0))
                   else b ← omx_malloc_ep; mret (Some <$> b)
            end);
          match buffer with
          | None => omx__request_free req;; mret OMX_NO_RESOURCES
          | Some buffer =>
              (match buffer with
               | Some b => upd_req req (set r_segs (fun _ => omx_cache_single_segment b msg_length))
               | None => mret tt
               end);;
              upd_req req (fun x => x <| r_partner := p |> <| r_seqnum := seqnum |>
                <| s_addr := source |> <| s_match_info := m_match_info msg |>
                <| s_msg_length := msg_length |> <| s_xfer_length := msg_length |>);;
              recv_callback func p req msg data msg_length;;
              mret OMX_SUCCESS
          end
      end
  end.

(** ** In-order processing *)

(* [libxen2mx/omx_recv.c:630-664] omx__update_partner_next_frag_recv_seq *)
Definition omx__update_partner_next_frag_recv_seq (p : Z) : M unit :=
  w ← get;
  q ← get_partner p;
  l ← ids (HpPartial p);
  new ← (match l with
         | [] => mret (p_next_match_recv_seq q)
         | req :: _ => x ← get_req req; mret (r_seqnum x)
         end);
  when (negb (new =? p_next_frag_recv_seq q)) (
    upd_partner p (set p_next_frag_recv_seq (fun _ => new));;
    if not_acked_max (w_globals w) <=? OMX__SEQNUM (new - p_last_acked_recv_seq q)
    then omx__mark_partner_need_ack_immediate p
    else omx__mark_partner_need_ack_delayed p).

(** The loop over the partner's partial receives. *)
Fixpoint find_partial (next_frag new_index : Z) (l : list Z) : M (option Z) :=
  match l with
  | [] => mret None
  | req :: l =>
      x ← get_req req;
      let req_index := OMX__SEQNUM (r_seqnum x - next_frag) in
      if req_index =? new_index then mret (Some req)
      else if new_index <? req_index then mret None
      else find_partial next_frag new_index l
  end.

(* [libxen2mx/omx_recv.c:666-690] omx__continue_partial_request *)
Definition omx__continue_partial_request (p seqnum : Z) (msg : recv_msg) (data msg_length : Z) : M unit :=
  q ← get_partner p;
  let new_index := OMX__SEQNUM (seqnum - p_next_frag_recv_seq q) in
  l ← ids (HpPartial p);
  r ← find_partial (p_next_frag_recv_seq q) new_index l;
  match r with
  | None => mret tt
  | Some req =>
      x ← get_req req;
      omx__process_recv_medium_frag p req msg data (s_xfer_length x);;
      omx__update_partner_next_frag_recv_seq p
  end.

(* [libxen2mx/omx_recv.c:692-734] omx__process_partner_ordered_recv *)
Definition omx__process_partner_ordered_recv (p seqnum : Z) (msg : recv_msg)
    (data msg_length : Z) (func : recv_func) : M omx_return :=
  q ← get_partner p;
  let match_index := OMX__SEQNUM (seqnum - p_next_match_recv_seq q) in
  let frag_index := OMX__SEQNUM (seqnum - p_next_frag_recv_seq q) in
  let frag_index_max := OMX__SEQNUM (p_next_match_recv_seq q - p_next_frag_recv_seq q) in
  if match_index =? 0 then
    ret ← (match m_specific msg with
           | MsgNotify length _ _ => recv_callback func p 0 msg 0 length;; mret OMX_SUCCESS
           | _ => omx__try_match_next_recv p seqnum msg data msg_length func
           end);
    (if bool_decide (ret = OMX_SUCCESS) then
       upd_partner p (set p_next_match_recv_seq OMX__SEQNUM_INCREASE);;
       omx__update_partner_next_frag_recv_seq p
     else mret tt);;
    mret ret
  else if is_medium msg && (frag_index <? frag_index_max) then
    omx__continue_partial_request p seqnum msg data msg_length;; mret OMX_SUCCESS
  else mret OMX_SUCCESS.

(** One early packet after the expected sequence number moved. *)
Definition process_early (p old_next_match early_index_max e : Z) : M unit :=
  x ← get_early e;
  let early_index := OMX__SEQNUM (m_seqnum (e_msg x) - old_next_match) in
  when (early_index <=? early_index_max) (
    unlink (EEarly e);;
    omx__process_partner_ordered_recv p (m_seqnum (e_msg x)) (e_msg x) (e_data x)
      (e_msg_length x) (e_recv_func x);;
    omx_free_ep (e_data x);;
    free_early e).

(* [libxen2mx/omx_recv.c:736-837] omx__process_recv *)
Definition omx__process_recv (msg : recv_msg) (data msg_length : Z) (func : recv_func) : M unit :=
  let seqnum := m_seqnum msg in
  let piggyack := m_piggyack msg in
  r ← omx__partner_recv_lookup (m_peer_index msg) (m_src_endpoint msg);
  match r with
  | None => mret tt
  | Some p =>
      q ← get_partner p;
      if negb (OMX__SESNUM (Z.lxor seqnum (p_next_frag_recv_seq q)) =? 0) then mret tt
      else if negb (OMX__SESNUM (Z.lxor piggyack (p_next_send_seq q)) =? 0) then mret tt
      else
        omx__handle_ack p piggyack;;
        q ← get_partner p;
        let old_next_match := p_next_match_recv_seq q in
        let frag_index := OMX__SEQNUM (seqnum - p_next_frag_recv_seq q) in
        let frag_index_max := OMX__SEQNUM (old_next_match - p_next_frag_recv_seq q) in
        if frag_index <=? frag_index_max then
          omx__process_partner_ordered_recv p seqnum msg data msg_length func;;
          q ← get_partner p;
          when (negb (old_next_match =? p_next_match_recv_seq q)) (
            let early_index_max := OMX__SEQNUM (p_next_match_recv_seq q - old_next_match) in
            l ← ids (HpEarly p);
            each (process_early p old_next_match early_index_max) l)
        else if frag_index <=? frag_index_max + OMX__EARLY_PACKET_OFFSET_MAX then
          omx__postpone_early_packet p msg data func
        else
          when (frag_index =? OMX__SEQNUM (-1)) (omx__mark_partner_need_ack_immediate p)
  end.
End recv.
End Recv.
