(* ===== verification/Unexp.v ===== *)
(** Messages to oneself, library acks and nacks, and the completion of an
    unexpected message by a later receive ([libxen2mx/omx_recv.c], second
    half). *)
From S2P Require Import Prelude DList Seqnum Segments World SendqMap Request Region Send Large.
From S2P Require Import Ack Recv.
Import Seqnum Mem Segs Request Partner Complete Regions Send Large Ack Recv.

Module Unexp.
Section unexp.
Context `{App}.

Definition checksum_of (x : request) (length : Z) (w : world) : Z :=
  omx_checksum_segments (memory w) (r_segs x) length.

(** The end of a send to oneself that cannot be received. *)
Definition fail_self_send (sreq : Z) : M unit :=
  status_code ← omx__error_with_ep OMX_NO_RESOURCES;
  upd_req sreq (set r_state (fun _ => 0));;
  omx__send_complete sreq status_code;;
  omx__notify_user_event.

(* [libxen2mx/omx_recv.c:843-1022] omx__process_self_send *)
Definition omx__process_self_send (sreq : Z) : M unit :=
  w ← get;
  x ← get_req sreq;
  let match_info := s_match_info x in
  let msg_length := total_length (r_segs x) in
  ctxid ← ctxid_of match_info;
  upd_req sreq (fun x => x <| r_type := OMX_REQUEST_TYPE_SEND_SELF |> <| r_partner := myself w |>
    <| s_match_info := match_info |> <| s_msg_length := msg_length |>);;
  r ← try_handler match_info (UnexpCall (s_addr x) match_info msg_length
        (if nseg (r_segs x) =? 1 then Some (vaddr (single (r_segs x))) else None));
  match r with
  | Consumed =>
      upd_req sreq (set s_xfer_length (fun _ => msg_length));;
      omx__send_complete sreq OMX_SUCCESS
  | MatchedReq rreq =>
      w ← get;
      y ← get_req rreq;
      let truncated := total_length (r_segs y) <? msg_length in
      let status_code := if truncated then OMX_MESSAGE_TRUNCATED else OMX_SUCCESS in
      let xfer_length := if truncated then total_length (r_segs y) else msg_length in
      upd_req rreq (fun y => y <| r_partner := myself w |> <| s_addr := s_addr x |>
        <| s_match_info := match_info |>
        <| r_state ::= clrf OMX_REQUEST_STATE_RECV_NEED_MATCHING |>
        <| s_msg_length := msg_length |> <| s_xfer_length := xfer_length |>);;
      upd_req sreq (set s_xfer_length (fun _ => xfer_length));;
      on_mem (fun m => omx_copy_from_to_segments m (r_segs y) (r_segs x) xfer_length);;
      omx__send_complete sreq status_code;;
      omx__recv_complete rreq status_code;;
      omx__notify_user_event
  | Unmatched =>
      a ← omx__request_alloc;
      match a with
      | None => fail_self_send sreq
      | Some rreq =>
          buffer ← (if msg_length =? 0 then mret (Some 0) else omx_malloc_ep);
          match buffer with
          | None => omx__request_free rreq;; fail_self_send sreq
          | Some b =>
              w ← get;
              upd_req rreq (fun y => y <| r_type := OMX_REQUEST_TYPE_RECV_SELF_UNEXPECTED |>
                <| r_state := OMX_REQUEST_STATE_UNEXPECTED_RECV |>
                <| r_segs := omx_cache_single_segment b msg_length |> <| r_partner := myself w |>
                <| s_addr := s_addr x |> <| s_match_info := match_info |>
                <| s_msg_length := msg_length |> <| self_sreq := sreq |>);;
              on_mem (fun m => omx_copy_from_segments m b (r_segs x) msg_length);;
              w ← get;
              upd_req rreq (fun y => y <| r_checksum := checksum_of y msg_length w |>);;
              enqueue_unexp ctxid rreq;;
              upd_req sreq (set r_state (setf OMX_REQUEST_STATE_UNEXPECTED_SELF_SEND));;
              omx__enqueue_request HUnexpSelf sreq
          end
      end
  end.

(* [libxen2mx/omx_recv.c:1028-1040] omx__process_recv_liback *)
Definition omx__process_recv_liback (peer_index src_endpoint lib_seqnum acknum : Z) : M unit :=
  r ← omx__partner_recv_lookup peer_index src_endpoint;
  match r with
  | None => mret tt
  | Some p => omx__handle_liback p lib_seqnum acknum
  end.

Inductive nack_type := NACK_LIB_BAD_ENDPT | NACK_LIB_ENDPT_CLOSED | NACK_LIB_BAD_SESSION | NACK_LIB_OTHER.
Definition nack_status (t : nack_type) : option omx_return :=
  match t with
  | NACK_LIB_BAD_ENDPT => Some OMX_REMOTE_ENDPOINT_BAD_ID
  | NACK_LIB_ENDPT_CLOSED => Some OMX_REMOTE_ENDPOINT_CLOSED
  | NACK_LIB_BAD_SESSION => Some OMX_REMOTE_ENDPOINT_BAD_SESSION
  | NACK_LIB_OTHER => None
  end.
(* [libxen2mx/omx_recv.c:1046-1088] omx__process_recv_nack_lib *)
Definition omx__process_recv_nack_lib (peer_index src_endpoint seqnum : Z) (t : nack_type) : M unit :=
  r ← omx__partner_recv_lookup peer_index src_endpoint;
  match r with
  | None => mret tt
  | Some p =>
      match nack_status t with
      | None => abort
      | Some status => omx__handle_nack p seqnum status
      end
  end.

(* [libxen2mx/omx_recv.c:1094-1193] omx__complete_unexp_req_as_irecv *)
Definition omx__complete_unexp_req_as_irecv (req : Z) (reqsegs : req_segs) (context : Z) : M unit :=
  omx___dequeue_request req;;
  w ← get;
  when (HAS_CTXIDS w) (omx___dequeue_ctxid_request req);;
  x ← get_req req;
  let unexp_buffer := vaddr (single (r_segs x)) in
  let msg_length := s_msg_length x in
  let xfer_length := if total_length reqsegs <? msg_length then total_length reqsegs else msg_length in
  upd_req req (fun x => x <| r_segs := omx_clone_segments reqsegs |> <| s_xfer_length := xfer_length |>
    <| r_state ::= clrf OMX_REQUEST_STATE_UNEXPECTED_RECV |> <| s_context := context |>);;
  match r_type x with
  | OMX_REQUEST_TYPE_RECV_LARGE => omx__submit_pull req
  | OMX_REQUEST_TYPE_RECV_SELF_UNEXPECTED =>
      let sreq := self_sreq x in
      let status_code := if xfer_length <? msg_length then OMX_MESSAGE_TRUNCATED else OMX_SUCCESS in
      on_mem (fun m => omx_copy_to_segments m reqsegs unexp_buffer xfer_length);;
      when (negb (msg_length =? 0)) (omx_free_ep unexp_buffer);;
      omx__recv_complete req status_code;;
      upd_req sreq (set r_state (clrf OMX_REQUEST_STATE_UNEXPECTED_SELF_SEND));;
      omx__dequeue_request HUnexpSelf sreq;;
      upd_req sreq (set s_xfer_length (fun _ => xfer_length));;
      omx__send_complete sreq status_code;;
      omx__notify_user_event
  | _ =>
      on_mem (fun m => omx_copy_to_segments m reqsegs unexp_buffer xfer_length);;
      when (negb (msg_length =? 0)) (omx_free_ep unexp_buffer);;
      x ← get_req req;
      if negb (r_state x =? 0) then mret tt
      else
        omx__recv_complete req OMX_SUCCESS;;
        omx__notify_user_event
  end.

(** The unexpected queue a receive searches. *)
Definition unexp_queue (w : world) (match_info : Z) : node :=
  if HAS_CTXIDS w then HCtxUnexp (CTXID_FROM_MATCHING w match_info) else HUnexp.

Fixpoint find_unexp (match_info match_mask : Z) (l : list Z) : M (option Z) :=
  match l with
  | [] => mret None
  | req :: l =>
      x ← get_req req;
      if Z.land (s_match_info x) match_mask =? match_info then mret (Some req)
      else find_unexp match_info match_mask l
  end.
End unexp.
End Unexp.
