(* ===== verification/Connect.v ===== *)
(** Partners and connections ([libxen2mx/omx_partner.c]). *)
From S2P Require Import Prelude DList Seqnum Segments World SendqMap Request Region Send Large.
From S2P Require Import Ack Recv.
Import Seqnum Segs Request Partner Complete Regions Send Large Ack Recv.

Module Connect.
Section connect.
Context `{App}.

(** The peer table of the driver: index of an address, address of an index. *)
Context (peer_index_to_addr : Z -> omx_return + Z) (peer_addr_to_index : Z -> omx_return + Z).

(* [libxen2mx/omx_partner.c:111-139] omx__partner_reset *)
Definition omx__partner_reset (p : Z) : M unit :=
  init_head (HpNonAcked p);; init_head (HpConnect p);; init_head (HpPartial p);;
  init_head (HpEarly p);; init_head (HpNeedSeq p);;
  upd_partner p (fun q =>
    let next := OMX__SEQNUM_RESET (p_next_match_recv_seq q) in
    q <| p_true_session_id := u32 (-1) |> <| p_back_session_id := u32 (-1) |>
      <| p_next_send_seq := u16 (-1) |> <| p_next_acked_send_seq := u16 (-1) |>
      <| p_next_match_recv_seq := next |> <| p_next_frag_recv_seq := next |>
      <| p_last_acked_recv_seq := next |> <| p_connect_seqnum := 0 |>
      <| p_last_send_acknum := 0 |> <| p_last_recv_acknum := 0 |>
      <| p_throttling_sends_nr := 0 |>);;
  q ← get_partner p;
  when (negb (bool_decide (p_need_ack q = NEED_NO_ACK))) (
    upd_partner p (set p_need_ack (fun _ => NEED_NO_ACK));;
    unlink (EAck p)).

(** The fields [malloc] leaves uninitialised are 0 here. *)
(* [libxen2mx/omx_partner.c:141-173] omx__partner_create *)
Definition omx__partner_create (peer_index board_addr endpoint_index : Z) : M (omx_return * Z) :=
  a ← omx_malloc_ep;
  match a with
  | None => mret (OMX_NO_RESOURCES, 0)
  | Some _ =>
      w ← get;
      let p := partner_index w peer_index endpoint_index in
      modify (fun w => w <| partners ::= <[p := {|
        p_board_addr := board_addr; p_peer_index := peer_index; p_endpoint_index := endpoint_index;
        p_localization := UNKNOWN; p_rndv_threshold := 0; p_true_session_id := 0;
        p_back_session_id := 0; p_connect_seqnum := 0; p_last_send_acknum := 0;
        p_last_recv_acknum := 0; p_throttling_sends_nr := 0; p_next_send_seq := 0;
        p_next_acked_send_seq := 0; p_next_match_recv_seq := 0; p_next_frag_recv_seq := 0;
        p_last_acked_recv_seq := 0; p_need_ack := NEED_NO_ACK; p_oldest_recv_time_not_acked := 0;
        p_user_context := 0 |}]> |>);;
      omx__partner_reset p;;
      mret (OMX_SUCCESS, p)
  end.

(* [libxen2mx/omx_partner.c:175-191] omx__partner_check_localization *)
Definition omx__partner_check_localization (p : Z) (shared : bool) : M unit :=
  w ← get;
  q ← get_partner p;
  match p_localization q with
  | UNKNOWN =>
      upd_partner p (fun q => q <| p_localization := if shared then LOCAL else REMOTE |>
        <| p_rndv_threshold := if shared then shared_rndv_threshold (w_globals w)
                               else rndv_threshold (w_globals w) |>)
  | _ => mret tt
  end.

(* [libxen2mx/omx_partner.c:193-220] omx__partner_lookup *)
Definition omx__partner_lookup (peer_index endpoint_index : Z) : M (omx_return * Z) :=
  w ← get;
  let p := partner_index w peer_index endpoint_index in
  match partners w !! p with
  | Some _ => mret (OMX_SUCCESS, p)
  | None =>
      match peer_index_to_addr peer_index with
      | inl ret => mret (ret, 0)
      | inr board_addr => omx__partner_create peer_index board_addr endpoint_index
      end
  end.

(* [libxen2mx/omx_partner.c:222-249] omx__partner_lookup_by_addr *)
Definition omx__partner_lookup_by_addr (board_addr endpoint_index : Z) : M (omx_return * Z) :=
  match peer_addr_to_index board_addr with
  | inl ret => mret (ret, 0)
  | inr peer_index =>
      w ← get;
      let p := partner_index w peer_index endpoint_index in
      match partners w !! p with
      | Some _ => mret (OMX_SUCCESS, p)
      | None => omx__partner_create peer_index board_addr endpoint_index
      end
  end.

(* [libxen2mx/omx_partner.c:251-291] omx__connect_myself *)
Definition omx__connect_myself (board_addr endpoint_index : Z) : M omx_return :=
  match peer_addr_to_index board_addr with
  | inl ret => mret ret
  | inr peer_index =>
      '(ret, p) ← omx__partner_create peer_index board_addr endpoint_index;
      if negb (bool_decide (ret = OMX_SUCCESS)) then mret ret
      else
        w ← get;
        let shm := selfcomms (w_globals w) || sharedcomms (w_globals w) in
        modify (fun w => w <| myself := p |>);;
        upd_partner p (fun q =>
          let one := OMX__SEQNUM 1 in
          q <| p_next_send_seq := one |> <| p_next_acked_send_seq := one |>
            <| p_next_match_recv_seq := one |> <| p_next_frag_recv_seq := one |>
            <| p_true_session_id := session_id w |> <| p_back_session_id := session_id w |>
            <| p_localization := if shm then LOCAL else REMOTE |>
            <| p_rndv_threshold := if shm then shared_rndv_threshold (w_globals w)
                                   else rndv_threshold (w_globals w) |>);;
        mret OMX_SUCCESS
  end.

(* [libxen2mx/omx_partner.c:297-317] omx__post_connect_request *)
Definition omx__post_connect_request (p req : Z) : M unit :=
  q ← get_partner p;
  upd_req req (fun x => x <| c_param ::= fun c =>
    ConnectParam (cp_peer_index c) (cp_dest_endpoint c) (cp_shared_disabled c) (cp_seqnum c)
      (cp_src_session_id c) (cp_app_key c) (p_next_match_recv_seq q) (cp_connect_seqnum c) |>);;
  x ← get_req req;
  err ← ioctl (CmdConnectRequest (c_param x));
  (match err with
   | Some e => omx__ioctl_errno_to_return_checked e [OMX_NO_SYSTEM_RESOURCES];; mret tt
   | None => mret tt
   end);;
  now ← jiffies_now;
  upd_req req (fun x => x <| r_resends ::= fun n => u32 (n + 1) |> <| r_last_send_jiffies := now |>).

(** ** Cleaning a partner *)

Definition cleanup_non_acked (p : Z) : M unit :=
  l ← ids (HpNonAcked p);
  each (fun req =>
    omx___dequeue_partner_request req;;
    omx__mark_request_acked req OMX_REMOTE_ENDPOINT_UNREACHABLE) l.
Definition cleanup_need_reply (p : Z) : M unit :=
  l ← ids HLargeNeedReply;
  each (fun req =>
    x ← get_req req;
    when (r_partner x =? p) (
      omx___dequeue_request req;;
      upd_req req (set r_state (clrf OMX_REQUEST_STATE_NEED_REPLY));;
      omx__send_complete req OMX_REMOTE_ENDPOINT_UNREACHABLE)) l.
Definition cleanup_need_resources (p : Z) : M unit :=
  l ← ids HNeedRes;
  each (fun req =>
    x ← get_req req;
    when (r_partner x =? p) (
      omx___dequeue_request req;;
      upd_req req (set r_state (clrf OMX_REQUEST_STATE_NEED_RESOURCES));;
      omx__complete_unsent_send_request req)) l.
Definition cleanup_need_seqnum (p : Z) : M unit :=
  l ← ids (HpNeedSeq p);
  each (fun req =>
    omx___dequeue_partner_request req;;
    omx__complete_unsent_send_request req) l.
Definition cleanup_connect (p : Z) : M unit :=
  l ← ids (HpConnect p);
  each (fun req => omx__connect_complete req OMX_REMOTE_ENDPOINT_UNREACHABLE (u32 (-1))) l.
Definition cleanup_partial (p : Z) : M unit :=
  l ← ids (HpPartial p);
  each (fun req =>
    x ← get_req req;
    ctxid ← ctxid_of (s_match_info x);
    omx___dequeue_partner_request req;;
    w ← get;
    when (hasf (r_state x) OMX_REQUEST_STATE_UNEXPECTED_RECV) (
      omx__dequeue_request HUnexp req;;
      when (HAS_CTXIDS w) (omx__dequeue_ctxid_request (HCtxUnexp ctxid) req));;
    upd_req req (set r_state (clrf OMX_REQUEST_STATE_RECV_PARTIAL));;
    omx__recv_complete req OMX_REMOTE_ENDPOINT_UNREACHABLE) l.
Definition cleanup_early (p : Z) : M unit :=
  l ← ids (HpEarly p);
  each (fun e => x ← get_early e; unlink (EEarly e);; omx_free_ep (e_data x);; free_early e) l.
Definition cleanup_unexp (p : Z) : M unit :=
  l ← ids HUnexp;
  each (fun req =>
    x ← get_req req;
    when (r_partner x =? p) (
      omx___dequeue_request req;;
      when (negb (bool_decide (r_type x = OMX_REQUEST_TYPE_RECV_LARGE)) && (0 <? s_msg_length x))
        (omx_free_ep (vaddr (single (r_segs x))));;
      omx__request_free req)) l.

Definition reset_tail (p disconnect : Z) : M unit :=
  when (negb (disconnect =? 0)) (
    upd_partner p (fun q =>
      q <| p_next_match_recv_seq ::= fun s => u16 (Z.lxor s (OMX__SEQNUM 45296) + OMX__SESNUM_ONE) |>
        <| p_next_frag_recv_seq ::= fun s => u16 (Z.lxor s (OMX__SEQNUM 52995) + OMX__SESNUM_ONE) |>);;
    when (1 <? disconnect) (
      w ← get;
      q ← get_partner p;
      modify (fun w => w <| partners ::= delete (partner_index w (p_peer_index q) (p_endpoint_index q)) |>);;
      omx_free_ep p)).

(** [disconnect] is 0 after a new instance of the partner, 1 after a timeout,
    2 when the application disconnects. *)
(* [libxen2mx/omx_partner.c:758-953] omx__partner_cleanup *)
Definition omx__partner_cleanup (p disconnect : Z) : M unit :=
  cleanup_non_acked p;; cleanup_need_reply p;; cleanup_need_resources p;;
  cleanup_need_seqnum p;; cleanup_connect p;; cleanup_partial p;; cleanup_early p;;
  cleanup_unexp p;;
  omx__partner_reset p;;
  reset_tail p disconnect.

(** ** Connection messages *)

(** [status]: 0 is success, 11 a bad key, anything else is ignored. *)
Inductive connect_status := CONNECT_STATUS_SUCCESS | CONNECT_STATUS_BAD_KEY | CONNECT_STATUS_OTHER.

(* [libxen2mx/omx_partner.c:545-601] omx__handle_connect_reply *)
Definition omx__handle_connect_reply (p req target_session_id target_recv_seqnum_start : Z)
    (status : connect_status) : M unit :=
  match (match status with
         | CONNECT_STATUS_SUCCESS => Some OMX_SUCCESS
         | CONNECT_STATUS_BAD_KEY => Some OMX_REMOTE_ENDPOINT_BAD_CONNECTION_KEY
         | CONNECT_STATUS_OTHER => None
         end) with
  | None => mret tt
  | Some status_code =>
      omx__connect_complete req status_code target_session_id;;
      when (bool_decide (status_code = OMX_SUCCESS)) (
        q ← get_partner p;
        when (negb (p_back_session_id q =? target_session_id) && negb (p_back_session_id q =? u32 (-1)))
          (omx__partner_cleanup p 0);;
        q ← get_partner p;
        when (negb (p_true_session_id q =? target_session_id))
          (upd_partner p (fun q => q <| p_next_send_seq := u16 target_recv_seqnum_start |>
                                     <| p_next_acked_send_seq := u16 target_recv_seqnum_start |>));;
        upd_partner p (set p_true_session_id (fun _ => target_session_id)))
  end.

Fixpoint find_connect (connect_seqnum : Z) (l : list Z) : M (option Z) :=
  match l with
  | [] => mret None
  | req :: l =>
      x ← get_req req;
      if connect_seqnum =? c_connect_seqnum x then mret (Some req) else find_connect connect_seqnum l
  end.

Record connect_reply := ConnectReply {
  cr_peer_index : Z; cr_src_endpoint : Z; cr_shared : bool; cr_src_session_id : Z;
  cr_target_session_id : Z; cr_target_recv_seqnum_start : Z; cr_connect_seqnum : Z;
  cr_status : connect_status
}.
(* [libxen2mx/omx_partner.c:606-636] omx__process_recv_connect_reply *)
Definition omx__process_recv_connect_reply (ev : connect_reply) : M unit :=
  '(ret, p) ← omx__partner_lookup (cr_peer_index ev) (cr_src_endpoint ev);
  if negb (bool_decide (ret = OMX_SUCCESS)) then mret tt
  else
    omx__partner_check_localization p (cr_shared ev);;
    w ← get;
    l ← ids (HpConnect p);
    r ← (if cr_src_session_id ev =? session_id w then find_connect (cr_connect_seqnum ev) l
         else mret None);
    match r with
    | None => mret tt
    | Some req => omx__handle_connect_reply p req (cr_target_session_id ev)
                    (cr_target_recv_seqnum_start ev) (cr_status ev)
    end.

Record connect_request := ConnectRequest {
  cq_peer_index : Z; cq_src_endpoint : Z; cq_shared : bool; cq_src_session_id : Z;
  cq_app_key : Z; cq_target_recv_seqnum_start : Z; cq_connect_seqnum : Z
}.
Definition OMX_CONNECT_STATUS_SUCCESS : Z := 0.
Definition OMX_CONNECT_STATUS_BAD_KEY : Z := 11.
(* [libxen2mx/omx_partner.c:641-718] omx__process_recv_connect_request *)
Definition omx__process_recv_connect_request (ev : connect_request) : M unit :=
  '(ret, p) ← omx__partner_lookup (cq_peer_index ev) (cq_src_endpoint ev);
  if negb (bool_decide (ret = OMX_SUCCESS)) then mret tt
  else
    omx__partner_check_localization p (cq_shared ev);;
    w ← get;
    let connect_status_code := if cq_app_key ev =? app_key w then OMX_CONNECT_STATUS_SUCCESS
                               else OMX_CONNECT_STATUS_BAD_KEY in
    q ← get_partner p;
    when (negb (p_back_session_id q =? cq_src_session_id ev)) (
      when (negb (p_back_session_id q =? u32 (-1))) (omx__partner_cleanup p 0);;
      upd_partner p (fun q => q <| p_next_match_recv_seq ::= OMX__SEQNUM_RESET |>
                                <| p_next_frag_recv_seq ::= OMX__SEQNUM_RESET |>));;
    q ← get_partner p;
    when (negb (p_true_session_id q =? cq_src_session_id ev)) (
      upd_partner p (fun q => q <| p_next_send_seq := cq_target_recv_seqnum_start ev |>
                                <| p_next_acked_send_seq := cq_target_recv_seqnum_start ev |>));;
    upd_partner p (fun q => q <| p_true_session_id := cq_src_session_id ev |>
                              <| p_back_session_id := cq_src_session_id ev |>);;
    q ← get_partner p;
    w ← get;
    err ← ioctl (CmdConnectReply (p_peer_index q) (p_endpoint_index q)
      (negb (sharedcomms (w_globals w))) (cq_src_session_id ev) (session_id w)
      (p_next_match_recv_seq q) (cq_connect_seqnum ev) connect_status_code);
    match err with
    | Some e => omx__ioctl_errno_to_return_checked e [OMX_NO_SYSTEM_RESOURCES];; mret tt
    | None => mret tt
    end.

(* [libxen2mx/omx_partner.c:725-735] omx_set_endpoint_addr_context *)
Definition omx_set_endpoint_addr_context (endpoint_addr : Z * Z) (context : Z) : M omx_return :=
  upd_partner (omx__partner_from_addr endpoint_addr) (set p_user_context (fun _ => context));;
  mret OMX_SUCCESS.
(* [libxen2mx/omx_partner.c:738-748] omx_get_endpoint_addr_context *)
Definition omx_get_endpoint_addr_context (endpoint_addr : Z * Z) : M (omx_return * Z) :=
  q ← get_partner (omx__partner_from_addr endpoint_addr);
  mret (OMX_SUCCESS, p_user_context q).
End connect.
End Connect.
