(* ===== verification/Progress.v ===== *)
(** Progression of an endpoint ([libxen2mx/omx_lib.c], the delayed and resend
    loops of [omx_send.c]) and the calls of the API that end in it. *)
From S2P Require Import Prelude DList Seqnum Segments World SendqMap Request Region Send Large.
From S2P Require Import Ack Recv Unexp Connect Io.
Import Io Seqnum Mem Segs SendqMap Request Partner Complete Regions Send Large Ack Recv Unexp Connect.

Module Progress.
Section progress.
Context `{App}.
Context (peer_index_to_addr : Z -> omx_return + Z) (peer_addr_to_index : Z -> omx_return + Z).

(** ** Events *)

Inductive evt :=
  | EvtConnectRequest (e : connect_request)
  | EvtConnectReply (e : connect_reply)
  | EvtRecv (m : recv_msg)
  | EvtMediumsqFragDone (sendq_offset : Z)
  | EvtPullDone (lib_cookie puller_rdma_id : Z) (status : pull_status)
  | EvtLiback (peer_index src_endpoint lib_seqnum acknum : Z)
  | EvtNackLib (peer_index src_endpoint seqnum : Z) (t : nack_type)
  | EvtIgnore
  | EvtOther (type : Z).

Definition mediumsq_frag_done (sendq_offset : Z) : M unit :=
  w ← get;
  let sendq_index := u16 (Z.shiftr sendq_offset OMX_SENDQ_ENTRY_SHIFT) in
  req ← of_option (omx__endpoint_sendq_map_user (w_sendq_map w) sendq_index);
  modify (fun w => w <| avail_exp_events ::= fun n => u32 (n + 1) |>);;
  upd_req req (set frags_pending_nr (fun n => u32 (n - 1)));;
  x ← get_req req;
  if negb (frags_pending_nr x =? 0) then mret tt
  else
    upd_req req (set r_state (clrf OMX_REQUEST_STATE_DRIVER_MEDIUMSQ_SENDING));;
    omx__dequeue_request HMediumSending req;;
    x ← get_req req;
    if hasf (r_state x) OMX_REQUEST_STATE_NEED_ACK then omx__enqueue_request HNonAcked req
    else omx__send_complete req OMX_SUCCESS.

(* [libxen2mx/omx_lib.c:33-140] omx__process_event *)
Definition omx__process_event (e : evt) : M unit :=
  match e with
  | EvtConnectRequest e => omx__process_recv_connect_request peer_index_to_addr e
  | EvtConnectReply e => omx__process_recv_connect_reply peer_index_to_addr e
  | EvtRecv msg =>
      w ← get;
      match m_specific msg with
      | MsgTiny length data => omx__process_recv msg data length RecvTiny
      | MsgSmall recvq_offset length => omx__process_recv msg (recvq w + recvq_offset) length RecvSmall
      | MsgMediumFrag recvq_offset msg_length _ _ =>
          omx__process_recv msg (recvq w + recvq_offset) msg_length RecvMediumFrag
      | MsgRndv msg_length _ _ _ _ => omx__process_recv msg 0 msg_length RecvRndv
      | MsgNotify _ _ _ => omx__process_recv msg 0 0 RecvNotify
      end
  | EvtMediumsqFragDone sendq_offset => mediumsq_frag_done sendq_offset
  | EvtPullDone lib_cookie puller_rdma_id status =>
      modify (fun w => w <| avail_exp_events ::= fun n => u32 (n + 1) |>);;
      omx__process_pull_done lib_cookie puller_rdma_id status
  | EvtLiback peer_index src_endpoint lib_seqnum acknum =>
      omx__process_recv_liback peer_index src_endpoint lib_seqnum acknum
  | EvtNackLib peer_index src_endpoint seqnum t =>
      omx__process_recv_nack_lib peer_index src_endpoint seqnum t
  | EvtIgnore => mret tt
  | EvtOther _ => abort
  end.

(* [libxen2mx/omx_lib.c:146-193] omx__check_endpoint_desc *)
Definition omx__check_endpoint_desc : M unit :=
  w ← get;
  let now := jiffies w in
  if u64 (now - last_check_jiffies w) <? check_status_delay_jiffies w then mret tt
  else
    let driver_status := desc_status w in
    modify (fun w => w <| last_check_jiffies := now |> <| desc_status := 0 |>);;
    if driver_status =? 0 then mret tt
    else if hasf driver_status (2 ^ 0) then abort      (* EXP_EVENTQ_FULL *)
    else if hasf driver_status (2 ^ 4) then abort      (* IFACE_REMOVED *)
    else mret tt.

(** ** Requests waiting for resources *)

Definition resubmit (req : Z) : M omx_return :=
  x ← get_req req;
  match r_type x with
  | OMX_REQUEST_TYPE_SEND_TINY => omx__alloc_setup_isend_tiny (r_partner x) req;; mret OMX_SUCCESS
  | OMX_REQUEST_TYPE_SEND_SMALL => omx__alloc_setup_isend_small (r_partner x) req
  | OMX_REQUEST_TYPE_SEND_MEDIUMSQ => omx__alloc_setup_isend_mediumsq (r_partner x) req
  | OMX_REQUEST_TYPE_SEND_MEDIUMVA => omx__alloc_setup_isend_mediumva (r_partner x) req
  | OMX_REQUEST_TYPE_SEND_LARGE => omx__alloc_setup_isend_large (r_partner x) req
  | OMX_REQUEST_TYPE_RECV_LARGE =>
      if hasf (r_state x) OMX_REQUEST_STATE_RECV_PARTIAL then omx__alloc_setup_pull req
      else omx__alloc_setup_notify req;; mret OMX_SUCCESS
  | _ => abort
  end.

(* [libxen2mx/omx_send.c:1211-1284] omx__process_delayed_requests *)
Definition omx__process_delayed_requests : M unit :=
  l ← ids HNeedRes;
  until (fun req =>
    upd_req req (set r_state (clrf OMX_REQUEST_STATE_NEED_RESOURCES));;
    omx___dequeue_request req;;
    ret ← resubmit req;
    if bool_decide (ret = OMX_SUCCESS) then mret true
    else
      upd_req req (set r_state (setf OMX_REQUEST_STATE_NEED_RESOURCES));;
      omx__requeue_request HNeedRes req;;
      mret false) l.

(** ** Resending *)

(** The post of a resend; [false] when the events it needs are not there and
    the request went back to the head of the queue. *)
Definition repost (req : Z) : M bool :=
  x ← get_req req;
  let p := r_partner x in
  match r_type x with
  | OMX_REQUEST_TYPE_SEND_TINY => omx__post_isend_tiny p req;; mret true
  | OMX_REQUEST_TYPE_SEND_SMALL => omx__post_isend_small p req;; mret true
  | OMX_REQUEST_TYPE_SEND_MEDIUMSQ =>
      w ← get;
      if avail_exp_events w <? frags_nr x then
        omx__requeue_request HNonAcked req;; mret false
      else
        modify (fun w => w <| avail_exp_events ::= fun n => n - frags_nr x |>);;
        omx__post_isend_mediumsq p req;; mret true
  | OMX_REQUEST_TYPE_SEND_MEDIUMVA => omx__post_isend_mediumva p req;; mret true
  | OMX_REQUEST_TYPE_SEND_LARGE => omx__post_isend_rndv p req;; mret true
  | OMX_REQUEST_TYPE_RECV_LARGE => omx__post_notify p req;; mret true
  | _ => abort
  end.

(** The loop over the non-acked queue; a partner that timed out is cleaned and
    the scan starts again.  Every round removes a request of the queue. *)
Fixpoint resend_loop (fuel : nat) (now : Z) (l : list Z) : M unit :=
  match fuel with
  | O => diverge
  | S fuel =>
      match l with
      | [] => mret tt
      | req :: l =>
          w ← get;
          x ← get_req req;
          if u64 (now - r_last_send_jiffies x) <? resend_delay_jiffies (w_globals w) then mret tt
          else if r_resends_max x <? r_resends x then
            omx__partner_cleanup (r_partner x) 1;;
            l ← ids HNonAcked;
            resend_loop fuel now l
          else
            omx___dequeue_request req;;
            c ← repost req;
            if (c : bool) then
              x ← get_req req;
              omx__enqueue_request
                (if hasf (r_state x) OMX_REQUEST_STATE_DRIVER_MEDIUMSQ_SENDING
                 then HMediumSending else HTmp) req;;
              resend_loop fuel now l
            else mret tt
      end
  end.
Fixpoint reconnect_loop (fuel : nat) (now : Z) (l : list Z) : M unit :=
  match fuel with
  | O => diverge
  | S fuel =>
      match l with
      | [] => mret tt
      | req :: l =>
          w ← get;
          x ← get_req req;
          if u64 (now - r_last_send_jiffies x) <? resend_delay_jiffies (w_globals w) then mret tt
          else if r_resends_max x <? r_resends x then
            omx__partner_cleanup (r_partner x) 1;;
            l ← ids HConnect;
            reconnect_loop fuel now l
          else
            omx___dequeue_request req;;
            omx__post_connect_request (r_partner x) req;;
            omx__enqueue_request HTmp req;;
            reconnect_loop fuel now l
      end
  end.

(* [libxen2mx/omx_send.c:1417-1537] omx__process_resend_requests *)
Definition omx__process_resend_requests : M unit :=
  now ← jiffies_now;
  init_head HTmp;;
  l ← ids HNonAcked;
  resend_loop (S (length l)) now l;;
  splice_tail HTmp HNonAcked;;
  init_head HTmp;;
  l ← ids HConnect;
  reconnect_loop (S (length l)) now l;;
  splice_tail HTmp HConnect.

(** ** The event queues *)

(** One queue: slot [s] holds an event with an identifier; [index] is the
    consumer's.  The ring is the driver's memory during the call. *)
(* [libxen2mx/omx_lib.c:225-246] omx__progress *)
Fixpoint consume (fuel : nat) (nr batch : Z) (ring : Z -> Z * evt) (release : cmd) (index : Z) : M Z :=
  match fuel with
  | O => diverge
  | S fuel =>
      let '(eid, e) := ring (index mod nr) in
      let id := 1 + index mod OMX_EVENT_ID_MAX in
      if negb (eid =? id) then mret index
      else
        omx__process_event e;;
        let index := u32 (index + 1) in
        when (index mod batch =? 0) (
          err ← ioctl release;
          when (negb (bool_decide (err = None))) abort);;
        consume fuel nr batch ring release index
  end.

(** A ring of 1024 slots holds at most 1024 consecutive identifiers. *)
Definition consume_fuel : nat := 1025.

(* [libxen2mx/omx_lib.c:211-291] omx__progress *)
Definition omx__progress (unexp_ring exp_ring : Z -> Z * evt) : M omx_return :=
  w ← get;
  if negb (progression_disabled w =? 0) then mret OMX_SUCCESS
  else
    index ← consume consume_fuel OMX_UNEXP_EVENTQ_ENTRY_NR OMX_UNEXP_RELEASE_SLOTS_BATCH_NR unexp_ring CmdReleaseUnexp
              (next_unexp_event_index w);
    modify (fun w => w <| next_unexp_event_index := index |>);;
    w ← get;
    index ← consume consume_fuel OMX_EXP_EVENTQ_ENTRY_NR OMX_EXP_RELEASE_SLOTS_BATCH_NR exp_ring CmdReleaseExp
              (next_exp_event_index w);
    modify (fun w => w <| next_exp_event_index := index |>);;
    omx__process_resend_requests;;
    omx__process_delayed_requests;;
    omx__process_partners_to_ack;;
    omx__check_endpoint_desc;;
    mret OMX_SUCCESS.

Context (progress : M omx_return).

(* [libxen2mx/omx_lib.c:327-350] omx_disable_progression *)
Definition omx_disable_progression : M omx_return :=
  w ← get;
  if hasf (progression_disabled w) OMX_PROGRESSION_DISABLED_BY_API then mret OMX_SUCCESS
  else if hasf (progression_disabled w) OMX_PROGRESSION_DISABLED_IN_HANDLER then diverge
  else
    modify (set progression_disabled (fun _ => OMX_PROGRESSION_DISABLED_BY_API));;
    mret OMX_SUCCESS.
(* [libxen2mx/omx_lib.c:353-380] omx_reenable_progression *)
Definition omx_reenable_progression : M omx_return :=
  w ← get;
  if negb (hasf (progression_disabled w) OMX_PROGRESSION_DISABLED_BY_API) then mret OMX_SUCCESS
  else
    modify (set progression_disabled (clrf OMX_PROGRESSION_DISABLED_BY_API));;
    progress;;
    mret OMX_SUCCESS.

(** ** Posting receives and sends

    [progress] is [omx__progress] with the rings of the moment; [forget] says
    that the caller wants no completion. *)

(* [libxen2mx/omx_recv.c:1195-1251] omx__irecv_segs *)
Definition omx__irecv_segs (reqsegs : req_segs) (match_info match_mask context : Z) (forget : bool)
    : M (omx_return * Z) :=
  ctxid ← ctxid_of match_info;
  w ← get;
  l ← ids (unexp_queue w match_info);
  r ← find_unexp match_info match_mask l;
  let ok req := when forget (omx__forget req);; mret (OMX_SUCCESS, req) in
  match r with
  | Some req => omx__complete_unexp_req_as_irecv req reqsegs context;; ok req
  | None =>
      a ← omx__request_alloc;
      match a with
      | None => ret ← omx__error_with_ep OMX_NO_RESOURCES; mret (ret, 0)
      | Some req =>
          upd_req req (fun x => x <| r_segs := omx_clone_segments reqsegs |>
            <| r_type := OMX_REQUEST_TYPE_RECV |>
            <| r_state := OMX_REQUEST_STATE_RECV_NEED_MATCHING |> <| s_context := context |>
            <| r_match_info := match_info |> <| r_match_mask := match_mask |>);;
          omx__enqueue_request (HCtxRecv ctxid) req;;
          progress;;
          ok req
      end
  end.

(** The checks of [omx_irecv] and [omx_irecvv] on the match mask. *)
Definition bad_match (w : world) (match_info match_mask : Z) : option omx_return :=
  if negb (Z.ldiff match_info match_mask =? 0) then Some OMX_BAD_MATCH_MASK
  else if negb (Z.ldiff (ctxid_mask w) match_mask =? 0)
  then Some OMX_BAD_MATCHING_FOR_CONTEXT_ID_MASK
  else None.

(* [libxen2mx/omx_recv.c:1254-1294] omx_irecv *)
Definition omx_irecv (buffer length match_info match_mask context : Z) (forget : bool)
    : M (omx_return * Z) :=
  w ← get;
  match bad_match w match_info match_mask with
  | Some e => ret ← omx__error_with_ep e; mret (ret, 0)
  | None =>
      let reqsegs := omx_cache_single_segment buffer length in
      '(ret, req) ← omx__irecv_segs reqsegs match_info match_mask context forget;
      when (negb (bool_decide (ret = OMX_SUCCESS))) (free_segments reqsegs);;
      mret (ret, req)
  end.

(* [libxen2mx/omx_recv.c:1297-1344] omx_irecvv *)
Definition omx_irecvv (user_segs : list segment) (match_info match_mask context : Z) (forget : bool)
    : M (omx_return * Z) :=
  w ← get;
  match bad_match w match_info match_mask with
  | Some e => ret ← omx__error_with_ep e; mret (ret, 0)
  | None =>
      alloc ← (if (1 <? Z.of_nat (length user_segs))
                  && (Z.of_nat (length user_segs) <=? OMX_MAX_SEGMENTS)
               then omx_malloc_ep else mret None);
      match omx_cache_segments (Seg 0 0) alloc user_segs with
      | CacheBadCount => ret ← omx__error_with_ep OMX_SEGMENTS_BAD_COUNT; mret (ret, 0)
      | CacheNoResources => ret ← omx__error_with_ep OMX_NO_RESOURCES; mret (ret, 0)
      | CacheOk reqsegs =>
          '(ret, req) ← omx__irecv_segs reqsegs match_info match_mask context forget;
          when (negb (bool_decide (ret = OMX_SUCCESS))) (free_segments reqsegs);;
          mret (ret, req)
      end
  end.

(* [libxen2mx/omx_send.c:977-1017] omx__isend_req *)
Definition omx__isend_req (p req : Z) (forget : bool) : M omx_return :=
  w ← get;
  x ← get_req req;
  q ← get_partner p;
  let length := total_length (r_segs x) in
  let done := when forget (omx__forget req);; progress;; mret OMX_SUCCESS in
  if selfcomms (w_globals w) && (p =? myself w) then omx__process_self_send req;; done
  else if length <=? OMX_TINY_MSG_LENGTH_MAX then omx__submit_isend_tiny p req;; done
  else if length <=? OMX_SMALL_MSG_LENGTH_MAX then
    a ← omx_malloc_ep;
    match a with
    | None => omx__error_with_ep OMX_NO_RESOURCES
    | Some copy =>
        upd_req req (set small_copy (fun _ => copy));;
        omx__submit_isend_small p req;;
        done
    end
  else if length <=? p_rndv_threshold q then omx__submit_isend_medium p req;; done
  else omx__submit_isend_large p req;; done.

(** The request fields of a send, once its segments are cached. *)
Definition init_isend (req : Z) (segs : req_segs) (dest : Z * Z) (match_info context : Z) : M unit :=
  upd_req req (fun x => x <| r_segs := segs |> <| r_partner := omx__partner_from_addr dest |>
    <| s_addr := dest |> <| s_match_info := match_info |> <| s_context := context |>).

Definition finish_isend (req : Z) (ret : omx_return) : M omx_return :=
  when (negb (bool_decide (ret = OMX_SUCCESS))) (
    x ← get_req req;
    free_segments (r_segs x);;
    omx__request_free req);;
  mret ret.

(* [libxen2mx/omx_send.c:1020-1055] omx_isend *)
Definition omx_isend (buffer length : Z) (dest : Z * Z) (match_info context : Z) (forget : bool)
    : M omx_return :=
  a ← omx__request_alloc;
  match a with
  | None => omx__error_with_ep OMX_NO_RESOURCES
  | Some req =>
      init_isend req (omx_cache_single_segment buffer length) dest match_info context;;
      ret ← omx__isend_req (omx__partner_from_addr dest) req forget;
      finish_isend req ret
  end.

(** The segments of a vectorial send; the request is freed on an error. *)
Definition cache_for_send (req : Z) (user_segs : list segment) : M (omx_return + req_segs) :=
  alloc ← (if (1 <? Z.of_nat (length user_segs))
              && (Z.of_nat (length user_segs) <=? OMX_MAX_SEGMENTS)
           then omx_malloc_ep else mret None);
  match omx_cache_segments (Seg 0 0) alloc user_segs with
  | CacheOk s => mret (inr s)
  | CacheBadCount =>
      ret ← omx__error_with_ep OMX_SEGMENTS_BAD_COUNT; omx__request_free req;; mret (inl ret)
  | CacheNoResources =>
      ret ← omx__error_with_ep OMX_NO_RESOURCES; omx__request_free req;; mret (inl ret)
  end.

(* [libxen2mx/omx_send.c:1058-1101] omx_isendv *)
Definition omx_isendv (user_segs : list segment) (dest : Z * Z) (match_info context : Z)
    (forget : bool) : M omx_return :=
  a ← omx__request_alloc;
  match a with
  | None => omx__error_with_ep OMX_NO_RESOURCES
  | Some req =>
      s ← cache_for_send req user_segs;
      match s with
      | inl ret => mret ret
      | inr s =>
          init_isend req s dest match_info context;;
          ret ← omx__isend_req (omx__partner_from_addr dest) req forget;
          finish_isend req ret
      end
  end.

(* [libxen2mx/omx_send.c:1107-1129] omx__issend_req *)
Definition omx__issend_req (p req : Z) (forget : bool) : M unit :=
  w ← get;
  (if selfcomms (w_globals w) && (p =? myself w) then omx__process_self_send req
   else omx__submit_isend_large p req);;
  when forget (omx__forget req);;
  progress;;
  mret tt.

(* [libxen2mx/omx_send.c:1132-1163] omx_issend *)
Definition omx_issend (buffer length : Z) (dest : Z * Z) (match_info context : Z) (forget : bool)
    : M omx_return :=
  a ← omx__request_alloc;
  match a with
  | None => omx__error_with_ep OMX_NO_RESOURCES
  | Some req =>
      init_isend req (omx_cache_single_segment buffer length) dest match_info context;;
      omx__issend_req (omx__partner_from_addr dest) req forget;;
      mret OMX_SUCCESS
  end.

(* [libxen2mx/omx_send.c:1166-1205] omx_issendv *)
Definition omx_issendv (user_segs : list segment) (dest : Z * Z) (match_info context : Z)
    (forget : bool) : M omx_return :=
  a ← omx__request_alloc;
  match a with
  | None => omx__error_with_ep OMX_NO_RESOURCES
  | Some req =>
      s ← cache_for_send req user_segs;
      match s with
      | inl ret => mret ret
      | inr s =>
          init_isend req s dest match_info context;;
          omx__issend_req (omx__partner_from_addr dest) req forget;;
          mret OMX_SUCCESS
      end
  end.

(* [libxen2mx/omx_partner.c:322-396] omx__connect_common *)
Definition omx__connect_common (nic_id endpoint_id key req : Z) : M omx_return :=
  '(ret, p) ← omx__partner_lookup_by_addr peer_addr_to_index nic_id endpoint_id;
  if negb (bool_decide (ret = OMX_SUCCESS)) then
    omx__error_with_ep (if bool_decide (ret = OMX_PEER_NOT_FOUND) then OMX_NIC_ID_NOT_FOUND else ret)
  else
    w ← get;
    upd_req req (set r_state (setf OMX_REQUEST_STATE_NEED_REPLY));;
    if p =? myself w then
      upd_req req (set r_partner (fun _ => p));;
      omx__enqueue_request HConnect req;;
      omx__enqueue_partner_request (HpConnect p) req;;
      omx__connect_complete req OMX_SUCCESS (session_id w);;
      omx__notify_user_event;;
      mret OMX_SUCCESS
    else
      q ← get_partner p;
      let connect_seqnum := p_connect_seqnum q in
      upd_partner p (set p_connect_seqnum (fun n => u8 (n + 1)));;
      upd_req req (fun x => x <| r_resends := 0 |> <| c_param := {|
        cp_peer_index := p_peer_index q; cp_dest_endpoint := p_endpoint_index q;
        cp_shared_disabled := negb (sharedcomms (w_globals w)); cp_seqnum := 0;
        cp_src_session_id := session_id w; cp_app_key := key;
        cp_target_recv_seqnum_start := cp_target_recv_seqnum_start (c_param x);
        cp_connect_seqnum := connect_seqnum |} |>);;
      omx__post_connect_request p req;;
      omx__enqueue_request HConnect req;;
      omx__enqueue_partner_request (HpConnect p) req;;
      upd_req req (fun x => x <| r_partner := p |> <| r_resends_max := req_resends_max w |>
        <| c_session_id := session_id w |> <| c_connect_seqnum := connect_seqnum |>);;
      progress;;
      mret OMX_SUCCESS.

(* [libxen2mx/omx_partner.c:469-509] omx_iconnect *)
Definition omx_iconnect (nic_id endpoint_id key match_info context : Z) (forget : bool) : M omx_return :=
  a ← omx__request_alloc;
  match a with
  | None => omx__error_with_ep OMX_NO_RESOURCES
  | Some req =>
      upd_req req (fun x => x <| r_type := OMX_REQUEST_TYPE_CONNECT |>
        <| s_match_info := match_info |> <| s_context := context |>);;
      ret ← omx__connect_common nic_id endpoint_id key req;
      if negb (bool_decide (ret = OMX_SUCCESS)) then omx__request_free req;; mret ret
      else
        when forget (
          upd_req req (set r_state (setf OMX_REQUEST_STATE_ZOMBIE));;
          modify (fun w => w <| zombies ::= fun z => u32 (z + 1) |>));;
        mret ret
  end.

(* [libxen2mx/omx_partner.c:956-969] omx_disconnect *)
Definition omx_disconnect (addr : Z * Z) : M omx_return :=
  progress;;
  omx__partner_cleanup (omx__partner_from_addr addr) 2;;
  mret OMX_SUCCESS.
End progress.
End Progress.
