(* ===== verification/Test.v ===== *)
(** Testing for the completion of requests and waiting for it
    ([libxen2mx/omx_test.c], [omx_connect] in [libxen2mx/omx_partner.c]).

    A waiting thread releases the lock of the endpoint while it sleeps, or
    between two rounds of a busy wait; what the other threads, the driver and
    the clock do then is a parameter of each round. *)
From S2P Require Import Prelude Io DList Seqnum Segments World SendqMap Request Region Send Large.
From S2P Require Import Ack Recv Unexp Connect Progress.
Import Io Seqnum Segs SendqMap Request Partner Complete Ack Unexp Connect Progress.

Module Test.
Section test.
Context `{App} (peer_index_to_addr peer_addr_to_index : Z -> omx_return + Z).

(* [common/open-mx.h:97-104] omx_status *)
Record status := Status {
  st_code : omx_return; st_addr : Z * Z; st_match_info : Z; st_msg_length : Z; st_xfer_length : Z;
  st_context : Z }.
Definition status_of (x : request) : status :=
  Status (s_code x) (s_addr x) (s_match_info x) (s_msg_length x) (s_xfer_length x) (s_context x).

(** ** One look

    [None] is the result 0; otherwise the result is 1 and the status is the one
    given to the caller. *)

(* [libxen2mx/omx_test.c:107-123] omx__test_success *)
Definition omx__test_success (req : Z) : M status :=
  x ← get_req req;
  omx__dequeue_done_request req;;
  (if negb (r_state x =? OMX_REQUEST_STATE_DONE) then
     upd_req req (set r_state (clrf OMX_REQUEST_STATE_DONE));;
     upd_req req (set r_state (setf OMX_REQUEST_STATE_ZOMBIE));;
     modify (fun w => w <| zombies ::= fun z => u32 (z + 1) |>)
   else omx__request_free req);;
  mret (status_of x).
(* [libxen2mx/omx_test.c:125-138] omx__test_common *)
Definition omx__test_common (req : Z) : M (option status) :=
  x ← get_req req;
  if hasf (r_state x) OMX_REQUEST_STATE_DONE then st ← omx__test_success req; mret (Some st)
  else mret None.

(** The queue of an application that names a context; see [MATCHING_CROSS_CTXIDS]. *)
Definition looked_up (any : node) (ctx : Z -> node) (w : world) (match_info match_mask : Z) : node :=
  if negb (HAS_CTXIDS w) || MATCHING_CROSS_CTXIDS w match_mask then any
  else ctx (CTXID_FROM_MATCHING w match_info).
(* [libxen2mx/omx_test.c:267-295] omx__test_any_common *)
Definition omx__test_any_common (match_info match_mask : Z) : M (option status) :=
  w ← get;
  l ← ids (looked_up HDone HCtxDone w match_info match_mask);
  r ← find_unexp match_info match_mask l;
  match r with
  | Some req => st ← omx__test_success req; mret (Some st)
  | None => mret None
  end.
(* [libxen2mx/omx_test.c:404-413] omx__ipeek_common *)
Definition omx__ipeek_common : M (option Z) :=
  e ← omx__empty_done_anyctxid_queue;
  if (e : bool) then mret None else req ← omx__first_done_anyctxid_request; mret (Some req).
(* [libxen2mx/omx_test.c:564-592] omx__iprobe_common *)
Definition omx__iprobe_common (match_info match_mask : Z) : M (option status) :=
  w ← get;
  l ← ids (looked_up HUnexp HCtxUnexp w match_info match_mask);
  r ← find_unexp match_info match_mask l;
  match r with
  | Some req => x ← get_req req; mret (Some (status_of x))
  | None => mret None
  end.

(** ** Calls that do not block

    [progress] is [omx__progress] with the rings of the moment. *)
Section now.
Context (progress : M omx_return).

Definition after_progress {A} (look : M (option A)) : M (omx_return * option A) :=
  ret ← progress;
  if negb (bool_decide (ret = OMX_SUCCESS)) then mret (ret, None)
  else r ← look; mret (OMX_SUCCESS, r).
Definition checking_mask {A} (match_info match_mask : Z) (call : M (omx_return * option A)) : M (omx_return * option A) :=
  if negb (Z.ldiff match_info match_mask =? 0) then ret ← omx__error_with_ep OMX_BAD_MATCH_MASK; mret (ret, None)
  else call.

(* [libxen2mx/omx_test.c:141-160] omx_test *)
Definition omx_test (req : Z) : M (omx_return * option status) := after_progress (omx__test_common req).
(* [libxen2mx/omx_test.c:298-326] omx_test_any *)
Definition omx_test_any (match_info match_mask : Z) : M (omx_return * option status) :=
  checking_mask match_info match_mask (after_progress (omx__test_any_common match_info match_mask)).
(* [libxen2mx/omx_test.c:416-435] omx_ipeek *)
Definition omx_ipeek : M (omx_return * option Z) := after_progress omx__ipeek_common.
(* [libxen2mx/omx_test.c:595-622] omx_iprobe *)
Definition omx_iprobe (match_info match_mask : Z) : M (omx_return * option status) :=
  checking_mask match_info match_mask (after_progress (omx__iprobe_common match_info match_mask)).
(** The result is the test of the buffering. *)
(* [libxen2mx/omx_test.c:504-558] omx_ibuffered *)
Definition omx_ibuffered (req : Z) : M (omx_return * bool) :=
  ret ← progress;
  if negb (bool_decide (ret = OMX_SUCCESS)) then mret (ret, false)
  else
    x ← get_req req;
    mret match r_type x with
    | OMX_REQUEST_TYPE_SEND_TINY | OMX_REQUEST_TYPE_SEND_SMALL | OMX_REQUEST_TYPE_SEND_MEDIUMSQ =>
        (OMX_SUCCESS, negb (hasf (r_state x) (Z.lor OMX_REQUEST_STATE_NEED_RESOURCES OMX_REQUEST_STATE_NEED_SEQNUM)))
    | OMX_REQUEST_TYPE_SEND_SELF => (OMX_SUCCESS, true)
    | OMX_REQUEST_TYPE_SEND_MEDIUMVA | OMX_REQUEST_TYPE_SEND_LARGE => (OMX_SUCCESS, false)
    | _ => (OMX_BAD_REQUEST, false)
    end.
End now.

(* [libxen2mx/omx_test.c:246-261] omx_forget *)
Definition omx_forget (req : Z) : M omx_return :=
  x ← get_req req;
  when (negb (hasf (r_state x) OMX_REQUEST_STATE_ZOMBIE)) (omx__forget req);;
  mret OMX_SUCCESS.
(* [libxen2mx/omx_test.c:822-830] omx_wakeup *)
Definition omx_wakeup : M omx_return := omx__wakeup OMX_CMD_WAIT_EVENT_STATUS_WAKEUP.

(** ** Waiting *)

(* [common/omx_io.h:532-542] omx_cmd_wait_event *)
Record wait_event := WaitEvent {
  we_status : Z; we_user_event_index : Z; we_next_exp_event_index : Z; we_next_unexp_event_index : Z;
  we_jiffies_expire : Z }.
(** A round of a wait: the rings its progression reads; while the lock is
    released, what the others do, and the status the driver then gives. *)
Record round := Round {
  rd_unexp : Z -> Z * evt; rd_exp : Z -> Z * evt; rd_others : world -> world; rd_status : Z }.
Definition rd_progress (r : round) : M omx_return := omx__progress peer_index_to_addr (rd_unexp r) (rd_exp r).

(* [libxen2mx/omx_lib.h:111-119] omx__timeout_ms_to_absolute_jiffies *)
Definition omx__timeout_ms_to_absolute_jiffies (hz now ms : Z) : Z :=
  if ms =? OMX_TIMEOUT_INFINITE then OMX_CMD_WAIT_EVENT_TIMEOUT_INFINITE
  else u64 (now + u32 (u32 (ms * hz) + 1023) / 1024).

(** The reasons not to sleep again. *)
Definition wait_over (w : world) (param : wait_event) : bool :=
  (we_jiffies_expire param <=? jiffies w) || (we_status param =? OMX_CMD_WAIT_EVENT_STATUS_TIMEOUT)
  || (we_status param =? OMX_CMD_WAIT_EVENT_STATUS_WAKEUP)
  || (waitintr (w_globals w) && (we_status param =? OMX_CMD_WAIT_EVENT_STATUS_INTR)).
(** An error of the driver leaves the status as it was; it is dropped, or
    aborts. *)
(* [libxen2mx/omx_test.c:35-101] omx__wait *)
Definition omx__wait (r : round) (param : wait_event) : M (omx_return * wait_event) :=
  w ← get;
  if wait_over w param then mret (OMX_TIMEOUT, param)
  else
    let param := WaitEvent (we_status param) (user_event_index w) (next_exp_event_index w) (next_unexp_event_index w)
                   (we_jiffies_expire param) in
    omx__prepare_progress_wakeup;;
    err ← ioctl (CmdWaitEvent (we_user_event_index param) (we_next_exp_event_index param)
                   (we_next_unexp_event_index param) (we_jiffies_expire param));
    modify (rd_others r);;
    match err with
    | Some e => omx__ioctl_errno_to_return_checked e [OMX_NO_SYSTEM_RESOURCES];; mret (OMX_SUCCESS, param)
    | None =>
        mret (OMX_SUCCESS, WaitEvent (rd_status r) (we_user_event_index param) (we_next_exp_event_index param)
                (we_next_unexp_event_index param) (we_jiffies_expire param))
    end.

Section waiting.
(** The sleeper on the stack of the caller; the test it makes in each round;
    what a wait that was not successful returns. *)
Context {A : Type} (me : Z) (look : M (option A)) (at_end : omx_return).

(** [None] when the wait goes on after the given rounds. *)
(* [libxen2mx/omx_test.c:199-216] omx_wait *)
Fixpoint sleep_rounds (rounds : list round) (param : wait_event) : M (option (omx_return * option A)) :=
  match rounds with
  | [] => mret None
  | r :: rounds =>
      ret ← rd_progress r;
      if negb (bool_decide (ret = OMX_SUCCESS)) then mret (Some (ret, None))
      else
        found ← look;
        match found with
        | Some a => mret (Some (OMX_SUCCESS, Some a))
        | None =>
            '(ret, param) ← omx__wait r param;
            if bool_decide (ret = OMX_SUCCESS) then sleep_rounds rounds param
            else mret (Some (if bool_decide (ret = OMX_TIMEOUT) then at_end else ret, None))
        end
  end.
Definition need_wakeup : M bool := w ← get; mret (existsb (fun s => (fst s =? me) && snd s) (sleepers w)).
(** A busy wait: the lock is released and taken again between two rounds. *)
(* [libxen2mx/omx_test.c:178-197] omx_wait *)
Fixpoint spin_rounds (rounds : list round) (ms_timeout jiffies_expire : Z) : M (option (omx_return * option A)) :=
  need ← need_wakeup;
  if (need : bool) then mret (Some (at_end, None))
  else
    match rounds with
    | [] => mret None
    | r :: rounds =>
        ret ← rd_progress r;
        if negb (bool_decide (ret = OMX_SUCCESS)) then mret (Some (ret, None))
        else
          found ← look;
          match found with
          | Some a => mret (Some (OMX_SUCCESS, Some a))
          | None =>
              w ← get;
              if negb (ms_timeout =? OMX_TIMEOUT_INFINITE) && (jiffies_expire <=? jiffies w)
              then mret (Some (at_end, None))
              else modify (rd_others r);; spin_rounds rounds ms_timeout jiffies_expire
          end
    end.
(** The progressions of [connect_pollall] run with the lock released, and their
    results are not looked at. *)
(* [libxen2mx/omx_test.c:712-734] omx__connect_wait *)
Fixpoint poll_rounds (rounds : list round) (ms_timeout jiffies_expire : Z) : M (option (omx_return * option A)) :=
  need ← need_wakeup;
  if (need : bool) then mret (Some (at_end, None))
  else
    match rounds with
    | [] => mret None
    | r :: rounds =>
        modify (rd_others r);;
        rd_progress r;;
        found ← look;
        match found with
        | Some a => mret (Some (OMX_SUCCESS, Some a))
        | None =>
            w ← get;
            if negb (ms_timeout =? OMX_TIMEOUT_INFINITE) && (jiffies_expire <=? jiffies w)
            then mret (Some (at_end, None))
            else poll_rounds rounds ms_timeout jiffies_expire
        end
    end.

Definition add_sleeper : M unit := modify (fun w => w <| sleepers ::= fun l => l ++ [(me, false)] |>).
Definition del_sleeper : M unit := modify (fun w => w <| sleepers ::= filter (fun s => fst s <> me) |>).
(** The body the four waits share. *)
(* [libxen2mx/omx_test.c:163-223] omx_wait *)
Definition wait_for (pollall : bool) (rounds : list round) (ms_timeout : Z) : M (option (omx_return * option A)) :=
  w ← get;
  let jiffies_expire := omx__timeout_ms_to_absolute_jiffies (hz (w_globals w)) (jiffies w) ms_timeout in
  add_sleeper;;
  res ← (if pollall && connect_pollall (w_globals w) then poll_rounds rounds ms_timeout jiffies_expire
         else if waitspin (w_globals w) then spin_rounds rounds ms_timeout jiffies_expire
         else sleep_rounds rounds (WaitEvent OMX_CMD_WAIT_EVENT_STATUS_EVENT 0 0 0 jiffies_expire));
  when (bool_decide (is_Some res)) del_sleeper;;
  mret res.
End waiting.

(* [libxen2mx/omx_test.c:163-223] omx_wait *)
Definition omx_wait (me : Z) (rounds : list round) (req ms_timeout : Z) : M (option (omx_return * option status)) :=
  wait_for me (omx__test_common req) OMX_SUCCESS false rounds ms_timeout.
Definition checking_wait_mask {A} (match_info match_mask : Z) (call : M (option (omx_return * option A)))
    : M (option (omx_return * option A)) :=
  if negb (Z.ldiff match_info match_mask =? 0) then ret ← omx__error_with_ep OMX_BAD_MATCH_MASK; mret (Some (ret, None))
  else call.
(* [libxen2mx/omx_test.c:329-398] omx_wait_any *)
Definition omx_wait_any (me : Z) (rounds : list round) (match_info match_mask ms_timeout : Z)
    : M (option (omx_return * option status)) :=
  checking_wait_mask match_info match_mask
    (wait_for me (omx__test_any_common match_info match_mask) OMX_SUCCESS false rounds ms_timeout).
(* [libxen2mx/omx_test.c:438-497] omx_peek *)
Definition omx_peek (me : Z) (rounds : list round) (ms_timeout : Z) : M (option (omx_return * option Z)) :=
  wait_for me omx__ipeek_common OMX_SUCCESS false rounds ms_timeout.
(* [libxen2mx/omx_test.c:625-694] omx_probe *)
Definition omx_probe (me : Z) (rounds : list round) (match_info match_mask ms_timeout : Z)
    : M (option (omx_return * option status)) :=
  checking_wait_mask match_info match_mask
    (wait_for me (omx__iprobe_common match_info match_mask) OMX_SUCCESS false rounds ms_timeout).

(** ** Synchronous connections *)

Definition connected (req : Z) : M (option unit) :=
  x ← get_req req;
  mret (if r_state x =? Z.lor OMX_REQUEST_STATE_DONE OMX_REQUEST_STATE_INTERNAL then Some tt else None).
(* [libxen2mx/omx_test.c:701-781] omx__connect_wait *)
Definition omx__connect_wait (me : Z) (rounds : list round) (req ms_timeout : Z) : M (option omx_return) :=
  res ← wait_for me (connected req) OMX_TIMEOUT true rounds ms_timeout;
  mret (fst <$> res).
(** [progress] is the progression of [omx__connect_common]; the result is the
    return code and the address. *)
(* [libxen2mx/omx_partner.c:399-466] omx_connect *)
Definition omx_connect (progress : M omx_return) (me : Z) (rounds : list round) (nic_id endpoint_id key timeout : Z)
    : M (option (omx_return * option (Z * Z))) :=
  a ← omx__request_alloc;
  match a with
  | None => ret ← omx__error_with_ep OMX_NO_RESOURCES; mret (Some (ret, None))
  | Some req =>
      upd_req req (fun x => x <| r_type := OMX_REQUEST_TYPE_CONNECT |> <| r_state := OMX_REQUEST_STATE_INTERNAL |>);;
      ret ← omx__connect_common peer_addr_to_index progress nic_id endpoint_id key req;
      if negb (bool_decide (ret = OMX_SUCCESS)) then
        ret ← omx__error_with_ep ret; omx__request_free req;; mret (Some (ret, None))
      else
        res ← omx__connect_wait me rounds req timeout;
        match res with
        | None => mret None
        | Some ret =>
            x ← get_req req;
            '(ret, addr) ←
              (if bool_decide (ret = OMX_SUCCESS) then
                 if bool_decide (s_code x = OMX_SUCCESS) then mret (OMX_SUCCESS, Some (s_addr x))
                 else
                   ret ← omx__error_with_ep
                     (if bool_decide (s_code x = OMX_REMOTE_ENDPOINT_UNREACHABLE) then OMX_TIMEOUT else s_code x);
                   mret (ret, None)
               else ret ← omx__error_with_ep ret; mret (ret, None));
            x ← get_req req;
            when (negb (hasf (r_state x) OMX_REQUEST_STATE_DONE)) (
              omx__dequeue_request HConnect req;;
              omx__dequeue_partner_request (HpConnect (r_partner x)) req);;
            omx__request_free req;;
            mret (Some (ret, addr))
        end
  end.
End test.
End Test.
