(* ===== verification/Invariants.v ===== *)
(** Invariants of the endpoint: what an invariant must promise about the
    primitive changes of the state, as type classes, and the proof that every
    operation of the library preserves an invariant that keeps the promises.
    An invariant is then established by its few instances, and the frame
    lemmas of the other files ("this operation does not change that") are the
    special case of a view of the state that does not change. *)
From S2P Require Import Prelude Io DList Seqnum Segments World SendqMap Request Region Send Large Ack.
From S2P Require Import Recv Unexp Connect Progress Test.
Import Io Seqnum Mem Segs SendqMap Request Partner Complete Regions Send Large Ack Recv Unexp Connect.
Import Progress Test.

Definition preserves {A} (P : world -> Prop) (m : M A) : Prop :=
  forall w a w', P w -> m w = Ret a w' -> P w'.

(** A view that an operation does not change. *)
Definition keeps {X A} (v : world -> X) (m : M A) : Prop :=
  forall x, preserves (fun w => v w = x) m.
Lemma keeps_eq {X A} (v : world -> X) (m : M A) w a w' : keeps v m -> m w = Ret a w' -> v w' = v w.
Proof. intros Hk E. by apply (Hk (v w) w a w'). Qed.

(** Elements of the queues that request processing links and unlinks, and the
    heads it initialises. *)
Definition free_elt (e : node) : bool :=
  match e with
  | EQueue _ | EDone _ | ECtxid _ | EPartner _ | EEarly _ | EReg _ | EUnused _ => true
  | _ => false
  end.
Definition free_head (h : node) : bool :=
  match h with
  | HpNonAcked _ | HpConnect _ | HpPartial _ | HpNeedSeq _ | HpEarly _ | HTmp => true
  | _ => false
  end.

(** Updates of a partner that touch neither the state of its acks nor, but
    for making both ends equal, its send window. *)
Definition benign (f : partner -> partner) : Prop := forall q,
  p_need_ack (f q) = p_need_ack q /\
  p_peer_index (f q) = p_peer_index q /\ p_endpoint_index (f q) = p_endpoint_index q /\
  (p_next_send_seq (f q) = p_next_send_seq q /\ p_next_acked_send_seq (f q) = p_next_acked_send_seq q
   \/ p_next_send_seq (f q) = p_next_acked_send_seq (f q)).

(** ** What an invariant promises *)

(** It only depends on the queues, the partners and the constants, is kept by the queues of
    the requests, by ack marks and by throttling marks. *)
Class FrameInv (P : world -> Prop) : Prop := {
  fi_frame w w' : qs w' = qs w -> partners w' = partners w -> w_globals w' = w_globals w ->
    P w -> P w';
  fi_add_tail e h : free_elt e -> preserves P (add_tail e h);
  fi_add_head e h : free_elt e -> preserves P (add_head e h);
  fi_unlink e : free_elt e -> preserves P (unlink e);
  fi_init h : free_head h -> preserves P (init_head h);
  fi_splice h : preserves P (splice_tail HTmp h);
  fi_early p x e : preserves P (on_qs (alter (insert_after (EEarly x) (EEarly e)) (HpEarly p)));
  fi_delayed p : preserves P (omx__mark_partner_need_ack_delayed p);
  fi_immediate p : preserves P (omx__mark_partner_need_ack_immediate p);
  fi_ack_sent p : preserves P (omx__mark_partner_ack_sent p);
  fi_throttling p : preserves P (omx__mark_partner_throttling p);
  fi_update_throttling p n : preserves P (omx__update_partner_throttling p n)
}.
(** It is kept when a send that need not be throttled takes its number. *)
Class TakeInv (P : world -> Prop) : Prop := {
  ti_take p req w q w' : P w -> partners w !! p = Some q -> must_throttle q = false ->
    take_seqnum p req w = Ret tt w' -> P w'
}.
(** It is kept by acks. *)
Class AckInv `{App} (P : world -> Prop) : Prop := { ai_ack p a : preserves P (omx__handle_ack p a) }.
(** It is kept by the other changes of a partner. *)
Class PartnerInv (P : world -> Prop) : Prop := {
  pi_upd p f : benign f -> preserves P (upd_partner p f);
  pi_create peer board ep w r w' : P w -> partners w !! partner_index w peer ep = None ->
    omx__partner_create peer board ep w = Ret r w' -> P w';
  pi_reset p d : preserves P (omx__partner_reset p;; reset_tail p d)
}.

(** ** Structure *)

Create HintDb pres.

Section structure.
Context (P : world -> Prop).

Lemma pr_ret {A} (a : A) : preserves P (mret a).
Proof. intros w b w' HP [= _ <-]. done. Qed.
Lemma pr_get : preserves P get.
Proof. intros w b w' HP [= _ <-]. done. Qed.
Lemma pr_abort {A} : preserves P (abort (A := A)).
Proof. intros w b w' _ [=]. Qed.
Lemma pr_undef {A} : preserves P (undef (A := A)).
Proof. intros w b w' _ [=]. Qed.
Lemma pr_diverge {A} : preserves P (diverge (A := A)).
Proof. intros w b w' _ [=]. Qed.
Lemma pr_of_option {A} (o : option A) : preserves P (of_option o).
Proof. destruct o; [apply pr_ret|apply pr_undef]. Qed.
Lemma pr_bind {A B} (m : M A) (k : A -> M B) :
  preserves P m -> (forall a, preserves P (k a)) -> preserves P (m ≫= k).
Proof. intros Hm Hk w b w' HP E. mstep E as a w1 E1. by eapply Hk, E; eapply Hm, E1. Qed.
Lemma pr_when b (m : M unit) : preserves P m -> preserves P (when b m).
Proof. destruct b; [done|intros _; apply pr_ret]. Qed.
Lemma pr_each {A} (f : A -> M unit) l : (forall x, preserves P (f x)) -> preserves P (each f l).
Proof.
  intros Hf. induction l as [|x l IH]; [apply pr_ret|].
  apply pr_bind; [apply Hf|intros _; apply IH].
Qed.
Lemma pr_until {A} (f : A -> M bool) l : (forall x, preserves P (f x)) -> preserves P (until f l).
Proof.
  intros Hf. induction l as [|x l IH]; [apply pr_ret|].
  apply pr_bind; [apply Hf|intros []; [apply IH|apply pr_ret]].
Qed.
End structure.

#[export] Hint Resolve pr_ret pr_get pr_abort pr_undef pr_diverge pr_of_option : pres.

(** One step: a lemma of the library, a structural rule, or a case. *)
Ltac pres_step :=
  match goal with
  | |- forall _, _ => intro
  | |- preserves _ _ => solve [eauto 3 with pres nocore]
  | |- preserves _ (_ ≫= _) => apply pr_bind
  | |- preserves _ (when _ _) => apply pr_when
  | |- preserves _ (each _ _) => apply pr_each
  | |- preserves _ (until _ _) => apply pr_until
  | |- preserves _ (match ?x with _ => _ end) => destruct x
  | |- preserves _ (let '_ := ?x in _) => destruct x
  end.
Ltac pres := repeat pres_step.

(** ** Every operation preserves an invariant *)

Section chain.
Context `{App} (P : world -> Prop) {HF : FrameInv P}.
#[local] Abbreviation pr := (preserves P).
#[local] Hint Resolve fi_delayed fi_immediate fi_ack_sent fi_throttling fi_update_throttling
  fi_splice fi_early : pres.
#[local] Hint Extern 1 (preserves _ (add_tail _ _)) => (apply fi_add_tail; reflexivity) : pres.
#[local] Hint Extern 1 (preserves _ (add_head _ _)) => (apply fi_add_head; reflexivity) : pres.
#[local] Hint Extern 1 (preserves _ (unlink _)) => (apply fi_unlink; reflexivity) : pres.
#[local] Hint Extern 1 (preserves _ (init_head _)) => (apply fi_init; reflexivity) : pres.

(** *** Primitives *)
Lemma pr_frame {A} (m : M A) :
  (forall w a w', m w = Ret a w' ->
    qs w' = qs w /\ partners w' = partners w /\ w_globals w' = w_globals w) -> pr m.
Proof. intros Hm w a w' HP E. destruct (Hm _ _ _ E) as (Hq & Hp & Hg). by eapply fi_frame. Qed.
Lemma pr_modify f :
  (forall w, qs (f w) = qs w) -> (forall w, partners (f w) = partners w) ->
  (forall w, w_globals (f w) = w_globals w) -> pr (modify f).
Proof. intros Hq Hp Hg. apply pr_frame. intros w a w' [= _ <-]. by rewrite Hq, Hp, Hg. Qed.
#[local] Hint Extern 1 (preserves _ (modify _)) =>
  (apply pr_modify; intro; reflexivity) : pres.
Lemma pr_get_req r : pr (get_req r). Proof. unfold get_req. pres. Qed.
Lemma pr_get_partner p : pr (get_partner p). Proof. unfold get_partner. pres. Qed.
Lemma pr_read_queue h : pr (read_queue h). Proof. unfold read_queue. pres. Qed.
#[local] Hint Resolve pr_get_req pr_get_partner pr_read_queue : pres.
Lemma pr_upd_req r f : pr (upd_req r f). Proof. unfold upd_req. pres. Qed.
Lemma pr_ids h : pr (ids h). Proof. unfold ids. pres. Qed.
Lemma pr_malloc : pr omx_malloc_ep.
Proof.
  apply pr_frame. intros w a w' E. unfold omx_malloc_ep in E. by destruct (mallocs w); injection E as <- <-.
Qed.
Lemma pr_free a : pr (omx_free_ep a). Proof. unfold omx_free_ep. pres. Qed.
Lemma pr_ioctl c : pr (ioctl c).
Proof.
  apply pr_frame. intros w a w' E. unfold ioctl in E. by destruct (ioctls w); injection E as <- <-.
Qed.
Lemma pr_on_mem f : pr (on_mem f).
Proof.
  apply pr_frame. intros w a w' E. unfold on_mem in E. destruct (f (memory w)); [|done]. by injection E as _ <-.
Qed.
#[local] Hint Resolve pr_upd_req pr_ids pr_malloc pr_free pr_ioctl pr_on_mem : pres.
Lemma pr_now : pr jiffies_now. Proof. unfold jiffies_now. pres. Qed.
Lemma pr_errno e ok : pr (omx__ioctl_errno_to_return_checked e ok).
Proof. unfold omx__ioctl_errno_to_return_checked. pres. Qed.
Lemma pr_error_req c : pr (omx__error_with_req c). Proof. unfold omx__error_with_req. pres. Qed.
Lemma pr_error_ep c : pr (omx__error_with_ep c). Proof. unfold omx__error_with_ep. pres. Qed.
Lemma pr_ctxid m : pr (ctxid_of m). Proof. unfold ctxid_of. pres. Qed.
#[local] Hint Resolve pr_now pr_errno pr_error_req pr_error_ep pr_ctxid : pres.
Lemma pr_wakeup st : pr (omx__wakeup st). Proof. unfold omx__wakeup. pres. Qed.
#[local] Hint Resolve pr_wakeup : pres.
Lemma pr_user_event : pr omx__notify_user_event. Proof. unfold omx__notify_user_event. pres. Qed.
#[local] Hint Resolve pr_user_event : pres.

(** *** Requests *)
Lemma pr_alloc : pr omx__request_alloc. Proof. unfold omx__request_alloc. pres. Qed.
Lemma pr_req_free r : pr (omx__request_free r). Proof. unfold omx__request_free. pres. Qed.
Lemma pr_enqueue h r : pr (omx__enqueue_request h r). Proof. unfold omx__enqueue_request. pres. Qed.
Lemma pr_requeue h r : pr (omx__requeue_request h r). Proof. unfold omx__requeue_request. pres. Qed.
Lemma pr_dequeue_ r : pr (omx___dequeue_request r). Proof. unfold omx___dequeue_request. pres. Qed.
Lemma pr_dequeue h r : pr (omx__dequeue_request h r). Proof. apply pr_dequeue_. Qed.
Lemma pr_enqueue_ctxid h r : pr (omx__enqueue_ctxid_request h r).
Proof. unfold omx__enqueue_ctxid_request. pres. Qed.
Lemma pr_dequeue_ctxid_ r : pr (omx___dequeue_ctxid_request r).
Proof. unfold omx___dequeue_ctxid_request. pres. Qed.
Lemma pr_dequeue_ctxid h r : pr (omx__dequeue_ctxid_request h r).
Proof. apply pr_dequeue_ctxid_. Qed.
Lemma pr_enqueue_partner h r : pr (omx__enqueue_partner_request h r).
Proof. unfold omx__enqueue_partner_request. pres. Qed.
Lemma pr_dequeue_partner_ r : pr (omx___dequeue_partner_request r).
Proof. unfold omx___dequeue_partner_request. pres. Qed.
Lemma pr_dequeue_partner h r : pr (omx__dequeue_partner_request h r).
Proof. apply pr_dequeue_partner_. Qed.
Lemma pr_empty h : pr (omx__empty_queue h). Proof. unfold omx__empty_queue. pres. Qed.
Lemma pr_empty_partner h : pr (omx__empty_partner_queue h).
Proof. unfold omx__empty_partner_queue. pres. Qed.
Lemma pr_first h : pr (omx__first_partner_request h).
Proof. unfold omx__first_partner_request. pres. Qed.
#[local] Hint Resolve pr_alloc pr_req_free pr_enqueue pr_requeue pr_dequeue_ pr_dequeue
  pr_enqueue_ctxid pr_dequeue_ctxid_ pr_dequeue_ctxid pr_enqueue_partner pr_dequeue_partner_
  pr_dequeue_partner pr_empty pr_empty_partner pr_first : pres.
Lemma pr_enqueue_done c r : pr (enqueue_done c r). Proof. unfold enqueue_done. pres. Qed.
#[local] Hint Resolve pr_enqueue_done : pres.
Lemma pr_done_early c r : pr (omx__notify_request_done_early c r).
Proof. unfold omx__notify_request_done_early. pres. Qed.
Lemma pr_done c r : pr (omx__notify_request_done c r).
Proof. unfold omx__notify_request_done. pres. Qed.
Lemma pr_first_partner h : pr (omx__dequeue_first_partner_request h).
Proof. unfold omx__dequeue_first_partner_request. pres. Qed.
Lemma pr_dequeue_done r : pr (omx__dequeue_done_request r).
Proof. unfold omx__dequeue_done_request. pres. Qed.
#[local] Hint Resolve pr_done_early pr_done pr_first_partner pr_dequeue_done : pres.
Lemma pr_forget r : pr (omx__forget r). Proof. unfold omx__forget. pres. Qed.
Lemma pr_free_segments s : pr (free_segments s). Proof. unfold free_segments. pres. Qed.
Lemma pr_set_status r c : pr (set_status r c). Proof. unfold set_status. pres. Qed.
Lemma pr_sendq_put l : pr (sendq_put l). Proof. unfold sendq_put. pres. Qed.
#[local] Hint Resolve pr_forget pr_free_segments pr_set_status pr_sendq_put : pres.
Lemma pr_send_complete r c : pr (omx__send_complete r c). Proof. unfold omx__send_complete. pres. Qed.
Lemma pr_recv_complete r c : pr (omx__recv_complete r c). Proof. unfold omx__recv_complete. pres. Qed.
#[local] Hint Resolve pr_send_complete pr_recv_complete : pres.

(** *** Regions *)
Lemma pr_get_region g : pr (get_region g). Proof. unfold get_region. pres. Qed.
#[local] Hint Resolve pr_get_region : pres.
Lemma pr_upd_region g f : pr (upd_region g f). Proof. unfold upd_region. pres. Qed.
#[local] Hint Resolve pr_upd_region : pres.
Lemma pr_pinning c : pr (omx__check_driver_pinning_error c).
Proof. unfold omx__check_driver_pinning_error. pres. Qed.
Lemma pr_try_alloc : pr omx__endpoint_large_region_try_alloc.
Proof. unfold omx__endpoint_large_region_try_alloc. pres. Qed.
Lemma pr_region_free g : pr (omx__endpoint_large_region_free g).
Proof. unfold omx__endpoint_large_region_free. pres. Qed.
#[local] Hint Resolve pr_pinning pr_try_alloc pr_region_free : pres.
Lemma pr_register g : pr (omx__register_region g). Proof. unfold omx__register_region. pres. Qed.
Lemma pr_deregister g : pr (omx__deregister_region g).
Proof. unfold omx__deregister_region. pres. Qed.
#[local] Hint Resolve pr_register pr_deregister : pres.
Lemma pr_destroy g : pr (omx__destroy_region g). Proof. unfold omx__destroy_region. pres. Qed.
#[local] Hint Resolve pr_destroy : pres.
Lemma pr_region_alloc : pr omx__endpoint_large_region_alloc.
Proof. unfold omx__endpoint_large_region_alloc. pres. Qed.
#[local] Hint Resolve pr_region_alloc : pres.
Lemma pr_create_region s : pr (omx__create_region s). Proof. unfold omx__create_region. pres. Qed.
Lemma pr_reserved x : pr (reserved x). Proof. unfold reserved. pres. Qed.
Lemma pr_reserve g r : pr (reserve g r). Proof. unfold reserve. pres. Qed.
#[local] Hint Resolve pr_create_region pr_reserved pr_reserve : pres.
Lemma pr_find_region r s l : pr (find_region r s l).
Proof. induction l; cbn [find_region]; pres. Qed.
#[local] Hint Resolve pr_find_region : pres.
Lemma pr_get_region_ s r : pr (omx__get_region s r).
Proof. unfold omx__get_region, omx__get_vect_region, omx__get_contigous_region. pres. Qed.
Lemma pr_put_region g r : pr (omx__put_region g r). Proof. unfold omx__put_region. pres. Qed.
#[local] Hint Resolve pr_get_region_ pr_put_region : pres.

(** *** Acks *)
Lemma pr_mark_acked r c : pr (omx__mark_request_acked r c).
Proof. unfold omx__mark_request_acked. pres. Qed.
#[local] Hint Resolve pr_mark_acked : pres.
Lemma pr_ack_step a n r : pr (ack_step a n r). Proof. unfold ack_step. pres. Qed.
Lemma pr_find_nacked a n l : pr (find_nacked a n l).
Proof. induction l; cbn [find_nacked]; pres. Qed.
Lemma pr_connect_complete r s i : pr (omx__connect_complete r s i).
Proof. unfold omx__connect_complete. pres. Qed.
#[local] Hint Resolve pr_ack_step pr_find_nacked pr_connect_complete : pres.
Lemma pr_handle_nack p s c : pr (omx__handle_nack p s c). Proof. unfold omx__handle_nack. pres. Qed.
#[local] Hint Resolve pr_handle_nack : pres.
Lemma pr_prepare_wakeup : pr omx__prepare_progress_wakeup.
Proof. unfold omx__prepare_progress_wakeup. pres. Qed.

(** *** Posting *)
Lemma pr_upd_param r f : pr (upd_param r f). Proof. apply pr_upd_req. Qed.
#[local] Hint Resolve pr_upd_param : pres.
Lemma pr_post mk check ok p r : (forall c, pr (check c)) -> pr (post mk check ok p r).
Proof. intros Hc. unfold post. pres. Qed.
Lemma pr_no_check c : pr (no_check c). Proof. apply pr_ret. Qed.
#[local] Hint Resolve pr_post pr_no_check : pres.
Lemma pr_non_acked p r : pr (enqueue_non_acked p r). Proof. unfold enqueue_non_acked. pres. Qed.
Lemma pr_target p r f : pr (set_target p r f). Proof. unfold set_target. pres. Qed.
Lemma pr_notify_early r : pr (notify_early r). Proof. unfold notify_early. pres. Qed.
Lemma pr_delay r : pr (delay_request r). Proof. unfold delay_request. pres. Qed.
Lemma pr_got r k : pr (got_resource r k). Proof. apply pr_upd_req. Qed.
#[local] Hint Resolve pr_non_acked pr_target pr_notify_early pr_delay pr_got : pres.
Lemma pr_mediumsq_loop r l : forall i rem off nr st, pr (mediumsq_loop r l i rem off nr st).
Proof. induction l; intros; cbn [mediumsq_loop]; pres. Qed.
#[local] Hint Resolve pr_mediumsq_loop : pres.
Lemma pr_post_mediumsq p r : pr (omx__post_isend_mediumsq p r).
Proof. unfold omx__post_isend_mediumsq. pres. Qed.
#[local] Hint Resolve pr_post_mediumsq : pres.
Lemma pr_release_unsent r : pr (omx__release_unsent_send_resources r).
Proof. unfold omx__release_unsent_send_resources. pres. Qed.
#[local] Hint Resolve pr_release_unsent : pres.
Lemma pr_complete_unsent r : pr (omx__complete_unsent_send_request r).
Proof. unfold omx__complete_unsent_send_request. pres. Qed.
#[local] Hint Resolve pr_complete_unsent : pres.

(** A throttled send that leaves: what holds once it took its number. *)
Lemma pr_setup_any (P0 : world -> Prop) p r :
  (forall w w', P0 w -> take_seqnum p r w = Ret tt w' -> P w') ->
  forall w w', P0 w -> setup_any p r w = Ret tt w' -> P w'.
Proof.
  intros Ht w w' H0 E. unfold setup_any in E. mstep E as x w1 E1.
  assert (Hw : w1 = w).
  { unfold get_req, get, mbind, M_bind, of_option in E1. destruct (reqs w !! r); [|done]. by injection E1. }
  subst w1. clear E1.
  assert (Hrest : forall rest, pr rest -> (take_seqnum p r;; rest) w = Ret tt w' -> P w').
  { intros rest Hp E1. mstep E1 as t w1 E2. destruct t. eapply Hp; [|exact E1]. by eapply Ht. }
  unfold omx__setup_isend_tiny, omx__setup_isend_small, omx__setup_isend_mediumsq,
    omx__setup_isend_mediumva, omx__setup_isend_rndv, omx__setup_notify,
    omx__post_isend_tiny, omx__post_isend_small, omx__post_isend_mediumva, omx__post_isend_rndv,
    omx__post_notify in E.
  destruct (r_type x); try done; (eapply Hrest; [|exact E]); pres.
Qed.

(** Acks, when taking a sequence number needs no condition. *)
Lemma pr_take_seqnum p r :
  pr (upd_partner p (set p_next_send_seq OMX__SEQNUM_INCREASE)) -> pr (take_seqnum p r).
Proof. intros Hu. unfold take_seqnum. pres. Qed.
Lemma pr_throttling_loop n p :
  (forall r, pr (take_seqnum p r)) -> forall s, pr (throttling_loop n p s).
Proof.
  intros Ht. induction n as [|n IH]; intros s; cbn [throttling_loop]; [pres|].
  assert (Hs : forall r, pr (setup_any p r)).
  { intros r w [] w' Hw E. revert Hw E. apply (pr_setup_any P). intros w1 w2. by apply Ht. }
  pres.
Qed.
Lemma pr_handle_ack p a :
  (forall r, pr (take_seqnum p r)) ->
  (forall s, pr (upd_partner p (set p_next_acked_send_seq (fun _ => s)))) ->
  pr (omx__handle_ack p a).
Proof.
  intros Ht Hu. pose proof (fun n => pr_throttling_loop n p Ht) as Hl.
  unfold omx__handle_ack, omx__process_throttling_requests. pres.
Qed.

(** *** Sends that take a sequence number *)
Section take.
Context {HT : TakeInv P}.

Lemma pr_throttle_take p r (rest : M unit) :
  pr rest -> pr (throttle_or p r (take_seqnum p r;; rest)).
Proof.
  intros Hr. unfold throttle_or. intros w a w' HP E. mstep E as q w1 E1.
  unfold get_partner, get, mbind, M_bind in E1.
  destruct (partners w !! p) as [q'|] eqn:Hq; [|done]. injection E1 as -> ->.
  destruct (must_throttle q) eqn:Ht.
  - revert HP E. change (preserves P) with pr.
    assert (Hm : pr (upd_req r (set r_state (setf OMX_REQUEST_STATE_NEED_SEQNUM));;
      omx__enqueue_partner_request (HpNeedSeq p) r;; omx__mark_partner_throttling p)) by pres.
    apply Hm.
  - mstep E as t w2 E2. destruct t. eapply Hr; [|exact E]. by eapply ti_take.
Qed.
#[local] Hint Extern 2 (preserves _ (throttle_or _ _ _)) =>
  (apply pr_throttle_take) : core.
Lemma pr_alloc_tiny p r : pr (omx__alloc_setup_isend_tiny p r).
Proof.
  unfold omx__alloc_setup_isend_tiny, omx__setup_isend_tiny, omx__post_isend_tiny. pres.
  apply pr_throttle_take. pres.
Qed.
Lemma pr_alloc_small p r : pr (omx__alloc_setup_isend_small p r).
Proof.
  unfold omx__alloc_setup_isend_small, omx__setup_isend_small, omx__post_isend_small. pres;
  (apply pr_throttle_take; pres).
Qed.
Lemma pr_alloc_mediumva p r : pr (omx__alloc_setup_isend_mediumva p r).
Proof.
  unfold omx__alloc_setup_isend_mediumva, omx__setup_isend_mediumva, omx__post_isend_mediumva. pres.
  apply pr_throttle_take. pres.
Qed.
Lemma pr_alloc_mediumsq p r : pr (omx__alloc_setup_isend_mediumsq p r).
Proof.
  unfold omx__alloc_setup_isend_mediumsq, omx__setup_isend_mediumsq. pres;
  (apply pr_throttle_take; pres).
Qed.
Lemma pr_alloc_large p r : pr (omx__alloc_setup_isend_large p r).
Proof.
  unfold omx__alloc_setup_isend_large, omx__setup_isend_rndv, omx__post_isend_rndv. pres;
  (apply pr_throttle_take; pres).
Qed.
Lemma pr_alloc_notify r : pr (omx__alloc_setup_notify r).
Proof.
  unfold omx__alloc_setup_notify, omx__setup_notify, omx__post_notify. pres.
  apply pr_throttle_take. pres.
Qed.
#[local] Hint Resolve pr_alloc_tiny pr_alloc_small pr_alloc_mediumva pr_alloc_mediumsq
  pr_alloc_large pr_alloc_notify : pres.
Lemma pr_submit_tiny p r : pr (omx__submit_isend_tiny p r).
Proof. unfold omx__submit_isend_tiny. pres. Qed.
Lemma pr_submit_small p r : pr (omx__submit_isend_small p r).
Proof. unfold omx__submit_isend_small. pres. Qed.
Lemma pr_submit_medium p r : pr (omx__submit_isend_medium p r).
Proof. unfold omx__submit_isend_medium. pres. Qed.
Lemma pr_submit_large p r : pr (omx__submit_isend_large p r).
Proof. unfold omx__submit_isend_large. pres. Qed.
Lemma pr_submit_notify r d : pr (omx__submit_notify r d).
Proof. unfold omx__submit_notify. pres. Qed.
#[local] Hint Resolve pr_submit_tiny pr_submit_small pr_submit_medium pr_submit_large
  pr_submit_notify : pres.

(** *** Large messages *)
Lemma pr_alloc_pull r : pr (omx__alloc_setup_pull r). Proof. unfold omx__alloc_setup_pull. pres. Qed.
#[local] Hint Resolve pr_alloc_pull : pres.
Lemma pr_submit_pull r : pr (omx__submit_pull r). Proof. unfold omx__submit_pull. pres. Qed.
Lemma pr_pull_done c i s : pr (omx__process_pull_done c i s).
Proof. unfold omx__process_pull_done. pres. Qed.
Lemma pr_discarded p a b c : pr (omx__submit_discarded_notify p a b c).
Proof. unfold omx__submit_discarded_notify. pres. Qed.
Lemma pr_recv_notify p m l : pr (omx__process_recv_notify p m l).
Proof. unfold omx__process_recv_notify. pres. Qed.
#[local] Hint Resolve pr_submit_pull pr_pull_done pr_discarded pr_recv_notify : pres.

(** *** Receives *)
Lemma pr_copy_frag r d o c : pr (copy_frag r d o c). Proof. unfold copy_frag. pres. Qed.
Lemma pr_enqueue_unexp c r : pr (enqueue_unexp c r). Proof. unfold enqueue_unexp. pres. Qed.
#[local] Hint Resolve pr_copy_frag pr_enqueue_unexp : pres.
Lemma pr_finish c r : pr (finish_or_unexp c r). Proof. unfold finish_or_unexp. pres. Qed.
#[local] Hint Resolve pr_finish : pres.
Lemma pr_medium p r m d l : pr (omx__process_recv_medium_frag p r m d l).
Proof. unfold omx__process_recv_medium_frag. pres. Qed.
#[local] Hint Resolve pr_medium : pres.
Lemma pr_callback f p r m d l : pr (recv_callback f p r m d l).
Proof.
  unfold recv_callback, omx__process_recv_tiny, omx__process_recv_small, omx__process_recv_rndv.
  pres.
Qed.
Lemma pr_find_recv m l : pr (find_recv m l).
Proof. induction l; cbn [find_recv]; pres. Qed.
#[local] Hint Resolve pr_callback pr_find_recv : pres.
Lemma pr_match_recv m : pr (omx__match_recv m). Proof. unfold omx__match_recv. pres. Qed.
Lemma pr_find_unexp m k l : pr (find_unexp m k l).
Proof. induction l; cbn [find_unexp]; pres. Qed.
Lemma pr_recv_to_addr p : pr (omx__partner_recv_to_addr p).
Proof. unfold omx__partner_recv_to_addr. pres. Qed.
Lemma pr_recv_lookup i e : pr (omx__partner_recv_lookup i e).
Proof. unfold omx__partner_recv_lookup. pres. Qed.
Lemma pr_init_medium r : pr (omx__init_process_recv_medium r). Proof. apply pr_upd_req. Qed.
Lemma pr_get_early e : pr (get_early e). Proof. unfold get_early. pres. Qed.
#[local] Hint Resolve pr_match_recv pr_find_unexp pr_recv_to_addr pr_recv_lookup pr_init_medium
  pr_get_early : pres.
Lemma pr_free_early e : pr (free_early e). Proof. unfold free_early. pres. Qed.
Lemma pr_early_msgs l : pr (early_msgs l). Proof. induction l; cbn [early_msgs]; pres. Qed.
Lemma pr_early_data s l : pr (early_data s l). Proof. unfold early_data. pres. Qed.
#[local] Hint Resolve pr_free_early pr_early_msgs pr_early_data : pres.
Lemma pr_find_prev p m : pr (omx__find_previous_early_packet p m).
Proof. unfold omx__find_previous_early_packet. pres. Qed.
#[local] Hint Resolve pr_find_prev : pres.
Lemma pr_keep_data m d : pr (keep_data m d). Proof. unfold keep_data. pres. Qed.
#[local] Hint Resolve pr_keep_data : pres.
Lemma pr_insert_early prev p e :
  pr (on_qs (alter (match prev with PrevAfter x => insert_after (EEarly x) (EEarly e)
                    | _ => cons (EEarly e) end) (HpEarly p))).
Proof. destruct prev; [by apply (fi_add_head (EEarly e))..|apply fi_early]. Qed.
Lemma pr_postpone p m d f : pr (omx__postpone_early_packet p m d f).
Proof.
  unfold omx__postpone_early_packet. apply pr_bind; [pres|intros prev].
  pose proof (pr_insert_early prev). destruct prev; pres.
Qed.
#[local] Hint Resolve pr_postpone : pres.

(** The application's handler may call the library, which preserves the
    invariant, and touches nothing else. *)
Context (Hh : forall h c w, unexp_handler = Some h -> P w -> P (snd (h c w))).

Lemma pr_call_handler h c : unexp_handler = Some h -> pr (call_handler h c).
Proof.
  intros Hu. unfold call_handler. pres. intros w x w' HP E.
  pose proof (Hh h c w Hu HP) as Hv. destruct (h c w) as [y w1]. by injection E as <- <-.
Qed.
Lemma pr_try_handler m c : pr (try_handler m c).
Proof.
  unfold try_handler. apply pr_bind; [pres|intros [r|]]; [pres|].
  case_eq unexp_handler; [intros h Hu|intros _; pres].
  apply pr_bind; [by apply pr_call_handler|intros; pres].
Qed.
#[local] Hint Resolve pr_try_handler : pres.
Lemma pr_try_match p n m d l f : pr (omx__try_match_next_recv p n m d l f).
Proof. unfold omx__try_match_next_recv. pres. Qed.
#[local] Hint Resolve pr_try_match : pres.
Lemma pr_fail_self r : pr (fail_self_send r). Proof. unfold fail_self_send. pres. Qed.
#[local] Hint Resolve pr_fail_self : pres.
Lemma pr_self_send r : pr (omx__process_self_send r).
Proof. unfold omx__process_self_send. pres. Qed.
Lemma pr_complete_unexp r s c : pr (omx__complete_unexp_req_as_irecv r s c).
Proof. unfold omx__complete_unexp_req_as_irecv. pres. Qed.
#[local] Hint Resolve pr_self_send pr_complete_unexp : pres.

(** *** Everything else *)
Section partner.
Context {HA : AckInv P} {HP : PartnerInv P}.

Lemma pr_upd_other p f :
  (forall q, p_need_ack (f q) = p_need_ack q) -> (forall q, p_peer_index (f q) = p_peer_index q) ->
  (forall q, p_endpoint_index (f q) = p_endpoint_index q) ->
  (forall q, p_next_send_seq (f q) = p_next_send_seq q) ->
  (forall q, p_next_acked_send_seq (f q) = p_next_acked_send_seq q) -> pr (upd_partner p f).
Proof.
  intros H1 H2 H3 H4 H5. apply pi_upd. intros q. rewrite H1, H2, H3, H4, H5. by repeat split; left.
Qed.
Lemma pr_upd_both p f :
  (forall q, p_need_ack (f q) = p_need_ack q) -> (forall q, p_peer_index (f q) = p_peer_index q) ->
  (forall q, p_endpoint_index (f q) = p_endpoint_index q) ->
  (forall q, p_next_send_seq (f q) = p_next_acked_send_seq (f q)) -> pr (upd_partner p f).
Proof. intros H1 H2 H3 H4. apply pi_upd. intros q. rewrite H1, H2, H3. by repeat split; right. Qed.
#[local] Hint Extern 1 (preserves _ (upd_partner _ _)) =>
  (apply pr_upd_other; intro; reflexivity) : pres.
#[local] Hint Extern 2 (preserves _ (upd_partner _ _)) =>
  (apply pr_upd_both; intro; reflexivity) : pres.
#[local] Hint Resolve ai_ack pi_reset : pres.

Lemma pr_liback p a n : pr (omx__handle_liback p a n). Proof. unfold omx__handle_liback. pres. Qed.
Lemma pr_submit_liback p : pr (omx__submit_send_liback p).
Proof. unfold omx__submit_send_liback. pres. Qed.
#[local] Hint Resolve pr_liback pr_submit_liback : pres.
Lemma pr_ack_partner p : pr (ack_partner p). Proof. unfold ack_partner. pres. Qed.
#[local] Hint Resolve pr_ack_partner : pres.
Lemma pr_partners_to_ack : pr omx__process_partners_to_ack.
Proof. unfold omx__process_partners_to_ack. pres. Qed.
Lemma pr_flush : pr omx__flush_partners_to_ack. Proof. unfold omx__flush_partners_to_ack. pres. Qed.
Lemma pr_update_next_frag p : pr (omx__update_partner_next_frag_recv_seq p).
Proof. unfold omx__update_partner_next_frag_recv_seq. pres. Qed.
Lemma pr_find_partial a n l : pr (find_partial a n l).
Proof. induction l; cbn [find_partial]; pres. Qed.
#[local] Hint Resolve pr_partners_to_ack pr_flush pr_update_next_frag pr_find_partial : pres.
Lemma pr_continue_partial p n m d l : pr (omx__continue_partial_request p n m d l).
Proof. unfold omx__continue_partial_request. pres. Qed.
#[local] Hint Resolve pr_continue_partial : pres.
Lemma pr_ordered_recv p n m d l f : pr (omx__process_partner_ordered_recv p n m d l f).
Proof. unfold omx__process_partner_ordered_recv. pres. Qed.
#[local] Hint Resolve pr_ordered_recv : pres.
Lemma pr_process_early p a n e : pr (process_early p a n e). Proof. unfold process_early. pres. Qed.
#[local] Hint Resolve pr_process_early : pres.
Lemma pr_process_recv m d l f : pr (omx__process_recv m d l f).
Proof. unfold omx__process_recv. pres. Qed.
Lemma pr_recv_liback i e l a : pr (omx__process_recv_liback i e l a).
Proof. unfold omx__process_recv_liback. pres. Qed.
Lemma pr_nack_lib i e s t : pr (omx__process_recv_nack_lib i e s t).
Proof. unfold omx__process_recv_nack_lib. pres. Qed.
#[local] Hint Resolve pr_process_recv pr_recv_liback pr_nack_lib : pres.

(** *** Connections *)
Context (index_to_addr addr_to_index : Z -> omx_return + Z).
Lemma pr_lookup i e : pr (omx__partner_lookup index_to_addr i e).
Proof.
  unfold omx__partner_lookup. intros w a w' HP' E. rewrite get_bind in E.
  destruct (partners w !! partner_index w i e) eqn:Hn; [by injection E as _ <-|].
  destruct (index_to_addr i); [by injection E as _ <-|]. by eapply pi_create.
Qed.
Lemma pr_lookup_by_addr b e : pr (omx__partner_lookup_by_addr addr_to_index b e).
Proof.
  unfold omx__partner_lookup_by_addr. intros w a w' HP' E.
  destruct (addr_to_index b); [by injection E as _ <-|]. rewrite get_bind in E.
  destruct (partners w !! partner_index w _ e) eqn:Hn; [by injection E as _ <-|].
  by eapply pi_create.
Qed.
Lemma pr_localization p s : pr (omx__partner_check_localization p s).
Proof. unfold omx__partner_check_localization. pres. Qed.
Lemma pr_post_connect p r : pr (omx__post_connect_request p r).
Proof. unfold omx__post_connect_request. pres. Qed.
#[local] Hint Resolve pr_lookup pr_lookup_by_addr pr_localization pr_post_connect : pres.
Lemma pr_cleanup p d : pr (omx__partner_cleanup p d).
Proof.
  unfold omx__partner_cleanup, cleanup_non_acked, cleanup_need_reply, cleanup_need_resources,
    cleanup_need_seqnum, cleanup_connect, cleanup_partial, cleanup_early, cleanup_unexp. pres.
Qed.
#[local] Hint Resolve pr_cleanup : pres.
Lemma pr_connect_reply_ p r t s c : pr (omx__handle_connect_reply p r t s c).
Proof. unfold omx__handle_connect_reply. pres. Qed.
Lemma pr_find_connect s l : pr (find_connect s l).
Proof. induction l; cbn [find_connect]; pres. Qed.
#[local] Hint Resolve pr_connect_reply_ pr_find_connect : pres.
Lemma pr_connect_reply e : pr (omx__process_recv_connect_reply index_to_addr e).
Proof. unfold omx__process_recv_connect_reply. pres. Qed.
Lemma pr_connect_request e : pr (omx__process_recv_connect_request index_to_addr e).
Proof. unfold omx__process_recv_connect_request. pres. Qed.
#[local] Hint Resolve pr_connect_reply pr_connect_request : pres.

(** *** Progression *)
Lemma pr_frag_done o : pr (mediumsq_frag_done o). Proof. unfold mediumsq_frag_done. pres. Qed.
#[local] Hint Resolve pr_frag_done : pres.
Lemma pr_event e : pr (omx__process_event index_to_addr e).
Proof. unfold omx__process_event. pres. Qed.
#[local] Hint Resolve pr_event : pres.
Lemma pr_check_desc : pr omx__check_endpoint_desc. Proof. unfold omx__check_endpoint_desc. pres. Qed.
Lemma pr_resubmit r : pr (resubmit r). Proof. unfold resubmit. pres. Qed.
#[local] Hint Resolve pr_resubmit : pres.
Lemma pr_delayed : pr omx__process_delayed_requests.
Proof. unfold omx__process_delayed_requests. pres. Qed.
Lemma pr_repost r : pr (repost r).
Proof.
  unfold repost, omx__post_isend_tiny, omx__post_isend_small, omx__post_isend_mediumva,
    omx__post_isend_rndv, omx__post_notify. pres.
Qed.
#[local] Hint Resolve pr_check_desc pr_delayed pr_repost : pres.
Lemma pr_resend_loop n now l : pr (resend_loop n now l).
Proof. revert l. induction n; intros l; cbn [resend_loop]; pres. Qed.
Lemma pr_reconnect_loop n now l : pr (reconnect_loop n now l).
Proof. revert l. induction n; intros l; cbn [reconnect_loop]; pres. Qed.
#[local] Hint Resolve pr_resend_loop pr_reconnect_loop : pres.
Lemma pr_resend : pr omx__process_resend_requests.
Proof. unfold omx__process_resend_requests. pres. Qed.
Lemma pr_consume n nr b ring rel i : pr (consume index_to_addr n nr b ring rel i).
Proof. revert i. induction n; intros i; cbn [consume]; pres. Qed.
#[local] Hint Resolve pr_resend pr_consume : pres.
Lemma pr_progress u e : pr (omx__progress index_to_addr u e).
Proof. unfold omx__progress. pres. Qed.

(** *** The API *)
Context (progress : M omx_return) (Hprogress : pr progress).
#[local] Hint Resolve Hprogress : pres.
Lemma pr_reenable : pr (omx_reenable_progression progress).
Proof. unfold omx_reenable_progression. pres. Qed.
Lemma pr_disable : pr omx_disable_progression.
Proof. unfold omx_disable_progression. pres. Qed.
Lemma pr_irecv_segs s m k c f : pr (omx__irecv_segs progress s m k c f).
Proof. unfold omx__irecv_segs. pres. Qed.
#[local] Hint Resolve pr_irecv_segs : pres.
Lemma pr_irecv b l m k c f : pr (omx_irecv progress b l m k c f).
Proof. unfold omx_irecv. pres. Qed.
Lemma pr_irecvv s m k c f : pr (omx_irecvv progress s m k c f).
Proof. unfold omx_irecvv. pres. Qed.
Lemma pr_isend_req p r f : pr (omx__isend_req progress p r f).
Proof. unfold omx__isend_req. pres. Qed.
Lemma pr_init_isend r s d m c : pr (init_isend r s d m c). Proof. apply pr_upd_req. Qed.
Lemma pr_finish_isend r c : pr (finish_isend r c). Proof. unfold finish_isend. pres. Qed.
Lemma pr_cache r s : pr (cache_for_send r s). Proof. unfold cache_for_send. pres. Qed.
Lemma pr_issend_req p r f : pr (omx__issend_req progress p r f).
Proof. unfold omx__issend_req. pres. Qed.
#[local] Hint Resolve pr_isend_req pr_init_isend pr_finish_isend pr_cache pr_issend_req : pres.
Lemma pr_isend b l d m c f : pr (omx_isend progress b l d m c f).
Proof. unfold omx_isend. pres. Qed.
Lemma pr_isendv s d m c f : pr (omx_isendv progress s d m c f).
Proof. unfold omx_isendv. pres. Qed.
Lemma pr_issend b l d m c f : pr (omx_issend progress b l d m c f).
Proof. unfold omx_issend. pres. Qed.
Lemma pr_issendv s d m c f : pr (omx_issendv progress s d m c f).
Proof. unfold omx_issendv. pres. Qed.
Lemma pr_connect_common b e k r : pr (omx__connect_common addr_to_index progress b e k r).
Proof. unfold omx__connect_common. pres. Qed.
#[local] Hint Resolve pr_connect_common : pres.
Lemma pr_iconnect b e k m c f : pr (omx_iconnect addr_to_index progress b e k m c f).
Proof. unfold omx_iconnect. pres. Qed.
Lemma pr_disconnect a : pr (omx_disconnect progress a).
Proof. unfold omx_disconnect. pres. Qed.

(** *** Tests and waits *)
Lemma pr_test_success r : pr (omx__test_success r).
Proof. unfold omx__test_success. pres. Qed.
#[local] Hint Resolve pr_test_success : pres.
Lemma pr_test_common r : pr (omx__test_common r).
Proof. unfold omx__test_common. pres. Qed.
Lemma pr_test_any_common m k : pr (omx__test_any_common m k).
Proof. unfold omx__test_any_common. pres. Qed.
Lemma pr_ipeek_common : pr omx__ipeek_common.
Proof. unfold omx__ipeek_common, omx__empty_done_anyctxid_queue, omx__first_done_anyctxid_request, read_queue. pres. Qed.
Lemma pr_iprobe_common m k : pr (omx__iprobe_common m k).
Proof. unfold omx__iprobe_common. pres. Qed.
#[local] Hint Resolve pr_test_common pr_test_any_common pr_ipeek_common pr_iprobe_common : pres.
Lemma pr_after {A} (look : M (option A)) : pr look -> pr (after_progress progress look).
Proof. intros Hl. unfold after_progress. pres. Qed.
Lemma pr_mask {A} m k (c : M (omx_return * option A)) : pr c -> pr (checking_mask m k c).
Proof. intros Hc. unfold checking_mask. pres. Qed.
Lemma pr_ibuffered r : pr (omx_ibuffered progress r).
Proof. unfold omx_ibuffered. pres. Qed.
Lemma pr_forget_api r : pr (omx_forget r).
Proof. unfold omx_forget. pres. Qed.
End partner.
End take.
End chain.

(** ** Executions *)

(** A call of the application, or a progression of the library with the events
    the driver put in the two rings. *)
Inductive call :=
  | CallProgress (unexp_ring exp_ring : Z -> Z * evt)
  | CallIsend (buffer length : Z) (dest : Z * Z) (match_info context : Z) (forget : bool)
  | CallIsendv (segs : list segment) (dest : Z * Z) (match_info context : Z) (forget : bool)
  | CallIssend (buffer length : Z) (dest : Z * Z) (match_info context : Z) (forget : bool)
  | CallIssendv (segs : list segment) (dest : Z * Z) (match_info context : Z) (forget : bool)
  | CallIrecv (buffer length match_info match_mask context : Z) (forget : bool)
  | CallIrecvv (segs : list segment) (match_info match_mask context : Z) (forget : bool)
  | CallIconnect (nic_id endpoint_id key match_info context : Z) (forget : bool)
  | CallDisconnect (addr : Z * Z)
  | CallForget (req : Z)
  | CallTest (req : Z) | CallTestAny (match_info match_mask : Z)
  | CallIpeek | CallIprobe (match_info match_mask : Z) | CallIbuffered (req : Z) | CallWakeup
  | CallDisable | CallReenable.

Section api.
Context `{App} (index_to_addr addr_to_index : Z -> omx_return + Z).
(** The calls make progress with the rings of the moment. *)
Definition run_call (unexp_ring exp_ring : Z -> Z * evt) (c : call) : M unit :=
  let progress := omx__progress index_to_addr unexp_ring exp_ring in
  match c with
  | CallProgress u e => omx__progress index_to_addr u e;; mret tt
  | CallIsend b l d m c f => omx_isend progress b l d m c f;; mret tt
  | CallIsendv s d m c f => omx_isendv progress s d m c f;; mret tt
  | CallIssend b l d m c f => omx_issend progress b l d m c f;; mret tt
  | CallIssendv s d m c f => omx_issendv progress s d m c f;; mret tt
  | CallIrecv b l m k c f => omx_irecv progress b l m k c f;; mret tt
  | CallIrecvv s m k c f => omx_irecvv progress s m k c f;; mret tt
  | CallIconnect n e k m c f => omx_iconnect addr_to_index progress n e k m c f;; mret tt
  | CallDisconnect a => omx_disconnect progress a;; mret tt
  | CallForget r => omx_forget r;; mret tt
  | CallTest r => omx_test progress r;; mret tt
  | CallTestAny m k => omx_test_any progress m k;; mret tt
  | CallIpeek => omx_ipeek progress;; mret tt
  | CallIprobe m k => omx_iprobe progress m k;; mret tt
  | CallIbuffered r => omx_ibuffered progress r;; mret tt
  | CallWakeup => omx_wakeup;; mret tt
  | CallDisable => omx_disable_progression;; mret tt
  | CallReenable => omx_reenable_progression progress;; mret tt
  end.

(** One step of an endpoint: a call, or a change of the environment (time
    passes, memory changes, the allocator and the driver have new answers). *)
Inductive endpoint_step : world -> world -> Prop :=
  | StepCall u e c w w' : run_call u e c w = Ret tt w' -> endpoint_step w w'
  | StepEnv w now m al io st : endpoint_step w
      (w <| jiffies := now |> <| memory := m |> <| mallocs := al |> <| ioctls := io |>
         <| desc_status := st |>).

Context (P : world -> Prop) {HF : FrameInv P} {HT : TakeInv P} {HA : AckInv P} {HP : PartnerInv P}.
Context (Hh : forall h c w, unexp_handler = Some h -> P w -> P (snd (h c w))).

Lemma run_call_preserves u e c : preserves P (run_call u e c).
Proof.
  pose proof (pr_progress P Hh index_to_addr u e) as Hu.
  destruct c; cbn [run_call]; cbn zeta; try (apply pr_bind; [|intros; apply pr_ret]).
  - by apply pr_progress.
  - by apply pr_isend.
  - by apply pr_isendv.
  - by apply pr_issend.
  - by apply pr_issendv.
  - by apply pr_irecv.
  - by apply pr_irecvv.
  - by apply pr_iconnect.
  - by apply pr_disconnect.
  - by apply pr_forget_api.
  - apply pr_after; [|by apply pr_test_common]; done.
  - apply pr_mask, pr_after; [|by apply pr_test_any_common]; done.
  - apply pr_after; [|by apply pr_ipeek_common]; done.
  - apply pr_mask, pr_after; [|by apply pr_iprobe_common]; done.
  - by apply pr_ibuffered.
  - by apply pr_wakeup.
  - by apply pr_disable.
  - by apply pr_reenable.
Qed.
(** A wait keeps what the others keep while the lock is released. *)
Definition others_keep (r : round) : Prop := forall w, P w -> P (rd_others r w).
Lemma pr_others r : others_keep r -> preserves P (modify (rd_others r)).
Proof. intros Hr w a w' HP' [= _ <-]. by apply Hr. Qed.
Lemma pr_wait_round r k : others_keep r -> preserves P (omx__wait r k).
Proof. intros Hr%pr_others. pose proof (pr_ioctl P). pose proof (pr_errno P). pose proof (pr_prepare_wakeup P). unfold omx__wait. pres. Qed.
Lemma pr_wait_for {A} me (look : M (option A)) ret poll rounds ms : preserves P look -> Forall others_keep rounds ->
  preserves P (wait_for index_to_addr me look ret poll rounds ms).
Proof.
  intros Hl Hr. assert (Hp : forall r, preserves P (rd_progress index_to_addr r)) by (intros r; by apply pr_progress).
  assert (Hs : preserves P (add_sleeper me) /\ preserves P (del_sleeper me)).
  { split; intros w a w' HP' [= _ <-]; by apply (fi_frame w). }
  destruct Hs. unfold wait_for. apply pr_bind; [apply pr_get|intros w]. apply pr_bind; [done|intros _]. apply pr_bind; [|intros; pres].
  generalize (omx__timeout_ms_to_absolute_jiffies (hz (w_globals w)) (jiffies w) ms). intros x.
  destruct (_ && _); [|destruct (waitspin _)].
  - induction Hr as [|r rounds Hr%pr_others _ IH]; cbn [poll_rounds]; unfold need_wakeup; pres.
  - induction Hr as [|r rounds Hr%pr_others _ IH]; cbn [spin_rounds]; unfold need_wakeup; pres.
  - generalize (WaitEvent OMX_CMD_WAIT_EVENT_STATUS_EVENT 0 0 0 x). induction Hr as [|r rounds Hr _ IH]; intros k; cbn [sleep_rounds]; [pres|].
    pose proof (fun k => pr_wait_round r k Hr). pres.
Qed.
Lemma steps_preserve w w' : P w -> rtc endpoint_step w w' -> P w'.
Proof.
  intros Hw Hs. induction Hs as [|w1 w2 w3 H12 _ IH]; [done|]. apply IH.
  destruct H12 as [u e c w w' E|]; [by eapply run_call_preserves|by apply (fi_frame w)].
Qed.
End api.
