(* ===== verification/Views.v ===== *)
(** Invariants of the fields of the partners: frame invariants, and the
    effect of the updates of requests and partners. *)
From S2P Require Import Prelude DList Seqnum Segments World SendqMap Request Region Send Large Ack.
From S2P Require Import Recv Unexp Connect Progress Invariants.
Import Seqnum Mem Segs SendqMap Request Partner Complete Regions Send Large Ack Recv Unexp Connect.

(** ** Invariants of the partners' fields

    A field, or a function of some, that neither the ack marks nor the
    throttling marks change; any property of its values is a frame
    invariant. *)
Class PartnerView {X} (pv : partner -> X) : Prop := {
  pv_need q f : pv (set p_need_ack f q) = pv q;
  pv_oldest q f : pv (set p_oldest_recv_time_not_acked f q) = pv q;
  pv_last q f : pv (set p_last_acked_recv_seq f q) = pv q;
  pv_throttling q f : pv (set p_throttling_sends_nr f q) = pv q
}.

Lemma upd_partner_inv p f w a w' : upd_partner p f w = Ret a w' ->
  exists q, partners w !! p = Some q /\ w' = w <| partners ::= <[p := f q]> |>.
Proof.
  unfold upd_partner, get_partner, get, of_option, mbind, M_bind, modify.
  destruct (partners w !! p) as [q|]; [|done]. intros [= _ <-]. by exists q.
Qed.
Lemma get_partner_inv p w q w' : get_partner p w = Ret q w' -> partners w !! p = Some q /\ w' = w.
Proof.
  unfold get_partner, get, mbind, M_bind, of_option.
  destruct (partners w !! p) as [q'|]; [|done]. by intros [= -> ->].
Qed.
Lemma get_req_inv r w x w' : get_req r w = Ret x w' -> reqs w !! r = Some x /\ w' = w.
Proof.
  unfold get_req, get, mbind, M_bind, of_option.
  destruct (reqs w !! r) as [q'|]; [|done]. by intros [= -> ->].
Qed.
Lemma upd_req_inv r f w a w' : upd_req r f w = Ret a w' ->
  exists x, reqs w !! r = Some x /\ w' = w <| reqs ::= <[r := f x]> |>.
Proof.
  unfold upd_req, get_req, get, of_option, mbind, M_bind, modify.
  destruct (reqs w !! r) as [q|]; [|done]. intros [= _ <-]. by exists q.
Qed.

Section view.
Context {X : Type} (pv : partner -> X) {HV : PartnerView pv}.
Definition pview (w : world) : gmap Z X := pv <$> partners w.

Lemma pview_lookup w p q : partners w !! p = Some q -> pview w !! p = Some (pv q).
Proof. intros E. unfold pview. by rewrite lookup_fmap, E. Qed.
Lemma pview_eq w w' p q : pview w' = pview w -> partners w !! p = Some q ->
  exists q', partners w' !! p = Some q' /\ pv q' = pv q.
Proof.
  intros Hv Hq. pose proof (pview_lookup w p q Hq) as Hl. rewrite <- Hv in Hl.
  unfold pview in Hl. rewrite lookup_fmap in Hl.
  destruct (partners w' !! p) as [q'|]; [|done]. exists q'. split; [done|]. by apply (inj Some) in Hl.
Qed.

Context (Q : gmap Z X -> Prop).
Definition on_view (w : world) : Prop := Q (pview w).

Lemma view_upd_partner p f : (forall q, pv (f q) = pv q) -> preserves on_view (upd_partner p f).
Proof.
  intros Hf w a w' HP (q & Hq & ->)%upd_partner_inv. unfold on_view, pview in *. fsimp.
  rewrite fmap_insert, Hf, insert_id; [done|]. by rewrite lookup_fmap, Hq.
Qed.
Lemma view_on_qs f : preserves on_view (on_qs f).
Proof. by intros w a w' HP [= _ <-]. Qed.
Lemma view_get_partner p : preserves on_view (get_partner p).
Proof. unfold get_partner. pres. Qed.
#[local] Hint Resolve view_on_qs view_get_partner : pres.
#[local] Hint Extern 1 (preserves _ (upd_partner _ _)) =>
  (apply view_upd_partner; intro; cbv beta;
   rewrite ?(pv_oldest (pv := pv)), ?(pv_need (pv := pv)), ?(pv_last (pv := pv)),
     ?(pv_throttling (pv := pv)); reflexivity) : pres.

#[export] Instance view_frame : FrameInv on_view.
Proof.
  split.
  - intros w w' _ Hp _. unfold on_view, pview. by rewrite Hp.
  - intros; apply view_on_qs.
  - intros; apply view_on_qs.
  - intros; apply view_on_qs.
  - intros; apply view_on_qs.
  - intros; apply view_on_qs.
  - intros; apply view_on_qs.
  - intros p. unfold omx__mark_partner_need_ack_delayed, add_tail, jiffies_now. pres.
  - intros p. unfold omx__mark_partner_need_ack_immediate, add_tail, move_head. pres.
  - intros p. unfold omx__mark_partner_ack_sent, unlink. pres.
  - intros p. unfold omx__mark_partner_throttling, add_tail. pres.
  - intros p n. unfold omx__update_partner_throttling, unlink. pres.
Qed.
End view.
