(* ===== verification/Samples.v ===== *)
(** A small endpoint on which the theorems about the whole state are
    evaluated: two partners, free maps, no application handler. *)
From S2P Require Import Prelude DList Seqnum Segments World SendqMap Request Region Progress.
Import Seqnum Mem Segs SendqMap Request Partner Complete Regions.

Module Samples.

(** The outcome of a run, as its result and its final state. *)
Definition final {A} (o : outcome A) : world := match o with Ret _ w => w | Stop _ w => w end.
Definition result {A} (o : outcome A) : option A := match o with Ret a _ => Some a | Stop _ _ => None end.
Lemma run_final {A} (o : outcome A) a : result o = Some a -> o = Ret a (final o).
Proof. by destruct o; intros [= ->]. Qed.

Definition sample_app : App := {| unexp_handler := None; error_handler := Some |}.
Definition sample_globals : globals := {|
  regcache := true; parallel_regcache := false; medium_sendq := true; selfcomms := true;
  sharedcomms := true; waitspin := false; waitintr := false; connect_pollall := false; rndv_threshold := 32768; shared_rndv_threshold := 4096;
  ack_delay_jiffies := 10; resend_delay_jiffies := 500; not_acked_max := 4; endpoint_max := 2;
  hz := 1000 |}.
Definition sample_partner (peer_index endpoint_index next_send next_acked next_match next_frag : Z)
    : partner := {|
  p_board_addr := 77; p_peer_index := peer_index; p_endpoint_index := endpoint_index;
  p_localization := REMOTE; p_rndv_threshold := 32768; p_true_session_id := 11;
  p_back_session_id := 11; p_connect_seqnum := 0; p_last_send_acknum := 0;
  p_last_recv_acknum := 5; p_throttling_sends_nr := 0; p_next_send_seq := next_send;
  p_next_acked_send_seq := next_acked; p_next_match_recv_seq := next_match;
  p_next_frag_recv_seq := next_frag; p_last_acked_recv_seq := next_frag;
  p_need_ack := NEED_NO_ACK; p_oldest_recv_time_not_acked := 0; p_user_context := 0 |}.
Definition sample_slots : list Z := [0; 1; 2; 3].
Definition sample_sendq_map : sendq_map := {|
  sm_first_free := 0; sm_nr_free := 4;
  sm_next_free := list_to_map [(0, 1); (1, 2); (2, 3); (3, -1)]; sm_user := ∅ |}.

Definition sample_heads : list node :=
  [HDone; HUnexp; HCtxUnexp 0; HCtxRecv 0; HCtxDone 0; HNeedRes; HMediumSending; HLargeNeedReply;
   HPulling; HConnect; HNonAcked; HUnexpSelf; HAckImm; HAckDelayed; HThrottling; HReg; HRegUnused;
   HRegVect; HpNonAcked 3; HpConnect 3; HpPartial 3; HpNeedSeq 3; HpEarly 3;
   HpNonAcked 5; HpConnect 5; HpPartial 5; HpNeedSeq 5; HpEarly 5].
(** Partner 3 is endpoint 1 of peer 1, partner 5 endpoint 1 of peer 2. *)
Definition sample_world : world := {|
  w_globals := sample_globals; jiffies := 1000; qs := list_to_map ((fun h => (h, [])) <$> sample_heads); reqs := ∅;
  partners := <[3 := sample_partner 1 1 20 18 16 16]> (<[5 := sample_partner 2 1 30 30 40 40]> ∅);
  earlies := ∅; myself := 1; w_sendq_map := sample_sendq_map; w_region_map := initial_map;
  large_sends_avail_nr := 128; avail_exp_events := 1024; zombies := 0; zombie_max := 512;
  ctxid_bits := 0; ctxid_max := 1; ctxid_shift := 0; ctxid_mask := 0; req_resends_max := 1000;
  pull_resend_timeout_jiffies := 500; progression_disabled := 0;
  last_partners_acking_jiffies := 990; app_key := 9; sendq := 100000; recvq := 10000000;
  sleepers := []; next_exp_event_index := 0; next_unexp_event_index := 0;
  check_status_delay_jiffies := 1000; last_check_jiffies := 900; desc_status := 0;
  session_id := 12; user_event_index := 0; wakeup_jiffies := 0;
  memory := fun a => a mod 251; mallocs := Some <$> [2000; 3000; 4000; 5000; 6000];
  ioctls := []; trace := [] |}.

(** A small message of 100 bytes from partner 3. *)
Definition sample_small (seqnum : Z) : recv_msg := RecvMsg 1 1 seqnum 18 42 (MsgSmall 0 100).
Definition no_peer (index : Z) : omx_return + Z := inl OMX_PEER_NOT_FOUND.
(** Rings without an event. *)
Definition empty_ring (index : Z) : Z * Progress.evt := (0, Progress.EvtIgnore).
End Samples.
