(* ===== verification/Window.v ===== *)
(** The send window: whatever the application, the partners and the driver
    do, no partner ever has more unacknowledged sequence numbers than the
    throttling threshold allows, which is half of the sequence space, so that
    acknowledgements are never ambiguous. *)
From S2P Require Import Prelude DList Seqnum Segments World SendqMap Request Region Send Large Ack.
From S2P Require Import Recv Unexp Connect Progress Invariants Views Samples.
Import Seqnum Mem Segs SendqMap Request Partner Complete Regions Send Large Ack Recv Unexp Connect.
Import Progress Samples.

Module Window.

Definition in_flight (q : partner) : Z :=
  OMX__SEQNUM (p_next_send_seq q - p_next_acked_send_seq q).
(** Every window is respected. *)
Definition window_ok (w : world) : Prop :=
  forall p q, partners w !! p = Some q -> in_flight q <= OMX__THROTTLING_OFFSET_MAX.

(** ** Windows with room *)

Definition window_view (q : partner) : Z * Z := (p_next_send_seq q, p_next_acked_send_seq q).
#[export] Instance window_partner_view : PartnerView window_view.
Proof. by split. Qed.
(** Every window is respected and that of [p] has room for [k] more sends. *)
Definition has_room (p k : Z) : gmap Z (Z * Z) -> Prop := map_Forall (fun p' v =>
  OMX__SEQNUM (fst v - snd v) + (if decide (p' = p) then k else 0) <= OMX__THROTTLING_OFFSET_MAX).
Definition room (p k : Z) : world -> Prop := on_view window_view (has_room p k).
#[export] Instance room_frame p k : FrameInv (room p k).
Proof. apply view_frame. apply window_partner_view. Qed.

Lemma room_spec p k w : room p k w <-> forall p' q, partners w !! p' = Some q ->
  in_flight q + (if decide (p' = p) then k else 0) <= OMX__THROTTLING_OFFSET_MAX.
Proof.
  unfold room, on_view, has_room, map_Forall. split.
  - intros Hm p' q Hq. apply (Hm p' (window_view q)). by apply pview_lookup.
  - intros Hm p' v Hv. unfold pview in Hv. rewrite lookup_fmap in Hv.
    destruct (partners w !! p') as [q|] eqn:Hq; [|done]. apply (inj Some) in Hv as <-.
    by apply (Hm p' q).
Qed.
Lemma window_ok_room p w : window_ok w <-> room p 0 w.
Proof.
  rewrite room_spec. split.
  - intros Hw p' q Hq. specialize (Hw p' q Hq). case_decide; lia.
  - intros Hr p' q Hq. specialize (Hr p' q Hq). case_decide; lia.
Qed.
Lemma room_weaken p k p' w : 0 <= k -> room p k w -> room p' 0 w.
Proof.
  intros Hk Hr. apply window_ok_room. rewrite room_spec in Hr. intros p2 q Hq.
  specialize (Hr p2 q Hq). case_decide; lia.
Qed.

(** A step of the send sequence takes one place. *)
Lemma seqnum_increase_sub s a : OMX__SEQNUM (s - a) < OMX__THROTTLING_OFFSET_MAX ->
  OMX__SEQNUM (OMX__SEQNUM_INCREASE s - a) = OMX__SEQNUM (s - a) + 1.
Proof.
  intros Hl. pose proof (seqnum_range (s - a)) as Hr. change OMX__THROTTLING_OFFSET_MAX with 8191 in Hl.
  unfold OMX__SEQNUM_INCREASE.
  assert (Hu : OMX__SEQNUM_INCREASE_BY s 1 = OMX__SEQNUM_INCREASE_BY (u16 s) 1).
  { unfold OMX__SEQNUM_INCREASE_BY. by rewrite (u16_small (u16 s)) by apply u16_range. }
  assert (Hs : OMX__SEQNUM (OMX__SEQNUM_INCREASE_BY s 1) = (s + 1) mod 16384).
  { rewrite Hu, increase_by_seqnum by apply u16_range. unfold u16.
    rewrite <- (Z.add_mod_idemp_l (s mod 65536)) by lia.
    replace ((s mod 65536) mod 16384) with (s mod 16384); [by rewrite Z.add_mod_idemp_l by lia|].
    change 65536 with (16384 * 4). rewrite Z.rem_mul_r by lia.
    rewrite Z.mul_comm, Z.mod_add by lia. by rewrite Z.mod_mod by lia. }
  rewrite seqnum_mod in *. rewrite (seqnum_mod (s - a)) in *.
  rewrite Zminus_mod, Hs, <- Zminus_mod. replace (s + 1 - a) with (s - a + 1) by lia.
  rewrite Z.add_mod by lia. rewrite (Z.mod_small 1), Z.mod_small by lia. done.
Qed.

Section window.
Context `{App}.

Lemma take_room p req k w w' : 0 <= k -> room p (k + 1) w -> take_seqnum p req w = Ret tt w' ->
  room p k w'.
Proof.
  intros Hk Hr E. unfold take_seqnum in E. rewrite get_bind in E.
  mstep E as q w1 E1. apply get_partner_inv in E1 as [Hq ->].
  mstep E as t w2 E2. apply upd_partner_inv in E2 as (q2 & Hq2 & ->).
  rewrite Hq in Hq2. injection Hq2 as <-.
  assert (Hk2 : preserves (room p k) (upd_req req (fun x => x <| r_send_seqnum := p_next_send_seq q |>
    <| r_resends := 0 |> <| r_resends_max := req_resends_max w |>);;
    upd_param req (set sp_seqnum (fun _ => p_next_send_seq q)))).
  { apply pr_bind; [refine (pr_upd_req _ _ _)|intros; refine (pr_upd_param _ _ _)]. }
  eapply Hk2; [|exact E]. rewrite room_spec in *. intros p' q' Hq'. fsimp.
  destruct (decide (p' = p)) as [->|Hne].
  - rewrite lookup_insert_eq in Hq'. injection Hq' as <-. specialize (Hr p q Hq).
    rewrite decide_True in Hr by done. unfold in_flight in *. fsimp.
    rewrite seqnum_increase_sub by lia. lia.
  - rewrite lookup_insert_ne in Hq' by done. specialize (Hr p' q' Hq').
    rewrite decide_False in Hr by done. lia.
Qed.

#[export] Instance window_take p : TakeInv (room p 0).
Proof.
  split. intros p' req w q w' Hr Hq Ht E.
  apply (room_weaken p' 0); [lia|]. apply (take_room p' req 0 w); [lia| |done].
  apply window_ok_room in Hr. apply room_spec. intros p2 q2 Hq2. specialize (Hr p2 q2 Hq2).
  case_decide as Hd; [|lia]. subst p2. rewrite Hq in Hq2. injection Hq2 as <-.
  unfold must_throttle in Ht. apply Z.leb_gt in Ht. unfold in_flight in *. lia.
Qed.

Lemma setup_any_room p req k w w' : 0 <= k -> room p (k + 1) w ->
  setup_any p req w = Ret tt w' -> room p k w'.
Proof.
  intros Hk. apply (pr_setup_any (room p k) (room p (k + 1))). intros w1 w1'. by apply take_room.
Qed.

(** [nr] throttled sends need room for [nr]. *)
Lemma throttling_loop_room p : forall nr sent w n w', room p (Z.of_nat nr) w ->
  throttling_loop nr p sent w = Ret n w' -> room p 0 w'.
Proof.
  induction nr as [|nr IH]; intros sent w n w' Hr E; cbn [throttling_loop] in E.
  - injection E as _ <-. done.
  - mstep E as r w1 E1. assert (Hr1 : room p (Z.of_nat (S nr)) w1).
    { by apply (pr_first_partner (room p (Z.of_nat (S nr))) _ _ _ _ Hr E1). }
    destruct r as [req|]; [|injection E as _ <-; eapply room_weaken; [|done]; lia].
    mstep E as t w2 E2. mstep E as t2 w3 E3. destruct t, t2. eapply IH; [|exact E].
    eapply setup_any_room; [lia| |exact E3].
    replace (Z.of_nat nr + 1) with (Z.of_nat (S nr)) by lia. by apply (pr_upd_req (room p (Z.of_nat (S nr))) _ _ _ _ _ Hr1 E2).
Qed.

#[export] Instance window_ack p : AckInv (room p 0).
Proof.
  split. intros p' a w t w' Hr E. apply (room_weaken p' 0); [lia|]. destruct t.
  assert (Hr' : room p' 0 w) by (eapply (room_weaken p 0); [lia|done]). clear Hr.
  unfold omx__handle_ack in E. mstep E as q w1 E1. apply get_partner_inv in E1 as [Hq ->].
  set (missing := OMX__SEQNUM (p_next_send_seq q - p_next_acked_send_seq q)) in E.
  set (new := OMX__SEQNUM (a - p_next_acked_send_seq q)) in E. cbn zeta in E.
  destruct (_ || _) eqn:Hc; [by injection E as <-|].
  apply orb_false_iff in Hc as [Hnew0 Hle%Z.ltb_ge].
  mstep E as l w1 E1. injection E1 as <- <-.
  mstep E as t w1 E1. assert (Hr1 : room p' 0 w1).
  { revert Hr' E1. apply pr_until. intros x. refine (pr_ack_step _ _ _ _). }
  assert (Hv : pview window_view w1 = pview window_view w).
  { revert E1. apply (pr_until (fun w' => pview window_view w' = pview window_view w)); [|done].
    intros x. apply (pr_ack_step (on_view window_view (fun v => v = pview window_view w))). }
  mstep E as t2 w2 E2. apply upd_partner_inv in E2 as (q1 & Hq1 & ->).
  unfold omx__process_throttling_requests in E. mstep E as sent w3 E3.
  assert (Hr3 : room p' 0 w3).
  { eapply throttling_loop_room; [|exact E3]. pose proof (seqnum_range (a - p_next_acked_send_seq q)).
    rewrite Z2Nat.id by (unfold new; lia).
    rewrite room_spec in Hr1 |- *. intros p2 q2 Hq2. fsimp.
    destruct (decide (p2 = p')) as [->|Hne].
    - rewrite lookup_insert_eq in Hq2. injection Hq2 as <-. unfold in_flight. fsimp.
      destruct (pview_eq _ _ _ _ _ Hv Hq) as (q1' & Hq1' & Hs). rewrite Hq1 in Hq1'.
      injection Hq1' as <-. injection Hs as Hs1 Hs2. rewrite Hs1.
      specialize (Hr1 p' q1 Hq1). rewrite decide_True in Hr1 by done. unfold in_flight in Hr1.
      rewrite Hs1, Hs2 in Hr1. fold missing in Hr1.
      assert (Hm : OMX__SEQNUM (p_next_send_seq q - a) = missing - new); [|lia].
      unfold missing, new in *. rewrite !seqnum_mod in *.
      replace (p_next_send_seq q - a) with
        ((p_next_send_seq q - p_next_acked_send_seq q) - (a - p_next_acked_send_seq q)) by lia.
      rewrite Zminus_mod. apply Z.mod_small. 
      pose proof (Z.mod_pos_bound (p_next_send_seq q - p_next_acked_send_seq q) 16384). lia.
    - rewrite lookup_insert_ne in Hq2 by done. specialize (Hr1 p2 q2 Hq2).
      rewrite decide_False in Hr1 by done. lia. }
  by apply (fi_update_throttling _ _ _ _ _ Hr3 E).
Qed.

Lemma room_upd p0 p f : benign f -> preserves (room p0 0) (upd_partner p f).
Proof.
  intros Hf w a w' Hr (q & Hq & ->)%upd_partner_inv.
  apply window_ok_room in Hr. apply window_ok_room. intros p2 q2 Hq2. fsimp.
  destruct (decide (p2 = p)) as [->|Hne].
  - rewrite lookup_insert_eq in Hq2. injection Hq2 as <-. unfold in_flight.
    destruct (Hf q) as (_ & _ & _ & [[-> ->] | Heq]); [by apply (Hr p)|]. by rewrite Heq, Z.sub_diag.
  - rewrite lookup_insert_ne in Hq2 by done. by apply (Hr p2).
Qed.
Lemma room_clear p0 p : preserves (room p0 0) (upd_partner p (set p_need_ack (fun _ => NEED_NO_ACK))).
Proof. by apply (view_upd_partner window_view). Qed.

Lemma room_reset p0 p : preserves (room p0 0) (omx__partner_reset p).
Proof.
  unfold omx__partner_reset. repeat (apply pr_bind; [by apply fi_init|intros _]).
  apply pr_bind; [apply room_upd; by repeat split; right|intros _].
  apply pr_bind; [refine (pr_get_partner _ _)|intros q]. apply pr_when.
  apply pr_bind; [apply room_clear|intros _]. by apply (view_on_qs window_view).
Qed.
Lemma room_reset_tail p0 p d : preserves (room p0 0) (reset_tail p d).
Proof.
  unfold reset_tail. apply pr_when, pr_bind; [apply room_upd; by repeat split; left|intros _].
  apply pr_when, pr_bind; [apply pr_get|intros w]. apply pr_bind; [refine (pr_get_partner _ _)|intros q].
  apply pr_bind; [|intros; refine (pr_free _ _)].
  intros w1 a w' Hr [= _ <-]. apply window_ok_room in Hr. apply window_ok_room. intros p2 q2 Hq2.
  fsimp. apply lookup_delete_Some in Hq2 as [_ Hq2]. by apply (Hr p2).
Qed.

#[export] Instance window_partner p : PartnerInv (room p 0).
Proof.
  split; [intros; by apply room_upd| |].
  - intros peer board ep w r w' Hr _ E.
    unfold omx__partner_create in E. mstep E as al w1 E1.
    eapply (pr_malloc (room p 0)) in E1; [|done].
    destruct al; [|by injection E as _ <-].
    rewrite get_bind in E. mstep E as t w2 E2. injection E2 as _ <-.
    mstep E as t2 w3 E3. injection E as _ <-. eapply room_reset; [|exact E3].
    apply window_ok_room in E1. apply window_ok_room. intros p2 q2 Hq2. fsimp.
    apply lookup_insert_Some in Hq2 as [[_ <-]|[_ Hq2]]; [done|]. by apply (E1 p2).
  - intros p' d. apply pr_bind; [apply room_reset|intros _; apply room_reset_tail].
Qed.
End window.

(** ** The theorem *)

Section theorem.
Context `{App} (index_to_addr addr_to_index : Z -> omx_return + Z).

(** C9. No sequence of calls of the application, of events of the driver and
    packets of the partners, acks included, and of changes of the environment
    ever makes a send window larger than the throttling threshold, provided
    what the unexpected-message handler does keeps it too. *)
Theorem window_never_exceeded w w' :
  (forall h c w, unexp_handler = Some h -> window_ok w -> window_ok (snd (h c w))) ->
  window_ok w -> rtc (endpoint_step index_to_addr addr_to_index) w w' -> window_ok w'.
Proof.
  intros Hh Hw Hs. apply (window_ok_room 0). apply (window_ok_room 0) in Hw.
  refine (steps_preserve index_to_addr addr_to_index (room 0 0) _ w w' Hw Hs). intros h c w1 Hu H1.
  apply window_ok_room, (Hh h c w1 Hu), (window_ok_room 0), H1.
Qed.
End theorem.

(** A send of 20 bytes to partner 3, after which three are in flight. *)
Definition window_sample_call : call := CallIsend 200 20 (3, 11) 42 7 false.
Lemma window_never_exceeded_witness : exists w',
  rtc (endpoint_step (H := sample_app) no_peer no_peer) sample_world w' /\
  in_flight <$> (partners w' !! 3) = Some 3 /\ window_ok w'.
Proof.
  pose (o := run_call (H := sample_app) no_peer no_peer empty_ring empty_ring window_sample_call
    sample_world).
  assert (Ho : o = Ret tt (final o)) by (apply run_final; vm_compute; reflexivity).
  exists (final o).
  assert (Hs : rtc (endpoint_step (H := sample_app) no_peer no_peer) sample_world (final o)).
  { apply rtc_once. exact (StepCall (H := sample_app) _ _ _ _ _ _ _ Ho). }
  split; [exact Hs|]. split; [vm_compute; reflexivity|].
  apply (window_never_exceeded (H := sample_app) no_peer no_peer sample_world (final o)); [|  |exact Hs].
  - intros h c w [=].
  - assert (Hall : map_Forall (fun _ q => in_flight q <= OMX__THROTTLING_OFFSET_MAX)
      (partners sample_world)) by (apply (bool_decide_unpack _); vm_compute; exact I).
    intros p q Hq. by apply (Hall p q).
Defined.
End Window.
