(* ===== verification/Order.v ===== *)
(** In-order processing of the packets of a partner: which packets are
    matched, which are dropped, and what is acknowledged. *)
From S2P Require Import Prelude DList Seqnum Segments World SendqMap Request Region Send Large Ack.
From S2P Require Import Recv Unexp Connect Progress Invariants Views Samples.
Import DList Seqnum Mem Segs SendqMap Request Partner Complete Regions Send Large Ack Recv Unexp Samples.

Module Order.

(** The receive sequence numbers, which nothing but the ordered processing
    and the connection messages change. *)
Definition recv_seqs (q : partner) : Z * Z := (p_next_match_recv_seq q, p_next_frag_recv_seq q).
#[export] Instance recv_partner_view : PartnerView recv_seqs.
Proof. by split. Qed.
Definition recv_view : world -> gmap Z (Z * Z) := pview recv_seqs.
Definition recv_is (x : gmap Z (Z * Z)) : world -> Prop := on_view recv_seqs (fun y => y = x).
#[export] Instance recv_frame x : FrameInv (recv_is x).
Proof. apply view_frame. apply recv_partner_view. Qed.
#[export] Instance recv_take x : TakeInv (recv_is x).
Proof.
  split. intros p req w q w' Hw _ _ E.
  assert (Hp : preserves (recv_is x) (take_seqnum p req)); [|by apply (Hp w tt w')].
  apply pr_take_seqnum; [exact _|]. by apply (view_upd_partner recv_seqs).
Qed.
Lemma keeps_recv {A} (m : M A) w a w' : (forall x, preserves (recv_is x) m) -> m w = Ret a w' ->
  recv_view w' = recv_view w.
Proof. intros Hm E. by apply (Hm (recv_view w) w a w'). Qed.

Section order.
Context `{App}.

(** The application's handler does not touch the partners' receive state. *)
Definition handler_keeps : Prop :=
  forall x h c w, unexp_handler = Some h -> recv_is x w -> recv_is x (snd (h c w)).

(** The receive state of the other partners and the expected sequence number
    of this one are kept. *)
Definition others_kept (p : Z) (w w' : world) : Prop :=
  forall p', p' <> p -> recv_view w' !! p' = recv_view w !! p'.

Lemma others_kept_view p w w' : recv_view w' = recv_view w -> others_kept p w w'.
Proof. intros Hv p' _. by rewrite Hv. Qed.
Lemma others_kept_trans p w1 w2 w3 : others_kept p w1 w2 -> others_kept p w2 w3 -> others_kept p w1 w3.
Proof. intros H1 H2 p' Hp. by rewrite H2, H1. Qed.

Lemma upd_partner_others p f w w' : upd_partner p f w = Ret tt w' -> others_kept p w w'.
Proof.
  intros (q & _ & ->)%upd_partner_inv p' Hp. unfold recv_view, pview. fsimp.
  by rewrite !lookup_fmap, lookup_insert_ne.
Qed.

Definition next_match (p : Z) (w : world) : option Z := fst <$> recv_view w !! p.

(** [omx__update_partner_next_frag_recv_seq] moves the expected fragment
    only. *)
Lemma update_next_frag_keeps p w w' :
  omx__update_partner_next_frag_recv_seq p w = Ret tt w' ->
  next_match p w' = next_match p w /\ others_kept p w w'.
Proof.
  intros E. unfold omx__update_partner_next_frag_recv_seq in E. rewrite get_bind in E.
  mstep E as q w1 E1. mstep E as l w2 E2. mstep E as new w3 E3.
  assert (Hp : recv_view w3 = recv_view w).
  { apply get_partner_inv in E1 as [_ ->]. injection E2 as _ ->. 
    destruct l; [by injection E3 as _ ->|]. mstep E3 as x w4 E4. apply get_req_inv in E4 as [_ ->].
    by injection E3 as _ ->. }
  destruct (new =? p_next_frag_recv_seq q); cbn [negb when] in E.
  { injection E as <-. split; [unfold next_match; by rewrite Hp|by apply others_kept_view]. }
  mstep E as t w4 E4. destruct t.
  assert (Hv : recv_view w' = recv_view w4).
  { destruct (_ <=? _); (eapply keeps_recv; [|exact E]); intros x; [apply fi_immediate|apply fi_delayed]. }
  pose proof (upd_partner_others _ _ _ _ E4) as Ho.
  apply upd_partner_inv in E4 as (q' & Hq & ->). split.
  - unfold next_match. rewrite Hv, <- Hp. unfold recv_view, pview. fsimp.
    rewrite !lookup_fmap, lookup_insert_eq, Hq. done.
  - eapply others_kept_trans; [by apply others_kept_view|].
    eapply others_kept_trans; [exact Ho|]. by apply others_kept_view.
Qed.

(** Going on with a partial message does not move the expected number. *)
Lemma continue_partial_keeps p seqnum msg data len w w' :
  omx__continue_partial_request p seqnum msg data len w = Ret tt w' ->
  next_match p w' = next_match p w /\ others_kept p w w'.
Proof.
  intros E. unfold omx__continue_partial_request in E.
  mstep E as q w1 E1. mstep E as l w2 E2. mstep E as r w3 E3.
  assert (Hv : recv_view w3 = recv_view w).
  { apply get_partner_inv in E1 as [_ ->]. injection E2 as _ ->.
    eapply keeps_recv; [|exact E3]. intros x. refine (pr_find_partial _ _ _ _). }
  destruct r as [req|].
  - mstep E as x w4 E4. mstep E as t w5 E5. destruct t.
    apply update_next_frag_keeps in E as [Hn Ho].
    assert (Hv2 : recv_view w5 = recv_view w).
    { apply get_req_inv in E4 as [_ ->]. rewrite <- Hv. eapply keeps_recv; [|exact E5].
      intros y. refine (pr_medium _ _ _ _ _ _). }
    split; [unfold next_match in *; by rewrite Hn, Hv2|].
    eapply others_kept_trans; [apply others_kept_view, Hv2|exact Ho].
  - injection E as <-. split; [unfold next_match; by rewrite Hv|by apply others_kept_view].
Qed.

(** Taking the expected packet moves the expected number by one. *)
Lemma take_expected_keeps p w w1 w' q :
  recv_view w1 = recv_view w -> partners w !! p = Some q ->
  (upd_partner p (set p_next_match_recv_seq OMX__SEQNUM_INCREASE);;
   omx__update_partner_next_frag_recv_seq p) w1 = Ret tt w' ->
  next_match p w' = Some (OMX__SEQNUM_INCREASE (p_next_match_recv_seq q)) /\ others_kept p w w'.
Proof.
  intros Hv Hq E. mstep E as t w2 E2. destruct t. pose proof (upd_partner_others _ _ _ _ E2) as Ho.
  apply upd_partner_inv in E2 as (q' & Hq' & ->).
  apply update_next_frag_keeps in E as [Hn Ho'].
  destruct (pview_eq recv_seqs _ _ _ _ Hv Hq) as (q2 & Hq2 & Hs). rewrite Hq' in Hq2.
  apply (inj Some) in Hq2 as <-. apply (f_equal fst) in Hs. cbn in Hs. split.
  - rewrite Hn. unfold next_match, recv_view, pview. fsimp. rewrite lookup_fmap, lookup_insert_eq. cbn.
    fsimp. by rewrite Hs.
  - eapply others_kept_trans; [apply others_kept_view, Hv|]. by eapply others_kept_trans.
Qed.

(** ** What is not matched *)

(** The receives that are posted in a context. *)
Definition posted (w : world) (c : Z) : list Z :=
  omap (fun e => match e with EQueue r => Some r | _ => None end) (queue (HCtxRecv c) w).
Section unmatched.
Context (l0 : Z -> list Z) (m0 : gmap Z request).
(** No receive is taken or posted, no request is made. *)
Definition unmatched (w : world) : Prop :=
  (forall c, posted w c = l0 c) /\ forall r, m0 !! r = None -> reqs w !! r = None.
#[local] Abbreviation pr := (preserves unmatched).

Lemma un_frame {A} (m : M A) : (forall w a w', m w = Ret a w' -> qs w' = qs w /\ (forall r, reqs w !! r = None -> reqs w' !! r = None)) -> pr m.
Proof.
  intros Hm w a w' [H1 H2] E. destruct (Hm w a w' E) as [Hq Hr]. split; [|auto]. intros c. rewrite <- H1. unfold posted, queue. by rewrite Hq.
Qed.
Lemma un_modify f : (forall w, qs (f w) = qs w) -> (forall w r, reqs w !! r = None -> reqs (f w) !! r = None) -> pr (modify f).
Proof. intros Hq Hr. apply un_frame. intros w a w' [= _ <-]. auto. Qed.
Lemma un_on_qs f : (forall w c, posted (w <| qs ::= f |>) c = posted w c) -> pr (on_qs f).
Proof. intros Hf w a w' [H1 H2] [= _ <-]. split; [|done]. intros c. by rewrite Hf. Qed.
Lemma un_add_tail e h : (forall c, h <> HCtxRecv c) -> pr (add_tail e h).
Proof.
  intros Hh. apply un_on_qs. intros w c. unfold posted, queue, q_add_tail. fsimp. by rewrite lookup_alter_ne by apply Hh.
Qed.
Lemma posted_del e (l : list node) : (forall r, e <> EQueue r) ->
  omap (fun e => match e with EQueue r => Some r | _ => None end) (remove_elt e l) =
  omap (fun e => match e with EQueue r => Some r | _ => None end) l.
Proof.
  intros He. induction l as [|x l IH]; [done|]. destruct (decide (x = e)) as [->|Hn].
  - rewrite remove_elt_cons_eq, IH. destruct e; try done. by destruct (He r).
  - rewrite remove_elt_cons_ne by done. cbn [omap list_omap]. by rewrite IH.
Qed.
Lemma un_del w e c : (forall r, e <> EQueue r) -> posted (w <| qs ::= q_del e |>) c = posted w c.
Proof.
  intros He. unfold posted, queue, q_del. fsimp. rewrite lookup_fmap. destruct (qs w !! HCtxRecv c); [|done]. by apply posted_del.
Qed.
Lemma un_unlink e : (forall r, e <> EQueue r) -> pr (unlink e).
Proof. intros He. apply un_on_qs. intros w c. by apply un_del. Qed.
Lemma un_move_head e h : (forall r, e <> EQueue r) -> (forall c, h <> HCtxRecv c) -> pr (move_head e h).
Proof.
  intros He Hh. apply un_on_qs. intros w c. rewrite <- (un_del w e c He). unfold posted, queue, q_add_head. fsimp.
  by rewrite lookup_alter_ne by apply Hh.
Qed.
#[local] Hint Extern 1 (preserves _ (add_tail _ _)) => (apply un_add_tail; intro; discriminate) : pres.
#[local] Hint Extern 1 (preserves _ (unlink _)) => (apply un_unlink; intro; discriminate) : pres.
#[local] Hint Extern 1 (preserves _ (move_head _ _)) => (apply un_move_head; intro; discriminate) : pres.
#[local] Hint Extern 1 (preserves _ (modify _)) => (apply un_modify; intro; [reflexivity|by intros]) : pres.
Lemma un_get_req r : pr (get_req r). Proof. unfold get_req. pres. Qed.
Lemma un_get_partner p : pr (get_partner p). Proof. unfold get_partner. pres. Qed.
Lemma un_ids h : pr (ids h). Proof. unfold ids, read_queue. pres. Qed.
Lemma un_upd_req r f : pr (upd_req r f).
Proof.
  apply un_frame. intros w a w' (x & Hx & ->)%upd_req_inv. split; [done|]. intros y Hy. fsimp. rewrite lookup_insert_ne; [done|congruence].
Qed.
Lemma un_upd_partner p f : pr (upd_partner p f).
Proof. apply un_frame. by intros w a w' (x & Hx & ->)%upd_partner_inv. Qed.
Lemma un_on_mem f : pr (on_mem f).
Proof. apply un_frame. intros w a w' E. unfold on_mem in E. destruct (f (memory w)); [|done]. by injection E as _ <-. Qed.
Lemma un_free a : pr (omx_free_ep a). Proof. unfold omx_free_ep. pres. Qed.
#[local] Hint Resolve un_get_req un_get_partner un_ids un_upd_req un_upd_partner un_on_mem un_free : pres.
Lemma un_req_free r : pr (omx__request_free r).
Proof.
  unfold omx__request_free. apply pr_bind; [apply un_free|]. intros _. apply un_modify; [done|]. intros w y Hy. fsimp.
  rewrite lookup_delete. by case_decide.
Qed.
#[local] Hint Resolve un_req_free : pres.
Lemma un_complete r c : pr (omx__recv_complete r c).
Proof.
  unfold omx__recv_complete, ctxid_of, set_status, omx__error_with_req, free_segments, omx__notify_request_done, enqueue_done. pres.
Qed.
Lemma un_medium p r m d l : pr (omx__process_recv_medium_frag p r m d l).
Proof.
  pose proof un_complete. unfold omx__process_recv_medium_frag, copy_frag, enqueue_unexp, omx__enqueue_request, omx__enqueue_ctxid_request,
    omx__enqueue_partner_request, omx__dequeue_partner_request, omx___dequeue_partner_request, ctxid_of. pres.
Qed.
Lemma un_update_next_frag p : pr (omx__update_partner_next_frag_recv_seq p).
Proof.
  unfold omx__update_partner_next_frag_recv_seq, omx__mark_partner_need_ack_immediate, omx__mark_partner_need_ack_delayed, jiffies_now. pres.
Qed.
Lemma un_find_partial a n l : pr (find_partial a n l).
Proof. induction l; cbn [find_partial]; pres. Qed.
#[local] Hint Resolve un_medium un_update_next_frag un_find_partial : pres.
Lemma un_continue_partial p n m d l : pr (omx__continue_partial_request p n m d l).
Proof. unfold omx__continue_partial_request. pres. Qed.
End unmatched.


(** Duplicates and obsolete packets have no effect at all: a packet whose
    sequence number is not the expected one, and that is not a fragment of a
    message still missing fragments, leaves the whole state unchanged. *)
Lemma obsolete_packet_ignored p seqnum msg data len f w q :
  partners w !! p = Some q ->
  OMX__SEQNUM (seqnum - p_next_match_recv_seq q) <> 0 ->
  is_medium msg = false \/ p_next_frag_recv_seq q = p_next_match_recv_seq q \/
    OMX__SEQNUM (p_next_match_recv_seq q - p_next_frag_recv_seq q) <=
      OMX__SEQNUM (seqnum - p_next_frag_recv_seq q) ->
  omx__process_partner_ordered_recv p seqnum msg data len f w = Ret OMX_SUCCESS w.
Proof.
  intros Hq Hmi Hc. unfold omx__process_partner_ordered_recv.
  rewrite (bind_run _ _ _ _ _ (get_partner_run _ _ _ Hq)). cbn zeta.
  rewrite (proj2 (Z.eqb_neq _ _) Hmi).
  assert (Hf : is_medium msg && (OMX__SEQNUM (seqnum - p_next_frag_recv_seq q) <?
     OMX__SEQNUM (p_next_match_recv_seq q - p_next_frag_recv_seq q)) = false).
  { apply andb_false_iff. destruct Hc as [?|[Heq|Hle]]; [by left| |right; by apply Z.ltb_ge].
    right. apply Z.ltb_ge. rewrite Heq, Z.sub_diag. apply seqnum_range. }
  by rewrite Hf.
Qed.
End order.

Lemma obsolete_packet_ignored_witness :
  omx__process_partner_ordered_recv (H := sample_app) 3 15 (sample_small 15) 200 100 RecvSmall
    sample_world = Ret OMX_SUCCESS sample_world.
Proof.
  apply (obsolete_packet_ignored (H := sample_app)) with (q := sample_partner 1 1 20 18 16 16);
    [reflexivity|by vm_compute|by left].
Defined.
End Order.
