(* ===== verification/AckQueues.v ===== *)
(** The acknowledgements an endpoint owes: a partner is in exactly the queue
    its state says, whatever happens, so no ack is forgotten or sent for a
    partner that needs none; and the ack loop sends them all. *)
From S2P Require Import Prelude DList Seqnum Segments World SendqMap Request Region Send Large Ack.
From S2P Require Import Recv Unexp Connect Progress Invariants Views Samples.
Import DList Seqnum Mem Segs SendqMap Request Partner Complete Regions Send Large Ack Recv Unexp.
Import Connect.
Import Progress Samples.

Module AckQueues.

(** The partners linked in a queue by their ack element. *)
Definition ack_of (n : node) : option Z := match n with EAck p => Some p | _ => None end.
Definition acks (h : node) (F : gmap node (list node)) : list Z := omap ack_of (default [] (F !! h)).
Definition need (m : gmap Z partner) (p : Z) : need_ack := default NEED_NO_ACK (p_need_ack <$> m !! p).

Record acks_ok (w : world) : Prop := {
  ao_imm_head : is_Some (qs w !! HAckImm);
  ao_del_head : is_Some (qs w !! HAckDelayed);
  ao_imm p : p ∈ acks HAckImm (qs w) <-> need (partners w) p = NEED_ACK_IMMEDIATE;
  ao_del p : p ∈ acks HAckDelayed (qs w) <-> need (partners w) p = NEED_ACK_DELAYED;
  ao_else h : h <> HAckImm -> h <> HAckDelayed -> acks h (qs w) = [];
  ao_imm_nodup : NoDup (acks HAckImm (qs w));
  ao_del_nodup : NoDup (acks HAckDelayed (qs w));
  ao_slot p q : partners w !! p = Some q -> partner_index w (p_peer_index q) (p_endpoint_index q) = p
}.

(** ** Queue operations and ack elements *)

Definition same_acks (F F' : gmap node (list node)) : Prop :=
  forall h, acks h F' = acks h F /\ (h <> HTmp -> is_Some (F !! h) -> is_Some (F' !! h)).

Lemma acks_alter h g F h' :
  acks h' (alter g h F) = if decide (h' = h) then omap ack_of (default [] (g <$> F !! h)) else acks h' F.
Proof.
  unfold acks. case_decide as Hd; [subst; by rewrite lookup_alter_eq|by rewrite lookup_alter_ne].
Qed.
Lemma same_acks_alter h g F :
  (forall l, omap ack_of (g l) = omap ack_of l) -> same_acks F (alter g h F).
Proof.
  intros Hg h'. rewrite acks_alter. split.
  - case_decide as Hd; [subst|done]. unfold acks. destruct (F !! h) as [l|]; [apply Hg|done].
  - intros _ Hs. destruct (decide (h' = h)) as [->|Hne];
      [rewrite lookup_alter_eq; by apply fmap_is_Some|by rewrite lookup_alter_ne].
Qed.
Lemma omap_ack_cons y l : omap ack_of (y :: l) =
  match ack_of y with Some p => p :: omap ack_of l | None => omap ack_of l end.
Proof. done. Qed.
Lemma omap_snoc l e : omap ack_of (l ++ [e]) = omap ack_of l ++ omap ack_of [e].
Proof. apply omap_app. Qed.
Lemma ack_of_free e : free_elt e -> ack_of e = None.
Proof. by destruct e. Qed.
Lemma omap_insert_after x e l : ack_of e = None -> omap ack_of (insert_after x e l) = omap ack_of l.
Proof.
  intros He. induction l as [|y l IH]; [done|]. cbn [insert_after]. destruct (decide (y = x)).
  - cbn. by rewrite He.
  - cbn. by rewrite IH.
Qed.
Lemma omap_remove e l : ack_of e = None -> omap ack_of (remove_elt e l) = omap ack_of l.
Proof.
  intros He. induction l as [|y l IH]; [done|]. destruct (decide (y = e)) as [->|Hne].
  - rewrite remove_elt_cons_eq. cbn. by rewrite He, IH.
  - rewrite remove_elt_cons_ne by done. cbn. by rewrite IH.
Qed.
Lemma omap_remove_ack p l : omap ack_of (remove_elt (EAck p) l) = remove_elt p (omap ack_of l).
Proof.
  induction l as [|y l IH]; [done|]. destruct (decide (y = EAck p)) as [->|Hne].
  - rewrite remove_elt_cons_eq, omap_ack_cons. cbn [ack_of]. by rewrite remove_elt_cons_eq.
  - rewrite remove_elt_cons_ne, !omap_ack_cons by done. destruct (ack_of y) as [p'|] eqn:Hy; [|done].
    rewrite remove_elt_cons_ne by (intros ->; destruct y; naive_solver). by rewrite IH.
Qed.
Lemma acks_del e h F : acks h (q_del e F) = omap ack_of (remove_elt e (default [] (F !! h))).
Proof. unfold acks, q_del. rewrite lookup_fmap. by destruct (F !! h). Qed.
Lemma same_acks_del e F : ack_of e = None -> same_acks F (q_del e F).
Proof.
  intros He h. rewrite acks_del, omap_remove by done. split; [done|]. intros _.
  unfold q_del. rewrite lookup_fmap. by apply fmap_is_Some.
Qed.

(** ** The invariant *)

Lemma acks_ok_ext w w' : same_acks (qs w) (qs w') ->
  (forall p, need (partners w') p = need (partners w) p) ->
  (forall p q, partners w' !! p = Some q -> partner_index w' (p_peer_index q) (p_endpoint_index q) = p) ->
  acks_ok w -> acks_ok w'.
Proof.
  intros Hq Hn Hs Hw. split.
  - by apply Hq, Hw.
  - by apply Hq, Hw.
  - intros p. rewrite Hn, (proj1 (Hq _)). apply Hw.
  - intros p. rewrite Hn, (proj1 (Hq _)). apply Hw.
  - intros h H1 H2. rewrite (proj1 (Hq _)). by apply Hw.
  - rewrite (proj1 (Hq _)). apply Hw.
  - rewrite (proj1 (Hq _)). apply Hw.
  - exact Hs.
Qed.
Lemma same_acks_refl F : same_acks F F.
Proof. by intros h. Qed.

Lemma acks_on_qs f : (forall F, same_acks F (f F)) -> preserves acks_ok (on_qs f).
Proof.
  intros Hf w a w' Hw [= _ <-]. eapply acks_ok_ext; [apply Hf|done|apply Hw|done].
Qed.

Lemma need_insert m p q p' :
  need (<[p := q]> m) p' = if decide (p' = p) then p_need_ack q else need m p'.
Proof.
  unfold need. case_decide as Hd; [subst; by rewrite lookup_insert_eq|by rewrite lookup_insert_ne].
Qed.
Lemma need_lookup m p q : m !! p = Some q -> need m p = p_need_ack q.
Proof. intros Hq. unfold need. by rewrite Hq. Qed.

(** An update that keeps the ack state and the slot. *)
Lemma acks_upd p f :
  (forall q, p_need_ack (f q) = p_need_ack q) -> (forall q, p_peer_index (f q) = p_peer_index q) ->
  (forall q, p_endpoint_index (f q) = p_endpoint_index q) -> preserves acks_ok (upd_partner p f).
Proof.
  intros Hn Hi He w a w' Hw (q & Hq & ->)%upd_partner_inv.
  apply (acks_ok_ext w); [apply same_acks_refl|..|exact Hw].
  - intros p'. fsimp. rewrite need_insert. case_decide as Hd; [subst|done].
    by rewrite Hn, (need_lookup _ _ _ Hq).
  - intros p' q' Hq'. fsimp. apply lookup_insert_Some in Hq' as [[<- <-]|[_ Hq']].
    + rewrite Hi, He. exact (ao_slot _ Hw _ _ Hq).
    + exact (ao_slot _ Hw _ _ Hq').
Qed.

(** A partner [p] changes its ack state to [n]. *)
Lemma acks_ok_set w p q n F' :
  acks_ok w -> partners w !! p = Some q ->
  (forall h, is_Some (qs w !! h) -> is_Some (F' !! h)) ->
  (forall x, x ∈ acks HAckImm F' <->
    x = p /\ n = NEED_ACK_IMMEDIATE \/ x <> p /\ x ∈ acks HAckImm (qs w)) ->
  (forall x, x ∈ acks HAckDelayed F' <->
    x = p /\ n = NEED_ACK_DELAYED \/ x <> p /\ x ∈ acks HAckDelayed (qs w)) ->
  (forall h, h <> HAckImm -> h <> HAckDelayed -> acks h F' = []) ->
  NoDup (acks HAckImm F') -> NoDup (acks HAckDelayed F') ->
  forall w', qs w' = F' -> w_globals w' = w_globals w ->
    (exists q', partners w' = <[p := q']> (partners w) /\ p_need_ack q' = n /\
       p_peer_index q' = p_peer_index q /\ p_endpoint_index q' = p_endpoint_index q) -> acks_ok w'.
Proof.
  intros Hw Hq Hk Hi Hd He Hni Hnd w' HF Hg (q' & Hp & Hn & Hpi & Hei).
  assert (Hneed : forall x, need (partners w') x = if decide (x = p) then n else need (partners w) x).
  { intros x. by rewrite Hp, need_insert, Hn. }
  split; rewrite ?HF; [apply Hk, Hw|apply Hk, Hw| | |done..|].
  - intros x. rewrite Hi, Hneed, (ao_imm _ Hw). case_decide; naive_solver.
  - intros x. rewrite Hd, Hneed, (ao_del _ Hw). case_decide; naive_solver.
  - intros x qx. rewrite Hp. unfold partner_index. rewrite Hg.
    intros [[<- <-]|[_ Hx]]%lookup_insert_Some.
    + rewrite Hpi, Hei. exact (ao_slot _ Hw _ _ Hq).
    + exact (ao_slot _ Hw _ _ Hx).
Qed.

Lemma acks_add_tail p h F h' : is_Some (F !! h) ->
  acks h' (q_add_tail (EAck p) h F) = if decide (h' = h) then acks h F ++ [p] else acks h' F.
Proof.
  intros [l Hl]. unfold q_add_tail. rewrite acks_alter. case_decide; [|done].
  unfold acks. rewrite Hl. apply omap_snoc.
Qed.
Lemma acks_add_head p h F h' : is_Some (F !! h) ->
  acks h' (q_add_head (EAck p) h F) = if decide (h' = h) then p :: acks h F else acks h' F.
Proof.
  intros [l Hl]. unfold q_add_head. rewrite acks_alter. case_decide; [|done]. unfold acks. by rewrite Hl.
Qed.
Lemma acks_del_ack p F h : acks h (q_del (EAck p) F) = remove_elt p (acks h F).
Proof. rewrite acks_del. apply omap_remove_ack. Qed.
Lemma some_alter g h (F : gmap node (list node)) h' : is_Some (F !! h') -> is_Some (alter g h F !! h').
Proof.
  intros Hs. destruct (decide (h' = h)) as [->|Hne];
    [rewrite lookup_alter_eq; by apply fmap_is_Some|by rewrite lookup_alter_ne].
Qed.
Lemma some_del e (F : gmap node (list node)) h : is_Some (F !! h) -> is_Some (q_del e F !! h).
Proof. intros Hs. unfold q_del. rewrite lookup_fmap. by apply fmap_is_Some. Qed.

Lemma acks_delayed p : preserves acks_ok (omx__mark_partner_need_ack_delayed p).
Proof.
  intros w [] w' Hw E. unfold omx__mark_partner_need_ack_delayed in E.
  mstep E as q w1 E1. apply get_partner_inv in E1 as [Hq ->].
  case_bool_decide as Hn; [|by injection E as <-]. cbn [when] in E.
  mstep E as now w1 E1. injection E1 as _ <-.
  mstep E as t w1 E1. apply upd_partner_inv in E1 as (q1 & Hq1 & ->).
  rewrite Hq in Hq1. injection Hq1 as <-. injection E as <-.
  assert (Hp : p ∉ acks HAckDelayed (qs w)).
  { rewrite (ao_del _ Hw), (need_lookup _ _ _ Hq), Hn. done. }
  assert (Hpi : p ∉ acks HAckImm (qs w)).
  { rewrite (ao_imm _ Hw), (need_lookup _ _ _ Hq), Hn. done. }
  pose proof (ao_del_head _ Hw) as Hh.
  apply (acks_ok_set w p q NEED_ACK_DELAYED (q_add_tail (EAck p) HAckDelayed (qs w)) Hw Hq); try done.
  - intros h. apply some_alter.
  - intros x. rewrite acks_add_tail by done. rewrite decide_False by done.
    split; [|naive_solver]. intros Hx. right. split; [by intros ->|done].
  - intros x. rewrite acks_add_tail by done. rewrite decide_True by done.
    rewrite elem_of_app, list_elem_of_singleton. split; [|naive_solver].
    intros [Hx| ->]; [right|by left]. split; [by intros ->|done].
  - intros h H1 H2. rewrite acks_add_tail, decide_False by done. by apply Hw.
  - rewrite acks_add_tail, decide_False by done. apply Hw.
  - rewrite acks_add_tail, decide_True by done. apply NoDup_app. split; [apply Hw|].
    split; [intros x Hx ->%list_elem_of_singleton; done|apply NoDup_singleton].
  - eexists. by split.
Qed.

(** The element of [p] moves to the front of the immediate queue. *)
Lemma acks_to_imm p w q F' w' : acks_ok w -> partners w !! p = Some q ->
  p_need_ack q <> NEED_ACK_IMMEDIATE ->
  (p_need_ack q = NEED_ACK_DELAYED /\ F' = q_add_head (EAck p) HAckImm (q_del (EAck p) (qs w)) \/
   p_need_ack q = NEED_NO_ACK /\ F' = q_add_tail (EAck p) HAckImm (qs w)) ->
  qs w' = F' -> w_globals w' = w_globals w ->
  partners w' = <[p := set p_need_ack (fun _ => NEED_ACK_IMMEDIATE) q]> (partners w) -> acks_ok w'.
Proof.
  intros Hw Hq Hn HF HF' Hg Hp.
  assert (Hpi : p ∉ acks HAckImm (qs w)) by by rewrite (ao_imm _ Hw), (need_lookup _ _ _ Hq).
  assert (Hd : p ∈ acks HAckDelayed (qs w) <-> p_need_ack q = NEED_ACK_DELAYED)
    by by rewrite (ao_del _ Hw), (need_lookup _ _ _ Hq).
  pose proof (ao_imm_head _ Hw) as Hh. pose proof (some_del (EAck p) (qs w) _ Hh) as Hh'.
  apply (acks_ok_set w p q NEED_ACK_IMMEDIATE F' Hw Hq); try done; [..|by eexists];
    destruct HF as [[Hdel ->]|[Hno ->]].
  - intros h Hs. by apply some_alter, some_del.
  - intros h. apply some_alter.
  - intros x. rewrite acks_add_head, decide_True, acks_del_ack, elem_of_cons, elem_of_remove_elt by done.
    split; [intros [->|[? ?]]; auto|intros [[-> _]|[? ?]]; auto].
  - intros x. rewrite acks_add_tail, decide_True, elem_of_app, list_elem_of_singleton by done.
    split; [|naive_solver]. intros [Hx| ->]; [right|by left]. split; [by intros ->|done].
  - intros x. rewrite acks_add_head, decide_False, acks_del_ack, elem_of_remove_elt by done. naive_solver.
  - intros x. rewrite acks_add_tail, decide_False by done. split; [|naive_solver]. intros Hx. right.
    split; [|done]. intros ->. apply Hd in Hx. congruence.
  - intros h H1 H2. rewrite acks_add_head, decide_False, acks_del_ack by done. by rewrite (ao_else _ Hw).
  - intros h H1 H2. rewrite acks_add_tail, decide_False by done. by apply Hw.
  - rewrite acks_add_head, decide_True, acks_del_ack by done. apply NoDup_cons.
    split; [by rewrite elem_of_remove_elt; intros [? ?]|]. apply NoDup_remove_elt, Hw.
  - rewrite acks_add_tail, decide_True by done. apply NoDup_app. split; [apply Hw|].
    split; [intros x Hx ->%list_elem_of_singleton; done|apply NoDup_singleton].
  - rewrite acks_add_head, decide_False, acks_del_ack by done. apply NoDup_remove_elt, Hw.
  - rewrite acks_add_tail, decide_False by done. apply Hw.
Qed.

Lemma acks_immediate p : preserves acks_ok (omx__mark_partner_need_ack_immediate p).
Proof.
  intros w [] w' Hw E. unfold omx__mark_partner_need_ack_immediate in E.
  mstep E as q w1 E1. apply get_partner_inv in E1 as [Hq ->].
  case_bool_decide as Hn; cbn [negb when] in E; [by injection E as <-|].
  mstep E as t w1 E1. apply upd_partner_inv in E as (q1 & Hq1 & ->).
  case_bool_decide as Hd; injection E1 as _ <-; revert Hq1; fsimp; rewrite Hq; intros [= <-].
  - eapply (acks_to_imm p w q _ _ Hw Hq Hn); [by left|done..].
  - eapply (acks_to_imm p w q _ _ Hw Hq Hn); [right; split; [by destruct (p_need_ack q)|done]|done..].
Qed.

(** The element of [p] leaves its queue. *)
Definition clear_ack (p : Z) : M unit :=
  upd_partner p (set p_need_ack (fun _ => NEED_NO_ACK));; unlink (EAck p).
Lemma acks_clear p : preserves acks_ok (clear_ack p).
Proof.
  intros w [] w' Hw E. unfold clear_ack in E. mstep E as t w1 E1. injection E as <-.
  apply upd_partner_inv in E1 as (q & Hq & ->).
  apply (acks_ok_set w p q NEED_NO_ACK (q_del (EAck p) (qs w)) Hw Hq); try done.
  - intros h. apply some_del.
  - intros x. rewrite acks_del_ack, elem_of_remove_elt. naive_solver.
  - intros x. rewrite acks_del_ack, elem_of_remove_elt. naive_solver.
  - intros h H1 H2. by rewrite acks_del_ack, (ao_else _ Hw).
  - rewrite acks_del_ack. apply NoDup_remove_elt, Hw.
  - rewrite acks_del_ack. apply NoDup_remove_elt, Hw.
  - eexists. by split.
Qed.
#[local] Hint Extern 1 (preserves acks_ok (upd_partner _ _)) =>
  (apply acks_upd; intro; reflexivity) : pres.
Lemma acks_get_partner p : preserves acks_ok (get_partner p).
Proof. unfold get_partner. pres. Qed.
#[local] Hint Resolve acks_clear acks_get_partner : pres.
Lemma acks_link e h : ack_of e = None -> preserves acks_ok (add_tail e h).
Proof.
  intros He. apply acks_on_qs. intros F. apply same_acks_alter. intros l.
  rewrite omap_snoc, omap_ack_cons, He. cbn. by rewrite app_nil_r.
Qed.
Lemma acks_unlink e : ack_of e = None -> preserves acks_ok (unlink e).
Proof. intros He. apply acks_on_qs. intros F. by apply same_acks_del. Qed.
Lemma acks_splice h : preserves acks_ok (splice_tail HTmp h).
Proof.
  intros w a w' Hw [= _ <-]. apply (acks_ok_ext w); [|done|apply Hw|done]. fsimp. intros h'.
  pose proof (ao_else _ Hw HTmp) as Ht. unfold acks, q_splice in *.
  destruct (decide (h' = HTmp)) as [->|Hne].
  - rewrite lookup_delete_eq, Ht by done. by split.
  - rewrite lookup_delete_ne by done. destruct (decide (h' = h)) as [->|Hne'].
    + rewrite lookup_alter_eq. destruct (qs w !! h) as [l|]; [|done].
      split; [|by intros; eexists].
      change (omap ack_of (l ++ default [] (qs w !! HTmp)) = omap ack_of l).
      by rewrite omap_app, Ht, app_nil_r.
    + by rewrite lookup_alter_ne.
Qed.
#[local] Hint Extern 1 (preserves acks_ok (add_tail _ _)) => (apply acks_link; reflexivity) : pres.
#[local] Hint Extern 1 (preserves acks_ok (unlink _)) => (apply acks_unlink; reflexivity) : pres.

#[export] Instance acks_frame : FrameInv acks_ok.
Proof.
  split.
  - intros w w' Hq Hp Hg Hw. apply (acks_ok_ext w); [by rewrite Hq|by rewrite Hp| |done].
    intros p q. rewrite Hp. unfold partner_index. rewrite Hg. apply Hw.
  - intros e h He. apply acks_link, (ack_of_free e He).
  - intros e h He. apply acks_on_qs. intros F. apply same_acks_alter. intros l.
    by rewrite omap_ack_cons, (ack_of_free e He).
  - intros e He. apply acks_unlink, (ack_of_free e He).
  - intros h Hh w a w' Hw [= _ <-]. apply (acks_ok_ext w); [|done|apply Hw|done]. fsimp.
    intros h'. unfold acks, q_init. destruct (decide (h' = h)) as [->|Hne].
    + rewrite lookup_insert_eq. split; [|done]. symmetry. by apply (ao_else _ Hw); intros ->.
    + by rewrite lookup_insert_ne.
  - apply acks_splice.
  - intros p x e. apply acks_on_qs. intros F. apply same_acks_alter. intros l.
    by apply omap_insert_after.
  - apply acks_delayed.
  - apply acks_immediate.
  - intros p. unfold omx__mark_partner_ack_sent. pres. 
  - intros p. unfold omx__mark_partner_throttling. pres.
  - intros p n. unfold omx__update_partner_throttling. pres.
Qed.
#[export] Instance acks_take : TakeInv acks_ok.
Proof.
  split. intros p req w q w' Hw _ _ E.
  assert (Hp : preserves acks_ok (take_seqnum p req)); [|by apply (Hp w tt w')].
  apply pr_take_seqnum; [exact _|]. pres.
Qed.
Section acks.
Context `{App}.
#[export] Instance acks_ack : AckInv acks_ok.
Proof.
  split. intros p a. apply pr_handle_ack; [exact _| |].
  - intros r. apply pr_take_seqnum; [exact _|]. pres.
  - intros s. pres.
Qed.
Lemma acks_reset p : preserves acks_ok (omx__partner_reset p).
Proof.
  unfold omx__partner_reset. repeat (apply pr_bind; [by apply fi_init|intros _]).
  apply pr_bind; [pres|intros _]. apply pr_bind; [pres|intros q]. apply pr_when, acks_clear.
Qed.
(** A reset partner owes no ack. *)
Lemma clear_need p w w' :
  (q ← get_partner p; when (negb (bool_decide (p_need_ack q = NEED_NO_ACK))) (clear_ack p)) w = Ret tt w' ->
  exists q, partners w' !! p = Some q /\ p_need_ack q = NEED_NO_ACK.
Proof.
  intros E. mstep E as q w2 E1. apply get_partner_inv in E1 as [Hq ->].
  case_bool_decide as Hn; cbn [negb when] in E; [by injection E as <-; exists q|].
  unfold clear_ack in E. mstep E as t2 w3 E2. apply upd_partner_inv in E2 as (q2 & Hq2 & ->).
  injection E as <-. eexists. split; [fsimp; by rewrite lookup_insert_eq|done].
Qed.
Lemma reset_need p w w' : omx__partner_reset p w = Ret tt w' ->
  exists q, partners w' !! p = Some q /\ p_need_ack q = NEED_NO_ACK.
Proof.
  unfold omx__partner_reset. do 6 (intros (? & ? & _ & E)%bind_inv; revert E). apply clear_need.
Qed.
Lemma acks_delete p w q : acks_ok w -> partners w !! p = Some q -> p_need_ack q = NEED_NO_ACK ->
  acks_ok (w <| partners ::= delete (partner_index w (p_peer_index q) (p_endpoint_index q)) |>).
Proof.
  intros Hw Hq Hn. rewrite (ao_slot _ Hw _ _ Hq).
  apply (acks_ok_ext w); [apply same_acks_refl| | |done].
  - intros p'. unfold need. fsimp. destruct (decide (p' = p)) as [->|Hne].
    + by rewrite lookup_delete_eq, Hq; cbn; rewrite Hn.
    + by rewrite lookup_delete_ne.
  - intros p' q'. fsimp. intros [_ Hp']%lookup_delete_Some. exact (ao_slot _ Hw _ _ Hp').
Qed.
#[export] Instance acks_partner : PartnerInv acks_ok.
Proof.
  split.
  - intros p f Hf. apply acks_upd; intros q; by destruct (Hf q) as (? & ? & ? & _).
  - intros peer board ep w r w' Hw Hnone E. unfold omx__partner_create in E.
    mstep E as al w1 E1. assert (Hw1 : acks_ok w1 /\ partners w1 = partners w /\ w_globals w1 = w_globals w).
    { split; [by eapply (pr_malloc acks_ok) in E1|]. unfold omx_malloc_ep in E1.
      by destruct (mallocs w); injection E1 as <- <-. }
    destruct Hw1 as (Hw1 & Hp1 & Hg1). destruct al; [|by injection E as _ <-].
    rewrite get_bind in E. mstep E as t w2 E2. injection E2 as _ <-.
    mstep E as t2 w3 E3. injection E as _ <-. eapply acks_reset; [|exact E3].
    assert (Hpi : partner_index w1 peer ep = partner_index w peer ep)
      by (unfold partner_index; by rewrite Hg1).
    apply (acks_ok_ext w1); [apply same_acks_refl| | |done].
    + intros p. fsimp. rewrite need_insert. case_decide as Hd; [subst|done].
      unfold need. by rewrite Hp1, Hpi, Hnone.
    + intros p q. fsimp. intros [[<- <-]|[_ Hq]]%lookup_insert_Some; [done|].
      exact (ao_slot _ Hw1 _ _ Hq).
  - intros p d w [] w' Hw E. mstep E as t w1 E1. destruct t.
    destruct (reset_need _ _ _ E1) as (q & Hq & Hn). apply acks_reset in E1; [|done].
    unfold reset_tail in E. destruct (negb (d =? 0)); cbn [when] in E; [|by injection E as <-].
    mstep E as t w2 E2. pose proof E2 as E2'. destruct t. eapply acks_upd in E2; [|by intros..|exact E1].
    apply upd_partner_inv in E2' as (q2 & Hq2 & ->). rewrite Hq in Hq2. injection Hq2 as <-.
    destruct (1 <? d); cbn [when] in E; [|by injection E as <-].
    rewrite get_bind in E. mstep E as q3 w3 E3. apply get_partner_inv in E3 as [Hq3 ->].
    mstep E as t3 w3 E3. injection E3 as _ <-. eapply (pr_free acks_ok) in E; [done|].
    apply (acks_delete p); [done..|]. revert Hq3. fsimp. rewrite lookup_insert_eq. by intros [= <-].
Qed.
End acks.

(** ** Sending the acks *)

Section sending.
Context `{App}.

Definition acked (q : partner) : partner :=
  q <| p_last_send_acknum ::= fun n => u32 (n + 1) |> <| p_need_ack := NEED_NO_ACK |>
    <| p_last_acked_recv_seq := p_next_frag_recv_seq q |>.
(** The library ack that tells [q] everything up to the first missing
    fragment. *)
Definition liback (q : partner) : cmd :=
  CmdLiback (p_peer_index q) (p_endpoint_index q) (omx__partner_localization_shared q)
    (p_back_session_id q) (u32 (p_last_send_acknum q + 1)) (p_next_frag_recv_seq q).
Record after_ack (p : Z) (q : partner) (w w' : world) : Prop := {
  aa_partners : partners w' = <[p := acked q]> (partners w);
  aa_qs : qs w' = q_del (EAck p) (qs w);
  aa_trace : trace w' = Ioctl (liback q) None :: trace w;
  aa_ioctls : ioctls w' = [];
  aa_clock : jiffies w' = jiffies w /\ w_globals w' = w_globals w /\
    last_partners_acking_jiffies w' = last_partners_acking_jiffies w
}.

Lemma ack_partner_run p w q : partners w !! p = Some q -> p_need_ack q <> NEED_NO_ACK ->
  ioctls w = [] -> exists w', ack_partner p w = Ret true w' /\ after_ack p q w w'.
Proof.
  intros Hq Hn Hi. unfold ack_partner, omx__submit_send_liback.
  set (q1 := q <| p_last_send_acknum ::= fun n => u32 (n + 1) |>).
  set (w1 := w <| partners ::= <[p := q1]> |>).
  assert (Hq1 : partners w1 !! p = Some q1) by (unfold w1; fsimp; apply lookup_insert_eq).
  set (w2 := w1 <| trace ::= cons (Ioctl (liback q) None) |>).
  rewrite (bind_run _ _ w OMX_SUCCESS w2).
  2:{ rewrite (bind_run _ _ _ _ _ (get_partner_run _ _ _ Hq)). cbn zeta.
      rewrite (bind_run _ _ _ _ _ (upd_partner_run _ _ _ _ Hq)). fold q1. fold w1.
      rewrite (bind_run _ _ _ _ _ (get_partner_run _ _ _ Hq1)).
      rewrite (bind_run _ _ w1 None w2); [done|]. unfold ioctl. unfold w1 at 1. fsimp. by rewrite Hi. }
  rewrite bool_decide_true by done. cbn [negb].
  assert (Hq2 : partners w2 !! p = Some q1) by exact Hq1.
  unfold omx__mark_partner_ack_sent.
  set (w3 := w2 <| partners ::= <[p := q1 <| p_need_ack := NEED_NO_ACK |>]> |> <| qs ::= q_del (EAck p) |>).
  assert (Hq3 : partners w3 !! p = Some (q1 <| p_need_ack := NEED_NO_ACK |>))
    by (unfold w3; fsimp; apply lookup_insert_eq).
  eexists. split.
  - erewrite bind_run; [reflexivity|].
    rewrite (bind_run _ _ _ _ _ (get_partner_run _ _ _ Hq2)).
    rewrite bool_decide_false by done. cbn [negb when].
    rewrite (bind_run _ _ w2 tt w3); [by rewrite (upd_partner_run _ _ _ _ Hq3)|].
    by rewrite (bind_run _ _ _ _ _ (upd_partner_run _ _ _ _ Hq2)).
  - split; unfold w3, w2, w1; fsimp; try done. by rewrite !insert_insert_eq.
Qed.

(** The state after a list of partners was acked. *)
Definition ack_action (w : world) (p : Z) : option action :=
  (fun q => Ioctl (liback q) None) <$> partners w !! p.
Lemma ack_action_ext w w' (l : list Z) : (forall p, p ∈ l -> partners w' !! p = partners w !! p) ->
  omap (ack_action w') l = omap (ack_action w) l.
Proof.
  induction l as [|p l IH]; intros Hl; [done|].
  assert (Hp : ack_action w' p = ack_action w p) by (unfold ack_action; by rewrite Hl by left).
  assert (Ho : omap (ack_action w') l = omap (ack_action w) l) by (apply IH; intros; apply Hl; by right).
  cbn. rewrite Hp. cbn in Ho. by rewrite Ho.
Qed.
Record after_acks (l : list Z) (w w' : world) : Prop := {
  as_partners p : partners w' !! p = (if decide (p ∈ l) then acked else id) <$> partners w !! p;
  as_queue h : queue h w' = filter (fun n => n ∉ EAck <$> l) (queue h w);
  as_trace : trace w' = rev (omap (ack_action w) l) ++ trace w;
  as_ioctls : ioctls w' = [];
  as_clock : jiffies w' = jiffies w /\ w_globals w' = w_globals w /\
    last_partners_acking_jiffies w' = last_partners_acking_jiffies w
}.
Definition owes (w : world) (p : Z) : Prop :=
  exists q, partners w !! p = Some q /\ p_need_ack q <> NEED_NO_ACK.

(** A loop whose body acks the partners of [l] and stops on the rest. *)
Lemma until_acks (body : Z -> M bool) rest l : forall w,
  NoDup l -> ioctls w = [] -> Forall (owes w) l ->
  (forall p w1, p ∈ l -> partners w1 !! p = partners w !! p -> body p w1 = ack_partner p w1) ->
  (forall w1, (forall p, p ∉ l -> partners w1 !! p = partners w !! p) ->
    until body rest w1 = Ret tt w1) ->
  exists w', until body (l ++ rest) w = Ret tt w' /\ after_acks l w w'.
Proof.
  induction l as [|p l IH]; intros w Hnd Hi Ho Hb Hr.
  - exists w. split; [by apply Hr|]. split; [| |done..].
    2:{ intros h. symmetry. apply list_filter_all, Forall_forall. intros n _. apply not_elem_of_nil. }
    intros p. case_decide as Hd; [by apply elem_of_nil in Hd|]. by destruct (partners w !! p).
  - apply NoDup_cons in Hnd as [Hp Hnd]. apply Forall_cons in Ho as [(q & Hq & Hn) Ho].
    destruct (ack_partner_run p w q Hq Hn Hi) as (w1 & E1 & A1).
    destruct (IH w1 Hnd (aa_ioctls _ _ _ _ A1)) as (w2 & E2 & A2).
    + rewrite Forall_forall in *. intros p' Hp'. destruct (Ho p' Hp') as (q' & Hq' & Hn').
      exists q'. rewrite (aa_partners _ _ _ _ A1), lookup_insert_ne by (intros ->; done). done.
    + intros p' w3 Hp' H3. apply Hb; [by right|]. rewrite H3, (aa_partners _ _ _ _ A1).
      apply lookup_insert_ne. by intros ->.
    + intros w3 H3. apply Hr. intros p' [Hne Hp']%not_elem_of_cons.
      rewrite H3, (aa_partners _ _ _ _ A1) by done. by apply lookup_insert_ne.
    + exists w2. rewrite <- (Hb p w) in E1 by (done || by left).
      split; [cbn [until app]; by rewrite (bind_run _ _ _ _ _ E1)|].
      destruct A1 as [Bp Bq Bt Bi Bc], A2 as [Cp Cq Ct Ci Cc]. split.
      * intros p'. rewrite Cp, Bp. destruct (decide (p' = p)) as [->|Hne].
        -- rewrite lookup_insert_eq, Hq. rewrite decide_False, decide_True; [done|by left|done].
        -- rewrite lookup_insert_ne by done. destruct (decide (p' ∈ l)) as [Hl|Hl].
           ++ rewrite decide_True; [done|by right].
           ++ rewrite decide_False; [done|]. by intros [?|?]%elem_of_cons.
      * intros h. rewrite Cq. unfold queue. rewrite Bq. unfold q_del. rewrite lookup_fmap.
        destruct (qs w !! h) as [k|]; [|done]. change (default [] (Some k)) with k.
        change (default [] (remove_elt (EAck p) <$> Some k)) with (filter (fun n => n <> EAck p) k).
        rewrite list_filter_filter. apply list_filter_iff. intros n.
        rewrite fmap_cons, not_elem_of_cons. tauto.
      * rewrite Ct, Bt, (ack_action_ext w).
        -- cbn. unfold ack_action at 2. rewrite Hq. cbn. by rewrite <- app_assoc.
        -- intros p' Hp'. by rewrite Bp, lookup_insert_ne by (intros ->; done).
      * done.
      * destruct Bc as (? & ? & ?), Cc as (? & ? & ?). repeat split; congruence.
Qed.

(** A delayed ack is due when its delay is over. *)
Definition due (w : world) (p : Z) : Prop := forall q, partners w !! p = Some q ->
  ack_delay_jiffies (w_globals w) <= u64 (jiffies w - p_oldest_recv_time_not_acked q).

Lemma omap_acks (l : list Z) : omap ack_of (EAck <$> l) = l.
Proof. induction l as [|p l IH]; [done|]. rewrite fmap_cons, omap_ack_cons. cbn [ack_of]. by rewrite IH. Qed.
Lemma owes_linked w h l : acks_ok w -> queue h w = EAck <$> l -> NoDup l /\ Forall (owes w) l.
Proof.
  intros Hw Hh. assert (Ha : acks h (qs w) = l).
  { unfold acks. unfold queue in Hh. by rewrite Hh, omap_acks. }
  assert (Hn : forall p, need (partners w) p <> NEED_NO_ACK -> owes w p).
  { intros p. unfold need, owes. destruct (partners w !! p) as [q|]; [|done]. by exists q. }
  destruct (decide (h = HAckImm)) as [->|]; [|destruct (decide (h = HAckDelayed)) as [->|]].
  - split; [rewrite <- Ha; apply Hw|]. apply Forall_forall. intros p Hp. apply Hn.
    rewrite <- Ha, (ao_imm _ Hw) in Hp. by rewrite Hp.
  - split; [rewrite <- Ha; apply Hw|]. apply Forall_forall. intros p Hp. apply Hn.
    rewrite <- Ha, (ao_del _ Hw) in Hp. by rewrite Hp.
  - rewrite (ao_else _ Hw) in Ha by done. subst l. split; [apply NoDup_nil_2|done].
Qed.
(** The delayed queue: the due acks at its front are sent. *)
Definition ack_if_due (now delay p : Z) : M bool :=
  q ← get_partner p;
  if u64 (now - p_oldest_recv_time_not_acked q) <? delay then mret false else ack_partner p.
Lemma delayed_stage w ld rest :
  NoDup (ld ++ rest) -> ioctls w = [] -> Forall (owes w) (ld ++ rest) ->
  Forall (due w) ld -> (forall p, head rest = Some p -> ~ due w p) ->
  exists w', until (ack_if_due (jiffies w) (ack_delay_jiffies (w_globals w))) (ld ++ rest) w = Ret tt w' /\
    after_acks ld w w'.
Proof.
  intros Hnd Hi Ho Hdue Hrest. rewrite Forall_forall in Ho, Hdue. apply until_acks.
  - by apply NoDup_app in Hnd as [? _].
  - done.
  - apply Forall_forall. intros p Hp. apply Ho, elem_of_app. by left.
  - intros p w4 Hp H4. destruct (Ho p) as (q & Hq & _); [apply elem_of_app; by left|].
    unfold ack_if_due. rewrite (bind_run _ _ _ _ _ (get_partner_run _ _ q (eq_trans H4 Hq))).
    by rewrite (proj2 (Z.ltb_ge _ _) (Hdue p Hp q Hq)).
  - intros w4 H4. destruct rest as [|p rest]; [done|]. cbn [until].
    destruct (Ho p) as (q & Hq & _); [apply elem_of_app; right; by left|].
    apply NoDup_app in Hnd as (_ & Hd & _).
    assert (Hq4 : partners w4 !! p = Some q).
    { rewrite H4; [done|]. intros Hp. apply (Hd p Hp). by left. }
    rewrite (bind_run _ _ w4 false w4); [done|]. unfold ack_if_due.
    rewrite (bind_run _ _ _ _ _ (get_partner_run _ _ _ Hq4)).
    destruct (Z.ltb_spec (u64 (jiffies w - p_oldest_recv_time_not_acked q)) (ack_delay_jiffies (w_globals w)))
      as [|Hge]; [done|]. exfalso. apply (Hrest p eq_refl). intros q' Hq'. rewrite Hq in Hq'.
    by injection Hq' as <-.
Qed.

Lemma filter_acks (l k : list Z) :
  filter (fun n => n ∉ EAck <$> l) (EAck <$> k) = EAck <$> filter (fun p => p ∉ l) k.
Proof.
  assert (He : forall p, EAck p ∈ EAck <$> l <-> p ∈ l).
  { intros p. rewrite list_elem_of_fmap. naive_solver. }
  induction k as [|p k IH]; [done|]. rewrite fmap_cons, !filter_cons, IH.
  destruct (decide (p ∈ l)) as [Hp|Hp].
  - rewrite !decide_False; [done| |]; rewrite ?He; tauto.
  - by rewrite !decide_True by (rewrite ?He; tauto).
Qed.
Lemma ids_acks (l : list Z) : node_id <$> (EAck <$> l) = l.
Proof. rewrite <- list_fmap_compose. apply list_fmap_id. Qed.
Lemma filter_self (l : list Z) : filter (fun p => p ∉ l) l = [].
Proof. apply list_filter_none, Forall_forall. tauto. Qed.

(** Both stages together. *)
Lemma paid w w1 w2 w3 li ld rest :
  after_acks li w w1 -> w2 = w1 <| last_partners_acking_jiffies := jiffies w |> ->
  after_acks ld w2 w3 -> queue HAckImm w = EAck <$> li ->
  queue HAckDelayed w2 = EAck <$> (ld ++ rest) -> NoDup (ld ++ rest) ->
  (forall p, p ∈ ld ++ rest -> p ∉ li) ->
  queue HAckImm w3 = [] /\ queue HAckDelayed w3 = EAck <$> rest /\
  (forall p, partners w3 !! p = (if decide (p ∈ li ++ ld) then acked else id) <$> partners w !! p) /\
  trace w3 = rev (omap (ack_action w) (li ++ ld)) ++ trace w.
Proof.
  intros A1 Hw2 A3 Himm Hdel Hnd Hdisj. apply NoDup_app in Hnd as (_ & Hd & _).
  assert (Hp2 : forall p, p ∈ ld -> partners w2 !! p = partners w !! p).
  { intros p Hp. subst w2. fsimp. rewrite (as_partners _ _ _ A1), decide_False.
    - apply option_fmap_id.
    - apply Hdisj, elem_of_app. by left. }
  split; [|split; [|split]].
  - rewrite (as_queue _ _ _ A3). subst w2. change (queue HAckImm (set _ _ w1)) with (queue HAckImm w1).
    by rewrite (as_queue _ _ _ A1), Himm, filter_acks, filter_self.
  - rewrite (as_queue _ _ _ A3), Hdel, filter_acks, filter_app, filter_self, list_filter_all; [done|].
    apply Forall_forall. intros p Hr Hp. by apply (Hd p).
  - intros p. rewrite (as_partners _ _ _ A3). destruct (decide (p ∈ ld)) as [Hp|Hp].
    + rewrite Hp2, decide_True by (done || (apply elem_of_app; by right)). done.
    + subst w2. fsimp. rewrite (as_partners _ _ _ A1), option_fmap_id.
      destruct (decide (p ∈ li)) as [Hi|Hi].
      * rewrite decide_True; [done|apply elem_of_app; by left].
      * rewrite decide_False; [done|]. by intros [?|?]%elem_of_app.
  - rewrite (as_trace _ _ _ A3), (ack_action_ext w) by done. subst w2. fsimp.
    by rewrite (as_trace _ _ _ A1), omap_app, rev_app_distr, <- app_assoc.
Qed.
End sending.

(** ** The theorems *)

Section theorems.
Context `{App} (index_to_addr addr_to_index : Z -> omx_return + Z).

(** C10. No owed acknowledgement is ever lost: in every execution, of any calls,
    packets and connection events, a partner is linked in the queue of
    immediate acks, in the queue of delayed acks, or in none, exactly as its
    [need_ack] field says, and at most once. *)
Theorem owed_acks_tracked w w' :
  (forall h c w, unexp_handler = Some h -> acks_ok w -> acks_ok (snd (h c w))) ->
  acks_ok w -> rtc (endpoint_step index_to_addr addr_to_index) w w' -> acks_ok w'.
Proof. intros Hh. exact (steps_preserve index_to_addr addr_to_index acks_ok Hh w w'). Qed.

(** C11. The ack loop pays every debt: with an accepting driver it sends one
    library ack, carrying the first sequence number not entirely received, to
    each partner of the immediate queue and then to each delayed partner whose
    delay is over, in order; these partners owe nothing any more, the others
    are untouched. *)
Theorem owed_acks_sent w li ld rest :
  acks_ok w -> ioctls w = [] -> last_partners_acking_jiffies w <> jiffies w ->
  queue HAckImm w = EAck <$> li -> queue HAckDelayed w = EAck <$> (ld ++ rest) ->
  Forall (due w) ld -> (forall p, head rest = Some p -> ~ due w p) ->
  exists w', omx__process_partners_to_ack w = Ret tt w' /\
    queue HAckImm w' = [] /\ queue HAckDelayed w' = EAck <$> rest /\
    (forall p, partners w' !! p = (if decide (p ∈ li ++ ld) then acked else id) <$> partners w !! p) /\
    trace w' = rev (omap (ack_action w) (li ++ ld)) ++ trace w.
Proof.
  intros Hw Hi Hlast Himm Hdel Hdue Hrest.
  destruct (owes_linked w HAckImm li Hw Himm) as [Hndi Hoi].
  destruct (owes_linked w HAckDelayed (ld ++ rest) Hw Hdel) as [Hndd Hod].
  assert (Hdisj : forall p, p ∈ ld ++ rest -> p ∉ li).
  { intros p H2 H1. assert (p ∈ acks HAckImm (qs w)) as H3.
    { unfold acks. unfold queue in Himm. by rewrite Himm, omap_acks. }
    assert (p ∈ acks HAckDelayed (qs w)) as H4.
    { unfold acks. unfold queue in Hdel. by rewrite Hdel, omap_acks. }
    rewrite (ao_imm _ Hw) in H3. rewrite (ao_del _ Hw) in H4. congruence. }
  destruct (until_acks ack_partner [] li w Hndi Hi Hoi) as (w1 & E1 & A1); [done..|].
  rewrite app_nil_r in E1. destruct (as_clock _ _ _ A1) as (Hj & Hg & Hl).
  set (w2 := w1 <| last_partners_acking_jiffies := jiffies w |>).
  assert (Hsame : forall p, p ∉ li -> partners w2 !! p = partners w !! p).
  { intros p Hp. unfold w2. fsimp. rewrite (as_partners _ _ _ A1), decide_False by done.
    apply option_fmap_id. }
  assert (Hq2 : queue HAckDelayed w2 = EAck <$> (ld ++ rest)).
  { change (queue HAckDelayed w2) with (queue HAckDelayed w1).
    rewrite (as_queue _ _ _ A1), Hdel, filter_acks, list_filter_all; [done|]. by apply Forall_forall. }
  destruct (delayed_stage w2 ld rest) as (w3 & E3 & A3); [done|exact (as_ioctls _ _ _ A1)|..].
  { rewrite Forall_forall in *. intros p Hp. destruct (Hod p Hp) as (q & Hq & Hn). exists q.
    rewrite Hsame; [done|by apply Hdisj]. }
  { rewrite Forall_forall in *. intros p Hp q. rewrite Hsame by (apply Hdisj, elem_of_app; by left).
    unfold w2. fsimp. rewrite Hj, Hg. by apply Hdue. }
  { intros p Hp Hd. apply (Hrest p Hp). intros q Hq. destruct rest as [|p' rest]; [done|].
    injection Hp as ->. rewrite <- Hsame in Hq by (apply Hdisj, elem_of_app; right; by left).
    specialize (Hd q Hq). unfold w2 in Hd. fsimp. by rewrite Hj, Hg in Hd. }
  exists w3. split.
  { unfold omx__process_partners_to_ack, jiffies_now. rewrite (bind_run _ _ w (jiffies w) w) by done.
    rewrite (bind_run _ _ _ _ _ (ids_run _ _)), Himm, ids_acks.
    rewrite (bind_run _ _ _ _ _ E1), get_bind, Hl.
    rewrite (proj2 (Z.eqb_neq _ _)) by done. rewrite (bind_run _ _ w1 tt w2) by done.
    rewrite (bind_run _ _ _ _ _ (ids_run _ _)), Hq2, ids_acks. rewrite <- E3. unfold w2 at 2 3.
    fsimp. by rewrite Hj. }
  by apply (paid w w1 w2 w3 li ld rest).
Qed.
End theorems.

(** ** Witnesses *)

(** Partner 3 is owed an immediate ack, the ack of partner 5 is delayed since
    instant 985. *)
Definition ack_world : world := sample_world
  <| partners := <[3 := (sample_partner 1 1 20 18 16 16) <| p_need_ack := NEED_ACK_IMMEDIATE |>]>
      (<[5 := (sample_partner 2 1 30 30 40 40) <| p_need_ack := NEED_ACK_DELAYED |>
              <| p_oldest_recv_time_not_acked := 985 |>]> ∅) |>
  <| qs ::= <[HAckImm := [EAck 3]]> |> <| qs ::= <[HAckDelayed := [EAck 5]]> |>.

Lemma queues_else (F : gmap node (list node)) h :
  forallb (fun p => bool_decide (fst p = HAckImm) || bool_decide (fst p = HAckDelayed)
    || bool_decide (omap ack_of (snd p) = [])) (map_to_list F) = true ->
  h <> HAckImm -> h <> HAckDelayed -> acks h F = [].
Proof.
  rewrite forallb_forall. intros Hf H1 H2. unfold acks. destruct (F !! h) as [l|] eqn:Hl; [|done].
  apply elem_of_map_to_list, list_elem_of_In in Hl. specialize (Hf _ Hl). cbn [fst snd] in Hf.
  rewrite !bool_decide_false in Hf by done. cbn in Hf. by apply bool_decide_eq_true in Hf.
Qed.
Lemma sample_acks_ok : acks_ok sample_world.
Proof.
  assert (Hn : forall p, need (partners sample_world) p = NEED_NO_ACK).
  { intros p. unfold sample_world. cbn [partners]. rewrite !need_insert. by repeat case_decide. }
  assert (Hi : acks HAckImm (qs sample_world) = []) by (vm_compute; reflexivity).
  assert (Hd : acks HAckDelayed (qs sample_world) = []) by (vm_compute; reflexivity).
  split; [by eexists|by eexists| | | | | |].
  - intros p. rewrite Hn, Hi. split; [by intros ?%elem_of_nil|done].
  - intros p. rewrite Hn, Hd. split; [by intros ?%elem_of_nil|done].
  - intros h. apply queues_else. vm_compute. reflexivity.
  - rewrite Hi. apply NoDup_nil_2.
  - rewrite Hd. apply NoDup_nil_2.
  - intros p q. unfold sample_world. cbn [partners].
    by intros [[<- <-]|[_ [[<- <-]|[_ ?]]%lookup_insert_Some]]%lookup_insert_Some.
Qed.
Lemma ack_world_ok : acks_ok ack_world.
Proof.
  assert (Hn : forall p, need (partners ack_world) p =
    if decide (p = 3) then NEED_ACK_IMMEDIATE else if decide (p = 5) then NEED_ACK_DELAYED else NEED_NO_ACK).
  { intros p. unfold ack_world. fsimp. rewrite !need_insert. by repeat case_decide. }
  assert (Hi : acks HAckImm (qs ack_world) = [3]) by (vm_compute; reflexivity).
  assert (Hd : acks HAckDelayed (qs ack_world) = [5]) by (vm_compute; reflexivity).
  split; [by eexists|by eexists| | | | | |].
  - intros p. rewrite Hn, Hi, list_elem_of_singleton. split; repeat case_decide; congruence.
  - intros p. rewrite Hn, Hd, list_elem_of_singleton. split; repeat case_decide; congruence.
  - intros h. apply queues_else. vm_compute. reflexivity.
  - rewrite Hi. apply NoDup_singleton.
  - rewrite Hd. apply NoDup_singleton.
  - intros p q. intros Hq.
    change (partner_index ack_world) with (partner_index sample_world). revert Hq.
    unfold ack_world. fsimp.
    intros [[<- <-]|[_ [[<- <-]|[_ ?]]%lookup_insert_Some]]%lookup_insert_Some; [vm_compute; reflexivity..|done].
Qed.

(** A small message of partner 3 arrives: its ack is delayed. *)
Definition ack_sample_call : call :=
  CallProgress (fun i => if i =? 0 then (1, EvtRecv (sample_small 16)) else (0, EvtIgnore)) empty_ring.
Lemma owed_acks_tracked_witness : exists w',
  rtc (endpoint_step (H := sample_app) no_peer no_peer) sample_world w' /\
  acks HAckDelayed (qs w') = [3] /\ acks_ok w'.
Proof.
  pose (o := run_call (H := sample_app) no_peer no_peer empty_ring empty_ring ack_sample_call
    sample_world).
  assert (Ho : o = Ret tt (final o)) by (apply run_final; vm_compute; reflexivity).
  exists (final o).
  assert (Hs : rtc (endpoint_step (H := sample_app) no_peer no_peer) sample_world (final o)).
  { apply rtc_once. exact (StepCall (H := sample_app) _ _ _ _ _ _ _ Ho). }
  split; [exact Hs|]. split; [vm_compute; reflexivity|].
  apply (owed_acks_tracked (H := sample_app) no_peer no_peer sample_world (final o)); [| |exact Hs].
  - intros h c w [=].
  - exact sample_acks_ok.
Defined.
Lemma owed_acks_sent_witness : exists w',
  omx__process_partners_to_ack ack_world = Ret tt w' /\ queue HAckImm w' = [] /\
  queue HAckDelayed w' = [] /\ length (trace w') = 2%nat.
Proof.
  destruct (owed_acks_sent ack_world [3] [5] []) as (w' & E & Hi & Hd & _ & Ht).
  - exact ack_world_ok.
  - reflexivity.
  - vm_compute. discriminate.
  - reflexivity.
  - reflexivity.
  - apply Forall_singleton. intros q [= <-]. vm_compute. discriminate.
  - intros p [=].
  - exists w'. split; [exact E|]. split; [exact Hi|]. split; [exact Hd|]. rewrite Ht. vm_compute.
    reflexivity.
Defined.
End AckQueues.
