(* ===== verification/Matching.v ===== *)
(** Matching of messages and receives: both sides take the first candidate in
    posting or arrival order, and splitting the queues by context identifier
    never hides a match. *)
From S2P Require Import Prelude DList Seqnum Segments World SendqMap Request Region Send Large Ack.
From S2P Require Import Recv Unexp Connect Progress Samples.
Import DList Seqnum Mem Segs SendqMap Request Partner Complete Regions Send Large Ack Recv Unexp.
Import Connect Progress Samples.

Module Matching.

(** The first element of a list that satisfies a test. *)
Definition first_such {A} (f : A -> bool) (l : list A) : option A := List.find f l.

Definition posted_match (w : world) (match_info : Z) (req : Z) : bool :=
  match reqs w !! req with Some x => recv_matches x match_info | None => false end.
Definition unexp_match (w : world) (match_info match_mask : Z) (req : Z) : bool :=
  match reqs w !! req with Some x => Z.land (s_match_info x) match_mask =? match_info | None => false end.
Definition live (w : world) (req : Z) : Prop := is_Some (reqs w !! req).

Section matching.
Context `{App}.

Lemma find_recv_run w match_info l : Forall (live w) l ->
  find_recv match_info l w = Ret (first_such (posted_match w match_info) l) w.
Proof.
  induction 1 as [|req l [x Hx] _ IH]; [done|]. cbn [find_recv].
  rewrite (bind_run _ _ _ _ _ (get_req_run _ _ _ Hx)). unfold first_such in *. cbn [List.find].
  unfold posted_match at 1. rewrite Hx. by destruct (recv_matches x match_info).
Qed.
Lemma find_unexp_run w match_info match_mask l : Forall (live w) l ->
  find_unexp match_info match_mask l w = Ret (first_such (unexp_match w match_info match_mask) l) w.
Proof.
  induction 1 as [|req l [x Hx] _ IH]; [done|]. cbn [find_unexp].
  rewrite (bind_run _ _ _ _ _ (get_req_run _ _ _ Hx)). unfold first_such in *. cbn [List.find].
  unfold unexp_match at 1. rewrite Hx. by destruct (_ =? match_info).
Qed.

(** C12. An incoming message is matched with the oldest posted receive that
    accepts it, which alone leaves the posted receives; when no posted receive
    accepts it nothing changes. *)
Theorem match_recv_oldest w match_info l :
  let c := CTXID_FROM_MATCHING w match_info in
  queue (HCtxRecv c) w = EQueue <$> l -> Forall (live w) l -> NoDup l ->
  exists r w', omx__match_recv match_info w = Ret r w' /\
  match r with
  | Some req => exists l1 l2, l = l1 ++ req :: l2 /\
      Forall (fun y => posted_match w match_info y = false) l1 /\
      posted_match w match_info req = true /\
      queue (HCtxRecv c) w' = EQueue <$> (l1 ++ l2) /\
      w' = w <| qs ::= q_del (EQueue req) |>
  | None => Forall (fun y => posted_match w match_info y = false) l /\ w' = w
  end.
Proof.
  intros c Hq Hl Hnd.
  assert (Hids : node_id <$> (EQueue <$> l) = l).
  { rewrite <- list_fmap_compose. apply list_fmap_id. }
  unfold omx__match_recv, ctxid_of. rewrite (bind_run _ _ w c w) by done.
  rewrite (bind_run _ _ _ _ _ (ids_run _ _)), Hq, Hids.
  rewrite (bind_run _ _ _ _ _ (find_recv_run w match_info l Hl)).
  destruct (first_such (posted_match w match_info) l) as [req|] eqn:Hf.
  - exists (Some req), (w <| qs ::= q_del (EQueue req) |>). split; [done|].
    assert (Hs : exists l1 l2, l = l1 ++ req :: l2 /\
      Forall (fun y => posted_match w match_info y = false) l1 /\ posted_match w match_info req = true).
    { clear Hq Hl Hnd Hids. induction l as [|y l IH]; [done|]. unfold first_such in *. cbn in Hf.
      destruct (posted_match w match_info y) eqn:Hy.
      - injection Hf as ->. by exists [], l.
      - destruct (IH Hf) as (l1 & l2 & -> & H1 & H2). exists (y :: l1), l2. by repeat constructor. }
    destruct Hs as (l1 & l2 & -> & H1 & H2). exists l1, l2. split; [done|]. split; [done|].
    split; [done|]. split; [|done]. unfold queue in *. fsimp. unfold q_del. rewrite lookup_fmap.
    destruct (qs w !! HCtxRecv c) as [k|] eqn:Hk; [|by destruct l1]. cbn in Hq. subst k. cbn.
    rewrite fmap_app, fmap_cons, remove_elt_middle, <- fmap_app; [done|].
    rewrite <- fmap_cons, <- fmap_app. apply NoDup_fmap_2; [|done]. by intros ? ? [=].
  - exists None, w. split; [done|]. split; [|done]. apply Forall_forall. intros y Hy.
    by apply (List.find_none _ _ Hf), list_elem_of_In.
Qed.
End matching.

(** ** Context identifiers *)

(** The configuration of an opened endpoint. *)
Record ctxid_config (w : world) : Prop := {
  cc_bits : 0 <= ctxid_bits w;
  cc_shift : 0 <= ctxid_shift w;
  cc_max : ctxid_max w = 2 ^ ctxid_bits w;
  cc_mask : ctxid_mask w = Z.shiftl (ctxid_max w - 1) (ctxid_shift w)
}.

Lemma ctxid_bit w n k : ctxid_config w -> 0 <= k ->
  Z.testbit (Z.land (Z.shiftr n (ctxid_shift w)) (ctxid_max w - 1)) k =
  Z.testbit n (k + ctxid_shift w) && (k <? ctxid_bits w).
Proof.
  intros Hc Hk. rewrite Z.land_spec, Z.shiftr_spec by lia.
  replace (ctxid_max w - 1) with (Z.ones (ctxid_bits w))
    by (rewrite Z.ones_equiv, (cc_max _ Hc); lia).
  rewrite Z.testbit_ones_nonneg by (done || apply Hc). done.
Qed.

(** Splitting the receives and the unexpected messages by context
    identifier is sound: a receive the library accepts and a message it
    matches always have the same identifier, so the message is looked up in
    the queue the receive was posted to, and the receive looks in the queue
    where the message waits. *)
Lemma ctxid_split_sound w x match_info :
  ctxid_config w ->
  bad_match w (r_match_info x) (r_match_mask x) = None ->
  recv_matches x match_info = true ->
  CTXID_FROM_MATCHING w (r_match_info x) = CTXID_FROM_MATCHING w match_info /\
  unexp_queue w (r_match_info x) = unexp_queue w match_info.
Proof.
  intros Hc Hb Hm.
  assert (He : CTXID_FROM_MATCHING w (r_match_info x) = CTXID_FROM_MATCHING w match_info);
    [|split; [done|]; unfold unexp_queue; by rewrite He].
  unfold bad_match in Hb. destruct (Z.eqb_spec (Z.ldiff (r_match_info x) (r_match_mask x)) 0); [|done].
  destruct (Z.eqb_spec (Z.ldiff (ctxid_mask w) (r_match_mask x)) 0) as [Hd|]; [|done].
  apply Z.eqb_eq in Hm. unfold CTXID_FROM_MATCHING. f_equal. apply Z.bits_inj'. intros k Hk.
  rewrite !ctxid_bit by done. destruct (Z.ltb_spec k (ctxid_bits w)) as [Hlt|]; [|by rewrite !andb_false_r].
  rewrite Hm, Z.land_spec. pose proof (cc_shift _ Hc) as Hs.
  assert (Hmask : Z.testbit (ctxid_mask w) (k + ctxid_shift w) = true).
  { rewrite (cc_mask _ Hc), Z.shiftl_spec by lia. replace (k + ctxid_shift w - ctxid_shift w) with k by lia.
    replace (ctxid_max w - 1) with (Z.ones (ctxid_bits w))
      by (rewrite Z.ones_equiv, (cc_max _ Hc); lia).
    rewrite Z.testbit_ones_nonneg by lia. by apply Z.ltb_lt. }
  assert (Hbit : Z.testbit (r_match_mask x) (k + ctxid_shift w) = true).
  { assert (H0 : Z.testbit (Z.ldiff (ctxid_mask w) (r_match_mask x)) (k + ctxid_shift w) = false)
      by (rewrite Hd; apply Z.bits_0).
    rewrite Z.ldiff_spec, Hmask in H0. by destruct (Z.testbit (r_match_mask x) (k + ctxid_shift w)). }
  by rewrite Hbit.
Qed.

(** ** Witnesses *)

Definition posted (match_info match_mask : Z) : request :=
  blank_request <| r_type := OMX_REQUEST_TYPE_RECV |> <| r_match_info := match_info |>
    <| r_match_mask := match_mask |>.
(** Three posted receives: for 41, for anything, for 42. *)
Definition posted_world : world := sample_world
  <| reqs := <[21 := posted 41 255]> (<[22 := posted 0 0]> (<[23 := posted 42 255]> ∅)) |>
  <| qs ::= <[HCtxRecv 0 := [EQueue 21; EQueue 22; EQueue 23]]> |>.
Lemma match_recv_oldest_witness : exists w', omx__match_recv 42 posted_world = Ret (Some 22) w' /\
  queue (HCtxRecv 0) w' = [EQueue 21; EQueue 23].
Proof.
  destruct (match_recv_oldest posted_world 42 [21; 22; 23]) as (r & w' & E & Hr).
  - reflexivity.
  - repeat constructor; by eexists.
  - apply (bool_decide_unpack _). vm_compute. exact I.
  - assert (Hr22 : result (omx__match_recv 42 posted_world) = Some (Some 22)) by (vm_compute; reflexivity).
    rewrite E in Hr22. injection Hr22 as ->. destruct Hr as (l1 & l2 & Hl & H1 & H2 & H3 & H4).
    exists w'. split; [exact E|]. rewrite H4. reflexivity.
Defined.
(** Eight identifiers in bits 8 to 10. *)
Definition ctxid_world : world := sample_world <| ctxid_bits := 3 |> <| ctxid_max := 8 |>
  <| ctxid_shift := 8 |> <| ctxid_mask := 1792 |>.
Lemma ctxid_split_sound_witness :
  CTXID_FROM_MATCHING ctxid_world 1280 = 5 /\
  CTXID_FROM_MATCHING ctxid_world 1280 = CTXID_FROM_MATCHING ctxid_world 1334.
Proof.
  split; [reflexivity|].
  refine (proj1 (ctxid_split_sound ctxid_world (posted 1280 1792) 1334 _ _ _)).
  - by split.
  - reflexivity.
  - reflexivity.
Defined.
End Matching.
