(* ===== verification/Done.v ===== *)
(** The queue of completed requests: a queue from which any element can be
    taken, refined by the two kinds of lists of the endpoint. *)
From S2P Require Import Prelude Io DList Seqnum Segments World SendqMap Request Region Send Large.
From S2P Require Import Ack Recv Unexp Connect Progress Test Matching Samples.
Import Io DList Seqnum Segs SendqMap Request Partner Complete Ack Unexp Connect Progress Test Matching Samples.

Module Done.

(** ** The invariant *)

(** A completed request that the application was not told about. *)
Definition ready (x : request) : bool :=
  hasf (r_state x) OMX_REQUEST_STATE_DONE && negb (hasf (r_state x) OMX_REQUEST_STATE_ZOMBIE)
  && negb (hasf (r_state x) OMX_REQUEST_STATE_INTERNAL).
Definition ready_at (w : world) (r : Z) : bool := match reqs w !! r with Some x => ready x | None => false end.
Definition ctx_at (w : world) (r : Z) : option Z := (fun x => CTXID_FROM_MATCHING w (s_match_info x)) <$> reqs w !! r.
Definition in_ctx (w : world) (c : Z) (l : list Z) : list Z := filter (fun r => ctx_at w r = Some c) l.

(** [l] is the completed requests in the order of their completion: it is the
    list of the endpoint, and each context has the list of its own. *)
Record done_ok (w : world) (l : list Z) : Prop := {
  dn_queue : queue HDone w = EDone <$> l;
  dn_nodup : NoDup l;
  dn_ready r : r ∈ l <-> ready_at w r = true;
  dn_head : is_Some (qs w !! HDone);
  dn_ctx_head m : is_Some (qs w !! HCtxDone (CTXID_FROM_MATCHING w m));
  dn_ctx c : HAS_CTXIDS w = true -> queue (HCtxDone c) w = ECtxid <$> in_ctx w c l }.

(** ** Queues *)
Lemma list_filter_ext_in (P Q : Z -> Prop) `{!forall x, Decision (P x)} `{!forall x, Decision (Q x)} (l : list Z) :
  (forall x, x ∈ l -> P x <-> Q x) -> filter P l = filter Q l.
Proof.
  induction l as [|x l IH]; intros Hx; [done|]. rewrite !filter_cons, IH by (intros y Hy; apply Hx; by right).
  pose proof (Hx x (list_elem_of_here _ _)). repeat case_decide; tauto || done.
Qed.
Lemma queue_del h e w : queue h (w <| qs ::= q_del e |>) = remove_elt e (queue h w).
Proof. unfold queue, q_del. fsimp. rewrite lookup_fmap. by destruct (qs w !! h). Qed.
Lemma queue_add h hd e w : is_Some (qs w !! hd) ->
  queue h (w <| qs ::= q_add_tail e hd |>) = if decide (h = hd) then queue h w ++ [e] else queue h w.
Proof.
  intros [l Hl]. unfold queue, q_add_tail. fsimp. destruct (decide (h = hd)) as [->|Hn].
  - by rewrite lookup_alter_eq, Hl.
  - by rewrite lookup_alter_ne.
Qed.
Lemma remove_fmap {A} `{EqDecision A} (f : Z -> A) `{!Inj (=) (=) f} r l : remove_elt (f r) (f <$> l) = f <$> remove_elt r l.
Proof.
  induction l as [|y l IH]; [done|]. rewrite fmap_cons. destruct (decide (y = r)) as [->|Hn].
  - rewrite !remove_elt_cons_eq. apply IH.
  - rewrite !remove_elt_cons_ne by (by intros ?%(inj f) || done). by rewrite fmap_cons, IH.
Qed.
Lemma remove_other {A} `{EqDecision A} (f : Z -> A) e l : (forall r, f r <> e) -> remove_elt e (f <$> l) = f <$> l.
Proof. intros Hf. apply remove_elt_notin. intros (r & Hr & _)%list_elem_of_fmap. by apply (Hf r). Qed.
#[export] Instance EDone_inj : Inj (=) (=) EDone. Proof. by intros ? ? [=]. Qed.
#[export] Instance ECtxid_inj : Inj (=) (=) ECtxid. Proof. by intros ? ? [=]. Qed.
Lemma ids_done (l : list Z) : node_id <$> (EDone <$> l) = l.
Proof. rewrite <- list_fmap_compose. apply list_fmap_id. Qed.
Lemma ids_ctx (l : list Z) : node_id <$> (ECtxid <$> l) = l.
Proof. rewrite <- list_fmap_compose. apply list_fmap_id. Qed.

Section done.
Context `{App}.

(** ** The primitive changes *)

Definition undone (r : Z) (w : world) : world :=
  if HAS_CTXIDS w then w <| qs ::= q_del (EDone r) |> <| qs ::= q_del (ECtxid r) |> else w <| qs ::= q_del (EDone r) |>.
Lemma dequeue_done_run r w : omx__dequeue_done_request r w = Ret tt (undone r w).
Proof. unfold omx__dequeue_done_request, undone. destruct (HAS_CTXIDS w) eqn:E; cbv [unlink on_qs modify mbind M_bind get when]; change (HAS_CTXIDS (w <| qs ::= q_del (EDone r) |>)) with (HAS_CTXIDS w); by rewrite E. Qed.
Definition redone (c r : Z) (w : world) : world :=
  if HAS_CTXIDS w then w <| qs ::= q_add_tail (EDone r) HDone |> <| qs ::= q_add_tail (ECtxid r) (HCtxDone c) |>
  else w <| qs ::= q_add_tail (EDone r) HDone |>.
Lemma enqueue_done_run c r w : enqueue_done c r w = Ret tt (redone c r w).
Proof. unfold enqueue_done, redone. destruct (HAS_CTXIDS w) eqn:E; cbv [add_tail on_qs modify mbind M_bind get when]; change (HAS_CTXIDS (w <| qs ::= q_add_tail (EDone r) HDone |>)) with (HAS_CTXIDS w); by rewrite E. Qed.

Definition same_ctx (w w' : world) : Prop :=
  ctxid_bits w' = ctxid_bits w /\ ctxid_shift w' = ctxid_shift w /\ ctxid_max w' = ctxid_max w.
Lemma same_ctx_eq w w' : same_ctx w w' -> HAS_CTXIDS w' = HAS_CTXIDS w /\ forall m, CTXID_FROM_MATCHING w' m = CTXID_FROM_MATCHING w m.
Proof. intros (H1 & H2 & H3). unfold HAS_CTXIDS, CTXID_FROM_MATCHING. by rewrite H1, H2, H3. Qed.
Lemma ctx_at_eq w w' r : same_ctx w w' -> s_match_info <$> reqs w' !! r = s_match_info <$> reqs w !! r -> ctx_at w' r = ctx_at w r.
Proof.
  intros Hc%same_ctx_eq Hr. unfold ctx_at. destruct (reqs w' !! r), (reqs w !! r); try done. injection Hr as Hr. cbn. by rewrite (proj2 Hc), Hr.
Qed.

(** Nothing changes but requests that were and are not ready. *)
Lemma done_frame w w' l : done_ok w l -> same_ctx w w' -> qs w' = qs w ->
  (forall r, reqs w' !! r = reqs w !! r \/ ready_at w r = false /\ ready_at w' r = false) -> done_ok w' l.
Proof.
  intros [H1 H2 H3 H4 H5 H6] Hc Hq Hr. pose proof (same_ctx_eq _ _ Hc) as [Hh Hm]. split.
  - unfold queue in *. by rewrite Hq.
  - done.
  - intros r. rewrite H3. destruct (Hr r) as [E|[-> ->]]; [|done]. unfold ready_at. by rewrite E.
  - by rewrite Hq.
  - intros m. rewrite Hq, Hm. apply H5.
  - intros c Hx. rewrite Hh in Hx. specialize (H6 c Hx). unfold queue in *. rewrite Hq, H6. f_equal. apply list_filter_ext_in.
    intros r Hin. assert (E : ctx_at w' r = ctx_at w r); [|by rewrite E]. apply ctx_at_eq; [done|].
    destruct (Hr r) as [->|[Hn _]]; [done|]. apply H3 in Hin. congruence.
Qed.
Lemma done_removed w w' l r : done_ok w l -> same_ctx w w' -> qs w' = qs (undone r w) ->
  (forall y, y <> r -> reqs w' !! y = reqs w !! y) -> ready_at w' r = false -> done_ok w' (remove_elt r l).
Proof.
  intros [H1 H2 H3 H4 H5 H6] Hc Hq Hy Hr. pose proof (same_ctx_eq _ _ Hc) as [Hh Hm].
  assert (Hqd : forall h, queue h w' = queue h (undone r w)) by (intros h; unfold queue; by rewrite Hq).
  assert (Hsome : forall h, is_Some (qs w !! h) -> is_Some (qs w' !! h)).
  { intros h [k Hk]. rewrite Hq. unfold undone, q_del. destruct (HAS_CTXIDS w); fsimp; rewrite !lookup_fmap, Hk; by eexists. }
  split.
  - rewrite Hqd. unfold undone. destruct (HAS_CTXIDS w); rewrite ?queue_del, H1, remove_fmap by apply _; [by rewrite remove_other|done].
  - by apply NoDup_remove_elt.
  - intros y. rewrite elem_of_remove_elt, H3. destruct (decide (y = r)) as [->|Hn]; [rewrite Hr; naive_solver|].
    unfold ready_at. rewrite (Hy y Hn). naive_solver.
  - by apply Hsome.
  - intros m. rewrite Hm. by apply Hsome.
  - intros c Hx. rewrite Hh in Hx. rewrite Hqd. unfold undone. rewrite Hx, !queue_del, (H6 c Hx), (remove_other ECtxid), remove_fmap by (done || apply _).
    f_equal. unfold in_ctx, remove_elt. rewrite !list_filter_filter. apply list_filter_iff. intros y.
    destruct (decide (y = r)) as [->|Hn]; [naive_solver|]. rewrite (ctx_at_eq w w' y) by (done || by rewrite Hy). naive_solver.
Qed.
Lemma done_added w w' l r x x' : done_ok w l -> same_ctx w w' -> reqs w !! r = Some x -> ready x = false ->
  qs w' = qs (redone (CTXID_FROM_MATCHING w (s_match_info x)) r w) -> reqs w' = <[r := x']> (reqs w) ->
  ready x' = true -> s_match_info x' = s_match_info x -> done_ok w' (l ++ [r]).
Proof.
  intros [H1 H2 H3 H4 H5 H6] Hc Hx Hnr Hq Hw Hr Hmi. pose proof (same_ctx_eq _ _ Hc) as [Hh Hm].
  set (c0 := CTXID_FROM_MATCHING w (s_match_info x)) in *.
  assert (Hqd : forall h, queue h w' = queue h (redone c0 r w)) by (intros h; unfold queue; by rewrite Hq).
  assert (Hnin : r ∉ l) by (rewrite H3; unfold ready_at; rewrite Hx; congruence).
  assert (Hsome : forall h, is_Some (qs w !! h) -> is_Some (qs w' !! h)).
  { intros h [k Hk]. rewrite Hq. unfold redone, q_add_tail. destruct (HAS_CTXIDS w); fsimp.
    - rewrite !lookup_alter, Hk. repeat case_decide; rewrite ?fmap_is_Some; done || apply H5.
    - rewrite !lookup_alter, Hk. case_decide; by rewrite ?fmap_is_Some. }
  assert (Hctx : forall y, ctx_at w' y = ctx_at w y).
  { intros y. apply ctx_at_eq; [done|]. rewrite Hw. destruct (decide (y = r)) as [->|Hn]; [by rewrite lookup_insert_eq, Hx; cbn; rewrite Hmi|by rewrite lookup_insert_ne]. }
  assert (Hadd : forall h, is_Some (qs (w <| qs ::= q_add_tail (EDone r) HDone |>) !! h) <-> is_Some (qs w !! h)).
  { intros h. unfold q_add_tail. fsimp. rewrite lookup_alter. case_decide; [subst|done]. by rewrite fmap_is_Some. }
  split.
  - rewrite Hqd. unfold redone. destruct (HAS_CTXIDS w).
    + rewrite queue_add by apply Hadd, H5. rewrite decide_False by done. rewrite queue_add, decide_True, H1, fmap_app by done. done.
    + rewrite queue_add, decide_True, H1, fmap_app by done. done.
  - apply NoDup_app. split_and!; [done| |apply NoDup_singleton]. by intros y Hy ->%list_elem_of_singleton.
  - intros y. rewrite elem_of_app, list_elem_of_singleton, H3. unfold ready_at. rewrite Hw. destruct (decide (y = r)) as [->|Hn].
    + rewrite lookup_insert_eq, Hr. naive_solver.
    + rewrite lookup_insert_ne by done. naive_solver.
  - by apply Hsome.
  - intros m. rewrite Hm. by apply Hsome.
  - intros c Hx'. rewrite Hh in Hx'. rewrite Hqd. unfold redone. rewrite Hx'. rewrite queue_add by apply Hadd, H5.
    rewrite !queue_add by done. rewrite (decide_False (P := HCtxDone c = HDone)) by done. rewrite (H6 c Hx').
    unfold in_ctx. rewrite filter_app, fmap_app. assert (E : filter (fun y => ctx_at w' y = Some c) l = filter (fun y => ctx_at w y = Some c) l).
    { apply list_filter_iff. intros y. by rewrite Hctx. }
    rewrite E. assert (Hc0 : ctx_at w' r = Some c0) by (rewrite Hctx; unfold ctx_at; by rewrite Hx).
    destruct (decide (HCtxDone c = HCtxDone c0)) as [[= ->]|Hn].
    + by rewrite filter_cons_True.
    + rewrite filter_cons_False; [cbn; by rewrite app_nil_r|]. rewrite Hc0. intros [= ->]. done.
Qed.

(** ** Flags *)
Lemma hasf_setf_ne s i j : 0 <= i -> 0 <= j -> i <> j -> hasf (setf (2 ^ i) s) (2 ^ j) = hasf s (2 ^ j).
Proof. intros Hi Hj Hn. rewrite !hasf_pow2 by done. unfold setf. rewrite Z.lor_spec, Z.pow2_bits_false by done. apply orb_false_r. Qed.
Lemma hasf_clrf_ne s i j : 0 <= i -> 0 <= j -> i <> j -> hasf (clrf (2 ^ i) s) (2 ^ j) = hasf s (2 ^ j).
Proof. intros Hi Hj Hn. rewrite !hasf_pow2 by done. unfold clrf. rewrite Z.ldiff_spec, Z.pow2_bits_false by done. apply andb_true_r. Qed.
Definition is_done (x : request) : bool := hasf (r_state x) OMX_REQUEST_STATE_DONE.
Definition is_zombie (x : request) : bool := hasf (r_state x) OMX_REQUEST_STATE_ZOMBIE.
Definition is_internal (x : request) : bool := hasf (r_state x) OMX_REQUEST_STATE_INTERNAL.
Lemma ready_flags x : ready x = is_done x && negb (is_zombie x) && negb (is_internal x).
Proof. done. Qed.
Lemma ready_set_done x : ready (set r_state (setf OMX_REQUEST_STATE_DONE) x) = negb (is_zombie x) && negb (is_internal x).
Proof.
  unfold ready. fsimp. unfold OMX_REQUEST_STATE_DONE, OMX_REQUEST_STATE_ZOMBIE, OMX_REQUEST_STATE_INTERNAL.
  rewrite setf_pow2_has, !hasf_setf_ne by lia. done.
Qed.
Lemma ready_set_zombie x : ready (set r_state (setf OMX_REQUEST_STATE_ZOMBIE) x) = false.
Proof.
  unfold ready. fsimp. unfold OMX_REQUEST_STATE_ZOMBIE. rewrite setf_pow2_has by lia. by destruct (hasf _ _).
Qed.

(** ** Operations on completed requests *)

Inductive done_op :=
  | NotifyEarly (r : Z) | NotifyDone (r : Z) | TestOne (r : Z) | TestAny (match_info match_mask : Z) | Peek | Forget (r : Z).
(** What the caller learns. *)
Inductive answer := Nothing | Told (st : status) | Shown (r : Z).
Definition told (o : option status) : answer := match o with Some st => Told st | None => Nothing end.
Definition run_op (op : done_op) : M answer :=
  match op with
  | NotifyEarly r => x ← get_req r; c ← ctxid_of (s_match_info x); omx__notify_request_done_early c r;; mret Nothing
  | NotifyDone r => x ← get_req r; c ← ctxid_of (s_match_info x); omx__notify_request_done c r;; mret Nothing
  | TestOne r => o ← omx__test_common r; mret (told o)
  | TestAny m k => o ← omx__test_any_common m k; mret (told o)
  | Peek => o ← omx__ipeek_common; mret (match o with Some r => Shown r | None => Nothing end)
  | Forget r => omx_forget r;; mret Nothing
  end.
Definition req_flag (f : request -> bool) (w : world) (r : Z) : bool := match reqs w !! r with Some x => f x | None => false end.
(** The caller's part: a request completes once, and the application only names
    requests it was given and was not told about. *)
Definition op_pre (op : done_op) (w : world) : Prop :=
  match op with
  | NotifyEarly r => exists x, reqs w !! r = Some x /\ is_done x = false /\ is_internal x = false
  | NotifyDone r => is_Some (reqs w !! r)
  | TestOne r => exists x, reqs w !! r = Some x /\ is_zombie x = false /\ is_internal x = false
  | Forget r => exists x, reqs w !! r = Some x /\ is_internal x = false
  | _ => True
  end.
(** Abstractly, [l] is a queue: completions are added at its end, and tests take
    the oldest element they look for. *)
Definition searched (w : world) (match_info match_mask : Z) (l : list Z) : list Z :=
  if negb (HAS_CTXIDS w) || MATCHING_CROSS_CTXIDS w match_mask then l else in_ctx w (CTXID_FROM_MATCHING w match_info) l.
Definition status_at (w : world) (r : Z) : answer := match reqs w !! r with Some x => Told (status_of x) | None => Nothing end.
Definition spec_op (op : done_op) (w : world) (l : list Z) : list Z * answer :=
  match op with
  | NotifyEarly r => (if (zombie_max w <=? zombies w) || req_flag is_zombie w r then l else l ++ [r], Nothing)
  | NotifyDone r => (if req_flag is_internal w r || req_flag is_zombie w r || req_flag is_done w r then l else l ++ [r], Nothing)
  | TestOne r => if bool_decide (r ∈ l) then (remove_elt r l, status_at w r) else (l, Nothing)
  | TestAny m k =>
      match first_such (unexp_match w m k) (searched w m k l) with
      | Some r => (remove_elt r l, status_at w r)
      | None => (l, Nothing)
      end
  | Peek => (l, match l with r :: _ => Shown r | [] => Nothing end)
  | Forget r => (remove_elt r l, Nothing)
  end.

(** What a request becomes when the application is done with it: it is freed if it
    was only waiting for that, or it is left as a zombie, counted, until the
    library is done with it. *)
Definition let_go (r : Z) (mz : gmap Z request * Z) : gmap Z request * Z :=
  match mz.1 !! r with
  | None => mz
  | Some x =>
      if r_state x =? OMX_REQUEST_STATE_DONE then (delete r mz.1, mz.2)
      else (<[r := set r_state (setf OMX_REQUEST_STATE_ZOMBIE) (set r_state (clrf OMX_REQUEST_STATE_DONE) x)]> mz.1, u32 (mz.2 + 1))
  end.
Definition marked_done (r : Z) (m : gmap Z request) : gmap Z request := alter (set r_state (setf OMX_REQUEST_STATE_DONE)) r m.
(** The requests and the number of zombies after each operation. *)
Definition spec_reqs (op : done_op) (w : world) (l : list Z) : gmap Z request * Z :=
  let now := (reqs w, zombies w) in
  match op with
  | NotifyEarly r => if zombie_max w <=? zombies w then now else (marked_done r (reqs w), zombies w)
  | NotifyDone r =>
      if req_flag is_internal w r then (marked_done r (reqs w), zombies w)
      else if req_flag is_zombie w r then (delete r (reqs w), u32 (zombies w - 1))
      else if req_flag is_done w r then now else (marked_done r (reqs w), zombies w)
  | TestOne r => if bool_decide (r ∈ l) then let_go r now else now
  | TestAny m k => match first_such (unexp_match w m k) (searched w m k l) with Some r => let_go r now | None => now end
  | Peek => now
  | Forget r => if req_flag is_zombie w r then now else let_go r now
  end.
Lemma marked_done_at r m x : m !! r = Some x -> marked_done r m = <[r := set r_state (setf OMX_REQUEST_STATE_DONE) x]> m.
Proof. intros Hx. unfold marked_done. apply map_eq. intros j. rewrite lookup_alter, lookup_insert. case_decide; [subst; by rewrite Hx|done]. Qed.
Lemma let_go_at r m z x : m !! r = Some x -> let_go r (m, z) =
  if r_state x =? OMX_REQUEST_STATE_DONE then (delete r m, z)
  else (<[r := set r_state (setf OMX_REQUEST_STATE_ZOMBIE) (set r_state (clrf OMX_REQUEST_STATE_DONE) x)]> m, u32 (z + 1)).
Proof. intros Hx. unfold let_go. cbn [fst snd]. by rewrite Hx. Qed.
Lemma clrf_absent x : is_done x = false -> set r_state (clrf OMX_REQUEST_STATE_DONE) x = x.
Proof.
  unfold is_done. change OMX_REQUEST_STATE_DONE with (2 ^ 10). intros Hd. assert (E : clrf (2 ^ 10) (r_state x) = r_state x).
  { apply Z.bits_inj'. intros j Hj. unfold clrf. rewrite Z.ldiff_spec, Z.pow2_bits_eqb by lia. rewrite hasf_pow2 in Hd by lia.
    destruct (Z.eqb_spec 10 j) as [<-|]; [by rewrite Hd|apply andb_true_r]. }
  assert (G : forall f, f (r_state x) = r_state x -> set r_state f x = x) by (intros f Hf; change (set r_state (fun _ => f (r_state x)) x = x); rewrite Hf; by destruct x).
  by apply G.
Qed.

Lemma upd_req_eq r f w x : reqs w !! r = Some x -> upd_req r f w = Ret tt (w <| reqs := <[r := f x]> (reqs w) |>).
Proof. apply upd_req_run. Qed.
Lemma undone_ctx r w : same_ctx w (undone r w) /\ reqs (undone r w) = reqs w.
Proof. unfold undone. by destruct (HAS_CTXIDS w). Qed.
Lemma undone_zombies r w : zombies (undone r w) = zombies w.
Proof. unfold undone. by destruct (HAS_CTXIDS w). Qed.
Lemma redone_zombies c r w : zombies (redone c r w) = zombies w.
Proof. unfold redone. by destruct (HAS_CTXIDS w). Qed.
Lemma redone_ctx c r w : same_ctx w (redone c r w) /\ reqs (redone c r w) = reqs w.
Proof. unfold redone. by destruct (HAS_CTXIDS w). Qed.
Lemma ready_at_some w r x : reqs w !! r = Some x -> ready_at w r = ready x.
Proof. intros Hx. unfold ready_at. by rewrite Hx. Qed.

(** Telling the caller takes the request off the queue. *)
Lemma test_success_run w l r x : done_ok w l -> reqs w !! r = Some x -> ready x = true ->
  exists w', omx__test_success r w = Ret (status_of x) w' /\ done_ok w' (remove_elt r l) /\ (reqs w', zombies w') = let_go r (reqs w, zombies w).
Proof.
  intros Hok Hx Hr. destruct (undone_ctx r w) as [Hc Hu]. pose proof (undone_zombies r w) as Hzo. rewrite (let_go_at r _ _ x Hx). unfold omx__test_success.
  rewrite (bind_run _ _ _ _ _ (get_req_run _ _ _ Hx)), (bind_run _ _ _ _ _ (dequeue_done_run r w)).
  destruct (Z.eqb_spec (r_state x) OMX_REQUEST_STATE_DONE) as [E|E]; cbn [negb].
  - eexists. split; [done|]. split; [|change ((delete r (reqs (undone r w)), zombies (undone r w)) = (delete r (reqs w), zombies w)); by rewrite Hu, Hzo].
    apply (done_removed w _ l r Hok); [exact Hc|done| |].
    + intros y Hy. change (delete r (reqs (undone r w)) !! y = reqs w !! y). rewrite lookup_delete_ne by done. by rewrite Hu.
    + unfold ready_at. change (match delete r (reqs (undone r w)) !! r with Some x => ready x | None => false end = false). by rewrite lookup_delete_eq.
  - assert (Hx1 : reqs (undone r w) !! r = Some x) by (by rewrite Hu).
    set (w1 := (undone r w) <| reqs := <[r := set r_state (clrf OMX_REQUEST_STATE_DONE) x]> (reqs (undone r w)) |>).
    set (x2 := set r_state (setf OMX_REQUEST_STATE_ZOMBIE) (set r_state (clrf OMX_REQUEST_STATE_DONE) x)).
    set (w2 := w1 <| reqs := <[r := x2]> (reqs w1) |>).
    assert (E1 : upd_req r (set r_state (clrf OMX_REQUEST_STATE_DONE)) (undone r w) = Ret tt w1) by exact (upd_req_eq _ _ _ _ Hx1).
    assert (E2 : upd_req r (set r_state (setf OMX_REQUEST_STATE_ZOMBIE)) w1 = Ret tt w2).
    { refine (upd_req_eq _ _ w1 _ _). unfold w1. fsimp. apply lookup_insert_eq. }
    eexists. split.
    + unfold mbind, M_bind. rewrite E1, E2. reflexivity.
    + split; [|change ((<[r := x2]> (<[r := set r_state (clrf OMX_REQUEST_STATE_DONE) x]> (reqs (undone r w))), u32 (zombies (undone r w) + 1)) =
        (<[r := x2]> (reqs w), u32 (zombies w + 1))); by rewrite insert_insert_eq, Hu, Hzo].
      apply (done_removed w _ l r Hok); [exact Hc|done| |].
      * intros y Hy. change (<[r := x2]> (<[r := set r_state (clrf OMX_REQUEST_STATE_DONE) x]> (reqs (undone r w))) !! y = reqs w !! y).
        rewrite !lookup_insert_ne by done. by rewrite Hu.
      * unfold ready_at. change (match <[r := x2]> (reqs w1) !! r with Some x => ready x | None => false end = false).
        rewrite lookup_insert_eq. apply ready_set_zombie.
Qed.

(** A wakeup does not change the requests and the queues; it aborts when the
    driver refuses it. *)
Lemma user_event_run w : match omx__notify_user_event w with
  | Ret _ w' => qs w' = qs w /\ reqs w' = reqs w /\ same_ctx w w' /\ zombies w' = zombies w
  | Stop s _ => s = Aborted
  end.
Proof.
  unfold omx__notify_user_event, omx__wakeup, ioctl, omx__ioctl_errno_to_return_checked, mbind, M_bind, modify, get. fsimp.
  destruct (waitspin (w_globals w)); [done|]. destruct (bool_decide (sleepers w = [])); [done|].
  fsimp. by destruct (ioctls w) as [|[e|] l].
Qed.
Lemma notify_early_run w l r x : done_ok w l -> reqs w !! r = Some x -> is_done x = false -> is_internal x = false ->
  match omx__notify_request_done_early (CTXID_FROM_MATCHING w (s_match_info x)) r w with
  | Ret _ w' => done_ok w' (if (zombie_max w <=? zombies w) || is_zombie x then l else l ++ [r]) /\
      (reqs w', zombies w') = if zombie_max w <=? zombies w then (reqs w, zombies w) else (marked_done r (reqs w), zombies w)
  | Stop s _ => s = Aborted
  end.
Proof.
  intros Hok Hx Hd Hi. unfold omx__notify_request_done_early. rewrite get_bind. rewrite (marked_done_at r _ x Hx).
  destruct (zombie_max w <=? zombies w); [by split|].
  set (x' := set r_state (setf OMX_REQUEST_STATE_DONE) x). set (w1 := w <| reqs := <[r := x']> (reqs w) |>). cbn [orb].
  rewrite (bind_run _ _ _ _ _ (upd_req_eq r _ w x Hx)). fold x' w1.
  assert (Hx1 : reqs w1 !! r = Some x') by (unfold w1; fsimp; apply lookup_insert_eq).
  rewrite (bind_run _ _ _ _ _ (get_req_run _ _ _ Hx1)).
  assert (Hz : hasf (r_state x') OMX_REQUEST_STATE_ZOMBIE = is_zombie x) by (unfold x'; fsimp; apply hasf_setf_ne; lia).
  assert (Hnr : ready x = false) by (rewrite ready_flags, Hd; done).
  assert (Hr' : ready x' = negb (is_zombie x)) by (unfold x'; rewrite ready_set_done, Hi, andb_true_r; done).
  rewrite Hz. destruct (is_zombie x); cbn [negb when].
  - rewrite (bind_run _ _ _ tt w1) by done. pose proof (user_event_run w1) as He. destruct (omx__notify_user_event w1) as [u w'|]; [|done].
    destruct He as (Hq & Hrq & Hc & Hzo). split; [|by rewrite Hrq, Hzo].
    apply (done_frame w _ l Hok); [exact Hc|exact Hq|]. intros y. rewrite Hrq. unfold w1. fsimp.
    destruct (decide (y = r)) as [->|Hn]; [right|left; by rewrite lookup_insert_ne].
    rewrite (ready_at_some w r x Hx). split; [done|]. unfold ready_at. by rewrite Hrq, Hx1.
  - rewrite (bind_run _ _ _ _ _ (enqueue_done_run _ _ _)). pose proof (user_event_run (redone (CTXID_FROM_MATCHING w (s_match_info x)) r w1)) as He.
    destruct (omx__notify_user_event _) as [u w'|]; [|done]. destruct He as (Hq & Hrq & Hc & Hzo).
    destruct (redone_ctx (CTXID_FROM_MATCHING w (s_match_info x)) r w1) as [Hc1 Hr1].
    rewrite redone_zombies in Hzo. split; [|by rewrite Hrq, Hr1, Hzo].
    apply (done_added w _ l r x x' Hok); try done.
    + change (same_ctx w1 w'). destruct Hc as (? & ? & ?), Hc1 as (? & ? & ?). split_and!; congruence.
    + rewrite Hq. unfold redone. change (HAS_CTXIDS w1) with (HAS_CTXIDS w). by destruct (HAS_CTXIDS w).
    + by rewrite Hrq, Hr1.
Qed.
Lemma notify_done_run w l r x : done_ok w l -> reqs w !! r = Some x ->
  exists w', omx__notify_request_done (CTXID_FROM_MATCHING w (s_match_info x)) r w = Ret tt w' /\
    done_ok w' (if is_internal x || is_zombie x || is_done x then l else l ++ [r]) /\
    (reqs w', zombies w') = if is_internal x then (marked_done r (reqs w), zombies w)
      else if is_zombie x then (delete r (reqs w), u32 (zombies w - 1))
      else if is_done x then (reqs w, zombies w) else (marked_done r (reqs w), zombies w).
Proof.
  intros Hok Hx. rewrite (marked_done_at r _ x Hx). unfold omx__notify_request_done. rewrite (bind_run _ _ _ _ _ (get_req_run _ _ _ Hx)).
  fold (is_internal x) (is_zombie x) (is_done x).
  set (x' := set r_state (setf OMX_REQUEST_STATE_DONE) x). set (w1 := w <| reqs := <[r := x']> (reqs w) |>).
  assert (Hr' : ready x' = negb (is_zombie x) && negb (is_internal x)) by apply ready_set_done.
  assert (E1 : upd_req r (set r_state (setf OMX_REQUEST_STATE_DONE)) w = Ret tt w1) by exact (upd_req_eq r _ w x Hx).
  destruct (is_internal x) eqn:Hi; [|destruct (is_zombie x) eqn:Hz; [|destruct (is_done x) eqn:Hd]]; cbn [orb negb].
  - exists w1. split; [exact E1|]. split; [|done]. apply (done_frame w _ l Hok); [done|done|]. intros y. unfold w1. fsimp.
    destruct (decide (y = r)) as [->|Hn]; [right|left; by rewrite lookup_insert_ne].
    rewrite (ready_at_some w r x Hx). unfold ready_at. fsimp. rewrite lookup_insert_eq, Hr', ready_flags, Hi. by rewrite !andb_false_r.
  - eexists. split; [done|]. split; [|done]. apply (done_frame w _ l Hok); [done|done|]. intros y.
    change (delete r (reqs w) !! y = reqs w !! y \/ ready_at w y = false /\ match delete r (reqs w) !! y with Some x => ready x | None => false end = false).
    destruct (decide (y = r)) as [->|Hn]; [right|left; by rewrite lookup_delete_ne].
    rewrite (ready_at_some w r x Hx), lookup_delete_eq, ready_flags, Hz. by rewrite andb_false_r.
  - by exists w.
  - rewrite (bind_run _ _ _ _ _ E1). rewrite enqueue_done_run. destruct (redone_ctx (CTXID_FROM_MATCHING w (s_match_info x)) r w1) as [Hc1 Hr1].
    eexists. split; [done|]. split; [|by rewrite Hr1, redone_zombies]. apply (done_added w _ l r x x' Hok); try done.
    + by rewrite ready_flags, Hd.
    + unfold redone. change (HAS_CTXIDS w1) with (HAS_CTXIDS w). by destruct (HAS_CTXIDS w).
Qed.
Lemma forget_run w l r x : done_ok w l -> reqs w !! r = Some x -> is_internal x = false ->
  exists w', omx_forget r w = Ret OMX_SUCCESS w' /\ done_ok w' (remove_elt r l) /\
    (reqs w', zombies w') = if is_zombie x then (reqs w, zombies w) else let_go r (reqs w, zombies w).
Proof.
  intros Hok Hx Hi. rewrite (let_go_at r _ _ x Hx). unfold omx_forget. rewrite (bind_run _ _ _ _ _ (get_req_run _ _ _ Hx)). fold (is_zombie x).
  pose proof (dn_ready _ _ Hok r) as Hin. rewrite (ready_at_some w r x Hx), ready_flags, Hi, andb_true_r in Hin.
  destruct (is_zombie x) eqn:Hz; cbn [negb when].
  { exists w. split; [done|]. split; [|done]. rewrite remove_elt_notin; [done|]. rewrite Hin, andb_false_r. done. }
  cbn [negb] in Hin. rewrite andb_true_r in Hin. unfold omx__forget. destruct (undone_ctx r w) as [Hc Hu]. pose proof (undone_zombies r w) as Hzo.
  destruct (Z.eqb_spec (r_state x) OMX_REQUEST_STATE_DONE) as [E|E].
  - eexists. split.
    + unfold mbind at 1 2, M_bind. rewrite (get_req_run _ _ _ Hx). rewrite (proj2 (Z.eqb_eq _ _) E).
      unfold mbind, M_bind. rewrite dequeue_done_run. reflexivity.
    + split; [|change ((delete r (reqs (undone r w)), zombies (undone r w)) = (delete r (reqs w), zombies w)); by rewrite Hu, Hzo].
      apply (done_removed w _ l r Hok); [exact Hc|done| |].
      * intros y Hy. change (delete r (reqs (undone r w)) !! y = reqs w !! y). rewrite lookup_delete_ne by done. by rewrite Hu.
      * unfold ready_at. change (match delete r (reqs (undone r w)) !! r with Some x => ready x | None => false end = false). by rewrite lookup_delete_eq.
  - destruct (is_done x) eqn:Hd.
    + set (xa := set r_state (clrf OMX_REQUEST_STATE_DONE) x). set (wa := w <| reqs := <[r := xa]> (reqs w) |>).
      set (wb := undone r wa). set (xb := set r_state (setf OMX_REQUEST_STATE_ZOMBIE) xa). set (wc := wb <| reqs := <[r := xb]> (reqs wb) |>).
      destruct (undone_ctx r wa) as [Hca Hua]. fold wb in Hca, Hua.
      assert (Ea : upd_req r (set r_state (clrf OMX_REQUEST_STATE_DONE)) w = Ret tt wa) by exact (upd_req_eq r _ w x Hx).
      assert (Hxb : reqs wb !! r = Some xa) by (rewrite Hua; unfold wa; fsimp; apply lookup_insert_eq).
      assert (Ec : upd_req r (set r_state (setf OMX_REQUEST_STATE_ZOMBIE)) wb = Ret tt wc) by exact (upd_req_eq r _ wb xa Hxb).
      eexists. split.
      * unfold mbind, M_bind. rewrite (get_req_run _ _ _ Hx). rewrite (proj2 (Z.eqb_neq _ _) E). fold (is_done x). rewrite Hd. cbn [when].
        unfold mbind, M_bind. rewrite Ea, dequeue_done_run. fold wb. rewrite Ec. reflexivity.
      * split; [|change ((<[r := xb]> (reqs wb), u32 (zombies wb + 1)) = (<[r := xb]> (reqs w), u32 (zombies w + 1)));
          unfold wb at 2; rewrite Hua, undone_zombies; unfold wa; fsimp; by rewrite insert_insert_eq].
        apply (done_removed w _ l r Hok); [exact Hca| | |].
        -- change (qs wb = qs (undone r w)). unfold wb, undone. change (HAS_CTXIDS wa) with (HAS_CTXIDS w). by destruct (HAS_CTXIDS w).
        -- intros y Hy. change (<[r := xb]> (reqs wb) !! y = reqs w !! y). rewrite lookup_insert_ne, Hua by done. unfold wa. fsimp. by apply lookup_insert_ne.
        -- unfold ready_at. change (match <[r := xb]> (reqs wb) !! r with Some x => ready x | None => false end = false).
           rewrite lookup_insert_eq. apply ready_set_zombie.
    + set (xb := set r_state (setf OMX_REQUEST_STATE_ZOMBIE) x). set (wc := w <| reqs := <[r := xb]> (reqs w) |>).
      assert (Ec : upd_req r (set r_state (setf OMX_REQUEST_STATE_ZOMBIE)) w = Ret tt wc) by exact (upd_req_eq r _ w x Hx).
      eexists. split.
      * unfold mbind, M_bind. rewrite (get_req_run _ _ _ Hx). rewrite (proj2 (Z.eqb_neq _ _) E). fold (is_done x). rewrite Hd. cbn [when].
        unfold mbind, M_bind, mret, M_ret. rewrite Ec. reflexivity.
      * split; [|rewrite (clrf_absent x Hd); reflexivity]. rewrite remove_elt_notin by (rewrite Hin; done). apply (done_frame w _ l Hok); [done|done|]. intros y.
        change (<[r := xb]> (reqs w) !! y = reqs w !! y \/ ready_at w y = false /\ match <[r := xb]> (reqs w) !! y with Some x => ready x | None => false end = false).
        destruct (decide (y = r)) as [->|Hn]; [right|left; by rewrite lookup_insert_ne].
        rewrite (ready_at_some w r x Hx), lookup_insert_eq, ready_flags, Hd. split; [done|]. apply ready_set_zombie.
Qed.

Lemma done_live w l r : done_ok w l -> r ∈ l -> exists x, reqs w !! r = Some x /\ ready x = true.
Proof. intros Hok Hin%(dn_ready _ _ Hok). unfold ready_at in Hin. destruct (reqs w !! r) as [x|]; [by exists x|done]. Qed.
Lemma first_such_in {A} (f : A -> bool) l x : first_such f l = Some x -> x ∈ l.
Proof. intros Hf. apply list_elem_of_In, (find_some _ _ Hf). Qed.
Lemma searched_sub w m k l r : r ∈ searched w m k l -> r ∈ l.
Proof. unfold searched, in_ctx. destruct (_ || _); [done|]. by intros [_ ?]%list_elem_of_filter. Qed.
(** The list the test walks is the abstract one. *)
Lemma looked_up_run w l m k : done_ok w l -> ids (looked_up HDone HCtxDone w m k) w = Ret (searched w m k l) w.
Proof.
  intros Hok. rewrite ids_run. f_equal. unfold looked_up, searched. destruct (HAS_CTXIDS w) eqn:Hh; cbn [negb orb].
  - destruct (MATCHING_CROSS_CTXIDS w k); [by rewrite (dn_queue _ _ Hok), ids_done|by rewrite (dn_ctx _ _ Hok) by done; apply ids_ctx].
  - by rewrite (dn_queue _ _ Hok), ids_done.
Qed.
Lemma test_any_run w l m k : done_ok w l -> exists w', omx__test_any_common m k w =
  Ret (match first_such (unexp_match w m k) (searched w m k l) with Some r => status_of <$> reqs w !! r | None => None end) w' /\
  done_ok w' (match first_such (unexp_match w m k) (searched w m k l) with Some r => remove_elt r l | None => l end) /\
  (reqs w', zombies w') = match first_such (unexp_match w m k) (searched w m k l) with
    Some r => let_go r (reqs w, zombies w) | None => (reqs w, zombies w) end.
Proof.
  intros Hok. unfold omx__test_any_common. rewrite get_bind, (bind_run _ _ _ _ _ (looked_up_run w l m k Hok)).
  assert (Hlive : Forall (live w) (searched w m k l)).
  { apply Forall_forall. intros r Hr%searched_sub. destruct (done_live w l r Hok Hr) as (x & Hx & _). by exists x. }
  rewrite (bind_run _ _ _ _ _ (find_unexp_run w m k _ Hlive)). destruct (first_such _ _) as [r|] eqn:Hf; [|by exists w].
  destruct (done_live w l r Hok) as (x & Hx & Hr); [by eapply searched_sub, first_such_in|].
  destruct (test_success_run w l r x Hok Hx Hr) as (w' & E & Hok'). exists w'. rewrite (bind_run _ _ _ _ _ E), Hx. done.
Qed.

(** C13. The completed requests are a queue: in every state that satisfies the
    invariant, a completion adds its request at the end, once; a test of a
    request succeeds exactly when it is there; a test of any request takes the
    oldest one that matches in the list it searches; each of them, and
    [omx_forget], removes that request alone and tells its status.  The request
    itself is freed if it only waited for that, and otherwise becomes a zombie,
    not done, which is counted; when the library is done with a zombie it frees
    it and counts one less; no other request changes, and none is freed or
    changed when the test finds nothing.  No completion is told early when there
    are too many zombies.  The lists of the endpoint and of the contexts stay
    consistent.  Only the driver refusing a wakeup stops the library.  It is the
    caller's part ([op_pre]) that the request named exists and, in a test or
    [omx_forget], is not one of the library's own, nor in a test one that was
    given up, and that an early completion is of a request that is not done. *)
Theorem done_queue_refines op w l : done_ok w l -> op_pre op w ->
  match run_op op w with
  | Ret a w' => done_ok w' (fst (spec_op op w l)) /\ a = snd (spec_op op w l) /\ (reqs w', zombies w') = spec_reqs op w l
  | Stop s _ => s = Aborted /\ exists r, op = NotifyEarly r
  end.
Proof.
  intros Hok Hpre. destruct op as [r|r|r|m k| |r]; cbn [run_op spec_op spec_reqs op_pre] in *.
  - destruct Hpre as (x & Hx & Hd & Hi). rewrite (bind_run _ _ _ _ _ (get_req_run _ _ _ Hx)). rewrite (bind_run _ _ w _ w) by done.
    pose proof (notify_early_run w l r x Hok Hx Hd Hi) as Hn. unfold req_flag. rewrite Hx. unfold mbind, M_bind.
    destruct (omx__notify_request_done_early _ r w); [by destruct Hn|]. split; [done|]. by exists r.
  - destruct Hpre as [x Hx]. rewrite (bind_run _ _ _ _ _ (get_req_run _ _ _ Hx)). rewrite (bind_run _ _ w _ w) by done.
    destruct (notify_done_run w l r x Hok Hx) as (w' & E & Hn & Hz). rewrite (bind_run _ _ _ _ _ E). unfold req_flag. rewrite Hx. by split.
  - destruct Hpre as (x & Hx & Hz & Hi). unfold omx__test_common.
    assert (Hin : r ∈ l <-> is_done x = true) by (rewrite (dn_ready _ _ Hok), (ready_at_some w r x Hx), ready_flags, Hz, Hi, !andb_true_r; done).
    destruct (is_done x) eqn:Hd.
    + rewrite bool_decide_eq_true_2 by tauto. assert (Hr : ready x = true) by (by rewrite ready_flags, Hd, Hz, Hi).
      destruct (test_success_run w l r x Hok Hx Hr) as (w' & E & Hok' & Hz'). unfold mbind at 1 2, M_bind. rewrite (get_req_run _ _ _ Hx).
      fold (is_done x). rewrite Hd. unfold mbind, M_bind. rewrite E. split_and!; [done| |done]. unfold status_at. by rewrite Hx.
    + rewrite bool_decide_eq_false_2 by (intros Hl; by apply Hin in Hl). unfold mbind, M_bind. rewrite (get_req_run _ _ _ Hx).
      fold (is_done x). by rewrite Hd.
  - destruct (test_any_run w l m k Hok) as (w' & E & Hok' & Hz). rewrite (bind_run _ _ _ _ _ E).
    destruct (first_such _ _) as [r|] eqn:Hf; [|done]. split_and!; [done| |done]. unfold status_at.
    destruct (done_live w l r Hok) as (x & Hx & _); [by eapply searched_sub, first_such_in|]. by rewrite Hx.
  - unfold omx__ipeek_common, omx__empty_done_anyctxid_queue, omx__first_done_anyctxid_request, read_queue, mbind, M_bind, get, of_option, mret, M_ret.
    rewrite (dn_queue _ _ Hok). destruct l as [|r l]; cbn; [done|]. by rewrite (dn_queue _ _ Hok).
  - destruct Hpre as (x & Hx & Hi). destruct (forget_run w l r x Hok Hx Hi) as (w' & E & Hok' & Hz). rewrite (bind_run _ _ _ _ _ E). unfold req_flag. rewrite Hx. by split_and!.
Qed.

(** ** Contexts *)

Lemma other_mask_context w m k : ctxid_config w -> MATCHING_CROSS_CTXIDS w k = false -> Z.ldiff m k = 0 -> CTXID_FROM_MATCHING w m = 0.
Proof.
  intros Hc Hx Hm. unfold CTXID_FROM_MATCHING. assert (E : Z.land (Z.shiftr m (ctxid_shift w)) (ctxid_max w - 1) = 0); [|by rewrite E].
  apply Z.bits_inj'. intros j Hj. rewrite ctxid_bit, Z.bits_0 by done. destruct (Z.ltb_spec j (ctxid_bits w)) as [Hlt|]; [|apply andb_false_r].
  rewrite andb_true_r. pose proof (cc_shift _ Hc) as Hs. unfold MATCHING_CROSS_CTXIDS, hasf in Hx. apply negb_false_iff, Z.eqb_eq in Hx.
  assert (Hbit : Z.testbit (ctxid_mask w) (j + ctxid_shift w) = true).
  { rewrite (cc_mask _ Hc), Z.shiftl_spec by lia. replace (j + ctxid_shift w - ctxid_shift w) with j by lia.
    replace (ctxid_max w - 1) with (Z.ones (ctxid_bits w)) by (rewrite Z.ones_equiv, (cc_max _ Hc); lia).
    rewrite Z.testbit_ones_nonneg by lia. by apply Z.ltb_lt. }
  apply (f_equal (fun z => Z.testbit z (j + ctxid_shift w))) in Hx, Hm. rewrite Z.land_spec, Hbit, andb_true_r, Z.bits_0 in Hx.
  rewrite Z.ldiff_spec, Hx, andb_true_r, Z.bits_0 in Hm. done.
Qed.
(** A test across contexts only sees one of them: when the endpoint has
    contexts and the mask ignores their bits, which is how an application asks
    for a completion in any context, [omx_test_any] and [omx_iprobe] look in
    the lists of context 0 alone, and find nothing there although completed
    requests or unexpected messages that match wait in other contexts.  The
    test of [MATCHING_CROSS_CTXIDS] is the opposite of what its name says. *)
Lemma test_any_one_context w l m k : done_ok w l -> ctxid_config w -> HAS_CTXIDS w = true ->
  Z.land k (ctxid_mask w) = 0 -> Z.ldiff m k = 0 ->
  Forall (fun r => ctx_at w r <> Some 0) l -> queue (HCtxUnexp 0) w = [] ->
  omx__test_any_common m k w = Ret None w /\ omx__iprobe_common m k w = Ret None w.
Proof.
  intros Hok Hc Hh Hk Hm Hl Hu.
  assert (Hx : MATCHING_CROSS_CTXIDS w k = false) by (unfold MATCHING_CROSS_CTXIDS, hasf; by rewrite Hk).
  pose proof (other_mask_context w m k Hc Hx Hm) as H0. split.
  - unfold omx__test_any_common. rewrite get_bind, (bind_run _ _ _ _ _ (looked_up_run w l m k Hok)).
    unfold searched. rewrite Hh, Hx, H0. cbn [negb orb]. unfold in_ctx. by rewrite list_filter_none.
  - unfold omx__iprobe_common. rewrite get_bind. unfold looked_up. rewrite Hh, Hx, H0. cbn [negb orb].
    rewrite (bind_run _ _ _ _ _ (ids_run _ _)), Hu. done.
Qed.

(** ** Waits *)
Context (index_to_addr : Z -> omx_return + Z).
#[local] Abbreviation rd_progress := (rd_progress index_to_addr).

(** Rounds that leave the caller asleep. *)
Inductive still_waiting (req : Z) : list round -> wait_event -> world -> wait_event -> world -> Prop :=
  | waiting_first p w : still_waiting req [] p w p w
  | waiting_round r rounds p w x w1 p1 w2 p2 w3 : rd_progress r w = Ret OMX_SUCCESS w1 ->
      reqs w1 !! req = Some x -> is_done x = false -> omx__wait r p w1 = Ret (OMX_SUCCESS, p1) w2 ->
      still_waiting req rounds p1 w2 p2 w3 -> still_waiting req (r :: rounds) p w p2 w3.
Lemma rounds_skip req rounds p w p' w' : still_waiting req rounds p w p' w' -> forall more at_end,
  sleep_rounds index_to_addr (omx__test_common req) at_end (rounds ++ more) p w =
  sleep_rounds index_to_addr (omx__test_common req) at_end more p' w'.
Proof.
  induction 1 as [|r rounds p w x w1 p1 w2 p2 w3 Hp Hx Hd Hw _ IH]; intros more at_end; [done|].
  cbn [app sleep_rounds]. rewrite (bind_run _ _ _ _ _ Hp), bool_decide_eq_true_2 by done. cbn [negb].
  assert (E : omx__test_common req w1 = Ret None w1).
  { unfold omx__test_common, mbind, M_bind. rewrite (get_req_run _ _ _ Hx). fold (is_done x). by rewrite Hd. }
  rewrite (bind_run _ _ _ _ _ E), (bind_run _ _ _ _ _ Hw), bool_decide_eq_true_2 by done. apply IH.
Qed.
Definition start_wait (me : Z) (w : world) : world := w <| sleepers ::= fun l => l ++ [(me, false)] |>.
Definition first_event (w : world) (ms : Z) : wait_event :=
  WaitEvent OMX_CMD_WAIT_EVENT_STATUS_EVENT 0 0 0 (omx__timeout_ms_to_absolute_jiffies (hz (w_globals w)) (jiffies w) ms).
Definition awake (me : Z) (w : world) : Prop := Forall (fun s => fst s <> me) (sleepers w).
Lemma omx_wait_run me rounds req ms w res w' : waitspin (w_globals w) = false ->
  sleep_rounds index_to_addr (omx__test_common req) OMX_SUCCESS rounds (first_event w ms) (start_wait me w) = Ret (Some res) w' ->
  omx_wait index_to_addr me rounds req ms w = Ret (Some res) (w' <| sleepers ::= filter (fun s => fst s <> me) |>).
Proof.
  intros Hs E. unfold omx_wait, wait_for. rewrite get_bind. cbn zeta.
  rewrite (bind_run _ _ w tt (start_wait me w)) by done. rewrite Hs. cbn [andb]. rewrite (bind_run _ _ _ _ _ E). done.
Qed.

(** C14. A wait ends in the first round in which there is something to tell.
    After any number of rounds that left the caller asleep, if the progression
    of the next one completes the request, [omx_wait] returns its status and
    takes it off the queue, whatever the driver and the clock say; otherwise,
    when the deadline has passed, or the last sleep was ended by a timeout or a
    wakeup (or a signal, when asked for), it returns 0 without touching the
    request.  In both cases the caller is not a sleeper any more. *)
Theorem wait_ends_with_completion me req ms rounds r more w p1 w1 w2 l :
  waitspin (w_globals w) = false -> still_waiting req rounds (first_event w ms) (start_wait me w) p1 w1 ->
  rd_progress r w1 = Ret OMX_SUCCESS w2 -> done_ok w2 l ->
  (forall x, reqs w2 !! req = Some x -> req ∈ l -> exists w3,
     omx_wait index_to_addr me (rounds ++ r :: more) req ms w = Ret (Some (OMX_SUCCESS, Some (status_of x))) w3 /\
     done_ok w3 (remove_elt req l) /\ awake me w3) /\
  (forall x, reqs w2 !! req = Some x -> is_done x = false -> wait_over w2 p1 = true -> exists w3,
     omx_wait index_to_addr me (rounds ++ r :: more) req ms w = Ret (Some (OMX_SUCCESS, None)) w3 /\
     done_ok w3 l /\ reqs w3 = reqs w2 /\ awake me w3).
Proof.
  intros Hs Hw Hp Hok. pose proof (rounds_skip _ _ _ _ _ _ Hw (r :: more) OMX_SUCCESS) as Hsk.
  cbn [sleep_rounds] in Hsk. rewrite (bind_run _ _ _ _ _ Hp), bool_decide_eq_true_2 in Hsk by done. cbn [negb] in Hsk.
  assert (Haw : forall w3, awake me (w3 <| sleepers ::= filter (fun s => fst s <> me) |>)).
  { intros w3. unfold awake. fsimp. apply Forall_forall. by intros s [Hn _]%list_elem_of_filter. }
  assert (Hfr : forall w3 k, done_ok w3 k -> done_ok (w3 <| sleepers ::= filter (fun s => fst s <> me) |>) k).
  { intros w3 k Hk. apply (done_frame w3 _ k Hk); [done|done|]. intros y. by left. }
  split; intros x Hx.
  - intros Hin. destruct (done_live w2 l req Hok Hin) as (x' & Hx' & Hr). rewrite Hx in Hx'. injection Hx' as <-.
    destruct (test_success_run w2 l req x Hok Hx Hr) as (w3 & E & Hok3 & _).
    assert (Et : omx__test_common req w2 = Ret (Some (status_of x)) w3).
    { unfold omx__test_common, mbind, M_bind. rewrite (get_req_run _ _ _ Hx). rewrite ready_flags in Hr.
      fold (is_done x). destruct (is_done x); [|done]. unfold mbind, M_bind. by rewrite E. }
    rewrite (bind_run _ _ _ _ _ Et) in Hsk. eexists. split; [by apply omx_wait_run|]. split; [by apply Hfr|apply Haw].
  - intros Hd Hover. assert (Et : omx__test_common req w2 = Ret None w2).
    { unfold omx__test_common, mbind, M_bind. rewrite (get_req_run _ _ _ Hx). fold (is_done x). by rewrite Hd. }
    rewrite (bind_run _ _ _ _ _ Et) in Hsk.
    assert (Eo : omx__wait r p1 w2 = Ret (OMX_TIMEOUT, p1) w2) by (unfold omx__wait; rewrite get_bind, Hover; done).
    rewrite (bind_run _ _ _ _ _ Eo) in Hsk. rewrite bool_decide_eq_false_2, bool_decide_eq_true_2 in Hsk by done.
    eexists. split; [by apply omx_wait_run|]. split; [by apply Hfr|]. split; [done|apply Haw].
Qed.
End done.

(** ** Timeouts *)


(** ** Witnesses *)

(** A state whose completed requests are given by its map of requests. *)
Lemma done_ok_check w l (m : list (Z * request)) : reqs w = list_to_map m -> NoDup m.*1 ->
  queue HDone w = EDone <$> l -> NoDup l -> filter (fun e => ready e.2 = true) m = filter (fun e => e.1 ∈ l) m -> l ⊆ m.*1 ->
  is_Some (qs w !! HDone) -> (forall i, is_Some (qs w !! HCtxDone (CTXID_FROM_MATCHING w i))) ->
  (forall c, HAS_CTXIDS w = true -> queue (HCtxDone c) w = ECtxid <$> in_ctx w c l) -> done_ok w l.
Proof.
  intros Hm Hn Hq Hd Hr Hl H1 H2 H3. split; try done. intros r. unfold ready_at. rewrite Hm.
  assert (Hf : forall x, (r, x) ∈ m -> r ∈ l <-> ready x = true).
  { intros x Hx.
    assert (Hk : (r, x) ∈ filter (fun e => ready e.2 = true) m <-> (r, x) ∈ filter (fun e => e.1 ∈ l) m) by (by rewrite Hr).
    rewrite !list_elem_of_filter in Hk. cbn in Hk. tauto. }
  destruct (list_to_map m !! r) as [x|] eqn:E.
  - apply Hf. by apply elem_of_list_to_map_2.
  - split; [|done]. intros Hin%Hl. by apply not_elem_of_list_to_map in E.
Qed.
Lemma one_context w i : ctxid_max w = 1 -> CTXID_FROM_MATCHING w i = 0.
Proof. intros Hm. unfold CTXID_FROM_MATCHING. rewrite Hm. change (1 - 1) with 0. by rewrite Z.land_0_r. Qed.

(** Request 21 is done for good, 22 still waits for its ack. *)
Definition done_request (match_info flags : Z) : request :=
  blank_request <| r_state := Z.lor OMX_REQUEST_STATE_DONE flags |> <| s_match_info := match_info |>.
Definition done_world : world := sample_world
  <| reqs := list_to_map [(21, done_request 41 0); (22, done_request 42 OMX_REQUEST_STATE_NEED_ACK)] |>
  <| qs ::= <[HDone := [EDone 21; EDone 22]]> |>.
Lemma done_world_ok : done_ok done_world [21; 22].
Proof.
  apply (done_ok_check _ _ [(21, done_request 41 0); (22, done_request 42 OMX_REQUEST_STATE_NEED_ACK)]);
    try done; try (apply (bool_decide_unpack _); vm_compute; exact I).
  intros i. rewrite one_context by done. apply (bool_decide_unpack _). vm_compute. exact I.
Qed.
Lemma done_queue_refines_witness : match run_op (TestAny 42 255) done_world with
  | Ret a w' => done_ok w' [21] /\ a = Told (status_of (done_request 42 OMX_REQUEST_STATE_NEED_ACK)) /\
      zombies w' = 1 /\ r_state <$> reqs w' !! 22 = Some (Z.lor OMX_REQUEST_STATE_NEED_ACK OMX_REQUEST_STATE_ZOMBIE)
  | Stop _ _ => False
  end.
Proof.
  pose proof (done_queue_refines (TestAny 42 255) done_world [21; 22] done_world_ok I) as Hr.
  assert (Hs : spec_op (TestAny 42 255) done_world [21; 22] = ([21], Told (status_of (done_request 42 OMX_REQUEST_STATE_NEED_ACK))))
    by (vm_compute; reflexivity).
  assert (Hz : snd (spec_reqs (TestAny 42 255) done_world [21; 22]) = 1) by (vm_compute; reflexivity).
  assert (Hq : r_state <$> fst (spec_reqs (TestAny 42 255) done_world [21; 22]) !! 22 = Some (Z.lor OMX_REQUEST_STATE_NEED_ACK OMX_REQUEST_STATE_ZOMBIE))
    by (vm_compute; reflexivity).
  rewrite Hs in Hr. destruct (run_op _ _) as [a w'|st w'] eqn:E.
  { destruct Hr as (H1 & H2 & H3). rewrite <- H3 in Hz, Hq. by split_and!. } destruct Hr as [_ [r Hr]]. discriminate.
Defined.

(** Eight contexts in bits 8 to 10; the completed request is in context 1. *)
Definition ctx_world : world := sample_world
  <| ctxid_bits := 3 |> <| ctxid_max := 8 |> <| ctxid_shift := 8 |> <| ctxid_mask := 1792 |>
  <| reqs := list_to_map [(21, done_request 297 0)] |>
  <| qs := list_to_map ([(HDone, [EDone 21]); (HCtxDone 1, [ECtxid 21]); (HCtxUnexp 0, [])] ++
             ((fun c => (HCtxDone c, [])) <$> [0; 2; 3; 4; 5; 6; 7])) |>.
Lemma ctx_world_config : ctxid_config ctx_world.
Proof. split; done. Qed.
Lemma ctx_world_ok : done_ok ctx_world [21].
Proof.
  apply (done_ok_check _ _ [(21, done_request 297 0)]); try done; try (apply (bool_decide_unpack _); vm_compute; exact I).
  - intros i. assert (Hi : CTXID_FROM_MATCHING ctx_world i ∈ [0; 1; 2; 3; 4; 5; 6; 7]).
    { unfold CTXID_FROM_MATCHING. change (ctxid_max ctx_world - 1) with (Z.ones 3). rewrite Z.land_ones by lia. rewrite u32_small; [|].
      - pose proof (Z.mod_pos_bound (i ≫ ctxid_shift ctx_world) (2 ^ 3) ltac:(lia)) as Hb. change (2 ^ 3) with 8 in *.
        rewrite !elem_of_cons. lia.
      - pose proof (Z.mod_pos_bound (i ≫ ctxid_shift ctx_world) (2 ^ 3) ltac:(lia)). lia. }
    revert Hi. generalize (CTXID_FROM_MATCHING ctx_world i). apply Forall_forall. apply (bool_decide_unpack _). vm_compute. exact I.
  - intros c _. destruct (decide (c = 1)) as [->|Hc]; [vm_compute; reflexivity|].
    assert (E : in_ctx ctx_world c [21] = []).
    { unfold in_ctx. apply list_filter_none. repeat constructor. change (ctx_at ctx_world 21) with (Some 1). congruence. }
    rewrite E. assert (Hq : map_Forall (fun h k => h = HDone \/ h = HCtxDone 1 \/ k = []) (qs ctx_world)) by (apply (bool_decide_unpack _); vm_compute; exact I).
    unfold queue. destruct (qs ctx_world !! HCtxDone c) as [k|] eqn:Hk; [|done]. destruct (Hq _ _ Hk) as [?|[[= ->]| ->]]; done.
Qed.
Lemma test_any_one_context_witness :
  omx__test_any_common 0 0 ctx_world = Ret None ctx_world /\ omx__iprobe_common 0 0 ctx_world = Ret None ctx_world.
Proof.
  apply (test_any_one_context ctx_world [21]); try done.
  - exact ctx_world_ok.
  - repeat constructor. change (ctx_at ctx_world 21) with (Some 1). discriminate.
Defined.

(** The request completes while the caller sleeps. *)
Definition pending_world : world := sample_world <| reqs := list_to_map [(21, blank_request)] |>.
Definition w_round (others : world -> world) : round := Round empty_ring empty_ring others OMX_CMD_WAIT_EVENT_STATUS_EVENT.
Definition completes (w : world) : world := final (run_op (NotifyDone 21) w).
Definition w_round1 : world := final (rd_progress (H := sample_app) no_peer (w_round completes) (start_wait 7 pending_world)).
Definition w_slept := omx__wait (w_round completes) (first_event pending_world 1000) w_round1.
Definition w_round2 : world := final (rd_progress (H := sample_app) no_peer (w_round id) (final w_slept)).
Lemma w_round2_ok : done_ok w_round2 [21].
Proof.
  assert (Hm : map_to_list (reqs w_round2) = [(21, done_request 0 0)]) by (vm_compute; reflexivity).
  apply (done_ok_check _ _ [(21, done_request 0 0)]).
  - rewrite <- Hm. symmetry. apply list_to_map_to_list.
  - apply (bool_decide_unpack _). vm_compute. exact I.
  - vm_compute. reflexivity.
  - apply (bool_decide_unpack _). vm_compute. exact I.
  - vm_compute. reflexivity.
  - apply (bool_decide_unpack _). vm_compute. exact I.
  - apply (bool_decide_unpack _). vm_compute. exact I.
  - intros i. rewrite one_context by (vm_compute; reflexivity). apply (bool_decide_unpack _). vm_compute. exact I.
  - intros c Hh. vm_compute in Hh. discriminate.
Qed.
Lemma wait_ends_with_completion_witness : exists w3,
  omx_wait (H := sample_app) no_peer 7 [w_round completes; w_round id] 21 1000 pending_world =
    Ret (Some (OMX_SUCCESS, Some (status_of (done_request 0 0)))) w3 /\ done_ok w3 [] /\ awake 7 w3.
Proof.
  assert (Hsp : waitspin (w_globals pending_world) = false) by reflexivity. assert (Hin : 21 ∈ [21]) by apply list_elem_of_here.
  assert (Hs : omx__wait (w_round completes) (first_event pending_world 1000) w_round1 =
    Ret (OMX_SUCCESS, WaitEvent 1 0 0 0 1977) (final w_slept)) by (unfold w_slept; apply run_final; vm_compute; reflexivity).
  assert (Hp1 : rd_progress (H := sample_app) no_peer (w_round completes) (start_wait 7 pending_world) = Ret OMX_SUCCESS w_round1)
    by (unfold w_round1; apply run_final; vm_compute; reflexivity).
  assert (Hp2 : rd_progress (H := sample_app) no_peer (w_round id) (final w_slept) = Ret OMX_SUCCESS w_round2)
    by (unfold w_round2; apply run_final; vm_compute; reflexivity).
  assert (Hx1 : reqs w_round1 !! 21 = Some blank_request) by (vm_compute; reflexivity).
  assert (Hx2 : reqs w_round2 !! 21 = Some (done_request 0 0)) by (vm_compute; reflexivity).
  assert (Hw : still_waiting (H := sample_app) no_peer 21 [w_round completes] (first_event pending_world 1000) (start_wait 7 pending_world)
    (WaitEvent 1 0 0 0 1977) (final w_slept)).
  { exact (waiting_round (H := sample_app) no_peer 21 (w_round completes) [] _ _ blank_request w_round1 _ _ _ _ Hp1 Hx1 eq_refl Hs
      (waiting_first (H := sample_app) no_peer 21 _ _)). }
  destruct (proj1 (wait_ends_with_completion (H := sample_app) no_peer 7 21 1000 [w_round completes] (w_round id) [] pending_world
    (WaitEvent 1 0 0 0 1977) (final w_slept) w_round2 [21] Hsp Hw Hp2 w_round2_ok) (done_request 0 0) Hx2 Hin) as (w3 & E & Hok & Ha).
  exists w3. split; [exact E|]. split; [|exact Ha]. exact Hok.
Defined.
End Done.
