(* ===== verification/EarlyQueue.v ===== *)
(** Early packets: a packet received before the ones it must follow is kept in
    a queue of its partner, which stays sorted by sequence number and fragment
    number and never holds the same packet twice. *)
From Stdlib Require Import Sorted.
From S2P Require Import Prelude DList Seqnum Segments World SendqMap Request Region Send Large Ack.
From S2P Require Import Recv Samples.
Import DList Seqnum Mem Segs SendqMap Request Partner Complete Regions Send Large Ack Recv Samples.

Module EarlyQueue.

(** ** Order *)

(** The position of a packet in the window, then its fragment number. *)
Definition key (next_match : Z) (m : recv_msg) : Z * Z :=
  (OMX__SEQNUM (m_seqnum m - next_match), default (-1) (frag_seqnum_of m)).
Definition klt (a b : Z * Z) : Prop := fst a < fst b \/ fst a = fst b /\ snd a < snd b.
#[export] Instance klt_dec a b : Decision (klt a b).
Proof. unfold klt. apply _. Defined.

Lemma klt_trans a b c : klt a b -> klt b c -> klt a c.
Proof. unfold klt. lia. Qed.
Lemma klt_irrefl a : ~ klt a a.
Proof. unfold klt. lia. Qed.
Lemma klt_total a b : klt a b \/ a = b \/ klt b a.
Proof. destruct a as [a1 a2], b as [b1 b2]. unfold klt. cbn. 
  destruct (Z.lt_trichotomy a1 b1) as [|[->|]]; [tauto| |tauto].
  destruct (Z.lt_trichotomy a2 b2) as [|[->|]]; auto. Qed.

(** Insertion in a sorted list, which ignores duplicates: the reference. *)
Fixpoint insert_sorted (next : Z) (x : Z * recv_msg) (l : list (Z * recv_msg)) : list (Z * recv_msg) :=
  match l with
  | [] => [x]
  | y :: l =>
      if decide (klt (key next (snd x)) (key next (snd y))) then x :: y :: l
      else if decide (key next (snd x) = key next (snd y)) then y :: l
      else y :: insert_sorted next x l
  end.
Definition sorted (next : Z) (l : list (Z * recv_msg)) : Prop :=
  StronglySorted (fun x y => klt (key next (snd x)) (key next (snd y))) l.

Lemma insert_sorted_sorted next x l : sorted next l -> sorted next (insert_sorted next x l).
Proof.
  induction 1 as [|y l Hs IH Hy]; [repeat constructor|]. cbn [insert_sorted].
  destruct (decide _) as [Hlt|Hnlt].
  - constructor; [by constructor|]. constructor; [done|]. eapply Forall_impl; [exact Hy|].
    intros z. by apply klt_trans.
  - destruct (decide _) as [He|Hne]; [by constructor|]. constructor; [done|].
    assert (Hyx : klt (key next (snd y)) (key next (snd x)))
      by (destruct (klt_total (key next (snd x)) (key next (snd y))) as [|[|]]; done).
    clear IH Hs Hnlt Hne. induction Hy as [|z l Hz Hy IH]; cbn [insert_sorted]; [by apply Forall_singleton|].
    repeat case_decide; rewrite ?Forall_cons; done.
Qed.

(** Two packets with one sequence number are of one kind: fragments of one
    message, or the same packet. *)
Definition compatible (next : Z) (msg : recv_msg) (l : list (Z * recv_msg)) : Prop :=
  Forall (fun y => fst (key next msg) = fst (key next (snd y)) ->
    is_Some (frag_seqnum_of msg) <-> is_Some (frag_seqnum_of (snd y))) l.

(** What the insertion point of the scan does to the queue. *)
Definition apply_prev (prev : early_prev) (x : Z * recv_msg) (l : list (Z * recv_msg)) :=
  match prev with
  | PrevNull => l
  | PrevHead => x :: l
  | PrevAfter e => (fix go l := match l with [] => [] | y :: l =>
      if decide (fst y = e) then y :: x :: l else y :: go l end) l
  end.
Lemma apply_after_snoc e x l y : e ∈ fst <$> l ->
  apply_prev (PrevAfter e) x (l ++ [y]) = apply_prev (PrevAfter e) x l ++ [y].
Proof.
  cbn. induction l as [|z l IH]; [by intros ?%elem_of_nil|]. rewrite fmap_cons, elem_of_cons. cbn.
  case_decide as Hz; [done|]. intros [->|He]; [done|]. by rewrite IH.
Qed.
Lemma apply_after_last e x l y : fst y = e -> e ∉ fst <$> l ->
  apply_prev (PrevAfter e) x (l ++ [y]) = l ++ [y; x].
Proof.
  intros Hy. cbn. induction l as [|z l IH]; cbn; [by rewrite decide_True|].
  intros [Hz He]%not_elem_of_cons. rewrite decide_False by congruence. by rewrite IH.
Qed.

Lemma insert_sorted_snoc_lt next x l y : klt (key next (snd x)) (key next (snd y)) ->
  Forall (fun z => klt (key next (snd z)) (key next (snd y))) l ->
  insert_sorted next x (l ++ [y]) = insert_sorted next x l ++ [y].
Proof.
  intros Hxy. induction 1 as [|z l Hz Hl IH]; cbn [insert_sorted app]; [by rewrite decide_True|].
  repeat case_decide; [done..|]. by rewrite IH.
Qed.
Lemma insert_sorted_snoc_ge next x l y : ~ klt (key next (snd x)) (key next (snd y)) ->
  Forall (fun z => klt (key next (snd z)) (key next (snd y))) l ->
  insert_sorted next x (l ++ [y]) =
  l ++ (if decide (key next (snd x) = key next (snd y)) then [y] else [y; x]).
Proof.
  intros Hxy. induction 1 as [|z l Hz Hl IH]; cbn [insert_sorted app].
  - rewrite decide_False by done. by case_decide.
  - assert (Hzx : klt (key next (snd z)) (key next (snd x))).
    { destruct (klt_total (key next (snd x)) (key next (snd y))) as [|[He|Hyx]]; [done| |].
      - by rewrite He.
      - by eapply klt_trans. }
    rewrite (decide_False (P := klt (key next (snd x)) (key next (snd z)))).
    1: rewrite (decide_False (P := key next (snd x) = key next (snd z))).
    + by rewrite IH.
    + intros He. rewrite He in Hzx. by apply klt_irrefl in Hzx.
    + intros Hk. by apply (klt_irrefl _ (klt_trans _ _ _ Hk Hzx)).
Qed.

Lemma sorted_snoc next l y : sorted next (l ++ [y]) ->
  sorted next l /\ Forall (fun z => klt (key next (snd z)) (key next (snd y))) l.
Proof.
  induction l as [|z l IH]; cbn; [by repeat constructor|]. intros Hs. inversion Hs as [|? ? Hs' Hz]; subst.
  destruct (IH Hs') as [H1 H2]. apply Forall_app in Hz as [Hz1 Hz2].
  apply Forall_cons in Hz2 as [Hz2 _]. split; constructor; done.
Qed.

(** [r] is the insertion point of [x] in [l]. *)
Definition finds (next : Z) (x : Z * recv_msg) (l : list (Z * recv_msg)) (r : option early_prev) : Prop :=
  exists prev, r = Some prev /\ apply_prev prev x l = insert_sorted next x l /\
    (prev = PrevNull -> Exists (fun y => key next (snd y) = key next (snd x)) l) /\
    (forall e, prev = PrevAfter e -> e ∈ fst <$> l).

Section snoc.
Context (next : Z) (x y : Z * recv_msg) (l : list (Z * recv_msg)).
Context (Hy : Forall (fun z => klt (key next (snd z)) (key next (snd y))) l).

Lemma finds_before r : klt (key next (snd x)) (key next (snd y)) -> finds next x l r ->
  finds next x (l ++ [y]) r.
Proof.
  intros Hk (prev & -> & Ha & Hn & He). exists prev. split; [done|].
  rewrite insert_sorted_snoc_lt by done. split; [|split].
  - rewrite <- Ha. destruct prev as [| |e0]; [done|done|]. by apply apply_after_snoc, He.
  - intros H0. apply Exists_app. left. by apply Hn.
  - intros e0 H0. rewrite fmap_app, elem_of_app. left. by apply He.
Qed.
Lemma finds_after : fst y ∉ fst <$> l -> klt (key next (snd y)) (key next (snd x)) ->
  finds next x (l ++ [y]) (Some (PrevAfter (fst y))).
Proof.
  intros Hny Hk. exists (PrevAfter (fst y)). split; [done|]. rewrite insert_sorted_snoc_ge; [| |done].
  - rewrite decide_False.
    + split; [by apply apply_after_last|]. split; [done|]. intros e0 [= <-].
      rewrite fmap_app, elem_of_app. right. by left.
    + intros Heq. rewrite Heq in Hk. by apply klt_irrefl in Hk.
  - intros Hk'. by apply (klt_irrefl _ (klt_trans _ _ _ Hk Hk')).
Qed.
Lemma finds_null : key next (snd y) = key next (snd x) -> finds next x (l ++ [y]) (Some PrevNull).
Proof.
  intros Hk. exists PrevNull. split; [done|]. rewrite insert_sorted_snoc_ge; [| |done].
  - rewrite decide_True by done. split; [done|]. split; [|done]. intros _.
    apply Exists_app. right. by left.
  - rewrite Hk. apply klt_irrefl.
Qed.
End snoc.

(** The scan finds the insertion point. *)
Lemma early_scan_spec next x l : sorted next l -> NoDup (fst <$> l) -> compatible next (snd x) l ->
  finds next x l (early_scan next (snd x) (rev l)).
Proof.
  induction l as [|[e cur] l IH] using rev_ind; intros Hs Hnd Hc.
  { exists PrevHead. by repeat split. }
  apply sorted_snoc in Hs as [Hs Hy]. apply Forall_app in Hc as [Hc Hcy].
  apply Forall_cons in Hcy as [Hcy _]. rewrite fmap_app in Hnd. apply NoDup_app in Hnd as (Hnd & Hd & _).
  assert (Hny : e ∉ fst <$> l) by (intros Hin; apply (Hd _ Hin); cbn; by left).
  specialize (IH Hs Hnd Hc). rewrite rev_unit. cbn [early_scan].
  pose proof (fun r Hk => finds_before next x (e, cur) l Hy r Hk) as Hbefore.
  pose proof (finds_after next x (e, cur) l Hy Hny) as Hafter.
  pose proof (finds_null next x (e, cur) l Hy) as Hnull.
  unfold klt, key in Hbefore, Hafter, Hcy. cbn [fst snd] in Hbefore, Hafter, Hcy.
  destruct (Z.ltb_spec (OMX__SEQNUM (m_seqnum cur - next)) (OMX__SEQNUM (m_seqnum (snd x) - next)));
    [apply Hafter; by left|].
  destruct (Z.ltb_spec (OMX__SEQNUM (m_seqnum (snd x) - next)) (OMX__SEQNUM (m_seqnum cur - next)));
    [apply Hbefore; [by left|done]|].
  assert (Heq : OMX__SEQNUM (m_seqnum (snd x) - next) = OMX__SEQNUM (m_seqnum cur - next)) by lia.
  specialize (Hcy Heq). destruct (frag_seqnum_of (snd x)) as [nf|] eqn:Hnf.
  - destruct (proj1 Hcy) as [cf Hcf]; [by eexists|]. rewrite Hcf in *. cbn [mbind option_bind default] in *.
    destruct (Z.ltb_spec cf nf); [apply Hafter; right; by rewrite Heq|].
    destruct (Z.ltb_spec nf cf); [apply Hbefore; [by right|done]|]. apply Hnull. unfold key. cbn [snd].
    rewrite Heq, Hnf, Hcf. cbn. f_equal. lia.
  - apply Hnull. unfold key. cbn [snd]. rewrite Heq, Hnf. destruct (frag_seqnum_of cur); [|done].
    destruct (proj2 Hcy) as [? [=]]. by eexists.
Qed.

(** ** The queue of a partner *)

(** The early packets of [p], in queue order, with their messages. *)
Record holds (w : world) (p : Z) (ms : list (Z * recv_msg)) : Prop := {
  h_queue : qs w !! HpEarly p = Some (EEarly <$> (fst <$> ms));
  h_msgs : Forall (fun y => exists x, earlies w !! fst y = Some x /\ e_msg x = snd y) ms;
  h_nodup : NoDup (fst <$> ms)
}.
(** The bytes an early packet must keep. *)
Definition payload_length (m : recv_msg) : Z :=
  match m_specific m with
  | MsgSmall _ length => length
  | MsgMediumFrag _ _ frag_length _ => frag_length
  | _ => 0
  end.

Lemma early_msgs_run w ms :
  Forall (fun y => exists x, earlies w !! fst y = Some x /\ e_msg x = snd y) ms ->
  early_msgs (fst <$> ms) w = Ret ms w.
Proof.
  induction 1 as [|[e m] ms (x & Hx & Hm) _ IH]; [done|]. rewrite fmap_cons. cbn [early_msgs].
  cbn [fst] in *. rewrite (bind_run _ _ w x w) by (unfold get_early; by rewrite get_bind, Hx).
  rewrite (bind_run _ _ _ _ _ IH). cbn in *. by rewrite Hm.
Qed.
Lemma ids_early (l : list Z) : node_id <$> (EEarly <$> l) = l.
Proof. rewrite <- list_fmap_compose. apply list_fmap_id. Qed.
Lemma find_previous_run w p q ms msg prev : partners w !! p = Some q -> holds w p ms ->
  early_scan (p_next_match_recv_seq q) msg (rev ms) = Some prev ->
  omx__find_previous_early_packet p msg w = Ret prev w.
Proof.
  intros Hq Hms Hp. unfold omx__find_previous_early_packet.
  rewrite (bind_run _ _ _ _ _ (get_partner_run _ _ _ Hq)), (bind_run _ _ _ _ _ (ids_run _ _)).
  unfold queue. rewrite (h_queue _ _ _ Hms). change (default [] (Some ?l)) with l. rewrite ids_early.
  by rewrite (bind_run _ _ _ _ _ (early_msgs_run _ _ (h_msgs _ _ _ Hms))), Hp.
Qed.
Lemma insert_after_apply x e msg ms : insert_after (EEarly x) (EEarly e) (EEarly <$> (fst <$> ms)) =
  EEarly <$> (fst <$> apply_prev (PrevAfter x) (e, msg) ms).
Proof.
  induction ms as [|y ms IH]; [done|]. cbn in *. destruct (decide (y.1 = x)) as [Hyx|Hne].
  - by rewrite decide_True by congruence.
  - rewrite decide_False by congruence. cbn. by rewrite IH.
Qed.
Lemma apply_prev_perm prev y ms : prev <> PrevNull -> (forall e, prev = PrevAfter e -> e ∈ fst <$> ms) ->
  apply_prev prev y ms ≡ₚ y :: ms.
Proof.
  intros Hn He. destruct prev as [| |e]; [done|done|]. specialize (He e eq_refl). clear Hn.
  induction ms as [|z ms IH]; [by apply elem_of_nil in He|]. cbn in *. case_decide as Hz; [by constructor|].
  rewrite elem_of_cons in He. destruct He as [->|He]; [done|]. rewrite (IH He). by constructor.
Qed.

(** Linking a new packet at its place. *)
Lemma link_early w p ms prev e x : holds w p ms -> e ∉ fst <$> ms -> prev <> PrevNull ->
  (forall e, prev = PrevAfter e -> e ∈ fst <$> ms) ->
  let w' := w <| earlies ::= <[e := x]> |> <| qs ::= alter (match prev with
      | PrevAfter x => insert_after (EEarly x) (EEarly e) | _ => cons (EEarly e) end) (HpEarly p) |> in
  holds w' p (apply_prev prev (e, e_msg x) ms).
Proof.
  intros [Hq Hm Hnd] He Hn Hp w'. pose proof (apply_prev_perm prev (e, e_msg x) ms Hn Hp) as Hperm.
  split.
  - unfold w'. fsimp. rewrite lookup_alter_eq, Hq. cbn. f_equal.
    destruct prev as [| |y]; [done|done|]. apply insert_after_apply.
  - rewrite Hperm. constructor.
    + exists x. unfold w'. fsimp. by rewrite lookup_insert_eq.
    + eapply Forall_impl; [apply Forall_and; split; [exact Hm|]|].
      * apply Forall_forall. intros y Hy. exact (list_elem_of_fmap_2 fst _ _ Hy).
      * intros y [(x' & Hx' & Hmx) Hy]. exists x'. split; [|done]. unfold w'. fsimp.
        rewrite lookup_insert_ne; [done|]. intros ->. done.
  - rewrite Hperm. cbn. apply NoDup_cons. by split.
Qed.

(** Steps that leave the early packets of [w] alone. *)
Definition same_early (w w' : world) : Prop :=
  qs w' = qs w /\ earlies w' = earlies w /\ partners w' = partners w.
Lemma holds_same w w' p ms : same_early w w' -> holds w p ms -> holds w' p ms.
Proof. intros (Hq & He & _) [H1 H2 H3]. split; [by rewrite Hq|by rewrite He|done]. Qed.

Lemma malloc_spec w : exists a w', omx_malloc_ep w = Ret a w' /\ same_early w w' /\ memory w' = memory w /\
  (forall e, a = Some e -> Some e ∈ mallocs w) /\ (forall e l, mallocs w = e :: l -> a = e /\ mallocs w' = l).
Proof.
  unfold omx_malloc_ep. destruct (mallocs w) as [|b l].
  - exists None, w. by repeat split.
  - exists b. eexists. split; [reflexivity|]. split; [by repeat split|]. split; [done|].
    split; [intros e ->; by left|by intros e k [= -> ->]].
Qed.
Lemma early_data_spec src length w : exists d w', early_data src length w = Ret d w' /\ same_early w w' /\
  (forall a, d = Some a -> load (memory w') a (Z.to_nat length) = load (memory w) src (Z.to_nat length)) /\
  (forall a l, mallocs w = Some a :: l -> is_Some d).
Proof.
  unfold early_data. destruct (malloc_spec w) as (a & w1 & E1 & Hs & Hm & _ & Hf).
  rewrite (bind_run _ _ _ _ _ E1). destruct a as [a|].
  - exists (Some a). eexists. split; [reflexivity|]. split; [exact Hs|]. split; [|intros ? ? _; by eexists].
    intros b [= <-]. fsimp. rewrite <- Hm. apply load_memcpy_same.
  - exists None, w1. split; [done|]. split; [done|]. split; [done|]. intros b l Hb.
    by destruct (Hf _ _ Hb).
Qed.

Lemma keep_data_spec msg data w : exists d n w', keep_data msg data w = Ret (d, n) w' /\ same_early w w' /\
  (forall a, d = Some a -> load (memory w') a (Z.to_nat (payload_length msg)) =
    load (memory w) data (Z.to_nat (payload_length msg))) /\
  (forall a l, mallocs w = Some a :: l -> is_Some d).
Proof.
  assert (Hd : forall n (n' : Z), exists d (n1 : Z) w', (d ← early_data data n; mret (d, n')) w = Ret (d, n1) w' /\
    same_early w w' /\ (forall a, d = Some a -> load (memory w') a (Z.to_nat n) =
    load (memory w) data (Z.to_nat n)) /\ (forall a l, mallocs w = Some a :: l -> is_Some d)).
  { intros n n'. destruct (early_data_spec data n w) as (d & w' & E & Hr). exists d, n', w'.
    by rewrite (bind_run _ _ _ _ _ E). }
  unfold keep_data, payload_length. destruct (m_specific msg); try apply Hd;
    (eexists _, _, w; split; [reflexivity|]; split; [by repeat split|]; split; [done|intros ? ? _; by eexists]).
Qed.

(** The queue [ms'] is [ms], or [ms] with the new packet in its place, which
    keeps its message, its callback and its data. *)
Definition unchanged_or_added (next : Z) (w w' : world) (msg : recv_msg) (data : Z) (func : recv_func)
    (ms ms' : list (Z * recv_msg)) : Prop :=
  ms' = ms \/ exists e x, ms' = insert_sorted next (e, msg) ms /\
    earlies w' !! e = Some x /\ e_msg x = msg /\ e_recv_func x = func /\
    load (memory w') (e_data x) (Z.to_nat (payload_length msg)) =
    load (memory w) data (Z.to_nat (payload_length msg)).

(** With memory for the packet and its data, the packet is kept. *)
Definition kept_if_memory (next : Z) (w : world) (msg : recv_msg) (ms ms' : list (Z * recv_msg)) : Prop :=
  forall e d l, mallocs w = Some e :: Some d :: l -> ms' = insert_sorted next (e, msg) ms.

Lemma insert_sorted_dup next x l : sorted next l ->
  Exists (fun y => key next (snd y) = key next (snd x)) l -> insert_sorted next x l = l.
Proof.
  induction 1 as [|y l Hs IH Hy]; [by intros ?%Exists_nil|]. cbn [insert_sorted].
  intros Hex. destruct (decide (klt _ _)) as [Hlt|Hnlt].
  - exfalso. apply Exists_cons in Hex as [He|He]; [rewrite He in Hlt; by apply klt_irrefl in Hlt|].
    apply Exists_exists in He as (z & Hz & He). rewrite Forall_forall in Hy.
    specialize (Hy z Hz). rewrite He in Hy. by apply (klt_irrefl _ (klt_trans _ _ _ Hlt Hy)).
  - case_decide as He; [done|]. apply Exists_cons in Hex as [He'|Hex]; [congruence|]. by rewrite IH.
Qed.

(** The part of the postponement that adds the packet. *)
Definition add_packet (p : Z) (msg : recv_msg) (data : Z) (func : recv_func) (prev : early_prev) : M unit :=
  a ← omx_malloc_ep;
  match a with
  | None => mret tt
  | Some e =>
      '(d, n) ← keep_data msg data;
      match d with
      | None => omx_free_ep e
      | Some d =>
          modify (fun w => w <| earlies ::= <[e := Early msg func d n]> |>);;
          on_qs (alter (match prev with PrevAfter x => insert_after (EEarly x) (EEarly e)
                        | _ => cons (EEarly e) end) (HpEarly p))
      end
  end.
Lemma add_packet_spec w p ms next msg data func prev :
  holds w p ms -> sorted next ms -> compatible next msg ms ->
  early_scan next msg (rev ms) = Some prev -> prev <> PrevNull ->
  (forall e, Some e ∈ mallocs w -> e ∉ fst <$> ms) ->
  exists w' ms', add_packet p msg data func prev w = Ret tt w' /\ holds w' p ms' /\
    unchanged_or_added next w w' msg data func ms ms' /\ kept_if_memory next w msg ms ms'.
Proof.
  intros Hms Hs Hc Hp Hne Hf. unfold add_packet.
  destruct (malloc_spec w) as (a & w1 & E1 & Hs1 & Hm1 & Ha & Hl1). rewrite (bind_run _ _ _ _ _ E1).
  assert (Hms1 : holds w1 p ms) by by eapply holds_same.
  destruct a as [e|]; [|exists w1, ms; split; [done|split; [done|split; [by left|]]]; intros e d l Hl;
    by destruct (Hl1 _ _ Hl)].
  destruct (keep_data_spec msg data w1) as (d & n & w2 & E2 & Hs2 & Hd & Hl2). rewrite (bind_run _ _ _ _ _ E2).
  assert (Hms2 : holds w2 p ms) by by eapply holds_same.
  destruct d as [d|]; [|eexists _, ms; split; [reflexivity|split; [by apply (holds_same w2)|split; [by left|]]];
    intros e' d l Hl; destruct (Hl1 _ _ Hl) as [_ Hl1']; by destruct (Hl2 _ _ Hl1')].
  destruct (early_scan_spec next (e, msg) ms Hs (h_nodup _ _ _ Hms) Hc) as (prev' & Hp' & Hi & _ & Hin).
  cbn [snd] in Hp'. rewrite Hp in Hp'. injection Hp' as <-.
  eexists _, (apply_prev prev (e, msg) ms). split; [reflexivity|]. split; [|split].
  - apply (link_early w2 p ms prev e (Early msg func d n) Hms2); [|done|done]. by apply Hf, Ha.
  - right. exists e, (Early msg func d n). split; [done|]. fsimp.
    split; [apply lookup_insert_eq|]. split; [done|]. split; [done|]. cbn [e_data].
    rewrite (Hd d eq_refl). by rewrite Hm1.
  - intros e' d' l Hl. destruct (Hl1 _ _ Hl) as [[= ->] _]. exact Hi.
Qed.

(** C15. The early queue of a partner is a sorted set: a postponed packet that
    is already there has no effect at all; a new one, unless memory is short,
    is linked at its place with a copy of its data, so the queue stays
    strictly sorted by position and fragment and holds every packet once. *)
Theorem early_queue_sorted w p q ms msg data func :
  let next := p_next_match_recv_seq q in
  partners w !! p = Some q -> holds w p ms -> sorted next ms -> compatible next msg ms ->
  (forall e, Some e ∈ mallocs w -> e ∉ fst <$> ms) ->
  exists w' ms', omx__postpone_early_packet p msg data func w = Ret tt w' /\
    holds w' p ms' /\ sorted next ms' /\
    (Exists (fun y => key next (snd y) = key next msg) ms -> w' = w) /\
    unchanged_or_added next w w' msg data func ms ms' /\ kept_if_memory next w msg ms ms'.
Proof.
  intros next Hq Hms Hs Hc Hf.
  destruct (early_scan_spec next (0, msg) ms Hs (h_nodup _ _ _ Hms) Hc) as (prev & Hp & Hi & Hnull & Hin).
  unfold omx__postpone_early_packet. rewrite (bind_run _ _ _ _ _ (find_previous_run _ _ _ _ _ _ Hq Hms Hp)).
  assert (Hadd : prev <> PrevNull -> exists w' ms', add_packet p msg data func prev w = Ret tt w' /\
    holds w' p ms' /\ sorted next ms' /\
    (Exists (fun y => key next (snd y) = key next msg) ms -> w' = w) /\
    unchanged_or_added next w w' msg data func ms ms' /\ kept_if_memory next w msg ms ms').
  { intros Hne. destruct (add_packet_spec w p ms next msg data func prev) as (w' & ms' & E & H1 & H2 & H3);
      [done..|].
    exists w', ms'. split; [done|]. split; [done|]. split; [|split; [|done]].
    - destruct H2 as [->|(e & x & -> & _)]; [done|by apply insert_sorted_sorted].
    - intros Hdup. exfalso. rewrite (insert_sorted_dup next (0, msg) ms Hs Hdup) in Hi.
      pose proof (apply_prev_perm prev (0, msg) ms Hne Hin) as Hperm. rewrite Hi in Hperm.
      apply Permutation_length in Hperm. cbn in Hperm. lia. }
  destruct prev; [|by apply Hadd|by apply Hadd].
  exists w, ms. do 4 (split; [done|]). split; [by left|]. intros e d l _.
  destruct (early_scan_spec next (e, msg) ms Hs (h_nodup _ _ _ Hms) Hc) as (prev & Hp' & Hi' & _).
  cbn [snd] in Hp, Hp'. rewrite Hp in Hp'. injection Hp' as <-. exact Hi'.
Qed.

(** ** Witness *)

(** Packet 18 and fragment 1 of message 20 are waiting, 16 is expected;
    fragment 0 of message 20 arrives. *)
Definition sample_frag (seqnum frag : Z) : recv_msg :=
  RecvMsg 1 1 seqnum 18 42 (MsgMediumFrag 0 16000 8000 frag).
Definition waiting : list (Z * recv_msg) := [(31, sample_small 18); (32, sample_frag 20 1)].
Definition early_world : world := sample_world
  <| earlies := <[31 := Early (sample_small 18) RecvSmall 700 100]>
      (<[32 := Early (sample_frag 20 1) RecvMediumFrag 800 16000]> ∅) |>
  <| qs ::= <[HpEarly 3 := [EEarly 31; EEarly 32]]> |>.
Lemma early_queue_sorted_witness : exists w' ms',
  omx__postpone_early_packet 3 (sample_frag 20 0) 500 RecvMediumFrag early_world = Ret tt w' /\
  queue (HpEarly 3) w' = [EEarly 31; EEarly 2000; EEarly 32] /\ holds w' 3 ms' /\ sorted 16 ms'.
Proof.
  destruct (early_queue_sorted early_world 3 (sample_partner 1 1 20 18 16 16) waiting (sample_frag 20 0)
    500 RecvMediumFrag) as (w' & ms' & E & H1 & H2 & _ & _ & H3).
  - reflexivity.
  - split; [reflexivity| |apply (bool_decide_unpack _); vm_compute; exact I].
    repeat constructor; eexists; (split; [reflexivity|reflexivity]).
  - repeat constructor; apply (bool_decide_unpack _); vm_compute; exact I.
  - apply Forall_cons. split; [intros He; vm_compute in He; discriminate He|].
    apply Forall_singleton. intros _. split; intros _; by eexists.
  - intros e He. change (Some e ∈ [Some 2000; Some 3000; Some 4000; Some 5000; Some 6000]) in He.
    repeat (apply elem_of_cons in He as [[= ->]|He];
      [apply (bool_decide_unpack _); vm_compute; exact I|]). by apply elem_of_nil in He.
  - exists w', ms'. split; [exact E|]. split; [|by split]. unfold queue. rewrite (h_queue _ _ _ H1).
    rewrite (H3 2000 3000 [Some 4000; Some 5000; Some 6000] eq_refl). vm_compute. reflexivity.
Defined.
End EarlyQueue.
