(* ===== verification/Medium.v ===== *)
(** Medium messages: the fragments of a message, in any order and with
    duplicates, are put together in the receive buffer, and the receive
    completes exactly when the last missing one arrives. *)
From S2P Require Import Prelude DList Seqnum Segments World SendqMap Request Region Send Large Ack.
From S2P Require Import Recv Connect Progress Invariants Views Samples.
Import DList Seqnum Mem Segs SendqMap Request Partner Complete Regions Send Large Ack Recv Samples.

Module Medium.

(** ** Fragments of a message of [L] bytes *)

Definition frag_nr (L : Z) : Z := (L + OMX_MEDIUM_FRAG_LENGTH_MAX - 1) / OMX_MEDIUM_FRAG_LENGTH_MAX.
Definition frag_offset (i : Z) : Z := i * OMX_MEDIUM_FRAG_LENGTH_MAX.
Definition frag_length (L i : Z) : Z := Z.min OMX_MEDIUM_FRAG_LENGTH_MAX (L - frag_offset i).
Definition frag_nums (L : Z) : list Z := Z.of_nat <$> seq 0 (Z.to_nat (frag_nr L)).
Definition sum_lengths (L : Z) (l : list Z) : Z := foldr (fun i t => frag_length L i + t) 0 l.

Lemma frag_nr_bounds L : 0 < L -> frag_offset (frag_nr L - 1) < L <= frag_offset (frag_nr L).
Proof.
  intros HL. unfold frag_offset, frag_nr. change OMX_MEDIUM_FRAG_LENGTH_MAX with 8192.
  pose proof (Z.div_mod (L + 8192 - 1) 8192). pose proof (Z.mod_pos_bound (L + 8192 - 1) 8192). lia.
Qed.
Lemma frag_length_pos L i : 0 < L -> 0 <= i < frag_nr L -> 0 < frag_length L i.
Proof.
  intros HL Hi. pose proof (frag_nr_bounds L HL). unfold frag_length, frag_offset in *.
  change OMX_MEDIUM_FRAG_LENGTH_MAX with 8192 in *. lia.
Qed.
Lemma frag_in_range L i : i ∈ frag_nums L <-> 0 <= i < frag_nr L.
Proof.
  unfold frag_nums. rewrite list_elem_of_fmap. split.
  - intros (k & -> & Hk%elem_of_seq). lia.
  - intros Hi. exists (Z.to_nat i). split; [lia|]. apply elem_of_seq. lia.
Qed.

Lemma sum_lengths_perm L l k : l ≡ₚ k -> sum_lengths L l = sum_lengths L k.
Proof. unfold sum_lengths. induction 1; cbn [foldr]; lia. Qed.
Lemma sum_lengths_app L l k : sum_lengths L (l ++ k) = sum_lengths L l + sum_lengths L k.
Proof. unfold sum_lengths in *. induction l as [|i l IH]; cbn [foldr app]; lia. Qed.
Lemma sum_lengths_seq L n : 0 < L -> Z.of_nat n <= frag_nr L ->
  sum_lengths L (Z.of_nat <$> seq 0 n) = Z.min L (frag_offset (Z.of_nat n)).
Proof.
  intros HL. induction n as [|n IH]; intros Hn.
  - cbn. unfold frag_offset. lia.
  - rewrite seq_S, fmap_app, sum_lengths_app, IH by lia. cbn. rewrite Z.add_0_r.
    pose proof (frag_nr_bounds L HL). unfold frag_length, frag_offset in *.
    change OMX_MEDIUM_FRAG_LENGTH_MAX with 8192 in *. lia.
Qed.
Lemma sum_lengths_all L : 0 < L -> sum_lengths L (frag_nums L) = L.
Proof.
  intros HL. pose proof (frag_nr_bounds L HL) as Hb. unfold frag_nums.
  assert (0 <= frag_nr L).
  { unfold frag_nr. apply Z.div_pos; [|done]. change OMX_MEDIUM_FRAG_LENGTH_MAX with 8192. lia. }
  rewrite sum_lengths_seq by lia. rewrite Z2Nat.id by done. lia.
Qed.
Lemma sum_lengths_pos L l : 0 < L -> Forall (fun i => 0 <= i < frag_nr L) l -> l <> [] -> 0 < sum_lengths L l.
Proof.
  intros HL Hl. induction Hl as [|i l Hi Hl IH]; [done|]. intros _. unfold sum_lengths in *. cbn [foldr].
  pose proof (frag_length_pos L i HL Hi). destruct l; [cbn [foldr]; lia|]. specialize (IH ltac:(done)). lia.
Qed.
Lemma sum_lengths_nonneg L l : 0 < L -> Forall (fun i => 0 <= i < frag_nr L) l -> 0 <= sum_lengths L l.
Proof.
  intros HL Hl. destruct l; [cbn; lia|]. pose proof (sum_lengths_pos L (z :: l) HL Hl ltac:(done)). lia.
Qed.

(** A splice changes its range only. *)
Lemma splice_lookup off bs l k : (off + length bs <= length l)%nat ->
  splice off bs l !! k = if decide (off <= k < off + length bs)%nat then bs !! (k - off)%nat else l !! k.
Proof.
  intros Hl. unfold splice. case_decide as Hd.
  - rewrite lookup_app_r by (rewrite length_take_le; lia). rewrite length_take_le by lia.
    by rewrite lookup_app_l by lia.
  - destruct (decide (k < off)%nat) as [Hk|Hk].
    + rewrite lookup_app_l by (rewrite length_take_le; lia). by rewrite lookup_take_lt.
    + rewrite lookup_app_r by (rewrite length_take_le; lia). rewrite length_take_le by lia.
      rewrite lookup_app_r by lia. rewrite lookup_drop. f_equal. lia.
Qed.
Lemma splice_length off bs l : (off + length bs <= length l)%nat -> length (splice off bs l) = length l.
Proof. intros Hl. unfold splice. rewrite !length_app, length_take, length_drop. lia. Qed.

(** ** One copy *)

(** The position a saved scan stands at is only used for several segments. *)
Definition scan_ok (r : req_segs) (x : request) : Prop :=
  nseg r = 1 \/ at_pos (seg_array r) (scan_state x) (scan_offset x) /\ scan_base x = segs r.
Definition with_scan (x : request) (st : segscan_state) (so : Z) (sb : segs_ptr) : request :=
  x <| scan_state := st |> <| scan_offset := so |> <| scan_base := sb |>.
Lemma with_scan_id x : with_scan x (scan_state x) (scan_offset x) (scan_base x) = x.
Proof. by destruct x. Qed.

(** The result of an operation on one request and the memory. *)
Record touches (req : Z) (x' : request) (w w' : world) : Prop := {
  t_req : reqs w' !! req = Some x';
  t_qs : qs w' = qs w;
  t_conf : ctxid_bits w' = ctxid_bits w
}.

Section medium.
Context `{App}.

Lemma copy_frag_single w req x r data offset chunk :
  reqs w !! req = Some x -> r_segs x = r -> wf_req r -> nseg r = 1 ->
  0 < chunk -> 0 <= offset -> offset + chunk <= total_length r ->
  exists w', copy_frag req data offset chunk w = Ret tt w' /\ touches req x w w' /\
    seg_bytes (memory w') (seg_array r) = splice (Z.to_nat offset)
      (load (memory w) data (Z.to_nat chunk)) (seg_bytes (memory w) (seg_array r)) /\
    frame (seg_array r) (memory w) (memory w').
Proof.
  intros Hx Hr Hwf Hn Hc Ho Ht. unfold copy_frag. rewrite get_bind.
  rewrite (bind_run _ _ _ _ _ (get_req_run _ _ _ Hx)), Hr, Hn. cbn [Z.eqb Pos.eqb].
  pose proof (wf_single r Hwf Hn) as Hs. pose proof (wf_total r Hwf) as Htot.
  rewrite Hs in *. cbn in Htot. eexists. split; [reflexivity|]. split; [done|]. fsimp. split.
  - cbn. rewrite !app_nil_r. unfold memcpy. rewrite store_off_seg by (rewrite ?length_load; lia).
    do 2 f_equal. lia.
  - intros y Hy. unfold memcpy. apply store_out. rewrite length_load.
    specialize (Hy (single r) ltac:(by left)). lia.
Qed.
Lemma same_array_refl p : same_array p p = true.
Proof. destruct p; [done|]. apply Z.eqb_refl. Qed.

Lemma copy_frag_run w req x r data offset chunk :
  reqs w !! req = Some x -> r_segs x = r -> wf_req r -> separate (seg_array r) ->
  0 < chunk -> 0 <= offset -> offset + chunk <= total_length r ->
  apart data chunk (seg_array r) -> scan_ok r x ->
  exists w' st so sb, copy_frag req data offset chunk w = Ret tt w' /\
    touches req (with_scan x st so sb) w w' /\ scan_ok r (with_scan x st so sb) /\
    seg_bytes (memory w') (seg_array r) = splice (Z.to_nat offset)
      (load (memory w) data (Z.to_nat chunk)) (seg_bytes (memory w) (seg_array r)) /\
    frame (seg_array r) (memory w) (memory w').
Proof.
  intros Hx Hr Hwf Hsep Hc Ho Ht Ha Hok. destruct (decide (nseg r = 1)) as [Hn|Hn].
  - destruct (copy_frag_single w req x r data offset chunk) as (w' & E & Ht' & Hb & Hf); [done..|].
    exists w', (scan_state x), (scan_offset x), (scan_base x). rewrite with_scan_id.
    split; [done|]. split; [done|]. split; [by left|done].
  - destruct Hok as [|[Hp Hb]]; [done|].
    destruct (partial_copy_to_spec (memory w) r data chunk offset (scan_state x) (scan_offset x))
      as (m' & st & Em & Hbs & Hf & Hp'); [done..|by intros <-|].
    assert (Hrun : exists w', copy_frag req data offset chunk w = Ret tt w' /\
      touches req (with_scan x st (offset + chunk) (segs r)) w w' /\ memory w' = m').
    { unfold copy_frag. rewrite get_bind.
      rewrite (bind_run _ _ _ _ _ (get_req_run _ _ _ Hx)), Hr.
      rewrite (proj2 (Z.eqb_neq _ _) Hn), Hb, same_array_refl, andb_false_r, Em.
      rewrite (bind_run _ _ w tt (w <| memory := m' |>)) by done.
      erewrite upd_req_run by (fsimp; exact Hx). eexists. split; [reflexivity|]. split; [|done].
      split; fsimp; [|done..]. rewrite lookup_insert_eq, Hr. done. }
    destruct Hrun as (w' & E & Ht' & <-). exists w', st, (offset + chunk), (segs r).
    split; [done|]. split; [done|]. split; [right; by split|]. by split.
Qed.

(** ** The state between two fragments *)

Definition frag_bytes (L : Z) (bs : list Z) (i : Z) : list Z :=
  take (Z.to_nat (frag_length L i)) (drop (Z.to_nat (frag_offset i)) bs).
(** A received fragment: its number, its event, where its bytes are. *)
Record packet := Packet { k_frag : Z; k_msg : recv_msg; k_data : Z }.
Record packet_ok (L : Z) (bs : list Z) (r : req_segs) (m : mem) (k : packet) : Prop := {
  k_range : 0 <= k_frag k < frag_nr L;
  k_event : exists recvq_offset,
    m_specific (k_msg k) = MsgMediumFrag recvq_offset L (frag_length L (k_frag k)) (k_frag k);
  k_apart : apart (k_data k) (frag_length L (k_frag k)) (seg_array r);
  k_bytes : load m (k_data k) (Z.to_nat (frag_length L (k_frag k))) = frag_bytes L bs (k_frag k)
}.
(** A message of [L] bytes [bs] that exactly fits the receive buffer. *)
Record message_ok (L : Z) (bs : list Z) (r : req_segs) : Prop := {
  mo_wf : wf_req r; mo_sep : separate (seg_array r);
  mo_len : 0 < L; mo_total : total_length r = L; mo_bytes : length bs = Z.to_nat L;
  mo_frags : frag_nr L <= 32
}.
(** The receive [x] when the fragments [S] are there. *)
Record partial_req (L : Z) (r : req_segs) (S : list Z) (x : request) : Prop := {
  pq_segs : r_segs x = r;
  pq_scan : scan_ok r x;
  pq_mask : forall k, 0 <= k -> Z.testbit (frags_received_mask x) k = bool_decide (k ∈ S);
  pq_sum : accumulated_length x = sum_lengths L S;
  pq_state : r_state x = if decide (S = []) then 0 else OMX_REQUEST_STATE_RECV_PARTIAL;
  pq_code : s_code x = OMX_SUCCESS;
  pq_msg : s_msg_length x = L; pq_xfer : s_xfer_length x = L
}.
(** The endpoint when [S] is there and [R] is missing, from the state [w0]
    before the first fragment. *)
Record receiving (p req L : Z) (bs : list Z) (r : req_segs) (w0 w : world) (S R : list Z) : Prop := {
  rc_split : S ++ R ≡ₚ frag_nums L;
  rc_req : exists x, reqs w !! req = Some x /\ partial_req L r S x;
  rc_mem : forall i (k : nat), i ∈ S -> frag_offset i <= Z.of_nat k < frag_offset i + frag_length L i ->
    seg_bytes (memory w) (seg_array r) !! k = bs !! k;
  rc_frame : frame (seg_array r) (memory w0) (memory w);
  rc_qs : qs w = if decide (S = []) then qs w0 else q_add_tail (EPartner req) (HpPartial p) (qs w0);
  rc_conf : ctxid_bits w = ctxid_bits w0
}.

Lemma frag_nums_nodup L : NoDup (frag_nums L).
Proof. unfold frag_nums. apply NoDup_fmap_2; [intros ? ?; lia|apply NoDup_seq]. Qed.
Lemma rc_range p req L bs r w0 w S R : receiving p req L bs r w0 w S R ->
  Forall (fun i => 0 <= i < frag_nr L) S /\ Forall (fun i => 0 <= i < frag_nr L) R /\ NoDup (S ++ R).
Proof.
  intros Hr. pose proof (rc_split _ _ _ _ _ _ _ _ _ Hr) as Hp.
  assert (Hall : Forall (fun i => 0 <= i < frag_nr L) (S ++ R)).
  { rewrite Hp. apply Forall_forall. intros i. apply frag_in_range. }
  apply Forall_app in Hall as [? ?]. split; [done|]. split; [done|]. rewrite Hp. apply frag_nums_nodup.
Qed.
Lemma rc_sum p req L bs r w0 w S R : 0 < L -> receiving p req L bs r w0 w S R ->
  sum_lengths L S + sum_lengths L R = L.
Proof.
  intros HL Hr. rewrite <- sum_lengths_app, (sum_lengths_perm L _ _ (rc_split _ _ _ _ _ _ _ _ _ Hr)).
  by apply sum_lengths_all.
Qed.

(** A duplicate fragment has no effect. *)
Lemma frag_duplicate p req L bs r w0 w S R k :
  message_ok L bs r -> receiving p req L bs r w0 w S R -> packet_ok L bs r (memory w0) k ->
  k_frag k ∈ S -> omx__process_recv_medium_frag p req (k_msg k) (k_data k) L w = Ret tt w.
Proof.
  intros Hm Hr [Hk [ro Hs] _ _] Hin. unfold omx__process_recv_medium_frag. rewrite Hs.
  destruct (rc_req _ _ _ _ _ _ _ _ _ Hr) as (x & Hx & Hpq).
  rewrite (bind_run _ _ w (CTXID_FROM_MATCHING w (m_match_info (k_msg k))) w) by done.
  rewrite (bind_run _ _ _ _ _ (get_req_run _ _ _ Hx)). cbn zeta.
  pose proof (mo_frags _ _ _ Hm). rewrite (proj2 (Z.leb_gt _ _)) by lia.
  rewrite (pq_mask _ _ _ _ Hpq) by lia. by rewrite bool_decide_true.
Qed.

(** What a new fragment does before the completion test. *)
Definition finish (p req L : Z) : M unit :=
  x ← get_req req;
  when (accumulated_length x =? L) (
    upd_req req (set r_state (clrf OMX_REQUEST_STATE_RECV_PARTIAL));;
    omx__dequeue_partner_request (HpPartial p) req;;
    x ← get_req req;
    when (negb (hasf (r_state x) OMX_REQUEST_STATE_UNEXPECTED_RECV)) (omx__recv_complete req OMX_SUCCESS)).

Lemma frame_load r m m' a n : wf_req r -> frame (seg_array r) m m' -> apart a n (seg_array r) ->
  load m' a (Z.to_nat n) = load m a (Z.to_nat n).
Proof.
  intros Hwf Hf Ha. apply load_ext. intros y Hy. apply Hf. intros s Hs.
  pose proof (proj1 (Forall_forall _ _) Ha s Hs) as Hd.
  pose proof (proj1 (Forall_forall _ _) (wf_lens r Hwf) s Hs) as Hls. cbn in Hd, Hls.
  unfold disj in Hd. destruct (decide (len s = 0)); lia.
Qed.

(** *** The request after one more fragment *)
Definition one_more (x : request) (L i : Z) : request :=
  x <| frags_received_mask ::= fun m => Z.lor m (2 ^ i) |>
    <| accumulated_length ::= fun l => u32 (l + frag_length L i) |>.
Lemma one_more_ok L r S x i st so sb state :
  0 < L < 4294967296 -> 0 <= i -> partial_req L r S x -> scan_ok r (with_scan x st so sb) ->
  0 <= sum_lengths L S -> 0 <= frag_length L i -> sum_lengths L (i :: S) <= L ->
  state = OMX_REQUEST_STATE_RECV_PARTIAL ->
  partial_req L r (i :: S) ((one_more (with_scan x st so sb) L i) <| r_state := state |>).
Proof.
  intros HL Hi [Hsegs Hscan Hmask Hsum Hstate Hcode Hmsg Hxfer] Hscan' Hs0 Hl0 Hle ->.
  split; [exact Hsegs|exact Hscan'| | |by rewrite decide_False|exact Hcode|exact Hmsg|exact Hxfer].
  - intros k Hk. change (Z.testbit (Z.lor (frags_received_mask x) (2 ^ i)) k = bool_decide (k ∈ i :: S)).
    rewrite Z.lor_spec, Hmask, Z.pow2_bits_eqb by done.
    destruct (Z.eqb_spec i k) as [->|Hne].
    + rewrite orb_true_r, bool_decide_true; [done|by left].
    + rewrite orb_false_r. apply bool_decide_ext. rewrite elem_of_cons. naive_solver.
  - change (u32 (accumulated_length x + frag_length L i) = sum_lengths L (i :: S)).
    rewrite Hsum. unfold sum_lengths in *. cbn [foldr] in *. rewrite u32_small by lia. lia.
Qed.

Lemma seg_bytes_len r L m : wf_req r -> total_length r = L -> length (seg_bytes m (seg_array r)) = Z.to_nat L.
Proof. intros Hwf <-. rewrite length_seg_bytes by apply Hwf. by rewrite (wf_total r Hwf). Qed.

(** The bytes after one more copy. *)
Lemma one_more_bytes L bs r m m' i S (k : nat) j :
  message_ok L bs r -> 0 <= i < frag_nr L ->
  seg_bytes m' (seg_array r) = splice (Z.to_nat (frag_offset i)) (frag_bytes L bs i)
    (seg_bytes m (seg_array r)) ->
  (forall j (k : nat), j ∈ S -> frag_offset j <= Z.of_nat k < frag_offset j + frag_length L j ->
    seg_bytes m (seg_array r) !! k = bs !! k) ->
  j ∈ i :: S -> frag_offset j <= Z.of_nat k < frag_offset j + frag_length L j ->
  seg_bytes m' (seg_array r) !! k = bs !! k.
Proof.
  intros [Hwf Hsep HL Htot Hlen Hmax] Hi Hb Hold Hj Hk.
  pose proof (frag_nr_bounds L HL) as Hnr. pose proof (frag_length_pos L i HL Hi) as Hpos.
  assert (Hoff : 0 <= frag_offset i) by (unfold frag_offset; change OMX_MEDIUM_FRAG_LENGTH_MAX with 8192; lia).
  assert (Hend : frag_offset i + frag_length L i <= L) by (unfold frag_length; lia).
  assert (Hfl : length (frag_bytes L bs i) = Z.to_nat (frag_length L i)).
  { unfold frag_bytes. rewrite length_take, length_drop, Hlen. lia. }
  rewrite Hb, splice_lookup by (rewrite Hfl, (seg_bytes_len r L) by done; lia). rewrite Hfl.
  case_decide as Hd.
  - unfold frag_bytes. rewrite lookup_take_lt by lia. rewrite lookup_drop. f_equal. lia.
  - apply elem_of_cons in Hj as [->|Hj]; [lia|]. by apply (Hold j).
Qed.

(** The registration of a first fragment. *)
Definition new_block (p req ctxid : Z) (new : bool) : M unit :=
  when new (
    x ← get_req req;
    when (hasf (r_state x) OMX_REQUEST_STATE_UNEXPECTED_RECV) (enqueue_unexp ctxid req);;
    upd_req req (set r_state (setf OMX_REQUEST_STATE_RECV_PARTIAL));;
    omx__enqueue_partner_request (HpPartial p) req).
Lemma new_block_run p req ctxid (new : bool) (w : world) (y : request) : reqs w !! req = Some y ->
  r_state y = (if new then 0 else OMX_REQUEST_STATE_RECV_PARTIAL) ->
  exists w', new_block p req ctxid new w = Ret tt w' /\
    reqs w' !! req = Some (y <| r_state := OMX_REQUEST_STATE_RECV_PARTIAL |>) /\
    qs w' = (if new then q_add_tail (EPartner req) (HpPartial p) (qs w) else qs w) /\
    memory w' = memory w /\ ctxid_bits w' = ctxid_bits w.
Proof.
  intros Hy Hst. destruct new; cbn [new_block when].
  - unfold new_block. cbn [when]. rewrite (bind_run _ _ _ _ _ (get_req_run _ _ _ Hy)), Hst.
    rewrite (bind_run _ _ w tt w) by done.
    rewrite (bind_run _ _ _ _ _ (upd_req_run _ _ _ _ Hy)). eexists. split; [reflexivity|]. fsimp.
    split; [|done]. rewrite lookup_insert_eq. f_equal. unfold set at 1. destruct y. cbn in *. by subst.
  - exists w. split; [done|]. split; [|done]. rewrite Hy, <- Hst. by destruct y.
Qed.
Lemma mask_zero L r S x : Forall (fun i => 0 <= i) S -> partial_req L r S x ->
  (frags_received_mask x =? 0) = bool_decide (S = []).
Proof.
  intros Hpos Hpq. destruct S as [|i S].
  - rewrite bool_decide_true by done. apply Z.eqb_eq. apply Z.bits_inj'. intros n Hn.
    by rewrite (pq_mask _ _ _ _ Hpq), Z.bits_0 by done.
  - rewrite bool_decide_false by done. apply Z.eqb_neq. intros H0. apply Forall_cons in Hpos as [Hi _].
    pose proof (pq_mask _ _ _ _ Hpq i Hi) as Hb. rewrite H0, Z.bits_0, bool_decide_true in Hb; [done|].
    by left.
Qed.

Lemma frag_new p req L bs r w0 w S R R' k :
  message_ok L bs r -> receiving p req L bs r w0 w S R -> packet_ok L bs r (memory w0) k ->
  R ≡ₚ k_frag k :: R' ->
  exists w1, omx__process_recv_medium_frag p req (k_msg k) (k_data k) L w = finish p req L w1 /\
    receiving p req L bs r w0 w1 (k_frag k :: S) R'.
Proof.
  intros Hm Hr [Hk [ro Hs] Hka Hkb] HR. set (i := k_frag k) in *.
  pose proof (mo_frags _ _ _ Hm). pose proof (mo_len _ _ _ Hm) as HL. pose proof (mo_wf _ _ _ Hm) as Hwf.
  destruct (rc_range _ _ _ _ _ _ _ _ _ Hr) as (HrS & HrR & Hnd).
  destruct (rc_req _ _ _ _ _ _ _ _ _ Hr) as (x & Hx & Hpq).
  assert (HiS : i ∉ S).
  { intros HiS. apply NoDup_app in Hnd as (_ & Hd & _). apply (Hd i HiS). rewrite HR. by left. }
  pose proof (rc_sum _ _ _ _ _ _ _ _ _ HL Hr) as Hsum. rewrite (sum_lengths_perm L _ _ HR) in Hsum.
  pose proof (frag_length_pos L i HL Hk) as Hpos.
  assert (HR' : 0 <= sum_lengths L R').
  { apply sum_lengths_nonneg; [done|]. rewrite HR in HrR. by apply Forall_cons in HrR as [_ ?]. }
  pose proof (sum_lengths_nonneg L S HL HrS) as HS0.
  assert (HrS' : Forall (fun i => 0 <= i) S) by (eapply Forall_impl; [exact HrS|cbn; lia]).
  assert (Hend : frag_offset i + frag_length L i <= L) by (unfold frag_length; lia).
  assert (Hoff : 0 <= frag_offset i) by (unfold frag_offset; change OMX_MEDIUM_FRAG_LENGTH_MAX with 8192; lia).
  unfold omx__process_recv_medium_frag. rewrite Hs.
  rewrite (bind_run _ _ w (CTXID_FROM_MATCHING w (m_match_info (k_msg k))) w) by done.
  rewrite (bind_run _ _ _ _ _ (get_req_run _ _ _ Hx)). cbn zeta.
  rewrite (proj2 (Z.leb_gt _ _)) by lia.
  rewrite (pq_mask _ _ _ _ Hpq), bool_decide_false by (done || lia).
  change (i * OMX_MEDIUM_FRAG_LENGTH_MAX) with (frag_offset i).
  unfold xfer_chunk. rewrite (proj2 (Z.leb_le _ _)) by lia.
  destruct (copy_frag_run w req x r (k_data k) (frag_offset i) (frag_length L i))
    as (w2 & st & so & sb & E2 & Ht & Hso & Hb & Hf);
    [done|apply Hpq|done|apply Hm|done|done|by rewrite (mo_total _ _ _ Hm)|done|apply Hpq|].
  rewrite (bind_run _ _ _ _ _ E2).
  set (w3 := w2 <| reqs ::= <[req := one_more (with_scan x st so sb) L i]> |>).
  rewrite (bind_run _ _ w2 tt w3) by exact (upd_req_run _ _ _ _ (t_req _ _ _ _ Ht)).
  assert (Hy : reqs w3 !! req = Some (one_more (with_scan x st so sb) L i))
    by (unfold w3; fsimp; apply lookup_insert_eq).
  destruct (new_block_run p req (CTXID_FROM_MATCHING w (m_match_info (k_msg k)))
    (frags_received_mask x =? 0) w3 _ Hy) as (w4 & E4 & Hy4 & Hq4 & Hm4 & Hc4).
  { rewrite (mask_zero L r S x) by done.
    change (r_state (one_more (with_scan x st so sb) L i)) with (r_state x).
    rewrite (pq_state _ _ _ _ Hpq). by destruct S. }
  rewrite (bind_run _ _ _ _ _ E4). exists w4. split; [done|].
  rewrite (mask_zero L r S x) in Hq4 by done.
  split.
  - rewrite <- (rc_split _ _ _ _ _ _ _ _ _ Hr), HR. cbn. apply Permutation_middle.
  - eexists. split; [exact Hy4|]. apply one_more_ok; try done; [|lia|lia|unfold sum_lengths in *; cbn [foldr] in *; lia].
    pose proof (wf_small r Hwf). rewrite (mo_total _ _ _ Hm) in *. lia.
  - intros j n. rewrite Hm4. apply (one_more_bytes L bs r (memory w) _ i S n j Hm Hk); [|apply Hr].
    change (memory w3) with (memory w2). rewrite Hb. f_equal.
    rewrite <- Hkb. apply (frame_load r); [done|apply Hr|done].
  - intros y Hy'. rewrite Hm4. change (memory w3) with (memory w2). rewrite Hf by done. by apply Hr.
  - rewrite Hq4. change (qs w3) with (qs w2). rewrite (t_qs _ _ _ _ Ht), (rc_qs _ _ _ _ _ _ _ _ _ Hr).
    by destruct S.
  - rewrite Hc4. change (ctxid_bits w3) with (ctxid_bits w2). rewrite (t_conf _ _ _ _ Ht). apply Hr.
Qed.

(** *** The completion test *)
Lemma finish_waits p req L bs r w0 w S R : 0 < L -> receiving p req L bs r w0 w S R -> R <> [] ->
  finish p req L w = Ret tt w.
Proof.
  intros HL Hr HR. destruct (rc_req _ _ _ _ _ _ _ _ _ Hr) as (x & Hx & Hpq).
  destruct (rc_range _ _ _ _ _ _ _ _ _ Hr) as (_ & HrR & _).
  pose proof (sum_lengths_pos L R HL HrR HR). pose proof (rc_sum _ _ _ _ _ _ _ _ _ HL Hr).
  unfold finish. rewrite (bind_run _ _ _ _ _ (get_req_run _ _ _ Hx)), (pq_sum _ _ _ _ Hpq).
  by rewrite (proj2 (Z.eqb_neq _ _)) by lia.
Qed.

(** The bytes of a message are those of its fragments. *)
Lemma all_bytes p req L bs r w0 w S : message_ok L bs r -> receiving p req L bs r w0 w S [] ->
  seg_bytes (memory w) (seg_array r) = bs.
Proof.
  intros Hm Hr. pose proof (mo_len _ _ _ Hm) as HL. pose proof (frag_nr_bounds L HL) as Hnr.
  apply list_eq. intros n. destruct (decide (n < Z.to_nat L)%nat) as [Hn|Hn].
  - pose proof (rc_split _ _ _ _ _ _ _ _ _ Hr) as Hp. rewrite app_nil_r in Hp.
    set (i := Z.of_nat n / OMX_MEDIUM_FRAG_LENGTH_MAX).
    change OMX_MEDIUM_FRAG_LENGTH_MAX with 8192 in i.
    pose proof (Z.div_mod (Z.of_nat n) 8192). pose proof (Z.mod_pos_bound (Z.of_nat n) 8192).
    unfold frag_offset in Hnr. change OMX_MEDIUM_FRAG_LENGTH_MAX with 8192 in Hnr.
    apply (rc_mem _ _ _ _ _ _ _ _ _ Hr i).
    + rewrite Hp. apply frag_in_range. fold i in H0. lia.
    + unfold frag_length, frag_offset. change OMX_MEDIUM_FRAG_LENGTH_MAX with 8192. fold i in H0. lia.
  - rewrite !lookup_ge_None_2; [done| |].
    + rewrite (mo_bytes _ _ _ Hm). lia.
    + rewrite (seg_bytes_len r L) by apply Hm. lia.
Qed.

Lemma recv_complete_run req w x : reqs w !! req = Some x -> r_state x = 0 ->
  s_code x = OMX_SUCCESS -> s_xfer_length x = s_msg_length x ->
  exists w', omx__recv_complete req OMX_SUCCESS w = Ret tt w' /\ memory w' = memory w /\
    reqs w' !! req = Some (x <| r_state := OMX_REQUEST_STATE_DONE |>) /\
    qs w' = (let F := q_add_tail (EDone req) HDone (qs w) in
             if HAS_CTXIDS w
             then q_add_tail (ECtxid req) (HCtxDone (CTXID_FROM_MATCHING w (s_match_info x))) F else F).
Proof.
  intros Hx Hs Hc Hl. unfold omx__recv_complete.
  rewrite (bind_run _ _ _ _ _ (get_req_run _ _ _ Hx)).
  rewrite (bind_run _ _ w (CTXID_FROM_MATCHING w (s_match_info x)) w) by done.
  rewrite (bind_run _ _ w tt w).
  2:{ unfold set_status. rewrite (bind_run _ _ _ _ _ (get_req_run _ _ _ Hx)), Hc, Hl.
      rewrite !bool_decide_true by done. cbn [when]. by rewrite Z.ltb_irrefl. }
  assert (Hfree : exists w2, free_segments (r_segs x) w = Ret tt w2 /\ reqs w2 = reqs w /\ qs w2 = qs w /\
    memory w2 = memory w /\ ctxid_bits w2 = ctxid_bits w).
  { unfold free_segments. destruct (omx_free_segments _); eexists; (split; [reflexivity|done]). }
  destruct Hfree as (w2 & E2 & H1 & H2 & H3 & H4). rewrite (bind_run _ _ _ _ _ E2).
  assert (Hx2 : reqs w2 !! req = Some x) by by rewrite H1.
  unfold omx__notify_request_done. rewrite (bind_run _ _ _ _ _ (get_req_run _ _ _ Hx2)), Hs.
  change (hasf 0 OMX_REQUEST_STATE_INTERNAL) with false.
  change (hasf 0 OMX_REQUEST_STATE_ZOMBIE) with false.
  change (hasf 0 OMX_REQUEST_STATE_DONE) with false. cbn [negb].
  rewrite (bind_run _ _ _ _ _ (upd_req_run _ _ _ _ Hx2)). unfold enqueue_done.
  set (w3 := w2 <| reqs ::= <[req := set r_state (setf OMX_REQUEST_STATE_DONE) x]> |>).
  rewrite (bind_run _ _ w3 tt (w3 <| qs ::= q_add_tail (EDone req) HDone |>)) by done.
  rewrite get_bind.
  assert (Hh : HAS_CTXIDS (w3 <| qs ::= q_add_tail (EDone req) HDone |>) = HAS_CTXIDS w)
    by (unfold HAS_CTXIDS, w3; fsimp; by rewrite H4).
  assert (Hr3 : reqs w3 !! req = Some (x <| r_state := OMX_REQUEST_STATE_DONE |>)).
  { unfold w3. fsimp. rewrite lookup_insert_eq. f_equal. destruct x. cbn in Hs. by subst. }
  rewrite Hh. destruct (HAS_CTXIDS w); cbn [when]; (eexists; split; [reflexivity|]); fsimp;
    (split; [exact H3|]); (split; [exact Hr3|]); unfold w3; fsimp; by rewrite H2.
Qed.

(** The last fragment completes the receive. *)
Record completed (p req : Z) (bs : list Z) (r : req_segs) (w0 w' : world) : Prop := {
  cm_bytes : seg_bytes (memory w') (seg_array r) = bs;
  cm_frame : frame (seg_array r) (memory w0) (memory w');
  cm_req : exists x, reqs w' !! req = Some x /\ r_state x = OMX_REQUEST_STATE_DONE /\
    s_code x = OMX_SUCCESS;
  cm_done : queue HDone w' = queue HDone w0 ++ [EDone req];
  cm_partial : queue (HpPartial p) w' = queue (HpPartial p) w0
}.
Lemma finish_completes p req L bs r w0 w S : message_ok L bs r ->
  receiving p req L bs r w0 w S [] -> S <> [] ->
  is_Some (qs w0 !! HDone) -> (forall h, EPartner req ∉ queue h w0) ->
  exists w', finish p req L w = Ret tt w' /\ completed p req bs r w0 w'.
Proof.
  intros Hm Hr HS [d Hd] Hnot. pose proof (mo_len _ _ _ Hm) as HL.
  pose proof (all_bytes _ _ _ _ _ _ _ _ Hm Hr) as Hbytes.
  destruct (rc_req _ _ _ _ _ _ _ _ _ Hr) as (x & Hx & Hpq).
  pose proof (rc_sum _ _ _ _ _ _ _ _ _ HL Hr) as Hsum. cbn in Hsum.
  unfold finish. rewrite (bind_run _ _ _ _ _ (get_req_run _ _ _ Hx)), (pq_sum _ _ _ _ Hpq).
  rewrite (proj2 (Z.eqb_eq _ _)) by lia. cbn [when].
  rewrite (bind_run _ _ _ _ _ (upd_req_run _ _ _ _ Hx)).
  set (x2 := set r_state (clrf OMX_REQUEST_STATE_RECV_PARTIAL) x).
  set (w2 := w <| reqs ::= <[req := x2]> |> <| qs ::= q_del (EPartner req) |>).
  rewrite (bind_run _ _ _ tt w2) by done.
  assert (Hx2 : reqs w2 !! req = Some x2) by (unfold w2; fsimp; apply lookup_insert_eq).
  assert (Hs2 : r_state x2 = 0).
  { unfold x2. fsimp. rewrite (pq_state _ _ _ _ Hpq), decide_False by done. reflexivity. }
  rewrite (bind_run _ _ _ _ _ (get_req_run _ _ _ Hx2)), Hs2.
  change (negb (hasf 0 OMX_REQUEST_STATE_UNEXPECTED_RECV)) with true. cbn [when].
  destruct (recv_complete_run req w2 x2 Hx2 Hs2) as (w' & E & Hmem & Hreq & Hq).
  { apply Hpq. } { unfold x2. fsimp. by rewrite (pq_msg _ _ _ _ Hpq), (pq_xfer _ _ _ _ Hpq). }
  exists w'. split; [exact E|].
  assert (Hq2 : qs w2 = q_del (EPartner req) (q_add_tail (EPartner req) (HpPartial p) (qs w0))).
  { unfold w2. fsimp. by rewrite (rc_qs _ _ _ _ _ _ _ _ _ Hr), decide_False. }
  assert (Hlook : forall h, qs w2 !! h = qs w0 !! h).
  { intros h. rewrite Hq2. unfold q_del, q_add_tail. rewrite lookup_fmap. specialize (Hnot h).
    unfold queue in Hnot. destruct (decide (h = HpPartial p)) as [->|Hne].
    - rewrite lookup_alter_eq. destruct (qs w0 !! HpPartial p) as [l|]; [|done].
      change (default [] (Some l)) with l in Hnot.
      change (Some (remove_elt (EPartner req) (l ++ [EPartner req])) = Some l). f_equal.
      rewrite remove_elt_app, remove_elt_notin by done. rewrite remove_elt_cons_eq. apply app_nil_r.
    - rewrite lookup_alter_ne by done. destruct (qs w0 !! h) as [l|]; [|done].
      change (default [] (Some l)) with l in Hnot.
      change (Some (remove_elt (EPartner req) l) = Some l). f_equal. by apply remove_elt_notin. }
  split.
  - rewrite Hmem. exact Hbytes.
  - rewrite Hmem. apply Hr.
  - eexists. split; [exact Hreq|]. split; [done|]. apply Hpq.
  - unfold queue. rewrite Hq. cbn zeta. unfold q_add_tail.
    destruct (HAS_CTXIDS w2); rewrite ?(lookup_alter_ne _ _ _ HDone) by done;
      rewrite lookup_alter_eq, Hlook, Hd; done.
  - unfold queue. rewrite Hq. cbn zeta. unfold q_add_tail.
    destruct (HAS_CTXIDS w2); rewrite !lookup_alter_ne by done; by rewrite Hlook.
Qed.

(** *** All the fragments *)

Definition receive (p req L : Z) (k : packet) : M unit :=
  omx__process_recv_medium_frag p req (k_msg k) (k_data k) L.

Lemma frags_run p req L bs r w0 ks : message_ok L bs r -> Forall (packet_ok L bs r (memory w0)) ks ->
  forall w S R, receiving p req L bs r w0 w S R -> (exists j, j ∈ R /\ j ∉ k_frag <$> ks) ->
  exists w' S' R', each (receive p req L) ks w = Ret tt w' /\ receiving p req L bs r w0 w' S' R' /\
    (forall i, i ∈ S' <-> i ∈ S \/ i ∈ k_frag <$> ks).
Proof.
  intros Hm. pose proof (mo_len _ _ _ Hm) as HL.
  induction 1 as [|k ks Hk Hks IH]; intros w S R Hr (j & Hj & Hjk).
  { exists w, S, R. split; [done|]. split; [done|]. intros i. rewrite elem_of_nil. tauto. }
  rewrite fmap_cons, not_elem_of_cons in Hjk. destruct Hjk as [Hjk Hjks]. cbn [each].
  destruct (decide (k_frag k ∈ S)) as [Hin|Hnin].
  - destruct (IH w S R Hr) as (w' & S' & R' & E & Hr' & Hs'); [by exists j|].
    exists w', S', R'. split; [|split; [done|]].
    + by rewrite (bind_run _ _ _ _ _ (frag_duplicate p req L bs r w0 w S R k Hm Hr Hk Hin)).
    + intros i. rewrite Hs', fmap_cons, elem_of_cons. naive_solver.
  - assert (HkR : k_frag k ∈ R).
    { assert (Hall : k_frag k ∈ S ++ R).
      { rewrite (rc_split _ _ _ _ _ _ _ _ _ Hr). apply frag_in_range, Hk. }
      apply elem_of_app in Hall. tauto. }
    apply elem_of_Permutation in HkR as [R1 HR1].
    destruct (frag_new p req L bs r w0 w S R R1 k Hm Hr Hk HR1) as (w1 & E1 & Hr1).
    assert (HjR : j ∈ R1) by (rewrite HR1 in Hj; apply elem_of_cons in Hj; tauto).
    rewrite (finish_waits p req L bs r w0 w1 _ R1 HL Hr1) in E1 by (intros ->; by apply elem_of_nil in HjR).
    destruct (IH w1 _ R1 Hr1) as (w' & S' & R' & E & Hr' & Hs'); [by exists j|].
    exists w', S', R'. split; [|split; [done|]].
    + by rewrite (bind_run _ _ _ _ _ E1).
    + intros i. rewrite Hs', fmap_cons, !elem_of_cons. naive_solver.
Qed.
Lemma each_app {A} (f : A -> M unit) l k w w1 : each f l w = Ret tt w1 -> each f (l ++ k) w = each f k w1.
Proof.
  revert w. induction l as [|x l IH]; intros w E; cbn [each app] in *; [by injection E as ->|].
  mstep E as t w2 E2. destruct t. rewrite (bind_run _ _ _ _ _ E2). by apply IH.
Qed.

(** C1. A medium message is reassembled exactly: its fragments may arrive in
    any order and be duplicated; until the last missing one the receive is not
    complete, and then, and only then, it completes once, successfully, with
    the bytes of the message in its segments and nothing else written. *)
Theorem medium_reassembled p req L bs r w0 x ks k :
  message_ok L bs r -> Forall (packet_ok L bs r (memory w0)) (ks ++ [k]) ->
  reqs w0 !! req = Some x -> partial_req L r [] x ->
  is_Some (qs w0 !! HDone) -> (forall h, EPartner req ∉ queue h w0) ->
  (forall i, 0 <= i < frag_nr L -> i ∈ k_frag <$> (ks ++ [k])) -> k_frag k ∉ k_frag <$> ks ->
  (exists w1 x1, each (receive p req L) ks w0 = Ret tt w1 /\ reqs w1 !! req = Some x1 /\
     hasf (r_state x1) OMX_REQUEST_STATE_DONE = false) /\
  exists w', each (receive p req L) (ks ++ [k]) w0 = Ret tt w' /\ completed p req bs r w0 w'.
Proof.
  intros Hm Hks Hx Hpq Hd Hnot Hall Hlast. pose proof (mo_len _ _ _ Hm) as HL.
  apply Forall_app in Hks as [Hks Hk]. apply Forall_cons in Hk as [Hk _].
  assert (H0 : receiving p req L bs r w0 w0 [] (frag_nums L)).
  { split; [done|by exists x|by intros i n Hi%elem_of_nil|done|done|done]. }
  destruct (frags_run p req L bs r w0 ks Hm Hks w0 [] (frag_nums L) H0) as (w1 & S & R & E1 & Hr & HS).
  { exists (k_frag k). split; [apply frag_in_range, Hk|done]. }
  assert (HkS : k_frag k ∉ S) by (rewrite HS, elem_of_nil; tauto).
  split.
  - destruct (rc_req _ _ _ _ _ _ _ _ _ Hr) as (x1 & Hx1 & Hpq1). exists w1, x1. split; [done|].
    split; [done|]. rewrite (pq_state _ _ _ _ Hpq1). by case_decide.
  - assert (HkR : k_frag k ∈ R).
    { assert (Hin : k_frag k ∈ S ++ R).
      { rewrite (rc_split _ _ _ _ _ _ _ _ _ Hr). apply frag_in_range, Hk. }
      apply elem_of_app in Hin. tauto. }
    apply elem_of_Permutation in HkR as [R1 HR1].
    destruct (frag_new p req L bs r w0 w1 S R R1 k Hm Hr Hk HR1) as (w2 & E2 & Hr2).
    assert (HR1nil : R1 = []).
    { destruct R1 as [|i R1]; [done|exfalso]. destruct (rc_range _ _ _ _ _ _ _ _ _ Hr2) as (_ & Hrg & Hnd).
      apply Forall_cons in Hrg as [Hi _]. cbn in Hnd. apply NoDup_cons in Hnd as [Hnk Hnd].
      apply NoDup_app in Hnd as (_ & Hdis & _).
      specialize (Hall i Hi). rewrite fmap_app, elem_of_app in Hall. destruct Hall as [Hi'|Hi'].
      - apply (Hdis i); [by rewrite HS; right|by left].
      - apply list_elem_of_singleton in Hi'. apply Hnk. rewrite <- Hi'. apply elem_of_app. right. by left. }
    subst R1.
    destruct (finish_completes p req L bs r w0 w2 _ Hm Hr2) as (w' & E3 & Hc); [done..|].
    exists w'. split; [|done]. rewrite (each_app _ _ _ _ _ E1). cbn [each]. unfold receive at 1.
    rewrite (bind_run _ _ w1 tt w'); [done|]. by rewrite E2.
Qed.
End medium.

(** ** Witness *)

(** A message of 20000 bytes, hence 3 fragments, in two segments; fragment 2
    comes first, fragment 0 twice. *)
Definition frag_segs : req_segs :=
  ReqSegs (Seg 0 0) 2 (PtrArray 900 [Seg 1000000 9000; Seg 2000000 11000]) 20000.
Definition frag_req : request := blank_request <| r_type := OMX_REQUEST_TYPE_RECV |>
  <| r_segs := frag_segs |> <| s_msg_length := 20000 |> <| s_xfer_length := 20000 |>
  <| scan_state := Scan 0 0 |> <| scan_base := PtrArray 900 [Seg 1000000 9000; Seg 2000000 11000] |>.
Definition frag_world : world := sample_world <| reqs := {[21 := frag_req]} |>.
Definition frag_message : list Z := load (memory frag_world) 10000000 (Z.to_nat 20000).
Definition frag_packet (i : Z) : packet := {|
  k_frag := i; k_data := 10000000 + frag_offset i;
  k_msg := RecvMsg 1 1 16 18 42 (MsgMediumFrag (frag_offset i) 20000 (frag_length 20000 i) i) |}.
Lemma frag_packet_ok i : 0 <= i < 3 -> packet_ok 20000 frag_message frag_segs (memory frag_world) (frag_packet i).
Proof.
  intros Hi. split; [done|by eexists| |].
  - unfold frag_packet, frag_offset, frag_length, frag_offset. cbn [k_data k_frag].
    change OMX_MEDIUM_FRAG_LENGTH_MAX with 8192.
    apply Forall_cons; split; [|apply Forall_cons; split; [|by apply Forall_nil]];
      right; right; right; cbn; lia.
  - unfold frag_bytes, frag_message. cbn [k_data k_frag frag_packet]. unfold frag_length, frag_offset.
    change OMX_MEDIUM_FRAG_LENGTH_MAX with 8192. 
    rewrite drop_load by lia. rewrite take_load by lia. f_equal; lia.
Qed.
Lemma frag_message_ok : message_ok 20000 frag_message frag_segs.
Proof.
  split; [|cbn; split; [|split; [|done]]|lia|done|apply length_load|by vm_compute].
  - split; [right; by exists 900, [Seg 1000000 9000; Seg 2000000 11000]|repeat constructor; cbn; lia|done|cbn; lia].
  - apply Forall_cons; split; [right; right; cbn; lia|by apply Forall_nil].
  - by apply Forall_nil.
Qed.
Lemma medium_reassembled_witness : exists w',
  each (receive (H := sample_app) 3 21 20000) (frag_packet <$> [2; 0; 0; 1]) frag_world = Ret tt w' /\
  seg_bytes (memory w') (seg_array frag_segs) = frag_message.
Proof.
  destruct (medium_reassembled (H := sample_app) 3 21 20000 frag_message frag_segs frag_world frag_req
    (frag_packet <$> [2; 0; 0]) (frag_packet 1)) as (_ & w' & E & Hc).
  - exact frag_message_ok.
  - change (Forall (packet_ok 20000 frag_message frag_segs (memory frag_world)) (frag_packet <$> [2; 0; 0; 1])).
    apply Forall_fmap. unfold compose. repeat (apply Forall_cons; split; [apply frag_packet_ok; lia|]).
    by apply Forall_nil.
  - reflexivity.
  - split; try reflexivity; [right; split; [|reflexivity]|].
    + split; [reflexivity|left]. eexists. split; [reflexivity|]. change (0 <= 0 <= 9000). lia.
    + intros k Hk. by rewrite Z.bits_0.
  - by eexists.
  - intros h. unfold queue. change (qs frag_world) with (qs sample_world).
    destruct (qs sample_world !! h) as [l|] eqn:Hl; [|intros ?%elem_of_nil; done].
    assert (Hemp : map_Forall (fun _ (l : list node) => l = []) (qs sample_world))
      by (apply (bool_decide_unpack _); vm_compute; exact I).
    rewrite (Hemp _ _ Hl). intros ?%elem_of_nil. done.
  - intros i Hi. change (frag_nr 20000) with 3 in Hi.
    assert (i = 0 \/ i = 1 \/ i = 2) as [->|[->| ->]] by lia; apply (bool_decide_unpack _); vm_compute; exact I.
  - apply (bool_decide_unpack _). vm_compute. exact I.
  - exists w'. split; [exact E|]. exact (cm_bytes _ _ _ _ _ _ Hc).
Defined.
End Medium.
