(* ===== verification/Event.v ===== *)
(** The event queues of an endpoint in the driver
    ([driver/linux/omx_event.c]): reporting expected and unexpected events,
    reserving receive slots, releasing event slots, waiting and waking up. *)
From S2P Require Import Prelude Io.
Import Io.

Module Event.

Definition EBUSY : Z := -16.
Definition EINVAL : Z := -22.
Definition EFAULT : Z := -14.
Definition ENOMEM : Z := -12.

(** [int32]/[int64] comparison of jiffies: the sign of the difference. *)
Definition s64 (x : Z) : Z := if u64 x <? 2 ^ 63 then u64 x else u64 x - 2 ^ 64.
Definition time_before64 (a b : Z) : bool := s64 (a - b) <? 0.
Definition time_after_eq64 (a b : Z) : bool := 0 <=? s64 (a - b).

Section event.
(** The contents of the events, and the one of type [OMX_EVT_IGNORE]. *)
Context {E : Type} (ignore : E).

(** A sleeper: its task and its status. *)
(* [driver/linux/omx_event.c:84-89] omx_event_waiter *)
Record waiter := Waiter { wt_task : Z; wt_status : Z }.

(** The part of an endpoint the event queues use.  A ring maps the number of a
    slot to its identifier and its event; the user descriptor is the memory
    shared with the library. *)
(* [driver/linux/omx_endpoint.h:77-96] omx_endpoint *)
Record endpoint := Endpoint {
  exp_eventq : Z -> Z * E;
  nextfree_exp_eventq_index : Z;
  nextreleased_exp_eventq_index : Z;
  unexp_eventq : Z -> Z * E;
  nextfree_unexp_eventq_index : Z;
  nextreserved_unexp_eventq_index : Z;
  nextreleased_unexp_eventq_index : Z;
  next_recvq_index : Z;
  waiters : list waiter;
  ud_status : Z;
  ud_user_event_index : Z;
  ud_wakeup_jiffies : Z;
  exp_eventq_full : Z;
  unexp_eventq_full : Z
}.
#[export] Instance e_endpoint : Settable endpoint := fun r => Endpoint (exp_eventq r)
  (nextfree_exp_eventq_index r) (nextreleased_exp_eventq_index r) (unexp_eventq r)
  (nextfree_unexp_eventq_index r) (nextreserved_unexp_eventq_index r)
  (nextreleased_unexp_eventq_index r) (next_recvq_index r) (waiters r) (ud_status r)
  (ud_user_event_index r) (ud_wakeup_jiffies r) (exp_eventq_full r) (unexp_eventq_full r).
#[export] Instance s_exp_eventq : Setter exp_eventq. Proof. mk_setter. Defined.
#[export] Instance s_nextfree_exp : Setter nextfree_exp_eventq_index. Proof. mk_setter. Defined.
#[export] Instance s_nextreleased_exp : Setter nextreleased_exp_eventq_index. Proof. mk_setter. Defined.
#[export] Instance s_unexp_eventq : Setter unexp_eventq. Proof. mk_setter. Defined.
#[export] Instance s_nextfree_unexp : Setter nextfree_unexp_eventq_index. Proof. mk_setter. Defined.
#[export] Instance s_nextreserved_unexp : Setter nextreserved_unexp_eventq_index. Proof. mk_setter. Defined.
#[export] Instance s_nextreleased_unexp : Setter nextreleased_unexp_eventq_index. Proof. mk_setter. Defined.
#[export] Instance s_next_recvq_index : Setter next_recvq_index. Proof. mk_setter. Defined.
#[export] Instance s_waiters : Setter waiters. Proof. mk_setter. Defined.
#[export] Instance s_ud_status : Setter ud_status. Proof. mk_setter. Defined.
#[export] Instance s_exp_eventq_full : Setter exp_eventq_full. Proof. mk_setter. Defined.
#[export] Instance s_unexp_eventq_full : Setter unexp_eventq_full. Proof. mk_setter. Defined.

(* [driver/linux/omx_event.c:91-104] omx_wakeup_waiter_list *)
Definition omx_wakeup_waiter_list (status : Z) (ep : endpoint) : endpoint :=
  ep <| waiters ::= map (fun w => Waiter (wt_task w) (u8 status)) |>.

(** ** Initialization *)

Definition clear_ids (nr : Z) (ring : Z -> Z * E) : Z -> Z * E :=
  fun s => if (0 <=? s) && (s <? nr) then (0, snd (ring s)) else ring s.
(* [driver/linux/omx_event.c:130-173] omx_endpoint_queues_init *)
Definition omx_endpoint_queues_init (ep : endpoint) : endpoint :=
  ep <| exp_eventq ::= clear_ids OMX_EXP_EVENTQ_ENTRY_NR |>
     <| nextfree_exp_eventq_index := 0 |> <| nextreleased_exp_eventq_index := 0 |>
     <| unexp_eventq ::= clear_ids OMX_UNEXP_EVENTQ_ENTRY_NR |>
     <| nextfree_unexp_eventq_index := 0 |> <| nextreserved_unexp_eventq_index := 0 |>
     <| nextreleased_unexp_eventq_index := 0 |> <| next_recvq_index := 0 |> <| waiters := [] |>.

(** ** Slots

    The event is stored first, its identifier after the write barrier. *)
Definition store_event (index : Z) (event : E) (ring : Z -> Z * E) : Z -> Z * E :=
  <[event_slot index := (0, event)]> ring.
Definition publish (index : Z) (ring : Z -> Z * E) : Z -> Z * E :=
  <[event_slot index := (event_id index, snd (ring (event_slot index)))]> ring.

(** ** Expected events *)

(** Too many slots are taken and not released. *)
Definition exp_full (ep : endpoint) : bool :=
  OMX_EXP_EVENTQ_ENTRY_NR <? u32 (nextfree_exp_eventq_index ep - nextreleased_exp_eventq_index ep).

(* [driver/linux/omx_event.c:179-216] omx_notify_exp_event *)
Definition omx_notify_exp_event (event : E) (ep : endpoint) : Z * endpoint :=
  let ep := ep <| nextfree_exp_eventq_index ::= fun n => u32 (n + 1) |> in
  let index := u32 (nextfree_exp_eventq_index ep - 1) in
  if exp_full ep then
    (EBUSY, ep <| nextfree_exp_eventq_index ::= fun n => u32 (n - 1) |>
               <| exp_eventq_full ::= fun n => n + 1 |>
               <| ud_status ::= setf OMX_ENDPOINT_DESC_STATUS_EXP_EVENTQ_FULL |>)
  else
    let ep := ep <| exp_eventq ::= store_event index event |> in
    let ep := ep <| exp_eventq ::= publish index |> in
    (0, omx_wakeup_waiter_list OMX_CMD_WAIT_EVENT_STATUS_EVENT ep).

(** ** Unexpected events

    The pieces that run between two acquisitions of [unexp_lock], for the
    executions where several processors report events. *)
Definition unexp_full (ep : endpoint) : bool :=
  OMX_UNEXP_EVENTQ_ENTRY_NR <? u32 (nextfree_unexp_eventq_index ep - nextreleased_unexp_eventq_index ep).
Definition report_unexp_full (ep : endpoint) : endpoint :=
  ep <| unexp_eventq_full ::= fun n => n + 1 |>
     <| ud_status ::= setf OMX_ENDPOINT_DESC_STATUS_UNEXP_EVENTQ_FULL |>.
(* [driver/linux/omx_event.c:230-234] omx_notify_unexp_event *)
Definition unexp_take (ep : endpoint) : Z * endpoint :=
  (nextreserved_unexp_eventq_index ep,
   ep <| nextfree_unexp_eventq_index ::= fun n => u32 (n + 1) |>
      <| nextreserved_unexp_eventq_index ::= fun n => u32 (n + 1) |>).
(* [driver/linux/omx_event.c:238-242] omx_notify_unexp_event *)
Definition unexp_rollback (ep : endpoint) : endpoint :=
  ep <| nextfree_unexp_eventq_index ::= fun n => u32 (n - 1) |>
     <| nextreserved_unexp_eventq_index ::= fun n => u32 (n - 1) |>.
Definition unexp_store (index : Z) (event : E) (ep : endpoint) : endpoint :=
  ep <| unexp_eventq ::= store_event index event |>.
Definition unexp_publish (index : Z) (ep : endpoint) : endpoint :=
  ep <| unexp_eventq ::= publish index |>.

(* [driver/linux/omx_event.c:223-264] omx_notify_unexp_event *)
Definition omx_notify_unexp_event (event : E) (ep : endpoint) : Z * endpoint :=
  let '(index, ep) := unexp_take ep in
  if unexp_full ep then (EBUSY, report_unexp_full (unexp_rollback ep))
  else
    (0, omx_wakeup_waiter_list OMX_CMD_WAIT_EVENT_STATUS_EVENT
          (unexp_publish index (unexp_store index event ep))).

Definition recvq_offset (index : Z) : Z := index mod OMX_RECVQ_ENTRY_NR * OMX_RECVQ_ENTRY_SIZE.

(** The result is the error code, or the offset of the receive slot. *)
(* [driver/linux/omx_event.c:279-310] omx_prepare_notify_unexp_event_with_recvq *)
Definition omx_prepare_notify_unexp_event_with_recvq (ep : endpoint) : (Z + Z) * endpoint :=
  let recvq_index := next_recvq_index ep in
  let ep := ep <| nextfree_unexp_eventq_index ::= fun n => u32 (n + 1) |>
               <| next_recvq_index ::= fun n => u32 (n + 1) |> in
  if unexp_full ep then
    (inl EBUSY, report_unexp_full (ep <| nextfree_unexp_eventq_index ::= fun n => u32 (n - 1) |>
                                      <| next_recvq_index ::= fun n => u32 (n - 1) |>))
  else (inr (recvq_offset recvq_index), ep).

(* [driver/linux/omx_event.c:313-346] omx_prepare_notify_unexp_events_with_recvq *)
Definition omx_prepare_notify_unexp_events_with_recvq (nr : nat) (ep : endpoint) : (Z + list Z) * endpoint :=
  let first_recvq_index := next_recvq_index ep in
  let ep := ep <| nextfree_unexp_eventq_index ::= fun n => u32 (n + Z.of_nat nr) |>
               <| next_recvq_index ::= fun n => u32 (n + Z.of_nat nr) |> in
  if unexp_full ep then
    (inl EBUSY,
     report_unexp_full (ep <| nextfree_unexp_eventq_index ::= fun n => u32 (n - Z.of_nat nr) |>
                           <| next_recvq_index ::= fun n => u32 (n - Z.of_nat nr) |>))
  else (inr (map (fun i => recvq_offset (u32 (first_recvq_index + Z.of_nat i))) (seq 0 nr)), ep).

(** The check of the callers: a slot was reserved; [None] is [BUG_ON]. *)
Definition unexp_reserve (ep : endpoint) : option (Z * endpoint) :=
  if u32 (nextfree_unexp_eventq_index ep - nextreleased_unexp_eventq_index ep)
     <=? u32 (nextreserved_unexp_eventq_index ep - nextreleased_unexp_eventq_index ep)
  then None
  else Some (nextreserved_unexp_eventq_index ep,
             ep <| nextreserved_unexp_eventq_index ::= fun n => u32 (n + 1) |>).

(* [driver/linux/omx_event.c:353-382] omx_commit_notify_unexp_event_with_recvq *)
Definition omx_commit_notify_unexp_event_with_recvq (event : E) (ep : endpoint) : option endpoint :=
  '(index, ep) ← unexp_reserve ep;
  Some (omx_wakeup_waiter_list OMX_CMD_WAIT_EVENT_STATUS_EVENT
          (unexp_publish index (unexp_store index event ep))).

(** The type of the slot becomes [OMX_EVT_IGNORE]; nobody is woken up. *)
(* [driver/linux/omx_event.c:390-416] omx_cancel_notify_unexp_event_with_recvq *)
Definition omx_cancel_notify_unexp_event_with_recvq (ep : endpoint) : option endpoint :=
  '(index, ep) ← unexp_reserve ep;
  Some (unexp_publish index (unexp_store index ignore ep)).

(** ** Releasing slots *)

(* [driver/linux/omx_event.c:572-584] omx_ioctl_release_exp_slots *)
Definition omx_ioctl_release_exp_slots (ep : endpoint) : Z * endpoint :=
  if u32 (nextfree_exp_eventq_index ep - nextreleased_exp_eventq_index ep)
     <? OMX_EXP_RELEASE_SLOTS_BATCH_NR
  then (EINVAL, ep)
  else (0, ep <| nextreleased_exp_eventq_index ::= fun n => u32 (n + OMX_EXP_RELEASE_SLOTS_BATCH_NR) |>).
(* [driver/linux/omx_event.c:586-598] omx_ioctl_release_unexp_slots *)
Definition omx_ioctl_release_unexp_slots (ep : endpoint) : Z * endpoint :=
  if u32 (nextreserved_unexp_eventq_index ep - nextreleased_unexp_eventq_index ep)
     <? OMX_UNEXP_RELEASE_SLOTS_BATCH_NR
  then (EINVAL, ep)
  else (0, ep <| nextreleased_unexp_eventq_index ::= fun n => u32 (n + OMX_UNEXP_RELEASE_SLOTS_BATCH_NR) |>).

(** ** Waiting

    What happens around a wait: the command read from the user, whether the
    allocation and the copies succeed, the clock, a pending signal, and what
    the rest of the system does to the endpoint once the waiter is queued, once
    the timer (its status and its date) is armed, and while the task sleeps. *)
Record wait_event := WaitEvent {
  wc_user_event_index : Z; wc_next_exp_event_index : Z; wc_next_unexp_event_index : Z;
  wc_jiffies_expire : Z
}.
Record wait_env := WaitEnv {
  we_cmd : option wait_event;
  we_alloc : bool;
  we_task : Z;
  we_queued : endpoint -> endpoint;
  we_jiffies : Z;
  we_armed : option (Z * Z) -> endpoint -> endpoint;
  we_signal : bool;
  we_sleep : option (Z * Z) -> endpoint -> endpoint;
  we_copy_to_user : bool
}.
Definition OMX_CMD_WAIT_EVENT_TIMEOUT_INFINITE : Z := 2 ^ 64 - 1.
Definition OMX_NO_WAKEUP_JIFFIES : Z := 0.

Definition status_of (task : Z) (ep : endpoint) : Z :=
  default OMX_CMD_WAIT_EVENT_STATUS_NONE
    (wt_status <$> list_find (fun w => wt_task w = task) (waiters ep) ≫= (fun x => Some (snd x))).
Definition set_status (task status : Z) (ep : endpoint) : endpoint :=
  ep <| waiters ::= map (fun w => if decide (wt_task w = task) then Waiter task status else w) |>.

(** The events the library has not seen. *)
Definition wait_race (cmd : wait_event) (ep : endpoint) : bool :=
  negb ((wc_next_exp_event_index cmd =? nextfree_exp_eventq_index ep)
        && (wc_next_unexp_event_index cmd =? nextreserved_unexp_eventq_index ep)
        && (wc_user_event_index cmd =? ud_user_event_index ep)).
(** The timer of the application, or of the progression when it is earlier. *)
Definition wait_timer (cmd : wait_event) (wakeup_jiffies : Z) : option (Z * Z) :=
  let timer := if wc_jiffies_expire cmd =? OMX_CMD_WAIT_EVENT_TIMEOUT_INFINITE then None
               else Some (OMX_CMD_WAIT_EVENT_STATUS_TIMEOUT, wc_jiffies_expire cmd) in
  if negb (wakeup_jiffies =? OMX_NO_WAKEUP_JIFFIES)
     && match timer with None => true | Some (_, t) => time_before64 wakeup_jiffies t end
  then Some (OMX_CMD_WAIT_EVENT_STATUS_PROGRESS, wakeup_jiffies) else timer.
(** The end of the wait: the waiter leaves, its status is reported (nothing is
    when the copy fails, and the result is 0 anyway). *)
Definition wait_done (env : wait_env) (ep : endpoint) : Z * option Z * endpoint :=
  let status := status_of (we_task env) ep in
  let status := if status =? OMX_CMD_WAIT_EVENT_STATUS_NONE
                then OMX_CMD_WAIT_EVENT_STATUS_INTR else status in
  (0, if we_copy_to_user env then Some status else None,
   ep <| waiters ::= filter (fun w => wt_task w <> we_task env) |>).

(** The result: the return value, the status written in the command, and the
    endpoint. *)
(* [driver/linux/omx_event.c:432-570] omx_ioctl_wait_event *)
Definition omx_ioctl_wait_event (env : wait_env) (ep : endpoint) : Z * option Z * endpoint :=
  let wakeup_jiffies := ud_wakeup_jiffies ep in
  match we_cmd env with
  | None => (EFAULT, None, ep)
  | Some cmd =>
      if negb (we_alloc env) then (ENOMEM, None, ep)
      else
        let task := we_task env in
        let ep := ep <| waiters ::= fun l => l ++ [Waiter task OMX_CMD_WAIT_EVENT_STATUS_NONE] |> in
        let ep := we_queued env ep in
        if wait_race cmd ep then wait_done env ep
        else
          let timer := wait_timer cmd wakeup_jiffies in
          if match timer with Some (_, t) => time_after_eq64 (we_jiffies env) t | None => false end
          then wait_done env (set_status task OMX_CMD_WAIT_EVENT_STATUS_RACE ep)
          else
            let ep := we_armed env timer ep in
            let ep := if (status_of task ep =? OMX_CMD_WAIT_EVENT_STATUS_NONE) && negb (we_signal env)
                      then we_sleep env timer ep else ep in
            wait_done env ep
  end.

(* [driver/linux/omx_event.c:600-619] omx_ioctl_wakeup *)
Definition omx_ioctl_wakeup (status : option Z) (ep : endpoint) : Z * endpoint :=
  match status with
  | None => (EFAULT, ep)
  | Some status => (0, omx_wakeup_waiter_list status ep)
  end.
(* [driver/linux/omx_event.c:621-625] omx_wakeup_endpoint_on_close *)
Definition omx_wakeup_endpoint_on_close (ep : endpoint) : endpoint :=
  omx_wakeup_waiter_list OMX_CMD_WAIT_EVENT_STATUS_WAKEUP ep.
End event.
End Event.
