(* ===== verification/EventFifo.v ===== *)
(** The event queues of the driver and their consumer in the library implement
    bounded FIFO queues: refinement of [Event] and of the reading loop of
    [omx__progress], whatever the wrap-around of the 32-bit indexes. *)
From S2P Require Import Prelude Io Event.
Import Io Event.

Module EventFifo.

(** ** The ring *)
Section ring.
Context {E : Type}.
Implicit Types (ring : Z -> Z * E) (l : list E) (e : E) (c : Z).

Lemma slot_u32 x : event_slot (u32 x) = x mod 1024.
Proof.
  unfold event_slot, u32. change OMX_EXP_EVENTQ_ENTRY_NR with 1024.
  pose proof (Z.div_mod x 4294967296). pose proof (Z.div_mod (x mod 4294967296) 1024).
  pose proof (Z.mod_pos_bound (x mod 4294967296) 1024).
  apply (Zmod_unique x 1024 (x / 4294967296 * 4194304 + x mod 4294967296 / 1024)); lia.
Qed.
(** A slot never gets the same identifier in two consecutive rounds: 1024 and
    [1024 - 2^32] are no multiples of 255. *)
Lemma id_previous_round x : event_id (u32 (x - 1024)) <> event_id (u32 x).
Proof.
  unfold event_id, u32. change OMX_EVENT_ID_MAX with 255. intros H.
  assert (Hm : (x - 1024) mod 4294967296 mod 255 = x mod 4294967296 mod 255) by lia. clear H.
  pose proof (Z.div_mod x 4294967296). pose proof (Z.div_mod (x - 1024) 4294967296).
  pose proof (Z.mod_pos_bound x 4294967296). pose proof (Z.mod_pos_bound (x - 1024) 4294967296).
  pose proof (Z.div_mod (x mod 4294967296) 255). pose proof (Z.div_mod ((x - 1024) mod 4294967296) 255).
  lia.
Qed.
Lemma id_not_0 x : event_id x <> 0.
Proof.
  unfold event_id. change OMX_EVENT_ID_MAX with 255. pose proof (Z.mod_pos_bound x 255). lia.
Qed.

(** The ring holds the events [l] from the (unbounded) index [c]; the other
    slots are empty or hold the event of the round before. *)
Record holds ring c l : Prop := {
  h_events : forall k e, l !! k = Some e ->
    ring ((c + Z.of_nat k) mod 1024) = (event_id (u32 (c + Z.of_nat k)), e);
  h_others : forall k, (length l <= k < 1024)%nat -> let i := fst (ring ((c + Z.of_nat k) mod 1024)) in
    i = 0 \/ i = event_id (u32 (c + Z.of_nat k - 1024))
}.

Lemma store_publish index e ring : publish index (store_event index e ring) =
  <[event_slot index := (event_id index, e)]> (store_event index e ring).
Proof. unfold publish, store_event. by rewrite fn_lookup_insert. Qed.
Lemma stored_slot index e ring : publish index (store_event index e ring) (event_slot index) = (event_id index, e).
Proof. rewrite store_publish. apply fn_lookup_insert. Qed.
Lemma stored_ne index e ring s : event_slot index <> s -> publish index (store_event index e ring) s = ring s.
Proof.
  intros Hs. rewrite store_publish, fn_lookup_insert_ne by done. by apply fn_lookup_insert_ne.
Qed.
Lemma slot_inj c i j : 0 <= i < 1024 -> 0 <= j < 1024 -> (c + i) mod 1024 = (c + j) mod 1024 -> i = j.
Proof.
  intros Hi Hj H. pose proof (Z.div_mod (c + i) 1024). pose proof (Z.div_mod (c + j) 1024). lia.
Qed.

Lemma holds_store ring c l e : holds ring c l -> (length l < 1024)%nat ->
  let index := u32 (c + Z.of_nat (length l)) in
  holds (publish index (store_event index e ring)) c (l ++ [e]).
Proof.
  intros [He Ho] Hl index. assert (Hs : event_slot index = (c + Z.of_nat (length l)) mod 1024) by apply slot_u32.
  split.
  - intros k x Hk. destruct (decide (k = length l)) as [->|Hne].
    + rewrite list_lookup_middle in Hk by done. injection Hk as <-. rewrite <- Hs. apply stored_slot.
    + pose proof (lookup_lt_Some _ _ _ Hk) as Hlt. rewrite length_app in Hlt. cbn in Hlt.
      rewrite lookup_app_l in Hk by lia. rewrite stored_ne; [by apply He|].
      rewrite Hs. intros H. apply slot_inj in H; lia.
  - intros k Hk i. rewrite length_app in Hk. cbn in Hk. unfold i. rewrite stored_ne; [apply Ho; lia|].
    rewrite Hs. intros H. apply slot_inj in H; lia.
Qed.
Lemma holds_read ring c l : holds ring c l -> (length l <= 1024)%nat ->
  (fst (ring (event_slot (u32 c))) =? event_id (u32 c)) = bool_decide (l <> []) /\
  forall e l', l = e :: l' -> snd (ring (event_slot (u32 c))) = e.
Proof.
  intros [He Ho] Hl. rewrite slot_u32. destruct l as [|e l].
  - split; [|done]. specialize (Ho 0%nat). cbn in Ho. rewrite Z.add_0_r in Ho.
    apply Z.eqb_neq. destruct Ho as [->| ->]; [lia|symmetry; apply id_not_0|apply id_previous_round].
  - specialize (He 0%nat e eq_refl). cbn in He. rewrite Z.add_0_r in He. rewrite He. cbn.
    rewrite Z.eqb_refl. split; [done|]. by intros ? ? [= -> ->].
Qed.
Lemma holds_take ring c e l : holds ring c (e :: l) -> holds ring (c + 1) l.
Proof.
  intros [He Ho]. split.
  - intros k x Hk. specialize (He (S k) x Hk). by replace (c + 1 + Z.of_nat k) with (c + Z.of_nat (S k)) by lia.
  - intros k Hk. destruct (decide (k = 1023)%nat) as [->|Hne].
    + (* the slot of [e], of the round before now *)
      right. specialize (He 0%nat e eq_refl). change (Z.of_nat 0) with 0 in He.
      replace (c + 1 + Z.of_nat 1023) with (c + 0 + 1 * 1024) by lia. rewrite Z.mod_add by lia.
      rewrite He. cbn [fst]. do 2 f_equal. lia.
    + replace (c + 1 + Z.of_nat k) with (c + Z.of_nat (S k)) by lia. apply Ho. cbn. lia.
Qed.
End ring.

(** ** The specification: bounded queues *)
Section fifo.
Context {E : Type} (ignore : E).
#[local] Notation endpoint := (@endpoint E).

(** A queue: the events not read yet, the slots reserved for events to come
    and the slots read and not released (they are released 256 at a time). *)
Record fifo := Fifo { pending : list E; reserved : nat; held : nat }.
Definition room (f : fifo) (n : nat) : bool :=
  bool_decide (length (pending f) + reserved f + held f + n <= 1024)%nat.
Definition push (e : E) (f : fifo) : fifo := Fifo (pending f ++ [e]) (reserved f) (held f).
Definition pop (f : fifo) : option E * fifo :=
  match pending f with
  | [] => (None, f)
  | e :: l => (Some e, Fifo l (reserved f) ((held f + 1) mod 256))
  end.

(** What the driver reports, and the library reading one event. *)
Inductive op :=
  | NotifyExp (e : E) | TakeExp
  | NotifyUnexp (e : E) | PrepareOne | Prepare (nr : nat) | Commit (e : E) | Cancel | TakeUnexp.
Inductive out := Code (err : Z) | Read (e : option E) | Done | Panic.

Definition spec_state : Type := fifo * fifo.
Definition push_if (room : bool) (f' f : fifo) : out * fifo :=
  if room then (Code 0, f') else (Code EBUSY, f).
Definition spec_unexp (o : op) (f : fifo) : out * fifo :=
  match o with
  | NotifyUnexp e => push_if (room f 1) (push e f) f
  | PrepareOne => push_if (room f 1) (Fifo (pending f) (reserved f + 1) (held f)) f
  | Prepare nr => push_if (room f nr) (Fifo (pending f) (reserved f + nr) (held f)) f
  | Commit e => match reserved f with
                | O => (Panic, f)
                | S r => (Done, Fifo (pending f ++ [e]) r (held f))
                end
  | Cancel => match reserved f with
              | O => (Panic, f)
              | S r => (Done, Fifo (pending f ++ [ignore]) r (held f))
              end
  | TakeUnexp => let '(e, f) := pop f in (Read e, f)
  | _ => (Done, f)
  end.
Definition spec_exp (o : op) (f : fifo) : out * fifo :=
  match o with
  | NotifyExp e => push_if (room f 1) (push e f) f
  | TakeExp => let '(e, f) := pop f in (Read e, f)
  | _ => (Done, f)
  end.
Definition is_exp (o : op) : bool := match o with NotifyExp _ | TakeExp => true | _ => false end.
Definition spec_step (o : op) (s : spec_state) : out * spec_state :=
  if is_exp o then let '(r, f) := spec_exp o (fst s) in (r, (f, snd s))
  else let '(r, f) := spec_unexp o (snd s) in (r, (fst s, f)).

(** ** The implementation *)

(** The library reads the slot of its index as [omx__progress] does, and
    releases a batch of slots; a failed release aborts the program. *)
Definition take (ring : Z -> Z * E) (nr batch : Z) (release : endpoint -> Z * endpoint)
    (index : Z) (ep : endpoint) : option (option E * Z * endpoint) :=
  let '(id, e) := ring (index mod nr) in
  if negb (id =? 1 + index mod OMX_EVENT_ID_MAX) then Some (None, index, ep)
  else
    let index := u32 (index + 1) in
    if index mod batch =? 0 then
      let '(err, ep) := release ep in
      if err <? 0 then None else Some (Some e, index, ep)
    else Some (Some e, index, ep).

(** The driver's endpoint and the indexes of the library. *)
Record system := System { s_ep : endpoint; s_exp : Z; s_unexp : Z }.
Definition or_panic (s : system) (ep : option endpoint) : out * system :=
  match ep with None => (Panic, s) | Some ep => (Done, System ep (s_exp s) (s_unexp s)) end.
Definition impl_step (o : op) (s : system) : out * system :=
  let ep := s_ep s in
  match o with
  | NotifyExp e => let '(err, ep) := omx_notify_exp_event e ep in (Code err, System ep (s_exp s) (s_unexp s))
  | NotifyUnexp e => let '(err, ep) := omx_notify_unexp_event e ep in (Code err, System ep (s_exp s) (s_unexp s))
  | PrepareOne => let '(r, ep) := omx_prepare_notify_unexp_event_with_recvq ep in
      (Code (match r with inl err => err | inr _ => 0 end), System ep (s_exp s) (s_unexp s))
  | Prepare nr => let '(r, ep) := omx_prepare_notify_unexp_events_with_recvq nr ep in
      (Code (match r with inl err => err | inr _ => 0 end), System ep (s_exp s) (s_unexp s))
  | Commit e => or_panic s (omx_commit_notify_unexp_event_with_recvq e ep)
  | Cancel => or_panic s (omx_cancel_notify_unexp_event_with_recvq ignore ep)
  | TakeExp =>
      match take (exp_eventq ep) OMX_EXP_EVENTQ_ENTRY_NR OMX_EXP_RELEASE_SLOTS_BATCH_NR
              omx_ioctl_release_exp_slots (s_exp s) ep with
      | None => (Panic, s)
      | Some (e, index, ep) => (Read e, System ep index (s_unexp s))
      end
  | TakeUnexp =>
      match take (unexp_eventq ep) OMX_UNEXP_EVENTQ_ENTRY_NR OMX_UNEXP_RELEASE_SLOTS_BATCH_NR
              omx_ioctl_release_unexp_slots (s_unexp s) ep with
      | None => (Panic, s)
      | Some (e, index, ep) => (Read e, System ep (s_exp s) index)
      end
  end.

Fixpoint run {S} (step : op -> S -> out * S) (l : list op) (s : S) : list out * S :=
  match l with
  | [] => ([], s)
  | o :: l => let '(r, s) := step o s in let '(rs, s) := run step l s in (r :: rs, s)
  end.

(** ** Refinement *)

(** A queue of the driver and the index of the library implement [f]: [c] is
    the number of events read. *)
Record queue_at (c : Z) (f : fifo) (ring : Z -> Z * E) (free resv released index : Z) : Prop := {
  q_index : index = u32 c;
  q_resv : resv = u32 (c + Z.of_nat (length (pending f)));
  q_free : free = u32 (c + Z.of_nat (length (pending f) + reserved f));
  q_released : released = u32 (c - Z.of_nat (held f));
  q_held : Z.of_nat (held f) = c mod 256;
  q_room : (length (pending f) + reserved f + held f <= 1024)%nat;
  q_ring : holds ring c (pending f)
}.
Definition queue_ok f ring free resv released index : Prop :=
  exists c, queue_at c f ring free resv released index.

Lemma full_iff_no_room f ring free resv released index n : Z.of_nat n < 2147483648 ->
  queue_ok f ring free resv released index ->
  (1024 <? u32 (u32 (free + Z.of_nat n) - released)) = negb (room f n).
Proof.
  intros Hn [c [Hi Hv -> -> Hh Hr _]]. rewrite u32_add_l, u32_sub.
  replace (_ - _) with (Z.of_nat (length (pending f) + reserved f + held f + n)) by lia.
  rewrite u32_small by lia. unfold room. case_bool_decide; apply Z.ltb_lt || apply Z.ltb_ge; lia.
Qed.
Lemma full_1 f ring free resv released index : queue_ok f ring free resv released index ->
  (1024 <? u32 (u32 (free + 1) - released)) = negb (room f 1).
Proof. intros H. exact (full_iff_no_room f ring free resv released index 1 ltac:(lia) H). Qed.
Lemma take_back f ring free resv released index n : queue_ok f ring free resv released index ->
  u32 (u32 (free + n) - n) = free /\ u32 (u32 (resv + n) - n) = resv.
Proof.
  intros [c [_ -> -> _ _ _ _]]. rewrite !u32_add_l, !u32_sub_l. split; f_equal; lia.
Qed.
Lemma queue_push f ring free resv released index e : queue_ok f ring free resv released index ->
  room f 1 = true ->
  queue_ok (push e f) (publish resv (store_event resv e ring)) (u32 (free + 1)) (u32 (resv + 1)) released index.
Proof.
  intros [c [Hi -> -> Hl Hh Hr Hg]] Hroom. apply bool_decide_eq_true in Hroom. exists c.
  split; try done; cbn [pending reserved held push]; rewrite ?length_app, ?u32_add_l; cbn [length]; try lia;
    [f_equal; lia|f_equal; lia|]. apply holds_store; [done|lia].
Qed.
Lemma queue_reserve f ring free resv released index n : queue_ok f ring free resv released index ->
  room f n = true ->
  queue_ok (Fifo (pending f) (reserved f + n) (held f)) ring (u32 (free + Z.of_nat n)) resv released index.
Proof.
  intros [c [Hi Hv -> Hl Hh Hr Hg]] Hroom. apply bool_decide_eq_true in Hroom. exists c.
  split; try done; cbn [pending reserved held]; rewrite ?u32_add_l; [f_equal; lia|lia].
Qed.
Lemma queue_reserved f ring free resv released index : queue_ok f ring free resv released index ->
  (u32 (free - released) <=? u32 (resv - released)) = bool_decide (reserved f = O).
Proof.
  intros [c [Hi -> -> -> Hh Hr _]]. rewrite !u32_sub, !u32_small by lia.
  case_bool_decide; apply Z.leb_le || apply Z.leb_gt; lia.
Qed.
Lemma queue_commit f ring free resv released index e r : queue_ok f ring free resv released index ->
  reserved f = S r ->
  queue_ok (Fifo (pending f ++ [e]) r (held f)) (publish resv (store_event resv e ring)) free
    (u32 (resv + 1)) released index.
Proof.
  intros [c [Hi -> -> Hl Hh Hr Hg]] Hres. exists c.
  split; try done; cbn [pending reserved held]; rewrite ?length_app, ?u32_add_l; cbn [length]; try lia;
    [f_equal; lia|f_equal; lia|]. apply holds_store; [done|lia].
Qed.

Lemma u32_mod_256 x : u32 x mod 256 = x mod 256.
Proof. unfold u32. symmetry. rewrite <- (Znumtheory.Zmod_div_mod 256 4294967296); [done|lia|lia|by exists 16777216]. Qed.
Lemma next_mod_256 c : (c + 1) mod 256 = 0 /\ c mod 256 = 255 \/ (c + 1) mod 256 = c mod 256 + 1.
Proof.
  pose proof (Z.div_mod c 256). pose proof (Z.mod_pos_bound c 256).
  pose proof (Z.div_mod (c + 1) 256). pose proof (Z.mod_pos_bound (c + 1) 256). lia.
Qed.
(** Reading: what the library gets, when it releases a batch, and why the
    driver accepts it. *)
Lemma queue_pop f (ring : Z -> Z * E) free resv released index : queue_ok f ring free resv released index ->
  match pop f with
  | (None, _) => fst (ring (index mod 1024)) <> event_id index
  | (Some e, f') => ring (index mod 1024) = (event_id index, e) /\
      (u32 (index + 1) mod 256 = 0 -> 256 <= u32 (free - released) /\ 256 <= u32 (resv - released)) /\
      queue_ok f' ring free resv
        (if u32 (index + 1) mod 256 =? 0 then u32 (released + 256) else released) (u32 (index + 1))
  end.
Proof.
  intros [c [-> -> -> -> Hh Hr Hg]].
  destruct (holds_read ring c (pending f) Hg) as [Hid Hev]; [lia|].
  change (u32 c mod 1024) with (event_slot (u32 c)). unfold pop.
  destruct (pending f) as [|e l] eqn:Hp.
  - by apply Z.eqb_neq in Hid.
  - apply Z.eqb_eq in Hid. specialize (Hev e l eq_refl). split.
    { destruct (ring _) as [i x]. cbn in *. by subst. }
    rewrite u32_add_l, u32_mod_256. cbn [length] in *. pose proof (Z.mod_pos_bound c 256).
    assert (Hm : Z.of_nat ((held f + 1) mod 256) = (c + 1) mod 256).
    { rewrite Nat2Z.inj_mod, Nat2Z.inj_add, Hh. apply Zplus_mod_idemp_l. }
    pose proof (next_mod_256 c) as Hn. split.
    + intros Hz. rewrite !u32_sub, !u32_small by lia. lia.
    + exists (c + 1). split; try done; cbn [pending reserved held]; try (f_equal; lia).
      * rewrite u32_add_l. destruct (Z.eqb_spec ((c + 1) mod 256) 0); f_equal; lia.
      * by eapply holds_take.
Qed.

(** The endpoint and the indexes implement the two queues. *)
Definition unexp_ok (s : system) (f : fifo) : Prop :=
  queue_ok f (unexp_eventq (s_ep s)) (nextfree_unexp_eventq_index (s_ep s))
    (nextreserved_unexp_eventq_index (s_ep s)) (nextreleased_unexp_eventq_index (s_ep s)) (s_unexp s).
Definition exp_ok (s : system) (f : fifo) : Prop :=
  queue_ok f (exp_eventq (s_ep s)) (nextfree_exp_eventq_index (s_ep s))
    (nextfree_exp_eventq_index (s_ep s)) (nextreleased_exp_eventq_index (s_ep s)) (s_exp s) /\ reserved f = O.
Definition system_ok (s : system) (f : spec_state) : Prop := exp_ok s (fst f) /\ unexp_ok s (snd f).

(** Reservations of a bounded number of slots. *)
Definition op_ok (o : op) : Prop := match o with Prepare nr => Z.of_nat nr < 2147483648 | _ => True end.

(** The step of an operation simulates its specification. *)
Definition simulates (o : op) (s : system) (f : spec_state) : Prop :=
  fst (impl_step o s) = fst (spec_step o f) /\ system_ok (snd (impl_step o s)) (snd (spec_step o f)).

Lemma sim_notify_exp e s f : system_ok s f -> simulates (NotifyExp e) s f.
Proof.
  intros [[Hx Hz] Hu]. unfold simulates, impl_step, spec_step, omx_notify_exp_event, exp_full. cbn [is_exp spec_exp].
  fsimp. change OMX_EXP_EVENTQ_ENTRY_NR with 1024.
  rewrite (full_1 _ _ _ _ _ _ Hx). unfold push_if. destruct (room (fst f) 1) eqn:Hr; cbn [negb].
  - split; [done|]. split; [|exact Hu]. split; [|done]. unfold omx_wakeup_waiter_list. cbn [s_ep fst snd s_exp]. fsimp.
    destruct (take_back _ _ _ _ _ _ 1 Hx) as [_ ->]. by apply queue_push.
  - split; [done|]. split; [|exact Hu]. split; [|done]. cbn [s_ep fst snd s_exp]. fsimp.
    by destruct (take_back _ _ _ _ _ _ 1 Hx) as [_ ->].
Qed.
Lemma sim_notify_unexp e s f : system_ok s f -> simulates (NotifyUnexp e) s f.
Proof.
  intros [Hx Hu]. unfold simulates, impl_step, spec_step, omx_notify_unexp_event, unexp_take, unexp_full.
  cbn [is_exp spec_unexp]. fsimp. change OMX_UNEXP_EVENTQ_ENTRY_NR with 1024.
  rewrite (full_1 _ _ _ _ _ _ Hu). unfold push_if. destruct (room (snd f) 1) eqn:Hr; cbn [negb].
  - split; [done|]. split; [exact Hx|]. unfold unexp_ok, omx_wakeup_waiter_list, unexp_publish, unexp_store.
    cbn [s_ep fst snd s_unexp]. fsimp. by apply queue_push.
  - split; [done|]. split; [exact Hx|]. unfold unexp_ok, report_unexp_full, unexp_rollback.
    cbn [s_ep fst snd s_unexp]. fsimp. by destruct (take_back _ _ _ _ _ _ 1 Hu) as [-> ->].
Qed.
Lemma sim_prepare n s f : Z.of_nat n < 2147483648 -> system_ok s f -> simulates (Prepare n) s f.
Proof.
  intros Hn [Hx Hu]. unfold simulates, impl_step, spec_step, omx_prepare_notify_unexp_events_with_recvq, unexp_full.
  cbn [is_exp spec_unexp]. fsimp. change OMX_UNEXP_EVENTQ_ENTRY_NR with 1024.
  rewrite (full_iff_no_room _ _ _ _ _ _ n Hn Hu). unfold push_if. destruct (room (snd f) n) eqn:Hr; cbn [negb].
  - split; [done|]. split; [exact Hx|]. unfold unexp_ok. cbn [s_ep fst snd s_unexp]. fsimp. by apply queue_reserve.
  - split; [done|]. split; [exact Hx|]. unfold unexp_ok, report_unexp_full.
    cbn [s_ep fst snd s_unexp]. fsimp. by destruct (take_back _ _ _ _ _ _ (Z.of_nat n) Hu) as [-> _].
Qed.
Lemma sim_prepare_one s f : system_ok s f -> simulates PrepareOne s f.
Proof.
  intros [Hx Hu]. unfold simulates, impl_step, spec_step, omx_prepare_notify_unexp_event_with_recvq, unexp_full.
  cbn [is_exp spec_unexp]. fsimp. change OMX_UNEXP_EVENTQ_ENTRY_NR with 1024.
  rewrite (full_1 _ _ _ _ _ _ Hu). unfold push_if. destruct (room (snd f) 1) eqn:Hr; cbn [negb].
  - split; [done|]. split; [exact Hx|]. unfold unexp_ok. cbn [s_ep fst snd s_unexp]. fsimp.
    by apply (queue_reserve _ _ _ _ _ _ 1).
  - split; [done|]. split; [exact Hx|]. unfold unexp_ok, report_unexp_full.
    cbn [s_ep fst snd s_unexp]. fsimp. by destruct (take_back _ _ _ _ _ _ 1 Hu) as [-> _].
Qed.
(** Storing an event in a reserved slot, for a commit and a cancellation. *)
Lemma reserve_spec s f e : system_ok s f ->
  match reserved (snd f) with
  | O => unexp_reserve (s_ep s) = None
  | S r => exists index ep, unexp_reserve (s_ep s) = Some (index, ep) /\
      system_ok (System (unexp_publish index (unexp_store index e ep)) (s_exp s) (s_unexp s))
        (fst f, Fifo (pending (snd f) ++ [e]) r (held (snd f)))
  end.
Proof.
  intros [Hx Hu]. unfold unexp_reserve. rewrite (queue_reserved _ _ _ _ _ _ Hu).
  destruct (reserved (snd f)) as [|r] eqn:Hr; [done|]. rewrite bool_decide_false by done.
  eexists _, _. split; [reflexivity|]. split; [exact Hx|]. unfold unexp_ok, unexp_publish, unexp_store.
  cbn [s_ep fst snd s_unexp]. fsimp. by apply queue_commit.
Qed.
Lemma sim_commit e s f : system_ok s f -> simulates (Commit e) s f.
Proof.
  intros H. pose proof (reserve_spec s f e H) as Hr.
  unfold simulates, impl_step, spec_step, omx_commit_notify_unexp_event_with_recvq. cbn [is_exp spec_unexp].
  destruct (reserved (snd f)) as [|r].
  - rewrite Hr. cbn. split; [done|]. by destruct f.
  - destruct Hr as (index & ep & -> & Hok). cbn [mbind option_bind or_panic fst snd]. by split.
Qed.
Lemma sim_cancel s f : system_ok s f -> simulates Cancel s f.
Proof.
  intros H. pose proof (reserve_spec s f ignore H) as Hr.
  unfold simulates, impl_step, spec_step, omx_cancel_notify_unexp_event_with_recvq. cbn [is_exp spec_unexp].
  destruct (reserved (snd f)) as [|r].
  - rewrite Hr. cbn. split; [done|]. by destruct f.
  - destruct Hr as (index & ep & -> & Hok). cbn [mbind option_bind or_panic fst snd]. by split.
Qed.
Lemma sim_take_exp s f : system_ok s f -> simulates TakeExp s f.
Proof.
  intros [[Hx Hz] Hu]. pose proof (queue_pop _ _ _ _ _ _ Hx) as Hp.
  unfold simulates, impl_step, spec_step, take. cbn [is_exp spec_exp]. change OMX_EXP_EVENTQ_ENTRY_NR with 1024.
  change OMX_EXP_RELEASE_SLOTS_BATCH_NR with 256. destruct (exp_eventq (s_ep s) (s_exp s mod 1024)) as [id e].
  change (1 + s_exp s mod OMX_EVENT_ID_MAX) with (event_id (s_exp s)). unfold pop in Hp |- *.
  destruct (pending (fst f)) as [|e' l] eqn:Hl; cbn zeta in Hp.
  - cbn in Hp. rewrite (proj2 (Z.eqb_neq _ _)) by done. cbn. split; [done|]. split; [by split|done].
  - destruct Hp as ([= -> ->] & Hrel & Hok). rewrite Z.eqb_refl. cbn [negb].
    destruct (Z.eqb_spec (u32 (s_exp s + 1) mod 256) 0) as [Hz'|Hz'].
    + destruct (Hrel Hz') as [Hge _]. unfold omx_ioctl_release_exp_slots. change OMX_EXP_RELEASE_SLOTS_BATCH_NR with 256.
      rewrite (proj2 (Z.ltb_ge _ _)) by done. cbn. split; [done|]. split; [|exact Hu]. split; [|done].
      cbn [s_ep s_exp fst]. by fsimp.
    + cbn. split; [done|]. split; [by split|exact Hu].
Qed.
Lemma sim_take_unexp s f : system_ok s f -> simulates TakeUnexp s f.
Proof.
  intros [Hx Hu]. pose proof (queue_pop _ _ _ _ _ _ Hu) as Hp.
  unfold simulates, impl_step, spec_step, take. cbn [is_exp spec_unexp]. change OMX_UNEXP_EVENTQ_ENTRY_NR with 1024.
  change OMX_UNEXP_RELEASE_SLOTS_BATCH_NR with 256. destruct (unexp_eventq (s_ep s) (s_unexp s mod 1024)) as [id e].
  change (1 + s_unexp s mod OMX_EVENT_ID_MAX) with (event_id (s_unexp s)). unfold pop in Hp |- *.
  destruct (pending (snd f)) as [|e' l] eqn:Hl; cbn zeta in Hp.
  - cbn in Hp. rewrite (proj2 (Z.eqb_neq _ _)) by done. cbn. split; [done|]. by split.
  - destruct Hp as ([= -> ->] & Hrel & Hok). rewrite Z.eqb_refl. cbn [negb].
    destruct (Z.eqb_spec (u32 (s_unexp s + 1) mod 256) 0) as [Hz'|Hz'].
    + destruct (Hrel Hz') as [_ Hge]. unfold omx_ioctl_release_unexp_slots.
      change OMX_UNEXP_RELEASE_SLOTS_BATCH_NR with 256.
      rewrite (proj2 (Z.ltb_ge _ _)) by done. cbn. split; [done|]. split; [exact Hx|].
      unfold unexp_ok. cbn [s_ep s_unexp fst snd]. by fsimp.
    + cbn. split; [done|]. split; [exact Hx|done].
Qed.
#[local] Hint Resolve sim_notify_exp sim_notify_unexp sim_prepare sim_prepare_one sim_commit sim_cancel
  sim_take_exp sim_take_unexp : events.

Lemma step_simulates o s f : op_ok o -> system_ok s f -> simulates o s f.
Proof. intros Ho Hs. destruct o; auto with events. Qed.

Lemma run_simulates l s f : Forall op_ok l -> system_ok s f ->
  system_ok (snd (run impl_step l s)) (snd (run spec_step l f)).
Proof.
  intros Hl. revert s f. induction Hl as [|o l Ho Hl IH]; intros s f H; [done|]. cbn [run].
  destruct (step_simulates o s f Ho H) as [_ Hok].
  destruct (impl_step o s) as [r s'], (spec_step o f) as [r' f']. specialize (IH s' f' Hok).
  by destruct (run impl_step l s'), (run spec_step l f').
Qed.

Lemma init_ok (ep : endpoint) : system_ok (System (omx_endpoint_queues_init ep) 0 0) (Fifo [] 0 0, Fifo [] 0 0).
Proof.
  assert (Hq : forall ring, queue_ok (Fifo [] 0 0) (clear_ids 1024 ring) 0 0 0 0).
  { intros ring. exists 0. split; try done; [cbn; lia|]. split; [by intros|]. intros k Hk. left. cbn in Hk.
    unfold clear_ids. rewrite Z.mod_small by lia. rewrite (proj2 (Z.leb_le _ _)), (proj2 (Z.ltb_lt _ _)) by lia. done. }
  split; [split; [|done]|]; apply Hq.
Qed.

(** C26. The event queues of an endpoint are bounded FIFO queues.  For any
    sequence of reports, reservations, commits and cancellations by the driver
    and of reads by the library, what is reported to each side is what two
    queues of 1024 slots would: an event is refused with [EBUSY] exactly when
    the slots are all used, each accepted event is read once, in order, across
    the wrap-arounds of the slots, of the identifiers and of the indexes, and
    releasing a batch of slots never fails. *)
Theorem event_queues_refine_fifos (ep : endpoint) (l : list op) : Forall op_ok l ->
  fst (run impl_step l (System (omx_endpoint_queues_init ep) 0 0)) =
  fst (run spec_step l (Fifo [] 0 0, Fifo [] 0 0)).
Proof.
  intros Hl. pose proof (init_ok ep) as H. revert H.
  generalize (System (omx_endpoint_queues_init ep) 0 0) as s, (Fifo [] 0 0, Fifo [] 0 0) as f.
  induction Hl as [|o l Ho Hl IH]; intros s f H; [done|]. cbn [run].
  destruct (step_simulates o s f Ho H) as [Hout Hok].
  destruct (impl_step o s) as [r s'], (spec_step o f) as [r' f']. cbn in Hout, Hok. subst r'.
  specialize (IH s' f' Hok). destruct (run impl_step l s'), (run spec_step l f'). cbn in *. congruence.
Qed.
End fifo.

(** Three unexpected events of which the second is cancelled, and an expected
    one. *)
Definition blank_endpoint : @endpoint Z :=
  Endpoint (fun _ => (7, 7)) 5 5 (fun _ => (7, 7)) 5 5 5 5 [] 0 0 0 0 0.
Definition sample_ops : list (@op Z) :=
  [NotifyUnexp 10; Prepare 2; Commit 11; NotifyExp 12; Cancel; Commit 13; TakeUnexp; TakeUnexp; TakeUnexp;
   TakeUnexp; TakeExp].
Lemma event_queues_refine_fifos_witness :
  Forall op_ok sample_ops /\
  fst (run (impl_step (-1)) sample_ops (System (omx_endpoint_queues_init blank_endpoint) 0 0)) =
  [Code 0; Code 0; Done; Code 0; Done; Panic; Read (Some 10); Read (Some 11); Read (Some (-1));
   Read None; Read (Some 12)].
Proof.
  assert (H : Forall op_ok sample_ops) by (repeat (apply Forall_cons; split; [cbn; lia || exact I|]); by apply Forall_nil).
  split; [exact H|]. rewrite (event_queues_refine_fifos (-1) blank_endpoint sample_ops H). vm_compute. reflexivity.
Defined.
End EventFifo.
