(* ===== verification/EventWait.v ===== *)
(** Events between the driver and the library.  [EventWait]: when a task that waits
    sleeps, what it is told; no wakeup is lost.  [EventRace]: several processors
    report unexpected events at once, the pieces of [omx_notify_unexp_event] between
    two acquisitions of the lock interleaved.  [Delivery]: one call of
    [omx__progress] processes exactly the pending events, in the order in which they
    were reported, and its loops end. *)
From S2P Require Import Prelude Io World Progress Event EventFifo Samples.
Import Io Event.

Module EventWait.
Section wait.
Context {E : Type}.
#[local] Notation endpoint := (@endpoint E).

(** The endpoint once the waiter is queued, its timer armed. *)
Definition queued (env : @wait_env E) (ep : endpoint) : endpoint :=
  we_queued env (ep <| waiters ::= fun l => l ++ [Waiter (we_task env) OMX_CMD_WAIT_EVENT_STATUS_NONE] |>).
Definition armed (env : @wait_env E) (cmd : wait_event) (ep : endpoint) : endpoint :=
  we_armed env (wait_timer cmd (ud_wakeup_jiffies ep)) (queued env ep).
Definition expired (env : @wait_env E) (cmd : wait_event) (ep : endpoint) : bool :=
  match wait_timer cmd (ud_wakeup_jiffies ep) with
  | Some (_, t) => time_after_eq64 (we_jiffies env) t
  | None => false
  end.
(** Nothing happened that should keep the task awake. *)
Definition may_sleep (env : @wait_env E) (cmd : wait_event) (ep : endpoint) : bool :=
  negb (wait_race cmd (queued env ep)) && negb (expired env cmd ep)
  && (status_of (we_task env) (armed env cmd ep) =? OMX_CMD_WAIT_EVENT_STATUS_NONE) && negb (we_signal env).

(** The wait with another scheduler. *)
Definition with_sleep (env : @wait_env E) (sleep : option (Z * Z) -> endpoint -> endpoint) : wait_env :=
  WaitEnv (we_cmd env) (we_alloc env) (we_task env) (we_queued env) (we_jiffies env) (we_armed env)
    (we_signal env) sleep (we_copy_to_user env).

Lemma wait_done_status env (ep : endpoint) : exists s ep', wait_done env ep =
  (0, if we_copy_to_user env then Some s else None, ep') /\ s <> OMX_CMD_WAIT_EVENT_STATUS_NONE.
Proof.
  unfold wait_done. eexists _, _. split; [reflexivity|]. by case_decide || destruct (Z.eqb_spec (status_of (we_task env) ep) OMX_CMD_WAIT_EVENT_STATUS_NONE).
Qed.

Lemma wait_unfold env cmd (ep : endpoint) sleep : we_cmd env = Some cmd -> we_alloc env = true ->
  omx_ioctl_wait_event (with_sleep env sleep) ep =
  if wait_race cmd (queued env ep) then wait_done env (queued env ep)
  else if expired env cmd ep
  then wait_done env (set_status (we_task env) OMX_CMD_WAIT_EVENT_STATUS_RACE (queued env ep))
  else wait_done env
    (if (status_of (we_task env) (armed env cmd ep) =? OMX_CMD_WAIT_EVENT_STATUS_NONE) && negb (we_signal env)
     then sleep (wait_timer cmd (ud_wakeup_jiffies ep)) (armed env cmd ep) else armed env cmd ep).
Proof. intros Hc Ha. unfold omx_ioctl_wait_event. cbn [with_sleep we_cmd we_alloc]. by rewrite Hc, Ha. Qed.
Lemma with_same_sleep env : with_sleep env (we_sleep env) = env.
Proof. by destruct env. Qed.

(** A task that waits sleeps exactly when the library has seen every
    event, its timer is not over, nobody woke it up since it is queued and no
    signal is pending; the timer is then the one of the application, or the
    one of the progression when it is earlier.  Otherwise it returns whatever
    the scheduler would do.  It always returns 0, with a status that tells
    why. *)
Lemma wait_sleeps_only_when_idle env cmd (ep : endpoint) : we_cmd env = Some cmd -> we_alloc env = true ->
  (if may_sleep env cmd ep then
     omx_ioctl_wait_event env ep =
       wait_done env (we_sleep env (wait_timer cmd (ud_wakeup_jiffies ep)) (armed env cmd ep))
   else forall sleep, omx_ioctl_wait_event (with_sleep env sleep) ep = omx_ioctl_wait_event env ep) /\
  exists s ep', omx_ioctl_wait_event env ep = (0, if we_copy_to_user env then Some s else None, ep') /\
    s <> OMX_CMD_WAIT_EVENT_STATUS_NONE.
Proof.
  intros Hc Ha. pose proof (wait_unfold env cmd ep (we_sleep env) Hc Ha) as Hw. rewrite with_same_sleep in Hw.
  rewrite Hw. split.
  - unfold may_sleep. destruct (wait_race _ _) eqn:Hr; [|destruct (expired env cmd ep) eqn:Hx; [|destruct (_ && _) eqn:Hs]];
      cbn [negb andb]; rewrite ?Hs; [| |done|];
      intros sleep; rewrite (wait_unfold env cmd ep sleep Hc Ha), Hr, ?Hx, ?Hs; done.
  - destruct (wait_race _ _); [apply wait_done_status|]. destruct (expired _ _ _); apply wait_done_status.
Qed.

(** The driver reports an event. *)
Inductive reports : endpoint -> endpoint -> Prop :=
  | reports_exp e ep : fst (omx_notify_exp_event e ep) = 0 -> reports ep (snd (omx_notify_exp_event e ep))
  | reports_unexp e ep : fst (omx_notify_unexp_event e ep) = 0 -> reports ep (snd (omx_notify_unexp_event e ep))
  | reports_commit e ep ep' : omx_commit_notify_unexp_event_with_recvq e ep = Some ep' -> reports ep ep'.
Lemma reports_wakeup ep ep' : reports ep ep' -> exists ep1, waiters ep1 = waiters ep /\
  ep' = omx_wakeup_waiter_list OMX_CMD_WAIT_EVENT_STATUS_EVENT ep1.
Proof.
  intros [e ep0 H|e ep0 H|e ep0 ep1 H]; revert H.
  - unfold omx_notify_exp_event. destruct (exp_full _); [done|]. intros _. eexists. split; [|cbn [snd]; reflexivity]. by fsimp.
  - unfold omx_notify_unexp_event, unexp_take. destruct (unexp_full _); [done|]. intros _.
    by eexists; split; [|reflexivity].
  - unfold omx_commit_notify_unexp_event_with_recvq, unexp_reserve. destruct (_ <=? _); [done|].
    cbn [mbind option_bind]. intros [= <-]. eexists. split; [|reflexivity]. by fsimp.
Qed.

(** ** Between the last look of the library and the sleep

    What the other processors do to the endpoint while the task [task] goes to
    sleep: events are reported or cancelled, timers and calls wake waiters up, and
    what wakes nobody: events are refused or only prepared, slots are released, other
    tasks come and go, the library writes its descriptor. *)
Inductive quiet (ignore : E) (task : Z) : endpoint -> endpoint -> Prop :=
  | quiet_exp_full e ep : fst (omx_notify_exp_event e ep) <> 0 -> quiet ignore task ep (snd (omx_notify_exp_event e ep))
  | quiet_unexp_full e ep : fst (omx_notify_unexp_event e ep) <> 0 -> quiet ignore task ep (snd (omx_notify_unexp_event e ep))
  | quiet_prepare ep : quiet ignore task ep (snd (omx_prepare_notify_unexp_event_with_recvq ep))
  | quiet_prepare_several nr ep : quiet ignore task ep (snd (omx_prepare_notify_unexp_events_with_recvq nr ep))
  | quiet_release_exp ep : quiet ignore task ep (snd (omx_ioctl_release_exp_slots ep))
  | quiet_release_unexp ep : quiet ignore task ep (snd (omx_ioctl_release_unexp_slots ep))
  | quiet_enter t ep : t <> task -> quiet ignore task ep (ep <| waiters ::= fun l => l ++ [Waiter t OMX_CMD_WAIT_EVENT_STATUS_NONE] |>)
  | quiet_leave t ep : t <> task -> quiet ignore task ep (ep <| waiters ::= filter (fun w => wt_task w <> t) |>)
  | quiet_descriptor status user wakeup ep : quiet ignore task ep
      (Endpoint (exp_eventq ep) (nextfree_exp_eventq_index ep) (nextreleased_exp_eventq_index ep) (unexp_eventq ep)
        (nextfree_unexp_eventq_index ep) (nextreserved_unexp_eventq_index ep) (nextreleased_unexp_eventq_index ep) (next_recvq_index ep)
        (waiters ep) status user wakeup (exp_eventq_full ep) (unexp_eventq_full ep)).
(** [others task n moved last ep ep']: [n] events were reported, the places of the
    events moved by [moved], and the last wakeup told [last] to the task. *)
Inductive others (ignore : E) (task : Z) : Z -> Z -> option Z -> endpoint -> endpoint -> Prop :=
  | others_none ep : others ignore task 0 0 None ep ep
  | others_quiet n k l ep ep1 ep2 : others ignore task n k l ep ep1 -> quiet ignore task ep1 ep2 -> others ignore task n k l ep ep2
  | others_report n k l ep ep1 ep2 : others ignore task n k l ep ep1 -> reports ep1 ep2 ->
      others ignore task (n + 1) (k + 1) (Some OMX_CMD_WAIT_EVENT_STATUS_EVENT) ep ep2
  | others_cancel n k l ep ep1 ep2 : others ignore task n k l ep ep1 -> omx_cancel_notify_unexp_event_with_recvq ignore ep1 = Some ep2 ->
      others ignore task n (k + 1) l ep ep2
  | others_wakeup n k l ep ep1 s : others ignore task n k l ep ep1 -> u8 s <> OMX_CMD_WAIT_EVENT_STATUS_NONE ->
      others ignore task n k (Some (u8 s)) ep (omx_wakeup_waiter_list s ep1)
  | others_timer n k l ep ep1 t s : others ignore task n k l ep ep1 -> s <> OMX_CMD_WAIT_EVENT_STATUS_NONE ->
      others ignore task n k (if t =? task then Some s else l) ep (set_status t s ep1).

(** The status of the waiter of the task. *)
Definition waits (task status : Z) (ep : endpoint) : Prop :=
  exists l1 l2, waiters ep = l1 ++ Waiter task status :: l2 /\ Forall (fun w => wt_task w <> task) l1.
Lemma waits_status task status ep : waits task status ep -> status_of task ep = status.
Proof.
  intros (l1 & l2 & E1 & H). unfold status_of. rewrite E1. clear E1. induction H as [|x l1 Hx _ IH]; cbn [app list_find].
  - by rewrite decide_True.
  - rewrite decide_False by done. destruct (list_find _ _) as [[i y]|]; [exact IH|]. exact IH.
Qed.
Lemma waits_map task s f ep ep' : waits task s ep -> waiters ep' = map f (waiters ep) -> (forall w, wt_task (f w) = wt_task w) ->
  waits task (wt_status (f (Waiter task s))) ep'.
Proof.
  intros (l1 & l2 & E1 & H) E2 Hf. exists (map f l1), (map f l2). rewrite E2, E1, map_app. cbn [map]. split.
  - do 2 f_equal. pose proof (Hf (Waiter task s)) as Ht. destruct (f (Waiter task s)). cbn in *. by rewrite Ht.
  - apply Forall_fmap. eapply Forall_impl; [exact H|]. intros w. unfold compose. by rewrite Hf.
Qed.
Lemma waits_quiet ignore task s ep ep' : quiet ignore task ep ep' -> waits task s ep -> waits task s ep'.
Proof.
  intros Hq Hw. assert (Hsame : waiters ep' = waiters ep -> waits task s ep') by (intros E'; unfold waits; by rewrite E').
  destruct Hq as [e ep H|e ep H|ep|nr ep|ep|ep|t ep Ht|t ep Ht|]; try (by apply Hsame).
  - apply Hsame. revert H. unfold omx_notify_exp_event. by destruct (exp_full _).
  - apply Hsame. revert H. unfold omx_notify_unexp_event, unexp_take. by destruct (unexp_full _).
  - apply Hsame. unfold omx_prepare_notify_unexp_event_with_recvq. by destruct (unexp_full _).
  - apply Hsame. unfold omx_prepare_notify_unexp_events_with_recvq. by destruct (unexp_full _).
  - apply Hsame. unfold omx_ioctl_release_exp_slots. by destruct (_ <? _).
  - apply Hsame. unfold omx_ioctl_release_unexp_slots. by destruct (_ <? _).
  - destruct Hw as (l1 & l2 & E1 & H). exists l1, (l2 ++ [Waiter t OMX_CMD_WAIT_EVENT_STATUS_NONE]). fsimp. by rewrite E1, <- app_assoc.
  - destruct Hw as (l1 & l2 & E1 & H). exists (filter (fun w => wt_task w <> t) l1), (filter (fun w => wt_task w <> t) l2). fsimp.
    rewrite E1, filter_app, filter_cons_True by (cbn; congruence). split; [done|]. apply Forall_forall. intros w [_ Hw]%list_elem_of_filter.
    by eapply Forall_forall in H.
Qed.
Lemma waits_others ignore task n k l ep ep' s : others ignore task n k l ep ep' -> waits task s ep -> waits task (default s l) ep'.
Proof.
  induction 1 as [ep|n k l ep ep1 ep2 _ IH Hq|n k l ep ep1 ep2 _ IH Hr|n k l ep ep1 ep2 _ IH Hc|n k l ep ep1 st _ IH Hst|n k l ep ep1 t st _ IH Hst]; intros Hw.
  - done.
  - eapply waits_quiet; [done|by apply IH].
  - destruct (reports_wakeup _ _ Hr) as (ep3 & E3 & ->).
    apply (waits_map task _ (fun w => Waiter (wt_task w) (u8 OMX_CMD_WAIT_EVENT_STATUS_EVENT)) ep1 _ (IH Hw)); [|done].
    unfold omx_wakeup_waiter_list. fsimp. by rewrite E3.
  - specialize (IH Hw). revert Hc. unfold omx_cancel_notify_unexp_event_with_recvq, unexp_reserve. destruct (_ <=? _); [done|].
    cbn [mbind option_bind]. intros [= <-]. exact IH.
  - apply (waits_map task _ (fun w => Waiter (wt_task w) (u8 st)) ep1 _ (IH Hw)); done.
  - pose proof (waits_map task _ (fun w => if decide (wt_task w = t) then Waiter t st else w) ep1 (set_status t st ep1) (IH Hw) eq_refl) as H.
    cbn [wt_task] in H. destruct (Z.eqb_spec t task) as [->|Hne].
    + rewrite decide_True in H by done. apply H. intros w. by case_decide.
    + rewrite decide_False in H by done. apply H. intros w. by case_decide.
Qed.
Lemma others_told ignore task n k l ep ep' : others ignore task n k l ep ep' -> 0 <= n <= k /\
  (0 < n -> is_Some l) /\ forall s, l = Some s -> s <> OMX_CMD_WAIT_EVENT_STATUS_NONE.
Proof.
  induction 1 as [ep|n k l ep ep1 ep2 _ IH Hq|n k l ep ep1 ep2 _ IH Hr|n k l ep ep1 ep2 _ IH Hc|n k l ep ep1 st _ IH Hst|n k l ep ep1 t st _ IH Hst];
    try destruct IH as (I1 & I2 & I3); split_and!; try done; try lia; try (intros _; by eexists).
  - by intros s [= <-].
  - by intros s [= <-].
  - intros Hn. destruct (t =? task); [by eexists|by apply I2].
  - destruct (t =? task); [by intros s [= <-]|done].
Qed.
(** The indexes that the library compares. *)
Definition positioned (ep : endpoint) : Prop := 0 <= nextfree_exp_eventq_index ep < 4294967296 /\ 0 <= nextreserved_unexp_eventq_index ep < 4294967296.
Definition moved (a b : Z) (ep ep' : endpoint) : Prop :=
  nextfree_exp_eventq_index ep' = u32 (nextfree_exp_eventq_index ep + a) /\ nextreserved_unexp_eventq_index ep' = u32 (nextreserved_unexp_eventq_index ep + b).
Lemma moved_range a b ep ep' : moved a b ep ep' -> positioned ep'.
Proof. intros [E1 E2]. unfold positioned. rewrite E1, E2. split; apply u32_range. Qed.
Lemma moved_none ep ep' : positioned ep -> nextfree_exp_eventq_index ep' = nextfree_exp_eventq_index ep ->
  nextreserved_unexp_eventq_index ep' = nextreserved_unexp_eventq_index ep -> moved 0 0 ep ep'.
Proof. intros [H1 H2] E1 E2. unfold moved. by rewrite E1, E2, !Z.add_0_r, !u32_small. Qed.
Lemma moved_trans a b a' b' ep1 ep2 ep3 : moved a b ep1 ep2 -> moved a' b' ep2 ep3 -> moved (a + a') (b + b') ep1 ep3.
Proof. intros [E1 E2] [E3 E4]. unfold moved. by rewrite E3, E4, E1, E2, !u32_add_l, !Z.add_assoc. Qed.
Lemma moved_quiet ignore task ep ep' : positioned ep -> quiet ignore task ep ep' -> moved 0 0 ep ep'.
Proof.
  intros Hp Hq. pose proof Hp as [H1 H2]. destruct Hq as [e ep H|e ep H|ep|nr ep|ep|ep|t ep Ht|t ep Ht|]; try (by apply moved_none).
  - revert H. unfold omx_notify_exp_event. destruct (exp_full _); [|done]. intros _. apply moved_none; [done| |done]. cbn [snd]; fsimp. by rewrite u32_sub_l, Z.add_simpl_r, u32_small.
  - revert H. unfold omx_notify_unexp_event, unexp_take. destruct (unexp_full _); [|done]. intros _. apply moved_none; [done|done|]. unfold report_unexp_full, unexp_rollback. cbn [snd]; fsimp.
    by rewrite u32_sub_l, Z.add_simpl_r, u32_small.
  - unfold omx_prepare_notify_unexp_event_with_recvq. by destruct (unexp_full _); apply moved_none.
  - unfold omx_prepare_notify_unexp_events_with_recvq. by destruct (unexp_full _); apply moved_none.
  - unfold omx_ioctl_release_exp_slots. by destruct (_ <? _); apply moved_none.
  - unfold omx_ioctl_release_unexp_slots. by destruct (_ <? _); apply moved_none.
Qed.
Lemma moved_report ep ep' : positioned ep -> reports ep ep' -> exists a b, moved a b ep ep' /\ 0 <= a /\ 0 <= b /\ a + b = 1.
Proof.
  intros Hp Hr. revert Hp. destruct Hr as [e ep0 H|e ep0 H|e ep0 ep1 H]; intros [H1 H2]; revert H.
  - unfold omx_notify_exp_event. destruct (exp_full _); [done|]. intros _. exists 1, 0. split; [|lia]. split; cbn [snd]; unfold omx_wakeup_waiter_list, unexp_publish, unexp_store; fsimp; [done|]. by rewrite Z.add_0_r, u32_small.
  - unfold omx_notify_unexp_event, unexp_take. destruct (unexp_full _); [done|]. intros _. exists 0, 1. split; [|lia]. split; cbn [snd]; unfold omx_wakeup_waiter_list, unexp_publish, unexp_store; fsimp; [|done].
    by rewrite Z.add_0_r, u32_small.
  - unfold omx_commit_notify_unexp_event_with_recvq, unexp_reserve. destruct (_ <=? _); [done|]. cbn [mbind option_bind]. intros [= <-].
    exists 0, 1. split; [|lia]. split; unfold omx_wakeup_waiter_list; fsimp; [|done]. by rewrite Z.add_0_r, u32_small.
Qed.
Lemma others_moved ignore task n k l ep ep' : others ignore task n k l ep ep' -> positioned ep ->
  exists a b, moved a b ep ep' /\ 0 <= a /\ 0 <= b /\ a + b = k.
Proof.
  assert (Hstep : forall ep1 ep2 ep3 a b a' b' j i, moved a b ep1 ep2 -> 0 <= a -> 0 <= b -> a + b = j -> moved a' b' ep2 ep3 -> 0 <= a' -> 0 <= b' -> a' + b' = i ->
    exists a b, moved a b ep1 ep3 /\ 0 <= a /\ 0 <= b /\ a + b = j + i).
  { intros ep1 ep2 ep3 a b a' b' j i M1 ? ? ? M2 ? ? ?. exists (a + a'), (b + b'). split; [by apply (moved_trans _ _ _ _ ep1 ep2)|lia]. }
  induction 1 as [ep|n k l ep ep1 ep2 _ IH Hq|n k l ep ep1 ep2 _ IH Hr|n k l ep ep1 ep2 _ IH Hc|n k l ep ep1 st _ IH Hst|n k l ep ep1 t st _ IH Hst]; intros Hp;
    try (destruct (IH Hp) as (a & b & M & Ha & Hb & Hk); pose proof (moved_range _ _ _ _ M) as Hp1).
  - exists 0, 0. split; [by apply moved_none|lia].
  - pose proof (moved_quiet _ _ _ _ Hp1 Hq) as M2. rewrite <- (Z.add_0_r k). by apply (Hstep ep ep1 ep2 a b 0 0).
  - destruct (moved_report _ _ Hp1 Hr) as (a' & b' & M2 & ? & ? & ?). by apply (Hstep ep ep1 ep2 a b a' b').
  - revert Hc. unfold omx_cancel_notify_unexp_event_with_recvq, unexp_reserve. destruct (_ <=? _); [done|]. cbn [mbind option_bind]. intros [= <-].
    apply (Hstep ep ep1 _ a b 0 1); try done. destruct Hp1 as [H1 H2]. split; fsimp; [|done]. by rewrite Z.add_0_r, u32_small.
  - exists a, b. done.
  - exists a, b. done.
Qed.
Lemma moved_race cmd a b ep ep' : positioned ep -> wait_race cmd ep = false -> moved a b ep ep' -> 0 <= a -> 0 <= b -> 0 < a + b < 4294967296 ->
  wait_race cmd ep' = true.
Proof.
  intros [H1 H2] Hr [E1 E2] Ha Hb Hab. unfold wait_race in *. apply negb_false_iff, andb_true_iff in Hr as [[R1%Z.eqb_eq R2%Z.eqb_eq]%andb_true_iff _].
  apply negb_true_iff. rewrite E1, E2, R1, R2. apply andb_false_iff. left.
  assert (Hd : forall x c, 0 <= x < 4294967296 -> 0 < c < 4294967296 -> (x =? u32 (x + c)) = false).
  { intros x c Hx Hc. apply Z.eqb_neq. unfold u32. change (2 ^ 32) with 4294967296. intros E'. pose proof (Z.div_mod (x + c) 4294967296 ltac:(lia)) as Hdm. rewrite <- E' in Hdm.
    set (q := (x + c) / 4294967296) in *. clearbody q. clear - Hx Hc Hdm. lia. }
  destruct (Z.eq_dec a 0) as [->|Ha0]; [|by rewrite Hd by lia].
  rewrite (Hd _ b) by lia. apply andb_false_r.
Qed.

(** C28. No event is slept over.  The library saw every event when the endpoint was
    [ep0]; then the other processors run, the waiter is queued ([ep] is the endpoint
    just before), the others run, the indexes are compared, the timer is armed, the
    others run, the status is tested.  If an event was reported anywhere in between
    (and less than 2^32 events in all before the comparison), the task does not
    sleep, whatever the scheduler would do, and is told the last wakeup (or an
    interruption, when the event came before the waiter, or a race with the timer);
    if an event is reported while the task sleeps, it is told the last wakeup.  Each
    report is one step here; [EventRace] cuts them. *)
Theorem reported_event_prevents_sleep ignore env cmd (ep0 ep : endpoint) n0 k0 l0 n1 k1 l1 n2 k2 l2 :
  let task := we_task env in
  we_cmd env = Some cmd -> we_alloc env = true -> we_copy_to_user env = true ->
  positioned ep0 -> wait_race cmd ep0 = false -> Forall (fun w => wt_task w <> task) (waiters ep) ->
  others ignore task n0 k0 l0 ep0 ep ->
  others ignore task n1 k1 l1 (ep <| waiters ::= fun l => l ++ [Waiter task OMX_CMD_WAIT_EVENT_STATUS_NONE] |>) (queued env ep) ->
  others ignore task n2 k2 l2 (queued env ep) (armed env cmd ep) ->
  (0 < n0 + n1 + n2 -> k0 + k1 < 2 ^ 32 -> forall sleep,
     fst (omx_ioctl_wait_event (with_sleep env sleep) ep) =
     (0, Some (if wait_race cmd (queued env ep) then default OMX_CMD_WAIT_EVENT_STATUS_INTR l1
               else if expired env cmd ep then OMX_CMD_WAIT_EVENT_STATUS_RACE else default OMX_CMD_WAIT_EVENT_STATUS_INTR l2)) /\
     (0 < n0 + n1 -> wait_race cmd (queued env ep) = true)) /\
  (may_sleep env cmd ep = true -> forall sleep n3 k3 l3, let timer := wait_timer cmd (ud_wakeup_jiffies ep) in
     others ignore task n3 k3 l3 (armed env cmd ep) (sleep timer (armed env cmd ep)) -> 0 < n3 ->
     fst (omx_ioctl_wait_event (with_sleep env sleep) ep) = (0, Some (default OMX_CMD_WAIT_EVENT_STATUS_INTR l3))).
Proof.
  intros task Hc Ha Hcp Hp0 Hr0 Hnew O0 O1 O2.
  assert (W0 : waits task OMX_CMD_WAIT_EVENT_STATUS_NONE (ep <| waiters ::= fun l => l ++ [Waiter task OMX_CMD_WAIT_EVENT_STATUS_NONE] |>))
    by (exists (waiters ep), []; by fsimp).
  pose proof (waits_others _ _ _ _ _ _ _ _ O1 W0) as W1. pose proof (waits_others _ _ _ _ _ _ _ _ O2 W1) as W2.
  destruct (others_told _ _ _ _ _ _ _ O0) as (N0 & _ & _). destruct (others_told _ _ _ _ _ _ _ O1) as (N1 & _ & S1).
  destruct (others_told _ _ _ _ _ _ _ O2) as (N2 & T2 & S2). split.
  - intros Hn Hk sleep. change (2 ^ 32) with 4294967296 in Hk. assert (Hrace : 0 < k0 + k1 -> wait_race cmd (queued env ep) = true).
    { intros Hk0. destruct (others_moved _ _ _ _ _ _ _ O0 Hp0) as (a & b & M0 & A0 & B0 & E0). pose proof (moved_range _ _ _ _ M0) as Hp.
      destruct (others_moved _ _ _ _ _ _ _ O1 Hp) as (a' & b' & M1 & A1 & B1 & E1). 
      apply (moved_race cmd (a + a') (b + b') ep0); [done|done|by apply (moved_trans _ _ _ _ _ ep)|lia..]. }
    split; [|intros Hn0; apply Hrace; lia].
    rewrite (wait_unfold env cmd ep sleep Hc Ha). unfold wait_done. fold task. destruct (wait_race cmd (queued env ep)).
    { cbn [fst]. rewrite (waits_status _ _ _ W1), Hcp. destruct l1 as [s|]; cbn [default from_option id]; [|done]. by rewrite (proj2 (Z.eqb_neq _ _) (S1 s eq_refl)). }
    destruct (expired env cmd ep).
    { cbn [fst]. rewrite Hcp. assert (E1 : status_of task (set_status task OMX_CMD_WAIT_EVENT_STATUS_RACE (queued env ep)) = OMX_CMD_WAIT_EVENT_STATUS_RACE); [|by rewrite E1].
      apply (waits_status task). pose proof (waits_map task _ (fun w => if decide (wt_task w = task) then Waiter task OMX_CMD_WAIT_EVENT_STATUS_RACE else w) _
        (set_status task OMX_CMD_WAIT_EVENT_STATUS_RACE (queued env ep)) W1 eq_refl) as H. cbn [wt_task] in H. rewrite decide_True in H by done.
      apply H. intros w. by case_decide. }
    destruct (T2 ltac:(destruct (Z.lt_ge_cases 0 (k0 + k1)) as [Hk0|]; [by specialize (Hrace Hk0)|lia])) as [s ->].
    rewrite (waits_status _ _ _ W2). cbn [default from_option id]. rewrite (proj2 (Z.eqb_neq _ _) (S2 s eq_refl)). cbn [andb fst].
    rewrite (waits_status _ _ _ W2), Hcp. cbn [default from_option id]. by rewrite (proj2 (Z.eqb_neq _ _) (S2 s eq_refl)).
  - intros Hm sleep n3 k3 l3 timer O3 Hn. pose proof (waits_others _ _ _ _ _ _ _ _ O3 W2) as W3.
    destruct (others_told _ _ _ _ _ _ _ O3) as (_ & T3 & S3). destruct (T3 Hn) as [s ->]. cbn [default from_option id] in *.
    unfold may_sleep in Hm. apply andb_true_iff in Hm as [[[H1%negb_true_iff H2%negb_true_iff]%andb_true_iff H3]%andb_true_iff H4].
    rewrite (wait_unfold env cmd ep sleep Hc Ha), H1, H2, H3, H4. cbn [andb]. unfold wait_done. fold task timer.
    cbn [fst]. rewrite (waits_status _ _ _ W3), Hcp. cbn [default from_option id]. by rewrite (proj2 (Z.eqb_neq _ _) (S3 s eq_refl)).
Qed.

(** A race is not reported as one: when the library has not seen an event
    yet, the wait returns at once, but the status [RACE] written in the command
    is overwritten, and the library is told it was interrupted. *)
Lemma wait_race_reported_as_intr env cmd (ep : endpoint) :
  we_cmd env = Some cmd -> we_alloc env = true -> we_copy_to_user env = true ->
  wait_race cmd (queued env ep) = true ->
  status_of (we_task env) (queued env ep) = OMX_CMD_WAIT_EVENT_STATUS_NONE ->
  fst (omx_ioctl_wait_event env ep) = (0, Some OMX_CMD_WAIT_EVENT_STATUS_INTR).
Proof.
  intros Hc Ha Hcp Hr Hs. rewrite <- (with_same_sleep env), (wait_unfold env cmd ep _ Hc Ha), Hr.
  unfold wait_done. by rewrite Hs, Hcp.
Qed.
End wait.

(** ** Witnesses *)

(** Task 1 waits with an application timer at 2000, at jiffies 1000; the
    progression asks for a wakeup at 1500. *)
Definition idle_endpoint : @endpoint Z :=
  Endpoint (fun _ => (0, 0)) 5 0 (fun _ => (0, 0)) 7 7 0 0 [] 0 0 1500 0 0.
Definition sample_env (exp : Z) (arm : option (Z * Z) -> @endpoint Z -> @endpoint Z) : @wait_env Z :=
  WaitEnv (Some (WaitEvent 0 exp 7 2000)) true 1 (fun ep => ep) 1000 arm false
    (fun timer => match timer with Some (s, _) => set_status 1 s | None => fun ep => ep end) true.
Lemma wait_sleeps_only_when_idle_witness :
  fst (omx_ioctl_wait_event (sample_env 5 (fun _ ep => ep)) idle_endpoint) =
  (0, Some OMX_CMD_WAIT_EVENT_STATUS_PROGRESS).
Proof.
  destruct (wait_sleeps_only_when_idle (sample_env 5 (fun _ ep => ep)) (WaitEvent 0 5 7 2000) idle_endpoint)
    as [H _]; [reflexivity|reflexivity|].
  change (may_sleep _ _ _) with true in H. rewrite H. reflexivity.
Defined.
(** An event is reported once the timer is armed. *)
Lemma reported_event_prevents_sleep_witness :
  fst (omx_ioctl_wait_event (sample_env 5 (fun _ ep => snd (omx_notify_unexp_event 9 ep))) idle_endpoint) =
  (0, Some OMX_CMD_WAIT_EVENT_STATUS_EVENT).
Proof.
  pose (env := sample_env 5 (fun _ ep => snd (omx_notify_unexp_event 9 ep))).
  refine (proj1 (proj1 (reported_event_prevents_sleep 0 env (WaitEvent 0 5 7 2000) idle_endpoint idle_endpoint 0 0 None 0 0 None
    (0 + 1) (0 + 1) (Some OMX_CMD_WAIT_EVENT_STATUS_EVENT) eq_refl eq_refl eq_refl _ eq_refl (Forall_nil_2 _) (others_none _ _ _)
    (others_none _ _ _) _) _ _ (we_sleep env))); [done| |reflexivity|reflexivity].
  eapply others_report; [apply others_none|]. apply (reports_unexp 9). reflexivity.
Defined.
Lemma wait_race_reported_as_intr_witness :
  fst (omx_ioctl_wait_event (sample_env 4 (fun _ ep => ep)) idle_endpoint) =
  (0, Some OMX_CMD_WAIT_EVENT_STATUS_INTR).
Proof.
  apply (wait_race_reported_as_intr _ (WaitEvent 0 4 7 2000)); reflexivity.
Defined.
End EventWait.

Import EventFifo.

Module EventRace.
Section race.
Context {E : Type}.
#[local] Notation endpoint := (@endpoint E).

(** Where a processor is in [omx_notify_unexp_event]. *)
Inductive cpu :=
  | Idle
  | Taken (index : Z) (event : E)     (** after the first critical section *)
  | TooFar                            (** the queue was full: to roll back *)
  | Granted (index : Z) (event : E)   (** to store *)
  | Stored (index : Z).               (** to publish the identifier *)
(** The endpoint, the index of the library, the processors, the events whose
    report returned 0 and the events the library read, the last ones first. *)
Record state := State {
  st_ep : endpoint; st_index : Z; st_cpus : list cpu; st_accepted : list E; st_read : list E }.

(** What may happen: a processor starts reporting an event or goes on, or the
    library reads an event. *)
Inductive action := Start (i : nat) (event : E) | Go (i : nat) | LibRead.
Definition act (a : action) (s : state) : option state :=
  let '(State ep index cpus acc rd) := s in
  match a with
  | Start i event =>
      match cpus !! i with
      | Some Idle => let '(taken, ep) := unexp_take ep in
          Some (State ep index (<[i := Taken taken event]> cpus) acc rd)
      | _ => None
      end
  | Go i =>
      match cpus !! i with
      | Some (Taken taken event) =>
          Some (State ep index (<[i := if unexp_full ep then TooFar else Granted taken event]> cpus) acc rd)
      | Some TooFar => Some (State (report_unexp_full (unexp_rollback ep)) index (<[i := Idle]> cpus) acc rd)
      | Some (Granted taken event) =>
          Some (State (unexp_store taken event ep) index (<[i := Stored taken]> cpus) (event :: acc) rd)
      | Some (Stored taken) =>
          Some (State (omx_wakeup_waiter_list OMX_CMD_WAIT_EVENT_STATUS_EVENT (unexp_publish taken ep))
                  index (<[i := Idle]> cpus) acc rd)
      | _ => None
      end
  | LibRead =>
      match take (unexp_eventq ep) OMX_UNEXP_EVENTQ_ENTRY_NR OMX_UNEXP_RELEASE_SLOTS_BATCH_NR
              omx_ioctl_release_unexp_slots index ep with
      | Some (Some e, index, ep) => Some (State ep index cpus acc (e :: rd))
      | _ => None
      end
  end.
(** What the library would read now. *)
Definition lib_reads (s : state) : option (option E) :=
  (fun x => fst (fst x)) <$> take (unexp_eventq (st_ep s)) OMX_UNEXP_EVENTQ_ENTRY_NR
    OMX_UNEXP_RELEASE_SLOTS_BATCH_NR omx_ioctl_release_unexp_slots (st_index s) (st_ep s).
Fixpoint interleave (l : list action) (s : state) : option state :=
  match l with [] => Some s | a :: l => s ← act a s; interleave l s end.

#[local] Ltac go_on Hi := cbn [interleave act mbind option_bind];
  rewrite ?list_lookup_insert_eq by (by rewrite ?length_insert); rewrite ?Hi; cbn [mbind option_bind].
(** A processor alone runs [omx_notify_unexp_event]. *)
Lemma pieces_are_notify event (ep : endpoint) index cpus acc rd i : cpus !! i = Some Idle ->
  let '(err, ep') := omx_notify_unexp_event event ep in
  exists l, interleave l (State ep index cpus acc rd) =
    Some (State ep' index cpus (if err =? 0 then event :: acc else acc) rd) /\ Forall (fun a => a <> LibRead) l.
Proof.
  intros Hi. pose proof (lookup_lt_Some _ _ _ Hi) as Hlt.
  unfold omx_notify_unexp_event. destruct (unexp_take ep) as [taken ep1] eqn:Ht.
  destruct (unexp_full ep1) eqn:Hf.
  - exists [Start i event; Go i; Go i]. split; [|by repeat constructor].
    go_on Hi. rewrite Ht. go_on Hi. rewrite Hf. go_on Hi. by rewrite !list_insert_insert_eq, list_insert_id.
  - exists [Start i event; Go i; Go i; Go i]. split; [|by repeat constructor].
    go_on Hi. rewrite Ht. go_on Hi. rewrite Hf. go_on Hi. go_on Hi. by rewrite !list_insert_insert_eq, list_insert_id.
Qed.
End race.

(** ** The race *)

(** One processor reports 1024 events, which fill the queue; the library reads
    255 of them. *)
Definition report_alone {E} (i : nat) (event : E) : list action := [Start i event; Go i; Go i; Go i].
Definition fill : list (@action Z) :=
  flat_map (fun k => report_alone 0 (Z.of_nat k)) (seq 0 1024) ++ repeat LibRead 255.
(** Processors 0 and 1 take a slot, 0 finds the queue full; the library reads
    its 256th event and releases a batch; 1 now finds room and reports its
    event; then 0 rolls back. *)
Definition race : list (@action Z) :=
  [Start 0%nat 5000; Start 1%nat 5001; Go 0%nat; LibRead; Go 1%nat; Go 1%nat; Go 1%nat; Go 0%nat].
(** The next event is reported alone, and the library reads all it can. *)
Definition after : list (@action Z) := report_alone 0 5002 ++ repeat LibRead 768.
Definition idle_start : @state Z :=
  State (omx_endpoint_queues_init (Endpoint (fun _ => (0, 0)) 0 0 (fun _ => (0, 0)) 0 0 0 0 [] 0 0 0 0 0))
    0 [Idle; Idle] [] [].

(** C29. When two processors report events to a full queue while the library
    releases slots, the rollback of the one that failed takes back the slot of
    the one that succeeded: from the empty queues, an execution reaches a state
    where no processor is in the middle of a report and the library finds its
    queue empty, although two events, which were accepted, were never read:
    one was overwritten by the other, behind a slot that is never filled. *)
Theorem rollback_race_loses_events : exists l s,
  interleave l idle_start = Some s /\ st_cpus s = [Idle; Idle] /\
  lib_reads s = Some None /\
  5001 ∈ st_accepted s /\ 5001 ∉ st_read s /\ 5002 ∈ st_accepted s /\ 5002 ∉ st_read s.
Proof.
  exists (fill ++ race ++ after).
  pose (s := interleave (fill ++ race ++ after) idle_start).
  assert (Hs : match s with Some s => st_cpus s = [Idle; Idle] /\ lib_reads s = Some None /\
    bool_decide (5001 ∈ st_accepted s) && negb (bool_decide (5001 ∈ st_read s)) &&
    bool_decide (5002 ∈ st_accepted s) && negb (bool_decide (5002 ∈ st_read s)) = true | None => False end)
    by (vm_compute; auto).
  destruct (interleave _ idle_start) as [s'|]; [|by destruct Hs]. exists s'. subst s. cbv beta iota in Hs.
  destruct Hs as (Hc & Hr & Hb). repeat rewrite andb_true_iff in Hb. destruct Hb as [[[H1 H2] H3] H4].
  apply bool_decide_eq_true in H1, H3. apply negb_true_iff, bool_decide_eq_false in H2, H4. done.
Qed.
End EventRace.

Import Progress.

Module Delivery.
Section delivery.
Context `{App} (index_to_addr : Z -> omx_return + Z).
#[local] Notation omx__process_event := (omx__process_event index_to_addr).
#[local] Notation consume := (consume index_to_addr).

Lemma bind_ext {A B} (m : M A) (f g : A -> M B) w : (forall a w', f a w' = g a w') -> (m ≫= f) w = (m ≫= g) w.
Proof. intros Hfg. unfold mbind, M_bind. destruct (m w); [apply Hfg|done]. Qed.

(** Processing a list of events, with the release of each full batch. *)
Fixpoint process_all (release : cmd) (index : Z) (l : list evt) : M Z :=
  match l with
  | [] => mret index
  | e :: l =>
      omx__process_event e;;
      let index := u32 (index + 1) in
      when (index mod 256 =? 0) (
        err ← ioctl release;
        when (negb (bool_decide (err = None))) abort);;
      process_all release index l
  end.
Lemma consume_all ring release fuel : forall c l w,
  EventFifo.holds ring c l -> (length l <= 1024)%nat -> (length l < fuel)%nat ->
  consume fuel 1024 256 ring release (u32 c) w = process_all release (u32 c) l w.
Proof.
  induction fuel as [|fuel IH]; intros c l w Hg Hl Hf; [lia|]. cbn [Progress.consume].
  destruct (EventFifo.holds_read ring c l Hg Hl) as [Hid Hev]. unfold event_slot, event_id in Hid, Hev.
  change OMX_EXP_EVENTQ_ENTRY_NR with 1024 in Hid, Hev.
  destruct (ring (u32 c mod 1024)) as [id e]. cbn [fst snd] in Hid, Hev. rewrite Hid.
  destruct l as [|e' l].
  - done.
  - rewrite bool_decide_true by done. cbn [negb process_all]. rewrite (Hev e' l eq_refl).
    apply bind_ext. intros _ w1. apply bind_ext. intros _ w2. rewrite u32_add_l. cbn [length] in *.
    apply IH; [by eapply EventFifo.holds_take|lia|lia].
Qed.


(** C27. Reading the events ends, after every pending event was processed once,
    in the order it was reported: with the rings and the indexes in any state
    the driver and the library can bring them to, the two loops of
    [omx__progress] run the handlers on the lists of pending events, releasing
    a batch of slots after each 256th event, and the number of rounds given to
    the loops never limits them. *)
Theorem progress_reads_pending (s : @EventFifo.system evt) (f : @EventFifo.spec_state evt) w :
  EventFifo.system_ok s f ->
  consume consume_fuel OMX_UNEXP_EVENTQ_ENTRY_NR OMX_UNEXP_RELEASE_SLOTS_BATCH_NR
    (Event.unexp_eventq (EventFifo.s_ep s)) CmdReleaseUnexp (EventFifo.s_unexp s) w =
  process_all CmdReleaseUnexp (EventFifo.s_unexp s) (EventFifo.pending (snd f)) w /\
  consume consume_fuel OMX_EXP_EVENTQ_ENTRY_NR OMX_EXP_RELEASE_SLOTS_BATCH_NR
    (Event.exp_eventq (EventFifo.s_ep s)) CmdReleaseExp (EventFifo.s_exp s) w =
  process_all CmdReleaseExp (EventFifo.s_exp s) (EventFifo.pending (fst f)) w.
Proof.
  intros [[[c Hx] _] [c' Hu]].
  destruct Hx as [-> _ _ _ _ Hrx Hgx], Hu as [-> _ _ _ _ Hru Hgu].
  split; apply consume_all; try done; unfold consume_fuel; lia.
Qed.
End delivery.

(** A liback and an ignored event are pending. *)
Definition sample_events : list (@EventFifo.op evt) :=
  [EventFifo.NotifyUnexp (EvtLiback 1 1 1 16); EventFifo.PrepareOne; EventFifo.Cancel].
Definition sample_driver : @Event.endpoint evt := Event.Endpoint Samples.empty_ring 0 0 Samples.empty_ring 0 0 0 0 [] 0 0 0 0 0.
Definition sample_system : @EventFifo.system evt :=
  snd (EventFifo.run (EventFifo.impl_step EvtIgnore) sample_events
    (EventFifo.System (Event.omx_endpoint_queues_init sample_driver) 0 0)).
Lemma sample_system_ok : EventFifo.system_ok sample_system
  (snd (EventFifo.run (EventFifo.spec_step EvtIgnore) sample_events (EventFifo.Fifo [] 0 0, EventFifo.Fifo [] 0 0))).
Proof.
  unfold sample_system. pose proof (EventFifo.init_ok sample_driver) as H. revert H.
  generalize (EventFifo.System (Event.omx_endpoint_queues_init sample_driver) 0 0),
    (EventFifo.Fifo (E := evt) [] 0 0, EventFifo.Fifo (E := evt) [] 0 0).
  unfold sample_events. intros s f H.
  refine (EventFifo.run_simulates EvtIgnore _ s f _ H). repeat (apply Forall_cons; split; [exact I|]). by apply Forall_nil.
Qed.
Lemma progress_reads_pending_witness :
  consume (H := Samples.sample_app) Samples.no_peer consume_fuel 1024 256
    (Event.unexp_eventq (EventFifo.s_ep sample_system)) CmdReleaseUnexp 0 Samples.sample_world =
  process_all (H := Samples.sample_app) Samples.no_peer CmdReleaseUnexp 0
    [EvtLiback 1 1 1 16; EvtIgnore] Samples.sample_world.
Proof.
  exact (proj1 (progress_reads_pending (H := Samples.sample_app) Samples.no_peer sample_system _
    Samples.sample_world sample_system_ok)).
Defined.
End Delivery.
