(* ===== verification/Reg.v ===== *)
(** User regions in the driver ([driver/linux/omx_reg.c], [omx_reg.h]): the
    segments and their pages, pinning by chunks, filling pages with received
    data, and the offset cache that reads consecutive chunks of a region.

    A page is its number; [kmap] gives it the addresses from
    [page * PAGE_SIZE] in a byte memory.  [None] is a [BUG_ON] or an access
    outside an array. *)
From S2P Require Import Prelude Segments.
Import Mem.

Module Reg.

Definition PAGE_SHIFT : Z := 12.
Definition PAGE_SIZE : Z := 4096.
Definition page_offset_of (x : Z) : Z := Z.land x (PAGE_SIZE - 1).
Definition page_index_of (x : Z) : Z := Z.shiftr x PAGE_SHIFT.
Definition EFAULT : Z := -14.
Definition ENOMEM : Z := -12.
Definition EINVAL : Z := -22.
Definition EBUSY : Z := -16.
Definition OMX_USER_REGION_MAX : Z := 256.

(** ** Data *)

(** The array [pages] holds [None] where no page was written yet. *)
(* [driver/linux/omx_reg.h:56-64] omx_user_region_segment *)
Record segment := Segment {
  aligned_vaddr : Z; first_page_offset : Z; sg_length : Z; nr_pages : Z; pinned_pages : Z;
  vmalloced : bool; pages : list (option Z) }.
#[export] Instance e_segment : Settable segment := fun r => Segment (aligned_vaddr r)
  (first_page_offset r) (sg_length r) (nr_pages r) (pinned_pages r) (vmalloced r) (pages r).
#[export] Instance s_pinned_pages : Setter pinned_pages. Proof. mk_setter. Defined.
#[export] Instance s_pages : Setter pages. Proof. mk_setter. Defined.

(* [driver/linux/omx_reg.h:33-37] omx_user_region_status *)
Inductive region_status := NOT_PINNED | PINNED | FAILED.
#[export] Instance region_status_eq_dec : EqDecision region_status. Proof. solve_decision. Defined.

(* [driver/linux/omx_reg.h:39-65] omx_user_region *)
Record region := Region {
  rg_id : Z; dirty : bool; refcount : Z; nr_vmalloc_segments : Z; segments : list segment;
  total_length : Z; status : region_status; total_registered_length : Z }.
#[export] Instance e_region : Settable region := fun r => Region (rg_id r) (dirty r) (refcount r)
  (nr_vmalloc_segments r) (segments r) (total_length r) (status r) (total_registered_length r).
#[export] Instance s_rg_id : Setter rg_id. Proof. mk_setter. Defined.
#[export] Instance s_dirty : Setter dirty. Proof. mk_setter. Defined.
#[export] Instance s_refcount : Setter refcount. Proof. mk_setter. Defined.
#[export] Instance s_nr_vmalloc : Setter nr_vmalloc_segments. Proof. mk_setter. Defined.
#[export] Instance s_segments : Setter segments. Proof. mk_setter. Defined.
#[export] Instance s_total_length : Setter total_length. Proof. mk_setter. Defined.
#[export] Instance s_status : Setter status. Proof. mk_setter. Defined.
#[export] Instance s_registered : Setter total_registered_length. Proof. mk_setter. Defined.

(** ** Segments *)

Definition OMX_REGION_VMALLOC_NR_PAGES_THRESHOLD : Z := 4096.
Definition PAGE_ALIGN (x : Z) : Z := Z.ldiff (u64 (x + PAGE_SIZE - 1)) (PAGE_SIZE - 1).

(** [alloc] is the answer of the allocator for the array of pages. *)
(* [driver/linux/omx_reg.c:48-94] omx_user_region_add_segment *)
Definition omx_user_region_add_segment (alloc : bool) (vaddr len : Z) : Z + segment :=
  let offset := page_offset_of vaddr in
  let aligned_vaddr := Z.ldiff vaddr (PAGE_SIZE - 1) in
  let aligned_len := PAGE_ALIGN (u64 (offset + len)) in
  let nr_pages := page_index_of aligned_len in
  if negb alloc then inl ENOMEM
  else inr (Segment aligned_vaddr offset len nr_pages 0
              (OMX_REGION_VMALLOC_NR_PAGES_THRESHOLD <? nr_pages)
              (replicate (Z.to_nat nr_pages) None)).

(** The pages a segment gives back: [put_page] on each pinned page. *)
(* [driver/linux/omx_reg.c:96-108] omx_user_region_destroy_segment *)
Definition omx_user_region_destroy_segment (sg : segment) : list (option Z) :=
  take (Z.to_nat (pinned_pages sg)) (pages sg).
(* [driver/linux/omx_reg.c:110-120] omx_user_region_destroy_segments *)
Definition omx_user_region_destroy_segments (r : region) : list (option Z) :=
  flat_map omx_user_region_destroy_segment (segments r).

(** ** Pinning *)
Section pin.
(** [get_user_pages_fast(start, nr, write, pages)] of the kernel: the number of
    pages it pinned or an error, and these pages. *)
Context (get_user_pages : Z -> Z -> Z * list Z).
Context (omx_pin_chunk_pages_min omx_pin_chunk_pages_max : Z).

(** The pinner stands at page [ps_pages] of the array of segment
    [ps_segment]; [None] before it looked at the segment. *)
(* [driver/linux/omx_reg.h:118-129] omx_user_region_pin_state *)
Record pin_state := PinState {
  ps_segment : nat; ps_pages : option Z; ps_aligned_vaddr : Z; ps_remaining : Z;
  ps_chunk_offset : Z; ps_next_chunk_pages : Z }.

(* [driver/linux/omx_reg.c:126-137] omx__user_region_pin_init *)
Definition omx__user_region_pin_init : pin_state := PinState 0 None 0 0 0 omx_pin_chunk_pages_min.
(* [driver/linux/omx_reg.c:139-153] omx__user_region_pin_new_segment *)
Definition omx__user_region_pin_new_segment (sg : segment) (ps : pin_state) : pin_state :=
  PinState (ps_segment ps) (Some 0) (aligned_vaddr sg) (sg_length sg) (first_page_offset sg)
    (ps_next_chunk_pages ps).

(** Storing pages in the array from an index. *)
Definition store_pages (i : Z) (l : list Z) (a : list (option Z)) : list (option Z) :=
  take (Z.to_nat i) a ++ (Some <$> l) ++ drop (Z.to_nat i + length l) a.

(** The outcome of a chunk: the new region, the pages given back when the
    kernel pinned too few of them, and the error or the new state. *)
(* [driver/linux/omx_reg.c:155-232] omx__user_region_pin_add_chunk *)
Definition omx__user_region_pin_add_chunk (r : region) (ps : pin_state)
    : option (region * list Z * (Z + pin_state)) :=
  sg ← segments r !! ps_segment ps;
  let ps := match ps_pages ps with None => omx__user_region_pin_new_segment sg ps | Some _ => ps end in
  let index := default 0 (ps_pages ps) in
  let remaining := ps_remaining ps in
  let chunk_offset := ps_chunk_offset ps in
  let chunk_pages := ps_next_chunk_pages ps in
  let next_chunk_pages :=
    if chunk_pages <? omx_pin_chunk_pages_max then
      let n := Z.shiftl chunk_pages 1 in
      if omx_pin_chunk_pages_max <? n then omx_pin_chunk_pages_max else n
    else chunk_pages in
  let chunk_length :=
    if chunk_offset + remaining <=? Z.shiftl chunk_pages PAGE_SHIFT then remaining
    else Z.shiftl chunk_pages PAGE_SHIFT - chunk_offset in
  let chunk_pages := page_index_of (chunk_offset + chunk_length + PAGE_SIZE - 1) in
  let '(ret, got) := get_user_pages (ps_aligned_vaddr ps) chunk_pages in
  if Z.of_nat (length (pages sg)) <? index + ret then None (* writes behind the array *)
  else if negb (ret =? chunk_pages) then
    if 0 <=? ret then Some (r, take (Z.to_nat ret) got, inl EFAULT) else Some (r, [], inl ret)
  else
    let sg := sg <| pages ::= store_pages index got |> <| pinned_pages ::= fun n => n + chunk_pages |> in
    let r := r <| segments ::= <[ps_segment ps := sg]> |>
               <| total_registered_length ::= fun n => n + chunk_length |> in
    Some (r, [], inr (
      if chunk_length <? remaining then
        PinState (ps_segment ps) (Some (index + chunk_pages))
          (ps_aligned_vaddr ps + chunk_offset + chunk_length) (remaining - chunk_length) 0 next_chunk_pages
      else PinState (S (ps_segment ps)) None (ps_aligned_vaddr ps) remaining chunk_offset next_chunk_pages)).

(** The loop; every round registers at least a byte. *)
Fixpoint pin_loop (fuel : nat) (needed : Z) (r : region) (ps : pin_state)
    : option (region * list Z * (Z + pin_state)) :=
  if needed <=? total_registered_length r then Some (r, [], inr ps)
  else
    match fuel with
    | O => None
    | S fuel =>
        '(r, put, ret) ← omx__user_region_pin_add_chunk r ps;
        match ret with
        | inl err => Some (r, put, inl err)
        | inr ps => pin_loop fuel needed r ps
        end
    end.
(* [driver/linux/omx_reg.c:234-260] omx__user_region_pin_continue *)
Definition omx__user_region_pin_continue (needed : Z) (r : region) (ps : pin_state)
    : option (region * list Z * (Z + pin_state)) :=
  '(r, put, ret) ← pin_loop (Z.to_nat (needed - total_registered_length r)) needed r ps;
  match ret with
  | inl err => Some (r <| status := FAILED |>, put, inl err)
  | inr ps => Some (r, put, inr ps)
  end.
(* [driver/linux/omx_reg.h:139-154] omx_user_region_immediate_full_pin *)
Definition omx_user_region_immediate_full_pin (r : region) : option (region * list Z * (Z + pin_state)) :=
  omx__user_region_pin_continue (total_length r) (r <| status := PINNED |>) omx__user_region_pin_init.

(** Demand pinning, by the first user of a region: no pinner state means that
    another user pins it. *)
(* [driver/linux/omx_reg.h:185-206] omx_user_region_demand_pin_init *)
Definition omx_user_region_demand_pin_init (r : region) : region * option pin_state :=
  if bool_decide (status r = NOT_PINNED) then (r <| status := PINNED |>, Some omx__user_region_pin_init)
  else (r, None).
(** [None] while the other user is not far enough. *)
(* [driver/linux/omx_reg.h:159-178] omx_user_region_parallel_pin_wait *)
Definition omx_user_region_parallel_pin_wait (r : region) (needed : Z) : option (Z + Z) :=
  if (total_registered_length r <? needed) && bool_decide (status r = PINNED) then None
  else if bool_decide (status r = FAILED) then Some (inl EFAULT)
  else Some (inr (total_registered_length r)).
(** The region, the pages given back, and the error or the pinner. *)
(* [driver/linux/omx_reg.h:238-256] omx_user_region_demand_pin_finish *)
Definition omx_user_region_demand_pin_finish (r : region) (ps : option pin_state)
    : option (region * list Z * (Z + option pin_state)) :=
  match ps with
  | None =>
      ret ← omx_user_region_parallel_pin_wait r (total_length r);
      Some (r, [], match ret with inl err => inl err | inr _ => inr None end)
  | Some ps =>
      '(r, put, ret) ← omx__user_region_pin_continue (total_length r) r ps;
      Some (r, put, match ret with inl err => inl err | inr ps => inr (Some ps) end)
  end.
End pin.

(** Invalidation by the memory manager: the array and the pages it gives back.
    The counter of the inner loop's bound is reset inside the loop. *)
Fixpoint invalidate_pages (fuel : nat) (j : Z) (sg : segment) : list (option Z) * segment :=
  match fuel with
  | O => ([], sg)
  | S fuel =>
      if j <? pinned_pages sg then
        let p := default None (pages sg !! Z.to_nat j) in
        let '(put, sg) := invalidate_pages fuel (j + 1) (sg <| pinned_pages := 0 |>) in
        (p :: put, sg)
      else ([], sg)
  end.
(* [driver/linux/omx_reg.c:513-544] omx_invalidate_region *)
Definition omx_invalidate_region (r : region) : option (list (option Z) * region) :=
  match status r with
  | FAILED => None
  | NOT_PINNED => Some ([], r)
  | PINNED =>
      if total_registered_length r <? total_length r then None (* waits for the pinner *)
      else
        let l := map (fun sg => invalidate_pages (S (Z.to_nat (pinned_pages sg))) 0 sg) (segments r) in
        Some (flat_map fst l, r <| segments := map snd l |> <| total_registered_length := 0 |>
                                <| status := NOT_PINNED |>)
  end.

(** ** Filling pages with received data *)

Definition page_addr (pg : option (option Z)) : option Z := (fun p => p * PAGE_SIZE) <$> mjoin pg.

(** [data] is what the packet holds from the offset of the copy. *)
Fixpoint segment_fill_loop (pgs : list (option Z)) (page_offset : Z) (data : list Z) (remaining : Z)
    (m : mem) : option mem :=
  match pgs with
  | Some p :: pgs =>
      let chunk := if remaining <? PAGE_SIZE - page_offset then remaining else PAGE_SIZE - page_offset in
      let m := store m (p * PAGE_SIZE + page_offset) (take (Z.to_nat chunk) data) in
      let remaining := remaining - chunk in
      if remaining =? 0 then Some m
      else segment_fill_loop pgs 0 (drop (Z.to_nat chunk) data) remaining m
  | _ => None
  end.
(* [driver/linux/omx_reg.c:1344-1383] omx__user_region_segment_fill_pages *)
Definition omx__user_region_segment_fill_pages (sg : segment) (segment_offset : Z) (data : list Z)
    (length : Z) (m : mem) : option mem :=
  let first_page := page_index_of (segment_offset + first_page_offset sg) in
  let page_offset := page_offset_of (segment_offset + first_page_offset sg) in
  segment_fill_loop (drop (Z.to_nat first_page) (pages sg)) page_offset data length m.

Fixpoint fill_loop (l : list segment) (segment_offset : Z) (data : list Z) (remaining : Z) (m : mem)
    : option mem :=
  match l with
  | [] => if remaining =? 0 then Some m else None
  | sg :: l =>
      if sg_length sg <=? segment_offset then fill_loop l (segment_offset - sg_length sg) data remaining m
      else if sg_length sg <? segment_offset + remaining then
        let chunk := sg_length sg - segment_offset in
        m ← omx__user_region_segment_fill_pages sg segment_offset data chunk m;
        fill_loop l 0 (drop (Z.to_nat chunk) data) (remaining - chunk) m
      else omx__user_region_segment_fill_pages sg segment_offset data remaining m
  end.
(* [driver/linux/omx_reg.c:1385-1444] omx_user_region_fill_pages *)
Definition omx_user_region_fill_pages (r : region) (region_offset : Z) (data : list Z) (length : Z)
    (m : mem) : option (Z * mem) :=
  if total_length r <? region_offset + length then Some (EINVAL, m)
  else m ← fill_loop (segments r) region_offset data length m; Some (0, m).

(** ** The offset cache *)

(** The current segment and page are indexes in their arrays; the flag tells
    which callbacks were set, the ones of several segments or of one. *)
(* [driver/linux/omx_reg.h:67-93] omx_user_region_offset_cache *)
Record offset_cache := OffsetCache {
  oc_seg : nat; oc_segoff : Z; oc_page : Z; oc_pageoff : Z; oc_vect : bool }.

(** The search of the segment of an offset. *)
Fixpoint find_segment (l : list segment) (offset : Z) (i : nat) : option (nat * segment * Z) :=
  match l with
  | [] => None
  | sg :: l => if sg_length sg <=? offset then find_segment l (offset - sg_length sg) (S i)
               else Some (i, sg, offset)
  end.
(** [Some (inl err)] is the error. *)
(* [driver/linux/omx_reg.c:1274-1338] omx_user_region_offset_cache_init *)
Definition omx_user_region_offset_cache_init (r : region) (offset length : Z) : option (Z + offset_cache) :=
  if bool_decide (segments r = []) || (total_length r <? offset + length) then Some (inl (-1))
  else
    let vect := (1 <? Z.of_nat (List.length (segments r))) in
    '(i, sg, segoff) ← (if vect then find_segment (segments r) offset 0
                        else sg ← head (segments r); Some (0%nat, sg, offset));
    Some (inr (OffsetCache i segoff (page_index_of (segoff + first_page_offset sg))
                 (page_offset_of (segoff + first_page_offset sg)) vect)).

Definition get_page (sg : segment) (i : Z) : option Z := mjoin (pages sg !! Z.to_nat i).

(** The loop of a copy out of one segment; the bytes are appended to the
    destination. *)
Fixpoint contig_copy_loop (fuel : nat) (sg : segment) (m : mem) (page pageoff remaining : Z)
    (buffer : list Z) : option (list Z * Z * Z) :=
  if remaining =? 0 then Some (buffer, page, pageoff)
  else
    match fuel with
    | O => None
    | S fuel =>
        let chunk := if PAGE_SIZE - pageoff <? remaining then PAGE_SIZE - pageoff else remaining in
        p ← get_page sg page;
        let buffer := buffer ++ load m (p * PAGE_SIZE + pageoff) (Z.to_nat chunk) in
        if pageoff + chunk =? PAGE_SIZE then
          contig_copy_loop fuel sg m (page + 1) 0 (remaining - chunk) buffer
        else contig_copy_loop fuel sg m page (pageoff + chunk) (remaining - chunk) buffer
    end.
(* [driver/linux/omx_reg.c:824-873] omx_user_region_offset_cache_contig_copy_callback *)
Definition omx_user_region_offset_cache_contig_copy_callback (r : region) (c : offset_cache) (m : mem)
    (length : Z) : option (list Z * offset_cache) :=
  sg ← segments r !! oc_seg c;
  '(buffer, page, pageoff) ← contig_copy_loop (Z.to_nat length) sg m (oc_page c) (oc_pageoff c) length [];
  Some (buffer, OffsetCache (oc_seg c) (oc_segoff c) page pageoff (oc_vect c)).

(** The test of the end is off by one: after the last segment the loop reads
    the length and the pages of the segment behind it, outside the array. *)
Fixpoint vect_copy_loop (fuel : nat) (r : region) (m : mem) (i : nat) (segoff page pageoff remaining : Z)
    (buffer : list Z) : option (list Z * nat * Z * Z * Z) :=
  if remaining =? 0 then Some (buffer, i, segoff, page, pageoff)
  else
    match fuel with
    | O => None
    | S fuel =>
        sg ← segments r !! i;
        let chunk := if PAGE_SIZE - pageoff <? remaining then PAGE_SIZE - pageoff else remaining in
        let chunk := if sg_length sg - segoff <? chunk then sg_length sg - segoff else chunk in
        p ← get_page sg page;
        let buffer := buffer ++ load m (p * PAGE_SIZE + pageoff) (Z.to_nat chunk) in
        if segoff + chunk =? sg_length sg then
          sg ← segments r !! S i;
          vect_copy_loop fuel r m (S i) 0 0 (first_page_offset sg) (remaining - chunk) buffer
        else if pageoff + chunk =? PAGE_SIZE then
          vect_copy_loop fuel r m i (segoff + chunk) (page + 1) 0 (remaining - chunk) buffer
        else vect_copy_loop fuel r m i (segoff + chunk) page (pageoff + chunk) (remaining - chunk) buffer
    end.
(* [driver/linux/omx_reg.c:875-949] omx_user_region_offset_cache_vect_copy_callback *)
Definition omx_user_region_offset_cache_vect_copy_callback (r : region) (c : offset_cache) (m : mem)
    (length : Z) : option (list Z * offset_cache) :=
  '(buffer, i, segoff, page, pageoff) ←
    vect_copy_loop (Z.to_nat length) r m (oc_seg c) (oc_segoff c) (oc_page c) (oc_pageoff c) length [];
  Some (buffer, OffsetCache i segoff page pageoff (oc_vect c)).

(** [cache->copy_pages_to_buf]. *)
Definition copy_pages_to_buf (r : region) (c : offset_cache) (m : mem) (length : Z)
    : option (list Z * offset_cache) :=
  if oc_vect c then omx_user_region_offset_cache_vect_copy_callback r c m length
  else omx_user_region_offset_cache_contig_copy_callback r c m length.

(** ** Attaching pages to packets *)

Section append.
(** The number of fragments of a packet. *)
Context (omx_skb_frags : Z).
(** The fragments of a packet: page, offset, length.  [Some None] is the error
    of a packet with too many of them. *)
#[local] Notation frags := (list (Z * Z * Z)).

Fixpoint contig_append_loop (fuel : nat) (sg : segment) (page pageoff remaining : Z) (skb : frags)
    : option (option (frags * Z * Z)) :=
  if remaining =? 0 then Some (Some (skb, page, pageoff))
  else
    match fuel with
    | O => None
    | S fuel =>
        if Z.of_nat (List.length skb) =? omx_skb_frags then Some None
        else
          let chunk := if PAGE_SIZE - pageoff <? remaining then PAGE_SIZE - pageoff else remaining in
          p ← get_page sg page;
          let skb := skb ++ [(p, pageoff, chunk)] in
          if pageoff + chunk =? PAGE_SIZE then
            contig_append_loop fuel sg (page + 1) 0 (remaining - chunk) skb
          else contig_append_loop fuel sg page (pageoff + chunk) (remaining - chunk) skb
    end.
(** [Some (inl err)]: the cache does not move. *)
(* [driver/linux/omx_reg.c:683-739] omx_user_region_offset_cache_contig_append_callback *)
Definition omx_user_region_offset_cache_contig_append_callback (r : region) (c : offset_cache) (length : Z)
    : option (Z + frags * offset_cache) :=
  sg ← segments r !! oc_seg c;
  ret ← contig_append_loop (Z.to_nat length) sg (oc_page c) (oc_pageoff c) length [];
  Some (match ret with
        | None => inl (-1)
        | Some (skb, page, pageoff) => inr (skb, OffsetCache (oc_seg c) (oc_segoff c) page pageoff (oc_vect c))
        end).

(** The same test of the end as [vect_copy_loop]. *)
Fixpoint vect_append_loop (fuel : nat) (r : region) (i : nat) (segoff page pageoff remaining : Z)
    (skb : frags) : option (option (frags * nat * Z * Z * Z)) :=
  if remaining =? 0 then Some (Some (skb, i, segoff, page, pageoff))
  else
    match fuel with
    | O => None
    | S fuel =>
        if Z.of_nat (List.length skb) =? omx_skb_frags then Some None
        else
          sg ← segments r !! i;
          let chunk := if PAGE_SIZE - pageoff <? remaining then PAGE_SIZE - pageoff else remaining in
          let chunk := if sg_length sg - segoff <? chunk then sg_length sg - segoff else chunk in
          p ← get_page sg page;
          let skb := skb ++ [(p, pageoff, chunk)] in
          if segoff + chunk =? sg_length sg then
            sg ← segments r !! S i;
            vect_append_loop fuel r (S i) 0 0 (first_page_offset sg) (remaining - chunk) skb
          else if pageoff + chunk =? PAGE_SIZE then
            vect_append_loop fuel r i (segoff + chunk) (page + 1) 0 (remaining - chunk) skb
          else vect_append_loop fuel r i (segoff + chunk) page (pageoff + chunk) (remaining - chunk) skb
    end.
(* [driver/linux/omx_reg.c:741-822] omx_user_region_offset_cache_vect_append_callback *)
Definition omx_user_region_offset_cache_vect_append_callback (r : region) (c : offset_cache) (length : Z)
    : option (Z + frags * offset_cache) :=
  ret ← vect_append_loop (Z.to_nat length) r (oc_seg c) (oc_segoff c) (oc_page c) (oc_pageoff c) length [];
  Some (match ret with
        | None => inl (-1)
        | Some (skb, i, segoff, page, pageoff) => inr (skb, OffsetCache i segoff page pageoff (oc_vect c))
        end).
(** [cache->append_pages_to_skb]. *)
Definition append_pages_to_skb (r : region) (c : offset_cache) (length : Z) : option (Z + frags * offset_cache) :=
  if oc_vect c then omx_user_region_offset_cache_vect_append_callback r c length
  else omx_user_region_offset_cache_contig_append_callback r c length.
(** The bytes a packet carries when it is sent. *)
Definition frags_bytes (m : mem) (skb : frags) : list Z :=
  flat_map (fun '(p, pageoff, chunk) => load m (p * PAGE_SIZE + pageoff) (Z.to_nat chunk)) skb.
End append.
End Reg.
