(* ===== verification/RegCopy.v ===== *)
(** The bytes of a pinned region, and what filling its pages and reading it by
    chunks do to them. *)
From S2P Require Import Prelude Segments Reg.
Import Mem Reg.

Module RegCopy.

(** ** Writing a list of bytes at a list of addresses *)

Fixpoint write (m : mem) (addrs bs : list Z) : mem :=
  match addrs, bs with
  | a :: addrs, b :: bs => write (<[a := b]> m : mem) addrs bs
  | _, _ => m
  end.
Lemma write_ext m m' addrs bs : m ≡ m' -> write m addrs bs ≡ write m' addrs bs.
Proof.
  revert m m' bs. induction addrs as [|a addrs IH]; intros m m' [|b bs] H; try done. cbn. apply IH.
  intros x. unfold insert, fn_insert. by destruct (decide (a = x)).
Qed.
Lemma write_app m a1 a2 b1 b2 : length a1 = length b1 ->
  write m (a1 ++ a2) (b1 ++ b2) = write (write m a1 b1) a2 b2.
Proof.
  revert m b1. induction a1 as [|a a1 IH]; intros m [|b b1] H; try done. cbn in *. apply IH. lia.
Qed.
Lemma write_out m addrs bs x : x ∉ addrs -> write m addrs bs x = m x.
Proof.
  revert m bs. induction addrs as [|a addrs IH]; intros m [|b bs] Hx; try done. cbn.
  apply not_elem_of_cons in Hx as [Hne Hx]. rewrite IH by done. by apply fn_lookup_insert_ne.
Qed.
Lemma read_write m addrs bs : NoDup addrs -> length addrs = length bs -> (write m addrs bs) <$> addrs = bs.
Proof.
  intros Hnd. revert m bs. induction Hnd as [|a addrs Ha Hnd IH]; intros m [|b bs] Hl; try done.
  cbn in *. rewrite IH by lia. f_equal. rewrite write_out by done. apply fn_lookup_insert.
Qed.
Lemma read_frame (m m' : mem) (addrs : list Z) : (forall x, x ∈ addrs -> m' x = m x) -> m' <$> addrs = m <$> addrs.
Proof. intros H. apply list_fmap_ext. intros i x Hx. apply H. by eapply list_elem_of_lookup_2. Qed.

(** Addresses that follow each other. *)
Definition span (a : Z) (n : nat) : list Z := (fun i => a + Z.of_nat i) <$> seq 0 n.
Lemma length_span a n : length (span a n) = n.
Proof. unfold span. by rewrite length_fmap, length_seq. Qed.
Lemma span_app a n k : span a (n + k) = span a n ++ span (a + Z.of_nat n) k.
Proof.
  unfold span. rewrite seq_app, fmap_app. f_equal. cbn.
  replace (seq n k) with (Nat.add n <$> seq 0 k) by (rewrite fmap_add_seq; f_equal; lia).
  rewrite <- list_fmap_compose. apply list_fmap_ext. intros i x _. cbn. lia.
Qed.
Lemma load_span m a n : load m a n = m <$> span a n.
Proof. unfold load, span. by rewrite <- list_fmap_compose. Qed.
Lemma drop_take_span a n i k : (i + k <= n)%nat -> take k (drop i (span a n)) = span (a + Z.of_nat i) k.
Proof.
  intros H. replace n with (i + (k + (n - i - k)))%nat by lia. rewrite !span_app.
  rewrite drop_app_length' by by rewrite length_span. rewrite take_app_length' by by rewrite length_span. done.
Qed.
Lemma store_write m a bs : store m a bs ≡ write m (span a (length bs)) bs.
Proof.
  revert m a. induction bs as [|b bs IH]; intros m a x.
  - cbn. apply store_out. cbn. lia.
  - change (length (b :: bs)) with (1 + length bs)%nat. rewrite span_app. cbn.
    rewrite Z.add_0_r. rewrite <- (IH (<[a := b]> m : mem) (a + 1) x).
    change (b :: bs) with ([b] ++ bs). rewrite (store_app m a [b] bs x).
    assert (Hs : store m a [b] ≡ (<[a := b]> m : mem));
      [|exact (store_proper _ _ Hs _ _ eq_refl _ _ eq_refl x)].
    intros y. unfold insert, fn_insert. case_decide as Hy.
    + subst y. apply store_in; [lia|]. by rewrite Z.sub_diag.
    + apply store_out. cbn. lia.
Qed.

(** ** The bytes of a region *)

Definition page_bytes (p : Z) : list Z := span (p * PAGE_SIZE) (Z.to_nat PAGE_SIZE).
Definition flat (ps : list Z) : list Z := flat_map page_bytes ps.
Lemma length_flat ps : Z.of_nat (length (flat ps)) = PAGE_SIZE * Z.of_nat (length ps).
Proof.
  induction ps as [|p ps IH]; [done|]. cbn [flat flat_map]. unfold flat in IH. rewrite length_app, Nat2Z.inj_add, IH.
  unfold page_bytes. rewrite length_span. change PAGE_SIZE with 4096. cbn [length]. lia.
Qed.
Definition seg_addrs (sg : segment) (ps : list Z) : list Z :=
  take (Z.to_nat (sg_length sg)) (drop (Z.to_nat (first_page_offset sg)) (flat ps)).

(** A segment whose pages are all there. *)
Record pinned (sg : segment) (ps : list Z) : Prop := {
  pn_pages : pages sg = Some <$> ps;
  pn_offset : 0 <= first_page_offset sg < PAGE_SIZE;
  pn_length : 0 < sg_length sg;
  pn_fit : first_page_offset sg + sg_length sg <= PAGE_SIZE * Z.of_nat (length ps)
}.
Lemma length_seg_addrs sg ps : pinned sg ps -> length (seg_addrs sg ps) = Z.to_nat (sg_length sg).
Proof.
  intros [_ Ho Hl Hf]. unfold seg_addrs. pose proof (length_flat ps). rewrite length_take, length_drop. lia.
Qed.
Definition addrs_of (l : list (segment * list Z)) : list Z := flat_map (fun x => seg_addrs (fst x) (snd x)) l.
Definition seg_total (l : list (segment * list Z)) : Z := Z.of_nat (length (addrs_of l)).

(** A pinned region with its pages. *)
Record region_pinned (r : region) (l : list (segment * list Z)) : Prop := {
  rp_segments : segments r = fst <$> l;
  rp_pinned : Forall (fun x => pinned (fst x) (snd x)) l;
  rp_total : total_length r = seg_total l;
  rp_apart : NoDup (addrs_of l)
}.
Definition region_bytes (m : mem) (l : list (segment * list Z)) : list Z := m <$> addrs_of l.

(** ** Filling *)

Lemma chunk_in_page p po n : 0 <= po -> 0 <= n -> po + n <= PAGE_SIZE ->
  take (Z.to_nat n) (drop (Z.to_nat po) (page_bytes p)) = span (p * PAGE_SIZE + po) (Z.to_nat n).
Proof.
  intros H1 H2 H3. unfold page_bytes. rewrite drop_take_span by lia. f_equal. lia.
Qed.
Lemma length_page p : length (page_bytes p) = Z.to_nat PAGE_SIZE.
Proof. apply length_span. Qed.

Lemma segment_fill_spec ps : forall po data n m, 0 <= po < PAGE_SIZE -> 0 <= n -> (0 < length ps)%nat ->
  po + n <= PAGE_SIZE * Z.of_nat (length ps) -> n <= Z.of_nat (length data) ->
  exists m', segment_fill_loop (Some <$> ps) po data n m = Some m' /\
    m' ≡ write m (take (Z.to_nat n) (drop (Z.to_nat po) (flat ps))) (take (Z.to_nat n) data).
Proof.
  induction ps as [|p ps IH]; intros po data n m Hpo Hn Hps Hfit Hd; [cbn in Hps; lia|].
  cbn [fmap list_fmap segment_fill_loop]. cbn [length] in Hfit. cbn [flat flat_map]. fold (flat ps).
  assert (Hchunk : forall k, 0 <= k -> po + k <= PAGE_SIZE -> k <= n ->
    store m (p * PAGE_SIZE + po) (take (Z.to_nat k) data) ≡
    write m (take (Z.to_nat k) (drop (Z.to_nat po) (page_bytes p))) (take (Z.to_nat k) data)).
  { intros k H1 H2 H3. rewrite store_write, chunk_in_page by lia. rewrite length_take, Nat.min_l by lia. done. }
  rewrite drop_app_le by (rewrite length_page; lia).
  destruct (Z.ltb_spec n (PAGE_SIZE - po)).
  - rewrite Z.sub_diag. cbn [Z.eqb]. eexists. split; [reflexivity|].
    rewrite take_app_le by (rewrite length_drop, length_page; lia). apply Hchunk; lia.
  - set (k := PAGE_SIZE - po). destruct (Z.eqb_spec (n - k) 0) as [Hz|Hz].
    + eexists. split; [reflexivity|]. replace n with k by lia.
      rewrite take_app_le by (rewrite length_drop, length_page; lia). apply Hchunk; lia.
    + assert (Hps' : (0 < length ps)%nat).
      { destruct ps; [|cbn; lia]. cbn in Hfit. change PAGE_SIZE with 4096 in *. lia. }
      destruct (IH 0 (drop (Z.to_nat k) data) (n - k)
        (store m (p * PAGE_SIZE + po) (take (Z.to_nat k) data))) as (m' & E & Hm);
        [change PAGE_SIZE with 4096; lia|lia|done|lia|rewrite length_drop; lia|].
      exists m'. split; [exact E|]. rewrite Hm, drop_0.
      replace (Z.to_nat n) with (Z.to_nat k + Z.to_nat (n - k))%nat by lia.
      rewrite take_app_add' by (rewrite length_drop, length_page; lia).
      rewrite <- (take_take_drop data). rewrite write_app by (rewrite length_drop, length_page, length_take; lia).
      apply write_ext. rewrite (Hchunk k) by lia.
      rewrite (take_ge (drop _ _)) by (rewrite length_drop, length_page; lia). done.
Qed.

Lemma page_index_div x : 0 <= x -> page_index_of x = x / PAGE_SIZE.
Proof. intros. unfold page_index_of. by rewrite Z.shiftr_div_pow2. Qed.
Lemma page_offset_mod x : page_offset_of x = x mod PAGE_SIZE.
Proof. unfold page_offset_of. apply (land_mask x 12). lia. Qed.
Lemma page_split x : 0 <= x -> x = PAGE_SIZE * page_index_of x + page_offset_of x /\
  0 <= page_offset_of x < PAGE_SIZE /\ 0 <= page_index_of x.
Proof.
  intros Hx. rewrite page_index_div, page_offset_mod by done. change PAGE_SIZE with 4096.
  pose proof (Z.div_mod x 4096). pose proof (Z.mod_pos_bound x 4096). pose proof (Z.div_pos x 4096). lia.
Qed.
Lemma drop_flat ps i : flat (drop i ps) = drop (i * Z.to_nat PAGE_SIZE) (flat ps).
Proof.
  revert ps. induction i as [|i IH]; intros ps; [done|]. destruct ps as [|p ps]; [by rewrite !drop_nil|].
  cbn [drop flat flat_map]. fold (flat ps). rewrite IH.
  replace (S i * Z.to_nat PAGE_SIZE)%nat with (length (page_bytes p) + i * Z.to_nat PAGE_SIZE)%nat
    by (rewrite length_page; lia). symmetry. apply drop_app_add.
Qed.
Lemma take_drop_seg sg ps off n : pinned sg ps -> 0 <= off -> 0 <= n -> off + n <= sg_length sg ->
  take (Z.to_nat n) (drop (Z.to_nat off) (seg_addrs sg ps)) =
  take (Z.to_nat n) (drop (Z.to_nat (off + first_page_offset sg)) (flat ps)).
Proof.
  intros [_ Ho Hl Hf] H1 H2 H3. unfold seg_addrs.
  replace (Z.to_nat (sg_length sg)) with (Z.to_nat off + Z.to_nat (sg_length sg - off))%nat by lia.
  rewrite <- take_drop_commute, take_take, drop_drop. f_equal; [lia|]. f_equal. lia.
Qed.

Lemma segment_pages_spec sg ps off data n m : pinned sg ps -> 0 <= off < sg_length sg -> 0 <= n ->
  off + n <= sg_length sg -> n <= Z.of_nat (length data) ->
  exists m', omx__user_region_segment_fill_pages sg off data n m = Some m' /\
    m' ≡ write m (take (Z.to_nat n) (drop (Z.to_nat off) (seg_addrs sg ps))) (take (Z.to_nat n) data).
Proof.
  intros Hp H1 H2 H3 H4. pose proof Hp as [Hpg Ho Hl Hf]. unfold omx__user_region_segment_fill_pages.
  destruct (page_split (off + first_page_offset sg)) as (Hx & Hpo & Hpi); [lia|].
  set (i := page_index_of (off + first_page_offset sg)) in *.
  set (po := page_offset_of (off + first_page_offset sg)) in *.
  rewrite Hpg, <- fmap_drop. change PAGE_SIZE with 4096 in *.
  assert (Hlen : Z.of_nat (length (drop (Z.to_nat i) ps)) = Z.of_nat (length ps) - i) by (rewrite length_drop; lia).
  destruct (segment_fill_spec (drop (Z.to_nat i) ps) po data n m) as (m' & E & Hm);
    change PAGE_SIZE with 4096; try lia.
  exists m'. split; [exact E|]. rewrite Hm. rewrite (take_drop_seg sg ps off n Hp) by lia.
  rewrite drop_flat, drop_drop. change (Z.to_nat PAGE_SIZE) with (Z.to_nat 4096).
  replace (Z.to_nat i * Z.to_nat 4096 + Z.to_nat po)%nat with (Z.to_nat (off + first_page_offset sg)) by lia. done.
Qed.

Lemma fill_loop_spec l : Forall (fun x => pinned (fst x) (snd x)) l -> forall off data n m,
  0 <= off -> 0 <= n -> off + n <= seg_total l -> n <= Z.of_nat (length data) ->
  exists m', fill_loop (fst <$> l) off data n m = Some m' /\
    m' ≡ write m (take (Z.to_nat n) (drop (Z.to_nat off) (addrs_of l))) (take (Z.to_nat n) data).
Proof.
  unfold seg_total. induction 1 as [|[sg ps] l Hp Hl IH]; intros off data n m H1 H2 H3 H4.
  - cbn in H3. replace n with 0 by lia. by exists m.
  - cbn [fst snd] in Hp. cbn [fmap list_fmap fst fill_loop addrs_of flat_map snd] in *. fold (addrs_of l) in *.
    pose proof (length_seg_addrs sg ps Hp) as Hlen. pose proof (pn_length _ _ Hp) as Hpos.
    rewrite length_app, Hlen in H3.
    destruct (Z.leb_spec (sg_length sg) off).
    + rewrite drop_app_ge by lia. rewrite Hlen.
      replace (Z.to_nat off - Z.to_nat (sg_length sg))%nat with (Z.to_nat (off - sg_length sg)) by lia.
      apply IH; lia.
    + rewrite drop_app_le by lia. destruct (Z.ltb_spec (sg_length sg) (off + n)).
      * set (k := sg_length sg - off).
        destruct (segment_pages_spec sg ps off data k m Hp) as (m1 & -> & Hm1); [lia..|].
        cbn [mbind option_bind].
        destruct (IH 0 (drop (Z.to_nat k) data) (n - k) m1) as (m' & E & Hm);
          [lia|lia|lia|rewrite length_drop; lia|].
        exists m'. split; [exact E|]. rewrite Hm, drop_0.
        replace (Z.to_nat n) with (Z.to_nat k + Z.to_nat (n - k))%nat by lia.
        rewrite take_app_add' by (rewrite length_drop; lia). rewrite <- (take_take_drop data).
        rewrite write_app by (rewrite length_drop, length_take; lia). apply write_ext. rewrite Hm1.
        by rewrite take_ge by (rewrite length_drop; lia).
      * rewrite take_app_le by (rewrite length_drop; lia). apply segment_pages_spec; done || lia.
Qed.

Lemma splice_read (m : mem) (addrs data : list Z) off n : NoDup addrs ->
  (off + n <= length addrs)%nat -> length data = n ->
  write m (take n (drop off addrs)) data <$> addrs =
  take off (m <$> addrs) ++ data ++ drop (off + n) (m <$> addrs).
Proof.
  intros Hnd Hle Hd. rewrite <- fmap_take, <- fmap_drop.
  assert (Hs : addrs = take off addrs ++ take n (drop off addrs) ++ drop (off + n) addrs).
  { by rewrite <- drop_drop, take_drop, take_drop. }
  pose proof Hnd as Hnd'. rewrite Hs in Hnd'. apply NoDup_app in Hnd' as (_ & H1 & Hnd').
  apply NoDup_app in Hnd' as (Hn2 & H2 & _).
  rewrite Hs at 2. rewrite !fmap_app. f_equal; [|f_equal].
  - apply read_frame. intros x Hx. apply write_out. intros Hx'. apply (H1 x Hx). apply elem_of_app. by left.
  - apply read_write; [done|]. rewrite length_take, length_drop. lia.
  - apply read_frame. intros x Hx. apply write_out. intros Hx'. by apply (H2 x).
Qed.

Lemma fill_pages_spec r l offset data length m : region_pinned r l -> 0 <= offset -> 0 <= length ->
  length <= Z.of_nat (List.length data) ->
  if total_length r <? offset + length
  then omx_user_region_fill_pages r offset data length m = Some (EINVAL, m)
  else exists m', omx_user_region_fill_pages r offset data length m = Some (0, m') /\
    region_bytes m' l = take (Z.to_nat offset) (region_bytes m l) ++ take (Z.to_nat length) data
                        ++ drop (Z.to_nat (offset + length)) (region_bytes m l) /\
    (forall x, x ∉ addrs_of l -> m' x = m x).
Proof.
  intros [Hs Hp Ht Hnd] H1 H2 H3. unfold omx_user_region_fill_pages.
  destruct (Z.ltb_spec (total_length r) (offset + length)); [done|]. rewrite Ht in *. unfold seg_total in *.
  destruct (fill_loop_spec l Hp offset data length m) as (m' & E & Hm); [done|done|done|done|].
  exists m'. rewrite Hs, E. split; [done|]. split.
  - unfold region_bytes. rewrite (read_frame _ _ _ (fun x _ => Hm x)), splice_read; [|done|lia|rewrite length_take; lia].
    do 3 f_equal. lia.
  - intros x Hx. rewrite (Hm x). apply write_out. intros Hx'. apply Hx.
    apply (subseteq_drop (Z.to_nat offset)). by eapply subseteq_take.
Qed.


(** Two segments of four and three bytes; the first one crosses a page. *)
Definition two_segments : list (segment * list Z) :=
  [(Segment 0 4094 4 2 2 false [Some 5; Some 7], [5; 7]); (Segment 40960 1 3 1 1 false [Some 9], [9])].
Definition two_region : region := Region 0 false 1 0 (fst <$> two_segments) 7 PINNED 7.
Lemma two_pinned : region_pinned two_region two_segments.
Proof.
  split; [done| |by vm_compute|apply (bool_decide_unpack _); vm_compute; exact I].
  repeat constructor; by vm_compute.
Qed.
Definition two_mem : mem := fun x => x mod 256.


(** ** Reading by chunks *)

Lemma get_page_pinned sg ps i p : pinned sg ps -> 0 <= i -> ps !! Z.to_nat i = Some p -> get_page sg i = Some p.
Proof. intros [Hp _ _ _] Hi H. unfold get_page. by rewrite Hp, list_lookup_fmap, H. Qed.
Lemma page_exists (ps : list Z) page pageoff n : 0 <= page -> 0 <= pageoff -> 0 < n ->
  PAGE_SIZE * page + pageoff + n <= PAGE_SIZE * Z.of_nat (length ps) -> exists p, ps !! Z.to_nat page = Some p.
Proof.
  intros H1 H2 H3 H4. apply lookup_lt_is_Some. change PAGE_SIZE with 4096 in *. lia.
Qed.
(** The bytes of a chunk inside a page. *)
Lemma flat_chunk ps page pageoff n p : 0 <= page -> 0 <= pageoff -> 0 <= n -> pageoff + n <= PAGE_SIZE ->
  ps !! Z.to_nat page = Some p ->
  take (Z.to_nat n) (drop (Z.to_nat (PAGE_SIZE * page + pageoff)) (flat ps)) =
  span (p * PAGE_SIZE + pageoff) (Z.to_nat n).
Proof.
  intros H1 H2 H3 H4 Hp. change PAGE_SIZE with 4096 in *.
  replace (Z.to_nat (4096 * page + pageoff)) with (Z.to_nat page * Z.to_nat PAGE_SIZE + Z.to_nat pageoff)%nat
    by (change PAGE_SIZE with 4096; lia).
  rewrite <- drop_drop, <- drop_flat. rewrite (drop_S _ _ _ Hp). cbn [flat flat_map].
  rewrite drop_app_le by (rewrite length_page; change PAGE_SIZE with 4096; lia).
  rewrite take_app_le by (rewrite length_drop, length_page; change PAGE_SIZE with 4096; lia).
  apply chunk_in_page; change PAGE_SIZE with 4096; lia.
Qed.
(** A read splits after a chunk. *)
Lemma read_split (m : mem) (A : list Z) x n k : 0 <= k -> k <= n -> 0 <= x ->
  m <$> take (Z.to_nat n) (drop (Z.to_nat x) A) =
  (m <$> take (Z.to_nat k) (drop (Z.to_nat x) A)) ++
  (m <$> take (Z.to_nat (n - k)) (drop (Z.to_nat (x + k)) A)).
Proof.
  intros H1 H2 H3. rewrite <- fmap_app. f_equal.
  replace (Z.to_nat n) with (Z.to_nat k + Z.to_nat (n - k))%nat by lia.
  rewrite <- (take_take_drop (drop (Z.to_nat x) A)). rewrite drop_drop. do 3 f_equal. lia.
Qed.

Lemma contig_copy_spec sg ps m fuel : pinned sg ps -> forall page pageoff n buffer,
  0 <= page -> 0 <= pageoff < PAGE_SIZE -> 0 <= n <= Z.of_nat fuel ->
  PAGE_SIZE * page + pageoff + n <= PAGE_SIZE * Z.of_nat (length ps) ->
  exists page' pageoff', contig_copy_loop fuel sg m page pageoff n buffer =
    Some (buffer ++ (m <$> take (Z.to_nat n) (drop (Z.to_nat (PAGE_SIZE * page + pageoff)) (flat ps))), page', pageoff') /\
    0 <= page' /\ 0 <= pageoff' < PAGE_SIZE /\ PAGE_SIZE * page' + pageoff' = PAGE_SIZE * page + pageoff + n.
Proof.
  intros Hp. assert (Hz : forall page pageoff buffer, 0 <= page -> 0 <= pageoff < PAGE_SIZE ->
    exists page' pageoff', Some (buffer, page, pageoff) =
    Some (buffer ++ (m <$> take (Z.to_nat 0) (drop (Z.to_nat (PAGE_SIZE * page + pageoff)) (flat ps))), page', pageoff') /\
    0 <= page' /\ 0 <= pageoff' < PAGE_SIZE /\ PAGE_SIZE * page' + pageoff' = PAGE_SIZE * page + pageoff + 0).
  { intros page pageoff buffer H1 H2. exists page, pageoff. rewrite take_0. cbn. rewrite app_nil_r.
    repeat split; lia. }
  induction fuel as [|fuel IH]; intros page pageoff n buffer H1 H2 H3 H4; cbn [contig_copy_loop];
    destruct (Z.eqb_spec n 0) as [->|Hn]; try (by apply Hz); [lia|].
  set (k := if PAGE_SIZE - pageoff <? n then PAGE_SIZE - pageoff else n).
  assert (Hk : 0 < k <= n /\ pageoff + k <= PAGE_SIZE) by (unfold k; zcases; lia).
  destruct (page_exists ps page pageoff n) as [p Hpg]; [lia..|].
  rewrite (get_page_pinned sg ps page p Hp H1 Hpg). cbn [mbind option_bind].
  rewrite load_span, <- (flat_chunk ps page pageoff k p) by (done || lia).
  assert (Hx : 0 <= PAGE_SIZE * page + pageoff) by (change PAGE_SIZE with 4096; lia).
  rewrite (read_split m (flat ps) _ n k) by lia.
  destruct (Z.eqb_spec (pageoff + k) PAGE_SIZE) as [He|He].
  - edestruct (IH (page + 1) 0 (n - k)) as (page' & pageoff' & -> & H); [change PAGE_SIZE with 4096 in *; lia..|].
    exists page', pageoff'. split; [|lia]. rewrite <- app_assoc.
    by replace (PAGE_SIZE * (page + 1) + 0) with (PAGE_SIZE * page + pageoff + k) by lia.
  - edestruct (IH page (pageoff + k) (n - k)) as (page' & pageoff' & -> & H); [change PAGE_SIZE with 4096 in *; lia..|].
    exists page', pageoff'. split; [|lia]. rewrite <- app_assoc.
    by replace (PAGE_SIZE * page + (pageoff + k)) with (PAGE_SIZE * page + pageoff + k) by lia.
Qed.

(** Where the vectorial cache stands: at byte [segoff] of segment [i]. *)
Definition vect_at (l : list (segment * list Z)) (i : nat) (segoff page pageoff : Z) : Prop :=
  exists sg ps, l !! i = Some (sg, ps) /\ 0 <= segoff < sg_length sg /\ 0 <= page /\
    0 <= pageoff < PAGE_SIZE /\ PAGE_SIZE * page + pageoff = segoff + first_page_offset sg.
(** The addresses that are still to be read there. *)
Definition rest_of (l : list (segment * list Z)) (i : nat) (segoff : Z) : list Z :=
  drop (Z.to_nat segoff) (addrs_of (drop i l)).

Lemma rest_seg l i sg ps segoff k : l !! i = Some (sg, ps) -> pinned sg ps -> 0 <= segoff -> 0 <= k ->
  segoff + k <= sg_length sg -> take (Z.to_nat k) (rest_of l i segoff) =
  take (Z.to_nat k) (drop (Z.to_nat (segoff + first_page_offset sg)) (flat ps)).
Proof.
  intros Hi Hp H1 H2 H3. unfold rest_of. rewrite (drop_S _ _ _ Hi). cbn [addrs_of flat_map fst snd].
  pose proof (length_seg_addrs sg ps Hp). rewrite drop_app_le by lia.
  rewrite take_app_le by (rewrite length_drop; lia). by apply take_drop_seg.
Qed.
Lemma rest_same l i segoff k : 0 <= segoff -> 0 <= k -> drop (Z.to_nat k) (rest_of l i segoff) = rest_of l i (segoff + k).
Proof. intros H1 H2. unfold rest_of. rewrite drop_drop. f_equal. lia. Qed.
Lemma rest_next l i sg ps segoff : l !! i = Some (sg, ps) -> pinned sg ps -> 0 <= segoff <= sg_length sg ->
  drop (Z.to_nat (sg_length sg - segoff)) (rest_of l i segoff) = rest_of l (S i) 0.
Proof.
  intros Hi Hp H1. rewrite rest_same by lia. unfold rest_of. rewrite (drop_S _ _ _ Hi). cbn [addrs_of flat_map fst snd].
  rewrite drop_app_length' by (rewrite (length_seg_addrs sg ps Hp); lia). by rewrite drop_0.
Qed.
Lemma rest_nonempty l i : (0 < length (rest_of l i 0))%nat -> exists sg ps, l !! i = Some (sg, ps).
Proof.
  unfold rest_of. rewrite drop_0. intros H. destruct (l !! i) as [[sg ps]|] eqn:Hi; [by eexists _, _|].
  apply lookup_ge_None in Hi. rewrite drop_ge in H by done. cbn in H. lia.
Qed.

Section vect.
Context (r : region) (l : list (segment * list Z)) (m : mem) (Hr : region_pinned r l).

Lemma seg_lookup i sg ps : l !! i = Some (sg, ps) -> segments r !! i = Some sg /\ pinned sg ps.
Proof.
  intros Hi. rewrite (rp_segments _ _ Hr), list_lookup_fmap, Hi. split; [done|].
  exact (proj1 (Forall_lookup _ _) (rp_pinned _ _ Hr) _ _ Hi).
Qed.
Lemma vect_at_rest i segoff page pageoff : vect_at l i segoff page pageoff ->
  forall sg ps, l !! i = Some (sg, ps) -> sg_length sg - segoff <= Z.of_nat (length (rest_of l i segoff)).
Proof.
  intros (sg' & ps' & Hi' & H1 & _) sg ps Hi. rewrite Hi in Hi'. injection Hi' as <- <-.
  destruct (seg_lookup i sg ps Hi) as [_ Hp]. unfold rest_of. rewrite (drop_S _ _ _ Hi).
  cbn [addrs_of flat_map fst snd]. pose proof (length_seg_addrs sg ps Hp). rewrite length_drop, length_app. lia.
Qed.
Lemma vect_start i : (0 < length (rest_of l i 0))%nat -> exists sg ps, l !! i = Some (sg, ps) /\
  vect_at l i 0 0 (first_page_offset sg).
Proof.
  intros H. destruct (rest_nonempty l i H) as (sg & ps & Hi). destruct (seg_lookup i sg ps Hi) as [_ Hp].
  exists sg, ps. split; [done|]. exists sg, ps. pose proof (pn_length _ _ Hp). pose proof (pn_offset _ _ Hp).
  repeat split; done || lia.
Qed.

(** A round: the chunk, the bytes read, and what follows. *)
Lemma vect_round fuel i segoff page pageoff n buffer : vect_at l i segoff page pageoff -> 0 < n ->
  n <= Z.of_nat (length (rest_of l i segoff)) -> exists k, 0 < k <= n /\
  let buffer' := buffer ++ (m <$> take (Z.to_nat k) (rest_of l i segoff)) in
  (exists i' segoff' page' pageoff', vect_at l i' segoff' page' pageoff' /\
     rest_of l i' segoff' = drop (Z.to_nat k) (rest_of l i segoff) /\
     vect_copy_loop (S fuel) r m i segoff page pageoff n buffer =
     vect_copy_loop fuel r m i' segoff' page' pageoff' (n - k) buffer') \/
  (k = Z.of_nat (length (rest_of l i segoff)) /\
     vect_copy_loop (S fuel) r m i segoff page pageoff n buffer = None).
Proof.
  intros (sg & ps & Hi & H1 & H2 & H3 & H4) Hn Hlen. destruct (seg_lookup i sg ps Hi) as [Hs Hp].
  cbn [vect_copy_loop]. rewrite (proj2 (Z.eqb_neq _ _)), Hs by lia. cbn [mbind option_bind].
  set (k0 := if PAGE_SIZE - pageoff <? n then PAGE_SIZE - pageoff else n).
  assert (Hk0 : 0 < k0 <= n /\ pageoff + k0 <= PAGE_SIZE) by (unfold k0; zcases; lia). clearbody k0.
  set (k := if sg_length sg - segoff <? k0 then sg_length sg - segoff else k0).
  assert (Hk : 0 < k <= n /\ pageoff + k <= PAGE_SIZE /\ segoff + k <= sg_length sg)
    by (unfold k; zcases; lia).
  pose proof (pn_fit _ _ Hp). destruct (page_exists ps page pageoff k) as [p Hpg]; [lia..|].
  rewrite (get_page_pinned sg ps page p Hp H2 Hpg). cbn [mbind option_bind].
  rewrite load_span, <- (flat_chunk ps page pageoff k p) by (done || lia).
  rewrite H4. rewrite <- (rest_seg l i sg ps segoff k Hi Hp) by lia.
  exists k. split; [lia|]. cbn zeta. destruct (Z.eqb_spec (segoff + k) (sg_length sg)) as [He|He].
  - assert (Hnext : rest_of l (S i) 0 = drop (Z.to_nat k) (rest_of l i segoff)).
    { rewrite <- (rest_next l i sg ps segoff Hi Hp) by lia. do 2 f_equal. lia. }
    destruct (l !! S i) as [[sg' ps']|] eqn:Hi'.
    + left. destruct (seg_lookup _ _ _ Hi') as [-> Hp']. cbn [mbind option_bind].
      exists (S i), 0, 0, (first_page_offset sg'). split; [|by split].
      exists sg', ps'. pose proof (pn_length _ _ Hp'). pose proof (pn_offset _ _ Hp'). repeat split; done || lia.
    + right. rewrite (rp_segments _ _ Hr), list_lookup_fmap, Hi'. split; [|done].
      assert (Hnil : rest_of l (S i) 0 = []).
      { unfold rest_of. apply lookup_ge_None in Hi'. by rewrite (drop_ge l) by done. }
      rewrite Hnil in Hnext. apply (f_equal length) in Hnext. rewrite length_drop in Hnext. cbn in Hnext. lia.
  - left. destruct (Z.eqb_spec (pageoff + k) PAGE_SIZE).
    + exists i, (segoff + k), (page + 1), 0. split; [|split; [symmetry; apply rest_same; lia|done]].
      exists sg, ps. change PAGE_SIZE with 4096 in *. repeat split; done || lia.
    + exists i, (segoff + k), page, (pageoff + k). split; [|split; [symmetry; apply rest_same; lia|done]].
      exists sg, ps. repeat split; done || lia.
Qed.

Lemma vect_copy_spec fuel : forall i segoff page pageoff n buffer, vect_at l i segoff page pageoff ->
  0 <= n <= Z.of_nat fuel -> n < Z.of_nat (length (rest_of l i segoff)) ->
  exists i' segoff' page' pageoff', vect_copy_loop fuel r m i segoff page pageoff n buffer =
    Some (buffer ++ (m <$> take (Z.to_nat n) (rest_of l i segoff)), i', segoff', page', pageoff') /\
    vect_at l i' segoff' page' pageoff' /\ rest_of l i' segoff' = drop (Z.to_nat n) (rest_of l i segoff).
Proof.
  induction fuel as [|fuel IH]; intros i segoff page pageoff n buffer Hat Hn Hlt;
    (destruct (Z.eqb_spec n 0) as [->|Hnz];
     [exists i, segoff, page, pageoff; cbn; by rewrite app_nil_r|]); [lia|].
  destruct (vect_round fuel i segoff page pageoff n buffer Hat) as (k & Hk & [H|[H _]]); [lia|lia| |lia].
  destruct H as (i1 & so1 & pg1 & po1 & Hat1 & Hrest & ->).
  destruct (IH i1 so1 pg1 po1 (n - k) (buffer ++ (m <$> take (Z.to_nat k) (rest_of l i segoff))) Hat1)
    as (i' & so' & pg' & po' & -> & Hat' & Hrest'); [lia|rewrite Hrest, length_drop; lia|].
  exists i', so', pg', po'. rewrite Hrest', Hrest, drop_drop. split; [|split; [done|f_equal; lia]].
  rewrite <- app_assoc, <- fmap_app. do 7 f_equal.
  replace (Z.to_nat n) with (Z.to_nat k + Z.to_nat (n - k))%nat by lia. apply take_take_drop.
Qed.
(** Reading to the end of the last segment runs over the array. *)
Lemma vect_overrun fuel : forall i segoff page pageoff n buffer, vect_at l i segoff page pageoff ->
  0 < n -> n = Z.of_nat (length (rest_of l i segoff)) ->
  vect_copy_loop fuel r m i segoff page pageoff n buffer = None.
Proof.
  induction fuel as [|fuel IH]; intros i segoff page pageoff n buffer Hat Hn Hlen.
  { cbn [vect_copy_loop]. by rewrite (proj2 (Z.eqb_neq _ _)) by lia. }
  destruct (vect_round fuel i segoff page pageoff n buffer Hat) as (k & Hk & [H|[_ H]]); [lia|lia| |done].
  destruct H as (i1 & so1 & pg1 & po1 & Hat1 & Hrest & ->). 
  assert (Hlen1 : n - k = Z.of_nat (length (rest_of l i1 so1))) by (rewrite Hrest, length_drop; lia).
  apply IH; [done| |done]. destruct Hat1 as (sg & ps & Hi & H1 & H2).
  pose proof (vect_at_rest i1 so1 pg1 po1 ltac:(by exists sg, ps) sg ps Hi). lia.
Qed.
End vect.

(** The cache stands at byte [pos] of the region. *)
Definition cache_at (l : list (segment * list Z)) (c : offset_cache) (pos : Z) : Prop :=
  0 <= pos /\ oc_vect c = (1 <? Z.of_nat (length l)) /\
  if oc_vect c then vect_at l (oc_seg c) (oc_segoff c) (oc_page c) (oc_pageoff c) /\
    rest_of l (oc_seg c) (oc_segoff c) = drop (Z.to_nat pos) (addrs_of l)
  else exists sg ps, l = [(sg, ps)] /\ oc_seg c = 0%nat /\ 0 <= oc_page c /\ 0 <= oc_pageoff c < PAGE_SIZE /\
    PAGE_SIZE * oc_page c + oc_pageoff c = pos + first_page_offset sg.

Lemma copy_spec r l m c pos n : region_pinned r l -> cache_at l c pos -> 0 <= n ->
  pos + n <= total_length r -> (oc_vect c = true -> pos + n < total_length r) ->
  exists c', copy_pages_to_buf r c m n =
    Some (take (Z.to_nat n) (drop (Z.to_nat pos) (region_bytes m l)), c') /\ cache_at l c' (pos + n).
Proof.
  intros Hr (Hpos & Hv & Hat) Hn Hle Hlt. rewrite (rp_total _ _ Hr) in *. unfold seg_total in *.
  unfold copy_pages_to_buf, region_bytes. rewrite <- fmap_drop, <- fmap_take. destruct (oc_vect c) eqn:Hvc.
  - destruct Hat as [Hat Hrest]. specialize (Hlt eq_refl).
    destruct (vect_copy_spec r l m Hr (Z.to_nat n) (oc_seg c) (oc_segoff c) (oc_page c) (oc_pageoff c) n [] Hat)
      as (i' & so' & pg' & po' & E & Hat' & Hrest'); [lia|rewrite Hrest, length_drop; lia|].
    unfold omx_user_region_offset_cache_vect_copy_callback. rewrite E. cbn [mbind option_bind app].
    eexists. split; [by rewrite Hrest|]. split; [lia|]. cbn [oc_vect oc_seg oc_segoff oc_page oc_pageoff].
    rewrite Hvc. split; [done|]. split; [done|]. rewrite Hrest', Hrest, drop_drop. f_equal. lia.
  - destruct Hat as (sg & ps & -> & Hs & H1 & H2 & H3). cbn [addrs_of flat_map fst snd] in *. rewrite app_nil_r in *.
    pose proof (proj1 (Forall_cons _ _ _) (rp_pinned _ _ Hr)) as [Hp _]. cbn [fst snd] in Hp.
    pose proof (length_seg_addrs sg ps Hp) as Hl. pose proof Hp as [_ Ho Hsl Hf].
    destruct (contig_copy_spec sg ps m (Z.to_nat n) Hp (oc_page c) (oc_pageoff c) n [])
      as (pg' & po' & E & H4 & H5 & H6); [lia..|].
    unfold omx_user_region_offset_cache_contig_copy_callback. rewrite (rp_segments _ _ Hr), Hs. cbn [fmap list_fmap fst].
    rewrite list_lookup_singleton. cbn [mbind option_bind]. rewrite E. cbn [mbind option_bind app].
    eexists. split; [|split; [lia|]].
    + rewrite H3, take_drop_seg by (done || lia). reflexivity.
    + cbn [oc_vect oc_seg oc_segoff oc_page oc_pageoff]. rewrite Hvc. split; [done|].
      exists sg, ps. repeat split; done || lia.
Qed.

Lemma find_segment_spec l : Forall (fun x => pinned (fst x) (snd x)) l -> forall offset j,
  0 <= offset < seg_total l -> exists i sg ps segoff, find_segment (fst <$> l) offset j = Some ((j + i)%nat, sg, segoff) /\
    l !! i = Some (sg, ps) /\ 0 <= segoff < sg_length sg /\
    rest_of l i segoff = drop (Z.to_nat offset) (addrs_of l).
Proof.
  unfold seg_total. induction 1 as [|[sg ps] l Hp Hl IH]; intros offset j Ho; [cbn in Ho; lia|].
  cbn [fst snd] in Hp. cbn [fmap list_fmap fst find_segment addrs_of flat_map snd] in *. fold (addrs_of l) in *.
  pose proof (length_seg_addrs sg ps Hp) as Hlen. pose proof (pn_length _ _ Hp). rewrite length_app, Hlen in Ho.
  destruct (Z.leb_spec (sg_length sg) offset).
  - destruct (IH (offset - sg_length sg) (S j)) as (i & sg' & ps' & so & E & Hi & Hso & Hrest); [lia|].
    exists (S i), sg', ps', so. rewrite E. split; [by rewrite Nat.add_succ_r|]. split; [done|]. split; [done|].
    unfold rest_of in *. cbn [drop]. rewrite Hrest. rewrite drop_app_ge by lia. f_equal. lia.
  - exists 0%nat, sg, ps, offset. split; [by rewrite Nat.add_0_r|]. split; [done|]. split; [lia|].
    unfold rest_of. cbn [drop addrs_of flat_map fst snd]. done.
Qed.
Lemma cache_init_spec r l offset n : region_pinned r l -> l <> [] -> 0 <= offset -> 0 <= n ->
  offset + n <= total_length r -> (1 < Z.of_nat (length l) -> offset < total_length r) ->
  exists c, omx_user_region_offset_cache_init r offset n = Some (inr c) /\ cache_at l c offset.
Proof.
  intros Hr Hl Ho Hn Hle Hlt. unfold omx_user_region_offset_cache_init.
  rewrite (rp_segments _ _ Hr), length_fmap. rewrite bool_decide_false by (by destruct l).
  cbn [orb]. rewrite (proj2 (Z.ltb_ge _ _)) by lia. cbn zeta.
  destruct (Z.ltb_spec 1 (Z.of_nat (length l))).
  - rewrite (rp_total _ _ Hr) in Hlt. destruct (find_segment_spec l (rp_pinned _ _ Hr) offset 0) as (i & sg & ps & so & E & Hi & Hso & Hrest); [lia|].
    rewrite E. cbn [mbind option_bind]. eexists. split; [reflexivity|]. split; [done|]. cbn [oc_vect oc_seg oc_segoff oc_page oc_pageoff].
    rewrite (proj2 (Z.ltb_lt _ _)) by done. split; [done|]. split; [|exact Hrest].
    destruct (seg_lookup r l Hr i sg ps Hi) as [_ Hp]. pose proof (pn_offset _ _ Hp).
    destruct (page_split (so + first_page_offset sg)) as (Hx & Hx1 & Hx2); [lia|].
    exists sg, ps. repeat split; done || lia.
  - destruct l as [|[sg ps] [|? ?]]; [done| |cbn [length] in *; lia]. cbn [fmap list_fmap fst head mbind option_bind].
    eexists. split; [reflexivity|]. split; [done|]. cbn [oc_vect oc_seg oc_segoff oc_page oc_pageoff]. split; [done|].
    pose proof (proj1 (Forall_cons _ _ _) (rp_pinned _ _ Hr)) as [Hp _]. cbn [fst snd] in Hp. pose proof (pn_offset _ _ Hp).
    destruct (page_split (offset + first_page_offset sg)) as (Hx & Hx1 & Hx2); [lia|].
    exists sg, ps. repeat split; done || lia.
Qed.

(** Consecutive copies through one cache. *)
Fixpoint copy_chunks (r : region) (c : offset_cache) (m : mem) (lens : list Z) : option (list Z) :=
  match lens with
  | [] => Some []
  | n :: lens => '(bs, c) ← copy_pages_to_buf r c m n; rest ← copy_chunks r c m lens; Some (bs ++ rest)
  end.
Definition sum (lens : list Z) : Z := foldr Z.add 0 lens.
Lemma sum_nonneg lens : Forall (Z.le 0) lens -> 0 <= sum lens.
Proof. induction 1 as [|x l Hx _ IH]; [done|]. change (sum (x :: l)) with (x + sum l). lia. Qed.
Lemma copy_chunks_spec r l m lens : region_pinned r l -> Forall (Z.le 0) lens -> forall c pos,
  cache_at l c pos -> pos + sum lens <= total_length r ->
  (1 < Z.of_nat (length l) -> pos + sum lens < total_length r) ->
  copy_chunks r c m lens = Some (take (Z.to_nat (sum lens)) (drop (Z.to_nat pos) (region_bytes m l))).
Proof.
  intros Hr. induction 1 as [|n lens Hn Hlens IH]; intros c pos Hc Hle Hlt; [done|].
  pose proof (sum_nonneg _ Hlens) as Hs. cbn [sum foldr copy_chunks] in *. fold (sum lens) in *.
  destruct (copy_spec r l m c pos n Hr Hc) as (c' & E & Hc'); [done|lia| |].
  { intros Hv. destruct Hc as (_ & Hv' & _). rewrite Hv in Hv'. symmetry in Hv'. apply Z.ltb_lt in Hv'. lia. }
  rewrite E. cbn [mbind option_bind]. rewrite (IH c' (pos + n)) by (done || lia). cbn [mbind option_bind]. f_equal.
  destruct Hc as [Hpos _].
  replace (Z.to_nat (n + sum lens)) with (Z.to_nat n + Z.to_nat (sum lens))%nat by lia.
  rewrite <- (take_take_drop (drop (Z.to_nat pos) _)), drop_drop. do 3 f_equal. lia.
Qed.

(** Reading a region by chunks: from the offset where the cache is
    initialised, consecutive copies of any sizes return the consecutive bytes
    of the region, through page and segment boundaries.  The end of a region
    of several segments is excluded. *)
Lemma region_chunks_exact r l m offset lens : region_pinned r l -> l <> [] -> 0 <= offset ->
  Forall (Z.le 0) lens -> offset + sum lens <= total_length r ->
  (1 < Z.of_nat (length l) -> offset + sum lens < total_length r) ->
  exists c, omx_user_region_offset_cache_init r offset (sum lens) = Some (inr c) /\
    copy_chunks r c m lens = Some (take (Z.to_nat (sum lens)) (drop (Z.to_nat offset) (region_bytes m l))).
Proof.
  intros Hr Hl Ho Hlens Hle Hlt. pose proof (sum_nonneg _ Hlens).
  destruct (cache_init_spec r l offset (sum lens) Hr Hl) as (c & E & Hc); [lia..|].
  exists c. split; [exact E|]. by apply copy_chunks_spec.
Qed.

Lemma region_chunks_exact_witness : exists c,
  omx_user_region_offset_cache_init two_region 1 5 = Some (inr c) /\
  copy_chunks two_region c two_mem [2; 0; 3] = Some [255; 0; 1; 1; 2].
Proof.
  destruct (region_chunks_exact two_region two_segments two_mem 1 [2; 0; 3] two_pinned) as (c & E & Hc);
    [done|lia|repeat constructor; lia|vm_compute; discriminate|by vm_compute|].
  exists c. split; [exact E|]. rewrite Hc. by vm_compute.
Defined.

(** Reading the last bytes of a region of several segments leaves the
    array of segments: the loop moves to the segment behind the last one and
    reads its length and its pages before it notices that nothing remains. *)
Lemma vect_copy_overruns r l m offset n : region_pinned r l -> (1 < length l)%nat -> 0 <= offset -> 0 < n ->
  offset + n = total_length r ->
  exists c, omx_user_region_offset_cache_init r offset n = Some (inr c) /\ copy_pages_to_buf r c m n = None.
Proof.
  intros Hr Hl Ho Hn He. destruct (cache_init_spec r l offset n Hr) as (c & E & Hc); [intros ->; cbn in Hl; lia|lia..|].
  exists c. split; [exact E|]. destruct Hc as (_ & Hv & Hc). rewrite (proj2 (Z.ltb_lt _ _)) in Hv by lia.
  unfold copy_pages_to_buf. rewrite Hv in *. destruct Hc as [Hat Hrest].
  unfold omx_user_region_offset_cache_vect_copy_callback.
  rewrite (vect_overrun r l m Hr (Z.to_nat n) _ _ _ _ n [] Hat Hn); [done|].
  rewrite Hrest, length_drop. rewrite (rp_total _ _ Hr) in He. unfold seg_total in He. lia.
Qed.
Lemma vect_copy_overruns_witness : exists c,
  omx_user_region_offset_cache_init two_region 3 4 = Some (inr c) /\
  copy_pages_to_buf two_region c two_mem 4 = None.
Proof. apply (vect_copy_overruns two_region two_segments two_mem 3 4 two_pinned); [cbn|..]; lia || done. Defined.
End RegCopy.
