(* ===== verification/RegPin.v ===== *)
(** Pinning a user region: it ends, and the pages it stores are those of the
    user's buffers. *)
From S2P Require Import Prelude Segments Reg RegCopy.
Import Mem Reg RegCopy.

Module RegPin.

(** The kernel pins every page it is asked for, according to a page table. *)
Definition table_pages (pt : Z -> Z) (first n : Z) : list Z := (fun i => pt (first + i)) <$> seqZ 0 n.
Definition table_gup (pt : Z -> Z) (start n : Z) : Z * list Z := (n, table_pages pt (start / PAGE_SIZE) n).
(** The address a virtual address is mapped to. *)
Definition translate (pt : Z -> Z) (a : Z) : Z := pt (a / PAGE_SIZE) * PAGE_SIZE + a mod PAGE_SIZE.

Section pin.
Context (pt : Z -> Z) (min max : Z) (Hmin : 1 <= min).
#[local] Notation add_chunk := (omx__user_region_pin_add_chunk (table_gup pt) max).

(** ** Segments *)

(** A segment of the user: its address and its length; what
    [omx_user_region_add_segment] makes of it, with its [k] first pages. *)
Definition useg_ok (u : Z * Z) : Prop :=
  0 <= fst u /\ 0 < snd u /\ fst u mod PAGE_SIZE + snd u + PAGE_SIZE <= 2 ^ 64.
Definition off (u : Z * Z) : Z := fst u mod PAGE_SIZE.
Definition first (u : Z * Z) : Z := fst u / PAGE_SIZE.
Definition np (u : Z * Z) : Z := (off u + snd u + PAGE_SIZE - 1) / PAGE_SIZE.
Definition seg_at (u : Z * Z) (k : Z) : segment :=
  Segment (first u * PAGE_SIZE) (off u) (snd u) (np u) k (OMX_REGION_VMALLOC_NR_PAGES_THRESHOLD <? np u)
    ((Some <$> table_pages pt (first u) k) ++ replicate (Z.to_nat (np u - k)) None).

Lemma ldiff_page x : Z.ldiff x (PAGE_SIZE - 1) = x / PAGE_SIZE * PAGE_SIZE.
Proof.
  change (PAGE_SIZE - 1) with (Z.ones 12). change PAGE_SIZE with (2 ^ 12).
  by rewrite Z.ldiff_ones_r, Z.shiftr_div_pow2, Z.shiftl_mul_pow2 by lia.
Qed.
Lemma off_range u : 0 <= off u < PAGE_SIZE.
Proof. apply Z.mod_pos_bound. done. Qed.
Lemma np_bounds u : useg_ok u ->
  0 < np u /\ PAGE_SIZE * (np u - 1) < off u + snd u /\ off u + snd u <= PAGE_SIZE * np u.
Proof.
  intros (_ & Hl & _). pose proof (off_range u). unfold np. change PAGE_SIZE with 4096 in *.
  pose proof (Z.div_mod (off u + snd u + 4096 - 1) 4096). pose proof (Z.mod_pos_bound (off u + snd u + 4096 - 1) 4096).
  lia.
Qed.
Lemma add_segment_at u : useg_ok u -> omx_user_region_add_segment true (fst u) (snd u) = inr (seg_at u 0).
Proof.
  intros Hu. pose proof (np_bounds u Hu). pose proof (off_range u).
  unfold omx_user_region_add_segment, seg_at, PAGE_ALIGN. rewrite page_offset_mod, !ldiff_page.
  fold (off u) (first u). cbn [negb]. destruct Hu as (_ & Hl & Hu). fold (off u) in Hu.
  rewrite !u64_small; [|lia|rewrite u64_small by (change PAGE_SIZE with 4096 in *; lia);
    change PAGE_SIZE with 4096 in *; lia].
  assert (Hn : page_index_of ((off u + snd u + PAGE_SIZE - 1) / PAGE_SIZE * PAGE_SIZE) = np u).
  { fold (np u). rewrite page_index_div by (change PAGE_SIZE with 4096; lia). by rewrite Z.div_mul. }
  rewrite Hn, Z.sub_0_r. done.
Qed.

(** What the first [k] pages of a segment hold of it. *)
Definition pos (u : Z * Z) (k : Z) : Z := if k =? 0 then 0 else PAGE_SIZE * k - off u.

Lemma length_table first n : length (table_pages pt first n) = Z.to_nat n.
Proof. unfold table_pages. by rewrite length_fmap, length_seqZ. Qed.
Lemma table_app f n k : 0 <= n -> 0 <= k ->
  table_pages pt f (n + k) = table_pages pt f n ++ table_pages pt (f + n) k.
Proof.
  intros Hn Hk. unfold table_pages. rewrite seqZ_app, fmap_app by lia. f_equal.
  replace (seqZ (0 + n) k) with (Z.add n <$> seqZ 0 k) by (rewrite fmap_add_seqZ; f_equal; lia).
  rewrite <- list_fmap_compose. apply list_fmap_ext. intros i x _. cbn. f_equal. lia.
Qed.
Lemma store_pages_at u k n : 0 <= k -> 0 <= n -> k + n <= np u ->
  store_pages k (table_pages pt (first u + k) n) (pages (seg_at u k)) = pages (seg_at u (k + n)).
Proof.
  intros Hk Hn Hle. unfold store_pages, seg_at. cbn [pages].
  rewrite take_app_length' by (by rewrite length_fmap, length_table).
  rewrite <- drop_drop, drop_app_length' by (by rewrite length_fmap, length_table).
  rewrite length_table, drop_replicate, table_app, fmap_app, <- app_assoc by done. do 3 f_equal. lia.
Qed.

Lemma length_seg_at u k : 0 <= k <= np u -> Z.of_nat (length (pages (seg_at u k))) = np u.
Proof. intros Hk. cbn [seg_at pages]. rewrite length_app, length_fmap, length_table, length_replicate. lia. Qed.

(** ** One chunk *)

(** The pinner stands after [k] pages of segment [i], which is [u]. *)
Definition ps_ok (ps : pin_state) (i : nat) (u : Z * Z) (k : Z) : Prop :=
  ps_segment ps = i /\ 1 <= ps_next_chunk_pages ps /\
  match ps_pages ps with
  | None => k = 0
  | Some idx => idx = k /\ 0 < k /\ ps_aligned_vaddr ps = (first u + k) * PAGE_SIZE /\
      ps_remaining ps = snd u - pos u k /\ ps_chunk_offset ps = 0
  end.
Definition with_segments (r : region) (l : list segment) (registered : Z) : region :=
  r <| segments := l |> <| total_registered_length := registered |>.

Lemma next_pages_pos c : 1 <= c -> 1 <= (if c <? max then let n := Z.shiftl c 1 in if max <? n then max else n else c).
Proof. intros Hc. rewrite Z.shiftl_mul_pow2 by lia. cbn zeta. zcases; lia. Qed.

Lemma chunk_stored (r : region) (L : list segment) u R reg k n len : 0 <= k -> 0 <= n -> k + n <= np u ->
  r <| segments := L ++ seg_at u k :: R |> <| total_registered_length := reg |>
    <| segments ::= <[length L := (seg_at u k) <| pages ::= store_pages k (table_pages pt (first u + k) n) |>
                                            <| pinned_pages ::= fun x => x + n |>]> |>
    <| total_registered_length ::= fun x => x + len |> =
  with_segments r (L ++ seg_at u (k + n) :: R) (reg + len).
Proof.
  intros Hk Hn Hle. assert (Hs : (seg_at u k) <| pages ::= store_pages k (table_pages pt (first u + k) n) |>
    <| pinned_pages ::= fun x => x + n |> = seg_at u (k + n)).
  { transitivity (Segment (first u * PAGE_SIZE) (off u) (snd u) (np u) (k + n)
      (OMX_REGION_VMALLOC_NR_PAGES_THRESHOLD <? np u)
      (store_pages k (table_pages pt (first u + k) n) (pages (seg_at u k)))); [reflexivity|].
    rewrite store_pages_at by done. reflexivity. }
  rewrite Hs. transitivity (with_segments r (<[length L := seg_at u (k + n)]> (L ++ seg_at u k :: R)) (reg + len));
    [by destruct r|]. by rewrite insert_app_r_alt, Nat.sub_diag.
Qed.

Lemma add_chunk_spec r L u R reg k ps : useg_ok u -> 0 <= k < np u -> ps_ok ps (length L) u k ->
  exists k' len ps', add_chunk (with_segments r (L ++ seg_at u k :: R) reg) ps =
    Some (with_segments r (L ++ seg_at u k' :: R) (reg + len), [], inr ps') /\ 0 < len /\ k < k' <= np u /\
    (k' < np u /\ pos u k' = pos u k + len /\ ps_ok ps' (length L) u k' \/
     k' = np u /\ pos u k + len = snd u /\ ps_pages ps' = None /\ ps_segment ps' = S (length L) /\
     1 <= ps_next_chunk_pages ps').
Proof.
  intros Hu Hk (Hi & Hc & Hps). pose proof (np_bounds u Hu) as Hnp. pose proof (off_range u) as Ho. destruct Hu as (Hv & Hl & _).
  unfold omx__user_region_pin_add_chunk, with_segments. fsimp. rewrite Hi, list_lookup_middle by done.
  cbn [mbind option_bind].
  set (ps1 := match ps_pages ps with None => _ | Some _ => ps end).
  assert (H1 : default 0 (ps_pages ps1) = k /\ ps_aligned_vaddr ps1 = (first u + k) * PAGE_SIZE /\
    ps_remaining ps1 = snd u - pos u k /\ ps_chunk_offset ps1 = off u + pos u k - PAGE_SIZE * k /\
    ps_next_chunk_pages ps1 = ps_next_chunk_pages ps /\ ps_segment ps1 = length L).
  { unfold ps1. destruct (ps_pages ps) as [idx|] eqn:Hpg.
    - rewrite Hpg. destruct Hps as (-> & Hk0 & H1 & H2 & H3). unfold pos in *. rewrite (proj2 (Z.eqb_neq _ _)) in * by lia.
      repeat split; done || lia.
    - subst k. unfold pos. change (0 =? 0) with true. cbn [omx__user_region_pin_new_segment ps_pages ps_aligned_vaddr
        ps_remaining ps_chunk_offset ps_next_chunk_pages ps_segment default seg_at aligned_vaddr sg_length first_page_offset].
      repeat split; done || lia. }
  clearbody ps1. destruct H1 as (-> & -> & -> & -> & -> & ->). cbn zeta.
  pose proof (next_pages_pos _ Hc) as Hnext. cbn zeta in Hnext. set (next := if _ <? max then _ else _) in *.
  rewrite Z.shiftl_mul_pow2 by done. change (2 ^ PAGE_SHIFT) with PAGE_SIZE.
  set (c := ps_next_chunk_pages ps) in *.
  assert (Hpos : pos u k < snd u /\ PAGE_SIZE * k - off u <= pos u k /\ (0 < k -> pos u k = PAGE_SIZE * k - off u) /\
    0 <= pos u k /\ off u + pos u k - PAGE_SIZE * k < PAGE_SIZE).
  { unfold pos. destruct (Z.eqb_spec k 0); change PAGE_SIZE with 4096 in *; lia. }
  assert (Hfin : forall len n, 0 < len -> 0 < n -> k + n <= np u ->
    (off u + pos u k - PAGE_SIZE * k + len + PAGE_SIZE - 1) / PAGE_SIZE = n ->
    page_index_of (off u + pos u k - PAGE_SIZE * k + len + PAGE_SIZE - 1) = n).
  { intros len n H1 H2 H3 H4. rewrite page_index_div; [done|]. change PAGE_SIZE with 4096 in *. lia. }
  assert (Hgup : forall n, 0 <= n -> table_gup pt ((first u + k) * PAGE_SIZE) n = (n, table_pages pt (first u + k) n)).
  { intros n Hn. unfold table_gup. by rewrite Z.div_mul. }
  destruct (Z.leb_spec (off u + pos u k - PAGE_SIZE * k + (snd u - pos u k)) (c * PAGE_SIZE)) as [Hall|Hpart].
  - set (len := snd u - pos u k). rewrite (Hfin len (np u - k)); [|lia|lia|lia|].
    2:{ unfold len, np. replace (off u + pos u k - PAGE_SIZE * k + (snd u - pos u k) + PAGE_SIZE - 1)
          with (off u + snd u + PAGE_SIZE - 1 + (- k) * PAGE_SIZE) by lia. rewrite Z.div_add by done. lia. }
    rewrite Hgup by lia. rewrite length_seg_at, (proj2 (Z.ltb_ge _ _)) by lia. rewrite Z.eqb_refl. cbn [negb]. rewrite Z.ltb_irrefl.
    eexists (np u), len, _. split; [|split; [lia|split; [lia|right; split; [done|split; [lia|]]]]].
    + rewrite chunk_stored by lia. by rewrite Zplus_minus.
    + by cbn.
  - set (len := c * PAGE_SIZE - (off u + pos u k - PAGE_SIZE * k)).
    assert (Hc' : k + c < np u) by (clearbody c; clear -Hpart Hnp; change PAGE_SIZE with 4096 in *; lia).
    assert (Hlen : 0 < len) by (unfold len; clear -Hpos Hc; change PAGE_SIZE with 4096 in *; lia).
    rewrite (Hfin len c); [|lia|lia|lia|].
    2:{ unfold len. replace (_ + _ + PAGE_SIZE - 1) with (PAGE_SIZE - 1 + c * PAGE_SIZE) by lia.
        rewrite Z.div_add by done. rewrite Z.div_small by (change PAGE_SIZE with 4096; lia). lia. }
    rewrite Hgup by lia. rewrite length_seg_at, (proj2 (Z.ltb_ge _ _)) by lia. rewrite Z.eqb_refl. cbn [negb].
    rewrite (proj2 (Z.ltb_lt len (snd u - pos u k))) by (unfold len; lia).
    assert (Hpos' : pos u (k + c) = pos u k + len).
    { unfold pos at 1. rewrite (proj2 (Z.eqb_neq _ _)) by lia. unfold len. lia. }
    eexists (k + c), len, _. split; [|split; [lia|split; [lia|left; split; [done|split; [done|]]]]].
    + by rewrite chunk_stored by lia.
    + split; [done|]. split; [done|]. cbn. split; [done|]. split; [lia|]. rewrite Hpos'. unfold len. lia.
Qed.

(** ** All chunks *)

Definition tot (l : list (Z * Z)) : Z := foldr (fun u n => snd u + n) 0 l.
Definition full (u : Z * Z) : segment := seg_at u (np u).
Lemma tot_cons u l : tot (u :: l) = snd u + tot l.
Proof. done. Qed.
Lemma tot_app l1 l2 : tot (l1 ++ l2) = tot l1 + tot l2.
Proof. induction l1 as [|u l1 IH]; [done|]. rewrite <- app_comm_cons, !tot_cons, IH. lia. Qed.
Lemma tot_single u : tot [u] = snd u.
Proof. rewrite tot_cons. apply Z.add_0_r. Qed.
Lemma tot_nonneg l : Forall useg_ok l -> 0 <= tot l.
Proof. induction 1 as [|u l (_ & Hu & _) _ IH]; [done|]. rewrite tot_cons. lia. Qed.

Lemma pin_loop_spec r us fuel : forall A u B k ps, us = A ++ u :: B -> Forall useg_ok (u :: B) ->
  0 <= k < np u -> ps_ok ps (length A) u k -> tot us - (tot A + pos u k) <= Z.of_nat fuel ->
  exists ps', pin_loop (table_gup pt) max fuel (tot us)
    (with_segments r ((full <$> A) ++ seg_at u k :: ((fun v => seg_at v 0) <$> B)) (tot A + pos u k)) ps =
    Some (with_segments r (full <$> us) (tot us), [], inr ps').
Proof.
  induction fuel as [|fuel IH]; intros A u B k ps -> Hok Hk Hps Hfuel;
    pose proof Hok as Hok'; apply Forall_cons in Hok' as [Hu HB]; pose proof (tot_nonneg _ HB) as HtB;
    rewrite tot_app, tot_cons in Hfuel |- *.
  1: assert (pos u k < snd u); [|lia].
  1: { pose proof (np_bounds u Hu). unfold pos. destruct (Z.eqb_spec k 0); [apply Hu|].
       change PAGE_SIZE with 4096 in *. lia. }
  destruct (add_chunk_spec r (full <$> A) u ((fun v => seg_at v 0) <$> B) (tot A + pos u k) k ps Hu Hk)
    as (k' & len & ps' & E & Hlen & Hk' & Hnext); [by rewrite length_fmap|].
  cbn [pin_loop]. change (total_registered_length (with_segments r ?l ?n)) with n.
  assert (Hpos : pos u k + len <= snd u).
  { destruct Hnext as [(H1 & H2 & _)|(_ & H2 & _)]; [|lia]. rewrite <- H2. pose proof (np_bounds u Hu).
    unfold pos. rewrite (proj2 (Z.eqb_neq _ _)) by lia. change PAGE_SIZE with 4096 in *. lia. }
  rewrite (proj2 (Z.leb_gt _ _)), E by lia. cbn [mbind option_bind].
  assert (Hus : tot A + (snd u + tot B) = tot (A ++ u :: B)) by by rewrite tot_app, tot_cons.
  rewrite Hus. destruct Hnext as [(H1 & H2 & H3)|(-> & H2 & H3 & H4 & H5)].
  - replace (tot A + pos u k + len) with (tot A + pos u k') by lia. rewrite length_fmap in H3.
    apply (IH A u B k' ps'); done || lia.
  - assert (Hdone : (full <$> A) ++ seg_at u (np u) :: ((fun v => seg_at v 0) <$> B) =
      (full <$> (A ++ [u])) ++ ((fun v => seg_at v 0) <$> B)) by by rewrite fmap_app, <- app_assoc.
    rewrite Hdone. replace (tot A + pos u k + len) with (tot (A ++ [u])) by (rewrite tot_app, tot_single; lia).
    destruct B as [|v B].
    + exists ps'. cbn [fmap list_fmap]. rewrite app_nil_r.
      destruct fuel; cbn [pin_loop]; change (total_registered_length (with_segments r ?l ?n)) with n;
        by rewrite Z.leb_refl.
    + apply Forall_cons in HB as HB'. destruct HB' as [Hv _].
      replace (tot (A ++ [u])) with (tot (A ++ [u]) + pos v 0) by (change (pos v 0) with 0; lia).
      apply (IH (A ++ [u]) v B 0 ps'); [by rewrite <- app_assoc|done| | |].
      * pose proof (np_bounds v Hv). lia.
      * split; [by rewrite H4, length_fmap, length_app; cbn; lia|]. split; [done|]. by rewrite H3.
      * change (pos v 0) with 0. rewrite !tot_app, tot_single, !tot_cons in *. lia.
Qed.

Lemma flat_table f n : flat (table_pages pt f (Z.of_nat n)) = translate pt <$> span (f * PAGE_SIZE) (n * Z.to_nat PAGE_SIZE).
Proof.
  induction n as [|n IH]; [done|]. rewrite Nat2Z.inj_succ, <- Z.add_1_r, table_app by lia.
  unfold flat in *. rewrite flat_map_app, IH. replace (S n * Z.to_nat PAGE_SIZE)%nat
    with (n * Z.to_nat PAGE_SIZE + Z.to_nat PAGE_SIZE)%nat by lia. rewrite span_app, fmap_app. f_equal.
  cbn [table_pages seqZ]. change (table_pages pt ?x 1) with [pt (x + 0)]. cbn [flat_map]. rewrite app_nil_r.
  unfold page_bytes, span. rewrite <- list_fmap_compose. apply list_fmap_ext. intros i x Hx. cbn.
  apply lookup_seq in Hx as [-> Hi]. unfold translate.
  replace (f * PAGE_SIZE + Z.of_nat (n * Z.to_nat PAGE_SIZE) + Z.of_nat (0 + i))
    with (Z.of_nat i + (f + Z.of_nat n) * PAGE_SIZE) by lia.
  rewrite Z.div_add, Z.mod_add by done. rewrite Z.div_small, Z.mod_small by lia. rewrite Z.add_0_l, Z.add_0_r. lia.
Qed.
Lemma full_addrs u : useg_ok u -> pinned (full u) (table_pages pt (first u) (np u)) /\
  seg_addrs (full u) (table_pages pt (first u) (np u)) = translate pt <$> span (fst u) (Z.to_nat (snd u)).
Proof.
  intros Hu. pose proof (np_bounds u Hu) as Hnp. pose proof (off_range u) as Ho. pose proof Hu as (Hv & Hl & _). split.
  - split; cbn [full seg_at pages first_page_offset sg_length]; [|done|done|rewrite length_table; lia].
    by rewrite Z.sub_diag, app_nil_r.
  - unfold seg_addrs. cbn [full seg_at first_page_offset sg_length].
    replace (np u) with (Z.of_nat (Z.to_nat (np u))) by lia. rewrite flat_table, <- fmap_drop, <- fmap_take.
    rewrite drop_take_span by lia. do 2 f_equal. rewrite Z2Nat.id by lia.
    unfold off, first. rewrite Z.mul_comm. symmetry. by apply Z.div_mod.
Qed.

Lemma full_destroyed us : Forall useg_ok us -> flat_map omx_user_region_destroy_segment (full <$> us) =
  Some <$> flat_map snd ((fun u => (full u, table_pages pt (first u) (np u))) <$> us).
Proof.
  induction 1 as [|u us Hu _ IH]; [done|]. cbn [fmap list_fmap flat_map snd]. rewrite fmap_app. f_equal; [|exact IH].
  pose proof (np_bounds u Hu). unfold omx_user_region_destroy_segment. cbn [full seg_at pages pinned_pages].
  rewrite Z.sub_diag, app_nil_r. apply take_ge. by rewrite length_fmap, length_table.
Qed.

(** What [omx_ioctl_user_region_create] makes of the user's segments. *)
Definition user_region (us : list (Z * Z)) (r : region) : Prop :=
  Forall useg_ok us /\
  (fun u => omx_user_region_add_segment true (fst u) (snd u)) <$> us = inr <$> segments r /\
  total_length r = tot us /\ total_registered_length r = 0.

Lemma user_segments us r : user_region us r -> segments r = (fun v => seg_at v 0) <$> us.
Proof.
  intros (Hok & Hs & _). apply (inj (fmap (@inr Z segment))). rewrite <- Hs, <- list_fmap_compose. apply list_fmap_ext.
  intros i u Hu. cbn. apply add_segment_at. by eapply Forall_lookup_1.
Qed.
Lemma full_pin_result us r : user_region us r ->
  exists ps', omx_user_region_immediate_full_pin (table_gup pt) min max r =
    Some (with_segments (r <| status := PINNED |>) (full <$> us) (tot us), [], inr ps').
Proof.
  intros Hu. pose proof (user_segments us r Hu) as Hs'. destruct Hu as (Hok & Hs & Ht & Hr).
  unfold omx_user_region_immediate_full_pin, omx__user_region_pin_continue. fsimp. rewrite Ht, Hr, Z.sub_0_r.
  destruct us as [|u us].
  - exists (omx__user_region_pin_init min). destruct r. cbn in *. by subst.
  - pose proof (np_bounds u ltac:(by apply Forall_cons in Hok as [? _])).
    destruct (pin_loop_spec (r <| status := PINNED |>) (u :: us) (Z.to_nat (tot (u :: us))) [] u us 0
      (omx__user_region_pin_init min)) as [ps' E]; [done|done|lia|done| |].
    { change (pos u 0) with 0. pose proof (tot_nonneg _ Hok). cbn [tot foldr]. lia. }
    exists ps'. cbn [fmap list_fmap app] in E. change (tot [] + pos u 0) with 0 in E.
    replace (r <| status := PINNED |>) with
      (with_segments (r <| status := PINNED |>) (seg_at u 0 :: ((fun v => seg_at v 0) <$> us)) 0) at 1
      by (unfold with_segments; destruct r; cbn in *; by subst).
    rewrite E. done.
Qed.

(** Pinning a region ends, whatever the sizes of the chunks: every byte of
    it is then registered, and the pages that were stored are those of the
    user's buffers, so that the bytes of the region are at the addresses the
    page table gives to the bytes of the user's segments, in order; destroying
    the region gives back each of these pages once. *)
Lemma full_pin_user_bytes us r : user_region us r ->
  exists r' ps l, omx_user_region_immediate_full_pin (table_gup pt) min max r = Some (r', [], inr ps) /\
    status r' = PINNED /\ total_registered_length r' = total_length r' /\ total_length r' = seg_total l /\
    segments r' = fst <$> l /\ Forall (fun x => pinned (fst x) (snd x)) l /\
    addrs_of l = flat_map (fun u => translate pt <$> span (fst u) (Z.to_nat (snd u))) us /\
    omx_user_region_destroy_segments r' = Some <$> flat_map snd l.
Proof.
  intros Hu. destruct (full_pin_result us r Hu) as [ps' E]. destruct Hu as (Hok & _ & Ht & _).
  set (l := (fun u => (full u, table_pages pt (first u) (np u))) <$> us).
  assert (Hl : addrs_of l = flat_map (fun u => translate pt <$> span (fst u) (Z.to_nat (snd u))) us /\
    Forall (fun x => pinned (fst x) (snd x)) l /\ seg_total l = tot us).
  { unfold seg_total. subst l. clear E Ht. induction Hok as [|u us Hu Hok (IH1 & IH2 & IH3)]; [done|].
    destruct (full_addrs u Hu) as [Hp Ha]. cbn [fmap list_fmap addrs_of flat_map fst snd]. rewrite tot_cons, Ha.
    split; [by f_equal|]. split; [by constructor|]. rewrite length_app, length_fmap, length_span, Nat2Z.inj_add.
    unfold addrs_of in IH3. destruct Hu. lia. }
  destruct Hl as (Hl1 & Hl2 & Hl3).
  exists (with_segments (r <| status := PINNED |>) (full <$> us) (tot us)), ps', l.
  split; [exact E|]. unfold with_segments. fsimp. rewrite Ht, Hl3. split; [done|]. split; [done|]. split; [done|].
  split; [subst l; by rewrite <- list_fmap_compose|]. split; [done|]. split; [done|]. by apply full_destroyed.
Qed.
End pin.

(** The array of pages of a segment has room for the user's bytes exactly
    when the length, rounded up to pages, does not exceed 64 bits: there is no
    other test of the length that the user gives, and with a longer one the
    array is short of what is pinned into it. *)
Lemma segment_room vaddr len : 0 <= vaddr -> 0 < len < 2 ^ 64 ->
  exists sg, omx_user_region_add_segment true vaddr len = inr sg /\
    aligned_vaddr sg + first_page_offset sg = vaddr /\ 0 <= first_page_offset sg < PAGE_SIZE /\
    sg_length sg = len /\ Z.of_nat (length (pages sg)) = nr_pages sg /\
    (first_page_offset sg + len <= PAGE_SIZE * nr_pages sg <-> first_page_offset sg + len + PAGE_SIZE <= 2 ^ 64).
Proof.
  intros Hv Hl. eexists. split; [reflexivity|]. cbn [aligned_vaddr first_page_offset sg_length pages nr_pages].
  unfold PAGE_ALIGN. rewrite page_offset_mod, !ldiff_page, length_replicate.
  set (o := vaddr mod PAGE_SIZE). pose proof (Z.div_mod vaddr PAGE_SIZE ltac:(done)) as Hd.
  assert (Ho : 0 <= o < PAGE_SIZE) by by apply Z.mod_pos_bound.
  split; [lia|]. split; [done|]. split; [done|]. change (2 ^ 64) with 18446744073709551616 in *.
  assert (Hn : forall x, 0 <= x -> page_index_of (x / PAGE_SIZE * PAGE_SIZE) = x / PAGE_SIZE).
  { intros x Hx. rewrite page_index_div by (pose proof (Z.div_pos x PAGE_SIZE Hx eq_refl); change PAGE_SIZE with 4096 in *; lia). by rewrite Z.div_mul. }
  rewrite Hn by apply u64_range. clear Hn. change PAGE_SIZE with 4096 in *.
  set (x := u64 (u64 (o + len) + 4096 - 1)). pose proof (Z.div_mod x 4096 ltac:(done)) as Hx.
  pose proof (Z.mod_pos_bound x 4096 ltac:(done)) as Hx'. pose proof (u64_range (u64 (o + len) + 4096 - 1)) as Hr.
  fold x in Hr. split; [lia|].
  assert (Hcases : o + len + 4096 <= 18446744073709551616 /\ x = o + len + 4096 - 1 \/
    18446744073709551616 < o + len + 4096 /\ x < 8192); [|lia].
  destruct (Z.le_gt_cases 18446744073709551616 (o + len)).
  - right. split; [lia|]. unfold x. rewrite (u64_over (o + len)), u64_small; lia.
  - unfold x. rewrite (u64_small (o + len)) by lia. destruct (Z.le_gt_cases (o + len + 4096) 18446744073709551616).
    + left. rewrite u64_small; lia.
    + right. rewrite u64_over; lia.
Qed.
Lemma segment_room_witness : exists sg, omx_user_region_add_segment true 4096 (2 ^ 64 - 1) = inr sg /\
  nr_pages sg = 0 /\ sg_length sg = 2 ^ 64 - 1.
Proof.
  destruct (segment_room 4096 (2 ^ 64 - 1)) as (sg & E & _ & _ & Hl & _); [lia|lia|].
  exists sg. split; [exact E|]. split; [|exact Hl]. vm_compute in E. by injection E as <-.
Defined.

(** Two buffers of the user; the first one covers three pages. *)
Definition two_buffers : list (Z * Z) := [(8190, 4100); (40960, 5)].
Definition new_region : region := Region 3 false 1 0
  [Segment 4096 4094 4100 3 0 false [None; None; None]; Segment 40960 0 5 1 0 false [None]]
  4105 NOT_PINNED 0.
Definition high_table (page : Z) : Z := page + 1000.
Lemma new_region_user : user_region two_buffers new_region.
Proof. split; [repeat constructor|by vm_compute]; vm_compute; discriminate || done. Qed.

Lemma full_pin_user_bytes_witness : exists r' ps l,
  omx_user_region_immediate_full_pin (table_gup high_table) 1 2 new_region = Some (r', [], inr ps) /\
  total_registered_length r' = total_length r' /\ segments r' = fst <$> l /\
  omx_user_region_destroy_segments r' = Some <$> [1001; 1002; 1003; 1010] /\
  take 3 (addrs_of l) = [1001 * 4096 + 4094; 1001 * 4096 + 4095; 1002 * 4096].
Proof.
  destruct (full_pin_user_bytes high_table 1 2 ltac:(done) two_buffers new_region new_region_user)
    as (r' & ps & l & E & _ & Hr & _ & Hs & _ & Ha & Hd).
  exists r', ps, l. split; [exact E|]. split; [exact Hr|]. split; [exact Hs|]. split; [|by rewrite Ha; vm_compute].
  vm_compute in E. injection E as <- _. reflexivity.
Defined.

(** C40. Invalidating a pinned region loses its pages: it gives back the first
    page of each segment only and forgets that the others were pinned, so that
    destroying the region later gives back nothing more. *)
Theorem invalidate_loses_pages r : status r = PINNED -> total_registered_length r = total_length r ->
  Forall (fun sg => 0 < pinned_pages sg) (segments r) ->
  exists r', omx_invalidate_region r = Some ((fun sg => default None (head (pages sg))) <$> segments r, r') /\
    status r' = NOT_PINNED /\ pages <$> segments r' = pages <$> segments r /\
    omx_user_region_destroy_segments r' = [].
Proof.
  intros Hs Ht Hp. unfold omx_invalidate_region. rewrite Hs, Ht, Z.ltb_irrefl. eexists.
  assert (H1 : forall sg, 0 < pinned_pages sg -> invalidate_pages (S (Z.to_nat (pinned_pages sg))) 0 sg =
    ([default None (head (pages sg))], sg <| pinned_pages := 0 |>)).
  { intros sg Hsg. cbn [invalidate_pages]. rewrite (proj2 (Z.ltb_lt _ _)) by done.
    destruct (Z.to_nat (pinned_pages sg)); cbn; by destruct (pages sg). }
  split; [f_equal; f_equal|].
  - induction Hp as [|sg l Hsg _ IH]; [done|]. cbn [map flat_map fmap list_fmap]. rewrite H1 by done. cbn. by f_equal.
  - fsimp. split; [done|]. clear Ht. induction Hp as [|sg l Hsg _ [IH1 IH2]]; [done|].
    cbn [map fmap list_fmap flat_map]. rewrite H1 by done. cbn [snd]. split; [by f_equal|].
    unfold omx_user_region_destroy_segments in *. fsimp. exact IH2.
Qed.
Definition invalidated_region : region := Region 3 false 1 0
  [Segment 4096 4094 4100 3 3 false [Some 7; Some 8; Some 9]] 4100 PINNED 4100.
Lemma invalidate_loses_pages_witness : exists r',
  omx_invalidate_region invalidated_region = Some ([Some 7], r') /\ omx_user_region_destroy_segments r' = [].
Proof.
  destruct (invalidate_loses_pages invalidated_region) as (r' & E & _ & _ & Hd); [done|done|repeat constructor|].
  exists r'. split; [exact E|exact Hd].
Defined.
End RegPin.
