(* ===== verification/RegTable.v ===== *)
(** The regions of an endpoint in the driver ([driver/linux/omx_reg.c],
    [omx_reg.h]): creating and destroying them, the references their users
    take, and the deferred release by RCU.

    A region is known by its address; [heap] holds the regions that were
    allocated and not freed.  [None] is an access to a freed region. *)
From S2P Require Import Prelude Segments Reg.
Import Reg.

Module RegTable.

(** ** Data *)

(** [user_regions] of the endpoint with the regions they lead to, the release
    callbacks waiting for a grace period, the scheduled destroy works, and the
    pages that were given back. *)
Record regions := Regions {
  user_regions : gmap Z Z; heap : gmap Z region; rcu : list Z; works : list Z; put_pages : list (option Z) }.
#[export] Instance e_regions : Settable regions := fun s =>
  Regions (user_regions s) (heap s) (rcu s) (works s) (put_pages s).
#[export] Instance s_user_regions : Setter user_regions. Proof. mk_setter. Defined.
#[export] Instance s_heap : Setter heap. Proof. mk_setter. Defined.
#[export] Instance s_rcu : Setter rcu. Proof. mk_setter. Defined.
#[export] Instance s_works : Setter works. Proof. mk_setter. Defined.
#[export] Instance s_put_pages : Setter put_pages. Proof. mk_setter. Defined.

(* [driver/linux/omx_reg.c:636-648] omx_endpoint_user_regions_init *)
Definition omx_endpoint_user_regions_init : regions := Regions ∅ ∅ [] [] [].

(** ** Creation *)

(** What the kernel answers during a call: whether the caller opened the
    endpoint, the command ([None] when it cannot be read), the allocation and
    the copy of the segments, the address of the region, the allocations of the
    arrays of pages. *)
Record create_call := CreateCall {
  cc_opener : bool; cc_id : option Z; cc_usegs_alloc : bool; cc_usegs : option (list (Z * Z));
  cc_region : option Z; cc_alloc : nat -> bool }.

(** The loop over the segments, from the [i]-th: the error or 0, and the region. *)
Fixpoint add_segments (alloc : nat -> bool) (i : nat) (usegs : list (Z * Z)) (r : region) : Z * region :=
  match usegs with
  | [] => (0, r)
  | (vaddr, len) :: usegs =>
      if len =? 0 then add_segments alloc (S i) usegs r
      else
        match omx_user_region_add_segment (alloc i) vaddr len with
        | inl err => (err, r)
        | inr sg =>
            add_segments alloc (S i) usegs
              (r <| nr_vmalloc_segments ::= fun n => if vmalloced sg then n + 1 else n |>
                 <| segments ::= fun l => l ++ [sg] |>
                 <| total_length ::= fun n => u64 (n + sg_length sg) |>)
        end
  end.

Section create.
Context (get_user_pages : Z -> Z -> Z * list Z).
Context (omx_pin_synchronous : bool) (omx_pin_chunk_pages_min omx_pin_chunk_pages_max : Z).

(** Pinning before the region is published: the error or 0. *)
Definition create_pin (r : region) : option (region * list Z * Z) :=
  if omx_pin_synchronous then
    '(r, put, ret) ← omx_user_region_immediate_full_pin get_user_pages
                       omx_pin_chunk_pages_min omx_pin_chunk_pages_max r;
    Some (r, put, match ret with inl err => err | inr _ => 0 end)
  else Some (r, [], 0).
(** [out_with_region]. *)
Definition drop_new_region (r : region) (s : regions) : regions :=
  s <| put_pages ::= fun l => l ++ omx_user_region_destroy_segments r |>.

(* [driver/linux/omx_reg.c:266-388] omx_ioctl_user_region_create *)
Definition omx_ioctl_user_region_create (c : create_call) (s : regions) : option (regions * Z) :=
  if negb (cc_opener c) then Some (s, EFAULT)
  else
    match cc_id c with
    | None => Some (s, EFAULT)
    | Some id =>
        if OMX_USER_REGION_MAX <=? id then Some (s, EINVAL)
        else if negb (cc_usegs_alloc c) then Some (s, ENOMEM)
        else
          match cc_usegs c, cc_region c with
          | None, _ => Some (s, EFAULT)
          | Some _, None => Some (s, ENOMEM)
          | Some usegs, Some p =>
              let '(ret, r) := add_segments (cc_alloc c) 0 usegs (Region 0 false 1 0 [] 0 NOT_PINNED 0) in
              if ret <? 0 then Some (drop_new_region r s, ret)
              else
                '(r, put, ret) ← create_pin (r <| status := NOT_PINNED |> <| total_registered_length := 0 |>);
                let s := s <| put_pages ::= fun l => l ++ (Some <$> put) |> in
                if ret <? 0 then Some (drop_new_region r s, ret)
                else
                  match user_regions s !! id with
                  | Some _ => Some (drop_new_region r s, EBUSY)
                  | None => Some (s <| heap ::= <[p := r <| rg_id := id |> <| dirty := false |>]> |>
                                    <| user_regions ::= <[id := p]> |>, 0)
                  end
          end
    end.
End create.

(** ** References *)

(** Freeing: the pages go back, the region is no more. *)
Definition free_region (p : Z) (r : region) (s : regions) : regions :=
  s <| put_pages ::= fun l => l ++ omx_user_region_destroy_segments r |> <| heap ::= delete p |>.
(* [driver/linux/omx_reg.c:399-405] omx_region_destroy_workfunc *)
Definition omx_region_destroy_workfunc (p : Z) (s : regions) : option regions :=
  r ← heap s !! p; Some (free_region p r s).
(* [driver/linux/omx_reg.c:408-423] __omx_user_region_last_release *)
Definition __omx_user_region_last_release (in_interrupt : bool) (p : Z) (s : regions) : option regions :=
  r ← heap s !! p;
  if negb (nr_vmalloc_segments r =? 0) && in_interrupt then Some (s <| works ::= fun l => l ++ [p] |>)
  else Some (free_region p r s).

(** [kref_get] and [kref_put] of the kernel. *)
Definition kref_get (p : Z) (s : regions) : option regions :=
  r ← heap s !! p; Some (s <| heap ::= <[p := r <| refcount ::= fun n => n + 1 |>]> |>).
Definition kref_put (in_interrupt : bool) (p : Z) (s : regions) : option regions :=
  r ← heap s !! p;
  let s := s <| heap ::= <[p := r <| refcount ::= fun n => n - 1 |>]> |> in
  if refcount r - 1 =? 0 then __omx_user_region_last_release in_interrupt p s else Some s.

(* [driver/linux/omx_reg.h:102-106] omx_user_region_reacquire *)
Definition omx_user_region_reacquire (p : Z) (s : regions) : option regions := kref_get p s.
(* [driver/linux/omx_reg.h:108-112] omx_user_region_release *)
Definition omx_user_region_release (in_interrupt : bool) (p : Z) (s : regions) : option regions :=
  kref_put in_interrupt p s.
(* [driver/linux/omx_reg.c:425-430] __omx_user_region_rcu_release_callback *)
Definition __omx_user_region_rcu_release_callback (in_interrupt : bool) (p : Z) (s : regions) : option regions :=
  kref_put in_interrupt p s.

(** [Some None] is a null pointer. *)
(* [driver/linux/omx_reg.c:482-506] omx_user_region_acquire *)
Definition omx_user_region_acquire (rdma_id : Z) (s : regions) : option (option Z * regions) :=
  if OMX_USER_REGION_MAX <=? rdma_id then Some (None, s)
  else
    match user_regions s !! rdma_id with
    | None => Some (None, s)
    | Some p => s ← kref_get p s; Some (Some p, s)
    end.

(** Taking a region out of the table; its release waits for the readers. *)
Definition unlink_region (id : Z) (p : Z) (s : regions) : regions :=
  s <| user_regions ::= delete id |> <| rcu ::= fun l => l ++ [p] |>.
(** [cmd] is [None] when the command cannot be read. *)
(* [driver/linux/omx_reg.c:432-475] omx_ioctl_user_region_destroy *)
Definition omx_ioctl_user_region_destroy (cmd : option Z) (s : regions) : regions * Z :=
  match cmd with
  | None => (s, EFAULT)
  | Some id =>
      if OMX_USER_REGION_MAX <=? id then (s, EINVAL)
      else
        match user_regions s !! id with
        | None => (s, EINVAL)
        | Some p => (unlink_region id p s, 0)
        end
  end.

Fixpoint exit_loop (ids : list Z) (s : regions) : regions :=
  match ids with
  | [] => s
  | id :: ids =>
      exit_loop ids (match user_regions s !! id with None => s | Some p => unlink_region id p s end)
  end.
(* [driver/linux/omx_reg.c:650-677] omx_endpoint_user_regions_exit *)
Definition omx_endpoint_user_regions_exit (s : regions) : regions :=
  exit_loop (seqZ 0 OMX_USER_REGION_MAX) s.

(** ** Invalidation by the memory manager *)

Definition overlaps (inv_start inv_end : Z) (sg : segment) : bool :=
  let seg_start := aligned_vaddr sg + first_page_offset sg in
  (seg_start <? inv_end) && (inv_start <? seg_start + sg_length sg).
Fixpoint invalidate_loop (sync : bool) (inv_start inv_end : Z) (iregs : list Z) (s : regions) : option regions :=
  match iregs with
  | [] => Some s
  | ireg :: iregs =>
      match user_regions s !! ireg with
      | None => invalidate_loop sync inv_start inv_end iregs s
      | Some p =>
          r ← heap s !! p;
          if existsb (overlaps inv_start inv_end) (segments r) && negb sync then
            '(put, r) ← omx_invalidate_region r;
            invalidate_loop sync inv_start inv_end iregs
              (s <| put_pages ::= fun l => l ++ put |> <| heap ::= <[p := r]> |>)
          else invalidate_loop sync inv_start inv_end iregs s
      end
  end.
(** [sync] is [omx_pin_synchronous]: then there is only a warning. *)
(* [driver/linux/omx_reg.c:546-591] omx_mmu_invalidate_handler *)
Definition omx_mmu_invalidate_handler (sync : bool) (inv_start inv_end : Z) (s : regions) : option regions :=
  invalidate_loop sync inv_start inv_end (seqZ 0 OMX_USER_REGION_MAX) s.
End RegTable.
