(* ===== verification/RegRefs.v ===== *)
(** The references of the regions of an endpoint: whoever holds one finds the
    region alive, and a region without references is freed. *)
From S2P Require Import Prelude Segments Reg RegCopy RegPin RegTable.
Import Reg RegPin RegTable.

Module RegRefs.

(** ** References outside the table *)

Definition cnt (l : list Z) (p : Z) : Z := Z.of_nat (count_occ Z.eq_dec l p).
Lemma cnt_nonneg l p : 0 <= cnt l p.
Proof. unfold cnt. lia. Qed.
Lemma cnt_cons q l p : cnt (q :: l) p = (if decide (q = p) then 1 else 0) + cnt l p.
Proof. unfold cnt. cbn. destruct (Z.eq_dec q p), (decide (q = p)); lia || congruence. Qed.
Lemma cnt_app l k p : cnt (l ++ k) p = cnt l p + cnt k p.
Proof. unfold cnt. rewrite count_occ_app. lia. Qed.
Lemma cnt_pos l p : p ∈ l <-> 0 < cnt l p.
Proof. unfold cnt. rewrite list_elem_of_In, (count_occ_In Z.eq_dec). lia. Qed.
(** Without one occurrence. *)
Fixpoint remove1 (p : Z) (l : list Z) : list Z :=
  match l with [] => [] | q :: l => if decide (p = q) then l else q :: remove1 p l end.
Lemma cnt_remove1 p l q : p ∈ l -> cnt (p :: remove1 p l) q = cnt l q.
Proof.
  induction l as [|x l IH]; intros Hp; [by apply not_elem_of_nil in Hp|]. cbn [remove1].
  destruct (decide (p = x)) as [->|Hne]; [done|]. apply elem_of_cons in Hp as [->|Hp]; [done|].
  specialize (IH Hp). rewrite !cnt_cons in *. lia.
Qed.

(** ** The invariant *)

(** [ext p] is the number of references to [p] outside the table. *)
Definition in_table (s : regions) (p : Z) (r : region) : Z :=
  if decide (user_regions s !! rg_id r = Some p) then 1 else 0.
Record refs_ok (s : regions) (ext : Z -> Z) : Prop := {
  ro_count : forall p r, heap s !! p = Some r ->
    refcount r = in_table s p r + ext p /\ (p ∈ works s <-> refcount r = 0);
  ro_ext : forall p, 0 <= ext p /\ (0 < ext p -> is_Some (heap s !! p));
  ro_table : forall id p, user_regions s !! id = Some p ->
    0 <= id < OMX_USER_REGION_MAX /\ exists r, heap s !! p = Some r /\ rg_id r = id;
  ro_works : NoDup (works s) /\ forall p, p ∈ works s -> is_Some (heap s !! p)
}.
Lemma refs_ok_ext s ext ext' : (forall p, ext p = ext' p) -> refs_ok s ext -> refs_ok s ext'.
Proof.
  intros H [H1 H2 H3 H4]. split; try done; intros p *; rewrite <- H; [apply H1|apply H2].
Qed.
Definition plus1 (p : Z) (ext : Z -> Z) : Z -> Z := fun q => (if decide (p = q) then 1 else 0) + ext q.

Lemma get_ok s ext p r : refs_ok s ext -> heap s !! p = Some r -> 0 < refcount r ->
  exists s', kref_get p s = Some s' /\ refs_ok s' (plus1 p ext) /\ user_regions s' = user_regions s /\
    rcu s' = rcu s /\ works s' = works s.
Proof.
  intros [H1 H2 H3 [H4 H5]] Hp Hr. unfold kref_get. rewrite Hp. cbn [mbind option_bind]. eexists. split; [reflexivity|].
  split; [|done]. split; unfold in_table in *; fsimp.
  - intros q r' Hq. unfold plus1. destruct (decide (p = q)) as [<-|Hne].
    + rewrite lookup_insert_eq in Hq. injection Hq as <-. destruct (H1 p r Hp) as [Hc Hw]. fsimp. split; [lia|].
      rewrite Hw. lia.
    + rewrite lookup_insert_ne in Hq by done. destruct (H1 q r' Hq) as [Hc Hw]. split; [lia|done].
  - intros q. unfold plus1. destruct (H2 q) as [H2a H2b]. destruct (decide (p = q)) as [<-|Hne].
    + split; [lia|]. by rewrite lookup_insert_eq.
    + split; [lia|]. rewrite lookup_insert_ne by done. intros. apply H2b. lia.
  - intros id q Hid. destruct (H3 id q Hid) as [Hr' (r' & Hq & Hid')]. split; [done|].
    destruct (decide (p = q)) as [<-|Hne].
    + rewrite lookup_insert_eq. eexists. split; [done|]. fsimp. congruence.
    + rewrite lookup_insert_ne by done. by exists r'.
  - split; [done|]. intros q Hq. rewrite lookup_insert_is_Some. by destruct (decide (p = q)); auto.
Qed.

Lemma in_table_eq s s' p r r' : user_regions s' = user_regions s -> rg_id r' = rg_id r ->
  in_table s' p r' = in_table s p r.
Proof. intros H1 H2. unfold in_table. by rewrite H1, H2. Qed.
Lemma in_table_range s p r : 0 <= in_table s p r <= 1.
Proof. unfold in_table. destruct (decide _); lia. Qed.
Lemma in_table_1 s ext id p r : refs_ok s ext -> user_regions s !! id = Some p -> heap s !! p = Some r ->
  rg_id r = id /\ in_table s p r = 1.
Proof.
  intros H Hid Hp. destruct (ro_table _ _ H id p Hid) as (_ & r' & Hp' & <-). assert (r' = r) as -> by congruence.
  split; [done|]. unfold in_table. by destruct (decide _).
Qed.

(** Removing a region that nobody references. *)
Lemma free_ok s ext p r : refs_ok s ext -> heap s !! p = Some r -> refcount r = 0 ->
  refs_ok (free_region p r (s <| works ::= remove1 p |>)) ext.
Proof.
  intros H Hp Hr. pose proof H as [H1 H2 H3 [H4 H5]]. destruct (H1 p r Hp) as [Hc Hw].
  pose proof (in_table_range s p r). destruct (H2 p) as [Hx _].
  assert (Hwk : forall q, q ∈ remove1 p (works s) <-> q <> p /\ q ∈ works s).
  { intros q. rewrite !cnt_pos. apply Hw in Hr. pose proof (cnt_remove1 p (works s) q Hr) as Hq.
    rewrite cnt_cons in Hq. assert (Hn : cnt (works s) q <= 1).
    { unfold cnt. pose proof (proj1 (NoDup_count_occ Z.eq_dec (works s)) (proj1 (NoDup_ListNoDup _) H4) q). lia. }
    pose proof (cnt_nonneg (remove1 p (works s)) q). destruct (decide (p = q)); [subst; lia|]. split; [|lia].
    intros. split; [congruence|lia]. }
  unfold free_region. split; unfold in_table in *; fsimp.
  - intros q r' Hq. apply lookup_delete_Some in Hq as [Hne Hq]. rewrite Hwk. destruct (H1 q r' Hq) as [Hc' Hw'].
    split; [done|]. rewrite <- Hw'. split; [tauto|auto].
  - intros q. destruct (H2 q) as [H2a H2b]. split; [done|]. intros Hq. rewrite lookup_delete_ne; [auto|].
    intros <-. lia.
  - intros id q Hid. destruct (H3 id q Hid) as [Hr' (r' & Hq & Hid')]. split; [done|]. exists r'.
    split; [|done]. rewrite lookup_delete_ne; [done|]. intros <-. destruct (in_table_1 s ext id p r H Hid Hp) as [_ Ht].
    unfold in_table in Ht. lia.
  - split; [|intros q Hq; apply Hwk in Hq as [Hne Hq]; rewrite lookup_delete_ne by done; auto].
    clear -H4. induction H4 as [|x l Hx Hl IH]; [by constructor|]. cbn. destruct (decide (p = x)); [done|].
    constructor; [|done]. intros Hin. apply Hx. clear -Hin. induction l as [|y l IH]; [done|]. cbn in Hin.
    destruct (decide (p = y)); [by apply elem_of_cons; right|]. apply elem_of_cons in Hin as [->|Hin];
      [by apply elem_of_cons; left|apply elem_of_cons; right; auto].
Qed.
Lemma remove1_notin p l : p ∉ l -> remove1 p l = l.
Proof.
  induction l as [|q l IH]; intros Hp; [done|]. apply not_elem_of_cons in Hp as [Hne Hp]. cbn.
  rewrite IH by done. by destruct (decide (p = q)).
Qed.

Lemma put_ok intr s ext p : refs_ok s (plus1 p ext) -> 0 <= ext p -> exists s', kref_put intr p s = Some s' /\
  refs_ok s' ext /\ user_regions s' = user_regions s /\ rcu s' = rcu s.
Proof.
  intros H Hext. pose proof H as [H1 H2 H3 [H4 H5]]. destruct (H2 p) as [_ [r Hp]].
  { unfold plus1. destruct (decide (p = p)); [lia|done]. }
  destruct (H1 p r Hp) as [Hc Hw]. pose proof (in_table_range s p r).
  unfold plus1 in Hc. destruct (decide (p = p)) as [_|]; [|done].
  unfold kref_put. rewrite Hp. cbn [mbind option_bind]. set (r' := r <| refcount ::= _ |>).
  set (s1 := s <| heap ::= _ |>).
  assert (Hnw : p ∉ works s) by (intros Hin; apply Hw in Hin; lia).
  (* the count alone *)
  assert (H1ok : forall wk, (forall q, q ∈ wk <-> q ∈ works s \/ q = p /\ refcount r' = 0) -> NoDup wk ->
    refs_ok (s1 <| works := wk |>) ext).
  { intros wk Hwk Hnd. split; unfold in_table, s1 in *; fsimp.
    - intros q r2 Hq. destruct (decide (p = q)) as [<-|Hne].
      + rewrite lookup_insert_eq in Hq. injection Hq as <-. unfold r' in *. fsimp. split; [lia|]. rewrite Hwk. tauto.
      + rewrite lookup_insert_ne in Hq by done. destruct (H1 q r2 Hq) as [Hc' Hw']. unfold plus1 in Hc'.
        destruct (decide (p = q)); [done|]. split; [lia|]. rewrite Hwk, <- Hw'. split; [intros [?|[-> _]]; done|tauto].
    - intros q. destruct (H2 q) as [H2a H2b]. unfold plus1 in *. destruct (decide (p = q)) as [<-|Hne].
      + split; [done|]. by rewrite lookup_insert_eq.
      + split; [lia|]. rewrite lookup_insert_ne by done. intros. apply H2b. lia.
    - intros id q Hid. destruct (H3 id q Hid) as [Hr' (r2 & Hq & Hid')]. split; [done|].
      destruct (decide (p = q)) as [<-|Hne].
      + rewrite lookup_insert_eq. eexists. split; [done|]. unfold r'. fsimp. congruence.
      + rewrite lookup_insert_ne by done. by exists r2.
    - split; [done|]. intros q Hq. rewrite lookup_insert_is_Some. destruct (decide (p = q)) as [->|Hne]; [by left|].
      right. split; [done|]. apply Hwk in Hq as [Hq|[-> _]]; [auto|done]. }
  assert (Hp1 : heap s1 !! p = Some r') by (unfold s1; fsimp; apply lookup_insert_eq).
  destruct (Z.eqb_spec (refcount r - 1) 0) as [Hz|Hz].
  - assert (Hz' : refcount r' = 0) by exact Hz.
    assert (Hadd : refs_ok (s1 <| works := works s ++ [p] |>) ext).
    { apply H1ok.
      - intros q. rewrite elem_of_app, list_elem_of_singleton. tauto.
      - apply NoDup_app. split; [done|]. split; [|apply NoDup_singleton]. intros q Hq ->%list_elem_of_singleton. done. }
    unfold __omx_user_region_last_release. rewrite Hp1. cbn [mbind option_bind].
    destruct (negb _ && intr); eexists; (split; [reflexivity|]).
    + split; [exact Hadd|done].
    + split; [|done]. apply (free_ok _ _ p r') in Hadd; [|done|done].
      assert (Hrem : remove1 p (works s ++ [p]) = works s).
      { clear -Hnw. induction (works s) as [|x l IH]; cbn; [by destruct (decide (p = p))|].
        apply not_elem_of_cons in Hnw as [Hne Hnw]. destruct (decide (p = x)); [done|]. by rewrite IH. }
      change (s1 <| works := ?l |> <| works ::= remove1 p |>) with (s1 <| works := remove1 p l |>) in Hadd.
      rewrite Hrem in Hadd. unfold s1 in *. by destruct s.
  - eexists. split; [reflexivity|]. split; [|done].
    replace s1 with (s1 <| works := works s |>) by by destruct s. apply H1ok; [|done].
    intros q. split; [by left|]. intros [Hq|[_ Hq]]; [done|]. exfalso. unfold r' in Hq. fsimp. lia.
Qed.

Lemma unlink_ok s ext id p : refs_ok s ext -> user_regions s !! id = Some p ->
  refs_ok (unlink_region id p s) (plus1 p ext).
Proof.
  intros H Hid. pose proof H as [H1 H2 H3 H4]. destruct (H3 id p Hid) as (_ & r & Hp & Hr).
  unfold unlink_region. split; unfold in_table in *; fsimp; [| | |done].
  - intros q r' Hq. destruct (H1 q r' Hq) as [Hc Hw]. split; [|done]. rewrite Hc. unfold plus1.
    destruct (decide (p = q)) as [<-|Hne].
    + assert (r' = r) as -> by congruence. rewrite Hr, Hid, lookup_delete_eq.
      destruct (decide (Some p = Some p)); [|done]. destruct (decide (None = Some p)); [done|lia].
    + rewrite Z.add_0_l. f_equal. destruct (decide (id = rg_id r')) as [<-|Hne'].
      * rewrite Hid, lookup_delete_eq. destruct (decide (Some p = Some q)); [congruence|].
        by destruct (decide (None = Some q)).
      * by rewrite lookup_delete_ne.
  - intros q. destruct (H2 q) as [H2a H2b]. unfold plus1. destruct (decide (p = q)) as [<-|Hne]; [|auto].
    split; [lia|]. by exists r.
  - intros id' q Hid'. apply lookup_delete_Some in Hid' as [_ Hid']. auto.
Qed.
Lemma new_ok s ext id p r : refs_ok s ext -> user_regions s !! id = None -> heap s !! p = None ->
  0 <= id < OMX_USER_REGION_MAX -> rg_id r = id -> refcount r = 1 ->
  refs_ok (s <| heap ::= <[p := r]> |> <| user_regions ::= <[id := p]> |>) ext.
Proof.
  intros H Hid Hp Hrange Hr Href. pose proof H as [H1 H2 H3 [H4 H5]].
  assert (Hnt : forall id', user_regions s !! id' <> Some p).
  { intros id' Hid'. destruct (H3 id' p Hid') as (_ & r' & Hp' & _). congruence. }
  assert (Hx : ext p = 0).
  { destruct (H2 p) as [Ha Hb]. destruct (Z.eq_dec (ext p) 0) as [|Hne]; [done|].
    destruct Hb as [r' Hr']; [lia|congruence]. }
  split; unfold in_table in *; fsimp.
  - intros q r' Hq. destruct (decide (p = q)) as [<-|Hne].
    + rewrite lookup_insert_eq in Hq. injection Hq as <-. rewrite Hr, lookup_insert_eq, Hx, Href.
      split; [by destruct (decide (Some p = Some p))|]. split; [|lia]. intros Hw. destruct (H5 p Hw). congruence.
    + rewrite lookup_insert_ne in Hq by done. destruct (H1 q r' Hq) as [Hc Hw]. split; [|done]. rewrite Hc. f_equal.
      destruct (decide (id = rg_id r')) as [<-|Hne'].
      * rewrite Hid, lookup_insert_eq. destruct (decide (Some p = Some q)); [congruence|].
        by destruct (decide (None = Some q)).
      * by rewrite lookup_insert_ne.
  - intros q. destruct (H2 q) as [H2a H2b]. split; [done|]. intros Hq. rewrite lookup_insert_is_Some.
    destruct (decide (p = q)); auto.
  - intros id' q Hid'. destruct (decide (id = id')) as [<-|Hne].
    + rewrite lookup_insert_eq in Hid'. injection Hid' as <-. split; [done|]. exists r. by rewrite lookup_insert_eq.
    + rewrite lookup_insert_ne in Hid' by done. destruct (H3 id' q Hid') as [Hr' (r' & Hq & Hid2)]. split; [done|].
      exists r'. rewrite lookup_insert_ne; [done|]. intros ->. by apply (Hnt id').
  - split; [done|]. intros q Hq. rewrite lookup_insert_is_Some. destruct (decide (p = q)); auto.
Qed.

(** ** Creating *)

Lemma pin_loop_refcount gup max fuel needed : forall r ps r' put ret,
  pin_loop gup max fuel needed r ps = Some (r', put, ret) -> refcount r' = refcount r.
Proof.
  induction fuel as [|fuel IH]; intros r ps r' put ret; cbn [pin_loop]; destruct (needed <=? _); [by intros [= <- _ _]|done|by intros [= <- _ _]|].
  destruct (omx__user_region_pin_add_chunk gup max r ps) as [[[r1 put1] ret1]|] eqn:E; [|done]. cbn [mbind option_bind].
  assert (H1 : refcount r1 = refcount r).
  { unfold omx__user_region_pin_add_chunk in E. destruct (segments r !! ps_segment ps); [|done]. cbn [mbind option_bind] in E.
    cbn zeta in E. destruct (gup _ _). destruct (_ <? _); [done|]. destruct (negb _).
    - destruct (0 <=? _); by injection E as <- _ _.
    - by injection E as <- _ _. }
  destruct ret1; [by intros [= <- _ _]|]. intros H. apply IH in H. congruence.
Qed.
Lemma full_pin_refcount gup min max r r' put ret :
  omx_user_region_immediate_full_pin gup min max r = Some (r', put, ret) -> refcount r' = refcount r.
Proof.
  unfold omx_user_region_immediate_full_pin, omx__user_region_pin_continue.
  destruct (pin_loop _ _ _ _ _ _) as [[[r1 put1] ret1]|] eqn:E; [|done]. cbn [mbind option_bind].
  apply pin_loop_refcount in E. by destruct ret1; intros [= <- _ _].
Qed.

(** The segments of the user that are not empty. *)
Definition nonempty (usegs : list (Z * Z)) : list (Z * Z) := filter (fun u => snd u <> 0) usegs.
Definition usegs_ok (usegs : list (Z * Z)) : Prop :=
  Forall useg_ok (nonempty usegs) /\ tot (nonempty usegs) < 2 ^ 64.

Lemma add_segments_spec alloc usegs : forall i us r r' ret, user_region us r -> refcount r = 1 ->
  usegs_ok usegs -> tot us + tot (nonempty usegs) < 2 ^ 64 -> add_segments alloc i usegs r = (ret, r') ->
  refcount r' = 1 /\ (ret = ENOMEM \/ ret = 0 /\ user_region (us ++ nonempty usegs) r').
Proof.
  induction usegs as [|[vaddr len] usegs IH]; intros i us r r' ret Hr Href [Hok Ht] Hlt; cbn [add_segments].
  { intros [= <- <-]. split; [done|]. right. by rewrite app_nil_r. }
  unfold nonempty in *. rewrite filter_cons in Hok, Hlt, Ht |- *. cbn [snd] in *. destruct (Z.eqb_spec len 0) as [->|Hz].
  { destruct (decide (0 <> 0)); [done|]. by apply IH. }
  destruct (decide (len <> 0)) as [_|]; [|done]. apply Forall_cons in Hok as [Hu Hok]. rewrite tot_cons in Hlt, Ht.
  pose proof (tot_nonneg _ Hok). cbn [snd] in *.
  destruct (alloc i).
  - change (omx_user_region_add_segment true vaddr len) with
      (omx_user_region_add_segment true (fst (vaddr, len)) (snd (vaddr, len))).
    rewrite (add_segment_at id) by done. destruct Hr as (Hus & Hs & Htot & Hreg). pose proof (tot_nonneg _ Hus).
    assert (Happ : tot (us ++ [(vaddr, len)]) = tot us + len) by by rewrite tot_app, tot_single.
    rewrite (cons_middle (vaddr, len)), app_assoc. apply IH; [|done|split; [done|unfold nonempty; destruct Hu as (_ & ? & _); cbn [snd] in *; lia]|].
    + split; [apply Forall_app; by split; [|apply Forall_singleton]|]. fsimp. split; [|split; [|done]].
      * rewrite !fmap_app, Hs. f_equal. cbn [fmap list_fmap fst snd]. f_equal. by apply (add_segment_at id (vaddr, len)).
      * rewrite Happ, Htot. cbn [seg_at sg_length snd]. apply u64_small.
        change (2 ^ 64) with 18446744073709551616 in *. destruct Hu as (_ & ? & _). cbn [snd] in *. lia.
    + rewrite Happ. lia.
  - intros [= <- <-]. split; [done|]. by left.
Qed.

Section ops.
Context (gup : Z -> Z -> Z * list Z) (sync : bool) (min max : Z).
(** Pinning a region of the user ends, well or not. *)
Context (Hpin : forall us r, user_region us r -> omx_user_region_immediate_full_pin gup min max r <> None).
#[local] Notation create := (omx_ioctl_user_region_create gup sync min max).

(** A call as the kernel may make it. *)
Definition create_allowed (c : create_call) (s : regions) : Prop :=
  (forall id, cc_id c = Some id -> 0 <= id) /\ (forall us, cc_usegs c = Some us -> usegs_ok us) /\
  (forall p, cc_region c = Some p -> heap s !! p = None).
Lemma refs_ok_put s ext f : refs_ok s ext -> refs_ok (s <| put_pages ::= f |>) ext.
Proof. by intros [H1 H2 H3 H4]; split. Qed.

Lemma create_ok c s ext : refs_ok s ext -> create_allowed c s ->
  exists s' ret, create c s = Some (s', ret) /\ refs_ok s' ext /\ rcu s' = rcu s.
Proof.
  intros H (Hid & Hus & Hp). unfold omx_ioctl_user_region_create. destruct (negb _); [by eauto|].
  destruct (cc_id c) as [id|]; [|by eauto]. specialize (Hid id eq_refl). destruct (Z.leb_spec OMX_USER_REGION_MAX id); [by eauto|].
  destruct (negb _); [by eauto|]. destruct (cc_usegs c) as [us|]; [|by eauto]. specialize (Hus us eq_refl).
  destruct (cc_region c) as [p|]; [|by eauto]. specialize (Hp p eq_refl).
  destruct (add_segments _ _ _ _) as [ret r] eqn:E.
  apply (add_segments_spec _ _ _ []) in E as [Href Hret]; [|by repeat constructor|done|done|].
  2:{ destruct Hus as [_ Ht]. change (tot []) with 0. lia. }
  destruct Hret as [->|[-> Hu]].
  { change (ENOMEM <? 0) with true. cbn match. do 2 eexists. split; [reflexivity|]. split; [by apply refs_ok_put|done]. }
  change (0 <? 0) with false. cbn match. set (r0 := r <| status := _ |> <| total_registered_length := 0 |>).
  assert (Hu0 : user_region (nonempty us) r0) by (destruct Hu as (Ha & Hb & Hc & _); by split).
  assert (Hpinned : exists r1 put ret, create_pin gup sync min max r0 = Some (r1, put, ret) /\ refcount r1 = 1).
  { unfold create_pin. destruct sync; [|by exists r0, [], 0]. pose proof (Hpin _ _ Hu0) as Hnn.
    destruct (omx_user_region_immediate_full_pin gup min max r0) as [[[r1 put] ret]|] eqn:Ep; [|done].
    cbn [mbind option_bind]. exists r1, put. eexists. split; [done|]. by rewrite (full_pin_refcount _ _ _ _ _ _ _ Ep). }
  destruct Hpinned as (r1 & put & ret & -> & Hr1). cbn [mbind option_bind].
  destruct (ret <? 0); [by do 2 eexists; split; [reflexivity|]; split; [by do 2 apply refs_ok_put|]|]. fsimp.
  destruct (user_regions s !! id) eqn:Eid; do 2 eexists; (split; [reflexivity|]); (split; [|done]).
  - by do 2 apply refs_ok_put.
  - by apply new_ok; [apply refs_ok_put|..].
Qed.

(** ** Executions *)

(** What the application, the users of the regions in the driver and the
    kernel do, in any order.  The second component of a state is what was
    acquired and not released yet. *)
Inductive op :=
  | Create (c : create_call)
  | Destroy (cmd : option Z)
  | Acquire (rdma_id : Z)
  | Reacquire (p : Z)
  | Release (in_interrupt : bool) (p : Z)
  | Grace (in_interrupt : bool) (p : Z)   (** a grace period ends for [p] *)
  | Work (p : Z)                          (** a scheduled work runs *)
  | Exit.
#[local] Notation state := (regions * list Z)%type.
Definition step (o : op) (st : state) : option state :=
  let '(s, held) := st in
  match o with
  | Create c => '(s, _) ← create c s; Some (s, held)
  | Destroy cmd => Some (fst (omx_ioctl_user_region_destroy cmd s), held)
  | Acquire id => '(p, s) ← omx_user_region_acquire id s; Some (s, option_list p ++ held)
  | Reacquire p => s ← omx_user_region_reacquire p s; Some (s, p :: held)
  | Release intr p => s ← omx_user_region_release intr p s; Some (s, remove1 p held)
  | Grace intr p =>
      s ← __omx_user_region_rcu_release_callback intr p (s <| rcu ::= remove1 p |>); Some (s, held)
  | Work p => s ← omx_region_destroy_workfunc p (s <| works ::= remove1 p |>); Some (s, held)
  | Exit => Some (omx_endpoint_user_regions_exit s, held)
  end.
(** Users release what they hold; callbacks and works run when they are due. *)
Definition allowed (o : op) (st : state) : Prop :=
  let '(s, held) := st in
  match o with
  | Create c => create_allowed c s
  | Destroy _ | Acquire _ | Exit => True
  | Reacquire p | Release _ p => p ∈ held
  | Grace _ p => p ∈ rcu s
  | Work p => p ∈ works s
  end.
Fixpoint run (ops : list op) (st : state) : option state :=
  match ops with [] => Some st | o :: ops => st ← step o st; run ops st end.
Fixpoint run_allowed (ops : list op) (st : state) : Prop :=
  match ops with
  | [] => True
  | o :: ops => allowed o st /\ match step o st with Some st => run_allowed ops st | None => True end
  end.

Definition ext_of (st : state) (p : Z) : Z := cnt (rcu (fst st)) p + cnt (snd st) p.
Lemma held_ref s held p : refs_ok s (ext_of (s, held)) -> p ∈ rcu s \/ p ∈ held ->
  exists r, heap s !! p = Some r /\ 0 < refcount r.
Proof.
  intros H Hp. assert (Hx : 0 < ext_of (s, held) p).
  { unfold ext_of. cbn [fst snd]. pose proof (cnt_nonneg (rcu s) p). pose proof (cnt_nonneg held p).
    destruct Hp as [Hp|Hp]; apply cnt_pos in Hp; lia. }
  destruct (ro_ext _ _ H p) as [_ Hl]. destruct (Hl Hx) as [r Hr]. exists r. split; [done|].
  destruct (ro_count _ _ H p r Hr) as [-> _]. pose proof (in_table_range s p r). lia.
Qed.
Lemma exit_loop_ok ids : forall s ext, refs_ok s ext -> exists ext', refs_ok (exit_loop ids s) ext' /\
  (forall p, ext' p - cnt (rcu (exit_loop ids s)) p = ext p - cnt (rcu s) p) /\
  forall id, user_regions (exit_loop ids s) !! id = if decide (id ∈ ids) then None else user_regions s !! id.
Proof.
  induction ids as [|id ids IH]; intros s ext H; cbn [exit_loop].
  { exists ext. split; [done|]. split; [done|]. intros id. destruct (decide _) as [Hin|]; [|done].
    by apply not_elem_of_nil in Hin. }
  destruct (user_regions s !! id) as [p|] eqn:Hid.
  - destruct (IH _ _ (unlink_ok s ext id p H Hid)) as (ext' & Hok & Hx & Ht). exists ext'. split; [done|].
    split.
    + intros q. rewrite Hx. unfold unlink_region, plus1. fsimp. rewrite cnt_app, cnt_cons. change (cnt [] q) with 0. lia.
    + intros id'. rewrite Ht. unfold unlink_region. fsimp.
      destruct (decide (id' ∈ ids)) as [Hin|Hn], (decide (id' ∈ id :: ids)) as [Hin'|Hn']; try done.
      * exfalso. apply Hn', elem_of_cons. by right.
      * apply elem_of_cons in Hin' as [->|]; [apply lookup_delete_eq|done].
      * apply lookup_delete_ne. intros <-. apply Hn', elem_of_cons. by left.
  - destruct (IH _ _ H) as (ext' & Hok & Hx & Ht). exists ext'. split; [done|]. split; [done|]. intros id'. rewrite Ht.
    destruct (decide (id' ∈ ids)) as [Hin|Hn], (decide (id' ∈ id :: ids)) as [Hin'|Hn']; try done.
    + exfalso. apply Hn', elem_of_cons. by right.
    + by apply elem_of_cons in Hin' as [->|].
Qed.

Lemma step_ok o s held : refs_ok s (ext_of (s, held)) -> allowed o (s, held) ->
  exists st, step o (s, held) = Some st /\ refs_ok (fst st) (ext_of st).
Proof.
  intros H Ha. destruct o as [c|cmd|id|p|intr p|intr p|p|]; cbn [step allowed] in *.
  - destruct (create_ok c s _ H Ha) as (s' & ret & -> & H' & Hr). eexists. split; [reflexivity|].
    eapply refs_ok_ext; [|exact H']. intros p. unfold ext_of. cbn [fst snd]. by rewrite Hr.
  - eexists. split; [reflexivity|]. unfold omx_ioctl_user_region_destroy. destruct cmd as [id|]; [|done].
    destruct (_ <=? _); [done|]. destruct (user_regions s !! id) as [p|] eqn:Hid; [|done]. cbn [fst].
    eapply refs_ok_ext; [|exact (unlink_ok s _ id p H Hid)]. intros q. unfold plus1, ext_of, unlink_region. cbn [fst snd].
    fsimp. rewrite cnt_app, cnt_cons. change (cnt [] q) with 0. lia.
  - unfold omx_user_region_acquire. destruct (_ <=? _); [by eexists|].
    destruct (user_regions s !! id) as [p|] eqn:Hid; [|by eexists].
    destruct (ro_table _ _ H id p Hid) as (_ & r & Hp & Hr).
    destruct (in_table_1 s _ id p r H Hid Hp) as [_ Ht]. destruct (ro_count _ _ H p r Hp) as [Hc _].
    destruct (ro_ext _ _ H p) as [Hx _].
    destruct (get_ok s _ p r H Hp) as (s' & -> & H' & _ & Hrcu & _); [lia|]. eexists. split; [reflexivity|].
    eapply refs_ok_ext; [|exact H']. intros q. unfold plus1, ext_of. cbn [fst snd]. change (option_list (Some p) ++ held) with (p :: held).
    rewrite Hrcu, cnt_cons. lia.
  - destruct (held_ref s held p H (or_intror Ha)) as (r & Hp & Hr). unfold omx_user_region_reacquire.
    destruct (get_ok s _ p r H Hp Hr) as (s' & -> & H' & _ & Hrcu & _). eexists. split; [reflexivity|].
    eapply refs_ok_ext; [|exact H']. intros q. unfold plus1, ext_of. cbn [fst snd].
    rewrite Hrcu, cnt_cons. lia.
  - unfold omx_user_region_release.
    destruct (put_ok intr s (ext_of (s, remove1 p held)) p) as (s' & -> & H' & _ & Hrcu).
    + eapply refs_ok_ext; [|exact H]. intros q. unfold plus1, ext_of. cbn [fst snd].
      rewrite <- (cnt_remove1 p held q Ha), cnt_cons. lia.
    + unfold ext_of. pose proof (cnt_nonneg (rcu s) p). pose proof (cnt_nonneg (remove1 p held) p). cbn [fst snd]. lia.
    + eexists. split; [reflexivity|]. eapply refs_ok_ext; [|exact H']. intros q. unfold ext_of. cbn [fst snd]. by rewrite Hrcu.
  - unfold __omx_user_region_rcu_release_callback. set (s1 := s <| rcu ::= _ |>).
    destruct (put_ok intr s1 (ext_of (s1, held)) p) as (s' & -> & H' & _ & Hrcu).
    + apply (refs_ok_ext s1 (ext_of (s, held))); [|by destruct H as [H1 H2 H3 H4]; split]. intros q.
      unfold plus1, ext_of, s1. cbn [fst snd]. fsimp. rewrite <- (cnt_remove1 p (rcu s) q Ha), cnt_cons. lia.
    + unfold ext_of. pose proof (cnt_nonneg (rcu s1) p). pose proof (cnt_nonneg held p). cbn [fst snd]. lia.
    + eexists. split; [reflexivity|]. eapply refs_ok_ext; [|exact H']. intros q. unfold ext_of. cbn [fst snd]. by rewrite Hrcu.
  - destruct (proj2 (ro_works _ _ H) p Ha) as [r Hp]. unfold omx_region_destroy_workfunc. fsimp. rewrite Hp.
    cbn [mbind option_bind]. eexists. split; [reflexivity|]. cbn [fst].
    eapply refs_ok_ext; [|apply free_ok; [exact H|exact Hp|]]; [done|]. by apply (ro_count _ _ H p r Hp).
  - eexists. split; [reflexivity|]. destruct (exit_loop_ok (seqZ 0 OMX_USER_REGION_MAX) s _ H) as (ext' & Hok & Hx & _).
    unfold omx_endpoint_user_regions_exit. eapply refs_ok_ext; [|exact Hok]. intros q. specialize (Hx q).
    unfold ext_of in *. cbn [fst snd] in *. lia.
Qed.
Lemma run_ok ops : forall st, refs_ok (fst st) (ext_of st) -> run_allowed ops st ->
  exists st', run ops st = Some st' /\ refs_ok (fst st') (ext_of st').
Proof.
  induction ops as [|o ops IH]; intros [s held] H Ha; [by eexists|]. cbn [run_allowed run] in *. destruct Ha as [Ho Ha].
  destruct (step_ok o s held H Ho) as (st' & E & H'). rewrite E in Ha |- *. cbn [mbind option_bind]. by apply IH.
Qed.

(** C35. Whatever the order of creations, destructions, acquisitions, releases,
    grace periods and works, no freed region is accessed: every step succeeds;
    the regions that users hold are allocated, and so are those of the table,
    under their own identifiers and with a reference; and when the endpoint has
    left, no callback or work is due and no user holds anything, all regions
    were freed. *)
Theorem regions_never_used_after_free ops : run_allowed ops (omx_endpoint_user_regions_init, []) ->
  exists s held, run ops (omx_endpoint_user_regions_init, []) = Some (s, held) /\
    (forall p, p ∈ held -> is_Some (heap s !! p)) /\
    (forall id p, user_regions s !! id = Some p -> exists r, heap s !! p = Some r /\ rg_id r = id /\ 0 < refcount r) /\
    (rcu s = [] -> works s = [] -> held = [] -> user_regions s = ∅ -> heap s = ∅).
Proof.
  intros Ha. destruct (run_ok ops (omx_endpoint_user_regions_init, [])) as ([s held] & E & H); [|done|].
  { split; cbn; [done| |done|]; [intros p; by split|split; [constructor|intros p Hp; by apply not_elem_of_nil in Hp]]. }
  exists s, held. split; [exact E|]. cbn [fst] in H. split; [|split].
  - intros p Hp. destruct (held_ref s held p H (or_intror Hp)) as (r & Hr & _). by exists r.
  - intros id p Hid. destruct (ro_table _ _ H id p Hid) as (_ & r & Hp & Hr). exists r. split; [done|]. split; [done|].
    destruct (in_table_1 s _ id p r H Hid Hp) as [_ Ht]. destruct (ro_count _ _ H p r Hp) as [Hc _].
    destruct (ro_ext _ _ H p) as [Hx _]. lia.
  - intros Hr Hw Hh Ht. apply map_eq. intros p. rewrite lookup_empty. destruct (heap s !! p) as [r|] eqn:Hp; [|done].
    exfalso. destruct (ro_count _ _ H p r Hp) as [Hc Hz]. unfold in_table, ext_of in Hc. cbn [fst snd] in Hc.
    rewrite Hr, Hh, Ht, lookup_empty in Hc. change (cnt [] p) with 0 in Hc.
    destruct (decide (None = Some p)); [done|]. rewrite Hw in Hz. apply (not_elem_of_nil p), Hz. lia.
Qed.
End ops.

(** A user of the region outlives its destruction. *)
Definition life_ops : list op :=
  [Create (CreateCall true (Some 3) true (Some two_buffers) (Some 100) (fun _ => true));
   Acquire 3; Destroy (Some 3); Acquire 3; Grace true 100; Release true 100; Exit].
Lemma table_pin_ends pt min max : 1 <= min -> forall us r, user_region us r ->
  omx_user_region_immediate_full_pin (table_gup pt) min max r <> None.
Proof. intros Hmin us r Hr. by destruct (full_pin_result pt min max Hmin us r Hr) as [x ->]. Qed.
Lemma regions_never_used_after_free_witness : exists s held,
  run (table_gup high_table) true 1 2 life_ops (omx_endpoint_user_regions_init, []) = Some (s, held) /\
  held = [] /\ heap s = ∅ /\ put_pages s = Some <$> [1001; 1002; 1003; 1010].
Proof.
  destruct (regions_never_used_after_free (table_gup high_table) true 1 2 (table_pin_ends high_table 1 2 ltac:(done))
    life_ops) as (s & held & E & _ & _ & Hfree).
  - cbn [life_ops run_allowed]. split.
    { split; [by intros id [= <-]|]. split; [intros us [= <-]|done].
      split; [repeat constructor|]; by vm_compute. }
    vm_compute. repeat (split || (apply elem_of_cons; left) || done).
  - exists s, held. split; [exact E|].
    assert (Hs : held = [] /\ rcu s = [] /\ works s = [] /\ user_regions s = ∅ /\
      put_pages s = Some <$> [1001; 1002; 1003; 1010]).
    { vm_compute in E. injection E as <- <-. repeat split. }
    destruct Hs as (-> & H1 & H2 & H3 & H4). split; [done|]. split; [by apply Hfree|done].
Defined.
End RegRefs.
