(* ===== verification/RegShared.v ===== *)
(** Copies from the pinned pages of a region to a region of the current
    process, through its page table ([driver/linux/omx_reg.c]): what a pull
    inside a host does. *)
From S2P Require Import Prelude Segments Reg RegCopy.
Import Mem Reg RegCopy.

Module RegShared.

Section copy.
(** The page table of the process: a page that is not mapped is a fault. *)
Context (page_table : Z -> option Z).
Definition phys (vaddr : Z) : option Z :=
  (fun p => p * PAGE_SIZE + vaddr mod PAGE_SIZE) <$> page_table (vaddr / PAGE_SIZE).
(** The bytes before a fault are written. *)
Fixpoint copy_to_user (vaddr : Z) (data : list Z) (m : mem) : bool * mem :=
  match data with
  | [] => (true, m)
  | b :: data =>
      match phys vaddr with
      | None => (false, m)
      | Some a => copy_to_user (vaddr + 1) data (<[a := b]> m)
      end
  end.

(** The segment that holds an offset, and the offset in it; [None] is a read
    behind the array of segments. *)
Fixpoint find_segment (l : list segment) (i : nat) (offset : Z) : option (nat * segment * Z) :=
  match l with
  | [] => None
  | sg :: l => if offset <? sg_length sg then Some (i, sg, offset) else find_segment l (S i) (offset - sg_length sg)
  end.

(** Where the copy stands in the source: segment, offset in it, page, offset in
    the page; and in the destination: segment, offset, address. *)
Record src_pos := SrcPos { ps_seg : nat; ps_off : Z; ps_page : Z; ps_pageoff : Z }.
Record dst_pos := DstPos { pd_seg : nat; pd_off : Z; pd_vaddr : Z }.

Definition advance_src (r : region) (chunk : Z) (p : src_pos) (sg : segment) : option src_pos :=
  if ps_off p + chunk =? sg_length sg then
    next ← segments r !! S (ps_seg p); Some (SrcPos (S (ps_seg p)) 0 0 (first_page_offset next))
  else if ps_pageoff p + chunk =? PAGE_SIZE then Some (SrcPos (ps_seg p) (ps_off p + chunk) (ps_page p + 1) 0)
  else Some (SrcPos (ps_seg p) (ps_off p + chunk) (ps_page p) (ps_pageoff p + chunk)).
Definition dst_start (sg : segment) : Z := aligned_vaddr sg + first_page_offset sg.
Definition advance_dst (r : region) (chunk : Z) (p : dst_pos) (sg : segment) : option dst_pos :=
  if pd_off p + chunk =? sg_length sg then
    next ← segments r !! S (pd_seg p); Some (DstPos (S (pd_seg p)) 0 (dst_start next))
  else Some (DstPos (pd_seg p) (pd_off p + chunk) (pd_vaddr p + chunk)).

Context (omx_pin_progressive : bool).
(** The rounds; [soff] is the offset in the region, [spinlen] the length that is
    known to be pinned.  [None] is a page that is not there, a segment behind
    the array, or waiting for pages that nobody pins yet. *)
Fixpoint copy_rounds (fuel : nat) (src dst : region) (s : src_pos) (d : dst_pos) (soff spinlen remaining : Z) (m : mem)
    : option (Z * mem) :=
  match fuel with
  | O => None
  | S fuel =>
      sseg ← segments src !! ps_seg s;
      dseg ← segments dst !! pd_seg d;
      let chunk := u32 remaining in
      let chunk := if PAGE_SIZE - ps_pageoff s <? chunk then PAGE_SIZE - ps_pageoff s else chunk in
      let chunk := if sg_length sseg - ps_off s <? chunk then sg_length sseg - ps_off s else chunk in
      let chunk := if sg_length dseg - pd_off d <? chunk then sg_length dseg - pd_off d else chunk in
      ret ← (if omx_pin_progressive && (spinlen <? soff + chunk)
             then omx_user_region_parallel_pin_wait src (soff + chunk) else Some (inr spinlen));
      match ret with
      | inl err => Some (err, m)
      | inr spinlen =>
          p ← get_page sseg (ps_page s);
          let '(ok, m) := copy_to_user (pd_vaddr d) (load m (p * PAGE_SIZE + ps_pageoff s) (Z.to_nat chunk)) m in
          if negb ok then Some (EFAULT, m)
          else if remaining - chunk =? 0 then Some (0, m)
          else
            s ← advance_src src chunk s sseg;
            d ← advance_dst dst chunk d dseg;
            copy_rounds fuel src dst s d (soff + chunk) spinlen (remaining - chunk) m
      end
  end.
(* [driver/linux/omx_reg.c:1454-1572] omx_memcpy_between_user_regions_to_current *)
Definition omx_memcpy_between_user_regions_to_current (src : region) (src_offset : Z) (dst : region) (dst_offset length : Z)
    (m : mem) : option (Z * mem) :=
  '(i, sseg, ssegoff) ← find_segment (segments src) 0 src_offset;
  let first := ssegoff + first_page_offset sseg in
  '(j, dseg, dsegoff) ← find_segment (segments dst) 0 dst_offset;
  copy_rounds (Z.to_nat length) src dst
    (SrcPos i ssegoff (page_index_of first) (page_offset_of first)) (DstPos j dsegoff (dst_start dseg + dsegoff))
    src_offset 0 length m.
(* [driver/linux/omx_reg.c:1767-1785] omx_copy_between_user_regions *)
Definition omx_copy_between_user_regions (src : region) (src_offset : Z) (dst : region) (dst_offset length : Z) (m : mem)
    : option (Z * mem) :=
  if length =? 0 then Some (0, m)
  else if (total_length src <? u64 (src_offset + length)) || (total_length dst <? u64 (dst_offset + length)) then Some (EINVAL, m)
  else omx_memcpy_between_user_regions_to_current src src_offset dst dst_offset length m.
(** ** What a copy does *)

(** A write through the page table is a write to the physical addresses. *)
Lemma copy_to_user_write data : forall vaddr pa m, Forall2 (fun v a => phys v = Some a) (span vaddr (length data)) pa ->
  copy_to_user vaddr data m = (true, write m pa data).
Proof.
  induction data as [|b data IH]; intros vaddr pa m H.
  - apply Forall2_nil_inv_l in H as ->. done.
  - change (length (b :: data)) with (1 + length data)%nat in H. rewrite span_app in H.
    apply Forall2_cons_inv_l in H as (a & pa' & Ha & H & ->). cbn [copy_to_user].
    replace (vaddr + Z.of_nat 0) with vaddr in Ha by lia. rewrite Ha.
    rewrite (IH (vaddr + 1) pa'); [done|exact H].
Qed.

(** The virtual addresses of a region. *)
Definition seg_vaddrs (sg : segment) : list Z := span (dst_start sg) (Z.to_nat (sg_length sg)).
Definition vaddrs_of (l : list segment) : list Z := flat_map seg_vaddrs l.

Lemma find_position_spec {A} (g : A -> segment) (f : A -> list Z) (l : list A) :
  Forall (fun x => length (f x) = Z.to_nat (sg_length (g x)) /\ 0 < sg_length (g x)) l ->
  forall i0 off, 0 <= off < Z.of_nat (length (flat_map f l)) ->
  exists k x off', find_segment (g <$> l) i0 off = Some ((i0 + k)%nat, g x, off') /\ l !! k = Some x /\
    0 <= off' < sg_length (g x) /\ drop (Z.to_nat off) (flat_map f l) = drop (Z.to_nat off') (flat_map f (drop k l)).
Proof.
  induction 1 as [|x l [Hx Hp] Hl IH]; intros i0 off Ho; [cbn in Ho; lia|].
  cbn [fmap list_fmap find_segment flat_map] in *. rewrite length_app in Ho. destruct (Z.ltb_spec off (sg_length (g x))).
  - exists O, x, off. rewrite Nat.add_0_r. split_and!; [done..|lia|lia|done].
  - destruct (IH (S i0) (off - sg_length (g x))) as (k & y & off' & E & Hk & Ho' & Hd); [lia|].
    exists (S k), y, off'. rewrite E, <- Nat.add_succ_comm. split_and!; [done..|lia|lia|].
    cbn [drop]. rewrite drop_app_ge by lia. rewrite <- Hd. f_equal. lia.
Qed.

(** *** Positions *)

Section rounds.
Context (src : region) (l : list (segment * list Z)) (Hsrc : region_pinned src l).
Context (dst : region) (Hdst : Forall (fun sg => 0 < sg_length sg) (segments dst)).

Definition src_at (p : src_pos) : Prop := vect_at l (ps_seg p) (ps_off p) (ps_page p) (ps_pageoff p).
Definition src_rest (p : src_pos) : list Z := rest_of l (ps_seg p) (ps_off p).
Definition dst_at (p : dst_pos) : Prop := exists sg, segments dst !! pd_seg p = Some sg /\
  0 <= pd_off p < sg_length sg /\ pd_vaddr p = dst_start sg + pd_off p.
Definition dst_rest (p : dst_pos) : list Z := drop (Z.to_nat (pd_off p)) (vaddrs_of (drop (pd_seg p) (segments dst))).

Lemma length_seg_vaddrs sg : length (seg_vaddrs sg) = Z.to_nat (sg_length sg).
Proof. apply length_span. Qed.
Lemma advance_src_spec p sg ps k : src_at p -> l !! ps_seg p = Some (sg, ps) -> 0 < k -> ps_off p + k <= sg_length sg ->
  ps_pageoff p + k <= PAGE_SIZE -> (Z.to_nat k < length (src_rest p))%nat ->
  exists p', advance_src src k p sg = Some p' /\ src_at p' /\ src_rest p' = drop (Z.to_nat k) (src_rest p).
Proof.
  destruct p as [i off page pageoff]. unfold src_at, src_rest. cbn [ps_seg ps_off ps_page ps_pageoff].
  intros (sg' & ps' & Hi & H1 & H2 & H3 & H4) Hi' Hk Hseg Hpage Hlt. rewrite Hi' in Hi. injection Hi as <- <-.
  destruct (seg_lookup src l Hsrc i sg ps Hi') as [_ Hp]. unfold advance_src. cbn [ps_seg ps_off ps_page ps_pageoff].
  destruct (Z.eqb_spec (off + k) (sg_length sg)) as [He|He]; [|destruct (Z.eqb_spec (pageoff + k) PAGE_SIZE) as [Hpe|Hpe]].
  - pose proof (rest_next l i sg ps off Hi' Hp ltac:(lia)) as Hr. replace (sg_length sg - off) with k in Hr by lia.
    destruct (vect_start src l Hsrc (S i)) as (sg' & ps' & Hn & Hat); [rewrite <- Hr, length_drop; lia|].
    destruct (seg_lookup src l Hsrc (S i) sg' ps' Hn) as [-> _]. cbn [mbind option_bind].
    eexists. split; [reflexivity|]. split; [exact Hat|by rewrite Hr].
  - eexists. split; [reflexivity|]. cbn [ps_seg ps_off ps_page ps_pageoff]. split; [|rewrite rest_same by lia; done].
    exists sg, ps. change PAGE_SIZE with 4096 in *. split_and!; [done|lia..].
  - eexists. split; [reflexivity|]. cbn [ps_seg ps_off ps_page ps_pageoff]. split; [|rewrite rest_same by lia; done].
    exists sg, ps. split_and!; [done|lia..].
Qed.
Lemma advance_dst_spec p sg k : dst_at p -> segments dst !! pd_seg p = Some sg -> 0 < k -> pd_off p + k <= sg_length sg ->
  (Z.to_nat k < length (dst_rest p))%nat ->
  exists p', advance_dst dst k p sg = Some p' /\ dst_at p' /\ dst_rest p' = drop (Z.to_nat k) (dst_rest p).
Proof.
  destruct p as [j off va]. unfold dst_at, dst_rest. cbn [pd_seg pd_off pd_vaddr].
  intros (sg' & Hj & H1 & ->) Hj' Hk Hseg Hlt. rewrite Hj' in Hj. injection Hj as <-.
  rewrite (drop_S _ _ _ Hj') in *. unfold vaddrs_of in *. cbn [flat_map] in *. unfold advance_dst. cbn [pd_seg pd_off pd_vaddr].
  destruct (Z.eqb_spec (off + k) (sg_length sg)) as [He|He].
  - rewrite length_drop, length_app, length_seg_vaddrs in Hlt.
    destruct (segments dst !! S j) as [next|] eqn:Hn.
    2:{ apply lookup_ge_None in Hn. rewrite drop_ge in Hlt by done. cbn in Hlt. lia. }
    cbn [mbind option_bind]. eexists. split; [reflexivity|]. cbn [pd_seg pd_off pd_vaddr]. split.
    + exists next. split; [done|]. pose proof (proj1 (Forall_lookup _ _) Hdst _ _ Hn) as Hp. cbv beta in Hp. lia.
    + rewrite drop_0, drop_drop. by rewrite drop_app_length' by (rewrite length_seg_vaddrs; lia).
  - eexists. split; [reflexivity|]. cbn [pd_seg pd_off pd_vaddr]. split; [exists sg; split_and!; [done|lia..]|].
    rewrite (drop_S _ _ _ Hj'). cbn [flat_map]. rewrite drop_drop. f_equal. lia.
Qed.
Lemma dst_chunk p sg k : segments dst !! pd_seg p = Some sg -> 0 <= pd_off p -> 0 <= k -> pd_off p + k <= sg_length sg ->
  pd_vaddr p = dst_start sg + pd_off p -> take (Z.to_nat k) (dst_rest p) = span (pd_vaddr p) (Z.to_nat k).
Proof.
  intros Hj H1 H2 H3 Hv. unfold dst_rest. rewrite (drop_S _ _ _ Hj). unfold vaddrs_of. cbn [flat_map].
  rewrite drop_app_le by (rewrite length_seg_vaddrs; lia). rewrite take_app_le by (rewrite length_drop, length_seg_vaddrs; lia).
  unfold seg_vaddrs. rewrite drop_take_span by lia. f_equal. lia.
Qed.
Lemma src_chunk p sg ps pg k m : src_at p -> l !! ps_seg p = Some (sg, ps) -> 0 <= k -> ps_off p + k <= sg_length sg ->
  ps_pageoff p + k <= PAGE_SIZE -> ps !! Z.to_nat (ps_page p) = Some pg ->
  load m (pg * PAGE_SIZE + ps_pageoff p) (Z.to_nat k) = m <$> take (Z.to_nat k) (src_rest p).
Proof.
  destruct p as [i off page pageoff]. unfold src_at, src_rest. cbn [ps_seg ps_off ps_page ps_pageoff].
  intros (sg' & ps' & Hi & H1 & H2 & H3 & H4) Hi' Hk Hseg Hpage Hpg. rewrite Hi' in Hi. injection Hi as <- <-.
  destruct (seg_lookup src l Hsrc i sg ps Hi') as [_ Hp].
  rewrite load_span, (rest_seg l i sg ps off k) by (done || lia).
  rewrite <- H4, (flat_chunk ps page pageoff k pg); [done|lia..|done].
Qed.
Lemma write_take_app (m : mem) (pa data1 data2 : list Z) k : length data1 = k -> (k <= length pa)%nat ->
  write (write m (take k pa) data1) (drop k pa) data2 = write m pa (data1 ++ data2).
Proof. intros H1 H2. rewrite <- write_app, take_drop; [done|]. rewrite length_take. lia. Qed.
(** Bytes that no write of the copy touches are read as they were. *)
Lemma read_after_chunk (m : mem) (pa S data : list Z) k n : (k <= n)%nat ->
  (forall x, x ∈ pa -> x ∉ take n S) -> write m (take k pa) data <$> take (n - k) (drop k S) = m <$> take (n - k) (drop k S).
Proof.
  intros Hk H. apply read_frame. intros x Hx. apply write_out. intros Hin%subseteq_take. apply (H x Hin).
  replace n with (k + (n - k))%nat by lia. rewrite <- take_take_drop. apply elem_of_app. by right.
Qed.

Lemma rounds_spec fuel : status src = PINNED -> forall s d soff spinlen n m pa, src_at s -> dst_at d ->
  0 < n < 2 ^ 32 -> n <= Z.of_nat fuel -> n <= Z.of_nat (length (src_rest s)) -> n <= Z.of_nat (length (dst_rest d)) ->
  Forall2 (fun v a => phys v = Some a) (take (Z.to_nat n) (dst_rest d)) pa -> NoDup pa ->
  (forall x, x ∈ pa -> x ∉ take (Z.to_nat n) (src_rest s)) -> soff + n <= total_registered_length src ->
  copy_rounds fuel src dst s d soff spinlen n m = Some (0, write m pa (m <$> take (Z.to_nat n) (src_rest s))).
Proof.
  intros Hst. induction fuel as [|fuel IH]; intros s d soff spinlen n m pa Hs Hd Hn Hf Hls Hld Hpa Hnd Hdis Hreg; [lia|].
  pose proof Hs as (sg & ps & Hi & Ho & Hpg0 & Hpo & Hpg). pose proof Hd as (dsg & Hj & Hdo & Hva).
  destruct (seg_lookup src l Hsrc _ sg ps Hi) as [Hsi Hp]. cbn [copy_rounds]. rewrite Hsi, Hj. cbn [mbind option_bind].
  rewrite u32_small by lia. set (c1 := if _ <? n then _ else n).
  assert (H1 : 0 < c1 <= n /\ ps_pageoff s + c1 <= PAGE_SIZE) by (unfold c1; zcases; lia). clearbody c1.
  set (c2 := if _ <? c1 then _ else c1).
  assert (H2 : 0 < c2 <= c1 /\ ps_off s + c2 <= sg_length sg) by (unfold c2; zcases; lia). clearbody c2.
  set (k := if _ <? c2 then _ else c2).
  assert (Hk : 0 < k <= n /\ ps_pageoff s + k <= PAGE_SIZE /\ ps_off s + k <= sg_length sg /\ pd_off d + k <= sg_length dsg)
    by (unfold k; zcases; lia). clear H1 H2. clearbody k. clear c1 c2.
  assert (Hret : exists spin', (if omx_pin_progressive && (spinlen <? soff + k)
      then omx_user_region_parallel_pin_wait src (soff + k) else Some (inr spinlen)) = Some (inr spin')).
  { destruct (_ && _); [|by eexists]. unfold omx_user_region_parallel_pin_wait.
    rewrite (proj2 (Z.ltb_ge _ _)), Hst by lia. cbn. by eexists. }
  destruct Hret as (spin' & ->). cbn [mbind option_bind].
  destruct (page_exists ps (ps_page s) (ps_pageoff s) k) as [pg Hpage]; [lia|lia|lia|destruct Hp as [_ _ _ Hfit]; lia|].
  rewrite (get_page_pinned sg ps _ pg Hp Hpg0 Hpage). cbn [mbind option_bind].
  rewrite (src_chunk s sg ps pg k m Hs Hi) by (done || lia).
  set (data := m <$> take (Z.to_nat k) (src_rest s)).
  assert (Hdl : length data = Z.to_nat k) by (unfold data; rewrite length_fmap, length_take; lia).
  pose proof (Forall2_length _ _ _ Hpa) as Hpl. rewrite length_take, Nat.min_l in Hpl by lia.
  assert (Hpk : Forall2 (fun v a => phys v = Some a) (span (pd_vaddr d) (length data)) (take (Z.to_nat k) pa)).
  { rewrite Hdl, <- (dst_chunk d dsg k) by (done || lia).
    apply (Forall2_take _ _ _ (Z.to_nat k)) in Hpa. by rewrite take_take, Nat.min_l in Hpa by lia. }
  rewrite (copy_to_user_write data _ _ _ Hpk). cbn [negb]. destruct (Z.eqb_spec (n - k) 0) as [Hz|Hz].
  { replace n with k in * by lia. by rewrite take_ge by lia. }
  destruct (advance_src_spec s sg ps k) as (s' & -> & Hs' & Hrs); [done|done|lia..|].
  destruct (advance_dst_spec d dsg k) as (d' & -> & Hd' & Hrd); [done|done|lia..|]. cbn [mbind option_bind].
  rewrite (IH s' d' _ _ _ _ (drop (Z.to_nat k) pa) Hs' Hd'); rewrite ?Hrs, ?Hrd; rewrite ?length_drop; try lia.
  - do 2 f_equal. replace (Z.to_nat (n - k)) with (Z.to_nat n - Z.to_nat k)%nat by lia.
    rewrite read_after_chunk by (done || lia). rewrite write_take_app by lia. f_equal. unfold data.
    rewrite <- fmap_app. f_equal. replace (Z.to_nat n) with (Z.to_nat k + (Z.to_nat n - Z.to_nat k))%nat at 2 by lia. apply take_take_drop.
  - apply (Forall2_drop _ _ _ (Z.to_nat k)) in Hpa. rewrite take_drop_commute.
    by replace (Z.to_nat k + Z.to_nat (n - k))%nat with (Z.to_nat n) by lia.
  - rewrite <- (take_drop (Z.to_nat k) pa) in Hnd. by apply NoDup_app in Hnd as (_ & _ & ?).
  - intros x Hx Hin. apply (Hdis x); [by eapply subseteq_drop|].
    replace (Z.to_nat n) with (Z.to_nat k + Z.to_nat (n - k))%nat by lia. rewrite <- take_take_drop. apply elem_of_app. by right.
Qed.
End rounds.

(** The regions of a copy: the source has its pages, the segments of the
    destination are not empty. *)
Record copy_ready (src : region) (l : list (segment * list Z)) (dst : region) : Prop := {
  cr_src : region_pinned src l;
  cr_status : status src = PINNED;
  cr_registered : total_registered_length src = total_length src;
  cr_segments : Forall (fun sg => 0 < sg_length sg) (segments dst);
  cr_total : total_length dst = Z.of_nat (length (vaddrs_of (segments dst)));
  cr_bounds : total_length src < 2 ^ 63 /\ total_length dst < 2 ^ 63
}.
(** The physical addresses of [n] bytes of the destination from an offset. *)
Definition dst_phys (dst : region) (offset n : Z) (pa : list Z) : Prop :=
  Forall2 (fun v a => phys v = Some a) (take (Z.to_nat n) (drop (Z.to_nat offset) (vaddrs_of (segments dst)))) pa.

Lemma copy_between_spec src l dst so d n m pa : copy_ready src l dst -> 0 <= so -> 0 <= d -> 0 <= n < 2 ^ 32 ->
  so + n <= total_length src -> d + n <= total_length dst -> dst_phys dst d n pa -> NoDup pa ->
  (forall x, x ∈ pa -> x ∉ take (Z.to_nat n) (drop (Z.to_nat so) (addrs_of l))) ->
  omx_copy_between_user_regions src so dst d n m =
    Some (0, write m pa (take (Z.to_nat n) (drop (Z.to_nat so) (region_bytes m l)))).
Proof.
  intros [Hs Hst Hr Hseg Ht [Hb1 Hb2]] H1 H2 H3 H4 H5 Hpa Hnd Hdis. pose proof Hs as [Hsegs Hpin Hts _].
  unfold region_bytes. rewrite <- fmap_drop, <- fmap_take. unfold omx_copy_between_user_regions.
  destruct (Z.eqb_spec n 0) as [->|Hn]; [cbn; by destruct pa|].
  rewrite !u64_small by lia. rewrite !(proj2 (Z.ltb_ge _ _)) by lia. cbn [orb].
  unfold omx_memcpy_between_user_regions_to_current.
  destruct (find_position_spec fst (fun x => seg_addrs (fst x) (snd x)) l) with (i0 := O) (off := so) as (i & [sg ps] & off & E & Hi & Ho & Hd1).
  { apply (Forall_impl _ _ _ Hpin). intros [sg ps] Hp. split; [by apply length_seg_addrs|by destruct Hp]. }
  { fold (addrs_of l). unfold seg_total in Hts. lia. }
  rewrite Hsegs, E. cbn [mbind option_bind fst snd Nat.add] in *.
  destruct (find_position_spec id seg_vaddrs (segments dst)) with (i0 := O) (off := d) as (j & dsg & doff & E' & Hj & Hdo & Hd2).
  { apply (Forall_impl _ _ _ Hseg). intros x Hx. split; [apply length_seg_vaddrs|done]. }
  { fold (vaddrs_of (segments dst)). lia. }
  rewrite list_fmap_id in E'. rewrite E'. cbn [mbind option_bind Nat.add]. unfold id in *.
  destruct (seg_lookup src l Hs i sg ps Hi) as [_ Hp]. pose proof Hp as [_ Hfo _ _].
  destruct (page_split (off + first_page_offset sg)) as (Hx & Hpo & Hpi); [lia|].
  change (flat_map (fun x => seg_addrs (fst x) (snd x)) l) with (addrs_of l) in *.
  change (flat_map seg_vaddrs (segments dst)) with (vaddrs_of (segments dst)) in *.
  change (flat_map seg_vaddrs (drop j (segments dst))) with (vaddrs_of (drop j (segments dst))) in *.
  unfold dst_phys in Hpa. rewrite Hd2 in Hpa. rewrite Hd1 in Hdis. rewrite Hd1.
  apply (rounds_spec src l Hs dst Hseg (Z.to_nat n) Hst (SrcPos i off _ _) (DstPos j doff _));
    unfold src_rest, dst_rest, rest_of; cbn [ps_seg ps_off pd_seg pd_off]; try done; try lia.
  - exists sg, ps. cbn [ps_seg ps_off ps_page ps_pageoff]. split_and!; [done|lia..].
  - exists dsg. split_and!; [done|cbn; lia..].
  - change (drop (Z.to_nat off) (addrs_of (drop i l))) with (drop (Z.to_nat off) (flat_map (fun x => seg_addrs x.1 x.2) (drop i l))).
    rewrite <- Hd1, length_drop. unfold seg_total in Hts. lia.
  - rewrite <- Hd2, length_drop. lia.
Qed.
End copy.
End RegShared.
