(* ===== verification/Peer.v ===== *)
(** What the driver's packet handlers use of the peer table
    ([driver/linux/omx_peer.c]): the peer of an index, the index this host has
    at a peer, and the peer of an address. *)
From S2P Require Import Prelude.

Module Peer.

Definition EINVAL : Z := -22.

(** The array of the peers' addresses by index, its size, the hash array, and
    the indexes this host has in the tables of its peers. *)
Record peers := Peers {
  omx_peer_array : gmap Z Z; omx_peer_max : Z; omx_peer_addr_hash_array : Z -> list (Z * Z);
  reverse_peer_indexes : Z -> Z }.

#[export] Instance e_peers : Settable peers := fun t => Peers (omx_peer_array t) (omx_peer_max t)
  (omx_peer_addr_hash_array t) (reverse_peer_indexes t).
#[export] Instance s_reverse_peer_indexes : Setter reverse_peer_indexes. Proof. mk_setter. Defined.

(* [driver/linux/omx_peer.c:132-141] omx_peer_addr_hash *)
Definition omx_peer_addr_hash (board_addr : Z) : Z :=
  let tmp24 := u32 (Z.lxor board_addr (Z.shiftr board_addr 24)) in
  u8 (Z.lxor (Z.lxor tmp24 (Z.shiftr tmp24 8)) (Z.shiftr tmp24 16)).

(** The header's destination address and peer index, or the error. *)
(* [driver/linux/omx_peer.c:575-600] omx_set_target_peer *)
Definition omx_set_target_peer (t : peers) (index : Z) : Z + Z * Z :=
  if omx_peer_max t <=? index then inl EINVAL
  else
    match omx_peer_array t !! index with
    | None => inl EINVAL
    | Some addr => inr (addr, reverse_peer_indexes t index)
    end.

(* [driver/linux/omx_peer.c:602-635] omx_check_recv_peer_index *)
Definition omx_check_recv_peer_index (t : peers) (index addr : Z) : Z :=
  if omx_peer_max t <=? index then EINVAL
  else match omx_peer_array t !! index with None => EINVAL | Some _ => 0 end.

(** The lists hold an index and an address. *)
(* [driver/linux/omx_peer.c:692-705] omx_peer_lookup_by_addr_locked *)
Definition omx_peer_lookup_by_addr_locked (t : peers) (board_addr : Z) : option (Z * Z) :=
  find (fun peer => snd peer =? board_addr) (omx_peer_addr_hash_array t (omx_peer_addr_hash board_addr)).

(** The index of the peer is [index]. *)
(* [driver/linux/omx_peer.c:555-573] omx_peer_set_reverse_index *)
Definition omx_peer_set_reverse_index (index reverse_index : Z) (t : peers) : peers :=
  if reverse_index =? reverse_peer_indexes t index then t
  else t <| reverse_peer_indexes ::= <[index := reverse_index]> |>.
End Peer.
