(* ===== verification/Pull.v ===== *)
(** The pull engine of the driver ([driver/linux/omx_pull.c]): the handles of
    the pulls of an endpoint and the slots that find them, requests by blocks
    of frames, replies in any order, retransmissions, completion and errors;
    the side that answers requests.

    The driver has one open endpoint.  What runs under a lock is one step;
    [omx_recv_pull_reply] is cut where it releases the lock of the handle to
    copy the data.  There is no DMA engine and the wire format is the one
    without MX compatibility.  [None] is a [BUG_ON], a use of freed or
    uninitialised memory, or an undefined shift. *)
From S2P Require Import Prelude Segments Reg RegTable Peer.
Import Mem Reg RegTable Peer.

Module Pull.

(** ** Packets *)

(* [common/omx_wire.h:427-449] omx_pkt_pull_request *)
Record pull_request := PullRequest {
  rq_dst_endpoint : Z; rq_src_endpoint : Z; rq_session : Z; rq_total_length : Z; rq_pulled_rdma_id : Z;
  rq_pulled_rdma_seqnum : Z; rq_pulled_rdma_offset : Z; rq_src_pull_handle : Z; rq_src_magic : Z;
  rq_first_frame_offset : Z; rq_block_length : Z; rq_frame_index : Z }.
(** With the data that follows the header. *)
(* [common/omx_wire.h:472-481] omx_pkt_pull_reply *)
Record pull_reply := PullReply {
  rp_frame_seqnum : Z; rp_frame_length : Z; rp_msg_offset : Z; rp_dst_pull_handle : Z; rp_dst_magic : Z;
  rp_data : list Z }.
(* [common/omx_wire.h:517-527] omx_pkt_nack_mcp *)
Record nack_mcp := NackMcp { nk_src_endpoint : Z; nk_nack_type : Z; nk_src_pull_handle : Z; nk_src_magic : Z }.
(** What is sent, with the address of the peer. *)
Inductive packet :=
  | Request (addr peer_index : Z) (r : pull_request)
  | Reply (addr : Z) (r : pull_reply)
  | Nack (addr peer_index : Z) (n : nack_mcp).

(* [common/omx_wire.h:201-208] omx_nack_type *)
Definition OMX_NACK_TYPE_BAD_ENDPT : Z := 1.
Definition OMX_NACK_TYPE_ENDPT_CLOSED : Z := 2.
Definition OMX_NACK_TYPE_BAD_SESSION : Z := 3.
Definition OMX_NACK_TYPE_BAD_RDMAWIN : Z := 4.
Definition OMX_EVT_PULL_DONE_SUCCESS : Z := 0.
Definition OMX_EVT_PULL_DONE_ABORTED : Z := 5.
Definition OMX_EVT_PULL_DONE_TIMEOUT : Z := 6.
Definition ENOENT : Z := -2.
Definition OMX_ENDPOINT_PULL_MAGIC_XOR : Z := 0x21071980.
(* [driver/linux/omx_common.h:31-31] OMX_PULL_BLOCK_DESCS_NR *)
Definition OMX_PULL_BLOCK_DESCS_NR : nat := 4.

(** ** Handles *)

(* [driver/linux/omx_pull.c:74-96] omx_pull_handle_status *)
Inductive pull_handle_status := STATUS_OK | TIMER_MUST_EXIT | TIMER_EXITED.
#[export] Instance pull_handle_status_eq_dec : EqDecision pull_handle_status. Proof. solve_decision. Defined.

(* [driver/linux/omx_pull.c:98-103] omx_pull_block_desc *)
Record block_desc := BlockDesc {
  bd_frame_index : Z; bd_block_length : Z; bd_first_frame_offset : Z; bd_frames_missing_bitmap : Z }.
#[export] Instance e_block_desc : Settable block_desc := fun d => BlockDesc (bd_frame_index d)
  (bd_block_length d) (bd_first_frame_offset d) (bd_frames_missing_bitmap d).
#[export] Instance s_bitmap : Setter bd_frames_missing_bitmap. Proof. mk_setter. Defined.

(* [common/omx_io.h:863-874] omx_evt_pull_done *)
Record pull_done := PullDone { pd_lib_cookie : Z; pd_puller_rdma_id : Z; pd_status : Z }.

(** [h_timer] is the date of the pending timer; [h_region] the address of the
    region; [h_addr] and [h_peer_index] are the Ethernet part of the header. *)
(* [driver/linux/omx_pull.c:105-155] omx_pull_handle *)
Record handle := Handle {
  h_refcount : Z; slot_id : Z; h_timer : option Z; last_retransmit_jiffies : Z;
  h_region : Z; h_total_length : Z; pulled_rdma_offset : Z;
  h_status : pull_handle_status; remaining_length : Z; frame_index : Z; next_frame_index : Z;
  nr_requested_frames : Z; nr_missing_frames : Z; nr_valid_block_descs : Z; already_rerequested_blocks : Z;
  h_descs : list block_desc; host_copy_nr_frames : Z; done_event : pull_done;
  h_addr : Z; h_peer_index : Z; pkt_hdr : pull_request }.
#[export] Instance e_handle : Settable handle := fun h => Handle
  (h_refcount h) (slot_id h) (h_timer h) (last_retransmit_jiffies h) (h_region h) (h_total_length h)
  (pulled_rdma_offset h) (h_status h) (remaining_length h) (frame_index h) (next_frame_index h)
  (nr_requested_frames h) (nr_missing_frames h) (nr_valid_block_descs h) (already_rerequested_blocks h)
  (h_descs h) (host_copy_nr_frames h) (done_event h) (h_addr h) (h_peer_index h) (pkt_hdr h).
#[export] Instance s_h_refcount : Setter h_refcount. Proof. mk_setter. Defined.
#[export] Instance s_slot_id : Setter slot_id. Proof. mk_setter. Defined.
#[export] Instance s_h_timer : Setter h_timer. Proof. mk_setter. Defined.
#[export] Instance s_h_status : Setter h_status. Proof. mk_setter. Defined.
#[export] Instance s_remaining_length : Setter remaining_length. Proof. mk_setter. Defined.
#[export] Instance s_frame_index : Setter frame_index. Proof. mk_setter. Defined.
#[export] Instance s_next_frame_index : Setter next_frame_index. Proof. mk_setter. Defined.
#[export] Instance s_nr_requested : Setter nr_requested_frames. Proof. mk_setter. Defined.
#[export] Instance s_nr_missing : Setter nr_missing_frames. Proof. mk_setter. Defined.
#[export] Instance s_nr_valid : Setter nr_valid_block_descs. Proof. mk_setter. Defined.
#[export] Instance s_already : Setter already_rerequested_blocks. Proof. mk_setter. Defined.
#[export] Instance s_h_descs : Setter h_descs. Proof. mk_setter. Defined.
#[export] Instance s_host_copy : Setter host_copy_nr_frames. Proof. mk_setter. Defined.
#[export] Instance s_done_event : Setter done_event. Proof. mk_setter. Defined.
#[export] Instance s_h_addr : Setter h_addr. Proof. mk_setter. Defined.
#[export] Instance s_h_peer_index : Setter h_peer_index. Proof. mk_setter. Defined.
#[export] Instance s_pkt_hdr : Setter pkt_hdr. Proof. mk_setter. Defined.

(** ** The state of the driver *)

(* [driver/linux/omx_pull.c:263-267] omx_pull_handle_slot *)
Record slot := Slot { sl_handle : option Z; sl_id : Z }.

(** The interface with its peers, and the endpoint: whether it is open, its
    references, its regions; its pulls: the slots ([None] when the array was
    not allocated), the indexes of the free ones, the list of the handles and
    the handles by address.  Then the events given to the library, the packets
    sent, and the memory. *)
Record driver := Driver {
  d_peers : peers; endpoint_max : Z; endpoint_index : Z; endpoint_ok : bool; session_id : Z;
  endpoint_refcount : Z; d_regions : regions;
  pull_handle_slots_array : option (list slot); pull_handle_slots_free_list : list Z;
  pull_handles_list : list Z; d_handles : gmap Z handle;
  d_events : list pull_done; d_sent : list packet; d_mem : mem }.
#[export] Instance e_driver : Settable driver := fun s => Driver
  (d_peers s) (endpoint_max s) (endpoint_index s) (endpoint_ok s) (session_id s) (endpoint_refcount s)
  (d_regions s) (pull_handle_slots_array s) (pull_handle_slots_free_list s) (pull_handles_list s)
  (d_handles s) (d_events s) (d_sent s) (d_mem s).
#[export] Instance s_d_peers : Setter d_peers. Proof. mk_setter. Defined.
#[export] Instance s_endpoint_refcount : Setter endpoint_refcount. Proof. mk_setter. Defined.
#[export] Instance s_d_regions : Setter d_regions. Proof. mk_setter. Defined.
#[export] Instance s_slots_array : Setter pull_handle_slots_array. Proof. mk_setter. Defined.
#[export] Instance s_slots_free : Setter pull_handle_slots_free_list. Proof. mk_setter. Defined.
#[export] Instance s_handles_list : Setter pull_handles_list. Proof. mk_setter. Defined.
#[export] Instance s_d_handles : Setter d_handles. Proof. mk_setter. Defined.
#[export] Instance s_d_events : Setter d_events. Proof. mk_setter. Defined.
#[export] Instance s_d_sent : Setter d_sent. Proof. mk_setter. Defined.
#[export] Instance s_d_mem : Setter d_mem. Proof. mk_setter. Defined.

Definition put_handle (p : Z) (h : handle) (s : driver) : driver := s <| d_handles ::= <[p := h]> |>.
Definition send (l : list packet) (s : driver) : driver := s <| d_sent ::= fun l0 => l0 ++ l |>.

(** [omx_endpoint_acquire_by_iface_index], whose argument is 8 bits wide. *)
(* [driver/linux/omx_dev.c:339-377] omx_endpoint_acquire_by_iface_index *)
Definition omx_endpoint_acquire_by_iface_index (index : Z) (s : driver) : Z + driver :=
  let index := u8 index in
  if endpoint_max s <=? index then inl EINVAL
  else if negb (index =? endpoint_index s) || negb (endpoint_ok s) then inl ENOENT
  else inr (s <| endpoint_refcount ::= fun n => n + 1 |>).
Definition omx_endpoint_reacquire (s : driver) : driver := s <| endpoint_refcount ::= fun n => n + 1 |>.
Definition omx_endpoint_release (s : driver) : driver := s <| endpoint_refcount ::= fun n => n - 1 |>.

(** ** Slots *)

Definition OMX_PULL_HANDLE_SLOT_INDEX_BITS : Z := 10.
Definition OMX_PULL_HANDLE_SLOT_GENERATION_BITS : Z := 32 - OMX_PULL_HANDLE_SLOT_INDEX_BITS.
Definition OMX_PULL_HANDLE_SLOT_INDEX_MAX : Z := Z.shiftl 1 OMX_PULL_HANDLE_SLOT_INDEX_BITS.
Definition OMX_PULL_HANDLE_SLOT_INDEX_MASK : Z :=
  Z.shiftl (OMX_PULL_HANDLE_SLOT_INDEX_MAX - 1) OMX_PULL_HANDLE_SLOT_GENERATION_BITS.
Definition OMX_PULL_HANDLE_SLOT_GENERATION_MASK : Z := Z.shiftl 1 OMX_PULL_HANDLE_SLOT_GENERATION_BITS - 1.
Definition OMX_PULL_HANDLE_SLOT_GENERATION_FIRST : Z := 0x23.
(* [driver/linux/omx_pull.c:276-278] OMX_PULL_HANDLE_SLOT_ID_FIRST *)
Definition OMX_PULL_HANDLE_SLOT_ID_FIRST (index : Z) : Z :=
  u32 (Z.land OMX_PULL_HANDLE_SLOT_GENERATION_FIRST OMX_PULL_HANDLE_SLOT_GENERATION_MASK
       + Z.shiftl index OMX_PULL_HANDLE_SLOT_GENERATION_BITS).
(* [driver/linux/omx_pull.c:280-283] OMX_PULL_HANDLE_SLOT_ID_INC *)
Definition OMX_PULL_HANDLE_SLOT_ID_INC (id : Z) : Z :=
  Z.lor (Z.land id OMX_PULL_HANDLE_SLOT_INDEX_MASK) (Z.land (u32 (id + 1)) OMX_PULL_HANDLE_SLOT_GENERATION_MASK).
(* [driver/linux/omx_pull.c:285-286] OMX_PULL_HANDLE_SLOT_INDEX_FROM_ID *)
Definition OMX_PULL_HANDLE_SLOT_INDEX_FROM_ID (id : Z) : Z := Z.shiftr id OMX_PULL_HANDLE_SLOT_GENERATION_BITS.

(** [alloc] is the answer of the allocator.  The error is not looked at by the
    caller. *)
(* [driver/linux/omx_pull.c:290-311] omx_pull_handle_slots_init *)
Definition omx_pull_handle_slots_init (alloc : bool) (s : driver) : Z * driver :=
  if negb alloc then (ENOMEM, s)
  else
    let indexes := seqZ 0 OMX_PULL_HANDLE_SLOT_INDEX_MAX in
    (0, s <| pull_handle_slots_array := Some ((fun i => Slot None (OMX_PULL_HANDLE_SLOT_ID_FIRST i)) <$> indexes) |>
          <| pull_handle_slots_free_list := indexes |>).
(* [driver/linux/omx_pull.c:434-441] omx_endpoint_pull_handles_init *)
Definition omx_endpoint_pull_handles_init (alloc : bool) (s : driver) : Z * driver :=
  let s := s <| pull_handles_list := [] |> <| pull_handle_slots_array := None |> in
  (0, snd (omx_pull_handle_slots_init alloc s)).

(** The handle at address [p] gets the first free slot. *)
(* [driver/linux/omx_pull.c:325-357] omx_pull_handle_alloc_slot *)
Definition omx_pull_handle_alloc_slot (p : Z) (h : handle) (s : driver) : option ((Z + handle) * driver) :=
  slots ← pull_handle_slots_array s;
  match pull_handle_slots_free_list s with
  | [] => Some (inl ENOMEM, s)
  | i :: free =>
      sl ← slots !! Z.to_nat i;
      Some (inr (h <| slot_id := sl_id sl |>),
            s <| pull_handle_slots_free_list := free |>
              <| pull_handle_slots_array := Some (<[Z.to_nat i := Slot (Some p) (sl_id sl)]> slots) |>)
  end.
(* [driver/linux/omx_pull.c:364-382] omx_pull_handle_free_slot *)
Definition omx_pull_handle_free_slot (h : handle) (s : driver) : option driver :=
  slots ← pull_handle_slots_array s;
  let i := OMX_PULL_HANDLE_SLOT_INDEX_FROM_ID (slot_id h) in
  sl ← slots !! Z.to_nat i;
  Some (s <| pull_handle_slots_array :=
               Some (<[Z.to_nat i := Slot None (OMX_PULL_HANDLE_SLOT_ID_INC (sl_id sl))]> slots) |>
          <| pull_handle_slots_free_list ::= fun l => l ++ [i] |>).

(* [driver/linux/omx_pull.c:225-229] omx_pull_handle_acquire *)
Definition omx_pull_handle_acquire (p : Z) (s : driver) : option driver :=
  h ← d_handles s !! p; Some (put_handle p (h <| h_refcount ::= fun n => n + 1 |>) s).
(** [Some None] is a null pointer. *)
(* [driver/linux/omx_pull.c:389-428] omx_pull_handle_acquire_from_slot *)
Definition omx_pull_handle_acquire_from_slot (id : Z) (s : driver) : option (option Z * driver) :=
  slots ← pull_handle_slots_array s;
  let index := OMX_PULL_HANDLE_SLOT_INDEX_FROM_ID id in
  if OMX_PULL_HANDLE_SLOT_INDEX_MAX <=? index then Some (None, s)
  else
    sl ← slots !! Z.to_nat index;
    match sl_handle sl with
    | None => Some (None, s)
    | Some p =>
        if negb (id =? sl_id sl) then Some (None, s)
        else s ← omx_pull_handle_acquire p s; Some (Some p, s)
    end.

(** ** Releasing handles *)

(** Whether the caller runs in an interrupt matters for the region. *)
(* [driver/linux/omx_pull.c:234-248] __omx_pull_handle_last_release *)
Definition __omx_pull_handle_last_release (in_interrupt : bool) (p : Z) (h : handle) (s : driver) : option driver :=
  if bool_decide (h_status h <> TIMER_EXITED) then None
  else
    rs ← omx_user_region_release in_interrupt (h_region h) (d_regions s);
    Some (s <| d_regions := rs |> <| d_handles ::= delete p |>).
(* [driver/linux/omx_pull.c:253-257] omx_pull_handle_release *)
Definition omx_pull_handle_release (in_interrupt : bool) (p : Z) (s : driver) : option driver :=
  h ← d_handles s !! p;
  let h := h <| h_refcount ::= fun n => n - 1 |> in
  if h_refcount h =? 0 then __omx_pull_handle_last_release in_interrupt p h s
  else Some (put_handle p h s).

(** ** Completion *)

(* [driver/linux/omx_pull.c:688-714] omx_pull_handle_mark_completed *)
Definition omx_pull_handle_mark_completed (p : Z) (evt_status : Z) (s : driver) : option driver :=
  h ← d_handles s !! p;
  if bool_decide (h_status h <> STATUS_OK) then None
  else
    let h := h <| h_status := TIMER_MUST_EXIT |> in
    s ← omx_pull_handle_free_slot h s;
    Some (put_handle p (h <| done_event ::= fun e => PullDone (pd_lib_cookie e) (pd_puller_rdma_id e) evt_status |>) s).
(** The event goes to the queue of expected events; releases the references of
    the caller. *)
(* [driver/linux/omx_pull.c:721-737] omx_pull_handle_notify *)
Definition omx_pull_handle_notify (in_interrupt : bool) (p : Z) (s : driver) : option driver :=
  h ← d_handles s !! p;
  s ← omx_pull_handle_release in_interrupt p (s <| d_events ::= fun l => l ++ [done_event h] |>);
  Some (omx_endpoint_release s).
(** Without DMA there is nothing to wait for. *)
(* [driver/linux/omx_pull.c:745-754] omx_pull_handle_bh_notify *)
Definition omx_pull_handle_bh_notify (in_interrupt : bool) (p : Z) (s : driver) : option driver :=
  omx_pull_handle_notify in_interrupt p s.

(** ** Creation *)

(* [common/omx_io.h:453-470] omx_cmd_pull *)
Record cmd_pull := CmdPull {
  cp_peer_index : Z; cp_dest_endpoint : Z; cp_shared : bool; cp_session_id : Z; cp_length : Z;
  cp_resend_timeout_jiffies : Z; cp_puller_rdma_id : Z; cp_pulled_rdma_offset : Z; cp_pulled_rdma_id : Z;
  cp_pulled_rdma_seqnum : Z; cp_lib_cookie : Z }.

(** The fields that each request fills are left at 0. *)
(* [driver/linux/omx_pull.c:522-569] omx_pull_handle_pkt_hdr_fill *)
Definition omx_pull_handle_pkt_hdr_fill (h : handle) (cmd : cmd_pull) (s : driver) : Z + handle :=
  match omx_set_target_peer (d_peers s) (cp_peer_index cmd) with
  | inl err => inl err
  | inr (addr, peer_index) =>
      inr (h <| h_addr := addr |> <| h_peer_index := peer_index |>
             <| pkt_hdr := PullRequest (cp_dest_endpoint cmd) (endpoint_index s) (cp_session_id cmd)
                  (h_total_length h) (cp_pulled_rdma_id cmd) (u8 (cp_pulled_rdma_seqnum cmd))
                  (pulled_rdma_offset h) (slot_id h)
                  (Z.lxor (endpoint_index s) OMX_ENDPOINT_PULL_MAGIC_XOR) 0 0 0 |>)
  end.

(** [junk] is what the allocator left in the descriptors: the last one keeps it. *)
Definition new_descs (junk : list block_desc) : list block_desc :=
  ((fun d => d <| bd_frames_missing_bitmap := 0 |>) <$> take (OMX_PULL_BLOCK_DESCS_NR - 1) junk)
  ++ drop (OMX_PULL_BLOCK_DESCS_NR - 1) junk.
(** [alloc] is the address of the handle and what was there. *)
(* [driver/linux/omx_pull.c:574-673] omx_pull_handle_create *)
Definition omx_pull_handle_create (alloc : option (Z * list block_desc)) (now : Z) (region : Z) (cmd : cmd_pull)
    (s : driver) : option ((Z + Z) * driver) :=
  match alloc with
  | None => Some (inl ENOMEM, s)
  | Some (p, junk) =>
      let h := Handle 1 0 None (now + cp_resend_timeout_jiffies cmd) region (cp_length cmd)
        (cp_pulled_rdma_offset cmd) STATUS_OK (cp_length cmd) 0 0 0 0 0 0 (new_descs junk) 0
        (PullDone (cp_lib_cookie cmd) (cp_puller_rdma_id cmd) 0) 0 0 (PullRequest 0 0 0 0 0 0 0 0 0 0 0 0) in
      '(ret, s) ← omx_pull_handle_alloc_slot p h s;
      match ret with
      | inl err => Some (inl ENOMEM, s)
      | inr h =>
          match omx_pull_handle_pkt_hdr_fill h cmd s with
          | inl err => s ← omx_pull_handle_free_slot h s; Some (inl err, s)
          | inr h =>
              Some (inr p, put_handle p h (omx_endpoint_reacquire s) <| pull_handles_list ::= fun l => l ++ [p] |>)
          end
      end
  end.

(** ** Blocks of frames *)

Section blocks.
Context (OMX_PULL_REPLY_LENGTH_MAX OMX_PULL_REPLY_PER_BLOCK HZ : Z).
Definition OMX_PULL_BLOCK_LENGTH_MAX : Z := OMX_PULL_REPLY_LENGTH_MAX * OMX_PULL_REPLY_PER_BLOCK.
(* [driver/linux/omx_pull.c:42-42] OMX_PULL_RETRANSMIT_TIMEOUT_JIFFIES *)
Definition OMX_PULL_RETRANSMIT_TIMEOUT_JIFFIES : Z := 1000 * HZ / 1000.
(** The width of [omx_block_frame_bitmask_t]. *)
(* [driver/linux/omx_pull.c:60-72] omx_block_frame_bitmask_t *)
Definition bitmask_bits : Z :=
  if 32 <? OMX_PULL_REPLY_PER_BLOCK then 64
  else if 16 <? OMX_PULL_REPLY_PER_BLOCK then 32
  else if 8 <? OMX_PULL_REPLY_PER_BLOCK then 16 else 8.
Definition frames_of (first_frame_offset block_length : Z) : Z :=
  (u32 (first_frame_offset + block_length) + OMX_PULL_REPLY_LENGTH_MAX - 1) / OMX_PULL_REPLY_LENGTH_MAX.

(** A shift by the width of an [int] or of the mask, or by a negative amount, is
    undefined. *)
(* [driver/linux/omx_pull.c:760-788] omx_pull_handle_append_needed_frames *)
Definition omx_pull_handle_append_needed_frames (block_length first_frame_offset : Z) (h : handle) : option handle :=
  let new_frames := frames_of first_frame_offset block_length in
  let shift := OMX_PULL_REPLY_PER_BLOCK - new_frames in
  if (shift <? 0) || (Z.max 32 bitmask_bits <=? shift) then None
  else
    let new_mask := Z.shiftr (2 ^ bitmask_bits - 1) shift in
    _ ← h_descs h !! Z.to_nat (nr_valid_block_descs h);
    Some (h <| h_descs ::= <[Z.to_nat (nr_valid_block_descs h) :=
                 BlockDesc (next_frame_index h) block_length first_frame_offset new_mask]> |>
            <| nr_requested_frames ::= fun n => u32 (n + new_frames) |>
            <| nr_missing_frames ::= fun n => u32 (n + new_frames) |>
            <| next_frame_index ::= fun n => u32 (n + new_frames) |>
            <| remaining_length ::= fun n => u32 (n - block_length) |>
            <| nr_valid_block_descs ::= fun n => u32 (n + 1) |>).

(** [memmove] of the valid descriptors but the first one. *)
Definition shift_descs (nr : nat) (l : list block_desc) : list block_desc :=
  take nr (drop 1 l) ++ drop nr l.
Definition clear_last (l : list block_desc) : list block_desc :=
  alter (fun d => d <| bd_frames_missing_bitmap := 0 |>) (OMX_PULL_BLOCK_DESCS_NR - 1)%nat l.
(* [driver/linux/omx_pull.c:790-807] omx_pull_handle_first_block_done *)
Definition omx_pull_handle_first_block_done (h : handle) : option handle :=
  let first_block_frames := Z.min (nr_requested_frames h) OMX_PULL_REPLY_PER_BLOCK in
  if nr_valid_block_descs h =? 0 then None (* the count of [memmove] wraps *)
  else
    let nr := nr_valid_block_descs h - 1 in
    Some (h <| frame_index ::= fun n => u32 (n + first_block_frames) |>
            <| nr_requested_frames ::= fun n => n - first_block_frames |>
            <| nr_valid_block_descs := nr |>
            <| already_rerequested_blocks ::= fun n => if n =? 0 then n else n - 1 |>
            <| h_descs ::= fun l => clear_last (shift_descs (Z.to_nat nr) l) |>).

(** Requests for as many new blocks as there are free descriptors. *)
Fixpoint append_blocks (fuel : nat) (h : handle) : option handle :=
  if (nr_valid_block_descs h <? Z.of_nat OMX_PULL_BLOCK_DESCS_NR) && negb (remaining_length h =? 0) then
    match fuel with
    | O => None
    | S fuel =>
        let block_length := if remaining_length h <? OMX_PULL_BLOCK_LENGTH_MAX then remaining_length h
                            else OMX_PULL_BLOCK_LENGTH_MAX in
        h ← omx_pull_handle_append_needed_frames block_length 0 h;
        append_blocks fuel h
    end
  else Some h.

(** ** Requests *)

Definition missing (h : handle) (i : nat) : option bool :=
  d ← h_descs h !! i; Some (negb (bd_frames_missing_bitmap d =? 0)).
(** [alloc] tells whether the packet of a descriptor can be allocated. *)
(* [driver/linux/omx_pull.c:814-860] omx_fill_pull_block_request *)
Definition omx_fill_pull_block_request (alloc : nat -> bool) (h : handle) (desc_nr : nat) : option (Z + packet) :=
  desc ← h_descs h !! desc_nr;
  if negb (alloc desc_nr) then Some (inl ENOMEM)
  else
    let r := pkt_hdr h in
    Some (inr (Request (h_addr h) (h_peer_index h)
      (PullRequest (rq_dst_endpoint r) (rq_src_endpoint r) (rq_session r) (rq_total_length r) (rq_pulled_rdma_id r)
        (rq_pulled_rdma_seqnum r) (rq_pulled_rdma_offset r) (rq_src_pull_handle r) (rq_src_magic r)
        (bd_first_frame_offset desc) (bd_block_length desc) (bd_frame_index desc)))).
(** The requests of descriptors, until an allocation fails. *)
Fixpoint fill_requests (alloc : nat -> bool) (h : handle) (descs : list nat) : option (list packet) :=
  match descs with
  | [] => Some []
  | i :: descs =>
      ret ← omx_fill_pull_block_request alloc h i;
      match ret with
      | inl _ => Some []
      | inr skb => l ← fill_requests alloc h descs; Some (skb :: l)
      end
  end.

(** [mod_timer], and [omx_mod_timer_pending] for a timer that may be stopped. *)
Definition retransmit_at (now : Z) : Z := now + OMX_PULL_RETRANSMIT_TIMEOUT_JIFFIES.
Definition mod_timer_pending (now : Z) (h : handle) : handle :=
  h <| h_timer ::= fun t => match t with Some _ => Some (retransmit_at now) | None => None end |>.

(** ** Starting a pull *)

Section ioctl.
Context (get_user_pages : Z -> Z -> Z * list Z).
Context (omx_pin_synchronous : bool) (omx_pin_chunk_pages_min omx_pin_chunk_pages_max : Z).

(** Pinning on demand: the region, the pages given back, the error or 0. *)
Definition demand_pin (r : region) : option (region * list Z * Z) :=
  if omx_pin_synchronous then Some (r, [], 0)
  else
    let '(r, ps) := omx_user_region_demand_pin_init omx_pin_chunk_pages_min r in
    let ps := (fun ps => PinState (ps_segment ps) (ps_pages ps) (ps_aligned_vaddr ps) (ps_remaining ps)
                           (ps_chunk_offset ps) omx_pin_chunk_pages_max) <$> ps in
    '(r, put, ret) ← omx_user_region_demand_pin_finish get_user_pages omx_pin_chunk_pages_max r ps;
    Some (r, put, match ret with inl err => err | inr _ => 0 end).
Definition release_region (region : Z) (err : Z) (s : driver) : option (option Z * driver) :=
  rs ← omx_user_region_release false region (d_regions s); Some (Some err, s <| d_regions := rs |>).

(** [cmd] is [None] when it cannot be read.  The result [None] is the tail call
    of [omx_shared_pull], for a pull inside the host. *)
(* [driver/linux/omx_pull.c:862-980] omx_ioctl_pull *)
Definition omx_ioctl_pull (cmd : option cmd_pull) (alloc : option (Z * list block_desc)) (skbs : nat -> bool)
    (now : Z) (s : driver) : option (option Z * driver) :=
  match cmd with
  | None => Some (Some EFAULT, s)
  | Some cmd =>
      if cp_shared cmd then Some (None, s)
      else
        '(region, rs) ← omx_user_region_acquire (cp_puller_rdma_id cmd) (d_regions s);
        match region with
        | None => Some (Some EINVAL, s)
        | Some region =>
            r ← heap rs !! region;
            '(r, put, err) ← demand_pin (r <| dirty := true |>);
            let s := s <| d_regions := rs <| heap ::= <[region := r]> |>
                                          <| put_pages ::= fun l => l ++ (Some <$> put) |> |> in
            if err <? 0 then release_region region err s
            else
              '(ret, s) ← omx_pull_handle_create alloc now region cmd s;
              match ret with
              | inl err => release_region region err s
              | inr p =>
                  h ← d_handles s !! p;
                  let offset_in_frame := pulled_rdma_offset h mod OMX_PULL_REPLY_LENGTH_MAX in
                  let block_length := u32 (OMX_PULL_BLOCK_LENGTH_MAX - offset_in_frame) in
                  let block_length := if remaining_length h <? block_length then remaining_length h
                                      else block_length in
                  h ← omx_pull_handle_append_needed_frames block_length offset_in_frame h;
                  h ← append_blocks OMX_PULL_BLOCK_DESCS_NR h;
                  l ← fill_requests skbs h (seq 0 (Z.to_nat (nr_valid_block_descs h)));
                  Some (Some 0, send l (put_handle p (h <| h_timer := Some (retransmit_at now) |>) s))
              end
        end
  end.
End ioctl.

(** ** Retransmission *)

(** The descriptors that are requested again. *)
(* [driver/linux/omx_pull.c:986-1046] omx_progress_pull_on_handle_timeout_handle_locked *)
Definition omx_progress_pull_on_handle_timeout_handle_locked (skbs : nat -> bool) (now : Z) (p : Z) (h : handle)
    (s : driver) : option driver :=
  ret ← omx_fill_pull_block_request skbs h 0;
  '(h, l) ← match ret with
            | inl _ => Some (h, [])
            | inr skb =>
                let again := filter (fun i => missing h i = Some true) (seq 1 (OMX_PULL_BLOCK_DESCS_NR - 1)) in
                l ← fill_requests skbs h again;
                Some (h <| already_rerequested_blocks := 0 |>, skb :: l)
            end;
  Some (send l (put_handle p (h <| h_timer := Some (retransmit_at now) |>) s)).

(** The timer of the handle at [p] has expired. *)
(* [driver/linux/omx_pull.c:1052-1111] omx_pull_handle_timeout_handler *)
Definition omx_pull_handle_timeout_handler (skbs : nat -> bool) (now : Z) (p : Z) (s : driver) : option driver :=
  h ← d_handles s !! p;
  let h := h <| h_timer := None |> in
  if bool_decide (h_status h <> STATUS_OK) then
    if bool_decide (h_status h <> TIMER_MUST_EXIT) then None
    else
      let s := put_handle p (h <| h_status := TIMER_EXITED |>) s <| pull_handles_list ::= remove_elt p |> in
      s ← omx_pull_handle_release true p s;
      Some (omx_endpoint_release s)
  else if last_retransmit_jiffies h <? now then
    s ← omx_pull_handle_mark_completed p OMX_EVT_PULL_DONE_TIMEOUT (put_handle p h s);
    h ← d_handles s !! p;
    omx_pull_handle_bh_notify true p
      (put_handle p (h <| h_status := TIMER_EXITED |>) s <| pull_handles_list ::= remove_elt p |>)
  else
    first ← missing h 0;
    if negb first then None
    else omx_progress_pull_on_handle_timeout_handle_locked skbs now p h s.

(** ** Closing the endpoint *)

(** [expired] tells for which handles the timer has expired and its handler
    waits for the lock of the handle. *)
Fixpoint exit_loop (fuel : nat) (expired : Z -> bool) (s : driver) : option driver :=
  match pull_handles_list s with
  | [] => Some s
  | p :: _ =>
      match fuel with
      | O => None
      | S fuel =>
          s ← omx_pull_handle_acquire p s;
          h ← d_handles s !! p;
          s ← (if bool_decide (h_status h = STATUS_OK) then
                 s ← omx_pull_handle_free_slot h s; Some (put_handle p (h <| h_status := TIMER_MUST_EXIT |>) s)
               else Some s);
          h ← d_handles s !! p;
          s ← (if expired p then
                 s ← omx_pull_handle_timeout_handler (fun _ => true) 0 p s;
                 h ← d_handles s !! p;
                 if bool_decide (h_status h <> TIMER_EXITED) then None else Some s
               else
                 if bool_decide (h_timer h = None \/ h_status h <> TIMER_MUST_EXIT) then None
                 else
                   let s := put_handle p (h <| h_status := TIMER_EXITED |> <| h_timer := None |>) s
                              <| pull_handles_list ::= remove_elt p |> in
                   s ← omx_pull_handle_release false p s; Some (omx_endpoint_release s));
          s ← omx_pull_handle_release false p s;
          exit_loop fuel expired s
      end
  end.
(* [driver/linux/omx_pull.c:446-516] omx_endpoint_pull_handles_exit *)
Definition omx_endpoint_pull_handles_exit (expired : Z -> bool) (s : driver) : option driver :=
  s ← exit_loop (length (pull_handles_list s)) expired s;
  Some (s <| pull_handle_slots_array := None |>).

(** ** Answering requests *)

(* [driver/linux/omx_send.c:1135-1194] omx_send_nack_mcp *)
Definition omx_send_nack_mcp (alloc : bool) (peer_index nack_type src_endpoint src_pull_handle src_magic : Z)
    (s : driver) : driver :=
  if negb alloc then s
  else
    match omx_set_target_peer (d_peers s) peer_index with
    | inl _ => s
    | inr (addr, index) => send [Nack addr index (NackMcp src_endpoint nack_type src_pull_handle src_magic)] s
    end.
(* [driver/linux/omx_misc.h:83-95] omx_endpoint_acquire_by_iface_index_error_to_nack_type *)
Definition omx_endpoint_acquire_by_iface_index_error_to_nack_type (err : Z) : option Z :=
  if err =? EINVAL then Some OMX_NACK_TYPE_BAD_ENDPT
  else if err =? ENOENT then Some OMX_NACK_TYPE_ENDPT_CLOSED else None.

Section recv_request.
Context (omx_skb_frags omx_skb_copy_max ETH_ZLEN reply_hdr_len : Z).
(** The allocations of packets: the first one of a reply, and the linear one. *)
Context (alloc : nat -> bool) (alloc_linear : nat -> bool).

(** The data of the reply [i]: attached pages, or a copy when the packet is
    small or has too many pages.  [Some (inl err)] is the error. *)
Definition reply_data (i : nat) (r : region) (c : offset_cache) (m : mem) (frame_length : Z)
    : option (Z + list Z * offset_cache) :=
  let linear :=
    if negb (alloc_linear i) then Some (inl ENOMEM)
    else ret ← copy_pages_to_buf r c m frame_length; Some (inr ret) in
  if (frame_length <=? omx_skb_copy_max) || (reply_hdr_len + frame_length <? ETH_ZLEN) || (omx_skb_frags =? 0)
  then linear
  else if negb (alloc i) then Some (inl ENOMEM)
  else
    ret ← append_pages_to_skb omx_skb_frags r c frame_length;
    match ret with
    | inl _ => linear
    | inr (skb, c) => Some (inr (frags_bytes m skb, c))
    end.
(** The replies from the [i]-th, [n] of them: they are sent one by one. *)
Fixpoint send_replies (n i : nat) (r : region) (c : offset_cache) (m : mem) (src_pull_handle src_magic : Z)
    (first_frame_offset seqnum msg_offset block_remaining : Z) : option (list pull_reply * Z) :=
  match n with
  | O => Some ([], 0)
  | S n =>
      let frame_length := if Nat.eqb i 0 then u32 (OMX_PULL_REPLY_LENGTH_MAX - first_frame_offset)
                          else OMX_PULL_REPLY_LENGTH_MAX in
      let frame_length := if block_remaining <? frame_length then block_remaining else frame_length in
      ret ← reply_data i r c m frame_length;
      match ret with
      | inl err => Some ([], err)
      | inr (data, c) =>
          '(l, err) ← send_replies n (S i) r c m src_pull_handle src_magic first_frame_offset (u32 (seqnum + 1))
                        (u32 (msg_offset + frame_length)) (block_remaining - frame_length);
          Some (PullReply (u8 seqnum) (u16 frame_length) msg_offset src_pull_handle src_magic data :: l, err)
      end
  end.

(** The region is released when the packets are sent: their destructors run
    at once.  [src_addr] and [peer_index] are those of the Ethernet header. *)
(* [driver/linux/omx_pull.c:1125-1364] omx_recv_pull_request *)
Definition omx_recv_pull_request (alloc_nack : bool) (src_addr peer_index : Z) (q : pull_request) (s : driver)
    : option (Z * driver) :=
  let nack type s := omx_send_nack_mcp alloc_nack peer_index type (rq_src_endpoint q) (rq_src_pull_handle q)
                       (rq_src_magic q) s in
  let err := omx_check_recv_peer_index (d_peers s) peer_index src_addr in
  if err <? 0 then Some (err, s)
  else
    match omx_endpoint_acquire_by_iface_index (rq_dst_endpoint q) s with
    | inl err => type ← omx_endpoint_acquire_by_iface_index_error_to_nack_type err; Some (err, nack type s)
    | inr s =>
        if negb (rq_session q =? session_id s) then
          Some (EINVAL, omx_endpoint_release (nack OMX_NACK_TYPE_BAD_SESSION s))
        else
          let replies := frames_of (rq_first_frame_offset q) (rq_block_length q) in
          if OMX_PULL_REPLY_PER_BLOCK <? replies then Some (EINVAL, omx_endpoint_release s)
          else
            '(region, rs) ← omx_user_region_acquire (rq_pulled_rdma_id q) (d_regions s);
            match region with
            | None => Some (0, omx_endpoint_release (nack OMX_NACK_TYPE_BAD_RDMAWIN s))
            | Some region =>
                r ← heap rs !! region;
                let msg_offset := u32 (rq_frame_index q * OMX_PULL_REPLY_LENGTH_MAX
                  - rq_pulled_rdma_offset q mod OMX_PULL_REPLY_LENGTH_MAX + rq_first_frame_offset q) in
                ret ← omx_user_region_offset_cache_init r (u32 (msg_offset + rq_pulled_rdma_offset q)) (rq_block_length q);
                '(l, err) ← (match ret with
                             | inl _ => Some ([], EINVAL)
                             | inr c => send_replies (Z.to_nat replies) 0 r c (d_mem s) (rq_src_pull_handle q)
                                          (rq_src_magic q) (rq_first_frame_offset q) (rq_frame_index q) msg_offset
                                          (rq_block_length q)
                             end);
                rs ← omx_user_region_release true region rs;
                Some (err, omx_endpoint_release (send (Reply src_addr <$> l) s <| d_regions := rs |>))
            end
    end.
End recv_request.

(** ** Replies *)

(** The first blocks are requested again when a later one is done before. *)
Fixpoint rerequest (skbs : nat -> bool) (descs : list nat) (h : handle) : option (handle * list packet) :=
  match descs with
  | [] => Some (h, [])
  | i :: descs =>
      again ← missing h i;
      if (again : bool) then
        ret ← omx_fill_pull_block_request skbs h i;
        match ret with
        | inl _ => Some (h, [])
        | inr skb =>
            '(h, l) ← rerequest skbs descs (h <| already_rerequested_blocks := Z.of_nat i + 1 |>);
            Some (h, skb :: l)
        end
      else rerequest skbs descs h
  end.
(** The next blocks that are done are dropped with the first one. *)
Fixpoint drop_done (n : nat) (h : handle) : option handle :=
  match n with
  | O => Some h
  | S n =>
      if nr_valid_block_descs h =? 0 then Some h
      else
        first ← missing h 0;
        if (first : bool) then Some h else h ← omx_pull_handle_first_block_done h; drop_done n h
  end.
(** A frame of the block [idesc] was received: the handle and the requests. *)
(* [driver/linux/omx_pull.c:1561-1673] omx_progress_pull_on_recv_pull_reply_locked *)
Definition omx_progress_pull_on_recv_pull_reply_locked (skbs : nat -> bool) (now : Z) (idesc : nat) (h : handle)
    : option (handle * list packet) :=
  still_missing ← missing h idesc;
  let completed_block := negb still_missing in
  first ← missing h 0;
  '(h, l) ← (if (first : bool) then
               if completed_block && Nat.ltb 0 idesc && (already_rerequested_blocks h <? Z.of_nat idesc) then
                 let from := Z.to_nat (already_rerequested_blocks h) in
                 rerequest skbs (seq from (idesc - from)) h
               else Some (h, [])
             else
               h ← omx_pull_handle_first_block_done h;
               h ← drop_done (OMX_PULL_BLOCK_DESCS_NR - 1) h;
               let first_block := Z.to_nat (nr_valid_block_descs h) in
               h ← append_blocks OMX_PULL_BLOCK_DESCS_NR h;
               l ← fill_requests skbs h (seq first_block (Z.to_nat (nr_valid_block_descs h) - first_block));
               Some (h, l));
  Some (mod_timer_pending now h, l).

(** What the first part of the handler does with a reply: it is dropped, with
    the return value, or its data is to be copied for the handle. *)
Inductive reply_outcome := Dropped (err : Z) | ToCopy (p : Z).

(** Up to the copy; the lock of the handle is held from its checks on. *)
Definition recv_pull_reply_locked (skbs : nat -> bool) (now : Z) (r : pull_reply) (s : driver)
    : option (reply_outcome * driver) :=
  if Z.of_nat (length (rp_data r)) <? rp_frame_length r then Some (Dropped EINVAL, s)
  else
    match omx_endpoint_acquire_by_iface_index (Z.lxor (rp_dst_magic r) OMX_ENDPOINT_PULL_MAGIC_XOR) s with
    | inl err => Some (Dropped EINVAL, s)
    | inr s =>
        '(p, s) ← omx_pull_handle_acquire_from_slot (rp_dst_pull_handle r) s;
        match p with
        | None => Some (Dropped EINVAL, omx_endpoint_release s)
        | Some p =>
            let drop (s : driver) := s ← omx_pull_handle_release true p s; Some (Dropped 0, omx_endpoint_release s) in
            h ← d_handles s !! p;
            if bool_decide (h_status h <> STATUS_OK) then drop s
            else
              let frame_seqnum_offset := (rp_frame_seqnum r - frame_index h mod 256 + 256) mod 256 in
              if negb ((rp_msg_offset r + OMX_PULL_REPLY_LENGTH_MAX - 1) / OMX_PULL_REPLY_LENGTH_MAX
                       =? u32 (frame_index h + frame_seqnum_offset)) then drop s
              else if nr_requested_frames h <=? frame_seqnum_offset then drop s
              else
                let idesc := Z.to_nat (frame_seqnum_offset / OMX_PULL_REPLY_PER_BLOCK) in
                let bit := frame_seqnum_offset mod OMX_PULL_REPLY_PER_BLOCK in
                desc ← h_descs h !! idesc;
                if negb (Z.testbit (bd_frames_missing_bitmap desc) bit) then drop s
                else
                  let h := h <| h_descs ::= <[idesc := desc <| bd_frames_missing_bitmap ::= fun b => Z.clearbit b bit |>]> |>
                             <| nr_missing_frames ::= fun n => u32 (n - 1) |>
                             <| host_copy_nr_frames ::= fun n => n + 1 |> in
                  '(h, l) ← omx_progress_pull_on_recv_pull_reply_locked skbs now idesc h;
                  Some (ToCopy p, send l (put_handle p h s))
        end
    end.
(** The copy, and what follows it with the lock of the handle held again. *)
Definition recv_pull_reply_copy (r : pull_reply) (p : Z) (s : driver) : option (Z * driver) :=
  h ← d_handles s !! p;
  region ← heap (d_regions s) !! h_region h;
  '(err, m) ← omx_user_region_fill_pages region (rp_msg_offset r) (rp_data r) (rp_frame_length r) (d_mem s);
  let s := s <| d_mem := m |> in
  if err <? 0 then
    s ← omx_pull_handle_mark_completed p OMX_EVT_PULL_DONE_ABORTED s;
    s ← omx_pull_handle_bh_notify true p s;
    Some (err, s)
  else
    let h := h <| host_copy_nr_frames ::= fun n => n - 1 |> in
    let s := put_handle p h s in
    if bool_decide (h_status h <> STATUS_OK) then
      s ← omx_pull_handle_release true p s; Some (0, omx_endpoint_release s)
    else if (remaining_length h =? 0) && (nr_missing_frames h =? 0) && (host_copy_nr_frames h =? 0) then
      s ← omx_pull_handle_mark_completed p OMX_EVT_PULL_DONE_SUCCESS s;
      s ← omx_pull_handle_bh_notify true p s;
      Some (0, s)
    else
      s ← omx_pull_handle_release true p s; Some (0, omx_endpoint_release s).
(* [driver/linux/omx_pull.c:1675-1889] omx_recv_pull_reply *)
Definition omx_recv_pull_reply (skbs : nat -> bool) (now : Z) (r : pull_reply) (s : driver) : option (Z * driver) :=
  '(outcome, s) ← recv_pull_reply_locked skbs now r s;
  match outcome with
  | Dropped err => Some (err, s)
  | ToCopy p => recv_pull_reply_copy r p s
  end.

(** ** Nacks *)

(** The error of the peer index is what the function returns when the sender is
    unknown; nothing else depends on the index. *)
(* [driver/linux/omx_pull.c:1895-1998] omx_recv_nack_mcp *)
Definition omx_recv_nack_mcp (src_addr peer_index : Z) (n : nack_mcp) (s : driver) : option (Z * driver) :=
  let err := omx_check_recv_peer_index (d_peers s) peer_index src_addr in
  if (err <? 0) && (negb (peer_index =? 0xffff)
                    || bool_decide (omx_peer_lookup_by_addr_locked (d_peers s) src_addr = None))
  then Some (err, s)
  else
    match omx_endpoint_acquire_by_iface_index (Z.lxor (nk_src_magic n) OMX_ENDPOINT_PULL_MAGIC_XOR) s with
    | inl err => Some (EINVAL, s)
    | inr s =>
        '(p, s) ← omx_pull_handle_acquire_from_slot (nk_src_pull_handle n) s;
        match p with
        | None => Some (EINVAL, omx_endpoint_release s)
        | Some p =>
            h ← d_handles s !! p;
            if bool_decide (h_status h <> STATUS_OK) then
              s ← omx_pull_handle_release true p s; Some (0, omx_endpoint_release s)
            else
              s ← omx_pull_handle_mark_completed p (nk_nack_type n) s;
              s ← omx_pull_handle_bh_notify true p s;
              Some (0, s)
        end
    end.
End blocks.
End Pull.
