(* ===== verification/PullFrames.v ===== *)
(** The frames of a pull: how blocks of frames tile a message, and the
    invariant of a handle that requests them and receives them in any order. *)
From S2P Require Import Prelude Segments Reg RegTable Peer Pull.
Import Reg Pull.

Module PullFrames.

(** ** Frames received *)

Definition add_frame (k : Z) (got : Z -> bool) : Z -> bool := fun x => (x =? k) || got x.
(** How many of the first [n] frames were not received. *)
Definition lacking (n : Z) (got : Z -> bool) : Z :=
  Z.of_nat (length (filter (fun k => got k = false) (seqZ 0 n))).
Lemma filter_got_ext a n got got' : (forall k, a <= k < a + n -> got k = got' k) ->
  filter (fun k => got k = false) (seqZ a n) = filter (fun k => got' k = false) (seqZ a n).
Proof.
  intros H. assert (Hin : forall k, k ∈ seqZ a n -> got k = got' k).
  { intros k Hk. apply elem_of_seqZ in Hk. apply H. lia. }
  induction (seqZ a n) as [|x l IH]; [done|]. rewrite !filter_cons, (Hin x) by (apply elem_of_cons; by left).
  rewrite IH by (intros k Hk; apply Hin, elem_of_cons; by right). done.
Qed.
Lemma lacking_ext n got got' : (forall k, 0 <= k < n -> got k = got' k) -> lacking n got = lacking n got'.
Proof. intros H. unfold lacking. do 2 f_equal. by apply filter_got_ext. Qed.
Lemma lacking_split n m got : 0 <= n -> 0 <= m ->
  lacking (n + m) got = lacking n got + Z.of_nat (length (filter (fun k => got k = false) (seqZ n m))).
Proof.
  intros Hn Hm. unfold lacking. rewrite seqZ_app, filter_app, length_app, Z.add_0_l by lia. lia.
Qed.
Lemma lacking_more n m got : 0 <= n -> 0 <= m -> (forall k, n <= k < n + m -> got k = false) ->
  lacking (n + m) got = lacking n got + m.
Proof.
  intros Hn Hm H. rewrite lacking_split by done. rewrite list_filter_all, length_seqZ by
    (apply Forall_forall; intros k Hk; apply elem_of_seqZ in Hk; apply H; lia). lia.
Qed.
Lemma lacking_add n k got : 0 <= k < n -> got k = false -> lacking n (add_frame k got) = lacking n got - 1.
Proof.
  intros Hk Hg. replace n with (k + (1 + (n - k - 1))) by lia. rewrite !lacking_split by lia.
  rewrite (lacking_ext k (add_frame k got) got).
  2:{ intros x Hx. unfold add_frame. by rewrite (proj2 (Z.eqb_neq _ _)) by lia. }
  rewrite seqZ_app, !filter_app, !length_app by lia. change (seqZ k 1) with [k].
  rewrite filter_cons_False, (filter_cons_True _ k), !filter_nil; [|done|unfold add_frame; by rewrite Z.eqb_refl].
  assert (Hrest : filter (fun x => add_frame k got x = false) (seqZ (k + 1) (n - k - 1)) =
    filter (fun x => got x = false) (seqZ (k + 1) (n - k - 1))).
  { apply filter_got_ext. intros x Hx. unfold add_frame. by rewrite (proj2 (Z.eqb_neq _ _)) by lia. }
  rewrite Hrest. cbn [length]. lia.
Qed.
Lemma lacking_0 n got : lacking n got = 0 <-> forall k, 0 <= k < n -> got k = true.
Proof.
  unfold lacking. rewrite <- Nat2Z.inj_0, Nat2Z.inj_iff, length_zero_iff_nil. split.
  - intros H k Hk. destruct (got k) eqn:E; [done|]. exfalso. apply (not_elem_of_nil k). rewrite <- H.
    apply list_elem_of_filter. split; [done|]. apply elem_of_seqZ. lia.
  - intros H. apply list_filter_none, Forall_forall. intros k Hk. apply elem_of_seqZ in Hk. rewrite H; [done|lia].
Qed.
Lemma lacking_nonneg n got : 0 <= lacking n got.
Proof. unfold lacking. lia. Qed.
Lemma lacking_le n got : 0 <= n -> lacking n got <= n.
Proof. intros Hn. unfold lacking. pose proof (length_filter (fun k => got k = false) (seqZ 0 n)). rewrite length_seqZ in *. lia. Qed.

(** ** Blocks *)

(** The parameters of a pull: frames of [LEN] bytes, [PER] of them in a block;
    [L] bytes from an offset [o] in the first frame. *)
Record geometry := Geometry { LEN : Z; PER : Z; o : Z; L : Z }.
Record geometry_ok (g : geometry) : Prop := {
  g_len : 0 < LEN g; g_per : 0 < PER g; g_bits : bitmask_bits (PER g) = PER g; g_o : 0 <= o g < LEN g;
  g_pos : 0 < L g; g_max : o g + L g + 256 * LEN g < 2 ^ 32; g_block : 2 * LEN g * PER g < 2 ^ 32 }.

Section blocks.
Context (g : geometry) (G : geometry_ok g).
#[local] Notation LEN := (LEN g).
#[local] Notation PER := (PER g).
#[local] Notation o := (o g).
#[local] Notation L := (L g).

Definition nframes : Z := (o + L + LEN - 1) / LEN.
(** The bytes of the message before the frame [n]. *)
Definition upto (n : Z) : Z := if n =? 0 then 0 else Z.min L (n * LEN - o).
(** The frames of block [b] are from [PER * b] to [last_of b], excluded. *)
Definition last_of (b : Z) : Z := Z.min nframes (PER * (b + 1)).
Definition block_length_of (b : Z) : Z := upto (last_of b) - upto (PER * b).
Definition first_offset_of (b : Z) : Z := if b =? 0 then o else 0.

Lemma nframes_bounds : 0 < nframes /\ LEN * (nframes - 1) < o + L <= LEN * nframes.
Proof.
  destruct G. unfold nframes. pose proof (Z.div_mod (o + L + LEN - 1) LEN). pose proof (Z.mod_pos_bound (o + L + LEN - 1) LEN).
  nia.
Qed.
Lemma nframes_max : nframes < 2 ^ 32.
Proof. destruct G. pose proof nframes_bounds. nia. Qed.
Lemma per_cases : PER = 8 \/ PER = 16 \/ PER = 32 \/ PER = 64.
Proof. destruct G as [_ _ Hb _ _ _ _]. revert Hb. unfold bitmask_bits. zcases; lia. Qed.
Lemma upto_all : upto nframes = L.
Proof. pose proof nframes_bounds. unfold upto. rewrite (proj2 (Z.eqb_neq _ _)) by lia. lia. Qed.
Lemma upto_inner n : 0 < n < nframes -> upto n = n * LEN - o /\ 0 < upto n < L.
Proof.
  destruct G. intros Hn. pose proof nframes_bounds. unfold upto. rewrite (proj2 (Z.eqb_neq _ _)) by lia. nia.
Qed.
Lemma upto_0 : upto 0 = 0.
Proof. done. Qed.
Lemma upto_lt a b : 0 <= a < b -> b <= nframes -> upto a < upto b.
Proof.
  destruct G. intros Hab Hb. pose proof nframes_bounds. unfold upto. rewrite (proj2 (Z.eqb_neq b 0)) by lia.
  destruct (Z.eqb_spec a 0); nia.
Qed.
Lemma upto_range n : 0 <= n <= nframes -> 0 <= upto n <= L.
Proof.
  destruct G. intros Hn. unfold upto. destruct (Z.eqb_spec n 0); [lia|]. nia.
Qed.

Lemma block_frames b : 0 <= b -> PER * b < nframes ->
  frames_of LEN (first_offset_of b) (block_length_of b) = last_of b - PER * b /\
  0 < last_of b - PER * b <= PER /\ 0 < block_length_of b <= LEN * PER /\ last_of b <= nframes.
Proof.
  intros Hb Hlt. pose proof nframes_bounds as Hn. pose proof G as [H1 H2 _ H3 H4 H5 H6].
  assert (Hl : PER * b < last_of b /\ last_of b <= PER * b + PER /\ last_of b <= nframes) by (unfold last_of; nia).
  assert (Hsum : first_offset_of b + block_length_of b = Z.min (o + L) (last_of b * LEN) - PER * b * LEN).
  { unfold first_offset_of, block_length_of, upto. rewrite (proj2 (Z.eqb_neq (last_of b) 0)) by lia.
    destruct (Z.eqb_spec b 0) as [->|Hb0].
    - rewrite Z.mul_0_r. cbn [Z.eqb]. lia.
    - rewrite (proj2 (Z.eqb_neq (PER * b) 0)) by nia. nia. }
  assert (Hlen : 0 < block_length_of b <= LEN * PER).
  { pose proof (upto_lt (PER * b) (last_of b) ltac:(nia) ltac:(lia)). split; [unfold block_length_of; lia|].
    unfold first_offset_of in Hsum. destruct (b =? 0); nia. }
  split; [|split; [lia|split; [done|lia]]]. unfold frames_of. rewrite u32_small, Hsum.
  2:{ rewrite Hsum. unfold first_offset_of in *. nia. }
  destruct (Z.le_gt_cases (last_of b * LEN) (o + L)) as [Hc|Hc].
  - rewrite Z.min_r by done. replace (last_of b * LEN - PER * b * LEN + LEN - 1) with
      (LEN - 1 + (last_of b - PER * b) * LEN) by lia. rewrite Z.div_add, Z.div_small by lia. lia.
  - rewrite Z.min_l by lia. assert (Hlast : last_of b = nframes) by nia. rewrite Hlast.
    replace (o + L - PER * b * LEN + LEN - 1) with (o + L + LEN - 1 + (- (PER * b)) * LEN) by lia.
    rewrite Z.div_add by lia. unfold nframes. lia.
Qed.

(** ** The invariant of a handle *)

(** The frames of block [b] that the bitmap says are missing. *)
Definition bitmap_of (b : Z) (got : Z -> bool) (bm : Z) : Prop :=
  0 <= bm /\ forall t, 0 <= t -> Z.testbit bm t = (t <? last_of b - PER * b) && negb (got (PER * b + t)).
Definition block_at (b : Z) (got : Z -> bool) (d : block_desc) : Prop :=
  bd_frame_index d = PER * b /\ bd_block_length d = block_length_of b /\
  bd_first_frame_offset d = first_offset_of b /\ bitmap_of b got (bd_frames_missing_bitmap d).
(** The handle requests the [v] blocks from [b]; the frames [got] arrived. *)
Record tracks (h : handle) (b v : Z) (got : Z -> bool) : Prop := {
  tr_range : 0 <= b /\ 0 <= v <= 4 /\ (0 < v -> PER * (b + v - 1) < nframes);
  tr_descs : length (h_descs h) = 4%nat;
  tr_valid : nr_valid_block_descs h = v;
  tr_index : frame_index h = Z.min nframes (PER * b);
  tr_next : next_frame_index h = Z.min nframes (PER * (b + v));
  tr_requested : nr_requested_frames h = next_frame_index h - frame_index h;
  tr_remaining : remaining_length h = L - upto (next_frame_index h);
  tr_blocks : forall i, (Z.of_nat i < v) -> exists d, h_descs h !! i = Some d /\ block_at (b + Z.of_nat i) got d;
  tr_before : forall k, 0 <= k < frame_index h -> got k = true;
  tr_after : forall k, next_frame_index h <= k -> got k = false;
  tr_missing : nr_missing_frames h = lacking (next_frame_index h) got
}.
(** What the operations on blocks leave as it is. *)
Definition same_pull (h h' : handle) : Prop :=
  h_refcount h' = h_refcount h /\ slot_id h' = slot_id h /\ last_retransmit_jiffies h' = last_retransmit_jiffies h /\
  h_region h' = h_region h /\ h_total_length h' = h_total_length h /\ pulled_rdma_offset h' = pulled_rdma_offset h /\
  h_status h' = h_status h /\ host_copy_nr_frames h' = host_copy_nr_frames h /\ done_event h' = done_event h /\
  h_addr h' = h_addr h /\ h_peer_index h' = h_peer_index h /\ pkt_hdr h' = pkt_hdr h.
Lemma same_pull_refl h : same_pull h h.
Proof. by repeat split. Qed.
Lemma same_pull_trans h1 h2 h3 : same_pull h1 h2 -> same_pull h2 h3 -> same_pull h1 h3.
Proof. unfold same_pull. intros H1 H2. destruct_and!. repeat split; congruence. Qed.

Lemma bitmap_zero b got bm : bitmap_of b got bm -> 0 <= b ->
  bm = 0 <-> forall k, PER * b <= k < last_of b -> got k = true.
Proof.
  intros [Hbm Ht] Hb. split.
  - intros -> k Hk. specialize (Ht (k - PER * b) ltac:(lia)). rewrite Z.bits_0 in Ht.
    rewrite (proj2 (Z.ltb_lt _ _)), Zplus_minus in Ht by lia. by destruct (got k).
  - intros H. apply Z.bits_inj'. intros t Ht0. rewrite Ht, Z.bits_0 by done.
    destruct (Z.ltb_spec t (last_of b - PER * b)); [|done]. rewrite H; [done|lia].
Qed.
Lemma next_eq h b v got : tracks h b v got -> 0 < v ->
  next_frame_index h = last_of (b + v - 1) /\ frame_index h = PER * b /\ frame_index h < nframes.
Proof.
  intros [(Hb & Hv & Hlt) _ _ Hi Hn _ _ _ _ _ _] Hv0. specialize (Hlt Hv0). pose proof per_cases. unfold last_of.
  rewrite Hn, Hi. replace (b + v - 1 + 1) with (b + v) by lia. nia.
Qed.

Lemma append_ok h b v got : tracks h b v got -> v < 4 -> remaining_length h <> 0 ->
  let h' := omx_pull_handle_append_needed_frames LEN PER (block_length_of (b + v)) (first_offset_of (b + v)) h in
  next_frame_index h = PER * (b + v) /\
  exists h1, h' = Some h1 /\ tracks h1 b (v + 1) got /\ same_pull h h1 /\ h_timer h1 = h_timer h /\
    already_rerequested_blocks h1 = already_rerequested_blocks h /\
    (v <> 0 -> h_descs h1 !! 0%nat = h_descs h !! 0%nat).
Proof.
  intros T Hv Hrem. pose proof T as [(Hb & Hv' & Hlt) Hd Hval Hi Hn Hreq Hr Hblk Hbef Haft Hmis].
  pose proof nframes_bounds as Hnb. pose proof per_cases as Hper. pose proof nframes_max as Hmax.
  assert (Hnext : next_frame_index h = PER * (b + v) /\ PER * (b + v) < nframes).
  { destruct (Z.le_gt_cases nframes (PER * (b + v))); [|lia]. rewrite Z.min_l in Hn by done.
    rewrite Hn, upto_all in Hr. lia. }
  destruct Hnext as [Hnext Hblt]. cbn zeta. split; [done|].
  destruct (block_frames (b + v)) as (Hfr & Hcount & Hbl & Hlast); [lia|done|].
  unfold omx_pull_handle_append_needed_frames. rewrite Hfr. set (nf := last_of (b + v) - PER * (b + v)) in *.
  rewrite (g_bits _ G). rewrite (proj2 (Z.ltb_ge _ _)) by lia.
  assert (Hsh : (Z.max 32 PER <=? PER - nf) = false) by (apply Z.leb_gt; lia). rewrite Hsh. cbn [orb]. rewrite Hval.
  destruct (lookup_lt_is_Some_2 (h_descs h) (Z.to_nat v)) as [d0 Hd0]; [lia|]. rewrite Hd0. cbn [mbind option_bind].
  set (bm := Z.shiftr (2 ^ PER - 1) (PER - nf)).
  assert (Hbm : bitmap_of (b + v) got bm).
  { unfold bm. split; [apply Z.shiftr_nonneg; pose proof (Z.pow_pos_nonneg 2 PER); lia|]. intros t Ht.
    rewrite Z.shiftr_spec by done. replace (2 ^ PER - 1) with (Z.ones PER) by (rewrite Z.ones_equiv; lia).
    rewrite Z.testbit_ones_nonneg by lia. rewrite (Haft (PER * (b + v) + t)), andb_true_r by lia. fold nf.
    destruct (Z.ltb_spec (t + (PER - nf)) PER), (Z.ltb_spec t nf); lia || done. }
  pose proof (upto_range (PER * (b + v)) ltac:(lia)) as Hu. pose proof (upto_range (last_of (b + v)) ltac:(lia)) as Hu'.
  destruct G as [_ _ _ Ho HL Hm _].
  assert (Hnn : 0 <= lacking (next_frame_index h) got <= next_frame_index h)
    by (pose proof (lacking_nonneg (next_frame_index h) got); pose proof (lacking_le (next_frame_index h) got); lia).
  eexists. split; [reflexivity|]. split; [|split; [by repeat split|split; [done|split; [done|]]]].
  2:{ intros Hv0. fsimp. rewrite list_lookup_insert_ne by lia. done. }
  assert (Hnew : u32 (next_frame_index h + nf) = last_of (b + v)).
  { rewrite u32_small; [lia|]. change 4294967296 with (2 ^ 32). lia. }
  split; fsimp; rewrite ?Hnew.
  - split; [done|]. split; [lia|]. intros _. by replace (b + (v + 1) - 1) with (b + v) by lia.
  - by rewrite length_insert.
  - rewrite Hval. apply u32_small. lia.
  - done.
  - unfold last_of. f_equal. f_equal. lia.
  - rewrite Hreq, u32_small; [lia|]. change 4294967296 with (2 ^ 32). lia.
  - rewrite Hr, Hnext. rewrite u32_small; unfold block_length_of in *; [lia|]. change 4294967296 with (2 ^ 32). lia.
  - intros i Hilt. destruct (Z.eq_dec (Z.of_nat i) v) as [<-|Hne].
    + rewrite Nat2Z.id in *. rewrite list_lookup_insert_eq by lia. eexists. split; [reflexivity|].
      by repeat split; cbn; try apply Hbm.
    + destruct (Hblk i) as (d & Hdi & Hat); [lia|]. rewrite list_lookup_insert_ne by lia. by exists d.
  - done.
  - intros k Hk. apply Haft. lia.
  - rewrite Hmis, u32_small; [|change 4294967296 with (2 ^ 32); lia].
    replace (last_of (b + v)) with (next_frame_index h + nf) by lia.
    rewrite lacking_more; [done|lia|lia|]. intros k Hk. apply Haft. lia.
Qed.

Lemma missing_spec h b v got i : tracks h b v got -> Z.of_nat i < v ->
  exists q, missing h i = Some q /\ (q = false <-> forall k, PER * (b + Z.of_nat i) <= k < last_of (b + Z.of_nat i) -> got k = true).
Proof.
  intros T Hi. destruct (tr_blocks _ _ _ _ T i Hi) as (d & Hd & _ & _ & _ & Hbm). pose proof (tr_range _ _ _ _ T).
  unfold missing. rewrite Hd. cbn [mbind option_bind]. eexists. split; [reflexivity|].
  rewrite <- (bitmap_zero (b + Z.of_nat i) got _ Hbm) by lia. rewrite negb_false_iff. apply Z.eqb_eq.
Qed.

Lemma shift_lookup nr (l : list block_desc) i : length l = 4%nat -> (nr <= 3)%nat -> (i < nr)%nat ->
  clear_last (shift_descs nr l) !! i = l !! S i.
Proof.
  intros Hl Hn Hi. unfold clear_last, shift_descs, OMX_PULL_BLOCK_DESCS_NR.
  destruct l as [|d0 [|d1 [|d2 [|d3 [|? ?]]]]]; try done.
  destruct nr as [|[|[|[|?]]]]; [lia|..]; [| | |lia]; cbn; destruct i as [|[|[|?]]]; (done || lia).
Qed.
Lemma shift_length nr (l : list block_desc) : length l = 4%nat -> (nr <= 3)%nat ->
  length (clear_last (shift_descs nr l)) = 4%nat.
Proof.
  intros Hl Hn. unfold clear_last, shift_descs. rewrite length_alter, length_app, length_take, !length_drop. lia.
Qed.

Lemma first_done_ok h b v got : tracks h b v got -> 0 < v ->
  (forall k, PER * b <= k < last_of b -> got k = true) ->
  exists h1, omx_pull_handle_first_block_done PER h = Some h1 /\ tracks h1 (b + 1) (v - 1) got /\ same_pull h h1 /\
    h_timer h1 = h_timer h /\ remaining_length h1 = remaining_length h.
Proof.
  intros T Hv Hgot. pose proof (next_eq h b v got T Hv) as (Hnext & Hidx & Hlt0).
  pose proof T as [(Hb & Hv' & Hlt) Hd Hval Hi Hn Hreq Hr Hblk Hbef Haft Hmis].
  pose proof nframes_bounds as Hnb. pose proof per_cases as Hper. pose proof nframes_max as Hmax.
  unfold omx_pull_handle_first_block_done. rewrite Hval. rewrite (proj2 (Z.eqb_neq _ _)) by lia.
  destruct (block_frames b) as (_ & Hcount & _ & Hlast); [lia|lia|].
  assert (Hlast' : last_of b <= next_frame_index h) by (rewrite Hnext; unfold last_of; nia).
  assert (Hmin : Z.min (nr_requested_frames h) PER = last_of b - PER * b).
  { rewrite Hreq, Hidx. unfold last_of in *. nia. }
  rewrite Hmin. assert (Hu : u32 (frame_index h + (last_of b - PER * b)) = last_of b).
  { rewrite u32_small; [lia|]. change 4294967296 with (2 ^ 32). lia. }
  eexists. split; [reflexivity|]. split; [|by repeat split].
  split; fsimp; rewrite ?Hu.
  - split; [lia|]. split; [lia|]. intros Hv1. replace (b + 1 + (v - 1) - 1) with (b + v - 1) by lia. by apply Hlt.
  - apply shift_length; [done|lia].
  - done.
  - done.
  - rewrite Hn. do 2 f_equal. lia.
  - lia.
  - done.
  - intros i Hilt. destruct (Hblk (S i)) as (d & Hdi & Hat); [lia|]. exists d. rewrite shift_lookup by (done || lia).
    split; [done|]. by replace (b + 1 + Z.of_nat i) with (b + Z.of_nat (S i)) by lia.
  - intros k Hk. destruct (Z.le_gt_cases (PER * b) k); [apply Hgot|apply Hbef]; lia.
  - done.
  - done.
Qed.

(** The first block, if any, has a frame to wait for. *)
Definition first_missing (h : handle) : Prop := 0 < nr_valid_block_descs h -> missing h 0 = Some true.
Lemma drop_done_ok n : forall h b v got, tracks h b v got -> v <= Z.of_nat n ->
  exists h1 b1 v1, drop_done PER n h = Some h1 /\ tracks h1 b1 v1 got /\ b1 + v1 = b + v /\ b <= b1 /\ first_missing h1 /\
    same_pull h h1 /\ h_timer h1 = h_timer h /\ remaining_length h1 = remaining_length h.
Proof.
  induction n as [|n IH]; intros h b v got T Hv; cbn [drop_done]; pose proof (tr_valid _ _ _ _ T) as Hval;
    pose proof (tr_range _ _ _ _ T) as Hrange.
  - exists h, b, v. split; [done|]. split; [done|]. split; [done|]. split; [lia|]. split; [intros H; lia|].
    split; [apply same_pull_refl|done].
  - destruct (Z.eqb_spec (nr_valid_block_descs h) 0) as [Hz|Hz].
    + exists h, b, v. split; [done|]. split; [done|]. split; [done|]. split; [lia|]. split; [intros H; lia|].
      split; [apply same_pull_refl|done].
    + destruct (missing_spec h b v got 0 T) as (q & Hq & Hgot); [lia|]. rewrite Hq. cbn [mbind option_bind].
      destruct q.
      * exists h, b, v. split; [done|]. split; [done|]. split; [done|]. split; [lia|]. split; [by intros _|].
        split; [apply same_pull_refl|done].
      * destruct (first_done_ok h b v got T) as (h1 & E & T1 & Hs & Ht & Hr); [lia| |].
        { intros k Hk. apply Hgot; [done|]. by rewrite Z.add_0_r. }
        rewrite E. cbn [mbind option_bind]. destruct (IH h1 (b + 1) (v - 1) got T1) as
          (h2 & b2 & v2 & E2 & T2 & Hbv & Hle & Hf & Hs2 & Ht2 & Hr2); [lia|].
        exists h2, b2, v2. split; [done|]. split; [done|]. split; [lia|]. split; [lia|]. split; [done|].
        split; [by eapply same_pull_trans|]. split; congruence.
Qed.

Lemma remaining_block h b v got : tracks h b v got -> 0 < b + v -> remaining_length h <> 0 ->
  next_frame_index h = PER * (b + v) ->
  (if remaining_length h <? OMX_PULL_BLOCK_LENGTH_MAX LEN PER then remaining_length h
   else OMX_PULL_BLOCK_LENGTH_MAX LEN PER) = block_length_of (b + v) /\ first_offset_of (b + v) = 0.
Proof.
  intros T Hpos Hrem Hnext. pose proof (tr_remaining _ _ _ _ T) as Hr. pose proof (tr_next _ _ _ _ T) as Hn.
  pose proof nframes_bounds as Hnb. pose proof per_cases as Hper. rewrite Hnext in *.
  assert (Hlt : PER * (b + v) < nframes).
  { destruct (Z.le_gt_cases nframes (PER * (b + v))); [|lia]. exfalso. apply Hrem. rewrite Hr, Hn, Z.min_l by done.
    rewrite upto_all. lia. }
  unfold first_offset_of. rewrite (proj2 (Z.eqb_neq (b + v) 0)) by lia. split; [|done].
  destruct (block_frames (b + v)) as (_ & Hc & Hbl & Hlast); [lia|done|]. rewrite Hr.
  unfold OMX_PULL_BLOCK_LENGTH_MAX, block_length_of in *. destruct G.
  destruct (upto_inner (PER * (b + v))) as [Hu _]; [lia|]. rewrite Hu in *.
  unfold last_of, upto in *. rewrite (proj2 (Z.eqb_neq (Z.min nframes (PER * (b + v + 1))) 0)) in * by lia.
  zcases; nia.
Qed.
Lemma append_blocks_ok fuel : forall h b v got, tracks h b v got -> 0 < b + v -> 4 - v <= Z.of_nat fuel ->
  exists h1 v1, append_blocks LEN PER fuel h = Some h1 /\ tracks h1 b v1 got /\ v <= v1 /\
    (v1 = 4 \/ remaining_length h1 = 0) /\ same_pull h h1 /\ h_timer h1 = h_timer h /\
    already_rerequested_blocks h1 = already_rerequested_blocks h /\
    (v <> 0 -> h_descs h1 !! 0%nat = h_descs h !! 0%nat).
Proof.
  induction fuel as [|fuel IH]; intros h b v got T Hpos Hfuel; cbn [append_blocks];
    pose proof (tr_valid _ _ _ _ T) as Hval; pose proof (tr_range _ _ _ _ T) as Hrange; rewrite Hval;
    unfold OMX_PULL_BLOCK_DESCS_NR.
  - rewrite (proj2 (Z.ltb_ge _ _)) by lia. exists h, v. split; [done|]. split; [done|]. split; [lia|]. split; [lia|].
    split; [apply same_pull_refl|done].
  - destruct (Z.ltb_spec v (Z.of_nat 4)) as [Hlt|Hge]; cbn [andb].
    2:{ exists h, v. split; [done|]. split; [done|]. split; [lia|]. split; [lia|]. split; [apply same_pull_refl|done]. }
    destruct (Z.eqb_spec (remaining_length h) 0) as [Hz|Hz]; cbn [negb].
    { exists h, v. split; [done|]. split; [done|]. split; [lia|]. split; [by right|]. split; [apply same_pull_refl|done]. }
    destruct (append_ok h b v got T) as (Hnext & h1 & E & T1 & Hs & Ht & Ha & H0); [lia|done|].
    destruct (remaining_block h b v got T Hpos Hz Hnext) as [Hbl Hfo]. rewrite Hbl. rewrite Hfo in E. rewrite E.
    cbn [mbind option_bind]. destruct (IH h1 b (v + 1) got T1) as (h2 & v2 & E2 & T2 & Hle & Hdone & Hs2 & Ht2 & Ha2 & H02);
      [lia|lia|].
    exists h2, v2. split; [done|]. split; [done|]. split; [lia|]. split; [done|].
    split; [by eapply same_pull_trans|]. split; [congruence|]. split; [congruence|].
    intros Hv0. rewrite H02 by lia. by apply H0.
Qed.

(** ** Requests *)

(** The request of block [b] of the pull of a handle. *)
Definition request_of (h : handle) (b : Z) : packet :=
  let r := pkt_hdr h in
  Request (h_addr h) (h_peer_index h)
    (PullRequest (rq_dst_endpoint r) (rq_src_endpoint r) (rq_session r) (rq_total_length r) (rq_pulled_rdma_id r)
      (rq_pulled_rdma_seqnum r) (rq_pulled_rdma_offset r) (rq_src_pull_handle r) (rq_src_magic r)
      (first_offset_of b) (block_length_of b) (PER * b)).
Lemma request_of_same h h' b : same_pull h h' -> request_of h' b = request_of h b.
Proof. unfold same_pull, request_of. intros H. destruct_and!. congruence. Qed.
Lemma fill_request_ok skbs h b v got i : tracks h b v got -> Z.of_nat i < v ->
  omx_fill_pull_block_request skbs h i = Some (if skbs i then inr (request_of h (b + Z.of_nat i)) else inl ENOMEM).
Proof.
  intros T Hi. destruct (tr_blocks _ _ _ _ T i Hi) as (d & Hd & H1 & H2 & H3 & _).
  unfold omx_fill_pull_block_request. rewrite Hd. cbn [mbind option_bind]. destruct (skbs i); [|done].
  cbn [negb]. unfold request_of. by rewrite H1, H2, H3.
Qed.
(** Requests of blocks that are requested. *)
Definition requests_for (h : handle) (b v : Z) (l : list packet) : Prop :=
  Forall (fun k => exists i, b <= i < b + v /\ k = request_of h i) l.
Lemma fill_requests_ok skbs h b v got is' : tracks h b v got -> Forall (fun i => Z.of_nat i < v) is' ->
  exists l, fill_requests skbs h is' = Some l /\ requests_for h b v l /\
    ((forall i, skbs i = true) -> l = (fun i => request_of h (b + Z.of_nat i)) <$> is').
Proof.
  intros T. induction 1 as [|i is' Hi _ (l & E & Hl & Hall)].
  - exists []. split; [done|]. split; [constructor|done].
  - cbn [fill_requests]. rewrite (fill_request_ok skbs h b v got i T Hi), E. cbn [mbind option_bind].
    destruct (skbs i) eqn:Hs.
    + eexists. split; [reflexivity|]. split; [|intros Ha; cbn; by rewrite Hall].
      constructor; [|done]. exists (b + Z.of_nat i). split; [lia|done].
    + exists []. split; [done|]. split; [constructor|]. intros Ha. by rewrite Ha in Hs.
Qed.
Lemma rerequest_ok skbs b v got is' : forall h, tracks h b v got -> Forall (fun i => Z.of_nat i < v) is' ->
  exists h1 l, rerequest skbs is' h = Some (h1, l) /\ tracks h1 b v got /\ same_pull h h1 /\
    h_timer h1 = h_timer h /\ remaining_length h1 = remaining_length h /\ h_descs h1 = h_descs h /\ requests_for h b v l.
Proof.
  induction is' as [|i is' IH]; intros h T Hf.
  - exists h, []. split; [done|]. split; [done|]. split; [apply same_pull_refl|]. do 3 (split; [done|]). constructor.
  - apply Forall_cons in Hf as [Hi Hf]. cbn [rerequest].
    destruct (missing_spec h b v got i T Hi) as (q & -> & _). cbn [mbind option_bind]. destruct q; [|by apply IH].
    rewrite (fill_request_ok skbs h b v got i T Hi). cbn [mbind option_bind]. destruct (skbs i).
    2:{ exists h, []. split; [done|]. split; [done|]. split; [apply same_pull_refl|]. do 3 (split; [done|]). constructor. }
    set (h0 := h <| already_rerequested_blocks := _ |>).
    destruct (IH h0) as (h1 & l & E & T1 & Hs & Ht & Hr & Hd & Hl); [destruct T; by split|done|].
    rewrite E. cbn [mbind option_bind]. do 2 eexists. split; [reflexivity|]. split; [done|]. split; [exact Hs|].
    split; [exact Ht|]. split; [exact Hr|]. split; [exact Hd|]. constructor; [|exact Hl].
    exists (b + Z.of_nat i). split; [lia|done].
Qed.

(** The invariant between two operations: blocks are requested as long as
    there is something to request. *)
Record requesting (h : handle) (b v : Z) (got : Z -> bool) : Prop := {
  rq_tracks : tracks h b v got;
  rq_full : v = 4 \/ remaining_length h = 0;
  rq_first : first_missing h
}.
Lemma requesting_done h b v got : requesting h b v got ->
  (remaining_length h = 0 /\ nr_missing_frames h = 0) <-> v = 0.
Proof.
  intros [T Hfull Hfirst]. pose proof (tr_valid _ _ _ _ T) as Hval. pose proof (tr_range _ _ _ _ T) as (Hb & Hv & Hlt).
  pose proof per_cases as Hper. split.
  - intros [Hr Hm]. destruct (Z.eq_dec v 0) as [|Hv0]; [done|]. exfalso.
    destruct (next_eq h b v got T) as (Hn & Hi & Hlt0); [lia|]. rewrite (tr_missing _ _ _ _ T) in Hm.
    destruct (missing_spec h b v got 0 T) as (q & Hq & Hgot); [lia|]. specialize (Hfirst ltac:(lia)).
    assert (q = true) as -> by congruence. assert (Hf : true = false); [|done]. apply Hgot. intros k Hk.
    apply (proj1 (lacking_0 (next_frame_index h) got) Hm). rewrite Hn. unfold last_of in *. nia.
  - intros ->. destruct Hfull as [|Hr]; [lia|]. split; [done|]. rewrite (tr_missing _ _ _ _ T).
    apply lacking_0. intros k Hk. apply (tr_before _ _ _ _ T). rewrite (tr_index _ _ _ _ T).
    rewrite (tr_next _ _ _ _ T), Z.add_0_r in Hk. lia.
Qed.

Lemma requesting_timer h b v got t : requesting h b v got -> requesting (h <| h_timer ::= t |>) b v got.
Proof. intros [T H1 H2]. split; [destruct T; by split|done|done]. Qed.

Context (HZ : Z).
(** After the bitmap of block [b + idesc] lost a bit. *)
Lemma progress_ok skbs now idesc h b v got : tracks h b v got -> v = 4 \/ remaining_length h = 0 ->
  Z.of_nat idesc < v -> exists h1 l b1 v1,
  omx_progress_pull_on_recv_pull_reply_locked LEN PER HZ skbs now idesc h = Some (h1, l) /\
  requesting h1 b1 v1 got /\ b <= b1 /\ same_pull h h1 /\ requests_for h b1 v1 l /\
  h_timer h1 = (fun _ => retransmit_at HZ now) <$> h_timer h.
Proof.
  intros T Hfull Hi. pose proof (tr_range _ _ _ _ T) as (Hb & Hv & Hlt). pose proof (tr_valid _ _ _ _ T) as Hval.
  unfold omx_progress_pull_on_recv_pull_reply_locked.
  destruct (missing_spec h b v got idesc T Hi) as (qi & -> & _). cbn [mbind option_bind].
  destruct (missing_spec h b v got 0 T) as (q0 & Hq0 & Hgot0); [lia|]. rewrite Hq0. cbn [mbind option_bind].
  destruct q0.
  - assert (Hcase : exists h1 l, (if negb qi && Nat.ltb 0 idesc && (already_rerequested_blocks h <? Z.of_nat idesc)
        then let from := Z.to_nat (already_rerequested_blocks h) in rerequest skbs (seq from (idesc - from)) h
        else Some (h, [])) = Some (h1, l) /\ tracks h1 b v got /\ same_pull h h1 /\ h_timer h1 = h_timer h /\
        remaining_length h1 = remaining_length h /\ h_descs h1 = h_descs h /\ requests_for h b v l).
    { destruct (_ && _ && _).
      - apply rerequest_ok; [done|]. apply Forall_forall. intros i Hin. apply elem_of_seq in Hin. lia.
      - exists h, []. split; [done|]. split; [done|]. split; [apply same_pull_refl|].
        do 3 (split; [done|]). constructor. }
    destruct Hcase as (h1 & l & E & T1 & Hs & Ht & Hr & Hd & Hl). cbn zeta in E. rewrite E. cbn [mbind option_bind].
    do 4 eexists. split; [reflexivity|]. split; [|split; [done|split; [exact Hs|split; [exact Hl|]]]].
    + apply requesting_timer. split; [exact T1|rewrite Hr; exact Hfull|]. intros _. unfold missing. by rewrite Hd.
    + unfold mod_timer_pending. fsimp. rewrite Ht. by destruct (h_timer h).
  - destruct (first_done_ok h b v got T) as (h1 & E1 & T1 & Hs1 & Ht1 & Hr1); [lia| |].
    { intros k Hk. apply Hgot0; [done|]. by rewrite Z.add_0_r. }
    rewrite E1. cbn [mbind option_bind].
    destruct (drop_done_ok (OMX_PULL_BLOCK_DESCS_NR - 1) h1 _ _ got T1)
      as (h2 & b2 & v2 & E2 & T2 & Hbv & Hle & Hf2 & Hs2 & Ht2 & Hr2); [unfold OMX_PULL_BLOCK_DESCS_NR; lia|].
    rewrite E2. cbn [mbind option_bind].
    destruct (append_blocks_ok OMX_PULL_BLOCK_DESCS_NR h2 b2 v2 got T2)
      as (h3 & v3 & E3 & T3 & Hle3 & Hdone & Hs3 & Ht3 & Ha3 & H03);
      [lia|pose proof (tr_range _ _ _ _ T2); unfold OMX_PULL_BLOCK_DESCS_NR; lia|].
    rewrite E3. cbn [mbind option_bind].
    destruct (fill_requests_ok skbs h3 b2 v3 got (seq (Z.to_nat (nr_valid_block_descs h2))
      (Z.to_nat (nr_valid_block_descs h3) - Z.to_nat (nr_valid_block_descs h2))) T3) as (l & El & Hl & _).
    { rewrite (tr_valid _ _ _ _ T3). pose proof (tr_range _ _ _ _ T3). apply Forall_forall. intros i Hin.
      apply elem_of_seq in Hin. lia. }
    rewrite El. cbn [mbind option_bind].
    assert (Hs : same_pull h h3) by (do 2 (eapply same_pull_trans; [eassumption|]); done).
    do 4 eexists. split; [reflexivity|]. split; [|split; [|split; [exact Hs|split; [|]]]].
    + apply requesting_timer. split; [exact T3|exact Hdone|]. intros Hpos.
      destruct (Z.eq_dec v2 0) as [Hz|Hnz].
      2:{ unfold missing. rewrite H03 by done. apply Hf2. rewrite (tr_valid _ _ _ _ T2).
          pose proof (tr_range _ _ _ _ T2). lia. }
      rewrite (tr_valid _ _ _ _ T3) in Hpos. destruct (missing_spec h3 b2 v3 got 0 T3) as (q & Hq & Hgot); [lia|].
      rewrite Hq. destruct q; [done|]. exfalso. pose proof (tr_range _ _ _ _ T3) as (_ & _ & Hlt3). specialize (Hlt3 Hpos).
      rewrite Z.add_0_r in Hgot. pose proof per_cases as Hper.
      destruct (block_frames b2) as (_ & Hc & _); [lia|nia|].
      assert (Hk : got (PER * b2) = true) by (apply Hgot; [done|lia]).
      rewrite (tr_after _ _ _ _ T2) in Hk; [done|]. rewrite (tr_next _ _ _ _ T2), Hz, Z.add_0_r. lia.
    + lia.
    + eapply Forall_impl; [exact Hl|]. intros k (i & Hi' & ->). exists i. split; [done|]. by apply request_of_same.
    + unfold mod_timer_pending. fsimp. rewrite Ht3, Ht2, Ht1. by destruct (h_timer h).
Qed.

(** ** Replies *)

(** What the frame [k] carries. *)
Definition frame_length_of (k : Z) : Z := upto (k + 1) - upto k.
Lemma frame_offset_check k : 0 <= k < nframes -> (upto k + LEN - 1) / LEN = k.
Proof.
  intros Hk. pose proof G as [H1 _ _ H2 _ _ _]. destruct (Z.eq_dec k 0) as [->|Hk0].
  - rewrite upto_0. apply Z.div_small. lia.
  - destruct (upto_inner k) as [-> _]; [lia|]. replace (k * LEN - o + LEN - 1) with (LEN - 1 - o + k * LEN) by lia.
    rewrite Z.div_add, Z.div_small by lia. lia.
Qed.
Lemma byte_frame k j : 0 <= k < nframes -> 0 <= j < L -> upto k <= j < upto (k + 1) <-> (o + j) / LEN = k.
Proof.
  intros Hk Hj. pose proof nframes_bounds as Hn. pose proof G as [H1 _ _ H2 H3 _ _].
  assert (Hdiv : (o + j) / LEN = k <-> k * LEN <= o + j < (k + 1) * LEN).
  { pose proof (Z.div_mod (o + j) LEN ltac:(lia)). pose proof (Z.mod_pos_bound (o + j) LEN H1).
    split; [intros <-; lia|]. intros Hb. symmetry. apply Z.div_unique with (o + j - k * LEN); lia. }
  rewrite Hdiv. unfold upto. rewrite (proj2 (Z.eqb_neq (k + 1) 0)) by lia. destruct (Z.eqb_spec k 0); nia.
Qed.
Lemma byte_frame_range j : 0 <= j < L -> 0 <= (o + j) / LEN < nframes.
Proof.
  intros Hj. pose proof nframes_bounds as Hn. pose proof G as [H1 _ _ H2 _ _ _].
  split; [apply Z.div_pos; lia|]. apply Z.div_lt_upper_bound; lia.
Qed.
Lemma frame_length_range k : 0 <= k < nframes -> 0 < frame_length_of k <= LEN /\ 0 <= upto k /\ upto k + frame_length_of k <= L.
Proof.
  intros Hk. pose proof (upto_lt k (k + 1) ltac:(lia) ltac:(lia)). pose proof (upto_range k ltac:(lia)).
  pose proof (upto_range (k + 1) ltac:(lia)). pose proof nframes_bounds as Hn. pose proof G as [Hl1 _ _ Hl2 _ _ _].
  unfold frame_length_of. split; [|lia]. split; [lia|]. unfold upto. rewrite (proj2 (Z.eqb_neq (k + 1) 0)) by lia.
  destruct (Z.eqb_spec k 0); nia.
Qed.

(** A frame is cut by its length or by the end of what is asked. *)
Lemma frame_length_min k n : 0 <= k < n -> n <= nframes ->
  frame_length_of k = Z.min (upto n - upto k) (LEN - (if k =? 0 then o else 0)).
Proof.
  intros Hk Hn. pose proof G as [H1 _ _ H2 _ _ _]. assert (Hm : (k + 1) * LEN <= n * LEN) by (apply Z.mul_le_mono_nonneg_r; lia).
  rewrite Z.mul_add_distr_r, Z.mul_1_l in Hm. unfold frame_length_of.
  destruct (Z.eqb_spec k 0) as [->|Hk0].
  - rewrite upto_0. unfold upto. rewrite (proj2 (Z.eqb_neq n 0)) by lia. change (0 + 1 =? 0) with false. cbn match. lia.
  - destruct (upto_inner k) as [-> _]; [lia|]. unfold upto.
    rewrite (proj2 (Z.eqb_neq n 0)), (proj2 (Z.eqb_neq (k + 1) 0)) by lia. rewrite Z.mul_add_distr_r. lia.
Qed.

(** The tests of a reply accept the frames that are requested, and no others. *)
Lemma frame_requested_check h b v got k : tracks h b v got -> 0 <= k < nframes ->
  let off := (k mod 256 - frame_index h mod 256 + 256) mod 256 in
  if decide (frame_index h <= k < next_frame_index h)
  then u32 (frame_index h + off) = k /\ off = k - frame_index h /\ off < nr_requested_frames h
  else u32 (frame_index h + off) <> k \/ nr_requested_frames h <= off.
Proof.
  intros T Hk. pose proof T as [(Hb & Hv & _) _ _ Hi Hn Hreq _ _ _ _ _].
  pose proof nframes_bounds as Hnb. pose proof per_cases as Hper. pose proof G as [H1 _ _ H2 _ Hmax _].
  assert (Hoff : (k mod 256 - frame_index h mod 256 + 256) mod 256 = (k - frame_index h) mod 256).
  { rewrite Z.add_mod, Z.mod_same, Z.add_0_r, Z.mod_mod by done. symmetry. apply Zminus_mod. }
  cbn zeta. rewrite Hoff. set (off := (k - frame_index h) mod 256).
  assert (Hr : 0 <= off < 256) by by apply Z.mod_pos_bound.
  assert (Hu : u32 (frame_index h + off) = frame_index h + off).
  { apply u32_small. change 4294967296 with (2 ^ 32). nia. }
  rewrite Hu. destruct (decide _) as [Hin|Hout].
  - assert (Hlt : k - frame_index h < 256) by nia. assert (Ho : off = k - frame_index h) by (apply Z.mod_small; lia).
    lia.
  - lia.
Qed.

(** Taking a frame. *)
Definition take_frame (idesc : nat) (bit : Z) (d : block_desc) (h : handle) : handle :=
  h <| h_descs ::= <[idesc := d <| bd_frames_missing_bitmap ::= fun x => Z.clearbit x bit |>]> |>
    <| nr_missing_frames ::= fun n => u32 (n - 1) |>
    <| host_copy_nr_frames ::= fun n => n + 1 |>.
Lemma take_frame_ok h b v got k : tracks h b v got -> frame_index h <= k < next_frame_index h ->
  let off := k - frame_index h in
  let idesc := Z.to_nat (off / PER) in
  exists d, h_descs h !! idesc = Some d /\ Z.of_nat idesc < v /\
    Z.testbit (bd_frames_missing_bitmap d) (off mod PER) = negb (got k) /\
    (got k = false -> tracks (take_frame idesc (off mod PER) d h) b v (add_frame k got)).
Proof.
  intros T Hk. pose proof T as [(Hb & Hv & Hlt) Hd Hval Hi Hn Hreq Hr Hblk Hbef Haft Hmis].
  pose proof nframes_bounds as Hnb. pose proof per_cases as Hper. pose proof nframes_max as Hmax.
  assert (Hv0 : 0 < v). { destruct (Z.eq_dec v 0) as [->|]; [|lia]. rewrite Z.add_0_r in Hn. lia. }
  destruct (next_eq h b v got T Hv0) as (Hn' & Hi' & Hlt0). cbn zeta. set (off := k - frame_index h).
  pose proof (Z.div_mod off PER ltac:(lia)) as Hdm. pose proof (Z.mod_pos_bound off PER ltac:(lia)) as Hmod.
  set (i := off / PER) in *. set (bit := off mod PER) in *.
  assert (Hi0 : 0 <= i) by (apply Z.div_pos; lia). assert (Hiv : i < v) by nia.
  destruct (Hblk (Z.to_nat i)) as (d & Hdi & Hat); [lia|]. rewrite Z2Nat.id in * by done.
  exists d. split; [done|]. split; [done|]. destruct Hat as (Ha1 & Ha2 & Ha3 & Hbm0 & Hbm).
  assert (Hkeq : PER * (b + i) + bit = k) by lia.
  assert (Hlast : bit < last_of (b + i) - PER * (b + i)) by (unfold last_of; nia).
  split; [rewrite Hbm by lia; rewrite Hkeq, (proj2 (Z.ltb_lt _ _)) by done; done|]. intros Hgot.
  unfold take_frame. split; fsimp; try done.
  - by rewrite length_insert.
  - intros i' Hi2. destruct (Nat.eq_dec i' (Z.to_nat i)) as [->|Hne].
    + rewrite list_lookup_insert_eq by lia. eexists. split; [reflexivity|]. rewrite Z2Nat.id by done.
      split; [done|]. split; [done|]. split; [done|]. fsimp. split.
      * unfold Z.clearbit. apply Z.ldiff_nonneg. by left.
      * intros t Ht. rewrite Z.clearbit_eqb, Hbm by lia. unfold add_frame.
        destruct (Z.eqb_spec bit t) as [<-|Hnt].
        { by rewrite Hkeq, Z.eqb_refl, !andb_false_r. }
        rewrite (proj2 (Z.eqb_neq (PER * (b + i) + t) k)) by lia. cbn [orb negb]. apply andb_true_r.
    + destruct (Hblk i' Hi2) as (d' & Hd' & Hx1 & Hx2 & Hx3 & Hy0 & Hy). rewrite list_lookup_insert_ne by done.
      exists d'. split; [done|]. split; [done|]. split; [done|]. split; [done|]. split; [done|].
      intros t Ht. rewrite Hy by done. destruct (Z.ltb_spec t (last_of (b + Z.of_nat i') - PER * (b + Z.of_nat i'))); [|done].
      unfold add_frame. rewrite (proj2 (Z.eqb_neq (PER * (b + Z.of_nat i') + t) k)); [done|].
      intros He. apply Hne. assert (Hlt' : t < PER) by (unfold last_of in *; lia).
      assert (b + Z.of_nat i' = b + i) by nia. lia.
  - intros x Hx. unfold add_frame. rewrite Hbef by done. apply orb_true_r.
  - intros x Hx. unfold add_frame. rewrite Haft by done. by rewrite (proj2 (Z.eqb_neq _ _)) by lia.
  - rewrite Hmis, lacking_add by (done || lia). apply u32_small. change 4294967296 with (2 ^ 32).
    assert (Hpos : 0 < lacking (next_frame_index h) got).
    { pose proof (lacking_nonneg (next_frame_index h) got).
      destruct (Z.eq_dec (lacking (next_frame_index h) got) 0) as [Hz|]; [|lia].
      pose proof (proj1 (lacking_0 _ _) Hz k ltac:(lia)). congruence. }
    pose proof (lacking_le (next_frame_index h) got). lia.
Qed.
End blocks.
End PullFrames.
