(* ===== verification/PullReplies.v ===== *)
(** A pull in the driver: replies in any order with duplicates, copies that
    overlap with other replies, retransmissions and nacks. *)
From S2P Require Import Prelude Segments Reg RegCopy RegTable RegRefs Peer Pull PullFrames.
Import Mem Reg RegCopy RegTable Peer Pull PullFrames.

Module PullReplies.

(** The constants of a pull: its geometry, the address of its handle and of
    its region, its slot identifier, the index of the endpoint, the cookies of
    its event, the header of its requests, the segments of its region and the
    message it pulls. *)
Record pull := MkPull {
  p_geo : geometry; p_hz : Z; p_handle : Z; p_region : Z; p_sid : Z; p_ei : Z;
  p_cookie : Z; p_rid : Z; p_hdr : pull_request; p_peer : Z; p_segs : list (segment * list Z); p_msg : list Z }.
Definition slot_index (q : pull) : Z := OMX_PULL_HANDLE_SLOT_INDEX_FROM_ID (p_sid q).
Definition magic (q : pull) : Z := Z.lxor (p_ei q) OMX_ENDPOINT_PULL_MAGIC_XOR.
Definition slice (q : pull) (from n : Z) : list Z := take (Z.to_nat n) (drop (Z.to_nat from) (p_msg q)).
(** The reply with the frame [k]. *)
Definition frame_reply (q : pull) (k : Z) : pull_reply :=
  PullReply (k mod 256) (frame_length_of (p_geo q) k) (upto (p_geo q) k) (p_sid q) (magic q)
    (slice q (upto (p_geo q) k) (frame_length_of (p_geo q) k)).

(** What happens to a pull: a reply is received up to its copy; it is copied;
    the timer expires; a nack is received.  The state holds the frames to copy. *)
Inductive act :=
  | RecvFrame (k : Z) (skbs : nat -> bool) (now : Z)
  | CopyFrame (k : Z)
  | Expire (skbs : nat -> bool) (now : Z)
  | RecvNack (src_addr peer_index src_endpoint nack_type : Z).
#[local] Notation state := (driver * list Z)%type.
Definition do_act (q : pull) (a : act) (st : state) : option state :=
  let '(s, pend) := st in
  match a with
  | RecvFrame k skbs now =>
      '(out, s) ← recv_pull_reply_locked (LEN (p_geo q)) (PER (p_geo q)) (p_hz q) skbs now (frame_reply q k) s;
      Some (s, match out with Dropped _ => pend | ToCopy _ => pend ++ [k] end)
  | CopyFrame k => '(_, s) ← recv_pull_reply_copy (frame_reply q k) (p_handle q) s; Some (s, remove_elt k pend)
  | Expire skbs now => s ← omx_pull_handle_timeout_handler (p_hz q) skbs now (p_handle q) s; Some (s, pend)
  | RecvNack src_addr peer_index src_endpoint nack_type =>
      '(_, s) ← omx_recv_nack_mcp src_addr peer_index (NackMcp src_endpoint nack_type (p_sid q) (magic q)) s;
      Some (s, pend)
  end.
(** The timer expires when it is pending.  It must not do so when all frames
    were received and some are still being copied: that is a [BUG_ON]. *)
Definition last_copies (q : pull) (s : driver) (now : Z) : Prop :=
  exists h, d_handles s !! p_handle q = Some h /\ h_status h = STATUS_OK /\ nr_valid_block_descs h = 0 /\
    now <= last_retransmit_jiffies h.
Definition act_allowed (q : pull) (a : act) (st : state) : Prop :=
  let '(s, pend) := st in
  match a with
  | RecvFrame k _ _ => 0 <= k < nframes (p_geo q)
  | CopyFrame k => k ∈ pend
  | Expire _ now => (exists h, d_handles s !! p_handle q = Some h /\ h_timer h <> None) /\ ~ last_copies q s now
  | RecvNack _ _ _ nack_type => nack_type <> OMX_EVT_PULL_DONE_SUCCESS
  end.
Fixpoint do_acts (q : pull) (l : list act) (st : state) : option state :=
  match l with [] => Some st | a :: l => st ← do_act q a st; do_acts q l st end.
Fixpoint acts_allowed (q : pull) (l : list act) (st : state) : Prop :=
  match l with
  | [] => True
  | a :: l => act_allowed q a st /\ match do_act q a st with Some st => acts_allowed q l st | None => True end
  end.

(** The same conditions as functions. *)
Definition act_allowedb (q : pull) (a : act) (st : state) : bool :=
  let '(s, pend) := st in
  match a with
  | RecvFrame k _ _ => (0 <=? k) && (k <? nframes (p_geo q))
  | CopyFrame k => bool_decide (k ∈ pend)
  | Expire _ now =>
      match d_handles s !! p_handle q with
      | None => false
      | Some h => bool_decide (h_timer h <> None)
                  && negb (bool_decide (h_status h = STATUS_OK) && (nr_valid_block_descs h =? 0)
                           && (now <=? last_retransmit_jiffies h))
      end
  | RecvNack _ _ _ nack_type => negb (nack_type =? OMX_EVT_PULL_DONE_SUCCESS)
  end.
Fixpoint acts_allowedb (q : pull) (l : list act) (st : state) : bool :=
  match l with
  | [] => true
  | a :: l => act_allowedb q a st && match do_act q a st with Some st => acts_allowedb q l st | None => true end
  end.
Lemma act_allowedb_sound q a st : act_allowedb q a st = true -> act_allowed q a st.
Proof.
  destruct st as [s pend], a as [k skbs now|k|skbs now|? ? ? ty]; cbn.
  - intros [H1 H2]%andb_prop. lia.
  - apply bool_decide_eq_true.
  - destruct (d_handles s !! p_handle q) as [h|] eqn:Hh; [|done]. intros [H1 H2]%andb_prop.
    apply bool_decide_eq_true in H1. split; [by exists h|]. intros (h' & Hh' & Hs & Hv & Hn).
    assert (h' = h) as -> by congruence. rewrite bool_decide_true, Hv in H2 by done.
    rewrite (proj2 (Z.leb_le _ _)) in H2 by done. done.
  - intros H Heq. by rewrite Heq in H.
Qed.
Lemma acts_allowedb_sound q l : forall st, acts_allowedb q l st = true -> acts_allowed q l st.
Proof.
  induction l as [|a l IH]; intros st; [done|]. cbn. intros [H1 H2]%andb_prop.
  split; [by apply act_allowedb_sound|]. destruct (do_act q a st); [by apply IH|done].
Qed.

(** ** The invariant *)

Record pull_ok (q : pull) : Prop := {
  po_geo : geometry_ok (p_geo q);
  po_slot : 0 <= slot_index q < OMX_PULL_HANDLE_SLOT_INDEX_MAX;
  po_ei : 0 <= p_ei q < 256;
  po_msg : Z.of_nat (length (p_msg q)) = L (p_geo q)
}.

(** The byte [j] of the region is that of the message. *)
Definition byte_here (q : pull) (m : mem) (j : Z) : Prop :=
  region_bytes m (p_segs q) !! Z.to_nat j = p_msg q !! Z.to_nat j.
Definition delivered (q : pull) (m : mem) : Prop :=
  take (length (p_msg q)) (region_bytes m (p_segs q)) = p_msg q.

(** The endpoint is open; the region is there. *)
Record context (q : pull) (s : driver) : Prop := {
  cx_index : endpoint_index s = p_ei q;
  cx_max : p_ei q < endpoint_max s;
  cx_ok : endpoint_ok s = true
}.
Record handle_ok (q : pull) (s : driver) (h : handle) : Prop := {
  ho_at : d_handles s !! p_handle q = Some h;
  ho_sid : slot_id h = p_sid q;
  ho_event : pd_lib_cookie (done_event h) = p_cookie q /\ pd_puller_rdma_id (done_event h) = p_rid q;
  ho_region : h_region h = p_region q /\ exists r, heap (d_regions s) !! p_region q = Some r /\
    region_pinned r (p_segs q) /\ L (p_geo q) <= total_length r;
  ho_hdr : pkt_hdr h = p_hdr q /\ h_peer_index h = p_peer q
}.
Record active (q : pull) (ev : list pull_done) (s : driver) (pend : list Z) (h : handle) (b v : Z)
    (got : Z -> bool) : Prop := {
  ac_handle : handle_ok q s h;
  ac_status : h_status h = STATUS_OK;
  ac_requesting : requesting (p_geo q) h b v got;
  ac_refs : h_refcount h = 1 + Z.of_nat (length pend) /\ host_copy_nr_frames h = Z.of_nat (length pend);
  ac_timer : h_timer h <> None;
  ac_slot : exists slots, pull_handle_slots_array s = Some slots /\
    slots !! Z.to_nat (slot_index q) = Some (Slot (Some (p_handle q)) (p_sid q));
  ac_pend : NoDup pend /\ forall k, k ∈ pend -> 0 <= k < nframes (p_geo q) /\ got k = true;
  ac_bytes : forall j, 0 <= j < L (p_geo q) -> got ((o (p_geo q) + j) / LEN (p_geo q)) = true ->
    (o (p_geo q) + j) / LEN (p_geo q) ∉ pend -> byte_here q (d_mem s) j;
  ac_waits : v = 0 -> pend <> [];
  ac_events : d_events s = ev
}.
(** The event was given: the handle waits for its timer or its last copies. *)
Inductive leaving (q : pull) (s : driver) (pend : list Z) : Prop :=
  | leaving_timer h (_ : handle_ok q s h) (_ : h_status h = TIMER_MUST_EXIT)
      (_ : h_refcount h = 1 + Z.of_nat (length pend))
  | leaving_copies h (_ : handle_ok q s h) (_ : h_status h = TIMER_EXITED) (_ : h_timer h = None)
      (_ : h_refcount h = Z.of_nat (length pend)) (_ : 0 < Z.of_nat (length pend))
  | leaving_gone (_ : d_handles s !! p_handle q = None) (_ : pend = []).
Record finished (q : pull) (ev : list pull_done) (s : driver) (pend : list Z) (status : Z) : Prop := {
  fi_leaving : leaving q s pend;
  fi_slot : exists slots id, pull_handle_slots_array s = Some slots /\
    slots !! Z.to_nat (slot_index q) = Some (Slot None id);
  fi_pend : NoDup pend /\ forall k, k ∈ pend -> 0 <= k < nframes (p_geo q);
  fi_events : d_events s = ev ++ [PullDone (p_cookie q) (p_rid q) status];
  fi_success : status = OMX_EVT_PULL_DONE_SUCCESS -> pend = [] /\ delivered q (d_mem s)
}.
Definition pulling (q : pull) (ev : list pull_done) (st : state) : Prop :=
  context q (fst st) /\
  ((exists h b v got, active q ev (fst st) (snd st) h b v got) \/ (exists status, finished q ev (fst st) (snd st) status)).

(** ** The steps of the operations *)

Lemma magic_endpoint q : Z.lxor (magic q) OMX_ENDPOINT_PULL_MAGIC_XOR = p_ei q.
Proof. unfold magic. by rewrite Z.lxor_assoc, Z.lxor_nilpotent, Z.lxor_0_r. Qed.
Lemma endpoint_found q s : pull_ok q -> context q s ->
  omx_endpoint_acquire_by_iface_index (Z.lxor (magic q) OMX_ENDPOINT_PULL_MAGIC_XOR) s = inr (omx_endpoint_reacquire s).
Proof.
  intros [_ _ He _] [H1 H2 H3]. rewrite magic_endpoint. unfold omx_endpoint_acquire_by_iface_index, u8.
  rewrite Z.mod_small, (proj2 (Z.leb_gt _ _)), H1, Z.eqb_refl, H3 by done. done.
Qed.
Lemma context_same q s s' : context q s -> endpoint_index s' = endpoint_index s -> endpoint_max s' = endpoint_max s ->
  endpoint_ok s' = endpoint_ok s -> context q s'.
Proof. intros [H1 H2 H3] E1 E2 E3. split; congruence. Qed.
Lemma handle_ok_same q s s' h h' : handle_ok q s h -> d_handles s' !! p_handle q = Some h' ->
  slot_id h' = slot_id h -> pd_lib_cookie (done_event h') = pd_lib_cookie (done_event h) ->
  pd_puller_rdma_id (done_event h') = pd_puller_rdma_id (done_event h) -> h_region h' = h_region h ->
  d_regions s' = d_regions s -> pkt_hdr h' = pkt_hdr h -> h_peer_index h' = h_peer_index h -> handle_ok q s' h'.
Proof.
  intros [H1 H2 [H3 H3'] [H4 H5] [H6 H7]] E1 E2 E3 E4 E5 E6 E7 E8. split; [done|congruence|split; congruence| |split; congruence].
  rewrite E5, E6. by split.
Qed.
Lemma handle_at p h s : d_handles (put_handle p h s) !! p = Some h.
Proof. unfold put_handle. fsimp. apply lookup_insert_eq. Qed.
Lemma tracks_fields g h h' b v got : tracks g h b v got -> h_descs h' = h_descs h ->
  nr_valid_block_descs h' = nr_valid_block_descs h -> frame_index h' = frame_index h ->
  next_frame_index h' = next_frame_index h -> nr_requested_frames h' = nr_requested_frames h ->
  remaining_length h' = remaining_length h -> nr_missing_frames h' = nr_missing_frames h -> tracks g h' b v got.
Proof. intros [H1 H2 H3 H4 H5 H6 H7 H8 H9 H10 H11] E1 E2 E3 E4 E5 E6 E7. split; rewrite ?E1, ?E2, ?E3, ?E4, ?E5, ?E6, ?E7; done. Qed.
Lemma requesting_fields g h h' b v got : requesting g h b v got -> h_descs h' = h_descs h ->
  nr_valid_block_descs h' = nr_valid_block_descs h -> frame_index h' = frame_index h ->
  next_frame_index h' = next_frame_index h -> nr_requested_frames h' = nr_requested_frames h ->
  remaining_length h' = remaining_length h -> nr_missing_frames h' = nr_missing_frames h -> requesting g h' b v got.
Proof.
  intros [T Hf H1] E1 E2 E3 E4 E5 E6 E7. split; [by apply (tracks_fields g h)|by rewrite E6|].
  intros Hv. unfold missing. rewrite E1. apply H1. by rewrite <- E2.
Qed.

Lemma region_released intr rs p r : heap rs !! p = Some r -> exists rs', omx_user_region_release intr p rs = Some rs'.
Proof.
  intros Hp. unfold omx_user_region_release, kref_put. rewrite Hp. cbn [mbind option_bind].
  destruct (_ =? 0); [|by eexists]. unfold __omx_user_region_last_release. fsimp. rewrite lookup_insert_eq.
  cbn [mbind option_bind]. destruct (_ && _); by eexists.
Qed.
(** Releasing a reference that is not the last one, or the last one. *)
Lemma release_more intr p s h : d_handles s !! p = Some h -> h_refcount h <> 1 ->
  omx_pull_handle_release intr p s = Some (put_handle p (h <| h_refcount ::= fun n => n - 1 |>) s).
Proof.
  intros Hp Hr. unfold omx_pull_handle_release. rewrite Hp. cbn [mbind option_bind]. fsimp.
  by rewrite (proj2 (Z.eqb_neq _ _)) by lia.
Qed.
Lemma release_last intr q s h : handle_ok q s h -> h_refcount h = 1 -> h_status h = TIMER_EXITED ->
  exists rs, omx_pull_handle_release intr (p_handle q) s = Some (s <| d_regions := rs |> <| d_handles ::= delete (p_handle q) |>).
Proof.
  intros [Hp _ _ (Hra & r & Hr & _) _] Href Hs. unfold omx_pull_handle_release. rewrite Hp. cbn [mbind option_bind]. fsimp.
  rewrite Href. cbn [Z.sub Z.opp Z.add Z.pos_sub Z.eqb]. unfold __omx_pull_handle_last_release. fsimp. rewrite Hs.
  rewrite bool_decide_false by (intros H; by apply H). rewrite Hra.
  destruct (region_released intr _ _ r Hr) as [rs ->]. by exists rs.
Qed.

Lemma slot_found q s h slots : pull_ok q -> handle_ok q s h -> pull_handle_slots_array s = Some slots ->
  slots !! Z.to_nat (slot_index q) = Some (Slot (Some (p_handle q)) (p_sid q)) ->
  omx_pull_handle_acquire_from_slot (p_sid q) s =
  Some (Some (p_handle q), put_handle (p_handle q) (h <| h_refcount ::= fun n => n + 1 |>) s).
Proof.
  intros Hq [Hp _ _ _ _] Hsl Hi. unfold omx_pull_handle_acquire_from_slot. rewrite Hsl. cbn [mbind option_bind].
  fold (slot_index q). pose proof (po_slot q Hq). rewrite (proj2 (Z.leb_gt _ _)), Hi by lia. cbn [mbind option_bind sl_handle sl_id].
  rewrite Z.eqb_refl. cbn [negb]. unfold omx_pull_handle_acquire. by rewrite Hp.
Qed.
Lemma slot_empty q s slots id : pull_ok q -> pull_handle_slots_array s = Some slots ->
  slots !! Z.to_nat (slot_index q) = Some (Slot None id) ->
  omx_pull_handle_acquire_from_slot (p_sid q) s = Some (None, s).
Proof.
  intros Hq Hsl Hi. unfold omx_pull_handle_acquire_from_slot. rewrite Hsl. cbn [mbind option_bind].
  fold (slot_index q). pose proof (po_slot q Hq). by rewrite (proj2 (Z.leb_gt _ _)), Hi by lia.
Qed.

(** Completing: the slot is freed and the event is ready. *)
Definition done_handle (status : Z) (h : handle) : handle :=
  h <| h_status := TIMER_MUST_EXIT |>
    <| done_event ::= fun e => PullDone (pd_lib_cookie e) (pd_puller_rdma_id e) status |>.
Definition completed (q : pull) (status : Z) (h : handle) (slots : list slot) (s : driver) : driver :=
  put_handle (p_handle q) (done_handle status h)
    (s <| pull_handle_slots_array := Some (<[Z.to_nat (slot_index q) := Slot None (OMX_PULL_HANDLE_SLOT_ID_INC (p_sid q))]> slots) |>
       <| pull_handle_slots_free_list ::= fun l => l ++ [slot_index q] |>).
Lemma mark_completed_ok q s h slots status : handle_ok q s h -> h_status h = STATUS_OK ->
  pull_handle_slots_array s = Some slots ->
  slots !! Z.to_nat (slot_index q) = Some (Slot (Some (p_handle q)) (p_sid q)) ->
  omx_pull_handle_mark_completed (p_handle q) status s = Some (completed q status h slots s).
Proof.
  intros [Hp Hsid _ _ _] Hs Hsl Hi. unfold omx_pull_handle_mark_completed. rewrite Hp. cbn [mbind option_bind].
  rewrite Hs, bool_decide_false by (intros H; by apply H). unfold omx_pull_handle_free_slot. rewrite Hsl.
  cbn [mbind option_bind]. fsimp. rewrite Hsid. fold (slot_index q). rewrite Hi. cbn [mbind option_bind sl_id]. done.
Qed.
Lemma completed_at q status h slots s :
  d_handles (completed q status h slots s) !! p_handle q = Some (done_handle status h).
Proof. apply handle_at. Qed.
Lemma completed_slot q status h slots s : slots !! Z.to_nat (slot_index q) = Some (Slot (Some (p_handle q)) (p_sid q)) ->
  exists slots' id, pull_handle_slots_array (completed q status h slots s) = Some slots' /\
    slots' !! Z.to_nat (slot_index q) = Some (Slot None id).
Proof.
  intros Hi. do 2 eexists. split; [reflexivity|]. apply list_lookup_insert_eq. by eapply lookup_lt_Some.
Qed.

(** Giving the event releases the references of who gives it. *)
Lemma notify_more intr q s h : d_handles s !! p_handle q = Some h -> h_refcount h <> 1 ->
  omx_pull_handle_bh_notify intr (p_handle q) s =
  Some (omx_endpoint_release (put_handle (p_handle q) (h <| h_refcount ::= fun n => n - 1 |>)
    (s <| d_events ::= fun l => l ++ [done_event h] |>))).
Proof.
  intros Hp Hr. unfold omx_pull_handle_bh_notify, omx_pull_handle_notify. rewrite Hp. cbn [mbind option_bind].
  set (s' := s <| d_events ::= _ |>). by rewrite (release_more intr (p_handle q) s' h Hp Hr).
Qed.

(** ** Receiving a frame *)

Lemma length_slice q from n : pull_ok q -> 0 <= from -> 0 <= n -> from + n <= L (p_geo q) ->
  Z.of_nat (length (slice q from n)) = n.
Proof. intros [_ _ _ Hm] H1 H2 H3. unfold slice. rewrite length_take, length_drop. lia. Qed.

Lemma recv_frame_active q ev s pend h b v got k skbs now : pull_ok q -> context q s ->
  active q ev s pend h b v got -> 0 <= k < nframes (p_geo q) ->
  exists st, do_act q (RecvFrame k skbs now) (s, pend) = Some st /\ pulling q ev st /\
    if decide (frame_index h <= k < next_frame_index h /\ got k = false) then exists h1 b1 v1,
       active q ev (fst st) (pend ++ [k]) h1 b1 v1 (add_frame k got) /\ snd st = pend ++ [k] /\ b <= b1 /\
       last_retransmit_jiffies h1 = last_retransmit_jiffies h
    else exists h1, active q ev (fst st) pend h1 b v got /\ snd st = pend /\
       last_retransmit_jiffies h1 = last_retransmit_jiffies h.
Proof.
  intros Hq Hcx A Hk. pose proof A as [Hho Hst Hreq [Href Hcopy] Htm (slots & Hsl & Hslot) [Hnd Hpend] Hbytes Hwait Hev].
  pose proof (po_geo q Hq) as G. set (g := p_geo q) in *. pose proof (frame_length_range g G k Hk) as (Hfl & Hu & Hle).
  cbn [do_act]. unfold recv_pull_reply_locked. cbn [frame_reply rp_data rp_frame_length rp_dst_magic rp_dst_pull_handle
    rp_frame_seqnum rp_msg_offset]. fold g.
  rewrite length_slice, Z.ltb_irrefl by (done || lia). rewrite (endpoint_found q s Hq Hcx).
  set (s1 := omx_endpoint_reacquire s).
  assert (Hho1 : handle_ok q s1 h) by (apply (handle_ok_same q s s1 h h Hho); try done; apply Hho).
  rewrite (slot_found q s1 h slots Hq Hho1 Hsl Hslot). cbn [mbind option_bind]. rewrite handle_at. cbn [mbind option_bind].
  set (h1 := h <| h_refcount ::= fun n => n + 1 |>).
  change (h_status h1) with (h_status h). rewrite Hst, bool_decide_false by (intros H; by apply H).
  change (frame_index h1) with (frame_index h). change (nr_requested_frames h1) with (nr_requested_frames h).
  (* a reply that is dropped *)
  assert (Hdrop : exists st, ('(out, s) ← (s ← omx_pull_handle_release true (p_handle q) (put_handle (p_handle q) h1 s1);
      Some (Dropped 0, omx_endpoint_release s));
      Some (s, match out with Dropped _ => pend | ToCopy _ => pend ++ [k] end)) = Some st /\ pulling q ev st /\
      exists h1, active q ev (fst st) pend h1 b v got /\ snd st = pend /\
        last_retransmit_jiffies h1 = last_retransmit_jiffies h).
  { rewrite (release_more true (p_handle q) _ h1 (handle_at _ _ _)) by (unfold h1; fsimp; lia). cbn [mbind option_bind].
    eexists. split; [reflexivity|].
    match goal with |- pulling q ev (?s', _) /\ _ =>
      assert (A' : active q ev s' pend (h1 <| h_refcount ::= fun n => n - 1 |>) b v got) end.
    { split; fsimp; try done.
      - apply (handle_ok_same q s _ h); try done. unfold omx_endpoint_release, s1. fsimp. apply handle_at.
      - by apply (requesting_fields g h).
      - unfold h1. fsimp. split; [lia|done].
      - exists slots. by split. }
    split; [split; [by apply (context_same q s)|left; by do 4 eexists]|]. eexists. split; [exact A'|]. by split. }
  rewrite (frame_offset_check g G k Hk).
  pose proof (frame_requested_check g G h b v got k (rq_tracks _ _ _ _ _ Hreq) Hk) as Hcheck. cbn zeta in Hcheck.
  set (off := (k mod 256 - frame_index h mod 256 + 256) mod 256) in *.
  destruct (decide (frame_index h <= k < next_frame_index h)) as [Hin|Hout].
  2:{ destruct (Z.eqb_spec k (u32 (frame_index h + off))) as [He|He]; cbn [negb].
      - rewrite (proj2 (Z.leb_le _ _)) by (destruct Hcheck; [congruence|done]). destruct Hdrop as (st & -> & Hp).
        exists st. rewrite decide_False by tauto. done.
      - destruct Hdrop as (st & -> & Hp). exists st. rewrite decide_False by tauto. done. }
  destruct Hcheck as (-> & Hoff & Hlt). rewrite Z.eqb_refl, (proj2 (Z.leb_gt _ _)) by done. cbn [negb]. rewrite Hoff in *.
  destruct (take_frame_ok g G h b v got k (rq_tracks _ _ _ _ _ Hreq) Hin) as (d & Hd & Hi & Hbit & Htake).
  change (h_descs h1) with (h_descs h). rewrite Hd. cbn [mbind option_bind]. rewrite Hbit, negb_involutive.
  destruct (got k) eqn:Hgk; [destruct Hdrop as (st & -> & Hp); exists st; rewrite decide_False by (by intros [_ ?]); done|].
  specialize (Htake eq_refl). fold (take_frame (Z.to_nat ((k - frame_index h) / PER g)) ((k - frame_index h) mod PER g) d h1).
  set (h2 := take_frame _ _ d h1).
  destruct (progress_ok g G (p_hz q) skbs now (Z.to_nat ((k - frame_index h) / PER g)) h2 b v (add_frame k got))
    as (h3 & l & b1 & v1 & -> & Hreq3 & Hb & Hs3 & Hl & Ht3); [by apply (tracks_fields g _ _ _ _ _ Htake)| |done|].
  { exact (rq_full _ _ _ _ _ Hreq). }
  cbn [mbind option_bind]. eexists. split; [reflexivity|].
  destruct Hs3 as (E1 & E2 & E3 & E4 & E5 & E6 & E7 & E8 & E9 & E10 & E11 & E12).
  change (slot_id h2) with (slot_id h) in E2. change (h_region h2) with (h_region h) in E4.
  change (done_event h2) with (done_event h) in E9. change (h_status h2) with (h_status h) in E7.
  change (last_retransmit_jiffies h2) with (last_retransmit_jiffies h) in E3.
  change (pkt_hdr h2) with (pkt_hdr h) in E12. change (h_peer_index h2) with (h_peer_index h) in E11.
  assert (A' : active q ev (send l (put_handle (p_handle q) h3 (put_handle (p_handle q) h1 s1))) (pend ++ [k]) h3 b1 v1 (add_frame k got)).
  { assert (Hkp : k ∉ pend) by (intros Hkp; destruct (Hpend k Hkp); congruence).
    split; try done.
    - apply (handle_ok_same q s _ h); try done; try congruence. apply handle_at.
    - rewrite E7. exact Hst.
    - rewrite E1, E8. unfold h2, take_frame, h1. fsimp. rewrite length_app. cbn [length]. lia.
    - rewrite Ht3. unfold h2, take_frame, h1. fsimp. by destruct (h_timer h).
    - exists slots. by split.
    - split.
      + apply NoDup_app. split; [done|]. split; [|apply NoDup_singleton]. by intros x Hx ->%list_elem_of_singleton.
      + intros x [Hx| ->%list_elem_of_singleton]%elem_of_app.
        * destruct (Hpend x Hx) as [? Hg]. split; [done|]. unfold add_frame. rewrite Hg. apply orb_true_r.
        * split; [done|]. unfold add_frame. by rewrite Z.eqb_refl.
    - intros j Hj Hg Hn. rewrite not_elem_of_app, list_elem_of_singleton in Hn. destruct Hn as [Hn1 Hn2].
      apply Hbytes; [done| |done]. unfold add_frame in Hg. apply orb_prop in Hg as [Hg|Hg]; [|done].
      apply Z.eqb_eq in Hg. exfalso. exact (Hn2 Hg).
    - intros _ Hnil. by destruct pend. }
  split; [split; [by apply (context_same q s)|left; by exists h3, b1, v1, (add_frame k got)]|].
  rewrite decide_True by done. exists h3, b1, v1. cbn [fst snd]. by rewrite E3.
Qed.
Lemma recv_frame_finished q ev s pend status k skbs now : pull_ok q -> context q s ->
  finished q ev s pend status -> 0 <= k < nframes (p_geo q) ->
  exists st, do_act q (RecvFrame k skbs now) (s, pend) = Some st /\ pulling q ev st.
Proof.
  intros Hq Hcx F Hk. pose proof F as [Hlv (slots & id & Hsl & Hslot) Hpend Hev Hsuc].
  pose proof (po_geo q Hq) as G. pose proof (frame_length_range (p_geo q) G k Hk) as (Hfl & Hu & Hle).
  cbn [do_act]. unfold recv_pull_reply_locked. cbn [frame_reply rp_data rp_frame_length rp_dst_magic rp_dst_pull_handle].
  rewrite length_slice, Z.ltb_irrefl by (done || lia). rewrite (endpoint_found q s Hq Hcx).
  rewrite (slot_empty q (omx_endpoint_reacquire s) slots id Hq Hsl Hslot). cbn [mbind option_bind]. eexists. split; [reflexivity|].
  split; [by apply (context_same q s)|]. right. exists status. split; try done; [|by exists slots, id].
  destruct Hlv as [h H1 H2 H3|h H1 H2 H3 H4 H5|H1 H2]; [eapply leaving_timer|eapply leaving_copies|eapply leaving_gone]; try done;
    by apply (handle_ok_same q s _ h); try apply H1.
Qed.

(** ** Copying a frame *)

Lemma region_total r l m : region_pinned r l -> Z.of_nat (length (region_bytes m l)) = total_length r.
Proof. intros H. rewrite (rp_total _ _ H). unfold region_bytes, seg_total. by rewrite length_fmap. Qed.
Lemma frame_copied q r m k : pull_ok q -> region_pinned r (p_segs q) -> L (p_geo q) <= total_length r ->
  0 <= k < nframes (p_geo q) ->
  exists m', omx_user_region_fill_pages r (upto (p_geo q) k) (slice q (upto (p_geo q) k) (frame_length_of (p_geo q) k))
      (frame_length_of (p_geo q) k) m = Some (0, m') /\
    forall j, 0 <= j < L (p_geo q) ->
      if decide ((o (p_geo q) + j) / LEN (p_geo q) = k) then byte_here q m' j
      else region_bytes m' (p_segs q) !! Z.to_nat j = region_bytes m (p_segs q) !! Z.to_nat j.
Proof.
  intros Hq Hr HL Hk. pose proof (po_geo q Hq) as G. set (g := p_geo q) in *.
  pose proof (frame_length_range g G k Hk) as (Hfl & Hu & Hle). set (a := upto g k) in *. set (n := frame_length_of g k) in *.
  assert (Hdata : Z.of_nat (length (slice q a n)) = n) by (apply length_slice; done || lia).
  pose proof (fill_pages_spec r (p_segs q) a (slice q a n) n m Hr Hu ltac:(lia) ltac:(lia)) as Hf.
  rewrite (proj2 (Z.ltb_ge _ _)) in Hf by lia. destruct Hf as (m' & E & Hb & _). exists m'. split; [exact E|].
  intros j Hj. pose proof (byte_frame g G k j Hk Hj) as Hbf. fold g. pose proof (region_total r (p_segs q) m Hr) as Htot.
  assert (Han : upto g (k + 1) = a + n) by (unfold n, frame_length_of; lia). rewrite Han in Hbf.
  unfold byte_here. rewrite Hb. rewrite (take_ge (slice q a n)) by lia. fold a in Hbf.
  destruct (decide _) as [Hin|Hout].
  - apply Hbf in Hin. rewrite lookup_app_r by (rewrite length_take; lia). rewrite length_take, Nat.min_l by lia.
    rewrite lookup_app_l by lia. unfold slice. rewrite lookup_take_lt, lookup_drop by lia. f_equal. lia.
  - assert (Hn : ~ (a <= j < a + n)) by tauto. destruct (Z.lt_ge_cases j a).
    + rewrite lookup_app_l by (rewrite length_take; lia). by rewrite lookup_take_lt by lia.
    + rewrite lookup_app_r by (rewrite length_take; lia). rewrite lookup_app_r by (rewrite length_take; lia).
      rewrite lookup_drop, length_take. f_equal. lia.
Qed.
Lemma all_here q r m : pull_ok q -> region_pinned r (p_segs q) -> L (p_geo q) <= total_length r ->
  (forall j, 0 <= j < L (p_geo q) -> byte_here q m j) -> delivered q m.
Proof.
  intros Hq Hr HL H. unfold delivered. apply list_eq. intros i. pose proof (po_msg q Hq) as Hm.
  pose proof (region_total r (p_segs q) m Hr). destruct (Nat.lt_ge_cases i (length (p_msg q))) as [Hlt|Hge].
  - rewrite lookup_take_lt by done. specialize (H (Z.of_nat i) ltac:(lia)). unfold byte_here in H. by rewrite Nat2Z.id in H.
  - rewrite lookup_take_ge by done. symmetry. by apply lookup_ge_None.
Qed.
Lemma length_remove_one k (l : list Z) : NoDup l -> k ∈ l -> Z.of_nat (length (remove_elt k l)) = Z.of_nat (length l) - 1.
Proof.
  induction 1 as [|x l Hx Hnd IH]; intros Hk; [by apply not_elem_of_nil in Hk|].
  destruct (decide (x = k)) as [->|Hne].
  - rewrite remove_elt_cons_eq, remove_elt_notin by done. cbn [length]. lia.
  - rewrite remove_elt_cons_ne by done. apply elem_of_cons in Hk as [Hk|Hk]; [congruence|]. cbn [length]. specialize (IH Hk). lia.
Qed.
Lemma pend_removed (P : Z -> Prop) k (pend : list Z) : NoDup pend /\ (forall x, x ∈ pend -> P x) ->
  NoDup (remove_elt k pend) /\ (forall x, x ∈ remove_elt k pend -> P x).
Proof.
  intros [Hnd H]. split; [by apply NoDup_remove_elt|]. intros x Hx. apply elem_of_remove_elt in Hx as [_ Hx]. auto.
Qed.

Lemma copy_active q ev s pend h b v got k : pull_ok q -> context q s -> active q ev s pend h b v got -> k ∈ pend ->
  exists st, do_act q (CopyFrame k) (s, pend) = Some st /\ pulling q ev st /\
    (if decide (v = 0 /\ remove_elt k pend = []) then finished q ev (fst st) (snd st) OMX_EVT_PULL_DONE_SUCCESS
     else exists h1, active q ev (fst st) (remove_elt k pend) h1 b v got /\ snd st = remove_elt k pend /\
            last_retransmit_jiffies h1 = last_retransmit_jiffies h).
Proof.
  intros Hq Hcx A Hk. pose proof A as [Hho Hst Hreq [Href Hcopy] Htm (slots & Hsl & Hslot) Hpend Hbytes Hwait Hev].
  pose proof Hho as [Hp Hsid [Hck Hrid] (Hra & r & Hr & Hrp & HL) _]. destruct (proj2 Hpend k Hk) as [Hkr Hkg].
  pose proof (po_geo q Hq) as G.
  cbn [do_act]. unfold recv_pull_reply_copy. rewrite Hp. cbn [mbind option_bind]. rewrite Hra, Hr. cbn [mbind option_bind].
  destruct (frame_copied q r (d_mem s) k Hq Hrp HL Hkr) as (m' & E & Hm'). cbn [frame_reply rp_msg_offset rp_data rp_frame_length].
  rewrite E. cbn [mbind option_bind]. change (0 <? 0) with false. cbn match.
  set (h1 := h <| host_copy_nr_frames ::= fun n => n - 1 |>). set (s1 := put_handle (p_handle q) h1 (s <| d_mem := m' |>)).
  pose proof (length_remove_one k pend (proj1 Hpend) Hk) as Hlen.
  assert (Hho1 : handle_ok q s1 h1) by (apply (handle_ok_same q s _ h); try done; apply handle_at).
  change (h_status h1) with (h_status h). rewrite Hst, bool_decide_false by (intros H; by apply H).
  assert (Hbytes1 : forall j, 0 <= j < L (p_geo q) -> got ((o (p_geo q) + j) / LEN (p_geo q)) = true ->
    (o (p_geo q) + j) / LEN (p_geo q) ∉ remove_elt k pend -> byte_here q m' j).
  { intros j Hj Hg Hn. specialize (Hm' j Hj). destruct (decide _) as [|Hne] in Hm'; [done|]. unfold byte_here. rewrite Hm'.
    apply Hbytes; [done|done|]. intros Hin. apply Hn, elem_of_remove_elt. by split. }
  assert (Hcond : (remaining_length h1 =? 0) && (nr_missing_frames h1 =? 0) && (host_copy_nr_frames h1 =? 0) =
    bool_decide (v = 0 /\ remove_elt k pend = [])).
  { apply eq_true_iff_eq. rewrite !andb_true_iff, !Z.eqb_eq, bool_decide_eq_true.
    pose proof (requesting_done (p_geo q) G h b v got Hreq) as Hd. unfold h1. fsimp. rewrite Hd, Hcopy.
    rewrite <- length_zero_iff_nil. lia. }
  rewrite Hcond. destruct (decide (v = 0 /\ remove_elt k pend = [])) as [Hdone|Hnot].
  - rewrite bool_decide_true by done. destruct Hdone as [-> Hnil].
    rewrite (mark_completed_ok q s1 h1 slots _ Hho1 Hst Hsl Hslot). cbn [mbind option_bind].
    rewrite Hnil in Hlen. cbn [length] in Hlen.
    rewrite (notify_more true q (completed q _ h1 slots s1) (done_handle OMX_EVT_PULL_DONE_SUCCESS h1) (handle_at _ _ _))
      by (unfold done_handle, h1; fsimp; lia).
    cbn [mbind option_bind]. eexists. split; [reflexivity|]. rewrite Hnil.
    match goal with |- pulling q ev (?s', _) /\ _ => assert (F : finished q ev s' [] OMX_EVT_PULL_DONE_SUCCESS) end.
    { split.
      - apply (leaving_timer q _ _ ((done_handle OMX_EVT_PULL_DONE_SUCCESS h1) <| h_refcount ::= fun n => n - 1 |>)).
        + apply (handle_ok_same q s _ h); try done. apply handle_at.
        + done.
        + unfold done_handle, h1. fsimp. cbn [length]. lia.
      - apply (completed_slot q OMX_EVT_PULL_DONE_SUCCESS h1 slots s1 Hslot).
      - split; [constructor|]. intros x Hx. by apply not_elem_of_nil in Hx.
      - change (d_events s ++ [PullDone (pd_lib_cookie (done_event h)) (pd_puller_rdma_id (done_event h)) 0] =
          ev ++ [PullDone (p_cookie q) (p_rid q) 0]). by rewrite Hev, Hck, Hrid.
      - intros _. split; [done|]. apply (all_here q r m' Hq Hrp HL). intros j Hj. apply Hbytes1; [done| |rewrite Hnil; apply not_elem_of_nil].
        pose proof (rq_tracks _ _ _ _ _ Hreq) as T. pose proof (tr_next _ _ _ _ _ T) as Hn. rewrite Z.add_0_r in Hn.
        apply (tr_before _ _ _ _ _ T). rewrite (tr_index _ _ _ _ _ T).
        pose proof (byte_frame_range _ G j Hj). pose proof (requesting_done (p_geo q) G h b 0 got Hreq) as [_ Hd].
        destruct (Hd eq_refl) as [Hrem _]. pose proof (tr_remaining _ _ _ _ _ T) as Hr0. rewrite Hrem, Hn in Hr0.
        split; [lia|]. pose proof (tr_range _ _ _ _ _ T) as (Hb0 & _).
        destruct (Z.le_gt_cases (nframes (p_geo q)) (PER (p_geo q) * b)); [lia|]. exfalso.
        pose proof (upto_lt (p_geo q) G (PER (p_geo q) * b) (nframes (p_geo q))) as Hlt.
        rewrite Z.min_r in Hr0 by lia. rewrite (upto_all (p_geo q) G) in Hlt. pose proof (per_cases (p_geo q) G). lia. }
    split; [split; [by apply (context_same q s)|right; by eexists]|exact F].
  - rewrite bool_decide_false by done.
    assert (Hpos : 0 < Z.of_nat (length pend)) by lia.
    rewrite (release_more true (p_handle q) s1 h1 (handle_at _ _ _)) by (unfold h1; fsimp; lia). cbn [mbind option_bind].
    eexists. split; [reflexivity|]. set (h2 := h1 <| h_refcount ::= fun n => n - 1 |>).
    match goal with |- pulling q ev (?s', _) /\ _ => assert (A' : active q ev s' (remove_elt k pend) h2 b v got) end.
    { split; try done.
      - apply (handle_ok_same q s _ h); try done. apply handle_at.
      - by apply (requesting_fields (p_geo q) h).
      - unfold h2, h1. fsimp. lia.
      - exists slots. by split.
      - by apply (pend_removed (fun x => 0 <= x < nframes (p_geo q) /\ got x = true)).
      - intros Hv Hnil. by apply Hnot. }
    split; [split; [by apply (context_same q s)|left; by exists h2, b, v, got]|]. exists h2. by split.
Qed.

(** A reference that a handle on its way out loses. *)
Lemma leaving_release intr q s pend h n : handle_ok q s h -> h_status h = TIMER_EXITED -> h_timer h = None ->
  h_refcount h = n + 1 -> n = Z.of_nat (length pend) -> (n = 0 -> pend = []) ->
  exists s', omx_pull_handle_release intr (p_handle q) s = Some s' /\ leaving q s' pend /\
    endpoint_index s' = endpoint_index s /\ endpoint_max s' = endpoint_max s /\ endpoint_ok s' = endpoint_ok s /\
    pull_handle_slots_array s' = pull_handle_slots_array s /\ d_events s' = d_events s /\ d_mem s' = d_mem s.
Proof.
  intros Hho Hst Htm Href Hn Hnil. destruct (Z.eq_dec n 0) as [Hz|Hz].
  - destruct (release_last intr q s h Hho) as [rs ->]; [lia|done|]. eexists. split; [reflexivity|].
    split; [|done]. apply leaving_gone; [|by apply Hnil]. fsimp. apply lookup_delete_eq.
  - rewrite (release_more intr (p_handle q) s h) by (apply Hho || lia). eexists. split; [reflexivity|]. split; [|done].
    apply (leaving_copies q _ _ (h <| h_refcount ::= fun n => n - 1 |>)); try done; fsimp; try lia.
    apply (handle_ok_same q s _ h); try done. apply handle_at.
Qed.
Lemma leaving_same q s s' pend : leaving q s pend -> d_handles s' = d_handles s -> d_regions s' = d_regions s -> leaving q s' pend.
Proof.
  intros [h H1 H2 H3|h H1 H2 H3 H4 H5|H1 H2] E1 E2; [eapply leaving_timer|eapply leaving_copies|eapply leaving_gone];
    try done; try congruence; apply (handle_ok_same q s _ h); try done; rewrite E1; apply H1.
Qed.

Lemma copy_finished q ev s pend status k : pull_ok q -> context q s -> finished q ev s pend status -> k ∈ pend ->
  exists st, do_act q (CopyFrame k) (s, pend) = Some st /\ pulling q ev st.
Proof.
  intros Hq Hcx F Hk. pose proof F as [Hlv (slots & id & Hsl & Hslot) Hpend Hev Hsuc].
  pose proof (po_geo q Hq) as G. pose proof (length_remove_one k pend (proj1 Hpend) Hk) as Hlen.
  assert (Hns : status <> OMX_EVT_PULL_DONE_SUCCESS).
  { intros Hs. destruct (Hsuc Hs) as [-> _]. by apply not_elem_of_nil in Hk. }
  assert (Hh : exists h, handle_ok q s h /\ (h_status h = TIMER_MUST_EXIT /\ h_refcount h = 1 + Z.of_nat (length pend) \/
    h_status h = TIMER_EXITED /\ h_timer h = None /\ h_refcount h = Z.of_nat (length pend))).
  { destruct Hlv as [h H1 H2 H3|h H1 H2 H3 H4 H5|H1 ->]; [exists h; auto|exists h; auto|by apply not_elem_of_nil in Hk]. }
  destruct Hh as (h & Hho & Hcase). pose proof Hho as [Hp _ _ (Hra & r & Hr & Hrp & HL) _].
  cbn [do_act]. unfold recv_pull_reply_copy. rewrite Hp. cbn [mbind option_bind]. rewrite Hra, Hr. cbn [mbind option_bind].
  destruct (frame_copied q r (d_mem s) k Hq Hrp HL (proj2 Hpend k Hk)) as (m' & E & _).
  cbn [frame_reply rp_msg_offset rp_data rp_frame_length]. rewrite E. cbn [mbind option_bind]. change (0 <? 0) with false. cbn match.
  set (h1 := h <| host_copy_nr_frames ::= fun n => n - 1 |>). set (s1 := put_handle (p_handle q) h1 (s <| d_mem := m' |>)).
  assert (Hho1 : handle_ok q s1 h1) by (apply (handle_ok_same q s _ h); try done; apply handle_at).
  change (h_status h1) with (h_status h). rewrite bool_decide_true by (destruct Hcase as [[-> _]|[-> _]]; done).
  assert (Hrel : exists s', omx_pull_handle_release true (p_handle q) s1 = Some s' /\ leaving q s' (remove_elt k pend) /\
    endpoint_index s' = endpoint_index s /\ endpoint_max s' = endpoint_max s /\ endpoint_ok s' = endpoint_ok s /\
    pull_handle_slots_array s' = pull_handle_slots_array s /\ d_events s' = d_events s).
  { destruct Hcase as [[Hst Href]|(Hst & Htm & Href)].
    - rewrite (release_more true (p_handle q) s1 h1 (handle_at _ _ _)) by (unfold h1; fsimp; lia).
      eexists. split; [reflexivity|]. split; [|done].
      apply (leaving_timer q _ _ (h1 <| h_refcount ::= fun n => n - 1 |>)); [|done|unfold h1; fsimp; lia].
      apply (handle_ok_same q s _ h); try done. apply handle_at.
    - destruct (leaving_release true q s1 (remove_elt k pend) h1 (Z.of_nat (length pend) - 1) Hho1 Hst Htm)
        as (s' & E' & Hl & E1 & E2 & E3 & E4 & E5 & _).
      + unfold h1. fsimp. lia.
      + lia.
      + intros Hz. apply length_zero_iff_nil. lia.
      + exists s'. by repeat split. }
  destruct Hrel as (s' & -> & Hl & E1 & E2 & E3 & E4 & E5). cbn [mbind option_bind]. eexists. split; [reflexivity|].
  split; [by apply (context_same q s)|]. right. exists status. cbn [fst snd]. split; try done.
  - by apply (leaving_same q s').
  - exists slots, id. by rewrite <- Hsl.
  - by apply (pend_removed (fun x => 0 <= x < nframes (p_geo q))).
  - change (d_events s' = ev ++ [PullDone (p_cookie q) (p_rid q) status]). congruence.
Qed.

(** ** The timer *)

Lemma fill_requests_defined skbs h l : length (h_descs h) = 4%nat -> Forall (fun i => (i < 4)%nat) l ->
  exists r, fill_requests skbs h l = Some r.
Proof.
  intros Hl. induction 1 as [|i l Hi _ [r IH]]; [by eexists|]. cbn [fill_requests]. unfold omx_fill_pull_block_request.
  destruct (lookup_lt_is_Some_2 (h_descs h) i) as [d ->]; [lia|]. cbn [mbind option_bind]. destruct (skbs i); [|by eexists].
  cbn [negb]. rewrite IH. by eexists.
Qed.
Lemma expire_active q ev s pend h b v got skbs now : pull_ok q -> context q s -> active q ev s pend h b v got ->
  ~ last_copies q s now ->
  exists st, do_act q (Expire skbs now) (s, pend) = Some st /\ pulling q ev st /\ snd st = pend /\
    (now <= last_retransmit_jiffies h -> exists h1 l, active q ev (fst st) pend h1 b v got /\
       d_sent (fst st) = d_sent s ++ l /\ last_retransmit_jiffies h1 = last_retransmit_jiffies h /\
       (skbs 0%nat = true -> exists l', l = request_of (p_geo q) h b :: l') /\ same_pull h h1).
Proof.
  intros Hq Hcx A Hlast. pose proof A as [Hho Hst Hreq [Href Hcopy] Htm (slots & Hsl & Hslot) Hpend Hbytes Hwait Hev].
  pose proof Hho as [Hp Hsid [Hck Hrid] Hreg _]. cbn [do_act]. unfold omx_pull_handle_timeout_handler. rewrite Hp. cbn [mbind option_bind].
  set (h0 := h <| h_timer := None |>). change (h_status h0) with (h_status h). rewrite Hst, bool_decide_false by (intros H; by apply H).
  change (last_retransmit_jiffies h0) with (last_retransmit_jiffies h).
  destruct (Z.ltb_spec (last_retransmit_jiffies h) now) as [Hlate|Hearly].
  - set (s0 := put_handle (p_handle q) h0 s).
    assert (Hho0 : handle_ok q s0 h0) by (apply (handle_ok_same q s _ h); try done; apply handle_at).
    rewrite (mark_completed_ok q s0 h0 slots _ Hho0 Hst Hsl Hslot). cbn [mbind option_bind].
    rewrite completed_at. cbn [mbind option_bind].
    set (h1 := (done_handle OMX_EVT_PULL_DONE_TIMEOUT h0) <| h_status := TIMER_EXITED |>).
    set (s1 := put_handle (p_handle q) h1 _ <| pull_handles_list ::= _ |>).
    unfold omx_pull_handle_bh_notify, omx_pull_handle_notify.
    assert (H1 : d_handles s1 !! p_handle q = Some h1) by apply handle_at. rewrite H1. cbn [mbind option_bind].
    set (s2 := s1 <| d_events ::= _ |>).
    assert (Hho2 : handle_ok q s2 h1) by (apply (handle_ok_same q s _ h); try done; apply handle_at).
    destruct (leaving_release true q s2 pend h1 (Z.of_nat (length pend)) Hho2)
      as (s' & -> & Hl & E1 & E2 & E3 & E4 & E5 & E6); [done|done| |done| |].
    { unfold h1, done_handle, h0. fsimp. lia. }
    { intros Hz. apply length_zero_iff_nil. lia. }
    cbn [mbind option_bind]. eexists. split; [reflexivity|]. split; [|split; [done|lia]].
    split; [by apply (context_same q s)|]. right. exists OMX_EVT_PULL_DONE_TIMEOUT. cbn [fst snd]. split; try done.
    + by apply (leaving_same q s').
    + change (exists slots' id, pull_handle_slots_array s' = Some slots' /\
        slots' !! Z.to_nat (slot_index q) = Some (Slot None id)). rewrite E4.
      apply (completed_slot q OMX_EVT_PULL_DONE_TIMEOUT h0 slots s0 Hslot).
    + destruct Hpend as [Hnd Hpd]. split; [done|]. intros x Hx. by apply Hpd.
    + change (d_events s' = ev ++ [PullDone (p_cookie q) (p_rid q) OMX_EVT_PULL_DONE_TIMEOUT]). rewrite E5.
      change (d_events s ++ [PullDone (pd_lib_cookie (done_event h)) (pd_puller_rdma_id (done_event h)) OMX_EVT_PULL_DONE_TIMEOUT] =
          ev ++ [PullDone (p_cookie q) (p_rid q) OMX_EVT_PULL_DONE_TIMEOUT]). by rewrite Hev, Hck, Hrid.
  - assert (Hv : 0 < v).
    { pose proof (tr_valid _ _ _ _ _ (rq_tracks _ _ _ _ _ Hreq)) as Hval. pose proof (tr_range _ _ _ _ _ (rq_tracks _ _ _ _ _ Hreq)).
      destruct (Z.eq_dec v 0) as [->|]; [|lia]. exfalso. apply Hlast. by exists h. }
    pose proof (rq_tracks _ _ _ _ _ Hreq) as T. change (missing h0 0) with (missing h 0).
    rewrite (rq_first _ _ _ _ _ Hreq) by (rewrite (tr_valid _ _ _ _ _ T); lia). cbn [mbind option_bind negb].
    unfold omx_progress_pull_on_handle_timeout_handle_locked.
    assert (T0 : tracks (p_geo q) h0 b v got) by by apply (tracks_fields _ h).
    rewrite (fill_request_ok (p_geo q) skbs h0 b v got 0 T0) by lia. cbn [mbind option_bind]. rewrite Z.add_0_r.
    assert (Hprog : exists h2 l, (match (if skbs 0%nat then inr (request_of (p_geo q) h0 b) else inl ENOMEM) with
        | inl _ => Some (h0, [])
        | inr skb => l ← fill_requests skbs h0 (filter (fun i => missing h0 i = Some true) (seq 1 (OMX_PULL_BLOCK_DESCS_NR - 1)));
            Some (h0 <| already_rerequested_blocks := 0 |>, skb :: l)
        end) = Some (h2, l) /\ (h2 = h0 \/ h2 = h0 <| already_rerequested_blocks := 0 |>) /\
        (skbs 0%nat = true -> exists l', l = request_of (p_geo q) h b :: l')).
    { destruct (skbs 0%nat); [|by do 2 eexists; split; [reflexivity|]; split; [by left|]].
      destruct (fill_requests_defined skbs h0 (filter (fun i => missing h0 i = Some true) (seq 1 (OMX_PULL_BLOCK_DESCS_NR - 1))))
        as [l El]; [apply (tr_descs _ _ _ _ _ T)| |].
      - apply Forall_forall. intros i Hi. apply list_elem_of_filter in Hi as [_ Hi]. apply elem_of_seq in Hi.
        unfold OMX_PULL_BLOCK_DESCS_NR in Hi. lia.
      - rewrite El. cbn [mbind option_bind]. do 2 eexists. split; [reflexivity|]. split; [by right|]. intros _. by exists l. }
    destruct Hprog as (h2 & l & El & Hh2 & Hl). rewrite El. cbn [mbind option_bind]. eexists. split; [reflexivity|].
    set (h3 := h2 <| h_timer := Some (retransmit_at (p_hz q) now) |>).
    assert (A' : active q ev (send l (put_handle (p_handle q) h3 s)) pend h3 b v got).
    { destruct Hh2 as [-> | ->]; (split; try done; [apply (handle_ok_same q s _ h); try done; apply handle_at|
        by apply (requesting_fields _ h)|by exists slots]). }
    split; [split; [by apply (context_same q s)|left; by exists h3, b, v, got]|]. split; [done|]. intros _.
    exists h3, l. split; [exact A'|]. split; [done|]. split; [by destruct Hh2 as [-> | ->]|]. split; [done|].
    destruct Hh2 as [-> | ->]; by repeat split.
Qed.

Lemma expire_finished q ev s pend status skbs now : pull_ok q -> context q s -> finished q ev s pend status ->
  (exists h, d_handles s !! p_handle q = Some h /\ h_timer h <> None) ->
  exists st, do_act q (Expire skbs now) (s, pend) = Some st /\ pulling q ev st.
Proof.
  intros Hq Hcx F (h & Hp & Htm). pose proof F as [Hlv (slots & id & Hsl & Hslot) Hpend Hev Hsuc].
  destruct Hlv as [h' Hho Hst Href|h' Hho _ Htm' _ _|Hgone _]; [|destruct Hho; congruence|congruence].
  assert (h' = h) as -> by (destruct Hho; congruence). cbn [do_act]. unfold omx_pull_handle_timeout_handler.
  rewrite Hp. cbn [mbind option_bind]. set (h0 := h <| h_timer := None |>). change (h_status h0) with (h_status h).
  rewrite Hst, bool_decide_true, bool_decide_false by (done || (intros H; by apply H)).
  set (h1 := h0 <| h_status := TIMER_EXITED |>). set (s1 := put_handle (p_handle q) h1 s <| pull_handles_list ::= _ |>).
  assert (Hho1 : handle_ok q s1 h1) by (apply (handle_ok_same q s _ h); try done; apply handle_at).
  destruct (leaving_release true q s1 pend h1 (Z.of_nat (length pend)) Hho1)
    as (s' & -> & Hl & E1 & E2 & E3 & E4 & E5 & E6); [done|done| |done| |].
  { unfold h1, h0. fsimp. lia. }
  { intros Hz. apply length_zero_iff_nil. lia. }
  cbn [mbind option_bind]. eexists. split; [reflexivity|]. split; [by apply (context_same q s)|]. right. exists status.
  cbn [fst snd]. split; try done.
  - by apply (leaving_same q s').
  - exists slots, id. by rewrite <- Hsl.
  - change (d_events s' = ev ++ [PullDone (p_cookie q) (p_rid q) status]). by rewrite E5.
  - change (status = OMX_EVT_PULL_DONE_SUCCESS -> pend = [] /\ delivered q (d_mem s')). by rewrite E6.
Qed.

(** ** Nacks *)

Lemma nack_step q ev s pend src_addr peer_index src_endpoint nack_type : pull_ok q -> pulling q ev (s, pend) ->
  nack_type <> OMX_EVT_PULL_DONE_SUCCESS ->
  exists st, do_act q (RecvNack src_addr peer_index src_endpoint nack_type) (s, pend) = Some st /\ pulling q ev st.
Proof.
  intros Hq [Hcx Hcase] Hns. cbn [do_act]. unfold omx_recv_nack_mcp. cbn [nk_src_magic nk_src_pull_handle nk_nack_type].
  destruct (_ && _); [by eexists|]. rewrite (endpoint_found q s Hq Hcx). set (s1 := omx_endpoint_reacquire s). cbn [fst snd] in *.
  destruct Hcase as [(h & b & v & got & A)|(status & F)].
  - pose proof A as [Hho Hst Hreq [Href Hcopy] Htm (slots & Hsl & Hslot) Hpend Hbytes Hwait Hev].
    pose proof Hho as [Hp Hsid [Hck Hrid] Hreg _].
    assert (Hho1 : handle_ok q s1 h) by (apply (handle_ok_same q s _ h); try done).
    rewrite (slot_found q s1 h slots Hq Hho1 Hsl Hslot). cbn [mbind option_bind]. rewrite handle_at. cbn [mbind option_bind].
    set (h1 := h <| h_refcount ::= fun n => n + 1 |>). change (h_status h1) with (h_status h).
    rewrite Hst, bool_decide_false by (intros H; by apply H). set (s2 := put_handle (p_handle q) h1 s1).
    assert (Hho2 : handle_ok q s2 h1) by (apply (handle_ok_same q s _ h); try done; apply handle_at).
    rewrite (mark_completed_ok q s2 h1 slots _ Hho2 Hst Hsl Hslot). cbn [mbind option_bind].
    rewrite (notify_more true q (completed q nack_type h1 slots s2) (done_handle nack_type h1) (completed_at _ _ _ _ _))
      by (unfold done_handle, h1; fsimp; lia).
    cbn [mbind option_bind]. eexists. split; [reflexivity|]. split; [by apply (context_same q s)|]. right. exists nack_type.
    cbn [fst snd]. split; try done.
    + apply (leaving_timer q _ _ ((done_handle nack_type h1) <| h_refcount ::= fun n => n - 1 |>)).
      * apply (handle_ok_same q s _ h); try done. apply handle_at.
      * done.
      * unfold done_handle, h1. fsimp. lia.
    + apply (completed_slot q nack_type h1 slots s2 Hslot).
    + destruct Hpend as [Hnd Hpd]. split; [done|]. intros x Hx. by apply Hpd.
    + change (d_events s ++ [PullDone (pd_lib_cookie (done_event h)) (pd_puller_rdma_id (done_event h)) nack_type] =
          ev ++ [PullDone (p_cookie q) (p_rid q) nack_type]). by rewrite Hev, Hck, Hrid.
  - pose proof F as [Hlv (slots & id & Hsl & Hslot) Hpend Hev Hsuc].
    rewrite (slot_empty q s1 slots id Hq Hsl Hslot). cbn [mbind option_bind]. eexists. split; [reflexivity|].
    split; [by apply (context_same q s)|]. right. exists status. cbn [fst snd]. split; try done.
    + by apply (leaving_same q s).
    + by exists slots, id.
Qed.

(** ** Any sequence of steps *)

Lemma do_act_ok q ev a st : pull_ok q -> pulling q ev st -> act_allowed q a st ->
  exists st', do_act q a st = Some st' /\ pulling q ev st'.
Proof.
  intros Hq Hp Ha. destruct st as [s pend]. pose proof Hp as [Hcx Hcase]. cbn [fst snd] in *.
  destruct a as [k skbs now|k|skbs now|src peer ep type]; cbn [act_allowed] in Ha.
  - destruct Hcase as [(h & b & v & got & A)|(status & F)].
    + destruct (recv_frame_active q ev s pend h b v got k skbs now Hq Hcx A Ha) as (st & E & H & _). by exists st.
    + by apply (recv_frame_finished q ev s pend status).
  - destruct Hcase as [(h & b & v & got & A)|(status & F)].
    + destruct (copy_active q ev s pend h b v got k Hq Hcx A Ha) as (st & E & H & _). by exists st.
    + by apply (copy_finished q ev s pend status).
  - destruct Ha as [Hh Hl]. destruct Hcase as [(h & b & v & got & A)|(status & F)].
    + destruct (expire_active q ev s pend h b v got skbs now Hq Hcx A Hl) as (st & E & H & _). by exists st.
    + by apply (expire_finished q ev s pend status).
  - by apply nack_step.
Qed.
Lemma do_acts_ok q ev l : forall st, pull_ok q -> pulling q ev st -> acts_allowed q l st ->
  exists st', do_acts q l st = Some st' /\ pulling q ev st'.
Proof.
  induction l as [|a l IH]; intros st Hq Hp Ha; [by exists st|]. cbn [acts_allowed do_acts] in *. destruct Ha as [Ha Hl].
  destruct (do_act_ok q ev a st Hq Hp Ha) as (st' & E & Hp'). rewrite E in *. cbn [mbind option_bind]. by apply IH.
Qed.
End PullReplies.
