(* ===== verification/PullStart.v ===== *)
(** Starting a pull, and what any execution then delivers. *)
From S2P Require Import Prelude Segments Reg RegCopy RegTable Peer Pull PullFrames PullReplies.
Import Mem Reg RegCopy RegTable Peer Pull PullFrames PullReplies.

Module PullStart.

(** ** The first requests *)

Section first.
Context (g : geometry) (G : geometry_ok g).

Lemma first_block_length :
  (if L g <? u32 (OMX_PULL_BLOCK_LENGTH_MAX (LEN g) (PER g) - o g) then L g
   else u32 (OMX_PULL_BLOCK_LENGTH_MAX (LEN g) (PER g) - o g)) = block_length_of g 0.
Proof.
  pose proof (nframes_bounds g G) as Hn. pose proof (per_cases g G) as Hper. pose proof G as [H1 _ _ H2 H3 _ H4].
  unfold OMX_PULL_BLOCK_LENGTH_MAX. rewrite u32_small by (change 4294967296 with (2 ^ 32); nia).
  unfold block_length_of, last_of, upto. rewrite Z.mul_0_r, Z.add_0_l, Z.mul_1_r. cbn [Z.eqb].
  rewrite (proj2 (Z.eqb_neq _ _)) by lia. zcases; nia.
Qed.
Lemma new_tracks h : h_descs h <> [] -> length (h_descs h) = 4%nat -> nr_valid_block_descs h = 0 -> frame_index h = 0 ->
  next_frame_index h = 0 -> nr_requested_frames h = 0 -> remaining_length h = L g -> nr_missing_frames h = 0 ->
  tracks g h 0 0 (fun _ => false).
Proof.
  intros _ E1 E2 E3 E4 E5 E6 E7. pose proof (nframes_bounds g G) as Hn.
  split; rewrite ?E2, ?E3, ?E4, ?E5, ?E6, ?E7; try done; try lia; rewrite ?Z.add_0_r, ?Z.mul_0_r, ?upto_0; lia.
Qed.
(** All the blocks are requested, up to four. *)
Lemma first_requests skbs h : tracks g h 0 0 (fun _ => false) -> (forall i, skbs i = true) -> exists h1 v l,
  (h ← omx_pull_handle_append_needed_frames (LEN g) (PER g) (block_length_of g 0) (o g) h;
   h ← append_blocks (LEN g) (PER g) OMX_PULL_BLOCK_DESCS_NR h;
   l ← fill_requests skbs h (seq 0 (Z.to_nat (nr_valid_block_descs h)));
   Some (h, l)) = Some (h1, l) /\ requesting g h1 0 v (fun _ => false) /\ same_pull h h1 /\
  v = Z.min 4 ((nframes g + PER g - 1) / PER g) /\ l = request_of g h <$> seqZ 0 v.
Proof.
  intros T Hskbs. pose proof (nframes_bounds g G) as Hn. pose proof (per_cases g G) as Hper. pose proof G as [_ _ _ _ HL _ _].
  pose proof (tr_remaining _ _ _ _ _ T) as Hrem. pose proof (tr_next _ _ _ _ _ T) as Hnext.
  rewrite Hnext, Z.add_0_r, Z.mul_0_r, Z.min_r, upto_0 in Hrem by lia.
  destruct (append_ok g G h 0 0 _ T) as (_ & h1 & E1 & T1 & Hs1 & _ & _ & _); [lia|lia|].
  rewrite Z.add_0_r in E1. change (first_offset_of g 0) with (o g) in E1. rewrite E1. cbn [mbind option_bind].
  destruct (append_blocks_ok g G OMX_PULL_BLOCK_DESCS_NR h1 0 1 _ T1)
    as (h2 & v & E2 & T2 & Hv & Hdone & Hs2 & _ & _ & _); [lia|unfold OMX_PULL_BLOCK_DESCS_NR; lia|].
  rewrite E2. cbn [mbind option_bind]. rewrite (tr_valid _ _ _ _ _ T2).
  pose proof (tr_range _ _ _ _ _ T2) as (_ & Hv4 & Hlt). specialize (Hlt ltac:(lia)).
  destruct (fill_requests_ok g skbs h2 0 v _ (seq 0 (Z.to_nat v)) T2) as (l & El & _ & Hl).
  { apply Forall_forall. intros i Hi. apply elem_of_seq in Hi. lia. }
  rewrite El. cbn [mbind option_bind]. exists h2, v, l. split; [done|].
  assert (Hs : same_pull h h2) by by eapply same_pull_trans.
  split; [|split; [exact Hs|split]].
  - split; [exact T2|exact Hdone|]. intros _. destruct (missing_spec g h2 0 v _ 0 T2) as (m & Hm & Hgot); [lia|].
    rewrite Hm. destruct m; [done|]. exfalso. destruct (block_frames g G 0) as (_ & Hc & _); [lia|lia|].
    assert (Hf : false = true); [|done]. apply (proj1 Hgot eq_refl 0). rewrite Z.add_0_r. lia.
  - pose proof (Z.div_mod (nframes g + PER g - 1) (PER g) ltac:(lia)).
    pose proof (Z.mod_pos_bound (nframes g + PER g - 1) (PER g) ltac:(lia)).
    set (nb := (nframes g + PER g - 1) / PER g) in *.
    destruct Hdone as [->|Hz]; [nia|].
    assert (Hcov : nframes g <= PER g * v).
    { destruct (Z.le_gt_cases (nframes g) (PER g * v)); [done|]. exfalso.
      pose proof (tr_remaining _ _ _ _ _ T2) as Hr2. rewrite Hz, (tr_next _ _ _ _ _ T2), Z.add_0_l, Z.min_r in Hr2 by lia.
      pose proof (upto_lt g G (PER g * v) (nframes g)) as Hu. rewrite (upto_all g G) in Hu. lia. }
    nia.
  - rewrite Hl by done. rewrite <- (Z2Nat.id v) at 2 by lia. unfold seqZ. rewrite Nat2Z.id, <- list_fmap_compose.
    apply list_fmap_ext. intros i x Hx. cbn. rewrite !Z.add_0_r. by apply request_of_same.
Qed.
End first.

(** ** [omx_ioctl_pull] *)

(** A driver in which the pull [q] can be started by the command [cmd]: [r] is
    its region and [p_handle q] the address of the new handle. *)
Record startable (q : pull) (cmd : cmd_pull) (s : driver) (r : region) : Prop := {
  sa_pull : pull_ok q;
  sa_context : context q s;
  sa_cmd : cp_shared cmd = false /\ cp_puller_rdma_id cmd = p_rid q /\ cp_length cmd = L (p_geo q) /\
    cp_pulled_rdma_offset cmd mod LEN (p_geo q) = o (p_geo q) /\ cp_lib_cookie cmd = p_cookie q;
  sa_region : 0 <= p_rid q < OMX_USER_REGION_MAX /\ user_regions (d_regions s) !! p_rid q = Some (p_region q) /\
    heap (d_regions s) !! p_region q = Some r /\ region_pinned r (p_segs q) /\ L (p_geo q) <= total_length r;
  sa_peer : exists addr, omx_set_target_peer (d_peers s) (cp_peer_index cmd) = inr (addr, p_peer q);
  sa_slot : exists slots free, pull_handle_slots_array s = Some slots /\
    pull_handle_slots_free_list s = slot_index q :: free /\
    slots !! Z.to_nat (slot_index q) = Some (Slot None (p_sid q));
  sa_hdr : p_hdr q = PullRequest (cp_dest_endpoint cmd) (p_ei q) (cp_session_id cmd) (cp_length cmd)
    (cp_pulled_rdma_id cmd) (u8 (cp_pulled_rdma_seqnum cmd)) (cp_pulled_rdma_offset cmd) (p_sid q) (magic q) 0 0 0
}.

Lemma pull_started gup min max q cmd s r junk skbs now : startable q cmd s r -> length junk = 4%nat ->
  (forall i, skbs i = true) -> exists s' h v,
  omx_ioctl_pull (LEN (p_geo q)) (PER (p_geo q)) (p_hz q) gup true min max (Some cmd) (Some (p_handle q, junk)) skbs now s =
    Some (Some 0, s') /\
  context q s' /\ active q (d_events s) s' [] h 0 v (fun _ => false) /\
  v = Z.min 4 ((nframes (p_geo q) + PER (p_geo q) - 1) / PER (p_geo q)) /\
  d_sent s' = d_sent s ++ (request_of (p_geo q) h <$> seqZ 0 v) /\
  last_retransmit_jiffies h = now + cp_resend_timeout_jiffies cmd /\
  h_timer h = Some (retransmit_at (p_hz q) now).
Proof.
  intros [Hq Hcx (Hsh & Hrid & Hlen & Ho & Hck) (Hr0 & Hreg & Hr & Hrp & HL) (addr & Hpeer)
    (slots & free & Hsl & Hfree & Hslot) Hhdr] Hjunk Hskbs. pose proof (po_geo q Hq) as G.
  unfold omx_ioctl_pull. rewrite Hsh, Hrid. unfold omx_user_region_acquire. rewrite (proj2 (Z.leb_gt _ _)), Hreg by lia.
  unfold kref_get. rewrite Hr. cbn [mbind option_bind]. fsimp. rewrite lookup_insert_eq. cbn [mbind option_bind demand_pin].
  change (0 <? 0) with false. cbn match. set (r1 := r <| refcount ::= _ |> <| dirty := true |>). set (rs := _ <| put_pages ::= _ |>).
  set (s1 := s <| d_regions := rs |>). unfold omx_pull_handle_create.
  set (h0 := Handle _ _ _ _ _ _ _ _ _ _ _ _ _ _ _ _ _ _ _ _ _).
  unfold omx_pull_handle_alloc_slot. change (pull_handle_slots_array s1) with (pull_handle_slots_array s). rewrite Hsl.
  cbn [mbind option_bind]. change (pull_handle_slots_free_list s1) with (pull_handle_slots_free_list s). rewrite Hfree, Hslot.
  cbn [mbind option_bind sl_id]. set (s2 := s1 <| pull_handle_slots_free_list := _ |> <| pull_handle_slots_array := _ |>).
  unfold omx_pull_handle_pkt_hdr_fill. change (d_peers s2) with (d_peers s). rewrite Hpeer.
  set (h1 := h0 <| slot_id := _ |> <| h_addr := _ |> <| h_peer_index := _ |> <| pkt_hdr := _ |>).
  set (s3 := put_handle _ h1 _).
  assert (Hh1 : d_handles s3 !! p_handle q = Some h1) by apply handle_at. cbn [mbind option_bind]. rewrite Hh1. cbn [mbind option_bind].
  change (pulled_rdma_offset h1) with (cp_pulled_rdma_offset cmd). rewrite Ho.
  change (remaining_length h1) with (cp_length cmd). rewrite Hlen, (first_block_length _ G).
  assert (T : tracks (p_geo q) h1 0 0 (fun _ => false)).
  { assert (Hd : length (h_descs h1) = 4%nat).
    { change (h_descs h1) with (new_descs junk). unfold new_descs. by rewrite length_app, length_fmap, <- length_app, take_drop. }
    apply new_tracks; try done. by destruct (h_descs h1). }
  destruct (first_requests _ G skbs h1 T Hskbs) as (h2 & v & l & E & Hreq & Hs & Hv & Hl).
  destruct (omx_pull_handle_append_needed_frames _ _ _ _ h1) as [ha|]; [|done]. cbn [mbind option_bind] in E |- *.
  destruct (append_blocks _ _ _ ha) as [hb|]; [|done]. cbn [mbind option_bind] in E |- *.
  destruct (fill_requests skbs hb _) as [lb|]; [|done]. cbn [mbind option_bind] in E |- *. injection E as -> ->.
  set (h3 := h2 <| h_timer := _ |>). destruct Hs as (E1 & E2 & E3 & E4 & E5 & E6 & E7 & E8 & E9 & E10 & E11 & E12).
  eexists _, h3, v. split; [reflexivity|]. split; [by apply (context_same q s)|]. split; [|split; [done|split; [|split]]].
  - split.
    + split.
      * apply handle_at.
      * by change (slot_id h3) with (slot_id h2); rewrite E2.
      * change (done_event h3) with (done_event h2). rewrite E9. change (done_event h1) with (PullDone (cp_lib_cookie cmd) (cp_puller_rdma_id cmd) 0).
        cbn. by rewrite Hck, Hrid.
      * change (h_region h3) with (h_region h2). rewrite E4. split; [done|]. exists r1. split; [|split; [by destruct Hrp; split|done]].
        change (heap rs !! p_region q = Some r1). unfold rs. fsimp. apply lookup_insert_eq.
      * change (pkt_hdr h3) with (pkt_hdr h2). change (h_peer_index h3) with (h_peer_index h2). rewrite E12, E11. split; [|done].
        rewrite Hhdr. change (pkt_hdr h1) with (PullRequest (cp_dest_endpoint cmd) (endpoint_index s) (cp_session_id cmd)
          (cp_length cmd) (cp_pulled_rdma_id cmd) (u8 (cp_pulled_rdma_seqnum cmd)) (cp_pulled_rdma_offset cmd) (p_sid q)
          (Z.lxor (endpoint_index s) OMX_ENDPOINT_PULL_MAGIC_XOR) 0 0 0). unfold magic. by rewrite (cx_index q s Hcx).
    + change (h_status h3) with (h_status h2). by rewrite E7.
    + by apply (requesting_fields _ h2).
    + change (h_refcount h3) with (h_refcount h2). change (host_copy_nr_frames h3) with (host_copy_nr_frames h2). by rewrite E1, E8.
    + done.
    + eexists. split; [reflexivity|]. apply list_lookup_insert_eq. by eapply lookup_lt_Some.
    + split; [constructor|]. intros k Hk. by apply not_elem_of_nil in Hk.
    + done.
    + pose proof (nframes_bounds _ G). pose proof (per_cases _ G). intros Hv0.
      assert (1 <= (nframes (p_geo q) + PER (p_geo q) - 1) / PER (p_geo q)) by (apply Z.div_le_lower_bound; lia). lia.
    + done.
  - change (d_sent s ++ l = d_sent s ++ (request_of (p_geo q) h3 <$> seqZ 0 v)). rewrite Hl. f_equal.
    apply list_fmap_ext. intros i x _. symmetry. apply request_of_same. by repeat split.
  - change (last_retransmit_jiffies h3) with (last_retransmit_jiffies h2). by rewrite E3.
  - done.
Qed.

(** What the library may see of a pull: nothing yet, or one event; if the event
    says success, the region holds the message. *)
Definition outcome_ok (q : pull) (ev : list pull_done) (st : driver * list Z) : Prop :=
  d_events (fst st) = ev \/
  exists status, d_events (fst st) = ev ++ [PullDone (p_cookie q) (p_rid q) status] /\
    (status = OMX_EVT_PULL_DONE_SUCCESS -> snd st = [] /\ delivered q (d_mem (fst st))).
Lemma pulling_outcome q ev st : pulling q ev st -> outcome_ok q ev st.
Proof.
  intros [_ [(h & b & v & got & A)|(status & F)]]; [left; apply A|right]. exists status.
  split; [apply (fi_events _ _ _ _ _ F)|apply (fi_success _ _ _ _ _ F)].
Qed.

(** ** The hazards *)

(** Two things break a pull, and the driver does not prevent them: its timer expires
    before the deadline while all frames were received and the last ones are still
    being copied, which is a [BUG_ON] ([timeout_during_last_copy_panics]), and a nack
    comes whose type is that of a success ([nack_of_success_gives_false_event]). *)
Definition hazard (q : pull) (a : act) (st : driver * list Z) : bool :=
  match a with
  | Expire _ now =>
      match d_handles (fst st) !! p_handle q with
      | Some h => bool_decide (h_status h = STATUS_OK) && (nr_valid_block_descs h =? 0) && (now <=? last_retransmit_jiffies h)
      | None => false
      end
  | RecvNack _ _ _ nack_type => nack_type =? OMX_EVT_PULL_DONE_SUCCESS
  | _ => false
  end.
(** The steps before the first hazard. *)
Fixpoint until_hazard (q : pull) (l : list act) (st : driver * list Z) : list act :=
  match l with
  | [] => []
  | a :: l => if hazard q a st then [] else a :: match do_act q a st with Some st => until_hazard q l st | None => l end
  end.
(** The frames received are those of the message, a copy was started before it ends,
    the timer is pending when it expires. *)
Definition act_possible (q : pull) (a : act) (st : driver * list Z) : Prop :=
  match a with
  | RecvFrame k _ _ => 0 <= k < nframes (p_geo q)
  | CopyFrame k => k ∈ snd st
  | Expire _ _ => exists h, d_handles (fst st) !! p_handle q = Some h /\ h_timer h <> None
  | RecvNack _ _ _ _ => True
  end.
Fixpoint acts_possible (q : pull) (l : list act) (st : driver * list Z) : Prop :=
  match l with
  | [] => True
  | a :: l => act_possible q a st /\ match do_act q a st with Some st => acts_possible q l st | None => True end
  end.
Lemma possible_allowed q a st : act_possible q a st -> hazard q a st = false -> act_allowed q a st.
Proof.
  destruct st as [s pend], a as [k skbs now|k|skbs now|? ? ? ty]; cbn; try done.
  - intros (h & Hh & Ht) Hz. rewrite Hh in Hz. split; [by exists h|]. intros (h' & Hh' & Hs & Hv & Hn).
    assert (h' = h) as -> by congruence. rewrite bool_decide_true, Hv in Hz by done. by rewrite (proj2 (Z.leb_le _ _)) in Hz by done.
  - intros _ Hz. by apply Z.eqb_neq in Hz.
Qed.
Lemma do_acts_until q ev l : forall st, pull_ok q -> pulling q ev st -> acts_possible q l st ->
  exists st', do_acts q (until_hazard q l st) st = Some st' /\ pulling q ev st'.
Proof.
  induction l as [|a l IH]; intros st Hq Hp Ha; [by exists st|]. cbn [acts_possible until_hazard] in *. destruct Ha as [Ha Hl].
  destruct (hazard q a st) eqn:Hz; [by exists st|].
  destruct (do_act_ok q ev a st Hq Hp (possible_allowed q a st Ha Hz)) as (st' & E & Hp'). rewrite E in Hl |- *.
  cbn [do_acts]. rewrite E. cbn [mbind option_bind]. by apply IH.
Qed.

(** C3. A pull delivers its message: [omx_ioctl_pull] requests the first blocks;
    then, in any order and number, replies arrive, with repetitions, their
    copies end, the timer expires and nacks come.  Up to the first hazard, none of
    this stops the driver, the library gets at most one event, and when the event
    says success all replies are copied and the region holds the message.  The
    hazards are the timer expiring before the deadline during the last copies
    (the [BUG_ON] of omx_pull.c:1106) and a nack of type 0, which gives the event
    of a success; when there is none in the sequence the statement is about all of
    it.  The command can be started ([startable]), there is memory for the
    handle and the requests, and the replies have the frames of the message. *)
Theorem pull_delivers_message gup min max q cmd s r junk skbs now : startable q cmd s r -> length junk = 4%nat ->
  (forall i, skbs i = true) -> exists s' h,
  omx_ioctl_pull (LEN (p_geo q)) (PER (p_geo q)) (p_hz q) gup true min max (Some cmd) (Some (p_handle q, junk)) skbs now s =
    Some (Some 0, s') /\
  d_sent s' = d_sent s ++ (request_of (p_geo q) h <$> seqZ 0 (Z.min 4 ((nframes (p_geo q) + PER (p_geo q) - 1) / PER (p_geo q)))) /\
  pkt_hdr h = p_hdr q /\
  forall l, acts_possible q l (s', []) ->
    exists st, do_acts q (until_hazard q l (s', [])) (s', []) = Some st /\ outcome_ok q (d_events s) st.
Proof.
  intros Hst Hj Hskbs. destruct (pull_started gup min max q cmd s r junk skbs now Hst Hj Hskbs)
    as (s' & h & v & E & Hcx & A & -> & Hsent & _). exists s', h. split; [exact E|]. split; [exact Hsent|].
  split; [apply (ac_handle _ _ _ _ _ _ _ _ A)|]. intros l Hl.
  destruct (do_acts_until q (d_events s) l (s', [])) as (st & El & Hp); [apply Hst| |done|].
  - split; [done|]. left. do 4 eexists. exact A.
  - exists st. split; [exact El|]. by apply pulling_outcome.
Qed.

(** Two frames of four bytes: a message of six bytes from offset 1. *)
Definition small_pull : pull :=
  MkPull (Geometry 4 8 1 6) 100 500 300 (OMX_PULL_HANDLE_SLOT_ID_FIRST 7) 2 77 9
    (PullRequest 5 2 1234 6 11 0 9 (OMX_PULL_HANDLE_SLOT_ID_FIRST 7) (Z.lxor 2 OMX_ENDPOINT_PULL_MAGIC_XOR) 0 0 0) 1
    [(Segment 0 4094 4 2 2 false [Some 5; Some 7], [5; 7]); (Segment 40960 1 3 1 1 false [Some 9], [9])]
    [10; 11; 12; 13; 14; 15].
Definition small_region : region := Region 9 false 1 0 (fst <$> p_segs small_pull) 7 PINNED 7.
Definition small_cmd : cmd_pull := CmdPull 3 5 false 1234 6 1000 9 9 11 0 77.
Definition small_driver : driver :=
  Driver (Peers {[ 3 := 0xaabb ]} 16 (fun _ => []) (fun _ => 1)) 32 2 true 555 1
    (Regions {[ 9 := 300 ]} {[ 300 := small_region ]} [] [] [])
    (Some ((fun i => Slot None (OMX_PULL_HANDLE_SLOT_ID_FIRST i)) <$> seqZ 0 16)) [7; 8] [] ∅ [] [] (fun _ => 0).
Definition small_junk : list block_desc := [BlockDesc 1 2 3 4; BlockDesc 1 2 3 4; BlockDesc 1 2 3 4; BlockDesc 1 2 3 0].
Lemma small_geometry : geometry_ok (p_geo small_pull).
Proof. split; try (by vm_compute); by split. Qed.
Lemma small_startable : startable small_pull small_cmd small_driver small_region.
Proof.
  split.
  - split; [apply small_geometry|by vm_compute|by vm_compute|by vm_compute].
  - by split.
  - by vm_compute.
  - split; [by vm_compute|]. split; [by vm_compute|]. split; [by vm_compute|]. split; [|by vm_compute].
    split; [done| |by vm_compute|apply (bool_decide_unpack _); vm_compute; exact I]. repeat constructor; by vm_compute.
  - exists 0xaabb. by vm_compute.
  - eexists _, _. split; [reflexivity|]. by vm_compute.
  - by vm_compute.
Qed.
Definition all_skbs (i : nat) : bool := true.
Definition small_ioctl : option (option Z * driver) :=
  omx_ioctl_pull 4 8 100 (fun _ _ => (0, [])) true 1 1 (Some small_cmd) (Some (500, small_junk)) all_skbs 10 small_driver.
Definition small_acts : list act :=
  [RecvFrame 1 all_skbs 11; RecvFrame 1 all_skbs 12; CopyFrame 1; Expire all_skbs 120;
   RecvFrame 0 all_skbs 121; CopyFrame 0; RecvFrame 0 all_skbs 122].
Lemma small_allowed : (x ← small_ioctl; Some (acts_allowedb small_pull small_acts (snd x, []))) = Some true.
Proof. by vm_compute. Qed.
Lemma allowed_possible q l : forall st, acts_allowed q l st -> acts_possible q l st.
Proof.
  induction l as [|a l IH]; intros st; [done|]. cbn [acts_allowed acts_possible]. intros [H1 H2]. split.
  - destruct st as [s pend], a; cbn in *; try done. apply H1.
  - destruct (do_act q a st); [by apply IH|done].
Qed.
Lemma small_no_hazard : (x ← small_ioctl; Some (until_hazard small_pull small_acts (snd x, []))) = Some small_acts.
Proof. by vm_compute. Qed.
Lemma small_outcome : (x ← small_ioctl; st ← do_acts small_pull small_acts (snd x, []); Some (snd st, d_events (fst st))) =
  Some ([], [PullDone 77 9 OMX_EVT_PULL_DONE_SUCCESS]).
Proof. by vm_compute. Qed.
Lemma pull_delivers_message_witness : exists s' s'', small_ioctl = Some (Some 0, s') /\
  do_acts small_pull small_acts (s', []) = Some (s'', []) /\
  d_events s'' = [PullDone 77 9 OMX_EVT_PULL_DONE_SUCCESS] /\ delivered small_pull (d_mem s'').
Proof.
  destruct (pull_delivers_message (fun _ _ => (0, [])) 1 1 small_pull small_cmd small_driver small_region small_junk all_skbs 10
    small_startable eq_refl (fun _ => eq_refl)) as (s' & h & E & _ & _ & H).
  pose proof small_allowed as Ha. pose proof small_outcome as Ho. pose proof small_no_hazard as Hz. unfold small_ioctl in *. change (LEN (p_geo small_pull)) with 4 in E.
  change (PER (p_geo small_pull)) with 8 in E. change (p_hz small_pull) with 100 in E. change (p_handle small_pull) with 500 in E.
  rewrite E in *. cbn [mbind option_bind snd] in Ha, Ho, Hz.
  destruct (H small_acts) as ([s'' pend] & Es & Hok); [apply allowed_possible, acts_allowedb_sound; congruence|].
  assert (Hu : until_hazard small_pull small_acts (s', []) = small_acts) by congruence. rewrite Hu in Es. rewrite Es in Ho. cbn [mbind option_bind fst snd] in Ho. injection Ho as -> Hev.
  exists s', s''. split; [done|]. split; [done|]. split; [done|].
  destruct Hok as [Hok|(status & Hok & Hs)]; cbn [fst snd] in *; [by rewrite Hev in Hok|].
  apply Hs. rewrite Hev in Hok. by injection Hok as <-.
Defined.

(** The timer expires, before the deadline, while the last frames are being
    copied: [BUG_ON(!handle->block_desc[0].frames_missing_bitmap)]. *)
Lemma timeout_during_last_copy_panics :
  (x ← small_ioctl; st ← do_acts small_pull [RecvFrame 1 all_skbs 11; RecvFrame 0 all_skbs 12] (snd x, []);
   Some (snd st, d_events (fst st))) = Some ([1; 0], []) /\
  (x ← small_ioctl; st ← do_acts small_pull [RecvFrame 1 all_skbs 11; RecvFrame 0 all_skbs 12; Expire all_skbs 120] (snd x, []);
   Some (snd st)) = None.
Proof. split; by vm_compute. Qed.
(** A nack of type 0 comes before any reply: the library is told of a success. *)
Lemma nack_of_success_gives_false_event :
  (x ← small_ioctl; st ← do_acts small_pull [RecvNack 0xaabb 3 5 OMX_EVT_PULL_DONE_SUCCESS] (snd x, []);
   Some (d_events (fst st), bool_decide (region_bytes (d_mem (fst st)) (p_segs small_pull) = region_bytes (fun _ => 0) (p_segs small_pull)))) =
  Some ([PullDone 77 9 OMX_EVT_PULL_DONE_SUCCESS], true).
Proof. by vm_compute. Qed.
End PullStart.
