(* ===== verification/PullRounds.v ===== *)
(** A puller and the host it pulls from.  [PullSender]: answering the requests of a
    pull from a region.  [PullRounds]: the retransmissions make a pull advance
    whatever was lost before. *)
From S2P Require Import Prelude Segments Reg RegCopy RegTable Peer Pull PullFrames PullReplies PullStart.
Import Mem Reg RegCopy RegTable Peer Pull PullFrames PullReplies PullStart.

Module PullSender.

(** ** Attached pages carry the bytes that a copy gives *)

Section append.
Context (frags : Z) (r : region) (m : mem).

Lemma frags_bytes_app l1 l2 : frags_bytes m (l1 ++ l2) = frags_bytes m l1 ++ frags_bytes m l2.
Proof. unfold frags_bytes. apply flat_map_app. Qed.
Lemma contig_append_copies fuel : forall sg page pageoff n skb buffer bs pg po,
  contig_copy_loop fuel sg m page pageoff n buffer = Some (bs, pg, po) ->
  contig_append_loop frags fuel sg page pageoff n skb = Some None \/
  exists l, contig_append_loop frags fuel sg page pageoff n skb = Some (Some (skb ++ l, pg, po)) /\
    bs = buffer ++ frags_bytes m l.
Proof.
  induction fuel as [|fuel IH]; intros sg page pageoff n skb buffer bs pg po; cbn [contig_copy_loop contig_append_loop];
    (destruct (n =? 0); [intros [= <- <- <-]; right; exists []; by rewrite !app_nil_r|]); [done|].
  destruct (_ =? frags); [by left|]. set (chunk := if _ <? n then _ else n). clearbody chunk.
  destruct (get_page sg page) as [p|]; [|done]. cbn [mbind option_bind].
  destruct (_ =? PAGE_SIZE); intros H; apply (IH _ _ _ _ (skb ++ [(p, pageoff, chunk)])) in H as [H|(l & H & ->)];
    try (by left); right; exists ((p, pageoff, chunk) :: l); rewrite H; cbn; by rewrite <- !app_assoc.
Qed.
Lemma vect_append_copies fuel : forall i so page pageoff n skb buffer bs i' so' pg po,
  vect_copy_loop fuel r m i so page pageoff n buffer = Some (bs, i', so', pg, po) ->
  vect_append_loop frags fuel r i so page pageoff n skb = Some None \/
  exists l, vect_append_loop frags fuel r i so page pageoff n skb = Some (Some (skb ++ l, i', so', pg, po)) /\
    bs = buffer ++ frags_bytes m l.
Proof.
  induction fuel as [|fuel IH]; intros i so page pageoff n skb buffer bs i' so' pg po; cbn [vect_copy_loop vect_append_loop];
    (destruct (n =? 0); [intros [= <- <- <- <- <-]; right; exists []; by rewrite !app_nil_r|]); [done|].
  destruct (_ =? frags); [by left|]. destruct (segments r !! i) as [sg|]; [|done]. cbn [mbind option_bind].
  set (chunk0 := if _ <? n then _ else n). set (chunk := if _ <? chunk0 then _ else chunk0). clearbody chunk0 chunk.
  destruct (get_page sg page) as [p|]; [|done]. cbn [mbind option_bind].
  destruct (_ =? sg_length sg); [destruct (segments r !! S i) as [sg'|]; [|done]; cbn [mbind option_bind]|destruct (_ =? PAGE_SIZE)];
    intros H; apply (IH _ _ _ _ _ (skb ++ [(p, pageoff, chunk)])) in H as [H|(l & H & ->)];
    try (by left); right; exists ((p, pageoff, chunk) :: l); rewrite H; cbn; by rewrite <- !app_assoc.
Qed.
Lemma append_copies c n bs c' : copy_pages_to_buf r c m n = Some (bs, c') ->
  (exists err, append_pages_to_skb frags r c n = Some (inl err)) \/
  exists l, append_pages_to_skb frags r c n = Some (inr (l, c')) /\ bs = frags_bytes m l.
Proof.
  unfold copy_pages_to_buf, append_pages_to_skb. destruct (oc_vect c).
  - unfold omx_user_region_offset_cache_vect_copy_callback, omx_user_region_offset_cache_vect_append_callback.
    destruct (vect_copy_loop _ _ _ _ _ _ _ _ _) as [[[[[bs0 i'] so'] pg] po]|] eqn:E; [|done]. cbn [mbind option_bind].
    intros [= <- <-]. apply (vect_append_copies _ _ _ _ _ _ []) in E as [->|(l & -> & ->)]; cbn [mbind option_bind]; eauto.
  - unfold omx_user_region_offset_cache_contig_copy_callback, omx_user_region_offset_cache_contig_append_callback.
    destruct (segments r !! oc_seg c) as [sg|]; [|done]. cbn [mbind option_bind].
    destruct (contig_copy_loop _ _ _ _ _ _ _) as [[[bs0 pg] po]|] eqn:E; [|done]. cbn [mbind option_bind].
    intros [= <- <-]. apply (contig_append_copies _ _ _ _ _ []) in E as [->|(l & -> & ->)]; cbn [mbind option_bind]; eauto.
Qed.
End append.

(** ** The replies to a request *)

Definition yes (i : nat) : bool := true.
(** A driver that can answer the requests of [q] from its region [r], at [ra],
    with pages [l]: the request comes from [src] with the index [pidx]. *)
Record answers (q : pull) (src : Z) (ra : Z) (l : list (segment * list Z)) (t : driver) : Prop := {
  an_wire : LEN (p_geo q) < 65536;
  an_peer : omx_check_recv_peer_index (d_peers t) (p_peer q) src = 0;
  an_endpoint : u8 (rq_dst_endpoint (p_hdr q)) = endpoint_index t /\ endpoint_index t < endpoint_max t /\ endpoint_ok t = true;
  an_session : rq_session (p_hdr q) = session_id t;
  an_ids : rq_src_pull_handle (p_hdr q) = p_sid q /\ rq_src_magic (p_hdr q) = magic q;
  an_region : rq_pulled_rdma_id (p_hdr q) < OMX_USER_REGION_MAX /\
    user_regions (d_regions t) !! rq_pulled_rdma_id (p_hdr q) = Some ra;
  an_pinned : exists r, heap (d_regions t) !! ra = Some r /\ 0 < refcount r /\ region_pinned r l /\
    rq_pulled_rdma_offset (p_hdr q) + L (p_geo q) <= total_length r /\
    (1 < Z.of_nat (length l) -> rq_pulled_rdma_offset (p_hdr q) + L (p_geo q) < total_length r);
  an_offset : 0 <= rq_pulled_rdma_offset (p_hdr q) /\ rq_pulled_rdma_offset (p_hdr q) + L (p_geo q) < 2 ^ 32 /\
    rq_pulled_rdma_offset (p_hdr q) mod LEN (p_geo q) = o (p_geo q);
  an_msg : p_msg q = take (Z.to_nat (L (p_geo q))) (drop (Z.to_nat (rq_pulled_rdma_offset (p_hdr q))) (region_bytes (d_mem t) l))
}.
(** The request of block [b]. *)
Definition block_request (q : pull) (b : Z) : pull_request :=
  let h := p_hdr q in
  PullRequest (rq_dst_endpoint h) (rq_src_endpoint h) (rq_session h) (rq_total_length h) (rq_pulled_rdma_id h)
    (rq_pulled_rdma_seqnum h) (rq_pulled_rdma_offset h) (rq_src_pull_handle h) (rq_src_magic h)
    (first_offset_of (p_geo q) b) (block_length_of (p_geo q) b) (PER (p_geo q) * b).

Section send.
Context (frags copy_max eth_zlen hdr_len : Z) (q : pull) (src ra : Z) (l : list (segment * list Z)).
Context (Hq : pull_ok q).
#[local] Notation g := (p_geo q).
#[local] Notation off := (rq_pulled_rdma_offset (p_hdr q)).

Lemma reply_data_ok r m i c pos n : region_pinned r l -> cache_at l c pos -> 0 <= n -> pos + n <= total_length r ->
  (oc_vect c = true -> pos + n < total_length r) -> exists c',
  reply_data frags copy_max eth_zlen hdr_len yes yes i r c m n =
    Some (inr (take (Z.to_nat n) (drop (Z.to_nat pos) (region_bytes m l)), c')) /\ cache_at l c' (pos + n).
Proof.
  intros Hr Hc Hn Hle Hlt. destruct (copy_spec r l m c pos n Hr Hc Hn Hle Hlt) as (c' & E & Hc').
  exists c'. split; [|done]. unfold reply_data. cbn [yes negb]. rewrite E. cbn [mbind option_bind].
  destruct (_ || _); [done|]. destruct (append_copies frags r m c n _ c' E) as [(err & ->)|(skb & -> & Hb)];
    cbn [mbind option_bind]; [done|]. by rewrite Hb.
Qed.

Lemma send_replies_ok r m b n : region_pinned r l -> LEN g < 65536 -> off + L g <= total_length r ->
  (1 < Z.of_nat (length l) -> off + L g < total_length r) -> 0 <= off -> off + L g < 2 ^ 32 ->
  p_msg q = take (Z.to_nat (L g)) (drop (Z.to_nat off) (region_bytes m l)) -> 0 <= b -> PER g * b < nframes g ->
  forall i c, Z.of_nat i + Z.of_nat n = last_of g b - PER g * b -> cache_at l c (off + upto g (PER g * b + Z.of_nat i)) ->
  send_replies (LEN g) frags copy_max eth_zlen hdr_len yes yes n i r c m (p_sid q) (magic q) (first_offset_of g b)
    (PER g * b + Z.of_nat i) (upto g (PER g * b + Z.of_nat i)) (upto g (last_of g b) - upto g (PER g * b + Z.of_nat i)) =
  Some (frame_reply q <$> seqZ (PER g * b + Z.of_nat i) (Z.of_nat n), 0).
Proof.
  intros Hr Hw Htot Hvect Hoff Hmax Hmsg Hb Hlt. pose proof (po_geo q Hq) as G. pose proof (nframes_bounds g G) as Hn.
  pose proof (block_frames g G b Hb Hlt) as (_ & Hcount & _ & Hlast). pose proof (per_cases g G) as Hper.
  pose proof (nframes_max g G) as Hnmax.
  induction n as [|n IH]; intros i c Hin Hc; [done|]. cbn [send_replies]. set (k := PER g * b + Z.of_nat i) in *.
  assert (Hk : 0 <= k < nframes g) by lia. pose proof (frame_length_range g G k Hk) as (Hfl & Hu & Hle).
  assert (Hu1 : upto g (k + 1) = upto g k + frame_length_of g k) by (unfold frame_length_of; lia).
  assert (Hlen : (if upto g (last_of g b) - upto g k <? (if Nat.eqb i 0 then u32 (LEN g - first_offset_of g b) else LEN g)
    then upto g (last_of g b) - upto g k else (if Nat.eqb i 0 then u32 (LEN g - first_offset_of g b) else LEN g)) = frame_length_of g k).
  { rewrite (frame_length_min g G k (last_of g b)) by lia. unfold first_offset_of.
    pose proof G as [H1 _ _ H2 _ _ _]. assert (Hk0 : (k =? 0) = (b =? 0) && Nat.eqb i 0).
    { destruct (Z.eqb_spec b 0) as [->|]; [|apply Z.eqb_neq; nia]. destruct (Nat.eqb_spec i 0) as [->|]; apply Z.eqb_eq || apply Z.eqb_neq; lia. }
    rewrite Hk0. destruct (b =? 0), (Nat.eqb i 0); cbn [andb]; rewrite ?u32_small by lia; rewrite ?Z.sub_0_r; zcases; lia. }
  rewrite Hlen. destruct (reply_data_ok r m i c (off + upto g k) (frame_length_of g k) Hr Hc) as (c' & -> & Hc'); [lia|lia| |].
  { intros Hv. destruct Hc as (_ & Hv' & _). rewrite Hv in Hv'. symmetry in Hv'. apply Z.ltb_lt in Hv'. specialize (Hvect Hv'). lia. }
  cbn [mbind option_bind]. rewrite !u32_small by (change 4294967296 with (2 ^ 32); lia).
  replace (k + 1) with (PER g * b + Z.of_nat (S i)) by lia.
  replace (upto g k + frame_length_of g k) with (upto g (PER g * b + Z.of_nat (S i))) by (rewrite <- Hu1; f_equal; lia).
  replace (upto g (last_of g b) - upto g k - frame_length_of g k) with
    (upto g (last_of g b) - upto g (PER g * b + Z.of_nat (S i))) by (replace (PER g * b + Z.of_nat (S i)) with (k + 1) by lia; lia).
  rewrite (IH (S i) c'); [|lia|replace (PER g * b + Z.of_nat (S i)) with (k + 1) by lia; rewrite Hu1, Z.add_assoc; exact Hc'].
  cbn [mbind option_bind]. f_equal. f_equal. rewrite (seqZ_cons k) by lia. cbn [fmap list_fmap]. f_equal; [|do 2 f_equal; lia].
  unfold frame_reply. unfold u16. rewrite Z.mod_small by lia. f_equal. unfold slice. rewrite Hmsg.
  rewrite Z2Nat.inj_add, <- drop_drop, !take_drop_commute, take_take by lia. do 3 f_equal. lia.
Qed.

(** Getting the region and giving it back leaves it as it was. *)
Lemma region_held t : answers q src ra l t -> exists r1 rs1 rs2,
  omx_user_region_acquire (rq_pulled_rdma_id (p_hdr q)) (d_regions t) = Some (Some ra, rs1) /\
  heap rs1 !! ra = Some r1 /\ region_pinned r1 l /\ off + L g <= total_length r1 /\
  (1 < Z.of_nat (length l) -> off + L g < total_length r1) /\
  omx_user_region_release true ra rs1 = Some rs2 /\
  forall s, d_mem s = d_mem t -> d_peers s = d_peers t -> endpoint_index s = endpoint_index t ->
    endpoint_max s = endpoint_max t -> endpoint_ok s = endpoint_ok t -> session_id s = session_id t ->
    d_regions s = rs2 -> answers q src ra l s.
Proof.
  intros [H1 H2 H3 H4 H5 [H6 H6'] (r & Hr & Href & Hrp & Htot & Hv) H8 H9].
  unfold omx_user_region_acquire. rewrite (proj2 (Z.leb_gt _ _)), H6' by lia. unfold kref_get. rewrite Hr. cbn [mbind option_bind].
  set (r1 := r <| refcount ::= _ |>). set (rs1 := (d_regions t) <| heap ::= _ |>).
  assert (Hr1 : heap rs1 !! ra = Some r1) by (unfold rs1; fsimp; apply lookup_insert_eq).
  set (r2 := r1 <| refcount ::= fun n => n - 1 |>). set (rs2 := rs1 <| heap ::= <[ra := r2]> |>).
  exists r1, rs1, rs2. split; [done|]. split; [done|]. split; [by destruct Hrp; split|]. split; [done|]. split; [done|]. split.
  - unfold omx_user_region_release, kref_put. rewrite Hr1. cbn [mbind option_bind].
    change (refcount r1) with (refcount r + 1). by rewrite (proj2 (Z.eqb_neq _ _)) by lia.
  - intros s E1 E2 E3 E4 E5 E6 E7. split; rewrite ?E1, ?E2, ?E3, ?E4, ?E5, ?E6, ?E7; try done.
    exists r2. split; [unfold rs2; fsimp; apply lookup_insert_eq|]. split; [unfold r2, r1; fsimp; lia|].
    split; [by destruct Hrp; split|]. by split.
Qed.

Lemma request_answered nack_ok b t : answers q src ra l t -> 0 <= b -> PER g * b < nframes g -> exists t',
  omx_recv_pull_request (LEN g) (PER g) frags copy_max eth_zlen hdr_len yes yes nack_ok src (p_peer q) (block_request q b) t =
    Some (0, t') /\
  d_sent t' = d_sent t ++ (Reply src <$> (frame_reply q <$> seqZ (PER g * b) (last_of g b - PER g * b))) /\
  answers q src ra l t'.
Proof.
  intros A Hb Hlt. destruct (region_held t A) as (r1 & rs1 & rs2 & Hacq & Hr1 & Hrp & Htot & Hv & Hrel & Hthen).
  pose proof A as [Hw Hpeer (Hep & Hmax & Hok) Hs [Hid Hmg] _ _ (Ho1 & Ho2 & Ho3) Hmsg].
  pose proof (po_geo q Hq) as G. pose proof (nframes_bounds g G) as Hn. pose proof (per_cases g G) as Hper.
  destruct (block_frames g G b Hb Hlt) as (Hfr & Hcount & Hbl & Hlast). pose proof G as [G1 _ _ G2 G3 _ _].
  unfold omx_recv_pull_request, block_request. cbn [rq_dst_endpoint rq_session rq_first_frame_offset rq_block_length
    rq_frame_index rq_pulled_rdma_id rq_pulled_rdma_offset rq_src_pull_handle rq_src_magic rq_src_endpoint].
  rewrite Hpeer. change (0 <? 0) with false. cbn match. unfold omx_endpoint_acquire_by_iface_index. cbn zeta.
  rewrite Hep, (proj2 (Z.leb_gt _ _)), Z.eqb_refl, Hok by done. cbn [negb orb]. cbn match.
  set (s1 := t <| endpoint_refcount ::= _ |>). change (session_id s1) with (session_id t). rewrite Hs, Z.eqb_refl. cbn [negb]. cbn zeta.
  rewrite Hfr, (proj2 (Z.ltb_ge _ _)) by lia. change (d_regions s1) with (d_regions t). rewrite Hacq. cbn [mbind option_bind].
  rewrite Hr1. cbn [mbind option_bind].
  assert (Hu : PER g * b * LEN g - off mod LEN g + first_offset_of g b = upto g (PER g * b)).
  { rewrite Ho3. unfold first_offset_of. destruct (Z.eqb_spec b 0) as [->|Hb0]; [rewrite Z.mul_0_r, upto_0; lia|].
    destruct (upto_inner g G (PER g * b)) as [-> _]; [nia|]. lia. }
  pose proof (upto_range g G (PER g * b) ltac:(nia)) as Hur. pose proof (upto_range g G (last_of g b) ltac:(lia)) as Hur'.
  rewrite Hu. rewrite (u32_small (upto g (PER g * b))) by (change 4294967296 with (2 ^ 32); lia).
  rewrite (u32_small (_ + off)) by (change 4294967296 with (2 ^ 32); lia).
  destruct (cache_init_spec r1 l (upto g (PER g * b) + off) (block_length_of g b) Hrp) as (c & -> & Hc); [|lia|lia| | |].
  { intros ->. rewrite (rp_total _ _ Hrp) in Htot. change (seg_total []) with 0 in Htot. lia. }
  { unfold block_length_of. lia. }
  { pose proof (upto_lt g G (PER g * b) (last_of g b)). intros Hl. specialize (Hv Hl). lia. }
  cbn [mbind option_bind]. rewrite Hid, Hmg.
  pose proof (send_replies_ok r1 (d_mem t) b (Z.to_nat (last_of g b - PER g * b)) Hrp Hw Htot Hv Ho1 Ho2 Hmsg Hb Hlt 0 c) as Hsend.
  rewrite Z.add_0_r, Z2Nat.id in Hsend by lia. unfold block_length_of. change (d_mem s1) with (d_mem t). rewrite Hsend by (lia || (rewrite Z.add_comm; exact Hc)). cbn [mbind option_bind].
  rewrite Hrel. cbn [mbind option_bind]. eexists. split; [reflexivity|]. split; [done|]. by apply Hthen.
Qed.
End send.

(** A request for a block is answered: the host with the data sends one
    reply for each frame of the block, with the bytes that its region has for
    the frame, and can answer again. *)
Lemma pull_request_answered frags copy_max eth_zlen hdr_len nack_ok q src ra l t b : pull_ok q ->
  answers q src ra l t -> 0 <= b -> PER (p_geo q) * b < nframes (p_geo q) -> exists t',
  omx_recv_pull_request (LEN (p_geo q)) (PER (p_geo q)) frags copy_max eth_zlen hdr_len yes yes nack_ok src (p_peer q)
    (block_request q b) t = Some (0, t') /\
  d_sent t' = d_sent t ++ (Reply src <$> (frame_reply q <$> seqZ (PER (p_geo q) * b) (last_of (p_geo q) b - PER (p_geo q) * b))) /\
  answers q src ra l t'.
Proof. intros Hq. by apply request_answered. Qed.

(** The other host of [small_pull]: 20 bytes, of which 6 from the tenth. *)
Definition other_pages : list (segment * list Z) := [(Segment 8192 100 20 1 1 false [Some 12], [12])].
Definition other_region : region := Region 11 false 1 0 (fst <$> other_pages) 20 PINNED 20.
Definition other_driver : driver :=
  Driver (Peers {[ 1 := 0xccdd ]} 16 (fun _ => []) (fun _ => 3)) 32 5 true 1234 1
    (Regions {[ 11 := 600 ]} {[ 600 := other_region ]} [] [] []) None [] [] ∅ [] [] (fun a => a - (12 * 4096 + 100) + 1).
Lemma other_answers : answers small_pull 0xccdd 600 other_pages other_driver.
Proof.
  split; try (by vm_compute).
  exists other_region. split; [by vm_compute|]. split; [done|]. split; [|split; [by vm_compute|by vm_compute]].
  split; [done| |by vm_compute|apply (bool_decide_unpack _); vm_compute; exact I]. repeat constructor; by vm_compute.
Qed.
Lemma pull_request_answered_witness : exists t',
  omx_recv_pull_request 4 8 16 0 0 0 yes yes true 0xccdd 1 (block_request small_pull 0) other_driver = Some (0, t') /\
  d_sent t' = [Reply 0xccdd (PullReply 0 3 0 (p_sid small_pull) (magic small_pull) [10; 11; 12]);
               Reply 0xccdd (PullReply 1 3 3 (p_sid small_pull) (magic small_pull) [13; 14; 15])].
Proof.
  destruct (pull_request_answered 16 0 0 0 true small_pull 0xccdd 600 other_pages other_driver 0
    (sa_pull _ _ _ _ small_startable) other_answers) as (t' & E & Hs & _); [lia|by vm_compute|].
  exists t'. split; [exact E|]. rewrite Hs. by vm_compute.
Defined.
End PullSender.

Import PullSender.

Module PullRounds.

(** The puller receives replies at the dates it is given, then later. *)
Fixpoint deliver (LEN PER HZ : Z) (skbs : nat -> bool) (now : Z) (l : list pull_reply) (s : driver) : option driver :=
  match l with
  | [] => Some s
  | r :: l => '(_, s) ← omx_recv_pull_reply LEN PER HZ skbs now r s; deliver LEN PER HZ skbs now l s
  end.
Definition replies_in (l : list packet) : list pull_reply :=
  flat_map (fun p => match p with Reply _ r => [r] | _ => [] end) l.

(** How the other host sends: the pages of a packet, its size limits. *)
Record sending := Sending { sn_frags : Z; sn_copy_max : Z; sn_zlen : Z; sn_hdr : Z; sn_nack : bool; sn_src : Z }.
(** A round: the timer expires at [now]; of the requests it sends, all but
    the first are lost; the other host answers it and its replies arrive. *)
Definition round (q : pull) (w : sending) (now : Z) (st : driver * driver) : option (driver * driver) :=
  let '(s, t) := st in
  s1 ← omx_pull_handle_timeout_handler (p_hz q) yes now (p_handle q) s;
  match drop (length (d_sent s)) (d_sent s1) with
  | Request _ peer_index r :: _ =>
      '(_, t1) ← omx_recv_pull_request (LEN (p_geo q)) (PER (p_geo q)) (sn_frags w) (sn_copy_max w) (sn_zlen w) (sn_hdr w)
                   yes yes (sn_nack w) (sn_src w) peer_index r t;
      s2 ← deliver (LEN (p_geo q)) (PER (p_geo q)) (p_hz q) yes now (replies_in (drop (length (d_sent t)) (d_sent t1))) s1;
      Some (s2, t1)
  | _ => Some (s1, t)
  end.
Fixpoint rounds (q : pull) (w : sending) (nows : list Z) (st : driver * driver) : option (driver * driver) :=
  match nows with [] => Some st | now :: nows => st ← round q w now st; rounds q w nows st end.

(** ** One reply *)

Section reply.
Context (q : pull) (Hq : pull_ok q) (ev : list pull_done).
#[local] Notation g := (p_geo q).

(** The blocks of the message. *)
Definition blocks : Z := (nframes g + PER g - 1) / PER g.
(** As long as a pull is not over and copies nothing, it waits for a block. *)
Lemma active_block s h b v got : active q ev s [] h b v got ->
  0 <= b /\ 0 < v /\ PER g * b < nframes g /\ b + 1 <= blocks.
Proof.
  intros A. pose proof (po_geo q Hq) as G. pose proof (per_cases g G) as Hper.
  pose proof (rq_tracks _ _ _ _ _ (ac_requesting _ _ _ _ _ _ _ _ A)) as T. pose proof (tr_range _ _ _ _ _ T) as (Hb & Hv & Hlt).
  assert (Hv0 : 0 < v). { destruct (Z.eq_dec v 0) as [Hz|]; [|lia]. by destruct (ac_waits _ _ _ _ _ _ _ _ A Hz). }
  specialize (Hlt Hv0). assert (PER g * b < nframes g) by nia. split; [done|]. split; [done|]. split; [done|].
  unfold blocks. apply Z.div_le_lower_bound; lia.
Qed.

(** Only the handle of the slot gets data. *)
Lemma to_copy_handle s s' skbs now r p : (exists slots id, pull_handle_slots_array s = Some slots /\
    slots !! Z.to_nat (OMX_PULL_HANDLE_SLOT_INDEX_FROM_ID (rp_dst_pull_handle r)) = Some (Slot (Some (p_handle q)) id)) ->
  recv_pull_reply_locked (LEN g) (PER g) (p_hz q) skbs now r s = Some (ToCopy p, s') -> p = p_handle q.
Proof.
  intros (slots & id & Hsl & Hi). unfold recv_pull_reply_locked. destruct (_ <? _); [done|].
  unfold omx_endpoint_acquire_by_iface_index. cbn zeta. destruct (_ <=? _); [done|]. destruct (_ || _); [done|].
  unfold omx_pull_handle_acquire_from_slot. fsimp. rewrite Hsl. cbn [mbind option_bind].
  destruct (_ <=? _); [done|]. rewrite Hi. cbn [mbind option_bind sl_handle sl_id]. destruct (negb _); [done|].
  destruct (omx_pull_handle_acquire _ _) as [s1|]; [|done]. cbn [mbind option_bind].
  destruct (d_handles s1 !! p_handle q) as [h|]; [|done]. cbn [mbind option_bind].
  assert (Hdrop : (s ← omx_pull_handle_release true (p_handle q) s1; Some (Dropped 0, omx_endpoint_release s)) <>
    Some (ToCopy p, s')) by (by destruct (omx_pull_handle_release true _ s1)).
  destruct (bool_decide _); [done|]. destruct (negb _); [done|]. destruct (_ <=? _); [done|].
  destruct (h_descs h !! _) as [d|]; [|done]. cbn [mbind option_bind]. destruct (negb _); [done|].
  destruct (omx_progress_pull_on_recv_pull_reply_locked _ _ _ _ _ _ _) as [[h1 l]|]; [|done].
  cbn [mbind option_bind]. congruence.
Qed.

(** A reply is its reception and its copy. *)
Lemma reply_acts s k skbs now st : (exists slots id, pull_handle_slots_array s = Some slots /\
    slots !! Z.to_nat (slot_index q) = Some (Slot (Some (p_handle q)) id)) ->
  do_act q (RecvFrame k skbs now) (s, []) = Some st ->
  (x ← omx_recv_pull_reply (LEN g) (PER g) (p_hz q) skbs now (frame_reply q k) s; Some (snd x)) =
  match snd st with
  | [] => Some (fst st)
  | _ => st ← do_act q (CopyFrame k) st; Some (fst st)
  end.
Proof.
  intros Hsl. cbn [do_act]. unfold omx_recv_pull_reply.
  destruct (recv_pull_reply_locked _ _ _ _ _ _ _) as [[out s1]|] eqn:E; [|done]. cbn [mbind option_bind].
  destruct out as [err|p]; intros [= <-]; [done|]. cbn [app fst snd do_act].
  assert (Hp : p = p_handle q) by (by apply (to_copy_handle s s1 skbs now (frame_reply q k))). subst p.
  by destruct (recv_pull_reply_copy _ _ s1) as [[err s2]|].
Qed.

(** The pull is at block [b] or further; [got] the frames; or it is over. *)
Definition reached (b : Z) (from : Z) (deadline : Z) (s : driver) : Prop :=
  context q s /\
  (finished q ev s [] OMX_EVT_PULL_DONE_SUCCESS \/
   exists h b1 v got, active q ev s [] h b1 v got /\ b <= b1 /\ last_retransmit_jiffies h = deadline /\
     (b1 = b -> forall k, PER g * b <= k < from -> got k = true)).

Lemma reply_reached b k deadline skbs now s : 0 <= b -> PER g * b <= k < last_of g b ->
  reached b k deadline s ->
  exists err s', omx_recv_pull_reply (LEN g) (PER g) (p_hz q) skbs now (frame_reply q k) s = Some (err, s') /\
    reached b (k + 1) deadline s'.
Proof.
  intros Hb Hk [Hcx Hcase]. pose proof (po_geo q Hq) as G. pose proof (per_cases g G) as Hper.
  assert (Hkn : 0 <= k < nframes g) by (unfold last_of in Hk; lia).
  destruct Hcase as [F|(h & b1 & v & got & A & Hb1 & Hdl & Hgot)].
  - (* dropped, there is no slot *)
    pose proof F as [Hlv (slots & id & Hsl & Hslot) Hpend Hev Hsuc].
    unfold omx_recv_pull_reply, recv_pull_reply_locked. cbn [frame_reply rp_data rp_frame_length rp_dst_magic rp_dst_pull_handle].
    pose proof (frame_length_range g G k Hkn) as (Hfl & Hu & Hle).
    rewrite length_slice, Z.ltb_irrefl by (done || lia). rewrite (endpoint_found q s Hq Hcx).
    rewrite (slot_empty q (omx_endpoint_reacquire s) slots id Hq Hsl Hslot). cbn [mbind option_bind]. do 2 eexists.
    split; [reflexivity|]. split; [by apply (context_same q s)|]. left. split; try done; [|by exists slots, id].
    by apply (leaving_same q s).
  - destruct (recv_frame_active q ev s [] h b1 v got k skbs now Hq Hcx A Hkn) as ([s1 pend1] & E1 & [Hcx1 _] & Hnext).
    pose proof (ac_slot _ _ _ _ _ _ _ _ A) as (slots & Hsl & Hslot).
    pose proof (reply_acts s k skbs now (s1, pend1) ltac:(by exists slots, (p_sid q)) E1) as Hacts. cbn [fst snd] in *.
    destruct (decide _) as [[Hin Hnew]|Hold] in Hnext.
    + destruct Hnext as (h1 & b2 & v2 & A1 & -> & Hle & Hd1). cbn [app] in *.
      destruct (copy_active q ev s1 [k] h1 b2 v2 (add_frame k got) k Hq Hcx1 A1 ltac:(by apply list_elem_of_singleton))
        as ([s2 pend2] & E2 & [Hcx2 _] & Hdone). rewrite E2 in Hacts. cbn [mbind option_bind fst snd] in *.
      destruct (omx_recv_pull_reply _ _ _ _ _ _ _) as [[err s']|]; [|done]. cbn [mbind option_bind fst snd] in Hacts.
      injection Hacts as ->. exists err, s2. split; [done|]. split; [done|].
      assert (Hnil : remove_elt k [k] = []) by (rewrite remove_elt_cons_eq; apply remove_elt_notin, not_elem_of_nil).
      rewrite Hnil in Hdone. destruct (decide _) in Hdone.
      * left. destruct (fi_success _ _ _ _ _ Hdone eq_refl) as [Hp _]. cbn [fst snd] in *. by rewrite Hp in Hdone.
      * right. destruct Hdone as (h2 & A2 & -> & Hd2). exists h2, b2, v2, (add_frame k got). split; [done|].
        split; [lia|]. split; [congruence|]. intros -> x Hx. unfold add_frame. destruct (Z.eqb_spec x k); [done|].
        apply Hgot; lia.
    + destruct Hnext as (h1 & A1 & -> & Hd1). destruct (omx_recv_pull_reply _ _ _ _ _ _ _) as [[err s']|]; [|done].
      cbn [mbind option_bind fst snd] in Hacts. injection Hacts as ->. exists err, s1. split; [done|]. split; [done|].
      right. exists h1, b1, v, got. split; [done|]. split; [done|]. split; [congruence|]. intros -> x Hx.
      destruct (Z.eq_dec x k) as [->|]; [|apply Hgot; lia].
      pose proof (rq_tracks _ _ _ _ _ (ac_requesting _ _ _ _ _ _ _ _ A)) as T. destruct (active_block _ _ _ _ _ A) as (_ & Hv0 & _).
      destruct (got k) eqn:Hg; [done|]. exfalso. apply Hold. split; [|done].
      destruct (next_eq g G h b v got T Hv0) as (-> & -> & _). unfold last_of in *. nia.
Qed.
Lemma deliver_reached b deadline skbs now n : forall k s, 0 <= b -> PER g * b <= k -> k + Z.of_nat n <= last_of g b ->
  reached b k deadline s ->
  exists s', deliver (LEN g) (PER g) (p_hz q) skbs now (frame_reply q <$> seqZ k (Z.of_nat n)) s = Some s' /\
    reached b (k + Z.of_nat n) deadline s'.
Proof.
  induction n as [|n IH]; intros k s Hb Hk Hn R; [rewrite Z.add_0_r; by exists s|].
  rewrite seqZ_cons by lia. cbn [fmap list_fmap deliver].
  destruct (reply_reached b k deadline skbs now s) as (err & s1 & -> & R1); [done|lia|done|]. cbn [mbind option_bind].
  destruct (IH (Z.succ k) s1) as (s2 & E & R2); [done|lia|lia|by rewrite <- Z.add_1_r|]. exists s2.
  replace (Z.pred (Z.of_nat (S n))) with (Z.of_nat n) by lia. rewrite E. split; [done|].
  by replace (k + Z.of_nat (S n)) with (Z.succ k + Z.of_nat n) by lia.
Qed.
End reply.

(** ** A round *)

Lemma drop_sent (l l' : list packet) : drop (length l) (l ++ l') = l'.
Proof. by rewrite drop_app_length. Qed.
Lemma replies_in_replies src l : replies_in (Reply src <$> l) = l.
Proof. induction l as [|r l IH]; [done|]. cbn [fmap list_fmap replies_in flat_map app]. f_equal. exact IH. Qed.

Section rounds.
Context (q : pull) (Hq : pull_ok q) (ev : list pull_done) (w : sending) (ra : Z) (l : list (segment * list Z)).
#[local] Notation g := (p_geo q).

(** A round ends the pull, or gets all the frames of its first block. *)
Lemma round_ok s t h b v got now : context q s -> active q ev s [] h b v got -> answers q (sn_src w) ra l t ->
  now <= last_retransmit_jiffies h -> exists s' t', round q w now (s, t) = Some (s', t') /\
  answers q (sn_src w) ra l t' /\
  reached q ev (b + 1) (PER g * (b + 1)) (last_retransmit_jiffies h) s'.
Proof.
  intros Hcx A Ha Hnow. pose proof (po_geo q Hq) as G. pose proof (per_cases g G) as Hper.
  pose proof (rq_tracks _ _ _ _ _ (ac_requesting _ _ _ _ _ _ _ _ A)) as T.
  destruct (active_block q Hq ev _ _ _ _ _ A) as (Hb & Hv0 & Hblt & _).
  destruct (expire_active q ev s [] h b v got yes now Hq Hcx A) as ([s1 p1] & E1 & [Hcx1 _] & Hp1 & Hearly).
  { intros (h' & Hh' & _ & Hz & _). assert (h' = h) as -> by (pose proof (ho_at _ _ _ (ac_handle _ _ _ _ _ _ _ _ A)); congruence).
    rewrite (tr_valid _ _ _ _ _ T) in Hz. lia. }
  destruct (Hearly Hnow) as (h1 & l1 & A1 & Hsent & Hdl & Hreq & _). cbn [fst snd] in *. clear Hearly.
  destruct (Hreq eq_refl) as (l' & ->). clear Hreq. pose proof (ho_hdr _ _ _ (ac_handle _ _ _ _ _ _ _ _ A)) as [Hh Hpeer].
  destruct (request_answered (sn_frags w) (sn_copy_max w) (sn_zlen w) (sn_hdr w) q (sn_src w) ra l Hq (sn_nack w) b t Ha Hb Hblt)
    as (t1 & E2 & Hsent2 & Ha1).
  destruct (block_frames g G b Hb Hblt) as (_ & Hcount & _ & Hlast).
  destruct (deliver_reached q Hq ev b (last_retransmit_jiffies h) yes now (Z.to_nat (last_of g b - PER g * b)) (PER g * b) s1)
    as (s2 & E3 & R); [done|lia|lia| |].
  { split; [done|]. right. exists h1, b, v, got. split; [done|]. split; [lia|]. split; [done|]. intros _ k Hk. lia. }
  rewrite Z2Nat.id, Zplus_minus in * by lia.
  exists s2, t1. split; [|split; [done|]].
  - unfold round. cbn [do_act] in E1. destruct (omx_pull_handle_timeout_handler _ _ _ _ s) as [s1'|]; [|done].
    cbn [mbind option_bind] in E1 |- *. injection E1 as -> _. rewrite Hsent, drop_sent. unfold request_of. rewrite Hpeer.
    change (PullRequest _ _ _ _ _ _ _ _ _ _ _ _) with (PullRequest (rq_dst_endpoint (pkt_hdr h)) (rq_src_endpoint (pkt_hdr h))
      (rq_session (pkt_hdr h)) (rq_total_length (pkt_hdr h)) (rq_pulled_rdma_id (pkt_hdr h)) (rq_pulled_rdma_seqnum (pkt_hdr h))
      (rq_pulled_rdma_offset (pkt_hdr h)) (rq_src_pull_handle (pkt_hdr h)) (rq_src_magic (pkt_hdr h))
      (first_offset_of g b) (block_length_of g b) (PER g * b)). rewrite Hh.
    change (PullRequest _ _ _ _ _ _ _ _ _ _ _ _) with (block_request q b). rewrite E2. cbn [mbind option_bind].
    by rewrite Hsent2, drop_sent, replies_in_replies, E3.
  - destruct R as [Hcx2 [F|(h2 & b2 & v2 & got2 & A2 & Hle & Hd2 & Hgot)]]; (split; [done|]); [by left|right].
    assert (Hb2 : b2 <> b).
    { intros ->. specialize (Hgot eq_refl).
      pose proof (ac_requesting _ _ _ _ _ _ _ _ A2) as R2. pose proof (rq_tracks _ _ _ _ _ R2) as T2.
      destruct (active_block q Hq ev _ _ _ _ _ A2) as (_ & Hv20 & _).
      pose proof (rq_first _ _ _ _ _ R2) as Hfirst. unfold first_missing in Hfirst. rewrite (tr_valid _ _ _ _ _ T2) in Hfirst.
      destruct (missing_spec g h2 b v2 got2 0 T2) as (x & Hx & Hiff); [lia|]. rewrite Hfirst in Hx by lia.
      injection Hx as <-. rewrite Z.add_0_r in Hiff. by apply Hiff in Hgot. }
    exists h2, b2, v2, got2. split; [done|]. split; [lia|]. split; [done|]. intros -> k Hk.
    apply (tr_before _ _ _ _ _ (rq_tracks _ _ _ _ _ (ac_requesting _ _ _ _ _ _ _ _ A2))).
    rewrite (tr_index _ _ _ _ _ (rq_tracks _ _ _ _ _ (ac_requesting _ _ _ _ _ _ _ _ A2))). lia.
Qed.

Lemma rounds_ok nows : forall s t h b v got, context q s -> active q ev s [] h b v got -> answers q (sn_src w) ra l t ->
  Forall (fun now => now <= last_retransmit_jiffies h) nows -> blocks q - b <= Z.of_nat (length nows) ->
  exists n s' t', Z.of_nat n <= blocks q - b /\ rounds q w (take n nows) (s, t) = Some (s', t') /\
    finished q ev s' [] OMX_EVT_PULL_DONE_SUCCESS.
Proof.
  induction nows as [|now nows IH]; intros s t h b v got Hcx A Ha Hnows Hlen;
    destruct (active_block q Hq ev _ _ _ _ _ A) as (_ & _ & _ & Hbl); [cbn [length] in Hlen; lia|].
  apply Forall_cons in Hnows as [Hnow Hnows]. cbn [length] in Hlen.
  destruct (round_ok s t h b v got now Hcx A Ha Hnow) as (s1 & t1 & E1 & Ha1 & Hcx1 & Hcase).
  destruct Hcase as [F|(h1 & b1 & v1 & got1 & A1 & Hb1 & Hd1 & _)].
  - exists 1%nat, s1, t1. split; [lia|]. cbn [take rounds]. rewrite E1. cbn [mbind option_bind]. by rewrite take_0.
  - rewrite <- Hd1 in Hnows. destruct (IH s1 t1 h1 b1 v1 got1 Hcx1 A1 Ha1 Hnows) as (n & s2 & t2 & Hn & E2 & F); [lia|].
    exists (S n), s2, t2. split; [lia|]. cbn [take rounds]. rewrite E1. by split.
Qed.
End rounds.

(** C7. A pull survives losses: whatever was received, copied or lost since it
    was started, without a hazard of C3 (no timer during the last copies, no nack of
    type 0), and once the copies that were started have ended, either its event was
    given (of a success only if the region holds the message), or it completes with
    success, and the region holds the message of the other host, after at most as
    many retransmission rounds as the message has blocks, if they come before the
    deadline.  The other host can answer ([answers]): in particular, of a region of
    several segments the pull does not reach the end, where the driver would read
    behind the table of segments (omx_reg.c:797, :918). *)
Theorem pull_completes_after_losses gup min max q cmd s r junk skbs now w ra l t acts s1 :
  startable q cmd s r -> length junk = 4%nat -> (forall i, skbs i = true) -> answers q (sn_src w) ra l t ->
  (x ← omx_ioctl_pull (LEN (p_geo q)) (PER (p_geo q)) (p_hz q) gup true min max (Some cmd) (Some (p_handle q, junk)) skbs now s;
   if acts_allowedb q acts (snd x, []) then do_acts q acts (snd x, []) else None) = Some (s1, []) ->
  (exists status, d_events s1 = d_events s ++ [PullDone (p_cookie q) (p_rid q) status] /\
     (status = OMX_EVT_PULL_DONE_SUCCESS -> delivered q (d_mem s1))) \/
  exists h, d_events s1 = d_events s /\ d_handles s1 !! p_handle q = Some h /\
    forall nows, Forall (fun now => now <= last_retransmit_jiffies h) nows -> blocks q <= Z.of_nat (length nows) ->
    exists n s2 t2, Z.of_nat n <= blocks q /\ rounds q w (take n nows) (s1, t) = Some (s2, t2) /\
      d_events s2 = d_events s ++ [PullDone (p_cookie q) (p_rid q) OMX_EVT_PULL_DONE_SUCCESS] /\ delivered q (d_mem s2).
Proof.
  intros Hst Hj Hskbs Ha E. pose proof (sa_pull _ _ _ _ Hst) as Hq.
  destruct (pull_started gup min max q cmd s r junk skbs now Hst Hj Hskbs) as (s0 & h0 & v0 & E0 & Hcx0 & A0 & _).
  rewrite E0 in E. cbn [mbind option_bind snd] in E. destruct (acts_allowedb q acts (s0, [])) eqn:Hal; [|done].
  destruct (do_acts_ok q (d_events s) acts (s0, []) Hq) as (st & E1 & Hcx1 & Hcase).
  { split; [done|]. left. by do 4 eexists. }
  { by apply acts_allowedb_sound. }
  rewrite E1 in E. injection E as ->. cbn [fst snd] in *. destruct Hcase as [(h & b & v & got & A)|(status & F)].
  - right. exists h. split; [apply A|]. split; [apply (ac_handle _ _ _ _ _ _ _ _ A)|]. intros nows Hnows Hlen.
    destruct (active_block q Hq _ _ _ _ _ _ A) as (Hb & _).
    destruct (rounds_ok q Hq (d_events s) w ra l nows s1 t h b v got Hcx1 A Ha Hnows) as (n & s2 & t2 & Hn & E2 & F); [lia|].
    exists n, s2, t2. split; [lia|]. split; [done|]. split; [apply (fi_events _ _ _ _ _ F)|].
    apply (fi_success _ _ _ _ _ F eq_refl).
  - left. exists status. split; [apply (fi_events _ _ _ _ _ F)|]. intros Hs. by apply (fi_success _ _ _ _ _ F).
Qed.

(** The second of the two frames of [small_pull] is lost. *)
Definition first_only : list act := [RecvFrame 0 all_skbs 11; CopyFrame 0].
Definition lossy : option (driver * list Z) :=
  x ← small_ioctl; if acts_allowedb small_pull first_only (snd x, []) then do_acts small_pull first_only (snd x, []) else None.
Lemma lossy_outcome : (x ← lossy; h ← d_handles (fst x) !! p_handle small_pull;
    Some (snd x, d_events (fst x), last_retransmit_jiffies h)) = Some ([], [], 1010).
Proof. by vm_compute. Qed.
Lemma pull_completes_after_losses_witness : exists s1 n s2 t2, lossy = Some (s1, []) /\ Z.of_nat n <= 1 /\
  rounds small_pull (Sending 16 0 0 0 true 0xccdd) (take n [111]) (s1, other_driver) = Some (s2, t2) /\
  d_events s2 = [PullDone 77 9 OMX_EVT_PULL_DONE_SUCCESS] /\ delivered small_pull (d_mem s2).
Proof.
  pose proof lossy_outcome as Ho. destruct lossy as [[s1 pend]|] eqn:El; [|done]. cbn [mbind option_bind fst snd] in Ho.
  destruct (d_handles s1 !! p_handle small_pull) as [h|] eqn:Hh; [|done]. cbn [mbind option_bind] in Ho. injection Ho as -> Hev Hdl.
  destruct (pull_completes_after_losses (fun _ _ => (0, [])) 1 1 small_pull small_cmd small_driver small_region small_junk
    all_skbs 10 (Sending 16 0 0 0 true 0xccdd) 600 other_pages other_driver first_only s1 small_startable eq_refl
    (fun _ => eq_refl) other_answers El) as [(status & He & _)|(h' & _ & Hh' & H)]; [by rewrite Hev in He|].
  assert (h' = h) as -> by congruence. destruct (H [111]) as (n & s2 & t2 & Hn & Hrest).
  - repeat constructor. rewrite Hdl. lia.
  - by vm_compute.
  - exists s1, n, s2, t2. split; [done|]. split; [exact Hn|exact Hrest].
Defined.
End PullRounds.
