(* ===== verification/PullSlots.v ===== *)
(** The slots of the pull handles: the table that finds the handle of a reply,
    and the generations that tell a pull from the next one of its slot. *)
From S2P Require Import Prelude Reg RegTable Peer Pull.
Import Reg RegTable Peer Pull.

Module PullSlots.

#[local] Notation INDEX := OMX_PULL_HANDLE_SLOT_INDEX_FROM_ID.
#[local] Notation INC := OMX_PULL_HANDLE_SLOT_ID_INC.
#[local] Notation GENERATIONS := (2 ^ 22).
#[local] Notation SLOTS := 1024.

(** ** Identifiers *)

Definition generation (id : Z) : Z := id mod GENERATIONS.
Lemma index_div id : INDEX id = id / GENERATIONS.
Proof. unfold INDEX. by rewrite Z.shiftr_div_pow2. Qed.
Lemma id_eq id : id = INDEX id * GENERATIONS + generation id.
Proof. rewrite index_div. unfold generation. pose proof (Z.div_mod id GENERATIONS). lia. Qed.
Lemma generation_range id : 0 <= generation id < GENERATIONS.
Proof. by apply Z.mod_pos_bound. Qed.
Lemma index_range id : 0 <= id < 2 ^ 32 -> 0 <= INDEX id < SLOTS.
Proof. intros H. rewrite index_div. split; [apply Z.div_pos; lia|apply Z.div_lt_upper_bound; lia]. Qed.
Lemma id_parts i g : 0 <= g < GENERATIONS ->
  INDEX (i * GENERATIONS + g) = i /\ generation (i * GENERATIONS + g) = g.
Proof.
  intros H. rewrite index_div. unfold generation. rewrite (Z.add_comm (i * _)).
  rewrite Z.div_add, Z.mod_add, Z.div_small, Z.mod_small by lia. lia.
Qed.
Lemma index_mask id : 0 <= id < 2 ^ 32 -> Z.land id OMX_PULL_HANDLE_SLOT_INDEX_MASK = INDEX id * GENERATIONS.
Proof.
  intros H. change OMX_PULL_HANDLE_SLOT_INDEX_MASK with (Z.shiftl (Z.ones 10) 22).
  rewrite <- Z.shiftl_mul_pow2 by done. apply Z.bits_inj'. intros n Hn. rewrite Z.land_spec, !Z.shiftl_spec by done.
  unfold INDEX. change OMX_PULL_HANDLE_SLOT_GENERATION_BITS with 22.
  destruct (Z.lt_ge_cases n 22); [rewrite !(Z.testbit_neg_r _ (n - 22)) by lia; apply andb_false_r|].
  rewrite Z.shiftr_spec, Z.sub_add by lia. rewrite Z.testbit_ones_nonneg by lia.
  destruct (Z.ltb_spec (n - 22) 10); [apply andb_true_r|]. rewrite andb_false_r. symmetry.
  rewrite <- (Z.mod_small id (2 ^ 32)) by done. apply Z.mod_pow2_bits_high. lia.
Qed.
Lemma inc_eq id : 0 <= id < 2 ^ 32 -> INC id = INDEX id * GENERATIONS + (generation id + 1) mod GENERATIONS.
Proof.
  intros H. unfold INC. rewrite index_mask by done. change OMX_PULL_HANDLE_SLOT_GENERATION_MASK with (Z.ones 22).
  rewrite land_mask by done. assert (Hm : u32 (id + 1) mod GENERATIONS = (generation id + 1) mod GENERATIONS).
  { unfold generation, u32. rewrite Z.add_mod_idemp_l by done.
    symmetry. apply Znumtheory.Zmod_div_mod; [done|done|by exists SLOTS]. }
  rewrite Hm. set (g := (generation id + 1) mod GENERATIONS). assert (Hg : 0 <= g < GENERATIONS) by by apply Z.mod_pos_bound.
  symmetry. apply Z.add_nocarry_lor. apply Z.bits_inj'. intros n Hn. rewrite Z.land_spec, Z.bits_0.
  destruct (Z.lt_ge_cases n 22).
  - by rewrite Z.mul_pow2_bits_low.
  - rewrite <- (Z.mod_small g GENERATIONS) by done. rewrite Z.mod_pow2_bits_high by lia. apply andb_false_r.
Qed.
Lemma inc_range id : 0 <= id < 2 ^ 32 -> 0 <= INC id < 2 ^ 32 /\ INDEX (INC id) = INDEX id /\
  generation (INC id) = (generation id + 1) mod GENERATIONS.
Proof.
  intros H. rewrite inc_eq by done. pose proof (index_range id H).
  pose proof (Z.mod_pos_bound (generation id + 1) GENERATIONS eq_refl). split; [lia|]. by apply id_parts.
Qed.
Lemma first_range i : 0 <= i < SLOTS -> 0 <= OMX_PULL_HANDLE_SLOT_ID_FIRST i < 2 ^ 32 /\ INDEX (OMX_PULL_HANDLE_SLOT_ID_FIRST i) = i.
Proof.
  intros H. assert (E : OMX_PULL_HANDLE_SLOT_ID_FIRST i = i * GENERATIONS + 35).
  { unfold OMX_PULL_HANDLE_SLOT_ID_FIRST. change (Z.land _ _) with 35. change OMX_PULL_HANDLE_SLOT_GENERATION_BITS with 22.
    rewrite Z.shiftl_mul_pow2 by done. unfold u32. rewrite Z.mod_small; lia. }
  rewrite E. split; [lia|]. by apply id_parts.
Qed.

(** ** Pulls that start and end *)

(** A handle takes a slot, at address [p]; a handle leaves its slot.  The map
    has the live identifiers, with the addresses of their handles. *)
Inductive slot_act := TakeSlot (p : Z) (h : handle) | LeaveSlot (h : handle).
#[local] Notation state := (driver * gmap Z Z)%type.
Definition do_slot_act (a : slot_act) (st : state) : option state :=
  let '(s, live) := st in
  match a with
  | TakeSlot p h =>
      '(ret, s) ← omx_pull_handle_alloc_slot p h s;
      Some (s, match ret with inl _ => live | inr h => <[slot_id h := p]> live end)
  | LeaveSlot h => s ← omx_pull_handle_free_slot h s; Some (s, delete (slot_id h) live)
  end.
(** Only a handle that has a slot leaves it. *)
Definition slot_act_allowed (a : slot_act) (st : state) : Prop :=
  match a with TakeSlot _ _ => True | LeaveSlot h => is_Some (snd st !! slot_id h) end.
Fixpoint do_slot_acts (l : list slot_act) (st : state) : option state :=
  match l with [] => Some st | a :: l => st ← do_slot_act a st; do_slot_acts l st end.
Fixpoint slot_acts_allowed (l : list slot_act) (st : state) : Prop :=
  match l with
  | [] => True
  | a :: l => slot_act_allowed a st /\ match do_slot_act a st with Some st => slot_acts_allowed l st | None => True end
  end.

Record slots_ok (st : state) (slots : list slot) : Prop := {
  so_array : pull_handle_slots_array (fst st) = Some slots;
  so_length : Z.of_nat (length slots) = SLOTS;
  so_ids : forall i sl, slots !! i = Some sl -> 0 <= sl_id sl < 2 ^ 32 /\ INDEX (sl_id sl) = Z.of_nat i;
  so_nodup : NoDup (pull_handle_slots_free_list (fst st));
  so_free : forall i, i ∈ pull_handle_slots_free_list (fst st) <->
    0 <= i /\ exists id, slots !! Z.to_nat i = Some (Slot None id);
  so_live : forall id p, snd st !! id = Some p <-> 0 <= id /\ slots !! Z.to_nat (INDEX id) = Some (Slot (Some p) id);
  so_count : Z.of_nat (size (snd st)) + Z.of_nat (length (pull_handle_slots_free_list (fst st))) = SLOTS
}.

Lemma init_slots s : exists slots, slots_ok (snd (omx_endpoint_pull_handles_init true s), ∅) slots.
Proof.
  unfold omx_endpoint_pull_handles_init, omx_pull_handle_slots_init. cbn [negb snd]. change OMX_PULL_HANDLE_SLOT_INDEX_MAX with SLOTS.
  set (ids := seqZ 0 SLOTS). exists ((fun i => Slot None (OMX_PULL_HANDLE_SLOT_ID_FIRST i)) <$> ids).
  assert (Hids : forall i, ids !! i = if decide (Z.of_nat i < SLOTS) then Some (Z.of_nat i) else None).
  { intros i. unfold ids. destruct (decide _); [apply lookup_seqZ; lia|apply lookup_seqZ_ge; lia]. }
  assert (Hlook : forall i sl, ((fun i => Slot None (OMX_PULL_HANDLE_SLOT_ID_FIRST i)) <$> ids) !! i = Some sl ->
    Z.of_nat i < SLOTS /\ sl = Slot None (OMX_PULL_HANDLE_SLOT_ID_FIRST (Z.of_nat i))).
  { intros i sl. rewrite list_lookup_fmap, Hids. destruct (decide _); [|done]. intros [= <-]. by split. }
  split; cbn [fst snd].
  - done.
  - by rewrite length_fmap.
  - intros i sl Hi. apply Hlook in Hi as [Hi ->]. cbn [sl_id]. apply first_range. lia.
  - apply NoDup_seqZ.
  - intros i. change (pull_handle_slots_free_list _) with ids. unfold ids. rewrite elem_of_seqZ. split.
    + intros Hi. split; [lia|]. exists (OMX_PULL_HANDLE_SLOT_ID_FIRST i). rewrite list_lookup_fmap, Hids.
      rewrite decide_True, Z2Nat.id by lia. done.
    + intros [H0 [id Hi]]. apply Hlook in Hi as [Hi _]. lia.
  - intros id p. rewrite lookup_empty. split; [done|]. intros [_ Hi]. by apply Hlook in Hi as [_ Hi].
  - rewrite map_size_empty. by change (pull_handle_slots_free_list _) with ids.
Qed.

Lemma take_slot_ok p h s live slots : slots_ok (s, live) slots ->
  match pull_handle_slots_free_list s with
  | [] => omx_pull_handle_alloc_slot p h s = Some (inl ENOMEM, s) /\ Z.of_nat (size live) = SLOTS
  | i :: _ => exists id s', omx_pull_handle_alloc_slot p h s = Some (inr (h <| slot_id := id |>), s') /\
      live !! id = None /\ Z.of_nat (size live) < SLOTS /\ slots !! Z.to_nat i = Some (Slot None id) /\
      slots_ok (s', <[id := p]> live) (<[Z.to_nat i := Slot (Some p) id]> slots)
  end.
Proof.
  intros [Ha Hlen Hids Hnd Hfree Hlive Hcount]. cbn [fst snd] in *. unfold omx_pull_handle_alloc_slot.
  rewrite Ha. cbn [mbind option_bind]. destruct (pull_handle_slots_free_list s) as [|i free] eqn:Hf.
  - split; [done|]. cbn [length] in Hcount. lia.
  - destruct (proj1 (Hfree i)) as (Hi0 & id & Hi); [apply elem_of_cons; by left|]. rewrite Hi. cbn [mbind option_bind sl_id].
    destruct (Hids _ _ Hi) as [Hid Hidx]. cbn [sl_id] in *. rewrite Z2Nat.id in Hidx by done.
    assert (Hnone : live !! id = None).
    { destruct (live !! id) as [p'|] eqn:E; [|done]. apply Hlive in E as [_ E]. rewrite Hidx, Hi in E. done. }
    do 2 eexists. split; [reflexivity|]. split; [done|]. cbn [length] in Hcount. split; [lia|]. split; [done|].
    pose proof (lookup_lt_Some _ _ _ Hi) as Hlt. apply NoDup_cons in Hnd as [Hni Hnd].
    split; cbn [fst snd]; fsimp.
    + done.
    + by rewrite length_insert.
    + intros j sl Hj. destruct (Nat.eq_dec j (Z.to_nat i)) as [->|Hne].
      * rewrite list_lookup_insert_eq in Hj by done. injection Hj as <-. cbn [sl_id]. split; [done|]. lia.
      * rewrite list_lookup_insert_ne in Hj by done. by apply Hids.
    + done.
    + intros j. split.
      * intros Hj. destruct (proj1 (Hfree j)) as (Hj0 & idj & Hsj); [apply elem_of_cons; by right|]. split; [done|].
        exists idj. rewrite list_lookup_insert_ne; [done|]. intros He. apply Hni. by replace i with j by lia.
      * intros (Hj0 & idj & Hsj). destruct (Nat.eq_dec (Z.to_nat j) (Z.to_nat i)) as [He|Hne].
        { rewrite He, list_lookup_insert_eq in Hsj by done. done. }
        rewrite list_lookup_insert_ne in Hsj by done.
        assert (Hin : j ∈ i :: free) by (apply Hfree; by eauto). apply elem_of_cons in Hin as [->|]; [lia|done].
    + intros id' p'. destruct (decide (id' = id)) as [->|Hne].
      * rewrite lookup_insert_eq, Hidx, list_lookup_insert_eq by done. split; [intros [= ->]; split; [lia|done]|by intros [_ [= ->]]].
      * rewrite lookup_insert_ne by done. rewrite Hlive. destruct (Nat.eq_dec (Z.to_nat (INDEX id')) (Z.to_nat i)) as [He|Hni'].
        { rewrite He, list_lookup_insert_eq, Hi by done. split; [by intros [_ ?]|intros [_ H]; congruence]. }
        by rewrite list_lookup_insert_ne by done.
    + rewrite map_size_insert_None by done. lia.
Qed.

Lemma leave_slot_ok h s live slots : slots_ok (s, live) slots -> is_Some (live !! slot_id h) ->
  exists s', omx_pull_handle_free_slot h s = Some s' /\
    slots_ok (s', delete (slot_id h) live) (<[Z.to_nat (INDEX (slot_id h)) := Slot None (INC (slot_id h))]> slots).
Proof.
  intros [Ha Hlen Hids Hnd Hfree Hlive Hcount] [p Hp]. cbn [fst snd] in *. set (id := slot_id h) in *.
  pose proof Hp as Hpl. apply Hlive in Hp as [Hid0 Hi]. destruct (Hids _ _ Hi) as [Hid _]. cbn [sl_id] in Hid.
  pose proof (index_range id Hid) as Hidx. destruct (inc_range id Hid) as (Hinc & Hidx' & _).
  unfold omx_pull_handle_free_slot. rewrite Ha. cbn [mbind option_bind]. fold id. rewrite Hi. cbn [mbind option_bind sl_id].
  eexists. split; [reflexivity|]. pose proof (lookup_lt_Some _ _ _ Hi) as Hlt.
  assert (Hni : INDEX id ∉ pull_handle_slots_free_list s). { intros Hin. apply Hfree in Hin as (_ & id' & Hin). congruence. }
  split; cbn [fst snd]; fsimp.
  - done.
  - by rewrite length_insert.
  - intros j sl Hj. destruct (Nat.eq_dec j (Z.to_nat (INDEX id))) as [->|Hne].
    + rewrite list_lookup_insert_eq in Hj by done. injection Hj as <-. cbn [sl_id]. split; [done|]. lia.
    + rewrite list_lookup_insert_ne in Hj by done. by apply Hids.
  - apply NoDup_app. split; [done|]. split; [|apply NoDup_singleton]. by intros x Hx ->%list_elem_of_singleton.
  - intros j. rewrite elem_of_app, list_elem_of_singleton. destruct (Z.eq_dec j (INDEX id)) as [->|Hne].
    + rewrite list_lookup_insert_eq by done. split; [intros _; split; [lia|by eexists]|by right].
    + rewrite Hfree. split.
      * intros [(Hj0 & Hj)| ->]; [|done]. split; [done|]. by rewrite list_lookup_insert_ne by lia.
      * intros (Hj0 & Hj). left. split; [done|]. by rewrite list_lookup_insert_ne in Hj by lia.
  - intros id' p'. destruct (decide (id' = id)) as [->|Hne].
    + rewrite lookup_delete_eq, list_lookup_insert_eq by done. split; [done|by intros [_ ?]].
    + rewrite lookup_delete_ne by done. rewrite Hlive.
      destruct (Nat.eq_dec (Z.to_nat (INDEX id')) (Z.to_nat (INDEX id))) as [He|Hn].
      { rewrite He, list_lookup_insert_eq, Hi by done. split; intros [_ H]; congruence. }
      by rewrite list_lookup_insert_ne by done.
  - rewrite map_size_delete_Some by (by eexists). rewrite length_app. cbn [length].
    assert (size live <> 0%nat) by (intros Hz; apply map_size_empty_inv in Hz; rewrite Hz, lookup_empty in Hpl; done). lia.
Qed.

Lemma slot_act_ok a st slots : slots_ok st slots -> slot_act_allowed a st ->
  exists st' slots', do_slot_act a st = Some st' /\ slots_ok st' slots'.
Proof.
  intros Hok Ha. destruct st as [s live], a as [p h|h]; cbn [do_slot_act slot_act_allowed snd] in *.
  - pose proof (take_slot_ok p h s live slots Hok) as H. destruct (pull_handle_slots_free_list s) as [|i free].
    + destruct H as [-> _]. cbn [mbind option_bind]. by do 2 eexists.
    + destruct H as (id & s' & -> & _ & _ & _ & H). cbn [mbind option_bind]. by do 2 eexists.
  - destruct (leave_slot_ok h s live slots Hok Ha) as (s' & -> & H). cbn [mbind option_bind]. by do 2 eexists.
Qed.
Lemma slot_acts_ok l : forall st slots, slots_ok st slots -> slot_acts_allowed l st ->
  exists st' slots', do_slot_acts l st = Some st' /\ slots_ok st' slots'.
Proof.
  induction l as [|a l IH]; intros st slots Hok Ha; [by exists st, slots|]. cbn [do_slot_acts slot_acts_allowed] in *.
  destruct Ha as [Ha Hl]. destruct (slot_act_ok a st slots Hok Ha) as (st' & slots' & E & Hok'). rewrite E in *.
  cbn [mbind option_bind]. by apply (IH st' slots').
Qed.
Lemma acquire_ok id st slots : slots_ok st slots -> 0 <= id < 2 ^ 32 ->
  omx_pull_handle_acquire_from_slot id (fst st) =
  match snd st !! id with
  | Some p => s ← omx_pull_handle_acquire p (fst st); Some (Some p, s)
  | None => Some (None, fst st)
  end.
Proof.
  intros [Ha Hlen Hids Hnd Hfree Hlive Hcount] Hid. pose proof (index_range id Hid) as Hidx.
  unfold omx_pull_handle_acquire_from_slot. rewrite Ha. cbn [mbind option_bind].
  change OMX_PULL_HANDLE_SLOT_INDEX_MAX with SLOTS. rewrite (proj2 (Z.leb_gt _ _)) by lia.
  destruct (lookup_lt_is_Some_2 slots (Z.to_nat (INDEX id))) as [[q idq] Hq]; [lia|]. rewrite Hq. cbn [mbind option_bind sl_handle sl_id].
  destruct (snd st !! id) as [p|] eqn:Hp.
  - apply Hlive in Hp as [_ Hp]. rewrite Hq in Hp. injection Hp as -> ->. by rewrite Z.eqb_refl.
  - destruct q as [p|]; [|done]. destruct (Z.eqb_spec id idq) as [<-|]; [|done]. exfalso.
    assert (H : snd st !! id = Some p) by (apply Hlive; split; [lia|done]). congruence.
Qed.

(** C34. The slots find exactly the pulls that are not over: after any starts
    and ends of pulls, an identifier in a packet gives the handle that took a
    slot under it and did not leave it, or nothing; a pull gets an identifier
    that no other has, and is refused only when 1024 pulls are live. *)
Theorem slots_find_live_pulls s l : let init := snd (omx_endpoint_pull_handles_init true s) in
  slot_acts_allowed l (init, ∅) -> exists s' live, do_slot_acts l (init, ∅) = Some (s', live) /\
  (forall id, 0 <= id < 2 ^ 32 -> omx_pull_handle_acquire_from_slot id s' =
     match live !! id with
     | Some p => s'' ← omx_pull_handle_acquire p s'; Some (Some p, s'')
     | None => Some (None, s')
     end) /\
  forall p h, match omx_pull_handle_alloc_slot p h s' with
              | Some (inr h', _) => h' = h <| slot_id := slot_id h' |> /\ live !! slot_id h' = None /\ Z.of_nat (size live) < SLOTS
              | Some (inl err, s'') => err = ENOMEM /\ s'' = s' /\ Z.of_nat (size live) = SLOTS
              | None => False
              end.
Proof.
  intros init Hal. destruct (init_slots s) as [slots Hok]. destruct (slot_acts_ok l _ slots Hok Hal) as ([s' live] & slots' & E & Hok').
  exists s', live. split; [done|]. split; [intros id; apply (acquire_ok id (s', live) slots' Hok')|].
  intros p h. pose proof (take_slot_ok p h s' live slots' Hok') as H. destruct (pull_handle_slots_free_list s').
  - by destruct H as [-> H].
  - by destruct H as (id & s'' & -> & Hn & Hc & _).
Qed.

Definition sample_driver : driver :=
  Driver (Peers ∅ 16 (fun _ => []) (fun _ => 0)) 32 2 true 555 1 (Regions ∅ ∅ [] [] []) None [] [] ∅ [] [] (fun _ => 0).
Definition sample_handle (id : Z) : handle :=
  Handle 1 id None 0 0 0 0 STATUS_OK 0 0 0 0 0 0 0 [] 0 (PullDone 0 0 0) 0 0 (PullRequest 0 0 0 0 0 0 0 0 0 0 0 0).
(** Two pulls start, the first one ends, a third one starts. *)
Definition sample_acts : list slot_act :=
  [TakeSlot 100 (sample_handle 0); TakeSlot 200 (sample_handle 0); LeaveSlot (sample_handle 0x23); TakeSlot 300 (sample_handle 0)].
Lemma sample_allowed : slot_acts_allowed sample_acts (snd (omx_endpoint_pull_handles_init true sample_driver), ∅).
Proof. cbn [sample_acts slot_acts_allowed slot_act_allowed]. split; [done|]. split; [done|]. split; [by eexists|]. done. Qed.
Lemma slots_find_live_pulls_witness : exists s' live,
  do_slot_acts sample_acts (snd (omx_endpoint_pull_handles_init true sample_driver), ∅) = Some (s', live) /\
  omx_pull_handle_acquire_from_slot 0x23 s' =
    match live !! 0x23 with Some p => s'' ← omx_pull_handle_acquire p s'; Some (Some p, s'') | None => Some (None, s') end.
Proof.
  destruct (slots_find_live_pulls sample_driver sample_acts sample_allowed) as (s' & live & E & H & _).
  exists s', live. split; [exact E|]. apply H. lia.
Defined.

(** ** Generations *)

(** The generation of a slot advances by one each time a pull leaves it. *)
Lemma generation_step a st slots i sl : slots_ok st slots -> slot_act_allowed a st -> slots !! i = Some sl ->
  exists st' slots' sl', do_slot_act a st = Some st' /\ slots_ok st' slots' /\ slots' !! i = Some sl' /\
    exists m, 0 <= m <= 1 /\ generation (sl_id sl') = (generation (sl_id sl) + m) mod GENERATIONS.
Proof.
  intros Hok Ha Hi. destruct st as [s live], a as [p h|h]; cbn [do_slot_act slot_act_allowed snd] in *.
  - pose proof (take_slot_ok p h s live slots Hok) as H. destruct (pull_handle_slots_free_list s) as [|j free].
    + destruct H as [-> _]. cbn [mbind option_bind]. eexists _, slots, sl. split; [reflexivity|]. split; [done|]. split; [done|].
      exists 0. split; [lia|]. rewrite Z.add_0_r. symmetry. apply Z.mod_small, generation_range.
    + destruct H as (id & s' & -> & _ & _ & Hj & H). cbn [mbind option_bind].
      destruct (Nat.eq_dec i (Z.to_nat j)) as [->|Hne].
      * eexists _, _, _. split; [reflexivity|]. split; [exact H|]. split; [apply list_lookup_insert_eq; by eapply lookup_lt_Some|].
        rewrite Hj in Hi. injection Hi as <-. cbn [sl_id]. exists 0. split; [lia|]. rewrite Z.add_0_r. symmetry.
        apply Z.mod_small, generation_range.
      * eexists _, _, sl. split; [reflexivity|]. split; [exact H|]. split; [by rewrite list_lookup_insert_ne by done|].
        exists 0. split; [lia|]. rewrite Z.add_0_r. symmetry. apply Z.mod_small, generation_range.
  - destruct (leave_slot_ok h s live slots Hok Ha) as (s' & -> & H). cbn [mbind option_bind].
    destruct Ha as [p Hp]. apply (so_live _ _ Hok) in Hp as [_ Hp].
    destruct (Nat.eq_dec i (Z.to_nat (INDEX (slot_id h)))) as [->|Hne].
    + rewrite Hp in Hi. injection Hi as <-. cbn [sl_id]. eexists _, _, _. split; [reflexivity|]. split; [exact H|].
      split; [apply list_lookup_insert_eq; by eapply lookup_lt_Some|]. exists 1. split; [lia|]. cbn [sl_id].
      destruct (so_ids _ _ Hok _ _ Hp) as [Hid _]. apply (inc_range _ Hid).
    + eexists _, _, sl. split; [reflexivity|]. split; [exact H|]. split; [by rewrite list_lookup_insert_ne by done|].
      exists 0. split; [lia|]. rewrite Z.add_0_r. symmetry. apply Z.mod_small, generation_range.
Qed.
Lemma generation_acts l : forall st slots i sl, slots_ok st slots -> slot_acts_allowed l st -> slots !! i = Some sl ->
  exists st' slots' sl', do_slot_acts l st = Some st' /\ slots_ok st' slots' /\ slots' !! i = Some sl' /\
    exists m, 0 <= m <= Z.of_nat (length l) /\ generation (sl_id sl') = (generation (sl_id sl) + m) mod GENERATIONS.
Proof.
  induction l as [|a l IH]; intros st slots i sl Hok Ha Hi.
  - exists st, slots, sl. split; [done|]. split; [done|]. split; [done|]. exists 0. split; [cbn; lia|]. rewrite Z.add_0_r. symmetry.
    apply Z.mod_small, generation_range.
  - cbn [slot_acts_allowed do_slot_acts] in *. destruct Ha as [Ha Hl].
    destruct (generation_step a st slots i sl Hok Ha Hi) as (st1 & slots1 & sl1 & E & Hok1 & Hi1 & m1 & Hm1 & Hg1).
    rewrite E in *. cbn [mbind option_bind].
    destruct (IH st1 slots1 i sl1 Hok1 Hl Hi1) as (st2 & slots2 & sl2 & E2 & Hok2 & Hi2 & m2 & Hm2 & Hg2).
    exists st2, slots2, sl2. split; [done|]. split; [done|]. split; [done|]. exists (m1 + m2). cbn [length]. split; [lia|].
    rewrite Hg2, Hg1, Z.add_mod_idemp_l by done. f_equal. lia.
Qed.
Lemma slot_acts_app l1 l2 st : do_slot_acts (l1 ++ l2) st = (st ← do_slot_acts l1 st; do_slot_acts l2 st).
Proof. revert st. induction l1 as [|a l1 IH]; intros st; [done|]. cbn. destruct (do_slot_act a st); [apply IH|done]. Qed.
Lemma slot_acts_allowed_app l1 l2 st : slot_acts_allowed (l1 ++ l2) st -> slot_acts_allowed l1 st /\
  forall st', do_slot_acts l1 st = Some st' -> slot_acts_allowed l2 st'.
Proof.
  revert st. induction l1 as [|a l1 IH]; intros st; cbn; [intros H; split; [done|by intros st' [= <-]]|].
  intros [Ha Hl]. destruct (do_slot_act a st) as [st1|]; [|done]. apply IH in Hl as [H1 H2]. done.
Qed.

(** C33. A packet of an old pull is not taken for one of a new pull: once a
    handle left its slot, its identifier gives nothing as long as fewer than
    2^22 - 1 pulls started or ended since, wherever the generations wrap. *)
Theorem stale_slot_ids_rejected s before h after : let init := snd (omx_endpoint_pull_handles_init true s) in
  slot_acts_allowed (before ++ LeaveSlot h :: after) (init, ∅) -> Z.of_nat (length after) < GENERATIONS - 1 ->
  exists s' live, do_slot_acts (before ++ LeaveSlot h :: after) (init, ∅) = Some (s', live) /\
    omx_pull_handle_acquire_from_slot (slot_id h) s' = Some (None, s').
Proof.
  intros init. subst init. intros Hal Hlen. destruct (init_slots s) as [slots Hok]. apply slot_acts_allowed_app in Hal as [Hal1 Hal2].
  destruct (slot_acts_ok before _ slots Hok Hal1) as ([s1 live1] & slots1 & E1 & Hok1). specialize (Hal2 _ E1).
  cbn [slot_acts_allowed slot_act_allowed snd do_slot_act] in Hal2. destruct Hal2 as [Hlive Hal2].
  destruct (leave_slot_ok h s1 live1 slots1 Hok1 Hlive) as (s2 & E2 & Hok2). rewrite E2 in Hal2. cbn [mbind option_bind] in Hal2.
  pose proof Hlive as [p Hp]. apply (so_live _ _ Hok1) in Hp as [_ Hp]. destruct (so_ids _ _ Hok1 _ _ Hp) as [Hid _].
  cbn [sl_id] in Hid. set (id := slot_id h) in *.
  destruct (generation_acts after (s2, delete id live1) _ (Z.to_nat (INDEX id)) (Slot None (INC id)) Hok2 Hal2)
    as ([s3 live3] & slots3 & [q3 id3] & E3 & Hok3 & Hi3 & m & Hm & Hg); [apply list_lookup_insert_eq; by eapply lookup_lt_Some|].
  exists s3, live3. rewrite slot_acts_app, E1. cbn [mbind option_bind do_slot_acts do_slot_act]. fold id. rewrite E2.
  cbn [mbind option_bind]. split; [done|]. pose proof (acquire_ok id (s3, live3) slots3 Hok3 Hid) as Hacq. cbn [fst snd] in Hacq.
  rewrite Hacq. destruct (live3 !! id) as [p'|] eqn:Hp'; [|done]. exfalso. apply (so_live _ _ Hok3) in Hp' as [_ Hp'].
  rewrite Hi3 in Hp'. injection Hp' as -> ->. cbn [sl_id] in Hg. destruct (inc_range id Hid) as (_ & _ & Hgi).
  rewrite Hgi, Z.add_mod_idemp_l in Hg by done. pose proof (generation_range id) as Hgr.
  pose proof (Z.div_mod (generation id + 1 + m) GENERATIONS ltac:(done)) as Hdm. rewrite <- Hg in Hdm.
  assert (0 < (generation id + 1 + m) / GENERATIONS < 1) by nia. lia.
Qed.
Lemma stale_slot_ids_rejected_witness : exists s' live,
  do_slot_acts sample_acts (snd (omx_endpoint_pull_handles_init true sample_driver), ∅) = Some (s', live) /\
  omx_pull_handle_acquire_from_slot 0x23 s' = Some (None, s').
Proof.
  exact (stale_slot_ids_rejected sample_driver [TakeSlot 100 (sample_handle 0); TakeSlot 200 (sample_handle 0)]
    (sample_handle 0x23) [TakeSlot 300 (sample_handle 0)] sample_allowed eq_refl).
Defined.
End PullSlots.
