(* ===== verification/Wire.v ===== *)
(** Packets as bytes ([common/omx_wire.h], [driver/linux/omx_wire_access.h]):
    the fields of the headers, their byte order, and the table of the headers'
    lengths.  The host is little-endian. *)
From S2P Require Import Prelude.

Module Wire.

(** ** Integers in memory *)

Fixpoint le_bytes (n : nat) (v : Z) : list Z :=
  match n with O => [] | S n => v mod 256 :: le_bytes n (v / 256) end.
Fixpoint of_le (l : list Z) : Z := match l with [] => 0 | b :: l => b + 256 * of_le l end.
Definition width (n : nat) : Z := 256 ^ Z.of_nat n.
Definition byte_ok (b : Z) : Prop := 0 <= b < 256.

Lemma length_le_bytes n : forall v, length (le_bytes n v) = n.
Proof. induction n as [|n IH]; intros v; [done|]. cbn. by rewrite IH. Qed.
Lemma width_S n : width (S n) = 256 * width n.
Proof. unfold width. rewrite Nat2Z.inj_succ, Z.pow_succ_r by lia. lia. Qed.
Lemma width_pos n : 0 < width n.
Proof. apply Z.pow_pos_nonneg; lia. Qed.
Lemma le_bytes_ok n : forall v, Forall byte_ok (le_bytes n v).
Proof. induction n as [|n IH]; intros v; constructor; [by apply Z.mod_pos_bound|apply IH]. Qed.
Lemma of_le_bytes n : forall v, of_le (le_bytes n v) = v mod width n.
Proof.
  induction n as [|n IH]; intros v; [by rewrite Z.mod_1_r|]. cbn [le_bytes of_le].
  rewrite IH, width_S, Z.rem_mul_r by (pose proof (width_pos n); lia). done.
Qed.
Lemma le_bytes_of l : Forall byte_ok l -> le_bytes (length l) (of_le l) = l.
Proof.
  induction 1 as [|b l Hb Hl IH]; [done|]. unfold byte_ok in Hb. cbn [length of_le le_bytes].
  rewrite (Z.mul_comm 256), Z.mod_add, Z.div_add, Z.mod_small, Z.div_small by lia. by rewrite Z.add_0_l, IH.
Qed.

(** ** Byte order *)

(** [htons] and [htonl] of an integer of [n] bytes. *)
Definition bswap (n : nat) (v : Z) : Z := of_le (rev (le_bytes n v)).
Lemma le_bytes_bswap n v : le_bytes n (bswap n v) = rev (le_bytes n v).
Proof.
  unfold bswap. rewrite <- (length_le_bytes n v) at 1. rewrite <- length_rev. apply le_bytes_of.
  apply Forall_rev, le_bytes_ok.
Qed.

(** Whether the driver was configured for hosts of different byte orders. *)
Class ByteOrder := OMX_ENDIAN_COMPAT : bool.

Section order.
Context {order : ByteOrder}.
(* [driver/linux/omx_wire_access.h:22-36] OMX__HTON_16 *)
Definition OMX_HTON (n : nat) (field : Z) : Z :=
  if OMX_ENDIAN_COMPAT then bswap n field else field mod width n.
(* [driver/linux/omx_wire_access.h:22-36] OMX__NTOH_16 *)
Definition OMX_NTOH (n : nat) (pkt_field : Z) : Z :=
  if OMX_ENDIAN_COMPAT then bswap n pkt_field else pkt_field mod width n.
Lemma ntoh_hton n v : OMX_NTOH n (OMX_HTON n v) = v mod width n.
Proof.
  unfold OMX_NTOH, OMX_HTON. destruct OMX_ENDIAN_COMPAT.
  - unfold bswap at 1. by rewrite le_bytes_bswap, rev_involutive, of_le_bytes.
  - pose proof (width_pos n). by rewrite Z.mod_mod by lia.
Qed.
Lemma ntoh_mod n v : OMX_NTOH n (v mod width n) = OMX_NTOH n v.
Proof.
  unfold OMX_NTOH. pose proof (width_pos n). destruct OMX_ENDIAN_COMPAT; [|by rewrite Z.mod_mod by lia].
  unfold bswap. rewrite <- of_le_bytes. rewrite <- (length_le_bytes n v) at 1. by rewrite le_bytes_of by apply le_bytes_ok.
Qed.

(** ** Fields

    A field is its offset in the packet and its size in bytes. *)
Record field := Field { f_off : nat; f_size : nat }.
#[local] Notation packet := (list Z).
Definition put_bytes (off : nat) (l : list Z) (p : packet) : packet := list_inserts off l p.
(** [OMX_HTON_8], [OMX_HTON_16] and [OMX_HTON_32]. *)
(* [driver/linux/omx_wire_access.h:38-51] OMX_HTON_16 *)
Definition put_field (f : field) (v : Z) (p : packet) : packet :=
  put_bytes (f_off f) (le_bytes (f_size f) (OMX_HTON (f_size f) v)) p.
(** The field of a header of which only [p] is there. *)
(* [driver/linux/omx_wire_access.h:53-66] OMX_NTOH_16 *)
Definition get_field (f : field) (p : packet) : option Z :=
  if Nat.leb (f_off f + f_size f) (length p)
  then Some (OMX_NTOH (f_size f) (of_le (take (f_size f) (drop (f_off f) p)))) else None.
(** Assignments in sequence. *)
Definition fill (l : list (field * Z)) (p : packet) : packet := fold_left (fun p x => put_field (fst x) (snd x) p) l p.

Lemma fill_cons f v l p : fill ((f, v) :: l) p = fill l (put_field f v p).
Proof. done. Qed.
Lemma length_put_field f v p : length (put_field f v p) = length p.
Proof. apply length_inserts. Qed.
Lemma length_fill l : forall p, length (fill l p) = length p.
Proof. induction l as [|[f v] l IH]; intros p; [done|]. by rewrite fill_cons, IH, length_put_field. Qed.

Definition disjoint_fields (f g : field) : bool :=
  Nat.leb (f_off f + f_size f) (f_off g) || Nat.leb (f_off g + f_size g) (f_off f).
Lemma slice_inserts_same off l (p : packet) : (off + length l <= length p)%nat ->
  take (length l) (drop off (list_inserts off l p)) = l.
Proof.
  intros H. apply list_eq. intros i. destruct (Nat.lt_ge_cases i (length l)) as [Hi|Hi].
  - rewrite lookup_take_lt, lookup_drop, list_lookup_inserts by lia. f_equal. lia.
  - rewrite lookup_take_ge by lia. symmetry. by apply lookup_ge_None.
Qed.
Lemma slice_inserts_ne off l o n (p : packet) : (o + n <= off \/ off + length l <= o)%nat ->
  take n (drop o (list_inserts off l p)) = take n (drop o p).
Proof.
  intros H. apply list_eq. intros i. destruct (Nat.lt_ge_cases i n) as [Hi|Hi].
  - rewrite !lookup_take_lt, !lookup_drop by lia. destruct H; [apply list_lookup_inserts_lt|apply list_lookup_inserts_ge]; lia.
  - by rewrite !lookup_take_ge by lia.
Qed.
Lemma get_field_same f v p : (f_off f + f_size f <= length p)%nat -> get_field f (put_field f v p) = Some (v mod width (f_size f)).
Proof.
  intros H. unfold get_field. rewrite length_put_field, (proj2 (Nat.leb_le _ _)) by done. f_equal. unfold put_field, put_bytes.
  set (b := le_bytes _ _). assert (Hb : length b = f_size f) by apply length_le_bytes.
  rewrite <- Hb at 2. rewrite slice_inserts_same by lia. unfold b. by rewrite of_le_bytes, ntoh_mod, ntoh_hton.
Qed.
Lemma get_field_ne f g v p : disjoint_fields f g = true -> get_field f (put_field g v p) = get_field f p.
Proof.
  intros H. unfold get_field. rewrite length_put_field. destruct (Nat.leb _ _) eqn:E; [|done]. unfold put_field, put_bytes.
  rewrite slice_inserts_ne; [done|]. rewrite length_le_bytes. unfold disjoint_fields in H.
  apply orb_prop in H as [H%Nat.leb_le|H%Nat.leb_le]; [left|right]; lia.
Qed.
Lemma get_field_bytes f off l p : (f_off f + f_size f <= off)%nat -> get_field f (put_bytes off l p) = get_field f p.
Proof.
  intros H. unfold get_field, put_bytes. rewrite length_inserts. destruct (Nat.leb _ _); [|done].
  rewrite slice_inserts_ne; [done|lia].
Qed.

Lemma get_field_after f off l p : (off + length l <= f_off f)%nat -> get_field f (put_bytes off l p) = get_field f p.
Proof.
  intros H. unfold get_field, put_bytes. rewrite length_inserts. destruct (Nat.leb _ _); [|done].
  rewrite slice_inserts_ne; [done|lia].
Qed.

(** The value of a field after assignments: that of the last one to it, if the
    later ones are to other places. *)
Definition field_eqb (f g : field) : bool := Nat.eqb (f_off f) (f_off g) && Nat.eqb (f_size f) (f_size g).
Fixpoint assigned (f : field) (l : list (field * Z)) : option Z :=
  match l with
  | [] => None
  | (g, v) :: l => match assigned f l with
                   | Some v => Some v
                   | None => if forallb (fun x => disjoint_fields f (fst x)) l && field_eqb f g then Some v else None
                   end
  end.
Lemma get_fill_ne f l : forall p, forallb (fun x => disjoint_fields f (fst x)) l = true -> get_field f (fill l p) = get_field f p.
Proof.
  induction l as [|[g v] l IH]; intros p H; [done|]. cbn [forallb fst] in H. apply andb_prop in H as [H1 H2].
  rewrite fill_cons, IH by done. by apply get_field_ne.
Qed.
Lemma get_fill f l v : forall p, (f_off f + f_size f <= length p)%nat -> assigned f l = Some v ->
  get_field f (fill l p) = Some (v mod width (f_size f)).
Proof.
  induction l as [|[g w] l IH]; intros p Hp; [done|]. rewrite fill_cons. cbn [assigned].
  destruct (assigned f l) as [w'|] eqn:E; [intros [= ->]; by apply IH; [rewrite length_put_field|]|].
  destruct (forallb _ l) eqn:Hl; [|done]. destruct (field_eqb f g) eqn:Hfg; [|done]. intros [= ->].
  apply andb_prop in Hfg as [H1%Nat.eqb_eq H2%Nat.eqb_eq]. assert (g = f) as -> by (destruct f, g; cbn in *; congruence).
  rewrite get_fill_ne by done. by apply get_field_same.
Qed.

(** ** Headers

    The head of a packet (Ethernet and [dst_src_peer_index]) has 16 bytes. *)
Definition HEAD : nat := 16.
Definition dst_src_peer_index : field := Field 14 2.
Definition ptype : field := Field 16 1.
(* [common/omx_wire.h:235-239] omx_pkt_head *)
Definition omx_pkt_head : list field := [Field 0 6; Field 6 6; Field 12 2; dst_src_peer_index].
Definition dst_endpoint : field := Field 17 1.
Definition src_endpoint : field := Field 18 1.
Definition msg_length : field := Field 20 2.
Definition msg_checksum : field := Field 22 2.
Definition lib_seqnum : field := Field 24 2.
Definition lib_piggyack : field := Field 26 2.
Definition match_a : field := Field 28 4.
Definition match_b : field := Field 32 4.
Definition msg_session : field := Field 36 4.
Definition MSG_HDR : nat := HEAD + 24.
(* [common/omx_wire.h:347-362] omx_pkt_msg *)
Definition omx_pkt_msg : list field :=
  [ptype; dst_endpoint; src_endpoint; Field 19 1; msg_length; msg_checksum; lib_seqnum; lib_piggyack; match_a; match_b; msg_session].
Definition medium_length : field := Field 20 4.
Definition frag_length : field := Field 40 2.
Definition frag_seqnum : field := Field 42 1.
Definition medium_checksum : field := Field 44 2.
Definition MEDIUM_HDR : nat := HEAD + 32.
(* [common/omx_wire.h:364-393] omx_pkt_medium_frag *)
Definition omx_pkt_medium_frag : list field :=
  [ptype; dst_endpoint; src_endpoint; Field 19 1; medium_length; lib_seqnum; lib_piggyack; match_a; match_b; msg_session;
   frag_length; frag_seqnum; Field 43 1; medium_checksum; Field 46 2].
Definition rndv_msg_length : field := Field 40 4.
Definition rndv_rdma_id : field := Field 44 1.
Definition rndv_rdma_seqnum : field := Field 45 1.
Definition rndv_rdma_offset : field := Field 46 2.
Definition RNDV_HDR : nat := HEAD + 32.
(* [common/omx_wire.h:395-402] omx_pkt_rndv *)
Definition omx_pkt_rndv : list field :=
  omx_pkt_msg ++ [rndv_msg_length; rndv_rdma_id; rndv_rdma_seqnum; rndv_rdma_offset].
Definition OMX_PKT_RNDV_DATA_LENGTH : Z := 8.
Definition notify_session : field := Field 20 4.
Definition notify_total_length : field := Field 24 4.
Definition notify_rdma_id : field := Field 28 1.
Definition notify_rdma_seqnum : field := Field 29 1.
Definition notify_lib_seqnum : field := Field 34 2.
Definition notify_lib_piggyack : field := Field 36 2.
Definition NOTIFY_HDR : nat := HEAD + 24.
(* [common/omx_wire.h:483-500] omx_pkt_notify *)
Definition omx_pkt_notify : list field :=
  [ptype; dst_endpoint; src_endpoint; Field 19 1; notify_session; notify_total_length; notify_rdma_id; notify_rdma_seqnum;
   Field 30 2; Field 32 2; notify_lib_seqnum; notify_lib_piggyack; Field 38 2].
Definition connect_length : field := Field 20 1.
Definition src_dst_peer_index : field := Field 26 2.
Definition src_session_id : field := Field 32 4.
Definition app_key : field := Field 36 4.
Definition target_session_id : field := Field 36 4.
Definition target_recv_seqnum_start : field := Field 40 2.
Definition is_reply : field := Field 42 1.
Definition connect_seqnum : field := Field 43 1.
Definition connect_status_code : field := Field 44 1.
Definition CONNECT_HDR : nat := HEAD + 32.
(** The connection data is a request or a reply. *)
(* [common/omx_wire.h:298-338] omx_pkt_connect *)
Definition omx_pkt_connect (reply : bool) : list field :=
  [ptype; dst_endpoint; src_endpoint; Field 19 1; connect_length; Field 21 3; lib_seqnum; src_dst_peer_index; Field 28 4;
   src_session_id] ++
  (if reply then [target_session_id; target_recv_seqnum_start; is_reply; connect_seqnum; connect_status_code; Field 45 3]
   else [app_key; target_recv_seqnum_start; is_reply; connect_seqnum; Field 44 4]).
Definition OMX_PKT_CONNECT_DATA_LENGTH : Z := 16.
Definition truc_length : field := Field 20 1.
Definition truc_session : field := Field 24 4.
Definition truc_type : field := Field 28 1.
Definition liback_lib_seqnum : field := Field 30 2.
Definition liback_session_id : field := Field 32 4.
Definition liback_acknum : field := Field 36 4.
Definition liback_send_seq : field := Field 40 2.
Definition liback_resent : field := Field 42 1.
Definition TRUC_HDR : nat := HEAD + 28.
(* [common/omx_wire.h:265-291] omx_pkt_truc *)
Definition omx_pkt_truc : list field :=
  [ptype; dst_endpoint; src_endpoint; Field 19 1; truc_length; Field 21 3; truc_session; truc_type; Field 29 1;
   liback_lib_seqnum; liback_session_id; liback_acknum; liback_send_seq; liback_resent; Field 43 1].
Definition OMX_PKT_TRUC_LIBACK_DATA_LENGTH : Z := 16.
Definition OMX_PKT_TRUC_DATA_TYPE_ACK : Z := 0x55.
Definition nack_src_endpoint : field := Field 17 1.
Definition nack_type : field := Field 19 1.
Definition nack_dst_endpoint : field := Field 25 1.
Definition nack_peer_index : field := Field 26 2.
Definition nack_lib_seqnum : field := Field 28 2.
Definition NACK_LIB_HDR : nat := HEAD + 16.
(* [common/omx_wire.h:502-515] omx_pkt_nack_lib *)
Definition omx_pkt_nack_lib : list field :=
  [ptype; nack_src_endpoint; Field 18 1; nack_type; Field 20 4; Field 24 1; nack_dst_endpoint; nack_peer_index;
   nack_lib_seqnum; Field 30 2].

(** Raw packets and host queries only have the fields that are read here. *)
Definition host_magic : field := Field 24 4.
Definition HOST_HDR : nat := HEAD + 16.
Definition pull_session : field := Field 20 4.
Definition pull_total_length : field := Field 24 4.
Definition pull_rdma_id : field := Field 28 4.
Definition pull_rdma_seqnum : field := Field 32 1.
Definition pull_rdma_offset : field := Field 36 4.
Definition pull_src_handle : field := Field 40 4.
Definition pull_src_magic : field := Field 44 4.
Definition pull_first_frame_offset : field := Field 48 4.
Definition pull_block_length : field := Field 52 4.
Definition pull_frame_index : field := Field 56 4.
Definition PULL_HDR : nat := HEAD + 44.
(* [common/omx_wire.h:427-449] omx_pkt_pull_request *)
Definition omx_pkt_pull_request : list field :=
  [ptype; dst_endpoint; src_endpoint; Field 19 1; pull_session; pull_total_length; pull_rdma_id; pull_rdma_seqnum;
   Field 33 3; pull_rdma_offset; pull_src_handle; pull_src_magic; pull_first_frame_offset; pull_block_length; pull_frame_index].
Definition reply_frame_seqnum : field := Field 17 1.
Definition reply_frame_length : field := Field 18 2.
Definition reply_msg_offset : field := Field 20 4.
Definition reply_dst_handle : field := Field 24 4.
Definition reply_dst_magic : field := Field 28 4.
Definition PULL_REPLY_HDR : nat := HEAD + 16.
(* [common/omx_wire.h:472-481] omx_pkt_pull_reply *)
Definition omx_pkt_pull_reply : list field :=
  [ptype; reply_frame_seqnum; reply_frame_length; reply_msg_offset; reply_dst_handle; reply_dst_magic].
Definition NACK_MCP_HDR : nat := HEAD + 16.
Definition nack_src_pull_handle : field := Field 24 4.
Definition nack_src_magic : field := Field 28 4.
(* [common/omx_wire.h:517-527] omx_pkt_nack_mcp *)
Definition omx_pkt_nack_mcp : list field :=
  [ptype; nack_src_endpoint; Field 18 1; nack_type; Field 20 4; nack_src_pull_handle; nack_src_magic].

(* [common/omx_wire.h:122-147] omx_pkt_type *)
Definition OMX_PKT_TYPE_RAW : Z := 1.
Definition OMX_PKT_TYPE_HOST_QUERY : Z := 3.
Definition OMX_PKT_TYPE_HOST_REPLY : Z := 4.
Definition OMX_PKT_TYPE_TRUC : Z := 35.
Definition OMX_PKT_TYPE_CONNECT : Z := 36.
Definition OMX_PKT_TYPE_TINY : Z := 37.
Definition OMX_PKT_TYPE_SMALL : Z := 38.
Definition OMX_PKT_TYPE_MEDIUM : Z := 39.
Definition OMX_PKT_TYPE_RNDV : Z := 40.
Definition OMX_PKT_TYPE_PULL : Z := 41.
Definition OMX_PKT_TYPE_PULL_REPLY : Z := 42.
Definition OMX_PKT_TYPE_NOTIFY : Z := 43.
Definition OMX_PKT_TYPE_NACK_LIB : Z := 44.
Definition OMX_PKT_TYPE_NACK_MCP : Z := 45.
Definition ETH_ZLEN : nat := 60.

(** The structures have no hole: each field is where the one before ends. *)
Fixpoint packed (from : nat) (l : list field) (to : nat) : bool :=
  match l with [] => Nat.eqb from to | f :: l => Nat.eqb (f_off f) from && packed (from + f_size f) l to end.
Lemma layouts_packed : forallb (fun x => packed (fst (fst x)) (snd (fst x)) (snd x))
  [(0%nat, omx_pkt_head, HEAD); (HEAD, omx_pkt_msg, MSG_HDR); (HEAD, omx_pkt_medium_frag, MEDIUM_HDR);
   (HEAD, omx_pkt_rndv, RNDV_HDR); (HEAD, omx_pkt_notify, NOTIFY_HDR); (HEAD, omx_pkt_connect false, CONNECT_HDR);
   (HEAD, omx_pkt_connect true, CONNECT_HDR); (HEAD, omx_pkt_truc, TRUC_HDR); (HEAD, omx_pkt_nack_lib, NACK_LIB_HDR);
   (HEAD, omx_pkt_pull_request, PULL_HDR); (HEAD, omx_pkt_pull_reply, PULL_REPLY_HDR); (HEAD, omx_pkt_nack_mcp, NACK_MCP_HDR)] = true.
Proof. reflexivity. Qed.

(** The 64-bit match information in two words. *)
(* [driver/linux/omx_wire_access.h:68-71] OMX_HTON_MATCH_INFO *)
Definition OMX_HTON_MATCH_INFO (match_info : Z) : list (field * Z) :=
  [(match_a, u32 (Z.shiftr match_info 32)); (match_b, u32 (Z.land match_info 0xffffffff))].
(* [driver/linux/omx_wire_access.h:73-75] OMX_NTOH_MATCH_INFO *)
Definition OMX_NTOH_MATCH_INFO (p : packet) : option Z :=
  a ← get_field match_a p; b ← get_field match_b p; Some (Z.lor (Z.shiftl a 32) b).
Lemma match_info_parts x : 0 <= x < 2 ^ 64 ->
  Z.lor (Z.shiftl (u32 (Z.shiftr x 32) mod width 4) 32) (u32 (Z.land x 0xffffffff) mod width 4) = x.
Proof.
  intros H. change (width 4) with (2 ^ 32). unfold u32. change 4294967296 with (2 ^ 32).
  change 0xffffffff with (Z.ones 32). rewrite Z.land_ones by done. rewrite !Z.mod_mod by done.
  rewrite (Z.mod_small (Z.shiftr x 32)).
  2:{ rewrite Z.shiftr_div_pow2 by done. split; [apply Z.div_pos; lia|apply Z.div_lt_upper_bound; lia]. }
  apply Z.bits_inj'. intros n Hn. rewrite Z.lor_spec, Z.shiftl_spec by done. destruct (Z.lt_ge_cases n 32).
  - rewrite (Z.testbit_neg_r _ (n - 32)) by lia. by rewrite Z.mod_pow2_bits_low by lia.
  - rewrite Z.shiftr_spec, Z.sub_add, Z.mod_pow2_bits_high by lia. apply orb_false_r.
Qed.

(** The addresses of the Ethernet header: the destination, then the source. *)
(* [driver/linux/omx_misc.h:121-131] omx_board_addr_to_ethhdr_dst *)
Definition omx_board_addr_to_ethhdr_dst (board_addr : Z) (p : packet) : packet :=
  put_bytes 0 (rev (le_bytes 6 board_addr)) p.
(* [driver/linux/omx_misc.h:109-119] omx_board_addr_from_ethhdr_src *)
Definition omx_board_addr_from_ethhdr_src (p : packet) : Z := of_le (rev (take 6 (drop 6 p))).
(** The protocol and the source. *)
Definition ETH_P_OMX : Z := 0x86df.
Definition fill_ethhdr (dev_addr : Z) (p : packet) : packet :=
  put_bytes 6 (rev (le_bytes 6 dev_addr)) (put_bytes 12 (rev (le_bytes 2 ETH_P_OMX)) p).
End order.
End Wire.
