(* ===== verification/Host.v ===== *)
(** A host as the message handlers of the driver see it: the endpoint with its
    event queues and its rings, the interface, the events. *)
From S2P Require Import Prelude Io Segments World Event Peer Reg RegTable Pull Wire.
Import Mem Io.

Module Host.

(** ** Events *)

(** What the events of received messages have in common. *)
Record msg_info := MsgInfo { mi_peer_index : Z; mi_src_endpoint : Z; mi_seqnum : Z; mi_piggyack : Z; mi_match_info : Z }.
(* [common/omx_io.h:844-1014] omx_evt *)
Inductive devt :=
  | EvtNone
  | SendMediumsqFragDone (sendq_offset : Z)
  | PullDone (lib_cookie puller_rdma_id status : Z)
  | RecvConnectRequest (peer_index src_endpoint shared seqnum src_session_id app_key target_recv_seqnum_start connect_seqnum : Z)
  | RecvConnectReply (peer_index src_endpoint shared seqnum src_session_id target_session_id target_recv_seqnum_start
      connect_seqnum connect_status_code : Z)
  | RecvTiny (m : msg_info) (length checksum : Z) (data : list Z)
  | RecvSmall (m : msg_info) (length checksum recvq_offset : Z)
  | RecvMediumFrag (m : msg_info) (msg_length frag_length frag_seqnum checksum recvq_offset : Z)
  | RecvRndv (m : msg_info) (msg_length pulled_rdma_id pulled_rdma_seqnum pulled_rdma_offset checksum : Z)
  | RecvNotify (peer_index src_endpoint seqnum piggyack length pulled_rdma_id pulled_rdma_seqnum : Z)
  | RecvLiback (peer_index src_endpoint lib_seqnum acknum send_seq resent : Z)
  | RecvNackLib (peer_index src_endpoint seqnum nack_type : Z).

(** ** The host *)

Definition SENDQ_SIZE : Z := World.OMX_SENDQ_ENTRY_NR * 2 ^ World.OMX_SENDQ_ENTRY_SHIFT.
Definition RECVQ_SIZE : Z := OMX_RECVQ_ENTRY_NR * OMX_RECVQ_ENTRY_SIZE.

(** The part the pulls use, the event queues, the memory of the rings, the
    medium fragments whose pages the network still holds (by their offsets in
    the send ring), the packets given to the network; the address of the
    interface, its raw events, the packets that wait for the work on host
    queries, and the magic number of the replies. *)
Record host := Host {
  drv : Pull.driver; evq : @Event.endpoint devt; sendq : mem; recvq : mem;
  in_flight : list Z; sent_frames : list (list Z); dev_addr : Z; raw_events : list (list Z);
  omx_host_query_list : list (list Z); omx_host_reply_list : list (list Z); omx_host_query_magic : Z }.
#[export] Instance e_host : Settable host := fun s => Host (drv s) (evq s) (sendq s) (recvq s) (in_flight s)
  (sent_frames s) (dev_addr s) (raw_events s) (omx_host_query_list s) (omx_host_reply_list s) (omx_host_query_magic s).
#[export] Instance s_drv : Setter drv. Proof. mk_setter. Defined.
#[export] Instance s_evq : Setter evq. Proof. mk_setter. Defined.
#[export] Instance s_recvq : Setter recvq. Proof. mk_setter. Defined.
#[export] Instance s_in_flight : Setter in_flight. Proof. mk_setter. Defined.
#[export] Instance s_raw_events : Setter raw_events. Proof. mk_setter. Defined.
#[export] Instance s_host_query_list : Setter omx_host_query_list. Proof. mk_setter. Defined.
#[export] Instance s_host_reply_list : Setter omx_host_reply_list. Proof. mk_setter. Defined.
#[export] Instance s_sent_frames : Setter sent_frames. Proof. mk_setter. Defined.

Definition queue_xmit (p : list Z) (s : host) : host := s <| sent_frames ::= fun l => l ++ [p] |>.
Definition notify_exp (e : devt) (s : host) : host := s <| evq ::= fun q => snd (Event.omx_notify_exp_event e q) |>.

(** A new packet: what the allocator left, of the given length. *)
(* [driver/linux/omx_send.c:66-86] omx_new_skb *)
Definition omx_new_skb (junk : nat -> Z) (len : nat) : list Z := junk <$> seq 0 len.
Lemma length_new_skb junk len : length (omx_new_skb junk len) = len.
Proof. unfold omx_new_skb. by rewrite length_fmap, length_seq. Qed.
End Host.
