(* ===== verification/SendMsg.v ===== *)
(** The driver's side of the send commands ([driver/linux/omx_send.c]): each
    ioctl builds the packets of a message.  The result [None] of an ioctl is
    the tail call of the path inside the host. *)
From S2P Require Import Prelude Io Segments World Event Peer Reg RegTable Pull Wire Host.
Import Mem Io Wire Host.

Module SendMsg.

#[local] Existing Instances Pull.e_driver Pull.s_d_regions.
Definition EINVAL : Z := -22.
Definition ENOMEM : Z := -12.
Definition EFAULT : Z := -14.

(** The fields of the commands; each command has some of them. *)
(* [common/omx_io.h:319-416] omx_cmd_send_tiny *)
Record send_cmd := SendCmd {
  sc_peer_index : Z; sc_dest_endpoint : Z; sc_shared : bool; sc_session_id : Z; sc_seqnum : Z; sc_piggyack : Z;
  sc_checksum : Z; sc_match_info : Z; sc_length : Z; sc_vaddr : Z; sc_sendq_offset : Z; sc_frag_length : Z;
  sc_frag_seqnum : Z; sc_rdma_id : Z; sc_rdma_seqnum : Z }.
(* [common/omx_io.h:418-451] omx_cmd_send_connect_request *)
Record connect_cmd := ConnectCmd {
  cc_peer_index : Z; cc_dest_endpoint : Z; cc_shared_disabled : bool; cc_seqnum : Z; cc_src_session_id : Z;
  cc_app_key : Z; cc_target_session_id : Z; cc_target_recv_seqnum_start : Z; cc_connect_seqnum : Z;
  cc_connect_status_code : Z }.
(* [common/omx_io.h:486-499] omx_cmd_send_liback *)
Record liback_cmd := LibackCmd {
  lc_peer_index : Z; lc_dest_endpoint : Z; lc_shared : bool; lc_session_id : Z; lc_acknum : Z; lc_lib_seqnum : Z;
  lc_send_seq : Z; lc_resent : Z }.

(** The memory of the process; an address that is not mapped is a fault. *)
Definition copy_from_user (umem : Z -> option Z) (addr : Z) (n : nat) : option (list Z) :=
  mapM umem (seqZ addr (Z.of_nat n)).

Section send.
Context {order : ByteOrder}.

Definition index_of (s : host) : Z := Pull.endpoint_index (drv s).
(** [omx_set_target_peer]: the error, or the packet with its destination. *)
(* [driver/linux/omx_peer.c:575-600] omx_set_target_peer *)
Definition set_target_peer (index : Z) (p : list Z) (s : host) : Z + list Z :=
  match Peer.omx_set_target_peer (Pull.d_peers (drv s)) index with
  | inl err => inl err
  | inr (addr, reverse) => inr (put_field dst_src_peer_index reverse (omx_board_addr_to_ethhdr_dst addr p))
  end.
(** A packet of [len] bytes, or more for Ethernet, with its source. *)
Definition new_packet (junk : nat -> Z) (len : nat) (s : host) : list Z :=
  fill_ethhdr (dev_addr s) (omx_new_skb junk (Nat.max len ETH_ZLEN)).
(** Most commands only have a header to send. *)
Definition send_header (hdr_len : nat) (sk : option (nat -> Z)) (peer_index : Z) (fields : list (field * Z)) (s : host)
    : option Z * host :=
  match sk with
  | None => (Some ENOMEM, s)
  | Some junk =>
      match set_target_peer peer_index (new_packet junk hdr_len s) s with
      | inl err => (Some err, s)
      | inr p => (Some 0, queue_xmit (fill fields p) s)
      end
  end.

(** ** Connections

    [local] tells whether the peer is an interface of this host. *)
Definition connect_fields (reply : bool) (c : connect_cmd) (s : host) : list (field * Z) :=
  [(src_endpoint, index_of s); (dst_endpoint, cc_dest_endpoint c); (ptype, OMX_PKT_TYPE_CONNECT);
   (connect_length, OMX_PKT_CONNECT_DATA_LENGTH); (lib_seqnum, cc_seqnum c); (src_dst_peer_index, cc_peer_index c);
   (is_reply, if reply then 1 else 0); (src_session_id, cc_src_session_id c);
   (if reply then target_session_id else app_key, if reply then cc_target_session_id c else cc_app_key c);
   (target_recv_seqnum_start, cc_target_recv_seqnum_start c); (connect_seqnum, cc_connect_seqnum c)]
  ++ (if reply then [(connect_status_code, cc_connect_status_code c)] else []).
(* [driver/linux/omx_send.c:130-206] omx_ioctl_send_connect_request *)
Definition omx_ioctl_send_connect_request (cmd : option connect_cmd) (local : bool) (sk : option (nat -> Z)) (s : host)
    : option Z * host :=
  match cmd with
  | None => (Some EFAULT, s)
  | Some c =>
      if negb (cc_shared_disabled c) && local then (None, s)
      else send_header CONNECT_HDR sk (cc_peer_index c) (connect_fields false c s) s
  end.
(* [driver/linux/omx_send.c:208-285] omx_ioctl_send_connect_reply *)
Definition omx_ioctl_send_connect_reply (cmd : option connect_cmd) (local : bool) (sk : option (nat -> Z)) (s : host)
    : option Z * host :=
  match cmd with
  | None => (Some EFAULT, s)
  | Some c =>
      if negb (cc_shared_disabled c) && local then (None, s)
      else send_header CONNECT_HDR sk (cc_peer_index c) (connect_fields true c s) s
  end.

(** ** Small messages *)

Definition msg_fields (type length : Z) (c : send_cmd) (s : host) : list (field * Z) :=
  [(src_endpoint, index_of s); (dst_endpoint, sc_dest_endpoint c); (ptype, type); (msg_length, length);
   (lib_seqnum, sc_seqnum c); (lib_piggyack, sc_piggyack c); (msg_session, sc_session_id c);
   (msg_checksum, sc_checksum c)] ++ OMX_HTON_MATCH_INFO (sc_match_info c).
(** The header, then the data that the process has at [addr]. *)
Definition send_with_data (umem : Z -> option Z) (addr length type : Z) (sk : option (nat -> Z)) (c : send_cmd) (s : host)
    : option Z * host :=
  match sk with
  | None => (Some ENOMEM, s)
  | Some junk =>
      match set_target_peer (sc_peer_index c) (new_packet junk (MSG_HDR + Z.to_nat length) s) s with
      | inl err => (Some err, s)
      | inr p =>
          let p := fill (msg_fields type length c s) p in
          match copy_from_user umem addr (Z.to_nat length) with
          | None => (Some EFAULT, s)
          | Some data => (Some 0, queue_xmit (put_bytes MSG_HDR data p) s)
          end
      end
  end.
(** The command is at [uparam]; its data follows its header of 24 bytes. *)
(* [driver/linux/omx_send.c:287-382] omx_ioctl_send_tiny *)
Definition omx_ioctl_send_tiny (umem : Z -> option Z) (uparam : Z) (cmd : option send_cmd) (sk : option (nat -> Z))
    (s : host) : option Z * host :=
  match cmd with
  | None => (Some EFAULT, s)
  | Some c =>
      let length := u8 (sc_length c) in
      if World.OMX_TINY_MSG_LENGTH_MAX <? length then (Some EINVAL, s)
      else if sc_shared c then (None, s)
      else send_with_data umem (uparam + 24) length OMX_PKT_TYPE_TINY sk c s
  end.
(* [driver/linux/omx_send.c:384-477] omx_ioctl_send_small *)
Definition omx_ioctl_send_small (umem : Z -> option Z) (cmd : option send_cmd) (sk : option (nat -> Z)) (s : host)
    : option Z * host :=
  match cmd with
  | None => (Some EFAULT, s)
  | Some c =>
      let length := sc_length c in
      if World.OMX_SMALL_MSG_LENGTH_MAX <? length then (Some EINVAL, s)
      else if sc_shared c then (None, s)
      else send_with_data umem (sc_vaddr c) length OMX_PKT_TYPE_SMALL sk c s
  end.

(** ** Medium messages *)

Definition medium_fields (length frag_len seqnum : Z) (c : send_cmd) (s : host) : list (field * Z) :=
  [(src_endpoint, index_of s); (dst_endpoint, sc_dest_endpoint c); (ptype, OMX_PKT_TYPE_MEDIUM);
   (medium_length, length); (lib_seqnum, sc_seqnum c); (lib_piggyack, sc_piggyack c); (msg_session, sc_session_id c)]
  ++ OMX_HTON_MATCH_INFO (sc_match_info c) ++ [(frag_length, frag_len); (frag_seqnum, seqnum)].

(** Bytes of the send ring; reading outside of it is undefined. *)
Definition read_sendq (off n : Z) (s : host) : option (list Z) :=
  if off + n <=? SENDQ_SIZE then Some (load (sendq s) off (Z.to_nat n)) else None.
(** The pages are attached: a chunk must be inside of its page. *)
Fixpoint attach_pages (fuel : nat) (off remaining : Z) (acc : list Z) (s : host) : option (list Z) :=
  if remaining =? 0 then Some acc
  else
    match fuel with
    | O => None
    | S fuel =>
        let chunk := if Reg.PAGE_SIZE <? remaining then Reg.PAGE_SIZE else remaining in
        if Reg.PAGE_SIZE <? off mod Reg.PAGE_SIZE + chunk then None
        else data ← read_sendq off chunk s; attach_pages fuel (off + chunk) (remaining - chunk) (acc ++ data) s
    end.

Context (omx_skb_copy_max omx_skb_frags : Z).
(** [alloc_event] is the answer for the deferred event.  The network reads
    attached pages at once. *)
(* [driver/linux/omx_send.c:479-664] omx_ioctl_send_mediumsq_frag *)
Definition omx_ioctl_send_mediumsq_frag (cmd : option send_cmd) (sk : option (nat -> Z)) (alloc_event : bool) (s : host)
    : option (option Z * host) :=
  match cmd with
  | None => Some (Some EFAULT, s)
  | Some c =>
      let frag_len := sc_frag_length c in
      let sendq_offset := sc_sendq_offset c in
      let fields := medium_fields (sc_length c) frag_len (sc_frag_seqnum c) c s ++ [(medium_checksum, sc_checksum c)] in
      if 2 ^ World.OMX_SENDQ_ENTRY_SHIFT <? frag_len then Some (Some EINVAL, s)
      else if SENDQ_SIZE <=? sendq_offset then Some (Some EINVAL, s)
      else if sc_shared c then Some (None, s)
      else if (omx_skb_copy_max <? frag_len) && (Z.of_nat ETH_ZLEN <=? Z.of_nat MEDIUM_HDR + frag_len)
              && (Z.shiftr frag_len World.OMX_SENDQ_ENTRY_SHIFT <=? omx_skb_frags) then
        match sk with
        | None => Some (Some ENOMEM, s)
        | Some junk =>
            if negb alloc_event then Some (Some ENOMEM, s)
            else
              match set_target_peer (sc_peer_index c) (omx_new_skb junk MEDIUM_HDR) s with
              | inl err => Some (Some err, s)
              | inr p =>
                  data ← attach_pages (Z.to_nat frag_len) sendq_offset frag_len [] s;
                  Some (Some 0, queue_xmit (fill fields (fill_ethhdr (dev_addr s) p) ++ data)
                                  (s <| drv ::= Pull.omx_endpoint_reacquire |> <| in_flight ::= fun l => l ++ [sendq_offset] |>))
              end
        end
      else
        match sk with
        | None => Some (Some ENOMEM, s)
        | Some junk =>
            let p := omx_new_skb junk (Nat.max (MEDIUM_HDR + Z.to_nat frag_len) ETH_ZLEN) in
            match set_target_peer (sc_peer_index c) p s with
            | inl err => Some (Some err, s)
            | inr p =>
                data ← read_sendq sendq_offset frag_len s;
                let p := put_bytes MEDIUM_HDR data p in
                let s := notify_exp (SendMediumsqFragDone sendq_offset) s in
                Some (Some 0, queue_xmit (fill fields (fill_ethhdr (dev_addr s) p)) s)
            end
        end
  end.
(** The network is done with the pages of a fragment. *)
(* [driver/linux/omx_send.c:100-114] omx_medium_frag_skb_destructor *)
Definition omx_medium_frag_skb_destructor (s : host) : host :=
  match in_flight s with
  | [] => s
  | off :: l => notify_exp (SendMediumsqFragDone off) (s <| in_flight := l |>) <| drv ::= Pull.omx_endpoint_release |>
  end.

(** The data of one fragment, from the segment [i] of which [remaining] bytes at
    [vaddr] are left.  [Some None] is a fault.  [seg] has what is behind the
    array, which is read when the last segment is done. *)
Fixpoint mediumva_copy (fuel : nat) (umem : Z -> option Z) (seg : nat -> Z * Z) (i : nat) (vaddr remaining : Z)
    (frag_remaining : Z) (data : list Z) : option (option (list Z * nat * Z * Z)) :=
  if frag_remaining =? 0 then Some (Some (data, i, vaddr, remaining))
  else
    match fuel with
    | O => None
    | S fuel =>
        let chunk := u16 (if remaining <? frag_remaining then remaining else frag_remaining) in
        match copy_from_user umem vaddr (Z.to_nat chunk) with
        | None => Some None
        | Some l =>
            if chunk =? remaining
            then mediumva_copy fuel umem seg (S i) (fst (seg (S i))) (snd (seg (S i))) (frag_remaining - chunk) (data ++ l)
            else mediumva_copy fuel umem seg i (vaddr + chunk) (remaining - chunk) (frag_remaining - chunk) (data ++ l)
        end
    end.
Fixpoint mediumva_frags (n : nat) (nseg : nat) (umem : Z -> option Z) (seg : nat -> Z * Z) (sk : nat -> option (nat -> Z))
    (c : send_cmd) (frag : Z) (i : nat) (vaddr seg_remaining remaining : Z) (s : host) : option (option Z * host) :=
  match n with
  | O => Some (Some 0, s)
  | S n =>
      let frag_len := u16 (if World.OMX_MEDIUM_FRAG_LENGTH_MAX <? remaining then World.OMX_MEDIUM_FRAG_LENGTH_MAX else remaining) in
      match sk (Z.to_nat frag) with
      | None => Some (Some ENOMEM, s)
      | Some junk =>
          let p := omx_new_skb junk (Nat.max (MEDIUM_HDR + Z.to_nat frag_len) ETH_ZLEN) in
          match set_target_peer (sc_peer_index c) p s with
          | inl err => Some (Some err, s)
          | inr p =>
              let p := fill (medium_fields (sc_length c) frag_len frag c s) (fill_ethhdr (dev_addr s) p) in
              ret ← mediumva_copy (nseg + Z.to_nat frag_len) umem seg i vaddr seg_remaining frag_len [];
              match ret with
              | None => Some (Some EFAULT, s)
              | Some (data, i, vaddr, seg_remaining) =>
                  mediumva_frags n nseg umem seg sk c (frag + 1) i vaddr seg_remaining (u32 (remaining - frag_len))
                    (queue_xmit (put_bytes MEDIUM_HDR data p) s)
              end
          end
      end
  end.
(** The address and length of each segment; [beyond] is the memory behind the
    array.  Without segment the allocator gives an address that cannot be read. *)
(* [driver/linux/omx_send.c:666-826] omx_ioctl_send_mediumva *)
Definition omx_ioctl_send_mediumva (umem : Z -> option Z) (cmd : option send_cmd) (alloc_usegs : bool)
    (usegs : option (list (Z * Z))) (beyond : nat -> Z * Z) (sk : nat -> option (nat -> Z)) (s : host)
    : option (option Z * host) :=
  match cmd with
  | None => Some (Some EFAULT, s)
  | Some c =>
      let frags_nr := (sc_length c + World.OMX_MEDIUM_FRAG_LENGTH_MAX - 1) / World.OMX_MEDIUM_FRAG_LENGTH_MAX in
      if sc_shared c then Some (None, s)
      else if negb alloc_usegs then Some (Some ENOMEM, s)
      else
        match usegs with
        | None => Some (Some EFAULT, s)
        | Some usegs =>
            let remaining := fold_left (fun r u => u32 (r + snd u)) usegs 0 in
            if negb (remaining =? sc_length c) then Some (Some EINVAL, s)
            else
              '(vaddr, len) ← head usegs;
              mediumva_frags (Z.to_nat frags_nr) (length usegs) umem (fun i => default (beyond i) (usegs !! i)) sk c 0 0
                vaddr len remaining s
        end
  end.

(** ** Large messages and acknowledgements *)

Context (get_user_pages : Z -> Z -> Z * list Z) (omx_pin_synchronous : bool) (omx_pin_chunk_pages_min omx_pin_chunk_pages_max : Z).
(** The region of a rendezvous is pinned: the driver, and the error or 0. *)
Definition rndv_pin (id : Z) (d : Pull.driver) : option (Z * Pull.driver) :=
  if omx_pin_synchronous then Some (0, d)
  else
    '(region, rs) ← RegTable.omx_user_region_acquire id (Pull.d_regions d);
    match region with
    | None => Some (EINVAL, d)
    | Some a =>
        r ← RegTable.heap rs !! a;
        '(r, put, err) ← Pull.demand_pin get_user_pages omx_pin_synchronous omx_pin_chunk_pages_min omx_pin_chunk_pages_max r;
        let rs := RegTable.Regions (RegTable.user_regions rs) (<[a := r]> (RegTable.heap rs)) (RegTable.rcu rs)
                    (RegTable.works rs) (RegTable.put_pages rs ++ (Some <$> put)) in
        rs ← RegTable.omx_user_region_release false a rs;
        Some (if err <? 0 then err else 0, d <| Pull.d_regions := rs |>)
    end.
Definition rndv_fields (c : send_cmd) (s : host) : list (field * Z) :=
  [(src_endpoint, index_of s); (dst_endpoint, sc_dest_endpoint c); (ptype, OMX_PKT_TYPE_RNDV);
   (msg_length, OMX_PKT_RNDV_DATA_LENGTH); (lib_seqnum, sc_seqnum c); (lib_piggyack, sc_piggyack c);
   (msg_session, sc_session_id c)] ++ OMX_HTON_MATCH_INFO (sc_match_info c) ++
  [(rndv_msg_length, sc_length c); (rndv_rdma_id, sc_rdma_id c); (rndv_rdma_seqnum, sc_rdma_seqnum c);
   (msg_checksum, sc_checksum c); (rndv_rdma_offset, 0)].
(* [driver/linux/omx_send.c:828-924] omx_ioctl_send_rndv *)
Definition omx_ioctl_send_rndv (cmd : option send_cmd) (sk : option (nat -> Z)) (s : host) : option (option Z * host) :=
  match cmd with
  | None => Some (Some EFAULT, s)
  | Some c =>
      if sc_shared c then Some (None, s)
      else
        '(err, d) ← rndv_pin (sc_rdma_id c) (drv s);
        let s := s <| drv := d |> in
        if err <? 0 then Some (Some err, s)
        else Some (send_header RNDV_HDR sk (sc_peer_index c) (rndv_fields c s) s)
  end.
Definition notify_fields (c : send_cmd) (s : host) : list (field * Z) :=
  [(src_endpoint, index_of s); (dst_endpoint, sc_dest_endpoint c); (ptype, OMX_PKT_TYPE_NOTIFY);
   (notify_total_length, sc_length c); (notify_lib_seqnum, sc_seqnum c); (notify_lib_piggyack, sc_piggyack c);
   (notify_session, sc_session_id c); (notify_rdma_id, sc_rdma_id c); (notify_rdma_seqnum, sc_rdma_seqnum c)].
(* [driver/linux/omx_send.c:926-997] omx_ioctl_send_notify *)
Definition omx_ioctl_send_notify (cmd : option send_cmd) (sk : option (nat -> Z)) (s : host) : option Z * host :=
  match cmd with
  | None => (Some EFAULT, s)
  | Some c =>
      if sc_shared c then (None, s)
      else send_header NOTIFY_HDR sk (sc_peer_index c) (notify_fields c s) s
  end.
Definition liback_fields (c : liback_cmd) (s : host) : list (field * Z) :=
  [(src_endpoint, index_of s); (dst_endpoint, lc_dest_endpoint c); (ptype, OMX_PKT_TYPE_TRUC);
   (truc_length, OMX_PKT_TRUC_LIBACK_DATA_LENGTH); (truc_session, lc_session_id c);
   (truc_type, OMX_PKT_TRUC_DATA_TYPE_ACK); (liback_lib_seqnum, lc_lib_seqnum c); (liback_session_id, lc_session_id c);
   (liback_acknum, lc_acknum c); (liback_send_seq, lc_send_seq c); (liback_resent, lc_resent c)].
(* [driver/linux/omx_send.c:999-1071] omx_ioctl_send_liback *)
Definition omx_ioctl_send_liback (cmd : option liback_cmd) (sk : option (nat -> Z)) (s : host) : option Z * host :=
  match cmd with
  | None => (Some EFAULT, s)
  | Some c =>
      if lc_shared c then (None, s)
      else send_header TRUC_HDR sk (lc_peer_index c) (liback_fields c s) s
  end.
(** The packet has its peer index twice, as the head has it. *)
(* [driver/linux/omx_send.c:1073-1133] omx_send_nack_lib *)
Definition omx_send_nack_lib (sk : option (nat -> Z)) (peer_index type src_ep dst_ep seqnum : Z) (s : host) : host :=
  match sk with
  | None => s
  | Some junk =>
      match set_target_peer peer_index (new_packet junk NACK_LIB_HDR s) s with
      | inl err => s
      | inr p =>
          let reverse := match Peer.omx_set_target_peer (Pull.d_peers (drv s)) peer_index with
                         | inr (_, reverse) => reverse | inl _ => 0 end in
          queue_xmit (fill [(nack_peer_index, reverse); (nack_src_endpoint, src_ep); (nack_dst_endpoint, dst_ep);
                            (ptype, OMX_PKT_TYPE_NACK_LIB); (nack_type, type); (nack_lib_seqnum, seqnum)] p) s
      end
  end.
End send.
End SendMsg.
