(* ===== verification/RecvMsg.v ===== *)
(** The driver's packet handlers ([driver/linux/omx_recv.c]): from the bytes of
    a packet to the events of an endpoint. *)
From S2P Require Import Prelude Io Segments World Event Peer Pull Wire Host SendMsg.
Import Mem Io Wire Host.

Module RecvMsg.

#[local] Existing Instances Pull.e_driver Pull.s_d_peers.
Definition EINVAL : Z := -22.
Definition ENOMEM : Z := -12.

(** A received packet: its bytes, of which the first ones are linear. *)
Record skb := Skb { skb_headlen : nat; skb_bytes : list Z }.
Definition skb_len (b : skb) : Z := Z.of_nat (length (skb_bytes b)).
(** [None] is the error that [skb_copy_bits] returns. *)
Definition skb_copy_bits (b : skb) (off n : nat) : option (list Z) :=
  if Nat.leb (off + n) (length (skb_bytes b)) then Some (take n (drop off (skb_bytes b))) else None.

Section recv.
Context {order : ByteOrder}.
(** The answer of the allocator for a nack. *)
Context (nack_skb : option (nat -> Z)).

(** ** What the handlers share *)

Definition release (s : host) : host := s <| drv ::= Pull.omx_endpoint_release |>.
(** The endpoint that a packet is for, of the right session; otherwise the
    sender gets a nack.  [None] is a [BUG]. *)
Definition with_endpoint (nack : Z -> host -> host) (index session : Z) (k : host -> option (Z * host)) (s : host)
    : option (Z * host) :=
  match Pull.omx_endpoint_acquire_by_iface_index index (drv s) with
  | inl err => type ← Pull.omx_endpoint_acquire_by_iface_index_error_to_nack_type err; Some (err, nack type s)
  | inr d =>
      let s := s <| drv := d |> in
      if negb (session =? Pull.session_id (drv s)) then Some (EINVAL, release (nack Pull.OMX_NACK_TYPE_BAD_SESSION s))
      else k s
  end.
Definition nack_lib (peer_index dst_ep src_ep seqnum : Z) (type : Z) (s : host) : host :=
  SendMsg.omx_send_nack_lib nack_skb peer_index type dst_ep src_ep seqnum s.
(** The event is reported, or lost when the queue is full. *)
Definition notify (e : devt) (s : host) : option (Z * host) :=
  let '(err, q) := Event.omx_notify_unexp_event e (evq s) in
  Some (err, release (s <| evq := q |>)).
(** The data goes in a slot of the receive ring, reserved with the event. *)
Definition notify_with_data (e : Z -> devt) (hdr_len : nat) (length : Z) (b : skb) (s : host) : option (Z * host) :=
  let '(ret, q) := Event.omx_prepare_notify_unexp_event_with_recvq (evq s) in
  let s := s <| evq := q |> in
  match ret with
  | inl err => Some (err, release s)
  | inr off =>
      data ← skb_copy_bits b hdr_len (Z.to_nat length);
      q ← Event.omx_commit_notify_unexp_event_with_recvq (e off) (evq s);
      Some (0, release (s <| recvq ::= fun m => store m off data |> <| evq := q |>))
  end.
(** The lengths are unsigned: a packet shorter than its header has a lot of
    data. *)
Definition data_too_short (length : Z) (b : skb) (hdr_len : nat) : bool :=
  u64 (skb_len b - Z.of_nat hdr_len) <? length.
Definition check_peer (mh : list Z) (peer_index : Z) (s : host) : Z :=
  Peer.omx_check_recv_peer_index (Pull.d_peers (drv s)) peer_index (omx_board_addr_from_ethhdr_src mh).
(** The fields that messages have in common. *)
Definition msg_info_of (mh : list Z) (seqnum piggyack : Z) : option msg_info :=
  peer_index ← get_field dst_src_peer_index mh; src_ep ← get_field src_endpoint mh;
  match_info ← OMX_NTOH_MATCH_INFO mh; Some (MsgInfo peer_index src_ep seqnum piggyack match_info).

(** ** Handlers *)

(* [driver/linux/omx_recv.c:37-162] omx_recv_connect *)
Definition omx_recv_connect (mh : list Z) (b : skb) (s : host) : option (Z * host) :=
  length ← get_field connect_length mh; dst_ep ← get_field dst_endpoint mh; src_ep ← get_field src_endpoint mh;
  reverse_peer_index ← get_field src_dst_peer_index mh; seqnum ← get_field lib_seqnum mh;
  reply ← get_field is_reply mh;
  if length <? OMX_PKT_CONNECT_DATA_LENGTH then Some (EINVAL, s)
  else
    match Peer.omx_peer_lookup_by_addr_locked (Pull.d_peers (drv s)) (omx_board_addr_from_ethhdr_src mh) with
    | None => Some (0, s)
    | Some (peer_index, _) =>
        let s := s <| drv ::= fun d => d <| Pull.d_peers ::= Peer.omx_peer_set_reverse_index peer_index reverse_peer_index |> |> in
        match Pull.omx_endpoint_acquire_by_iface_index dst_ep (drv s) with
        | inl err =>
            type ← Pull.omx_endpoint_acquire_by_iface_index_error_to_nack_type err;
            Some (err, nack_lib peer_index dst_ep src_ep seqnum type s)
        | inr d =>
            let s := s <| drv := d |> in
            session ← get_field src_session_id mh; start ← get_field target_recv_seqnum_start mh;
            connect_seq ← get_field connect_seqnum mh;
            if reply =? 0 then
              key ← get_field app_key mh;
              notify (RecvConnectRequest peer_index src_ep 0 seqnum session key start connect_seq) s
            else
              target ← get_field target_session_id mh; status ← get_field connect_status_code mh;
              notify (RecvConnectReply peer_index src_ep 0 seqnum session target start connect_seq status) s
        end
    end.

(* [driver/linux/omx_recv.c:164-275] omx_recv_tiny *)
Definition omx_recv_tiny (mh : list Z) (b : skb) (s : host) : option (Z * host) :=
  peer_index ← get_field dst_src_peer_index mh; length ← get_field msg_length mh; dst_ep ← get_field dst_endpoint mh;
  src_ep ← get_field src_endpoint mh; session ← get_field msg_session mh; seqnum ← get_field lib_seqnum mh;
  piggyack ← get_field lib_piggyack mh;
  if World.OMX_TINY_MSG_LENGTH_MAX <? length then Some (EINVAL, s)
  else if data_too_short length b MSG_HDR then Some (EINVAL, s)
  else
    let err := check_peer mh peer_index s in
    if err <? 0 then Some (err, s)
    else
      with_endpoint (nack_lib peer_index dst_ep src_ep seqnum) dst_ep session (fun s =>
        m ← msg_info_of mh seqnum piggyack; checksum ← get_field msg_checksum mh;
        data ← skb_copy_bits b MSG_HDR (Z.to_nat length);
        notify (RecvTiny m length checksum data) s) s.

(* [driver/linux/omx_recv.c:277-394] omx_recv_small *)
Definition omx_recv_small (mh : list Z) (b : skb) (s : host) : option (Z * host) :=
  peer_index ← get_field dst_src_peer_index mh; length ← get_field msg_length mh; dst_ep ← get_field dst_endpoint mh;
  src_ep ← get_field src_endpoint mh; session ← get_field msg_session mh; seqnum ← get_field lib_seqnum mh;
  piggyack ← get_field lib_piggyack mh;
  if World.OMX_SMALL_MSG_LENGTH_MAX <? length then Some (EINVAL, s)
  else if data_too_short length b MSG_HDR then Some (EINVAL, s)
  else
    let err := check_peer mh peer_index s in
    if err <? 0 then Some (err, s)
    else
      with_endpoint (nack_lib peer_index dst_ep src_ep seqnum) dst_ep session (fun s =>
        m ← msg_info_of mh seqnum piggyack; checksum ← get_field msg_checksum mh;
        notify_with_data (RecvSmall m length checksum) MSG_HDR length b s) s.

(* [driver/linux/omx_recv.c:396-565] omx_recv_medium_frag *)
Definition omx_recv_medium_frag (mh : list Z) (b : skb) (s : host) : option (Z * host) :=
  peer_index ← get_field dst_src_peer_index mh; length ← get_field frag_length mh; dst_ep ← get_field dst_endpoint mh;
  src_ep ← get_field src_endpoint mh; session ← get_field msg_session mh; seqnum ← get_field lib_seqnum mh;
  piggyack ← get_field lib_piggyack mh;
  if OMX_RECVQ_ENTRY_SIZE <? length then Some (EINVAL, s)
  else if data_too_short length b MEDIUM_HDR then Some (EINVAL, s)
  else
    let err := check_peer mh peer_index s in
    if err <? 0 then Some (err, s)
    else
      with_endpoint (nack_lib peer_index dst_ep src_ep seqnum) dst_ep session (fun s =>
        m ← msg_info_of mh seqnum piggyack; total ← get_field medium_length mh; frag ← get_field frag_seqnum mh;
        checksum ← get_field medium_checksum mh;
        notify_with_data (RecvMediumFrag m total length frag checksum) MEDIUM_HDR length b s) s.

(* [driver/linux/omx_recv.c:567-660] omx_recv_rndv *)
Definition omx_recv_rndv (mh : list Z) (b : skb) (s : host) : option (Z * host) :=
  peer_index ← get_field dst_src_peer_index mh; length ← get_field msg_length mh; dst_ep ← get_field dst_endpoint mh;
  src_ep ← get_field src_endpoint mh; session ← get_field msg_session mh; seqnum ← get_field lib_seqnum mh;
  piggyack ← get_field lib_piggyack mh;
  if length <? OMX_PKT_RNDV_DATA_LENGTH then Some (EINVAL, s)
  else
    let err := check_peer mh peer_index s in
    if err <? 0 then Some (err, s)
    else
      with_endpoint (nack_lib peer_index dst_ep src_ep seqnum) dst_ep session (fun s =>
        m ← msg_info_of mh seqnum piggyack; total ← get_field rndv_msg_length mh; id ← get_field rndv_rdma_id mh;
        rdma_seqnum ← get_field rndv_rdma_seqnum mh; offset ← get_field rndv_rdma_offset mh;
        checksum ← get_field msg_checksum mh;
        notify (RecvRndv m total id rdma_seqnum offset checksum) s) s.

(* [driver/linux/omx_recv.c:662-744] omx_recv_notify *)
Definition omx_recv_notify (mh : list Z) (b : skb) (s : host) : option (Z * host) :=
  peer_index ← get_field dst_src_peer_index mh; dst_ep ← get_field dst_endpoint mh; src_ep ← get_field src_endpoint mh;
  session ← get_field notify_session mh; seqnum ← get_field notify_lib_seqnum mh;
  piggyack ← get_field notify_lib_piggyack mh;
  let err := check_peer mh peer_index s in
  if err <? 0 then Some (err, s)
  else
    with_endpoint (nack_lib peer_index dst_ep src_ep seqnum) dst_ep session (fun s =>
      length ← get_field notify_total_length mh; id ← get_field notify_rdma_id mh;
      rdma_seqnum ← get_field notify_rdma_seqnum mh;
      notify (RecvNotify peer_index src_ep seqnum piggyack length id rdma_seqnum) s) s.

(** There is no nack for these packets. *)
(* [driver/linux/omx_recv.c:746-848] omx_recv_truc *)
Definition omx_recv_truc (mh : list Z) (b : skb) (s : host) : option (Z * host) :=
  peer_index ← get_field dst_src_peer_index mh; length ← get_field truc_length mh; dst_ep ← get_field dst_endpoint mh;
  src_ep ← get_field src_endpoint mh; session ← get_field truc_session mh; type ← get_field truc_type mh;
  let err := check_peer mh peer_index s in
  if err <? 0 then Some (err, s)
  else
    with_endpoint (fun _ s => s) dst_ep session (fun s =>
      if negb (type =? OMX_PKT_TRUC_DATA_TYPE_ACK) then Some (0, release s)
      else if length <? OMX_PKT_TRUC_LIBACK_DATA_LENGTH then Some (EINVAL, release s)
      else
        session' ← get_field liback_session_id mh;
        if negb (session =? session') then Some (EINVAL, release s)
        else
          seqnum ← get_field liback_lib_seqnum mh; acknum ← get_field liback_acknum mh;
          send_seq ← get_field liback_send_seq mh; resent ← get_field liback_resent mh;
          notify (RecvLiback peer_index src_ep seqnum acknum send_seq resent) s) s.

(** A sender without index may be known by its address. *)
(* [driver/linux/omx_recv.c:850-943] omx_recv_nack_lib *)
Definition omx_recv_nack_lib (mh : list Z) (b : skb) (s : host) : option (Z * host) :=
  peer_index ← get_field dst_src_peer_index mh; dst_ep ← get_field nack_dst_endpoint mh;
  src_ep ← get_field nack_src_endpoint mh; type ← get_field nack_type mh; seqnum ← get_field nack_lib_seqnum mh;
  let err := check_peer mh peer_index s in
  let peer := if err <? 0 then
                if negb (peer_index =? 0xffff) then None
                else fst <$> Peer.omx_peer_lookup_by_addr_locked (Pull.d_peers (drv s)) (omx_board_addr_from_ethhdr_src mh)
              else Some peer_index in
  match peer with
  | None => Some (err, s)
  | Some peer_index =>
      match Pull.omx_endpoint_acquire_by_iface_index dst_ep (drv s) with
      | inl err => Some (err, s)
      | inr d => notify (RecvNackLib peer_index src_ep seqnum type) (s <| drv := d |>)
      end
  end.

(** [dropped] packets: invalid and unknown types. *)
(* [driver/linux/omx_recv.c:959-984] omx_recv_error *)
Definition omx_recv_error (mh : list Z) (b : skb) (s : host) : option (Z * host) := Some (0, s).

Definition OMX_RAW_RECVQ_LEN : Z := 32.
Definition OMX_RAW_PKT_LEN_MAX : Z := 1024.
Context (alloc_raw : bool).
(* [driver/linux/omx_raw.c:163-199] omx_recv_raw *)
Definition omx_recv_raw (mh : list Z) (b : skb) (s : host) : option (Z * host) :=
  if OMX_RAW_RECVQ_LEN <? Z.of_nat (length (raw_events s)) then Some (0, s)
  else if OMX_RAW_PKT_LEN_MAX <? skb_len b then Some (0, s)
  else if negb alloc_raw then Some (ENOMEM, s)
  else Some (0, s <| raw_events ::= fun l => l ++ [skb_bytes b] |>).
(* [driver/linux/omx_peer.c:881-908] omx_recv_host_query *)
Definition omx_recv_host_query (mh : list Z) (b : skb) (s : host) : option (Z * host) :=
  if bool_decide (take 6 mh <> rev (le_bytes 6 (dev_addr s))) then Some (EINVAL, s)
  else Some (0, s <| omx_host_query_list ::= fun l => l ++ [skb_bytes b] |>).
(* [driver/linux/omx_peer.c:910-940] omx_recv_host_reply *)
Definition omx_recv_host_reply (mh : list Z) (b : skb) (s : host) : option (Z * host) :=
  magic ← get_field host_magic mh;
  if negb (magic =? omx_host_query_magic s) then Some (EINVAL, s)
  else Some (0, s <| omx_host_reply_list ::= fun l => l ++ [skb_bytes b] |>).

(** ** Pulls: the bytes of their packets *)

Definition pull_request_of (mh : list Z) : option Pull.pull_request :=
  dst_ep ← get_field dst_endpoint mh; src_ep ← get_field src_endpoint mh; session ← get_field pull_session mh;
  total ← get_field pull_total_length mh; id ← get_field pull_rdma_id mh; rdma_seqnum ← get_field pull_rdma_seqnum mh;
  offset ← get_field pull_rdma_offset mh; handle ← get_field pull_src_handle mh; magic ← get_field pull_src_magic mh;
  first ← get_field pull_first_frame_offset mh; block ← get_field pull_block_length mh; frame ← get_field pull_frame_index mh;
  Some (Pull.PullRequest dst_ep src_ep session total id rdma_seqnum offset handle magic first block frame).
(** With the data that is behind the header. *)
Definition pull_reply_of (mh : list Z) (b : skb) : option Pull.pull_reply :=
  frame ← get_field reply_frame_seqnum mh; length ← get_field reply_frame_length mh;
  offset ← get_field reply_msg_offset mh; handle ← get_field reply_dst_handle mh; magic ← get_field reply_dst_magic mh;
  Some (Pull.PullReply frame length offset handle magic (drop PULL_REPLY_HDR (skb_bytes b))).
Definition nack_mcp_of (mh : list Z) : option Pull.nack_mcp :=
  src_ep ← get_field nack_src_endpoint mh; type ← get_field nack_type mh; handle ← get_field nack_src_pull_handle mh;
  magic ← get_field nack_src_magic mh; Some (Pull.NackMcp src_ep type handle magic).
(** The environment of the pull handlers: the geometry of the pulls, the
    allocations, the clock. *)
Record pull_env := PullEnv {
  pe_len : Z; pe_per : Z; pe_hz : Z; pe_frags : Z; pe_copy_max : Z; pe_alloc : nat -> bool; pe_alloc_linear : nat -> bool;
  pe_alloc_nack : bool; pe_skbs : nat -> bool; pe_now : Z }.
Context (env : pull_env).
Definition on_driver (x : option (Z * Pull.driver)) (s : host) : option (Z * host) :=
  '(err, d) ← x; Some (err, s <| drv := d |>).
Definition recv_pull_request (mh : list Z) (b : skb) (s : host) : option (Z * host) :=
  peer_index ← get_field dst_src_peer_index mh; q ← pull_request_of mh;
  on_driver (Pull.omx_recv_pull_request (pe_len env) (pe_per env) (pe_frags env) (pe_copy_max env) (Z.of_nat ETH_ZLEN)
    (Z.of_nat PULL_REPLY_HDR) (pe_alloc env) (pe_alloc_linear env) (pe_alloc_nack env)
    (omx_board_addr_from_ethhdr_src mh) peer_index q (drv s)) s.
Definition recv_pull_reply (mh : list Z) (b : skb) (s : host) : option (Z * host) :=
  r ← pull_reply_of mh b;
  on_driver (Pull.omx_recv_pull_reply (pe_len env) (pe_per env) (pe_hz env) (pe_skbs env) (pe_now env) r (drv s)) s.
Definition recv_nack_mcp (mh : list Z) (b : skb) (s : host) : option (Z * host) :=
  peer_index ← get_field dst_src_peer_index mh; n ← nack_mcp_of mh;
  on_driver (Pull.omx_recv_nack_mcp (omx_board_addr_from_ethhdr_src mh) peer_index n (drv s)) s.

(** ** Dispatch *)

(** The handler of a type and the length of its header. *)
(* [driver/linux/omx_recv.c:993-1039] omx_pkt_types_init *)
Definition omx_pkt_type_handler (t : Z) : (list Z -> skb -> host -> option (Z * host)) * nat :=
  if t =? OMX_PKT_TYPE_RAW then (omx_recv_raw, HEAD)
  else if t =? OMX_PKT_TYPE_HOST_QUERY then (omx_recv_host_query, HOST_HDR)
  else if t =? OMX_PKT_TYPE_HOST_REPLY then (omx_recv_host_reply, HOST_HDR)
  else if t =? OMX_PKT_TYPE_TRUC then (omx_recv_truc, TRUC_HDR)
  else if t =? OMX_PKT_TYPE_CONNECT then (omx_recv_connect, CONNECT_HDR)
  else if t =? OMX_PKT_TYPE_TINY then (omx_recv_tiny, MSG_HDR)
  else if t =? OMX_PKT_TYPE_SMALL then (omx_recv_small, MSG_HDR)
  else if t =? OMX_PKT_TYPE_MEDIUM then (omx_recv_medium_frag, MEDIUM_HDR)
  else if t =? OMX_PKT_TYPE_RNDV then (omx_recv_rndv, MSG_HDR)
  else if t =? OMX_PKT_TYPE_PULL then (recv_pull_request, PULL_HDR)
  else if t =? OMX_PKT_TYPE_PULL_REPLY then (recv_pull_reply, PULL_REPLY_HDR)
  else if t =? OMX_PKT_TYPE_NOTIFY then (omx_recv_notify, NOTIFY_HDR)
  else if t =? OMX_PKT_TYPE_NACK_LIB then (omx_recv_nack_lib, NACK_LIB_HDR)
  else if t =? OMX_PKT_TYPE_NACK_MCP then (recv_nack_mcp, NACK_MCP_HDR)
  else (omx_recv_error, HEAD).

(** The type is in the linear part or copied from the packet; a header that is
    not linear is copied, what is behind it then is not initialised.  Errors of
    the handlers are ignored. *)
(* [driver/linux/omx_recv.c:1045-1123] omx_recv *)
Definition omx_recv (b : skb) (s : host) : option host :=
  match skb_copy_bits b HEAD 1 with
  | None => if Nat.leb (HEAD + 1) (skb_headlen b) then None else Some s
  | Some t =>
      let '(handler, hdr_len) := omx_pkt_type_handler (of_le t) in
      mh ← (if Nat.ltb (skb_headlen b) hdr_len then skb_copy_bits b 0 hdr_len
            else Some (take (skb_headlen b) (skb_bytes b)));
      '(err, s) ← handler mh b s; Some s
  end.
End recv.
End RecvMsg.
