(* ===== verification/Crossing.v ===== *)
(** Messages from a host to another: the packets of the commands of one are
    the events of the other. *)
From S2P Require Import Prelude Io Segments World Event EventFifo Peer Reg RegTable Pull Wire Host SendMsg RecvMsg.
Import Mem Io Wire Host SendMsg RecvMsg.

Module Crossing.

#[local] Existing Instances Pull.e_driver Pull.s_d_peers Pull.s_endpoint_refcount.

Section frames.
Context {order : ByteOrder}.

(** ** Packets with the fields of a header *)

(** A packet from [src] to the address [fst t], where the sender has the index
    [snd t], whose header of [hdr] bytes has the [fields]. *)
Record frame_has (hdr : nat) (fields : list (field * Z)) (t : Z * Z) (src : Z) (f : list Z) : Prop := {
  fh_length : (hdr <= length f)%nat;
  fh_field fd v : assigned fd fields = Some v -> (f_off fd + f_size fd <= hdr)%nat ->
    get_field fd f = Some (v mod width (f_size fd));
  fh_dest : take 6 f = rev (le_bytes 6 (fst t));
  fh_peer : get_field dst_src_peer_index f = Some (snd t mod 65536);
  fh_source : omx_board_addr_from_ethhdr_src f = src mod 2 ^ 48;
  fh_type ty : assigned ptype fields = Some ty -> take 1 (drop HEAD f) = [ty mod 256]
}.

Lemma take_drop_prefix (p : list Z) hdr o n : (o + n <= hdr)%nat -> take n (drop o (take hdr p)) = take n (drop o p).
Proof. intros H. rewrite take_drop_commute, take_take, Nat.min_l by lia. by rewrite <- take_drop_commute. Qed.
Lemma get_field_prefix f p hdr : (f_off f + f_size f <= hdr <= length p)%nat -> get_field f (take hdr p) = get_field f p.
Proof.
  intros H. unfold get_field. rewrite length_take, !(proj2 (Nat.leb_le _ _)) by lia. by rewrite take_drop_prefix by lia.
Qed.
Lemma frame_has_prefix hdr fields t src f f' : (HEAD + 1 <= hdr)%nat -> frame_has hdr fields t src f ->
  (hdr <= length f')%nat -> take hdr f' = take hdr f -> frame_has hdr fields t src f'.
Proof.
  unfold HEAD. intros Hh [H1 H2 H0 H3 H4 H5] Hl E. split; [done|..].
  - intros fd v Ha Ho. rewrite <- (get_field_prefix fd f' hdr), E, get_field_prefix by lia. by apply H2.
  - pose proof (take_drop_prefix f' hdr 0 6 ltac:(lia)) as E'. rewrite !drop_0 in E'. rewrite <- E', E, <- H0.
    pose proof (take_drop_prefix f hdr 0 6 ltac:(lia)) as E2. by rewrite !drop_0 in E2.
  - rewrite <- (get_field_prefix _ f' hdr), E, get_field_prefix by (cbn; lia). exact H3.
  - rewrite <- H4. unfold omx_board_addr_from_ethhdr_src. do 2 f_equal.
    by rewrite <- (take_drop_prefix f' hdr), E, take_drop_prefix by lia.
  - intros ty Ht. rewrite <- (H5 ty Ht). unfold HEAD. by rewrite <- (take_drop_prefix f' hdr), E, take_drop_prefix by lia.
Qed.

Lemma slice_fill_ne l o n : forall p, forallb (fun x => Nat.leb (o + n) (f_off (fst x))) l = true ->
  take n (drop o (fill l p)) = take n (drop o p).
Proof.
  induction l as [|[g v] l IH]; intros p H; [done|]. cbn [forallb fst] in H. apply andb_prop in H as [H1%Nat.leb_le H2].
  rewrite fill_cons, IH by done. unfold put_field, put_bytes.
  apply slice_inserts_ne. by left.
Qed.
Lemma slice_fill_ptype l : forall p t, (HEAD < length p)%nat -> assigned ptype l = Some t ->
  take 1 (drop HEAD (fill l p)) = [t mod 256].
Proof.
  induction l as [|[g w] l IH]; intros p t Hp; [done|]. rewrite fill_cons. cbn [assigned].
  destruct (assigned ptype l) as [w'|] eqn:E; [intros [= ->]; apply IH; [by rewrite length_put_field|done]|].
  destruct (forallb _ l) eqn:Hl; [|done]. destruct (field_eqb ptype g) eqn:Hfg; [|done]. intros [= ->].
  apply andb_prop in Hfg as [H1%Nat.eqb_eq H2%Nat.eqb_eq]. assert (g = ptype) as -> by (destruct g as [o n]; cbn in H1, H2; by subst).
  assert (Hkeep : forall p, take 1 (drop HEAD (fill l p)) = take 1 (drop HEAD p)).
  { clear -Hl. induction l as [|[g v] l IH]; intros p; [done|]. cbn [forallb fst] in Hl. apply andb_prop in Hl as [H1 H2].
    rewrite fill_cons, IH by done. unfold put_field, put_bytes.
    apply slice_inserts_ne. rewrite length_le_bytes. unfold disjoint_fields in H1.
    apply orb_prop in H1 as [H1%Nat.leb_le|H1%Nat.leb_le]; cbn in H1; unfold HEAD; lia. }
  rewrite Hkeep. unfold put_field, put_bytes. cbn [f_size f_off ptype].
  change 1%nat with (length (le_bytes 1 (OMX_HTON 1 t))) at 1. rewrite slice_inserts_same by (cbn; unfold HEAD in *; lia).
  cbn [le_bytes]. f_equal. unfold OMX_HTON, bswap. destruct OMX_ENDIAN_COMPAT; cbn; [|apply Z.mod_mod; lia].
  rewrite Z.add_0_r. apply Z.mod_mod. lia.
Qed.

Lemma forallb_impl {A} (P Q : A -> bool) l : forallb P l = true -> (forall x, P x = true -> Q x = true) -> forallb Q l = true.
Proof. rewrite !forallb_forall. eauto. Qed.
(** The fields of the bodies are behind the head. *)
Definition behind_head (fields : list (field * Z)) : bool := forallb (fun x => Nat.leb HEAD (f_off (fst x))) fields.
Definition within (hdr : nat) (fields : list (field * Z)) : bool :=
  forallb (fun x => Nat.leb (f_off (fst x) + f_size (fst x)) hdr) fields.

(** A packet from [src], for [fst t], whose sender has the index [snd t] there. *)
Definition addressed (t : Z * Z) (src : Z) (p : list Z) : Prop :=
  take 6 p = rev (le_bytes 6 (fst t)) /\ get_field dst_src_peer_index p = Some (snd t mod 65536) /\ omx_board_addr_from_ethhdr_src p = src mod 2 ^ 48.
Lemma source_fill_ethhdr src p : (14 <= length p)%nat -> omx_board_addr_from_ethhdr_src (fill_ethhdr src p) = src mod 2 ^ 48.
Proof.
  intros H. unfold omx_board_addr_from_ethhdr_src, fill_ethhdr, put_bytes. set (l := rev (le_bytes 6 src)).
  assert (Hl : length l = 6%nat) by (unfold l; by rewrite length_rev, length_le_bytes). rewrite <- Hl at 1.
  rewrite slice_inserts_same by (rewrite length_inserts; lia). unfold l. rewrite rev_involutive. apply of_le_bytes.
Qed.
Lemma get_index_fill_ethhdr src p : get_field dst_src_peer_index (fill_ethhdr src p) = get_field dst_src_peer_index p.
Proof.
  unfold get_field, fill_ethhdr, put_bytes. rewrite !length_inserts. destruct (Nat.leb _ _); [|done].
  rewrite !slice_inserts_ne; [done|..]; right; rewrite length_rev, length_le_bytes; cbn; lia.
Qed.
Lemma fill_ethhdr_dest src p : take 6 (fill_ethhdr src p) = take 6 p.
Proof. rewrite <- (drop_0 (fill_ethhdr _ _)), <- (drop_0 p). unfold fill_ethhdr, put_bytes. by rewrite !slice_inserts_ne by lia. Qed.
(** The target's index is known, and the packet gets this host's index there. *)
Lemma target_set index p s p' : (HEAD <= length p)%nat -> SendMsg.set_target_peer index p s = inr p' ->
  exists t, Peer.omx_set_target_peer (Pull.d_peers (drv s)) index = inr t /\
    length p' = length p /\ take 6 p' = rev (le_bytes 6 (fst t)) /\ get_field dst_src_peer_index p' = Some (snd t mod 65536) /\
    omx_board_addr_from_ethhdr_src p' = omx_board_addr_from_ethhdr_src p.
Proof.
  unfold SendMsg.set_target_peer, HEAD. intros Hp. destruct (Peer.omx_set_target_peer _ _) as [err|[addr index']]; [done|].
  intros [= <-]. exists (addr, index'). set (p1 := omx_board_addr_to_ethhdr_dst addr p).
  assert (Hl1 : length p1 = length p) by apply length_inserts. split; [done|]. rewrite length_put_field.
  split; [done|]. split.
  { unfold put_field, put_bytes. rewrite <- (drop_0 (list_inserts _ _ _)), slice_inserts_ne by (cbn; lia).
    unfold p1, omx_board_addr_to_ethhdr_dst, put_bytes. set (l := rev _).
    assert (Hl : length l = 6%nat) by (unfold l; by rewrite length_rev, length_le_bytes). rewrite <- Hl at 1.
    apply slice_inserts_same. lia. }
  split; [apply get_field_same; change (14 + 2 <= length p1)%nat; lia|].
  unfold omx_board_addr_from_ethhdr_src. do 2 f_equal. unfold put_field, put_bytes.
  rewrite slice_inserts_ne by (cbn; lia). unfold p1, omx_board_addr_to_ethhdr_dst, put_bytes.
  apply slice_inserts_ne. right. rewrite length_rev, length_le_bytes. lia.
Qed.
Lemma target_error index p s err : SendMsg.set_target_peer index p s = inl err -> err <> 0.
Proof.
  unfold SendMsg.set_target_peer, Peer.omx_set_target_peer. destruct (_ <=? _); [by intros [= <-]|].
  destruct (Peer.omx_peer_array _ !! _); [done|]. by intros [= <-].
Qed.
(** An addressed packet that is filled. *)
Lemma filled hdr fields t src p : behind_head fields = true -> (HEAD + 1 <= hdr <= length p)%nat ->
  addressed t src p -> frame_has hdr fields t src (fill fields p).
Proof.
  unfold behind_head, HEAD. intros He Hp (Hd & Hi & Hs). split.
  - rewrite length_fill. lia.
  - intros fd v Ha Ho. apply get_fill; [lia|done].
  - rewrite <- Hd, <- (drop_0 (fill _ _)), <- (drop_0 p). apply slice_fill_ne.
    apply (forallb_impl _ _ _ He). intros x Hx%Nat.leb_le. apply Nat.leb_le. lia.
  - rewrite get_fill_ne; [done|]. apply (forallb_impl _ _ _ He). intros x Hx%Nat.leb_le. apply orb_true_iff. left.
    by apply Nat.leb_le.
  - rewrite <- Hs. unfold omx_board_addr_from_ethhdr_src. do 2 f_equal. apply slice_fill_ne.
    apply (forallb_impl _ _ _ He). intros x Hx%Nat.leb_le. apply Nat.leb_le. lia.
  - intros ty Ht. apply slice_fill_ptype; [unfold HEAD; lia|done].
Qed.
Lemma fh_value hdr fields t src f fd v : frame_has hdr fields t src f -> assigned fd fields = Some v ->
  (f_off fd + f_size fd <= hdr)%nat -> 0 <= v < width (f_size fd) -> get_field fd f = Some v.
Proof. intros H Ha Ho Hv. rewrite (fh_field _ _ _ _ _ H fd v Ha Ho). by rewrite Z.mod_small. Qed.

(** Data behind the header. *)
Definition carries (hdr : nat) (data f : list Z) : Prop :=
  (hdr + length data <= length f)%nat /\ take (length data) (drop hdr f) = data.
Lemma put_data hdr data fields t src p : (HEAD + 1 <= hdr)%nat -> (hdr + length data <= length p)%nat ->
  frame_has hdr fields t src p ->
  frame_has hdr fields t src (put_bytes hdr data p) /\ carries hdr data (put_bytes hdr data p).
Proof.
  intros Hh Hl H. unfold put_bytes, carries. rewrite length_inserts. split_and!; [|done|by apply slice_inserts_same].
  apply (frame_has_prefix _ _ _ _ _ _ Hh H); [rewrite length_inserts; lia|].
  pose proof (slice_inserts_ne hdr data 0 hdr p (or_introl (le_n _))) as E. by rewrite !drop_0 in E.
Qed.
Lemma fill_data hdr data fields p : within hdr fields = true -> carries hdr data p -> carries hdr data (fill fields p).
Proof.
  intros Hw [H1 H2]. split; [by rewrite length_fill|]. rewrite <- H2 at 2. clear H1 H2. revert p.
  induction fields as [|[g v] l IH]; intros p; [done|]. apply andb_prop in Hw as [H1%Nat.leb_le H2]. rewrite fill_cons, IH by done.
  unfold put_field, put_bytes. apply slice_inserts_ne. right. by rewrite length_le_bytes.
Qed.
Lemma append_data hdr data fields t src p : (HEAD + 1 <= hdr)%nat -> length p = hdr -> frame_has hdr fields t src p ->
  frame_has hdr fields t src (p ++ data) /\ carries hdr data (p ++ data).
Proof.
  intros Hh Hl H. split.
  - apply (frame_has_prefix _ _ _ _ _ _ Hh H); [rewrite length_app; lia|]. rewrite <- Hl. by rewrite take_app_length, firstn_all.
  - unfold carries. rewrite length_app, Hl. split; [lia|]. rewrite <- Hl, drop_app_length. apply firstn_all.
Qed.
End frames.

(** ** Commands of a process, and what they send *)

Inductive command :=
  | CmdConnect (reply : bool) (c : SendMsg.connect_cmd) | CmdTiny (c : SendMsg.send_cmd) | CmdSmall (c : SendMsg.send_cmd)
  | CmdMediumsq (c : SendMsg.send_cmd) | CmdRndv (c : SendMsg.send_cmd) | CmdNotify (c : SendMsg.send_cmd)
  | CmdLiback (c : SendMsg.liback_cmd).
(** The fields have the values of their types. *)
Record send_cmd_ok (c : SendMsg.send_cmd) : Prop := {
  ok_dest : 0 <= SendMsg.sc_dest_endpoint c < 256; ok_session : 0 <= SendMsg.sc_session_id c < 2 ^ 32;
  ok_seqnum : 0 <= SendMsg.sc_seqnum c < 65536; ok_piggyack : 0 <= SendMsg.sc_piggyack c < 65536;
  ok_checksum : 0 <= SendMsg.sc_checksum c < 65536; ok_match : 0 <= SendMsg.sc_match_info c < 2 ^ 64;
  ok_length : 0 <= SendMsg.sc_length c < 2 ^ 32; ok_offset : 0 <= SendMsg.sc_sendq_offset c < 2 ^ 32;
  ok_frag_length : 0 <= SendMsg.sc_frag_length c < 65536; ok_frag_seqnum : 0 <= SendMsg.sc_frag_seqnum c < 256;
  ok_rdma_id : 0 <= SendMsg.sc_rdma_id c < 256; ok_rdma_seqnum : 0 <= SendMsg.sc_rdma_seqnum c < 256 }.
Record connect_cmd_ok (c : SendMsg.connect_cmd) : Prop := {
  okc_index : 0 <= SendMsg.cc_peer_index c < 65536; okc_dest : 0 <= SendMsg.cc_dest_endpoint c < 256;
  okc_seqnum : 0 <= SendMsg.cc_seqnum c < 65536; okc_src_session : 0 <= SendMsg.cc_src_session_id c < 2 ^ 32;
  okc_app_key : 0 <= SendMsg.cc_app_key c < 2 ^ 32; okc_target_session : 0 <= SendMsg.cc_target_session_id c < 2 ^ 32;
  okc_start : 0 <= SendMsg.cc_target_recv_seqnum_start c < 65536; okc_connect_seqnum : 0 <= SendMsg.cc_connect_seqnum c < 256;
  okc_status : 0 <= SendMsg.cc_connect_status_code c < 256 }.
Record liback_cmd_ok (c : SendMsg.liback_cmd) : Prop := {
  okl_dest : 0 <= SendMsg.lc_dest_endpoint c < 256; okl_session : 0 <= SendMsg.lc_session_id c < 2 ^ 32;
  okl_acknum : 0 <= SendMsg.lc_acknum c < 2 ^ 32; okl_seqnum : 0 <= SendMsg.lc_lib_seqnum c < 65536;
  okl_send_seq : 0 <= SendMsg.lc_send_seq c < 65536; okl_resent : 0 <= SendMsg.lc_resent c < 256 }.
Definition command_ok (c : command) : Prop :=
  match c with
  | CmdConnect _ c => connect_cmd_ok c
  | CmdTiny c => send_cmd_ok c /\ SendMsg.sc_length c < 256
  | CmdSmall c | CmdMediumsq c | CmdRndv c | CmdNotify c => send_cmd_ok c
  | CmdLiback c => liback_cmd_ok c
  end.
Definition dest_endpoint (c : command) : Z :=
  match c with
  | CmdConnect _ c => SendMsg.cc_dest_endpoint c
  | CmdTiny c | CmdSmall c | CmdMediumsq c | CmdRndv c | CmdNotify c => SendMsg.sc_dest_endpoint c
  | CmdLiback c => SendMsg.lc_dest_endpoint c
  end.
(** Connections have no session yet. *)
Definition session (c : command) : option Z :=
  match c with
  | CmdConnect _ _ => None
  | CmdTiny c | CmdSmall c | CmdMediumsq c | CmdRndv c | CmdNotify c => Some (SendMsg.sc_session_id c)
  | CmdLiback c => Some (SendMsg.lc_session_id c)
  end.
Definition target_index (c : command) : Z :=
  match c with
  | CmdConnect _ c => SendMsg.cc_peer_index c
  | CmdTiny c | CmdSmall c | CmdMediumsq c | CmdRndv c | CmdNotify c => SendMsg.sc_peer_index c
  | CmdLiback c => SendMsg.lc_peer_index c
  end.
Definition header_length (c : command) : nat :=
  match c with
  | CmdConnect _ _ => CONNECT_HDR | CmdTiny _ | CmdSmall _ => MSG_HDR | CmdMediumsq _ => MEDIUM_HDR | CmdRndv _ => RNDV_HDR
  | CmdNotify _ => NOTIFY_HDR | CmdLiback _ => TRUC_HDR
  end.
Definition header_fields (c : command) (s : host) : list (field * Z) :=
  match c with
  | CmdConnect reply c => SendMsg.connect_fields reply c s
  | CmdTiny c => SendMsg.msg_fields OMX_PKT_TYPE_TINY (SendMsg.sc_length c) c s
  | CmdSmall c => SendMsg.msg_fields OMX_PKT_TYPE_SMALL (SendMsg.sc_length c) c s
  | CmdMediumsq c => SendMsg.medium_fields (SendMsg.sc_length c) (SendMsg.sc_frag_length c) (SendMsg.sc_frag_seqnum c) c s
                       ++ [(medium_checksum, SendMsg.sc_checksum c)]
  | CmdRndv c => SendMsg.rndv_fields c s
  | CmdNotify c => SendMsg.notify_fields c s
  | CmdLiback c => SendMsg.liback_fields c s
  end.

Section sender.
Context {order : ByteOrder}.
(** What the ioctls get from the process and the kernel. *)
Context (umem : Z -> option Z) (uparam : Z) (local : bool) (sk : option (nat -> Z)) (omx_skb_copy_max omx_skb_frags : Z)
  (alloc_event : bool) (get_user_pages : Z -> Z -> Z * list Z) (omx_pin_synchronous : bool) (chunk_min chunk_max : Z).

Definition run_command (c : command) (s : host) : option (option Z * host) :=
  match c with
  | CmdConnect true c => Some (SendMsg.omx_ioctl_send_connect_reply (Some c) local sk s)
  | CmdConnect false c => Some (SendMsg.omx_ioctl_send_connect_request (Some c) local sk s)
  | CmdTiny c => Some (SendMsg.omx_ioctl_send_tiny umem uparam (Some c) sk s)
  | CmdSmall c => Some (SendMsg.omx_ioctl_send_small umem (Some c) sk s)
  | CmdMediumsq c => SendMsg.omx_ioctl_send_mediumsq_frag omx_skb_copy_max omx_skb_frags (Some c) sk alloc_event s
  | CmdRndv c => SendMsg.omx_ioctl_send_rndv get_user_pages omx_pin_synchronous chunk_min chunk_max (Some c) sk s
  | CmdNotify c => Some (SendMsg.omx_ioctl_send_notify (Some c) sk s)
  | CmdLiback c => Some (SendMsg.omx_ioctl_send_liback (Some c) sk s)
  end.
(** The data of the message, from the memory of the process or the send ring. *)
Definition message_data (c : command) (s : host) : option (list Z) :=
  match c with
  | CmdTiny c => SendMsg.copy_from_user umem (uparam + 24) (Z.to_nat (SendMsg.sc_length c))
  | CmdSmall c => SendMsg.copy_from_user umem (SendMsg.sc_vaddr c) (Z.to_nat (SendMsg.sc_length c))
  | CmdMediumsq c => Some (load (sendq s) (SendMsg.sc_sendq_offset c) (Z.to_nat (SendMsg.sc_frag_length c)))
  | _ => Some []
  end.

(** The packet of a command: to a known peer, with its fields and its data. *)
Record packet_of (c : command) (s : host) (t : Z * Z) (data f : list Z) : Prop := {
  po_target : Peer.omx_set_target_peer (Pull.d_peers (drv s)) (target_index c) = inr t;
  po_data : message_data c s = Some data;
  po_header : frame_has (header_length c) (header_fields c s) t (dev_addr s) f;
  po_carries : carries (header_length c) data f }.
Definition sends (c : command) (s s' : host) : Prop :=
  exists t data f, sent_frames s' = sent_frames s ++ [f] /\ packet_of c s t data f.

Lemma carries_nil hdr f : (hdr <= length f)%nat -> carries hdr [] f.
Proof. intros H. split; [cbn; lia|done]. Qed.
Lemma length_fill_ethhdr src p : length (fill_ethhdr src p) = length p.
Proof. unfold fill_ethhdr, put_bytes. by rewrite !length_inserts. Qed.
Lemma new_packet_length junk len s : length (SendMsg.new_packet junk len s) = Nat.max len ETH_ZLEN.
Proof. unfold SendMsg.new_packet. by rewrite length_fill_ethhdr, length_new_skb. Qed.
Lemma new_packet_target junk len index s p : SendMsg.set_target_peer index (SendMsg.new_packet junk len s) s = inr p ->
  exists t, Peer.omx_set_target_peer (Pull.d_peers (drv s)) index = inr t /\
    length p = Nat.max len ETH_ZLEN /\ addressed t (dev_addr s) p.
Proof.
  intros H. apply target_set in H as (t & Ht & Hl & Hd & Hi & Hs).
  2:{ rewrite new_packet_length. unfold HEAD, ETH_ZLEN. lia. }
  exists t. rewrite new_packet_length in Hl. split_and!; [done..|]. split; [done|]. split; [done|]. rewrite Hs.
  apply source_fill_ethhdr. rewrite length_new_skb. unfold ETH_ZLEN. lia.
Qed.
(** A command of which the header is all. *)
Lemma header_sends c s s' : message_data c s = Some [] -> (HEAD + 1 <= header_length c)%nat ->
  behind_head (header_fields c s) = true ->
  SendMsg.send_header (header_length c) sk (target_index c) (header_fields c s) s = (Some 0, s') -> sends c s s'.
Proof.
  unfold SendMsg.send_header. intros Hd Hh Hb. destruct sk as [junk|]; [|done].
  destruct (SendMsg.set_target_peer _ _ _) as [err|p] eqn:Ht; intros [= E]; [destruct (target_error _ _ _ _ Ht E)|].
  subst s'. apply new_packet_target in Ht as (t & Ht & Hl & Ha).
  exists t, [], (fill (header_fields c s) p). split; [unfold queue_xmit; by fsimp|].
  assert (H : frame_has (header_length c) (header_fields c s) t (dev_addr s) (fill (header_fields c s) p))
    by (apply filled; [done| |done]; rewrite Hl; lia).
  split; [done|done|done|]. apply carries_nil, H.
Qed.
(** A small message: its data follows the header. *)
Lemma with_data_sends c addr length type sc s s' : message_data c s = SendMsg.copy_from_user umem addr (Z.to_nat length) ->
  header_length c = MSG_HDR -> header_fields c s = SendMsg.msg_fields type length sc s -> target_index c = SendMsg.sc_peer_index sc ->
  SendMsg.send_with_data umem addr length type sk sc s = (Some 0, s') -> sends c s s'.
Proof.
  unfold SendMsg.send_with_data. intros Hd Hh Hf Ht. destruct sk as [junk|]; [|done].
  destruct (SendMsg.set_target_peer _ _ _) as [err|p] eqn:Hp; [intros [= E _]; destruct (target_error _ _ _ _ Hp E)|].
  destruct (SendMsg.copy_from_user _ _ _) as [data|] eqn:Hc; [|done]. intros [= <-].
  pose proof (length_mapM _ _ _ Hc) as Hl. rewrite length_seqZ, Nat2Z.id in Hl.
  apply new_packet_target in Hp as (t & Hp & Hpl & Ha).
  assert (Hfr : frame_has MSG_HDR (SendMsg.msg_fields type length sc s) t (dev_addr s) (fill (SendMsg.msg_fields type length sc s) p)).
  { apply filled; [done| |done]. rewrite Hpl. change MSG_HDR with 40%nat. unfold HEAD. lia. }
  apply (put_data _ data) in Hfr as [H1 H2]; [|change MSG_HDR with 40%nat; unfold HEAD; lia|rewrite length_fill; lia].
  exists t, data. eexists. split; [unfold queue_xmit; by fsimp|].
  split; [by rewrite Ht|by rewrite Hd|by rewrite Hh, Hf|by rewrite Hh].
Qed.

Lemma attached fuel : forall off remaining acc s data, 0 <= remaining ->
  SendMsg.attach_pages fuel off remaining acc s = Some data -> data = acc ++ load (sendq s) off (Z.to_nat remaining).
Proof.
  induction fuel as [|fuel IH]; intros off remaining acc s data Hr; cbn [SendMsg.attach_pages].
  { destruct (Z.eqb_spec remaining 0) as [->|]; intros [= <-]. by rewrite app_nil_r. }
  destruct (Z.eqb_spec remaining 0) as [->|Hn]; [intros [= <-]; by rewrite app_nil_r|].
  set (chunk := if _ <? remaining then _ else _).
  assert (Hch : 0 < chunk <= remaining) by (unfold chunk, Reg.PAGE_SIZE; case_match eqn:Hlt; [apply Z.ltb_lt in Hlt|]; lia).
  destruct (_ <? _ + chunk); [intros [=]|]. unfold SendMsg.read_sendq. destruct (_ <=? _); [|done]. cbn [mbind option_bind].
  intros H. apply IH in H; [|lia]. subst data. rewrite <- app_assoc. f_equal.
  replace (Z.to_nat remaining) with (Z.to_nat chunk + Z.to_nat (remaining - chunk))%nat by lia.
  by rewrite load_app, Z2Nat.id by lia.
Qed.
Lemma header_frame c fields s t p : header_length c = MEDIUM_HDR -> header_fields c s = fields -> behind_head fields = true ->
  (MEDIUM_HDR <= length p)%nat -> take 6 p = rev (le_bytes 6 (fst t)) -> get_field dst_src_peer_index p = Some (snd t mod 65536) ->
  frame_has (header_length c) (header_fields c s) t (dev_addr s) (fill fields (fill_ethhdr (dev_addr s) p)).
Proof.
  intros -> -> Hb Hl Hd Hi. change MEDIUM_HDR with 48%nat in *. apply filled; [done|rewrite length_fill_ethhdr; unfold HEAD; lia|].
  split; [|split; [by rewrite get_index_fill_ethhdr|apply source_fill_ethhdr; lia]].
  by rewrite fill_ethhdr_dest.
Qed.
Lemma carries_fill_ethhdr hdr data src p : (14 <= hdr)%nat -> carries hdr data p -> carries hdr data (fill_ethhdr src p).
Proof.
  intros Hh [H1 H2]. split; [by rewrite length_fill_ethhdr|]. rewrite <- H2 at 2. unfold fill_ethhdr, put_bytes.
  rewrite !slice_inserts_ne; [done|..]; right; rewrite length_rev, length_le_bytes; lia.
Qed.
Lemma result_inj (x y : host) : Some (Some 0, x) = Some (Some 0, y) -> y = x.
Proof. congruence. Qed.
Lemma mediumsq_sends c s s' : send_cmd_ok c ->
  run_command (CmdMediumsq c) s = Some (Some 0, s') -> sends (CmdMediumsq c) s s'.
Proof.
  intros Hok. pose proof (ok_frag_length _ Hok) as Hfl. cbn [run_command]. unfold SendMsg.omx_ioctl_send_mediumsq_frag.
  destruct (_ <? SendMsg.sc_frag_length c); [done|]. destruct (_ <=? SendMsg.sc_sendq_offset c); [done|].
  destruct (SendMsg.sc_shared c); [done|].
  destruct (_ && _) eqn:Hpath.
  - destruct sk as [junk|]; [|done]. destruct alloc_event; [|done]. cbn [negb].
    destruct (SendMsg.set_target_peer _ _ _) as [err|p] eqn:Hp; [intros [= E _]; destruct (target_error _ _ _ _ Hp E)|].
    destruct (SendMsg.attach_pages _ _ _ _ _) as [data|] eqn:Hat; cbn [mbind option_bind]; [|done]. intros ->%result_inj.
    apply attached in Hat; [|lia]. rewrite app_nil_l in Hat.
    apply target_set in Hp as (t & Ht & Hl & Hd6 & Hi & _).
    2:{ rewrite length_new_skb. change MEDIUM_HDR with 48%nat. unfold HEAD. lia. }
    rewrite length_new_skb in Hl.
    assert (Hfr := header_frame (CmdMediumsq c) _ s t p eq_refl eq_refl eq_refl ltac:(lia) Hd6 Hi).
    apply (append_data _ data) in Hfr as [H1 H2]; [|change (header_length _) with 48%nat; unfold HEAD; lia|].
    2:{ by rewrite length_fill, length_fill_ethhdr. }
    exists t, data. eexists. split; [unfold queue_xmit; by fsimp|].
    split; [done|by rewrite Hat|exact H1|exact H2].
  - destruct sk as [junk|]; [|done].
    destruct (SendMsg.set_target_peer _ _ _) as [err|p] eqn:Hp; [intros [= E _]; destruct (target_error _ _ _ _ Hp E)|].
    unfold SendMsg.read_sendq. destruct (_ <=? SENDQ_SIZE); [|done]. cbn [mbind option_bind]. intros [= <-].
    apply target_set in Hp as (t & Ht & Hl & Hd6 & Hi & _).
    2:{ rewrite length_new_skb. change MEDIUM_HDR with 48%nat. unfold HEAD, ETH_ZLEN. lia. }
    rewrite length_new_skb in Hl. set (data := load _ _ _). assert (Hd : length data = Z.to_nat (SendMsg.sc_frag_length c)) by apply length_load.
    assert (Hc : carries MEDIUM_HDR data (put_bytes MEDIUM_HDR data p)).
    { unfold carries, put_bytes. rewrite length_inserts. split; [lia|]. apply slice_inserts_same. lia. }
    exists t, data, (fill (header_fields (CmdMediumsq c) s) (fill_ethhdr (dev_addr s) (put_bytes MEDIUM_HDR data p))).
    split; [reflexivity|].
    split; [done|done| |].
    + apply header_frame; [done..| | |by rewrite get_field_bytes by (cbn; lia)].
      2:{ rewrite <- Hd6, <- (drop_0 (put_bytes _ _ _)), <- (drop_0 p). apply slice_inserts_ne. left. cbn. lia. }
      unfold put_bytes. rewrite length_inserts. lia.
    + apply fill_data; [done|]. apply carries_fill_ethhdr; [cbn; lia|exact Hc].
Qed.
Lemma rndv_pin_same id d err d' :
  SendMsg.rndv_pin get_user_pages omx_pin_synchronous chunk_min chunk_max id d = Some (err, d') ->
  Pull.d_peers d' = Pull.d_peers d /\ Pull.endpoint_index d' = Pull.endpoint_index d.
Proof.
  unfold SendMsg.rndv_pin. destruct omx_pin_synchronous; [by intros [= _ <-]|].
  destruct (RegTable.omx_user_region_acquire _ _) as [[[a|] rs]|]; [|by intros [= _ <-]|done].
  cbn [mbind option_bind]. destruct (RegTable.heap rs !! a) as [r|]; [|done]. cbn [mbind option_bind].
  destruct (Pull.demand_pin _ _ _ _ _) as [[[r' put] e]|]; [|done]. cbn [mbind option_bind].
  destruct (RegTable.omx_user_region_release _ _ _) as [rs'|]; [|done]. cbn [mbind option_bind].
  intros [= _ <-]. by fsimp.
Qed.
Lemma rndv_sends c s s' : run_command (CmdRndv c) s = Some (Some 0, s') -> sends (CmdRndv c) s s'.
Proof.
  cbn [run_command]. unfold SendMsg.omx_ioctl_send_rndv. destruct (SendMsg.sc_shared c); [done|].
  destruct (SendMsg.rndv_pin _ _ _ _ _ _) as [[err d]|] eqn:Hpin; cbn [mbind option_bind]; [|done].
  apply rndv_pin_same in Hpin as [Hpeers Hindex].
  destruct (Z.ltb_spec err 0) as [Herr|Herr]; [intros [= -> _]; lia|]. intros [= H].
  apply (header_sends (CmdRndv c)) in H as (t & data & f & Hf & [Ht Hd Hh Hc]);
    [|done|change (17 <= 48)%nat; lia|done].
  exists t, data, f. split; [exact Hf|]. split; [by rewrite <- Hpeers|exact Hd| |exact Hc].
  revert Hh. unfold header_fields, SendMsg.rndv_fields, SendMsg.index_of. fsimp. by rewrite Hindex.
Qed.

Lemma command_sends c s s' : command_ok c -> run_command c s = Some (Some 0, s') -> sends c s s'.
Proof.
  assert (H17 : (HEAD + 1 <= CONNECT_HDR)%nat /\ (HEAD + 1 <= NOTIFY_HDR)%nat /\ (HEAD + 1 <= TRUC_HDR)%nat) by (cbn; lia).
  destruct c as [reply c|c|c|c|c|c|c]; intros Hok H; [..|by apply mediumsq_sends|by apply rndv_sends| |].
  - destruct reply; cbn [run_command] in H; injection H as H; [unfold SendMsg.omx_ioctl_send_connect_reply in H|
      unfold SendMsg.omx_ioctl_send_connect_request in H]; destruct (_ && _); try discriminate H;
      (eapply header_sends; [done|apply H17|done|exact H]).
  - destruct Hok as [Hok H8]. pose proof (ok_length _ Hok). cbn [run_command] in H. injection H as H.
    unfold SendMsg.omx_ioctl_send_tiny in H. unfold u8 in H. rewrite Z.mod_small in H by lia.
    destruct (_ <? _); [discriminate H|]. destruct (SendMsg.sc_shared c); [discriminate H|].
    by eapply with_data_sends in H.
  - cbn [run_command] in H. injection H as H. unfold SendMsg.omx_ioctl_send_small in H.
    destruct (_ <? _); [discriminate H|]. destruct (SendMsg.sc_shared c); [discriminate H|]. by eapply with_data_sends in H.
  - cbn [run_command] in H. injection H as H. unfold SendMsg.omx_ioctl_send_notify in H.
    destruct (SendMsg.sc_shared c); [discriminate H|]. eapply header_sends; [done|apply H17|done|exact H].
  - cbn [run_command] in H. injection H as H. unfold SendMsg.omx_ioctl_send_liback in H.
    destruct (SendMsg.lc_shared c); [discriminate H|]. eapply header_sends; [done|apply H17|done|exact H].
Qed.
(** The sizes that the ioctls accept. *)
Definition size_ok (c : command) : Prop :=
  match c with
  | CmdTiny c => SendMsg.sc_length c <= World.OMX_TINY_MSG_LENGTH_MAX
  | CmdSmall c => SendMsg.sc_length c <= World.OMX_SMALL_MSG_LENGTH_MAX
  | CmdMediumsq c => SendMsg.sc_frag_length c <= OMX_RECVQ_ENTRY_SIZE
  | _ => True
  end.
Lemma command_size c s s' : command_ok c -> run_command c s = Some (Some 0, s') -> size_ok c.
Proof.
  destruct c as [reply c|c|c|c|c|c|c]; intros Hok H; try done; cbn [run_command size_ok] in *.
  - destruct Hok as [Hok H8]. pose proof (ok_length _ Hok). injection H as H. unfold SendMsg.omx_ioctl_send_tiny in H.
    unfold u8 in H. rewrite Z.mod_small in H by lia.
    destruct (Z.ltb_spec World.OMX_TINY_MSG_LENGTH_MAX (SendMsg.sc_length c)); [discriminate H|lia].
  - injection H as H. unfold SendMsg.omx_ioctl_send_small in H.
    destruct (Z.ltb_spec World.OMX_SMALL_MSG_LENGTH_MAX (SendMsg.sc_length c)); [discriminate H|lia].
  - unfold SendMsg.omx_ioctl_send_mediumsq_frag in H.
    change (2 ^ World.OMX_SENDQ_ENTRY_SHIFT) with OMX_RECVQ_ENTRY_SIZE in H.
    destruct (Z.ltb_spec OMX_RECVQ_ENTRY_SIZE (SendMsg.sc_frag_length c)); [discriminate H|lia].
Qed.
(** ** Medium messages from the segments of the process *)

(** Each segment's bytes, in the memory of the process. *)
Definition seg_bytes (seg : Z * Z) (l : list Z) : Prop :=
  0 <= snd seg < 2 ^ 32 /\ SendMsg.copy_from_user umem (fst seg) (Z.to_nat (snd seg)) = Some l.
Lemma copy_from_user_split addr n m l : SendMsg.copy_from_user umem addr (n + m) = Some l ->
  SendMsg.copy_from_user umem addr n = Some (take n l) /\
  SendMsg.copy_from_user umem (addr + Z.of_nat n) m = Some (drop n l).
Proof.
  unfold SendMsg.copy_from_user. rewrite Nat2Z.inj_add, seqZ_app by lia.
  intros H. apply mapM_Some in H. apply Forall2_app_inv_l in H as (l1 & l2 & H1 & H2 & ->).
  pose proof (Forall2_length _ _ _ H1) as Hl. rewrite length_seqZ, Nat2Z.id in Hl.
  rewrite Hl, take_app_length, drop_app_length. rewrite <- Hl. by rewrite !(proj2 (mapM_Some _ _ _)) by done.
Qed.

Section segments.
Context (usegs : list (Z * Z)) (bytes : list (list Z)) (beyond : nat -> Z * Z).
Context (Hsegs : Forall2 seg_bytes usegs bytes).
#[local] Notation seg := (fun i => default (beyond i) (usegs !! i)).

(** At [vaddr] of the segment [k], of which [r] bytes are left: what is left of
    the message. *)
Definition left_bytes (k : nat) (vaddr r : Z) (rest : list Z) : Prop :=
  (exists l, (k < length usegs)%nat /\ 0 <= r < 2 ^ 32 /\ SendMsg.copy_from_user umem vaddr (Z.to_nat r) = Some l /\
     rest = l ++ concat (drop (S k) bytes)) \/
  (length usegs <= k)%nat /\ rest = [].
Lemma left_next k : left_bytes k (fst (seg k)) (snd (seg k)) (concat (drop k bytes)).
Proof.
  cbv beta. pose proof (Forall2_length _ _ _ Hsegs) as Hl. destruct (usegs !! k) as [[a n]|] eqn:Hk; cbn [default].
  - destruct (Forall2_lookup_l _ _ _ _ _ Hsegs Hk) as (l & Hb & [Hn Hc]). left. exists l.
    split; [by eapply lookup_lt_Some|]. split; [exact Hn|]. split; [exact Hc|]. by rewrite (drop_S _ _ _ Hb).
  - right. apply lookup_ge_None in Hk. split; [done|]. by rewrite drop_ge by lia.
Qed.

(** The data of a fragment: the next bytes of the message, whatever is behind
    the array of the segments. *)
Lemma copied fuel : forall k vaddr r frag data rest, left_bytes k vaddr r rest ->
  0 <= frag < 65536 -> frag <= Z.of_nat (length rest) -> (length usegs <= fuel + k)%nat ->
  exists k' vaddr' r', SendMsg.mediumva_copy fuel umem seg k vaddr r frag data =
      Some (Some (data ++ take (Z.to_nat frag) rest, k', vaddr', r')) /\
    left_bytes k' vaddr' r' (drop (Z.to_nat frag) rest).
Proof.
  induction fuel as [|fuel IH]; intros k vaddr r frag data rest Hleft Hf Hrest Hfuel; cbn [SendMsg.mediumva_copy].
  all: destruct (Z.eqb_spec frag 0) as [->|Hn0]; [exists k, vaddr, r; rewrite take_0, drop_0, app_nil_r; by split|].
  { destruct Hleft as [(l & Hk & _)|[_ ->]]; [lia|cbn in Hrest; lia]. }
  destruct Hleft as [(l & Hk & Hr & Hc & ->)|[_ ->]]; [|cbn in Hrest; lia].
  pose proof (length_mapM _ _ _ Hc) as Hl. rewrite length_seqZ in Hl. rewrite length_app in Hrest.
  set (chunk := u16 _). assert (Hch : chunk = Z.min r frag).
  { unfold chunk, u16. destruct (Z.ltb_spec r frag); rewrite Z.mod_small by lia; lia. }
  clearbody chunk. subst chunk.
  replace (Z.to_nat r) with (Z.to_nat (Z.min r frag) + Z.to_nat (r - Z.min r frag))%nat in Hc by lia.
  apply copy_from_user_split in Hc as [Hc1 Hc2]. rewrite Hc1.
  destruct (Z.eqb_spec (Z.min r frag) r) as [He|He].
  - rewrite He, take_ge by lia. destruct (IH (S k) (fst (seg (S k))) (snd (seg (S k))) (frag - r) (data ++ l)
      (concat (drop (S k) bytes)) (left_next (S k))) as (k' & a' & r' & -> & Hl'); [lia..|].
    exists k', a', r'. rewrite <- app_assoc, take_app_ge, drop_app_ge by lia.
    replace (Z.to_nat frag - length l)%nat with (Z.to_nat (frag - r)) by lia. by split.
  - assert (frag < r) by lia. replace (Z.min r frag) with frag in * by lia.
    rewrite Z.sub_diag. exists k, (vaddr + frag), (r - frag). rewrite take_app_le, drop_app_le by lia.
    split; [by destruct fuel|]. left. exists (drop (Z.to_nat frag) l). rewrite Z2Nat.id in Hc2 by lia. split_and!; [done|lia..|exact Hc2|done].
Qed.

Definition frag_max : nat := Z.to_nat World.OMX_MEDIUM_FRAG_LENGTH_MAX.
Lemma frag_max_Z : Z.of_nat frag_max = 8192.
Proof. reflexivity. Qed.
(** A packet with the fragment [idx] of a message. *)
Definition fragment_of (c : SendMsg.send_cmd) (s : host) (t : Z * Z) (idx : Z) (data f : list Z) : Prop :=
  frame_has MEDIUM_HDR (SendMsg.medium_fields (SendMsg.sc_length c) (Z.of_nat (length data)) idx c s) t (dev_addr s) f /\
  carries MEDIUM_HDR data f.
Context (sks : nat -> option (nat -> Z)) (Hsks : forall i, sks i <> None).
Lemma frags_sent c t n : forall frag k vaddr r remaining s rest, left_bytes k vaddr r rest ->
  remaining = Z.of_nat (length rest) -> remaining < 2 ^ 32 -> Z.of_nat n = (remaining + 8191) / 8192 ->
  Peer.omx_set_target_peer (Pull.d_peers (drv s)) (SendMsg.sc_peer_index c) = inr t ->
  exists frames s', SendMsg.mediumva_frags n (length usegs) umem seg sks c frag k vaddr r remaining s = Some (Some 0, s') /\
    sent_frames s' = sent_frames s ++ frames /\ length frames = n /\
    forall i f, frames !! i = Some f -> fragment_of c s t (frag + Z.of_nat i) (take frag_max (drop (i * frag_max) rest)) f.
Proof.
  pose proof frag_max_Z as Hmx. induction n as [|n IH]; intros frag k vaddr r remaining s rest Hleft Hrem Hmax Hn Ht; cbn [SendMsg.mediumva_frags].
  { exists [], s. by rewrite app_nil_r. }
  destruct (sks (Z.to_nat frag)) as [junk|] eqn:Hsk; [|by destruct (Hsks (Z.to_nat frag))].
  set (frag_len := u16 _). assert (Hlen : frag_len = Z.min 8192 remaining).
  { unfold frag_len, u16. change World.OMX_MEDIUM_FRAG_LENGTH_MAX with 8192.
    destruct (Z.ltb_spec 8192 remaining); rewrite Z.mod_small by lia; lia. }
  clearbody frag_len. subst frag_len. set (p := omx_new_skb junk _).
  assert (Hp : length p = Nat.max (MEDIUM_HDR + Z.to_nat (Z.min 8192 remaining)) ETH_ZLEN) by apply length_new_skb.
  destruct (SendMsg.set_target_peer (SendMsg.sc_peer_index c) p s) as [err|p'] eqn:Htp.
  { revert Htp. unfold SendMsg.set_target_peer. rewrite Ht. by destruct t. }
  apply target_set in Htp as (t' & Ht' & Hl' & Hd & Hi & _); [|rewrite Hp; change MEDIUM_HDR with 48%nat; unfold HEAD; lia].
  rewrite Ht in Ht'. injection Ht' as <-.
  destruct (copied (length usegs + Z.to_nat (Z.min 8192 remaining)) k vaddr r (Z.min 8192 remaining) [] rest Hleft)
    as (k' & a' & r' & -> & Hleft'); [lia..|]. cbn [mbind option_bind app].
  set (data := take _ rest). assert (Hdata : data = take frag_max rest /\ Z.of_nat (length data) = Z.min 8192 remaining).
  { unfold data. rewrite length_take. split; [|lia]. destruct (Z.le_gt_cases remaining 8192); [|f_equal; lia].
    rewrite !take_ge by lia. done. }
  clearbody data. destruct Hdata as [Hdata Hdl].
  set (f := put_bytes MEDIUM_HDR data _).
  assert (Hf : fragment_of c s t frag data f).
  { unfold fragment_of, f. rewrite Hdl. apply put_data; [change MEDIUM_HDR with 48%nat; unfold HEAD; lia| |].
    - rewrite length_fill, length_fill_ethhdr. lia.
    - apply filled; [done|rewrite length_fill_ethhdr; change MEDIUM_HDR with 48%nat in *; unfold HEAD; lia|].
      change MEDIUM_HDR with 48%nat in *. split; [|split; [by rewrite get_index_fill_ethhdr|apply source_fill_ethhdr; lia]].
      by rewrite fill_ethhdr_dest. }
  clearbody f.
  destruct (IH (frag + 1) k' a' r' (u32 (remaining - Z.min 8192 remaining)) (queue_xmit f s) _ Hleft') as (frames & s' & -> & Hs & Hnf & Hfr).
  - rewrite length_drop, u32_small by lia. lia.
  - rewrite u32_small by lia. lia.
  - rewrite u32_small by lia. clear -Hn Hrem. Z.to_euclidean_division_equations. lia.
  - exact Ht.
  - exists (f :: frames), s'. split; [done|]. split; [rewrite Hs; unfold queue_xmit; fsimp; by rewrite <- app_assoc|].
    split; [cbn; lia|]. intros [|i] g Hg.
    + injection Hg as <-. rewrite Z.add_0_r. change (0 * frag_max)%nat with O. rewrite drop_0, <- Hdata. exact Hf.
    + pose proof (lookup_lt_Some _ _ _ Hg) as Hin. apply Hfr in Hg. rewrite drop_drop in Hg.
      replace (frag + 1 + Z.of_nat i) with (frag + Z.of_nat (S i)) in Hg by lia.
      destruct (Z.le_gt_cases remaining 8192) as [Hs8|Hs8].
      * exfalso. cbn [length] in Hin. rewrite Hnf in Hin. clear -Hin Hn Hs8. Z.to_euclidean_division_equations. lia.
      * replace (S i * frag_max)%nat with (Z.to_nat (Z.min 8192 remaining) + i * frag_max)%nat by lia. exact Hg.
Qed.
Lemma total_length : forall x, 0 <= x -> x + Z.of_nat (length (concat bytes)) < 2 ^ 32 ->
  fold_left (fun r u => u32 (r + snd u)) usegs x = x + Z.of_nat (length (concat bytes)).
Proof.
  clear Hsks. induction Hsegs as [|seg l segs ls [Hn Hc] Hrest IH]; intros x Hx Hsum; cbn [fold_left concat] in *; [cbn; lia|].
  apply length_mapM in Hc. rewrite length_seqZ in Hc. rewrite length_app in Hsum |- *.
  rewrite IH; [|done|..]; rewrite u32_small by lia; lia.
Qed.
End segments.
End sender.

(** ** What a packet becomes at its target *)

Section receiver.
Context {order : ByteOrder}.
Context (nack_skb : option (nat -> Z)) (alloc_raw : bool) (env : RecvMsg.pull_env).
#[local] Notation system := (@EventFifo.system devt).
#[local] Notation fifo := (@EventFifo.fifo devt).

(** The event of a command of endpoint [me], when the sender has the index
    [peer] at the target and the data is at [off] in the receive ring. *)
Definition msg_of (c : SendMsg.send_cmd) (me peer : Z) : msg_info :=
  MsgInfo peer me (SendMsg.sc_seqnum c) (SendMsg.sc_piggyack c) (SendMsg.sc_match_info c).
Definition event_of (c : command) (me peer off : Z) (data : list Z) : devt :=
  match c with
  | CmdConnect false c => RecvConnectRequest peer me 0 (SendMsg.cc_seqnum c) (SendMsg.cc_src_session_id c) (SendMsg.cc_app_key c)
      (SendMsg.cc_target_recv_seqnum_start c) (SendMsg.cc_connect_seqnum c)
  | CmdConnect true c => RecvConnectReply peer me 0 (SendMsg.cc_seqnum c) (SendMsg.cc_src_session_id c)
      (SendMsg.cc_target_session_id c) (SendMsg.cc_target_recv_seqnum_start c) (SendMsg.cc_connect_seqnum c)
      (SendMsg.cc_connect_status_code c)
  | CmdTiny c => RecvTiny (msg_of c me peer) (SendMsg.sc_length c) (SendMsg.sc_checksum c) data
  | CmdSmall c => RecvSmall (msg_of c me peer) (SendMsg.sc_length c) (SendMsg.sc_checksum c) off
  | CmdMediumsq c => RecvMediumFrag (msg_of c me peer) (SendMsg.sc_length c) (SendMsg.sc_frag_length c)
      (SendMsg.sc_frag_seqnum c) (SendMsg.sc_checksum c) off
  | CmdRndv c => RecvRndv (msg_of c me peer) (SendMsg.sc_length c) (SendMsg.sc_rdma_id c) (SendMsg.sc_rdma_seqnum c) 0
      (SendMsg.sc_checksum c)
  | CmdNotify c => RecvNotify peer me (SendMsg.sc_seqnum c) (SendMsg.sc_piggyack c) (SendMsg.sc_length c)
      (SendMsg.sc_rdma_id c) (SendMsg.sc_rdma_seqnum c)
  | CmdLiback c => RecvLiback peer me (SendMsg.lc_lib_seqnum c) (SendMsg.lc_acknum c) (SendMsg.lc_send_seq c)
      (SendMsg.lc_resent c)
  end.
Definition uses_ring (c : command) : bool := match c with CmdSmall _ | CmdMediumsq _ => true | _ => false end.
(** The peers of the target after the packet: a connection tells the index
    that the sender gave the target. *)
Definition peers_after (c : command) (peer : Z) (t : Peer.peers) : Peer.peers :=
  match c with CmdConnect _ c => Peer.omx_peer_set_reverse_index peer (SendMsg.cc_peer_index c) t | _ => t end.

(** The target has the endpoint open and knows the sender: by the index the
    sender uses, or by its address. *)
Record accepts (c : command) (rev src peer : Z) (s : host) : Prop := {
  ac_index : Pull.endpoint_index (drv s) = dest_endpoint c;
  ac_max : dest_endpoint c < Pull.endpoint_max (drv s);
  ac_ok : Pull.endpoint_ok (drv s) = true;
  ac_session : forall x, session c = Some x -> Pull.session_id (drv s) = x;
  ac_peer : match c with
            | CmdConnect _ _ =>
                exists addr, Peer.omx_peer_lookup_by_addr_locked (Pull.d_peers (drv s)) (src mod 2 ^ 48) = Some (peer, addr)
            | _ => Peer.omx_check_recv_peer_index (Pull.d_peers (drv s)) rev 0 = 0 /\ peer = rev
            end }.
(** The bytes of the packet arrive, the network may add some.  The header of a
    rendezvous must be linear. *)
Record arrives (c : command) (f : list Z) (b : RecvMsg.skb) : Prop := {
  ar_prefix : take (length f) (RecvMsg.skb_bytes b) = f;
  ar_length : Z.of_nat (length (RecvMsg.skb_bytes b)) < 2 ^ 32;
  ar_linear : (RecvMsg.skb_headlen b <= length (RecvMsg.skb_bytes b))%nat;
  ar_rndv : match c with CmdRndv _ => (RNDV_HDR <= RecvMsg.skb_headlen b)%nat | _ => True end }.

(** The host after: the event is the last one of the queue when it has room,
    its data is in the slot of the receive ring. *)
Definition delivered (c : command) (me peer : Z) (data : list Z) (s : host) (x u : Z) (fs : fifo * fifo) (s' : host) : Prop :=
  let off := Event.recvq_offset (Event.next_recvq_index (evq s)) in
  let room := EventFifo.room (snd fs) 1 in
  EventFifo.system_ok (EventFifo.System (evq s') x u)
    (fst fs, if room then EventFifo.push (event_of c me peer off data) (snd fs) else snd fs) /\
  drv s' = (drv s) <| Pull.d_peers ::= peers_after c peer |> /\
  recvq s' = (if room && uses_ring c then store (recvq s) off data else recvq s) /\
  sent_frames s' = sent_frames s.

(** *** The pieces of the handlers *)

Lemma driver_acquire_release (d : Pull.driver) :
  Pull.omx_endpoint_release (d <| Pull.endpoint_refcount ::= fun n => n + 1 |>) = d.
Proof.
  destruct d as [d_peers endpoint_max endpoint_index endpoint_ok session_id endpoint_refcount d_regions
    pull_handle_slots_array pull_handle_slots_free_list pull_handles_list d_handles d_events d_sent d_mem].
  change (Pull.omx_endpoint_release _) with (Pull.Driver d_peers endpoint_max endpoint_index endpoint_ok session_id (endpoint_refcount + 1 - 1) d_regions pull_handle_slots_array pull_handle_slots_free_list pull_handles_list d_handles d_events d_sent d_mem).
  by rewrite Z.add_simpl_r.
Qed.
(** An event is the last of the queue when it has room. *)
Lemma report_pushes (e : devt) q x u (fx fu : fifo) : EventFifo.system_ok (EventFifo.System q x u) (fx, fu) ->
  EventFifo.system_ok (EventFifo.System (snd (Event.omx_notify_unexp_event e q)) x u)
    (fx, if EventFifo.room fu 1 then EventFifo.push e fu else fu).
Proof.
  intros Hq. pose proof (EventFifo.sim_notify_unexp EvtNone e _ _ Hq) as [_ H].
  cbn [EventFifo.impl_step EventFifo.s_ep EventFifo.s_exp EventFifo.s_unexp] in H.
  destruct (Event.omx_notify_unexp_event e q) as [err q']. cbn in H |- *. unfold EventFifo.spec_step in H. cbn in H.
  unfold EventFifo.push_if in H. by destruct (EventFifo.room fu 1).
Qed.
(** A slot is reserved when the queue has room; the event that is then committed
    is the last of the queue. *)
Lemma slot_pushes (q : @Event.endpoint devt) x u (fx fu : fifo) : EventFifo.system_ok (EventFifo.System q x u) (fx, fu) -> EventFifo.reserved fu = O ->
  match Event.omx_prepare_notify_unexp_event_with_recvq q with
  | (inl err, q') => EventFifo.room fu 1 = false /\ EventFifo.system_ok (EventFifo.System q' x u) (fx, fu)
  | (inr off, q1) => EventFifo.room fu 1 = true /\ off = Event.recvq_offset (Event.next_recvq_index q) /\
      forall e, exists q', Event.omx_commit_notify_unexp_event_with_recvq e q1 = Some q' /\
        EventFifo.system_ok (EventFifo.System q' x u) (fx, EventFifo.push e fu)
  end.
Proof.
  intros Hq Hr. pose proof (EventFifo.sim_prepare_one EvtNone _ _ Hq) as [Hcode H].
  cbn [EventFifo.impl_step EventFifo.s_ep EventFifo.s_exp EventFifo.s_unexp] in H, Hcode.
  unfold EventFifo.spec_step in H, Hcode. cbn [EventFifo.is_exp EventFifo.spec_unexp fst snd] in H, Hcode.
  unfold EventFifo.push_if in H, Hcode.
  assert (Hret : match fst (Event.omx_prepare_notify_unexp_event_with_recvq q) with
                 | inl err => err = Event.EBUSY | inr off => off = Event.recvq_offset (Event.next_recvq_index q) end).
  { unfold Event.omx_prepare_notify_unexp_event_with_recvq. by destruct (Event.unexp_full _). }
  destruct (Event.omx_prepare_notify_unexp_event_with_recvq q) as [[err|off] q1]; cbn [fst] in Hret; subst.
  - destruct (EventFifo.room fu 1); [discriminate Hcode|]. by split.
  - destruct (EventFifo.room fu 1); [|discriminate Hcode]. split; [done|]. split; [done|]. intros e. cbn [fst snd] in H.
    pose proof (EventFifo.sim_commit EvtNone e _ _ H) as [Hcode2 H2].
    cbn [EventFifo.impl_step EventFifo.s_ep EventFifo.s_exp EventFifo.s_unexp] in H2, Hcode2.
    unfold EventFifo.spec_step in H2, Hcode2. cbn [EventFifo.is_exp EventFifo.spec_unexp fst snd EventFifo.reserved] in H2, Hcode2.
    rewrite Hr in H2, Hcode2. cbn [Nat.add] in H2, Hcode2.
    destruct (Event.omx_commit_notify_unexp_event_with_recvq e q1) as [q'|]; [|discriminate Hcode2]. exists q'. split; [done|].
    revert H2. cbn [EventFifo.or_panic fst snd EventFifo.pending EventFifo.held]. unfold EventFifo.push. by rewrite Hr.
Qed.
Lemma notify_delivers e s s0 x u fx fu : EventFifo.system_ok (EventFifo.System (evq s) x u) (fx, fu) ->
  drv s = (drv s0) <| Pull.endpoint_refcount ::= fun n => n + 1 |> ->
  exists err s', RecvMsg.notify e s = Some (err, s') /\
    EventFifo.system_ok (EventFifo.System (evq s') x u) (fx, if EventFifo.room fu 1 then EventFifo.push e fu else fu) /\
    drv s' = drv s0 /\ recvq s' = recvq s /\ sent_frames s' = sent_frames s.
Proof.
  intros Hq Hd. apply (report_pushes e) in Hq. unfold RecvMsg.notify, RecvMsg.release.
  destruct (Event.omx_notify_unexp_event e (evq s)) as [err q]. eexists err, _. split; [reflexivity|]. fsimp.
  split_and!; [exact Hq|by rewrite Hd, driver_acquire_release|done|done].
Qed.
(** The bytes of a received packet that carries data. *)
Lemma copies_data hdr data b : carries hdr data (RecvMsg.skb_bytes b) -> RecvMsg.skb_copy_bits b hdr (length data) = Some data.
Proof. intros [H1 H2]. unfold RecvMsg.skb_copy_bits. by rewrite (proj2 (Nat.leb_le _ _)), H2 by done. Qed.
Lemma enough_data hdr data b : carries hdr data (RecvMsg.skb_bytes b) -> Z.of_nat (length (RecvMsg.skb_bytes b)) < 2 ^ 32 ->
  RecvMsg.data_too_short (Z.of_nat (length data)) b hdr = false.
Proof.
  intros [H1 _] H2. unfold RecvMsg.data_too_short, RecvMsg.skb_len, u64. apply Z.ltb_ge.
  rewrite Z.mod_small; lia.
Qed.
Lemma notify_with_data_delivers e hdr data b s s0 x u fx fu : EventFifo.system_ok (EventFifo.System (evq s) x u) (fx, fu) ->
  EventFifo.reserved fu = O -> drv s = (drv s0) <| Pull.endpoint_refcount ::= fun n => n + 1 |> ->
  carries hdr data (RecvMsg.skb_bytes b) ->
  let off := Event.recvq_offset (Event.next_recvq_index (evq s)) in
  exists err s', RecvMsg.notify_with_data e hdr (Z.of_nat (length data)) b s = Some (err, s') /\
    EventFifo.system_ok (EventFifo.System (evq s') x u)
      (fx, if EventFifo.room fu 1 then EventFifo.push (e off) fu else fu) /\
    drv s' = drv s0 /\ recvq s' = (if EventFifo.room fu 1 then store (recvq s) off data else recvq s) /\
    sent_frames s' = sent_frames s.
Proof.
  intros Hq Hr Hd Hc off. pose proof (slot_pushes _ _ _ _ _ Hq Hr) as H. unfold RecvMsg.notify_with_data, RecvMsg.release.
  destruct (Event.omx_prepare_notify_unexp_event_with_recvq (evq s)) as [[err|off'] q].
  - destruct H as [-> H]. eexists err, _. split; [reflexivity|]. fsimp.
    split_and!; [exact H|by rewrite Hd, driver_acquire_release|done|done].
  - destruct H as (-> & -> & H). destruct (H (e off)) as (q' & E & H').
    rewrite Nat2Z.id, (copies_data _ _ _ Hc). cbn [mbind option_bind]. fsimp. fold off. rewrite E. cbn [mbind option_bind].
    eexists 0, _. split; [reflexivity|]. fsimp. split_and!; [exact H'|by rewrite Hd, driver_acquire_release|done|done].
Qed.
Lemma acquire_opens d i : Pull.endpoint_index d = i -> i < Pull.endpoint_max d -> Pull.endpoint_ok d = true -> 0 <= i < 256 ->
  Pull.omx_endpoint_acquire_by_iface_index i d = inr (d <| Pull.endpoint_refcount ::= fun n => n + 1 |>).
Proof.
  intros Hi Hm Ho Hr. unfold Pull.omx_endpoint_acquire_by_iface_index, u8. rewrite Z.mod_small by lia.
  by rewrite (proj2 (Z.leb_gt _ _)), Hi, Z.eqb_refl, Ho by done.
Qed.
Lemma endpoint_opens nack c me rev peer k s : accepts c me rev peer s -> 0 <= dest_endpoint c < 256 ->
  forall x, session c = Some x ->
  RecvMsg.with_endpoint nack (dest_endpoint c) x k s = k (s <| drv ::= fun d => d <| Pull.endpoint_refcount ::= fun n => n + 1 |> |>).
Proof.
  intros [Hi Hm Ho Hs _] Hc x Hx. unfold RecvMsg.with_endpoint. rewrite (acquire_opens _ _ Hi Hm Ho Hc).
  by change (Pull.session_id _) with (Pull.session_id (drv s)); rewrite (Hs x Hx), Z.eqb_refl.
Qed.
Definition packet_type (c : command) : Z :=
  match c with
  | CmdConnect _ _ => OMX_PKT_TYPE_CONNECT | CmdTiny _ => OMX_PKT_TYPE_TINY | CmdSmall _ => OMX_PKT_TYPE_SMALL
  | CmdMediumsq _ => OMX_PKT_TYPE_MEDIUM | CmdRndv _ => OMX_PKT_TYPE_RNDV | CmdNotify _ => OMX_PKT_TYPE_NOTIFY
  | CmdLiback _ => OMX_PKT_TYPE_TRUC
  end.
Lemma packet_type_assigned c s : assigned ptype (header_fields c s) = Some (packet_type c).
Proof. by destruct c as [[]| | | | | |]. Qed.
(** The handler of the command's packets gets a header with all its fields. *)
Lemma dispatched c t src f b s0 s :
  frame_has (header_length c) (header_fields c s0) t src f -> arrives c f b ->
  exists mh, frame_has (header_length c) (header_fields c s0) t src mh /\
    RecvMsg.omx_recv nack_skb alloc_raw env b s =
      ('(err, s) ← fst (RecvMsg.omx_pkt_type_handler nack_skb alloc_raw env (packet_type c)) mh b s; Some s).
Proof.
  intros Hf [Hp Hlen Hlin Hr]. set (bytes := RecvMsg.skb_bytes b) in *.
  assert (Hfl : (length f <= length bytes)%nat) by (rewrite <- Hp, length_take; lia).
  pose proof (fh_length _ _ _ _ _ Hf) as Hhl.
  assert (Hh : (HEAD + 1 <= header_length c)%nat) by (destruct c; cbn; lia).
  assert (Hb : frame_has (header_length c) (header_fields c s0) t src bytes).
  { apply (frame_has_prefix _ _ _ _ _ _ Hh Hf); [lia|]. by rewrite <- Hp, take_take, Nat.min_l by lia. }
  assert (Ht : RecvMsg.skb_copy_bits b HEAD 1 = Some [packet_type c mod 256]).
  { unfold RecvMsg.skb_copy_bits. fold bytes. rewrite (proj2 (Nat.leb_le _ _)) by lia. f_equal.
    apply (fh_type _ _ _ _ _ Hb), packet_type_assigned. }
  unfold RecvMsg.omx_recv. rewrite Ht.
  replace (of_le [packet_type c mod 256]) with (packet_type c) by (by destruct c as [[]| | | | | |]).
  destruct (RecvMsg.omx_pkt_type_handler nack_skb alloc_raw env (packet_type c)) as [handler hdr_len] eqn:Hty. cbn [fst].
  assert (Hk : (header_length c <= (if Nat.ltb (RecvMsg.skb_headlen b) hdr_len then hdr_len else RecvMsg.skb_headlen b))%nat /\
               (hdr_len <= header_length c)%nat).
  { destruct (Nat.ltb_spec (RecvMsg.skb_headlen b) hdr_len) as [E|E]; destruct c; cbn in Hty, Hr; injection Hty as _ <-;
      cbn [header_length] in *; unfold RNDV_HDR, MSG_HDR, CONNECT_HDR, MEDIUM_HDR, NOTIFY_HDR, TRUC_HDR, HEAD in *; lia. }
  assert (Htake : forall k, (header_length c <= k <= length bytes)%nat ->
            frame_has (header_length c) (header_fields c s0) t src (take k bytes)).
  { intros k Hkk. apply (frame_has_prefix _ _ _ _ _ _ Hh Hb); [rewrite length_take; lia|]. by rewrite take_take, Nat.min_l by lia. }
  destruct (Nat.ltb (RecvMsg.skb_headlen b) hdr_len).
  - exists (take hdr_len bytes). split; [apply Htake; lia|]. unfold RecvMsg.skb_copy_bits. fold bytes.
    by rewrite (proj2 (Nat.leb_le _ _)) by lia.
  - exists (take (RecvMsg.skb_headlen b) bytes). split; [apply Htake; lia|done].
Qed.
(** Reading the header of a packet: every field that the handler reads has the
    value of the command. *)
Ltac read_fields H :=
  repeat match goal with
  | |- context [get_field dst_src_peer_index ?mh] =>
      rewrite (fh_peer _ _ _ _ _ H), Z.mod_small by lia; cbn [mbind option_bind]
  | |- context [get_field ?fd ?mh] =>
      let E := fresh in
      eassert (E : get_field fd mh = Some _) by
        (eapply (fh_value _ _ _ _ _ fd); [exact H|reflexivity|apply Nat.leb_le; reflexivity|unfold width; cbn; first [lia | split; [apply Z.leb_le|apply Z.ltb_lt]; reflexivity]]);
      rewrite E; clear E; cbn [mbind option_bind]
  end.
Lemma read_match_info hdr fields t src mh x : frame_has hdr fields t src mh -> (36 <= hdr)%nat -> 0 <= x < 2 ^ 64 ->
  assigned match_a fields = Some (u32 (Z.shiftr x 32)) -> assigned match_b fields = Some (u32 (Z.land x 0xffffffff)) ->
  OMX_NTOH_MATCH_INFO mh = Some x.
Proof.
  intros H Hh Hx Ha Hb. unfold OMX_NTOH_MATCH_INFO.
  rewrite (fh_field _ _ _ _ _ H match_a _ Ha) by (cbn; lia). cbn [mbind option_bind].
  rewrite (fh_field _ _ _ _ _ H match_b _ Hb) by (cbn; lia). cbn [mbind option_bind]. f_equal. by apply match_info_parts.
Qed.

(** What is known of a packet that arrives. *)
Record at_target (c : command) (me rev peer src : Z) (data : list Z) (b : RecvMsg.skb) (s0 s : host) : Prop := {
  at_ok : command_ok c; at_size : size_ok c; at_rev : 0 <= rev < 65536; at_me : 0 <= me < 256;
  at_from : SendMsg.index_of s0 = me; at_accepts : accepts c rev src peer s;
  at_length : Z.of_nat (length (RecvMsg.skb_bytes b)) < 2 ^ 32;
  at_carries : carries (header_length c) data (RecvMsg.skb_bytes b);
  at_data : match c with
            | CmdTiny c | CmdSmall c => Z.of_nat (length data) = SendMsg.sc_length c
            | CmdMediumsq c => Z.of_nat (length data) = SendMsg.sc_frag_length c
            | _ => True
            end }.

Section handlers.
Context (me peer src : Z) (t : Z * Z) (data : list Z) (b : RecvMsg.skb) (s0 s : host) (x u : Z) (fs : fifo * fifo) (mh : list Z).
Context (Hq : EventFifo.system_ok (EventFifo.System (evq s) x u) fs) (Hres : EventFifo.reserved (snd fs) = O).

Definition handled (c : command) : Prop :=
  exists err s', fst (RecvMsg.omx_pkt_type_handler nack_skb alloc_raw env (packet_type c)) mh b s = Some (err, s') /\
    delivered c me peer data s x u fs s'.
Lemma handled_notify c k : session c <> None -> uses_ring c = false ->
  fst (RecvMsg.omx_pkt_type_handler nack_skb alloc_raw env (packet_type c)) mh b s =
    RecvMsg.notify (event_of c me peer (Event.recvq_offset (Event.next_recvq_index (evq s))) data) k ->
  k = s <| drv ::= fun d => d <| Pull.endpoint_refcount ::= fun n => n + 1 |> |> -> handled c.
Proof.
  intros Hs Hu He ->. unfold handled. rewrite He. pose proof Hq as Hq'. rewrite (surjective_pairing fs) in Hq'.
  edestruct notify_delivers as (err & s' & -> & H1 & H2 & H3 & H4); [exact Hq'|reflexivity|].
  exists err, s'. split; [done|]. split; [exact H1|]. rewrite Hu, andb_false_r. split; [|split; [exact H3|exact H4]].
  rewrite H2. destruct c; try done; by destruct (drv s).
Qed.
Lemma handled_with_data c e k : session c <> None -> uses_ring c = true ->
  (forall off, e off = event_of c me peer off data) -> carries (header_length c) data (RecvMsg.skb_bytes b) ->
  fst (RecvMsg.omx_pkt_type_handler nack_skb alloc_raw env (packet_type c)) mh b s =
    RecvMsg.notify_with_data e (header_length c) (Z.of_nat (length data)) b k ->
  k = s <| drv ::= fun d => d <| Pull.endpoint_refcount ::= fun n => n + 1 |> |> -> handled c.
Proof.
  intros Hs Hu Hev Hc He ->. unfold handled. rewrite He. pose proof Hq as Hq'. rewrite (surjective_pairing fs) in Hq'.
  edestruct notify_with_data_delivers as (err & s' & -> & H1 & H2 & H3 & H4); [exact Hq'|exact Hres|reflexivity|exact Hc|].
  exists err, s'. split; [done|]. rewrite Hev in H1. split; [exact H1|]. rewrite Hu, andb_true_r. split; [|split; [exact H3|exact H4]].
  rewrite H2. destruct c; try done; by destruct (drv s).
Qed.

(** A message of a session: the sender is known and the endpoint opens. *)
Ltac pass_checks c Hac Hpeer :=
  change (RecvMsg.check_peer mh (snd t) s) with (Peer.omx_check_recv_peer_index (Pull.d_peers (drv s)) (snd t) 0);
  rewrite Hpeer; cbn [Z.ltb Z.compare];
  match goal with
  | |- RecvMsg.with_endpoint ?n _ _ ?k _ = _ =>
      etransitivity; [apply (endpoint_opens n c (snd t) src peer k s Hac); [cbn [dest_endpoint]; lia|reflexivity]|]
  end; cbv beta.
Lemma tiny_handled c : at_target (CmdTiny c) me (snd t) peer src data b s0 s ->
  frame_has MSG_HDR (header_fields (CmdTiny c) s0) t src mh -> handled (CmdTiny c).
Proof.
  intros [[[]] Hsz Hrev Hme Hfrom Hac Hl Hc Hd] Hmh. destruct (ac_peer _ _ _ _ _ Hac) as [Hpeer Hrp].
  eapply handled_notify; [done|done| |reflexivity]. change (fst _) with (RecvMsg.omx_recv_tiny nack_skb).
  unfold RecvMsg.omx_recv_tiny, RecvMsg.msg_info_of. read_fields Hmh.
  rewrite (proj2 (Z.ltb_ge _ _) Hsz), <- Hd, enough_data by done. pass_checks (CmdTiny c) Hac Hpeer.
  rewrite (read_match_info _ _ _ _ _ (SendMsg.sc_match_info c) Hmh) by (done || (cbn; lia)). cbn [mbind option_bind].
  rewrite Nat2Z.id, (copies_data MSG_HDR _ _ Hc), Hd. cbn [mbind option_bind event_of]. by rewrite Hfrom, Hrp.
Qed.
Lemma small_handled c : at_target (CmdSmall c) me (snd t) peer src data b s0 s ->
  frame_has MSG_HDR (header_fields (CmdSmall c) s0) t src mh -> handled (CmdSmall c).
Proof.
  intros [[] Hsz Hrev Hme Hfrom Hac Hl Hc Hd] Hmh. destruct (ac_peer _ _ _ _ _ Hac) as [Hpeer Hrp].
  cbn [size_ok] in Hsz. assert (Hs : 0 <= SendMsg.sc_length c < 65536) by (change World.OMX_SMALL_MSG_LENGTH_MAX with 128 in Hsz; lia).
  eapply (handled_with_data _ (RecvSmall (msg_of c me peer) (SendMsg.sc_length c) (SendMsg.sc_checksum c)));
    [done|done|done|exact Hc| |reflexivity].
  change (fst _) with (RecvMsg.omx_recv_small nack_skb).
  unfold RecvMsg.omx_recv_small, RecvMsg.msg_info_of. read_fields Hmh.
  rewrite (proj2 (Z.ltb_ge _ _) Hsz). rewrite <- Hd at 1. rewrite enough_data by done. pass_checks (CmdSmall c) Hac Hpeer.
  rewrite (read_match_info _ _ _ _ _ (SendMsg.sc_match_info c) Hmh) by (done || (cbn; lia)). cbn [mbind option_bind].
  by rewrite Hfrom, Hrp, Hd.
Qed.
Lemma mediumsq_handled c : at_target (CmdMediumsq c) me (snd t) peer src data b s0 s ->
  frame_has MEDIUM_HDR (header_fields (CmdMediumsq c) s0) t src mh -> handled (CmdMediumsq c).
Proof.
  intros [[] Hsz Hrev Hme Hfrom Hac Hl Hc Hd] Hmh. destruct (ac_peer _ _ _ _ _ Hac) as [Hpeer Hrp].
  cbn [size_ok] in Hsz.
  eapply (handled_with_data _ (RecvMediumFrag (msg_of c me peer) (SendMsg.sc_length c) (SendMsg.sc_frag_length c)
    (SendMsg.sc_frag_seqnum c) (SendMsg.sc_checksum c))); [done|done|done|exact Hc| |reflexivity].
  change (fst _) with (RecvMsg.omx_recv_medium_frag nack_skb).
  unfold RecvMsg.omx_recv_medium_frag, RecvMsg.msg_info_of. read_fields Hmh.
  rewrite (proj2 (Z.ltb_ge _ _) Hsz). rewrite <- Hd at 1. rewrite enough_data by done. pass_checks (CmdMediumsq c) Hac Hpeer.
  rewrite (read_match_info _ _ _ _ _ (SendMsg.sc_match_info c) Hmh) by (done || (cbn; lia)). cbn [mbind option_bind].
  by rewrite Hfrom, Hrp, Hd.
Qed.
Lemma rndv_handled c : at_target (CmdRndv c) me (snd t) peer src data b s0 s ->
  frame_has RNDV_HDR (header_fields (CmdRndv c) s0) t src mh -> handled (CmdRndv c).
Proof.
  intros [[] Hsz Hrev Hme Hfrom Hac Hl Hc Hd] Hmh. destruct (ac_peer _ _ _ _ _ Hac) as [Hpeer Hrp].
  eapply handled_notify; [done|done| |reflexivity]. change (fst _) with (RecvMsg.omx_recv_rndv nack_skb).
  unfold RecvMsg.omx_recv_rndv, RecvMsg.msg_info_of. read_fields Hmh. rewrite Z.ltb_irrefl.
  pass_checks (CmdRndv c) Hac Hpeer.
  rewrite (read_match_info _ _ _ _ _ (SendMsg.sc_match_info c) Hmh) by (done || (cbn; lia)). cbn [mbind option_bind event_of].
  by rewrite Hfrom, Hrp.
Qed.
Lemma notify_handled c : at_target (CmdNotify c) me (snd t) peer src data b s0 s ->
  frame_has NOTIFY_HDR (header_fields (CmdNotify c) s0) t src mh -> handled (CmdNotify c).
Proof.
  intros [[] Hsz Hrev Hme Hfrom Hac Hl Hc Hd] Hmh. destruct (ac_peer _ _ _ _ _ Hac) as [Hpeer Hrp].
  eapply handled_notify; [done|done| |reflexivity]. change (fst _) with (RecvMsg.omx_recv_notify nack_skb).
  unfold RecvMsg.omx_recv_notify. read_fields Hmh. pass_checks (CmdNotify c) Hac Hpeer. cbn [event_of]. by rewrite Hfrom, Hrp.
Qed.
Lemma liback_handled c : at_target (CmdLiback c) me (snd t) peer src data b s0 s ->
  frame_has TRUC_HDR (header_fields (CmdLiback c) s0) t src mh -> handled (CmdLiback c).
Proof.
  intros [[] Hsz Hrev Hme Hfrom Hac Hl Hc Hd] Hmh. destruct (ac_peer _ _ _ _ _ Hac) as [Hpeer Hrp].
  eapply handled_notify; [done|done| |reflexivity]. change (fst _) with RecvMsg.omx_recv_truc.
  unfold RecvMsg.omx_recv_truc. read_fields Hmh. pass_checks (CmdLiback c) Hac Hpeer. rewrite !Z.eqb_refl, Z.ltb_irrefl.
  cbn [negb event_of]. by rewrite Hfrom, Hrp.
Qed.
(** The target of a connection knows the sender by its address. *)
Lemma connect_handled reply c : at_target (CmdConnect reply c) me (snd t) peer src data b s0 s ->
  frame_has CONNECT_HDR (header_fields (CmdConnect reply c) s0) t src mh -> handled (CmdConnect reply c).
Proof.
  intros [[] Hsz Hrev Hme Hfrom [Hi Hm Ho _ [addr Hpeer]] Hl Hc Hd] Hmh. cbn [dest_endpoint] in Hi, Hm.
  unfold handled. change (fst _) with (RecvMsg.omx_recv_connect nack_skb). unfold RecvMsg.omx_recv_connect.
  pose proof Hq as Hq'. rewrite (surjective_pairing fs) in Hq'.
  pose (s1 := s <| drv ::= fun d => d <| Pull.d_peers ::= Peer.omx_peer_set_reverse_index peer (SendMsg.cc_peer_index c) |> |>).
  pose proof (acquire_opens (drv s1) (SendMsg.cc_dest_endpoint c) Hi Hm Ho ltac:(lia)) as Hopen.
  destruct reply; read_fields Hmh; rewrite Z.ltb_irrefl, (fh_source _ _ _ _ _ Hmh), Hpeer; fold s1; rewrite Hopen.
  all: match goal with
       | |- exists err s', (if ?b then ?x else ?y) = _ /\ _ =>
           first [change (if b then x else y) with x | change (if b then x else y) with y]
       end.
  all: edestruct notify_delivers with (s0 := s1) as (err & s' & -> & H1 & H2 & H3 & H4); [exact Hq'|reflexivity|].
  all: exists err, s'; split; [done|]; unfold delivered; cbn [uses_ring event_of]; rewrite andb_false_r; rewrite <- Hfrom;
    split_and!; [exact H1|exact H2|exact H3|exact H4].
Qed.
End handlers.
Lemma command_handled c me t peer src data b s0 s x u fs mh : at_target c me (snd t) peer src data b s0 s ->
  EventFifo.system_ok (EventFifo.System (evq s) x u) fs -> EventFifo.reserved (snd fs) = O ->
  frame_has (header_length c) (header_fields c s0) t src mh -> handled me peer data b s x u fs mh c.
Proof.
  intros Hat Hq Hr Hmh. destruct c.
  - by eapply connect_handled.
  - by eapply tiny_handled.
  - by eapply small_handled.
  - by eapply mediumsq_handled.
  - by eapply rndv_handled.
  - by eapply notify_handled.
  - by eapply liback_handled.
Qed.
End receiver.

(** ** From a host to the other *)

Section crossing.
Context {order : ByteOrder}.
(** What the sender's ioctl gets from the process and the kernel. *)
Context (umem : Z -> option Z) (uparam : Z) (local : bool) (sk : option (nat -> Z)) (omx_skb_copy_max omx_skb_frags : Z)
  (alloc_event : bool) (get_user_pages : Z -> Z -> Z * list Z) (omx_pin_synchronous : bool) (chunk_min chunk_max : Z).
(** What the target's handlers get from the kernel. *)
Context (nack_skb : option (nat -> Z)) (alloc_raw : bool) (env : RecvMsg.pull_env).
#[local] Notation run := (run_command umem uparam local sk omx_skb_copy_max omx_skb_frags alloc_event get_user_pages
  omx_pin_synchronous chunk_min chunk_max).

Lemma data_length c s data : command_ok c -> message_data umem uparam c s = Some data ->
  match c with
  | CmdTiny c | CmdSmall c => Z.of_nat (length data) = SendMsg.sc_length c
  | CmdMediumsq c => Z.of_nat (length data) = SendMsg.sc_frag_length c
  | _ => True
  end.
Proof.
  destruct c as [reply c|c|c|c|c|c|c]; intros Hok H; try done; cbn [message_data command_ok] in H, Hok.
  - destruct Hok as [Hok _]. pose proof (ok_length _ Hok). apply length_mapM in H. rewrite length_seqZ in H. lia.
  - pose proof (ok_length _ Hok). apply length_mapM in H. rewrite length_seqZ in H. lia.
  - pose proof (ok_frag_length _ Hok). injection H as <-. rewrite length_load. lia.
Qed.
Lemma carries_prefix hdr data f p : carries hdr data f -> take (length f) p = f -> (length f <= length p)%nat -> carries hdr data p.
Proof.
  intros [H1 H2] Hp Hl. split; [lia|]. rewrite <- H2 at 2. rewrite <- Hp. by rewrite take_drop_prefix by lia.
Qed.

(** C30. A medium message given by its segments leaves in as many packets as its
    length needs; the packet [i] has the number [i] and the [i]th slice of the
    concatenated segments, whatever their lengths (empty ones too) and whatever
    is behind their array. *)
Theorem mediumva_sends_segments c usegs bytes beyond sks t s : Forall2 (seg_bytes umem) usegs bytes -> usegs <> [] ->
  SendMsg.sc_length c = Z.of_nat (length (concat bytes)) -> SendMsg.sc_length c < 2 ^ 32 -> SendMsg.sc_shared c = false ->
  (forall i, sks i <> None) -> Peer.omx_set_target_peer (Pull.d_peers (drv s)) (SendMsg.sc_peer_index c) = inr t ->
  exists frames s', SendMsg.omx_ioctl_send_mediumva umem (Some c) true (Some usegs) beyond sks s = Some (Some 0, s') /\
    sent_frames s' = sent_frames s ++ frames /\ Z.of_nat (length frames) = (SendMsg.sc_length c + 8191) / 8192 /\
    forall i f, frames !! i = Some f ->
      fragment_of c s t (Z.of_nat i) (take frag_max (drop (i * frag_max) (concat bytes))) f.
Proof.
  intros Hsegs Hne Hlen Hmax Hsh Hsks Ht. unfold SendMsg.omx_ioctl_send_mediumva. rewrite Hsh. cbn [negb].
  rewrite (total_length umem usegs bytes Hsegs 0) by lia. rewrite Z.add_0_l, <- Hlen, Z.eqb_refl. cbn [negb].
  change World.OMX_MEDIUM_FRAG_LENGTH_MAX with 8192. rewrite <- Z.add_sub_assoc. change (8192 - 1) with 8191.
  destruct usegs as [|[a n] segs] eqn:Hu; [done|]. cbn [head mbind option_bind]. rewrite <- Hu in *.
  assert (Hc : Z.of_nat (Z.to_nat ((SendMsg.sc_length c + 8191) / 8192)) = (SendMsg.sc_length c + 8191) / 8192)
    by (apply Z2Nat.id, Z.div_pos; lia).
  pose proof (left_next umem usegs bytes beyond Hsegs 0) as Hleft. rewrite drop_0, Hu in Hleft. cbn in Hleft. rewrite <- Hu in Hleft.
  destruct (frags_sent umem usegs bytes beyond Hsegs sks Hsks c t _ 0 0%nat a n (SendMsg.sc_length c) s (concat bytes) Hleft Hlen Hmax Hc Ht)
    as (frames & s' & E & Hs & Hn & Hf).
  exists frames, s'. split; [exact E|]. split; [exact Hs|]. split; [by rewrite Hn|]. intros i f Hi. by apply Hf.
Qed.

(** The packet of a command at a host that has the target endpoint open. *)
Lemma packet_delivered c s addr rev data f : command_ok c -> size_ok c -> 0 <= SendMsg.index_of s < 256 ->
  packet_of umem uparam c s (addr, rev) data f ->
  forall b r x u fs peer, 0 <= rev < 65536 -> arrives c f b -> accepts c rev (dev_addr s) peer r ->
    EventFifo.system_ok (EventFifo.System (evq r) x u) fs -> EventFifo.reserved (snd fs) = O ->
    exists r', RecvMsg.omx_recv nack_skb alloc_raw env b r = Some r' /\ delivered c (SendMsg.index_of s) peer data r x u fs r'.
Proof.
  intros Hok Hsize Hme [Ht Hd Hh Hc] b r x u fs peer Hrev Har Hac Hq Hres.
  destruct (dispatched nack_skb alloc_raw env c (addr, rev) (dev_addr s) f b s r Hh Har) as (mh & Hmh & ->).
  destruct (command_handled nack_skb alloc_raw env c (SendMsg.index_of s) (addr, rev) peer (dev_addr s) data b s r x u fs mh)
    as (err & r' & -> & Hdel); [|done..|by exists r'].
  split; try done; [apply Har| |by apply (data_length c s)].
  apply (carries_prefix _ _ f); [done|apply Har|]. rewrite <- (ar_prefix _ _ _ Har) at 1. rewrite length_take. lia.
Qed.
(** C2. A send command that succeeds gives the network one packet, for the
    address of its peer; when that packet reaches a host that has the target
    endpoint open and knows the sender, this host's queue of unexpected events
    gets, if it has room, exactly the event of the command: every field, the
    data in the receive ring or in the event; nothing else changes there. *)
Theorem command_crosses c s s' : command_ok c -> 0 <= SendMsg.index_of s < 256 -> run c s = Some (Some 0, s') ->
  exists addr rev data f, sent_frames s' = sent_frames s ++ [f] /\ message_data umem uparam c s = Some data /\
    Peer.omx_set_target_peer (Pull.d_peers (drv s)) (target_index c) = inr (addr, rev) /\
    take 6 f = List.rev (le_bytes 6 addr) /\
    forall b r x u fs peer, 0 <= rev < 65536 -> arrives c f b -> accepts c rev (dev_addr s) peer r ->
      EventFifo.system_ok (EventFifo.System (evq r) x u) fs -> EventFifo.reserved (snd fs) = O ->
      exists r', RecvMsg.omx_recv nack_skb alloc_raw env b r = Some r' /\
        delivered c (SendMsg.index_of s) peer data r x u fs r'.
Proof.
  intros Hok Hme Hrun. pose proof (command_size _ _ _ _ _ _ _ _ _ _ _ _ _ _ Hok Hrun) as Hsize.
  apply command_sends in Hrun as ([addr rev] & data & f & Hf & Hp); [|done]. pose proof Hp as [Ht Hd Hh Hc].
  exists addr, rev, data, f. split_and!; [done..|apply Hh|]. by eapply packet_delivered.
Qed.
End crossing.

(** ** Two hosts

    Endpoint 5 of the host 0xaa, which is the peer 3 of the other one, sends a
    message of 4 bytes to endpoint 2 of the host 0xbb, which is its peer 1. *)
#[local] Instance little_endian_wire : ByteOrder := false.
Definition sample_host (addr index session : Z) (peers : Peer.peers) : host :=
  Host (Pull.Driver peers 32 index true session 1 (RegTable.Regions ∅ ∅ [] [] []) None [] [] ∅ [] [] (fun _ => 0))
    (Event.omx_endpoint_queues_init (Event.Endpoint (fun _ => (0, EvtNone)) 0 0 (fun _ => (0, EvtNone)) 0 0 0 0 [] 0 0 0 0 0))
    (fun _ => 0) (fun _ => 0) [] [] addr [] [] [] 77.
Definition sample_sender : host := sample_host 0xaa 5 100 (Peer.Peers {[ 1 := 0xbb ]} 16 (fun _ => []) (fun _ => 3)).
Definition sample_target : host := sample_host 0xbb 2 555 (Peer.Peers {[ 3 := 0xaa ]} 16 (fun _ => []) (fun _ => 1)).
Definition sample_cmd : SendMsg.send_cmd := SendMsg.SendCmd 1 2 false 555 42 7 0x1234 0x1122334455667788 4 1000 0 0 0 0 0.
Definition sample_umem (a : Z) : option Z := if (1000 <=? a) && (a <? 1100) then Some (a - 900) else None.
Definition sample_run : option (option Z * host) := run_command sample_umem 0 false (Some (fun _ => 0)) 32 16 true
  (fun _ _ => (0, [])) true 1 1 (CmdSmall sample_cmd) sample_sender.
Definition sample_sent : host := match sample_run with Some (_, s) => s | None => sample_sender end.
Definition sample_env : RecvMsg.pull_env :=
  RecvMsg.PullEnv 8192 4 250 16 32 (fun _ => true) (fun _ => true) true (fun _ => true) 0.

Lemma command_crosses_witness : sample_run = Some (Some 0, sample_sent) /\ exists f r', sent_frames sample_sent = [f] /\
  RecvMsg.omx_recv None true sample_env (RecvMsg.Skb 20 f) sample_target = Some r' /\
  delivered (CmdSmall sample_cmd) 5 3 [100; 101; 102; 103] sample_target 0 0 (EventFifo.Fifo [] 0 0, EventFifo.Fifo [] 0 0) r'.
Proof.
  assert (Hrun : sample_run = Some (Some 0, sample_sent)) by reflexivity. split; [exact Hrun|].
  destruct (command_crosses sample_umem 0 false (Some (fun _ => 0)) 32 16 true (fun _ _ => (0, [])) true 1 1 None true sample_env
    (CmdSmall sample_cmd) sample_sender sample_sent) as (addr & rv & data & f & Hf & Hd & Ht & _ & H).
  - split; cbn; lia.
  - cbn. lia.
  - exact Hrun.
  - exists f. injection Hd as <-. change (inr (0xbb, 3) = @inr Z _ (addr, rv)) in Ht. injection Ht as <- <-.
    assert (Hlen : length f = 60%nat).
    { change (sent_frames sample_sender) with (@nil (list Z)) in Hf. rewrite app_nil_l in Hf.
      pose proof (f_equal (map (length (A:=Z))) Hf) as E. injection E as <-. reflexivity. }
    destruct (H (RecvMsg.Skb 20 f) sample_target 0 0 (EventFifo.Fifo [] 0 0, EventFifo.Fifo [] 0 0) 3) as (r' & Hr & Hdel).
    + lia.
    + split; cbn [RecvMsg.skb_bytes RecvMsg.skb_headlen]; [apply firstn_all|rewrite Hlen; reflexivity|rewrite Hlen; lia|done].
    + split; [reflexivity|reflexivity|reflexivity|by intros x [= <-]|by split].
    + apply EventFifo.init_ok.
    + reflexivity.
    + exists r'. split; [exact Hf|]. split; [exact Hr|exact Hdel].
Defined.

(** A message of 8 bytes in two segments. *)
Definition sample_va : SendMsg.send_cmd := SendMsg.SendCmd 1 2 false 555 42 7 0x1234 0x1122334455667788 8 0 0 0 0 0 0.
Lemma mediumva_sends_segments_witness : exists frames s',
  SendMsg.omx_ioctl_send_mediumva sample_umem (Some sample_va) true (Some [(1000, 3); (1010, 5)]) (fun _ => (0, 0))
    (fun _ => Some (fun _ => 0)) sample_sender = Some (Some 0, s') /\ sent_frames s' = frames /\ length frames = 1%nat /\
  forall i f, frames !! i = Some f ->
    fragment_of sample_va sample_sender (0xbb, 3) (Z.of_nat i) (take frag_max (drop (i * frag_max) [100; 101; 102; 110; 111; 112; 113; 114])) f.
Proof.
  destruct (mediumva_sends_segments sample_umem sample_va [(1000, 3); (1010, 5)] [[100; 101; 102]; [110; 111; 112; 113; 114]]
    (fun _ => (0, 0)) (fun _ => Some (fun _ => 0)) (0xbb, 3) sample_sender) as (frames & s' & E & Hs & Hn & Hf).
  - constructor; [split; [cbn; lia|reflexivity]|]. constructor; [split; [cbn; lia|reflexivity]|constructor].
  - discriminate.
  - reflexivity.
  - reflexivity.
  - reflexivity.
  - intros i H. discriminate H.
  - reflexivity.
  - exists frames, s'. split; [exact E|]. split; [exact Hs|]. split; [apply Nat2Z.inj; rewrite Hn; reflexivity|exact Hf].
Defined.
End Crossing.
