(* ===== verification/AnyPacket.v ===== *)
(** Whatever the bytes of a packet are: the handlers of messages return, report
    at most one event, answer with at most one packet, and keep the rest. *)
From S2P Require Import Prelude Io Segments World Event EventFifo Peer Reg RegTable Pull Wire Host SendMsg RecvMsg Crossing.
Import Mem Io Wire Host RecvMsg.

Module AnyPacket.

#[local] Existing Instances Pull.e_driver Pull.s_d_peers Pull.s_endpoint_refcount.
#[local] Notation fifo := (@EventFifo.fifo devt).

Section any.
Context {order : ByteOrder}.
Context (nack_skb : option (nat -> Z)) (alloc_raw : bool) (env : pull_env).

Lemma ntoh_range n v : 0 <= OMX_NTOH n v < width n.
Proof.
  unfold OMX_NTOH. pose proof (width_pos n). destruct OMX_ENDIAN_COMPAT; [|by apply Z.mod_pos_bound].
  unfold bswap. pose proof (of_le_bytes n (bswap n v)) as E. rewrite le_bytes_bswap in E. rewrite E. by apply Z.mod_pos_bound.
Qed.
(** A field that the header has. *)
Lemma get_field_total fd (mh : list Z) : (f_off fd + f_size fd <= length mh)%nat ->
  exists v, get_field fd mh = Some v /\ 0 <= v < width (f_size fd).
Proof. intros H. unfold get_field. rewrite (proj2 (Nat.leb_le _ _) H). eexists. split; [done|apply ntoh_range]. Qed.

Lemma plain_reference (h : host) : h <| drv := (drv h) <| Pull.endpoint_refcount ::= fun n => n + 1 |> |> =
  h <| drv ::= fun d => d <| Pull.d_peers := Pull.d_peers (drv h) |> <| Pull.endpoint_refcount ::= fun n => n + 1 |> |>.
Proof. by destruct h as [[] ? ? ? ? ? ? ? ? ? ?]. Qed.

Section packet.
Context (x u : Z) (fs : fifo * fifo).

(** What a packet may do to the host: report an event, answer, write in the
    slot of the receive ring, tell the index of this host at a peer; the rest
    of the driver, its references and its pulls are as before. *)
Record harmless (s s' : host) : Prop := {
  hl_events : exists f, EventFifo.system_ok (EventFifo.System (evq s') x u) (fst fs, f) /\
    (f = snd fs \/ exists e, f = EventFifo.push e (snd fs));
  hl_driver : exists t, drv s' = (drv s) <| Pull.d_peers := t |>;
  hl_sent : exists l, sent_frames s' = sent_frames s ++ l /\ (length l <= 1)%nat;
  hl_ring a : recvq s' a <> recvq s a -> 0 <= a - Event.recvq_offset (Event.next_recvq_index (evq s)) < OMX_RECVQ_ENTRY_SIZE }.
Definition returns (s : host) (r : option (Z * host)) : Prop := exists err s', r = Some (err, s') /\ harmless s s'.

Context (s : host) (Hq : EventFifo.system_ok (EventFifo.System (evq s) x u) fs) (Hres : EventFifo.reserved (snd fs) = O).
Lemma harmless_same s' : evq s' = evq s -> drv s' = drv s -> recvq s' = recvq s ->
  (exists l, sent_frames s' = sent_frames s ++ l /\ (length l <= 1)%nat) -> harmless s s'.
Proof.
  intros He Hd Hr Hl. split; [|exists (Pull.d_peers (drv s)); rewrite Hd; by destruct (drv s)|done|by rewrite Hr].
  exists (snd fs). rewrite He. split; [by rewrite <- surjective_pairing|by left].
Qed.
Lemma returns_same err : returns s (Some (err, s)).
Proof. exists err, s. split; [done|]. apply harmless_same; [done..|]. exists []. rewrite app_nil_r. split; [done|cbn; lia]. Qed.

(** [s1] is [s] with a reference to the endpoint and perhaps a new index. *)
Definition acquired (s1 : host) (t : Peer.peers) : Prop :=
  s1 = s <| drv ::= fun d => d <| Pull.d_peers := t |> <| Pull.endpoint_refcount ::= fun n => n + 1 |> |>.
Lemma acquired_plain s1 : s1 = s <| drv := (drv s) <| Pull.endpoint_refcount ::= fun n => n + 1 |> |> ->
  acquired s1 (Pull.d_peers (drv s)).
Proof. intros ->. apply plain_reference. Qed.
Lemma push_or (e : devt) : let f := if EventFifo.room (snd fs) 1 then EventFifo.push e (snd fs) else snd fs in
  f = snd fs \/ exists e, f = EventFifo.push e (snd fs).
Proof. cbn. destruct (EventFifo.room _ _); [right; by exists e|by left]. Qed.
Lemma notify_returns e s1 t : acquired s1 t -> returns s (notify e s1).
Proof.
  intros ->. pose proof Hq as Hq'. rewrite (surjective_pairing fs) in Hq'.
  edestruct (Crossing.notify_delivers e) with (s0 := s <| drv ::= fun d => d <| Pull.d_peers := t |> |>)
    as (err & s' & -> & H1 & H2 & H3 & H4); [exact Hq'|reflexivity|].
  exists err, s'. split; [done|]. split.
  - eexists. split; [exact H1|]. apply push_or.
  - exists t. exact H2.
  - exists []. rewrite app_nil_r. split; [exact H4|cbn; lia].
  - intros a Ha. by rewrite H3 in Ha.
Qed.
Lemma release_returns err s1 t : acquired s1 t -> returns s (Some (err, release s1)).
Proof.
  intros ->. exists err. eexists. split; [reflexivity|].
  split; [exists (snd fs); split; [rewrite <- surjective_pairing; exact Hq|by left]| |exists []; rewrite app_nil_r; split; [done|cbn; lia]|done].
  exists t. unfold release. fsimp. apply Crossing.driver_acquire_release.
Qed.
(** The data of a packet that is long enough. *)
Lemma data_returns e hdr (n : Z) b s1 : acquired s1 (Pull.d_peers (drv s)) -> 0 <= n <= OMX_RECVQ_ENTRY_SIZE ->
  (hdr <= length (skb_bytes b))%nat -> Z.of_nat (length (skb_bytes b)) < 2 ^ 32 -> data_too_short n b hdr = false ->
  returns s (notify_with_data e hdr n b s1).
Proof.
  intros Hs1 Hn Hh Hl Hd. pose proof Hq as Hq'. rewrite (surjective_pairing fs) in Hq'.
  unfold data_too_short, skb_len, u64 in Hd. apply Z.ltb_ge in Hd. rewrite Z.mod_small in Hd by lia.
  set (data := take (Z.to_nat n) (drop hdr (skb_bytes b))).
  assert (Hdl : length data = Z.to_nat n) by (unfold data; rewrite length_take, length_drop; lia).
  assert (Hc : Crossing.carries hdr data (skb_bytes b)) by (split; [lia|by rewrite Hdl]).
  assert (Hsame : evq s1 = evq s /\ recvq s1 = recvq s /\ sent_frames s1 = sent_frames s /\
    drv s1 = (drv s) <| Pull.endpoint_refcount ::= fun n => n + 1 |>) by (rewrite Hs1; split_and!; [done..|fsimp; by destruct (drv s)]).
  destruct Hsame as (Ee & Er & Es & Ed).
  destruct (Crossing.notify_with_data_delivers e hdr data b s1 s x u (fst fs) (snd fs)) as (err & s' & E & H1 & H2 & H3 & H4);
    [by rewrite Ee|exact Hres|exact Ed|exact Hc|].
  rewrite Hdl, Z2Nat.id in E by lia. rewrite Ee in H1, H3. rewrite Er in H3. exists err, s'. split; [exact E|]. split.
  - eexists. split; [exact H1|]. apply push_or.
  - exists (Pull.d_peers (drv s)). rewrite H2. by destruct (drv s).
  - exists []. rewrite app_nil_r, H4. split; [exact Es|cbn; lia].
  - intros a Ha. rewrite H3 in Ha. destruct (EventFifo.room (snd fs) 1); [|done].
    destruct (decide (a < Event.recvq_offset (Event.next_recvq_index (evq s)) \/
      Event.recvq_offset (Event.next_recvq_index (evq s)) + Z.of_nat (length data) <= a)) as [Ho|Ho]; [|lia].
    by rewrite (store_out _ _ _ _ Ho) in Ha.
Qed.

(** The nacks of the handlers send at most one packet. *)
Definition nack_ok (nack : Z -> host -> host) : Prop :=
  forall type s, exists l, (length l <= 1)%nat /\ nack type s = s <| sent_frames ::= fun m => m ++ l |>.
Lemma no_nack : nack_ok (fun _ s => s).
Proof. intros type s'. exists []. split; [cbn; lia|]. 
  destruct s' as [d q m r i l a ev ql rl mg].
  by change (Host d q m r i l a ev ql rl mg = Host d q m r i (l ++ []) a ev ql rl mg); rewrite app_nil_r.
Qed.
Lemma nack_lib_ok peer_index dst_ep src_ep seqnum : nack_ok (nack_lib nack_skb peer_index dst_ep src_ep seqnum).
Proof.
  intros type s'. unfold nack_lib, SendMsg.omx_send_nack_lib.
  destruct nack_skb as [junk|]; [|exact (no_nack type s')].
  destruct (SendMsg.set_target_peer _ _ _) as [err|p]; [exact (no_nack type s')|].
  eexists [_]. split; [cbn; lia|reflexivity].
Qed.
Lemma endpoint_returns nack index session k : nack_ok nack ->
  (forall s1, acquired s1 (Pull.d_peers (drv s)) -> returns s (k s1)) -> returns s (with_endpoint nack index session k s).
Proof.
  intros Hnack Hk. unfold with_endpoint, Pull.omx_endpoint_acquire_by_iface_index.
  assert (Hbad : forall err type, returns s (Some (err, nack type s))).
  { intros err type. destruct (Hnack type s) as (l & Hl & ->). eexists err, _. split; [reflexivity|].
    apply harmless_same; [done..|]. by exists l. }
  destruct (_ <=? _); [apply Hbad|]. destruct (_ || _); [apply Hbad|].
  assert (Hacq : forall s1, s1 = s <| drv := (drv s) <| Pull.endpoint_refcount ::= fun n => n + 1 |> |> ->
    acquired s1 (Pull.d_peers (drv s))) by exact acquired_plain.
  destruct (negb _); [|by apply Hk, Hacq].
  destruct (Hnack Pull.OMX_NACK_TYPE_BAD_SESSION (s <| drv := (drv s) <| Pull.endpoint_refcount ::= fun n => n + 1 |> |>))
    as (l & Hl & ->).
  eexists EINVAL, _. split; [reflexivity|]. apply harmless_same; [done| |done|by exists l].
  unfold release. fsimp. apply Crossing.driver_acquire_release.
Qed.

(** ** The handlers *)

(** Each field that a handler reads is in the header. *)
Ltac total_fields Hl :=
  repeat match goal with
  | |- context [get_field ?fd ?mh] =>
      let v := fresh "v" in let E := fresh in let Hv := fresh "Hv" in
      destruct (get_field_total fd mh) as (v & E & Hv); [etransitivity; [|exact Hl]; apply Nat.leb_le; reflexivity|];
      rewrite E; clear E; cbn [mbind option_bind]
  end.
Context (mh : list Z) (b : skb) (Hlen : Z.of_nat (length (skb_bytes b)) < 2 ^ 32) (Hmin : (ETH_ZLEN <= length (skb_bytes b))%nat).

Lemma copy_bits_some n hdr : data_too_short n b hdr = false -> 0 <= n -> (hdr <= length (skb_bytes b))%nat ->
  exists data, skb_copy_bits b hdr (Z.to_nat n) = Some data.
Proof.
  intros Hd Hn Hh. unfold data_too_short, skb_len, u64 in Hd. apply Z.ltb_ge in Hd. rewrite Z.mod_small in Hd by lia.
  unfold skb_copy_bits. rewrite (proj2 (Nat.leb_le _ _)) by lia. by eexists.
Qed.
(** The checks of a handler, each of which returns an error. *)
Ltac checks :=
  repeat match goal with
  | |- returns s (if ?a <? ?b then _ else _) => destruct (Z.ltb_spec a b); [apply returns_same|]
  | |- returns s (if data_too_short ?n ?b ?h then _ else _) =>
      let Hd := fresh "Hd" in destruct (data_too_short n b h) eqn:Hd; [apply returns_same|]
  end.
Ltac opens := apply endpoint_returns; [apply nack_lib_ok || apply no_nack|]; let s1 := fresh "s1" in let Hs1 := fresh "Hs1" in
  intros s1 Hs1; cbn [mbind option_bind].
Lemma tiny_returns : (MSG_HDR <= length mh)%nat -> returns s (omx_recv_tiny nack_skb mh b s).
Proof.
  intros Hl. unfold omx_recv_tiny, msg_info_of, OMX_NTOH_MATCH_INFO. total_fields Hl. checks. opens.
  destruct (copy_bits_some _ _ Hd) as (data & ->); [lia|unfold MSG_HDR, HEAD, ETH_ZLEN in *; lia|]. cbn [mbind option_bind].
  by eapply notify_returns.
Qed.
Lemma small_returns : (MSG_HDR <= length mh)%nat -> returns s (omx_recv_small nack_skb mh b s).
Proof.
  intros Hl. unfold omx_recv_small, msg_info_of, OMX_NTOH_MATCH_INFO. total_fields Hl. checks. opens.
  apply data_returns; [done| |unfold MSG_HDR, HEAD, ETH_ZLEN in *; lia|done|done].
  change World.OMX_SMALL_MSG_LENGTH_MAX with 128 in *. change OMX_RECVQ_ENTRY_SIZE with 8192. lia.
Qed.
Lemma medium_returns : (MEDIUM_HDR <= length mh)%nat -> returns s (omx_recv_medium_frag nack_skb mh b s).
Proof.
  intros Hl. unfold omx_recv_medium_frag, msg_info_of, OMX_NTOH_MATCH_INFO. total_fields Hl. checks. opens.
  apply data_returns; [done|lia|unfold MEDIUM_HDR, HEAD, ETH_ZLEN in *; lia|done|done].
Qed.
Lemma rndv_returns : (RNDV_HDR <= length mh)%nat -> returns s (omx_recv_rndv nack_skb mh b s).
Proof.
  intros Hl. unfold omx_recv_rndv, msg_info_of, OMX_NTOH_MATCH_INFO. total_fields Hl. checks. opens. by eapply notify_returns.
Qed.
Lemma notify_handler_returns : (NOTIFY_HDR <= length mh)%nat -> returns s (omx_recv_notify nack_skb mh b s).
Proof. intros Hl. unfold omx_recv_notify. total_fields Hl. checks. opens. by eapply notify_returns. Qed.
Lemma truc_returns : (TRUC_HDR <= length mh)%nat -> returns s (omx_recv_truc mh b s).
Proof.
  intros Hl. unfold omx_recv_truc. total_fields Hl. checks. opens.
  destruct (negb _); [by eapply release_returns|]. destruct (_ <? _); [by eapply release_returns|].
  destruct (negb _); [by eapply release_returns|]. by eapply notify_returns.
Qed.
(** The endpoint is acquired, or the error has a nack type. *)
Lemma acquire_cases i (d : Pull.driver) :
  Pull.omx_endpoint_acquire_by_iface_index i d = inr (d <| Pull.endpoint_refcount ::= fun n => n + 1 |>) \/
  exists err type, Pull.omx_endpoint_acquire_by_iface_index i d = inl err /\
    Pull.omx_endpoint_acquire_by_iface_index_error_to_nack_type err = Some type.
Proof.
  unfold Pull.omx_endpoint_acquire_by_iface_index.
  destruct (_ <=? _); [right; by eexists _, _|]. destruct (_ || _); [right; by eexists _, _|by left].
Qed.
Lemma nack_lib_returns : (NACK_LIB_HDR <= length mh)%nat -> returns s (omx_recv_nack_lib mh b s).
Proof.
  intros Hl. unfold omx_recv_nack_lib. total_fields Hl.
  destruct (if _ <? 0 then _ else _) as [peer|]; [|apply returns_same].
  match goal with |- context [Pull.omx_endpoint_acquire_by_iface_index ?i ?d] =>
    destruct (acquire_cases i d) as [->|(err & type & -> & _)] end; [|apply returns_same].
  eapply notify_returns, acquired_plain. reflexivity.
Qed.
Lemma connect_returns : (CONNECT_HDR <= length mh)%nat -> returns s (omx_recv_connect nack_skb mh b s).
Proof.
  intros Hl. unfold omx_recv_connect. total_fields Hl. checks.
  destruct (Peer.omx_peer_lookup_by_addr_locked _ _) as [[peer addr]|]; [|apply returns_same].
  match goal with |- context [Peer.omx_peer_set_reverse_index ?p ?r] =>
    set (t := Peer.omx_peer_set_reverse_index p r (Pull.d_peers (drv s)));
    change (s <| drv ::= fun d => d <| Pull.d_peers ::= Peer.omx_peer_set_reverse_index p r |> |>)
      with (s <| drv ::= fun d => d <| Pull.d_peers := t |> |>) end.
  set (s1 := s <| drv ::= fun d => d <| Pull.d_peers := t |> |>).
  destruct (acquire_cases v9 (drv s1)) as [->|(err & type & -> & ->)].
  - destruct (_ =? _); by apply (notify_returns _ _ t).
  - cbn [mbind option_bind]. destruct (nack_lib_ok peer v9 v8 v6 type s1) as (l & Hll & ->). eexists err, _. split; [reflexivity|].
    split; [exists (snd fs); split; [rewrite <- surjective_pairing; exact Hq|by left]|by exists t|by exists l|done].
Qed.
Lemma kept_returns err s' : evq s' = evq s -> drv s' = drv s -> recvq s' = recvq s -> sent_frames s' = sent_frames s ->
  returns s (Some (err, s')).
Proof.
  intros H1 H2 H3 H4. exists err, s'. split; [done|]. apply harmless_same; [done..|]. exists []. rewrite app_nil_r. split; [done|cbn; lia].
Qed.
Lemma raw_returns : returns s (omx_recv_raw alloc_raw mh b s).
Proof. unfold omx_recv_raw. repeat case_match; by apply kept_returns. Qed.
Lemma host_query_returns : returns s (omx_recv_host_query mh b s).
Proof. unfold omx_recv_host_query. case_match; by apply kept_returns. Qed.
Lemma host_reply_returns : (HOST_HDR <= length mh)%nat -> returns s (omx_recv_host_reply mh b s).
Proof. intros Hl. unfold omx_recv_host_reply. total_fields Hl. case_match; by apply kept_returns. Qed.

(** The packets of the pulls are not messages. *)
Definition is_message (t : Z) : bool :=
  negb ((t =? OMX_PKT_TYPE_PULL) || (t =? OMX_PKT_TYPE_PULL_REPLY) || (t =? OMX_PKT_TYPE_NACK_MCP)).
Lemma handler_returns t : is_message t = true ->
  (snd (omx_pkt_type_handler nack_skb alloc_raw env t) <= length mh)%nat ->
  (t = OMX_PKT_TYPE_RNDV -> (RNDV_HDR <= length mh)%nat) ->
  returns s (fst (omx_pkt_type_handler nack_skb alloc_raw env t) mh b s).
Proof.
  unfold is_message, omx_pkt_type_handler. intros Ht Hl Hr. apply negb_true_iff, orb_false_elim in Ht as [Ht Hn].
  apply orb_false_elim in Ht as [Hp Hpr]. rewrite Hp, Hpr, Hn in Hl |- *.
  repeat match goal with
  | H : context [if t =? ?k then _ else _] |- _ => destruct (Z.eqb_spec t k)
  end; cbn [fst snd] in *.
  - apply raw_returns.
  - apply host_query_returns.
  - by apply host_reply_returns.
  - by apply truc_returns.
  - by apply connect_returns.
  - by apply tiny_returns.
  - by apply small_returns.
  - by apply medium_returns.
  - by apply rndv_returns, Hr.
  - by apply notify_handler_returns.
  - by apply nack_lib_returns.
  - by apply kept_returns.
Qed.
End packet.

(** C4. Whatever the bytes of a packet of at least 60 bytes (the shortest Ethernet
    frame) and less than 2^32, if it is none of the pulls (their handlers are in
    C3 and C7), and if the header of a rendezvous is in the linear part of the packet,
    the driver reads nothing outside of it and hits no [BUG]: at most one event is
    reported, at most one packet is sent, the receive ring changes only in its next
    slot, and the endpoint's references, regions and pulls are as before.  A
    rendezvous whose header is not linear is excluded since the code then reads
    behind the header that it copied (omx_recv.c:1030, [rndv_reads_behind_header]);
    so are shorter frames, that it would read behind their end. *)
Theorem any_packet_safe b t s x u fs : (ETH_ZLEN <= length (skb_bytes b))%nat -> Z.of_nat (length (skb_bytes b)) < 2 ^ 32 ->
  (skb_headlen b <= length (skb_bytes b))%nat -> take 1 (drop HEAD (skb_bytes b)) = [t] -> is_message t = true ->
  (t = OMX_PKT_TYPE_RNDV -> (RNDV_HDR <= skb_headlen b)%nat) ->
  EventFifo.system_ok (EventFifo.System (evq s) x u) fs -> EventFifo.reserved (snd fs) = O ->
  exists s', omx_recv nack_skb alloc_raw env b s = Some s' /\ harmless x u fs s s'.
Proof.
  intros Hmin Hlen Hlin Ht Hm Hr Hq Hres. unfold omx_recv, skb_copy_bits.
  rewrite (proj2 (Nat.leb_le _ _)) by (unfold HEAD, ETH_ZLEN in *; lia). rewrite Ht.
  replace (of_le [t]) with t by (cbn; lia).
  pose proof (fun mh => handler_returns x u fs s Hq Hres mh b Hlen Hmin t Hm) as H.
  assert (Hh : (snd (omx_pkt_type_handler nack_skb alloc_raw env t) <= ETH_ZLEN)%nat).
  { unfold omx_pkt_type_handler. repeat case_match; apply Nat.leb_le; reflexivity. }
  destruct (omx_pkt_type_handler nack_skb alloc_raw env t) as [handler hdr_len] eqn:Hhd. cbn [fst snd] in H, Hh.
  destruct (Nat.ltb_spec (skb_headlen b) hdr_len) as [Hs|Hs].
  - rewrite (proj2 (Nat.leb_le _ _)) by lia. cbn [mbind option_bind].
    destruct (H (take hdr_len (drop 0 (skb_bytes b)))) as (err & s' & -> & Hok).
    + rewrite length_take, length_drop. lia.
    + intros ->. injection Hhd as _ <-. specialize (Hr eq_refl). change RNDV_HDR with 48%nat in Hr. change MSG_HDR with 40%nat in Hs. lia.
    + by exists s'.
  - cbn [mbind option_bind]. destruct (H (take (skb_headlen b) (skb_bytes b))) as (err & s' & -> & Hok).
    + rewrite length_take. lia.
    + intros E. rewrite length_take. specialize (Hr E). lia.
    + by exists s'.
Qed.
End any.

(** ** Packets to the sample host

    A message of 4 bytes, of which the first two are [type] and the endpoint;
    the peer index is 3 and the session 555. *)
#[local] Instance little_endian_wire : ByteOrder := false.
Definition sample_packet (type : Z) (len : Z) : list Z :=
  repeat 0 14 ++ [3; 0; type; 2; 5; 0; len; 0] ++ repeat 0 14 ++ [43; 2; 0; 0] ++ repeat 9 20.
Lemma any_packet_safe_witness :
  exists s', omx_recv None true Crossing.sample_env (Skb 20 (sample_packet OMX_PKT_TYPE_TINY 4)) Crossing.sample_target = Some s' /\
    harmless 0 0 (EventFifo.Fifo [] 0 0, EventFifo.Fifo [] 0 0) Crossing.sample_target s'.
Proof.
  apply (any_packet_safe None true Crossing.sample_env _ OMX_PKT_TYPE_TINY).
  - apply Nat.leb_le. reflexivity.
  - reflexivity.
  - apply Nat.leb_le. reflexivity.
  - reflexivity.
  - reflexivity.
  - intros H. discriminate H.
  - apply EventFifo.init_ok.
  - reflexivity.
Defined.
(** The header of a rendezvous that is not linear is copied without its last
    fields, which the handler then reads. *)
Lemma rndv_reads_behind_header :
  omx_recv None true Crossing.sample_env (Skb 20 (sample_packet OMX_PKT_TYPE_RNDV 8)) Crossing.sample_target = None.
Proof. reflexivity. Qed.
End AnyPacket.
