(* ===== verification/PeerTable.v ===== *)
(** The table of peers and the interfaces ([driver/linux/omx_peer.c],
    [driver/linux/omx_iface.c]): the array of peers by index, the lists of
    peers by hash of their address, the peers whose host name is asked for, and
    the interfaces of this host, whose own peers live inside them. *)
From S2P Require Import Prelude Peer Wire Host.

Module PeerTable.
Import Wire.

Definition EPERM : Z := -1.
Definition ENOMEM : Z := -12.
Definition EBUSY : Z := -16.
Definition EINVAL : Z := -22.
(* [driver/linux/omx_peer.h:52-52] OMX_UNKNOWN_REVERSE_PEER_INDEX *)
Definition OMX_UNKNOWN_REVERSE_PEER_INDEX : Z := 4294967295.
Definition OMX_HOSTNAMELEN_MAX : Z := 80.

(** ** State *)

(** A pointer to a peer: to one that [omx_peer_add] allocated, or to the one
    inside an interface. *)
Inductive peer_ptr := Allocated (id : positive) | Embedded (iface : positive).
#[export] Instance peer_ptr_eq_dec : EqDecision peer_ptr. Proof. solve_decision. Defined.

(* [driver/linux/omx_peer.h:54-64] omx_peer *)
Record omx_peer := OmxPeer {
  board_addr : Z; hostname : option (list Z); index : Z; local_iface : option positive }.
#[export] Instance e_omx_peer : Settable omx_peer := fun t => OmxPeer (board_addr t) (hostname t) (index t) (local_iface t).
#[export] Instance s_hostname : Setter hostname. Proof. mk_setter. Defined.
#[export] Instance s_index : Setter index. Proof. mk_setter. Defined.
#[export] Instance s_local_iface : Setter local_iface. Proof. mk_setter. Defined.

(** [eth_ifp] is the device and [dev_addr] its address. *)
(* [driver/linux/omx_iface.h:60-76] omx_iface *)
Record omx_iface := OmxIface {
  iface_index : Z; eth_ifp : Z; dev_addr : Z; peer : omx_peer; reverse_peer_indexes : gmap Z Z;
  closing : bool; refcount : Z; endpoint_nr : Z }.
#[export] Instance e_omx_iface : Settable omx_iface := fun t =>
  OmxIface (iface_index t) (eth_ifp t) (dev_addr t) (peer t) (reverse_peer_indexes t) (closing t) (refcount t) (endpoint_nr t).
#[export] Instance s_iface_index : Setter iface_index. Proof. mk_setter. Defined.
#[export] Instance s_peer : Setter peer. Proof. mk_setter. Defined.
#[export] Instance s_reverse : Setter reverse_peer_indexes. Proof. mk_setter. Defined.
#[export] Instance s_closing : Setter closing. Proof. mk_setter. Defined.
#[export] Instance s_refcount : Setter refcount. Proof. mk_setter. Defined.

(* [common/omx_io.h:276-285] omx_cmd_peer_table_state *)
Record omx_cmd_peer_table_state := PeerTableState { status : Z; version : Z; size : Z; mapper_id : Z }.
Definition OMX_PEER_TABLE_STATUS_CONFIGURED : Z := 1.
Definition OMX_PEER_TABLE_STATUS_FULL : Z := 2.
Definition OMX_PEER_TABLE_STATUS_SETMASK : Z := OMX_PEER_TABLE_STATUS_CONFIGURED.
#[export] Instance e_state : Settable omx_cmd_peer_table_state := fun t =>
  PeerTableState (status t) (version t) (size t) (mapper_id t).
#[export] Instance s_status : Setter status. Proof. mk_setter. Defined.

(** The static variables of the two files, and the memory: the peers that were
    allocated, the interfaces by address.  [omx_host_query_timer] and
    [omx_host_query_work] tell whether the timer is armed and the work
    scheduled.  The packets that wait for the work on queries and replies come
    with the interface that received them. *)
(* [driver/linux/omx_peer.c:39-81] omx_peer_array *)
Record table := Table {
  omx_peer_array : gmap Z peer_ptr; omx_peer_addr_hash_array : Z -> list peer_ptr;
  omx_peer_next_nr : Z; omx_peer_table_full : bool; omx_peer_table_state : omx_cmd_peer_table_state;
  omx_host_query_peer_list : list peer_ptr; omx_host_query_timer : bool; omx_host_query_work : bool;
  omx_host_query_magic : Z;
  omx_ifaces : gmap Z positive; omx_iface_nr : Z;
  peers : gmap positive omx_peer; ifaces : gmap positive omx_iface;
  omx_host_query_list : list (positive * list Z); omx_host_reply_list : list (positive * list Z);
  sent : list (list Z) }.
#[export] Instance e_table : Settable table := fun t => Table (omx_peer_array t) (omx_peer_addr_hash_array t)
  (omx_peer_next_nr t) (omx_peer_table_full t) (omx_peer_table_state t) (omx_host_query_peer_list t)
  (omx_host_query_timer t) (omx_host_query_work t) (omx_host_query_magic t) (omx_ifaces t) (omx_iface_nr t)
  (peers t) (ifaces t) (omx_host_query_list t) (omx_host_reply_list t) (sent t).
#[export] Instance s_array : Setter omx_peer_array. Proof. mk_setter. Defined.
#[export] Instance s_hash_array : Setter omx_peer_addr_hash_array. Proof. mk_setter. Defined.
#[export] Instance s_next_nr : Setter omx_peer_next_nr. Proof. mk_setter. Defined.
#[export] Instance s_table_full : Setter omx_peer_table_full. Proof. mk_setter. Defined.
#[export] Instance s_table_state : Setter omx_peer_table_state. Proof. mk_setter. Defined.
#[export] Instance s_query_peers : Setter omx_host_query_peer_list. Proof. mk_setter. Defined.
#[export] Instance s_query_timer : Setter omx_host_query_timer. Proof. mk_setter. Defined.
#[export] Instance s_query_work : Setter omx_host_query_work. Proof. mk_setter. Defined.
#[export] Instance s_query_magic : Setter omx_host_query_magic. Proof. mk_setter. Defined.
#[export] Instance s_ifaces_array : Setter omx_ifaces. Proof. mk_setter. Defined.
#[export] Instance s_iface_nr : Setter omx_iface_nr. Proof. mk_setter. Defined.
#[export] Instance s_peers : Setter peers. Proof. mk_setter. Defined.
#[export] Instance s_ifaces : Setter ifaces. Proof. mk_setter. Defined.
#[export] Instance s_queries : Setter omx_host_query_list. Proof. mk_setter. Defined.
#[export] Instance s_replies : Setter omx_host_reply_list. Proof. mk_setter. Defined.
#[export] Instance s_sent : Setter sent. Proof. mk_setter. Defined.

(** ** Memory *)

Fixpoint for_each {A} (l : list A) (f : A -> table -> option table) (s : table) : option table :=
  match l with [] => Some s | x :: l => s ← f x s; for_each l f s end.
(** [BUG_ON]. *)
Definition bug_on (b : bool) : option () := if b then None else Some ().

Definition deref (s : table) (p : peer_ptr) : option omx_peer :=
  match p with Allocated n => peers s !! n | Embedded i => peer <$> ifaces s !! i end.
Definition update (p : peer_ptr) (f : omx_peer -> omx_peer) (s : table) : table :=
  match p with
  | Allocated n => s <| peers ::= alter f n |>
  | Embedded i => s <| ifaces ::= alter (set peer f) i |>
  end.
(** [kfree] of a peer: one inside an interface cannot be freed. *)
(* [driver/linux/omx_peer.c:143-149] __omx_peer_rcu_free_callback *)
Definition free_peer (p : peer_ptr) (s : table) : option table :=
  match p with
  | Allocated n => _ ← peers s !! n; Some (s <| peers ::= delete n |>)
  | Embedded i => None
  end.

(** [list_del] of the lists of the hash array and of the list of queries: an
    element that is in no list has no valid link. *)
Definition hash_del (p : peer_ptr) (s : table) : option table :=
  o ← deref s p;
  let h := Peer.omx_peer_addr_hash (board_addr o) in
  if decide (p ∈ omx_peer_addr_hash_array s h)
  then Some (s <| omx_peer_addr_hash_array ::= <[h := remove_elt p (omx_peer_addr_hash_array s h)]> |>) else None.
Definition hash_add_tail (p : peer_ptr) (h : Z) (s : table) : table :=
  s <| omx_peer_addr_hash_array ::= <[h := omx_peer_addr_hash_array s h ++ [p]]> |>.
Definition hash_replace (old new : peer_ptr) (h : Z) (s : table) : option table :=
  if decide (old ∈ omx_peer_addr_hash_array s h)
  then Some (s <| omx_peer_addr_hash_array ::=
    <[h := (fun p => if decide (p = old) then new else p) <$> omx_peer_addr_hash_array s h]> |>) else None.
(** The peer needs no query any more; the timer is stopped with the last one. *)
Definition query_del (p : peer_ptr) (s : table) : option table :=
  if decide (p ∈ omx_host_query_peer_list s) then
    let l := remove_elt p (omx_host_query_peer_list s) in
    let s := s <| omx_host_query_peer_list := l |> in
    Some (if decide (l = []) then s <| omx_host_query_timer := false |> else s)
  else None.
(** The peer needs a query; the timer is started with the first one. *)
Definition query_add (p : peer_ptr) (s : table) : table :=
  let listwasempty := bool_decide (omx_host_query_peer_list s = []) in
  let s := s <| omx_host_query_peer_list ::= fun l => l ++ [p] |> in
  if listwasempty then s <| omx_host_query_timer := true |> else s.

(** ** Interfaces *)

Section table.
Context (omx_peer_max omx_iface_max : Z) {order : ByteOrder}.

Definition attached (s : table) : list positive := omap (fun i => omx_ifaces s !! i) (seqZ 0 omx_iface_max).

(* [driver/linux/omx_iface.h:90-94] omx_iface_reacquire *)
Definition omx_iface_reacquire (i : positive) (s : table) : option table :=
  f ← ifaces s !! i; Some (s <| ifaces ::= <[i := f <| refcount ::= Z.succ |>]> |>).
(** The last reference frees the interface. *)
(* [driver/linux/omx_iface.c:317-321] omx_iface_release *)
Definition omx_iface_release (i : positive) (s : table) : option table :=
  f ← ifaces s !! i;
  if refcount f =? 1 then Some (s <| ifaces ::= delete i |>)
  else Some (s <| ifaces ::= <[i := f <| refcount ::= Z.pred |>]> |>).
(* [driver/linux/omx_iface.c:98-117] omx_iface_find_by_addr *)
Fixpoint find_iface (s : table) (addr : Z) (l : list positive) : option (option positive) :=
  match l with
  | [] => Some None
  | i :: l => f ← ifaces s !! i; if board_addr (peer f) =? addr then Some (Some i) else find_iface s addr l
  end.
Definition omx_iface_find_by_addr (addr : Z) (s : table) : option (option positive * table) :=
  r ← find_iface s addr (attached s);
  match r with None => Some (None, s) | Some i => s ← omx_iface_reacquire i s; Some (Some i, s) end.

(** [iface->reverse_peer_indexes[i] = v], in an array of [omx_peer_max]. *)
Definition set_reverse (id : positive) (i v : Z) (s : table) : option table :=
  f ← ifaces s !! id;
  if (0 <=? i) && (i <? omx_peer_max) then Some (s <| ifaces ::= <[id := f <| reverse_peer_indexes ::= <[i := v]> |>]> |>)
  else None.
(* [driver/linux/omx_peer.c:90-98] omx_init_peer_reverse_indexes *)
Definition omx_init_peer_reverse_indexes (index : Z) (local : bool) (s : table) : option table :=
  let index := u16 index in
  let reverse := if local then index else OMX_UNKNOWN_REVERSE_PEER_INDEX in
  for_each (attached s) (fun i => set_reverse i index reverse) s.
(* [driver/linux/omx_peer.c:107-126] omx_init_iface_reverse_indexes *)
Definition omx_init_iface_reverse_indexes (iface : positive) (s : table) : option table :=
  s ← for_each (seqZ 0 omx_peer_max) (fun i => set_reverse iface i OMX_UNKNOWN_REVERSE_PEER_INDEX) s;
  s ← for_each (attached s) (fun i s => f ← ifaces s !! i;
        let idx := u16 (index (peer f)) in set_reverse iface idx idx s) s;
  f ← ifaces s !! iface;
  s ← omx_init_peer_reverse_indexes (index (peer f)) true s;
  set_reverse iface (index (peer f)) (index (peer f)) s.

(** ** Queries *)

Definition reply_length : field := Field 17 1.
Definition host_src_dst_peer_index : field := Field 18 2.
Context (junk : nat -> Z).

(** [skbs] packets can be allocated: the first is copied for each interface. *)
(* [driver/linux/omx_peer.c:809-851] omx_peer_host_query *)
Definition omx_peer_host_query (skbs : nat) (p : peer_ptr) (s : table) : option table :=
  o ← deref s p;
  match skbs with
  | O => Some s
  | S copies =>
      let skb := fill [(ptype, OMX_PKT_TYPE_HOST_QUERY); (host_src_dst_peer_index, u16 (index o)); (host_magic, u32 (omx_host_query_magic s))]
                   (Host.omx_new_skb junk ETH_ZLEN) in
      let skb := omx_board_addr_to_ethhdr_dst (board_addr o) skb in
      for_each (take copies (attached s)) (fun i s => f ← ifaces s !! i;
        Some (s <| sent ::= fun l => l ++ [fill_ethhdr (dev_addr f) skb] |>)) s
  end.
(* [driver/linux/omx_peer.c:871-875] omx_host_query_timer_handler *)
Definition omx_host_query_timer_handler (s : table) : table :=
  s <| omx_host_query_timer := false |> <| omx_host_query_work := true |>.
(* [driver/linux/omx_peer.c:853-869] omx_host_query_workfunc *)
Definition omx_host_query_workfunc (skbs : peer_ptr -> nat) (s : table) : option table :=
  let s := s <| omx_host_query_work := false |> in
  if decide (omx_host_query_peer_list s = []) then Some s
  else
    s ← for_each (omx_host_query_peer_list s) (fun p => omx_peer_host_query (skbs p) p) s;
    Some (s <| omx_host_query_timer := true |>).

(** ** The peer table *)

(** The loop over the peers of a list that looks for an address. *)
Fixpoint find_addr (s : table) (addr : Z) (l : list peer_ptr) : option (option peer_ptr) :=
  match l with
  | [] => Some None
  | p :: l => o ← deref s p; if board_addr o =? addr then Some (Some p) else find_addr s addr l
  end.
(* [driver/linux/omx_peer.c:692-705] omx_peer_lookup_by_addr_locked *)
Definition omx_peer_lookup_by_addr_locked (addr : Z) (s : table) : option (option peer_ptr) :=
  find_addr s addr (omx_peer_addr_hash_array s (Peer.omx_peer_addr_hash addr)).

Definition set_full (s : table) : table :=
  s <| omx_peer_table_full := true |> <| omx_peer_table_state ::= set status (setf OMX_PEER_TABLE_STATUS_FULL) |>.

(** The bodies of the two loops of [omx_peers_clear]. *)
(* [driver/linux/omx_peer.c:160-200] omx_peers_clear *)
Definition clear_peer (local : bool) (i : Z) (s : table) : option table :=
  match omx_peer_array s !! i with
  | None => Some s
  | Some p =>
      o ← deref s p;
      match local_iface o, local with
      | Some _, false => Some s
      | iface, _ =>
          s ← hash_del p s;
          let s := s <| omx_peer_array ::= delete i |> in
          match iface with
          | Some f =>
              _ ← hostname o;
              let s := update p (fun o => o <| index := OMX_UNKNOWN_REVERSE_PEER_INDEX |> <| local_iface := None |>) s in
              omx_iface_release f s
          | None =>
              s ← (if hostname o then Some s else query_del p s);
              free_peer p s
          end
      end
  end.
(* [driver/linux/omx_peer.c:207-217] omx_peers_clear *)
Definition move_peer (i : Z) (s : table) : option table :=
  match omx_peer_array s !! i with
  | None => Some s
  | Some p =>
      _ ← deref s p;
      let nr := omx_peer_next_nr s in
      let s := if i =? nr then s
               else update p (set index (fun _ => nr)) s <| omx_peer_array ::= fun a => delete i (<[nr := p]> a) |> in
      Some (s <| omx_peer_next_nr ::= Z.succ |>)
  end.
(* [driver/linux/omx_peer.c:151-225] omx_peers_clear *)
Definition omx_peers_clear (local : bool) (s : table) : option table :=
  s ← for_each (seqZ 0 omx_peer_max) (clear_peer local) s;
  let s := s <| omx_peer_next_nr := 0 |> <| omx_peer_table_full := false |>
             <| omx_peer_table_state ::= set status (clrf OMX_PEER_TABLE_STATUS_FULL) |> in
  if local then Some s
  else
    s ← for_each (seqZ 0 omx_peer_max) move_peer s;
    Some (if omx_peer_next_nr s =? omx_peer_max then set_full s else s).

(** The host name of a peer that is in the table, with what it changes of the
    queries: whether it needs one. *)
(* [driver/linux/omx_peer.c:304-327] omx_peer_add *)
Definition rename_peer (p : peer_ptr) (new : option (list Z)) (s : table) : option (bool * table) :=
  o ← deref s p;
  '(needshostquery, s) ← match hostname o, new with
    | None, Some _ => s ← query_del p s; Some (false, s)
    | Some _, None => Some (true, query_add p s)
    | _, _ => Some (false, s)
    end;
  Some (needshostquery, update p (set hostname (fun _ => new)) s).
(** A peer of an interface takes the name of the table. *)
(* [driver/linux/omx_peer.c:288-302] omx_peer_add *)
Definition rename_iface (p : peer_ptr) (new : option (list Z)) (s : table) : option table :=
  match new with
  | None => Some s
  | Some _ => o ← deref s p; _ ← hostname o; Some (update p (set hostname (fun _ => new)) s)
  end.
(** The peer gets the next index. *)
(* [driver/linux/omx_peer.c:352-369] omx_peer_add *)
Definition insert_peer (p : peer_ptr) (hash : Z) (local : bool) (s : table) : option table :=
  let nr := omx_peer_next_nr s in
  _ ← deref s p;
  let s := update p (set index (fun _ => nr)) s in
  s ← omx_init_peer_reverse_indexes nr local s;
  let s := hash_add_tail p hash s in
  Some (s <| omx_peer_array ::= <[nr := p]> |> <| omx_peer_next_nr ::= Z.succ |>).

(** The peer of the address, once the table was looked up: that of the
    interface of the address, the one that is in the table, or a new one;
    whether it needs a query.  [kmalloc] is the peer that was allocated. *)
(* [driver/linux/omx_peer.c:272-350] omx_peer_add *)
Definition peer_of_addr (kmalloc : option positive) (addr : Z) (name : option (list Z)) (found : option peer_ptr)
    (iface : option positive) (s : table) : option (option (peer_ptr * bool * table)) :=
  match iface, found with
  | Some i, _ =>
      let p := Embedded i in
      o ← deref s p;
      s ← (if index o =? OMX_UNKNOWN_REVERSE_PEER_INDEX
           then _ ← bug_on (bool_decide (local_iface o <> None)); Some (update p (set local_iface (fun _ => Some i)) s)
           else s ← omx_iface_release i s; _ ← bug_on (bool_decide (local_iface o <> Some i)); Some s);
      s ← rename_iface p name s;
      Some (Some (p, false, s))
  | None, Some p => '(needshostquery, s) ← rename_peer p name s; Some (Some (p, needshostquery, s))
  | None, None =>
      match kmalloc with
      | None => Some None
      | Some n =>
          let p := Allocated n in
          let s := s <| peers ::= <[n := OmxPeer addr name OMX_UNKNOWN_REVERSE_PEER_INDEX None]> |> in
          Some (Some (p, bool_decide (name = None), if name then s else query_add p s))
      end
  end.

(** [strdup] tells whether the host name could be copied. *)
(* [driver/linux/omx_peer.c:227-383] omx_peer_add *)
Definition omx_peer_add (strdup : bool) (kmalloc : option positive) (skbs : nat)
    (addr : Z) (name : option (list Z)) (s : table) : option (Z * table) :=
  if bool_decide (name <> None) && negb strdup then Some (ENOMEM, s)
  else
    let hash := Peer.omx_peer_addr_hash addr in
    found ← find_addr s addr (omx_peer_addr_hash_array s hash);
    if bool_decide (found = None) && (omx_peer_next_nr s =? omx_peer_max) then Some (ENOMEM, set_full s)
    else
      '(iface, s) ← omx_iface_find_by_addr addr s;
      r ← peer_of_addr kmalloc addr name found iface s;
      match r with
      | None => Some (ENOMEM, s)
      | Some (p, needshostquery, s) =>
          s ← (if found then Some s else insert_peer p hash (bool_decide (iface <> None)) s);
          s ← (if (needshostquery : bool) then omx_peer_host_query skbs p s else Some s);
          Some (0, s)
      end.

(** ** Interfaces that come and go *)

(** The peer of the interface takes the place of the one that has its address. *)
(* [driver/linux/omx_peer.c:404-446] omx_peers_notify_iface_attach *)
Definition replace_peer (old : peer_ptr) (iface : positive) (s : table) : option table :=
  let p := Embedded iface in
  o ← deref s old;
  f ← ifaces s !! iface;
  _ ← bug_on (bool_decide (local_iface (peer f) <> None));
  s ← omx_iface_reacquire iface s;
  let s := update p (set index (fun _ => index o)) s in
  s ← omx_init_iface_reverse_indexes iface s;
  let s := update p (set local_iface (fun _ => Some iface)) s in
  s ← match hostname o with
      | Some name => Some (update old (set hostname (fun _ => None)) (update p (set hostname (fun _ => Some name)) s))
      | None => query_del old s
      end;
  s ← hash_replace old p (Peer.omx_peer_addr_hash (board_addr (peer f))) s;
  free_peer old (s <| omx_peer_array ::= <[index o := p]> |>).
(* [driver/linux/omx_peer.c:390-485] omx_peers_notify_iface_attach *)
Definition omx_peers_notify_iface_attach (iface : positive) (s : table) : option (Z * table) :=
  let p := Embedded iface in
  f ← ifaces s !! iface;
  let addr := board_addr (peer f) in
  let hash := Peer.omx_peer_addr_hash addr in
  found ← find_addr s addr (omx_peer_addr_hash_array s hash);
  match found with
  | Some old => s ← replace_peer old iface s; Some (0, s)
  | None =>
      let nr := omx_peer_next_nr s in
      if nr =? omx_peer_max then Some (ENOMEM, set_full s)
      else
        let s := update p (fun o => o <| local_iface := Some iface |> <| index := nr |>) s in
        s ← omx_init_iface_reverse_indexes iface s;
        s ← omx_iface_reacquire iface s;
        let s := hash_add_tail p hash s in
        Some (0, s <| omx_peer_array ::= <[nr := p]> |> <| omx_peer_next_nr ::= Z.succ |>)
  end.
(* [driver/linux/omx_peer.c:488-514] omx_peers_notify_iface_detach *)
Definition omx_peers_notify_iface_detach (iface : positive) (s : table) : option table :=
  let p := Embedded iface in
  o ← deref s p;
  if index o =? OMX_UNKNOWN_REVERSE_PEER_INDEX then Some s
  else
    s ← hash_del p s;
    let s := s <| omx_peer_array ::= delete (index o) |> in
    let s := update p (fun o => o <| index := OMX_UNKNOWN_REVERSE_PEER_INDEX |> <| local_iface := None |>) s in
    omx_iface_release iface s.

(** The device [ifp], of address [addr]; [kmalloc] is the interface that was
    allocated, [name] gives the host name of its index. *)
(* [driver/linux/omx_iface.c:409-528] omx_iface_attach *)
Definition omx_iface_attach (kmalloc : option positive) (name : Z -> list Z) (ifp addr : Z) (s : table) : option (Z * table) :=
  if omx_iface_nr s =? omx_iface_max then Some (EBUSY, s)
  else if existsb (fun i => bool_decide (eth_ifp <$> ifaces s !! i = Some ifp)) (attached s) then Some (EBUSY, s)
  else
    i ← find (fun i => bool_decide (omx_ifaces s !! i = None)) (seqZ 0 omx_iface_max);
    match kmalloc with
    | None => Some (ENOMEM, s)
    | Some id =>
        let f := OmxIface 0 ifp addr (OmxPeer addr (Some (name i)) OMX_UNKNOWN_REVERSE_PEER_INDEX None) ∅ false 1 0 in
        '(ret, s') ← omx_peers_notify_iface_attach id (s <| ifaces ::= <[id := f]> |>);
        if ret <? 0 then Some (ret, s' <| ifaces ::= delete id |>)
        else Some (0, s' <| ifaces ::= alter (set iface_index (fun _ => i)) id |> <| omx_ifaces ::= <[i := id]> |>
                        <| omx_iface_nr ::= Z.succ |>)
    end.
(** The endpoints that are open are closed by force; their own state is not
    here. *)
(* [driver/linux/omx_iface.c:558-633] omx_iface_detach *)
Definition omx_iface_detach (iface : positive) (force : bool) (s : table) : option (Z * table) :=
  f ← ifaces s !! iface;
  _ ← bug_on (bool_decide (omx_ifaces s !! iface_index f = None));
  if negb force && negb (endpoint_nr f =? 0) then Some (EBUSY, s)
  else
    let s := s <| ifaces ::= <[iface := f <| closing := true |>]> |> in
    s ← omx_peers_notify_iface_detach iface s;
    let s := s <| omx_ifaces ::= delete (iface_index f) |> <| omx_iface_nr ::= Z.pred |> in
    s ← omx_iface_release iface s;
    Some (0, s).
(* [driver/linux/omx_iface.c:251-292] omx_iface_set_hostname *)
Definition omx_iface_set_hostname (strdup : bool) (board_index : Z) (name : list Z) (s : table) : option (Z * table) :=
  if negb strdup then Some (ENOMEM, s)
  else if omx_iface_max <=? board_index then Some (EINVAL, s)
  else match omx_ifaces s !! board_index with
       | None => Some (EINVAL, s)
       | Some i => f ← ifaces s !! i; _ ← hostname (peer f);
                   Some (0, update (Embedded i) (set hostname (fun _ => Some name)) s)
       end.

(** ** Names *)

(** Every peer that has a name, but those of the interfaces, loses it. *)
(* [driver/linux/omx_peer.c:1098-1113] omx_peers_clear_names *)
Definition clear_name (skbs : nat) (i : Z) (s : table) : option table :=
  match omx_peer_array s !! i with
  | None => Some s
  | Some p =>
      o ← deref s p;
      if bool_decide (hostname o = None) || bool_decide (local_iface o <> None) then Some s
      else
        let s := update p (set hostname (fun _ => None)) s in
        omx_peer_host_query skbs p (s <| omx_host_query_peer_list ::= fun l => l ++ [p] |>)
  end.
(* [driver/linux/omx_peer.c:1088-1123] omx_peers_clear_names *)
Definition omx_peers_clear_names (skbs : Z -> nat) (s : table) : option table :=
  let listwasempty := bool_decide (omx_host_query_peer_list s = []) in
  s ← for_each (seqZ 0 omx_peer_max) (fun i => clear_name (skbs i) i) s;
  let s := if listwasempty && bool_decide (omx_host_query_peer_list s <> []) then s <| omx_host_query_timer := true |> else s in
  Some (s <| omx_host_query_magic ::= fun m => u32 (m + 1) |>).

(** The bytes up to the first zero. *)
Fixpoint cstring (l : list Z) : list Z :=
  match l with [] => [] | b :: l => if b =? 0 then [] else b :: cstring l end.

(** [mem] is what the allocator left; it is copied over if the packet has as
    many bytes as it says. *)
(* [driver/linux/omx_peer.c:974-980] omx_process_host_queries_and_replies_workfunc *)
Definition new_hostname (mem : list Z) (len : nat) (skb : list Z) : option (list Z) :=
  let mem := if Nat.leb (HOST_HDR + len) (length skb) then take len (drop HOST_HDR skb) else take len mem in
  match len with O => None | S n => Some (cstring (<[n := 0]> mem)) end.

(* [driver/linux/omx_peer.c:556-573] omx_peer_set_reverse_index *)
Definition omx_peer_set_reverse_index (p : peer_ptr) (iface : positive) (reverse_index : Z) (s : table) : option table :=
  o ← deref s p; f ← ifaces s !! iface;
  old ← reverse_peer_indexes f !! index o;
  if reverse_index =? old then Some s else set_reverse iface (index o) reverse_index s.

(** The reply [skb] that came through [iface]; [kmalloc] is the memory of the
    new name, if there is some. *)
(* [driver/linux/omx_peer.c:949-1007] omx_process_host_queries_and_replies_workfunc *)
Definition process_host_reply (kmalloc : option (list Z)) (iface : positive) (skb : list Z) (s : table) : option table :=
  found ← omx_peer_lookup_by_addr_locked (omx_board_addr_from_ethhdr_src skb) s;
  match found with
  | None => Some s
  | Some p =>
      o ← deref s p;
      len ← get_field reply_length skb;
      match kmalloc with
      | None => Some s
      | Some mem =>
          name ← new_hostname mem (Z.to_nat len) skb;
          s ← (if hostname o then Some s else query_del p s);
          let s := update p (set hostname (fun _ => Some name)) s in
          reverse_peer_index ← get_field host_src_dst_peer_index skb;
          omx_peer_set_reverse_index p iface reverse_peer_index s
      end
  end.
(** The reply to the query [skb]; the magic number goes back as it came. *)
(* [driver/linux/omx_peer.c:1009-1085] omx_process_host_queries_and_replies_workfunc *)
Definition process_host_query (alloc : bool) (iface : positive) (skb : list Z) (s : table) : option table :=
  f ← ifaces s !! iface;
  name ← hostname (peer f);
  let hostnamelen := S (length name) in
  reverse_peer_index ← get_field host_src_dst_peer_index skb;
  found ← omx_peer_lookup_by_addr_locked (omx_board_addr_from_ethhdr_src skb) s;
  match found with
  | None => Some s
  | Some p =>
      s ← omx_peer_set_reverse_index p iface reverse_peer_index s;
      if negb alloc then Some s
      else
        o ← deref s p;
        let out := fill [(ptype, OMX_PKT_TYPE_HOST_REPLY); (reply_length, u8 (Z.of_nat hostnamelen)); (host_src_dst_peer_index, u16 (index o))]
                     (Host.omx_new_skb junk (ETH_ZLEN + hostnamelen)) in
        let out := put_bytes 24 (take 4 (drop 24 skb)) out in
        let out := put_bytes HOST_HDR (name ++ [0]) out in
        let out := put_bytes 0 (take 6 (drop 6 skb)) (fill_ethhdr (dev_addr f) out) in
        Some (s <| sent ::= fun l => l ++ [out] |>)
  end.
(** All the replies, then all the queries. *)
(* [driver/linux/omx_peer.c:943-1086] omx_process_host_queries_and_replies_workfunc *)
Definition omx_process_host_queries_and_replies_workfunc (kmalloc : list Z -> option (list Z)) (alloc : list Z -> bool)
    (s : table) : option table :=
  s ← for_each (omx_host_reply_list s) (fun x => process_host_reply (kmalloc (snd x)) (fst x) (snd x))
        (s <| omx_host_reply_list := [] |>);
  for_each (omx_host_query_list s) (fun x => process_host_query (alloc (snd x)) (fst x) (snd x))
    (s <| omx_host_query_list := [] |>).

(** ** Reception *)

(* [driver/linux/omx_peer.c:881-908] omx_recv_host_query *)
Definition omx_recv_host_query (iface : positive) (skb : list Z) (s : table) : option (Z * table) :=
  f ← ifaces s !! iface;
  if bool_decide (take 6 skb <> rev (le_bytes 6 (dev_addr f))) then Some (EINVAL, s)
  else Some (0, s <| omx_host_query_list ::= fun l => l ++ [(iface, skb)] |>).
(* [driver/linux/omx_peer.c:910-940] omx_recv_host_reply *)
Definition omx_recv_host_reply (iface : positive) (skb : list Z) (s : table) : option (Z * table) :=
  magic ← get_field host_magic skb;
  if negb (magic =? omx_host_query_magic s) then Some (EINVAL, s)
  else Some (0, s <| omx_host_reply_list ::= fun l => l ++ [(iface, skb)] |>).

(** ** Lookups *)

(** [strcpy] of a name, or of the empty one, in a buffer of
    [OMX_HOSTNAMELEN_MAX] bytes. *)
Definition copy_hostname (name : option (list Z)) : option (list Z) :=
  match name with
  | None => Some []
  | Some l => if Z.of_nat (length l) <? OMX_HOSTNAMELEN_MAX then Some l else None
  end.
(* [driver/linux/omx_peer.c:648-683] omx_peer_lookup_by_index *)
Definition omx_peer_lookup_by_index (i : Z) (s : table) : option (Z + Z * list Z) :=
  if omx_peer_max <=? i then Some (inl EINVAL)
  else match omx_peer_array s !! i with
       | None => Some (inl EINVAL)
       | Some p => o ← deref s p; name ← copy_hostname (hostname o); Some (inr (board_addr o, name))
       end.
(* [driver/linux/omx_peer.c:714-742] omx_peer_lookup_by_addr *)
Definition omx_peer_lookup_by_addr (addr : Z) (s : table) : option (Z + Z * list Z) :=
  found ← omx_peer_lookup_by_addr_locked addr s;
  match found with
  | None => Some (inl EINVAL)
  | Some p => o ← deref s p; name ← copy_hostname (hostname o); Some (inr (index o, name))
  end.
Fixpoint find_hostname (s : table) (name : list Z) (l : list Z) : option (Z + Z * Z) :=
  match l with
  | [] => Some (inl EINVAL)
  | i :: l =>
      match omx_peer_array s !! i with
      | None => find_hostname s name l
      | Some p => o ← deref s p; if bool_decide (hostname o = Some name) then Some (inr (i, board_addr o)) else find_hostname s name l
      end
  end.
(* [driver/linux/omx_peer.c:751-779] omx_peer_lookup_by_hostname *)
Definition omx_peer_lookup_by_hostname (name : list Z) (s : table) : option (Z + Z * Z) :=
  find_hostname s name (seqZ 0 omx_peer_max).
(** The interface whose endpoint [omx_local_peer_acquire_endpoint] acquires. *)
(* [driver/linux/omx_peer.c:520-545] omx_local_peer_acquire_endpoint *)
Definition local_peer_iface (i : Z) (s : table) : option (option positive) :=
  if omx_peer_max <=? i then Some None
  else match omx_peer_array s !! i with None => Some None | Some p => o ← deref s p; Some (local_iface o) end.

(** ** State, initialisation and exit *)

(* [driver/linux/omx_peer.c:1129-1133] omx_peer_table_get_state *)
Definition omx_peer_table_get_state (s : table) : omx_cmd_peer_table_state := omx_peer_table_state s.
(* [driver/linux/omx_peer.c:1135-1149] omx_peer_table_set_state *)
Definition omx_peer_table_set_state (allowed : bool) (state : omx_cmd_peer_table_state) (s : table) : Z * table :=
  if negb allowed then (EPERM, s)
  else
    let st := setf (Z.land (status state) OMX_PEER_TABLE_STATUS_SETMASK)
                (clrf OMX_PEER_TABLE_STATUS_SETMASK (status (omx_peer_table_state s))) in
    (0, s <| omx_peer_table_state := state <| status := st |> |>).
(** Nothing is allocated yet; the state is [0], [0], [0], [-1] before. *)
(* [driver/linux/omx_peer.c:1155-1202] omx_peers_init *)
Definition omx_peers_init (magic : Z) : table :=
  Table ∅ (fun _ => []) 0 false (PeerTableState (clrf OMX_PEER_TABLE_STATUS_FULL 0) 0 0 (u64 (-1))) [] false false magic
    ∅ 0 ∅ ∅ [] [] [].
(* [driver/linux/omx_peer.c:1204-1220] omx_peers_exit *)
Definition omx_peers_exit (s : table) : option table :=
  s ← omx_peers_clear true s;
  _ ← bug_on (bool_decide (omx_host_query_peer_list s <> []));
  Some (s <| omx_host_query_timer := false |> <| omx_host_query_list := [] |> <| omx_host_reply_list := [] |>).
End table.
End PeerTable.
