(* ===== verification/PeerInv.v ===== *)
(** The invariant of the peer table: the array, the hash lists and the list of
    queries hold the same peers, and what changes of it is a step of six kinds. *)
From S2P Require Import Prelude Peer Wire Host PeerTable.

Module PeerInv.
Import Wire PeerTable.

#[local] Notation hash_of o := (Peer.omx_peer_addr_hash (board_addr o)).

(** ** The lists and the array

    [d] is what the pointers point to, [nr] bounds the indexes. *)
Record links (arr : gmap Z peer_ptr) (hash : Z -> list peer_ptr) (ql : list peer_ptr)
    (d : peer_ptr -> option omx_peer) (nr : Z) : Prop := Links {
  l_entry i p : arr !! i = Some p -> 0 <= i < nr /\ exists o, d p = Some o /\ index o = i;
  l_addr i j p q o o' : arr !! i = Some p -> arr !! j = Some q -> d p = Some o -> d q = Some o' ->
    board_addr o = board_addr o' -> i = j;
  l_hash_nodup h : NoDup (hash h);
  l_hash h p : p ∈ hash h <-> exists i o, arr !! i = Some p /\ d p = Some o /\ h = hash_of o;
  l_query_nodup : NoDup ql;
  l_query p : p ∈ ql <-> exists i o, arr !! i = Some p /\ d p = Some o /\ hostname o = None }.

Section links.
Context {arr : gmap Z peer_ptr} {hash : Z -> list peer_ptr} {ql : list peer_ptr} {d : peer_ptr -> option omx_peer} {nr : Z}.
Hypothesis (L : links arr hash ql d nr).
Implicit Types (i j : Z) (p q : peer_ptr) (o : omx_peer).

Lemma entry_index i p o : arr !! i = Some p -> d p = Some o -> index o = i.
Proof. intros H1 H2. apply (l_entry _ _ _ _ _ L) in H1 as (_ & o' & H3 & <-). congruence. Qed.
Lemma entry_inj i j p : arr !! i = Some p -> arr !! j = Some p -> i = j.
Proof.
  intros H1 H2. destruct (l_entry _ _ _ _ _ L i p H1) as (_ & o & Ho & <-). by apply (entry_index j p o).
Qed.
Lemma links_hashed i p o : arr !! i = Some p -> d p = Some o -> p ∈ hash (hash_of o).
Proof. intros H1 H2. apply (l_hash _ _ _ _ _ L). eauto. Qed.
Lemma links_named i p o : arr !! i = Some p -> d p = Some o -> hostname o <> None -> p ∉ ql.
Proof. intros H1 H2 H3 (j & o' & H4 & H5 & H6)%(l_query _ _ _ _ _ L). congruence. Qed.
Lemma links_free : arr !! nr = None.
Proof. destruct (arr !! nr) as [p|] eqn:E; [|done]. apply (l_entry _ _ _ _ _ L) in E as (H & _). lia. Qed.

Lemma links_bound nr' : nr <= nr' -> links arr hash ql d nr'.
Proof. intros H. destruct L as [L1 L2 L3 L4 L5 L6]. split; try done. intros i p Hp. destruct (L1 i p Hp) as [? ?]. split; [lia|done]. Qed.
(** Only what the pointers of the array point to counts. *)
Lemma links_agree d' : (forall i p, arr !! i = Some p -> d' p = d p) -> links arr hash ql d' nr.
Proof.
  intros H. destruct L as [L1 L2 L3 L4 L5 L6]. split; [..|done|].
  - intros i p Hp. rewrite (H i p Hp). by apply L1.
  - intros i j p q o o' Hp Hq. rewrite (H i p Hp), (H j q Hq). by apply L2.
  - done.
  - intros h p. rewrite L4. split; intros (i & o & Hp & Ho & E); exists i, o; rewrite ?(H i p Hp) in *; eauto.
  - intros p. rewrite L6. split; intros (i & o & Hp & Ho & E); exists i, o; rewrite ?(H i p Hp) in *; eauto.
Qed.

Lemma links_delete i p o d' : arr !! i = Some p -> d p = Some o -> (forall q, q <> p -> d' q = d q) ->
  links (delete i arr) (<[hash_of o := remove_elt p (hash (hash_of o))]> hash) (remove_elt p ql) d' nr.
Proof.
  intros Hp Ho Hd.
  assert (Hne : forall j q, delete i arr !! j = Some q -> arr !! j = Some q /\ q <> p).
  { intros j q [Hj Hq]%lookup_delete_Some. split; [done|]. intros ->. apply Hj. by apply (entry_inj i j p). }
  destruct L as [L1 L2 L3 L4 L5 L6]. split.
  - intros j q [Hq Hqp]%Hne. rewrite Hd by done. by apply L1.
  - intros j k q r o1 o2 [Hq Hqp]%Hne [Hr Hrp]%Hne. rewrite !Hd by done. by apply L2.
  - intros h. destruct (decide (h = hash_of o)) as [->|Hh]; [rewrite fn_lookup_insert; by apply NoDup_remove_elt|by rewrite fn_lookup_insert_ne].
  - intros h q. destruct (decide (q = p)) as [->|Hqp].
    + split.
      * destruct (decide (h = hash_of o)) as [->|Hh]; [rewrite fn_lookup_insert, elem_of_remove_elt; tauto|].
        rewrite fn_lookup_insert_ne by done. intros (j & o' & _ & Ho' & ->)%L4. congruence.
      * intros (j & o' & [_ Hq]%Hne & _). done.
    + assert (Hin : q ∈ (<[hash_of o := remove_elt p (hash (hash_of o))]> hash) h <-> q ∈ hash h).
      { destruct (decide (h = hash_of o)) as [->|Hh]; [rewrite fn_lookup_insert, elem_of_remove_elt; tauto|by rewrite fn_lookup_insert_ne]. }
      rewrite Hin, L4. rewrite Hd by done. split; intros (j & o' & Hq & Ho' & E); exists j, o'; split_and!; try done.
      * rewrite lookup_delete_ne; [done|]. intros <-. congruence.
      * by apply Hne in Hq as [? _].
  - by apply NoDup_remove_elt.
  - intros q. rewrite elem_of_remove_elt, L6. split.
    + intros (Hqp & j & o' & Hq & Ho' & E). exists j, o'. rewrite Hd by done. split_and!; try done.
      rewrite lookup_delete_ne; [done|]. intros <-. congruence.
    + intros (j & o' & [Hq Hqp]%Hne & Ho' & E). rewrite Hd in Ho' by done. split; [done|]. by exists j, o'.
Qed.

Lemma links_insert p o d' : (forall i, arr !! i <> Some p) -> d' p = Some o -> index o = nr -> 0 <= nr ->
  (forall q, q <> p -> d' q = d q) -> (forall i q o', arr !! i = Some q -> d q = Some o' -> board_addr o' <> board_addr o) ->
  links (<[nr := p]> arr) (<[hash_of o := hash (hash_of o) ++ [p]]> hash) (if hostname o then ql else ql ++ [p]) d' (nr + 1).
Proof.
  intros Hp Ho Hi Hnr Hd Ha. pose proof links_free as Hfree.
  assert (Hold : forall i q, arr !! i = Some q -> q <> p /\ i <> nr /\ d' q = d q).
  { intros i q Hq. assert (q <> p) by (intros ->; by apply (Hp i)). split_and!; [done| |by apply Hd]. intros ->. congruence. }
  assert (Hnew : forall i q, (<[nr := p]> arr : gmap Z peer_ptr) !! i = Some q -> i = nr /\ q = p \/ i <> nr /\ q <> p /\ arr !! i = Some q).
  { intros i q [[<- <-]|[Hn Hq]]%lookup_insert_Some; [by left|]. right. split_and!; [done| |done]. by apply (Hold i). }
  destruct L as [L1 L2 L3 L4 L5 L6]. split.
  - intros i q [[-> ->]|(Hn & Hq & Hi')]%Hnew; [split; [lia|by exists o]|].
    rewrite Hd by done. destruct (L1 i q Hi') as [? ?]. split; [lia|done].
  - intros i j q r o1 o2 [[-> ->]|(Hn & Hq & Hi')]%Hnew [[-> ->]|(Hn2 & Hr & Hj')]%Hnew; [done| | |].
    + rewrite Ho, Hd by done. intros [= <-] H2 E. by destruct (Ha j r o2).
    + rewrite Ho, Hd by done. intros H1 [= <-] E. by destruct (Ha i q o1).
    + rewrite !Hd by done. by apply L2.
  - intros h. destruct (decide (h = hash_of o)) as [->|Hh]; [rewrite fn_lookup_insert|by rewrite fn_lookup_insert_ne].
    apply NoDup_app. split_and!; [done| |apply NoDup_singleton].
    intros q Hq ->%list_elem_of_singleton. apply L4 in Hq as (i & _ & Hq & _). by apply (Hp i).
  - intros h q. destruct (decide (q = p)) as [->|Hqp].
    + split.
      * destruct (decide (h = hash_of o)) as [->|Hh]; [intros _; exists nr, o; by rewrite lookup_insert_eq|].
        rewrite fn_lookup_insert_ne by done. intros (i & _ & Hq & _)%L4. by destruct (Hp i).
      * intros (i & o' & _ & Ho' & ->). rewrite Ho in Ho'. injection Ho' as <-. rewrite fn_lookup_insert. apply elem_of_app. right. by constructor.
    + assert (Hin : q ∈ (<[hash_of o := hash (hash_of o) ++ [p]]> hash) h <-> q ∈ hash h).
      { destruct (decide (h = hash_of o)) as [->|Hh]; [rewrite fn_lookup_insert, elem_of_app, list_elem_of_singleton; tauto|by rewrite fn_lookup_insert_ne]. }
      rewrite Hin, L4, Hd by done. split; intros (j & o' & Hq & Ho' & E); exists j, o'; split_and!; try done.
      * destruct (Hold _ _ Hq) as (_ & Hj & _). by rewrite lookup_insert_ne.
      * by apply Hnew in Hq as [[_ ->]|(_ & _ & Hq)].
  - destruct (hostname o); [done|]. apply NoDup_app. split_and!; [done| |apply NoDup_singleton].
    intros q Hq ->%list_elem_of_singleton. apply L6 in Hq as (i & _ & Hq & _). by apply (Hp i).
  - intros q. destruct (decide (q = p)) as [->|Hqp].
    + transitivity (hostname o = None).
      * split; [|intros ->; apply elem_of_app; right; by constructor].
        destruct (hostname o) eqn:Hh; [|done]. intros (i & _ & Hq & _)%L6. by destruct (Hp i).
      * split; [intros Hn; exists nr, o; by rewrite lookup_insert_eq|]. intros (i & o' & _ & Ho' & E). congruence.
    + transitivity (q ∈ ql); [destruct (hostname o); [done|]; rewrite elem_of_app, list_elem_of_singleton; tauto|].
      rewrite L6, Hd by done. split; intros (j & o' & Hq & Ho' & E); exists j, o'; split_and!; try done.
      * destruct (Hold _ _ Hq) as (_ & Hj & _). by rewrite lookup_insert_ne.
      * by apply Hnew in Hq as [[_ ->]|(_ & _ & Hq)].
Qed.

(** The same peers, at the same places, other names. *)
Lemma links_query ql' d' :
  (forall i q o, arr !! i = Some q -> d q = Some o -> exists o', d' q = Some o' /\ index o' = index o /\ board_addr o' = board_addr o) ->
  NoDup ql' -> (forall q, q ∈ ql' <-> exists i o, arr !! i = Some q /\ d' q = Some o /\ hostname o = None) ->
  links arr hash ql' d' nr.
Proof.
  intros H Hn Hq. pose proof (l_entry _ _ _ _ _ L) as L1.
  assert (Hback : forall i q o', arr !! i = Some q -> d' q = Some o' -> exists o, d q = Some o /\ index o' = index o /\ board_addr o' = board_addr o).
  { intros i q o' Hi Ho'. destruct (L1 i q Hi) as (_ & o & Ho & _). exists o. split; [done|].
    destruct (H i q o Hi Ho) as (o2 & Ho2 & ?). congruence. }
  destruct L as [_ L2 L3 L4 L5 L6]. split; try done.
  - intros i q Hi. destruct (L1 i q Hi) as (Hr & o & Ho & Hx). destruct (H i q o Hi Ho) as (o' & Ho' & Hx' & _).
    split; [done|]. exists o'. split; [done|congruence].
  - intros i j q r o1 o2 Hi Hj (o1' & H1 & _ & E1)%(Hback i q o1 Hi) (o2' & H2 & _ & E2)%(Hback j r o2 Hj) E.
    apply (L2 i j q r o1' o2'); congruence.
  - intros h q. rewrite L4. split.
    + intros (i & o & Hi & Ho & E). destruct (H i q o Hi Ho) as (o' & Ho' & _ & Ha). exists i, o'. by rewrite Ha.
    + intros (i & o' & Hi & Ho' & E). destruct (Hback i q o' Hi Ho') as (o & Ho & _ & Ha). exists i, o. by rewrite <- Ha.
Qed.

(** The list of queries after the name of [p] changes from [old] to [new]. *)
Definition renamed (p : peer_ptr) (old new : option (list Z)) (l : list peer_ptr) : list peer_ptr :=
  match old, new with None, Some _ => remove_elt p l | Some _, None => l ++ [p] | _, _ => l end.
Lemma links_rename i p o new d' : arr !! i = Some p -> d p = Some o -> d' p = Some (set hostname (fun _ => new) o) ->
  (forall q, q <> p -> d' q = d q) -> links arr hash (renamed p (hostname o) new ql) d' nr.
Proof.
  intros Hp Ho Ho' Hd. pose proof (l_query _ _ _ _ _ L) as L6. pose proof (l_query_nodup _ _ _ _ _ L) as L5.
  assert (Hin : p ∈ ql <-> hostname o = None).
  { rewrite L6. split; [intros (j & o2 & _ & H2 & E); congruence|intros E; by exists i, o]. }
  apply links_query.
  - intros j q o1 Hj Ho1. destruct (decide (q = p)) as [->|Hq]; [|rewrite Hd by done; by exists o1].
    exists (set hostname (fun _ => new) o). assert (o1 = o) as -> by congruence. done.
  - unfold renamed. destruct (hostname o) eqn:E1, new; try done; [|by apply NoDup_remove_elt].
    apply NoDup_app. split_and!; [done| |apply NoDup_singleton]. intros q Hq ->%list_elem_of_singleton. apply Hin in Hq. congruence.
  - intros q. destruct (decide (q = p)) as [->|Hq].
    + transitivity (new = None).
      * unfold renamed. destruct (hostname o) eqn:E1, new.
        -- split; [intros Hq%Hin; congruence|done].
        -- split; [done|]. intros _. apply elem_of_app. right. by constructor.
        -- rewrite elem_of_remove_elt. split; [tauto|done].
        -- split; [done|]. intros _. by apply Hin.
      * split; [intros ->; exists i; eexists; eauto|]. intros (j & o2 & _ & H2 & E). rewrite Ho' in H2. injection H2 as <-. done.
    + transitivity (q ∈ ql).
      * unfold renamed. destruct (hostname o), new; [done| | |done].
        -- rewrite elem_of_app, list_elem_of_singleton. tauto.
        -- rewrite elem_of_remove_elt. tauto.
      * rewrite L6, Hd by done. done.
Qed.

(** The pointer [new] takes the place of [old], with a name. *)
Lemma links_replace i old new o o' d' : arr !! i = Some old -> d old = Some o -> (forall j, arr !! j <> Some new) ->
  d' new = Some o' -> index o' = i -> board_addr o' = board_addr o -> hostname o' <> None ->
  (forall q, q <> old -> q <> new -> d' q = d q) ->
  links (<[i := new]> arr) (<[hash_of o := (fun p => if decide (p = old) then new else p) <$> hash (hash_of o)]> hash)
    (remove_elt old ql) d' nr.
Proof.
  intros Hold Ho Hnew Ho' Hi Ha Hn Hd.
  assert (Hcases : forall j q, (<[i := new]> arr : gmap Z peer_ptr) !! j = Some q ->
    j = i /\ q = new \/ j <> i /\ q <> new /\ q <> old /\ arr !! j = Some q /\ d' q = d q).
  { intros j q [[<- <-]|[Hj Hq]]%lookup_insert_Some; [by left|]. right.
    assert (q <> new) by (intros ->; by apply (Hnew j)). assert (q <> old) by (intros ->; apply Hj; by apply (entry_inj i j old)).
    split_and!; try done. by apply Hd. }
  pose proof (entry_inj i) as Hinj.
  destruct L as [L1 L2 L3 L4 L5 L6]. split.
  - intros j q [[-> ->]|(_ & _ & _ & Hq & ->)]%Hcases; [|by apply L1]. split; [by destruct (L1 i old Hold)|by exists o'].
  - intros j k q r o1 o2 [[-> ->]|(Hj & _ & _ & Hq & Eq)]%Hcases [[-> ->]|(Hk & _ & _ & Hr & Er)]%Hcases; [done| | |].
    + rewrite Ho', Er. intros [= <-] H2 E. apply (L2 i k old r o o2); congruence.
    + rewrite Ho', Eq. intros H1 [= <-] E. apply (L2 j i q old o1 o); congruence.
    + rewrite Eq, Er. by apply L2.
  - intros h. destruct (decide (h = hash_of o)) as [->|Hh]; [rewrite fn_lookup_insert|by rewrite fn_lookup_insert_ne].
    apply NoDup_fmap_2_strong; [|done]. intros p q Hp Hq.
    assert (Hx : forall p, p ∈ hash (hash_of o) -> p <> new) by (intros ? (j & _ & Hj & _)%L4 ->; by apply (Hnew j)).
    pose proof (Hx p Hp). pose proof (Hx q Hq). repeat case_decide; congruence.
  - intros h q. assert (Hq : q ∈ hash h -> q <> new) by (intros (j & _ & Hj & _)%L4 ->; by apply (Hnew j)). split.
    + destruct (decide (h = hash_of o)) as [->|Hh].
      * rewrite fn_lookup_insert, list_elem_of_fmap. intros (p & -> & Hp). pose proof Hp as (j & o1 & Hj & Ho1 & E)%L4.
        case_decide as Ep; [exists i, o'; rewrite lookup_insert_eq, Ha; done|].
        exists j, o1. rewrite lookup_insert_ne, Hd; [done|done| |].
        -- intros ->. by apply (Hnew j).
        -- intros ->. congruence.
      * rewrite fn_lookup_insert_ne by done. intros Hin. pose proof Hin as (j & o1 & Hj & Ho1 & E)%L4.
        assert (q <> old) by (intros ->; apply Hh; congruence).
        exists j, o1. rewrite lookup_insert_ne, Hd; [done|done|by apply Hq|]. intros ->. congruence.
    + intros (j & o1 & Hj & Ho1 & E). apply Hcases in Hj as [[-> ->]|(Hj & Hqn & Hqo & Hq' & Ed)].
      * assert (o1 = o') as -> by congruence. rewrite Ha in E. subst h. rewrite fn_lookup_insert. apply list_elem_of_fmap.
        exists old. rewrite decide_True by done. split; [done|]. apply L4. by exists i, o.
      * assert (Hin : q ∈ hash h) by (apply L4; exists j, o1; by rewrite <- Ed).
        destruct (decide (h = hash_of o)) as [->|Hh]; [rewrite fn_lookup_insert|by rewrite fn_lookup_insert_ne].
        apply list_elem_of_fmap. exists q. by rewrite decide_False.
  - by apply NoDup_remove_elt.
  - intros q. rewrite elem_of_remove_elt, L6. split.
    + intros (Hqo & j & o1 & Hj & Ho1 & E). assert (q <> new) by (intros ->; by apply (Hnew j)).
      exists j, o1. rewrite lookup_insert_ne, Hd; [done..|]. intros ->. congruence.
    + intros (j & o1 & Hj & Ho1 & E). apply Hcases in Hj as [[-> ->]|(Hj & Hqn & Hqo & Hq' & Ed)]; [congruence|].
      split; [done|]. exists j, o1. by rewrite <- Ed.
Qed.

(** A peer moves to a free index. *)
Lemma links_move i j p o d' : arr !! i = Some p -> d p = Some o -> arr !! j = None -> 0 <= j < nr ->
  d' p = Some (set index (fun _ => j) o) -> (forall q, q <> p -> d' q = d q) ->
  links (delete i (<[j := p]> arr)) hash ql d' nr.
Proof.
  intros Hp Ho Hj Hr Ho' Hd. assert (Hij : i <> j) by congruence.
  assert (Hcases : forall k q, delete i (<[j := p]> arr) !! k = Some q ->
    k = j /\ q = p \/ k <> i /\ k <> j /\ q <> p /\ arr !! k = Some q /\ d' q = d q).
  { intros k q [Hk [[<- <-]|[Hkj Hq]]%lookup_insert_Some]%lookup_delete_Some; [by left|]. right.
    assert (q <> p) by (intros ->; apply Hk; by apply (entry_inj i k p)). split_and!; try done. by apply Hd. }
  assert (Hkeep : forall k q, arr !! k = Some q -> q <> p -> delete i (<[j := p]> arr) !! k = Some q).
  { intros k q Hk Hq. rewrite lookup_delete_ne by congruence. rewrite lookup_insert_ne by congruence. done. }
  assert (Hto : delete i (<[j := p]> arr) !! j = Some p) by (by rewrite lookup_delete_ne, lookup_insert_eq by done).
  destruct L as [L1 L2 L3 L4 L5 L6]. split; try done.
  - intros k q [[-> ->]|(_ & _ & _ & Hq & ->)]%Hcases; [|by apply L1]. split; [done|]. eexists. by split; [exact Ho'|].
  - intros k l q r o1 o2 [[-> ->]|(Hk & _ & Hqp & Hq & Eq)]%Hcases [[-> ->]|(Hl & _ & Hrp & Hr' & Er)]%Hcases; [done| | |].
    + rewrite Ho', Er. intros [= <-] H2 E. destruct Hl. symmetry. by apply (L2 i l p r o o2).
    + rewrite Ho', Eq. intros H1 [= <-] E. destruct Hk. by apply (L2 k i q p o1 o).
    + rewrite Eq, Er. by apply L2.
  - intros h q. rewrite L4. destruct (decide (q = p)) as [->|Hqp].
    + split; [intros (k & o1 & Hk & Ho1 & ->)|intros (k & o1 & Hk & Ho1 & ->)].
      * assert (o1 = o) as -> by congruence. exists j. eexists. split; [done|]. by split; [exact Ho'|].
      * rewrite Ho' in Ho1. injection Ho1 as <-. by exists i, o.
    + rewrite Hd by done. split; intros (k & o1 & Hk & Ho1 & ->).
      * exists k, o1. split_and!; try done. by apply Hkeep.
      * apply Hcases in Hk as [[-> ->]|(_ & _ & _ & Hq & _)]; [done|]. by exists k, o1.
  - intros q. rewrite L6. destruct (decide (q = p)) as [->|Hqp].
    + split; [intros (k & o1 & Hk & Ho1 & E)|intros (k & o1 & Hk & Ho1 & E)].
      * assert (o1 = o) as -> by congruence. exists j. eexists. split; [done|]. by split; [exact Ho'|].
      * rewrite Ho' in Ho1. injection Ho1 as <-. by exists i, o.
    + rewrite Hd by done. split; intros (k & o1 & Hk & Ho1 & E).
      * exists k, o1. split_and!; try done. by apply Hkeep.
      * apply Hcases in Hk as [[-> ->]|(_ & _ & _ & Hq & _)]; [done|]. by exists k, o1.
Qed.
End links.
End PeerInv.
