(* ===== verification/PeerOps.v ===== *)
(** What holds of the peer table between operations, and the steps of the
    operations that keep it. *)
From S2P Require Import Prelude Peer Wire Host PeerTable PeerInv.

Module PeerOps.
Import Wire PeerTable PeerInv.

(** ** Loops *)

Lemma for_each_inv {A} (I : table -> Prop) (f : A -> table -> option table) l : forall s, I s ->
  (forall x s, x ∈ l -> I s -> exists s', f x s = Some s' /\ I s') -> exists s', for_each l f s = Some s' /\ I s'.
Proof.
  induction l as [|x l IH]; intros s Hs H; [by exists s|]. cbn [for_each].
  destruct (H x s) as (s' & -> & Hs'); [by constructor|done|]. cbn [mbind option_bind].
  apply IH; [done|]. intros y t Hy. apply H. by constructor.
Qed.
Lemma for_each_seqZ (I : Z -> table -> Prop) (f : Z -> table -> option table) n s : 0 <= n -> I 0 s ->
  (forall i s, 0 <= i < n -> I i s -> exists s', f i s = Some s' /\ I (i + 1) s') ->
  exists s', for_each (seqZ 0 n) f s = Some s' /\ I n s'.
Proof.
  intros Hn HI H. assert (Hg : forall m k s, 0 <= k -> k + Z.of_nat m = n -> I k s ->
    exists s', for_each (seqZ k (Z.of_nat m)) f s = Some s' /\ I n s').
  { induction m as [|m IH]; intros k t Hk E Ht; [exists t; split; [done|]; by replace n with k by lia|].
    rewrite seqZ_cons by lia. cbn [for_each]. destruct (H k t) as (t' & -> & Ht'); [lia|done|]. cbn [mbind option_bind].
    replace (Z.pred (Z.of_nat (S m))) with (Z.of_nat m) by lia. apply (IH (Z.succ k)); [lia..|done]. }
  specialize (Hg (Z.to_nat n) 0 s). rewrite Z2Nat.id in Hg by done. by apply Hg.
Qed.

Lemma deref_update s p f q : deref (update p f s) q = if decide (q = p) then f <$> deref s q else deref s q.
Proof.
  destruct (decide (q = p)) as [->|E].
  - destruct p as [n|i]; cbn; fsimp; rewrite lookup_alter_eq; [done|]. by destruct (ifaces s !! i).
  - destruct p as [n|i], q as [m|j]; cbn; fsimp; try done; by rewrite lookup_alter_ne by congruence.
Qed.

Section ok.
Context (omx_peer_max omx_iface_max : Z).

(** ** The invariant *)

(** An interface that is in the table is attached and its peer points to it;
    the other ones wait for their last reference. *)
Record iface_ok (arr : gmap Z peer_ptr) (oi : gmap Z positive) (id : positive) (f : omx_iface) : Prop := IfaceOk {
  if_refs : 1 <= refcount f;
  if_named : hostname (peer f) <> None;
  if_reverse i : 0 <= i < omx_peer_max -> is_Some (reverse_peer_indexes f !! i);
  if_peer : if decide (index (peer f) = OMX_UNKNOWN_REVERSE_PEER_INDEX) then local_iface (peer f) = None
            else arr !! index (peer f) = Some (Embedded id) /\ local_iface (peer f) = Some id /\ oi !! iface_index f = Some id }.
Definition attached_ok (oi : gmap Z positive) (ifs : gmap positive omx_iface) : Prop := forall k id, oi !! k = Some id ->
  0 <= k < omx_iface_max /\ exists f, ifs !! id = Some f /\ iface_index f = k /\ 2 <= refcount f /\
    index (peer f) <> OMX_UNKNOWN_REVERSE_PEER_INDEX.
(** No peer that was allocated is lost. *)
Definition peers_ok (arr : gmap Z peer_ptr) (ps : gmap positive omx_peer) : Prop := forall n o, ps !! n = Some o ->
  local_iface o = None /\ arr !! index o = Some (Allocated n).
Definition name_ok (name : option (list Z)) : Prop := forall l, name = Some l -> Z.of_nat (length l) < OMX_HOSTNAMELEN_MAX.
Definition queued_ok (ifs : gmap positive omx_iface) (l : list (positive * list Z)) : Prop := forall x, x ∈ l ->
  is_Some (ifs !! fst x) /\ (HOST_HDR <= length (snd x))%nat.

Record core_ok (nr : Z) (s : table) : Prop := CoreOk {
  c_links : links (omx_peer_array s) (omx_peer_addr_hash_array s) (omx_host_query_peer_list s) (deref s) nr;
  c_attached : attached_ok (omx_ifaces s) (ifaces s);
  c_ifaces id f : ifaces s !! id = Some f -> iface_ok (omx_peer_array s) (omx_ifaces s) id f;
  c_iface_nr : omx_iface_nr s = Z.of_nat (base.size (omx_ifaces s));
  c_peers : peers_ok (omx_peer_array s) (peers s);
  c_names p o : deref s p = Some o -> name_ok (hostname o);
  c_queued : queued_ok (ifaces s) (omx_host_query_list s ++ omx_host_reply_list s) }.
(** As long as a host name is asked for, something will ask again. *)
Definition timer_ok (s : table) : Prop :=
  omx_host_query_peer_list s <> [] -> omx_host_query_timer s = true \/ omx_host_query_work s = true.
Definition full_ok (s : table) : Prop :=
  hasf (status (omx_peer_table_state s)) OMX_PEER_TABLE_STATUS_FULL = omx_peer_table_full s /\
  (omx_peer_table_full s = true -> omx_peer_next_nr s = omx_peer_max).
Record table_ok (s : table) : Prop := TableOk {
  t_core : core_ok (omx_peer_next_nr s) s;
  t_nr : 0 <= omx_peer_next_nr s <= omx_peer_max;
  t_timer : timer_ok s;
  t_full : full_ok s }.

End ok.
Arguments c_links {_ _ _ _} _.
Arguments c_attached {_ _ _ _} _.
Arguments c_ifaces {_ _ _ _} _.
Arguments c_iface_nr {_ _ _ _} _.
Arguments c_peers {_ _ _ _} _.
Arguments c_names {_ _ _ _} _.
Arguments c_queued {_ _ _ _} _.

(** The index of a peer has 16 bits on the wire. *)
Class peer_max_ok (omx_peer_max : Z) : Prop := peer_max_range : 0 <= omx_peer_max <= 65536.

Section steps.
Context {omx_peer_max omx_iface_max : Z} {Hmax : peer_max_ok omx_peer_max}.
#[local] Notation core_ok := (core_ok omx_peer_max omx_iface_max).
#[local] Notation attached := (attached omx_iface_max).
#[local] Notation set_reverse := (set_reverse omx_peer_max).
Let Hrange : 0 <= omx_peer_max <= 65536 := Hmax.

Lemma core_ext nr s s' : core_ok nr s ->
  omx_peer_array s' = omx_peer_array s -> omx_peer_addr_hash_array s' = omx_peer_addr_hash_array s ->
  omx_host_query_peer_list s' = omx_host_query_peer_list s -> peers s' = peers s -> ifaces s' = ifaces s ->
  omx_ifaces s' = omx_ifaces s -> omx_iface_nr s' = omx_iface_nr s ->
  omx_host_query_list s' = omx_host_query_list s -> omx_host_reply_list s' = omx_host_reply_list s -> core_ok nr s'.
Proof.
  intros [C1 C2 C3 C4 C5 C6 C7] E1 E2 E3 E4 E5 E6 E7 E8 E9.
  assert (Hd : forall p, deref s' p = deref s p) by (intros [n|i]; cbn; by rewrite ?E4, ?E5).
  split; rewrite ?E1, ?E2, ?E3, ?E4, ?E5, ?E6, ?E7, ?E8, ?E9; try done.
  - eapply links_agree; [done|]. intros i p _. apply Hd.
  - intros p o. rewrite Hd. apply C6.
Qed.
Lemma core_bound nr nr' s : nr <= nr' -> core_ok nr s -> core_ok nr' s.
Proof. intros H [C1 C2 C3 C4 C5 C6 C7]. split; try done. by eapply links_bound. Qed.

Section core.
Context {nr : Z} {s : table}.
Hypothesis (C : core_ok nr s) (Hnr : nr <= omx_peer_max).
Implicit Types (i k : Z) (p q : peer_ptr) (o : omx_peer) (id : positive).

Lemma core_entry i p : omx_peer_array s !! i = Some p -> 0 <= i < nr /\ exists o, deref s p = Some o /\ index o = i.
Proof. apply (l_entry _ _ _ _ _ (c_links C)). Qed.
(** The peers of interfaces are those whose interface is set. *)
Lemma core_local i p o : omx_peer_array s !! i = Some p -> deref s p = Some o ->
  local_iface o = match p with Embedded id => Some id | Allocated _ => None end.
Proof.
  intros Hp Ho. pose proof (entry_index (c_links C) i p o Hp Ho) as Hi. apply core_entry in Hp as Hr. destruct Hr as [Hr _].
  destruct p as [n|id]; cbn in Ho; [by destruct (c_peers C n o Ho)|].
  destruct (ifaces s !! id) as [f|] eqn:Hf; [|done]. injection Ho as <-.
  apply (c_ifaces C) in Hf as [_ _ _ H]. rewrite decide_False in H by (unfold OMX_UNKNOWN_REVERSE_PEER_INDEX; lia). tauto.
Qed.
Lemma attached_in k id : omx_ifaces s !! k = Some id -> exists f, ifaces s !! id = Some f /\ iface_index f = k /\
  omx_peer_array s !! index (peer f) = Some (Embedded id) /\ local_iface (peer f) = Some id /\ 2 <= refcount f.
Proof.
  intros Hk. destruct (c_attached C k id Hk) as (_ & f & Hf & Hi & Hr & Hx). exists f.
  destruct (c_ifaces C id f Hf) as [_ _ _ H]. rewrite decide_False in H by done. tauto.
Qed.
Lemma elem_of_attached id : id ∈ attached s <-> exists k, omx_ifaces s !! k = Some id.
Proof.
  unfold attached. rewrite list_elem_of_omap. split; [intros (k & _ & Hk); by exists k|].
  intros (k & Hk). exists k. split; [|done]. apply elem_of_seqZ. destruct (c_attached C k id Hk). lia.
Qed.

(** ** Lookups *)

Lemma find_addr_spec addr : exists r, find_addr s addr (omx_peer_addr_hash_array s (Peer.omx_peer_addr_hash addr)) = Some r /\
  match r with
  | Some p => exists i o, omx_peer_array s !! i = Some p /\ deref s p = Some o /\ board_addr o = addr
  | None => forall i p o, omx_peer_array s !! i = Some p -> deref s p = Some o -> board_addr o <> addr
  end.
Proof.
  set (h := Peer.omx_peer_addr_hash addr). pose proof (c_links C) as L.
  assert (Hg : forall l, (forall p, p ∈ l -> p ∈ omx_peer_addr_hash_array s h) -> exists r, find_addr s addr l = Some r /\
    match r with
    | Some p => exists i o, omx_peer_array s !! i = Some p /\ deref s p = Some o /\ board_addr o = addr
    | None => forall p o, p ∈ l -> deref s p = Some o -> board_addr o <> addr
    end).
  { induction l as [|p l IH]; intros Hl; [exists None; split; [done|]; intros p o Hp; by apply not_elem_of_nil in Hp|].
    destruct (proj1 (l_hash _ _ _ _ _ L h p) (Hl p ltac:(by constructor))) as (i & o & Hi & Ho & _).
    cbn [find_addr]. rewrite Ho. cbn [mbind option_bind]. destruct (Z.eqb_spec (board_addr o) addr) as [E|E].
    - exists (Some p). split; [done|]. by exists i, o.
    - destruct IH as (r & -> & Hr); [intros q Hq; apply Hl; by constructor|]. exists r. split; [done|].
      destruct r; [done|]. intros q o' [->|Hq]%elem_of_cons Ho'; [congruence|by apply (Hr q)]. }
  destruct (Hg _ (fun _ H => H)) as (r & -> & Hr). exists r. split; [done|]. destruct r; [done|].
  intros i p o Hi Ho E. apply (Hr p o); [|done..]. apply (l_hash _ _ _ _ _ L). exists i, o. by rewrite E.
Qed.
Lemma find_iface_spec addr : exists r, find_iface s addr (attached s) = Some r /\
  match r with
  | Some id => exists k f, omx_ifaces s !! k = Some id /\ ifaces s !! id = Some f /\ board_addr (peer f) = addr
  | None => forall k id f, omx_ifaces s !! k = Some id -> ifaces s !! id = Some f -> board_addr (peer f) <> addr
  end.
Proof.
  assert (Hg : forall l, (forall id, id ∈ l -> id ∈ attached s) -> exists r, find_iface s addr l = Some r /\
    match r with
    | Some id => exists k f, omx_ifaces s !! k = Some id /\ ifaces s !! id = Some f /\ board_addr (peer f) = addr
    | None => forall id f, id ∈ l -> ifaces s !! id = Some f -> board_addr (peer f) <> addr
    end).
  { induction l as [|id l IH]; intros Hl; [exists None; split; [done|]; intros id f Hp; by apply not_elem_of_nil in Hp|].
    destruct (proj1 (elem_of_attached id) (Hl id ltac:(by constructor))) as (k & Hk).
    destruct (attached_in k id Hk) as (f & Hf & _). cbn [find_iface]. rewrite Hf. cbn [mbind option_bind].
    destruct (Z.eqb_spec (board_addr (peer f)) addr) as [E|E].
    - exists (Some id). split; [done|]. by exists k, f.
    - destruct IH as (r & -> & Hr); [intros q Hq; apply Hl; by constructor|]. exists r. split; [done|].
      destruct r; [done|]. intros q o' [->|Hq]%elem_of_cons Ho'; [congruence|by apply (Hr q)]. }
  destruct (Hg _ (fun _ H => H)) as (r & -> & Hr). exists r. split; [done|]. destruct r; [done|].
  intros k id f Hk. apply Hr. apply elem_of_attached. by exists k.
Qed.
(** The interface of an address, if there is one, is the peer of that address. *)
Lemma iface_is_found addr id k f i p o : omx_ifaces s !! k = Some id -> ifaces s !! id = Some f -> board_addr (peer f) = addr ->
  omx_peer_array s !! i = Some p -> deref s p = Some o -> board_addr o = addr -> p = Embedded id /\ i = index (peer f).
Proof.
  intros Hk Hf Ha Hp Ho E. destruct (attached_in k id Hk) as (f' & Hf' & _ & Hi & _). assert (f' = f) as -> by congruence.
  assert (i = index (peer f)) as ->; [|split; [congruence|done]].
  apply (l_addr _ _ _ _ _ (c_links C) _ _ p (Embedded id) o (peer f)); [done..| |congruence]. cbn. by rewrite Hf.
Qed.

(** ** Steps *)

Lemma core_rename i p o new s' : omx_peer_array s !! i = Some p -> deref s p = Some o ->
  name_ok new -> (forall id, p = Embedded id -> new <> None) ->
  omx_peer_array s' = omx_peer_array s -> omx_peer_addr_hash_array s' = omx_peer_addr_hash_array s ->
  omx_host_query_peer_list s' = renamed p (hostname o) new (omx_host_query_peer_list s) ->
  peers s' = peers (update p (set hostname (fun _ => new)) s) -> ifaces s' = ifaces (update p (set hostname (fun _ => new)) s) ->
  omx_ifaces s' = omx_ifaces s -> omx_iface_nr s' = omx_iface_nr s ->
  omx_host_query_list s' = omx_host_query_list s -> omx_host_reply_list s' = omx_host_reply_list s -> core_ok nr s'.
Proof.
  intros Hp Ho Hn Hl E1 E2 E3 E4 E5 E6 E7 E8 E9. pose proof C as [C1 C2 C3 C4 C5 C6 C7].
  set (s1 := update p (set hostname (fun _ => new)) s) in *.
  assert (Hd : forall q, deref s' q = deref s1 q) by (intros [n|id]; cbn; by rewrite ?E4, ?E5).
  assert (Hif : forall id f', ifaces s1 !! id = Some f' -> exists f, ifaces s !! id = Some f /\
    (f' = f \/ p = Embedded id /\ f' = set peer (set hostname (fun _ => new)) f)).
  { intros id f'. unfold s1. destruct p as [n|j]; cbn [update]; fsimp; [intros Hf; exists f'; tauto|].
    destruct (decide (id = j)) as [->|Hj]; [|rewrite lookup_alter_ne by congruence; intros Hf; exists f'; tauto].
    rewrite lookup_alter_eq. destruct (ifaces s !! j) as [f|]; [|done]. intros [= <-]. exists f. tauto. }
  assert (Hifs : forall id f, ifaces s !! id = Some f -> exists f', ifaces s1 !! id = Some f' /\
    iface_index f' = iface_index f /\ refcount f' = refcount f /\ index (peer f') = index (peer f)).
  { intros id f Hf. unfold s1. destruct p as [n|j]; cbn [update]; fsimp; [by exists f|].
    destruct (decide (id = j)) as [->|Hj]; [|rewrite lookup_alter_ne by congruence; by exists f].
    rewrite lookup_alter_eq, Hf. cbn. by eexists. }
  split; rewrite ?E1, ?E2, ?E3, ?E4, ?E5, ?E6, ?E7, ?E8, ?E9; try done.
  - apply (links_rename C1 i p o new); [done..| |].
    + rewrite Hd. unfold s1. by rewrite deref_update, decide_True, Ho by done.
    + intros q Hq. rewrite Hd. unfold s1. by rewrite deref_update, decide_False by done.
  - intros k id Hk. destruct (C2 k id Hk) as (Hr & f & Hf & H1 & H2 & H3). split; [done|].
    destruct (Hifs id f Hf) as (f' & Hf' & F1 & F2 & F3). exists f'. by rewrite F1, F2, F3.
  - intros id f' Hf'. destruct (Hif id f' Hf') as (f & Hf & [->|[-> ->]]); [by apply C3|].
    destruct (C3 id f Hf) as [R1 R2 R3 R4]. split; fsimp; try done. by apply (Hl id).
  - intros n o' Hn'. unfold s1 in Hn'. destruct p as [m|j]; cbn [update] in Hn'; fsimp; [|exact (C5 _ _ Hn')].
    destruct (decide (n = m)) as [->|Hm]; [|rewrite lookup_alter_ne in Hn' by congruence; exact (C5 _ _ Hn')].
    rewrite lookup_alter_eq in Hn'. destruct (peers s !! m) as [o1|] eqn:Ho1; [|done]. injection Hn' as <-. exact (C5 _ _ Ho1).
  - intros q o'. rewrite Hd. unfold s1. rewrite deref_update. case_decide as Hq; [subst q|apply C6].
    rewrite Ho. intros [= <-]. done.
  - intros x Hx. destruct (C7 x Hx) as [[f Hf] Hlen]. split; [|done]. destruct (Hifs _ f Hf) as (f' & Hf' & _). by exists f'.
Qed.

Lemma core_delete i n o s' : omx_peer_array s !! i = Some (Allocated n) -> peers s !! n = Some o ->
  omx_peer_array s' = delete i (omx_peer_array s) ->
  omx_peer_addr_hash_array s' = <[Peer.omx_peer_addr_hash (board_addr o) :=
    remove_elt (Allocated n) (omx_peer_addr_hash_array s (Peer.omx_peer_addr_hash (board_addr o)))]> (omx_peer_addr_hash_array s) ->
  omx_host_query_peer_list s' = remove_elt (Allocated n) (omx_host_query_peer_list s) ->
  peers s' = delete n (peers s) -> ifaces s' = ifaces s ->
  omx_ifaces s' = omx_ifaces s -> omx_iface_nr s' = omx_iface_nr s ->
  omx_host_query_list s' = omx_host_query_list s -> omx_host_reply_list s' = omx_host_reply_list s -> core_ok nr s'.
Proof.
  intros Hp Ho E1 E2 E3 E4 E5 E6 E7 E8 E9. pose proof C as [C1 C2 C3 C4 C5 C6 C7].
  assert (Hd : forall q, q <> Allocated n -> deref s' q = deref s q).
  { intros [m|id] Hq; cbn; rewrite ?E4, ?E5; [|done]. apply lookup_delete_ne. congruence. }
  split; rewrite ?E1, ?E2, ?E3, ?E4, ?E5, ?E6, ?E7, ?E8, ?E9; try done.
  - by apply (links_delete C1).
  - intros id f Hf. destruct (C3 id f Hf) as [R1 R2 R3 R4]. split; try done.
    case_decide; [done|]. destruct R4 as (Ra & Rb). split; [|done]. rewrite lookup_delete_ne; [done|]. intros Ei. congruence.
  - intros m o' [Hm Ho']%lookup_delete_Some. destruct (C5 m o' Ho') as [? Hi]. split; [done|].
    rewrite lookup_delete_ne; [done|]. intros Ei. congruence.
  - intros q o'. destruct (decide (q = Allocated n)) as [->|Hq]; [|rewrite Hd by done; apply C6].
    cbn. rewrite E4, lookup_delete_eq. done.
Qed.

Lemma core_insert n o s' : peers s !! n = None -> index o = nr -> 0 <= nr -> local_iface o = None -> name_ok (hostname o) ->
  (forall i p o', omx_peer_array s !! i = Some p -> deref s p = Some o' -> board_addr o' <> board_addr o) ->
  omx_peer_array s' = <[nr := Allocated n]> (omx_peer_array s) ->
  omx_peer_addr_hash_array s' = <[Peer.omx_peer_addr_hash (board_addr o) :=
    omx_peer_addr_hash_array s (Peer.omx_peer_addr_hash (board_addr o)) ++ [Allocated n]]> (omx_peer_addr_hash_array s) ->
  omx_host_query_peer_list s' = (if hostname o then omx_host_query_peer_list s else omx_host_query_peer_list s ++ [Allocated n]) ->
  peers s' = <[n := o]> (peers s) -> ifaces s' = ifaces s ->
  omx_ifaces s' = omx_ifaces s -> omx_iface_nr s' = omx_iface_nr s ->
  omx_host_query_list s' = omx_host_query_list s -> omx_host_reply_list s' = omx_host_reply_list s -> core_ok (nr + 1) s'.
Proof.
  intros Hn Hi Hnr0 Hl Hname Ha E1 E2 E3 E4 E5 E6 E7 E8 E9. pose proof C as [C1 C2 C3 C4 C5 C6 C7].
  assert (Hd : forall q, q <> Allocated n -> deref s' q = deref s q).
  { intros [m|id] Hq; cbn; rewrite ?E4, ?E5; [|done]. apply lookup_insert_ne. congruence. }
  assert (Hdn : deref s' (Allocated n) = Some o) by (cbn; rewrite E4; apply lookup_insert_eq).
  pose proof (links_free C1) as Hfree.
  split; rewrite ?E1, ?E2, ?E3, ?E4, ?E5, ?E6, ?E7, ?E8, ?E9; try done.
  - apply (links_insert C1 (Allocated n) o); try done. intros i Hp. apply core_entry in Hp as (_ & o' & Ho' & _). cbn in Ho'. congruence.
  - intros id f Hf. destruct (C3 id f Hf) as [R1 R2 R3 R4]. split; try done.
    case_decide; [done|]. destruct R4 as (Ra & Rb). split; [|done]. rewrite lookup_insert_ne; [done|]. intros Ei. congruence.
  - intros m o' [[-> ->]|[Hm Ho']]%lookup_insert_Some; [by rewrite Hi, lookup_insert_eq|].
    destruct (C5 m o' Ho') as [? Hi']. split; [done|]. rewrite lookup_insert_ne; [done|]. intros Ei. congruence.
  - intros q o'. destruct (decide (q = Allocated n)) as [->|Hq]; [|rewrite Hd by done; apply C6]. rewrite Hdn. by intros [= <-].
Qed.
End core.

(** Only the reverse indexes of interfaces changed. *)
Definition same_but_reverse (ifs ifs' : gmap positive omx_iface) : Prop := forall id,
  match ifs !! id, ifs' !! id with
  | Some f, Some f' => f' = f <| reverse_peer_indexes := reverse_peer_indexes f' |> /\
      forall i, is_Some (reverse_peer_indexes f !! i) -> is_Some (reverse_peer_indexes f' !! i)
  | None, None => True
  | _, _ => False
  end.
#[export] Instance same_but_reverse_preorder : PreOrder same_but_reverse.
Proof.
  split.
  - intros ifs id. destruct (ifs !! id) as [[]|]; done.
  - intros a b c Hab Hbc id. specialize (Hab id). specialize (Hbc id).
    destruct (a !! id) as [f|], (b !! id) as [g|], (c !! id) as [h|]; try done.
    destruct Hab as [E1 H1], Hbc as [E2 H2]. split; [rewrite E2, E1; by destruct f|]. intros i Hi. by apply H2, H1.
Qed.
Lemma same_lookup ifs ifs' id f : same_but_reverse ifs ifs' -> ifs !! id = Some f ->
  exists r, ifs' !! id = Some (f <| reverse_peer_indexes := r |>) /\ forall i, is_Some (reverse_peer_indexes f !! i) -> is_Some (r !! i).
Proof.
  intros H Hf. specialize (H id). rewrite Hf in H. destruct (ifs' !! id) as [f'|]; [|done]. destruct H as [-> H]. by eexists.
Qed.
Lemma same_lookup_back ifs ifs' id f' : same_but_reverse ifs ifs' -> ifs' !! id = Some f' ->
  exists f, ifs !! id = Some f /\ f' = f <| reverse_peer_indexes := reverse_peer_indexes f' |> /\
    forall i, is_Some (reverse_peer_indexes f !! i) -> is_Some (reverse_peer_indexes f' !! i).
Proof. intros H Hf. specialize (H id). rewrite Hf in H. destruct (ifs !! id) as [f|]; [|done]. by exists f. Qed.

Lemma core_reverse nr s ifs' : core_ok nr s -> same_but_reverse (ifaces s) ifs' -> core_ok nr (s <| ifaces := ifs' |>).
Proof.
  intros [C1 C2 C3 C4 C5 C6 C7] H.
  assert (Hd : forall p, deref (s <| ifaces := ifs' |>) p = deref s p).
  { intros [n|id]; cbn; fsimp; [done|]. destruct (ifaces s !! id) as [f|] eqn:Hf.
    - destruct (same_lookup _ _ _ _ H Hf) as (r & -> & _). by destruct f.
    - specialize (H id). rewrite Hf in H. by destruct (ifs' !! id). }
  split; fsimp; try done.
  - apply (links_agree C1). intros i p _. apply Hd.
  - intros k id Hk. destruct (C2 k id Hk) as (Hr & f & Hf & H1). split; [done|].
    destruct (same_lookup _ _ _ _ H Hf) as (r & -> & _). eexists. by split.
  - intros id f' Hf'. destruct (same_lookup_back _ _ _ _ H Hf') as (f & Hf & -> & Hx). destruct (C3 id f Hf) as [R1 R2 R3 R4].
    split; fsimp; try done. intros i Hi. by apply Hx, R3.
  - intros p o. rewrite Hd. apply C6.
  - intros x Hx. destruct (C7 x Hx) as [[f Hf] Hlen]. split; [|done]. destruct (same_lookup _ _ _ _ H Hf) as (r & -> & _). by eexists.
Qed.

Lemma set_reverse_spec s id f i v : ifaces s !! id = Some f -> 0 <= i < omx_peer_max ->
  exists ifs', set_reverse id i v s = Some (s <| ifaces := ifs' |>) /\ same_but_reverse (ifaces s) ifs' /\
    exists f', ifs' !! id = Some f' /\ reverse_peer_indexes f' = <[i := v]> (reverse_peer_indexes f).
Proof.
  intros Hf Hi. unfold set_reverse. rewrite Hf. cbn [mbind option_bind].
  rewrite (proj2 (Z.leb_le 0 i)), (proj2 (Z.ltb_lt i omx_peer_max)) by lia. cbn [andb].
  exists (<[id := f <| reverse_peer_indexes ::= <[i := v]> |>]> (ifaces s)). split_and!; [done| |].
  - intros j. destruct (decide (j = id)) as [->|Hj].
    + rewrite Hf, lookup_insert_eq. fsimp. split; [by destruct f|]. intros k Hk. rewrite lookup_insert_is_Some. destruct (decide (i = k)); tauto.
    + rewrite lookup_insert_ne by done. destruct (ifaces s !! j) as [g|]; [|done]. by destruct g.
  - rewrite lookup_insert_eq. eexists. by split.
Qed.
Lemma for_each_reverse (ids : list (positive * Z * Z)) s :
  (forall x, x ∈ ids -> is_Some (ifaces s !! x.1.1) /\ 0 <= x.1.2 < omx_peer_max) ->
  exists ifs', for_each ids (fun x => set_reverse x.1.1 x.1.2 x.2) s = Some (s <| ifaces := ifs' |>) /\
    same_but_reverse (ifaces s) ifs'.
Proof.
  revert s. induction ids as [|[[id i] v] ids IH]; intros s H.
  - exists (ifaces s). split; [by destruct s|reflexivity].
  - destruct (H (id, i, v)) as [[f Hf] Hi]; [by constructor|]. cbn in Hf, Hi. cbn [for_each fst snd].
    destruct (set_reverse_spec s id f i v Hf Hi) as (ifs1 & -> & Hs1 & _). cbn [mbind option_bind].
    destruct (IH (s <| ifaces := ifs1 |>)) as (ifs2 & E & Hs2).
    { intros x Hx. destruct (H x) as [[g Hg] ?]; [by constructor|]. split; [|done]. fsimp.
      destruct (same_lookup _ _ _ _ Hs1 Hg) as (r & -> & _). by eexists. }
    exists ifs2. split; [exact E|]. by transitivity ifs1.
Qed.
End steps.
End PeerOps.
