(* ===== verification/PeerSafe.v ===== *)
(** Every operation on the peer table runs to its end, without a dangling
    pointer and without a failed assertion, and keeps the invariant. *)
From S2P Require Import Prelude Peer Wire Host PeerTable PeerInv PeerOps.

Module PeerSafe.
Import Wire PeerTable PeerInv PeerOps.

Lemma for_each_fmap {A B} (g : A -> B) (f : B -> table -> option table) l : forall s,
  for_each (g <$> l) f s = for_each l (fun x => f (g x)) s.
Proof. induction l as [|x l IH]; intros s; [done|]. cbn. destruct (f (g x) s); [apply IH|done]. Qed.

Section safe.
Context {omx_peer_max omx_iface_max : Z} {Hmax : peer_max_ok omx_peer_max} {order : ByteOrder} (junk : nat -> Z).
Let Hrange : 0 <= omx_peer_max <= 65536 := Hmax.
#[local] Notation core_ok := (core_ok omx_peer_max omx_iface_max).
#[local] Notation table_ok := (table_ok omx_peer_max omx_iface_max).
#[local] Notation attached := (attached omx_iface_max).

(** ** Interfaces and their reverse indexes *)

Lemma init_peer_reverse s i local : (forall id, id ∈ attached s -> is_Some (ifaces s !! id)) -> 0 <= i < omx_peer_max ->
  exists ifs', omx_init_peer_reverse_indexes omx_peer_max omx_iface_max i local s = Some (s <| ifaces := ifs' |>) /\
    same_but_reverse (ifaces s) ifs'.
Proof.
  intros Ha Hi. unfold omx_init_peer_reverse_indexes. rewrite u16_small by lia.
  set (v := if local then i else _).
  destruct (for_each_reverse ((fun id => (id, i, v)) <$> attached s) s) as (ifs' & E & H).
  { intros x (id & -> & Hid)%list_elem_of_fmap. cbn. split; [by apply Ha|done]. }
  rewrite for_each_fmap in E. exists ifs'. by split.
Qed.

Lemma set_reverse_in s ifs1 id f i v : same_but_reverse (ifaces s) ifs1 -> ifaces s !! id = Some f -> 0 <= i < omx_peer_max ->
  exists ifs2 f1 f2, set_reverse omx_peer_max id i v (s <| ifaces := ifs1 |>) = Some (s <| ifaces := ifs2 |>) /\
    same_but_reverse ifs1 ifs2 /\ same_but_reverse (ifaces s) ifs2 /\ ifs1 !! id = Some f1 /\ ifs2 !! id = Some f2 /\
    reverse_peer_indexes f2 = <[i := v]> (reverse_peer_indexes f1).
Proof.
  intros Hs Hf Hi. destruct (same_lookup _ _ _ _ Hs Hf) as (r & Hf1 & _).
  pose proof (set_reverse_spec (s <| ifaces := ifs1 |>) id _ i v Hf1 Hi) as (ifs2 & E & H2 & f2 & Hf2 & Er).
  exists ifs2. do 2 eexists. split_and!; [exact E|exact H2|by transitivity ifs1|exact Hf1|exact Hf2|exact Er].
Qed.
Lemma init_peer_reverse_in s ifs1 i local : same_but_reverse (ifaces s) ifs1 ->
  (forall id, id ∈ attached s -> is_Some (ifaces s !! id)) -> 0 <= i < omx_peer_max ->
  exists ifs2, omx_init_peer_reverse_indexes omx_peer_max omx_iface_max i local (s <| ifaces := ifs1 |>) = Some (s <| ifaces := ifs2 |>) /\
    same_but_reverse ifs1 ifs2 /\ same_but_reverse (ifaces s) ifs2.
Proof.
  intros Hs Ha Hi. destruct (init_peer_reverse (s <| ifaces := ifs1 |>) i local) as (ifs2 & E & H); [|done|].
  - intros id Hid. destruct (Ha id Hid) as [f Hf]. destruct (same_lookup _ _ _ _ Hs Hf) as (r & Hf1 & _). by eexists.
  - exists ifs2. split_and!; [exact E|exact H|by transitivity ifs1].
Qed.

(** All the reverse indexes of a new interface are set. *)
Lemma init_iface_reverse s id f : ifaces s !! id = Some f -> 0 <= index (peer f) < omx_peer_max ->
  (forall j, j ∈ attached s -> exists g, ifaces s !! j = Some g /\ 0 <= index (peer g) < omx_peer_max) ->
  exists ifs', omx_init_iface_reverse_indexes omx_peer_max omx_iface_max id s = Some (s <| ifaces := ifs' |>) /\
    same_but_reverse (ifaces s) ifs' /\
    forall f', ifs' !! id = Some f' -> forall i, 0 <= i < omx_peer_max -> is_Some (reverse_peer_indexes f' !! i).
Proof.
  intros Hf Hi Ha. unfold omx_init_iface_reverse_indexes.
  set (all k (ifs' : gmap positive omx_iface) := forall f', ifs' !! id = Some f' -> forall i, 0 <= i < k -> is_Some (reverse_peer_indexes f' !! i)).
  set (I k t := exists ifs', t = s <| ifaces := ifs' |> /\ same_but_reverse (ifaces s) ifs' /\ all k ifs').
  assert (Hall : forall k ifs1 ifs2, same_but_reverse ifs1 ifs2 -> all k ifs1 -> all k ifs2).
  { intros k ifs1 ifs2 Hs H1 f' Hf' i Hr. destruct (same_lookup_back _ _ _ _ Hs Hf') as (f1 & Hf1 & _ & Hx). by apply Hx, (H1 f1). }
  assert (Hkeep : forall k t g, I k t -> (forall ifs1, same_but_reverse (ifaces s) ifs1 -> exists ifs2,
      g (s <| ifaces := ifs1 |>) = Some (s <| ifaces := ifs2 |>) /\ same_but_reverse ifs1 ifs2) -> exists t', g t = Some t' /\ I k t').
  { intros k t g (ifs1 & -> & Hs & H1) Hg. destruct (Hg ifs1 Hs) as (ifs2 & -> & H2). eexists. split; [done|]. exists ifs2.
    split_and!; [done|by transitivity ifs1|by apply (Hall k ifs1)]. }
  destruct (for_each_seqZ I (fun i => set_reverse omx_peer_max id i OMX_UNKNOWN_REVERSE_PEER_INDEX) omx_peer_max s)
    as (t1 & -> & H1); [lia| | |].
  { exists (ifaces s). split_and!; [by destruct s|reflexivity|]. intros f' _ i Hr. lia. }
  { intros i t Hr (ifs1 & -> & Hs & H1). destruct (set_reverse_in s ifs1 id f i OMX_UNKNOWN_REVERSE_PEER_INDEX Hs Hf Hr)
      as (ifs2 & f1 & f2 & -> & H2 & Hs2 & Hf1 & Hf2 & Er). eexists. split; [done|]. exists ifs2. split_and!; [done..|].
    intros f' Hf' k Hk. assert (f' = f2) as -> by congruence. rewrite Er, lookup_insert_is_Some.
    destruct (decide (i = k)); [by left|]. right. split; [done|]. apply (H1 _ Hf1). lia. }
  cbn [mbind option_bind].
  destruct (for_each_inv (I omx_peer_max) (fun i s => f ← ifaces s !! i;
        set_reverse omx_peer_max id (u16 (index (peer f))) (u16 (index (peer f))) s) (attached t1) t1) as (t2 & -> & H2); [done| |].
  { intros j t Hj Ht. assert (Hj' : j ∈ attached s) by (destruct H1 as (ifs1 & -> & _); exact Hj).
    apply (Hkeep _ _ (fun s => f ← ifaces s !! j; set_reverse omx_peer_max id (u16 (index (peer f))) (u16 (index (peer f))) s) Ht). intros ifs1 Hs. destruct (Ha j Hj') as (g & Hg & Hr). fsimp.
    destruct (same_lookup _ _ _ _ Hs Hg) as (r & -> & _). cbn [mbind option_bind]. fsimp. rewrite u16_small by lia.
    destruct (set_reverse_in s ifs1 id f (index (peer g)) (index (peer g)) Hs Hf Hr) as (ifs2 & _ & _ & E & H2 & _). by exists ifs2. }
  cbn [mbind option_bind].
  destruct H2 as (ifs2 & -> & Hs2 & Ha2). destruct (same_lookup _ _ _ _ Hs2 Hf) as (r2 & Hf2 & _). fsimp. rewrite Hf2. cbn [mbind option_bind]. fsimp.
  destruct (init_peer_reverse_in s ifs2 (index (peer f)) true Hs2) as (ifs3 & -> & H3 & Hs3); [|done|].
  { intros j Hj. destruct (Ha j Hj) as (g & Hg & _). by eexists. }
  cbn [mbind option_bind]. fsimp.
  destruct (set_reverse_in s ifs3 id f (index (peer f)) (index (peer f)) Hs3 Hf Hi) as (ifs4 & _ & _ & E & H4 & Hs4 & _).
  exists ifs4. split; [exact E|]. split; [done|]. by apply (Hall _ ifs3), (Hall _ ifs2).
Qed.

(** ** Queries *)

Lemma host_query_spec s skbs p o : deref s p = Some o -> (forall id, id ∈ attached s -> is_Some (ifaces s !! id)) ->
  exists l, omx_peer_host_query omx_iface_max junk skbs p s = Some (s <| sent := sent s ++ l |>).
Proof.
  intros Ho Ha. unfold omx_peer_host_query. rewrite Ho. cbn [mbind option_bind].
  assert (E : forall t : table, t = t <| sent := sent t ++ [] |>) by (intros []; unfold set; cbn; by rewrite app_nil_r).
  destruct skbs as [|copies]; [exists []; f_equal; apply E|].
  match goal with |- exists l, for_each _ ?f s = _ => destruct (for_each_inv (fun t => exists l, t = s <| sent := sent s ++ l |>) f (take copies (attached s)) s) as (t & Et & l & ->) end.
  - exists []. apply E.
  - intros j t Hj (l & ->). assert (Hj' : j ∈ attached s) by (eapply subseteq_take; exact Hj).
    destruct (Ha j Hj') as [f Hf]. fsimp. rewrite Hf. cbn [mbind option_bind]. eexists. split; [done|].
    eapply (ex_intro _ (l ++ _)). rewrite app_assoc. reflexivity.
  - exists l. exact Et.
Qed.

Lemma query_del_spec s p : p ∈ omx_host_query_peer_list s -> exists b,
  query_del p s = Some (s <| omx_host_query_peer_list := remove_elt p (omx_host_query_peer_list s) |> <| omx_host_query_timer := b |>) /\
  forall s', omx_host_query_peer_list s' = remove_elt p (omx_host_query_peer_list s) -> omx_host_query_timer s' = b ->
    omx_host_query_work s' = omx_host_query_work s -> timer_ok s -> timer_ok s'.
Proof.
  intros Hp. unfold query_del. rewrite decide_True by done. cbn zeta. case_decide as E.
  - exists false. split; [done|]. intros s' H1 H2 H3 Ht H. by rewrite H1, E in H.
  - exists (omx_host_query_timer s). split; [by destruct s|]. intros s' H1 H2 H3 Ht H. rewrite H2, H3. apply Ht. intros H0. by rewrite H0 in Hp; apply not_elem_of_nil in Hp.
Qed.
Lemma query_add_spec s p : exists b,
  query_add p s = s <| omx_host_query_peer_list := omx_host_query_peer_list s ++ [p] |> <| omx_host_query_timer := b |> /\
  forall s', omx_host_query_timer s' = b -> omx_host_query_work s' = omx_host_query_work s -> timer_ok s -> timer_ok s'.
Proof.
  unfold query_add. case_bool_decide as E.
  - exists true. split; [done|]. intros s' H1 H2 Ht _. by left.
  - exists (omx_host_query_timer s). split; [by destruct s|]. intros s' H1 H2 Ht _. rewrite H1, H2. by apply Ht.
Qed.

(** ** Additions and names *)

Definition kept (s : table) (r : option (Z * table)) : Prop := exists v s', r = Some (v, s') /\ table_ok s'.

Lemma table_ext s s' : table_ok s ->
  omx_peer_array s' = omx_peer_array s -> omx_peer_addr_hash_array s' = omx_peer_addr_hash_array s ->
  omx_host_query_peer_list s' = omx_host_query_peer_list s -> peers s' = peers s -> ifaces s' = ifaces s ->
  omx_ifaces s' = omx_ifaces s -> omx_iface_nr s' = omx_iface_nr s ->
  omx_host_query_list s' = omx_host_query_list s -> omx_host_reply_list s' = omx_host_reply_list s ->
  omx_peer_next_nr s' = omx_peer_next_nr s -> timer_ok s' -> full_ok omx_peer_max s' -> table_ok s'.
Proof.
  intros [T1 T2 T3 T4] E1 E2 E3 E4 E5 E6 E7 E8 E9 E10 Ht Hf. split; rewrite ?E10; try done. by eapply core_ext.
Qed.
Lemma table_sent s l : table_ok s -> table_ok (s <| sent := l |>).
Proof. intros T. apply (table_ext s); try done; apply T. Qed.

Lemma set_full_bit st : hasf (setf OMX_PEER_TABLE_STATUS_FULL st) OMX_PEER_TABLE_STATUS_FULL = true.
Proof. change OMX_PEER_TABLE_STATUS_FULL with (2 ^ 1). by apply setf_pow2_has. Qed.
Lemma table_full s : table_ok s -> omx_peer_next_nr s = omx_peer_max -> table_ok (set_full s).
Proof. intros T H. apply (table_ext s); try done; [apply T|]. split; [apply set_full_bit|done]. Qed.

Lemma attached_alive nr s id : core_ok nr s -> id ∈ attached s -> is_Some (ifaces s !! id).
Proof. intros C (k & Hk)%(elem_of_attached C). destruct (attached_in C k id Hk) as (f & Hf & _). by exists f. Qed.

(** A reference that is taken and given back. *)
Lemma reacquire_release s id f : ifaces s !! id = Some f -> 1 <= refcount f ->
  omx_iface_reacquire id s = Some (s <| ifaces ::= <[id := f <| refcount ::= Z.succ |>]> |>) /\
  omx_iface_release id (s <| ifaces ::= <[id := f <| refcount ::= Z.succ |>]> |>) = Some s.
Proof.
  intros Hf Hr. unfold omx_iface_reacquire, omx_iface_release. rewrite Hf. split; [done|]. fsimp.
  rewrite lookup_insert_eq. cbn [mbind option_bind]. fsimp. rewrite (proj2 (Z.eqb_neq _ _)) by lia.
  f_equal. destruct s. cbv [set set_with s_ifaces s_refcount]. cbn. f_equal. rewrite insert_insert_eq. apply insert_id. cbn in Hf. rewrite Hf. f_equal.
  destruct f. cbn. by rewrite Z.pred_succ.
Qed.

(** A peer of the table takes another name; the timer follows the list. *)
Lemma table_rename s s' i p o new : table_ok s -> omx_peer_array s !! i = Some p -> deref s p = Some o ->
  name_ok new -> (forall id, p = Embedded id -> new <> None) ->
  omx_peer_array s' = omx_peer_array s -> omx_peer_addr_hash_array s' = omx_peer_addr_hash_array s ->
  omx_host_query_peer_list s' = renamed p (hostname o) new (omx_host_query_peer_list s) ->
  peers s' = peers (update p (set hostname (fun _ => new)) s) -> ifaces s' = ifaces (update p (set hostname (fun _ => new)) s) ->
  omx_ifaces s' = omx_ifaces s -> omx_iface_nr s' = omx_iface_nr s ->
  omx_host_query_list s' = omx_host_query_list s -> omx_host_reply_list s' = omx_host_reply_list s ->
  omx_peer_next_nr s' = omx_peer_next_nr s -> omx_peer_table_full s' = omx_peer_table_full s ->
  omx_peer_table_state s' = omx_peer_table_state s -> timer_ok s' -> table_ok s'.
Proof.
  intros [T1 T2 T3 T4] Hi Ho Hn Hl E1 E2 E3 E4 E5 E6 E7 E8 E9 E10 E11 E12 Ht.
  split; [|by rewrite E10|done|].
  - rewrite E10. by eapply (core_rename T1 i p o new).
  - unfold full_ok. rewrite E10, E11, E12. exact T4.
Qed.

Lemma deref_sent s l p : deref (s <| sent := l |>) p = deref s p.
Proof. by destruct p. Qed.
Lemma table_deref s i p : table_ok s -> omx_peer_array s !! i = Some p -> exists o, deref s p = Some o.
Proof. intros T Hi. destruct (core_entry (t_core _ _ _ T) i p Hi) as (_ & o & Ho & _). by exists o. Qed.
Lemma listed s i p o : table_ok s -> omx_peer_array s !! i = Some p -> deref s p = Some o -> hostname o = None ->
  p ∈ omx_host_query_peer_list s.
Proof. intros T Hi Ho Hn. apply (l_query _ _ _ _ _ (c_links (t_core _ _ _ T))). by exists i, o. Qed.

(** What [omx_peer_add] and the replies do with a name. *)
Lemma rename_peer_spec s i p o new : table_ok s -> omx_peer_array s !! i = Some p -> deref s p = Some o ->
  name_ok new -> (forall id, p = Embedded id -> new <> None) ->
  exists b s', rename_peer p new s = Some (b, s') /\ table_ok s' /\ omx_peer_array s' = omx_peer_array s /\
    ifaces s' = ifaces (update p (set hostname (fun _ => new)) s) /\ omx_ifaces s' = omx_ifaces s /\ deref s' p = Some (set hostname (fun _ => new) o).
Proof.
  intros T Hi Ho Hn Hl. unfold rename_peer. rewrite Ho. cbn [mbind option_bind].
  assert (Hd : forall t, peers t = peers s -> ifaces t = ifaces s -> deref (update p (set hostname (fun _ => new)) t) p = Some (set hostname (fun _ => new) o)).
  { intros t E1 E2. rewrite deref_update, decide_True by done. destruct p; cbn in *; by rewrite ?E1, ?E2, Ho. }
  destruct (hostname o) as [old|] eqn:Eo, new as [name|] eqn:En; cbn [mbind option_bind].
  - do 2 eexists. split; [done|]. split; [|split_and!; [by destruct p|by destruct p|by destruct p|by apply Hd]].
    eapply (table_rename s _ i p o (Some name)); rewrite ?Eo; try done; try (by destruct p).
    pose proof (t_timer _ _ _ T) as Ht. by destruct p.
  - destruct (query_add_spec s p) as (b & -> & Ht). do 2 eexists. split; [done|].
    split; [|split_and!; [by destruct p|by destruct p|by destruct p|by apply Hd]].
    eapply (table_rename s _ i p o None); rewrite ?Eo; try done; try (by destruct p).
    apply Ht; [by destruct p|by destruct p|apply T].
  - destruct (query_del_spec s p) as (b & -> & Ht); [by eapply listed|]. cbn [mbind option_bind]. do 2 eexists. split; [done|].
    split; [|split_and!; [by destruct p|by destruct p|by destruct p|by apply Hd]].
    eapply (table_rename s _ i p o (Some name)); rewrite ?Eo; try done; try (by destruct p).
    apply Ht; [by destruct p|by destruct p|by destruct p|apply T].
  - do 2 eexists. split; [done|]. split; [|split_and!; [by destruct p|by destruct p|by destruct p|by apply Hd]].
    eapply (table_rename s _ i p o None); rewrite ?Eo; try done; try (by destruct p).
    pose proof (t_timer _ _ _ T) as Ht. by destruct p.
Qed.

Lemma core_next_nr nr n s : core_ok nr s -> core_ok nr (s <| omx_peer_next_nr := n |>).
Proof. intros C. by apply (core_ext nr s). Qed.

(** A new remote peer. *)
Lemma insert_new s n addr name : table_ok s -> omx_peer_next_nr s <> omx_peer_max -> peers s !! n = None -> name_ok name ->
  (forall i p o, omx_peer_array s !! i = Some p -> deref s p = Some o -> board_addr o <> addr) ->
  exists s', insert_peer omx_peer_max omx_iface_max (Allocated n) (Peer.omx_peer_addr_hash addr) false
    (if name then s <| peers ::= <[n := OmxPeer addr name OMX_UNKNOWN_REVERSE_PEER_INDEX None]> |>
     else query_add (Allocated n) (s <| peers ::= <[n := OmxPeer addr name OMX_UNKNOWN_REVERSE_PEER_INDEX None]> |>)) = Some s' /\
    table_ok s' /\ deref s' (Allocated n) = Some (OmxPeer addr name (omx_peer_next_nr s) None) /\
    omx_peer_array s' = <[omx_peer_next_nr s := Allocated n]> (omx_peer_array s).
Proof.
  intros T Hnr Hn Hname Ha. pose proof (t_nr _ _ _ T) as Hr. pose proof (t_core _ _ _ T) as C.
  set (o := OmxPeer addr name OMX_UNKNOWN_REVERSE_PEER_INDEX None).
  set (s1 := s <| peers ::= <[n := o]> |>).
  assert (Hq : exists b, (if name then s1 else query_add (Allocated n) s1) =
      s1 <| omx_host_query_peer_list := if name then omx_host_query_peer_list s else omx_host_query_peer_list s ++ [Allocated n] |> <| omx_host_query_timer := b |> /\
      forall s', omx_host_query_peer_list s' = (if name then omx_host_query_peer_list s else omx_host_query_peer_list s ++ [Allocated n]) ->
        omx_host_query_timer s' = b -> omx_host_query_work s' = omx_host_query_work s -> timer_ok s').
  { destruct name; [exists (omx_host_query_timer s); split; [by destruct s|]; intros s' E1 E2 E3; unfold timer_ok; rewrite E1, E2, E3; apply T|].
    destruct (query_add_spec s1 (Allocated n)) as (b & -> & Ht). exists b. split; [done|]. intros s' _ E2 E3. apply Ht; [done..|apply T]. }
  destruct Hq as (b & -> & Ht). unfold insert_peer, hash_add_tail. cbn [deref]. unfold s1. fsimp. rewrite lookup_insert_eq. cbn [mbind option_bind update].
  match goal with |- context [omx_init_peer_reverse_indexes _ _ _ _ ?t] => destruct (init_peer_reverse t (omx_peer_next_nr s) false) as (ifs' & -> & Hs) end;
    [|lia|].
  { intros id Hid. fsimp. by apply (attached_alive (omx_peer_next_nr s)). }
  cbn [mbind option_bind]. eexists. split; [done|]. split_and!; [|cbn; fsimp; by rewrite lookup_alter_eq, lookup_insert_eq|done].
  split.
  - fsimp. replace (Z.succ (omx_peer_next_nr s)) with (omx_peer_next_nr s + 1) by lia.
    set (t := s <| omx_peer_array ::= <[omx_peer_next_nr s := Allocated n]> |> <| peers ::= <[n := set index (fun _ => omx_peer_next_nr s) o]> |>
      <| omx_peer_addr_hash_array ::= <[Peer.omx_peer_addr_hash addr := omx_peer_addr_hash_array s (Peer.omx_peer_addr_hash addr) ++ [Allocated n]]> |>
      <| omx_host_query_peer_list := if name then omx_host_query_peer_list s else omx_host_query_peer_list s ++ [Allocated n] |>).
    assert (Ct : core_ok (omx_peer_next_nr s + 1) t).
    { apply (core_insert C n (set index (fun _ => omx_peer_next_nr s) o)); try done. lia. }
    apply (core_reverse _ _ ifs') in Ct; [|exact Hs]. eapply core_ext; [exact Ct|..]; try done.
    unfold t. fsimp. apply map_eq. intros m. destruct (decide (m = n)) as [->|Hm].
    + by rewrite lookup_alter_eq, !lookup_insert_eq.
    + by rewrite lookup_alter_ne, !lookup_insert_ne by congruence.
  - fsimp. lia.
  - by apply Ht.
  - destruct (t_full _ _ _ T) as [F1 F2]. split; [exact F1|]. intros F. by destruct Hnr, F2.
Qed.

(** [omx_peer_add] keeps the table in order. *)
Lemma peer_add_kept s strdup kmalloc skbs addr name : table_ok s -> name_ok name ->
  (forall n, kmalloc = Some n -> peers s !! n = None) ->
  kept s (omx_peer_add omx_peer_max omx_iface_max junk strdup kmalloc skbs addr name s).
Proof.
  intros T Hname Hk. pose proof (t_core _ _ _ T) as C. pose proof (t_nr _ _ _ T) as Hr. unfold omx_peer_add.
  destruct (bool_decide (name <> None) && negb strdup); [by exists ENOMEM, s|]. cbn zeta.
  destruct (find_addr_spec C addr) as (found & -> & Hfound). cbn [mbind option_bind].
  destruct (bool_decide (found = None) && (omx_peer_next_nr s =? omx_peer_max)) eqn:Efull.
  { apply andb_prop in Efull as [_ E%Z.eqb_eq]. exists ENOMEM, (set_full s). split; [done|]. by apply table_full. }
  unfold omx_iface_find_by_addr. destruct (find_iface_spec C addr) as (iface & -> & Hiface). cbn [mbind option_bind].
  destruct iface as [id|]; cbn [mbind option_bind].
  - destruct Hiface as (k & f & Hid & Hf & Haddr). destruct (attached_in C k id Hid) as (f' & Hf' & _ & Hidx & Hloc & Hrefs).
    assert (f' = f) as -> by congruence.
    assert (found = Some (Embedded id)) as ->.
    { destruct found as [p|]; [|by destruct (Hfound _ _ (peer f) Hidx ltac:(cbn; by rewrite Hf))].
      destruct Hfound as (i & o & Hi & Ho & Ha). destruct (iface_is_found C addr id k f i p o) as [-> _]; done. }
    destruct (reacquire_release s id f Hf ltac:(lia)) as [-> Hrel]. cbn [mbind option_bind].
    unfold peer_of_addr. cbn [deref]. fsimp. rewrite lookup_insert_eq. cbn [mbind option_bind fmap option_fmap option_map]. fsimp.
    destruct (core_entry C _ _ Hidx) as (Hir & _). rewrite (proj2 (Z.eqb_neq _ _)) by (unfold OMX_UNKNOWN_REVERSE_PEER_INDEX; lia).
    rewrite Hrel. cbn [mbind option_bind]. rewrite Hloc, bool_decide_eq_false_2 by tauto. cbn [bug_on mbind option_bind].
    destruct name as [l|]; cbn [rename_iface mbind option_bind deref]; [|by exists 0, s].
    rewrite Hf. cbn [mbind option_bind fmap option_fmap option_map].
    pose proof (if_named _ _ _ _ _ (c_ifaces C id f Hf)) as Hnamed. destruct (hostname (peer f)) as [old|] eqn:Eold; [|done].
    cbn [mbind option_bind]. exists 0. eexists. split; [done|].
    apply (table_rename s _ (index (peer f)) (Embedded id) (peer f) (Some l)); rewrite ?Eold; try done; [cbn; by rewrite Hf|].
    apply T.
  - destruct found as [p|].
    + destruct Hfound as (i & o & Hi & Ho & Haddr). cbn [peer_of_addr].
      assert (Hemb : forall id, p <> Embedded id).
      { intros id ->. cbn in Ho. destruct (ifaces s !! id) as [f|] eqn:Hf; [|done]. injection Ho as <-.
        pose proof (if_peer _ _ _ _ _ (c_ifaces C id f Hf)) as Hp. pose proof (core_entry C _ _ Hi) as (Hir & o & Ho & Hio).
        cbn in Ho. rewrite Hf in Ho. injection Ho as <-.
        rewrite decide_False in Hp by (unfold OMX_UNKNOWN_REVERSE_PEER_INDEX; lia). destruct Hp as (_ & _ & Hat). by apply (Hiface (iface_index f) id f). }
      destruct (rename_peer_spec s i p o name T Hi Ho Hname) as (b & s' & -> & T' & Ea & _ & _ & Hd); [intros id ->; by destruct (Hemb id)|].
      cbn [mbind option_bind]. destruct b; [|by exists 0, s'].
      destruct (host_query_spec s' skbs p _ Hd) as (l & ->); [intros id; by apply (attached_alive (omx_peer_next_nr s')), T'|].
      cbn [mbind option_bind]. exists 0. eexists. split; [done|]. by apply table_sent.
    + cbn [peer_of_addr]. destruct kmalloc as [n|]; cbn [mbind option_bind]; [|by exists ENOMEM, s].
      rewrite bool_decide_eq_true_2 in Efull by done. cbn [andb] in Efull. apply Z.eqb_neq in Efull.
      rewrite (bool_decide_eq_false_2 (None <> None)) by tauto.
      destruct (insert_new s n addr name T Efull (Hk n eq_refl) Hname Hfound) as (s' & -> & T' & Hd & _).
      cbn [mbind option_bind]. case_bool_decide; [|by exists 0, s'].
      destruct (host_query_spec s' skbs (Allocated n) _ Hd) as (l & ->); [intros id; by apply (attached_alive (omx_peer_next_nr s')), T'|].
      cbn [mbind option_bind]. exists 0. eexists. split; [done|]. by apply table_sent.
Qed.
End safe.
End PeerSafe.
