(* ===== verification/PeerSteps.v ===== *)
(** The other operations on the peer table, and every sequence of them. *)
From S2P Require Import Prelude Peer Wire Host PeerTable PeerInv PeerOps PeerSafe.

Module PeerSteps.
Import Wire PeerTable PeerInv PeerOps PeerSafe.

Section steps.
Context {omx_peer_max omx_iface_max : Z} {Hmax : peer_max_ok omx_peer_max} {order : ByteOrder} (junk : nat -> Z).
Let Hrange : 0 <= omx_peer_max <= 65536 := Hmax.
#[local] Notation core_ok := (core_ok omx_peer_max omx_iface_max).
#[local] Notation table_ok := (table_ok omx_peer_max omx_iface_max).
#[local] Notation attached := (attached omx_iface_max).
#[local] Notation kept := (kept (omx_peer_max := omx_peer_max) (omx_iface_max := omx_iface_max)).
Definition keeps (r : option table) : Prop := exists s', r = Some s' /\ table_ok s'.

(** ** The state of the table, the timer *)

Lemma set_state_kept s allowed state : table_ok s -> table_ok (snd (omx_peer_table_set_state allowed state s)).
Proof.
  intros T. unfold omx_peer_table_set_state. destruct allowed; [|done]. cbn [negb snd].
  apply (table_ext s); try done; [apply T|]. destruct (t_full _ _ _ T) as [F1 F2]. split; [|exact F2]. fsimp. rewrite <- F1.
  change OMX_PEER_TABLE_STATUS_FULL with (2 ^ 1). rewrite !hasf_pow2 by done. unfold setf, clrf. fsimp.
  rewrite Z.lor_spec, Z.ldiff_spec, Z.land_spec. change (Z.testbit OMX_PEER_TABLE_STATUS_SETMASK 1) with false.
  by rewrite !andb_false_r, andb_true_r, orb_false_r.
Qed.
Lemma timer_handler_kept s : table_ok s -> table_ok (omx_host_query_timer_handler s).
Proof. intros T. apply (table_ext s); try done; [by right|apply T]. Qed.

Lemma query_workfunc_kept s skbs : table_ok s -> keeps (omx_host_query_workfunc omx_iface_max junk skbs s).
Proof.
  intros T. unfold omx_host_query_workfunc. fsimp. case_decide as E.
  - eexists. split; [done|]. apply (table_ext s); try done; [|apply T]. intros H. by destruct H.
  - match goal with |- context [for_each ?l ?f ?t] => destruct (for_each_inv (fun t' => exists l', t' = t <| sent := l' |>) f l t) as (t' & -> & l' & ->) end.
    + exists (sent s). by destruct s.
    + intros p t Hp (l' & ->). apply (l_query _ _ _ _ _ (c_links (t_core _ _ _ T))) in Hp as (i & o & Hi & Ho & _).
      destruct (host_query_spec (omx_iface_max := omx_iface_max) junk (s <| omx_host_query_work := false |> <| sent := l' |>) (skbs p) p o) as (l & ->).
      * by destruct p.
      * intros id Hid. by apply (attached_alive _ _ id (t_core _ _ _ T)).
      * eexists. split; [done|]. by eexists.
    + cbn [mbind option_bind]. eexists. split; [done|]. apply (table_ext s); try done; [by left|apply T].
Qed.

(** ** Names *)

Lemma set_hostname_kept s strdup i name : table_ok s -> name_ok (Some name) -> kept s (omx_iface_set_hostname omx_iface_max strdup i name s).
Proof.
  intros T Hn. unfold omx_iface_set_hostname. destruct strdup; [|by eexists _, s]. cbn [negb].
  destruct (omx_iface_max <=? i); [by eexists _, s|]. destruct (omx_ifaces s !! i) as [id|] eqn:Hi; [|by eexists _, s].
  pose proof (t_core _ _ _ T) as C. destruct (attached_in C i id Hi) as (f & Hf & _ & Hidx & _). rewrite Hf. cbn [mbind option_bind].
  pose proof (if_named _ _ _ _ _ (c_ifaces C id f Hf)) as Hnamed. destruct (hostname (peer f)) as [old|] eqn:Eold; [|done].
  cbn [mbind option_bind]. exists 0. eexists. split; [done|].
  apply (table_rename s _ (index (peer f)) (Embedded id) (peer f) (Some name)); rewrite ?Eold; try done; [cbn; by rewrite Hf|].
  apply T.
Qed.

Lemma table_magic s m : table_ok s -> table_ok (s <| omx_host_query_magic := m |>).
Proof. intros T. apply (table_ext s); try done; apply T. Qed.

Lemma clear_name_core s nr i skbs : nr <= omx_peer_max -> core_ok nr s -> exists s', clear_name omx_iface_max junk skbs i s = Some s' /\ core_ok nr s' /\
  omx_peer_next_nr s' = omx_peer_next_nr s /\ omx_peer_table_full s' = omx_peer_table_full s /\
  omx_peer_table_state s' = omx_peer_table_state s /\ omx_host_query_timer s' = omx_host_query_timer s /\
  omx_host_query_work s' = omx_host_query_work s.
Proof.
  intros Hnr C. unfold clear_name. destruct (omx_peer_array s !! i) as [p|] eqn:Hi; [|by exists s].
  destruct (core_entry C i p Hi) as (_ & o & Ho & _). rewrite Ho. cbn [mbind option_bind].
  destruct (bool_decide (hostname o = None) || bool_decide (local_iface o <> None)) eqn:E; [by exists s|].
  apply orb_false_elim in E as [E1%bool_decide_eq_false E2%bool_decide_eq_false].
  pose proof (core_local C Hnr i p o Hi Ho) as Hl. destruct p as [n|id]; [|by destruct E2; rewrite Hl]. cbn [update].
  match goal with |- context [omx_peer_host_query _ _ _ _ ?t] => set (s1 := t) end.
  assert (C1 : core_ok nr s1).
  { apply (core_rename C i (Allocated n) o None); try done. unfold s1. fsimp. by destruct (hostname o). }
  cbn in Ho. destruct (host_query_spec (omx_iface_max := omx_iface_max) junk s1 skbs (Allocated n) (set hostname (fun _ => None) o)) as (l & ->).
  - cbn. unfold s1. fsimp. by rewrite lookup_alter_eq, Ho.
  - intros id. by apply (attached_alive nr s1).
  - eexists. split; [done|]. split; [|done]. by eapply core_ext.
Qed.
Lemma clear_names_kept s skbs : table_ok s -> keeps (omx_peers_clear_names omx_peer_max omx_iface_max junk skbs s).
Proof.
  intros T. unfold omx_peers_clear_names. pose proof (t_nr _ _ _ T).
  destruct (for_each_inv (fun s' => core_ok (omx_peer_next_nr s) s' /\
    omx_peer_next_nr s' = omx_peer_next_nr s /\ omx_peer_table_full s' = omx_peer_table_full s /\
    omx_peer_table_state s' = omx_peer_table_state s /\ omx_host_query_timer s' = omx_host_query_timer s /\
    omx_host_query_work s' = omx_host_query_work s) (fun i => clear_name omx_iface_max junk (skbs i) i) (seqZ 0 omx_peer_max) s)
    as (s1 & -> & C1 & E1 & E2 & E3 & E4 & E5).
  - split; [apply T|done].
  - intros i t _ (Ct & E1 & E2 & E3 & E4 & E5). destruct (clear_name_core t (omx_peer_next_nr s) i (skbs i) ltac:(lia) Ct) as (t' & -> & Ct' & F1 & F2 & F3 & F4 & F5).
    exists t'. split; [done|]. split_and!; congruence.
  - cbn [mbind option_bind]. eexists. split; [done|]. apply table_magic.
    assert (F : full_ok omx_peer_max s1) by (unfold full_ok; rewrite E1, E2, E3; apply T).
    case_bool_decide as Hempty; [case_bool_decide as Hne|]; cbn [andb].
    + split; [|fsimp; lia|by left|exact F]. fsimp. rewrite E1. by eapply core_ext.
    + split; [by rewrite E1|lia| |done]. intros H'. by destruct Hne.
    + split; [by rewrite E1|lia| |done]. intros _. rewrite E4, E5. by apply T.
Qed.

(** ** Packets *)

Lemma length_cstring l : forall n, l !! n = Some 0 -> (length (cstring l) <= n)%nat.
Proof.
  induction l as [|b l IH]; intros n H; [done|]. cbn. destruct (Z.eqb_spec b 0); [cbn; lia|].
  destruct n as [|n]; [cbn in H; congruence|]. cbn in H |- *. specialize (IH n H). lia.
Qed.
Lemma new_hostname_ok mem len skb : (1 <= len <= 80)%nat -> (len <= length mem)%nat ->
  exists name, new_hostname mem len skb = Some name /\ name_ok (Some name).
Proof.
  intros Hl Hm. unfold new_hostname.
  match goal with |- context [if ?b then ?x else ?y] => set (l := if b then x else y) end.
  assert (Hlen : length l = len).
  { unfold l. destruct (Nat.leb_spec (HOST_HDR + len) (length skb)); rewrite length_take, ?length_drop; lia. }
  destruct len as [|n]; [lia|]. eexists. split; [done|]. intros name [= <-]. unfold OMX_HOSTNAMELEN_MAX.
  assert (Hx : <[n := 0]> l !! n = Some 0) by (apply list_lookup_insert_eq; lia). apply length_cstring in Hx. lia.
Qed.
Lemma get_field_is_Some f (p : list Z) : (f_off f + f_size f <= HOST_HDR)%nat -> (HOST_HDR <= length p)%nat -> exists v, get_field f p = Some v.
Proof. intros H1 H2. unfold get_field. rewrite (proj2 (Nat.leb_le _ _)) by lia. by eexists. Qed.

Definition alive (s s' : table) : Prop := forall id, is_Some (ifaces s !! id) -> is_Some (ifaces s' !! id).
Lemma alive_refl s : alive s s.
Proof. by intros id. Qed.
#[local] Hint Resolve alive_refl : core.
Lemma table_reverse s ifs' : table_ok s -> same_but_reverse (ifaces s) ifs' -> table_ok (s <| ifaces := ifs' |>).
Proof. intros [T1 T2 T3 T4] H. split; try done. by apply core_reverse. Qed.
Lemma set_reverse_index_kept s i p o id f v : table_ok s -> omx_peer_array s !! i = Some p -> deref s p = Some o -> ifaces s !! id = Some f ->
  exists ifs', omx_peer_set_reverse_index omx_peer_max p id v s = Some (s <| ifaces := ifs' |>) /\ same_but_reverse (ifaces s) ifs'.
Proof.
  intros T Hi Ho Hf. pose proof (t_core _ _ _ T) as C. unfold omx_peer_set_reverse_index. rewrite Ho, Hf. cbn [mbind option_bind].
  destruct (core_entry C i p Hi) as (Hr & o' & Ho' & Hx). assert (o' = o) as -> by congruence. pose proof (t_nr _ _ _ T).
  destruct (if_reverse _ _ _ _ _ (c_ifaces C id f Hf) (index o)) as [old Hold]; [lia|]. rewrite Hold. cbn [mbind option_bind].
  destruct (v =? old); [exists (ifaces s); split; [by destruct s|reflexivity]|].
  destruct (set_reverse_spec s id f (index o) v Hf) as (ifs' & E & H' & _); [lia|]. by exists ifs'.
Qed.
Lemma same_alive s ifs' : same_but_reverse (ifaces s) ifs' -> alive s (s <| ifaces := ifs' |>).
Proof. intros H id [f Hf]. destruct (same_lookup _ _ _ _ H Hf) as (r & Hr & _). by eexists. Qed.

(** The length of a reply: the driver relies on it. *)
Definition reply_ok (kmalloc : option (list Z)) (skb : list Z) : Prop := forall len, get_field reply_length skb = Some len ->
  1 <= len <= OMX_HOSTNAMELEN_MAX /\ forall mem, kmalloc = Some mem -> len <= Z.of_nat (length mem).

Lemma process_reply_kept s kmalloc id skb : table_ok s -> is_Some (ifaces s !! id) -> (HOST_HDR <= length skb)%nat -> reply_ok kmalloc skb ->
  exists s', process_host_reply omx_peer_max kmalloc id skb s = Some s' /\ table_ok s' /\ alive s s'.
Proof.
  intros T [f Hf] Hlen Hok. pose proof (t_core _ _ _ T) as C. unfold process_host_reply, omx_peer_lookup_by_addr_locked.
  destruct (find_addr_spec C (omx_board_addr_from_ethhdr_src skb)) as (found & -> & Hfound). cbn [mbind option_bind].
  destruct found as [p|]; [|by exists s]. destruct Hfound as (i & o & Hi & Ho & _). rewrite Ho. cbn [mbind option_bind].
  destruct (get_field_is_Some reply_length skb) as [len El]; [cbn; lia|done|]. rewrite El. cbn [mbind option_bind].
  destruct (Hok len El) as [Hl Hm]. destruct kmalloc as [mem|]; [|by exists s]. specialize (Hm mem eq_refl). unfold OMX_HOSTNAMELEN_MAX in Hl.
  destruct (new_hostname_ok mem (Z.to_nat len) skb) as (name & -> & Hname); [lia..|]. cbn [mbind option_bind].
  destruct (get_field_is_Some host_src_dst_peer_index skb) as [v Ev]; [cbn; lia|done|].
  destruct (rename_peer_spec s i p o (Some name) T Hi Ho Hname) as (b & s1 & E1 & T1 & Ea & Eif & _ & Hd); [done|].
  assert (Es : (s ← (if hostname o then Some s else query_del p s); Some (update p (set hostname (fun _ => Some name)) s)) = Some s1).
  { unfold rename_peer in E1. rewrite Ho in E1. cbn [mbind option_bind] in E1. destruct (hostname o); cbn [mbind option_bind] in E1 |- *; [congruence|].
    destruct (query_del p s); cbn [mbind option_bind] in E1 |- *; congruence. }
  destruct (if hostname o then Some s else query_del p s) as [s0|]; [|done]. cbn [mbind option_bind] in Es |- *.
  injection Es as ->. rewrite Ev. cbn [mbind option_bind].
  assert (Hf1 : exists f1, ifaces s1 !! id = Some f1).
  { rewrite Eif. destruct p as [n|j]; cbn [update]; fsimp; [by eexists|]. destruct (decide (id = j)) as [->|Hj].
    - rewrite lookup_alter_eq, Hf. by eexists.
    - rewrite lookup_alter_ne by congruence. by eexists. }
  destruct Hf1 as [f1 Hf1]. rewrite <- Ea in Hi.
  destruct (set_reverse_index_kept s1 i p _ id f1 v T1 Hi Hd Hf1) as (ifs' & -> & Hs). eexists. split; [done|].
  split; [by apply table_reverse|]. intros j [g Hg]. apply (same_alive s1 ifs' Hs). rewrite Eif.
  destruct p as [n|k]; cbn [update]; fsimp; [by eexists|]. destruct (decide (j = k)) as [->|Hj].
  - rewrite lookup_alter_eq, Hg. by eexists.
  - rewrite lookup_alter_ne by congruence. by eexists.
Qed.

Lemma process_query_kept s alloc id skb : table_ok s -> is_Some (ifaces s !! id) -> (HOST_HDR <= length skb)%nat ->
  exists s', process_host_query omx_peer_max junk alloc id skb s = Some s' /\ table_ok s' /\ alive s s'.
Proof.
  intros T [f Hf] Hlen. pose proof (t_core _ _ _ T) as C. unfold process_host_query, omx_peer_lookup_by_addr_locked.
  rewrite Hf. cbn [mbind option_bind]. pose proof (if_named _ _ _ _ _ (c_ifaces C id f Hf)) as Hnamed.
  destruct (hostname (peer f)) as [name|]; [|done]. cbn [mbind option_bind].
  destruct (get_field_is_Some host_src_dst_peer_index skb) as [v ->]; [cbn; lia|done|]. cbn [mbind option_bind].
  destruct (find_addr_spec C (omx_board_addr_from_ethhdr_src skb)) as (found & -> & Hfound). cbn [mbind option_bind].
  destruct found as [p|]; [|by exists s]. destruct Hfound as (i & o & Hi & Ho & _).
  destruct (set_reverse_index_kept s i p o id f v T Hi Ho Hf) as (ifs' & -> & Hs). cbn [mbind option_bind].
  pose proof (table_reverse s ifs' T Hs) as T'. destruct alloc; cbn [negb]; [|eexists; split; [done|]; split; [done|by apply same_alive]].
  destruct (table_deref (s <| ifaces := ifs' |>) i p T' Hi) as [o' Ho']. rewrite Ho'. cbn [mbind option_bind].
  eexists. split; [done|]. split; [by apply table_sent|]. intros j Hj. by apply (same_alive s ifs').
Qed.

Lemma table_queues s qs rs : table_ok s -> queued_ok (ifaces s) (qs ++ rs) ->
  table_ok (s <| omx_host_query_list := qs |> <| omx_host_reply_list := rs |>).
Proof. intros [[C1 C2 C3 C4 C5 C6 C7] T2 T3 T4] H. by split. Qed.
Lemma table_queries s qs : table_ok s -> queued_ok (ifaces s) qs -> table_ok (s <| omx_host_query_list := qs |>).
Proof.
  intros T H. replace (s <| omx_host_query_list := qs |>) with (s <| omx_host_query_list := qs |> <| omx_host_reply_list := omx_host_reply_list s |>) by (by destruct s).
  apply table_queues; [done|]. intros x [Hx|Hx]%elem_of_app; [by apply H|]. apply (c_queued (t_core _ _ _ T)). apply elem_of_app. by right.
Qed.
Lemma table_replies s rs : table_ok s -> queued_ok (ifaces s) rs -> table_ok (s <| omx_host_reply_list := rs |>).
Proof.
  intros T H. replace (s <| omx_host_reply_list := rs |>) with (s <| omx_host_query_list := omx_host_query_list s |> <| omx_host_reply_list := rs |>) by (by destruct s).
  apply table_queues; [done|]. intros x [Hx|Hx]%elem_of_app; [|by apply H]. apply (c_queued (t_core _ _ _ T)). apply elem_of_app. by left.
Qed.

Lemma process_work_kept s kmalloc alloc : table_ok s -> (forall x, x ∈ omx_host_reply_list s -> reply_ok (kmalloc (snd x)) (snd x)) ->
  keeps (omx_process_host_queries_and_replies_workfunc omx_peer_max junk kmalloc alloc s).
Proof.
  intros T Hok. unfold omx_process_host_queries_and_replies_workfunc. pose proof (c_queued (t_core _ _ _ T)) as Hq.
  assert (T0 : table_ok (s <| omx_host_reply_list := [] |>)) by (apply table_replies; [done|]; intros x Hx; by apply not_elem_of_nil in Hx).
  match goal with |- context [for_each (omx_host_reply_list s) ?f ?t] =>
    destruct (for_each_inv (fun t' => table_ok t' /\ alive s t') f (omx_host_reply_list s) t) as (s1 & -> & T1 & A1) end.
  - split; [done|exact (alive_refl s)].
  - intros x t Hx [Tt At]. destruct (Hq x) as [Hx1 Hx2]; [apply elem_of_app; by right|].
    destruct (process_reply_kept t (kmalloc (snd x)) (fst x) (snd x) Tt) as (t' & -> & Tt' & At'); [by apply At|done|by apply Hok|].
    exists t'. split; [done|]. split; [done|]. intros j Hj. by apply At', At.
  - cbn [mbind option_bind]. pose proof (c_queued (t_core _ _ _ T1)) as Hq1.
    assert (T0' : table_ok (s1 <| omx_host_query_list := [] |>)) by (apply table_queries; [done|]; intros x Hx; by apply not_elem_of_nil in Hx).
    match goal with |- context [for_each (omx_host_query_list s1) ?f ?t] =>
      destruct (for_each_inv (fun t' => table_ok t' /\ alive s1 t') f (omx_host_query_list s1) t) as (s2 & -> & T2 & _) end.
    + split; [done|exact (alive_refl s1)].
    + intros x t Hx [Tt At]. destruct (Hq1 x) as [Hx1 Hx2]; [apply elem_of_app; by left|].
      destruct (process_query_kept t (alloc (snd x)) (fst x) (snd x) Tt) as (t' & -> & Tt' & At'); [by apply At|done|].
      exists t'. split; [done|]. split; [done|]. intros j Hj. by apply At', At.
    + by exists s2.
Qed.

Lemma recv_query_kept s id skb : table_ok s -> is_Some (ifaces s !! id) -> (HOST_HDR <= length skb)%nat -> kept s (omx_recv_host_query id skb s).
Proof.
  intros T [f Hf] Hlen. unfold omx_recv_host_query. rewrite Hf. cbn [mbind option_bind]. case_bool_decide; [by eexists _, s|].
  do 2 eexists. split; [done|]. apply table_queries; [done|]. pose proof (c_queued (t_core _ _ _ T)) as Hq.
  intros x [Hx| ->%list_elem_of_singleton]%elem_of_app; [apply Hq, elem_of_app; by left|]. split; [by exists f|done].
Qed.
Lemma recv_reply_kept s id skb : table_ok s -> is_Some (ifaces s !! id) -> (HOST_HDR <= length skb)%nat -> kept s (omx_recv_host_reply id skb s).
Proof.
  intros T [f Hf] Hlen. unfold omx_recv_host_reply. destruct (get_field_is_Some host_magic skb) as [m ->]; [cbn; lia|done|]. cbn [mbind option_bind].
  destruct (negb _); [by eexists _, s|].
  do 2 eexists. split; [done|]. apply table_replies; [done|]. pose proof (c_queued (t_core _ _ _ T)) as Hq.
  intros x [Hx| ->%list_elem_of_singleton]%elem_of_app; [apply Hq, elem_of_app; by right|]. split; [by exists f|done].
Qed.
End steps.
End PeerSteps.
