(* ===== verification/PeerIfaces.v ===== *)
(** Clearing the peer table; the interfaces that come and go. *)
From S2P Require Import Prelude Peer Wire Host PeerTable PeerInv PeerOps PeerSafe PeerSteps.

Module PeerIfaces.
Import Wire PeerTable PeerInv PeerOps PeerSafe PeerSteps.

Section ifaces.
Context {omx_peer_max omx_iface_max : Z} {Hmax : peer_max_ok omx_peer_max} {order : ByteOrder} (junk : nat -> Z).
Let Hrange : 0 <= omx_peer_max <= 65536 := Hmax.
#[local] Notation core_ok := (core_ok omx_peer_max omx_iface_max).
#[local] Notation table_ok := (table_ok omx_peer_max omx_iface_max).
#[local] Notation iface_ok := (iface_ok omx_peer_max).
#[local] Notation attached_ok := (attached_ok omx_iface_max).
#[local] Notation kept := (kept (omx_peer_max := omx_peer_max) (omx_iface_max := omx_iface_max)).
#[local] Notation hash_of o := (Peer.omx_peer_addr_hash (board_addr o)).

(** ** Clearing *)

Lemma core_shrink nr n s : core_ok nr s -> (forall i p, omx_peer_array s !! i = Some p -> i < n) -> core_ok n s.
Proof.
  intros [C1 C2 C3 C4 C5 C6 C7] H. split; try done. destruct C1 as [L1 L2 L3 L4 L5 L6]. split; try done.
  intros i p Hi. destruct (L1 i p Hi) as [[Hr _] Ho]. split; [|done]. split; [done|by eapply H].
Qed.

Lemma clear_peer_core nr s local i : nr <= omx_peer_max -> core_ok nr s -> timer_ok s -> local = false \/ omx_ifaces s = ∅ ->
  exists s', clear_peer local i s = Some s' /\ core_ok nr s' /\ timer_ok s' /\ ifaces s' = ifaces s /\ omx_ifaces s' = omx_ifaces s /\
    (forall p, omx_peer_array s' !! i = Some p -> exists id, p = Embedded id) /\
    (forall j p, omx_peer_array s' !! j = Some p -> omx_peer_array s !! j = Some p) /\
    (forall j id, omx_peer_array s !! j = Some (Embedded id) -> omx_peer_array s' !! j = Some (Embedded id)).
Proof.
  intros Hnr C Ht Hl. unfold clear_peer. destruct (omx_peer_array s !! i) as [p|] eqn:Hi.
  2:{ exists s. split_and!; try done. intros p Hp. congruence. }
  destruct (core_entry C i p Hi) as (Hr & o & Ho & Hx). rewrite Ho. cbn [mbind option_bind].
  pose proof (core_local C Hnr i p o Hi Ho) as Hloc. destruct p as [n|id]; rewrite Hloc.
  - assert (Hh : Allocated n ∈ omx_peer_addr_hash_array s (hash_of o)) by (by apply (links_hashed (c_links C) i)).
    unfold hash_del. rewrite Ho. cbn [mbind option_bind]. cbn zeta. rewrite decide_True by done. cbn [mbind option_bind].
    match goal with |- context [if hostname o then Some ?t else _] => set (s1 := t) end. cbn in Ho.
    assert (H1 : exists b, (if hostname o then Some s1 else query_del (Allocated n) s1) =
        Some (s1 <| omx_host_query_peer_list := remove_elt (Allocated n) (omx_host_query_peer_list s) |> <| omx_host_query_timer := b |>) /\
        forall s', omx_host_query_peer_list s' = remove_elt (Allocated n) (omx_host_query_peer_list s) -> omx_host_query_timer s' = b ->
          omx_host_query_work s' = omx_host_query_work s -> timer_ok s').
    { destruct (hostname o) eqn:Eh.
      - exists (omx_host_query_timer s). rewrite remove_elt_notin by (apply (links_named (c_links C) i _ o Hi Ho); congruence).
        split; [by destruct s|]. intros s' E1 E2 E3. unfold timer_ok. by rewrite E1, E2, E3.
      - destruct (query_del_spec s1 (Allocated n)) as (b & -> & Ht1).
        { apply (l_query _ _ _ _ _ (c_links C)). by exists i, o. }
        exists b. split; [done|]. intros s' E1 E2 E3. by apply Ht1. }
    destruct H1 as (b & E1 & Ht1).
    assert (Hfree : forall t, peers t = peers s -> free_peer (Allocated n) t = Some (t <| peers ::= delete n |>)).
    { intros t Et. unfold free_peer. by rewrite Et, Ho. }
    destruct local; rewrite E1; cbn [mbind option_bind]; rewrite Hfree by done.
    all: eexists; split; [done|]; split; [by apply (core_delete C i n o)|]; split; [by apply Ht1|]; split; [done|]; split; [done|].
    all: unfold s1; fsimp; split_and!; [intros p; by rewrite lookup_delete_eq|intros j p [_ Hj]%lookup_delete_Some; done|].
    all: intros j id Hj; rewrite lookup_delete_ne; [done|congruence].
  - destruct local.
    + destruct Hl as [|Hl]; [done|]. cbn in Ho. destruct (ifaces s !! id) as [f|] eqn:Hf; [|done]. injection Ho as <-.
      pose proof (if_peer _ _ _ _ _ (c_ifaces C id f Hf)) as Hp. rewrite decide_False in Hp by (unfold OMX_UNKNOWN_REVERSE_PEER_INDEX; lia).
      destruct Hp as (_ & _ & Hp). rewrite Hl in Hp. by rewrite lookup_empty in Hp.
    + exists s. split_and!; try done. intros p Hp. exists id. congruence.
Qed.

Lemma core_move nr s i j p o s' : nr <= omx_peer_max -> core_ok nr s -> omx_peer_array s !! i = Some p -> deref s p = Some o ->
  omx_peer_array s !! j = None -> 0 <= j < nr -> omx_peer_array s' = delete i (<[j := p]> (omx_peer_array s)) ->
  omx_peer_addr_hash_array s' = omx_peer_addr_hash_array s -> omx_host_query_peer_list s' = omx_host_query_peer_list s ->
  peers s' = peers (update p (set index (fun _ => j)) s) -> ifaces s' = ifaces (update p (set index (fun _ => j)) s) ->
  omx_ifaces s' = omx_ifaces s -> omx_iface_nr s' = omx_iface_nr s ->
  omx_host_query_list s' = omx_host_query_list s -> omx_host_reply_list s' = omx_host_reply_list s -> core_ok nr s'.
Proof.
  intros Hnr C Hi Ho Hj Hr E1 E2 E3 E4 E5 E6 E7 E8 E9. pose proof C as [C1 C2 C3 C4 C5 C6 C7].
  set (s1 := update p (set index (fun _ => j)) s) in *.
  assert (Hd : forall q, deref s' q = deref s1 q) by (intros [n|id]; cbn; by rewrite ?E4, ?E5).
  assert (Hij : i <> j) by congruence. pose proof (entry_index C1 i p o Hi Ho) as Hoi.
  assert (HU : j <> OMX_UNKNOWN_REVERSE_PEER_INDEX) by (unfold OMX_UNKNOWN_REVERSE_PEER_INDEX; lia).
  assert (Hif : forall id f', ifaces s1 !! id = Some f' -> exists f, ifaces s !! id = Some f /\
    (f' = f /\ p <> Embedded id \/ p = Embedded id /\ f' = set peer (set index (fun _ => j)) f)).
  { intros id f'. unfold s1. destruct p as [n|k]; cbn [update]; fsimp; [intros Hf; exists f'; split; [done|]; by left|].
    destruct (decide (id = k)) as [->|Hk]; [|rewrite lookup_alter_ne by congruence; intros Hf; exists f'; split; [done|]; left; split; [done|congruence]].
    rewrite lookup_alter_eq. destruct (ifaces s !! k) as [f|]; [|done]. intros [= <-]. exists f. tauto. }
  assert (Hifs : forall id f, ifaces s !! id = Some f -> exists f', ifaces s1 !! id = Some f' /\
    iface_index f' = iface_index f /\ refcount f' = refcount f /\ (index (peer f') = index (peer f) \/ index (peer f') = j)).
  { intros id f Hf. unfold s1. destruct p as [n|k]; cbn [update]; fsimp; [exists f; tauto|].
    destruct (decide (id = k)) as [->|Hk]; [|rewrite lookup_alter_ne by congruence; exists f; tauto].
    rewrite lookup_alter_eq, Hf. cbn. eexists. split; [done|]. fsimp. tauto. }
  assert (Hkeep : forall k q, k <> i -> omx_peer_array s !! k = Some q -> delete i (<[j := p]> (omx_peer_array s)) !! k = Some q).
  { intros k q Hk Hq. rewrite lookup_delete_ne by congruence. rewrite lookup_insert_ne; [done|congruence]. }
  assert (Hto : delete i (<[j := p]> (omx_peer_array s)) !! j = Some p) by (by rewrite lookup_delete_ne, lookup_insert_eq by done).
  split; rewrite ?E1, ?E2, ?E3, ?E4, ?E5, ?E6, ?E7, ?E8, ?E9; try done.
  - apply (links_move C1 i j p o); [done..| |].
    + rewrite Hd. unfold s1. by rewrite deref_update, decide_True, Ho by done.
    + intros q Hq. rewrite Hd. unfold s1. by rewrite deref_update, decide_False by done.
  - intros k id Hk. destruct (C2 k id Hk) as (Hrk & f & Hf & H1 & H2 & H3). split; [done|].
    destruct (Hifs id f Hf) as (f' & Hf' & F1 & F2 & F3). exists f'. rewrite F1, F2. split_and!; try done. destruct F3 as [-> | ->]; done.
  - intros id f' Hf'. destruct (Hif id f' Hf') as (f & Hf & [[-> Hp]|[-> ->]]); destruct (C3 id f Hf) as [R1 R2 R3 R4]; split; fsimp; try done.
    + case_decide; [done|]. destruct R4 as (Ra & Rb). split; [|done]. apply Hkeep; [|done]. intros Ek. congruence.
    + rewrite decide_False by done. cbn in Ho. rewrite Hf in Ho. injection Ho as <-.
      rewrite decide_False in R4 by (unfold OMX_UNKNOWN_REVERSE_PEER_INDEX; pose proof (core_entry C i _ Hi) as [? _]; lia). tauto.
  - intros n o' Hn'. unfold s1 in Hn'. destruct p as [m|k]; cbn [update] in Hn'; fsimp.
    + destruct (decide (n = m)) as [->|Hm].
      * rewrite lookup_alter_eq in Hn'. destruct (peers s !! m) as [o1|] eqn:Ho1; [|done]. injection Hn' as <-. fsimp.
        split; [by destruct (C5 m o1 Ho1)|done].
      * rewrite lookup_alter_ne in Hn' by congruence. destruct (C5 n o' Hn') as [? Hx]. split; [done|]. apply Hkeep; [|done]. congruence.
    + destruct (C5 n o' Hn') as [? Hx]. split; [done|]. apply Hkeep; [|done]. congruence.
  - intros q o'. rewrite Hd. unfold s1. rewrite deref_update. case_decide as Hq; [subst q|apply C6].
    rewrite Ho. intros [= <-]. exact (C6 p o Ho).
  - intros x Hx. destruct (C7 x Hx) as [[f Hf] Hlen]. split; [|done]. destruct (Hifs _ f Hf) as (f' & Hf' & _). by exists f'.
Qed.

(** Where the second loop of [omx_peers_clear] is: the first indexes are
    taken, those up to [k] are free. *)
Definition moving (k : Z) (s : table) : Prop := core_ok omx_peer_max s /\ timer_ok s /\ 0 <= omx_peer_next_nr s <= k /\
  (forall j p, omx_peer_array s !! j = Some p -> (exists id, p = Embedded id) /\ (j < omx_peer_next_nr s \/ k <= j)) /\
  (forall j, 0 <= j < omx_peer_next_nr s -> is_Some (omx_peer_array s !! j)) /\
  omx_peer_table_full s = false /\ hasf (status (omx_peer_table_state s)) OMX_PEER_TABLE_STATUS_FULL = false.
Lemma move_peer_moving k s : 0 <= k < omx_peer_max -> moving k s -> exists s', move_peer k s = Some s' /\ moving (k + 1) s'.
Proof.
  intros Hk (C & Ht & Hnr & Hcells & Hlow & Hf1 & Hf2). unfold move_peer. destruct (omx_peer_array s !! k) as [p|] eqn:Hp.
  2:{ exists s. split; [done|]. split_and!; try done; try lia. intros j q Hj. destruct (Hcells j q Hj) as [Hq Hjk]. split; [done|].
      destruct (decide (j = k)) as [->|]; [congruence|lia]. }
  destruct (core_entry C k p Hp) as (_ & o & Ho & Hx). rewrite Ho. cbn [mbind option_bind]. cbn zeta.
  destruct (Z.eqb_spec k (omx_peer_next_nr s)) as [E|E].
  - eexists. split; [done|]. unfold moving. fsimp. split_and!; try done; try lia.
    + by eapply core_ext.
    + intros j q Hj. destruct (Hcells j q Hj) as [Hq Hjk]. split; [done|lia].
    + intros j Hj. destruct (decide (j = k)) as [->|]; [by eexists|]. apply Hlow. lia.
  - assert (Hfree : omx_peer_array s !! omx_peer_next_nr s = None).
    { destruct (omx_peer_array s !! omx_peer_next_nr s) as [q|] eqn:Hq; [|done]. destruct (Hcells _ _ Hq) as [_ ?]. lia. }
    eexists. split; [done|]. unfold moving. destruct (Hcells k p Hp) as [[id ->] _]. cbn [update]. fsimp. split_and!; try done; try lia.
    + apply (core_move omx_peer_max s k (omx_peer_next_nr s) (Embedded id) o); try done. lia.
    + intros j q [Hj [[<- <-]|[Hn Hq]]%lookup_insert_Some]%lookup_delete_Some.
      * split; [by eexists|lia].
      * destruct (Hcells j q Hq) as [? ?]. split; [done|lia].
    + intros j Hj. destruct (decide (j = omx_peer_next_nr s)) as [->|].
      * rewrite lookup_delete_ne, lookup_insert_eq by done. by eexists.
      * rewrite lookup_delete_ne, lookup_insert_ne by lia. apply Hlow. lia.
Qed.

Lemma clr_full_bit st : hasf (clrf OMX_PEER_TABLE_STATUS_FULL st) OMX_PEER_TABLE_STATUS_FULL = false.
Proof. change OMX_PEER_TABLE_STATUS_FULL with (2 ^ 1). by apply clrf_pow2_has. Qed.

Lemma clear_loop s local : table_ok s -> local = false \/ omx_ifaces s = ∅ ->
  exists s', for_each (seqZ 0 omx_peer_max) (clear_peer local) s = Some s' /\ core_ok omx_peer_max s' /\ timer_ok s' /\
    ifaces s' = ifaces s /\ omx_ifaces s' = omx_ifaces s /\ (forall j p, omx_peer_array s' !! j = Some p -> exists id, p = Embedded id).
Proof.
  intros T Hl. pose proof (t_nr _ _ _ T) as Hr.
  destruct (for_each_seqZ (fun k s' => core_ok omx_peer_max s' /\ timer_ok s' /\ ifaces s' = ifaces s /\ omx_ifaces s' = omx_ifaces s /\
    forall j p, j < k -> omx_peer_array s' !! j = Some p -> exists id, p = Embedded id) (clear_peer local) omx_peer_max s)
    as (s1 & -> & C1 & Ht1 & E1 & E2 & Hcells); [lia| | |].
  - split_and!; try done; [by eapply core_bound; [|apply T]; lia|apply T|]. intros j p Hj Hp.
    destruct (core_entry (t_core _ _ _ T) j p Hp) as [? _]. lia.
  - intros i t Hi (C & Ht & F1 & F2 & Hcells).
    destruct (clear_peer_core omx_peer_max t local i ltac:(lia) C Ht) as (t' & -> & C' & Ht' & G1 & G2 & Hgone & Hsub & _).
    { destruct Hl as [->|Hl]; [by left|right]. by rewrite F2. }
    exists t'. split; [done|]. split_and!; try done; try congruence. intros j p Hj Hp.
    destruct (decide (j = i)) as [->|]; [by apply Hgone|]. apply (Hcells j p); [lia|by apply Hsub].
  - exists s1. split_and!; try done. intros j p Hp. apply (Hcells j p); [|done]. by destruct (core_entry C1 j p Hp) as [? _]; lia.
Qed.

(** After the table was cleared only the interfaces are left, at the first indexes. *)
Lemma peers_clear_kept s : table_ok s -> exists s', omx_peers_clear omx_peer_max false s = Some s' /\ table_ok s' /\
  omx_ifaces s' = omx_ifaces s /\ peers s' = ∅ /\ omx_host_query_peer_list s' = [] /\
  (forall i, is_Some (omx_peer_array s' !! i) <-> 0 <= i < omx_peer_next_nr s').
Proof.
  intros T. unfold omx_peers_clear. destruct (clear_loop s false T) as (s1 & -> & C1 & Ht1 & E1 & E2 & Hcells); [by left|].
  cbn [mbind option_bind]. cbn zeta.
  match goal with |- context [for_each _ move_peer ?t] => set (s2 := t) end.
  destruct (for_each_seqZ (fun k t => moving k t /\ omx_ifaces t = omx_ifaces s) move_peer omx_peer_max s2) as (s3 & -> & (C3 & Ht3 & Hnr3 & Hc3 & Hl3 & Hf3 & Hb3) & E3); [lia| | |].
  - split; [|done]. unfold moving, s2. fsimp. split_and!; try done; try lia; [by eapply core_ext| |apply clr_full_bit].
    intros j p Hp. split; [by eapply Hcells|]. destruct (core_entry C1 j p Hp). lia.
  - intros i t Hi [Hm Et]. destruct (move_peer_moving i t Hi Hm) as (t' & E & Hm'). exists t'. split; [done|]. split; [done|].
    revert E. unfold move_peer. destruct (omx_peer_array t !! i) as [p|]; [|by intros [= <-]]. destruct (deref t p); [|done]. cbn [mbind option_bind].
    cbn zeta. intros [= <-]. fsimp. destruct (i =? _); [done|]. by destruct p.
  - cbn [mbind option_bind].
    assert (C4 : core_ok (omx_peer_next_nr s3) s3).
    { apply (core_shrink omx_peer_max); [done|]. intros i p Hp. destruct (Hc3 i p Hp) as [_ [?|?]]; [done|]. destruct (core_entry C3 i p Hp). lia. }
    assert (T3 : (omx_peer_next_nr s3 =? omx_peer_max) = false -> table_ok s3).
    { intros E%Z.eqb_neq. split; try done. split; [by rewrite Hf3|by rewrite Hf3]. }
    assert (Hp3 : peers s3 = ∅).
    { apply map_empty. intros n. destruct (peers s3 !! n) as [o|] eqn:Hn; [|done]. destruct (c_peers C4 n o Hn) as [_ Hx].
      by destruct (Hc3 _ _ Hx) as [[id ?] _]. }
    assert (Hq3 : omx_host_query_peer_list s3 = []).
    { destruct (omx_host_query_peer_list s3) as [|p l] eqn:Hl; [done|]. assert (Hp : p ∈ omx_host_query_peer_list s3) by (rewrite Hl; by constructor).
      apply (l_query _ _ _ _ _ (c_links C4)) in Hp as (i & o & Hi & Ho & Hn). destruct (Hc3 i p Hi) as [[id ->] _]. cbn in Ho.
      destruct (ifaces s3 !! id) as [f|] eqn:Hf; [|done]. injection Ho as <-. by destruct (if_named _ _ _ _ _ (c_ifaces C4 id f Hf)). }
    assert (Hdom : forall i, is_Some (omx_peer_array s3 !! i) <-> 0 <= i < omx_peer_next_nr s3).
    { intros i. split; [|apply Hl3]. intros [p Hp]. by destruct (core_entry C4 i p Hp). }
    destruct (omx_peer_next_nr s3 =? omx_peer_max) eqn:E.
    + eexists. split; [done|]. split_and!; try done. apply Z.eqb_eq in E.
      split; [by eapply core_ext|unfold set_full; fsimp; lia|done|]. split; [apply set_full_bit|done].
    + eexists. split; [done|]. split_and!; try done. by apply T3.
Qed.

(** When the module goes the interfaces went before; every peer is freed. *)
Lemma peers_exit_frees s : table_ok s -> omx_ifaces s = ∅ -> exists s', omx_peers_exit omx_peer_max s = Some s' /\
  omx_peer_array s' = ∅ /\ peers s' = ∅ /\ (forall h, omx_peer_addr_hash_array s' h = []) /\ omx_host_query_peer_list s' = [] /\
  omx_host_query_list s' = [] /\ omx_host_reply_list s' = [] /\ omx_host_query_timer s' = false.
Proof.
  intros T Hoi. unfold omx_peers_exit, omx_peers_clear.
  destruct (clear_loop s true T) as (s1 & -> & C1 & Ht1 & E1 & E2 & Hcells); [by right|]. cbn [mbind option_bind].
  assert (Harr : omx_peer_array s1 = ∅).
  { apply map_empty. intros i. destruct (omx_peer_array s1 !! i) as [p|] eqn:Hp; [|done]. destruct (Hcells i p Hp) as [id ->].
    destruct (core_entry C1 i _ Hp) as (Hr & o & Ho & Hx). cbn in Ho. destruct (ifaces s1 !! id) as [f|] eqn:Hf; [|done]. injection Ho as <-.
    pose proof (if_peer _ _ _ _ _ (c_ifaces C1 id f Hf)) as H. rewrite decide_False in H by (unfold OMX_UNKNOWN_REVERSE_PEER_INDEX; lia).
    destruct H as (_ & _ & H). by rewrite E2, Hoi, lookup_empty in H. }
  assert (Hq : omx_host_query_peer_list s1 = []).
  { destruct (omx_host_query_peer_list s1) as [|p l] eqn:Hl; [done|]. assert (Hp : p ∈ omx_host_query_peer_list s1) by (rewrite Hl; by constructor).
    apply (l_query _ _ _ _ _ (c_links C1)) in Hp as (i & o & Hi & _). by rewrite Harr, lookup_empty in Hi. }
  fsimp. rewrite bool_decide_eq_false_2 by (rewrite Hq; tauto). cbn [bug_on mbind option_bind]. eexists. split; [done|]. fsimp. split_and!; try done.
  - apply map_empty. intros n. destruct (peers s1 !! n) as [o|] eqn:Hn; [|done]. destruct (c_peers C1 n o Hn) as [_ Hx].
    by rewrite Harr, lookup_empty in Hx.
  - intros h. destruct (omx_peer_addr_hash_array s1 h) as [|p l] eqn:Hl; [done|]. assert (Hp : p ∈ omx_peer_addr_hash_array s1 h) by (rewrite Hl; by constructor).
    apply (l_hash _ _ _ _ _ (c_links C1)) in Hp as (i & o & Hi & _). by rewrite Harr, lookup_empty in Hi.
Qed.

(** ** Detaching *)

(** The interface [id] left the table and the array of interfaces; what is left
    of it, if something still refers to it, is not in the table. *)
Lemma core_detach nr s k id f s' : core_ok nr s -> omx_ifaces s !! k = Some id -> ifaces s !! id = Some f ->
  omx_peer_array s' = delete (index (peer f)) (omx_peer_array s) ->
  omx_peer_addr_hash_array s' = <[hash_of (peer f) := remove_elt (Embedded id) (omx_peer_addr_hash_array s (hash_of (peer f)))]> (omx_peer_addr_hash_array s) ->
  omx_host_query_peer_list s' = omx_host_query_peer_list s -> peers s' = peers s ->
  (forall j, j <> id -> ifaces s' !! j = ifaces s !! j) ->
  (forall f', ifaces s' !! id = Some f' -> 1 <= refcount f' /\ hostname (peer f') = hostname (peer f) /\
     reverse_peer_indexes f' = reverse_peer_indexes f /\ index (peer f') = OMX_UNKNOWN_REVERSE_PEER_INDEX /\ local_iface (peer f') = None) ->
  omx_ifaces s' = delete k (omx_ifaces s) -> omx_iface_nr s' = Z.pred (omx_iface_nr s) ->
  omx_host_query_list s' = omx_host_query_list s -> omx_host_reply_list s' = omx_host_reply_list s ->
  (forall x, x ∈ omx_host_query_list s ++ omx_host_reply_list s -> fst x <> id) -> core_ok nr s'.
Proof.
  intros C Hk Hf E1 E2 E3 E4 Eother Eid E6 E7 E8 E9 Hq. pose proof C as [C1 C2 C3 C4 C5 C6 C7].
  destruct (attached_in C k id Hk) as (f0 & Hf0 & Hik & Harr & Hloc & Hrefs). assert (f0 = f) as -> by congruence.
  assert (Hd : forall q, q <> Embedded id -> deref s' q = deref s q).
  { intros [n|j] Hqj; cbn; [by rewrite E4|]. rewrite Eother; [done|congruence]. }
  assert (Hne : forall j g, j <> id -> ifaces s !! j = Some g -> omx_ifaces s !! iface_index g = Some j -> iface_index g <> k) by congruence.
  split; rewrite ?E1, ?E2, ?E3, ?E4, ?E6, ?E7, ?E8, ?E9; try done.
  - assert (Ho : deref s (Embedded id) = Some (peer f)) by (cbn; by rewrite Hf).
    rewrite <- (remove_elt_notin (Embedded id) (omx_host_query_peer_list s)).
    + by apply (links_delete C1).
    + apply (links_named C1 _ _ _ Harr Ho). apply (C3 id f Hf).
  - intros k' id' [Hkk Hk']%lookup_delete_Some. destruct (C2 k' id' Hk') as (Hr & g & Hg & Hgi & Hrg). split; [done|]. exists g.
    rewrite Eother; [done|]. intros ->. congruence.
  - intros j g Hg. destruct (decide (j = id)) as [->|Hj].
    + destruct (Eid g Hg) as (G1 & G2 & G3 & G4 & G5). destruct (C3 id f Hf) as [R1 R2 R3 R4].
      split; rewrite ?G2, ?G3; try done. by rewrite decide_True.
    + rewrite Eother in Hg by done. destruct (C3 j g Hg) as [R1 R2 R3 R4]. split; try done.
      case_decide; [done|]. destruct R4 as (Ra & Rb & Rc). split_and!; [|done|].
      * rewrite lookup_delete_ne; [done|]. intros Ei. rewrite Ei in Harr. congruence.
      * rewrite lookup_delete_ne; [done|]. intros Ei. rewrite Ei in Hk. congruence.
  - rewrite map_size_delete_Some by (by eexists). rewrite C4.
    assert (base.size (omx_ifaces s) <> 0%nat) by (apply map_size_ne_0_lookup; by exists k, id). lia.
  - intros n o Hn. destruct (C5 n o Hn) as [? Hx]. split; [done|]. rewrite lookup_delete_ne; [done|]. intros Ei. rewrite <- Ei in Hx. congruence.
  - intros q o Ho. destruct (decide (q = Embedded id)) as [->|Hqi]; [|rewrite Hd in Ho by done; by apply (C6 q)].
    cbn in Ho. destruct (ifaces s' !! id) as [f'|] eqn:Hf'; [|done]. injection Ho as <-. destruct (Eid f' eq_refl) as (_ & -> & _).
    apply (C6 (Embedded id)). cbn. by rewrite Hf.
  - intros x Hx. destruct (C7 x Hx) as [[g Hg] Hlen]. split; [|done]. rewrite Eother by (by apply Hq). by exists g.
Qed.

Lemma iface_release_spec s id f : ifaces s !! id = Some f -> exists ifs', omx_iface_release id s = Some (s <| ifaces := ifs' |>) /\
  (forall j, j <> id -> ifs' !! j = ifaces s !! j) /\ ifs' !! id = if refcount f =? 1 then None else Some (f <| refcount ::= Z.pred |>).
Proof.
  intros Hf. unfold omx_iface_release. rewrite Hf. cbn [mbind option_bind]. destruct (refcount f =? 1); eexists.
  - split; [reflexivity|]. split; [intros j Hj; by rewrite lookup_delete_ne|by rewrite lookup_delete_eq].
  - split; [reflexivity|]. split; [intros j Hj; by rewrite lookup_insert_ne|by rewrite lookup_insert_eq].
Qed.

(** An interface is detached, unless it has endpoints. *)
Lemma iface_detach_kept s k id force : table_ok s -> omx_ifaces s !! k = Some id ->
  (forall x, x ∈ omx_host_query_list s ++ omx_host_reply_list s -> fst x <> id) -> kept s (omx_iface_detach id force s).
Proof.
  intros T Hk Hq. pose proof (t_core _ _ _ T) as C. destruct (attached_in C k id Hk) as (f & Hf & Hik & Harr & Hloc & Hrefs).
  unfold omx_iface_detach. rewrite Hf. cbn [mbind option_bind]. rewrite Hik, Hk, bool_decide_eq_false_2 by done. cbn [bug_on mbind option_bind].
  destruct (negb force && negb (endpoint_nr f =? 0)); [by eexists _, s|]. cbn zeta.
  unfold omx_peers_notify_iface_detach. cbn [deref]. fsimp. rewrite lookup_insert_eq. cbn [mbind option_bind fmap option_fmap option_map]. fsimp.
  destruct (core_entry C _ _ Harr) as (Hir & _). pose proof (t_nr _ _ _ T).
  rewrite (proj2 (Z.eqb_neq _ _)) by (unfold OMX_UNKNOWN_REVERSE_PEER_INDEX; lia).
  unfold hash_del. cbn [deref]. fsimp. rewrite lookup_insert_eq. cbn [mbind option_bind fmap option_fmap option_map]. fsimp.
  assert (Hh : Embedded id ∈ omx_peer_addr_hash_array s (hash_of (peer f))) by (apply (links_hashed (c_links C) _ _ _ Harr); cbn; by rewrite Hf).
  rewrite decide_True by done. cbn [mbind option_bind update]. fsimp.
  match goal with |- context [omx_iface_release id ?t] => set (s1 := t) end.
  assert (Hs1 : ifaces s1 !! id = Some (f <| closing := true |> <| peer ::= fun o => o <| index := OMX_UNKNOWN_REVERSE_PEER_INDEX |> <| local_iface := None |> |>)).
  { unfold s1. fsimp. by rewrite lookup_alter_eq, lookup_insert_eq. }
  assert (Ho1 : forall j, j <> id -> ifaces s1 !! j = ifaces s !! j).
  { intros j Hj. unfold s1. fsimp. by rewrite lookup_alter_ne, lookup_insert_ne by congruence. }
  destruct (iface_release_spec s1 id _ Hs1) as (ifs2 & -> & Ho2 & Hs2). cbn [mbind option_bind]. fsimp.
  rewrite (proj2 (Z.eqb_neq _ _)) in Hs2 by lia.
  match goal with |- context [omx_iface_release id ?t] => set (s2 := t) end.
  destruct (iface_release_spec s2 id _ Hs2) as (ifs3 & -> & Ho3 & Hs3). cbn [mbind option_bind].
  match goal with |- kept s (Some (0, ?t)) => set (s3 := t) end. exists 0, s3. split; [done|].
  assert (E1 : omx_peer_next_nr s3 = omx_peer_next_nr s) by reflexivity.
  split; [rewrite E1|by rewrite E1|exact (t_timer _ _ _ T)|exact (t_full _ _ _ T)].
  apply (core_detach (omx_peer_next_nr s) s k id f); try done.
  - intros j Hj. change (ifs3 !! j = ifaces s !! j). rewrite Ho3 by done. change (ifs2 !! j = ifaces s !! j). rewrite Ho2 by done. by apply Ho1.
  - change (ifaces s3) with ifs3. intros f' Hf'. rewrite Hs3 in Hf'.
    match type of Hf' with (if ?r =? 1 then _ else _) = _ => change r with (Z.pred (refcount f)) in Hf' end.
    destruct (Z.eqb_spec (Z.pred (refcount f)) 1); [done|]. injection Hf' as <-. split_and!; try done.
    match goal with |- 1 <= ?r => change r with (Z.pred (Z.pred (refcount f))) end. lia.
Qed.

(** ** Attaching *)

Lemma core_attach nr nr' s s' k id g : core_ok nr s -> ifaces s !! id = None -> omx_ifaces s !! k = None -> 0 <= k < omx_iface_max ->
  2 <= refcount g -> name_ok (hostname (peer g)) -> hostname (peer g) <> None -> local_iface (peer g) = Some id -> iface_index g = k ->
  index (peer g) <> OMX_UNKNOWN_REVERSE_PEER_INDEX -> same_but_reverse (<[id := g]> (ifaces s)) (ifaces s') ->
  (forall f', ifaces s' !! id = Some f' -> forall i, 0 <= i < omx_peer_max -> is_Some (reverse_peer_indexes f' !! i)) ->
  links (omx_peer_array s') (omx_peer_addr_hash_array s') (omx_host_query_peer_list s') (deref s') nr' ->
  omx_peer_array s' !! index (peer g) = Some (Embedded id) ->
  (forall i j, omx_peer_array s !! i = Some (Embedded j) -> omx_peer_array s' !! i = Some (Embedded j)) ->
  peers_ok (omx_peer_array s') (peers s') -> (forall n, peers s' !! n = peers s !! n \/ peers s' !! n = None) ->
  omx_ifaces s' = <[k := id]> (omx_ifaces s) -> omx_iface_nr s' = Z.succ (omx_iface_nr s) ->
  omx_host_query_list s' = omx_host_query_list s -> omx_host_reply_list s' = omx_host_reply_list s -> core_ok nr' s'.
Proof.
  intros [C1 C2 C3 C4 C5 C6 C7] Hid Hk Hkr Hrefs Hnok Hn Hloc Hgk HU Hsame Hrev L Harr Hemb Hpeers Hsub E6 E7 E8 E9.
  assert (Hother : forall j f', j <> id -> ifaces s' !! j = Some f' -> exists f, ifaces s !! j = Some f /\
    f' = f <| reverse_peer_indexes := reverse_peer_indexes f' |> /\ forall i, is_Some (reverse_peer_indexes f !! i) -> is_Some (reverse_peer_indexes f' !! i)).
  { intros j f' Hj Hf'. destruct (same_lookup_back _ _ _ _ Hsame Hf') as (f & Hf & Hx). rewrite lookup_insert_ne in Hf by done. by exists f. }
  assert (Hkeep : forall j f, ifaces s !! j = Some f -> exists r, ifaces s' !! j = Some (f <| reverse_peer_indexes := r |>)).
  { intros j f Hf. destruct (same_lookup _ _ j f Hsame) as (r & Hr & _); [|by exists r]. rewrite lookup_insert_ne; [done|congruence]. }
  destruct (same_lookup _ _ id g Hsame) as (rg & Hg & _); [apply lookup_insert_eq|].
  split; rewrite ?E6, ?E7, ?E8, ?E9; try done.
  - intros k' id' [[<- <-]|[Hkk Hk']]%lookup_insert_Some; [split; [done|]; eexists; split; [exact Hg|]; by fsimp|].
    destruct (C2 k' id' Hk') as (Hr & f & Hf & Hrest). split; [done|]. destruct (Hkeep id' f Hf) as (r & Hr'). by eexists.
  - intros j f' Hf'. destruct (decide (j = id)) as [->|Hj].
    + assert (f' = g <| reverse_peer_indexes := rg |>) as -> by congruence. split; fsimp; [lia|done|by apply (Hrev _ Hf')|].
      rewrite decide_False by done. rewrite Hgk, lookup_insert_eq. done.
    + destruct (Hother j f' Hj Hf') as (f & Hf & -> & Hx). destruct (C3 j f Hf) as [R1 R2 R3 R4]. split; fsimp; try done.
      * intros i Hi. by apply Hx, R3.
      * case_decide; [done|]. destruct R4 as (Ra & Rb & Rc). split_and!; [by apply Hemb|done|]. rewrite lookup_insert_ne; [done|congruence].
  - rewrite map_size_insert_None by done. lia.
  - intros [n|j] o Ho; cbn in Ho.
    + destruct (Hsub n) as [E|E]; rewrite E in Ho; [|done]. by apply (C6 (Allocated n)).
    + destruct (ifaces s' !! j) as [f'|] eqn:Hf'; [|done]. injection Ho as <-. destruct (decide (j = id)) as [->|Hj].
      * assert (f' = g <| reverse_peer_indexes := rg |>) as -> by congruence. done.
      * destruct (Hother j f' Hj Hf') as (f & Hf & -> & _). fsimp. apply (C6 (Embedded j)). cbn. by rewrite Hf.
  - intros x Hx. destruct (C7 x Hx) as [[f Hf] Hlen]. split; [|done]. destruct (Hkeep _ f Hf) as (r & Hr). by eexists.
Qed.

Lemma free_slot (m : gmap Z positive) n : Z.of_nat (base.size m) < n -> exists i, find (fun i => bool_decide (m !! i = None)) (seqZ 0 n) = Some i /\
  0 <= i < n /\ m !! i = None.
Proof.
  intros Hs. destruct (find _ (seqZ 0 n)) as [i|] eqn:E.
  - apply find_some in E as [Hi%list_elem_of_In%elem_of_seqZ Hb%bool_decide_eq_true]. exists i. split_and!; [done|lia..|done].
  - exfalso. assert (Hsub : list_to_set (seqZ 0 n) ⊆ dom m).
    { intros i Hi%elem_of_list_to_set. apply elem_of_dom. pose proof (find_none _ _ E i (proj1 (list_elem_of_In _ _) Hi)) as Hb. cbn in Hb.
      apply bool_decide_eq_false in Hb. by apply not_eq_None_Some. }
    apply subseteq_size in Hsub. rewrite size_list_to_set in Hsub by apply NoDup_seqZ. rewrite length_seqZ, size_dom in Hsub. lia.
Qed.
Lemma iface_nr_range nr s : core_ok nr s -> 0 <= omx_iface_max -> omx_iface_nr s <> omx_iface_max -> Z.of_nat (base.size (omx_ifaces s)) < omx_iface_max.
Proof.
  intros C H0 Hne. pose proof (c_iface_nr C) as En. assert (Hsub : dom (omx_ifaces s) ⊆ list_to_set (seqZ 0 omx_iface_max)).
  { intros k [id Hk]%elem_of_dom. apply elem_of_list_to_set, elem_of_seqZ. destruct (c_attached C k id Hk). lia. }
  apply subseteq_size in Hsub. rewrite size_list_to_set in Hsub by apply NoDup_seqZ. rewrite length_seqZ, size_dom in Hsub. lia.
Qed.

Lemma find_addr_ext s s' addr l : (forall p, p ∈ l -> deref s' p = deref s p) -> find_addr s' addr l = find_addr s addr l.
Proof.
  induction l as [|p l IH]; intros H; [done|]. cbn. rewrite (H p) by constructor. destruct (deref s p) as [o|]; [|done]. cbn.
  destruct (board_addr o =? addr); [done|]. apply IH. intros q Hq. apply H. by constructor.
Qed.
(** Changes of the new interface do not interfere with the reverse indexes. *)
Lemma same_alter ifs ifs' id f h : same_but_reverse (<[id := f]> ifs) ifs' ->
  (forall f r, h (f <| reverse_peer_indexes := r |>) = (h f) <| reverse_peer_indexes := r |>) ->
  (forall f, reverse_peer_indexes (h f) = reverse_peer_indexes f) -> same_but_reverse (<[id := h f]> ifs) (alter h id ifs').
Proof.
  intros H Hh Hr j. specialize (H j). destruct (decide (j = id)) as [->|Hj].
  - rewrite lookup_insert_eq in *. rewrite lookup_alter_eq. destruct (ifs' !! id) as [f'|]; [|done]. cbn. destruct H as [E Hx].
    split; [|intros i; rewrite !Hr; apply Hx]. rewrite Hr. rewrite E at 1. apply Hh.
  - rewrite lookup_insert_ne in * by done. by rewrite lookup_alter_ne.
Qed.
Lemma reacquire_alter s id : is_Some (ifaces s !! id) -> omx_iface_reacquire id s = Some (s <| ifaces ::= alter (set refcount Z.succ) id |>).
Proof.
  intros [f Hf]. unfold omx_iface_reacquire. rewrite Hf. cbn [mbind option_bind]. f_equal. destruct s. cbv [set set_with s_ifaces s_refcount]. cbn.
  f_equal. cbn in Hf. apply map_eq. intros j. destruct (decide (j = id)) as [->|Hj].
  - by rewrite lookup_insert_eq, lookup_alter_eq, Hf.
  - by rewrite lookup_insert_ne, lookup_alter_ne by congruence.
Qed.
Lemma alter_insert_eq (h : omx_iface -> omx_iface) id f (ifs : gmap positive omx_iface) : alter h id (<[id := f]> ifs) = <[id := h f]> ifs.
Proof.
  apply map_eq. intros j. destruct (decide (j = id)) as [->|Hj].
  - by rewrite lookup_alter_eq, !lookup_insert_eq.
  - by rewrite lookup_alter_ne, !lookup_insert_ne by congruence.
Qed.

(** The interface [id], whose peer has the address [addr] and the name [nm], is
    new in [s]: what [omx_peers_notify_iface_attach] does. *)
Section attach.
Context {s : table} {id : positive} {addr ifp : Z} {nm : list Z}.
Hypothesis (T : table_ok s) (Hid : ifaces s !! id = None) (Hnm : name_ok (Some nm)).
Hypothesis (Haddr : forall k j f, omx_ifaces s !! k = Some j -> ifaces s !! j = Some f -> board_addr (peer f) <> addr).
Let f0 : omx_iface := OmxIface 0 ifp addr (OmxPeer addr (Some nm) OMX_UNKNOWN_REVERSE_PEER_INDEX None) ∅ false 1 0.
Let s0 : table := s <| ifaces ::= <[id := f0]> |>.

(** The new interface at the index [i]. *)
Definition iface_at (name : list Z) (i : Z) : omx_iface := OmxIface 0 ifp addr (OmxPeer addr (Some name) i (Some id)) ∅ false 2 0.
Record attached_as (s' : table) (g : omx_iface) : Prop := AttachedAs {
  at_iface : exists name i, g = iface_at name i /\ 0 <= i < omx_peer_max /\ name_ok (Some name);
  at_same : same_but_reverse (<[id := g]> (ifaces s)) (ifaces s');
  at_reverse f' : ifaces s' !! id = Some f' -> forall i, 0 <= i < omx_peer_max -> is_Some (reverse_peer_indexes f' !! i);
  at_links : links (omx_peer_array s') (omx_peer_addr_hash_array s') (omx_host_query_peer_list s') (deref s') (omx_peer_next_nr s');
  at_nr : 0 <= omx_peer_next_nr s' <= omx_peer_max;
  at_array : omx_peer_array s' !! index (peer g) = Some (Embedded id);
  at_others i j : omx_peer_array s !! i = Some (Embedded j) -> omx_peer_array s' !! i = Some (Embedded j);
  at_peers : peers_ok (omx_peer_array s') (peers s') /\ forall n, peers s' !! n = peers s !! n \/ peers s' !! n = None;
  at_fields : omx_ifaces s' = omx_ifaces s /\ omx_iface_nr s' = omx_iface_nr s /\ omx_host_query_list s' = omx_host_query_list s /\
    omx_host_reply_list s' = omx_host_reply_list s;
  at_timer : timer_ok s';
  at_full : full_ok omx_peer_max s' }.

Lemma deref_s0 q : q <> Embedded id -> deref s0 q = deref s q.
Proof. intros Hq. destruct q as [n|j]; [done|]. unfold s0. cbn. fsimp. rewrite lookup_insert_ne; [done|congruence]. Qed.
Lemma not_embedded i p : omx_peer_array s !! i = Some p -> p <> Embedded id.
Proof. intros Hp ->. destruct (core_entry (t_core _ _ _ T) i _ Hp) as (_ & o & Ho & _). cbn in Ho. by rewrite Hid in Ho. Qed.
Lemma attached_ids j : j ∈ attached omx_iface_max s -> j <> id /\ exists g, ifaces s !! j = Some g /\ 0 <= index (peer g) < omx_peer_max.
Proof.
  intros (k & Hk)%(elem_of_attached (t_core _ _ _ T)). destruct (attached_in (t_core _ _ _ T) k j Hk) as (g & Hg & _ & Hidx & _).
  split; [congruence|]. exists g. split; [done|]. destruct (core_entry (t_core _ _ _ T) _ _ Hidx) as [? _]. pose proof (t_nr _ _ _ T). lia.
Qed.

(** The reverse indexes are set while the interface is [f]. *)
Lemma init_reverse_new t f : ifaces t = <[id := f]> (ifaces s) -> omx_ifaces t = omx_ifaces s -> 0 <= index (peer f) < omx_peer_max ->
  exists ifs', omx_init_iface_reverse_indexes omx_peer_max omx_iface_max id t = Some (t <| ifaces := ifs' |>) /\
    same_but_reverse (<[id := f]> (ifaces s)) ifs' /\
    forall f', ifs' !! id = Some f' -> forall i, 0 <= i < omx_peer_max -> is_Some (reverse_peer_indexes f' !! i).
Proof.
  intros Et Eo Hi. destruct (init_iface_reverse (omx_iface_max := omx_iface_max) t id f) as (ifs' & E & Hs & Hx); [by rewrite Et, lookup_insert_eq|done| |].
  - intros j Hj. unfold attached in Hj. rewrite Eo in Hj. destruct (attached_ids j Hj) as (Hne & g & Hg & Hr). exists g.
    split; [|done]. rewrite Et, lookup_insert_ne; [done|congruence].
  - exists ifs'. rewrite Et in Hs. by split.
Qed.

Lemma deref_embedded s' g j : same_but_reverse (<[id := g]> (ifaces s)) (ifaces s') ->
  deref s' (Embedded j) = if decide (Embedded j = Embedded id) then Some (peer g) else deref s (Embedded j).
Proof.
  intros H. cbn. specialize (H j). destruct (decide (j = id)) as [->|Hj].
  - rewrite decide_True by done. rewrite lookup_insert_eq in H. destruct (ifaces s' !! id) as [f'|]; [|done]. destruct H as [-> _]. done.
  - rewrite decide_False by congruence. rewrite lookup_insert_ne in H by done.
    destruct (ifaces s !! j) as [f|], (ifaces s' !! j) as [f'|]; try done. destruct H as [-> _]. done.
Qed.
Lemma deref_new s' g q : same_but_reverse (<[id := g]> (ifaces s)) (ifaces s') -> peers s' = peers s ->
  deref s' q = if decide (q = Embedded id) then Some (peer g) else deref s q.
Proof. intros H Hp. destruct q as [n|j]; [cbn; by rewrite Hp|by apply deref_embedded]. Qed.

Lemma new_lookup : ifaces s0 !! id = Some f0.
Proof. unfold s0. fsimp. apply lookup_insert_eq. Qed.
Lemma find_addr_s0 : find_addr s0 addr (omx_peer_addr_hash_array s0 (Peer.omx_peer_addr_hash addr)) =
  find_addr s addr (omx_peer_addr_hash_array s (Peer.omx_peer_addr_hash addr)).
Proof.
  apply find_addr_ext. intros p Hp. apply (l_hash _ _ _ _ _ (c_links (t_core _ _ _ T))) in Hp as (i & o & Hi & _).
  by apply deref_s0, (not_embedded i).
Qed.

(** At a new index. *)
Lemma attach_new : (forall i p o, omx_peer_array s !! i = Some p -> deref s p = Some o -> board_addr o <> addr) ->
  omx_peer_next_nr s <> omx_peer_max -> find_addr s addr (omx_peer_addr_hash_array s (Peer.omx_peer_addr_hash addr)) = Some None ->
  exists s', omx_peers_notify_iface_attach omx_peer_max omx_iface_max id s0 = Some (0, s') /\ attached_as s' (iface_at nm (omx_peer_next_nr s)).
Proof.
  intros Ha Hne Hfind. pose proof (t_nr _ _ _ T) as Hr. pose proof (t_core _ _ _ T) as C. set (nr := omx_peer_next_nr s) in *.
  unfold omx_peers_notify_iface_attach. rewrite new_lookup. cbn [mbind option_bind]. cbn zeta. change (board_addr (peer f0)) with addr.
  rewrite find_addr_s0, Hfind. cbn [mbind option_bind]. change (omx_peer_next_nr s0) with nr. rewrite (proj2 (Z.eqb_neq _ _)) by done.
  set (f1 := f0 <| peer ::= fun o => o <| local_iface := Some id |> <| index := nr |> |>).
  match goal with |- context [omx_init_iface_reverse_indexes _ _ _ ?t] => set (s1 := t) end.
  assert (E1 : ifaces s1 = <[id := f1]> (ifaces s)) by apply alter_insert_eq.
  destruct (init_reverse_new s1 f1 E1 eq_refl) as (ifs' & -> & Hs & Hx); [change (0 <= nr < omx_peer_max); lia|]. cbn [mbind option_bind].
  assert (Hif : is_Some (ifs' !! id)) by (destruct (same_lookup _ _ _ _ Hs (lookup_insert_eq _ _ _)) as (r & E & _); by eexists).
  rewrite reacquire_alter by exact Hif. cbn [mbind option_bind].
  match goal with |- exists s', Some (0, ?t) = _ /\ _ => set (s2 := t) end. exists s2. split; [done|].
  assert (Hsame : same_but_reverse (<[id := iface_at nm nr]> (ifaces s)) (ifaces s2)).
  { apply (same_alter (ifaces s) ifs' id f1 (set refcount Z.succ)) in Hs; [|by intros []|by intros []]. exact Hs. }
  assert (Hd : forall q, deref s2 q = if decide (q = Embedded id) then Some (OmxPeer addr (Some nm) nr (Some id)) else deref s q).
  { intros q. by rewrite (deref_new s2 (iface_at nm nr) q Hsame eq_refl). }
  split; try done.
  - exists nm, nr. split_and!; try done; lia.
  - intros f' Hf'. change (alter (set refcount Z.succ) id ifs' !! id = Some f') in Hf'. rewrite lookup_alter_eq in Hf'.
    destruct (ifs' !! id) as [f2|] eqn:E2; [|done]. injection Hf' as <-. by apply (Hx f2).
  - change (omx_peer_next_nr s2) with (Z.succ nr). replace (Z.succ nr) with (nr + 1) by lia.
    apply (links_insert (c_links C) (Embedded id) (OmxPeer addr (Some nm) nr (Some id)) (deref s2)); try done; [by intros i ?%not_embedded|..].
    + by rewrite Hd, decide_True.
    + lia.
    + intros q Hq. by rewrite Hd, decide_False.
  - change (omx_peer_next_nr s2) with (Z.succ nr). lia.
  - change (omx_peer_array s2) with (<[nr := Embedded id]> (omx_peer_array s)). apply lookup_insert_eq.
  - intros i j Hi. change (omx_peer_array s2) with (<[nr := Embedded id]> (omx_peer_array s)). rewrite lookup_insert_ne; [done|].
    destruct (core_entry C i _ Hi) as [? _]. lia.
  - split; [|by left]. intros n o Hn. destruct (c_peers C n o Hn) as [? Hx']. split; [done|].
    change (omx_peer_array s2) with (<[nr := Embedded id]> (omx_peer_array s)). rewrite lookup_insert_ne; [done|].
    destruct (core_entry C _ _ Hx') as [? _]. lia.
  - exact (t_timer _ _ _ T).
  - destruct (t_full _ _ _ T) as [F1 F2]. split; [exact F1|]. intros F. by destruct Hne, F2.
Qed.

(** In the place of a remote peer, with its name if it has one. *)
Lemma attach_replace i n o : omx_peer_array s !! i = Some (Allocated n) -> peers s !! n = Some o -> board_addr o = addr ->
  exists s', replace_peer omx_peer_max omx_iface_max (Allocated n) id s0 = Some s' /\
    attached_as s' (iface_at (match hostname o with Some name => name | None => nm end) i).
Proof.
  intros Hi Ho Haddr'. pose proof (t_nr _ _ _ T) as Hr. pose proof (t_core _ _ _ T) as C.
  destruct (core_entry C i _ Hi) as (Hir & o' & Ho' & Hoi). cbn in Ho'. assert (o' = o) as -> by congruence.
  set (name := match hostname o with Some name => name | None => nm end).
  unfold replace_peer. cbn [deref]. change (peers s0) with (peers s). rewrite Ho, new_lookup. cbn [mbind option_bind bug_on].
  rewrite bool_decide_eq_false_2 by (cbn; tauto). cbn [bug_on mbind option_bind]. rewrite Hoi.
  rewrite reacquire_alter by (rewrite new_lookup; by eexists). cbn [mbind option_bind].
  set (f1 := f0 <| refcount ::= Z.succ |> <| peer ::= set index (fun _ => i) |>).
  match goal with |- context [omx_init_iface_reverse_indexes _ _ _ ?t] => set (s1 := t) end.
  assert (E1 : ifaces s1 = <[id := f1]> (ifaces s)).
  { change (alter (set peer (set index (fun _ => i))) id (alter (set refcount Z.succ) id (<[id := f0]> (ifaces s))) = <[id := f1]> (ifaces s)).
    by rewrite !alter_insert_eq. }
  destruct (init_reverse_new s1 f1 E1 eq_refl) as (ifs' & -> & Hs & Hx); [change (0 <= i < omx_peer_max); lia|]. cbn [mbind option_bind].
  apply (same_alter (ifaces s) ifs' id f1 (set peer (set local_iface (fun _ => Some id)))) in Hs; [|by intros []|by intros []].
  assert (Hh : Allocated n ∈ omx_peer_addr_hash_array s (Peer.omx_peer_addr_hash addr)) by (rewrite <- Haddr'; by apply (links_hashed (c_links C) i)).
  (* the state after the names *)
  match goal with |- exists s', (_ ← match hostname o with Some _ => Some (_ (update _ _ ?t)) | None => _ end; _) = _ /\ _ => set (s2 := t) end.
  assert (Hq : exists s3, match hostname o with
      | Some nm => Some (update (Allocated n) (set hostname (fun _ => None)) (update (Embedded id) (set hostname (fun _ => Some nm)) s2))
      | None => query_del (Allocated n) s2 end = Some s3 /\ omx_peer_array s3 = omx_peer_array s /\ omx_peer_addr_hash_array s3 = omx_peer_addr_hash_array s /\
      omx_host_query_peer_list s3 = remove_elt (Allocated n) (omx_host_query_peer_list s) /\ delete n (peers s3) = delete n (peers s) /\
      is_Some (peers s3 !! n) /\ same_but_reverse (<[id := iface_at name i]> (ifaces s)) (ifaces s3) /\
      (forall f', ifaces s3 !! id = Some f' -> forall k, 0 <= k < omx_peer_max -> is_Some (reverse_peer_indexes f' !! k)) /\
      omx_ifaces s3 = omx_ifaces s /\ omx_iface_nr s3 = omx_iface_nr s /\ omx_host_query_list s3 = omx_host_query_list s /\
      omx_host_reply_list s3 = omx_host_reply_list s /\ omx_peer_next_nr s3 = omx_peer_next_nr s /\ timer_ok s3 /\ full_ok omx_peer_max s3).
  { assert (Hx2 : forall f', alter (set peer (set local_iface (fun _ => Some id))) id ifs' !! id = Some f' ->
        forall k, 0 <= k < omx_peer_max -> is_Some (reverse_peer_indexes f' !! k)).
    { intros f'. rewrite lookup_alter_eq. destruct (ifs' !! id) as [f2|] eqn:E2; [|done]. intros [= <-]. by apply (Hx f2). }
    destruct (hostname o) as [nm'|] eqn:Eh.
    - eexists. split; [done|]. split_and!; try done.
      + symmetry. apply remove_elt_notin. apply (links_named (c_links C) i _ o Hi Ho). congruence.
      + apply map_eq. intros m. change (delete n (alter (set hostname (fun _ => None)) n (peers s)) !! m = delete n (peers s) !! m).
        destruct (decide (m = n)) as [->|Hm]; [by rewrite !lookup_delete_eq|by rewrite !lookup_delete_ne, lookup_alter_ne by congruence].
      + change (is_Some (alter (set hostname (fun _ => None)) n (peers s) !! n)). rewrite lookup_alter_eq, Ho. by eexists.
      + apply (same_alter _ _ id _ (set peer (set hostname (fun _ => Some nm')))) in Hs; [|by intros []|by intros []]. exact Hs.
      + intros f' Hf'. change (alter (set peer (set hostname (fun _ => Some nm'))) id (alter (set peer (set local_iface (fun _ => Some id))) id ifs') !! id = Some f') in Hf'.
        rewrite lookup_alter_eq in Hf'. destruct (alter (set peer (set local_iface (fun _ => Some id))) id ifs' !! id) as [f2|] eqn:E2; [|done].
        injection Hf' as <-. by apply (Hx2 f2).
      + exact (t_timer _ _ _ T).
      + exact (t_full _ _ _ T).
    - destruct (query_del_spec s2 (Allocated n)) as (b & -> & Ht2); [by apply (listed s i _ o T)|]. eexists. split; [done|]. split_and!; try done.
      + apply Ht2; [done..|]. exact (t_timer _ _ _ T).
      + exact (t_full _ _ _ T). }
  destruct Hq as (s3 & -> & A1 & A2 & A3 & A4 & A5 & A6 & A7 & A8 & A9 & A10 & A11 & A12 & A13 & A14). cbn [mbind option_bind].
  unfold hash_replace. change (board_addr (peer f0)) with addr. rewrite A2, decide_True by done. cbn [mbind option_bind].
  destruct A5 as [o3 Ho3].
  match goal with |- exists s', free_peer _ ?t = _ /\ _ => assert (Hfree : free_peer (Allocated n) t = Some (t <| peers ::= delete n |>)) end.
  { unfold free_peer. match goal with |- (_ ← ?m; _) = _ => change m with (peers s3 !! n) end. by rewrite Ho3. }
  rewrite Hfree. match goal with |- exists s', Some ?t = _ /\ _ => set (s4 := t) end. exists s4. split; [done|].
  assert (B1 : omx_peer_array s4 = <[i := Embedded id]> (omx_peer_array s)) by (rewrite <- A1; reflexivity).
  assert (B2 : peers s4 = delete n (peers s)) by (rewrite <- A4; reflexivity).
  assert (Hd : forall q, q <> Allocated n -> deref s4 q = if decide (q = Embedded id) then Some (OmxPeer addr (Some name) i (Some id)) else deref s q).
  { intros q Hq. destruct q as [m|j].
    - cbn. rewrite B2, lookup_delete_ne by congruence. done.
    - exact (deref_embedded s3 (iface_at name i) j A6). }
  split; try done.
  - exists name, i. split_and!; try done; [lia|lia|]. unfold name. destruct (hostname o) as [nm'|] eqn:Eh; [|done].
    rewrite <- Eh. apply (c_names C (Allocated n)). cbn. done.
  - change (omx_peer_next_nr s4) with (omx_peer_next_nr s3). rewrite A12, B1. change (omx_host_query_peer_list s4) with (omx_host_query_peer_list s3). rewrite A3.
    pose proof (links_replace (c_links C) i (Allocated n) (Embedded id) o (OmxPeer addr (Some name) i (Some id)) (deref s4) Hi Ho) as L.
    rewrite Haddr' in L. change (omx_peer_addr_hash_array s4) with
      (<[Peer.omx_peer_addr_hash addr := (fun p => if decide (p = Allocated n) then Embedded id else p) <$>
         omx_peer_addr_hash_array s (Peer.omx_peer_addr_hash addr)]> (omx_peer_addr_hash_array s3)).
    rewrite A2. apply L; try done.
    + by intros j ?%not_embedded.
    + by rewrite Hd, decide_True.
    + intros q Hq1 Hq2. by rewrite Hd, decide_False.
  - change (omx_peer_next_nr s4) with (omx_peer_next_nr s3). by rewrite A12.
  - rewrite B1. apply lookup_insert_eq.
  - intros k j Hk. rewrite B1, lookup_insert_ne; [done|]. intros ->. congruence.
  - split.
    + intros m om. rewrite B1, B2. intros [Hm Hom]%lookup_delete_Some. destruct (c_peers C m om Hom) as [? Hx']. split; [done|].
      rewrite lookup_insert_ne; [done|]. intros Ei. rewrite <- Ei in Hx'. congruence.
    + intros m. rewrite B2. destruct (decide (m = n)) as [->|Hm]; [right; apply lookup_delete_eq|left; by apply lookup_delete_ne].
Qed.
End attach.

(** An interface is attached, if there is room for it. *)
Lemma iface_attach_kept s kmalloc name ifp addr : table_ok s -> 0 <= omx_iface_max -> (forall i, name_ok (Some (name i))) ->
  (forall id, kmalloc = Some id -> ifaces s !! id = None) ->
  (forall k j f, omx_ifaces s !! k = Some j -> ifaces s !! j = Some f -> board_addr (peer f) <> addr) ->
  kept s (omx_iface_attach omx_peer_max omx_iface_max kmalloc name ifp addr s).
Proof.
  intros T H0 Hname Hk Ha. pose proof (t_core _ _ _ T) as C. unfold omx_iface_attach.
  destruct (Z.eqb_spec (omx_iface_nr s) omx_iface_max) as [|Hne]; [by eexists _, s|].
  destruct (existsb _ _); [by eexists _, s|].
  destruct (free_slot (omx_ifaces s) omx_iface_max) as (k & -> & Hkr & Hfree); [by eapply iface_nr_range|]. cbn [mbind option_bind].
  destruct kmalloc as [id|]; [|by eexists _, s]. specialize (Hk id eq_refl). cbn zeta.
  match goal with |- context [omx_peers_notify_iface_attach _ _ _ ?t] => set (s0 := t) end.
  destruct (find_addr_spec C addr) as (found & Hfind & Hfound).
  pose proof (new_lookup (s := s) (id := id) (addr := addr) (ifp := ifp) (nm := name k)) as Hnew. fold s0 in Hnew.
  pose proof (find_addr_s0 (addr := addr) (ifp := ifp) (nm := name k) T Hk) as Hs0. fold s0 in Hs0. rewrite Hfind in Hs0.
  assert (Hout : omx_peers_notify_iface_attach omx_peer_max omx_iface_max id s0 = Some (ENOMEM, set_full s0) /\ omx_peer_next_nr s = omx_peer_max \/
    exists s' g, omx_peers_notify_iface_attach omx_peer_max omx_iface_max id s0 = Some (0, s') /\ attached_as (s := s) (id := id) (addr := addr) (ifp := ifp) s' g).
  { destruct found as [p|].
    - right. destruct Hfound as (i & o & Hi & Ho & Hao). destruct p as [n|j].
      + destruct (attach_replace (ifp := ifp) T Hk (Hname k) i n o Hi Ho Hao) as (s' & E & A). fold s0 in E. exists s'. eexists. split; [|exact A].
        unfold omx_peers_notify_iface_attach. rewrite Hnew. cbn [mbind option_bind]. cbn zeta.
        match goal with |- context [find_addr _ ?a _] => change a with addr end.
        rewrite Hs0. cbn [mbind option_bind]. by rewrite E.
      + exfalso. cbn in Ho. destruct (ifaces s !! j) as [f|] eqn:Hf; [|done]. injection Ho as <-.
        pose proof (if_peer _ _ _ _ _ (c_ifaces C j f Hf)) as Hp. pose proof (entry_index (c_links C) i (Embedded j) (peer f) Hi) as Hx.
        cbn in Hx. rewrite Hf in Hx. specialize (Hx eq_refl). destruct (core_entry C i _ Hi) as [Hr _]. pose proof (t_nr _ _ _ T).
        rewrite decide_False in Hp by (unfold OMX_UNKNOWN_REVERSE_PEER_INDEX; lia). destruct Hp as (_ & _ & Hp). by apply (Ha _ _ _ Hp Hf).
    - destruct (decide (omx_peer_next_nr s = omx_peer_max)) as [Hfull|Hnf].
      + left. split; [|done]. unfold omx_peers_notify_iface_attach. rewrite Hnew. cbn [mbind option_bind]. cbn zeta.
        match goal with |- context [find_addr _ ?a _] => change a with addr end.
        rewrite Hs0. cbn [mbind option_bind]. change (omx_peer_next_nr s0) with (omx_peer_next_nr s).
        by rewrite (proj2 (Z.eqb_eq _ _)).
      + right. destruct (attach_new (ifp := ifp) T Hk (Hname k) Hfound Hnf Hfind) as (s' & E & A). fold s0 in E. exists s'. eexists. split; [exact E|exact A]. }
  destruct Hout as [[-> Hfull]|(s' & g & -> & A)]; cbn [mbind option_bind].
  - change (ENOMEM <? 0) with true. cbn iota. exists ENOMEM. eexists. split; [done|].
    match goal with |- table_ok ?t => set (s1 := t) end.
    apply (table_ext s); try done; [|exact (t_timer _ _ _ T)|split; [apply set_full_bit|done]].
    change (ifaces s1) with (delete id (<[id := OmxIface 0 ifp addr (OmxPeer addr (Some (name k)) OMX_UNKNOWN_REVERSE_PEER_INDEX None) ∅ false 1 0]> (ifaces s))).
    by apply delete_insert_id.
  - change (0 <? 0) with false. cbn iota. exists 0. eexists. split; [done|].
    match goal with |- table_ok ?t => set (s1 := t) end. destruct A as [(nm & i & -> & Hir & Hnm) A2 A3 A4 A5 A6 A7 [A8 A8'] (A9 & A10 & A11 & A12) A13 A14].
    assert (E1 : ifaces s1 = alter (set iface_index (fun _ => k)) id (ifaces s')) by reflexivity.
    split; [|exact A5|exact A13|exact A14]. change (omx_peer_next_nr s1) with (omx_peer_next_nr s').
    apply (core_attach (omx_peer_next_nr s) (omx_peer_next_nr s') s s1 k id (set iface_index (fun _ => k) (iface_at (id := id) (addr := addr) (ifp := ifp) nm i))); try done.
    + unfold OMX_UNKNOWN_REVERSE_PEER_INDEX. change (i <> 4294967295). lia.
    + rewrite E1. apply same_alter; [exact A2|by intros []|by intros []].
    + intros f'. rewrite E1, lookup_alter_eq. destruct (ifaces s' !! id) as [f2|] eqn:E2; [|done]. intros [= <-]. by apply (A3 f2).
    + apply (links_agree A4). intros j q _. destruct q as [n|j']; [done|]. cbn. rewrite E1. destruct (decide (j' = id)) as [->|Hj].
      * rewrite lookup_alter_eq. by destruct (ifaces s' !! id).
      * by rewrite lookup_alter_ne.
    + change (omx_ifaces s1) with (<[k := id]> (omx_ifaces s')). by rewrite A9.
    + change (omx_iface_nr s1) with (Z.succ (omx_iface_nr s')). by rewrite A10.
Qed.
End ifaces.
End PeerIfaces.
