(* ===== verification/PeerSpec.v ===== *)
(** What the peer table does: no sequence of operations breaks it, the packet
    handlers find in it what it holds, and a query gets its answer. *)
From S2P Require Import Prelude Peer Wire Host Pull SendMsg RecvMsg Crossing PeerTable PeerInv PeerOps PeerSafe PeerSteps PeerIfaces.

Module PeerSpec.
Import Wire PeerTable PeerInv PeerOps PeerSafe PeerSteps PeerIfaces.

(** ** Sequences of operations *)

(** The operations with what the environment gives them: the results of the
    allocations, the commands, the packets. *)
Inductive op :=
  | Add (strdup : bool) (kmalloc : option positive) (skbs : nat) (addr : Z) (name : option (list Z))
  | Clear
  | ClearNames (skbs : Z -> nat)
  | SetHostname (strdup : bool) (board_index : Z) (name : list Z)
  | SetState (allowed : bool) (state : omx_cmd_peer_table_state)
  | Timer
  | QueryWork (skbs : peer_ptr -> nat)
  | RecvQuery (iface : positive) (skb : list Z)
  | RecvReply (iface : positive) (skb : list Z)
  | Process (kmalloc : list Z -> option (list Z)) (alloc : list Z -> bool)
  | Attach (kmalloc : option positive) (name : Z -> list Z) (ifp addr : Z)
  | Detach (iface : positive) (force : bool).

Section spec.
Context {omx_peer_max omx_iface_max : Z} {Hmax : peer_max_ok omx_peer_max} {order : ByteOrder} (junk : nat -> Z).
Hypothesis (Hifmax : 0 <= omx_iface_max).
#[local] Notation table_ok := (table_ok omx_peer_max omx_iface_max).

Definition void (r : option table) : option (Z * table) := s ← r; Some (0, s).
Definition exec (o : op) (s : table) : option (Z * table) :=
  match o with
  | Add strdup kmalloc skbs addr name => omx_peer_add omx_peer_max omx_iface_max junk strdup kmalloc skbs addr name s
  | Clear => void (omx_peers_clear omx_peer_max false s)
  | ClearNames skbs => void (omx_peers_clear_names omx_peer_max omx_iface_max junk skbs s)
  | SetHostname strdup i name => omx_iface_set_hostname omx_iface_max strdup i name s
  | SetState allowed state => Some (omx_peer_table_set_state allowed state s)
  | Timer => Some (0, omx_host_query_timer_handler s)
  | QueryWork skbs => void (omx_host_query_workfunc omx_iface_max junk skbs s)
  | RecvQuery iface skb => omx_recv_host_query iface skb s
  | RecvReply iface skb => omx_recv_host_reply iface skb s
  | Process kmalloc alloc => void (omx_process_host_queries_and_replies_workfunc omx_peer_max junk kmalloc alloc s)
  | Attach kmalloc name ifp addr => omx_iface_attach omx_peer_max omx_iface_max kmalloc name ifp addr s
  | Detach iface force => omx_iface_detach iface force s
  end.

(** When an operation can happen: names that commands bring have at most 79
    bytes; allocations are fresh; packets come through live interfaces with
    whole headers; the addresses of interfaces differ; an interface is detached
    once the work is done with its packets.  The replies have a length that the
    driver does not check. *)
Definition op_ok (o : op) (s : table) : Prop :=
  match o with
  | Add _ kmalloc _ _ name => name_ok name /\ forall n, kmalloc = Some n -> peers s !! n = None
  | SetHostname _ _ name => name_ok (Some name)
  | RecvQuery iface skb | RecvReply iface skb => is_Some (ifaces s !! iface) /\ (HOST_HDR <= length skb)%nat
  | Process kmalloc _ => forall x, x ∈ omx_host_reply_list s -> reply_ok (kmalloc (snd x)) (snd x)
  | Attach kmalloc name _ addr => (forall i, name_ok (Some (name i))) /\ (forall id, kmalloc = Some id -> ifaces s !! id = None) /\
      forall k j f, omx_ifaces s !! k = Some j -> ifaces s !! j = Some f -> board_addr (peer f) <> addr
  | Detach iface _ => (exists k, omx_ifaces s !! k = Some iface) /\
      forall x, x ∈ omx_host_query_list s ++ omx_host_reply_list s -> fst x <> iface
  | _ => True
  end.
Inductive reachable : table -> Prop :=
  | reach_init magic : reachable (omx_peers_init magic)
  | reach_step o s v s' : reachable s -> op_ok o s -> exec o s = Some (v, s') -> reachable s'.

Lemma init_table_ok magic : table_ok (omx_peers_init magic).
Proof.
  pose proof (peer_max_range (omx_peer_max := omx_peer_max)). split; [|cbn; lia|intros H0; by destruct H0|by split].
  split; cbn; try done.
  - split; cbn; try done.
    + intros h. constructor.
    + intros h p. split; [intros Hp; by apply not_elem_of_nil in Hp|by intros (i & o & ? & _)].
    + constructor.
    + intros p. split; [intros Hp; by apply not_elem_of_nil in Hp|by intros (i & o & ? & _)].
  - intros [n|i] o; done.
  - intros x Hx. by apply not_elem_of_nil in Hx.
Qed.
Lemma void_kept s r : (exists s', r = Some s' /\ table_ok s') -> kept (omx_peer_max := omx_peer_max) (omx_iface_max := omx_iface_max) s (void r).
Proof. intros (s' & -> & T). by exists 0, s'. Qed.
Lemma exec_kept o s : table_ok s -> op_ok o s -> kept (omx_peer_max := omx_peer_max) (omx_iface_max := omx_iface_max) s (exec o s).
Proof.
  intros T H. destruct o; cbn [exec]; cbn in H.
  - destruct H. by apply peer_add_kept.
  - apply void_kept. destruct (peers_clear_kept s T) as (s' & E & T' & _). by exists s'.
  - apply void_kept. by apply clear_names_kept.
  - by apply set_hostname_kept.
  - destruct (omx_peer_table_set_state allowed state s) as [v s'] eqn:E. exists v, s'. split; [done|].
    pose proof (set_state_kept s allowed state T) as T'. by rewrite E in T'.
  - eexists _, _. split; [done|]. by apply timer_handler_kept.
  - apply void_kept. by apply query_workfunc_kept.
  - destruct H. by apply recv_query_kept.
  - destruct H. by apply recv_reply_kept.
  - apply void_kept. by apply process_work_kept.
  - destruct H as (H1 & H2 & H3). by apply iface_attach_kept.
  - destruct H as ((k & Hk) & H2). by eapply iface_detach_kept.
Qed.
Lemma reachable_ok s : reachable s -> table_ok s.
Proof.
  induction 1 as [magic|o s v s' Hr IH Ho E]; [apply init_table_ok|]. destruct (exec_kept o s IH Ho) as (v' & s2 & E2 & T). congruence.
Qed.

Lemma run_reachable o s : reachable s -> op_ok o s -> reachable (match exec o s with Some (_, s') => s' | None => s end).
Proof.
  intros Hr Ho. destruct (exec_kept o s (reachable_ok s Hr) Ho) as (v & s' & E & _). rewrite E. by apply (reach_step o s v s').
Qed.

(** C5. The peer table stays well formed: in every state that the operations reach
    when each of them is [op_ok], the array, the hash lists and the list of queries
    hold the same peers, indexes and addresses are unique, no peer is lost or
    dangling, and the next operation that is [op_ok] runs to its end.  [op_ok]
    excludes what the driver does not prevent and what breaks the table: a reply
    with an empty name (omx_peer.c:980) or one of more than 80 bytes (:671), an
    interface whose address another interface has (:408), and the detachment of an
    interface with a query or a reply that the work has not processed (:900).  It
    asks besides for names of at most 79 bytes in commands, fresh allocations, whole
    headers of packets, and packets and detachments of interfaces that are
    attached. *)
Theorem peer_table_well_formed s o : reachable s -> op_ok o s -> table_ok s /\ is_Some (exec o s).
Proof.
  intros Hr Ho. pose proof (reachable_ok s Hr) as T. split; [done|]. destruct (exec_kept o s T Ho) as (v & s' & -> & _). by eexists.
Qed.

(** ** Lookups *)

(** What the handlers of packets see of the table through an interface. *)
Definition view (f : omx_iface) (s : table) : Peer.peers := {|
  Peer.omx_peer_array := omap (fun p => board_addr <$> deref s p) (omx_peer_array s);
  Peer.omx_peer_max := omx_peer_max;
  Peer.omx_peer_addr_hash_array := fun h => omap (fun p => (fun o => (index o, board_addr o)) <$> deref s p) (omx_peer_addr_hash_array s h);
  Peer.reverse_peer_indexes := fun i => default OMX_UNKNOWN_REVERSE_PEER_INDEX (reverse_peer_indexes f !! i) |}.

Lemma copy_hostname_ok name : name_ok name -> copy_hostname name = Some (default [] name).
Proof. destruct name as [l|]; [|done]. intros H. cbn. by rewrite (proj2 (Z.ltb_lt _ _)) by (by apply H). Qed.
Lemma lookup_index s i : table_ok s -> 0 <= i -> omx_peer_lookup_by_index omx_peer_max i s = Some
  match omx_peer_array s !! i ≫= deref s with Some o => inr (board_addr o, default [] (hostname o)) | None => inl PeerTable.EINVAL end.
Proof.
  intros T Hi. unfold omx_peer_lookup_by_index. pose proof (t_core _ _ _ T) as C. pose proof (t_nr _ _ _ T). destruct (Z.leb_spec omx_peer_max i) as [Hm|Hm].
  - destruct (omx_peer_array s !! i) as [p|] eqn:Hp; [|done]. destruct (core_entry C i p Hp) as [? _]. lia.
  - destruct (omx_peer_array s !! i) as [p|] eqn:Hp; [|done]. cbn [mbind option_bind]. destruct (core_entry C i p Hp) as (_ & o & Ho & _).
    rewrite Ho. cbn [mbind option_bind]. by rewrite copy_hostname_ok by (by apply (c_names C p)).
Qed.
Lemma lookup_addr s addr : table_ok s -> exists r, omx_peer_lookup_by_addr addr s = Some r /\
  match r with
  | inr (i, name) => exists p o, omx_peer_array s !! i = Some p /\ deref s p = Some o /\ board_addr o = addr /\ name = default [] (hostname o)
  | inl err => err = PeerTable.EINVAL /\ forall i p o, omx_peer_array s !! i = Some p -> deref s p = Some o -> board_addr o <> addr
  end.
Proof.
  intros T. pose proof (t_core _ _ _ T) as C. unfold omx_peer_lookup_by_addr, omx_peer_lookup_by_addr_locked.
  destruct (find_addr_spec C addr) as (r & -> & Hr). cbn [mbind option_bind]. destruct r as [p|]; [|by eexists].
  destruct Hr as (i & o & Hi & Ho & Ha). rewrite Ho. cbn [mbind option_bind]. rewrite copy_hostname_ok by (by apply (c_names C p)).
  cbn [mbind option_bind]. eexists. split; [done|]. exists p, o. split_and!; try done. by rewrite (entry_index (c_links C) i p o).
Qed.
Lemma view_hash s f addr : table_ok s -> exists r, omx_peer_lookup_by_addr addr s = Some r /\
  Peer.omx_peer_lookup_by_addr_locked (view f s) addr = match r with inr (i, _) => Some (i, addr) | inl _ => None end.
Proof.
  intros T. destruct (lookup_addr s addr T) as (r & E & Hr). exists r. split; [done|]. clear E.
  pose proof (t_core _ _ _ T) as C. unfold Peer.omx_peer_lookup_by_addr_locked. cbn.
  assert (Hin : forall x, x ∈ omap (fun p => (fun o => (index o, board_addr o)) <$> deref s p) (omx_peer_addr_hash_array s (Peer.omx_peer_addr_hash addr)) ->
    exists i p o, x = (i, board_addr o) /\ omx_peer_array s !! i = Some p /\ deref s p = Some o).
  { intros x (p & Hp & Hx)%list_elem_of_omap. destruct (deref s p) as [o|] eqn:Ho; [|done]. injection Hx as <-.
    apply (l_hash _ _ _ _ _ (c_links C)) in Hp as (i & o' & Hi & Ho' & _). assert (o' = o) as -> by congruence.
    exists i, p, o. by rewrite (entry_index (c_links C) i p o). }
  destruct (find _ _) as [[i a]|] eqn:Ef.
  - apply find_some in Ef as [Hx%list_elem_of_In Ea%Z.eqb_eq]. cbn in Ea. subst a. destruct (Hin _ Hx) as (i' & p & o & [= <- Ea] & Hi & Ho).
    destruct r as [err|[i' name]]; [by destruct (proj2 Hr i p o)|]. destruct Hr as (p' & o' & Hi' & Ho' & Ha & _).
    by rewrite (l_addr _ _ _ _ _ (c_links C) i i' p p' o o') by congruence.
  - destruct r as [err|[i name]]; [done|]. exfalso. destruct Hr as (p & o & Hi & Ho & Ha & _).
    pose proof (find_none _ _ Ef (i, addr)) as Hn. cbn in Hn. rewrite Z.eqb_refl in Hn. enough (true = false) by done. apply Hn, list_elem_of_In, list_elem_of_omap.
    exists p. split; [rewrite <- Ha; by apply (links_hashed (c_links C) i)|]. rewrite Ho. cbn. by rewrite (entry_index (c_links C) i p o), Ha.
Qed.

(** C23. The lookups agree: the peer of an address is at index [i] exactly if
    the peer at index [i] has that address, with the same name, and the packet
    handlers find the same peers and reach the same addresses. *)
Theorem peer_lookups_agree s f addr i name : table_ok s -> 0 <= i ->
  (omx_peer_lookup_by_addr addr s = Some (inr (i, name)) <-> omx_peer_lookup_by_index omx_peer_max i s = Some (inr (addr, name))) /\
  (Peer.omx_peer_lookup_by_addr_locked (view f s) addr = Some (i, addr) <->
     exists name, omx_peer_lookup_by_index omx_peer_max i s = Some (inr (addr, name))) /\
  (Peer.omx_set_target_peer (view f s) i = inr (addr, default OMX_UNKNOWN_REVERSE_PEER_INDEX (reverse_peer_indexes f !! i)) <->
     exists name, omx_peer_lookup_by_index omx_peer_max i s = Some (inr (addr, name))) /\
  is_Some (omx_peer_lookup_by_addr addr s) /\ is_Some (omx_peer_lookup_by_index omx_peer_max i s).
Proof.
  intros T Hi. pose proof (t_core _ _ _ T) as C. destruct (lookup_addr s addr T) as (r & E & Hr).
  destruct (view_hash s f addr T) as (r' & E' & Hv). assert (r' = r) as -> by congruence. clear E'.
  assert (Hback : forall name', omx_peer_lookup_by_index omx_peer_max i s = Some (inr (addr, name')) <-> r = inr (i, name')).
  { intros name'. rewrite lookup_index by done. split.
    - destruct (omx_peer_array s !! i) as [p|] eqn:Hp; [|done]. cbn [mbind option_bind]. destruct (deref s p) as [o|] eqn:Ho; [|done].
      intros [= Ha Hn]. destruct r as [err|[j nm]]; [by destruct (proj2 Hr i p o)|]. destruct Hr as (p' & o' & Hi' & Ho' & Ha' & ->).
      assert (j = i) as -> by (by apply (l_addr _ _ _ _ _ (c_links C) j i p' p o' o); congruence). congruence.
    - intros ->. destruct Hr as (p & o & Hp & Ho & Ha & Hn). rewrite Hp. cbn [mbind option_bind]. rewrite Ho. by rewrite Ha, Hn. }
  assert (Hr' : (exists name', omx_peer_lookup_by_index omx_peer_max i s = Some (inr (addr, name'))) <-> exists name', r = inr (i, name')).
  { split; intros (n & Hn); exists n; by apply Hback. }
  split_and!; [| | |by eexists|rewrite lookup_index by done; by eexists].
  - rewrite Hback, E. split; [by intros [= ->]|by intros ->].
  - rewrite Hr', Hv. destruct r as [err|[j nm]]; [split; [done|by intros (? & ?)]|]. split; [intros [= ->]; by eexists|by intros (n & [= -> _])].
  - rewrite Hr'. unfold Peer.omx_set_target_peer. cbn. rewrite lookup_omap. pose proof (t_nr _ _ _ T). destruct (Z.leb_spec omx_peer_max i) as [Hm|Hm].
    + split; [done|]. intros (n & ->). destruct Hr as (p & o & Hp & _). destruct (core_entry C i p Hp). lia.
    + rewrite <- Hr'. rewrite lookup_index by done. destruct (omx_peer_array s !! i) as [p|] eqn:Hp; cbn [mbind option_bind].
      * destruct (deref s p) as [o|]; cbn; [|split; [done|by intros (? & ?)]]. split; [intros [= ->]; by eexists|by intros (n & [= -> _])].
      * split; [done|by intros (? & ?)].
Qed.
End spec.

(** ** A table *)

(** One interface, of address 0x0a, and a remote peer, of address 0x0b. *)
Section sample.
Context (addr remote : Z) (name : list Z).
#[export] Instance max_4 : peer_max_ok 4. Proof. unfold peer_max_ok. lia. Defined.
Definition sample_op1 : op := Attach (Some 1%positive) (fun _ => name) 5 addr.
Definition sample_op2 : op := Add true (Some 9%positive) 0 remote None.
Definition sample_exec (o : op) (s : table) : table :=
  match exec (omx_peer_max := 4) (omx_iface_max := 2) (order := false) (fun _ => 0) o s with Some (_, s') => s' | None => s end.
Definition sample1 : table := sample_exec sample_op1 (omx_peers_init 7).
Definition sample2 : table := sample_exec sample_op2 sample1.
Hypothesis (Hname : name_ok (Some name)).
Lemma sample1_reachable : reachable (omx_peer_max := 4) (omx_iface_max := 2) (order := false) (fun _ => 0) sample1.
Proof.
  apply run_reachable; [done|apply reach_init|]. split; [done|]. split; [done|]. intros k j f Hk. exfalso. cbn in Hk. by rewrite lookup_empty in Hk.
Qed.
Lemma sample2_reachable : peers sample1 = ∅ -> reachable (omx_peer_max := 4) (omx_iface_max := 2) (order := false) (fun _ => 0) sample2.
Proof. intros E. apply run_reachable; [done|apply sample1_reachable|]. split; [done|]. intros n _. by rewrite E. Qed.
End sample.
Lemma sample_name : name_ok (Some [97]).
Proof. by intros l [= <-]. Qed.
Lemma sampleA_ok : table_ok 4 2 (sample2 10 11 [97]).
Proof. apply (reachable_ok (order := false) (fun _ => 0)); [done|]. by apply sample2_reachable; [apply sample_name|vm_compute]. Qed.

Lemma peer_table_well_formed_witness : table_ok 4 2 (sample1 10 [97]) /\
  is_Some (exec (omx_peer_max := 4) (omx_iface_max := 2) (order := false) (fun _ => 0) (sample_op2 11) (sample1 10 [97])).
Proof.
  apply (peer_table_well_formed (omx_peer_max := 4) (omx_iface_max := 2) (order := false) (fun _ => 0)); [done| |].
  - apply sample1_reachable, sample_name.
  - split; [done|]. intros n [= <-]. by vm_compute.
Defined.
Lemma peer_lookups_agree_witness :
  omx_peer_lookup_by_addr 11 (sample2 10 11 [97]) = Some (inr (1, [])) /\
  exists name, omx_peer_lookup_by_index 4 1 (sample2 10 11 [97]) = Some (inr (11, name)).
Proof.
  split; [by vm_compute|]. exists []. apply (peer_lookups_agree (omx_iface_max := 2) (sample2 10 11 [97])
    (OmxIface 0 0 0 (OmxPeer 0 None 0 None) ∅ false 0 0) 11 1 []); [apply sampleA_ok|done|by vm_compute].
Defined.
End PeerSpec.
