(* ===== verification/PeerQuery.v ===== *)
(** A query for the name of a host and its answer, between two hosts. *)
From S2P Require Import Prelude Peer Wire Host PeerTable PeerInv PeerOps PeerSafe PeerSteps PeerIfaces PeerSpec.
From S2P Require Crossing.

Module PeerQuery.
Import Wire PeerTable PeerInv PeerOps PeerSafe PeerSteps.

(** ** Frames *)

Section frames.
Context {order : ByteOrder} (junk : nat -> Z).

(** What [omx_peer_host_query] sends through the interface of address [src]. *)
Definition query_frame (magic : Z) (o : omx_peer) (src : Z) : list Z :=
  fill_ethhdr src (omx_board_addr_to_ethhdr_dst (board_addr o)
    (fill [(ptype, OMX_PKT_TYPE_HOST_QUERY); (host_src_dst_peer_index, u16 (index o)); (host_magic, u32 magic)]
       (Host.omx_new_skb junk ETH_ZLEN))).
(** What is sent back: [j] is the index of the peer that asked. *)
Definition reply_frame (name : list Z) (src : Z) (j : Z) (skb : list Z) : list Z :=
  put_bytes 0 (take 6 (drop 6 skb)) (fill_ethhdr src (put_bytes HOST_HDR (name ++ [0]) (put_bytes 24 (take 4 (drop 24 skb))
    (fill [(ptype, OMX_PKT_TYPE_HOST_REPLY); (reply_length, u8 (Z.of_nat (S (length name)))); (host_src_dst_peer_index, u16 j)]
       (Host.omx_new_skb junk (ETH_ZLEN + S (length name))))))).

Lemma get_field_ethhdr f src p : (14 <= f_off f)%nat -> get_field f (fill_ethhdr src p) = get_field f p.
Proof. intros H. unfold fill_ethhdr. rewrite !get_field_after; [done|..]; rewrite length_rev, length_le_bytes; lia. Qed.
Lemma length_put_bytes off l (p : list Z) : length (put_bytes off l p) = length p.
Proof. apply length_inserts. Qed.
Lemma length_query_frame magic o src : length (query_frame magic o src) = ETH_ZLEN.
Proof. unfold query_frame, omx_board_addr_to_ethhdr_dst. by rewrite Crossing.Crossing.length_fill_ethhdr, length_put_bytes, length_fill, Host.length_new_skb. Qed.
Lemma query_frame_fields magic o src f v : assigned f [(ptype, OMX_PKT_TYPE_HOST_QUERY); (host_src_dst_peer_index, u16 (index o)); (host_magic, u32 magic)] = Some v ->
  (14 <= f_off f)%nat -> (f_off f + f_size f <= ETH_ZLEN)%nat -> get_field f (query_frame magic o src) = Some (v mod width (f_size f)).
Proof.
  intros Ha Hf Hl. unfold query_frame, omx_board_addr_to_ethhdr_dst. rewrite get_field_ethhdr by done.
  rewrite get_field_after by (rewrite length_rev, length_le_bytes; lia). apply get_fill; [by rewrite Host.length_new_skb|done].
Qed.
Lemma query_frame_dst magic o src : take 6 (query_frame magic o src) = rev (le_bytes 6 (board_addr o)).
Proof.
  unfold query_frame. rewrite Crossing.Crossing.fill_ethhdr_dest. unfold omx_board_addr_to_ethhdr_dst, put_bytes.
  set (l := rev _). assert (Hl : length l = 6%nat) by (unfold l; by rewrite length_rev, length_le_bytes). rewrite <- (drop_0 (list_inserts _ _ _)), <- Hl at 1.
  apply slice_inserts_same. rewrite length_fill, Host.length_new_skb. unfold ETH_ZLEN. lia.
Qed.
Lemma query_frame_src magic o src : omx_board_addr_from_ethhdr_src (query_frame magic o src) = src mod 2 ^ 48.
Proof.
  apply Crossing.Crossing.source_fill_ethhdr. unfold omx_board_addr_to_ethhdr_dst.
  rewrite length_put_bytes, length_fill, Host.length_new_skb. unfold ETH_ZLEN. lia.
Qed.

Section reply.
Context (name : list Z) (src j : Z) (skb : list Z).
Hypothesis (Hskb : length skb = ETH_ZLEN).
#[local] Notation len := (S (length name)).
Lemma length_reply_frame : length (reply_frame name src j skb) = (ETH_ZLEN + len)%nat.
Proof. unfold reply_frame. by rewrite length_put_bytes, Crossing.Crossing.length_fill_ethhdr, !length_put_bytes, length_fill, Host.length_new_skb. Qed.
Lemma length_dst : length (take 6 (drop 6 skb)) = 6%nat.
Proof. rewrite length_take, length_drop, Hskb. unfold ETH_ZLEN. lia. Qed.
Lemma length_magic : length (take 4 (drop 24 skb)) = 4%nat.
Proof. rewrite length_take, length_drop, Hskb. unfold ETH_ZLEN. lia. Qed.
Lemma reply_frame_fields f v :
  assigned f [(ptype, OMX_PKT_TYPE_HOST_REPLY); (reply_length, u8 (Z.of_nat len)); (host_src_dst_peer_index, u16 j)] = Some v ->
  (14 <= f_off f)%nat -> (f_off f + f_size f <= 24)%nat -> get_field f (reply_frame name src j skb) = Some (v mod width (f_size f)).
Proof.
  intros Ha Hf Hl. unfold reply_frame. rewrite get_field_after by (rewrite length_dst; lia). rewrite get_field_ethhdr by done.
  rewrite !get_field_bytes by (unfold HOST_HDR, HEAD; lia). apply get_fill; [|done]. rewrite Host.length_new_skb. unfold ETH_ZLEN. lia.
Qed.
Lemma reply_frame_magic : get_field host_magic (reply_frame name src j skb) = get_field host_magic skb.
Proof.
  unfold reply_frame. rewrite get_field_after by (rewrite length_dst; cbn; lia). rewrite get_field_ethhdr by (cbn; lia).
  rewrite get_field_bytes by (cbn; lia). unfold get_field, put_bytes. cbn [f_off f_size host_magic].
  rewrite length_inserts, length_fill, Host.length_new_skb, Hskb. unfold ETH_ZLEN.
  rewrite (proj2 (Nat.leb_le _ _)) by lia. change (Nat.leb (24 + 4) 60) with true. cbn iota.
  pose proof length_magic as Hm. set (m := take 4 (drop 24 skb)) in *.
  match goal with |- context [list_inserts 24 m ?p] => assert (E : take (length m) (drop 24 (list_inserts 24 m p)) = m) end.
  { apply slice_inserts_same. rewrite length_fill, Host.length_new_skb. unfold ETH_ZLEN. lia. }
  rewrite Hm in E. by rewrite E.
Qed.
Lemma reply_frame_src : omx_board_addr_from_ethhdr_src (reply_frame name src j skb) = src mod 2 ^ 48.
Proof.
  unfold reply_frame. transitivity (omx_board_addr_from_ethhdr_src (fill_ethhdr src (put_bytes HOST_HDR (name ++ [0]) (put_bytes 24 (take 4 (drop 24 skb))
    (fill [(ptype, OMX_PKT_TYPE_HOST_REPLY); (reply_length, u8 (Z.of_nat len)); (host_src_dst_peer_index, u16 j)]
       (Host.omx_new_skb junk (ETH_ZLEN + len))))))).
  - unfold omx_board_addr_from_ethhdr_src. do 2 f_equal. unfold put_bytes at 1. apply slice_inserts_ne. right. rewrite length_dst. lia.
  - apply Crossing.Crossing.source_fill_ethhdr. rewrite !length_put_bytes, length_fill, Host.length_new_skb. unfold ETH_ZLEN. lia.
Qed.
Lemma reply_frame_name : take len (drop HOST_HDR (reply_frame name src j skb)) = name ++ [0].
Proof.
  unfold reply_frame, fill_ethhdr. unfold put_bytes at 1 2 3.
  rewrite !slice_inserts_ne by (rewrite ?length_dst, ?length_rev, ?length_le_bytes; unfold HOST_HDR, HEAD; lia).
  assert (Hl : length (name ++ [0]) = len) by (rewrite length_app; cbn; lia). rewrite <- Hl. unfold put_bytes at 1. apply slice_inserts_same.
  rewrite length_put_bytes, length_fill, Host.length_new_skb. unfold HOST_HDR, HEAD, ETH_ZLEN. lia.
Qed.
End reply.

Lemma cstring_name name mem : Forall (fun b => b <> 0) name -> take (S (length name)) mem = name ++ [0] ->
  cstring (<[length name := 0]> (take (S (length name)) mem)) = name.
Proof.
  intros H ->. rewrite list_insert_id by (by rewrite lookup_app_r, Nat.sub_diag by lia).
  induction H as [|b l Hb Hl IH]; [done|]. cbn. rewrite (proj2 (Z.eqb_neq _ _)) by done. by rewrite IH.
Qed.

(** ** The steps *)

Section steps.
Context {omx_peer_max omx_iface_max : Z} {Hmax : peer_max_ok omx_peer_max}.
#[local] Notation table_ok := (table_ok omx_peer_max omx_iface_max).

Lemma find_addr_exact s i p o : table_ok s -> omx_peer_array s !! i = Some p -> deref s p = Some o ->
  omx_peer_lookup_by_addr_locked (board_addr o) s = Some (Some p).
Proof.
  intros T Hi Ho. pose proof (t_core _ _ _ T) as C. unfold omx_peer_lookup_by_addr_locked.
  destruct (find_addr_spec C (board_addr o)) as (r & -> & Hr). destruct r as [p'|]; [|by destruct (Hr i p o)].
  destruct Hr as (i' & o' & Hi' & Ho' & Ha). do 2 f_equal.
  assert (i' = i) as -> by (by apply (l_addr _ _ _ _ _ (c_links C) i' i p' p o' o)). congruence.
Qed.
Lemma set_reverse_index_exact s i p o id f v : table_ok s -> omx_peer_array s !! i = Some p -> deref s p = Some o -> ifaces s !! id = Some f ->
  exists ifs' f', omx_peer_set_reverse_index omx_peer_max p id v s = Some (s <| ifaces := ifs' |>) /\ same_but_reverse (ifaces s) ifs' /\
    ifs' !! id = Some f' /\ reverse_peer_indexes f' !! i = Some v.
Proof.
  intros T Hi Ho Hf. pose proof (t_core _ _ _ T) as C. unfold omx_peer_set_reverse_index. rewrite Ho, Hf. cbn [mbind option_bind].
  destruct (core_entry C i p Hi) as (Hr & o' & Ho' & Hx). assert (o' = o) as -> by congruence. pose proof (t_nr _ _ _ T). rewrite Hx.
  destruct (if_reverse _ _ _ _ _ (c_ifaces C id f Hf) i) as [old Hold]; [lia|]. rewrite Hold. cbn [mbind option_bind].
  destruct (Z.eqb_spec v old) as [->|Hv]; [exists (ifaces s), f; split_and!; [by destruct s|reflexivity|done..]|].
  destruct (set_reverse_spec s id f i v Hf) as (ifs' & E & H' & f' & Hf' & Er); [lia|]. exists ifs', f'. split_and!; try done.
  rewrite Er. apply lookup_insert_eq.
Qed.

Lemma host_query_one s a f p o n : attached omx_iface_max s = [a] -> ifaces s !! a = Some f -> deref s p = Some o ->
  omx_peer_host_query omx_iface_max junk (S (S n)) p s =
    Some (s <| sent := sent s ++ [query_frame (omx_host_query_magic s) o (dev_addr f)] |>).
Proof.
  intros Ha Hf Ho. unfold omx_peer_host_query. rewrite Ho. cbn [mbind option_bind]. rewrite Ha. cbn [take for_each]. rewrite take_nil. rewrite Hf. done.
Qed.

Lemma process_query_exact s b f j q o name skb v : table_ok s -> ifaces s !! b = Some f -> hostname (peer f) = Some name ->
  omx_peer_array s !! j = Some q -> deref s q = Some o -> omx_board_addr_from_ethhdr_src skb = board_addr o ->
  get_field host_src_dst_peer_index skb = Some v ->
  exists ifs' f', process_host_query omx_peer_max junk true b skb s =
      Some (s <| ifaces := ifs' |> <| sent := sent s ++ [reply_frame name (dev_addr f) j skb] |>) /\
    table_ok (s <| ifaces := ifs' |>) /\ ifs' !! b = Some f' /\ reverse_peer_indexes f' !! j = Some v.
Proof.
  intros T Hf Hn Hj Ho Ha Hv. pose proof (t_core _ _ _ T) as C. unfold process_host_query. rewrite Hf. cbn [mbind option_bind]. rewrite Hn. cbn [mbind option_bind].
  rewrite Hv. cbn [mbind option_bind]. rewrite Ha, (find_addr_exact s j q o T Hj Ho). cbn [mbind option_bind].
  destruct (set_reverse_index_exact s j q o b f v T Hj Ho Hf) as (ifs' & f' & -> & Hs & Hf' & Hr). cbn [mbind option_bind negb].
  pose proof (table_reverse s ifs' T Hs) as T'. destruct (core_entry (t_core _ _ _ T') j q Hj) as (_ & o' & Ho' & Hx).
  rewrite Ho'. cbn [mbind option_bind]. rewrite Hx. exists ifs', f'. by split_and!.
Qed.

(** The queries that wait are not looked at. *)
Lemma set_reverse_queries p id v s s' : omx_peer_set_reverse_index omx_peer_max p id v s = Some s' -> omx_host_query_list s' = omx_host_query_list s.
Proof.
  unfold omx_peer_set_reverse_index, set_reverse. intros H. repeat (case_match || (apply bind_Some in H as (? & ? & H))); congruence || by injection H as <-.
Qed.
Lemma query_del_queries p s s' : query_del p s = Some s' -> omx_host_query_list s' = omx_host_query_list s.
Proof. unfold query_del. intros H. repeat case_match; try done; by injection H as <-. Qed.
Lemma process_reply_queries kmalloc a skb s s' : process_host_reply omx_peer_max kmalloc a skb s = Some s' -> omx_host_query_list s' = omx_host_query_list s.
Proof.
  unfold process_host_reply. intros (found & _ & H)%bind_Some. destruct found as [p|]; [|by injection H as <-].
  apply bind_Some in H as (o & _ & H). apply bind_Some in H as (len & _ & H). destruct kmalloc as [mem|]; [|by injection H as <-].
  apply bind_Some in H as (name & _ & H). apply bind_Some in H as (s1 & H1 & H). apply bind_Some in H as (v & _ & H).
  apply set_reverse_queries in H. rewrite H. transitivity (omx_host_query_list s1); [by destruct p|].
  destruct (hostname o); [by injection H1 as <-|by apply query_del_queries in H1].
Qed.

Lemma process_reply_exact s a f i p o name mem skb v : table_ok s -> ifaces s !! a = Some f -> omx_peer_array s !! i = Some p ->
  deref s p = Some o -> omx_board_addr_from_ethhdr_src skb = board_addr o -> get_field reply_length skb = Some (Z.of_nat (S (length name))) ->
  get_field host_src_dst_peer_index skb = Some v -> take (S (length name)) (drop HOST_HDR skb) = name ++ [0] ->
  (HOST_HDR + S (length name) <= length skb)%nat -> Forall (fun b => b <> 0) name -> name_ok (Some name) ->
  exists s' f' o', process_host_reply omx_peer_max (Some mem) a skb s = Some s' /\ table_ok s' /\ deref s' p = Some o' /\
    hostname o' = Some name /\ p ∉ omx_host_query_peer_list s' /\ ifaces s' !! a = Some f' /\ reverse_peer_indexes f' !! i = Some v.
Proof.
  intros T Hf Hi Ho Ha Hl Hv Hname Hlen Hz Hok. pose proof (t_core _ _ _ T) as C. unfold process_host_reply.
  rewrite Ha, (find_addr_exact s i p o T Hi Ho). cbn [mbind option_bind]. rewrite Ho. cbn [mbind option_bind]. rewrite Hl. cbn [mbind option_bind].
  rewrite Nat2Z.id. assert (En : new_hostname mem (S (length name)) skb = Some name).
  { unfold new_hostname. rewrite (proj2 (Nat.leb_le _ _)) by done. f_equal. by apply cstring_name. }
  rewrite En. cbn [mbind option_bind].
  destruct (rename_peer_spec s i p o (Some name) T Hi Ho Hok) as (b & s1 & E1 & T1 & Ea & Eif & _ & Hd); [done|].
  assert (Es : (s ← (if hostname o then Some s else query_del p s); Some (update p (set hostname (fun _ => Some name)) s)) = Some s1).
  { unfold rename_peer in E1. rewrite Ho in E1. cbn [mbind option_bind] in E1. destruct (hostname o); cbn [mbind option_bind] in E1 |- *; [congruence|].
    destruct (query_del p s); cbn [mbind option_bind] in E1 |- *; congruence. }
  destruct (if hostname o then Some s else query_del p s) as [s0|]; [|done]. cbn [mbind option_bind] in Es |- *.
  injection Es as ->. rewrite Hv. cbn [mbind option_bind].
  assert (Hf1 : exists f1, ifaces s1 !! a = Some f1).
  { rewrite Eif. destruct p as [m|k]; cbn [update]; fsimp; [by eexists|]. destruct (decide (a = k)) as [->|Hk].
    - rewrite lookup_alter_eq, Hf. by eexists.
    - rewrite lookup_alter_ne by congruence. by eexists. }
  destruct Hf1 as [f1 Hf1]. rewrite <- Ea in Hi.
  destruct (set_reverse_index_exact s1 i p _ a f1 v T1 Hi Hd Hf1) as (ifs' & f' & -> & Hs & Hf' & Hr).
  pose proof (table_reverse s1 ifs' T1 Hs) as T'. destruct (core_entry (t_core _ _ _ T') i p Hi) as (_ & o' & Ho' & _).
  assert (Hh : hostname o' = Some name).
  { destruct p as [m|k]; cbn in Ho', Hd.
    - fsimp. assert (o' = set hostname (fun _ => Some name) o) as -> by congruence. done.
    - destruct (ifaces s1 !! k) as [g|] eqn:Hg; [|done]. destruct (same_lookup _ _ _ _ Hs Hg) as (r & Hg' & _). fsimp. rewrite Hg' in Ho'.
      injection Ho' as <-. fsimp. injection Hd as Hd. by rewrite Hd. }
  eexists _, f', o'. split; [done|]. split_and!; try done.
  intros (k & o2 & Hk & Ho2 & Hn2)%(l_query _ _ _ _ _ (c_links (t_core _ _ _ T'))). congruence.
Qed.
End steps.
End frames.

(** ** The exchange *)

Section exchange.
Context {maxA ifmaxA maxB ifmaxB : Z} {HA : peer_max_ok maxA} {HB : peer_max_ok maxB} {order : ByteOrder} (junkA junkB : nat -> Z).

(** C22. A query gets its answer: when host A asks the host B for its name,
    B learns the index it has at A and replies, and the reply gives A the name
    of B's interface and the index A has at B; A asks no more. *)
Theorem host_query_answered sA sB a b fa fb p q o oq i j name n mem kmalloc alloc :
  table_ok maxA ifmaxA sA -> table_ok maxB ifmaxB sB ->
  attached ifmaxA sA = [a] -> ifaces sA !! a = Some fa -> ifaces sB !! b = Some fb ->
  omx_peer_array sA !! i = Some p -> deref sA p = Some o -> hostname o = None -> board_addr o = dev_addr fb ->
  omx_peer_array sB !! j = Some q -> deref sB q = Some oq -> board_addr oq = dev_addr fa ->
  hostname (peer fb) = Some name -> Forall (fun b => b <> 0) name ->
  0 <= dev_addr fa < 2 ^ 48 -> 0 <= dev_addr fb < 2 ^ 48 -> 0 <= omx_host_query_magic sA < 2 ^ 32 ->
  omx_host_query_list sA = [] -> omx_host_reply_list sA = [] -> omx_host_query_list sB = [] -> omx_host_reply_list sB = [] ->
  exists query reply sA1 sB1 sB2 sA2 sA3,
    omx_peer_host_query ifmaxA junkA (S (S n)) p sA = Some sA1 /\ sent sA1 = sent sA ++ [query] /\
    omx_recv_host_query b query sB = Some (0, sB1) /\
    omx_process_host_queries_and_replies_workfunc maxB junkB kmalloc (fun _ => true) sB1 = Some sB2 /\ sent sB2 = sent sB ++ [reply] /\
    omx_recv_host_reply a reply sA1 = Some (0, sA2) /\
    omx_process_host_queries_and_replies_workfunc maxA junkA (fun _ => Some mem) alloc sA2 = Some sA3 /\
    (exists o' fa', deref sA3 p = Some o' /\ hostname o' = Some name /\ p ∉ omx_host_query_peer_list sA3 /\
       ifaces sA3 !! a = Some fa' /\ reverse_peer_indexes fa' !! i = Some j) /\
    (exists fb', ifaces sB2 !! b = Some fb' /\ reverse_peer_indexes fb' !! j = Some i).
Proof.
  intros TA TB Hatt Hfa Hfb Hi Ho Hn Hao Hj Hq Haq Hname Hz Hra Hrb Hmagic E1 E2 E3 E4.
  pose proof (t_nr _ _ _ TA). pose proof (t_nr _ _ _ TB). pose proof (peer_max_range (omx_peer_max := maxA)). pose proof (peer_max_range (omx_peer_max := maxB)).
  destruct (core_entry (t_core _ _ _ TA) i p Hi) as (Hir & o2 & Ho2 & Hoi). assert (o2 = o) as -> by congruence. clear Ho2.
  destruct (core_entry (t_core _ _ _ TB) j q Hj) as (Hjr & o2 & Ho2 & Hoj). clear o2 Ho2 Hoj.
  assert (Hok : name_ok (Some name)) by (rewrite <- Hname; apply (c_names (t_core _ _ _ TB) (Embedded b)); cbn; by rewrite Hfb).
  pose proof (Hok name eq_refl) as Hlen. unfold OMX_HOSTNAMELEN_MAX in Hlen.
  set (query := query_frame junkA (omx_host_query_magic sA) o (dev_addr fa)).
  set (reply := reply_frame junkB name (dev_addr fb) j query).
  assert (Hql : length query = ETH_ZLEN) by apply length_query_frame.
  assert (Hqi : get_field host_src_dst_peer_index query = Some i).
  { unfold query. rewrite (query_frame_fields junkA _ o _ host_src_dst_peer_index (u16 (index o))); [|done|cbn; lia|cbn; unfold ETH_ZLEN; lia].
    rewrite Hoi, u16_small by lia. cbn [f_size host_src_dst_peer_index]. change (width 2) with 65536. by rewrite Z.mod_small by lia. }
  assert (Hqm : get_field host_magic query = Some (omx_host_query_magic sA)).
  { unfold query. rewrite (query_frame_fields junkA _ o _ host_magic (u32 (omx_host_query_magic sA))); [|done|cbn; lia|cbn; unfold ETH_ZLEN; lia].
    rewrite u32_small by lia. cbn [f_size host_magic]. change (width 4) with 4294967296. by rewrite Z.mod_small by lia. }
  destruct (process_query_exact (omx_peer_max := maxB) (omx_iface_max := ifmaxB) junkB (sB <| omx_host_reply_list := [] |> <| omx_host_query_list := [] |>) b fb j q oq name query i)
    as (ifs' & fb' & EB & TB' & Hfb' & Hrev); try done.
  { apply (table_ext sB); try done; [apply TB|apply TB]. }
  { unfold query. rewrite query_frame_src, Z.mod_small by lia. done. }
  destruct (process_reply_exact (omx_peer_max := maxA) (omx_iface_max := ifmaxA) (sA <| sent := sent sA ++ [query] |> <| omx_host_reply_list := [] |>) a fa i p o name mem reply j)
    as (sA3 & fa' & o' & EA & TA' & Ho' & Hh' & Hp' & Hfa' & Hrev'); try done.
  { apply (table_ext sA); try done; [apply TA|apply TA]. }
  { unfold reply. rewrite reply_frame_src by done. rewrite Z.mod_small by lia. done. }
  { unfold reply. rewrite (reply_frame_fields junkB name _ j query Hql reply_length (u8 (Z.of_nat (S (length name))))); [|done|cbn; lia|cbn; lia].
    unfold u8. cbn [f_size reply_length]. change (width 1) with 256. by rewrite Z.mod_mod, Z.mod_small by lia. }
  { unfold reply. rewrite (reply_frame_fields junkB name _ j query Hql host_src_dst_peer_index (u16 j)); [|done|cbn; lia|cbn; lia].
    rewrite u16_small by lia. cbn [f_size host_src_dst_peer_index]. change (width 2) with 65536. by rewrite Z.mod_small by lia. }
  { by apply reply_frame_name. }
  { unfold reply. rewrite length_reply_frame. unfold HOST_HDR, HEAD, ETH_ZLEN. lia. }
  exists query, reply. do 5 eexists. split; [by apply (host_query_one junkA sA a fa p o n)|]. split; [done|].
  split.
  { unfold omx_recv_host_query. rewrite Hfb. cbn [mbind option_bind]. rewrite bool_decide_eq_false_2; [done|].
    unfold query. rewrite query_frame_dst, Hao. tauto. }
  split.
  { unfold omx_process_host_queries_and_replies_workfunc. fsimp. rewrite E4. cbn [for_each mbind option_bind]. fsimp. rewrite E3. cbn [app for_each mbind option_bind fst snd].
    match goal with |- (_ ← ?r; Some _) = _ => replace r with (process_host_query maxB junkB true b query (sB <| omx_host_reply_list := [] |> <| omx_host_query_list := [] |>)) by (by destruct sB) end.
    rewrite EB. reflexivity. }
  split; [done|]. split.
  { unfold omx_recv_host_reply. fsimp. unfold reply. rewrite reply_frame_magic by done. rewrite Hqm. cbn [mbind option_bind]. by rewrite Z.eqb_refl. }
  split.
  { unfold omx_process_host_queries_and_replies_workfunc. fsimp. rewrite E2. cbn [app for_each mbind option_bind fst snd].
    match goal with |- (_ ← (_ ← ?r; Some _); _) = _ => replace r with (Some sA3) by (rewrite <- EA; by destruct sA) end. cbn [mbind option_bind].
    apply process_reply_queries in EA. fsimp. rewrite EA, E1. cbn [for_each]. reflexivity. }
  split; [|exists fb'; by split].
  exists o', fa'. split_and!; try done; by destruct p.
Qed.
End exchange.

#[local] Existing Instance PeerSpec.max_4.
Lemma sampleB_ok : table_ok 4 2 (PeerSpec.sample2 11 10 [98]).
Proof.
  apply (PeerSpec.reachable_ok (order := false) (fun _ => 0)); [done|]. apply PeerSpec.sample2_reachable; [by intros l [= <-]|by vm_compute].
Qed.
(** Host A (0x0a) asks host B (0x0b), whose interface is named "b". *)
Lemma host_query_answered_witness : exists sA3 o', deref sA3 (Allocated 9) = Some o' /\ hostname o' = Some [98] /\
  Allocated 9 ∉ omx_host_query_peer_list sA3.
Proof.
  destruct (host_query_answered (ifmaxA := 2) (ifmaxB := 2) (order := false) (fun _ => 0) (fun _ => 0) (PeerSpec.sample2 10 11 [97]) (PeerSpec.sample2 11 10 [98]) 1 1
    (default (OmxIface 0 0 0 (OmxPeer 0 None 0 None) ∅ false 0 0) (ifaces (PeerSpec.sample2 10 11 [97]) !! 1%positive))
    (default (OmxIface 0 0 0 (OmxPeer 0 None 0 None) ∅ false 0 0) (ifaces (PeerSpec.sample2 11 10 [98]) !! 1%positive))
    (Allocated 9) (Allocated 9) (OmxPeer 11 None 1 None) (OmxPeer 10 None 1 None) 1 1 [98] 0 [0; 0] (fun _ => None) (fun _ => true))
    as (query & reply & sA1 & sB1 & sB2 & sA2 & sA3 & _ & _ & _ & _ & _ & _ & _ & (o' & fa' & H1 & H2 & H3 & _) & _).
  - apply PeerSpec.sampleA_ok.
  - apply sampleB_ok.
  - by vm_compute.
  - by vm_compute.
  - by vm_compute.
  - by vm_compute.
  - by vm_compute.
  - done.
  - by vm_compute.
  - by vm_compute.
  - by vm_compute.
  - by vm_compute.
  - by vm_compute.
  - by repeat constructor.
  - split; [apply Z.leb_le|apply Z.ltb_lt]; by vm_compute.
  - split; [apply Z.leb_le|apply Z.ltb_lt]; by vm_compute.
  - split; [apply Z.leb_le|apply Z.ltb_lt]; by vm_compute.
  - by vm_compute.
  - by vm_compute.
  - by vm_compute.
  - by vm_compute.
  - by exists sA3, o'.
Defined.
End PeerQuery.
