(* ===== verification/Shared.v ===== *)
(** Messages between the endpoints of a host ([driver/linux/omx_shared.c]): the
    commands whose target is an interface of this host do not go through the
    network; the sender's system call reports their events itself. *)
From S2P Require Import Prelude Io Segments World Event Peer Reg RegTable RegShared Pull Wire Host SendMsg RecvMsg PeerTable.
Import Mem Io Host.

Module Shared.

#[local] Existing Instances Pull.e_driver Pull.s_d_regions Pull.s_endpoint_refcount.
#[local] Existing Instances RegTable.e_regions RegTable.s_heap RegTable.s_put_pages.
Definition EINVAL : Z := -22.
Definition ENOMEM : Z := -12.
Definition EFAULT : Z := -14.
Definition OMX_NACK_TYPE_NONE : Z := 0.

(** ** The host and its endpoints *)

(** An endpoint: the address of its interface, and its index there. *)
Notation endpoint_id := (positive * Z)%type.
(** The table of peers with the interfaces, the endpoints of the interfaces, the
    memory, and how many blocks are allocated for messages. *)
Record node := Node { nd_table : PeerTable.table; endpoints : gmap endpoint_id host; nd_mem : mem; kmallocs : Z }.
#[export] Instance e_node : Settable node := fun nd => Node (nd_table nd) (endpoints nd) (nd_mem nd) (kmallocs nd).
#[export] Instance s_endpoints : Setter endpoints. Proof. mk_setter. Defined.
#[export] Instance s_nd_mem : Setter nd_mem. Proof. mk_setter. Defined.
#[export] Instance s_kmallocs : Setter kmallocs. Proof. mk_setter. Defined.

Definition put (id : endpoint_id) (h : host) (nd : node) : node := nd <| endpoints ::= <[id := h]> |>.
Definition on (id : endpoint_id) (f : host -> host) (nd : node) : node := nd <| endpoints ::= alter f id |>.
Definition release (id : endpoint_id) (nd : node) : node := on id RecvMsg.release nd.
Definition reacquire (h : host) : host := h <| drv ::= Pull.omx_endpoint_reacquire |>.
Definition allocated (n : Z) (nd : node) : node := nd <| kmallocs ::= fun k => k + n |>.

Section shared.
(** The sizes of the arrays of peers and of endpoints. *)
Context (omx_peer_max omx_endpoint_max : Z).

(* [driver/linux/omx_dev.c:339-377] omx_endpoint_acquire_by_iface_index *)
Definition omx_endpoint_acquire_by_iface_index (iface : positive) (index : Z) (nd : node) : Z + endpoint_id * node :=
  let index := u8 index in
  if omx_endpoint_max <=? index then inl EINVAL
  else
    match endpoints nd !! (iface, index) with
    | None => inl Pull.ENOENT
    | Some h => if negb (Pull.endpoint_ok (drv h)) then inl Pull.ENOENT
                else inr ((iface, index), put (iface, index) (reacquire h) nd)
    end.
(** [Some None] is a null pointer: the peer is not local. *)
(* [driver/linux/omx_peer.c:520-549] omx_local_peer_acquire_endpoint *)
Definition omx_local_peer_acquire_endpoint (peer_index endpoint_index : Z) (nd : node)
    : option (option (Z + endpoint_id * node)) :=
  if omx_peer_max <=? peer_index then Some None
  else
    match PeerTable.omx_peer_array (nd_table nd) !! peer_index with
    | None => Some None
    | Some p =>
        o ← PeerTable.deref (nd_table nd) p;
        match PeerTable.local_iface o with
        | None => Some None
        | Some iface => Some (Some (omx_endpoint_acquire_by_iface_index iface endpoint_index nd))
        end
    end.

(** The index of the peer that the sender's interface is. *)
Definition peer_index_of (src : endpoint_id) (nd : node) : option Z :=
  f ← PeerTable.ifaces (nd_table nd) !! fst src; Some (u16 (PeerTable.index (PeerTable.peer f))).
Definition notify_unexp (id : endpoint_id) (e : devt) (nd : node) : option (Z * node) :=
  h ← endpoints nd !! id;
  let '(err, q) := Event.omx_notify_unexp_event e (evq h) in Some (err, put id (h <| evq := q |>) nd).
Definition notify_exp (id : endpoint_id) (e : devt) (nd : node) : node := on id (Host.notify_exp e) nd.

(** ** Checking the endpoint *)

(* [driver/linux/omx_shared.c:39-72] omx_shared_get_endpoint_or_nack_type *)
Definition omx_shared_get_endpoint_or_nack_type (peer_index dst_ep session : Z) (nd : node)
    : option ((Z + endpoint_id) * node) :=
  r ← omx_local_peer_acquire_endpoint peer_index dst_ep nd;
  match r with
  | None => Some (inl OMX_NACK_TYPE_NONE, nd)
  | Some (inl err) =>
      type ← Pull.omx_endpoint_acquire_by_iface_index_error_to_nack_type err; Some (inl type, nd)
  | Some (inr (dst, nd)) =>
      h ← endpoints nd !! dst;
      if negb (session =? Pull.session_id (drv h)) then Some (inl Pull.OMX_NACK_TYPE_BAD_SESSION, release dst nd)
      else Some (inr dst, nd)
  end.
(** The nack is lost when there is no slot for its event. *)
(* [driver/linux/omx_shared.c:74-94] omx_shared_notify_nack *)
Definition omx_shared_notify_nack (src : endpoint_id) (peer_index dst_ep seqnum type : Z) (nd : node) : option node :=
  '(_, nd) ← notify_unexp src (RecvNackLib peer_index dst_ep seqnum type) nd; Some nd.
(* [driver/linux/omx_shared.c:100-119] omx_shared_get_endpoint_or_notify_nack *)
Definition omx_shared_get_endpoint_or_notify_nack (src : endpoint_id) (peer_index dst_ep session seqnum : Z) (nd : node)
    : option (option endpoint_id * node) :=
  '(r, nd) ← omx_shared_get_endpoint_or_nack_type peer_index dst_ep session nd;
  match r with
  | inr dst => Some (Some dst, nd)
  | inl type =>
      if type =? OMX_NACK_TYPE_NONE then Some (None, nd)
      else nd ← omx_shared_notify_nack src peer_index dst_ep seqnum type nd; Some (None, nd)
  end.

(** Without endpoint the commands succeed. *)
Definition with_destination (src : endpoint_id) (peer_index dst_ep session seqnum : Z)
    (k : endpoint_id -> node -> option (Z * node)) (nd : node) : option (Z * node) :=
  '(dst, nd) ← omx_shared_get_endpoint_or_notify_nack src peer_index dst_ep session seqnum nd;
  match dst with None => Some (0, nd) | Some dst => k dst nd end.
(** The event is reported, or lost when there is no slot. *)
Definition report (dst : endpoint_id) (e : devt) (nd : node) : option (Z * node) :=
  '(_, nd) ← notify_unexp dst e nd; Some (0, release dst nd).

(** ** Connections

    The result 1 is that of a peer that is not local. *)
Definition try_send_connect (src : endpoint_id) (peer_index dst_ep seqnum : Z) (e : Z -> devt) (nd : node)
    : option (Z * node) :=
  r ← omx_local_peer_acquire_endpoint peer_index dst_ep nd;
  match r with
  | None => Some (1, nd)
  | Some (inl err) =>
      type ← Pull.omx_endpoint_acquire_by_iface_index_error_to_nack_type err;
      nd ← omx_shared_notify_nack src peer_index dst_ep seqnum type nd; Some (0, nd)
  | Some (inr (dst, nd)) => peer ← peer_index_of src nd; report dst (e peer) nd
  end.
(* [driver/linux/omx_shared.c:131-181] omx_shared_try_send_connect_request *)
Definition omx_shared_try_send_connect_request (src : endpoint_id) (c : SendMsg.connect_cmd) : node -> option (Z * node) :=
  try_send_connect src (SendMsg.cc_peer_index c) (SendMsg.cc_dest_endpoint c) (SendMsg.cc_seqnum c) (fun peer =>
    RecvConnectRequest peer (snd src) 1 (SendMsg.cc_seqnum c) (SendMsg.cc_src_session_id c) (SendMsg.cc_app_key c)
      (SendMsg.cc_target_recv_seqnum_start c) (SendMsg.cc_connect_seqnum c)).
(* [driver/linux/omx_shared.c:183-234] omx_shared_try_send_connect_reply *)
Definition omx_shared_try_send_connect_reply (src : endpoint_id) (c : SendMsg.connect_cmd) : node -> option (Z * node) :=
  try_send_connect src (SendMsg.cc_peer_index c) (SendMsg.cc_dest_endpoint c) (SendMsg.cc_seqnum c) (fun peer =>
    RecvConnectReply peer (snd src) 1 (SendMsg.cc_seqnum c) (SendMsg.cc_src_session_id c) (SendMsg.cc_target_session_id c)
      (SendMsg.cc_target_recv_seqnum_start c) (SendMsg.cc_connect_seqnum c) (SendMsg.cc_connect_status_code c)).

(** ** Small messages *)

Definition destination (src : endpoint_id) (c : SendMsg.send_cmd) (k : endpoint_id -> msg_info -> node -> option (Z * node))
    : node -> option (Z * node) :=
  with_destination src (SendMsg.sc_peer_index c) (SendMsg.sc_dest_endpoint c) (SendMsg.sc_session_id c) (SendMsg.sc_seqnum c)
    (fun dst nd => peer ← peer_index_of src nd;
       k dst (MsgInfo peer (snd src) (SendMsg.sc_seqnum c) (SendMsg.sc_piggyack c) (SendMsg.sc_match_info c)) nd).
(** The memory of the process, and what a copy from it that faults did to the
    receive ring. *)
Context (umem : Z -> option Z) (faulted : mem -> mem).

(* [driver/linux/omx_shared.c:236-290] omx_shared_send_tiny *)
Definition omx_shared_send_tiny (src : endpoint_id) (c : SendMsg.send_cmd) (data : Z) (nd : node) : option (Z * node) :=
  let length := SendMsg.sc_length c in
  if World.OMX_TINY_MSG_LENGTH_MAX <? length then None (* BUG_ON *)
  else
    destination src c (fun dst m nd =>
      match SendMsg.copy_from_user umem data (Z.to_nat length) with
      | None => Some (EFAULT, release dst nd)
      | Some data => report dst (RecvTiny m length (SendMsg.sc_checksum c) data) nd
      end) nd.

(** A slot of the event queue and of the receive ring; [full] is what is done
    when there is none, which is not an error. *)
Definition with_slot (dst : endpoint_id) (full : node -> node) (k : Z -> node -> option (Z * node)) (nd : node)
    : option (Z * node) :=
  h ← endpoints nd !! dst;
  let '(ret, q) := Event.omx_prepare_notify_unexp_event_with_recvq (evq h) in
  let nd := put dst (h <| evq := q |>) nd in
  match ret with inl _ => Some (0, release dst (full nd)) | inr off => k off nd end.
(** The data, then the event. *)
Definition fill_slot (dst : endpoint_id) (off : Z) (data : list Z) (e : devt) (nd : node) : option node :=
  h ← endpoints nd !! dst;
  q ← Event.omx_commit_notify_unexp_event_with_recvq e (evq h);
  Some (put dst (h <| recvq ::= fun m => store m off data |> <| evq := q |>) nd).
(** Slots that get no event. *)
Fixpoint cancel_slots (n : nat) (dst : endpoint_id) (nd : node) : option node :=
  match n with
  | O => Some nd
  | S n =>
      h ← endpoints nd !! dst;
      q ← Event.omx_cancel_notify_unexp_event_with_recvq EvtNone (evq h);
      cancel_slots n dst (put dst (h <| evq := q |>) nd)
  end.
Definition fault (dst : endpoint_id) : node -> node := on dst (fun h => h <| recvq ::= faulted |>).

(* [driver/linux/omx_shared.c:292-350] omx_shared_send_small *)
Definition omx_shared_send_small (src : endpoint_id) (c : SendMsg.send_cmd) : node -> option (Z * node) :=
  let length := SendMsg.sc_length c in
  destination src c (fun dst m =>
    with_slot dst id (fun off nd =>
      match SendMsg.copy_from_user umem (SendMsg.sc_vaddr c) (Z.to_nat length) with
      | None => nd ← cancel_slots 1 dst (fault dst nd); Some (EFAULT, release dst nd)
      | Some data => nd ← fill_slot dst off data (RecvSmall m length (SendMsg.sc_checksum c) off) nd; Some (0, release dst nd)
      end)).

(** ** Medium messages *)

(** The sender is told that its slot is free, unless the command has no
    destination. *)
(* [driver/linux/omx_shared.c:352-474] omx_shared_send_mediumsq_frag *)
Definition omx_shared_send_mediumsq_frag (src : endpoint_id) (c : SendMsg.send_cmd) : node -> option (Z * node) :=
  let done := notify_exp src (SendMediumsqFragDone (SendMsg.sc_sendq_offset c)) in
  destination src c (fun dst m =>
    with_slot dst done (fun off nd =>
      h ← endpoints nd !! src;
      data ← SendMsg.read_sendq (SendMsg.sc_sendq_offset c) (SendMsg.sc_frag_length c) h;
      nd ← fill_slot dst off data (RecvMediumFrag m (SendMsg.sc_length c) (SendMsg.sc_frag_length c)
                                     (SendMsg.sc_frag_seqnum c) (SendMsg.sc_checksum c) off) nd;
      Some (0, release dst (done nd)))).

(** The fragments of a message, from the segment [i] of which [seg_remaining]
    bytes at [vaddr] are left, in slots of the receive ring; whether there was
    no fault. *)
Fixpoint mediumva_fill (offsets : list Z) (nseg : nat) (seg : nat -> Z * Z) (i : nat) (vaddr seg_remaining remaining : Z)
    (ring : mem) : option (bool * mem) :=
  match offsets with
  | [] => Some (true, ring)
  | off :: offsets =>
      let frag_length := u16 (if OMX_RECVQ_ENTRY_SIZE <? remaining then OMX_RECVQ_ENTRY_SIZE else remaining) in
      ret ← SendMsg.mediumva_copy (nseg + Z.to_nat frag_length) umem seg i vaddr seg_remaining frag_length [];
      match ret with
      | None => Some (false, ring)
      | Some (data, i, vaddr, seg_remaining) =>
          mediumva_fill offsets nseg seg i vaddr seg_remaining (u32 (remaining - frag_length)) (store ring off data)
      end
  end.
(** Their events. *)
Fixpoint mediumva_commit (offsets : list Z) (m : msg_info) (c : SendMsg.send_cmd) (frag remaining : Z) (dst : endpoint_id)
    (nd : node) : option node :=
  match offsets with
  | [] => Some nd
  | off :: offsets =>
      let frag_length := u16 (if OMX_RECVQ_ENTRY_SIZE <? remaining then OMX_RECVQ_ENTRY_SIZE else remaining) in
      h ← endpoints nd !! dst;
      q ← Event.omx_commit_notify_unexp_event_with_recvq
            (RecvMediumFrag m (SendMsg.sc_length c) frag_length (u8 frag) (SendMsg.sc_checksum c) off) (evq h);
      mediumva_commit offsets m c (frag + 1) (u32 (remaining - frag_length)) dst (put dst (h <| evq := q |>) nd)
  end.
(** With the segments: the slots of the fragments are written in the array
    [recvq_offset], which has room for the full ones.  The array of segments is
    not freed after a success. *)
Definition mediumva_segments (usegs : list (Z * Z)) (beyond : nat -> Z * Z) (dst : endpoint_id) (m : msg_info)
    (c : SendMsg.send_cmd) (nd : node) : option (Z * node) :=
  let msg_length := SendMsg.sc_length c in
  let frags_nr := Z.to_nat (Z.shiftr (msg_length + OMX_RECVQ_ENTRY_SIZE - 1) OMX_RECVQ_ENTRY_SHIFT) in
  let quit_with ret nd := Some (ret, release dst (allocated (-1) nd)) in
  let remaining := fold_left (fun r u => u32 (r + snd u)) usegs 0 in
  if negb (remaining =? msg_length) then quit_with EINVAL nd
  else
    '(vaddr, len) ← head usegs;
    h ← endpoints nd !! dst;
    let '(ret, q) := Event.omx_prepare_notify_unexp_events_with_recvq frags_nr (evq h) in
    let nd := put dst (h <| evq := q |>) nd in
    match ret with
    | inl _ => quit_with 0 nd
    | inr offsets =>
        if Nat.ltb (Z.to_nat (Z.shiftr msg_length OMX_RECVQ_ENTRY_SHIFT)) frags_nr then None (* writes behind recvq_offset *)
        else
          '(ok, ring) ← mediumva_fill offsets (length usegs) (fun i => default (beyond i) (usegs !! i)) 0 vaddr len remaining (recvq h);
          let nd := on dst (fun h => h <| recvq := ring |>) nd in
          if negb ok then nd ← cancel_slots frags_nr dst (fault dst nd); quit_with EFAULT nd
          else nd ← mediumva_commit offsets m c 0 msg_length dst nd; Some (0, release dst nd)
    end.
(* [driver/linux/omx_shared.c:476-626] omx_shared_send_mediumva *)
Definition omx_shared_send_mediumva (src : endpoint_id) (c : SendMsg.send_cmd) (alloc_offsets alloc_usegs : bool)
    (usegs : option (list (Z * Z))) (beyond : nat -> Z * Z) (nd : node) : option (Z * node) :=
  if negb alloc_offsets then Some (ENOMEM, nd)
  else
    '(ret, nd) ← destination src c (fun dst m nd =>
        if negb alloc_usegs then Some (ENOMEM, release dst nd)
        else
          let nd := allocated 1 nd in
          match usegs with
          | None => Some (EFAULT, release dst (allocated (-1) nd))
          | Some usegs => mediumva_segments usegs beyond dst m c nd
          end) (allocated 1 nd);
    Some (ret, allocated (-1) nd).

(** ** Large messages *)

Context (get_user_pages : Z -> Z -> Z * list Z).
Context (omx_pin_synchronous omx_pin_progressive : bool) (omx_pin_chunk_pages_min omx_pin_chunk_pages_max : Z).

Definition set_regions (rs : RegTable.regions) (h : host) : host := h <| drv ::= fun d => d <| Pull.d_regions := rs |> |>.
(** The end of the pinning of the region at [a], whose reference is given back:
    the error or 0. *)
Definition pin_and_release (a : Z) (ps : option Reg.pin_state) (rs : RegTable.regions) : option (Z * RegTable.regions) :=
  r ← RegTable.heap rs !! a;
  '(r, put, ret) ← Reg.omx_user_region_demand_pin_finish get_user_pages omx_pin_chunk_pages_max r ps;
  rs ← RegTable.omx_user_region_release false a
         (rs <| RegTable.heap ::= <[a := r]> |> <| RegTable.put_pages ::= fun l => l ++ (Some <$> put) |>);
  Some (match ret with inl err => err | inr _ => 0 end, rs).
Definition in_large_chunks (ps : option Reg.pin_state) : option Reg.pin_state :=
  (fun ps => Reg.PinState (Reg.ps_segment ps) (Reg.ps_pages ps) (Reg.ps_aligned_vaddr ps) (Reg.ps_remaining ps)
               (Reg.ps_chunk_offset ps) omx_pin_chunk_pages_max) <$> ps.
Definition finish_pin (src : endpoint_id) (a : Z) (ps : option Reg.pin_state) (nd : node) : option (Z * node) :=
  h ← endpoints nd !! src;
  '(err, rs) ← pin_and_release a ps (Pull.d_regions (drv h));
  Some (err, put src (set_regions rs h) nd).

(** The event may be reported before the region is pinned. *)
(* [driver/linux/omx_shared.c:628-713] omx_shared_send_rndv *)
Definition omx_shared_send_rndv (src : endpoint_id) (c : SendMsg.send_cmd) : node -> option (Z * node) :=
  destination src c (fun dst m nd =>
    let e := RecvRndv m (SendMsg.sc_length c) (SendMsg.sc_rdma_id c) (SendMsg.sc_rdma_seqnum c) 0 (SendMsg.sc_checksum c) in
    if omx_pin_synchronous then report dst e nd
    else
      h ← endpoints nd !! src;
      '(region, rs) ← RegTable.omx_user_region_acquire (SendMsg.sc_rdma_id c) (Pull.d_regions (drv h));
      match region with
      | None => Some (EINVAL, release dst nd)
      | Some a =>
          r ← RegTable.heap rs !! a;
          let '(r, ps) := Reg.omx_user_region_demand_pin_init omx_pin_chunk_pages_min r in
          let nd := put src (set_regions (rs <| RegTable.heap ::= <[a := r]> |>) h) nd in
          if negb omx_pin_progressive then
            '(err, nd) ← finish_pin src a (in_large_chunks ps) nd;
            if err <? 0 then Some (err, release dst nd) else report dst e nd
          else
            '(err, nd) ← notify_unexp dst e nd;
            if err <? 0 then '(_, nd) ← finish_pin src a (in_large_chunks ps) nd; Some (0, release dst nd)
            else '(_, nd) ← finish_pin src a ps (release dst nd); Some (0, nd)
      end).

(** The page table of the current process. *)
Context (page_table : Z -> option Z).
Definition release_region (id : endpoint_id) (a : Z) (nd : node) : option node :=
  h ← endpoints nd !! id;
  rs ← RegTable.omx_user_region_release false a (Pull.d_regions (drv h));
  Some (put id (set_regions rs h) nd).
Definition acquire_region (id : endpoint_id) (rdma_id : Z) (nd : node) : option (option Z * node) :=
  h ← endpoints nd !! id;
  '(region, rs) ← RegTable.omx_user_region_acquire rdma_id (Pull.d_regions (drv h));
  Some (region, put id (set_regions rs h) nd).
Definition get_region (id : endpoint_id) (a : Z) (nd : node) : option Reg.region :=
  h ← endpoints nd !! id; RegTable.heap (Pull.d_regions (drv h)) !! a.
(* [driver/linux/omx_shared.c:715-793] omx_shared_pull *)
Definition omx_shared_pull (src : endpoint_id) (c : Pull.cmd_pull) (nd : node) : option (Z * node) :=
  let done status := notify_exp src (PullDone (Pull.cp_lib_cookie c) (Pull.cp_puller_rdma_id c) status) in
  '(src_region, nd) ← acquire_region src (Pull.cp_puller_rdma_id c) nd;
  match src_region with
  | None => Some (EINVAL, nd)
  | Some a =>
      '(r, nd) ← omx_shared_get_endpoint_or_nack_type (Pull.cp_peer_index c) (Pull.cp_dest_endpoint c) (Pull.cp_session_id c) nd;
      match r with
      | inl type =>
          nd ← release_region src a nd;
          Some (0, done (if type =? OMX_NACK_TYPE_NONE then Pull.OMX_EVT_PULL_DONE_TIMEOUT else type) nd)
      | inr dst =>
          '(dst_region, nd) ← acquire_region dst (Pull.cp_pulled_rdma_id c) nd;
          match dst_region with
          | None => nd ← release_region src a (release dst nd); Some (0, done Pull.OMX_NACK_TYPE_BAD_RDMAWIN nd)
          | Some b =>
              pulled ← get_region dst b nd; puller ← get_region src a nd;
              '(err, m) ← RegShared.omx_copy_between_user_regions page_table omx_pin_progressive
                            pulled (Pull.cp_pulled_rdma_offset c) puller 0 (Pull.cp_length c) (nd_mem nd);
              let nd := nd <| nd_mem := m |> in
              nd ← release_region dst b nd; nd ← release_region src a (release dst nd);
              Some (0, done (if err <? 0 then Pull.OMX_EVT_PULL_DONE_ABORTED else Pull.OMX_EVT_PULL_DONE_SUCCESS) nd)
          end
      end
  end.
(* [driver/linux/omx_shared.c:795-836] omx_shared_send_notify *)
Definition omx_shared_send_notify (src : endpoint_id) (c : SendMsg.send_cmd) : node -> option (Z * node) :=
  destination src c (fun dst m =>
    report dst (RecvNotify (mi_peer_index m) (snd src) (SendMsg.sc_seqnum c) (SendMsg.sc_piggyack c) (SendMsg.sc_length c)
                  (SendMsg.sc_rdma_id c) (SendMsg.sc_rdma_seqnum c))).
(** Nobody is told when the endpoint is not there. *)
(* [driver/linux/omx_shared.c:838-879] omx_shared_send_liback *)
Definition omx_shared_send_liback (src : endpoint_id) (c : SendMsg.liback_cmd) (nd : node) : option (Z * node) :=
  '(r, nd) ← omx_shared_get_endpoint_or_nack_type (SendMsg.lc_peer_index c) (SendMsg.lc_dest_endpoint c) (SendMsg.lc_session_id c) nd;
  match r with
  | inl _ => Some (0, nd)
  | inr dst =>
      peer ← peer_index_of src nd;
      report dst (RecvLiback peer (snd src) (SendMsg.lc_lib_seqnum c) (SendMsg.lc_acknum c) (SendMsg.lc_send_seq c)
                    (SendMsg.lc_resent c)) nd
  end.
End shared.
End Shared.
