(* ===== verification/SharedSend.v ===== *)
(** What the messages between the endpoints of a host become: the same events as
    through the network, and nacks. *)
From S2P Require Import Prelude Io Segments World Event EventFifo Peer Reg RegTable RegShared Pull Wire Host SendMsg RecvMsg PeerTable Crossing Shared.
Import Mem Io Wire Host Crossing Shared.

Module SharedSend.

#[local] Existing Instances Pull.e_driver Pull.s_d_regions Pull.s_endpoint_refcount.
#[local] Existing Instances RegTable.e_regions RegTable.s_heap RegTable.s_put_pages.
#[local] Notation fifo := (@EventFifo.fifo devt).

(** ** Endpoints of a node *)

Lemma put_node id h t eps m k : put id h (Node t eps m k) = Node t (<[id := h]> eps) m k.
Proof. done. Qed.
Lemma on_node id f t eps m k : on id f (Node t eps m k) = Node t (alter f id eps) m k.
Proof. done. Qed.
Lemma put_put id h h' nd : put id h (put id h' nd) = put id h nd.
Proof. destruct nd as [t eps m k]. by rewrite !put_node, insert_insert_eq. Qed.
Lemma put_comm id id' h h' nd : id <> id' -> put id h (put id' h' nd) = put id' h' (put id h nd).
Proof. intros H. destruct nd as [t eps m k]. by rewrite !put_node, insert_insert_ne. Qed.
Lemma put_same id h nd : endpoints nd !! id = Some h -> put id h nd = nd.
Proof. intros H. destruct nd as [t eps m k]. rewrite put_node. by rewrite insert_id. Qed.
Lemma on_put id f h nd : on id f (put id h nd) = put id (f h) nd.
Proof. destruct nd as [t eps m k]. by rewrite !put_node, on_node, alter_insert_eq. Qed.
Lemma on_put_ne id id' f h nd : id <> id' -> on id f (put id' h nd) = put id' h (on id f nd).
Proof. intros H. destruct nd as [t eps m k]. by rewrite put_node, !on_node, put_node, alter_insert_ne. Qed.
Lemma on_known id f h nd : endpoints nd !! id = Some h -> on id f nd = put id (f h) nd.
Proof. intros H. rewrite <- (put_same id h nd H) at 1. apply on_put. Qed.
Lemma put_eq id h nd : endpoints (put id h nd) !! id = Some h.
Proof. apply lookup_insert_eq. Qed.
Lemma put_ne id id' h nd : id <> id' -> endpoints (put id h nd) !! id' = endpoints nd !! id'.
Proof. apply lookup_insert_ne. Qed.

Section shared.
Context (omx_peer_max omx_endpoint_max : Z).

(** A call of the endpoint [src], whose interface is the peer [peer], for the open
    endpoint [dst], the endpoint [ep] of the peer [idx]. *)
Record target_at (idx ep : Z) (ses : option Z) (src dst : endpoint_id) (peer : Z) (nd : node) (s r : host) : Prop := {
  lt_src : endpoints nd !! src = Some s;
  lt_dst : endpoints nd !! dst = Some r;
  lt_apart : src <> dst;
  lt_max : idx < omx_peer_max;
  lt_peer : exists p o, PeerTable.omx_peer_array (nd_table nd) !! idx = Some p /\
    PeerTable.deref (nd_table nd) p = Some o /\ PeerTable.local_iface o = Some (fst dst);
  lt_index : ep = snd dst;
  lt_range : 0 <= snd dst < 256 /\ snd dst < omx_endpoint_max;
  lt_open : Pull.endpoint_ok (drv r) = true;
  lt_session : forall x, ses = Some x -> Pull.session_id (drv r) = x;
  lt_me : peer_index_of src nd = Some peer }.

Definition local_target (c : command) : endpoint_id -> endpoint_id -> Z -> node -> host -> host -> Prop :=
  target_at (target_index c) (dest_endpoint c) (session c).

Section target.
Context (idx ep : Z) (ses : option Z) (src dst : endpoint_id) (peer : Z) (nd : node) (s r : host).
Context (Ht : target_at idx ep ses src dst peer nd s r).

Lemma local_acquire : omx_local_peer_acquire_endpoint omx_peer_max omx_endpoint_max (idx) (ep) nd =
  Some (Some (inr (dst, put dst (reacquire r) nd))).
Proof.
  destruct Ht as [_ Hd _ Hm (p & o & Hp & Ho & Hi) Hx [Hr1 Hr2] Hok _ _]. unfold omx_local_peer_acquire_endpoint.
  rewrite (proj2 (Z.leb_gt _ _)), Hp, Ho by done. cbn [mbind option_bind]. rewrite Hi, Hx.
  unfold omx_endpoint_acquire_by_iface_index, u8. rewrite Z.mod_small, (proj2 (Z.leb_gt _ _)) by lia.
  rewrite <- (surjective_pairing dst), Hd, Hok. done.
Qed.
Lemma local_endpoint x : ses = Some x ->
  omx_shared_get_endpoint_or_nack_type omx_peer_max omx_endpoint_max (idx) (ep) x nd =
  Some (inr dst, put dst (reacquire r) nd).
Proof.
  intros Hx. unfold omx_shared_get_endpoint_or_nack_type. rewrite local_acquire. cbn [mbind option_bind].
  rewrite put_eq. cbn [mbind option_bind]. change (Pull.session_id (drv (reacquire r))) with (Pull.session_id (drv r)).
  by rewrite (lt_session _ _ _ _ _ _ _ _ _ Ht x Hx), Z.eqb_refl.
Qed.
Lemma local_destination x seqnum k : ses = Some x ->
  with_destination omx_peer_max omx_endpoint_max src (idx) (ep) x seqnum k nd =
  k dst (put dst (reacquire r) nd).
Proof.
  intros Hx. unfold with_destination, omx_shared_get_endpoint_or_notify_nack. by rewrite (local_endpoint x Hx).
Qed.
Lemma local_message sc k : idx = SendMsg.sc_peer_index sc -> ep = SendMsg.sc_dest_endpoint sc ->
  ses = Some (SendMsg.sc_session_id sc) ->
  destination omx_peer_max omx_endpoint_max src sc k nd = k dst (msg_of sc (snd src) peer) (put dst (reacquire r) nd).
Proof.
  intros H1 H2 H3. unfold destination. rewrite <- H1, <- H2, (local_destination _ _ _ H3). cbv beta.
  change (peer_index_of src (put dst _ nd)) with (peer_index_of src nd). by rewrite (lt_me _ _ _ _ _ _ _ _ _ Ht).
Qed.

End target.

(** *** Events at the destination *)

Definition with_evq (q : @Event.endpoint devt) (h : host) : host := h <| evq := q |>.
Definition with_ring (m : mem) (h : host) : host := h <| recvq := m |>.

Lemma driver_reacquired d : Pull.omx_endpoint_release (Pull.omx_endpoint_reacquire d) = d.
Proof. apply driver_acquire_release. Qed.
Lemma release_ring h q m : RecvMsg.release (with_evq q (with_ring m (reacquire h))) = with_evq q (with_ring m h).
Proof.
  destruct h as [d e sq rq fl sf da re ql rl mg].
  change (Host (Pull.omx_endpoint_release (Pull.omx_endpoint_reacquire d)) q sq m fl sf da re ql rl mg = Host d q sq m fl sf da re ql rl mg).
  by rewrite driver_reacquired.
Qed.
Lemma release_evq h q : RecvMsg.release (with_evq q (reacquire h)) = with_evq q h.
Proof. transitivity (RecvMsg.release (with_evq q (with_ring (recvq h) (reacquire h)))); [by destruct h|]. rewrite release_ring. by destruct h. Qed.
Definition reported (e : devt) (r : host) : host := with_evq (snd (Event.omx_notify_unexp_event e (evq r))) r.
Lemma notify_at dst e r nd : exists err, notify_unexp dst e (put dst (reacquire r) nd) = Some (err, put dst (reacquire (reported e r)) nd).
Proof.
  unfold notify_unexp, reported. rewrite put_eq. cbn [mbind option_bind]. change (evq (reacquire r)) with (evq r).
  destruct (Event.omx_notify_unexp_event e (evq r)) as [err q]. exists err. rewrite put_put. by destruct r.
Qed.
Lemma release_at dst r nd : release dst (put dst (reacquire r) nd) = put dst r nd.
Proof. 
  unfold release. rewrite on_put. f_equal. transitivity (RecvMsg.release (with_evq (evq r) (reacquire r))); [by destruct r|].
  rewrite release_evq. by destruct r.
Qed.
Lemma report_at dst e r nd : report dst e (put dst (reacquire r) nd) = Some (0, put dst (reported e r) nd).
Proof. unfold report. destruct (notify_at dst e r nd) as [err ->]. cbn [mbind option_bind]. by rewrite release_at. Qed.
Lemma with_slot_at dst full k r nd : with_slot dst full k (put dst (reacquire r) nd) =
  let '(ret, q) := Event.omx_prepare_notify_unexp_event_with_recvq (evq r) in
  let nd := put dst ((reacquire r) <| evq := q |>) nd in
  match ret with inl _ => Some (0, release dst (full nd)) | inr off => k off nd end.
Proof.
  unfold with_slot. rewrite put_eq. cbn [mbind option_bind]. change (evq (reacquire r)) with (evq r).
  destruct (Event.omx_prepare_notify_unexp_event_with_recvq (evq r)) as [ret q]. by rewrite put_put.
Qed.
Lemma fill_slot_at dst off data e h q' nd : Event.omx_commit_notify_unexp_event_with_recvq e (evq h) = Some q' ->
  fill_slot dst off data e (put dst h nd) = Some (put dst ((h <| recvq ::= fun m => store m off data |>) <| evq := q' |>) nd).
Proof. intros H. unfold fill_slot. rewrite put_eq. cbn [mbind option_bind]. rewrite H. cbn [mbind option_bind]. by rewrite put_put. Qed.

(** The event of a connection says that it did not use the network. *)
Definition here (e : devt) : devt :=
  match e with
  | RecvConnectRequest p i _ n sid key start k => RecvConnectRequest p i 1 n sid key start k
  | RecvConnectReply p i _ n sid tid start k status => RecvConnectReply p i 1 n sid tid start k status
  | e => e
  end.
(** The destination after: as in [Crossing.delivered]. *)
Definition delivered_here (c : command) (me peer : Z) (data : list Z) (r : host) (x u : Z) (fs : fifo * fifo) (r' : host) : Prop :=
  let off := Event.recvq_offset (Event.next_recvq_index (evq r)) in
  let room := EventFifo.room (snd fs) 1 in
  EventFifo.system_ok (EventFifo.System (evq r') x u)
    (fst fs, if room then EventFifo.push (here (event_of c me peer off data)) (snd fs) else snd fs) /\
  drv r' = drv r /\
  recvq r' = (if room && uses_ring c then store (recvq r) off data else recvq r) /\
  sent_frames r' = sent_frames r.

Section deliver.
Context (c : command) (me peer : Z) (data : list Z) (x u : Z) (fs : fifo * fifo) (dst : endpoint_id) (r : host) (nd : node).
Context (Hq : EventFifo.system_ok (EventFifo.System (evq r) x u) fs) (Hres : EventFifo.reserved (snd fs) = O).
#[local] Notation off := (Event.recvq_offset (Event.next_recvq_index (evq r))).

(** Commands that only have an event. *)
Lemma reported_here e : e = here (event_of c me peer off data) -> uses_ring c = false ->
  delivered_here c me peer data r x u fs (reported e r).
Proof.
  intros -> Hu. unfold delivered_here. rewrite Hu, andb_false_r. destruct fs as [fx fu]. split_and!; [|by destruct r..].
  cbn [fst snd] in *. exact (report_pushes (here (event_of c me peer off data)) _ x u fx fu Hq).
Qed.
Lemma report_here e : e = here (event_of c me peer off data) -> uses_ring c = false ->
  exists r', report dst e (put dst (reacquire r) nd) = Some (0, put dst r' nd) /\ delivered_here c me peer data r x u fs r'.
Proof. intros He Hu. exists (reported e r). split; [apply report_at|by apply reported_here]. Qed.
(** Commands with data in the receive ring; [done] is what is done for the
    sender in any case. *)
Lemma slot_here e (done : node -> node) : (forall off, e off = event_of c me peer off data) -> uses_ring c = true ->
  (forall h, done (put dst h nd) = put dst h (done nd)) ->
  exists r', with_slot dst done (fun off nd => nd ← fill_slot dst off data (e off) nd; Some (0, release dst (done nd)))
      (put dst (reacquire r) nd) = Some (0, put dst r' (done nd)) /\
    delivered_here c me peer data r x u fs r'.
Proof.
  intros He Hu Hdone. rewrite with_slot_at. destruct fs as [fx fu]. cbn [fst snd] in *.
  pose proof (slot_pushes _ x u fx fu Hq Hres) as H. unfold delivered_here. cbn [fst snd]. rewrite Hu, andb_true_r.
  assert (Hh : here (event_of c me peer off data) = event_of c me peer off data) by (by destruct c as [[]| | | | | |]).
  destruct (Event.omx_prepare_notify_unexp_event_with_recvq (evq r)) as [[err|o] q].
  - destruct H as [-> H]. exists (with_evq q r). rewrite Hdone. unfold release. rewrite on_put. split.
    + do 3 f_equal. exact (release_evq r q).
    + split_and!; [exact H|by destruct r..].
  - destruct H as (-> & -> & H). destruct (H (e off)) as (q' & E & H').
    erewrite fill_slot_at by exact E. cbn [mbind option_bind].
    rewrite Hdone. unfold release. rewrite on_put.
    exists (with_evq q' (with_ring (store (recvq r) off data) r)). split.
    + do 3 f_equal. exact (release_ring r q' _).
    + split_and!; [by rewrite Hh, <- He|by destruct r..].
Qed.
End deliver.

(** ** Commands *)

Section commands.
Context {order : ByteOrder}.
(** What the system calls get from the process and the kernel. *)
Context (umem : Z -> option Z) (uparam : Z) (faulted : mem -> mem) (sk : option (nat -> Z)) (omx_skb_copy_max omx_skb_frags : Z)
  (alloc_event : bool) (get_user_pages : Z -> Z -> Z * list Z) (omx_pin_synchronous omx_pin_progressive : bool)
  (chunk_min chunk_max : Z).

Definition shared_command (c : command) (src : endpoint_id) : node -> option (Z * node) :=
  match c with
  | CmdConnect false c => omx_shared_try_send_connect_request omx_peer_max omx_endpoint_max src c
  | CmdConnect true c => omx_shared_try_send_connect_reply omx_peer_max omx_endpoint_max src c
  | CmdTiny c => omx_shared_send_tiny omx_peer_max omx_endpoint_max umem src c (uparam + 24)
  | CmdSmall c => omx_shared_send_small omx_peer_max omx_endpoint_max umem faulted src c
  | CmdMediumsq c => omx_shared_send_mediumsq_frag omx_peer_max omx_endpoint_max src c
  | CmdRndv c => omx_shared_send_rndv omx_peer_max omx_endpoint_max get_user_pages omx_pin_synchronous omx_pin_progressive
                   chunk_min chunk_max src c
  | CmdNotify c => omx_shared_send_notify omx_peer_max omx_endpoint_max src c
  | CmdLiback c => omx_shared_send_liback omx_peer_max omx_endpoint_max src c
  end.
Definition is_local (index dst_ep : Z) (nd : node) : bool :=
  match omx_local_peer_acquire_endpoint omx_peer_max omx_endpoint_max index dst_ep nd with Some (Some _) => true | _ => false end.
(** The whole system call of the endpoint [src]. *)
Definition node_command (c : command) (src : endpoint_id) (nd : node) : option (Z * node) :=
  h ← endpoints nd !! src;
  '(ret, h) ← run_command umem uparam (is_local (target_index c) (dest_endpoint c) nd) sk omx_skb_copy_max omx_skb_frags
                alloc_event get_user_pages omx_pin_synchronous chunk_min chunk_max c h;
  let nd := put src h nd in
  match ret with Some err => Some (err, nd) | None => shared_command c src nd end.

(** The library asks for the path inside the host. *)
Definition shared_flag (c : command) : bool :=
  match c with
  | CmdConnect _ c => negb (SendMsg.cc_shared_disabled c)
  | CmdTiny c | CmdSmall c | CmdMediumsq c | CmdRndv c | CmdNotify c => SendMsg.sc_shared c
  | CmdLiback c => SendMsg.lc_shared c
  end.
(** The data is inside the send ring. *)
Definition offset_ok (c : command) : Prop :=
  match c with
  | CmdMediumsq c => SendMsg.sc_sendq_offset c < SENDQ_SIZE /\ SendMsg.sc_sendq_offset c + SendMsg.sc_frag_length c <= SENDQ_SIZE
  | _ => True
  end.
(** The region of a rendezvous can be pinned. *)
Definition pins_ok (c : command) (s : host) : Prop :=
  match c with
  | CmdRndv c => omx_pin_synchronous = true \/ exists a rs reg,
      RegTable.omx_user_region_acquire (SendMsg.sc_rdma_id c) (Pull.d_regions (drv s)) = Some (Some a, rs) /\
      RegTable.heap rs !! a = Some reg /\
      let '(reg, ps0) := Reg.omx_user_region_demand_pin_init chunk_min reg in
      forall ps, ps = ps0 \/ ps = in_large_chunks chunk_max ps0 ->
        exists rs', pin_and_release get_user_pages chunk_max a ps (rs <| RegTable.heap ::= <[a := reg]> |>) = Some (0, rs')
  | _ => True
  end.
(** The sender after: a medium fragment gives back its slot of the send ring. *)
Definition sender_ok (c : command) (s s' : host) : Prop :=
  match c with
  | CmdRndv _ => exists rs, s' = set_regions rs s
  | CmdMediumsq c => s' = Host.notify_exp (SendMediumsqFragDone (SendMsg.sc_sendq_offset c)) s
  | _ => s' = s
  end.

Lemma run_shared c s : command_ok c -> size_ok c -> shared_flag c = true -> offset_ok c ->
  run_command umem uparam true sk omx_skb_copy_max omx_skb_frags alloc_event get_user_pages omx_pin_synchronous
    chunk_min chunk_max c s = Some (None, s).
Proof.
  intros Hok Hs Hf Ho. destruct c as [reply c|c|c|c|c|c|c]; cbn [run_command shared_flag command_ok size_ok offset_ok] in *.
  - destruct reply; [unfold SendMsg.omx_ioctl_send_connect_reply|unfold SendMsg.omx_ioctl_send_connect_request]; by rewrite Hf.
  - destruct Hok as [Hok H8]. pose proof (ok_length _ Hok). unfold SendMsg.omx_ioctl_send_tiny, u8.
    by rewrite Z.mod_small, (proj2 (Z.ltb_ge _ _)), Hf by lia.
  - unfold SendMsg.omx_ioctl_send_small. by rewrite (proj2 (Z.ltb_ge _ _)), Hf by lia.
  - unfold SendMsg.omx_ioctl_send_mediumsq_frag. change (2 ^ World.OMX_SENDQ_ENTRY_SHIFT) with OMX_RECVQ_ENTRY_SIZE.
    by rewrite (proj2 (Z.ltb_ge _ _)), (proj2 (Z.leb_gt _ _)), Hf by lia.
  - unfold SendMsg.omx_ioctl_send_rndv. by rewrite Hf.
  - unfold SendMsg.omx_ioctl_send_notify. by rewrite Hf.
  - unfold SendMsg.omx_ioctl_send_liback. by rewrite Hf.
Qed.
Lemma command_is_shared c src dst peer nd s r : local_target c src dst peer nd s r ->
  command_ok c -> size_ok c -> shared_flag c = true -> offset_ok c -> node_command c src nd = shared_command c src nd.
Proof.
  intros Ht Hok Hs Hf Ho. pose proof (lt_src _ _ _ _ _ _ _ _ _ Ht) as Hsrc. unfold node_command, is_local.
  rewrite (local_acquire _ _ _ src dst peer nd s r Ht), Hsrc. cbn [mbind option_bind]. rewrite run_shared by done.
  cbn [mbind option_bind]. by rewrite put_same.
Qed.

Lemma set_regions_twice rs rs' h : set_regions rs (set_regions rs' h) = set_regions rs h.
Proof. by destruct h as [[]]. Qed.
Lemma finish_pin_at src a ps h nd rs' rs : Pull.d_regions (drv h) = rs ->
  pin_and_release get_user_pages chunk_max a ps rs = Some (0, rs') ->
  finish_pin get_user_pages chunk_max src a ps (put src h nd) = Some (0, put src (set_regions rs' h) nd).
Proof.
  intros <- H. unfold finish_pin. rewrite put_eq. cbn [mbind option_bind]. rewrite H. cbn [mbind option_bind]. by rewrite put_put.
Qed.

Section rndv.
Context (c : SendMsg.send_cmd) (src dst : endpoint_id) (peer : Z) (nd : node) (s r : host) (data : list Z) (x u : Z) (fs : fifo * fifo).
Context (Ht : local_target (CmdRndv c) src dst peer nd s r).
Context (Hq : EventFifo.system_ok (EventFifo.System (evq r) x u) fs) (Hres : EventFifo.reserved (snd fs) = O).
Lemma rndv_delivered : pins_ok (CmdRndv c) s ->
  exists s' r', shared_command (CmdRndv c) src nd = Some (0, put dst r' (put src s' nd)) /\ sender_ok (CmdRndv c) s s' /\
    delivered_here (CmdRndv c) (snd src) peer data r x u fs r'.
Proof.
  intros Hpin. pose proof (lt_src _ _ _ _ _ _ _ _ _ Ht) as Hs. pose proof (lt_apart _ _ _ _ _ _ _ _ _ Ht) as Hne.
  cbn [shared_command]. unfold omx_shared_send_rndv. rewrite (local_message _ _ _ src dst peer nd s r Ht) by done.
  set (e := RecvRndv _ _ _ _ _ _).
  assert (Hd : delivered_here (CmdRndv c) (snd src) peer data r x u fs (reported e r)) by (by apply reported_here).
  clearbody e. destruct omx_pin_synchronous eqn:Hsync.
  { exists s, (reported e r). rewrite (put_same src s nd Hs), report_at.
    split_and!; [done|exists (Pull.d_regions (drv s)); by destruct s as [[]]|done]. }
  destruct Hpin as [Hpin|(a & rs & reg & Ha & Hr & Hpin)]; [congruence|].
  rewrite put_ne, Hs by congruence. cbn [mbind option_bind]. rewrite Ha. cbn [mbind option_bind]. rewrite Hr. cbn [mbind option_bind].
  destruct (Reg.omx_user_region_demand_pin_init chunk_min reg) as [reg' ps].
  set (rs1 := rs <| RegTable.heap ::= _ |>) in *. set (s1 := set_regions rs1 s).
  assert (Hs1 : Pull.d_regions (drv s1) = rs1) by (unfold s1; by destruct s as [[]]).
  assert (Hfin : forall rs', set_regions rs' s1 = set_regions rs' s) by (intros rs'; apply set_regions_twice).
  destruct omx_pin_progressive; cbn [negb].
  - rewrite put_comm by done. destruct (notify_at dst e r (put src s1 nd)) as [err ->]. cbn [mbind option_bind].
    destruct (err <? 0).
    + destruct (Hpin (in_large_chunks chunk_max ps)) as [rs' E]; [by right|]. rewrite put_comm by done.
      rewrite (finish_pin_at src a _ s1 _ rs' rs1 Hs1 E). cbn [mbind option_bind]. rewrite Hfin, put_comm, release_at by done.
      exists (set_regions rs' s), (reported e r). split_and!; [done|by exists rs'|done].
    + destruct (Hpin ps) as [rs' E]; [by left|]. rewrite release_at, put_comm by done.
      rewrite (finish_pin_at src a _ s1 _ rs' rs1 Hs1 E). cbn [mbind option_bind]. rewrite Hfin, put_comm by done.
      exists (set_regions rs' s), (reported e r). split_and!; [done|by exists rs'|done].
  - destruct (Hpin (in_large_chunks chunk_max ps)) as [rs' E]; [by right|].
    rewrite (finish_pin_at src a _ s1 _ rs' rs1 Hs1 E). cbn [mbind option_bind Z.ltb Z.compare]. rewrite Hfin, put_comm, report_at by done.
    exists (set_regions rs' s), (reported e r). split_and!; [done|by exists rs'|done].
Qed.
End rndv.

Section others.
Context (c : command) (src dst : endpoint_id) (peer : Z) (nd : node) (s r : host) (data : list Z) (x u : Z) (fs : fifo * fifo).
Context (Ht : local_target c src dst peer nd s r) (Hok : command_ok c) (Hsz : size_ok c) (Ho : offset_ok c).
Context (Hdata : message_data umem uparam c s = Some data).
Context (Hq : EventFifo.system_ok (EventFifo.System (evq r) x u) fs) (Hres : EventFifo.reserved (snd fs) = O).
#[local] Notation off := (Event.recvq_offset (Event.next_recvq_index (evq r))).

Lemma connect_call seqnum e : try_send_connect omx_peer_max omx_endpoint_max src (target_index c) (dest_endpoint c) seqnum e nd =
  report dst (e peer) (put dst (reacquire r) nd).
Proof.
  unfold try_send_connect. rewrite (local_acquire _ _ _ src dst peer nd s r Ht). cbn [mbind option_bind].
  change (peer_index_of src (put dst _ nd)) with (peer_index_of src nd). by rewrite (lt_me _ _ _ _ _ _ _ _ _ Ht).
Qed.
(** What the call of a command without data in the ring is. *)
Definition plain (c : command) : bool := match c with CmdSmall _ | CmdMediumsq _ | CmdRndv _ => false | _ => true end.
Lemma plain_call : plain c = true ->
  shared_command c src nd = report dst (here (event_of c (snd src) peer off data)) (put dst (reacquire r) nd).
Proof.
  intros Hp. pose proof connect_call as Hcall.
  destruct c as [reply sc|sc|sc|sc|sc|sc|sc]; try discriminate Hp; cbn [shared_command].
  - destruct reply; apply Hcall.
  - cbn [size_ok command_ok message_data] in *. unfold omx_shared_send_tiny. rewrite (proj2 (Z.ltb_ge _ _)) by done.
    rewrite (local_message _ _ _ src dst peer nd s r Ht) by done. by rewrite Hdata.
  - unfold omx_shared_send_notify. by rewrite (local_message _ _ _ src dst peer nd s r Ht) by done.
  - unfold omx_shared_send_liback.
    pose proof (local_endpoint _ _ _ src dst peer nd s r Ht (SendMsg.lc_session_id sc) eq_refl) as E.
    cbn [target_index dest_endpoint] in E. rewrite E. cbn [mbind option_bind].
    change (peer_index_of src (put dst _ nd)) with (peer_index_of src nd). by rewrite (lt_me _ _ _ _ _ _ _ _ _ Ht).
Qed.
Lemma plain_delivered : plain c = true ->
  exists r', shared_command c src nd = Some (0, put dst r' nd) /\ delivered_here c (snd src) peer data r x u fs r'.
Proof.
  intros Hp. rewrite plain_call by done. apply report_here; [done..|]. by destruct c.
Qed.
Lemma small_delivered sc : c = CmdSmall sc ->
  exists r', shared_command c src nd = Some (0, put dst r' nd) /\ delivered_here c (snd src) peer data r x u fs r'.
Proof.
  intros ->. cbn [shared_command message_data] in *. unfold omx_shared_send_small.
  rewrite (local_message _ _ _ src dst peer nd s r Ht) by done. rewrite Hdata.
  destruct (slot_here (CmdSmall sc) (snd src) peer data x u fs dst r nd Hq Hres
    (RecvSmall (msg_of sc (snd src) peer) (SendMsg.sc_length sc) (SendMsg.sc_checksum sc)) id) as (r' & E & Hd); [done..|].
  by exists r'.
Qed.
Lemma mediumsq_delivered sc : c = CmdMediumsq sc ->
  exists r', shared_command c src nd = Some (0, put dst r' (put src (Host.notify_exp (SendMediumsqFragDone (SendMsg.sc_sendq_offset sc)) s) nd)) /\
    delivered_here c (snd src) peer data r x u fs r'.
Proof.
  intros ->. pose proof (lt_src _ _ _ _ _ _ _ _ _ Ht) as Hs. pose proof (lt_apart _ _ _ _ _ _ _ _ _ Ht) as Hne.
  cbn [shared_command message_data offset_ok] in *. unfold omx_shared_send_mediumsq_frag.
  rewrite (local_message _ _ _ src dst peer nd s r Ht) by done.
  destruct (slot_here (CmdMediumsq sc) (snd src) peer data x u fs dst r nd Hq Hres
    (RecvMediumFrag (msg_of sc (snd src) peer) (SendMsg.sc_length sc) (SendMsg.sc_frag_length sc) (SendMsg.sc_frag_seqnum sc)
       (SendMsg.sc_checksum sc)) (notify_exp src (SendMediumsqFragDone (SendMsg.sc_sendq_offset sc)))) as (r' & E & Hd);
    [done|done|intros h; by apply on_put_ne|].
  exists r'. split; [|done]. rewrite <- (on_known src (Host.notify_exp _) s nd Hs). etransitivity; [|exact E].
  rewrite !with_slot_at. destruct (Event.omx_prepare_notify_unexp_event_with_recvq (evq r)) as [[err|o] q]; [done|]. cbv beta zeta.
  rewrite put_ne, Hs by congruence. cbn [mbind option_bind]. unfold SendMsg.read_sendq. rewrite (proj2 (Z.leb_le _ _)) by apply Ho.
  cbn [mbind option_bind]. by injection Hdata as <-.
Qed.
End others.

(** C20. A command for an endpoint of the same host gives this endpoint the event
    that the network would deliver: every field, the data in the event or in
    the same slot of the receive ring; only the flag of connections tells the
    difference.  The system call succeeds even when the queue is full, the
    references of both endpoints are as before, a medium fragment gives its slot
    of the send ring back, and nothing is sent. *)
Theorem shared_as_network c src dst peer nd s r data x u fs : command_ok c -> size_ok c -> shared_flag c = true -> offset_ok c ->
  local_target c src dst peer nd s r -> message_data umem uparam c s = Some data -> pins_ok c s ->
  EventFifo.system_ok (EventFifo.System (evq r) x u) fs -> EventFifo.reserved (snd fs) = O ->
  exists s' r', node_command c src nd = Some (0, put dst r' (put src s' nd)) /\ sender_ok c s s' /\
    delivered_here c (snd src) peer data r x u fs r'.
Proof.
  intros Hok Hsz Hf Ho Ht Hdata Hpin Hq Hres. rewrite (command_is_shared c src dst peer nd s r Ht) by done.
  pose proof (put_same src s nd (lt_src _ _ _ _ _ _ _ _ _ Ht)) as Hs.
  destruct (plain c) eqn:Hp.
  { destruct (plain_delivered c src dst peer nd s r data x u fs) as (r' & -> & Hd); [done..|].
    exists s, r'. rewrite Hs. split_and!; [done|by destruct c|done]. }
  destruct c as [reply c|c|c|c|c|c|c]; try discriminate Hp; [| |by apply rndv_delivered].
  - destruct (small_delivered (CmdSmall c) src dst peer nd s r data x u fs) with (sc := c) as (r' & -> & Hd); [done..|].
    exists s, r'. rewrite Hs. by split_and!.
  - destruct (mediumsq_delivered (CmdMediumsq c) src dst peer nd s r data x u fs) with (sc := c) as (r' & -> & Hd); [done..|].
    eexists _, r'. by split_and!.
Qed.

(** ** Refusals *)

Definition seqnum_of (c : command) : Z :=
  match c with
  | CmdConnect _ c => SendMsg.cc_seqnum c
  | CmdTiny c | CmdSmall c | CmdMediumsq c | CmdRndv c | CmdNotify c => SendMsg.sc_seqnum c
  | CmdLiback c => SendMsg.lc_lib_seqnum c
  end.
(** Why the interface [iface] of this host does not take a command. *)
Inductive refused (c : command) (iface : positive) (nd : node) : Z -> Prop :=
  | bad_endpt : omx_endpoint_max <= dest_endpoint c -> refused c iface nd Pull.OMX_NACK_TYPE_BAD_ENDPT
  | endpt_absent : dest_endpoint c < omx_endpoint_max -> endpoints nd !! (iface, dest_endpoint c) = None ->
      refused c iface nd Pull.OMX_NACK_TYPE_ENDPT_CLOSED
  | endpt_closed r : dest_endpoint c < omx_endpoint_max -> endpoints nd !! (iface, dest_endpoint c) = Some r ->
      Pull.endpoint_ok (drv r) = false -> refused c iface nd Pull.OMX_NACK_TYPE_ENDPT_CLOSED
  | bad_session r x : dest_endpoint c < omx_endpoint_max -> endpoints nd !! (iface, dest_endpoint c) = Some r ->
      Pull.endpoint_ok (drv r) = true -> session c = Some x -> Pull.session_id (drv r) <> x ->
      refused c iface nd Pull.OMX_NACK_TYPE_BAD_SESSION.
(** The command is for the interface [iface] of this host. *)
Definition for_iface (c : command) (iface : positive) (nd : node) : Prop :=
  target_index c < omx_peer_max /\ 0 <= dest_endpoint c < 256 /\
  exists p o, PeerTable.omx_peer_array (nd_table nd) !! target_index c = Some p /\
    PeerTable.deref (nd_table nd) p = Some o /\ PeerTable.local_iface o = Some iface.

Section refusal.
Context (c : command) (iface : positive) (src : endpoint_id) (nd : node) (s : host) (type : Z).
Context (Hi : for_iface c iface nd) (Hs : endpoints nd !! src = Some s).

Lemma for_iface_acquire : omx_local_peer_acquire_endpoint omx_peer_max omx_endpoint_max (target_index c) (dest_endpoint c) nd =
  Some (Some (omx_endpoint_acquire_by_iface_index omx_endpoint_max iface (dest_endpoint c) nd)).
Proof.
  destruct Hi as (Hm & _ & p & o & Hp & Ho & Hl). unfold omx_local_peer_acquire_endpoint.
  rewrite (proj2 (Z.leb_gt _ _)), Hp, Ho by done. cbn [mbind option_bind]. by rewrite Hl.
Qed.
Lemma refused_acquire : refused c iface nd type -> (exists r x, session c = Some x /\ Pull.session_id (drv r) <> x /\
    omx_endpoint_acquire_by_iface_index omx_endpoint_max iface (dest_endpoint c) nd =
      inr ((iface, dest_endpoint c), put (iface, dest_endpoint c) (reacquire r) nd) /\
    endpoints nd !! (iface, dest_endpoint c) = Some r /\ type = Pull.OMX_NACK_TYPE_BAD_SESSION) \/
  exists err, omx_endpoint_acquire_by_iface_index omx_endpoint_max iface (dest_endpoint c) nd = inl err /\
    Pull.omx_endpoint_acquire_by_iface_index_error_to_nack_type err = Some type.
Proof.
  destruct Hi as (_ & Hr & _). intros H. unfold omx_endpoint_acquire_by_iface_index, u8. rewrite Z.mod_small by lia.
  destruct H as [Hm|Hm Hn|r Hm Hn Hok|r x Hm Hn Hok Hx Hne].
  - right. exists EINVAL. by rewrite (proj2 (Z.leb_le _ _)).
  - right. exists Pull.ENOENT. by rewrite (proj2 (Z.leb_gt _ _)), Hn.
  - right. exists Pull.ENOENT. by rewrite (proj2 (Z.leb_gt _ _)), Hn, Hok.
  - left. exists r, x. by rewrite (proj2 (Z.leb_gt _ _)), Hn, Hok.
Qed.
Lemma nack_reported seqnum : omx_shared_notify_nack src (target_index c) (dest_endpoint c) seqnum type nd =
  Some (put src (reported (RecvNackLib (target_index c) (dest_endpoint c) seqnum type) s) nd).
Proof.
  unfold omx_shared_notify_nack, notify_unexp, reported. rewrite Hs. cbn [mbind option_bind].
  by destruct (Event.omx_notify_unexp_event _ (evq s)) as [err q].
Qed.
Lemma refused_endpoint x : refused c iface nd type -> session c = Some x ->
  omx_shared_get_endpoint_or_nack_type omx_peer_max omx_endpoint_max (target_index c) (dest_endpoint c) x nd = Some (inl type, nd).
Proof.
  intros H Hx. unfold omx_shared_get_endpoint_or_nack_type. rewrite for_iface_acquire. cbn [mbind option_bind].
  destruct (refused_acquire H) as [(r & y & Hy & Hne & -> & Hr & ->)|(err & -> & ->)]; [|done].
  rewrite put_eq. cbn [mbind option_bind]. assert (y = x) as -> by congruence.
  change (Pull.session_id (drv (reacquire r))) with (Pull.session_id (drv r)).
  rewrite (proj2 (Z.eqb_neq _ _)) by congruence. cbn [negb]. by rewrite release_at, put_same.
Qed.
Lemma refused_destination x seqnum k : refused c iface nd type -> session c = Some x ->
  with_destination omx_peer_max omx_endpoint_max src (target_index c) (dest_endpoint c) x seqnum k nd =
  Some (0, put src (reported (RecvNackLib (target_index c) (dest_endpoint c) seqnum type) s) nd).
Proof.
  intros H Hx. unfold with_destination, omx_shared_get_endpoint_or_notify_nack. rewrite (refused_endpoint x H Hx).
  cbn [mbind option_bind]. rewrite (proj2 (Z.eqb_neq _ _)) by (by inversion H). by rewrite nack_reported.
Qed.
Lemma refused_connect seqnum e : refused c iface nd type -> session c = None ->
  try_send_connect omx_peer_max omx_endpoint_max src (target_index c) (dest_endpoint c) seqnum e nd =
  Some (0, put src (reported (RecvNackLib (target_index c) (dest_endpoint c) seqnum type) s) nd).
Proof.
  intros H Hx. unfold try_send_connect. rewrite for_iface_acquire. cbn [mbind option_bind].
  destruct (refused_acquire H) as [(r & y & Hy & _)|(err & -> & ->)]; [congruence|]. cbn [mbind option_bind]. by rewrite nack_reported.
Qed.
End refusal.

(** C32. A command for an endpoint of this host that is not there, is closed or has
    another session succeeds and changes nothing but the queue of its sender,
    who gets one nack with the reason, as the network would bring it; an
    acknowledgement (liback) changes nothing at all and gives no nack
    (omx_shared.c:846).  For a medium fragment nothing says that its slot of the
    send ring is free, as any other end of this command does. *)
Theorem shared_refusal_nacked c iface src nd s type : command_ok c -> size_ok c -> shared_flag c = true -> offset_ok c ->
  for_iface c iface nd -> endpoints nd !! src = Some s -> refused c iface nd type ->
  node_command c src nd =
    Some (0, match c with
             | CmdLiback _ => nd
             | _ => put src (reported (RecvNackLib (target_index c) (dest_endpoint c) (seqnum_of c) type) s) nd
             end).
Proof.
  intros Hok Hsz Hf Ho Hi Hs Hr. unfold node_command, is_local. rewrite (for_iface_acquire c iface nd Hi), Hs.
  cbn [mbind option_bind]. rewrite run_shared by done. cbn [mbind option_bind]. rewrite put_same by done.
  destruct c as [reply sc|sc|sc|sc|sc|sc|sc]; cbn [shared_command].
  - destruct reply; by apply (refused_connect (CmdConnect _ sc) iface).
  - cbn [size_ok] in Hsz. unfold omx_shared_send_tiny. rewrite (proj2 (Z.ltb_ge _ _)) by done. by apply (refused_destination (CmdTiny sc) iface).
  - by apply (refused_destination (CmdSmall sc) iface).
  - by apply (refused_destination (CmdMediumsq sc) iface).
  - by apply (refused_destination (CmdRndv sc) iface).
  - by apply (refused_destination (CmdNotify sc) iface).
  - unfold omx_shared_send_liback.
    pose proof (refused_endpoint (CmdLiback sc) iface nd type Hi (SendMsg.lc_session_id sc) Hr eq_refl) as E.
    cbn [target_index dest_endpoint] in E. by rewrite E.
Qed.
End commands.
End shared.

(** ** A host

    Endpoints 5 and 2 of an interface, which is the peer 0. *)
#[local] Instance little_endian_host : ByteOrder := false.
#[local] Notation no_events := ((EventFifo.Fifo [] 0 0, EventFifo.Fifo [] 0 0) : fifo * fifo).
Definition iface : positive := 1%positive.
Definition sample_iface : PeerTable.omx_iface :=
  PeerTable.OmxIface 0 0 0xaa (PeerTable.OmxPeer 0xaa None 0 (Some iface)) ∅ false 0 2.
Definition sample_table : PeerTable.table :=
  PeerTable.Table {[ 0 := PeerTable.Embedded iface ]} (fun _ => []) 1 false (PeerTable.PeerTableState 1 0 1 0) [] false false 7
    {[ 0 := iface ]} 1 ∅ {[ iface := sample_iface ]} [] [] [].
Definition sample_node (s r : host) : node :=
  put (iface, 5) s (put (iface, 2) r (Node sample_table ∅ (fun a => a mod 256) 0)).
Lemma sample_at s r ses : Pull.endpoint_ok (drv r) = true -> (forall x, ses = Some x -> Pull.session_id (drv r) = x) ->
  target_at 16 32 0 2 ses (iface, 5) (iface, 2) 0 (sample_node s r) s r.
Proof.
  intros Hok Hs. unfold sample_node. split; [apply put_eq|rewrite put_ne by done; apply put_eq|done|done| |done|cbn; lia|done|done|reflexivity].
  exists (PeerTable.Embedded iface), (PeerTable.peer sample_iface). by split_and!.
Qed.
Definition sample_small : SendMsg.send_cmd := SendMsg.SendCmd 0 2 true 555 42 7 0x1234 0x1122334455667788 4 1000 0 0 0 0 0.
Definition sample_call (c : command) : node -> option (Z * node) :=
  node_command 16 32 sample_umem 0 id (Some (fun _ => 0)) 32 16 true (fun _ _ => (0, [])) true true 1 1 c (iface, 5).

Lemma shared_as_network_witness : exists s' r',
  sample_call (CmdSmall sample_small) (sample_node sample_sender sample_target) =
    Some (0, put (iface, 2) r' (put (iface, 5) s' (sample_node sample_sender sample_target))) /\
  sender_ok (CmdSmall sample_small) sample_sender s' /\
  delivered_here (CmdSmall sample_small) 5 0 [100; 101; 102; 103] sample_target 0 0 no_events r'.
Proof.
  apply (shared_as_network 16 32 sample_umem 0 id (Some (fun _ => 0)) 32 16 true (fun _ _ => (0, [])) true true 1 1
    (CmdSmall sample_small) (iface, 5) (iface, 2) 0 (sample_node sample_sender sample_target) sample_sender sample_target
    [100; 101; 102; 103] 0 0 no_events).
  - split; cbn; lia.
  - vm_compute. congruence.
  - reflexivity.
  - exact I.
  - apply sample_at; [reflexivity|by intros x [= <-]].
  - reflexivity.
  - exact I.
  - apply EventFifo.init_ok.
  - reflexivity.
Defined.
(** Endpoint 3 is not open. *)
Definition sample_frag : SendMsg.send_cmd := SendMsg.SendCmd 0 3 true 555 42 7 0x1234 0x1122334455667788 4 0 0 4 0 0 0.
Lemma shared_refusal_nacked_witness :
  sample_call (CmdMediumsq sample_frag) (sample_node sample_sender sample_target) =
    Some (0, put (iface, 5) (reported (RecvNackLib 0 3 42 Pull.OMX_NACK_TYPE_ENDPT_CLOSED) sample_sender)
               (sample_node sample_sender sample_target)).
Proof.
  apply (shared_refusal_nacked 16 32 sample_umem 0 id (Some (fun _ => 0)) 32 16 true (fun _ _ => (0, [])) true true 1 1
    (CmdMediumsq sample_frag) iface (iface, 5) (sample_node sample_sender sample_target) sample_sender Pull.OMX_NACK_TYPE_ENDPT_CLOSED).
  - split; cbn; lia.
  - vm_compute. congruence.
  - reflexivity.
  - split; vm_compute; congruence.
  - split_and!; [done|cbn; lia|cbn; lia|].
    exists (PeerTable.Embedded iface), (PeerTable.peer sample_iface). by split_and!.
  - apply put_eq.
  - apply endpt_absent; [done|]. unfold sample_node. by rewrite !put_ne by done.
Defined.
End SharedSend.
