(* ===== verification/SharedMedium.v ===== *)
(** Medium messages given by their segments, between the endpoints of a host. *)
From S2P Require Import Prelude Io Segments World Event EventFifo Peer Reg RegTable RegShared Pull Wire Host SendMsg RecvMsg PeerTable Crossing Shared SharedSend.
Import Mem Io Host Crossing Shared SharedSend.

Module SharedMedium.

#[local] Notation fifo := (@EventFifo.fifo devt).

(** The fragments of a message, what they do to the receive ring and their
    events. *)
Fixpoint slices (n : nat) (l : list Z) : list (list Z) :=
  match n with O => [] | S n => take frag_max l :: slices n (drop frag_max l) end.
Fixpoint store_all (offs : list Z) (datas : list (list Z)) (m : mem) : mem :=
  match offs, datas with off :: offs, data :: datas => store_all offs datas (store m off data) | _, _ => m end.
Fixpoint frag_events (m : msg_info) (c : SendMsg.send_cmd) (frag : Z) (offs : list Z) (datas : list (list Z)) : list devt :=
  match offs, datas with
  | off :: offs, data :: datas =>
      RecvMediumFrag m (SendMsg.sc_length c) (Z.of_nat (length data)) (u8 frag) (SendMsg.sc_checksum c) off
      :: frag_events m c (frag + 1) offs datas
  | _, _ => []
  end.

Lemma entry_size : OMX_RECVQ_ENTRY_SIZE = 8192.
Proof. reflexivity. Qed.
Lemma frag_length_min remaining : 0 <= remaining < 2 ^ 32 ->
  u16 (if OMX_RECVQ_ENTRY_SIZE <? remaining then OMX_RECVQ_ENTRY_SIZE else remaining) = Z.min 8192 remaining.
Proof. intros H. rewrite entry_size. unfold u16. destruct (Z.ltb_spec 8192 remaining); rewrite Z.mod_small by lia; lia. Qed.
(** The next fragment, and what is left. *)
Lemma next_slice (l : list Z) : let k := Z.to_nat (Z.min 8192 (Z.of_nat (length l))) in
  take k l = take frag_max l /\ drop k l = drop frag_max l /\ Z.of_nat (length (take frag_max l)) = Z.min 8192 (Z.of_nat (length l)).
Proof.
  pose proof frag_max_Z as Hm. cbn zeta. rewrite length_take. split_and!; [| |lia].
  all: destruct (Z.le_gt_cases (Z.of_nat (length l)) 8192); [rewrite ?take_ge, ?drop_ge by lia; done|f_equal; lia].
Qed.
Lemma frags_left n remaining : 0 <= remaining -> Z.of_nat (S n) = (remaining + 8191) / 8192 ->
  0 < remaining /\ Z.of_nat n = (remaining - Z.min 8192 remaining + 8191) / 8192.
Proof. intros H1 H2. Z.to_euclidean_division_equations. lia. Qed.

Section segments.
Context (umem : Z -> option Z) (usegs : list (Z * Z)) (bytes : list (list Z)) (beyond : nat -> Z * Z).
Context (Hsegs : Forall2 (seg_bytes umem) usegs bytes).
#[local] Notation seg := (fun i => default (beyond i) (usegs !! i)).

Lemma filled_ring offs : forall k vaddr r remaining ring rest, left_bytes umem usegs bytes k vaddr r rest ->
  remaining = Z.of_nat (length rest) -> remaining < 2 ^ 32 -> Z.of_nat (length offs) = (remaining + 8191) / 8192 ->
  mediumva_fill umem offs (length usegs) seg k vaddr r remaining ring =
    Some (true, store_all offs (slices (length offs) rest) ring).
Proof.
  induction offs as [|off offs IH]; intros k vaddr r remaining ring rest Hleft Hrem Hmax Hn; [done|].
  cbn [mediumva_fill length slices store_all] in *. rewrite frag_length_min by lia.
  destruct (frags_left _ remaining ltac:(lia) Hn) as [Hpos Hn']. destruct (next_slice rest) as (Ht & Hd & Hl). rewrite <- Hrem in Ht, Hd, Hl.
  destruct (copied umem usegs bytes beyond Hsegs (length usegs + Z.to_nat (Z.min 8192 remaining)) k vaddr r (Z.min 8192 remaining) [] rest Hleft)
    as (k' & a' & r' & -> & Hleft'); [lia..|]. cbn [mbind option_bind app]. rewrite Ht. rewrite Hd in Hleft'.
  rewrite u32_small by lia. apply IH; [exact Hleft'|rewrite length_drop; pose proof frag_max_Z; lia|lia|exact Hn'].
Qed.
End segments.

Section commits.
Context (m : msg_info) (c : SendMsg.send_cmd) (dst : endpoint_id) (x u : Z) (fx : fifo).
Lemma committed offs : forall frag remaining rest h nd l held, remaining = Z.of_nat (length rest) -> remaining < 2 ^ 32 ->
  Z.of_nat (length offs) = (remaining + 8191) / 8192 ->
  EventFifo.system_ok (EventFifo.System (evq h) x u) (fx, EventFifo.Fifo l (length offs) held) ->
  exists q, mediumva_commit offs m c frag remaining dst (put dst h nd) = Some (put dst (with_evq q h) nd) /\
    EventFifo.system_ok (EventFifo.System q x u)
      (fx, EventFifo.Fifo (l ++ frag_events m c frag offs (slices (length offs) rest)) 0 held).
Proof.
  induction offs as [|off offs IH]; intros frag remaining rest h nd l held Hrem Hmax Hn Hq.
  { exists (evq h). cbn [mediumva_commit frag_events]. rewrite app_nil_r. split; [|done]. do 2 f_equal. by destruct h. }
  cbn [mediumva_commit length slices frag_events] in *. rewrite frag_length_min by lia.
  destruct (frags_left _ remaining ltac:(lia) Hn) as [Hpos Hn']. destruct (next_slice rest) as (Ht & Hd & Hl). rewrite <- Hrem in Hl.
  rewrite put_eq. cbn [mbind option_bind]. rewrite Hl.
  set (e := RecvMediumFrag _ _ _ _ _ _). pose proof (EventFifo.sim_commit EvtNone e _ _ Hq) as [Hcode H2].
  cbn [EventFifo.impl_step EventFifo.s_ep EventFifo.s_exp EventFifo.s_unexp] in H2, Hcode.
  unfold EventFifo.spec_step in H2, Hcode. cbn [EventFifo.is_exp EventFifo.spec_unexp fst snd EventFifo.reserved EventFifo.pending EventFifo.held] in H2, Hcode.
  destruct (Event.omx_commit_notify_unexp_event_with_recvq e (evq h)) as [q|]; [|discriminate Hcode]. cbn [mbind option_bind].
  cbn [EventFifo.or_panic fst snd EventFifo.s_exp EventFifo.s_unexp] in H2. rewrite put_put, u32_small by lia.
  destruct (IH (frag + 1) (remaining - Z.min 8192 remaining) (drop frag_max rest) (with_evq q h) nd (l ++ [e]) held)
    as (q' & E & Hq'); [rewrite length_drop; pose proof frag_max_Z; lia|lia|exact Hn'|exact H2|].
  exists q'. change (h <| evq := q |>) with (with_evq q h). rewrite E. split; [do 2 f_equal; by destruct h|].
  by rewrite <- app_assoc in Hq'.
Qed.
End commits.

(** Reserving the slots of a message. *)
Lemma slots_reserved n (q : @Event.endpoint devt) x u (fx fu : fifo) : Z.of_nat n < 2147483648 ->
  EventFifo.system_ok (EventFifo.System q x u) (fx, fu) -> EventFifo.reserved fu = O ->
  match Event.omx_prepare_notify_unexp_events_with_recvq n q with
  | (inl err, q') => EventFifo.room fu n = false /\ EventFifo.system_ok (EventFifo.System q' x u) (fx, fu)
  | (inr offs, q') => EventFifo.room fu n = true /\
      offs = map (fun i => Event.recvq_offset (u32 (Event.next_recvq_index q + Z.of_nat i))) (seq 0 n) /\
      EventFifo.system_ok (EventFifo.System q' x u) (fx, EventFifo.Fifo (EventFifo.pending fu) n (EventFifo.held fu))
  end.
Proof.
  intros Hn Hq Hr. pose proof (EventFifo.sim_prepare EvtNone n _ _ Hn Hq) as [Hcode H].
  cbn [EventFifo.impl_step EventFifo.s_ep EventFifo.s_exp EventFifo.s_unexp] in H, Hcode.
  unfold EventFifo.spec_step in H, Hcode. cbn [EventFifo.is_exp EventFifo.spec_unexp fst snd] in H, Hcode.
  unfold EventFifo.push_if in H, Hcode. rewrite Hr in H. cbn [Nat.add] in H.
  assert (Hret : match fst (Event.omx_prepare_notify_unexp_events_with_recvq n q) with
                 | inl err => err = Event.EBUSY
                 | inr offs => offs = map (fun i => Event.recvq_offset (u32 (Event.next_recvq_index q + Z.of_nat i))) (seq 0 n) end).
  { unfold Event.omx_prepare_notify_unexp_events_with_recvq. by destruct (Event.unexp_full _). }
  destruct (Event.omx_prepare_notify_unexp_events_with_recvq n q) as [[err|offs] q1]; cbn [fst] in Hret; subst;
    destruct (EventFifo.room fu n); try discriminate Hcode; by split_and!.
Qed.

Lemma allocated_put k dst r nd : allocated k (put dst r nd) = put dst r (allocated k nd).
Proof. by destruct nd. Qed.
Lemma allocated_twice j k nd : allocated j (allocated k nd) = allocated (k + j) nd.
Proof. destruct nd as [t eps m n]. change (Node t eps m (n + k + j) = Node t eps m (n + (k + j))). f_equal. lia. Qed.
Lemma allocated_0 nd : allocated 0 nd = nd.
Proof. destruct nd as [t eps m n]. change (Node t eps m (n + 0) = Node t eps m n). f_equal. lia. Qed.

Section mediumva.
Context (omx_peer_max omx_endpoint_max : Z) (umem : Z -> option Z) (faulted : mem -> mem).

Lemma local_target_allocated c src dst peer nd s r k : local_target omx_peer_max omx_endpoint_max c src dst peer nd s r ->
  local_target omx_peer_max omx_endpoint_max c src dst peer (allocated k nd) s r.
Proof. intros [H1 H2 H3 H4 H5 H6 H7 H8 H9 H10]. by split. Qed.

(** The slots of the fragments of a message. *)
Definition frags_nr (c : SendMsg.send_cmd) : nat := Z.to_nat ((SendMsg.sc_length c + 8191) / 8192).
Definition frag_slots (n : nat) (r : host) : list Z :=
  map (fun i => Event.recvq_offset (u32 (Event.next_recvq_index (evq r) + Z.of_nat i))) (seq 0 n).

Lemma frags_nr_shift c : 0 <= SendMsg.sc_length c ->
  Z.to_nat (Z.shiftr (SendMsg.sc_length c + OMX_RECVQ_ENTRY_SIZE - 1) OMX_RECVQ_ENTRY_SHIFT) = frags_nr c.
Proof. intros H. rewrite entry_size, Z.shiftr_div_pow2 by (change OMX_RECVQ_ENTRY_SHIFT with 13; lia). by rewrite <- Z.add_sub_assoc. Qed.
(** The array of the slots is too short when the last fragment is not full. *)
Lemma array_short c : 0 <= SendMsg.sc_length c ->
  Nat.ltb (Z.to_nat (Z.shiftr (SendMsg.sc_length c) OMX_RECVQ_ENTRY_SHIFT)) (frags_nr c) = negb (SendMsg.sc_length c mod 8192 =? 0).
Proof.
  intros H. rewrite Z.shiftr_div_pow2 by (change OMX_RECVQ_ENTRY_SHIFT with 13; lia). change (2 ^ OMX_RECVQ_ENTRY_SHIFT) with 8192.
  unfold frags_nr. destruct (Z.eqb_spec (SendMsg.sc_length c mod 8192) 0) as [E|E]; cbn [negb];
    [apply Nat.ltb_ge|apply Nat.ltb_lt]; Z.to_euclidean_division_equations; lia.
Qed.

(** C31. A medium message in segments for an endpoint of the same host, when the
    queue has room for its fragments: if its length is a multiple of a slot's,
    its slices are put in consecutive slots of the receive ring with an event
    each, in order, whatever the segments, and the copy of the array of
    segments is never freed; for any other length the array of the slots'
    offsets, which has no place for the last fragment, is overrun.  Without room
    the message is lost, which is no error. *)
Theorem shared_mediumva c src dst peer nd s r usegs bytes beyond x u fs :
  Forall2 (seg_bytes umem) usegs bytes -> usegs <> [] -> SendMsg.sc_length c = Z.of_nat (length (concat bytes)) ->
  SendMsg.sc_length c < 2 ^ 32 -> local_target omx_peer_max omx_endpoint_max (CmdMediumsq c) src dst peer nd s r ->
  EventFifo.system_ok (EventFifo.System (evq r) x u) fs -> EventFifo.reserved (snd fs) = O ->
  let call := omx_shared_send_mediumva omx_peer_max omx_endpoint_max umem faulted src c true true (Some usegs) beyond nd in
  let n := frags_nr c in
  if EventFifo.room (snd fs) n then
    if SendMsg.sc_length c mod 8192 =? 0 then
      exists r', call = Some (0, put dst r' (allocated 1 nd)) /\
        EventFifo.system_ok (EventFifo.System (evq r') x u)
          (fst fs, EventFifo.Fifo (EventFifo.pending (snd fs) ++
                     frag_events (msg_of c (snd src) peer) c 0 (frag_slots n r) (slices n (concat bytes))) 0 (EventFifo.held (snd fs))) /\
        drv r' = drv r /\ recvq r' = store_all (frag_slots n r) (slices n (concat bytes)) (recvq r)
    else call = None
  else exists r', call = Some (0, put dst r' nd) /\ EventFifo.system_ok (EventFifo.System (evq r') x u) fs /\
         drv r' = drv r /\ recvq r' = recvq r.
Proof.
  intros Hsegs Hne Hlen Hmax Ht Hq Hres call n. unfold call, omx_shared_send_mediumva. cbn [negb].
  rewrite (local_message omx_peer_max omx_endpoint_max _ _ _ src dst peer _ s r (local_target_allocated _ _ _ _ _ _ _ 1 Ht)) by done.
  unfold mediumva_segments. rewrite frags_nr_shift by lia. fold n.
  rewrite (total_length umem usegs bytes Hsegs 0) by lia. rewrite Z.add_0_l, <- Hlen, Z.eqb_refl. cbn [negb].
  destruct usegs as [|[a len] segs] eqn:Hu; [done|]. cbn [head mbind option_bind]. rewrite <- Hu in *.
  rewrite allocated_put, put_eq. cbn [mbind option_bind]. change (evq (reacquire r)) with (evq r).
  assert (Hn : Z.of_nat n = (SendMsg.sc_length c + 8191) / 8192) by (unfold n, frags_nr; apply Z2Nat.id, Z.div_pos; lia).
  destruct fs as [fx fu]. cbn [fst snd] in *.
  assert (Hn31 : Z.of_nat n < 2147483648) by (rewrite Hn; apply Z.div_lt_upper_bound; lia).
  pose proof (slots_reserved n (evq r) x u fx fu Hn31 Hq Hres) as H.
  destruct (Event.omx_prepare_notify_unexp_events_with_recvq n (evq r)) as [[err|offs] q].
  - destruct H as [-> H]. rewrite put_put, allocated_put, !allocated_twice. exists (with_evq q r). split.
    + unfold release. rewrite on_put. cbn [mbind option_bind]. rewrite allocated_put, allocated_twice, allocated_0.
      do 3 f_equal. exact (release_evq r q).
    + split_and!; [exact H|by destruct r..].
  - destruct H as (-> & -> & H). rewrite array_short by lia. destruct (SendMsg.sc_length c mod 8192 =? 0); cbn [negb]; [|done].
    change (recvq (reacquire r)) with (recvq r).
    pose proof (left_next umem usegs bytes beyond Hsegs 0) as Hleft. rewrite drop_0, Hu in Hleft. cbn in Hleft. rewrite <- Hu in Hleft.
    fold (frag_slots n r). assert (Hol : length (frag_slots n r) = n) by (unfold frag_slots; by rewrite length_map, length_seq).
    rewrite (filled_ring umem usegs bytes beyond Hsegs _ 0%nat a len _ (recvq r) (concat bytes)) by (done || lia). rewrite Hol.
    cbn [mbind option_bind negb]. rewrite put_put, on_put.
    set (ring := store_all _ _ _). set (h := _ <| recvq := _ |>).
    assert (Hh : h = with_evq q (with_ring ring (reacquire r))) by (unfold h; by destruct r). clearbody h. subst h.
    destruct (committed (msg_of c (snd src) peer) c dst x u fx (frag_slots n r) 0 (SendMsg.sc_length c) (concat bytes)
      (with_evq q (with_ring ring (reacquire r))) (allocated 1 (allocated 1 nd)) (EventFifo.pending fu) (EventFifo.held fu)) as (q' & E & Hq').
    + exact Hlen.
    + exact Hmax.
    + by rewrite Hol, Hn.
    + rewrite Hol. exact H.
    + rewrite E. cbn [mbind option_bind]. unfold release. rewrite on_put, allocated_put, !allocated_twice.
      exists (with_evq q' (with_ring ring r)). split; [|split_and!; [rewrite <- Hol at 2; exact Hq'|by destruct r..]].
      do 3 f_equal. exact (release_ring r q' ring).
Qed.
End mediumva.

(** A message of one slot in two segments, and one of 8 bytes, in a process whose
    memory is full of sevens. *)
#[local] Notation no_events := ((EventFifo.Fifo [] 0 0, EventFifo.Fifo [] 0 0) : fifo * fifo).
Definition sevens (n : nat) : list Z := replicate n 7.
Lemma sevens_seg a n : 0 <= n < 2 ^ 32 -> seg_bytes (fun _ => Some 7) (a, n) (sevens (Z.to_nat n)).
Proof.
  intros H. split; cbn [snd fst]; [lia|]. unfold SendMsg.copy_from_user. rewrite Z2Nat.id by lia.
  apply mapM_Some, Forall2_same_length_lookup_2; unfold sevens; [by rewrite length_seqZ, length_replicate|].
  intros i x y _ Hy. by apply lookup_replicate in Hy as [-> _].
Qed.
Definition sample_segs (n : Z) : SendMsg.send_cmd := SendMsg.SendCmd 0 2 true 555 42 7 0x1234 0x1122334455667788 n 0 0 0 0 0 0.
Definition sample_segments_call (n : Z) (usegs : list (Z * Z)) : option (Z * node) :=
  omx_shared_send_mediumva 16 32 (fun _ => Some 7) id (iface, 5) (sample_segs n) true true (Some usegs) (fun _ => (0, 0))
    (sample_node sample_sender sample_target).
Lemma shared_mediumva_witness :
  (exists r', sample_segments_call 8192 [(1000, 8000); (10000, 192)] =
     Some (0, put (iface, 2) r' (allocated 1 (sample_node sample_sender sample_target))) /\
   recvq r' = store_all [0] (slices 1 (sevens 8000 ++ sevens 192)) (recvq sample_target)) /\
  sample_segments_call 8 [(1000, 3); (1010, 5)] = None.
Proof.
  split.
  - pose proof (shared_mediumva 16 32 (fun _ => Some 7) id (sample_segs 8192) (iface, 5) (iface, 2) 0
      (sample_node sample_sender sample_target) sample_sender sample_target [(1000, 8000); (10000, 192)]
      [sevens 8000; sevens 192] (fun _ => (0, 0)) 0 0 no_events) as H.
    destruct H as (r' & E & _ & _ & H).
    + repeat constructor; [by apply (sevens_seg 1000 8000)|by apply (sevens_seg 10000 192)].
    + done.
    + by rewrite length_concat.
    + done.
    + apply sample_at; [reflexivity|by intros x [= <-]].
    + apply EventFifo.init_ok.
    + reflexivity.
    + exists r'. split; [exact E|]. rewrite H. reflexivity.
  - pose proof (shared_mediumva 16 32 (fun _ => Some 7) id (sample_segs 8) (iface, 5) (iface, 2) 0
      (sample_node sample_sender sample_target) sample_sender sample_target [(1000, 3); (1010, 5)]
      [sevens 3; sevens 5] (fun _ => (0, 0)) 0 0 no_events) as H.
    apply H.
    + repeat constructor; [by apply (sevens_seg 1000 3)|by apply (sevens_seg 1010 5)].
    + done.
    + reflexivity.
    + done.
    + apply sample_at; [reflexivity|by intros x [= <-]].
    + apply EventFifo.init_ok.
    + reflexivity.
Defined.
End SharedMedium.
