(* ===== verification/SharedPull.v ===== *)
(** Large messages between the endpoints of a host: the puller copies the pages
    of the other region itself. *)
From S2P Require Import Prelude Io Segments World Event EventFifo Peer Reg RegCopy RegTable RegShared Pull Wire Host SendMsg RecvMsg PeerTable Crossing Shared SharedSend.
Import Mem Io Host Crossing Shared SharedSend.

Module SharedPull.

#[local] Existing Instances Pull.e_driver Pull.s_d_regions Pull.s_endpoint_refcount.
#[local] Existing Instances RegTable.e_regions RegTable.s_heap Reg.e_region Reg.s_refcount.

(** ** References of regions *)

(** The region [reg] at [a] is known by [id], and its reference is held by the
    table. *)
Record region_at (h : host) (id a : Z) (reg : Reg.region) : Prop := {
  ra_id : id < Reg.OMX_USER_REGION_MAX;
  ra_table : RegTable.user_regions (Pull.d_regions (drv h)) !! id = Some a;
  ra_heap : RegTable.heap (Pull.d_regions (drv h)) !! a = Some reg;
  ra_held : 1 <= Reg.refcount reg }.
Definition referenced (reg : Reg.region) : Reg.region := reg <| Reg.refcount ::= fun n => n + 1 |>.
Definition with_heap (heap : gmap Z Reg.region) (rs : RegTable.regions) : RegTable.regions :=
  RegTable.Regions (RegTable.user_regions rs) heap (RegTable.rcu rs) (RegTable.works rs) (RegTable.put_pages rs).
(** The host while somebody uses the region. *)
Definition in_use (a : Z) (reg : Reg.region) (h : host) : host :=
  set_regions (with_heap (<[a := referenced reg]> (RegTable.heap (Pull.d_regions (drv h)))) (Pull.d_regions (drv h))) h.

Lemma acquire_known h id a reg nd x : region_at h id a reg -> endpoints nd !! x = Some h ->
  acquire_region x id nd = Some (Some a, put x (in_use a reg h) nd).
Proof.
  intros [Hid Ht Hh _] Hx. unfold acquire_region. rewrite Hx. cbn [mbind option_bind]. unfold RegTable.omx_user_region_acquire.
  rewrite (proj2 (Z.leb_gt _ _)), Ht by done. unfold RegTable.kref_get. rewrite Hh. by cbn [mbind option_bind].
Qed.
Lemma acquire_unknown h id nd x : RegTable.user_regions (Pull.d_regions (drv h)) !! id = None -> endpoints nd !! x = Some h ->
  acquire_region x id nd = Some (None, nd).
Proof.
  intros Hid Hx. unfold acquire_region. rewrite Hx. cbn [mbind option_bind]. unfold RegTable.omx_user_region_acquire.
  assert (Hs : put x (set_regions (Pull.d_regions (drv h)) h) nd = nd).
  { replace (set_regions (Pull.d_regions (drv h)) h) with h by (by destruct h as [[]]). by apply put_same. }
  destruct (_ <=? _); cbn [mbind option_bind]; [by rewrite Hs|]. rewrite Hid. cbn [mbind option_bind]. by rewrite Hs.
Qed.
Lemma referenced_back reg : (referenced reg) <| Reg.refcount ::= fun n => n - 1 |> = reg.
Proof.
  destruct reg as [i d n v l t st rg].
  change (Reg.Region i d (n + 1 - 1) v l t st rg = Reg.Region i d n v l t st rg). f_equal. lia.
Qed.
Lemma back_in_use a reg h rs : rs = with_heap (RegTable.heap (Pull.d_regions (drv h))) (Pull.d_regions (drv h)) ->
  set_regions rs (in_use a reg h) = h.
Proof. intros ->. by destruct h as [[d1 d2 d3 d4 d5 d6 []]]. Qed.
Lemma release_used h id a reg nd x : region_at h id a reg -> endpoints nd !! x = Some (in_use a reg h) ->
  Shared.release_region x a nd = Some (put x h nd).
Proof.
  intros [Hid Ht Hh Hr] Hx. unfold Shared.release_region. rewrite Hx. cbn [mbind option_bind].
  unfold RegTable.omx_user_region_release, RegTable.kref_put.
  change (RegTable.heap (Pull.d_regions (drv (in_use a reg h)))) with (<[a := referenced reg]> (RegTable.heap (Pull.d_regions (drv h)))).
  rewrite lookup_insert_eq. cbn [mbind option_bind].
  change (Reg.refcount (referenced reg)) with (Reg.refcount reg + 1). rewrite (proj2 (Z.eqb_neq _ _)) by lia.
  cbn [mbind option_bind]. do 2 f_equal. rewrite referenced_back. f_equal. apply back_in_use.
  transitivity (with_heap (<[a := reg]> (<[a := referenced reg]> (RegTable.heap (Pull.d_regions (drv h))))) (Pull.d_regions (drv h))); [done|].
  by rewrite insert_insert_eq, insert_id.
Qed.
Lemma get_used h a reg nd x : endpoints nd !! x = Some (in_use a reg h) -> get_region x a nd = Some (referenced reg).
Proof. intros Hx. unfold get_region. rewrite Hx. cbn [mbind option_bind]. apply lookup_insert_eq. Qed.
Lemma region_reacquired h id a reg : region_at h id a reg -> region_at (reacquire h) id a reg.
Proof. intros [H1 H2 H3 H4]. by split. Qed.
Definition with_mem (m : mem) (nd : node) : node := nd <| nd_mem := m |>.
Lemma with_mem_put m x h nd : with_mem m (put x h nd) = put x h (with_mem m nd).
Proof. done. Qed.
(** The references of the puller are given back. *)
Lemma pull_ends s r a pr id src dst nd e : region_at s id a pr -> endpoints nd !! src = Some s -> endpoints nd !! dst = Some r ->
  src <> dst -> (nd' ← Shared.release_region src a (put dst r (put src (in_use a pr s) nd)); Some (0, notify_exp src e nd')) =
    Some (0, put src (Host.notify_exp e s) nd).
Proof.
  intros Hs Hsrc Hdst Hne. rewrite (release_used s id a pr) by (done || (rewrite put_ne by congruence; apply put_eq)).
  cbn [mbind option_bind]. unfold notify_exp. rewrite on_put, (put_comm dst src) by congruence.
  rewrite !put_put. by rewrite (put_same dst r).
Qed.
Lemma copy_ready_referenced src l dst : RegShared.copy_ready src l dst -> RegShared.copy_ready (referenced src) l (referenced dst).
Proof. intros [[H1 H2 H3 H4] H5 H6 H7 H8 H9]. by split. Qed.

(** ** Pulls *)

Section pull.
Context (omx_peer_max omx_endpoint_max : Z) (omx_pin_progressive : bool) (page_table : Z -> option Z).

(** The region of the other endpoint that a pull reads, if it has one. *)
Inductive window (r : host) (id : Z) : option Reg.region -> Prop :=
  | no_window : RegTable.user_regions (Pull.d_regions (drv r)) !! id = None -> window r id None
  | a_window b reg : region_at r id b reg -> window r id (Some reg).
(** What the puller learns, and the memory. *)
Definition pull_outcome (c : Pull.cmd_pull) (w : option Reg.region) (l : list (Reg.segment * list Z)) (pa : list Z) (m : mem) : Z * mem :=
  match w with
  | None => (Pull.OMX_NACK_TYPE_BAD_RDMAWIN, m)
  | Some sr =>
      if (0 <? Pull.cp_length c) && (Reg.total_length sr <? Pull.cp_pulled_rdma_offset c + Pull.cp_length c)
      then (Pull.OMX_EVT_PULL_DONE_ABORTED, m)
      else (Pull.OMX_EVT_PULL_DONE_SUCCESS,
            RegCopy.write m pa (take (Z.to_nat (Pull.cp_length c)) (drop (Z.to_nat (Pull.cp_pulled_rdma_offset c)) (RegCopy.region_bytes m l))))
  end.
(** The regions and the pages of the puller allow the copy. *)
Record pull_ready (c : Pull.cmd_pull) (pr : Reg.region) (l : list (Reg.segment * list Z)) (pa : list Z) (sr : Reg.region) : Prop := {
  pr_copy : RegShared.copy_ready sr l pr;
  pr_room : Pull.cp_length c <= Reg.total_length pr;
  pr_phys : RegShared.dst_phys page_table pr 0 (Pull.cp_length c) pa;
  pr_once : NoDup pa;
  pr_apart : forall x, x ∈ pa -> x ∉ take (Z.to_nat (Pull.cp_length c)) (drop (Z.to_nat (Pull.cp_pulled_rdma_offset c)) (RegCopy.addrs_of l)) }.

Lemma target_put idx ep ses src dst peer nd s r h : target_at omx_peer_max omx_endpoint_max idx ep ses src dst peer nd s r ->
  target_at omx_peer_max omx_endpoint_max idx ep ses src dst peer (put src h nd) h r.
Proof. intros [H1 H2 H3 H4 H5 H6 H7 H8 H9 H10]. split; try done; [apply put_eq|by rewrite put_ne]. Qed.
Lemma copy_outcome c pr l pa sr m : 0 <= Pull.cp_pulled_rdma_offset c < 2 ^ 32 -> 0 <= Pull.cp_length c < 2 ^ 32 ->
  pull_ready c pr l pa sr -> exists err,
  RegShared.omx_copy_between_user_regions page_table omx_pin_progressive (referenced sr) (Pull.cp_pulled_rdma_offset c)
    (referenced pr) 0 (Pull.cp_length c) m = Some (err, snd (pull_outcome c (Some sr) l pa m)) /\
  (if err <? 0 then Pull.OMX_EVT_PULL_DONE_ABORTED else Pull.OMX_EVT_PULL_DONE_SUCCESS) = fst (pull_outcome c (Some sr) l pa m).
Proof.
  intros Ho Hl [Hc Hroom Hpa Hnd Hdis]. unfold pull_outcome. destruct (Z.ltb_spec 0 (Pull.cp_length c)); cbn [andb].
  - destruct (Z.ltb_spec (Reg.total_length sr) (Pull.cp_pulled_rdma_offset c + Pull.cp_length c)) as [Hlt|Hge].
    + exists Reg.EINVAL. split; [|done]. unfold RegShared.omx_copy_between_user_regions. rewrite (proj2 (Z.eqb_neq _ _)) by lia.
      rewrite u64_small by lia. change (Reg.total_length (referenced sr)) with (Reg.total_length sr). by rewrite (proj2 (Z.ltb_lt _ _)).
    + exists 0. split; [|done]. cbn [snd].
      apply (RegShared.copy_between_spec page_table omx_pin_progressive (referenced sr) l (referenced pr)).
      all: change (Reg.total_length (referenced sr)) with (Reg.total_length sr); change (Reg.total_length (referenced pr)) with (Reg.total_length pr).
      all: try lia; try done. by apply copy_ready_referenced.
  - exists 0. split; [|done]. cbn [snd]. replace (Pull.cp_length c) with 0 by lia. by destruct pa.
Qed.

(** C21. A pull between two endpoints of the host: the puller copies, through its
    own page table, the bytes of the other's region into its own and is told of
    the success; the memory is the only other thing that changes, and the
    references that the copy takes of both regions and of the other endpoint are
    given back.  Without such a region it is told so, and if the region is too
    short the pull is aborted, with nothing copied. *)
Theorem shared_pull_copies c src dst peer nd s r a pr w l pa :
  target_at omx_peer_max omx_endpoint_max (Pull.cp_peer_index c) (Pull.cp_dest_endpoint c) (Some (Pull.cp_session_id c)) src dst peer nd s r ->
  region_at s (Pull.cp_puller_rdma_id c) a pr -> window r (Pull.cp_pulled_rdma_id c) w ->
  0 <= Pull.cp_pulled_rdma_offset c < 2 ^ 32 -> 0 <= Pull.cp_length c < 2 ^ 32 ->
  (forall sr, w = Some sr -> pull_ready c pr l pa sr) ->
  let '(status, m) := pull_outcome c w l pa (nd_mem nd) in
  omx_shared_pull omx_peer_max omx_endpoint_max omx_pin_progressive page_table src c nd =
    Some (0, with_mem m (put src (Host.notify_exp (PullDone (Pull.cp_lib_cookie c) (Pull.cp_puller_rdma_id c) status) s) nd)).
Proof.
  intros Ht Hs Hw Ho Hl Hready. destruct (pull_outcome c w l pa (nd_mem nd)) as [status m] eqn:Hout.
  pose proof (lt_src _ _ _ _ _ _ _ _ _ _ _ Ht) as Hsrc. pose proof (lt_dst _ _ _ _ _ _ _ _ _ _ _ Ht) as Hdst.
  pose proof (lt_apart _ _ _ _ _ _ _ _ _ _ _ Ht) as Hne.
  unfold omx_shared_pull. rewrite (acquire_known s _ a pr nd src Hs Hsrc). cbn [mbind option_bind].
  pose proof (target_put _ _ _ _ _ _ _ _ _ (in_use a pr s) Ht) as Ht'.
  rewrite (local_endpoint _ _ _ _ _ _ _ _ _ _ _ Ht' _ eq_refl). cbn [mbind option_bind].
  destruct Hw as [Hno|b sr Hr].
  - injection Hout as <- <-. rewrite (acquire_unknown (reacquire r)) by (done || apply put_eq). cbn [mbind option_bind].
    rewrite release_at, (pull_ends s r a pr _ src dst nd _ Hs) by done. by destruct nd.
  - destruct (copy_outcome c pr l pa sr (nd_mem nd) Ho Hl (Hready sr eq_refl)) as (err & Hcopy & Herr). rewrite Hout in Hcopy, Herr.
    rewrite (acquire_known (reacquire r) _ b sr) by (apply region_reacquired, Hr || apply put_eq). cbn [mbind option_bind].
    rewrite (get_used (reacquire r) b sr) by apply put_eq. cbn [mbind option_bind].
    rewrite (get_used s a pr) by (rewrite !put_ne by congruence; apply put_eq). cbn [mbind option_bind].
    change (nd_mem (put dst _ _)) with (nd_mem nd). rewrite Hcopy. cbn [mbind option_bind fst snd] in *. rewrite Herr.
    change (_ <| nd_mem := m |>) with
      (put dst (in_use b sr (reacquire r)) (put dst (reacquire r) (put src (in_use a pr s) (with_mem m nd)))).
    rewrite (release_used (reacquire r) _ b sr) by (apply region_reacquired, Hr || apply put_eq). cbn [mbind option_bind].
    rewrite !put_put, release_at. apply (pull_ends s r a pr _ src dst (with_mem m nd) _ Hs); [exact Hsrc|exact Hdst|exact Hne].
Qed.
End pull.

(** The region 4 of endpoint 5, 8 bytes in the physical page 100, reads 4 bytes
    of the region 9 of endpoint 2, which cross a page. *)
Definition sample_region : Reg.region := Reg.Region 4 false 1 0 [Reg.Segment 65536 16 8 1 0 false [None]] 8 Reg.NOT_PINNED 0.
Definition with_region (id a : Z) (reg : Reg.region) (h : host) : host :=
  set_regions (RegTable.Regions {[ id := a ]} {[ a := reg ]} [] [] []) h.
Lemma with_region_at id a reg h : id < Reg.OMX_USER_REGION_MAX -> 1 <= Reg.refcount reg -> region_at (with_region id a reg h) id a reg.
Proof. intros H1 H2. split; [done|apply lookup_singleton_eq|apply lookup_singleton_eq|done]. Qed.
Definition sample_puller : host := with_region 4 1 sample_region sample_sender.
Definition sample_pulled : host := with_region 9 2 RegCopy.two_region sample_target.
Definition sample_pull (offset : Z) : Pull.cmd_pull := Pull.CmdPull 0 2 true 555 4 0 4 offset 9 0 0x77.
Definition sample_pages (page : Z) : option Z := if page =? 16 then Some 100 else None.
Definition sample_to : list Z := RegCopy.span (100 * 4096 + 16) 4.
Lemma sample_ready offset : pull_ready sample_pages (sample_pull offset) sample_region RegCopy.two_segments sample_to RegCopy.two_region.
Proof.
  split.
  - split; [apply RegCopy.two_pinned|done|done|by repeat constructor|done|by vm_compute].
  - by vm_compute.
  - unfold RegShared.dst_phys. change (Z.to_nat 0) with O. repeat constructor.
  - apply (bool_decide_unpack _). by vm_compute.
  - assert (Hd : forallb (fun x => negb (existsb (Z.eqb x) (RegCopy.addrs_of RegCopy.two_segments))) sample_to = true) by reflexivity.
    intros x Hx%list_elem_of_In Hin%subseteq_take%subseteq_drop%list_elem_of_In. apply forallb_forall with (x := x) in Hd; [|done].
    apply negb_true_iff, not_true_iff_false in Hd. apply Hd, existsb_exists. exists x. exact (conj Hin (Z.eqb_refl x)).
Qed.
Definition sample_pull_result (status : Z) (m : mem) : option (Z * node) :=
  Some (0, with_mem m (put (iface, 5) (Host.notify_exp (PullDone 0x77 4 status) sample_puller) (sample_node sample_puller sample_pulled))).

Lemma shared_pull_copies_witness :
  omx_shared_pull 16 32 true sample_pages (iface, 5) (sample_pull 1) (sample_node sample_puller sample_pulled) =
    sample_pull_result Pull.OMX_EVT_PULL_DONE_SUCCESS
      (RegCopy.write (fun a => a mod 256) sample_to [255; 0; 1; 1]) /\
  omx_shared_pull 16 32 true sample_pages (iface, 5) (sample_pull 5) (sample_node sample_puller sample_pulled) =
    sample_pull_result Pull.OMX_EVT_PULL_DONE_ABORTED (fun a => a mod 256).
Proof.
  assert (H : forall offset, 0 <= offset < 2 ^ 32 ->
    let '(status, m) := pull_outcome (sample_pull offset) (Some RegCopy.two_region) RegCopy.two_segments sample_to (fun a => a mod 256) in
    omx_shared_pull 16 32 true sample_pages (iface, 5) (sample_pull offset) (sample_node sample_puller sample_pulled) =
      sample_pull_result status m).
  { intros offset Ho. apply (shared_pull_copies 16 32 true sample_pages (sample_pull offset) (iface, 5) (iface, 2) 0
      (sample_node sample_puller sample_pulled) sample_puller sample_pulled 1 sample_region (Some RegCopy.two_region)
      RegCopy.two_segments sample_to); [|by apply with_region_at| |exact Ho|done|].
    - apply sample_at; [reflexivity|by intros x [= <-]].
    - apply (a_window _ _ 2). by apply with_region_at.
    - intros sr [= <-]. apply sample_ready. }
  assert (E1 : pull_outcome (sample_pull 1) (Some RegCopy.two_region) RegCopy.two_segments sample_to (fun a => a mod 256) =
    (Pull.OMX_EVT_PULL_DONE_SUCCESS, RegCopy.write (fun a => a mod 256) sample_to [255; 0; 1; 1])) by reflexivity.
  assert (E5 : pull_outcome (sample_pull 5) (Some RegCopy.two_region) RegCopy.two_segments sample_to (fun a => a mod 256) =
    (Pull.OMX_EVT_PULL_DONE_ABORTED, fun a => a mod 256)) by reflexivity.
  pose proof (H 1 ltac:(lia)) as H1. pose proof (H 5 ltac:(lia)) as H5. rewrite E1 in H1. rewrite E5 in H5. exact (conj H1 H5).
Defined.
End SharedPull.
