(* ===== verification/EndpointTable.v ===== *)
(** The endpoints of the driver: files, opening and closing, the endpoints of an
    interface, references ([driver/linux/omx_dev.c], [omx_endpoint.h], the end of
    [omx_iface.c]).

    Endpoints and interfaces are known by their addresses; those that are in the
    maps were allocated and not freed.  [None] is an access to what was freed, or
    a [BUG].  The functions are cut where other processors may do something in
    between; what is under [endpoints_mutex] without a wait is in one part.
    [EndpointSteps]: the threads that execute the parts, in any order that the kernel
    allows. *)
From S2P Require Import Prelude.

Module EndpointTable.

Definition ENOENT : Z := -2.
Definition ENOMEM : Z := -12.
Definition EBUSY : Z := -16.
Definition ENODEV : Z := -19.
Definition EINVAL : Z := -22.

(** ** Data *)

(* [driver/linux/omx_endpoint.h:38-47] omx_endpoint_status *)
Inductive omx_endpoint_status := FREE | INITIALIZING | OK | CLOSING.
#[export] Instance status_eq_dec : EqDecision omx_endpoint_status. Proof. solve_decision. Defined.
(** What is allocated when an endpoint is opened. *)
Inductive buffer := Userdesc | Sendq | Recvq | Exp_eventq | Unexp_eventq | Sendq_pages | Recvq_pages.
#[export] Instance buffer_eq_dec : EqDecision buffer. Proof. solve_decision. Defined.
(* [driver/linux/omx_endpoint.h:49-111] omx_endpoint *)
Record omx_endpoint := Endpoint {
  status : omx_endpoint_status; refcount : Z; board_index : Z; endpoint_index : Z; iface : option positive; buffers : list buffer }.
#[export] Instance e_endpoint : Settable omx_endpoint := fun e => Endpoint (status e) (refcount e) (board_index e) (endpoint_index e) (iface e)
  (buffers e).
#[export] Instance s_status : Setter status. Proof. mk_setter. Defined.
#[export] Instance s_refcount : Setter refcount. Proof. mk_setter. Defined.
#[export] Instance s_board_index : Setter board_index. Proof. mk_setter. Defined.
#[export] Instance s_endpoint_index : Setter endpoint_index. Proof. mk_setter. Defined.
#[export] Instance s_iface : Setter iface. Proof. mk_setter. Defined.
#[export] Instance s_buffers : Setter buffers. Proof. mk_setter. Defined.
(** Of an interface, its endpoints. *)
Record omx_iface := Iface {
  if_refcount : Z; if_closing : bool; if_index : Z; if_endpoints : gmap Z positive; endpoint_nr : Z }.
#[export] Instance e_iface : Settable omx_iface := fun i => Iface (if_refcount i) (if_closing i) (if_index i) (if_endpoints i) (endpoint_nr i).
#[export] Instance s_if_refcount : Setter if_refcount. Proof. mk_setter. Defined.
#[export] Instance s_if_closing : Setter if_closing. Proof. mk_setter. Defined.
#[export] Instance s_if_endpoints : Setter if_endpoints. Proof. mk_setter. Defined.
#[export] Instance s_endpoint_nr : Setter endpoint_nr. Proof. mk_setter. Defined.
(** [destroy_works] are the endpoints whose destruction is scheduled. *)
Record driver := Driver {
  endpoints : gmap positive omx_endpoint; ifaces : gmap positive omx_iface; omx_ifaces : gmap Z positive; destroy_works : list positive }.
#[export] Instance e_driver : Settable driver := fun d => Driver (endpoints d) (ifaces d) (omx_ifaces d) (destroy_works d).
#[export] Instance s_endpoints : Setter endpoints. Proof. mk_setter. Defined.
#[export] Instance s_ifaces : Setter ifaces. Proof. mk_setter. Defined.
#[export] Instance s_omx_ifaces : Setter omx_ifaces. Proof. mk_setter. Defined.
#[export] Instance s_destroy_works : Setter destroy_works. Proof. mk_setter. Defined.
Implicit Types (p i : positive) (d : driver).

Definition put_endpoint p (e : omx_endpoint) d : driver := d <| endpoints ::= <[p := e]> |>.
Definition put_iface i (x : omx_iface) d : driver := d <| ifaces ::= <[i := x]> |>.
Definition bug_on (b : bool) : option () := if b then None else Some ().

(** ** Resources *)

Definition all_buffers : list buffer := [Userdesc; Sendq; Recvq; Exp_eventq; Unexp_eventq; Sendq_pages; Recvq_pages].
Definition vfree (b : buffer) (l : list buffer) : list buffer := filter (fun x => x <> b) l.
(** [ok] tells which allocations succeed; the result has what is still
    allocated. *)
(* [driver/linux/omx_dev.c:44-145] omx_endpoint_alloc_resources *)
Definition omx_endpoint_alloc_resources (ok : buffer -> bool) : Z * list buffer :=
  let out_with_desc l := (ENOMEM, vfree Userdesc l) in
  let out_with_sendq l := out_with_desc (vfree Sendq l) in
  let out_with_recvq l := out_with_sendq (vfree Recvq l) in
  let out_with_exp_eventq l := out_with_recvq (vfree Exp_eventq l) in
  let out_with_unexp_eventq l := out_with_exp_eventq (vfree Unexp_eventq l) in
  let out_with_sendq_pages l := out_with_unexp_eventq (vfree Sendq_pages l) in
  if negb (ok Userdesc) then (ENOMEM, [])
  else if negb (ok Sendq) then out_with_desc [Userdesc]
  else if negb (ok Recvq) then out_with_sendq [Userdesc; Sendq]
  else if negb (ok Exp_eventq) then out_with_recvq [Userdesc; Sendq; Recvq]
  else if negb (ok Unexp_eventq) then out_with_exp_eventq [Userdesc; Sendq; Recvq; Exp_eventq]
  else if negb (ok Sendq_pages) then out_with_unexp_eventq [Userdesc; Sendq; Recvq; Exp_eventq; Unexp_eventq]
  else if negb (ok Recvq_pages) then out_with_sendq_pages [Userdesc; Sendq; Recvq; Exp_eventq; Unexp_eventq; Sendq_pages]
  else (0, all_buffers).
(* [driver/linux/omx_dev.c:147-168] omx_endpoint_free_resources *)
Definition omx_endpoint_free_resources (e : omx_endpoint) : omx_endpoint :=
  e <| buffers ::= fun l => foldr vfree l [Recvq_pages; Sendq_pages; Unexp_eventq; Exp_eventq; Recvq; Sendq; Userdesc] |>.

(** ** References *)

(* [driver/linux/omx_iface.h:90-94] omx_iface_reacquire *)
Definition omx_iface_reacquire i d : option driver :=
  x ← ifaces d !! i; Some (put_iface i (x <| if_refcount ::= fun n => n + 1 |>) d).
(* [driver/linux/omx_iface.c:530-549] __omx_iface_last_release *)
Definition __omx_iface_last_release i d : driver := d <| ifaces ::= delete i |>.
(* [driver/linux/omx_iface.c:317-321] omx_iface_release *)
Definition omx_iface_release i d : option driver :=
  x ← ifaces d !! i;
  if if_refcount x - 1 =? 0 then Some (__omx_iface_last_release i d) else Some (put_iface i (x <| if_refcount ::= fun n => n - 1 |>) d).

(** The resources and the structure are freed. *)
(* [driver/linux/omx_dev.c:178-184] omx_endpoint_destroy_workfunc *)
Definition omx_endpoint_destroy_workfunc p d : option driver :=
  e ← endpoints d !! p; Some (d <| endpoints ::= delete p |>).
(* [driver/linux/omx_dev.c:186-206] __omx_endpoint_last_release *)
Definition __omx_endpoint_last_release (in_interrupt : bool) p d : option driver :=
  e ← endpoints d !! p;
  i ← iface e;
  d ← omx_iface_release i (put_endpoint p (e <| iface := None |>) d);
  if in_interrupt then Some (d <| destroy_works ::= fun l => l ++ [p] |>) else omx_endpoint_destroy_workfunc p d.
(* [driver/linux/omx_endpoint.h:121-125] omx_endpoint_reacquire *)
Definition omx_endpoint_reacquire p d : option driver :=
  e ← endpoints d !! p; Some (put_endpoint p (e <| refcount ::= fun n => n + 1 |>) d).
(* [driver/linux/omx_endpoint.h:127-131] omx_endpoint_release *)
Definition omx_endpoint_release (in_interrupt : bool) p d : option driver :=
  e ← endpoints d !! p;
  let d := put_endpoint p (e <| refcount ::= fun n => n - 1 |>) d in
  if refcount e - 1 =? 0 then __omx_endpoint_last_release in_interrupt p d else Some d.

(** Acquiring is in two parts, in the same RCU section: the pointer of the
    interface is read, then a reference is taken and the status read. *)
Section limits.
Context (omx_endpoint_max omx_iface_max : Z).

(* [driver/linux/omx_dev.c:338-356] omx_endpoint_acquire_by_iface_index *)
Definition acquire_read i (index : Z) d : option (Z + positive) :=
  x ← ifaces d !! i;
  Some (if omx_endpoint_max <=? index then inl EINVAL else match if_endpoints x !! index with None => inl ENOENT | Some p => inr p end).
(* [driver/linux/omx_dev.c:358-377] omx_endpoint_acquire_by_iface_index *)
Definition acquire_get (in_interrupt : bool) p d : option (Z * driver) :=
  d ← omx_endpoint_reacquire p d;
  e ← endpoints d !! p;
  if decide (status e = OK) then Some (0, d) else d ← omx_endpoint_release in_interrupt p d; Some (ENOENT, d).

(** ** Opening *)

(* [driver/linux/omx_dev.c:383-398] omx_miscdev_open *)
Definition omx_miscdev_open p d : driver := put_endpoint p (Endpoint FREE 1 0 0 None []) d.
(* [driver/linux/omx_dev.c:227-236] omx_endpoint_open *)
Definition open_start p d : option (Z * driver) :=
  e ← endpoints d !! p;
  Some (if decide (status e = FREE) then (0, put_endpoint p (e <| status := INITIALIZING |>) d) else (EBUSY, d)).
(** [out_with_init] and [out_with_resources]. *)
Definition set_free p d : option driver := e ← endpoints d !! p; Some (put_endpoint p (e <| status := FREE |>) d).
Definition free_and_set_free p d : option driver :=
  e ← endpoints d !! p; Some (put_endpoint p (omx_endpoint_free_resources e <| status := FREE |>) d).
(* [driver/linux/omx_dev.c:238-241] omx_endpoint_open *)
Definition open_alloc (ok : buffer -> bool) p d : option (Z * driver) :=
  e ← endpoints d !! p;
  let '(ret, l) := omx_endpoint_alloc_resources ok in
  let d := put_endpoint p (e <| buffers := l |>) d in
  if ret <? 0 then d ← set_free p d; Some (ret, d) else Some (0, d).
(** The interface is found and referenced in an RCU section. *)
(* [driver/linux/omx_iface.c:822-852] omx_iface_attach_endpoint *)
Definition attach_find p (board index : Z) d : option ((Z + positive) * driver) :=
  e ← endpoints d !! p;
  _ ← bug_on (negb (bool_decide (status e = INITIALIZING)));
  let d := put_endpoint p (e <| board_index := board |> <| endpoint_index := index |>) d in
  if omx_endpoint_max <=? index then Some (inl EINVAL, d)
  else if omx_iface_max <=? board then Some (inl EINVAL, d)
  else
    match omx_ifaces d !! board with
    | None => Some (inl ENODEV, d)
    | Some i =>
        x ← ifaces d !! i;
        if if_closing x then Some (inl ENODEV, d) else d ← omx_iface_reacquire i d; Some (inr i, d)
    end.
(** Under [endpoints_mutex]. *)
(* [driver/linux/omx_iface.c:854-880] omx_iface_attach_endpoint *)
Definition attach_link p i d : option (Z * driver) :=
  e ← endpoints d !! p;
  x ← ifaces d !! i;
  match if_endpoints x !! endpoint_index e with
  | Some _ => d ← omx_iface_release i d; Some (EBUSY, d)
  | None =>
      let x := x <| if_endpoints ::= <[endpoint_index e := p]> |> <| endpoint_nr ::= fun n => n + 1 |> in
      Some (0, put_endpoint p (e <| iface := Some i |> <| status := OK |>) (put_iface i x d))
  end.

(** ** Closing *)

(** [Some (Some ret)] is the end of the call. *)
(* [driver/linux/omx_dev.c:281-310] omx_endpoint_close *)
Definition close_start p d : option (option Z * driver) :=
  e ← endpoints d !! p;
  match status e with
  | FREE => Some (Some 0, d <| endpoints ::= delete p |>)
  | OK => Some (None, put_endpoint p (e <| status := CLOSING |>) d)
  | _ => Some (Some EINVAL, d)
  end.
(** Under [endpoints_mutex], before and after the grace period. *)
(* [driver/linux/omx_iface.c:898-911] omx_iface_detach_endpoint *)
Definition detach_unlink p d : option (positive * driver) :=
  e ← endpoints d !! p;
  i ← iface e;
  _ ← bug_on (negb (bool_decide (status e = CLOSING)));
  x ← ifaces d !! i;
  _ ← bug_on (negb (bool_decide (if_endpoints x !! endpoint_index e = Some p)));
  Some (i, put_iface i (x <| if_endpoints ::= delete (endpoint_index e) |>) d).
(* [driver/linux/omx_iface.c:913-920] omx_iface_detach_endpoint *)
Definition detach_count i d : option driver :=
  x ← ifaces d !! i; Some (put_iface i (x <| endpoint_nr ::= fun n => n - 1 |>) d).

(** ** Interfaces *)

(* [driver/linux/omx_iface.c:493-514] omx_iface_attach *)
Definition iface_attach i (board : Z) d : driver := put_iface i (Iface 1 false board ∅ 0) d <| omx_ifaces ::= <[board := i]> |>.
(* [driver/linux/omx_iface.c:558-585] omx_iface_detach *)
Definition iface_detach_start i (force : bool) d : option (Z * driver) :=
  x ← ifaces d !! i;
  _ ← bug_on (negb (bool_decide (is_Some (omx_ifaces d !! if_index x))));
  if negb force && negb (endpoint_nr x =? 0) then Some (EBUSY, d)
  else Some (0, put_iface i (x <| if_closing := true |>) d).
(** One endpoint: [None] in the result when there is none; its descriptor is
    written. *)
(* [driver/linux/omx_iface.c:587-596] omx_iface_detach *)
Definition iface_detach_one i (k : Z) d : option (option positive) :=
  x ← ifaces d !! i;
  match if_endpoints x !! k with
  | None => Some None
  | Some p => e ← endpoints d !! p; _ ← bug_on (negb (bool_decide (Userdesc ∈ buffers e))); Some (Some p)
  end.
(* [driver/linux/omx_iface.c:611-627] omx_iface_detach *)
Definition iface_detach_end i d : option driver :=
  x ← ifaces d !! i; omx_iface_release i (d <| omx_ifaces ::= delete (if_index x) |>).

(** ** Commands *)

(** The commands on an endpoint are executed when it is open. *)
(* [driver/linux/omx_dev.c:457-470] omx_miscdev_ioctl *)
Definition ioctl_start p d : option Z := e ← endpoints d !! p; Some (if decide (status e = OK) then 0 else EINVAL).
(** What a handler, or the end of the opening, reads and writes: the endpoint, its
    interface, its buffers. *)
(* [driver/linux/omx_dev.c:250-263] omx_endpoint_open *)
Definition endpoint_use p d : option () :=
  e ← endpoints d !! p; i ← iface e; x ← ifaces d !! i; bug_on (negb (bool_decide (buffers e = all_buffers))).
End limits.
End EndpointTable.

Import EndpointTable.

Module EndpointSteps.

(** ** Threads

    What a thread has to do next: opening an endpoint (before its buffers, then
    its interface, then the table of the interface); executing a command;
    acquiring, in an RCU section; using, with a reference; closing, before the
    endpoint leaves the table, during the grace period, before the reference is
    released.  When the interface is being detached, the last argument tells
    which index of the loop closes ([ifacelocked]).  *)
Inductive pc :=
  | OpenInit (p : positive) (board index : Z) | OpenReady (p : positive) (board index : Z) | OpenRef (p i : positive)
  | Running (p : positive) | Acquire (p : positive) | Using (p : positive)
  | Marked (p : positive) (c : option (positive * Z)) | Waiting (p i : positive) (since : Z) (c : option (positive * Z))
  | Done (p : positive) (c : option (positive * Z))
  | Detach (i : positive) (k : Z).

(** [files] are the endpoints of open files, [stale] those that were closed by
    the detachment of their interface.  Threads are numbered in the order in
    which they start. *)
Record state := State { drv : driver; threads : gmap Z pc; next : Z; files : gset positive; stale : gset positive }.
#[export] Instance e_state : Settable state := fun s => State (drv s) (threads s) (next s) (files s) (stale s).
#[export] Instance s_drv : Setter drv. Proof. mk_setter. Defined.
#[export] Instance s_threads : Setter threads. Proof. mk_setter. Defined.
#[export] Instance s_next : Setter next. Proof. mk_setter. Defined.
#[export] Instance s_files : Setter files. Proof. mk_setter. Defined.
#[export] Instance s_stale : Setter stale. Proof. mk_setter. Defined.
Definition init : state := State (Driver ∅ ∅ ∅ []) ∅ 0 ∅ ∅.

Definition set_drv (d : driver) (s : state) : state := s <| drv := d |>.
Definition spawn (x : pc) (s : state) : state := s <| threads ::= <[next s := x]> |> <| next ::= Z.succ |>.
Definition goto (t : Z) (x : pc) (s : state) : state := s <| threads ::= <[t := x]> |>.
Definition finish (t : Z) (s : state) : state := s <| threads ::= delete t |>.

Section limits.
Context (omx_endpoint_max omx_iface_max : Z).

Definition after_close (t : Z) (c : option (positive * Z)) (s : state) : state :=
  match c with None => finish t s | Some (i, k) => goto t (Detach i (k + 1)) s end.
(** The next part of the thread [t]; [None] is a crash.  The memory for buffers
    is there or not, and a reference may be released in an interrupt. *)
Definition go (t : Z) (in_interrupt : bool) (ok : buffer -> bool) (x : pc) (s : state) : option state :=
  let d := drv s in
  match x with
  | OpenInit p board index =>
      '(ret, d) ← open_alloc ok p d;
      Some (set_drv d (if ret <? 0 then finish t s else goto t (OpenReady p board index) s))
  | OpenReady p board index =>
      '(r, d) ← attach_find omx_endpoint_max omx_iface_max p board index d;
      match r with
      | inl _ => d ← free_and_set_free p d; Some (set_drv d (finish t s))
      | inr i => Some (set_drv d (goto t (OpenRef p i) s))
      end
  | OpenRef p i =>
      '(ret, d) ← attach_link p i d;
      if ret <? 0 then d ← free_and_set_free p d; Some (set_drv d (finish t s)) else Some (set_drv d (goto t (Running p) s))
  | Running p => _ ← endpoint_use p d; Some (finish t s)
  | Acquire p =>
      '(ret, d) ← acquire_get in_interrupt p d; Some (set_drv d (if ret <? 0 then finish t s else goto t (Using p) s))
  | Using p => d ← omx_endpoint_release in_interrupt p d; Some (set_drv d (finish t s))
  | Marked p c => '(i, d) ← detach_unlink p d; Some (set_drv d (goto t (Waiting p i (next s) c) s))
  | Waiting p i _ c => d ← detach_count i d; Some (set_drv d (goto t (Done p c) s))
  | Done p c => d ← omx_endpoint_release false p d; Some (set_drv d (after_close t c s))
  | Detach i k =>
      if omx_endpoint_max <=? k then d ← iface_detach_end i d; Some (set_drv d (finish t s))
      else
        r ← iface_detach_one i k d;
        match r with
        | None => Some (goto t (Detach i (k + 1)) s)
        | Some p =>
            '(r, d) ← close_start p d;
            match r with
            | None => Some (set_drv d (goto t (Marked p (Some (i, k))) s) <| stale ::= union {[ p ]} |>)
            | Some _ => Some (set_drv d (goto t (Detach i (k + 1)) s))
            end
        end
  end.

Inductive op :=
  | DevOpen (p : positive) | Open (p : positive) (board index : Z) | Ioctl (p : positive) | Close (p : positive)
  | AcquireBy (i : positive) (index : Z) | AttachIface (i : positive) (board : Z) | DetachIface (i : positive) (force : bool)
  | Go (t : Z) (in_interrupt : bool) (ok : buffer -> bool) | Work (p : positive).
(** The first occurrence leaves the list of works. *)
Fixpoint remove1 (p : positive) (l : list positive) : list positive :=
  match l with [] => [] | q :: l => if decide (p = q) then l else q :: remove1 p l end.
Definition step (o : op) (s : state) : option state :=
  let d := drv s in
  match o with
  | DevOpen p => Some (set_drv (omx_miscdev_open p d) s <| files ::= union {[ p ]} |>)
  | Open p board index => '(ret, d) ← open_start p d; Some (if ret <? 0 then s else spawn (OpenInit p board index) (set_drv d s))
  | Ioctl p => ret ← ioctl_start p d; Some (if ret <? 0 then s else spawn (Running p) s)
  | Close p =>
      '(r, d) ← close_start p d;
      let s := set_drv d s <| files ::= fun fs => fs ∖ {[ p ]} |> <| stale ::= fun fs => fs ∖ {[ p ]} |> in
      Some (match r with None => spawn (Marked p None) s | Some _ => s end)
  | AcquireBy i index =>
      r ← acquire_read omx_endpoint_max i index d; Some (match r with inl _ => s | inr p => spawn (Acquire p) s end)
  | AttachIface i board => Some (set_drv (iface_attach i board d) s)
  | DetachIface i force =>
      '(ret, d) ← iface_detach_start i force d; Some (if ret <? 0 then s else spawn (Detach i 0) (set_drv d s))
  | Go t in_interrupt ok => match threads s !! t with None => Some s | Some x => go t in_interrupt ok x s end
  | Work p => d ← omx_endpoint_destroy_workfunc p d; Some (set_drv (d <| destroy_works ::= remove1 p |>) s)
  end.
Fixpoint run (os : list op) (s : state) : option state :=
  match os with [] => Some s | o :: os => s ← step o s; run os s end.

(** ** What the kernel guarantees

    Memory that is given was free; the commands on a file run before it is
    released; an interface whose index is looked up is attached; one interface
    is detached at a time; a grace period ends after the sections that were
    open when it began. *)
Definition in_command (p : positive) (x : pc) : bool :=
  match x with OpenInit q _ _ | OpenReady q _ _ | OpenRef q _ | Running q => bool_decide (q = p) | _ => false end.
Definition detaches (x : pc) : bool :=
  match x with Detach _ _ | Marked _ (Some _) | Waiting _ _ _ (Some _) | Done _ (Some _) => true | _ => false end.
Definition no_thread (f : pc -> bool) (s : state) : Prop := forall t x, threads s !! t = Some x -> f x = false.
Definition attached (i : positive) (d : driver) : Prop := exists b, omx_ifaces d !! b = Some i.
Definition grace_over (since : Z) (s : state) : Prop := forall t p, threads s !! t = Some (Acquire p) -> since <= t.
Definition enabled (o : op) (s : state) : Prop :=
  match o with
  | DevOpen p => endpoints (drv s) !! p = None /\ p ∉ files s
  | Open p _ _ | Ioctl p => p ∈ files s
  | Close p => p ∈ files s /\ no_thread (in_command p) s
  | AcquireBy i _ => attached i (drv s)
  | AttachIface i board => ifaces (drv s) !! i = None /\ omx_ifaces (drv s) !! board = None /\ no_thread detaches s
  | DetachIface i _ => attached i (drv s) /\ no_thread detaches s
  | Go t _ _ => match threads s !! t with Some (Waiting _ _ since _) => grace_over since s | _ => True end
  | Work p => p ∈ destroy_works (drv s)
  end.
(** ** What the driver needs besides

    The file of an endpoint that was closed with its interface is not used any
    more, and no command is running on it when it is closed. *)
Definition careful (o : op) (s : state) : Prop :=
  match o with
  | Open p _ _ | Ioctl p | Close p => p ∉ stale s
  | Go t _ _ =>
      match threads s !! t with
      | Some (Detach i k) => forall x p, ifaces (drv s) !! i = Some x -> if_endpoints x !! k = Some p -> no_thread (in_command p) s
      | _ => True
      end
  | _ => True
  end.
Fixpoint allowed (guard : op -> state -> Prop) (os : list op) (s : state) : Prop :=
  match os with [] => True | o :: os => guard o s /\ forall s', step o s = Some s' -> allowed guard os s' end.
End limits.
End EndpointSteps.
