(* ===== verification/EndpointRefs.v ===== *)
(** No endpoint or interface is used after it was freed, whatever the threads do
    ([EndpointSteps]), and none is lost. *)
From S2P Require Import Prelude EndpointTable.
Import EndpointTable EndpointSteps.

Module EndpointRefs.

(** ** Counting in a map *)

Section count.
Context {K A : Type} `{Countable K}.
Implicit Types (f : A -> bool) (m : gmap K A).
Definition cnt f m : Z := Z.of_nat (size (filter (fun kv => f (snd kv) = true) m)).
Definition val f (o : option A) : Z := match o with Some x => Z.b2z (f x) | None => 0 end.
Lemma cnt_ge0 f m : 0 <= cnt f m.
Proof. unfold cnt. lia. Qed.
Lemma cnt_empty f : cnt f ∅ = 0.
Proof. unfold cnt. by rewrite map_filter_empty, map_size_empty. Qed.
Lemma cnt_insert_None f m k x : m !! k = None -> cnt f (<[k := x]> m) = cnt f m + Z.b2z (f x).
Proof.
  intros Hk. unfold cnt. destruct (f x) eqn:E.
  - rewrite map_filter_insert_True by done. rewrite map_size_insert_None; [cbn; lia|]. apply map_lookup_filter_None. by left.
  - rewrite map_filter_insert_False by (cbn; congruence). rewrite delete_id by done. cbn. lia.
Qed.
Lemma cnt_delete f m k : cnt f (delete k m) = cnt f m - val f (m !! k).
Proof.
  destruct (m !! k) as [x|] eqn:Hk; cbn [val]; [|rewrite delete_id by done; lia].
  pose proof (cnt_insert_None f (delete k m) k x (lookup_delete_eq m k)) as E. rewrite insert_delete_id in E by done. lia.
Qed.
Lemma cnt_insert f m k x : cnt f (<[k := x]> m) = cnt f m - val f (m !! k) + Z.b2z (f x).
Proof. rewrite <- insert_delete_eq, cnt_insert_None by apply lookup_delete_eq. by rewrite cnt_delete. Qed.
Lemma cnt_ge1 f m k x : m !! k = Some x -> f x = true -> 1 <= cnt f m.
Proof. intros Hk Hf. pose proof (cnt_delete f m k) as E. rewrite Hk in E. cbn [val] in E. rewrite Hf in E. pose proof (cnt_ge0 f (delete k m)). cbn in E. lia. Qed.
Lemma cnt_zero f m k x : cnt f m = 0 -> m !! k = Some x -> f x = false.
Proof. intros H0 Hk. destruct (f x) eqn:E; [|done]. pose proof (cnt_ge1 f m k x Hk E). lia. Qed.
Lemma cnt_some f m : cnt f m <> 0 -> exists k x, m !! k = Some x /\ f x = true.
Proof.
  intros Hn. destruct (map_choose (filter (fun kv => f (snd kv) = true) m)) as (k & x & Hk).
  - intros E. apply Hn. unfold cnt. by rewrite E, map_size_empty.
  - apply map_lookup_filter_Some in Hk as [Hk Hf]. by exists k, x.
Qed.
Lemma cnt_none f m : (forall k x, m !! k = Some x -> f x = false) -> cnt f m = 0.
Proof. intros E. destruct (Z.eq_dec (cnt f m) 0) as [|Hn]; [done|]. apply cnt_some in Hn as (k & x & Hk & Hf). by rewrite (E k x Hk) in Hf. Qed.
End count.

(** ** The invariant *)

Definition opens p (x : pc) : bool := match x with OpenInit q _ _ | OpenReady q _ _ | OpenRef q _ => bool_decide (q = p) | _ => false end.
Definition runs p (x : pc) : bool := match x with Running q => bool_decide (q = p) | _ => false end.
Definition uses p (x : pc) : bool := match x with Using q => bool_decide (q = p) | _ => false end.
Definition closes p (x : pc) : bool := match x with Marked q _ | Waiting q _ _ _ | Done q _ => bool_decide (q = p) | _ => false end.
Definition holds i (x : pc) : bool := match x with OpenRef _ j => bool_decide (j = i) | _ => false end.
Definition waits i (x : pc) : bool := match x with Waiting _ j _ _ => bool_decide (j = i) | _ => false end.
Definition attached_to i (e : omx_endpoint) : bool := bool_decide (iface e = Some i).
Definition one (b : bool) : Z := Z.b2z b.
(** References in excess, for the endpoint, the interface and the destruction
    that an operation is dealing with. *)
Definition ex (o : option positive) (p : positive) : Z := one (bool_decide (o = Some p)).
Definition scheduled p (l : list positive) : Z := Z.of_nat (count_occ Pos.eq_dec l p).

Implicit Types (p i : positive) (s : state) (e : omx_endpoint) (d : driver) (T : gmap Z pc).
Definition linked d p e : Prop :=
  exists i x, iface e = Some i /\ ifaces d !! i = Some x /\ if_endpoints x !! endpoint_index e = Some p.
(** Who owns an endpoint: its file until it is closed, then the thread that
    closes it. *)
Definition owned T p e : Z := match status e with CLOSING => cnt (closes p) T | _ => 1 end.
Record endpoint_ok (xp xw : option positive) s p e : Prop := {
  eo_refs : refcount e = owned (threads s) p e + cnt (uses p) (threads s) + ex xp p;
  eo_works : scheduled p (destroy_works (drv s)) + ex xw p = one (refcount e =? 0);
  eo_opens : cnt (opens p) (threads s) = one (bool_decide (status e = INITIALIZING));
  eo_runs : status e <> OK -> cnt (runs p) (threads s) = 0;
  eo_closes : 0 <= cnt (closes p) (threads s) <= one (bool_decide (status e = CLOSING));
  eo_file : status e <> CLOSING -> p ∈ files s /\ p ∉ stale s;
  eo_stale : status e = CLOSING -> p ∈ files s <-> p ∈ stale s;
  eo_status : match status e with
    | FREE => iface e = None /\ buffers e = [] /\ cnt (uses p) (threads s) = 0
    | INITIALIZING => iface e = None /\ cnt (uses p) (threads s) = 0
    | OK => linked (drv s) p e /\ buffers e = all_buffers
    | CLOSING => buffers e = all_buffers /\ if refcount e =? 0 then iface e = None else is_Some (iface e)
    end;
  eo_iface i : iface e = Some i -> is_Some (ifaces (drv s) !! i) }.
Record dead_ok (xw : option positive) s p : Prop := {
  do_works : scheduled p (destroy_works (drv s)) + ex xw p = 0;
  do_opens : cnt (opens p) (threads s) = 0; do_runs : cnt (runs p) (threads s) = 0; do_uses : cnt (uses p) (threads s) = 0;
  do_closes : cnt (closes p) (threads s) = 0; do_file : p ∈ files s <-> p ∈ stale s }.
Definition place_ok (xp xw : option positive) s p : Prop :=
  match endpoints (drv s) !! p with Some e => endpoint_ok xp xw s p e | None => dead_ok xw s p end.
Definition at_endpoint d p (P : omx_endpoint -> Prop) : Prop := exists e, endpoints d !! p = Some e /\ P e.
(** What a thread knows; a grace period that is not over protects what the
    sections read. *)
Definition seen_by (t : Z) p s : Prop :=
  (exists i x k, ifaces (drv s) !! i = Some x /\ if_endpoints x !! k = Some p) \/
  (exists t' i since c, threads s !! t' = Some (Waiting p i since c) /\ t < since).
Definition detaching (x : pc) : option positive :=
  match x with Detach i _ | Marked _ (Some (i, _)) | Waiting _ _ _ (Some (i, _)) | Done _ (Some (i, _)) => Some i | _ => None end.
Definition in_array d i : Prop := exists x, ifaces d !! i = Some x /\ omx_ifaces d !! if_index x = Some i.
Definition thread_ok s (t : Z) (x : pc) : Prop :=
  t < next s /\ (forall i, detaching x = Some i -> in_array (drv s) i) /\
  match x with
  | OpenInit p _ _ => at_endpoint (drv s) p (fun e => buffers e = [])
  | OpenReady p _ _ => at_endpoint (drv s) p (fun e => buffers e = all_buffers)
  | OpenRef p i => at_endpoint (drv s) p (fun e => buffers e = all_buffers) /\ is_Some (ifaces (drv s) !! i)
  | Acquire p => seen_by t p s
  | Marked p c => at_endpoint (drv s) p (linked (drv s) p)
  | Waiting p i since c => since <= next s /\ at_endpoint (drv s) p (fun e => iface e = Some i)
  | _ => True
  end.
Definition link_ok s i k p : Prop :=
  at_endpoint (drv s) p (fun e => iface e = Some i /\ endpoint_index e = k /\
    (status e = OK \/ status e = CLOSING /\ exists t c, threads s !! t = Some (Marked p c))).
Record iface_ok (xi : option positive) s i (x : omx_iface) : Prop := {
  io_refs : if_refcount x = one (bool_decide (omx_ifaces (drv s) !! if_index x = Some i)) + cnt (attached_to i) (endpoints (drv s)) +
    cnt (holds i) (threads s) + ex xi i;
  io_alive : 0 < if_refcount x;
  io_number : endpoint_nr x = Z.of_nat (size (if_endpoints x)) + cnt (waits i) (threads s);
  io_links k p : if_endpoints x !! k = Some p -> link_ok s i k p }.
Record inv (xp xi xw : option positive) s : Prop := {
  in_places p : place_ok xp xw s p;
  in_threads t x : threads s !! t = Some x -> thread_ok s t x;
  in_ifaces i x : ifaces (drv s) !! i = Some x -> iface_ok xi s i x;
  in_attached b i : omx_ifaces (drv s) !! b = Some i -> exists x, ifaces (drv s) !! i = Some x /\ if_index x = b;
  in_detach t x t' x' : threads s !! t = Some x -> threads s !! t' = Some x' -> detaches x = true -> detaches x' = true -> t = t';
  in_extra i : xi = Some i -> is_Some (ifaces (drv s) !! i) }.

Lemma ex_same p : ex (Some p) p = 1.
Proof. unfold ex. by rewrite bool_decide_eq_true_2. Qed.
Lemma ex_other p q : p <> q -> ex (Some p) q = 0.
Proof. intros H. unfold ex. rewrite bool_decide_eq_false_2; [done|congruence]. Qed.
Lemma ex_None p : ex None p = 0.
Proof. done. Qed.

Lemma init_inv : inv None None None init.
Proof. by split. Qed.

(** ** What does not change *)

(** An endpoint seen from other places. *)
Definition same_shape e e' : Prop := status e' = status e /\ iface e' = iface e /\ endpoint_index e' = endpoint_index e /\ buffers e' = buffers e.
Definition shape_kept d d' p : Prop := forall e, endpoints d !! p = Some e -> exists e', endpoints d' !! p = Some e' /\ same_shape e e'.
Definition entries_kept d d' : Prop :=
  forall i x k p, ifaces d !! i = Some x -> if_endpoints x !! k = Some p -> exists x', ifaces d' !! i = Some x' /\ if_endpoints x' !! k = Some p.
Definition ifaces_kept d d' : Prop := forall i, is_Some (ifaces d !! i) -> is_Some (ifaces d' !! i).
Definition counts_kept T T' p : Prop :=
  cnt (opens p) T' = cnt (opens p) T /\ cnt (runs p) T' = cnt (runs p) T /\ cnt (uses p) T' = cnt (uses p) T /\ cnt (closes p) T' = cnt (closes p) T.
Lemma same_shape_refl e : same_shape e e.
Proof. done. Qed.
Lemma linked_kept d d' p e e' : entries_kept d d' -> same_shape e e' -> linked d p e -> linked d' p e'.
Proof.
  intros Hk (_ & E1 & E2 & _) (i & x & H1 & H2 & H3). destruct (Hk i x _ p H2 H3) as (x' & H2' & H3'). exists i, x'. by rewrite E1, E2.
Qed.
Lemma place_frame xp xp' xw xw' s s' p : place_ok xp xw s p ->
  endpoints (drv s') !! p = endpoints (drv s) !! p -> counts_kept (threads s) (threads s') p ->
  scheduled p (destroy_works (drv s')) + ex xw' p = scheduled p (destroy_works (drv s)) + ex xw p -> ex xp' p = ex xp p ->
  (p ∈ files s' <-> p ∈ files s) -> (p ∈ stale s' <-> p ∈ stale s) ->
  (forall e, endpoints (drv s) !! p = Some e -> status e = OK -> linked (drv s) p e -> linked (drv s') p e) ->
  (forall e i, endpoints (drv s) !! p = Some e -> iface e = Some i -> is_Some (ifaces (drv s) !! i) -> is_Some (ifaces (drv s') !! i)) ->
  place_ok xp' xw' s' p.
Proof.
  unfold place_ok. intros H -> (C1 & C2 & C3 & C4) Hw Hx Hf Hs Hl Ha. destruct (endpoints (drv s) !! p) as [e|].
  - destruct H as [H1 H2 H3 H4 H5 H6 H7 H8 H9]. split; rewrite ?C1, ?C2, ?C3, ?C4, ?Hw, ?Hx, ?Hf, ?Hs; try done.
    + unfold owned in *. by rewrite C4.
    + destruct (status e) eqn:Es; try done. destruct H8. split; [by apply Hl|done].
    + intros i E. apply (Ha e i); [done|done|by apply H9].
  - destruct H as [H1 H2 H3 H4 H5 H6]. by split; rewrite ?C1, ?C2, ?C3, ?C4, ?Hw, ?Hf, ?Hs.
Qed.
Lemma at_kept d d' p (P Q : omx_endpoint -> Prop) : shape_kept d d' p -> (forall e e', same_shape e e' -> P e -> Q e') ->
  at_endpoint d p P -> at_endpoint d' p Q.
Proof. intros Hk HP (e & He & H). destruct (Hk e He) as (e' & He' & Hs). exists e'. split; [done|by apply (HP e)]. Qed.
(** The endpoint of a thread, for what the thread knows of it. *)
Definition subject (x : pc) : option positive :=
  match x with OpenInit p _ _ | OpenReady p _ _ | OpenRef p _ | Marked p _ | Waiting p _ _ _ => Some p | _ => None end.
Lemma thread_frame s s' t x : thread_ok s t x -> next s <= next s' -> (forall i, detaching x = Some i -> in_array (drv s) i -> in_array (drv s') i) ->
  (forall p, subject x = Some p -> shape_kept (drv s) (drv s') p) ->
  (forall p, subject x = Some p -> forall e, linked (drv s) p e -> linked (drv s') p e) ->
  (forall i, holds i x = true -> is_Some (ifaces (drv s) !! i) -> is_Some (ifaces (drv s') !! i)) ->
  (forall p, x = Acquire p -> seen_by t p s -> seen_by t p s') -> thread_ok s' t x.
Proof.
  intros (Hn & Hd & Hx) Hnext Harr Hsh Hl Ha Hs. split; [lia|]. split; [intros i Hi; by apply Harr, Hd|].
  destruct x; cbn [subject holds] in *; try done.
  1-2: eapply at_kept; [by apply Hsh| |done]; intros e e' (_ & _ & _ & ->); done.
  - destruct Hx as [Hx1 Hx2]. split; [|by apply (Ha i); [rewrite bool_decide_eq_true_2|]].
    eapply at_kept; [by apply Hsh| |done]. intros e e' (_ & _ & _ & ->). done.
  - by apply Hs.
  - eapply at_kept; [by apply Hsh| |done]. intros e e' (_ & E1 & E2 & _) Hle. apply (Hl p eq_refl) in Hle. destruct Hle as (i & y & L1 & L2 & L3).
    exists i, y. by rewrite E1, E2.
  - destruct Hx as [Hx1 Hx2]. split; [lia|]. eapply at_kept; [by apply Hsh| |done]. intros e e' (_ & -> & _ & _). done.
Qed.
Lemma link_frame s s' i k p : link_ok s i k p -> shape_kept (drv s) (drv s') p ->
  (forall t c, threads s !! t = Some (Marked p c) -> threads s' !! t = Some (Marked p c)) -> link_ok s' i k p.
Proof.
  intros H Hs Ht. eapply at_kept; [done| |done]. intros e e' (-> & -> & -> & _) (H1 & H2 & H3). split_and!; [done..|].
  destruct H3 as [H3|[H3 (t & c & H4)]]; [by left|right]. split; [done|]. exists t, c. by apply Ht.
Qed.

Lemma seen_kept s s' t p : seen_by t p s -> entries_kept (drv s) (drv s') ->
  (forall t' i since c, threads s !! t' = Some (Waiting p i since c) -> threads s' !! t' = Some (Waiting p i since c)) -> seen_by t p s'.
Proof.
  intros [(i & x & k & H1 & H2)|(t' & i & since & c & H1 & H2)] He Ht.
  - destruct (He i x k p H1 H2) as (x' & H1' & H2'). left. by exists i, x', k.
  - right. exists t', i, since, c. split; [by apply Ht|done].
Qed.
Lemma iface_frame xi xi' s s' i x x' : iface_ok xi s i x -> if_endpoints x' = if_endpoints x ->
  let refs s x xi := if_refcount x - one (bool_decide (omx_ifaces (drv s) !! if_index x = Some i)) - cnt (attached_to i) (endpoints (drv s)) -
    cnt (holds i) (threads s) - ex xi i in
  refs s' x' xi' = refs s x xi -> 0 < if_refcount x' ->
  endpoint_nr x' - cnt (waits i) (threads s') = endpoint_nr x - cnt (waits i) (threads s) ->
  (forall k p, if_endpoints x !! k = Some p -> link_ok s i k p -> link_ok s' i k p) -> iface_ok xi' s' i x'.
Proof. intros [H1 H2 H3 H4] E refs Hr Hp Hn Hl. unfold refs in Hr. split; rewrite ?E; [lia|done|lia|]. intros k p Hk. by apply Hl, H4. Qed.

(** A step that is about one endpoint and one thread. *)
Definition untouched (xp xp' xw xw' : option positive) s s' p : Prop :=
  endpoints (drv s') !! p = endpoints (drv s) !! p /\ counts_kept (threads s) (threads s') p /\
  scheduled p (destroy_works (drv s')) + ex xw' p = scheduled p (destroy_works (drv s)) + ex xw p /\ ex xp' p = ex xp p /\
  (p ∈ files s' <-> p ∈ files s) /\ (p ∈ stale s' <-> p ∈ stale s).
Definition linked_others d d' p : Prop :=
  forall i x k q, q <> p -> ifaces d !! i = Some x -> if_endpoints x !! k = Some q -> exists x', ifaces d' !! i = Some x' /\ if_endpoints x' !! k = Some q.
Lemma inv_frame p t0 xp xp' xi xi' xw xw' s s' : inv xp xi xw s -> next s <= next s' ->
  (forall q, q <> p -> untouched xp xp' xw xw' s s' q) -> place_ok xp' xw' s' p ->
  (forall t, t <> t0 -> threads s' !! t = threads s !! t) -> (forall x, threads s' !! t0 = Some x -> thread_ok s' t0 x) ->
  (forall t x, t <> t0 -> threads s !! t = Some x -> subject x = Some p ->
    shape_kept (drv s) (drv s') p /\ forall e, linked (drv s) p e -> linked (drv s') p e) ->
  linked_others (drv s) (drv s') p -> ifaces_kept (drv s) (drv s') ->
  (forall i t x, t <> t0 -> threads s !! t = Some x -> detaching x = Some i -> in_array (drv s) i -> in_array (drv s') i) ->
  (forall t q, t <> t0 -> threads s !! t = Some (Acquire q) -> seen_by t q s -> seen_by t q s') ->
  (forall i x, ifaces (drv s') !! i = Some x -> iface_ok xi' s' i x) ->
  (forall b i, omx_ifaces (drv s') !! b = Some i -> exists x, ifaces (drv s') !! i = Some x /\ if_index x = b) ->
  (forall t x t' x', threads s' !! t = Some x -> threads s' !! t' = Some x' -> detaches x = true -> detaches x' = true -> t = t') ->
  (forall i, xi' = Some i -> is_Some (ifaces (drv s') !! i)) -> inv xp' xi' xw' s'.
Proof.
  intros [I1 I2 I3 I4 I5 I6] Hn Hq Hp Ht Ht0 Hsub Hl Ha Harr Hs Hi Hb Hd Hxi. split; try done.
  - intros q. destruct (decide (q = p)) as [->|Hne]; [done|]. destruct (Hq q Hne) as (U1 & U2 & U3 & U4 & U5 & U6).
    eapply place_frame; [exact (I1 q)|done..| |].
    + intros e He _ (i & x & L1 & L2 & L3). destruct (Hl i x _ q Hne L2 L3) as (x' & L2' & L3'). by exists i, x'.
    + intros e i _ _. apply Ha.
  - intros t x Hx. destruct (decide (t = t0)) as [->|Hne]; [by apply Ht0|]. rewrite Ht in Hx by done.
    apply (thread_frame s); [by apply I2|done|by intros i; apply (Harr i t x)| | |by intros i _; apply Ha|by intros q ->; apply Hs].
    + intros q Hsq. destruct (decide (q = p)) as [->|Hqp]; [by apply (Hsub t x)|]. destruct (Hq q Hqp) as (U1 & _).
      intros e He. exists e. split; [by rewrite U1|done].
    + intros q Hsq. destruct (decide (q = p)) as [->|Hqp]; [by apply (Hsub t x)|].
      intros e (i & y & L1 & L2 & L3). destruct (Hl i y _ q Hqp L2 L3) as (y' & L2' & L3'). by exists i, y'.
Qed.

(** The thread [t] becomes [o]. *)
Definition upd (t : Z) (o : option pc) T : gmap Z pc := match o with Some y => <[t := y]> T | None => delete t T end.
Lemma upd_eq t o T : upd t o T !! t = o.
Proof. destruct o; [apply lookup_insert_eq|apply lookup_delete_eq]. Qed.
Lemma upd_ne t o T t' : t' <> t -> upd t o T !! t' = T !! t'.
Proof. intros H. destruct o; [by apply lookup_insert_ne|by apply lookup_delete_ne]. Qed.
Lemma cnt_upd f t o T : cnt f (upd t o T) = cnt f T - val f (T !! t) + val f o.
Proof. destruct o; cbn [upd val]; [apply cnt_insert|rewrite cnt_delete; lia]. Qed.
Definition endpoint_of (x : pc) : option positive :=
  match x with
  | OpenInit p _ _ | OpenReady p _ _ | OpenRef p _ | Running p | Acquire p | Using p | Marked p _ | Waiting p _ _ _ | Done p _ => Some p
  | Detach _ _ => None
  end.
Definition about p (o : option pc) : Prop := forall x q, o = Some x -> endpoint_of x = Some q -> q = p.
Lemma about_val p q o : about p o -> q <> p ->
  val (opens q) o = 0 /\ val (runs q) o = 0 /\ val (uses q) o = 0 /\ val (closes q) o = 0.
Proof.
  intros Ha Hne. destruct o as [x|]; [|done]. pose proof (Ha x) as H.
  destruct x; cbn [val opens runs uses closes endpoint_of] in *; try done; specialize (H _ eq_refl eq_refl) as ->;
    rewrite bool_decide_eq_false_2 by done; done.
Qed.
Lemma upd_counts p t o T q : about p (T !! t) -> about p o -> q <> p -> counts_kept T (upd t o T) q.
Proof.
  intros H1 H2 Hne. destruct (about_val p q _ H1 Hne) as (E1 & E2 & E3 & E4). destruct (about_val p q _ H2 Hne) as (F1 & F2 & F3 & F4).
  unfold counts_kept. rewrite !cnt_upd, E1, E2, E3, E4, F1, F2, F3, F4. lia.
Qed.
Definition may_detach s (t : Z) (o : option pc) : Prop :=
  forall y, o = Some y -> detaches y = true -> no_thread detaches s \/ exists x, threads s !! t = Some x /\ detaches x = true.
Lemma upd_detach s t o : (forall t x t' x', threads s !! t = Some x -> threads s !! t' = Some x' -> detaches x = true -> detaches x' = true -> t = t') ->
  may_detach s t o -> forall t1 x t' x', upd t o (threads s) !! t1 = Some x -> upd t o (threads s) !! t' = Some x' ->
  detaches x = true -> detaches x' = true -> t1 = t'.
Proof.
  intros Hu Hm. assert (Hw : forall t1 x x', t1 <> t -> upd t o (threads s) !! t1 = Some x -> o = Some x' -> detaches x = true -> detaches x' = true -> False).
  { intros t1 x x' Hne Hx Ho D1 D2. rewrite upd_ne in Hx by done. destruct (Hm x' Ho D2) as [Hno|(y & Hy & D3)].
    - by rewrite (Hno t1 x Hx) in D1.
    - apply Hne. by apply (Hu t1 x t y). }
  intros t1 x t' x' H1 H2 D1 D2. destruct (decide (t1 = t)) as [->|N1], (decide (t' = t)) as [->|N2]; [done|..].
  - rewrite upd_eq in H1. destruct (Hw t' x' x N2 H2 H1 D2 D1).
  - rewrite upd_eq in H2. destruct (Hw t1 x x' N1 H1 H2 D1 D2).
  - rewrite upd_ne in H1, H2 by done. by apply (Hu t1 x t' x').
Qed.

(** Only the endpoint [p] and the thread [t] change. *)
Record only (xp xp' xw xw' : option positive) s s' p (t : Z) (o : option pc) : Prop := {
  on_threads : threads s' = upd t o (threads s);
  on_old : about p (threads s !! t); on_new : about p o; on_next : next s <= next s';
  on_others q : q <> p -> endpoints (drv s') !! q = endpoints (drv s) !! q /\
    scheduled q (destroy_works (drv s')) + ex xw' q = scheduled q (destroy_works (drv s)) + ex xw q /\ ex xp' q = ex xp q /\
    (q ∈ files s' <-> q ∈ files s) /\ (q ∈ stale s' <-> q ∈ stale s);
  on_detach : may_detach s t o;
  on_ok y : o = Some y -> thread_ok s' t y;
  on_subject t' x : t' <> t -> threads s !! t' = Some x -> subject x = Some p -> shape_kept (drv s) (drv s') p }.
Lemma only_frame xp xp' xi xi' xw xw' s s' p t o : inv xp xi xw s -> only xp xp' xw xw' s s' p t o -> place_ok xp' xw' s' p ->
  (forall t' x, t' <> t -> threads s !! t' = Some x -> subject x = Some p -> forall e, linked (drv s) p e -> linked (drv s') p e) ->
  linked_others (drv s) (drv s') p -> ifaces_kept (drv s) (drv s') ->
  (forall i t' x, t' <> t -> threads s !! t' = Some x -> detaching x = Some i -> in_array (drv s) i -> in_array (drv s') i) ->
  (forall t' q, t' <> t -> threads s !! t' = Some (Acquire q) -> seen_by t' q s -> seen_by t' q s') ->
  (forall i x, ifaces (drv s') !! i = Some x -> iface_ok xi' s' i x) ->
  (forall b i, omx_ifaces (drv s') !! b = Some i -> exists x, ifaces (drv s') !! i = Some x /\ if_index x = b) ->
  (forall i, xi' = Some i -> is_Some (ifaces (drv s') !! i)) -> inv xp' xi' xw' s'.
Proof.
  intros I [O1 O2 O3 O4 O5 O6 O7 O8] Hp Hlk Hl Ha Harr Hs Hi Hb Hxi.
  apply (inv_frame p t xp xp' xi xi' xw xw' s s'); try done.
  - intros q Hne. destruct (O5 q Hne) as (U1 & U2 & U3 & U4 & U5). split; [done|]. split; [rewrite O1; by apply (upd_counts p)|done].
  - intros t' Hne. by rewrite O1, upd_ne.
  - intros y Hy. rewrite O1, upd_eq in Hy. by apply O7.
  - intros t' x Hne Hx Hsub. split; [by apply (O8 t' x)|by apply (Hlk t' x)].
  - rewrite O1. apply upd_detach; [apply I|done].
Qed.
(** The interfaces do not change. *)
Lemma only_endpoint xp xp' xi xi' xw xw' s s' p t o : inv xp xi xw s -> only xp xp' xw xw' s s' p t o -> place_ok xp' xw' s' p ->
  ifaces (drv s') = ifaces (drv s) -> omx_ifaces (drv s') = omx_ifaces (drv s) ->
  (forall q i since c, threads s !! t = Some (Waiting q i since c) -> False) ->
  (forall q c, threads s !! t = Some (Marked q c) -> False) ->
  (forall q i since c, o = Some (Waiting q i since c) -> False) ->
  (forall i x k, ifaces (drv s) !! i = Some x -> if_endpoints x !! k = Some p -> link_ok s i k p -> link_ok s' i k p) ->
  (forall i, cnt (attached_to i) (endpoints (drv s')) + val (holds i) o + ex xi' i =
    cnt (attached_to i) (endpoints (drv s)) + val (holds i) (threads s !! t) + ex xi i) ->
  (forall i, xi' = Some i -> is_Some (ifaces (drv s) !! i)) -> inv xp' xi' xw' s'.
Proof.
  intros I O Hp E1 E2 Hw Hm Hwo Hl Hr Hxi. pose proof (on_threads _ _ _ _ _ _ _ _ _ O) as Ht.
  assert (Hlk : forall q e, linked (drv s) q e -> linked (drv s') q e) by (intros q e (i & x & H); exists i, x; by rewrite E1).
  apply (only_frame xp xp' xi xi' xw xw' s s' p t o I O Hp).
  - intros t' x _ _ _ e. apply Hlk.
  - intros i x k q _ Hx Hk. exists x. by rewrite E1.
  - intros i. by rewrite E1.
  - intros i _ _ _ _ _. unfold in_array. by rewrite E1, E2.
  - intros t' q Hne _ Hseen. apply (seen_kept s); [done|intros i x k q'; rewrite E1; by eauto|].
    intros t1 i since c Hx. rewrite Ht. rewrite upd_ne; [done|]. intros ->. by eapply Hw.
  - intros i x. rewrite E1. intros Hx. pose proof (in_ifaces _ _ _ _ I i x Hx) as Hio.
    apply (iface_frame xi xi' s s' i x x Hio); [done| |apply Hio| |].
    + cbv zeta. rewrite E2, Ht, cnt_upd. specialize (Hr i). lia.
    + rewrite Ht, cnt_upd. assert (val (waits i) (threads s !! t) = 0) as ->.
      { destruct (threads s !! t) as [[]|] eqn:E; try done. destruct (Hw _ _ _ _ eq_refl). }
      assert (val (waits i) o = 0) as -> by (destruct o as [[]|]; try done; by destruct (Hwo _ _ _ _ eq_refl)). lia.
    + intros k q Hk Hlink. destruct (decide (q = p)) as [->|Hne]; [by apply (Hl i x)|].
      apply (link_frame s); [done| |].
      * intros e He. exists e. split; [|done]. by rewrite (proj1 (on_others _ _ _ _ _ _ _ _ _ O q Hne)).
      * intros t1 c Hx1. rewrite Ht, upd_ne; [done|]. intros ->. by eapply Hm.
  - rewrite E1, E2. apply I.
  - by rewrite E1.
Qed.

(** ** Opening *)

Lemma fresh_thread xp xi xw s : inv xp xi xw s -> threads s !! next s = None.
Proof. intros I. destruct (threads s !! next s) as [x|] eqn:E; [|done]. apply (in_threads _ _ _ _ I) in E as [E _]. lia. Qed.
Lemma no_change t T : T !! t = None -> T = upd t None T.
Proof. intros H. cbn. by rewrite delete_id. Qed.
Lemma attached_put i p e d : cnt (attached_to i) (endpoints (put_endpoint p e d)) =
  cnt (attached_to i) (endpoints d) - val (attached_to i) (endpoints d !! p) + Z.b2z (attached_to i e).
Proof. apply cnt_insert. Qed.
Lemma attached_none i e : iface e = None -> attached_to i e = false.
Proof. intros E. unfold attached_to. by rewrite E. Qed.
Lemma put_others p e d q : q <> p -> endpoints (put_endpoint p e d) !! q = endpoints d !! q.
Proof. intros H. apply lookup_insert_ne. done. Qed.
Lemma put_at p e d : endpoints (put_endpoint p e d) !! p = Some e.
Proof. apply lookup_insert_eq. Qed.
(** An endpoint that is not open is in no table. *)
Lemma link_status s i k p : link_ok s i k p -> exists e, endpoints (drv s) !! p = Some e /\ iface e = Some i /\ (status e = OK \/ status e = CLOSING).
Proof. intros (e & He & H1 & H2 & H3). exists e. split; [done|]. split; [done|]. destruct H3 as [H3|[H3 _]]; by auto. Qed.
(** The parts of a state after a step. *)
Record parts s' (d : driver) T (n : Z) (F S : gset positive) : Prop := {
  pa_drv : drv s' = d; pa_threads : threads s' = T; pa_next : next s' = n; pa_files : files s' = F; pa_stale : stale s' = S }.
Lemma dev_open_inv p s : inv None None None s -> endpoints (drv s) !! p = None -> p ∉ files s ->
  inv None None None (set_drv (omx_miscdev_open p (drv s)) s <| files ::= union {[ p ]} |>).
Proof.
  intros I He Hf. pose proof (in_places _ _ _ _ I p) as Hp. unfold place_ok in Hp. rewrite He in Hp.
  pose proof (fresh_thread _ _ _ _ I) as Hn. set (s' := set_drv _ s <| files ::= _ |>).
  assert (E : parts s' (omx_miscdev_open p (drv s)) (threads s) (next s) ({[ p ]} ∪ files s) (stale s)) by done. clearbody s'. destruct E as [E1 E2 E3 E4 E5].
  assert (O : only None None None None s s' p (next s) None).
  { split; rewrite ?E1, ?E2, ?E3, ?E4, ?E5; [by apply no_change|by rewrite Hn|done|lia| |done|done|].
    - intros q Hne. split; [by apply put_others|]. cbn. set_solver.
    - intros t x _ Hx Hsub e. congruence. }
  apply (only_endpoint None None None None None None s s' p (next s) None I O); rewrite ?E1, ?Hn; try done.
  - destruct Hp as [W1 W2 W3 W4 W5 W6]. unfold place_ok. rewrite E1. unfold omx_miscdev_open. rewrite put_at.
    split; rewrite ?E1, ?E2, ?E4, ?E5; cbn; unfold owned; cbn; rewrite ?W2, ?W3, ?W4, ?W5; try done; try lia.
    split; [set_solver|]. by rewrite <- W6.
  - intros i x k Hx Hk (e & E & _). congruence.
  - intros i. unfold omx_miscdev_open. rewrite attached_put, He, attached_none by done. cbn [val Z.b2z]. lia.
Qed.

Lemma opens_facts x p : opens p x = true -> endpoint_of x = Some p /\ runs p x = false /\ uses p x = false /\ closes p x = false /\
  detaches x = false /\ (forall q i n c, x <> Waiting q i n c) /\ forall q c, x <> Marked q c.
Proof. destruct x; cbn; try done; intros H%bool_decide_eq_true; subst; done. Qed.
Lemma subject_counted x p : subject x = Some p -> opens p x = true \/ closes p x = true.
Proof. destruct x; cbn; try done; intros [= ->]; rewrite bool_decide_eq_true_2 by done; by auto. Qed.
(** The threads other than [t] that the endpoint concerns. *)
Lemma others_none f t T : cnt f T = val f (T !! t) -> forall t' x, t' <> t -> T !! t' = Some x -> f x = false.
Proof. intros H t' x Hne Hx. apply (cnt_zero f (delete t T) t'); [rewrite cnt_delete; lia|]. by rewrite lookup_delete_ne. Qed.
Definition opener p (o : option pc) : Prop := forall x, o = Some x -> opens p x = true.
Lemma opener_vals p o : opener p o -> about p o /\ val (runs p) o = 0 /\ val (uses p) o = 0 /\ val (closes p) o = 0 /\
  (forall x, o = Some x -> detaches x = false) /\ (forall q i n c, o <> Some (Waiting q i n c)) /\ forall q c, o <> Some (Marked q c).
Proof.
  intros H. destruct o as [x|]; [|done]. destruct (opens_facts x p (H x eq_refl)) as (F1 & F2 & F3 & F4 & F5 & F6 & F7). cbn [val]. rewrite F2, F3, F4.
  split; [intros y q [= <-]; congruence|]. split_and!; try done; [by intros y [= <-]|by intros q i n c [= E]; destruct (F6 q i n c)|by intros q c [= E]; destruct (F7 q c)].
Qed.
Lemma opener_inv p t o e e' n' xi xi' s s' : inv None xi None s -> endpoints (drv s) !! p = Some e ->
  parts s' (put_endpoint p e' (drv s)) (upd t o (threads s)) n' (files s) (stale s) -> next s <= n' ->
  opener p (threads s !! t) -> opener p o -> val (opens p) (threads s !! t) = one (bool_decide (status e = INITIALIZING)) ->
  val (opens p) o = one (bool_decide (status e' = INITIALIZING)) ->
  status e = FREE \/ status e = INITIALIZING -> status e' = FREE /\ buffers e' = [] \/ status e' = INITIALIZING ->
  refcount e' = refcount e -> iface e' = None -> (forall y, o = Some y -> thread_ok s' t y) ->
  (forall i, val (holds i) o + ex xi' i = val (holds i) (threads s !! t) + ex xi i) ->
  (forall i, xi' = Some i -> is_Some (ifaces (drv s) !! i)) -> inv None xi' None s'.
Proof.
  intros I He [E1 E2 E3 E4 E5] Hn Ho Ho' Hv Hv' Hst Hst' Hrc Hif Hok Hh Hxi.
  pose proof (in_places _ _ _ _ I p) as Hp. unfold place_ok in Hp. rewrite He in Hp. destruct Hp as [P1 P2 P3 P4 P5 P6 P7 P8 P9].
  destruct (opener_vals p _ Ho) as (A1 & A2 & A3 & A4 & A5 & A6 & A7). destruct (opener_vals p _ Ho') as (B1 & B2 & B3 & B4 & B5 & B6 & B7).
  assert (Hc0 : cnt (closes p) (threads s) = 0 /\ cnt (uses p) (threads s) = 0 /\ iface e = None /\ refcount e = 1 /\ cnt (runs p) (threads s) = 0 /\
    p ∈ files s /\ p ∉ stale s).
  { assert (Hnc : status e <> CLOSING) by by destruct Hst as [-> | ->]. assert (Hno : status e <> OK) by by destruct Hst as [-> | ->].
    assert (Hown : owned (threads s) p e = 1) by by unfold owned; destruct Hst as [-> | ->].
    rewrite bool_decide_eq_false_2 in P5 by done. cbn in P5. rewrite Hown, ex_None in P1.
    assert (iface e = None /\ cnt (uses p) (threads s) = 0) as [U1 U2] by (destruct Hst as [E|E]; rewrite E in P8; tauto).
    destruct (P6 Hnc). split_and!; try done; [lia|lia|by apply P4]. }
  destruct Hc0 as (C1 & C2 & C3 & C4 & C5 & C6 & C7).
  assert (O : only None None None None s s' p t o).
  { split; rewrite ?E1, ?E2, ?E3, ?E4, ?E5; try done.
    - intros q Hne. split; [by apply put_others|done].
    - intros y Hy Hd. by rewrite (B5 y Hy) in Hd.
    - intros t' x Hne Hx Hsub. exfalso. destruct (subject_counted x p Hsub) as [Hs|Hs].
      + assert (Hv0 : cnt (opens p) (threads s) = val (opens p) (threads s !! t)) by by rewrite P3, Hv.
        by rewrite (others_none (opens p) t (threads s) Hv0 t' x Hne Hx) in Hs.
      + rewrite (cnt_zero _ _ _ _ C1 Hx) in Hs. done. }
  apply (only_endpoint None None xi xi' None None s s' p t o I O); rewrite ?E1; try done.
  - unfold place_ok. rewrite E1, put_at. split; rewrite ?E1, ?E2, ?E4, ?E5, ?cnt_upd, ?A2, ?A3, ?A4, ?B2, ?B3, ?B4, ?Hv, ?Hv', ?C1, ?C2, ?C5, ?Hrc; try done.
    + unfold owned. rewrite C4. by destruct Hst' as [[-> _]| ->].
    + rewrite P3. lia.
    + by destruct Hst' as [[-> _]| ->].
    + by destruct Hst' as [[-> _]| ->].
    + by destruct Hst' as [[-> ?]| ->].
    + intros i Hi. congruence.
  - intros i x k Hx Hk Hl. exfalso. apply link_status in Hl as (e1 & He1 & _ & Hs). assert (e1 = e) by congruence. subst e1. by destruct Hst as [E|E], Hs as [Hs|Hs]; congruence.
  - intros i. rewrite attached_put, He, (attached_none i e'), <- Z.add_assoc, Hh by done. cbn [val]. rewrite attached_none by done. cbn. lia.
Qed.

(** ** References to interfaces *)

Lemma put_iface_others i x d j : j <> i -> ifaces (put_iface i x d) !! j = ifaces d !! j.
Proof. intros H. apply lookup_insert_ne. done. Qed.
Lemma put_iface_at i x d : ifaces (put_iface i x d) !! i = Some x.
Proof. apply lookup_insert_eq. Qed.
Lemma iface_inv i x x' xp xi xi' xw s : inv xp xi xw s -> ifaces (drv s) !! i = Some x ->
  if_endpoints x' = if_endpoints x -> if_index x' = if_index x -> endpoint_nr x' = endpoint_nr x ->
  if_refcount x' - ex xi' i = if_refcount x - ex xi i -> 0 < if_refcount x' -> (forall j, j <> i -> ex xi' j = ex xi j) ->
  (forall j, xi' = Some j -> j = i \/ xi = Some j) -> inv xp xi' xw (set_drv (put_iface i x' (drv s)) s).
Proof.
  intros I Hx Hen Hid Hnr Hr Hpos Hxi Hxe. set (s' := set_drv _ s).
  assert (Hk : forall j y, ifaces (drv s) !! j = Some y -> exists y', ifaces (drv s') !! j = Some y' /\ if_endpoints y' = if_endpoints y /\ if_index y' = if_index y).
  { intros j y Hy. destruct (decide (j = i)) as [->|Hne]; [exists x'|exists y].
    - split; [apply put_iface_at|]. by replace y with x by congruence.
    - split; [by etransitivity; [apply put_iface_others|]|done]. }
  assert (He : entries_kept (drv s) (drv s')) by (intros j y k q Hy Hq; destruct (Hk j y Hy) as (y' & Hy' & E & _); exists y'; by rewrite E).
  assert (Ha : ifaces_kept (drv s) (drv s')) by (intros j [y Hy]; destruct (Hk j y Hy) as (y' & Hy' & _); by exists y').
  split.
  - intros q. eapply place_frame; [apply (in_places _ _ _ _ I q)|done..| |].
    + intros e _ _. by apply linked_kept.
    + intros e j _ _. apply Ha.
  - intros t y Hy. apply (thread_frame s); [by apply (in_threads _ _ _ _ I)|done| | | | |].
    + intros j _ (z & Hz & Hb). destruct (Hk j z Hz) as (z' & Hz' & _ & E). exists z'. by rewrite E.
    + intros q _ e He'. by exists e.
    + intros q _ e. by apply linked_kept.
    + intros j _. apply Ha.
    + intros q _ Hseen. by apply (seen_kept s).
  - intros j y Hy. destruct (decide (j = i)) as [->|Hne].
    + assert (y = x') as -> by (assert (E : ifaces (drv s') !! i = Some x') by apply put_iface_at; congruence).
      pose proof (in_ifaces _ _ _ _ I i x Hx) as Hio. apply (iface_frame xi xi' s s' i x x' Hio); [done| |done| |].
      * cbv zeta. rewrite Hid. change (omx_ifaces (drv s')) with (omx_ifaces (drv s)). change (threads s') with (threads s).
        change (endpoints (drv s')) with (endpoints (drv s)). lia.
      * change (threads s') with (threads s). lia.
      * intros k q _ Hl. apply (link_frame s); [done|intros e He'; by exists e|done].
    + assert (Hy0 : ifaces (drv s) !! j = Some y) by (rewrite <- Hy; symmetry; by apply put_iface_others).
      pose proof (in_ifaces _ _ _ _ I j y Hy0) as Hio. apply (iface_frame xi xi' s s' j y y Hio); [done| |apply Hio|done|].
      * cbv zeta. change (omx_ifaces (drv s')) with (omx_ifaces (drv s)). change (threads s') with (threads s).
        change (endpoints (drv s')) with (endpoints (drv s)). rewrite Hxi by done. lia.
      * intros k q _ Hl. apply (link_frame s); [done|intros e He'; by exists e|done].
  - intros b j Hb. destruct (in_attached _ _ _ _ I b j Hb) as (y & Hy & E). destruct (Hk j y Hy) as (y' & Hy' & _ & E'). exists y'. by rewrite E'.
  - apply I.
  - intros j Hj. destruct (Hxe j Hj) as [->|Hj']; [by exists x'; apply put_iface_at|]. by apply Ha, (in_extra _ _ _ _ I).
Qed.
Lemma iface_delete_inv i x xp xw s : inv xp (Some i) xw s -> ifaces (drv s) !! i = Some x -> if_refcount x = 1 ->
  inv xp None xw (set_drv (__omx_iface_last_release i (drv s)) s).
Proof.
  intros I Hx Hr. set (s' := set_drv _ s). destruct (in_ifaces _ _ _ _ I i x Hx) as [R1 R2 R3 R4]. rewrite Hr, ex_same in R1.
  pose proof (cnt_ge0 (attached_to i) (endpoints (drv s))). pose proof (cnt_ge0 (holds i) (threads s)).
  assert (Hun : omx_ifaces (drv s) !! if_index x <> Some i) by (intros E; rewrite bool_decide_eq_true_2 in R1 by done; cbn in R1; lia).
  rewrite bool_decide_eq_false_2 in R1 by done. cbn in R1.
  assert (Hc0 : cnt (attached_to i) (endpoints (drv s)) = 0) by lia. assert (Hh0 : cnt (holds i) (threads s) = 0) by lia.
  assert (Hno : forall q e, endpoints (drv s) !! q = Some e -> iface e <> Some i).
  { intros q e He E. pose proof (cnt_zero _ _ _ _ Hc0 He) as Hf. unfold attached_to in Hf. by apply bool_decide_eq_false in Hf. }
  assert (Hk : forall j, j <> i -> ifaces (drv s') !! j = ifaces (drv s) !! j) by (intros j Hne; by apply lookup_delete_ne).
  assert (Hlink : forall j y k q, ifaces (drv s) !! j = Some y -> if_endpoints y !! k = Some q -> j <> i).
  { intros j y k q Hy Hq ->. destruct (io_links _ _ _ _ (in_ifaces _ _ _ _ I i y Hy) k q Hq) as (e & He & E & _). by apply (Hno q e). }
  assert (Hlk : forall q e, endpoints (drv s) !! q = Some e -> linked (drv s) q e -> linked (drv s') q e).
  { intros q e He (j & y & L1 & L2 & L3). exists j, y. rewrite Hk; [done|]. intros ->. by apply (Hno q e). }
  split.
  - intros q. eapply place_frame; [apply (in_places _ _ _ _ I q)|done..| |].
    + intros e He _. by apply Hlk.
    + intros e j He E. rewrite Hk; [done|]. intros ->. by apply (Hno q e).
  - intros t y Hy. apply (thread_frame s); [by apply (in_threads _ _ _ _ I)|done| | | | |].
    + intros j _ (z & Hz & Hb). exists z. rewrite Hk; [done|]. intros ->. apply Hun. by replace x with z by congruence.
    + intros q _ e He'. by exists e.
    + intros q _ e (j & z & L1 & L2 & L3). exists j, z. rewrite Hk; [done|]. by apply (Hlink j z (endpoint_index e) q).
    + intros j Hj. rewrite Hk; [done|]. intros ->. by rewrite (cnt_zero _ _ _ _ Hh0 Hy) in Hj.
    + intros q _ Hseen. apply (seen_kept s); [done| |done]. intros j z k q' Hz Hq. exists z. rewrite Hk; [done|]. by apply (Hlink j z k q').
  - intros j y Hy. destruct (decide (j = i)) as [->|Hne]; [assert (ifaces (drv s') !! i = None) by apply lookup_delete_eq; congruence|].
    rewrite Hk in Hy by done. pose proof (in_ifaces _ _ _ _ I j y Hy) as Hio.
    apply (iface_frame (Some i) None s s' j y y Hio); [done| |apply Hio|done|].
    + cbv zeta. rewrite ex_other, ex_None by congruence. done.
    + intros k q _ Hl. apply (link_frame s); [done|intros e He'; by exists e|done].
  - intros b j Hb. destruct (in_attached _ _ _ _ I b j Hb) as (y & Hy & E). exists y. rewrite Hk; [done|]. intros ->.
    apply Hun. by replace x with y by congruence; rewrite E.
  - apply I.
  - done.
Qed.
Lemma iface_release_inv i xp xw s : inv xp (Some i) xw s ->
  exists d', omx_iface_release i (drv s) = Some d' /\ endpoints d' = endpoints (drv s) /\ destroy_works d' = destroy_works (drv s) /\
    inv xp None xw (set_drv d' s).
Proof.
  intros I. destruct (in_extra _ _ _ _ I i eq_refl) as [x Hx]. unfold omx_iface_release. rewrite Hx. cbn [mbind option_bind].
  destruct (Z.eqb_spec (if_refcount x - 1) 0) as [E|E].
  - eexists. split; [done|]. split; [done|]. split; [done|]. apply (iface_delete_inv i x); [done|done|lia].
  - eexists. split; [done|]. split; [done|]. split; [done|]. pose proof (io_alive _ _ _ _ (in_ifaces _ _ _ _ I i x Hx)) as Hp.
    set (x' := x <| if_refcount ::= _ |>). assert (Er : if_refcount x' = if_refcount x - 1) by done.
    apply (iface_inv i x x' xp (Some i) None xw s I Hx); [done|done|done| |lia| |done].
    + rewrite ex_same, ex_None, Er. lia.
    + intros j Hne. by rewrite ex_other, ex_None by congruence.
Qed.

(** ** Steps of an opening *)

Lemma put_twice p e e' d : put_endpoint p e' (put_endpoint p e d) = put_endpoint p e' d.
Proof. unfold put_endpoint. destruct d as [m f a w]. change (Driver (<[p := e']> (<[p := e]> m)) f a w = Driver (<[p := e']> m) f a w). by rewrite insert_insert_eq. Qed.
Lemma opening_endpoint xp xi xw s t x p : inv xp xi xw s -> threads s !! t = Some x -> opens p x = true ->
  exists e, endpoints (drv s) !! p = Some e /\ status e = INITIALIZING /\ val (opens p) (threads s !! t) = one (bool_decide (status e = INITIALIZING)) /\
    iface e = None /\ refcount e = 1 + ex xp p.
Proof.
  intros I Hx Ho. pose proof (in_places _ _ _ _ I p) as Hp. unfold place_ok in Hp. pose proof (cnt_ge1 (opens p) _ _ _ Hx Ho) as H1.
  destruct (endpoints (drv s) !! p) as [e|]; [|pose proof (do_opens _ _ _ Hp); lia]. exists e. destruct Hp as [P1 P2 P3 P4 P5 P6 P7 P8 P9].
  assert (E : status e = INITIALIZING) by (destruct (decide (status e = INITIALIZING)); [done|rewrite bool_decide_eq_false_2 in P3 by done; cbn in P3; lia]). rewrite E in P8. unfold owned in P1. rewrite E in P1.
  split_and!; [done|done|rewrite Hx, E; cbn [val]; by rewrite Ho, bool_decide_eq_true_2|apply P8|lia].
Qed.
Lemma alloc_spec ok : omx_endpoint_alloc_resources ok = (0, all_buffers) \/ omx_endpoint_alloc_resources ok = (ENOMEM, []).
Proof. unfold omx_endpoint_alloc_resources. repeat case_match; by auto. Qed.
Lemma free_spec e l : buffers e = all_buffers \/ buffers e = [] -> buffers (omx_endpoint_free_resources e <| status := l |>) = [].
Proof. intros H. change (foldr vfree (buffers e) [Recvq_pages; Sendq_pages; Unexp_eventq; Exp_eventq; Recvq; Sendq; Userdesc] = []). by destruct H as [-> | ->]. Qed.
Lemma opener_here p x o : opens p x = true -> o = Some x -> opener p o.
Proof. intros H -> y [= <-]. done. Qed.

Lemma open_init_inv t s p board index b ok : inv None None None s -> threads s !! t = Some (OpenInit p board index) ->
  forall max imax, exists s', go max imax t b ok (OpenInit p board index) s = Some s' /\ inv None None None s'.
Proof.
  intros I Hx max imax. assert (Ho : opens p (OpenInit p board index) = true) by by apply bool_decide_eq_true_2.
  destruct (opening_endpoint _ _ _ _ _ _ _ I Hx Ho) as (e & He & Hs & Hv & Hi & _). cbn [go]. unfold open_alloc. rewrite He. cbn [mbind option_bind].
  destruct (in_threads _ _ _ _ I _ _ Hx) as (Hlt & _ & _).
  destruct (alloc_spec ok) as [-> | ->]; cbn [Z.ltb Z.compare ENOMEM mbind option_bind].
  - eexists. split; [reflexivity|]. eapply (opener_inv p t (Some (OpenReady p board index)) e (e <| buffers := all_buffers |>) (next s) None None s); try done.
    + by apply (opener_here p (OpenInit p board index)).
    + apply (opener_here p (OpenReady p board index)); [by apply bool_decide_eq_true_2|done].
    + cbn [val opens]. change (status (e <| buffers := all_buffers |>)) with (status e). by rewrite Hs, !bool_decide_eq_true_2.
    + by right.
    + by right.
    + intros y [= <-]. split; [done|]. split; [done|]. exists (e <| buffers := all_buffers |>). split; [apply put_at|done].
    + intros i. by rewrite Hx.
  - unfold set_free. rewrite put_at. cbn [mbind option_bind]. rewrite put_twice. eexists. split; [reflexivity|].
    eapply (opener_inv p t None e _ (next s) None None s); try done.
    + by apply (opener_here p (OpenInit p board index)).
    + by right.
    + by left.
    + intros i. by rewrite Hx.
Qed.

Lemma opening_buffers s t x p : thread_ok s t x -> (match x with OpenReady q _ _ | OpenRef q _ => q = p | _ => False end) ->
  forall e, endpoints (drv s) !! p = Some e -> buffers e = all_buffers.
Proof.
  intros (_ & _ & Hx) Hp e He. destruct x as [| | | | | | | | |]; try done; subst; [destruct Hx as (e' & He' & E)|destruct Hx as [(e' & He' & E) _]]; congruence.
Qed.
Lemma holds_ex p i j : Z.b2z (holds j (OpenRef p i)) + ex None j = 0 + ex (Some i) j.
Proof.
  cbn [holds]. rewrite ex_None. destruct (decide (i = j)) as [->|Hne]; [by rewrite bool_decide_eq_true_2, ex_same|].
  by rewrite bool_decide_eq_false_2, ex_other.
Qed.
Lemma open_ready_inv t s p board index b ok : inv None None None s -> threads s !! t = Some (OpenReady p board index) ->
  forall max imax, exists s', go max imax t b ok (OpenReady p board index) s = Some s' /\ inv None None None s'.
Proof.
  intros I Hx max imax. assert (Ho : opens p (OpenReady p board index) = true) by by apply bool_decide_eq_true_2.
  destruct (opening_endpoint _ _ _ _ _ _ _ I Hx Ho) as (e & He & Hs & Hv & Hi & _). pose proof (in_threads _ _ _ _ I _ _ Hx) as Hth.
  pose proof (opening_buffers _ _ _ p Hth eq_refl e He) as Hb. cbn [go]. unfold attach_find. rewrite He. cbn [mbind option_bind].
  rewrite (bool_decide_eq_true_2 _ Hs). cbn [negb bug_on mbind option_bind].
  set (e1 := e <| board_index := board |> <| endpoint_index := index |>).
  assert (Hfail : exists s', (d ← free_and_set_free p (put_endpoint p e1 (drv s)); Some (set_drv d (finish t s))) = Some s' /\ inv None None None s').
  { unfold free_and_set_free. rewrite put_at. cbn [mbind option_bind]. rewrite put_twice. eexists. split; [reflexivity|].
    eapply (opener_inv p t None e _ (next s) None None s); try done.
    - by apply (opener_here p (OpenReady p board index)).
    - by right.
    - left. split; [done|]. apply free_spec. by left.
    - intros i. by rewrite Hx. }
  destruct (max <=? index); [exact Hfail|]. destruct (imax <=? board); [exact Hfail|].
  change (omx_ifaces (put_endpoint p e1 (drv s))) with (omx_ifaces (drv s)). destruct (omx_ifaces (drv s) !! board) as [i|] eqn:Hb'; [|exact Hfail].
  change (ifaces (put_endpoint p e1 (drv s))) with (ifaces (drv s)). destruct (in_attached _ _ _ _ I board i Hb') as (x & Hxi & Hid).
  rewrite Hxi. cbn [mbind option_bind]. destruct (if_closing x); [exact Hfail|].
  unfold omx_iface_reacquire. change (ifaces (put_endpoint p e1 (drv s))) with (ifaces (drv s)). rewrite Hxi. cbn [mbind option_bind].
  eexists. split; [reflexivity|]. set (x' := x <| if_refcount ::= _ |>). pose proof (io_alive _ _ _ _ (in_ifaces _ _ _ _ I i x Hxi)) as Hal.
  assert (I1 : inv None (Some i) None (set_drv (put_iface i x' (drv s)) s)).
  { apply (iface_inv i x x' None None (Some i) None s I Hxi); try done.
    - rewrite ex_same, ex_None. change (if_refcount x') with (if_refcount x + 1). lia.
    - change (if_refcount x') with (if_refcount x + 1). lia.
    - intros j Hne. by rewrite ex_other, ex_None by congruence.
    - intros j [= <-]. by left. }
  eapply (opener_inv p t (Some (OpenRef p i)) e e1 (next s) (Some i) None _ _ I1); try done.
  - by apply (opener_here p (OpenReady p board index)).
  - apply (opener_here p (OpenRef p i)); [by apply bool_decide_eq_true_2|done].
  - cbn [val opens]. change (status e1) with (status e). by rewrite Hs, !bool_decide_eq_true_2.
  - by right.
  - by right.
  - intros y [= <-]. destruct Hth as (Hlt & _ & _). split; [done|]. split; [done|]. split; [exists e1; split; [apply put_at|done]|].
    exists x'. apply put_iface_at.
  - intros j. change (threads (set_drv (put_iface i x' (drv s)) s)) with (threads s). rewrite Hx. cbn [val]. apply holds_ex.
Qed.
Lemma release_put i p e d : omx_iface_release i (put_endpoint p e d) = put_endpoint p e <$> omx_iface_release i d.
Proof.
  unfold omx_iface_release. change (ifaces (put_endpoint p e d)) with (ifaces d). destruct (ifaces d !! i) as [x|]; [|done].
  cbn [mbind option_bind fmap option_fmap option_map]. by destruct (_ =? 0).
Qed.

(** The counts of an endpoint that is being opened. *)
Lemma opening_counts xp xi xw s t x p e : inv xp xi xw s -> threads s !! t = Some x -> opens p x = true -> endpoints (drv s) !! p = Some e ->
  cnt (opens p) (threads s) = 1 /\ cnt (uses p) (threads s) = 0 /\ cnt (closes p) (threads s) = 0 /\ cnt (runs p) (threads s) = 0 /\
  p ∈ files s /\ p ∉ stale s /\ scheduled p (destroy_works (drv s)) + ex xw p = one (refcount e =? 0).
Proof.
  intros I Hx Ho He. destruct (opening_endpoint _ _ _ _ _ _ _ I Hx Ho) as (e' & He' & Hs & Hv & Hi & Hr). assert (e' = e) as -> by congruence.
  pose proof (in_places _ _ _ _ I p) as Hp. unfold place_ok in Hp. rewrite He in Hp. destruct Hp as [P1 P2 P3 P4 P5 P6 P7 P8 P9].
  rewrite Hs in *. rewrite bool_decide_eq_true_2 in P3 by done. rewrite bool_decide_eq_false_2 in P5 by done. cbn in P3, P5. destruct P6; [done|].
  split_and!; try done; [apply P8|lia|by apply P4].
Qed.
Lemma link_open_inv t s p i e x : inv None None None s -> threads s !! t = Some (OpenRef p i) -> endpoints (drv s) !! p = Some e ->
  ifaces (drv s) !! i = Some x -> if_endpoints x !! endpoint_index e = None ->
  inv None None None (set_drv (put_endpoint p (e <| iface := Some i |> <| status := OK |>)
    (put_iface i (x <| if_endpoints ::= <[endpoint_index e := p]> |> <| endpoint_nr ::= fun n => n + 1 |>) (drv s))) (goto t (Running p) s)).
Proof.
  intros I Hx He Hxi Hnone. assert (Ho : opens p (OpenRef p i) = true) by by apply bool_decide_eq_true_2.
  destruct (opening_endpoint _ _ _ _ _ _ _ I Hx Ho) as (e0 & He0 & Hs & Hv & Hi & Hr). assert (e0 = e) as -> by congruence.
  destruct (opening_counts _ _ _ _ _ _ _ _ I Hx Ho He) as (C1 & C2 & C3 & C4 & C5 & C6 & C7).
  pose proof (in_threads _ _ _ _ I _ _ Hx) as Hth. pose proof (opening_buffers _ _ _ p Hth eq_refl e He) as Hb.
  set (e' := e <| iface := Some i |> <| status := OK |>). set (x' := x <| if_endpoints ::= _ |> <| endpoint_nr ::= _ |>). set (s' := set_drv _ _).
  assert (E : parts s' (put_endpoint p e' (put_iface i x' (drv s))) (upd t (Some (Running p)) (threads s)) (next s) (files s) (stale s)) by done.
  assert (Ei : ifaces (drv s') !! i = Some x') by (apply put_iface_at).
  assert (Eo : forall j, j <> i -> ifaces (drv s') !! j = ifaces (drv s) !! j) by (intros j; apply put_iface_others).
  assert (Ee : endpoints (drv s') !! p = Some e') by apply put_at.
  assert (Eeo : forall q, q <> p -> endpoints (drv s') !! q = endpoints (drv s) !! q) by (intros q Hq; exact (put_others p e' (put_iface i x' (drv s)) q Hq)).
  assert (Ea : forall j, cnt (attached_to j) (endpoints (drv s')) = cnt (attached_to j) (endpoints (drv s)) + Z.b2z (bool_decide (i = j))).
  { intros j. change (endpoints (drv s')) with (endpoints (put_endpoint p e' (drv s))). rewrite attached_put, He. cbn [val]. rewrite attached_none by done.
    unfold attached_to. change (iface e') with (Some i). destruct (decide (i = j)) as [->|Hne]; [by rewrite !bool_decide_eq_true_2, Z.sub_0_r|].
    by rewrite !bool_decide_eq_false_2, Z.sub_0_r by congruence. }
  destruct E as [E1 E2 E3 E4 E5]. assert (Eb : omx_ifaces (drv s') = omx_ifaces (drv s)) by done. assert (Ew : destroy_works (drv s') = destroy_works (drv s)) by done.
  clearbody s'. clear E1.
  assert (Hx' : if_endpoints x' = <[endpoint_index e := p]> (if_endpoints x) /\ if_refcount x' = if_refcount x /\ if_index x' = if_index x /\
    endpoint_nr x' = endpoint_nr x + 1) by done. destruct Hx' as (X1 & X2 & X3 & X4). clearbody x'.
  assert (He' : refcount e' = refcount e /\ status e' = OK /\ iface e' = Some i /\ endpoint_index e' = endpoint_index e /\ buffers e' = buffers e) by done.
  destruct He' as (F1 & F2 & F3 & F4 & F5). clearbody e'.
  assert (Hk : linked_others (drv s) (drv s') p).
  { intros j y k q _ Hy Hq. destruct (decide (j = i)) as [->|Hne]; [|exists y; by rewrite Eo].
    exists x'. split; [done|]. assert (y = x) as -> by congruence. rewrite X1. rewrite lookup_insert_ne; [done|]. intros <-. congruence. }
  assert (Hno : forall j y k, ifaces (drv s) !! j = Some y -> if_endpoints y !! k = Some p -> False).
  { intros j y k Hy Hk'. apply (io_links _ _ _ _ (in_ifaces _ _ _ _ I j y Hy)) in Hk'. apply link_status in Hk' as (e1 & H1 & H2 & _). congruence. }
  assert (O : only None None None None s s' p t (Some (Running p))).
  { split; rewrite ?E2, ?E3, ?E4, ?E5, ?Ew; try done.
    - intros y q. rewrite Hx. by intros [= <-] [= <-].
    - by intros y q [= <-] [= <-].
    - intros q Hne. by rewrite Eeo.
    - intros y [= <-]. done.
    - intros y [= <-]. split; [rewrite E3; apply Hth|done].
    - intros t' y Hne Hy Hsub. exfalso. destruct (subject_counted y p Hsub) as [Hs'|Hs'].
      + assert (Hv0 : cnt (opens p) (threads s) = val (opens p) (threads s !! t)) by (rewrite Hx, C1; cbn [val]; by rewrite Ho).
        by rewrite (others_none (opens p) t (threads s) Hv0 t' y Hne Hy) in Hs'.
      + by rewrite (cnt_zero _ _ _ _ C3 Hy) in Hs'. }
  assert (Hents : entries_kept (drv s) (drv s')).
  { intros j y k q Hy Hq. apply (Hk j y k q); [|done|done]. intros ->. by apply (Hno j y k). }
  apply (only_frame None None None None None None s s' p t _ I O); try done.
  - unfold place_ok. rewrite Ee. split; rewrite ?E2, ?E4, ?E5, ?Ew, ?cnt_upd, ?Hx, ?F1, ?F2, ?F5, ?C1, ?C2, ?C3, ?C4; try done; cbn [val opens runs uses closes].
    + unfold owned. rewrite F2, Hr. done.
    + rewrite bool_decide_eq_true_2 by done. by rewrite bool_decide_eq_false_2.
    + split; [|done]. exists i, x'. rewrite F4, X1. split; [done|]. split; [done|]. apply lookup_insert_eq.
    + intros j. rewrite F3. intros [= <-]. by exists x'.
  - intros t' y Hne Hy Hsub. exfalso. destruct (on_subject _ _ _ _ _ _ _ _ _ O t' y Hne Hy Hsub e He) as (e1 & H1 & S1 & S2 & _). congruence.
  - intros j [y Hy]. destruct (decide (j = i)) as [->|Hne]; [by exists x'|]. exists y. by rewrite Eo.
  - intros j t' y Hne Hy Hd (z & Hz & Hz'). destruct (decide (j = i)) as [->|Hji]; [exists x'|exists z]; rewrite ?Eb, ?Eo by done; [|done].
    split; [done|]. rewrite X3. by replace x with z by congruence.
  - intros t' q Hne Hy Hseen. apply (seen_kept s); [done|done|]. intros t1 j since c Hw. rewrite E2, upd_ne; [done|]. intros ->. congruence.
  - assert (Hlf : forall j k q, link_ok s j k q -> q <> p -> link_ok s' j k q).
    { intros j k q Hl Hne. apply (link_frame s); [done| |].
      - intros e1 He1. exists e1. by rewrite Eeo.
      - intros t1 c Hm. rewrite E2, upd_ne; [done|]. intros ->. congruence. }
    intros j y Hy. destruct (decide (j = i)) as [->|Hne].
    + assert (y = x') as -> by congruence. destruct (in_ifaces _ _ _ _ I i x Hxi) as [R1 R2 R3 R4].
      split; rewrite ?E2, ?cnt_upd, ?Hx, ?Ea, ?Eb, ?X2, ?X3, ?X4; cbn [val holds waits]; rewrite ?ex_None, ?bool_decide_eq_true_2 in * by done; cbn [Z.b2z]; try lia.
      * rewrite X1, map_size_insert_None by done. lia.
      * rewrite X1. intros k q. destruct (decide (k = endpoint_index e)) as [->|Hke].
        -- rewrite lookup_insert_eq. intros [= <-]. exists e'. split_and!; try done. by left.
        -- rewrite lookup_insert_ne by done. intros Hq. apply Hlf; [by apply R4|]. intros ->. by apply (Hno i x k).
    + rewrite Eo in Hy by done. destruct (in_ifaces _ _ _ _ I j y Hy) as [R1 R2 R3 R4].
      split; rewrite ?E2, ?cnt_upd, ?Hx, ?Ea, ?Eb; cbn [val holds waits]; rewrite ?(bool_decide_eq_false_2 (i = j)) by congruence; cbn [Z.b2z]; try done; try lia.
      intros k q Hq. apply Hlf; [by apply R4|]. intros ->. by apply (Hno j y k).
  - intros b j. rewrite Eb. intros Hbj. destruct (in_attached _ _ _ _ I b j Hbj) as (y & Hy & Eid). destruct (decide (j = i)) as [->|Hne].
    + exists x'. split; [done|]. rewrite X3. by replace x with y by congruence.
    + exists y. by rewrite Eo.
Qed.

Lemma open_ref_inv t s p i b ok : inv None None None s -> threads s !! t = Some (OpenRef p i) ->
  forall max imax, exists s', go max imax t b ok (OpenRef p i) s = Some s' /\ inv None None None s'.
Proof.
  intros I Hx max imax. assert (Ho : opens p (OpenRef p i) = true) by by apply bool_decide_eq_true_2.
  destruct (opening_endpoint _ _ _ _ _ _ _ I Hx Ho) as (e & He & Hs & Hv & Hi & _). pose proof (in_threads _ _ _ _ I _ _ Hx) as Hth.
  pose proof (opening_buffers _ _ _ p Hth eq_refl e He) as Hb. destruct Hth as (_ & _ & _ & [x Hxi]). cbn [go]. unfold attach_link. rewrite He, Hxi.
  cbn [mbind option_bind]. destruct (if_endpoints x !! endpoint_index e) as [q|] eqn:Hq.
  2:{ eexists. split; [reflexivity|]. by apply link_open_inv. }
  set (e' := omx_endpoint_free_resources e <| status := FREE |>). set (s1 := set_drv (put_endpoint p e' (drv s)) (finish t s)).
  assert (I1 : inv None (Some i) None s1).
  { eapply (opener_inv p t None e e' (next s) None (Some i) s); try done.
    - by apply (opener_here p (OpenRef p i)).
    - by right.
    - left. split; [done|]. apply free_spec. by left.
    - intros j. rewrite Hx. cbn [val]. pose proof (holds_ex p i j). lia.
    - intros j [= <-]. by exists x. }
  destruct (iface_release_inv i None None s1 I1) as (d' & Hd & _ & _ & I2). change (drv s1) with (put_endpoint p e' (drv s)) in Hd.
  rewrite release_put in Hd. destruct (omx_iface_release i (drv s)) as [d1|] eqn:Hd1; [|done]. injection Hd as <-. cbn [mbind option_bind Z.ltb Z.compare EBUSY].
  assert (Hed : endpoints d1 = endpoints (drv s)).
  { unfold omx_iface_release in Hd1. rewrite Hxi in Hd1. cbn [mbind option_bind] in Hd1. destruct (_ =? 0); by injection Hd1 as <-. }
  unfold free_and_set_free. rewrite Hed, He. cbn [mbind option_bind]. eexists. split; [reflexivity|exact I2].
Qed.
Lemma open_start_inv p board index s : inv None None None s -> p ∈ files s -> p ∉ stale s ->
  exists s', step 0 0 (Open p board index) s = Some s' /\ inv None None None s'.
Proof.
  intros I Hf Hst. pose proof (in_places _ _ _ _ I p) as Hp. unfold place_ok in Hp. cbn [step]. unfold open_start.
  destruct (endpoints (drv s) !! p) as [e|] eqn:He; [|by apply (do_file _ _ _ Hp) in Hf]. cbn [mbind option_bind].
  destruct (decide (status e = FREE)) as [Hs|Hs]; [|by exists s]. eexists. split; [reflexivity|].
  pose proof (fresh_thread _ _ _ _ I) as Hn. set (e' := e <| status := INITIALIZING |>). destruct Hp as [P1 P2 P3 P4 P5 P6 P7 P8 P9]. rewrite Hs in P8.
  eapply (opener_inv p (next s) (Some (OpenInit p board index)) e e' (Z.succ (next s)) None None s); try done; rewrite ?Hn; try done.
  - lia.
  - apply (opener_here p (OpenInit p board index)); [by apply bool_decide_eq_true_2|done].
  - by rewrite Hs, bool_decide_eq_false_2.
  - cbn [val opens]. change (status e') with INITIALIZING. by rewrite !bool_decide_eq_true_2.
  - by left.
  - by right.
  - apply P8.
  - intros y [= <-]. split; [change (next s < Z.succ (next s)); lia|]. split; [done|]. exists e'. split; [apply put_at|apply P8].
Qed.

(** ** Commands and sections *)

(** A thread that counts for nothing but commands. *)
Definition light (o : option pc) : Prop :=
  forall x, o = Some x -> match x with Running _ | Acquire _ | Detach _ _ => True | _ => False end.
Lemma light_vals o : light o -> (forall p, val (opens p) o = 0 /\ val (uses p) o = 0 /\ val (closes p) o = 0) /\
  (forall i, val (holds i) o = 0 /\ val (waits i) o = 0) /\ (forall q i n c, o <> Some (Waiting q i n c)) /\ forall q c, o <> Some (Marked q c).
Proof. intros H. destruct o as [x|]; [|done]. specialize (H x eq_refl). by destruct x. Qed.
Lemma light_inv p t o n' xp xi xw s s' : inv xp xi xw s -> parts s' (drv s) (upd t o (threads s)) n' (files s) (stale s) -> next s <= n' ->
  light (threads s !! t) -> light o -> about p (threads s !! t) -> about p o -> may_detach s t o ->
  val (runs p) (threads s !! t) = val (runs p) o \/ (exists e, endpoints (drv s) !! p = Some e /\ status e = OK) ->
  (forall y, o = Some y -> thread_ok s' t y) -> inv xp xi xw s'.
Proof.
  intros I [E1 E2 E3 E4 E5] Hn L1 L2 A1 A2 Hm Hr Hok. destruct (light_vals _ L1) as (U1 & U2 & U3 & U4). destruct (light_vals _ L2) as (V1 & V2 & V3 & V4).
  assert (Hc : cnt (opens p) (threads s') = cnt (opens p) (threads s) /\ cnt (uses p) (threads s') = cnt (uses p) (threads s) /\
    cnt (closes p) (threads s') = cnt (closes p) (threads s)).
  { destruct (U1 p) as (F1 & F2 & F3), (V1 p) as (G1 & G2 & G3). rewrite E2, !cnt_upd, F1, F2, F3, G1, G2, G3. lia. }
  destruct Hc as (C1 & C2 & C3).
  assert (O : only xp xp xw xw s s' p t o).
  { split; rewrite ?E1, ?E2, ?E3, ?E4, ?E5; try done. intros t' x _ _ _ e He. by exists e. }
  apply (only_endpoint xp xp xi xi xw xw s s' p t o I O); rewrite ?E1; try done.
  - pose proof (in_places _ _ _ _ I p) as Hp. unfold place_ok in *. rewrite E1. destruct (endpoints (drv s) !! p) as [e|] eqn:He.
    + destruct Hp as [P1 P2 P3 P4 P5 P6 P7 P8 P9]. split; unfold owned; rewrite ?E1, ?E4, ?E5, ?C1, ?C2, ?C3; try done.
      intros Hs. rewrite E2, cnt_upd, (P4 Hs). destruct Hr as [->|(e1 & He1 & Hs1)]; [lia|congruence].
    + destruct Hp as [W1 W2 W3 W4 W5 W6]. split; rewrite ?E1, ?E4, ?E5, ?C1, ?C2, ?C3; try done.
      rewrite E2, cnt_upd, W3. destruct Hr as [->|(e1 & He1 & Hs1)]; [lia|congruence].
  - intros i x k Hx Hk Hl. apply (link_frame s); [done|intros e He; exists e; by rewrite E1|]. intros t' c Ht. rewrite E2, upd_ne; [done|].
    intros ->. by destruct (U4 p c).
  - intros i. destruct (U2 i) as [-> _], (V2 i) as [-> _]. lia.
  - apply I.
Qed.
Lemma live_file xp xi xw s p : inv xp xi xw s -> p ∈ files s -> p ∉ stale s -> exists e, endpoints (drv s) !! p = Some e /\ status e <> CLOSING.
Proof.
  intros I Hf Hs. pose proof (in_places _ _ _ _ I p) as Hp. unfold place_ok in Hp. destruct (endpoints (drv s) !! p) as [e|].
  - exists e. split; [done|]. intros E. by apply (eo_stale _ _ _ _ _ Hp E) in Hf.
  - by apply (do_file _ _ _ Hp) in Hf.
Qed.
Lemma ioctl_inv p s max : inv None None None s -> p ∈ files s -> p ∉ stale s -> exists s', step max 0 (Ioctl p) s = Some s' /\ inv None None None s'.
Proof.
  intros I Hf Hst. destruct (live_file _ _ _ _ _ I Hf Hst) as (e & He & _). cbn [step]. unfold ioctl_start. rewrite He. cbn [mbind option_bind].
  destruct (decide (status e = OK)) as [Hs|Hs]; [|by exists s]. eexists. split; [reflexivity|]. pose proof (fresh_thread _ _ _ _ I) as Hn.
  eapply (light_inv p (next s) (Some (Running p)) (Z.succ (next s)) _ _ _ s); try done; rewrite ?Hn; try done.
  - lia.
  - by intros x [= <-].
  - by intros x q [= <-] [= <-].
  - by intros x [= <-].
  - right. by exists e.
  - intros y [= <-]. split; [change (next s < Z.succ (next s)); lia|done].
Qed.
Lemma running_endpoint xp xi xw s t p : inv xp xi xw s -> threads s !! t = Some (Running p) ->
  exists e, endpoints (drv s) !! p = Some e /\ status e = OK.
Proof.
  intros I Hx. pose proof (in_places _ _ _ _ I p) as Hp. unfold place_ok in Hp.
  assert (H1 : 1 <= cnt (runs p) (threads s)) by (apply (cnt_ge1 _ _ t (Running p)); [done|by apply bool_decide_eq_true_2]).
  destruct (endpoints (drv s) !! p) as [e|]; [|pose proof (do_runs _ _ _ Hp); lia]. exists e. split; [done|].
  destruct (decide (status e = OK)) as [|Hs]; [done|]. pose proof (eo_runs _ _ _ _ _ Hp Hs). lia.
Qed.
Lemma running_inv t s p b ok : inv None None None s -> threads s !! t = Some (Running p) ->
  forall max imax, exists s', go max imax t b ok (Running p) s = Some s' /\ inv None None None s'.
Proof.
  intros I Hx max imax. destruct (running_endpoint _ _ _ _ _ _ I Hx) as (e & He & Hs). pose proof (in_places _ _ _ _ I p) as Hp. unfold place_ok in Hp.
  rewrite He in Hp. pose proof (eo_status _ _ _ _ _ Hp) as P8. rewrite Hs in P8. destruct P8 as [(i & x & L1 & L2 & L3) Hb].
  cbn [go]. unfold endpoint_use. rewrite He. cbn [mbind option_bind]. rewrite L1. cbn [mbind option_bind]. rewrite L2. cbn [mbind option_bind].
  rewrite (bool_decide_eq_true_2 _ Hb). cbn [negb bug_on mbind option_bind]. eexists. split; [reflexivity|].
  eapply (light_inv p t None (next s) _ _ _ s); try done; rewrite ?Hx.
  - by intros y [= <-].
  - by intros y q [= <-] [= <-].
  - right. by exists e.
Qed.

(** ** References to endpoints *)

(** A thread that counts for references only. *)
Definition counted (o : option pc) : Prop :=
  forall x, o = Some x -> match x with Acquire _ | Using _ | Done _ _ | Detach _ _ => True | _ => False end.
Lemma counted_vals o : counted o -> (forall p, val (opens p) o = 0 /\ val (runs p) o = 0) /\
  (forall i, val (holds i) o = 0 /\ val (waits i) o = 0) /\ (forall q i n c, o <> Some (Waiting q i n c)) /\ forall q c, o <> Some (Marked q c).
Proof. intros H. destruct o as [x|]; [|done]. specialize (H x eq_refl). by destruct x. Qed.
Definition ended T p e (o o' : option pc) : Z :=
  val (uses p) o - val (uses p) o' + match status e with CLOSING => val (closes p) o - val (closes p) o' | _ => 0 end.
Lemma refs_inv p t o e r s s' : inv None None None s -> endpoints (drv s) !! p = Some e ->
  parts s' (put_endpoint p (e <| refcount := r |>) (drv s)) (upd t o (threads s)) (next s) (files s) (stale s) ->
  counted (threads s !! t) -> counted o -> about p (threads s !! t) -> about p o -> may_detach s t o -> (forall y, o = Some y -> thread_ok s' t y) ->
  status e = OK \/ status e = CLOSING -> 0 < r -> 0 < refcount e -> r = refcount e - ended (threads s) p e (threads s !! t) o ->
  val (closes p) o <= val (closes p) (threads s !! t) -> inv None None None s'.
Proof.
  intros I He [E1 E2 E3 E4 E5] L1 L2 A1 A2 Hm Hok Hst Hr Hr0 Href Hcl.
  destruct (counted_vals _ L1) as (U1 & U2 & U3 & U4). destruct (counted_vals _ L2) as (V1 & V2 & V3 & V4).
  destruct (U1 p) as [F1 F2], (V1 p) as [G1 G2]. set (e' := e <| refcount := r |>) in *.
  assert (Hsh : same_shape e e') by done. assert (Hr' : refcount e' = r) by done. assert (Hi' : forall i, attached_to i e' = attached_to i e) by done. clearbody e'.
  assert (Hk : forall q, shape_kept (drv s) (drv s') q).
  { intros q e1 He1. destruct (decide (q = p)) as [->|Hne].
    - exists e'. rewrite E1, put_at. by replace e1 with e by congruence.
    - exists e1. by rewrite E1, put_others. }
  assert (O : only None None None None s s' p t o).
  { split; rewrite ?E1, ?E2, ?E3, ?E4, ?E5; try done.
    - intros q Hne. by rewrite put_others.
    - intros t' x _ _ _. rewrite <- E1. apply Hk. }
  pose proof (in_places _ _ _ _ I p) as Hp. unfold place_ok in Hp. rewrite He in Hp. destruct Hp as [P1 P2 P3 P4 P5 P6 P7 P8 P9].
  apply (only_endpoint None None None None None None s s' p t o I O); rewrite ?E1; try done.
  - unfold place_ok. rewrite E1, put_at. destruct Hsh as (S1 & S2 & S3 & S4). unfold owned, ended in *. rewrite ex_None in *.
    split; unfold owned; rewrite ?S1, ?S2, ?S4, ?Hr', ?E1, ?E2, ?E4, ?E5, ?cnt_upd, ?F1, ?F2, ?G1, ?G2, ?ex_None; try done.
    + destruct Hst as [Es|Es]; rewrite Es in *; lia.
    + change (destroy_works (put_endpoint p e' (drv s))) with (destroy_works (drv s)). rewrite P2.
      by rewrite !(proj2 (Z.eqb_neq _ _)) by lia.
    + by rewrite P3, Z.sub_0_r, Z.add_0_r.
    + intros Hs. by rewrite (P4 Hs).
    + pose proof (cnt_ge0 (closes p) (upd t o (threads s))) as Hn. rewrite cnt_upd in Hn. lia.
    + rewrite (proj2 (Z.eqb_neq r 0)) by lia. rewrite (proj2 (Z.eqb_neq _ 0)) in P8 by lia. destruct Hst as [Es|Es]; rewrite Es in *; [|done].
      destruct P8 as [(i & x & L) Hb]. split; [|done]. exists i, x. by rewrite S2, S3.
  - intros i x k Hx Hk' Hl. apply (link_frame s); [done|done|]. intros t' c Ht. rewrite E2, upd_ne; [done|].
    intros ->. by destruct (U4 p c).
  - intros i. destruct (U2 i) as [-> _], (V2 i) as [-> _]. rewrite attached_put, He. cbn [val]. rewrite Hi'. lia.
Qed.

(** The end of an endpoint: nothing knows it any more. *)
Lemma ended_counts xi xw s p e : inv None xi xw s -> endpoints (drv s) !! p = Some e -> refcount e = 0 \/ status e = FREE ->
  cnt (opens p) (threads s) = 0 /\ cnt (uses p) (threads s) = 0 /\ cnt (closes p) (threads s) = 0 /\ cnt (runs p) (threads s) = 0 /\
  iface e = None /\ status e <> OK /\ status e <> INITIALIZING.
Proof.
  intros I He Hc. pose proof (in_places _ _ _ _ I p) as Hp. unfold place_ok in Hp. rewrite He in Hp. destruct Hp as [P1 P2 P3 P4 P5 P6 P7 P8 P9].
  rewrite ex_None in P1. pose proof (cnt_ge0 (uses p) (threads s)).
  assert (Hs : status e = CLOSING /\ refcount e = 0 \/ status e = FREE).
  { destruct Hc as [Hr|Hs]; [|by right]. unfold owned in P1. destruct (status e); lia || by left. }
  assert (Hno : status e <> OK /\ status e <> INITIALIZING) by (destruct Hs as [[-> _]| ->]; done). destruct Hno as [N1 N2].
  rewrite (bool_decide_eq_false_2 _ N2) in P3. split; [done|]. unfold owned in P1.
  destruct Hs as [[Hs Hr]|Hs]; rewrite Hs in *.
  - rewrite Hr in P8. destruct P8. split_and!; try done; [lia|lia|by apply P4].
  - rewrite bool_decide_eq_false_2 in P5 by done. cbn in P5. destruct P8 as (? & ? & ?). split_and!; try done; [lia|by apply P4].
Qed.
Lemma unseen xi xw s p e : inv None xi xw s -> endpoints (drv s) !! p = Some e -> refcount e = 0 \/ status e = FREE ->
  (forall t x, threads s !! t = Some x -> endpoint_of x = Some p -> False) /\
  forall i x k, ifaces (drv s) !! i = Some x -> if_endpoints x !! k = Some p -> False.
Proof.
  intros I He Hc. destruct (ended_counts _ _ _ _ _ I He Hc) as (C1 & C2 & C3 & C4 & C5 & C6 & C7).
  assert (Hl : forall i x k, ifaces (drv s) !! i = Some x -> if_endpoints x !! k = Some p -> False).
  { intros i x k Hx Hk. apply (io_links _ _ _ _ (in_ifaces _ _ _ _ I i x Hx)) in Hk. apply link_status in Hk as (e1 & H1 & H2 & _). congruence. }
  split; [|done]. assert (Hcl : forall t x, threads s !! t = Some x -> closes p x = true -> False).
  { intros t x Hx H. by rewrite (cnt_zero _ _ _ _ C3 Hx) in H. }
  assert (Ho : forall t x, threads s !! t = Some x -> opens p x = true -> False).
  { intros t x Hx H. by rewrite (cnt_zero _ _ _ _ C1 Hx) in H. }
  intros t x Hx E. destruct x as [| | |q|q|q| | | |]; cbn in E; try done; injection E as ->.
  1-3: apply (Ho t _ Hx); by apply bool_decide_eq_true_2.
  - pose proof (cnt_zero _ _ _ _ C4 Hx) as H. cbn in H. by rewrite bool_decide_eq_true_2 in H.
  - destruct (in_threads _ _ _ _ I _ _ Hx) as (_ & _ & [(i & y & k & H1 & H2)|(t' & i & n & c & H1 & _)]).
    + by apply (Hl i y k).
    + apply (Hcl t' _ H1). by apply bool_decide_eq_true_2.
  - pose proof (cnt_zero _ _ _ _ C2 Hx) as H. cbn in H. by rewrite bool_decide_eq_true_2 in H.
  - apply (Hcl t _ Hx). by apply bool_decide_eq_true_2.
  - apply (Hcl t _ Hx). by apply bool_decide_eq_true_2.
  - apply (Hcl t _ Hx). by apply bool_decide_eq_true_2.
Qed.
Lemma endpoint_delete_inv p e w xw s s' : inv None None xw s -> endpoints (drv s) !! p = Some e -> refcount e = 0 \/ status e = FREE ->
  drv s' = (((drv s) <| endpoints ::= delete p |>) <| destroy_works := w |>) -> threads s' = threads s -> next s' = next s ->
  (forall q, q <> p -> (q ∈ files s' <-> q ∈ files s) /\ (q ∈ stale s' <-> q ∈ stale s)) -> (p ∈ files s' <-> p ∈ stale s') ->
  scheduled p w = 0 -> (forall q, q <> p -> scheduled q w = scheduled q (destroy_works (drv s)) + ex xw q) -> inv None None None s'.
Proof.
  intros I He Hc E1 E2 E3 E4 Hps Hw Hwo. destruct (ended_counts _ _ _ _ _ I He Hc) as (C1 & C2 & C3 & C4 & C5 & C6 & C7).
  destruct (unseen _ _ _ _ _ I He Hc) as [Ht Hl]. pose proof (fresh_thread _ _ _ _ I) as Hn.
  assert (F1 : endpoints (drv s') = delete p (endpoints (drv s)) /\ destroy_works (drv s') = w /\ ifaces (drv s') = ifaces (drv s) /\
    omx_ifaces (drv s') = omx_ifaces (drv s)) by by rewrite E1. destruct F1 as (F1 & F2 & F3 & F4).
  assert (O : only None None xw None s s' p (next s) None).
  { split; rewrite ?E2, ?E3, ?F1, ?F2, ?Hn; try done; [by apply no_change| |].
    - intros q Hne. rewrite lookup_delete_ne by done. split; [done|]. rewrite Hwo by done. split; [rewrite ex_None; lia|]. split; [done|by apply E4].
    - intros t x Hne Hx Hsub. exfalso. apply (Ht t x Hx). by destruct x. }
  apply (only_endpoint None None None None xw None s s' p (next s) None I O); rewrite ?F3, ?F4, ?Hn; try done.
  - unfold place_ok. rewrite F1, lookup_delete_eq. split; rewrite ?E2, ?F2, ?ex_None; lia || done.
  - intros i x k Hx Hk. by destruct (Hl i x k).
  - intros i. rewrite F1, cnt_delete, He. cbn [val]. rewrite attached_none by done. cbn. lia.
Qed.
End EndpointRefs.
