(* ===== verification/EndpointSafe.v ===== *)
(** Each part of the functions of the endpoints keeps the invariant of
    [EndpointRefs]; no endpoint is used after it was freed. *)
From S2P Require Import Prelude EndpointTable EndpointRefs.
Import EndpointTable EndpointSteps EndpointRefs.

Module EndpointSafe.
Implicit Types (p i : positive) (s : state) (e : omx_endpoint) (d : driver).

(** ** Releasing *)

(** What a thread is when a part ends: gone, or in the loop of a detachment. *)
Definition leaves (o : option pc) d : Prop := o = None \/ exists i k, o = Some (Detach i k) /\ in_array d i.
Lemma leaves_vals o d : leaves o d -> counted o /\ (forall p, about p o) /\ (forall p, val (uses p) o = 0 /\ val (closes p) o = 0).
Proof. intros [->|(i & k & -> & _)]; split_and!; try done; [by intros x [= <-]|by intros p x q [= <-]]. Qed.
Lemma leaves_ok o s s' t : leaves o (drv s') -> next s' = next s -> t < next s -> forall y, o = Some y -> thread_ok s' t y.
Proof.
  intros [->|(i & k & -> & H)] Hn Ht y [= <-]. split; [lia|]. split; [|done]. intros j [= <-]. done.
Qed.
Lemma scheduled_app p q l : scheduled p (l ++ [q]) = scheduled p l + ex (Some q) p.
Proof.
  unfold scheduled. rewrite count_occ_app. cbn [count_occ]. unfold ex. destruct (Pos.eq_dec q p) as [->|Hne].
  - rewrite bool_decide_eq_true_2 by done. cbn. lia.
  - rewrite bool_decide_eq_false_2 by congruence. cbn. lia.
Qed.
(** The destruction is scheduled. *)
Lemma work_inv p xi s : inv None xi (Some p) s -> inv None xi None (set_drv ((drv s) <| destroy_works ::= fun l => l ++ [p] |>) s).
Proof.
  intros I. set (s' := set_drv _ s). assert (E : destroy_works (drv s') = destroy_works (drv s) ++ [p]) by done.
  assert (E1 : endpoints (drv s') = endpoints (drv s) /\ ifaces (drv s') = ifaces (drv s) /\ omx_ifaces (drv s') = omx_ifaces (drv s) /\
    threads s' = threads s /\ next s' = next s /\ files s' = files s /\ stale s' = stale s) by done.
  destruct E1 as (E1 & E2 & E3 & E4 & E5 & E6 & E7). clearbody s'. pose proof (fresh_thread _ _ _ _ I) as Hn.
  assert (Hw : forall q, scheduled q (destroy_works (drv s')) + ex None q = scheduled q (destroy_works (drv s)) + ex (Some p) q).
  { intros q. rewrite E, scheduled_app, ex_None. lia. }
  assert (O : only None None (Some p) None s s' p (next s) None).
  { split; rewrite ?E1, ?E4, ?E5, ?E6, ?E7, ?Hn; try done; [by apply no_change|].
    intros t x _ _ _ e He. exists e. by rewrite E1. }
  apply (only_endpoint None None xi xi (Some p) None s s' p (next s) None I O); rewrite ?E1, ?E2, ?E3, ?Hn; try done.
  - apply (place_frame None None (Some p) None s s' p); rewrite ?E1, ?E4, ?E6, ?E7; try done; [apply (in_places _ _ _ _ I)| |].
    + intros e _ _ (i & x & H). exists i, x. by rewrite E2.
    + intros e i _ _. by rewrite E2.
  - intros i x k _ _ Hl. apply (link_frame s); [done|intros e He; exists e; by rewrite E1|by rewrite E4].
  - apply I.
Qed.
Lemma last_inv t o p e s s' : inv None None None s -> endpoints (drv s) !! p = Some e -> refcount e = 1 -> status e = CLOSING ->
  counted (threads s !! t) -> about p (threads s !! t) -> ended (threads s) p e (threads s !! t) None = 1 -> 
  leaves o (drv s) -> may_detach s t o -> t < next s ->
  parts s' (put_endpoint p (e <| refcount := 0 |> <| iface := None |>) (drv s)) (upd t o (threads s)) (next s) (files s) (stale s) ->
  forall i, iface e = Some i -> inv None (Some i) (Some p) s'.
Proof.
  intros I He Hr Hs L1 A1 Hend Hl Hm Ht [E1 E2 E3 E4 E5] i Hi. set (e' := e <| refcount := 0 |> <| iface := None |>) in *.
  assert (F : status e' = CLOSING /\ refcount e' = 0 /\ iface e' = None /\ buffers e' = buffers e) by done. destruct F as (F1 & F2 & F3 & F4). clearbody e'.
  destruct (leaves_vals _ _ Hl) as (L2 & A2 & Hv). destruct (Hv p) as [V1 V2].
  destruct (counted_vals _ L1) as (U1 & U2 & U3 & U4). destruct (counted_vals _ L2) as (W1 & W2 & W3 & W4). destruct (U1 p) as [G1 G2], (W1 p) as [K1 K2].
  assert (Ei : ifaces (drv s') = ifaces (drv s) /\ omx_ifaces (drv s') = omx_ifaces (drv s) /\ destroy_works (drv s') = destroy_works (drv s)) by by rewrite E1.
  destruct Ei as (Ei & Eb & Ew).
  pose proof (in_places _ _ _ _ I p) as Hp. unfold place_ok in Hp. rewrite He in Hp. destruct Hp as [P1 P2 P3 P4 P5 P6 P7 P8 P9].
  unfold ended in Hend. cbn [val] in Hend. unfold owned in P1. rewrite Hs, Hr, ex_None in *. rewrite bool_decide_eq_true_2 in P5 by done.
  rewrite bool_decide_eq_false_2 in P3 by done. cbn in P5, P3.
  assert (Hc : cnt (closes p) (threads s') = 0 /\ cnt (uses p) (threads s') = 0 /\ cnt (opens p) (threads s') = 0 /\ cnt (runs p) (threads s') = 0).
  { pose proof (cnt_ge0 (closes p) (threads s')) as N1. pose proof (cnt_ge0 (uses p) (threads s')) as N2. revert N1 N2.
    rewrite E2, !cnt_upd, V1, V2, G1, G2, K1, K2. rewrite P3, P4 by done. lia. }
  destruct Hc as (C1 & C2 & C3 & C4).
  assert (Hno : forall t' x, t' <> t -> threads s !! t' = Some x -> subject x = Some p -> False).
  { intros t' x Hne Hx Hsub. assert (Hx' : threads s' !! t' = Some x) by by rewrite E2, upd_ne.
    destruct (subject_counted x p Hsub) as [H|H]; [by rewrite (cnt_zero _ _ _ _ C3 Hx') in H|by rewrite (cnt_zero _ _ _ _ C1 Hx') in H]. }
  assert (O : only None None None (Some p) s s' p t o).
  { split; rewrite ?E2, ?E3, ?E4, ?E5, ?Ew; try done.
    - intros q Hne. rewrite E1, put_others by done. split; [done|]. by rewrite ex_other, ex_None by congruence.
    - apply (leaves_ok o s); try done. destruct Hl as [->|(j & k & -> & H)]; [by left|right]. exists j, k. split; [done|]. unfold in_array. by rewrite Ei, Eb.
    - intros t' x Hne Hx Hsub. by destruct (Hno t' x). }
  apply (only_endpoint None None None (Some i) None (Some p) s s' p t o I O); rewrite ?Ei, ?Eb; try done.
  - unfold place_ok. rewrite E1, put_at. split; rewrite ?E4, ?E5, ?Ew, ?F1, ?F2, ?F3, ?F4, ?C1, ?C2, ?C3, ?C4, ?ex_None, ?ex_same; try done.
    + unfold owned. by rewrite F1, C1.
    + cbn [Z.eqb one]. cbn in P2. cbn. lia.
    + split; [apply P8|done].
  - intros j x k Hx Hk (e1 & He1 & _ & _ & [H|[_ (t' & c & Hm')]]); [congruence|]. exfalso.
    destruct (decide (t' = t)) as [->|Hne]; [by destruct (U4 p c)|by apply (Hno t' _ Hne Hm')].
  - intros j. destruct (U2 j) as [-> _], (W2 j) as [-> _]. rewrite E1, attached_put, He. cbn [val]. rewrite (attached_none j e') by done.
    rewrite ex_None. unfold attached_to. rewrite Hi. unfold ex. cbn. unfold one. lia.
  - intros j [= <-]. apply P9. done.
Qed.

(** The thread has a reference. *)
Definition has_ref p (x : pc) : Prop := x = Using p \/ exists c, x = Done p c.
Lemma ref_endpoint t x p s : inv None None None s -> threads s !! t = Some x -> has_ref p x -> exists e,
  endpoints (drv s) !! p = Some e /\ (status e = OK \/ status e = CLOSING) /\ 0 < refcount e /\ ended (threads s) p e (Some x) None = 1 /\
  (refcount e = 1 -> status e = CLOSING) /\ (status e = CLOSING -> buffers e = all_buffers /\ exists i, iface e = Some i).
Proof.
  intros I Hx Hh. pose proof (in_places _ _ _ _ I p) as Hp. unfold place_ok in Hp.
  assert (Hc : uses p x = true /\ closes p x = false /\ 1 <= cnt (uses p) (threads s) \/ closes p x = true /\ uses p x = false /\ 1 <= cnt (closes p) (threads s)).
  { destruct Hh as [->|[c ->]]; [left|right]; cbn; rewrite bool_decide_eq_true_2 by done; (split; [done|]; split; [done|]);
      apply (cnt_ge1 _ _ t _ Hx); by apply bool_decide_eq_true_2. }
  destruct (endpoints (drv s) !! p) as [e|]; [|destruct Hp; lia]. exists e. split; [done|]. destruct Hp as [P1 P2 P3 P4 P5 P6 P7 P8 P9].
  pose proof (cnt_ge0 (uses p) (threads s)) as N. unfold owned in P1. unfold ended. cbn [val]. rewrite ex_None in P1.
  destruct (status e) eqn:Es.
  - rewrite bool_decide_eq_false_2 in P5 by done. cbn in P5. lia.
  - rewrite bool_decide_eq_false_2 in P5 by done. cbn in P5. lia.
  - rewrite bool_decide_eq_false_2 in P5 by done. cbn in P5. destruct Hc as [(-> & _ & Hc)|(_ & _ & Hc)]; [|lia]. cbn. split_and!; try done; [by left|lia..].
  - assert (H1 : 0 < refcount e) by lia. rewrite (proj2 (Z.eqb_neq _ 0)) in P8 by lia. destruct P8 as [P8 P8'].
    split; [by right|]. split; [done|]. split; [destruct Hc as [(-> & -> & _)|(-> & -> & _)]; done|]. done.
Qed.
Lemma release_inv t x o p b s : inv None None None s -> threads s !! t = Some x -> has_ref p x -> leaves o (drv s) -> may_detach s t o ->
  exists d', omx_endpoint_release b p (drv s) = Some d' /\ inv None None None (set_drv d' (s <| threads := upd t o (threads s) |>)).
Proof.
  intros I Hx Hh Hl Hm. destruct (ref_endpoint t x p s I Hx Hh) as (e & He & Hs & Hr & Hend & Hs1 & Hsc). destruct (leaves_vals _ _ Hl) as (L2 & A2 & Hv).
  assert (L1 : counted (threads s !! t)) by (rewrite Hx; intros y [= <-]; by destruct Hh as [->|[c ->]]).
  assert (A1 : about p (threads s !! t)) by (rewrite Hx; intros y q [= <-]; destruct Hh as [->|[c ->]]; by intros [= ->]).
  destruct (in_threads _ _ _ _ I _ _ Hx) as (Hlt & _). unfold omx_endpoint_release. rewrite He. cbn [mbind option_bind].
  destruct (Z.eqb_spec (refcount e - 1) 0) as [E1|E1].
  - assert (Hr1 : refcount e = 1) by lia. pose proof (Hs1 Hr1) as Hcl. destruct (Hsc Hcl) as [_ [i Hi]].
    unfold __omx_endpoint_last_release. rewrite put_at. cbn [mbind option_bind].
    change (iface (e <| refcount ::= fun n => n - 1 |>)) with (iface e). rewrite Hi. cbn [mbind option_bind]. rewrite put_twice.
    set (e1 := e <| refcount ::= _ |> <| iface := None |>).
    assert (Ee : e1 = e <| refcount := 0 |> <| iface := None |>).
    { unfold e1. change (Endpoint (status e) (refcount e - 1) (board_index e) (endpoint_index e) None (buffers e) =
        Endpoint (status e) 0 (board_index e) (endpoint_index e) None (buffers e)). by rewrite E1. }
    set (s1 := set_drv (put_endpoint p e1 (drv s)) (s <| threads := upd t o (threads s) |>)).
    assert (I1 : inv None (Some i) (Some p) s1).
    { apply (last_inv t o p e s s1); try done; [by rewrite Hx|]. split; try done. by rewrite <- Ee. }
    destruct (iface_release_inv i None (Some p) s1 I1) as (d' & Hd & Hde & Hdw & I2). change (put_endpoint p e1 (drv s)) with (drv s1).
    rewrite Hd. cbn [mbind option_bind]. destruct b.
    + eexists. split; [done|]. exact (work_inv p None _ I2).
    + unfold omx_endpoint_destroy_workfunc. assert (He1 : endpoints d' !! p = Some e1) by (rewrite Hde; apply put_at). rewrite He1.
      cbn [mbind option_bind]. eexists. split; [done|]. pose proof (in_places _ _ _ _ I2 p) as Hp. unfold place_ok in Hp.
      change (endpoints (drv (set_drv d' s1))) with (endpoints d') in Hp. rewrite He1 in Hp.
      assert (F : status e1 = CLOSING /\ refcount e1 = 0) by (rewrite Ee; done). destruct F as [F1 F2].
      apply (endpoint_delete_inv p e1 (destroy_works d') (Some p) (set_drv d' s1)); try done.
      * by left.
      * by apply (eo_stale _ _ _ _ _ Hp).
      * pose proof (eo_works _ _ _ _ _ Hp) as W. rewrite F2, ex_same in W. cbn in W. change (scheduled p (destroy_works d') + 1 = 1) in W. lia.
      * intros q Hne. rewrite ex_other by congruence. change (destroy_works (drv (set_drv d' s1))) with (destroy_works d'). lia.
  - eexists. split; [done|]. apply (refs_inv p t o e (refcount e - 1) s); try done; try lia.
    + intros y Hy. apply (leaves_ok o s _ t); try done.
    + unfold ended in *. rewrite Hx. destruct (Hv p) as [-> ->]. cbn [val] in *. lia.
    + destruct (Hv p) as [_ ->]. rewrite Hx. cbn [val]. destruct (closes p x); cbn; lia.
Qed.

Lemma using_inv t s p b ok : inv None None None s -> threads s !! t = Some (Using p) ->
  forall max imax, exists s', go max imax t b ok (Using p) s = Some s' /\ inv None None None s'.
Proof.
  intros I Hx max imax. destruct (release_inv t (Using p) None p b s I Hx) as (d' & Hd & I'); [by left|by left|done|].
  cbn [go]. rewrite Hd. cbn [mbind option_bind]. by eexists.
Qed.
Lemma done_inv t s p c b ok : inv None None None s -> threads s !! t = Some (Done p c) ->
  forall max imax, exists s', go max imax t b ok (Done p c) s = Some s' /\ inv None None None s'.
Proof.
  intros I Hx max imax. destruct (in_threads _ _ _ _ I _ _ Hx) as (_ & Hd & _).
  set (o := match c with None => None | Some (i, k) => Some (Detach i (k + 1)) end).
  destruct (release_inv t (Done p c) o p false s I Hx) as (d' & Hrel & I').
  - right. by exists c.
  - destruct c as [[i k]|]; [right|by left]. exists i, (k + 1). split; [done|by apply Hd].
  - intros y Hy Hdet. right. exists (Done p c). split; [done|]. unfold o in Hy. destruct c as [[i k]|]; done.
  - cbn [go]. rewrite Hrel. cbn [mbind option_bind]. eexists. split; [done|]. unfold o in I'. destruct c as [[i k]|]; exact I'.
Qed.

(** ** Acquiring *)

(** In its section, the thread finds the endpoint, with a reference. *)
Lemma seen_endpoint t p s : inv None None None s -> seen_by t p s ->
  exists e, endpoints (drv s) !! p = Some e /\ (status e = OK \/ status e = CLOSING) /\ 0 < refcount e.
Proof.
  intros I Hseen. pose proof (in_places _ _ _ _ I p) as Hp. unfold place_ok in Hp. pose proof (cnt_ge0 (uses p) (threads s)) as N.
  assert (Hc : (exists e, endpoints (drv s) !! p = Some e /\ status e = OK) \/ exists t' x, threads s !! t' = Some x /\ closes p x = true).
  { destruct Hseen as [(i & x & k & H1 & H2)|(t' & i & n & c & H1 & _)].
    - destruct (io_links _ _ _ _ (in_ifaces _ _ _ _ I i x H1) k p H2) as (e & He & _ & _ & [Hs|[_ (t' & c & H3)]]); [left; by exists e|right].
      exists t', (Marked p c). split; [done|]. by apply bool_decide_eq_true_2.
    - right. exists t', (Waiting p i n c). split; [done|]. by apply bool_decide_eq_true_2. }
  destruct Hc as [(e & He & Hs)|(t' & x & Hx & Hcl)].
  - rewrite He in Hp. exists e. split; [done|]. split; [by left|]. pose proof (eo_refs _ _ _ _ _ Hp) as P1. unfold owned in P1. rewrite Hs, ex_None in P1. lia.
  - pose proof (cnt_ge1 _ _ _ _ Hx Hcl) as H1. destruct (endpoints (drv s) !! p) as [e|]; [|pose proof (do_closes _ _ _ Hp); lia].
    exists e. split; [done|]. destruct Hp as [P1 _ _ _ P5 _ _ _ _]. rewrite ex_None in P1.
    destruct (decide (status e = CLOSING)) as [Hs|Hs]; [|rewrite bool_decide_eq_false_2 in P5 by done; cbn in P5; lia].
    split; [by right|]. unfold owned in P1. rewrite Hs in P1. lia.
Qed.
Lemma acquire_inv t s p b ok : inv None None None s -> threads s !! t = Some (Acquire p) ->
  forall max imax, exists s', go max imax t b ok (Acquire p) s = Some s' /\ inv None None None s'.
Proof.
  intros I Hx max imax. destruct (in_threads _ _ _ _ I _ _ Hx) as (Hlt & _ & Hseen). destruct (seen_endpoint t p s I Hseen) as (e & He & Hs & Hr).
  assert (L1 : counted (threads s !! t)) by (rewrite Hx; by intros y [= <-]).
  assert (A1 : about p (threads s !! t)) by (rewrite Hx; by intros y q [= <-] [= <-]).
  cbn [go]. unfold acquire_get, omx_endpoint_reacquire. rewrite He. cbn [mbind option_bind]. rewrite put_at. cbn [mbind option_bind].
  set (e1 := e <| refcount ::= _ |>). change (status e1) with (status e). destruct (decide (status e = OK)) as [Hok|Hok].
  - cbn [mbind option_bind]. eexists. split; [reflexivity|].
    apply (refs_inv p t (Some (Using p)) e (refcount e + 1) s); try done; try lia.
    + by intros y [= <-].
    + by intros y q [= <-] [= <-].
    + by intros y [= <-].
    + intros y [= <-]. by split.
    + unfold ended. rewrite Hx, Hok. cbn [val uses]. rewrite bool_decide_eq_true_2 by done. cbn. lia.
    + by rewrite Hx.
  - unfold omx_endpoint_release. rewrite put_at. cbn [mbind option_bind]. change (refcount e1) with (refcount e + 1).
    destruct (Z.eqb_spec (refcount e + 1 - 1) 0) as [E|E]; [lia|]. cbn [mbind option_bind]. rewrite put_twice. eexists. split; [reflexivity|].
    apply (refs_inv p t None e (refcount e + 1 - 1) s); try done; try lia.
    + unfold ended. rewrite Hx. cbn [val uses closes]. destruct (status e); cbn; lia.
    + by rewrite Hx.
Qed.
Lemma acquire_by_inv i index max s : inv None None None s -> attached i (drv s) ->
  exists s', step max 0 (AcquireBy i index) s = Some s' /\ inv None None None s'.
Proof.
  intros I [b Hb]. destruct (in_attached _ _ _ _ I b i Hb) as (x & Hx & _). cbn [step]. unfold acquire_read. rewrite Hx. cbn [mbind option_bind].
  destruct (max <=? index); [by exists s|]. destruct (if_endpoints x !! index) as [p|] eqn:Hp; [|by exists s].
  eexists. split; [reflexivity|]. pose proof (fresh_thread _ _ _ _ I) as Hn.
  eapply (light_inv p (next s) (Some (Acquire p)) (Z.succ (next s)) _ _ _ s); try done; rewrite ?Hn; try done.
  - lia.
  - by intros y [= <-].
  - by intros y q [= <-] [= <-].
  - by intros y [= <-].
  - by left.
  - intros y [= <-]. split; [change (next s < Z.succ (next s)); lia|]. split; [done|]. left. by exists i, x, index.
Qed.

(** ** Closing *)

(** The status becomes [CLOSING]. *)
Lemma mark_inv p t c e n' s s' : inv None None None s -> endpoints (drv s) !! p = Some e -> status e = OK -> no_thread (in_command p) s ->
  drv s' = put_endpoint p (e <| status := CLOSING |>) (drv s) -> threads s' = upd t (Some (Marked p c)) (threads s) -> next s' = n' -> next s <= n' -> t < n' ->
  (threads s !! t = None \/ exists i k, threads s !! t = Some (Detach i k)) ->
  (forall q, q <> p -> (q ∈ files s' <-> q ∈ files s) /\ (q ∈ stale s' <-> q ∈ stale s)) -> (p ∈ files s' <-> p ∈ stale s') ->
  may_detach s t (Some (Marked p c)) -> (forall i, detaching (Marked p c) = Some i -> in_array (drv s) i) -> inv None None None s'.
Proof.
  intros I He Hs Hno E1 E2 E3 Hn Ht Ho E4 E5 Hm Harr.
  set (e' := e <| status := CLOSING |>) in *.
  assert (F : status e' = CLOSING /\ refcount e' = refcount e /\ iface e' = iface e /\ endpoint_index e' = endpoint_index e /\ buffers e' = buffers e) by done.
  destruct F as (F1 & F2 & F3 & F4 & F5). clearbody e'.
  assert (Ei : ifaces (drv s') = ifaces (drv s) /\ omx_ifaces (drv s') = omx_ifaces (drv s) /\ destroy_works (drv s') = destroy_works (drv s)) by by rewrite E1.
  destruct Ei as (Ei & Eb & Ew).
  pose proof (in_places _ _ _ _ I p) as Hp. unfold place_ok in Hp. rewrite He in Hp. destruct Hp as [P1 P2 P3 P4 P5 P6 P7 P8 P9].
  unfold owned in P1. rewrite Hs, ex_None in *. rewrite !bool_decide_eq_false_2 in P3, P5 by done. cbn in P3, P5. destruct P8 as [Hl Hb].
  assert (C1 : cnt (closes p) (threads s) = 0) by lia. pose proof (cnt_ge0 (uses p) (threads s)) as N.
  assert (Cr : cnt (runs p) (threads s) = 0).
  { apply cnt_none. intros t' x Hx. pose proof (Hno t' x Hx) as H. by destruct x. }
  assert (Hv : val (opens p) (threads s !! t) = 0 /\ val (runs p) (threads s !! t) = 0 /\ val (uses p) (threads s !! t) = 0 /\ val (closes p) (threads s !! t) = 0 /\
    (forall i, val (holds i) (threads s !! t) = 0) /\ about p (threads s !! t) /\ (forall q i n c, threads s !! t = Some (Waiting q i n c) -> False) /\
    (forall q c, threads s !! t = Some (Marked q c) -> False)).
  { destruct Ho as [->|(i & k & ->)]; split_and!; try done. by intros y q [= <-]. }
  destruct Hv as (V1 & V2 & V3 & V4 & V5 & V6 & V7 & V8).
  assert (O : only None None None None s s' p t (Some (Marked p c))).
  { split; rewrite ?E2, ?E3, ?Ew; try done.
    - by intros y q [= <-] [= <-].
    - intros q Hne. rewrite E1, put_others by done. by destruct (E4 q Hne).
    - intros y [= <-]. split; [by rewrite E3|]. split; [unfold in_array; rewrite Ei, Eb; exact Harr|]. exists e'. rewrite E1, put_at. split; [done|].
      destruct Hl as (i & x & L1 & L2 & L3). exists i, x. rewrite F3, F4. change (ifaces (put_endpoint p e' (drv s))) with (ifaces (drv s)). done.
    - intros t' x Hne Hx Hsub. exfalso. destruct (subject_counted x p Hsub) as [H|H]; [by rewrite (cnt_zero _ _ _ _ P3 Hx) in H|by rewrite (cnt_zero _ _ _ _ C1 Hx) in H]. }
  apply (only_endpoint None None None None None None s s' p t (Some (Marked p c)) I O); rewrite ?Ei, ?Eb; try done.
  - unfold place_ok. rewrite E1, put_at. split; rewrite ?E2, ?Ew, ?F1, ?F2, ?F3, ?F5, ?cnt_upd, ?V1, ?V2, ?V3, ?V4, ?C1, ?Cr, ?P3, ?ex_None; try done;
      cbn [val opens runs uses closes].
    + unfold owned. rewrite F1, ?E2, ?cnt_upd, ?V4, ?C1. cbn [val closes]. rewrite ?bool_decide_eq_true_2 by done. cbn. lia.
    + rewrite !bool_decide_eq_true_2 by done. cbn. lia.
    + rewrite (proj2 (Z.eqb_neq _ 0)) by lia. split; [done|]. destruct Hl as (i & x & L1 & _). by exists i.
    + intros i Hi. rewrite Ei. by apply P9.
  - intros i x k Hx Hk (e1 & He1 & Q1 & Q2 & _). assert (e1 = e) as -> by congruence. exists e'. rewrite E1, put_at, F1, F3, F4. split_and!; try done.
    right. split; [done|]. exists t, c. by rewrite E2, upd_eq.
  - intros i. rewrite E1, attached_put, He, V5. cbn [val holds Z.b2z]. unfold attached_to. rewrite F3. lia.
Qed.
Lemma not_opening p s : inv None None None s -> no_thread (in_command p) s -> cnt (opens p) (threads s) = 0.
Proof. intros I Hno. apply cnt_none. intros t x Hx. pose proof (Hno t x Hx) as H. by destruct x. Qed.
Lemma close_inv p max s : inv None None None s -> p ∈ files s -> p ∉ stale s -> no_thread (in_command p) s ->
  exists s', step max 0 (Close p) s = Some s' /\ inv None None None s'.
Proof.
  intros I Hf Hst Hno. destruct (live_file _ _ _ _ _ I Hf Hst) as (e & He & Hs). pose proof (not_opening p s I Hno) as C0.
  pose proof (fresh_thread _ _ _ _ I) as Hn. cbn [step]. unfold close_start. rewrite He. cbn [mbind option_bind].
  pose proof (in_places _ _ _ _ I p) as Hp. unfold place_ok in Hp. rewrite He in Hp. destruct (status e) eqn:Es; [|..|done].
  - cbn [mbind option_bind]. eexists. split; [reflexivity|].
    pose proof (eo_works _ _ _ _ _ Hp) as W. pose proof (eo_refs _ _ _ _ _ Hp) as R. unfold owned in R. rewrite Es, ex_None in *.
    pose proof (cnt_ge0 (uses p) (threads s)). rewrite (proj2 (Z.eqb_neq _ 0)) in W by lia. cbn in W.
    eapply (endpoint_delete_inv p e (destroy_works (drv s)) None s); try done; [by right| | | |].
    + intros q Hne. cbn. set_solver.
    + cbn. set_solver.
    + lia.
    + intros q _. rewrite ex_None. lia.
  - pose proof (eo_opens _ _ _ _ _ Hp) as P3. rewrite Es, C0, bool_decide_eq_true_2 in P3 by done. done.
  - eexists. split; [reflexivity|]. eapply (mark_inv p (next s) None e (Z.succ (next s)) s); try done.
    + lia.
    + lia.
    + by left.
    + intros q Hne. cbn. set_solver.
    + cbn. set_solver.
    + by intros y [= <-].
Qed.

(** The thread that closes [p] goes from the table to the grace period, then to
    its end. *)
Lemma closer_inv t y y' p i x x' s s' : inv None None None s -> threads s !! t = Some y -> closes p y = true -> closes p y' = true ->
  detaching y' = detaching y -> parts s' (put_iface i x' (drv s)) (upd t (Some y') (threads s)) (next s) (files s) (stale s) ->
  ifaces (drv s) !! i = Some x -> if_index x' = if_index x -> if_refcount x' = if_refcount x ->
  endpoint_nr x' - Z.of_nat (size (if_endpoints x')) - Z.b2z (waits i y') = endpoint_nr x - Z.of_nat (size (if_endpoints x)) - Z.b2z (waits i y) ->
  (forall j, j <> i -> waits j y' = waits j y) ->
  (forall k q, q <> p -> if_endpoints x' !! k = Some q <-> if_endpoints x !! k = Some q) ->
  (forall j z k, ifaces (drv s') !! j = Some z -> if_endpoints z !! k = Some p -> False) -> thread_ok s' t y' ->
  (forall t' q, t' <> t -> threads s !! t' = Some (Acquire q) -> seen_by t' q s -> seen_by t' q s') -> inv None None None s'.
Proof.
  intros I Hy Hcy Hcy' Hdet [E1 E2 E3 E4 E5] Hx X1 X2 X3 Hw Hen Hnop Hok Hseen.
  assert (Ei : ifaces (drv s') !! i = Some x') by (rewrite E1; apply put_iface_at).
  assert (Eo : forall j, j <> i -> ifaces (drv s') !! j = ifaces (drv s) !! j) by (intros j Hne; rewrite E1; by apply put_iface_others).
  assert (Ee : endpoints (drv s') = endpoints (drv s) /\ omx_ifaces (drv s') = omx_ifaces (drv s) /\ destroy_works (drv s') = destroy_works (drv s)) by by rewrite E1.
  destruct Ee as (Ee & Eb & Ew). clear E1.
  assert (Hv : forall z, closes p z = true -> endpoint_of z = Some p /\ (forall q, opens q z = false) /\ (forall q, runs q z = false) /\ (forall q, uses q z = false) /\
    (forall j, holds j z = false)).
  { intros z Hz. destruct z; try done; apply bool_decide_eq_true in Hz; by subst. }
  destruct (Hv y Hcy) as (V0 & V1 & V2 & V3 & V4). destruct (Hv y' Hcy') as (W0 & W1 & W2 & W3 & W4).
  assert (Hdd : forall z, detaches z = true <-> is_Some (detaching z)).
  { intros z. destruct z as [| | | | | |? [[? ?]|]|? ? ? [[? ?]|]|? [[? ?]|]|]; cbn; split; try done; try (by intros [? ?]); by eexists. }
  pose proof (in_places _ _ _ _ I p) as Hp. unfold place_ok in Hp. pose proof (cnt_ge1 (closes p) _ _ _ Hy Hcy) as N1.
  destruct (endpoints (drv s) !! p) as [e|] eqn:He; [|pose proof (do_closes _ _ _ Hp); lia].
  pose proof (eo_closes _ _ _ _ _ Hp) as P5.
  assert (Hs : status e = CLOSING) by (destruct (decide (status e = CLOSING)); [done|rewrite bool_decide_eq_false_2 in P5 by done; cbn in P5; lia]).
  rewrite bool_decide_eq_true_2 in P5 by done. cbn in P5. pose proof (eo_opens _ _ _ _ _ Hp) as P3. rewrite Hs, bool_decide_eq_false_2 in P3 by done. cbn in P3.
  assert (Hno : forall t' z, t' <> t -> threads s !! t' = Some z -> subject z = Some p -> False).
  { intros t' z Hne Hz Hsub. destruct (subject_counted z p Hsub) as [H|H]; [by rewrite (cnt_zero _ _ _ _ P3 Hz) in H|].
    assert (Hc1 : cnt (closes p) (threads s) = val (closes p) (threads s !! t)) by (rewrite Hy; cbn [val]; rewrite Hcy; cbn; lia).
    by rewrite (others_none (closes p) t (threads s) Hc1 t' z Hne Hz) in H. }
  assert (Hk : ifaces_kept (drv s) (drv s')).
  { intros j [z Hz]. destruct (decide (j = i)) as [->|Hne]; [by exists x'|exists z; by rewrite Eo]. }
  assert (Hcnt : counts_kept (threads s) (threads s') p).
  { unfold counts_kept. rewrite E2, !cnt_upd, Hy. cbn [val]. rewrite V1, V2, V3, W1, W2, W3, Hcy, Hcy'. lia. }
  assert (O : only None None None None s s' p t (Some y')).
  { split; rewrite ?E2, ?E3, ?E4, ?E5, ?Ew, ?Ee; try done.
    - rewrite Hy. intros z q [= <-]. congruence.
    - intros z q [= <-]. congruence.
    - intros z [= <-] Hdz. right. exists y. split; [done|]. apply Hdd. rewrite <- Hdet. by apply Hdd.
    - by intros z [= <-].
    - intros t' z Hne Hz Hsub. by destruct (Hno t' z). }
  apply (only_frame None None None None None None s s' p t (Some y') I O); try done.
  - apply (place_frame None None None None s s' p); rewrite ?Ee, ?E4, ?E5, ?Ew; try done; [apply (in_places _ _ _ _ I)| |].
    + congruence.
    + intros e1 j _ _. apply Hk.
  - intros t' z Hne Hz Hsub. by destruct (Hno t' z).
  - intros j z k q Hne Hz Hq. destruct (decide (j = i)) as [->|Hji]; [|exists z; by rewrite Eo]. exists x'. split; [done|].
    apply Hen; [done|]. by replace x with z by congruence.
  - intros j t' z _ _ _ (w & Hw' & Hb). destruct (decide (j = i)) as [->|Hji]; [exists x'|exists w; by rewrite Eb, Eo].
    rewrite Eb, X1. split; [done|]. by replace x with w by congruence.
  - assert (Hlf : forall j k q, q <> p -> link_ok s j k q -> link_ok s' j k q).
    { intros j k q Hne Hl. apply (link_frame s); [done|intros e1 He1; exists e1; by rewrite Ee|]. intros t1 c Hm. rewrite E2, upd_ne; [done|].
      intros ->. assert (y = Marked q c) as -> by congruence. apply bool_decide_eq_true in Hcy. done. }
    intros j z Hz. assert (Hz' : exists z0, ifaces (drv s) !! j = Some z0 /\ if_index z = if_index z0 /\ if_refcount z = if_refcount z0 /\ endpoint_nr z - Z.of_nat (size (if_endpoints z)) - Z.b2z (waits j y') = endpoint_nr z0 - Z.of_nat (size (if_endpoints z0)) - Z.b2z (waits j y) /\
      (forall k q, q <> p -> if_endpoints z !! k = Some q -> if_endpoints z0 !! k = Some q)).
    { destruct (decide (j = i)) as [->|Hji].
      - assert (z = x') as -> by congruence. exists x. split_and!; try done. intros k q Hne. by apply Hen.
      - rewrite Eo in Hz by done. exists z. by rewrite Hw. }
    destruct Hz' as (z0 & Hz0 & Z1 & Z2 & Z3 & Z4). destruct (in_ifaces _ _ _ _ I j z0 Hz0) as [R1 R2 R3 R4].
    split; rewrite ?E2, ?cnt_upd, ?Hy, ?Ee, ?Eb, ?Z1, ?Z2; cbn [val]; rewrite ?V4, ?W4; try done; [cbn [Z.b2z]; lia|lia|].
    intros k q Hq. assert (Hne : q <> p) by (intros ->; by apply (Hnop j z k)). apply Hlf; [done|]. by apply R4, Z4.
  - intros b j. rewrite Eb. intros Hb. destruct (in_attached _ _ _ _ I b j Hb) as (z & Hz & E). destruct (decide (j = i)) as [->|Hji].
    + exists x'. split; [done|]. rewrite X1. by replace x with z by congruence.
    + exists z. by rewrite Eo.
Qed.
Lemma marked_inv t s p c b ok : inv None None None s -> threads s !! t = Some (Marked p c) ->
  forall max imax, exists s', go max imax t b ok (Marked p c) s = Some s' /\ inv None None None s'.
Proof.
  intros I Hy max imax. destruct (in_threads _ _ _ _ I _ _ Hy) as (Hlt & Hdet & (e & He & i & x & L1 & L2 & L3)).
  assert (Hs : status e = CLOSING).
  { destruct (decide (status e = CLOSING)) as [|Hs]; [done|]. pose proof (in_places _ _ _ _ I p) as Hp. unfold place_ok in Hp. rewrite He in Hp.
    pose proof (eo_closes _ _ _ _ _ Hp) as P5. rewrite bool_decide_eq_false_2 in P5 by done. cbn in P5.
    pose proof (cnt_ge1 (closes p) _ t _ Hy (bool_decide_eq_true_2 _ eq_refl)). lia. }
  cbn [go]. unfold detach_unlink. rewrite He. cbn [mbind option_bind]. rewrite L1. cbn [mbind option_bind]. rewrite (bool_decide_eq_true_2 _ Hs).
  cbn [negb bug_on mbind option_bind]. rewrite L2. cbn [mbind option_bind]. rewrite (bool_decide_eq_true_2 _ L3). cbn [negb bug_on mbind option_bind].
  eexists. split; [reflexivity|]. set (x' := x <| if_endpoints ::= _ |>). set (k := endpoint_index e) in *.
  assert (X : if_endpoints x' = delete k (if_endpoints x) /\ if_index x' = if_index x /\ if_refcount x' = if_refcount x /\ endpoint_nr x' = endpoint_nr x) by done.
  destruct X as (X1 & X2 & X3 & X4). clearbody x'. set (y' := Waiting p i (next s) c). set (s' := set_drv _ _).
  assert (E : parts s' (put_iface i x' (drv s)) (upd t (Some y') (threads s)) (next s) (files s) (stale s)) by done.
  assert (Ei : ifaces (drv s') !! i = Some x') by apply put_iface_at.
  assert (Eo : forall j, j <> i -> ifaces (drv s') !! j = ifaces (drv s) !! j) by (intros j; apply put_iface_others).
  assert (Ee : endpoints (drv s') = endpoints (drv s) /\ omx_ifaces (drv s') = omx_ifaces (drv s) /\ threads s' = <[t := y']> (threads s) /\ next s' = next s) by done.
  destruct Ee as (Ee & Eb & Et & En). clearbody s'.
  assert (Hl : forall j z k', ifaces (drv s) !! j = Some z -> if_endpoints z !! k' = Some p -> j = i /\ k' = k).
  { intros j z k' Hz Hk'. destruct (io_links _ _ _ _ (in_ifaces _ _ _ _ I j z Hz) k' p Hk') as (e1 & He1 & Q1 & Q2 & _).
    assert (e1 = e) as -> by congruence. split; [congruence|done]. }
  assert (Hlk : forall k' q, q <> p -> if_endpoints x' !! k' = Some q <-> if_endpoints x !! k' = Some q).
  { intros k' q Hne. rewrite X1. destruct (decide (k' = k)) as [->|Hk']; [|by rewrite lookup_delete_ne].
    rewrite lookup_delete_eq. split; [done|]. intros H. congruence. }
  eapply (closer_inv t (Marked p c) y' p i x x' s s'); try done.
  - by apply bool_decide_eq_true_2.
  - by apply bool_decide_eq_true_2.
  - rewrite X4, X1, map_size_delete_Some by (by eexists). pose proof (map_size_ne_0_lookup_2 (if_endpoints x) k (ex_intro _ p L3)).
    unfold y'. cbn [waits]. rewrite bool_decide_eq_true_2 by done. cbn. lia.
  - intros j Hne. by apply bool_decide_eq_false_2.
  - intros j z k' Hz Hk'. destruct (decide (j = i)) as [->|Hji].
    + assert (z = x') as -> by congruence. rewrite X1 in Hk'. apply lookup_delete_Some in Hk' as [H1 H2]. by destruct (Hl i x k' L2 H2).
    + rewrite Eo in Hz by done. by destruct (Hl j z k' Hz Hk').
  - split; [by rewrite En|]. split.
    + intros j Hj. destruct (Hdet j Hj) as (z & Hz & Hb). unfold in_array. rewrite Eb.
      destruct (decide (j = i)) as [->|Hji]; [exists x'|exists z; by rewrite Eo]. rewrite X2. split; [done|]. by replace x with z by congruence.
    + split; [by rewrite En|]. exists e. by rewrite Ee.
  - intros t' q Hne Hq [(j & z & k' & H1 & H2)|(t1 & j & n & c1 & H1 & H2)].
    + destruct (decide (q = p)) as [->|Hqp].
      * right. exists t, i, (next s), c. rewrite Et, lookup_insert_eq. split; [done|]. by apply (in_threads _ _ _ _ I) in Hq as [Hq _].
      * left. destruct (decide (j = i)) as [->|Hji]; [exists i, x', k'|exists j, z, k'; by rewrite Eo].
        split; [done|]. apply Hlk; [done|]. by replace x with z by congruence.
    + right. exists t1, j, n, c1. rewrite Et, lookup_insert_ne; [done|]. intros <-. congruence.
Qed.
Lemma waiting_inv t s p i n c b ok : inv None None None s -> threads s !! t = Some (Waiting p i n c) -> grace_over n s ->
  forall max imax, exists s', go max imax t b ok (Waiting p i n c) s = Some s' /\ inv None None None s'.
Proof.
  intros I Hy Hg max imax. destruct (in_threads _ _ _ _ I _ _ Hy) as (Hlt & Hdet & Hle & (e & He & Hi)).
  pose proof (in_places _ _ _ _ I p) as Hp. unfold place_ok in Hp. rewrite He in Hp.
  destruct (eo_iface _ _ _ _ _ Hp i Hi) as [x Hx]. pose proof (eo_closes _ _ _ _ _ Hp) as P5.
  cbn [go]. unfold detach_count. rewrite Hx. cbn [mbind option_bind]. eexists. split; [reflexivity|].
  set (x' := x <| endpoint_nr ::= _ |>).
  assert (X : if_endpoints x' = if_endpoints x /\ if_index x' = if_index x /\ if_refcount x' = if_refcount x /\ endpoint_nr x' = endpoint_nr x - 1) by done.
  destruct X as (X1 & X2 & X3 & X4). clearbody x'. set (s' := set_drv _ _).
  assert (E : parts s' (put_iface i x' (drv s)) (upd t (Some (Done p c)) (threads s)) (next s) (files s) (stale s)) by done.
  assert (Ei : ifaces (drv s') !! i = Some x') by apply put_iface_at.
  assert (Eo : forall j, j <> i -> ifaces (drv s') !! j = ifaces (drv s) !! j) by (intros j; apply put_iface_others).
  assert (Ee : omx_ifaces (drv s') = omx_ifaces (drv s) /\ threads s' = <[t := Done p c]> (threads s) /\ next s' = next s) by done.
  destruct Ee as (Eb & Et & En). clearbody s'.
  assert (Hcl : closes p (Waiting p i n c) = true) by by apply bool_decide_eq_true_2.
  assert (Hnop : forall j z k, ifaces (drv s) !! j = Some z -> if_endpoints z !! k = Some p -> False).
  { intros j z k Hz Hk. destruct (io_links _ _ _ _ (in_ifaces _ _ _ _ I j z Hz) k p Hk) as (e1 & He1 & _ & _ & Hs). assert (e1 = e) as -> by congruence.
    pose proof (cnt_ge1 (closes p) _ _ _ Hy Hcl) as N. destruct Hs as [Hs|[Hs (t1 & c1 & H1)]].
    - rewrite Hs, bool_decide_eq_false_2 in P5 by done. cbn in P5. lia.
    - rewrite Hs, bool_decide_eq_true_2 in P5 by done. cbn in P5.
      assert (Hc1 : cnt (closes p) (threads s) = val (closes p) (threads s !! t)) by (rewrite Hy; cbn [val]; rewrite Hcl; cbn; lia).
      assert (Hne : t1 <> t) by congruence. pose proof (others_none (closes p) t (threads s) Hc1 t1 _ Hne H1) as H. cbn in H.
      by rewrite bool_decide_eq_true_2 in H. }
  eapply (closer_inv t (Waiting p i n c) (Done p c) p i x x' s s'); try done.
  - rewrite X4, X1. cbn [waits]. rewrite bool_decide_eq_true_2 by done. cbn. lia.
  - intros j Hne. symmetry. by apply bool_decide_eq_false_2.
  - intros k q _. by rewrite X1.
  - intros j z k Hz Hk. destruct (decide (j = i)) as [->|Hji].
    + assert (z = x') as -> by congruence. rewrite X1 in Hk. by apply (Hnop i x k).
    + rewrite Eo in Hz by done. by apply (Hnop j z k).
  - split; [by rewrite En|]. split; [|done]. intros j Hj. destruct (Hdet j Hj) as (z & Hz & Hb). unfold in_array. rewrite Eb.
    destruct (decide (j = i)) as [->|Hji]; [exists x'|exists z; by rewrite Eo]. rewrite X2. split; [done|]. by replace x with z by congruence.
  - intros t' q Hne Hq Hseen. assert (Hk : entries_kept (drv s) (drv s')).
    { intros j z k q' Hz Hk. destruct (decide (j = i)) as [->|Hji]; [exists x'|exists z; by rewrite Eo]. split; [done|]. rewrite X1. by replace x with z by congruence. }
    destruct Hseen as [(j & z & k & H1 & H2)|(t1 & j & n1 & c1 & H1 & H2)].
    + left. destruct (Hk j z k q H1 H2) as (z' & H3). by exists j, z', k.
    + right. exists t1, j, n1, c1. rewrite Et, lookup_insert_ne; [done|]. intros <-. assert (n1 = n) as -> by congruence.
      assert (q = p) as -> by congruence. pose proof (Hg t' p Hq). lia.
Qed.
End EndpointSafe.
