(* ===== verification/EndpointUse.v ===== *)
(** The interfaces of the driver that come and go while their endpoints are used,
    and the theorem: no endpoint or interface is used after it was freed.
    [EndpointSamples]: endpoints that several threads open, use and close; an endpoint
    that its interface closes; an endpoint opened on an interface that left. *)
From S2P Require Import Prelude EndpointTable EndpointRefs EndpointSafe.
Import EndpointTable EndpointSteps EndpointRefs EndpointSafe.

Module EndpointUse.
Implicit Types (p i : positive) (s : state) (e : omx_endpoint) (d : driver).

(** ** Attaching and detaching an interface *)

Lemma unknown_iface i s : inv None None None s -> ifaces (drv s) !! i = None ->
  cnt (attached_to i) (endpoints (drv s)) = 0 /\ cnt (holds i) (threads s) = 0 /\ cnt (waits i) (threads s) = 0.
Proof.
  intros I Hx. assert (He : forall q e, endpoints (drv s) !! q = Some e -> iface e <> Some i).
  { intros q e He E. pose proof (in_places _ _ _ _ I q) as Hp. unfold place_ok in Hp. rewrite He in Hp.
    destruct (eo_iface _ _ _ _ _ Hp i E) as [x Hx']. congruence. }
  split_and!; apply cnt_none; intros t x Ht.
  - apply bool_decide_eq_false_2. by apply (He t).
  - destruct x; try done. apply bool_decide_eq_false_2. intros ->. by destruct (in_threads _ _ _ _ I _ _ Ht) as (_ & _ & _ & [y Hy]); congruence.
  - destruct x; try done. apply bool_decide_eq_false_2. intros ->. destruct (in_threads _ _ _ _ I _ _ Ht) as (_ & _ & _ & (e & He' & E)). by apply (He _ _ He').
Qed.
Lemma attach_iface_inv i board max s : inv None None None s -> ifaces (drv s) !! i = None -> omx_ifaces (drv s) !! board = None -> no_thread detaches s ->
  exists s', step max 0 (AttachIface i board) s = Some s' /\ inv None None None s'.
Proof.
  intros I Hi Hb Hno. destruct (unknown_iface i s I Hi) as (C1 & C2 & C3). cbn [step]. eexists. split; [reflexivity|].
  set (x := Iface 1 false board ∅ 0). set (s' := set_drv _ s).
  assert (Ei : ifaces (drv s') !! i = Some x) by apply put_iface_at.
  assert (Eo : forall j, j <> i -> ifaces (drv s') !! j = ifaces (drv s) !! j) by (intros j; exact (put_iface_others i x (drv s) j)).
  assert (Eb : omx_ifaces (drv s') = <[board := i]> (omx_ifaces (drv s))) by done.
  assert (E : endpoints (drv s') = endpoints (drv s) /\ destroy_works (drv s') = destroy_works (drv s) /\ threads s' = threads s /\ next s' = next s /\
    files s' = files s /\ stale s' = stale s) by done.
  destruct E as (Ee & Ew & Et & En & Ef & Es). clearbody s'.
  assert (Hold : forall j y, ifaces (drv s) !! j = Some y -> ifaces (drv s') !! j = Some y).
  { intros j y Hy. rewrite Eo; [done|]. congruence. }
  assert (Hk : entries_kept (drv s) (drv s')) by (intros j y k q Hy Hq; exists y; by split; [apply Hold|]).
  assert (Hlf : forall j k q, link_ok s j k q -> link_ok s' j k q).
  { intros j k q Hl. apply (link_frame s); [done|intros e He; exists e; by rewrite Ee|by rewrite Et]. }
  split.
  - intros q. eapply place_frame; [apply (in_places _ _ _ _ I q)|rewrite ?Ee, ?Ew, ?Et, ?Ef, ?Es; done..| |].
    + intros e _ _. by apply linked_kept.
    + intros e j _ _ [y Hy]. exists y. by apply Hold.
  - intros t y Hy. rewrite Et in Hy. apply (thread_frame s); [by apply (in_threads _ _ _ _ I)|lia| | | | |].
    + intros j Hj. assert (Hd : detaches y = true) by (destruct y as [| | | | | |? [[? ?]|]|? ? ? [[? ?]|]|? [[? ?]|]|]; done). by rewrite (Hno t y Hy) in Hd.
    + intros q _ e He. exists e. by rewrite Ee.
    + intros q _ e. by apply linked_kept.
    + intros j _ [z Hz]. exists z. by apply Hold.
    + intros q _ Hseen. apply (seen_kept s); [done|done|by rewrite Et].
  - intros j y Hy. destruct (decide (j = i)) as [->|Hne].
    + assert (y = x) as -> by congruence. split; rewrite ?Ee, ?Et, ?Eb, ?C1, ?C2, ?C3; try done.
      change (if_index x) with board. rewrite lookup_insert_eq, bool_decide_eq_true_2 by done. done.
    + rewrite Eo in Hy by done. destruct (in_ifaces _ _ _ _ I j y Hy) as [R1 R2 R3 R4]. split; rewrite ?Ee, ?Et; try done.
      * rewrite R1, Eb. do 4 f_equal. apply bool_decide_ext. destruct (decide (if_index y = board)) as [->|Hbo].
        -- rewrite lookup_insert_eq, Hb. split; congruence.
        -- by rewrite lookup_insert_ne by done.
      * intros k q Hq. by apply Hlf, R4.
  - intros b j. rewrite Eb. destruct (decide (b = board)) as [->|Hbo].
    + rewrite lookup_insert_eq. intros [= <-]. by exists x.
    + rewrite lookup_insert_ne by done. intros Hbj. destruct (in_attached _ _ _ _ I b j Hbj) as (y & Hy & E). exists y. split; [by apply Hold|done].
  - rewrite Et. apply I.
  - done.
Qed.
Lemma detach_start_inv i force max s : inv None None None s -> attached i (drv s) -> no_thread detaches s ->
  exists s', step max 0 (DetachIface i force) s = Some s' /\ inv None None None s'.
Proof.
  intros I [b Hb] Hno. destruct (in_attached _ _ _ _ I b i Hb) as (x & Hx & Hid). cbn [step]. unfold iface_detach_start. rewrite Hx. cbn [mbind option_bind].
  rewrite bool_decide_eq_true_2 by (rewrite Hid; by eexists). cbn [negb bug_on mbind option_bind].
  destruct (negb force && negb (endpoint_nr x =? 0)); [by exists s|]. eexists. split; [reflexivity|]. cbn [Z.ltb Z.compare].
  set (x' := x <| if_closing := true |>). pose proof (io_alive _ _ _ _ (in_ifaces _ _ _ _ I i x Hx)) as Hal.
  assert (I1 : inv None None None (set_drv (put_iface i x' (drv s)) s)).
  { apply (iface_inv i x x' None None None None s I Hx); try done. }
  pose proof (fresh_thread _ _ _ _ I) as Hn.
  eapply (light_inv xH (next s) (Some (Detach i 0)) (Z.succ (next s)) _ _ _ _ _ I1); try done.
  - change (next s <= Z.succ (next s)). lia.
  - change (light (threads s !! next s)). by rewrite Hn.
  - by intros y [= <-].
  - change (about 1%positive (threads s !! next s)). by rewrite Hn.
  - by intros y q [= <-].
  - intros y [= <-] _. by left.
  - change (val (runs xH) (threads s !! next s) = val (runs xH) (Some (Detach i 0)) \/ exists e, endpoints (drv s) !! 1%positive = Some e /\ status e = OK).
    rewrite Hn. by left.
  - intros y [= <-]. split; [change (next s < Z.succ (next s)); lia|]. split; [|done]. intros j [= <-]. exists x'. split; [apply put_iface_at|].
    change (omx_ifaces (drv s) !! if_index x = Some i). by rewrite Hid.
Qed.
(** The interface leaves the array; its reference is to be released. *)
Lemma array_delete_inv t i k x s s' : inv None None None s -> threads s !! t = Some (Detach i k) -> ifaces (drv s) !! i = Some x ->
  omx_ifaces (drv s) !! if_index x = Some i ->
  parts s' ((drv s) <| omx_ifaces ::= delete (if_index x) |>) (upd t None (threads s)) (next s) (files s) (stale s) -> inv None (Some i) None s'.
Proof.
  intros I Hy Hx Hb [E1 E2 E3 E4 E5].
  assert (E : endpoints (drv s') = endpoints (drv s) /\ destroy_works (drv s') = destroy_works (drv s) /\ ifaces (drv s') = ifaces (drv s) /\
    omx_ifaces (drv s') = delete (if_index x) (omx_ifaces (drv s))) by by rewrite E1.
  destruct E as (Ee & Ew & Ei & Eb). clear E1.
  assert (Hk : entries_kept (drv s) (drv s')) by (intros j y k' q Hz Hq; exists y; by rewrite Ei).
  assert (O : only None None None None s s' i t None).
  { split; rewrite ?E2, ?E3, ?E4, ?E5, ?Ew, ?Ee; try done.
    - rewrite Hy. by intros z q [= <-].
    - intros t' z _ _ _ e He. exists e. by rewrite Ee. }
  apply (only_frame None None None (Some i) None None s s' i t None I O).
  - apply (place_frame None None None None s s' i); rewrite ?Ee, ?E4, ?E5, ?Ew; try done; [apply (in_places _ _ _ _ I)| | |].
    + unfold counts_kept. rewrite E2, !cnt_upd, Hy. cbn. lia.
    + intros e _ _. by apply linked_kept.
    + intros e j _ _. by rewrite Ei.
  - intros t' z _ _ _ e. by apply linked_kept.
  - intros j z k' q _ Hz Hq. exists z. by rewrite Ei.
  - intros j. by rewrite Ei.
  - intros j t' z Hne Hz Hd. exfalso. apply Hne. apply (in_detach _ _ _ _ I t' z t (Detach i k)); try done.
    destruct z as [| | | | | |? [[? ?]|]|? ? ? [[? ?]|]|? [[? ?]|]|]; done.
  - intros t' q Hne Hq Hseen. apply (seen_kept s); [done|done|]. intros t1 j n c Hw. rewrite E2, upd_ne; [done|]. intros ->. congruence.
  - intros j z. rewrite Ei. intros Hz. destruct (in_ifaces _ _ _ _ I j z Hz) as [R1 R2 R3 R4].
    split; rewrite ?Ee, ?E2, ?cnt_upd, ?Hy; cbn [val holds waits Z.b2z]; [|done|lia|].
    + rewrite R1, ex_None, Eb. destruct (decide (j = i)) as [->|Hne].
      * assert (z = x) as -> by congruence. rewrite lookup_delete_eq, Hb, ex_same, bool_decide_eq_true_2, bool_decide_eq_false_2 by done. cbn. lia.
      * rewrite ex_other by congruence. destruct (decide (if_index z = if_index x)) as [E|Hix].
        -- rewrite E, lookup_delete_eq, Hb, !bool_decide_eq_false_2 by congruence. cbn. lia.
        -- rewrite lookup_delete_ne by congruence. lia.
    + intros k' q Hq. apply (link_frame s); [by apply R4|intros e He; exists e; by rewrite Ee|]. intros t1 c Hm. rewrite E2, upd_ne; [done|].
      intros ->. congruence.
  - intros b j. rewrite Eb, Ei. intros [_ Hj]%lookup_delete_Some. by apply (in_attached _ _ _ _ I).
  - intros j [= <-]. rewrite Ei. by exists x.
Qed.
Lemma detach_next t i k s : inv None None None s -> threads s !! t = Some (Detach i k) -> inv None None None (goto t (Detach i (k + 1)) s).
Proof.
  intros I Hy. destruct (in_threads _ _ _ _ I _ _ Hy) as (Hlt & Hd & _).
  apply (light_inv xH t (Some (Detach i (k + 1))) (next s) None None None s _ I); rewrite ?Hy; try done.
  - by intros y [= <-].
  - by intros y [= <-].
  - by intros y q [= <-].
  - by intros y q [= <-].
  - intros y [= <-] _. right. by exists (Detach i k).
  - by left.
  - intros y [= <-]. split; [done|]. split; [|done]. intros j [= <-]. by apply Hd.
Qed.
Lemma detach_inv t s i k b ok max imax : inv None None None s -> threads s !! t = Some (Detach i k) ->
  (forall x p, ifaces (drv s) !! i = Some x -> if_endpoints x !! k = Some p -> no_thread (in_command p) s) ->
  exists s', go max imax t b ok (Detach i k) s = Some s' /\ inv None None None s'.
Proof.
  intros I Hy Hcare. destruct (in_threads _ _ _ _ I _ _ Hy) as (Hlt & Hd & _). destruct (Hd i eq_refl) as (x & Hx & Hb). cbn [go].
  destruct (max <=? k).
  - unfold iface_detach_end. rewrite Hx. cbn [mbind option_bind]. set (d1 := (drv s) <| omx_ifaces ::= delete (if_index x) |>). set (s1 := set_drv d1 (finish t s)).
    destruct (iface_release_inv i None None s1) as (d' & Hrel & _ & _ & I').
    { by eapply (array_delete_inv t i k x s s1). }
    change d1 with (drv s1). rewrite Hrel. cbn [mbind option_bind]. eexists. split; [reflexivity|exact I'].
  - unfold iface_detach_one. rewrite Hx. cbn [mbind option_bind]. destruct (if_endpoints x !! k) as [p|] eqn:Hp.
    2:{ cbn [mbind option_bind]. eexists. split; [reflexivity|]. by apply detach_next. }
    destruct (io_links _ _ _ _ (in_ifaces _ _ _ _ I i x Hx) k p Hp) as (e & He & Hei & Hek & Hs). rewrite He. cbn [mbind option_bind].
    pose proof (in_places _ _ _ _ I p) as Hpl. unfold place_ok in Hpl. rewrite He in Hpl. pose proof (eo_status _ _ _ _ _ Hpl) as P8.
    assert (Hbuf : buffers e = all_buffers) by (destruct Hs as [Hs|[Hs _]]; rewrite Hs in P8; tauto).
    rewrite bool_decide_eq_true_2 by (rewrite Hbuf; set_solver). cbn [negb bug_on mbind option_bind]. unfold close_start. rewrite He. cbn [mbind option_bind].
    destruct (status e) eqn:Es; try (by destruct Hs as [|[? _]]).
    + cbn [mbind option_bind]. eexists. split; [reflexivity|]. destruct (eo_file _ _ _ _ _ Hpl) as [Hf Hst]; [by rewrite Es|].
      eapply (mark_inv p t (Some (i, k)) e (next s) s); try done.
      * by apply (Hcare x p).
      * right. by exists i, k.
      * intros q Hne. cbn. set_solver.
      * cbn. set_solver.
      * intros y [= <-] _. right. by exists (Detach i k).
    + cbn [mbind option_bind]. eexists. split; [reflexivity|]. exact (detach_next t i k s I Hy).
Qed.

(** ** Scheduled destructions *)

Lemma scheduled_remove p l q : p ∈ l -> scheduled q (remove1 p l) = scheduled q l - ex (Some p) q.
Proof.
  unfold scheduled. induction l as [|x l IH]; intros Hp; [by apply not_elem_of_nil in Hp|]. cbn [remove1 count_occ].
  destruct (decide (p = x)) as [->|Hne].
  - destruct (Pos.eq_dec x q) as [->|Hxq]; [rewrite ex_same; lia|rewrite ex_other by done; lia].
  - cbn [count_occ]. apply elem_of_cons in Hp as [Hp|Hp]; [done|]. specialize (IH Hp). destruct (Pos.eq_dec x q) as [->|Hxq]; [|done].
    rewrite ex_other in * by done. lia.
Qed.
Lemma work_step_inv p max s : inv None None None s -> p ∈ destroy_works (drv s) -> exists s', step max 0 (Work p) s = Some s' /\ inv None None None s'.
Proof.
  intros I Hp. pose proof (in_places _ _ _ _ I p) as Hpl. unfold place_ok in Hpl. cbn [step]. unfold omx_endpoint_destroy_workfunc.
  pose proof (scheduled_remove p _ p Hp) as Hw. rewrite ex_same in Hw. assert (N : 0 <= scheduled p (remove1 p (destroy_works (drv s)))) by (unfold scheduled; lia).
  destruct (endpoints (drv s) !! p) as [e|] eqn:He; [|pose proof (do_works _ _ _ Hpl) as W; rewrite ex_None in W; lia].
  cbn [mbind option_bind]. eexists. split; [reflexivity|]. pose proof (eo_works _ _ _ _ _ Hpl) as W. rewrite ex_None in W.
  destruct (Z.eqb_spec (refcount e) 0) as [Hr|Hr]; cbn in W; [|lia].
  assert (Hs : status e = CLOSING).
  { pose proof (eo_refs _ _ _ _ _ Hpl) as R. pose proof (cnt_ge0 (uses p) (threads s)). rewrite ex_None in R. unfold owned in R. destruct (status e); lia || done. }
  eapply (endpoint_delete_inv p e (remove1 p (destroy_works (drv s))) None s); try done.
  - by left.
  - by apply (eo_stale _ _ _ _ _ Hpl).
  - lia.
  - intros q Hne. rewrite scheduled_remove by done. rewrite ex_None, ex_other by congruence. lia.
Qed.

(** ** All steps *)

Lemma go_inv max imax t b ok x s : inv None None None s -> threads s !! t = Some x -> enabled (Go t b ok) s -> careful (Go t b ok) s ->
  exists s', go max imax t b ok x s = Some s' /\ inv None None None s'.
Proof.
  intros I Hx He Hc. cbn [enabled careful] in He, Hc. rewrite Hx in He, Hc. destruct x.
  - by apply open_init_inv.
  - by apply open_ready_inv.
  - by apply open_ref_inv.
  - by apply running_inv.
  - by apply acquire_inv.
  - by apply using_inv.
  - by apply marked_inv.
  - by apply waiting_inv.
  - by apply done_inv.
  - by apply detach_inv.
Qed.
Lemma step_inv max imax o s : inv None None None s -> enabled o s -> careful o s -> exists s', step max imax o s = Some s' /\ inv None None None s'.
Proof.
  intros I He Hc. destruct o as [p|p board index|p|p|i index|i board|i force|t b ok|p].
  - destruct He as [He Hf]. eexists. split; [reflexivity|]. by apply dev_open_inv.
  - by apply open_start_inv.
  - by apply (ioctl_inv p s max).
  - destruct He as [He Hf]. by apply (close_inv p max s).
  - by apply (acquire_by_inv i index max s).
  - destruct He as (H1 & H2 & H3). by apply (attach_iface_inv i board max s).
  - destruct He as [H1 H2]. by apply (detach_start_inv i force max s).
  - cbn [step]. destruct (threads s !! t) as [x|] eqn:Hx; [|by exists s]. by apply go_inv.
  - by apply (work_step_inv p max s).
Qed.
Lemma allowed_mono max imax (g1 g2 : op -> state -> Prop) os : (forall o s, g1 o s -> g2 o s) -> forall s, allowed max imax g1 os s -> allowed max imax g2 os s.
Proof. intros Hg. induction os as [|o os IH]; intros s; [done|]. intros [H1 H2]. split; [by apply Hg|]. intros s' E. by apply IH, H2. Qed.
Lemma run_inv max imax os : forall s, inv None None None s -> allowed max imax (fun o s => enabled o s /\ careful o s) os s ->
  exists s', run max imax os s = Some s' /\ inv None None None s'.
Proof.
  induction os as [|o os IH]; intros s I Ha; [by exists s|]. destruct Ha as [[He Hc] Ha]. destruct (step_inv max imax o s I He Hc) as (s1 & H1 & I1).
  cbn [run]. rewrite H1. cbn [mbind option_bind]. apply IH; [done|by apply Ha].
Qed.
(** The table of an interface has the endpoints attached to it, open or being
    closed; an open endpoint is in the table of its interface, with its buffers. *)
Definition sound d : Prop :=
  (forall i x k p, ifaces d !! i = Some x -> if_endpoints x !! k = Some p ->
    exists e, endpoints d !! p = Some e /\ iface e = Some i /\ endpoint_index e = k /\ (status e = OK \/ status e = CLOSING)) /\
  forall p e, endpoints d !! p = Some e -> status e = OK ->
    buffers e = all_buffers /\ exists i x, iface e = Some i /\ ifaces d !! i = Some x /\ if_endpoints x !! endpoint_index e = Some p.
(** Nothing runs, no file is open, no interface is attached. *)
Definition quiet s : Prop := threads s = ∅ /\ files s = ∅ /\ omx_ifaces (drv s) = ∅ /\ destroy_works (drv s) = [].
Lemma inv_sound s : inv None None None s -> sound (drv s).
Proof.
  intros I. split.
  - intros i x k p Hx Hk. destruct (io_links _ _ _ _ (in_ifaces _ _ _ _ I i x Hx) k p Hk) as (e & He & H1 & H2 & H3). exists e. split_and!; try done.
    destruct H3 as [H3|[H3 _]]; [by left|by right].
  - intros p e He Hs. pose proof (in_places _ _ _ _ I p) as Hp. unfold place_ok in Hp. rewrite He in Hp.
    pose proof (eo_status _ _ _ _ _ Hp) as P8. rewrite Hs in P8. by destruct P8.
Qed.
Lemma inv_quiet s : inv None None None s -> quiet s -> endpoints (drv s) = ∅ /\ ifaces (drv s) = ∅.
Proof.
  intros I (Ht & Hf & Hi & Hw). assert (He : endpoints (drv s) = ∅).
  { apply map_empty. intros p. destruct (endpoints (drv s) !! p) as [e|] eqn:He; [|done]. exfalso.
    pose proof (in_places _ _ _ _ I p) as Hp. unfold place_ok in Hp. rewrite He in Hp. destruct Hp as [P1 P2 P3 P4 P5 P6 P7 P8 P9].
    destruct (decide (status e = CLOSING)) as [Hs|Hs]; [|destruct (P6 Hs) as [Hin _]; rewrite Hf in Hin; set_solver].
    unfold owned in P1. rewrite Hs, Ht, !cnt_empty, ex_None in P1. rewrite Hw, ex_None, P1 in P2. done. }
  split; [done|]. apply map_empty. intros i. destruct (ifaces (drv s) !! i) as [x|] eqn:Hx; [|done]. exfalso.
  destruct (in_ifaces _ _ _ _ I i x Hx) as [R1 R2 _ _]. rewrite Hi, He, Ht, !cnt_empty, ex_None, lookup_empty, bool_decide_eq_false_2 in R1 by done.
  cbn in R1. lia.
Qed.

(** ** Concrete runs *)

(** The guards, computed. *)
Definition all_threads (f : pc -> bool) s : bool := forallb (fun kv => f kv.2) (map_to_list (threads s)).
Definition attachedb i d : bool := existsb (fun kv => bool_decide (kv.2 = i)) (map_to_list (omx_ifaces d)).
Definition enabledb (o : op) s : bool :=
  match o with
  | DevOpen p => bool_decide (endpoints (drv s) !! p = None) && bool_decide (p ∉ files s)
  | Open p _ _ | Ioctl p => bool_decide (p ∈ files s)
  | Close p => bool_decide (p ∈ files s) && all_threads (fun x => negb (in_command p x)) s
  | AcquireBy i _ => attachedb i (drv s)
  | AttachIface i board => bool_decide (ifaces (drv s) !! i = None) && bool_decide (omx_ifaces (drv s) !! board = None) &&
      all_threads (fun x => negb (detaches x)) s
  | DetachIface i _ => attachedb i (drv s) && all_threads (fun x => negb (detaches x)) s
  | Go t _ _ =>
      match threads s !! t with
      | Some (Waiting _ _ since _) => forallb (fun kv => match kv.2 with Acquire _ => since <=? kv.1 | _ => true end) (map_to_list (threads s))
      | _ => true
      end
  | Work p => bool_decide (p ∈ destroy_works (drv s))
  end.
Definition carefulb (o : op) s : bool :=
  match o with
  | Open p _ _ | Ioctl p | Close p => bool_decide (p ∉ stale s)
  | Go t _ _ =>
      match threads s !! t with
      | Some (Detach i k) =>
          match ifaces (drv s) !! i ≫= fun x => if_endpoints x !! k with Some p => all_threads (fun x => negb (in_command p x)) s | None => true end
      | _ => true
      end
  | _ => true
  end.
Fixpoint allowedb (max imax : Z) (guard : op -> state -> bool) (os : list op) s : bool :=
  match os with [] => true | o :: os => guard o s && match step max imax o s with Some s' => allowedb max imax guard os s' | None => true end end.
Lemma forallb_map {A} (f : Z * A -> bool) (m : gmap Z A) k x : forallb f (map_to_list m) = true -> m !! k = Some x -> f (k, x) = true.
Proof. intros H Hk. apply (proj1 (forallb_forall f _) H). apply list_elem_of_In. by apply elem_of_map_to_list. Qed.
Lemma all_threads_no (f : pc -> bool) s : all_threads (fun x => negb (f x)) s = true -> no_thread f s.
Proof.
  intros H t x Hx. pose proof (forallb_map _ _ _ _ H Hx) as E. cbn in E. by destruct (f x).
Qed.
Lemma attachedb_spec i d : attachedb i d = true -> attached i d.
Proof.
  intros H. apply existsb_exists in H as ([b j] & Hb & Hj). apply list_elem_of_In, elem_of_map_to_list in Hb. exists b.
  apply bool_decide_eq_true in Hj. cbn in Hj. by subst.
Qed.
Lemma enabledb_spec o s : enabledb o s = true -> enabled o s.
Proof.
  destruct o as [p|p board index|p|p|i index|i board|i force|t b ok|p]; cbn; intros H.
  - apply andb_true_iff in H as [H1%bool_decide_eq_true H2%bool_decide_eq_true]. done.
  - by apply bool_decide_eq_true in H.
  - by apply bool_decide_eq_true in H.
  - apply andb_true_iff in H as [H1%bool_decide_eq_true H2%all_threads_no]. done.
  - by apply attachedb_spec.
  - apply andb_true_iff in H as [[H1%bool_decide_eq_true H2%bool_decide_eq_true]%andb_true_iff H3%all_threads_no]. done.
  - apply andb_true_iff in H as [H1%attachedb_spec H2%all_threads_no]. done.
  - destruct (threads s !! t) as [[]|]; try done. intros t' q Hq. pose proof (forallb_map _ _ _ _ H Hq) as E. cbn in E. lia.
  - by apply bool_decide_eq_true in H.
Qed.
Lemma carefulb_spec o s : carefulb o s = true -> careful o s.
Proof.
  destruct o as [p|p board index|p|p|i index|i board|i force|t b ok|p]; cbn; intros H; try done; try by apply bool_decide_eq_true in H.
  destruct (threads s !! t) as [[]|]; try done. intros x p Hx Hp. rewrite Hx in H. cbn in H. rewrite Hp in H. by apply all_threads_no.
Qed.
Lemma all_threads_some (f : pc -> bool) s : no_thread f s -> all_threads (fun x => negb (f x)) s = true.
Proof. intros H. apply forallb_forall. intros [t x] Ht. apply list_elem_of_In, elem_of_map_to_list in Ht. cbn. by rewrite (H t x Ht). Qed.
Lemma carefulb_complete o s : careful o s -> carefulb o s = true.
Proof.
  destruct o as [p|p board index|p|p|i index|i board|i force|t b ok|p]; cbn; intros H; try done; try by apply bool_decide_eq_true.
  destruct (threads s !! t) as [[]|]; try done. destruct (ifaces (drv s) !! _) as [x|] eqn:Hx; [|done]. cbn.
  destruct (if_endpoints x !! k) as [p|] eqn:Hp; [|done]. by apply all_threads_some, (H x p).
Qed.
(** A run is right up to the first step that is not careful. *)
Lemma run_until_careless max imax os : forall s, inv None None None s -> allowed max imax enabled os s ->
  exists n s', run max imax (take n os) s = Some s' /\ inv None None None s' /\
    match drop n os with [] => True | o :: _ => ~ careful o s' end.
Proof.
  induction os as [|o os IH]; intros s I Ha; [by exists 0%nat, s|]. destruct Ha as [He Ha].
  destruct (carefulb o s) eqn:Hc.
  - destruct (step_inv max imax o s I He (carefulb_spec o s Hc)) as (s1 & H1 & I1). destruct (IH s1 I1 (Ha s1 H1)) as (n & s' & Hr & I' & Hd).
    exists (S n), s'. split; [|done]. cbn [take run]. by rewrite H1.
  - exists 0%nat, s. split; [done|]. split; [done|]. cbn [drop]. intros Hcar%carefulb_complete. congruence.
Qed.
Lemma careful_to_end max imax os : forall s n s', allowed max imax (fun o s => enabled o s /\ careful o s) os s ->
  run max imax (take n os) s = Some s' -> match drop n os with [] => True | o :: _ => ~ careful o s' end -> take n os = os.
Proof.
  induction os as [|o os IH]; intros s n s' Ha Hr Hd; [by destruct n|]. destruct Ha as [[He Hc] Ha]. destruct n as [|n].
  - cbn in Hr, Hd. injection Hr as ->. done.
  - cbn [take run drop] in *. destruct (step max imax o s) as [s1|] eqn:E; [|done]. cbn [mbind option_bind] in Hr.
    f_equal. by apply (IH s1 n s'); [apply Ha| |].
Qed.
(** An endpoint that the detachment of its interface closed is freed when its last
    user is gone, whatever the file. *)
Lemma stale_freed s p : inv None None None s -> p ∈ stale s -> p ∉ destroy_works (drv s) ->
  no_thread (uses p) s -> no_thread (closes p) s -> p ∈ files s /\ endpoints (drv s) !! p = None /\ no_thread (in_command p) s.
Proof.
  intros I Hs Hw Hu Hc. pose proof (in_places _ _ _ _ I p) as Hp. unfold place_ok in Hp.
  destruct (endpoints (drv s) !! p) as [e|].
  - exfalso. destruct (decide (status e = CLOSING)) as [E|E]; [|by destruct (eo_file _ _ _ _ _ Hp E)].
    pose proof (eo_refs _ _ _ _ _ Hp) as R. unfold owned in R. rewrite E, !cnt_none, ex_None in R by done.
    pose proof (eo_works _ _ _ _ _ Hp) as W. rewrite R, ex_None in W. unfold scheduled in W.
    rewrite (proj1 (count_occ_not_In Pos.eq_dec _ p)) in W by (by rewrite <- list_elem_of_In). done.
  - split; [by apply (do_file _ _ _ Hp)|]. split; [done|]. intros t x Hx.
    pose proof (cnt_zero _ _ _ _ (do_opens _ _ _ Hp) Hx) as H1. pose proof (cnt_zero _ _ _ _ (do_runs _ _ _ Hp) Hx) as H2. by destruct x.
Qed.
Lemma allowedb_spec max imax gb (g : op -> state -> Prop) os : (forall o s, gb o s = true -> g o s) -> forall s, allowedb max imax gb os s = true -> allowed max imax g os s.
Proof.
  intros Hg. induction os as [|o os IH]; intros s H; [done|]. cbn in *. apply andb_true_iff in H as [H1 H2]. split; [by apply Hg|].
  intros s' E. rewrite E in H2. by apply IH.
Qed.
End EndpointUse.

Import EndpointUse.

Module EndpointSamples.

Definition gos (t : Z) (n : nat) : list op := replicate n (Go t false (fun _ => true)).
Definition both (o : op) (s : state) : bool := enabledb o s && carefulb o s.
Lemma both_spec o s : both o s = true -> enabled o s /\ careful o s.
Proof. intros [H1 H2]%andb_true_iff. split; [by apply enabledb_spec|by apply carefulb_spec]. Qed.
(** The endpoint 2 is acquired, then closed while it is used and looked for; it is
    released in an interrupt.  The endpoint 3 is not opened. *)
Definition opened : list op := [AttachIface 1 0; DevOpen 2; Open 2 0 0] ++ gos 0 4.
Definition life : list op := opened ++ [DevOpen 3; AcquireBy 1 0; Go 1 false (fun _ => true); Ioctl 2] ++ gos 2 1 ++ [Close 2; AcquireBy 1 0] ++ gos 3 1 ++
  gos 4 1 ++ gos 3 2 ++ [Go 1 true (fun _ => true); Work 2; Close 3; DetachIface 1 false] ++ gos 5 3.
Definition empty_state (s : state) : bool := bool_decide (threads s = ∅ /\ files s = ∅ /\ omx_ifaces (drv s) = ∅ /\ destroy_works (drv s) = []).
Example life_works : option_map (fun s => (destroy_works (drv s), map_to_list (endpoints (drv s)))) (run 2 1 (take 19 life) init) =
  Some ([2%positive], [(3%positive, Endpoint FREE 1 0 0 None []); (2%positive, Endpoint CLOSING 0 0 0 None all_buffers)]).
Proof. vm_compute. reflexivity. Qed.

(** C6. Any number of threads open, use, look for, close and destroy endpoints of any
    number of interfaces that come and go, their parts in any order that the kernel
    allows ([enabled]: a grace period ends after the sections that began before it,
    a file is released after its commands).  No access is made to an endpoint or an
    interface that was freed, no [BUG] is reached; a table has only endpoints that
    are there, and an open endpoint is in the table of its interface.  When all is
    over, all was freed.  This holds up to the first step that is not [careful]: the
    detachment of an interface closes an endpoint on which a command is running, or
    the file of an endpoint closed in that way is used or released, which the driver
    does not prevent and does not survive (C36). *)
Theorem endpoints_never_used_after_free max imax os : allowed max imax enabled os init ->
  exists n s, run max imax (take n os) init = Some s /\ sound (drv s) /\ (quiet s -> endpoints (drv s) = ∅ /\ ifaces (drv s) = ∅) /\
    match drop n os with [] => True | o :: _ => ~ careful o s end.
Proof.
  intros Ha. destruct (run_until_careless max imax os init init_inv Ha) as (n & s & Hs & I & Hd). exists n, s.
  split; [done|]. split; [by apply inv_sound|]. split; [by apply inv_quiet|done].
Qed.
Lemma life_allowed : allowed 2 1 (fun o s => enabled o s /\ careful o s) life init.
Proof. apply (allowedb_spec 2 1 both); [exact both_spec|vm_compute; reflexivity]. Qed.
Lemma life_quiet s : run 2 1 life init = Some s -> quiet s.
Proof.
  intros H. assert (E : option_map empty_state (run 2 1 life init) = Some true) by (vm_compute; reflexivity). rewrite H in E.
  cbn [option_map] in E. injection E as E. by apply bool_decide_eq_true in E.
Qed.
Lemma endpoints_never_used_after_free_witness : exists s, run 2 1 life init = Some s /\ endpoints (drv s) = ∅ /\ ifaces (drv s) = ∅.
Proof.
  destruct (endpoints_never_used_after_free 2 1 life) as (n & s & Hs & _ & Hq & Hd).
  - apply (allowed_mono 2 1 (fun o s => enabled o s /\ careful o s)); [by intros o s [H _]|exact life_allowed].
  - rewrite (careful_to_end 2 1 life init n s life_allowed Hs Hd) in Hs. exists s. split; [exact Hs|]. apply Hq. exact (life_quiet s Hs).
Defined.

(** C36. The open file has no reference to its endpoint.  The detachment of an
    interface closes every open endpoint of its table, and the endpoint is then stale.
    In every state that the driver reaches, when a stale endpoint has no user left, it
    is freed although its file is still open: the kernel may then execute a command or
    another opening on the file, or release it, and each of them uses the endpoint after
    it was freed.  (The steps to that state are [careful]: no command was running on the
    endpoint when it was closed.) *)
Theorem forced_close_frees_open_file max imax os s p :
  allowed max imax (fun o s => enabled o s /\ careful o s) os init -> run max imax os init = Some s ->
  (forall t b ok i k x e, threads s !! t = Some (Detach i k) -> k < max -> ifaces (drv s) !! i = Some x -> if_endpoints x !! k = Some p ->
     endpoints (drv s) !! p = Some e -> status e = OK ->
     exists s', step max imax (Go t b ok) s = Some s' /\ p ∈ stale s' /\ threads s' !! t = Some (Marked p (Some (i, k)))) /\
  (p ∈ stale s -> p ∉ destroy_works (drv s) -> no_thread (uses p) s -> no_thread (closes p) s ->
   p ∈ files s /\ endpoints (drv s) !! p = None /\ (enabled (Ioctl p) s /\ step max imax (Ioctl p) s = None) /\
   (forall board index, enabled (Open p board index) s /\ step max imax (Open p board index) s = None) /\
   enabled (Close p) s /\ step max imax (Close p) s = None).
Proof.
  intros Ha Hr. destruct (run_inv max imax os init init_inv Ha) as (s' & Hs' & I). assert (s' = s) as -> by congruence. split.
  - intros t b ok i k x e Ht Hk Hx Hp He Hst. cbn [step]. rewrite Ht. cbn [go]. rewrite (proj2 (Z.leb_gt _ _)) by done.
    unfold iface_detach_one, close_start. rewrite Hx. cbn [mbind option_bind]. rewrite Hp, He. cbn [mbind option_bind].
    destruct (proj2 (inv_sound s I) p e He Hst) as [Hb _].
    rewrite bool_decide_eq_true_2 by (rewrite Hb; set_solver). cbn [negb bug_on mbind option_bind]. rewrite He. cbn [mbind option_bind]. rewrite Hst.
    cbn [mbind option_bind]. eexists. split; [reflexivity|]. split; [cbn; set_solver|]. cbn. apply lookup_insert_eq.
  - intros Hst Hw Hu Hc. destruct (stale_freed s p I Hst Hw Hu Hc) as (Hf & He & Hno). cbn [enabled step].
    unfold ioctl_start, open_start, close_start. rewrite He. split_and!; done.
Qed.
(** The interface of the endpoint 2 is detached by force. *)
Definition forced : list op := opened ++ [DetachIface 1 true] ++ gos 1 6.
Definition forced_state (s : state) : bool :=
  bool_decide (2%positive ∈ stale s /\ 2%positive ∉ destroy_works (drv s)) && all_threads (fun x => negb (uses 2 x)) s && all_threads (fun x => negb (closes 2 x)) s.
Lemma forced_close_frees_open_file_witness : exists s, run 2 1 forced init = Some s /\ endpoints (drv s) !! 2%positive = None /\
  enabled (Ioctl 2) s /\ step 2 1 (Ioctl 2) s = None /\ enabled (Close 2) s /\ step 2 1 (Close 2) s = None.
Proof.
  assert (Ha : allowed 2 1 (fun o s => enabled o s /\ careful o s) forced init) by (apply (allowedb_spec 2 1 both); [exact both_spec|vm_compute; reflexivity]).
  assert (E : option_map forced_state (run 2 1 forced init) = Some true) by (vm_compute; reflexivity).
  destruct (run 2 1 forced init) as [s|] eqn:Hr; [|discriminate]. exists s. cbn [option_map] in E. assert (El : forced_state s = true) by congruence.
  apply andb_true_iff in El as [[[E1 E2]%bool_decide_eq_true E3%all_threads_no]%andb_true_iff E4%all_threads_no].
  destruct (proj2 (forced_close_frees_open_file 2 1 forced s 2 Ha Hr) E1 E2 E3 E4) as (_ & He & [H1 H2] & _ & H3 & H4).
  split; [reflexivity|]. split; [exact He|]. split; [exact H1|]. split; [exact H2|]. split; [exact H3|exact H4].
Defined.

(** The endpoint 2 has found its interface when the interface is detached; then it is
    put in the table. *)
Definition late : list op := [AttachIface 1 0; DevOpen 2; Open 2 0 0] ++ gos 0 2 ++ [DetachIface 1 false] ++ gos 1 3 ++ gos 0 1.
Example late_open : option_map (fun s => (map_to_list (endpoints (drv s)), map_to_list (ifaces (drv s)), map_to_list (omx_ifaces (drv s)))) (run 2 1 late init) =
  Some ([(2%positive, Endpoint OK 1 0 0 (Some 1%positive) all_buffers)], [(1%positive, Iface 1 true 0 {[ 0 := 2%positive ]} 1)], []).
Proof. vm_compute. reflexivity. Qed.
Lemma late_allowed : allowed 2 1 (fun o s => enabled o s /\ careful o s) late init.
Proof. apply (allowedb_spec 2 1 both); [exact both_spec|vm_compute; reflexivity]. Qed.
End EndpointSamples.
