(* ===== verification/XenGrant.v ===== *)
(** Grant tables, as the guest's kernel and the hypervisor offer them to the
    Xen drivers: the operations the drivers call, and what is documented of
    them, which is all that the theorems use; a table to run them with. *)
From S2P Require Import Prelude.

Module XenGrant.

(** ** The interface

    [granted] gives the frame of each reference that is granted to the domain
    of the driver, [mapped] the reference and the address of each mapping by its
    handle, [unreserved] the references nobody took, [room] how many mappings
    the hypervisor still accepts; [refs] lists the references of a private list
    of the guest, the next to be claimed first. *)
Class GrantTable (T R : Type) := {
  granted : T -> gmap Z Z;
  mapped : T -> gmap Z (Z * Z);
  unreserved : T -> gset Z;
  room : T -> Z;
  refs : R -> list Z;
  (** The kernel of the guest; [None] is [-ENOSPC]. *)
  gnttab_alloc_grant_references : Z -> T -> option (R * T);
  gnttab_claim_grant_reference : R -> option (Z * R);
  gnttab_release_grant_reference : Z -> R -> R;
  gnttab_grant_foreign_access_ref : Z -> Z -> T -> T;
  gnttab_query_foreign_access : Z -> T -> bool;
  gnttab_end_foreign_access_ref : Z -> T -> bool * T;
  (** The hypervisor, for the backend: the status and the handle of a mapping
      of a reference at an address, the status of an unmapping. *)
  map_grant_ref : Z -> Z -> T -> Z * Z * T;
  unmap_grant_ref : Z -> Z -> T -> Z * T }.

Section laws.
Context {T R : Type} {ops : GrantTable T R}.
Implicit Types (t : T) (r : R).

(** An operation that changes nothing else. *)
Definition same_grants t t' : Prop := granted t' = granted t /\ unreserved t' = unreserved t.
Definition same_maps t t' : Prop := mapped t' = mapped t /\ room t' = room t.

Class GrantTableLaws : Prop := {
  alloc_some n t : 0 <= n -> n <= Z.of_nat (size (unreserved t)) -> is_Some (gnttab_alloc_grant_references n t);
  alloc_refs n t r t' : 0 <= n -> gnttab_alloc_grant_references n t = Some (r, t') ->
    Z.of_nat (length (refs r)) = n /\ NoDup (refs r) /\ (forall x, x ∈ refs r -> x ∈ unreserved t) /\
    granted t' = granted t /\ unreserved t' = unreserved t ∖ list_to_set (refs r) /\ same_maps t t';
  claim_refs r : match refs r with
    | [] => gnttab_claim_grant_reference r = None
    | x :: l => exists r', gnttab_claim_grant_reference r = Some (x, r') /\ refs r' = l
    end;
  release_refs x r : refs (gnttab_release_grant_reference x r) = x :: refs r;
  grant_ref x f t : granted (gnttab_grant_foreign_access_ref x f t) = <[x := f]> (granted t) /\
    unreserved (gnttab_grant_foreign_access_ref x f t) = unreserved t /\ same_maps t (gnttab_grant_foreign_access_ref x f t);
  query_ref x t : gnttab_query_foreign_access x t = true <-> exists h a, mapped t !! h = Some (x, a);
  end_ref x t : gnttab_query_foreign_access x t = false -> exists t', gnttab_end_foreign_access_ref x t = (true, t') /\
    granted t' = delete x (granted t) /\ unreserved t' = unreserved t /\ same_maps t t';
  end_used x t : gnttab_query_foreign_access x t = true -> gnttab_end_foreign_access_ref x t = (false, t);
  map_ref x a f t : granted t !! x = Some f -> 0 < room t -> exists h t', map_grant_ref x a t = (0, h, t') /\
    0 <= h < 2 ^ 31 /\ mapped t !! h = None /\ mapped t' = <[h := (x, a)]> (mapped t) /\ room t' = room t - 1 /\ same_grants t t';
  map_bad x a t : granted t !! x = None -> exists st h, map_grant_ref x a t = (st, h, t) /\ st < 0;
  unmap_ref h x a t : mapped t !! h = Some (x, a) -> exists t', unmap_grant_ref a h t = (0, t') /\
    mapped t' = delete h (mapped t) /\ room t' = room t + 1 /\ same_grants t t' }.
End laws.
Arguments GrantTableLaws T R {ops}.

(** ** A table

    The free references are a set, a private list is a list, and a mapping has
    the first handle that is free, as long as there are less than 2^31 - 1. *)
Record table := Table { tb_granted : gmap Z Z; tb_mapped : gmap Z (Z * Z); tb_free : gset Z }.

Definition table_alloc (n : Z) (t : table) : option (list Z * table) :=
  if Z.of_nat (size (tb_free t)) <? n then None
  else
    let l := take (Z.to_nat n) (elements (tb_free t)) in
    Some (l, Table (tb_granted t) (tb_mapped t) (tb_free t ∖ list_to_set l)).
Definition table_claim (l : list Z) : option (Z * list Z) := match l with [] => None | x :: l => Some (x, l) end.
Definition table_query (x : Z) (t : table) : bool := existsb (fun e => e.2.1 =? x) (map_to_list (tb_mapped t)).
Definition table_end (x : Z) (t : table) : bool * table :=
  if table_query x t then (false, t) else (true, Table (delete x (tb_granted t)) (tb_mapped t) (tb_free t)).
Definition table_room (t : table) : Z := 2 ^ 31 - 1 - Z.of_nat (size (tb_mapped t)).
Definition fresh_handle (m : gmap Z (Z * Z)) : Z :=
  default 0 (List.find (fun h => bool_decide (m !! h = None)) (seqZ 0 (Z.of_nat (size m) + 1))).
Definition table_map (x a : Z) (t : table) : Z * Z * table :=
  match tb_granted t !! x with
  | None => (-3, 0, t)
  | Some f =>
      if table_room t <=? 0 then (-1, 0, t)
      else let h := fresh_handle (tb_mapped t) in (0, h, Table (tb_granted t) (<[h := (x, a)]> (tb_mapped t)) (tb_free t))
  end.
Definition table_unmap (a h : Z) (t : table) : Z * table :=
  match tb_mapped t !! h with
  | None => (-4, t)
  | Some _ => (0, Table (tb_granted t) (delete h (tb_mapped t)) (tb_free t))
  end.
#[export] Instance table_ops : GrantTable table (list Z) := {
  granted := tb_granted; mapped := tb_mapped; unreserved := tb_free; room := table_room; refs := fun l => l;
  gnttab_alloc_grant_references := table_alloc; gnttab_claim_grant_reference := table_claim;
  gnttab_release_grant_reference := cons;
  gnttab_grant_foreign_access_ref := fun x f t => Table (<[x := f]> (tb_granted t)) (tb_mapped t) (tb_free t);
  gnttab_query_foreign_access := table_query; gnttab_end_foreign_access_ref := table_end;
  map_grant_ref := table_map; unmap_grant_ref := table_unmap }.

Lemma fresh_handle_spec m : 0 <= fresh_handle m <= Z.of_nat (size m) /\ m !! fresh_handle m = None.
Proof.
  unfold fresh_handle. destruct (List.find _ _) as [h|] eqn:E; cbn.
  - apply find_some in E as [Hin%list_elem_of_In Hd%bool_decide_eq_true]. apply elem_of_seqZ in Hin. split; [lia|done].
  - exfalso. pose proof (find_none _ _ E) as Hn. set (l := seqZ 0 (Z.of_nat (size m) + 1)) in *.
    assert (Hsub : (list_to_set l : gset Z) ⊆ dom m).
    { intros h Hh%elem_of_list_to_set. apply elem_of_dom. destruct (m !! h) as [y|] eqn:Hm; [by eexists|].
      specialize (Hn h (proj1 (list_elem_of_In _ _) Hh)). apply bool_decide_eq_false in Hn. done. }
    apply subseteq_size in Hsub. rewrite size_list_to_set, size_dom in Hsub by apply NoDup_seqZ.
    unfold l in Hsub. rewrite length_seqZ in Hsub. lia.
Qed.
Lemma table_query_spec x t : table_query x t = true <-> exists h a, tb_mapped t !! h = Some (x, a).
Proof.
  unfold table_query. rewrite existsb_exists. split.
  - intros ([h [y a]] & Hin%list_elem_of_In%elem_of_map_to_list & Hy%Z.eqb_eq). cbn in Hy. subst y. by exists h, a.
  - intros (h & a & Hm). exists (h, (x, a)). split; [by apply list_elem_of_In, elem_of_map_to_list|]. cbn. apply Z.eqb_refl.
Qed.
#[export] Instance table_laws : GrantTableLaws table (list Z).
Proof.
  split.
  - intros n t Hn Hs. cbn in *. unfold table_alloc. rewrite (proj2 (Z.ltb_ge _ _)) by done. by eexists.
  - intros n t r t' Hn. cbn. unfold table_alloc. destruct (Z.ltb_spec (Z.of_nat (size (tb_free t))) n) as [|Hs]; [done|].
    intros [= <- <-]. cbn. unfold size, set_size in Hs. cbn in Hs. split_and!; try done.
    + rewrite length_take. lia.
    + pose proof (NoDup_elements (tb_free t)) as Hd. rewrite <- (take_drop (Z.to_nat n)) in Hd. by apply NoDup_app in Hd as (? & _).
    + intros x Hx. apply elem_of_elements. rewrite <- (take_drop (Z.to_nat n) (elements _)). apply elem_of_app. by left.
  - intros [|x l]; [done|]. by exists l.
  - done.
  - done.
  - intros x t. apply table_query_spec.
  - intros x t E. cbn in *. unfold table_end. rewrite E. by eexists.
  - intros x t E. cbn in *. unfold table_end. by rewrite E.
  - intros x a f t Hg Hr. cbn in *. unfold table_map. rewrite Hg. rewrite (proj2 (Z.leb_gt _ _)) by done.
    destruct (fresh_handle_spec (tb_mapped t)) as [Hb Hf]. eexists _, _. split; [done|]. unfold table_room in *. cbn.
    split_and!; try done; try lia. rewrite map_size_insert_None by done. lia.
  - intros x a t Hg. cbn in *. unfold table_map. rewrite Hg. eexists _, _. split; [done|]. lia.
  - intros h x a t Hm. cbn in *. unfold table_unmap. rewrite Hm. eexists. split; [done|]. unfold table_room. cbn. split_and!; try done.
    rewrite map_size_delete_Some by done. assert (size (tb_mapped t) <> 0%nat) by (apply map_size_ne_0_lookup; by eexists). lia.
Qed.
End XenGrant.
