(* ===== verification/XenReg.v ===== *)
(** User regions of a guest ([driver/frontend/omx_xenfront_reg.c],
    [driver/backend/omx_xenback_reg.c]): the guest grants the pages of each
    segment, and the pages that hold the list of their references, to the
    backend, which maps the list, then the pages it names; the destruction
    unmaps them and the guest takes its grants back.

    A page is its frame.  [None] is a fault, or a loop that does not end. *)
From S2P Require Import Prelude Segments Reg RegTable XenGrant.
Import XenGrant.

Module XenReg.
Import Reg.

Definition ENOSPC : Z := -28.
(* [common/omx_xen.h:34-34] OMX_XEN_GRANT_PAGES_MAX *)
Definition OMX_XEN_GRANT_PAGES_MAX : Z := 16.
Definition OMX_XEN_MAX_ENDPOINTS : Z := 255.
(** References in a page of a list. *)
Definition NR_GREFS : Z := 1024.

(** ** Messages *)

(** The array of references holds the ones that were written. *)
(* [common/omx_xen.h:181-198] omx_ring_msg_register_user_segment *)
Record register_msg := RegisterMsg {
  rm_rid : Z; rm_eid : Z; rm_aligned_vaddr : Z; rm_first_page_offset : Z; rm_length : Z; rm_nr_pages : Z;
  rm_nr_grefs : Z; rm_gref : list Z; rm_sid : Z; rm_gref_offset : Z; rm_nr_parts : Z }.
(* [common/omx_xen.h:200-217] omx_ring_msg_deregister_user_segment *)
Record deregister_msg := DeregisterMsg { dm_rid : Z; dm_eid : Z; dm_sid : Z }.
(** Both have room for two segments; what was not written is what the slot of
    the ring had. *)
(* [common/omx_xen.h:219-234] omx_ring_msg_create_user_region *)
Record create_msg := CreateMsg {
  cm_id : Z; cm_nr_segments : Z; cm_eid : Z; cm_status : Z; cm_segs : list register_msg }.
(* [common/omx_xen.h:236-249] omx_ring_msg_destroy_user_region *)
Record destroy_msg := DestroyMsg {
  dsm_id : Z; dsm_nr_segments : Z; dsm_eid : Z; dsm_status : Z; dsm_region : Z; dsm_segs : list deregister_msg }.
#[export] Instance e_create_msg : Settable create_msg := fun m =>
  CreateMsg (cm_id m) (cm_nr_segments m) (cm_eid m) (cm_status m) (cm_segs m).
#[export] Instance s_cm_id : Setter cm_id. Proof. mk_setter. Defined.
#[export] Instance s_cm_nr_segments : Setter cm_nr_segments. Proof. mk_setter. Defined.
#[export] Instance s_cm_eid : Setter cm_eid. Proof. mk_setter. Defined.
#[export] Instance s_cm_status : Setter cm_status. Proof. mk_setter. Defined.
#[export] Instance s_cm_segs : Setter cm_segs. Proof. mk_setter. Defined.
#[export] Instance e_destroy_msg : Settable destroy_msg := fun m =>
  DestroyMsg (dsm_id m) (dsm_nr_segments m) (dsm_eid m) (dsm_status m) (dsm_region m) (dsm_segs m).
#[export] Instance s_dsm_id : Setter dsm_id. Proof. mk_setter. Defined.
#[export] Instance s_dsm_nr_segments : Setter dsm_nr_segments. Proof. mk_setter. Defined.
#[export] Instance s_dsm_eid : Setter dsm_eid. Proof. mk_setter. Defined.
#[export] Instance s_dsm_status : Setter dsm_status. Proof. mk_setter. Defined.
#[export] Instance s_dsm_region : Setter dsm_region. Proof. mk_setter. Defined.
#[export] Instance s_dsm_segs : Setter dsm_segs. Proof. mk_setter. Defined.

Section xen.
Context {T R : Type} {grants : GrantTable T R}.

(** ** The guest *)

(** What both domains share: the grant table of the guest and the words of the
    frames of its lists of references. *)
Record xmem := XMem { gt : T; words : Z -> Z -> Z }.
(* [driver/frontend/omx_xenfront_reg.c:461-465] omx_xenfront_gref_cookie *)
Record gref_cookie := Cookie { gref_head : R; ck_count : Z }.
(** The cookies by their addresses, and the two lists they are in. *)
(* [driver/frontend/omx_xenfront.h:67-70] omx_xenfront_info *)
Record cookies := Cookies {
  cookie_at : gmap Z gref_cookie; gref_cookies_free : list Z; gref_cookies_inuse : list Z }.
(** What the frontend adds to a segment; the list is in the pages of the given
    frames. *)
(* [driver/frontend/omx_reg.h:73-88] omx_user_region_segment *)
Record xsegment := XSegment { xs_cookie : Z; xs_nr_parts : Z; xs_all_gref : list Z; xs_gref_list : list Z }.

(** *** References *)

(** [kmalloc] gives the address of the [k]-th cookie allocated in a call. *)
(* [driver/frontend/omx_xenfront_reg.c:467-503] omx_xen_gnttab_really_alloc_grant_references *)
Definition omx_xen_gnttab_really_alloc_grant_references (kmalloc : option Z) (count : Z) (c : cookies) (m : xmem)
    : Z * cookies * xmem :=
  match kmalloc with
  | None => (ENOMEM, c, m)
  | Some a =>
      match gnttab_alloc_grant_references count (gt m) with
      | None => (ENOSPC, c, m)
      | Some (r, t) =>
          (0, Cookies (<[a := Cookie r count]> (cookie_at c)) (gref_cookies_free c ++ [a]) (gref_cookies_inuse c),
           XMem t (words m))
      end
  end.
(* [driver/frontend/omx_xenfront_reg.c:505-525] omx_xenfront_gref_put_cookie *)
Definition omx_xenfront_gref_put_cookie (a : Z) (c : cookies) : cookies :=
  Cookies (cookie_at c) (remove_elt a (gref_cookies_free c) ++ [a]) (remove_elt a (gref_cookies_inuse c)).

(** The loop that fills the list when it is empty, or when [try_again]: without
    references it goes on until another task gives a cookie back.  [None] in
    the result is the failure of [kmalloc]. *)
Fixpoint refill_cookies (fuel : nat) (kmalloc : nat -> option Z) (k : nat) (try_again : bool) (count : Z) (c : cookies) (m : xmem)
    : option (option (nat * cookies * xmem)) :=
  if negb (bool_decide (gref_cookies_free c = [])) && negb try_again then Some (Some (k, c, m))
  else
    match fuel with
    | O => None
    | S fuel =>
        let '(ret, c, m) := omx_xen_gnttab_really_alloc_grant_references (kmalloc k) count c m in
        if ret =? ENOMEM then Some None else refill_cookies fuel kmalloc (S k) false count c m
    end.
Fixpoint find_cookie (count : Z) (c : cookies) (l : list Z) : option (option Z) :=
  match l with
  | [] => Some None
  | a :: l => ck ← cookie_at c !! a; if count <=? ck_count ck then Some (Some a) else find_cookie count c l
  end.
(** [n] more attempts; [Some None] is a null pointer. *)
Fixpoint get_cookie (n fuel : nat) (kmalloc : nat -> option Z) (k : nat) (try_again : bool) (count : Z) (c : cookies) (m : xmem)
    : option (option Z * cookies * xmem) :=
  r ← refill_cookies fuel kmalloc k try_again count c m;
  match r with
  | None => Some (None, c, m)
  | Some (k, c, m) =>
      found ← find_cookie count c (gref_cookies_free c);
      match found with
      | Some a =>
          Some (Some a, Cookies (cookie_at c) (remove_elt a (gref_cookies_free c)) (gref_cookies_inuse c ++ [a]), m)
      | None =>
          match n with
          | O => Some (None, c, m)
          | S n => get_cookie n fuel kmalloc k true count c m
          end
      end
  end.
Definition XEN_GRANT_TIMEOUT : nat := 1000.
(* [driver/frontend/omx_xenfront_reg.c:559-630] omx_xenfront_gref_get_cookie *)
Definition omx_xenfront_gref_get_cookie (fuel : nat) (kmalloc : nat -> option Z) (count : Z) (c : cookies) (m : xmem)
    : option (option Z * cookies * xmem) :=
  get_cookie XEN_GRANT_TIMEOUT fuel kmalloc 0 false count c m.
(* [driver/frontend/omx_xenfront_reg.c:655-665] omx_gnttab_claim_grant_reference *)
Definition omx_gnttab_claim_grant_reference (a : Z) (c : cookies) : option (option Z * cookies) :=
  ck ← cookie_at c !! a;
  match gnttab_claim_grant_reference (gref_head ck) with
  | None => Some (None, c)
  | Some (x, r) =>
      Some (Some x, Cookies (<[a := Cookie r (ck_count ck)]> (cookie_at c)) (gref_cookies_free c) (gref_cookies_inuse c))
  end.
(* [driver/frontend/omx_xenfront_reg.c:667-673] omx_gnttab_release_grant_reference *)
Definition omx_gnttab_release_grant_reference (a x : Z) (c : cookies) : option cookies :=
  ck ← cookie_at c !! a;
  Some (Cookies (<[a := Cookie (gnttab_release_grant_reference x (gref_head ck)) (ck_count ck)]> (cookie_at c))
          (gref_cookies_free c) (gref_cookies_inuse c)).
(** [cookie->count--]. *)
Definition lose_reference (a : Z) (c : cookies) : option cookies :=
  ck ← cookie_at c !! a;
  Some (Cookies (<[a := Cookie (gref_head ck) (u32 (ck_count ck - 1))]> (cookie_at c)) (gref_cookies_free c) (gref_cookies_inuse c)).
Definition grant (x frame : Z) (m : xmem) : xmem := XMem (gnttab_grant_foreign_access_ref x frame (gt m)) (words m).

(** *** Granting a segment *)

(** The word [j] of a list that is in the pages of [frames]. *)
Definition write_list (frames : list Z) (j v : Z) (m : xmem) : option xmem :=
  f ← frames !! Z.to_nat (j / NR_GREFS);
  Some (XMem (gt m) (fun g i => if (g =? f) && (i =? j mod NR_GREFS) then v else words m g i)).
Definition read_list (frames : list Z) (j : Z) (m : xmem) : option Z :=
  f ← frames !! Z.to_nat (j / NR_GREFS); Some (words m f (j mod NR_GREFS)).

(** The pages of the list, from the [k]-th; the array [all_gref] has 16 entries. *)
(* [driver/frontend/omx_xenfront_reg.c:809-842] omx_ioctl_xen_user_region_create *)
Fixpoint grant_parts (a : Z) (frames : list Z) (n : nat) (k : Z) (c : cookies) (m : xmem)
    : option ((Z + list Z) * cookies * xmem) :=
  match n with
  | O => Some (inr [], c, m)
  | S n =>
      '(gref, c) ← omx_gnttab_claim_grant_reference a c;
      match gref with
      | None => Some (inl ENOSPC, c, m)
      | Some x =>
          frame ← frames !! Z.to_nat k;
          if OMX_XEN_GRANT_PAGES_MAX <=? k then None
          else
            '(ret, c, m) ← grant_parts a frames n (k + 1) c (grant x frame m);
            Some (match ret with inl err => inl err | inr l => inr (x :: l) end, c, m)
      end
  end.
(** The pages of the segment, from the [j]-th. *)
(* [driver/frontend/omx_xenfront_reg.c:848-876] omx_ioctl_xen_user_region_create *)
Fixpoint grant_pages (a : Z) (frames : list Z) (pages : list (option Z)) (n : nat) (j : Z) (c : cookies) (m : xmem)
    : option (Z * cookies * xmem) :=
  match n with
  | O => Some (0, c, m)
  | S n =>
      frame ← mjoin (pages !! Z.to_nat j);
      '(gref, c) ← omx_gnttab_claim_grant_reference a c;
      m ← write_list frames j (default (u32 ENOSPC) gref) m;
      match gref with
      | None => Some (ENOSPC, c, m)
      | Some x => grant_pages a frames pages n (j + 1) c (grant x frame m)
      end
  end.

(** What the kernel answers for the [i]-th segment: the addresses of the cookies
    that are allocated, the frames of the pages of the list. *)
Record grant_env := GrantEnv { ge_kmalloc : nat -> option Z; ge_fuel : nat; ge_list : list Z }.
Definition nr_parts_of (nr_pages : Z) : Z := u8 (Z.shiftr (PAGE_ALIGN (u64 (nr_pages * 4))) PAGE_SHIFT).
(** A segment of the array that was not filled. *)
Definition no_segment : segment := Segment 0 0 0 0 0 false [].

(** One round of the loop: the error, or the segment with its message unless it
    is empty. *)
(* [driver/frontend/omx_xenfront_reg.c:742-907] omx_ioctl_xen_user_region_create *)
Definition grant_segment (env : grant_env) (id eid : Z) (i : Z) (sg : segment) (c : cookies) (m : xmem)
    : option ((Z + option (xsegment * register_msg)) * cookies * xmem) :=
  let nr_parts := nr_parts_of (nr_pages sg) in
  '(cookie, c, m) ← omx_xenfront_gref_get_cookie (ge_fuel env) (ge_kmalloc env) (u32 (nr_pages sg + nr_parts * nr_parts)) c m;
  match cookie with
  | None => Some (inl EINVAL, c, m)
  | Some a =>
      '(parts, c, m) ← grant_parts a (ge_list env) (Z.to_nat nr_parts) 0 c m;
      match parts with
      | inl err => Some (inl err, c, m)
      | inr grefs =>
          if sg_length sg =? 0 then Some (inr None, c, m)
          else
            '(ret, c, m) ← grant_pages a (ge_list env) (pages sg) (Z.to_nat (nr_pages sg)) 0 c m;
            if ret <? 0 then Some (inl ret, c, m)
            else Some (inr (Some (XSegment a nr_parts grefs (ge_list env),
                   RegisterMsg id eid (u32 (aligned_vaddr sg)) (u16 (first_page_offset sg)) (u32 (sg_length sg))
                     (u32 (nr_pages sg)) NR_GREFS grefs i 0 nr_parts)), c, m)
      end
  end.
(** The loop over the segments of the command; the message has room for two.
    The segments that were granted are kept in order. *)
Fixpoint grant_segments (n : nat) (env : nat -> grant_env) (id eid : Z) (i : Z) (sgs : list segment) (msg : create_msg)
    (c : cookies) (m : xmem) : option ((Z + (create_msg * list xsegment)) * cookies * xmem) :=
  match n with
  | O => Some (inr (msg, []), c, m)
  | S n =>
      '(ret, c, m) ← grant_segment (env (Z.to_nat i)) id eid i (default no_segment (head sgs)) c m;
      match ret with
      | inl err => Some (inl err, c, m)
      | inr None => grant_segments n env id eid (i + 1) sgs msg c m
      | inr (Some (xs, rm)) =>
          if Z.of_nat (length (cm_segs msg)) <=? i then None
          else
            '(ret, c, m) ← grant_segments n env id eid (i + 1) (tail sgs) (msg <| cm_segs ::= <[Z.to_nat i := rm]> |>) c m;
            Some (match ret with inl err => inl err | inr (msg, l) => inr (msg, xs :: l) end, c, m)
      end
  end.
(** The message of a region, in a slot that held [slot]. *)
(* [driver/frontend/omx_xenfront_reg.c:734-907] omx_ioctl_xen_user_region_create *)
Definition create_message (env : nat -> grant_env) (nr_segments id eid : Z) (sgs : list segment) (slot : create_msg)
    (c : cookies) (m : xmem) : option ((Z + (create_msg * list xsegment)) * cookies * xmem) :=
  grant_segments (Z.to_nat nr_segments) env id eid 0 sgs
    (slot <| cm_nr_segments := nr_segments |> <| cm_id := id |> <| cm_eid := eid |>) c m.

(** *** Taking the grants back *)

(** A reference whose page the backend still maps is lost.  [must] tells whether
    a failure to end the access loses it too. *)
Definition release_gref (must : bool) (a x : Z) (c : cookies) (m : xmem) : option (cookies * xmem) :=
  if gnttab_query_foreign_access x (gt m) then c ← lose_reference a c; Some (c, m)
  else
    let '(ended, t) := gnttab_end_foreign_access_ref x (gt m) in
    if negb ended && must then Some (c, XMem t (words m))
    else c ← omx_gnttab_release_grant_reference a x c; Some (c, XMem t (words m)).
Fixpoint release_pages (a : Z) (frames : list Z) (n : nat) (j : Z) (c : cookies) (m : xmem) : option (cookies * xmem) :=
  match n with
  | O => Some (c, m)
  | S n =>
      x ← read_list frames j m;
      '(c, m) ← release_gref true a x c m;
      release_pages a frames n (j + 1) c m
  end.
Fixpoint release_parts (a : Z) (grefs : list Z) (c : cookies) (m : xmem) : option (cookies * xmem) :=
  match grefs with
  | [] => Some (c, m)
  | x :: grefs => '(c, m) ← release_gref false a x c m; release_parts a grefs c m
  end.
(* [driver/frontend/omx_xenfront_reg.c:1154-1280] __omx_xen_user_region_last_release *)
Definition release_segment (sg : segment) (xs : xsegment) (c : cookies) (m : xmem) : option (cookies * xmem) :=
  '(c, m) ← release_pages (xs_cookie xs) (xs_gref_list xs) (Z.to_nat (nr_pages sg)) 0 c m;
  '(c, m) ← release_parts (xs_cookie xs) (take (Z.to_nat (xs_nr_parts xs)) (xs_all_gref xs)) c m;
  Some (omx_xenfront_gref_put_cookie (xs_cookie xs) c, m).
(** An empty segment is the one of every later round. *)
Fixpoint release_segments (sgs : list segment) (xsegs : list xsegment) (c : cookies) (m : xmem) : option (cookies * xmem) :=
  match sgs with
  | [] => Some (c, m)
  | sg :: sgs =>
      if sg_length sg =? 0 then Some (c, m)
      else
        xs ← head xsegs;
        '(c, m) ← release_segment sg xs c m;
        release_segments sgs (tail xsegs) c m
  end.

(** The message that asks for the destruction; every round looks at the first
    segment of the region. *)
(* [driver/frontend/omx_xenfront_reg.c:1354-1372] omx_ioctl_xen_user_region_destroy *)
Definition destroy_message (id eid region : Z) (sgs : list segment) (slot : destroy_msg) : option destroy_msg :=
  let n := length sgs in
  if bool_decide (length (dsm_segs slot) < n)%nat then None
  else Some (slot <| dsm_id := id |> <| dsm_nr_segments := u16 (Z.of_nat n) |> <| dsm_eid := eid |> <| dsm_region := region |>
               <| dsm_segs ::= fun l => if sg_length (default no_segment (head sgs)) =? 0 then l
                    else ((fun i => DeregisterMsg id eid (Z.of_nat i)) <$> seq 0 n) ++ drop n l |>).

(** ** The backend *)

(** A pointer to an array, which may have been freed. *)
Inductive array (A : Type) := Null | Freed | At (l : A).
Arguments Null {A}. Arguments Freed {A}. Arguments At {A} l.
(** [bs_unmap] has the address and the handle of each page; the pages are
    addresses the backend maps frames at. *)
(* [driver/backend/omx_xenback.h:116-138] omx_xen_user_region_segment *)
Record bsegment := BSegment {
  bs_nr_pages : Z; bs_length : Z; bs_first_page_offset : Z; bs_gref_offset : Z; bs_nr_parts : Z;
  bs_all_gref : list Z; bs_all_handle : list Z; bs_vm_gref : list Z; bs_unmap : array (list (Z * Z)); bs_pages : list Z }.
#[export] Instance e_bsegment : Settable bsegment := fun s => BSegment (bs_nr_pages s) (bs_length s) (bs_first_page_offset s)
  (bs_gref_offset s) (bs_nr_parts s) (bs_all_gref s) (bs_all_handle s) (bs_vm_gref s) (bs_unmap s) (bs_pages s).
#[export] Instance s_bs_nr_pages : Setter bs_nr_pages. Proof. mk_setter. Defined.
#[export] Instance s_bs_length : Setter bs_length. Proof. mk_setter. Defined.
#[export] Instance s_bs_first_page_offset : Setter bs_first_page_offset. Proof. mk_setter. Defined.
#[export] Instance s_bs_gref_offset : Setter bs_gref_offset. Proof. mk_setter. Defined.
#[export] Instance s_bs_nr_parts : Setter bs_nr_parts. Proof. mk_setter. Defined.
#[export] Instance s_bs_all_gref : Setter bs_all_gref. Proof. mk_setter. Defined.
#[export] Instance s_bs_all_handle : Setter bs_all_handle. Proof. mk_setter. Defined.
#[export] Instance s_bs_vm_gref : Setter bs_vm_gref. Proof. mk_setter. Defined.
#[export] Instance s_bs_unmap : Setter bs_unmap. Proof. mk_setter. Defined.
#[export] Instance s_bs_pages : Setter bs_pages. Proof. mk_setter. Defined.
Definition zero_segment : bsegment := BSegment 0 0 0 0 0 [] [] [] Null [].
(* [driver/backend/omx_xenback.h:98-139] omx_xen_user_region *)
Record bregion := BRegion {
  br_id : Z; br_eid : Z; br_refcount : Z; br_nr_segments : Z; br_total_length : Z; br_segments : list bsegment }.
#[export] Instance e_bregion : Settable bregion := fun r => BRegion (br_id r) (br_eid r) (br_refcount r)
  (br_nr_segments r) (br_total_length r) (br_segments r).
#[export] Instance s_br_refcount : Setter br_refcount. Proof. mk_setter. Defined.
#[export] Instance s_br_total_length : Setter br_total_length. Proof. mk_setter. Defined.
#[export] Instance s_br_segments : Setter br_segments. Proof. mk_setter. Defined.
(** The regions by endpoint and identifier. *)
Definition xregions := Z -> gmap Z bregion.
Definition set_region (eid id : Z) (r : option bregion) (x : xregions) : xregions :=
  fun e => if e =? eid then (match r with Some r => <[id := r]> | None => delete id end) (x e) else x e.
(** [endpoint->xen_regions[id]]: outside of the arrays it is a fault. *)
Definition get_region (eid id : Z) (x : xregions) : option (option bregion) :=
  if (OMX_XEN_MAX_ENDPOINTS <=? eid) || (OMX_USER_REGION_MAX <=? id) then None else Some (x eid !! id).

(** *** Registration *)

(** The answers for a segment: the four arrays, the pages or the error, the
    area of each page of the list. *)
Record register_env := RegisterEnv {
  re_gref_list : bool; re_map : bool; re_unmap : bool; re_page_list : bool; re_pages : Z + list Z; re_area : nat -> option Z }.

(** The error, or the handle; the segment knows the area before it is mapped. *)
(* [driver/backend/omx_xenback_reg.c:220-281] omx_xen_accept_gref_list *)
Definition omx_xen_accept_gref_list (area : option Z) (gref : Z) (part : Z) (seg : bsegment) (m : xmem)
    : option (Z * bsegment * xmem) :=
  match area with
  | None => Some (ENOMEM, seg, m)
  | Some addr =>
      if OMX_XEN_GRANT_PAGES_MAX <=? part then None
      else
        let seg := seg <| bs_vm_gref ::= fun l => take (Z.to_nat part) l ++ [addr] |> in
        let '(status, handle, t) := map_grant_ref gref addr (gt m) in
        let m := XMem t (words m) in
        if negb (status =? 0) then Some (status, seg, m)
        else Some (handle, seg <| bs_all_handle ::= fun l => take (Z.to_nat part) l ++ [handle] |>, m)
  end.
Fixpoint accept_gref_lists (area : nat -> option Z) (grefs : list Z) (part : Z) (seg : bsegment) (m : xmem)
    : option (Z * bsegment * xmem) :=
  match grefs with
  | [] => Some (0, seg, m)
  | gref :: grefs =>
      '(ret, seg, m) ← omx_xen_accept_gref_list (area (Z.to_nat part)) gref part seg m;
      if ret <? 0 then Some (ret, seg, m) else accept_gref_lists area grefs (part + 1) seg m
  end.
(** The word [sidx] of part [idx] of the list, through its mapping. *)
Definition read_gref (seg : bsegment) (idx sidx : Z) (m : xmem) : option Z :=
  let word := sidx + bs_gref_offset seg / 4 in
  if negb (bs_gref_offset seg mod 4 =? 0) || (NR_GREFS <=? word) then None
  else
    handle ← bs_all_handle seg !! Z.to_nat idx;
    '(ref, _) ← mapped (gt m) !! handle;
    frame ← granted (gt m) !! ref;
    Some (words m frame word).
(** The references and the addresses of the pages, from the [i]-th. *)
(* [driver/backend/omx_xenback_reg.c:427-451] omx_xen_register_user_segment *)
Fixpoint map_ops (n : nat) (i idx sidx nr_grefs : Z) (seg : bsegment) (pages : list Z) (m : xmem) : option (list (Z * Z)) :=
  match n with
  | O => Some []
  | S n =>
      addr ← pages !! Z.to_nat i;
      gref ← read_gref seg idx sidx m;
      if nr_grefs =? 0 then None
      else
        let i := i + 1 in
        rest ← (if i mod nr_grefs =? 0 then map_ops n i (idx + 1) 0 nr_grefs seg pages m
                else map_ops n i idx (sidx + 1) nr_grefs seg pages m);
        Some ((gref, addr) :: rest)
  end.
(** [gnttab_map_refs]: the status and the handle of each page; the call itself
    is not refused. *)
Fixpoint gnttab_map_refs (ops : list (Z * Z)) (m : xmem) : list (Z * Z) * xmem :=
  match ops with
  | [] => ([], m)
  | (gref, addr) :: ops =>
      let '(status, handle, t) := map_grant_ref gref addr (gt m) in
      let '(l, m) := gnttab_map_refs ops (XMem t (words m)) in ((status, handle) :: l, m)
  end.
(** The handles up to the first page that was not mapped. *)
(* [driver/backend/omx_xenback_reg.c:460-471] omx_xen_register_user_segment *)
Fixpoint take_handles (unmap : list (Z * Z)) (res : list (Z * Z)) : Z * list (Z * Z) :=
  match unmap, res with
  | (addr, h) :: unmap, (status, handle) :: res =>
      if negb (status =? 0) then (EINVAL, (addr, h) :: unmap)
      else let '(ret, l) := take_handles unmap res in (ret, (addr, handle) :: l)
  | _, _ => (0, unmap)
  end.
(* [driver/backend/omx_xenback_reg.c:283-488] omx_xen_register_user_segment *)
Definition register_segment (env : register_env) (req : register_msg) (seg : bsegment) (m : xmem)
    : option (Z * bsegment * xmem) :=
  let nr_parts := rm_nr_parts req in
  let nr_pages := rm_nr_pages req in
  if bool_decide (length (rm_gref req) < Z.to_nat nr_parts)%nat || (OMX_XEN_GRANT_PAGES_MAX <? nr_parts) then None
  else
    let grefs := take (Z.to_nat nr_parts) (rm_gref req) in
    let seg := seg <| bs_gref_offset := rm_gref_offset req |> <| bs_all_gref := grefs |> <| bs_nr_parts := nr_parts |> in
    if negb (re_gref_list env && re_map env && re_unmap env && re_page_list env) then Some (ENOMEM, seg, m)
    else
      match re_pages env with
      | inl err => Some (err, seg, m)
      | inr pages =>
          '(ret, seg, m) ← accept_gref_lists (re_area env) grefs 0 seg m;
          if ret <? 0 then Some (ret, seg, m)
          else
            let seg := seg <| bs_nr_pages := nr_pages |> <| bs_first_page_offset := rm_first_page_offset req |> in
            ops ← map_ops (Z.to_nat nr_pages) 0 0 0 (rm_nr_grefs req) seg pages m;
            let unmap := (fun op => (op.2, -1)) <$> ops in
            let '(res, m) := gnttab_map_refs ops m in
            let '(ret, unmap) := take_handles unmap res in
            let seg := seg <| bs_unmap := At unmap |> in
            if ret <? 0 then Some (ret, seg, m)
            else Some (0, seg <| bs_pages := pages |> <| bs_nr_pages := nr_pages |> <| bs_length := rm_length req |>, m)
      end.
Definition omx_xen_register_user_segment (env : register_env) (req : register_msg) (x : xregions) (m : xmem)
    : option (Z * xregions * xmem) :=
  let eid := u8 (rm_eid req) in
  region ← get_region eid (rm_rid req) x;
  match region with
  | None => Some (EINVAL, x, m)
  | Some r =>
      seg ← br_segments r !! Z.to_nat (rm_sid req);
      '(ret, seg, m) ← register_segment env req seg m;
      let r := r <| br_segments ::= <[Z.to_nat (rm_sid req) := seg]> |> in
      let r := if ret =? 0 then r <| br_total_length ::= fun n => u64 (n + rm_length req) |> else r in
      Some (ret, set_region eid (rm_rid req) (Some r) x, m)
  end.
(** A region that is already there is kept; the new one is not freed. *)
(* [driver/backend/omx_xenback_reg.c:490-543] omx_xen_create_user_region *)
Definition omx_xen_create_user_region (kzalloc : bool) (id nr_segments eid : Z) (x : xregions) : option (Z * xregions) :=
  if negb kzalloc then Some (ENOMEM, x)
  else
    old ← get_region eid id x;
    match old with
    | Some _ => Some (EBUSY, x)
    | None =>
        Some (0, set_region eid id (Some (BRegion id eid 1 nr_segments 0 (replicate (Z.to_nat nr_segments) zero_segment))) x)
    end.

(** *** Removal *)

(** [gnttab_unmap_refs]; its result and the statuses are not looked at. *)
Fixpoint gnttab_unmap_refs (ops : list (Z * Z)) (m : xmem) : xmem :=
  match ops with
  | [] => m
  | (addr, handle) :: ops => let '(_, t) := unmap_grant_ref addr handle (gt m) in gnttab_unmap_refs ops (XMem t (words m))
  end.
Fixpoint unmap_parts (parts : list (Z * Z)) (m : xmem) : Z * xmem :=
  match parts with
  | [] => (0, m)
  | (addr, handle) :: parts =>
      let '(status, t) := unmap_grant_ref addr handle (gt m) in
      let m := XMem t (words m) in
      if negb (status =? 0) then (status, m) else unmap_parts parts m
  end.
(** Freeing leaves the pointers of the segment as they are. *)
(* [driver/backend/omx_xenback_reg.c:64-178] omx_xen_deregister_user_segment *)
Definition omx_xen_deregister_user_segment (id sid eid : Z) (x : xregions) (m : xmem) : option (Z * xregions * xmem) :=
  region ← get_region eid id x;
  match region with
  | None => Some (0, x, m)
  | Some r =>
      seg ← br_segments r !! Z.to_nat sid;
      match bs_unmap seg with
      | Null => Some (EINVAL, x, m)
      | Freed => None
      | At unmap =>
          if bool_decide (length unmap < Z.to_nat (bs_nr_pages seg))%nat then None
          else
            let m := gnttab_unmap_refs (take (Z.to_nat (bs_nr_pages seg)) unmap) m in
            let n := Z.to_nat (bs_nr_parts seg) in
            if bool_decide (length (bs_vm_gref seg) < n)%nat || bool_decide (length (bs_all_handle seg) < n)%nat then None
            else
              let '(ret, m) := unmap_parts (take n (zip (bs_vm_gref seg) (bs_all_handle seg))) m in
              if negb (ret =? 0) then Some (ret, x, m)
              else Some (0, set_region eid id (Some (r <| br_segments ::= <[Z.to_nat sid := seg <| bs_unmap := Freed |>]> |>)) x, m)
      end
  end.
(* [driver/backend/omx_xenback_reg.c:180-218] omx_xen_destroy_user_region *)
Definition omx_xen_destroy_user_region (id eid : Z) (x : xregions) : option (Z * xregions) :=
  region ← get_region eid id x;
  match region with
  | None => Some (0, x)
  | Some r => Some (0, set_region eid (br_id r) None x)
  end.

(** *** The two commands *)

(** The loops over the segments of a message, from the [i]-th; the result, and
    the identifiers of the last one, are kept. *)
Fixpoint register_segments (n : nat) (i : nat) (env : nat -> register_env) (segs : list register_msg) (ret id eid : Z)
    (x : xregions) (m : xmem) : option (Z * Z * Z * xregions * xmem) :=
  match n with
  | O => Some (ret, id, eid, x, m)
  | S n =>
      req ← segs !! i;
      '(ret, x, m) ← omx_xen_register_user_segment (env i) req x m;
      register_segments n (S i) env segs ret (rm_rid req) (u8 (rm_eid req)) x m
  end.
(** The answer to a creation; what follows the segments of the message is not
    modelled: reading it is a fault. *)
(* [driver/backend/omx_xenback.c:892-975] omx_xenback_process_misc *)
Definition process_create_user_region (kzalloc : bool) (env : nat -> register_env) (msg : create_msg) (x : xregions) (m : xmem)
    : option (create_msg * Z * xregions * xmem) :=
  '(ret, x) ← omx_xen_create_user_region kzalloc (cm_id msg) (cm_nr_segments msg) (cm_eid msg) x;
  '(ret, id, eid, x, m) ← register_segments (Z.to_nat (cm_nr_segments msg)) 0 env (cm_segs msg) ret (cm_id msg) (cm_eid msg) x m;
  Some (msg <| cm_id := id |> <| cm_eid := eid |> <| cm_status := if ret <? 0 then 1 else 0 |>, eid, x, m).
Fixpoint deregister_segments (n : nat) (i : nat) (segs : list deregister_msg) (id eid : Z) (x : xregions) (m : xmem)
    : option (Z * Z * xregions * xmem) :=
  match n with
  | O => Some (id, eid, x, m)
  | S n =>
      seg ← segs !! i;
      '(_, x, m) ← omx_xen_deregister_user_segment (dm_rid seg) (dm_sid seg) (u8 (dm_eid seg)) x m;
      deregister_segments n (S i) segs (dm_rid seg) (u8 (dm_eid seg)) x m
  end.
(* [driver/backend/omx_xenback.c:976-1055] omx_xenback_process_misc *)
Definition process_destroy_user_region (msg : destroy_msg) (x : xregions) (m : xmem)
    : option (destroy_msg * Z * xregions * xmem) :=
  '(id, eid, x, m) ← deregister_segments (Z.to_nat (dsm_nr_segments msg)) 0 (dsm_segs msg) (dsm_id msg) (dsm_eid msg) x m;
  '(ret, x) ← omx_xen_destroy_user_region id eid x;
  Some (msg <| dsm_id := id |> <| dsm_eid := eid |> <| dsm_status := if ret <? 0 then 1 else 0 |>, eid, x, m).
End xen.
Arguments Null {A}.
Arguments Freed {A}.
Arguments At {A} l.
Arguments xmem T : clear implicits.
Arguments cookies R : clear implicits.
Arguments gref_cookie R : clear implicits.
End XenReg.
