(* ===== verification/XenGuest.v ===== *)
(** The grants of a guest: taking references from a cookie, granting pages with
    them and taking them back keeps the cookies and the grant table consistent,
    and loses nothing. *)
From S2P Require Import Prelude Segments Reg RegCopy RegPin RegTable XenGrant XenReg.
Import XenGrant XenReg.

Module XenGuest.
Import Reg.

Section guest.
Context {T R : Type} {grants : GrantTable T R} {laws : GrantTableLaws T R}.
Implicit Types (c : cookies R) (m : xmem T) (ck : gref_cookie R).

(** ** The invariant *)

(** The references of the cookies are different, and neither granted nor free
    for others; a cookie of the free list has as many as it says. *)
Record cookies_ok c m : Prop := {
  co_known a : a ∈ gref_cookies_free c ++ gref_cookies_inuse c -> is_Some (cookie_at c !! a);
  co_nodup : NoDup (gref_cookies_free c ++ gref_cookies_inuse c);
  co_count a ck : a ∈ gref_cookies_free c -> cookie_at c !! a = Some ck -> ck_count ck <= Z.of_nat (length (refs (gref_head ck)));
  co_fresh a ck : cookie_at c !! a = Some ck -> NoDup (refs (gref_head ck)) /\
    forall x, x ∈ refs (gref_head ck) -> granted (gt m) !! x = None /\ x ∉ unreserved (gt m);
  co_disj a b ck ck' x : cookie_at c !! a = Some ck -> cookie_at c !! b = Some ck' ->
    x ∈ refs (gref_head ck) -> x ∈ refs (gref_head ck') -> a = b;
  co_unreserved x : x ∈ unreserved (gt m) -> granted (gt m) !! x = None;
  co_mapped h x a : mapped (gt m) !! h = Some (x, a) -> is_Some (granted (gt m) !! x) }.

(** The memory of the lists does not matter to it. *)
Lemma cookies_words c m t w : gt m = t -> cookies_ok c m -> cookies_ok c (XMem t w).
Proof. intros <- H. split; intros *; apply H. Qed.

(** What becomes of a cookie in use, and of the rest. *)
Definition with_refs (a : Z) ck c : cookies R := Cookies (<[a := ck]> (cookie_at c)) (gref_cookies_free c) (gref_cookies_inuse c).
Definition grants_added (kvs : list (Z * Z)) m m' : Prop :=
  granted (gt m') = list_to_map kvs ∪ granted (gt m) /\ unreserved (gt m') = unreserved (gt m) /\ same_maps (gt m) (gt m').

Lemma with_refs_twice a ck ck' c : with_refs a ck (with_refs a ck' c) = with_refs a ck c.
Proof. unfold with_refs. cbn. by rewrite insert_insert_eq. Qed.
Lemma with_refs_id a ck c : cookie_at c !! a = Some ck -> with_refs a ck c = c.
Proof. intros H. unfold with_refs. rewrite insert_id by done. by destruct c. Qed.
Lemma with_refs_at a ck c : cookie_at (with_refs a ck c) !! a = Some ck.
Proof. apply lookup_insert_eq. Qed.
Lemma grants_nil m : grants_added [] m m.
Proof. split_and!; [cbn; by rewrite (left_id_L ∅ (∪))|done|split; done]. Qed.
Lemma grants_cons x f kvs m m1 m' : x ∉ kvs.*1 -> granted (gt m1) = <[x := f]> (granted (gt m)) ->
  unreserved (gt m1) = unreserved (gt m) -> same_maps (gt m) (gt m1) -> grants_added kvs m1 m' -> grants_added ((x, f) :: kvs) m m'.
Proof.
  intros Hx Hg Hu [Hm Hr] (Hg' & Hu' & [Hm' Hr']). split_and!; [|congruence|split; congruence].
  rewrite Hg', Hg. cbn. rewrite <- insert_union_l. symmetry. apply insert_union_r. by apply not_elem_of_list_to_map.
Qed.
Lemma grants_app l k m m1 m2 : NoDup (l ++ k).*1 -> grants_added l m m1 -> grants_added k m1 m2 -> grants_added (l ++ k) m m2.
Proof.
  intros Hd (G1 & U1 & [M1 R1]) (G2 & U2 & [M2 R2]). split_and!; [|congruence|split; congruence].
  rewrite G2, G1, list_to_map_app, !(assoc_L (∪)). f_equal. apply map_union_comm, map_disjoint_spec.
  intros i v v' Hv Hv'. rewrite fmap_app in Hd. apply NoDup_app in Hd as (_ & Hd & _).
  apply (Hd i).
  - apply elem_of_list_to_map_2 in Hv'. apply list_elem_of_fmap. by exists (i, v').
  - apply elem_of_list_to_map_2 in Hv. apply list_elem_of_fmap. by exists (i, v).
Qed.

(** ** One reference *)

(** The first reference of a cookie in use is claimed and granted. *)
Lemma claim_grant a r n x l frame c m : cookies_ok c m -> a ∉ gref_cookies_free c -> cookie_at c !! a = Some (Cookie r n) ->
  refs r = x :: l -> exists r', omx_gnttab_claim_grant_reference a c = Some (Some x, with_refs a (Cookie r' n) c) /\ refs r' = l /\
    cookies_ok (with_refs a (Cookie r' n) c) (grant x frame m) /\ granted (gt (grant x frame m)) = <[x := frame]> (granted (gt m)) /\
    unreserved (gt (grant x frame m)) = unreserved (gt m) /\ same_maps (gt m) (gt (grant x frame m)).
Proof.
  intros I Ha Hck Hr. unfold omx_gnttab_claim_grant_reference. rewrite Hck. cbn [mbind option_bind gref_head].
  pose proof (claim_refs r) as Hc. rewrite Hr in Hc. destruct Hc as (r' & -> & Hr'). exists r'. split; [done|]. split; [done|].
  destruct (grant_ref x frame (gt m)) as (Hg & Hu & Hm). split; [|done].
  destruct (co_fresh _ _ I a _ Hck) as [Hd Hf]. cbn in Hd, Hf. rewrite Hr in Hd, Hf. apply NoDup_cons in Hd as [Hx Hd].
  assert (Hother : forall b ck y, cookie_at c !! b = Some ck -> b <> a -> y ∈ refs (gref_head ck) -> y <> x).
  { intros b ck y Hb Hne Hy ->. apply Hne. apply (co_disj _ _ I b a ck (Cookie r n) x Hb Hck Hy). cbn. rewrite Hr. apply list_elem_of_here. }
  split; cbn.
  - intros b Hb. apply lookup_insert_is_Some. destruct (decide (a = b)); [by left|right]. split; [done|]. by apply (co_known _ _ I).
  - apply (co_nodup _ _ I).
  - intros b ck Hb. rewrite lookup_insert_ne by (by intros ->). by apply (co_count _ _ I).
  - intros b ck. rewrite Hg, Hu. destruct (decide (a = b)) as [<-|Hne].
    + rewrite lookup_insert_eq. intros [= <-]. cbn. rewrite Hr'. split; [done|]. intros y Hy.
      rewrite lookup_insert_ne by (by intros ->). apply Hf. by right.
    + rewrite lookup_insert_ne by done. intros Hb. destruct (co_fresh _ _ I b ck Hb) as [Hdb Hfb]. split; [done|].
      intros y Hy. rewrite lookup_insert_ne; [by apply Hfb|]. intros ->. by apply (Hother b ck y Hb).
  - intros b b' ck ck' y. destruct (decide (a = b)) as [<-|Hne], (decide (a = b')) as [<-|Hne'];
      rewrite ?lookup_insert_eq, ?lookup_insert_ne by done; try done.
    + intros [= <-] Hb'. cbn. rewrite Hr'. intros Hy. apply (co_disj _ _ I a b' _ ck' y Hck Hb'). cbn. rewrite Hr. by right.
    + intros Hb [= <-]. cbn. rewrite Hr'. intros Hy Hy'. apply (co_disj _ _ I b a ck _ y Hb Hck Hy). cbn. rewrite Hr. by right.
    + apply (co_disj _ _ I).
  - intros y. rewrite Hu, Hg. intros Hy. rewrite lookup_insert_ne; [by apply (co_unreserved _ _ I)|]. intros ->.
    by apply (proj2 (Hf y (list_elem_of_here _ _))).
  - intros h y b. destruct Hm as [-> _]. rewrite Hg. intros Hh. apply lookup_insert_is_Some.
    destruct (decide (x = y)); [by left|right]. split; [done|]. by apply (co_mapped _ _ I h y b).
Qed.

(** A granted reference that is not mapped goes back to a cookie in use. *)
Lemma release_gref_spec must a r n x c m : cookies_ok c m -> a ∉ gref_cookies_free c -> cookie_at c !! a = Some (Cookie r n) ->
  is_Some (granted (gt m) !! x) -> (forall h b, mapped (gt m) !! h <> Some (x, b)) ->
  exists r' m', release_gref must a x c m = Some (with_refs a (Cookie r' n) c, m') /\ refs r' = x :: refs r /\
    cookies_ok (with_refs a (Cookie r' n) c) m' /\ granted (gt m') = delete x (granted (gt m)) /\
    unreserved (gt m') = unreserved (gt m) /\ same_maps (gt m) (gt m') /\ words m' = words m.
Proof.
  intros I Ha Hck Hx Hmap. unfold release_gref. destruct (gnttab_query_foreign_access x (gt m)) eqn:Hq.
  { apply query_ref in Hq as (h & b & Hh). by destruct (Hmap h b). }
  destruct (end_ref x (gt m) Hq) as (t' & -> & Hg & Hu & [Hm Hrm]). cbn [negb andb].
  unfold omx_gnttab_release_grant_reference. rewrite Hck. cbn [mbind option_bind gref_head ck_count].
  exists (gnttab_release_grant_reference x r), (XMem t' (words m)). split; [done|]. pose proof (release_refs x r) as Hr. split; [done|].
  split; [|done]. destruct (co_fresh _ _ I a _ Hck) as [Hd Hf]. cbn in Hd, Hf.
  assert (Hn : forall b ck, cookie_at c !! b = Some ck -> x ∉ refs (gref_head ck)).
  { intros b ck Hb Hin. destruct (co_fresh _ _ I b ck Hb) as [_ Hfb]. destruct (Hfb x Hin) as [E _]. rewrite E in Hx. by destruct Hx. }
  assert (Hxu : x ∉ unreserved (gt m)).
  { intros Hin. rewrite (co_unreserved _ _ I x Hin) in Hx. by destruct Hx. }
  split; cbn.
  - intros b Hb. apply lookup_insert_is_Some. destruct (decide (a = b)); [by left|right]. split; [done|]. by apply (co_known _ _ I).
  - apply (co_nodup _ _ I).
  - intros b ck Hb. rewrite lookup_insert_ne by (by intros ->). by apply (co_count _ _ I).
  - intros b ck. rewrite Hg, Hu. destruct (decide (a = b)) as [<-|Hne].
    + rewrite lookup_insert_eq. intros [= <-]. cbn. rewrite Hr. split; [by apply NoDup_cons; split; [apply (Hn a _ Hck)|]|].
      intros y [->|Hy]%elem_of_cons; [by rewrite lookup_delete_eq|]. destruct (Hf y Hy) as [E ?]. split; [|done].
      by apply lookup_delete_None; right.
    + rewrite lookup_insert_ne by done. intros Hb. destruct (co_fresh _ _ I b ck Hb) as [Hdb Hfb]. split; [done|].
      intros y Hy. destruct (Hfb y Hy) as [E ?]. split; [|done]. by apply lookup_delete_None; right.
  - intros b b' ck ck' y. destruct (decide (a = b)) as [<-|Hne], (decide (a = b')) as [<-|Hne'];
      rewrite ?lookup_insert_eq, ?lookup_insert_ne by done; try done.
    + intros [= <-] Hb'. cbn. rewrite Hr. intros [->|Hy]%elem_of_cons Hy'; [by destruct (Hn b' ck' Hb')|].
      by apply (co_disj _ _ I a b' _ ck' y Hck Hb').
    + intros Hb [= <-]. cbn. rewrite Hr. intros Hy [->|Hy']%elem_of_cons; [by destruct (Hn b ck Hb)|].
      by apply (co_disj _ _ I b a ck _ y Hb Hck Hy).
    + apply (co_disj _ _ I).
  - intros y. rewrite Hu, Hg. intros Hy. apply lookup_delete_None. right. by apply (co_unreserved _ _ I).
  - intros h y b. rewrite Hm, Hg. intros Hh. rewrite lookup_delete_ne; [by apply (co_mapped _ _ I h y b)|]. intros ->. by apply (Hmap h b).
Qed.

(** ** Granting *)

Lemma grant_parts_spec a frames k : forall n r cnt c m, cookies_ok c m -> a ∉ gref_cookies_free c ->
  cookie_at c !! a = Some (Cookie r cnt) -> (n <= length (refs r))%nat -> 0 <= k ->
  k + Z.of_nat n <= Z.of_nat (length frames) -> k + Z.of_nat n <= OMX_XEN_GRANT_PAGES_MAX ->
  exists xs r' m', grant_parts a frames n k c m = Some (inr xs, with_refs a (Cookie r' cnt) c, m') /\
    refs r = xs ++ refs r' /\ length xs = n /\ cookies_ok (with_refs a (Cookie r' cnt) c) m' /\
    grants_added (zip xs (drop (Z.to_nat k) frames)) m m' /\ words m' = words m.
Proof.
  intros n. revert k. induction n as [|n IH]; intros k r cnt c m I Ha Hck Hn Hk Hf Hmax.
  { exists [], r, m. rewrite with_refs_id by done. split_and!; try done. apply grants_nil. }
  destruct (refs r) as [|x l] eqn:Hr; [cbn in Hn; lia|]. cbn in Hn.
  destruct (lookup_lt_is_Some_2 frames (Z.to_nat k)) as [frame Hfr]; [lia|].
  destruct (claim_grant a r cnt x l frame c m I Ha Hck Hr) as (r1 & E & Hr1 & I1 & Hg & Hu & Hm).
  cbn [grant_parts]. rewrite E. cbn [mbind option_bind]. rewrite Hfr. cbn [mbind option_bind].
  rewrite (proj2 (Z.leb_gt _ _)) by (unfold OMX_XEN_GRANT_PAGES_MAX in *; lia).
  destruct (IH (k + 1) r1 cnt _ _ I1 Ha (with_refs_at _ _ _)) as (xs & r' & m' & E' & Hr' & Hl & I' & Hga & Hw); [by rewrite Hr1; lia|lia..|].
  rewrite E'. cbn [mbind option_bind]. rewrite with_refs_twice in *. exists (x :: xs), r', m'.
  assert (Hd : refs r = (x :: xs) ++ refs r') by (rewrite Hr; cbn; by rewrite <- Hr1, Hr').
  split_and!; [done|rewrite <- Hr; exact Hd|cbn; by f_equal|done| |by rewrite Hw].
  rewrite (drop_S _ _ _ Hfr). cbn. replace (S (Z.to_nat k)) with (Z.to_nat (k + 1)) by lia.
  apply (grants_cons _ _ _ _ (grant x frame m)); [|done|done|done|done].
  destruct (co_fresh _ _ I a _ Hck) as [Hnd _]. cbn in Hnd. rewrite Hd in Hnd. cbn in Hnd. apply NoDup_cons in Hnd as [Hx _].
  rewrite fst_zip by (rewrite length_drop; lia). intros Hin. apply Hx, elem_of_app. by left.
Qed.

(** The words of a list, in pages that are different. *)
Lemma write_list_some frames j v m : 0 <= j < NR_GREFS * Z.of_nat (length frames) -> exists m', write_list frames j v m = Some m' /\ gt m' = gt m.
Proof.
  intros Hj. unfold write_list. destruct (lookup_lt_is_Some_2 frames (Z.to_nat (j / NR_GREFS))) as [f ->]; [|by eexists].
  apply Nat2Z.inj_lt. rewrite Z2Nat.id by (apply Z.div_pos; [lia|done]). apply Z.div_lt_upper_bound; [done|lia].
Qed.
Lemma read_write_same frames j v m m' : write_list frames j v m = Some m' -> read_list frames j m' = Some v.
Proof.
  unfold write_list, read_list. destruct (frames !! _) as [f|]; [|done]. cbn [mbind option_bind]. intros [= <-]. cbn. by rewrite !Z.eqb_refl.
Qed.
Lemma read_write_ne frames i j v m m' : NoDup frames -> 0 <= i -> 0 <= j -> i <> j -> write_list frames j v m = Some m' ->
  read_list frames i m' = read_list frames i m.
Proof.
  intros Hd Hi Hj Hne. unfold write_list, read_list. destruct (frames !! Z.to_nat (j / _)) as [f|] eqn:Hf; [|done]. cbn [mbind option_bind].
  intros [= <-]. destruct (frames !! Z.to_nat (i / _)) as [g|] eqn:Hg; [|done]. cbn [mbind option_bind words]. do 2 f_equal.
  destruct (Z.eqb_spec g f) as [->|]; [|done]. destruct (Z.eqb_spec (i mod NR_GREFS) (j mod NR_GREFS)) as [E|]; [|done]. exfalso. apply Hne.
  pose proof (NoDup_lookup _ _ _ _ Hd Hg Hf) as Eq. assert (0 <= i / NR_GREFS) by (by apply Z.div_pos). assert (0 <= j / NR_GREFS) by (by apply Z.div_pos).
  rewrite (Z.div_mod i NR_GREFS), (Z.div_mod j NR_GREFS), E by done. do 2 f_equal. lia.
Qed.
Lemma write_other frames j v m m' g i : g ∉ frames -> write_list frames j v m = Some m' -> words m' g i = words m g i.
Proof.
  intros Hg. unfold write_list. destruct (frames !! _) as [f|] eqn:Hf; [|done]. cbn [mbind option_bind]. intros [= <-]. cbn.
  destruct (Z.eqb_spec g f) as [->|]; [|done]. by apply list_elem_of_lookup_2 in Hf.
Qed.

Lemma grant_pages_spec a frames ps : NoDup frames -> forall n j r cnt c m, cookies_ok c m -> a ∉ gref_cookies_free c ->
  cookie_at c !! a = Some (Cookie r cnt) -> (n <= length (refs r))%nat -> 0 <= j ->
  j + Z.of_nat n <= Z.of_nat (length ps) -> j + Z.of_nat n <= NR_GREFS * Z.of_nat (length frames) ->
  exists xs r' m', grant_pages a frames (Some <$> ps) n j c m = Some (0, with_refs a (Cookie r' cnt) c, m') /\
    refs r = xs ++ refs r' /\ length xs = n /\ cookies_ok (with_refs a (Cookie r' cnt) c) m' /\
    grants_added (zip xs (drop (Z.to_nat j) ps)) m m' /\
    (forall i x, xs !! i = Some x -> read_list frames (j + Z.of_nat i) m' = Some x) /\
    (forall i, 0 <= i < j -> read_list frames i m' = read_list frames i m) /\
    (forall g i, g ∉ frames -> words m' g i = words m g i).
Proof.
  intros Hnd n. induction n as [|n IH]; intros j r cnt c m I Ha Hck Hn Hj Hp Hf.
  { exists [], r, m. rewrite with_refs_id by done. split_and!; try done. apply grants_nil. }
  destruct (refs r) as [|x l] eqn:Hr; [cbn in Hn; lia|]. cbn in Hn.
  destruct (lookup_lt_is_Some_2 ps (Z.to_nat j)) as [frame Hfr]; [lia|].
  destruct (write_list_some frames j x m) as (m0 & Hw & Hgt); [lia|].
  assert (I0 : cookies_ok c m0) by (destruct m0; cbn in Hgt; by apply (cookies_words c m)).
  destruct (claim_grant a r cnt x l frame c m0 I0 Ha Hck Hr) as (r1 & E & Hr1 & I1 & Hg & Hu & Hm).
  cbn [grant_pages]. rewrite list_lookup_fmap, Hfr. cbn [fmap option_fmap option_map mjoin option_join mbind option_bind]. rewrite E.
  cbn [mbind option_bind]. change (default (u32 ENOSPC) (Some x)) with x. rewrite Hw. cbn [mbind option_bind].
  destruct (IH (j + 1) r1 cnt _ _ I1 Ha (with_refs_at _ _ _)) as (xs & r' & m' & E' & Hr' & Hl & I' & Hga & Hx & Hb & Ho);
    [by rewrite Hr1; lia|lia..|].
  rewrite E', with_refs_twice in *. exists (x :: xs), r', m'.
  assert (Hd : refs r = (x :: xs) ++ refs r') by (rewrite Hr; cbn; by rewrite <- Hr1, Hr').
  split_and!; [done|rewrite <- Hr; exact Hd|cbn; by f_equal|done| | | |].
  - rewrite (drop_S _ _ _ Hfr). cbn. replace (S (Z.to_nat j)) with (Z.to_nat (j + 1)) by lia. rewrite Hgt in *.
    apply (grants_cons _ _ _ _ (grant x frame m0)); [|done|done|done|done].
    destruct (co_fresh _ _ I a _ Hck) as [Hnr _]. cbn in Hnr. rewrite Hd in Hnr. cbn in Hnr. apply NoDup_cons in Hnr as [Hni _].
    rewrite fst_zip by (rewrite length_drop; lia). intros Hin. apply Hni, elem_of_app. by left.
  - intros [|i] y; cbn [lookup list_lookup].
    + intros [= <-]. rewrite Z.add_0_r, Hb by lia. exact (read_write_same _ _ _ _ _ Hw).
    + intros Hy. replace (j + Z.of_nat (S i)) with (j + 1 + Z.of_nat i) by lia. by apply Hx.
  - intros i Hi. rewrite Hb by lia. change (read_list frames i (grant x frame m0)) with (read_list frames i m0).
    apply (read_write_ne _ _ j x m m0); done || lia.
  - intros g i Hg'. rewrite Ho by done. exact (write_other _ _ _ _ _ _ _ Hg' Hw).
Qed.

(** ** Cookies *)

Lemma find_cookie_spec count c l : (forall a, a ∈ l -> is_Some (cookie_at c !! a)) ->
  exists r, find_cookie count c l = Some r /\
  match r with
  | Some a => a ∈ l /\ exists ck, cookie_at c !! a = Some ck /\ count <= ck_count ck
  | None => forall a ck, a ∈ l -> cookie_at c !! a = Some ck -> ck_count ck < count
  end.
Proof.
  induction l as [|a l IH]; intros Hk; [exists None; split; [done|by intros a ck Ha%not_elem_of_nil]|]. cbn [find_cookie].
  destruct (Hk a (list_elem_of_here _ _)) as [ck Hck]. rewrite Hck. cbn [mbind option_bind]. destruct (Z.leb_spec count (ck_count ck)) as [Hle|Hgt].
  - exists (Some a). split; [done|]. split; [apply list_elem_of_here|]. by exists ck.
  - destruct IH as (r & -> & Hr); [by intros b Hb; apply Hk; right|]. exists r. split; [done|]. destruct r as [b|].
    + destruct Hr as [Hb Hr]. split; [by right|done].
    + intros b ck' [->|Hb]%elem_of_cons Hb'; [congruence|by apply (Hr b)].
Qed.

(** Room for a new cookie. *)
Definition alloc_ok (a : Z) (count : Z) c m : Prop :=
  cookie_at c !! a = None /\ 0 <= count <= Z.of_nat (size (unreserved (gt m))).
Lemma really_alloc_spec a count c m : cookies_ok c m -> alloc_ok a count c m ->
  exists r m', omx_xen_gnttab_really_alloc_grant_references (Some a) count c m =
    (0, Cookies (<[a := Cookie r count]> (cookie_at c)) (gref_cookies_free c ++ [a]) (gref_cookies_inuse c), m') /\
    cookies_ok (Cookies (<[a := Cookie r count]> (cookie_at c)) (gref_cookies_free c ++ [a]) (gref_cookies_inuse c)) m' /\
    count <= Z.of_nat (length (refs r)) /\ granted (gt m') = granted (gt m) /\ same_maps (gt m) (gt m') /\ words m' = words m /\
    Z.of_nat (size (unreserved (gt m))) - count <= Z.of_nat (size (unreserved (gt m'))).
Proof.
  intros I [Ha Hc]. unfold omx_xen_gnttab_really_alloc_grant_references.
  destruct (alloc_some count (gt m)) as [[r t] E]; [lia..|]. rewrite E. exists r, (XMem t (words m)). split; [done|].
  destruct (alloc_refs count (gt m) r t) as (Hl & Hd & Hin & Hg & Hu & Hm & Hr); [lia|done|].
  assert (Hnew : forall b, b ∈ (gref_cookies_free c ++ [a]) ++ gref_cookies_inuse c -> b <> a -> b ∈ gref_cookies_free c ++ gref_cookies_inuse c).
  { intros b. rewrite !elem_of_app, list_elem_of_singleton. tauto. }
  assert (Hna : a ∉ gref_cookies_free c ++ gref_cookies_inuse c).
  { intros Hin'. apply (co_known _ _ I) in Hin'. rewrite Ha in Hin'. by destruct Hin'. }
  split_and!; try done; cbn; try lia.
  2: { rewrite Hu. assert (Hs : (list_to_set (refs r) : gset Z) ⊆ unreserved (gt m)) by (intros x Hx%elem_of_list_to_set; by apply Hin).
       rewrite size_difference, size_list_to_set by done. lia. }
  split; cbn.
  - intros b Hb. apply lookup_insert_is_Some. destruct (decide (a = b)) as [|Hne]; [by left|right]. split; [done|].
    apply (co_known _ _ I), Hnew; [done|]. by intros ->.
  - rewrite <- (assoc_L (++)). apply NoDup_app. pose proof (co_nodup _ _ I) as Hn. apply NoDup_app in Hn as (Hn1 & Hn2 & Hn3).
    split; [done|]. split; [|by apply NoDup_cons; split; [|done]; intros Hi; apply Hna, elem_of_app; right].
    intros b Hb [->|Hb']%elem_of_cons; [by apply Hna, elem_of_app; left|by apply (Hn2 b)].
  - intros b ck Hb. destruct (decide (a = b)) as [<-|Hne].
    + rewrite lookup_insert_eq. intros [= <-]. cbn. lia.
    + rewrite lookup_insert_ne by done. apply elem_of_app in Hb as [Hb| ->%list_elem_of_singleton]; [by apply (co_count _ _ I)|done].
  - intros b ck. rewrite Hg, Hu. destruct (decide (a = b)) as [<-|Hne].
    + rewrite lookup_insert_eq. intros [= <-]. cbn. split; [done|]. intros x Hx. split; [by apply (co_unreserved _ _ I), Hin|].
      rewrite elem_of_difference, elem_of_list_to_set. tauto.
    + rewrite lookup_insert_ne by done. intros Hb. destruct (co_fresh _ _ I b ck Hb) as [? Hf]. split; [done|].
      intros x Hx. destruct (Hf x Hx) as [? Hxu]. split; [done|]. rewrite elem_of_difference. tauto.
  - assert (Hno : forall b ck x, cookie_at c !! b = Some ck -> x ∈ refs (gref_head ck) -> x ∉ refs r).
    { intros b ck x Hb Hx Hxr. destruct (co_fresh _ _ I b ck Hb) as [_ Hf]. by apply (proj2 (Hf x Hx)), Hin. }
    intros b b' ck ck' x. destruct (decide (a = b)) as [<-|Hne], (decide (a = b')) as [<-|Hne'];
      rewrite ?lookup_insert_eq, ?lookup_insert_ne by done; try done.
    + intros [= <-] Hb' Hx Hx'. by destruct (Hno b' ck' x).
    + intros Hb [= <-] Hx Hx'. by destruct (Hno b ck x).
    + apply (co_disj _ _ I).
  - intros x. rewrite Hu, Hg. intros [Hx _]%elem_of_difference. by apply (co_unreserved _ _ I).
  - intros h x b. rewrite Hm, Hg. apply (co_mapped _ _ I).
Qed.

(** A cookie of the free list that is taken. *)
Definition take_cookie (a : Z) c : cookies R :=
  Cookies (cookie_at c) (remove_elt a (gref_cookies_free c)) (gref_cookies_inuse c ++ [a]).
Lemma take_cookie_ok a c m : cookies_ok c m -> a ∈ gref_cookies_free c -> cookies_ok (take_cookie a c) m.
Proof.
  intros I Ha. pose proof (co_nodup _ _ I) as Hn. apply NoDup_app in Hn as (Hn1 & Hn2 & Hn3). split; cbn; try apply I.
  - intros b. rewrite !elem_of_app, elem_of_remove_elt, list_elem_of_singleton. intros Hb. apply (co_known _ _ I), elem_of_app. naive_solver.
  - apply NoDup_app. split; [by apply NoDup_remove_elt|]. split.
    + intros b [Hne Hb]%elem_of_remove_elt [Hb'| ->%list_elem_of_singleton]%elem_of_app; [by apply (Hn2 b)|done].
    + apply NoDup_app. split; [done|]. split; [|by apply NoDup_singleton]. intros b Hb ->%list_elem_of_singleton. by apply (Hn2 a).
  - intros b ck [_ Hb]%elem_of_remove_elt. by apply (co_count _ _ I).
Qed.

(** What a cookie that was got is good for. *)
Record got_cookie (a : Z) (r : R) (cnt count : Z) (new : Z) c m c' m' : Prop := {
  gc_ok : cookies_ok c' m';
  gc_taken : a ∉ gref_cookies_free c' /\ gref_cookies_inuse c' = gref_cookies_inuse c ++ [a];
  gc_at : cookie_at c' !! a = Some (Cookie r cnt);
  gc_enough : count <= Z.of_nat (length (refs r)) /\ cnt <= Z.of_nat (length (refs r));
  gc_kept : granted (gt m') = granted (gt m) /\ same_maps (gt m) (gt m') /\ words m' = words m;
  gc_left : Z.of_nat (size (unreserved (gt m))) - count <= Z.of_nat (size (unreserved (gt m')));
  gc_cookies b : b <> new -> cookie_at c' !! b = cookie_at c !! b;
  gc_old b ck : cookie_at c !! b = Some ck -> cookie_at c' !! b = Some ck }.
Lemma take_got a count new c0 m0 c m : cookies_ok c m -> a ∈ gref_cookies_free c -> (exists ck, cookie_at c !! a = Some ck /\ count <= ck_count ck) ->
  gref_cookies_inuse c = gref_cookies_inuse c0 -> granted (gt m) = granted (gt m0) -> same_maps (gt m0) (gt m) -> words m = words m0 ->
  Z.of_nat (size (unreserved (gt m0))) - count <= Z.of_nat (size (unreserved (gt m))) ->
  (forall b, b <> new -> cookie_at c !! b = cookie_at c0 !! b) -> (forall b ck, cookie_at c0 !! b = Some ck -> cookie_at c !! b = Some ck) ->
  exists r cnt, got_cookie a r cnt count new c0 m0 (take_cookie a c) m.
Proof.
  intros I Ha ([r cnt] & Hck & Hc) Hi Hg Hm Hw Hu Hn Ho. cbn in Hc. pose proof (co_count _ _ I a _ Ha Hck) as Hcnt. cbn in Hcnt.
  exists r, cnt. split; try done; cbn.
  - by apply take_cookie_ok.
  - split; [rewrite elem_of_remove_elt; tauto|by rewrite Hi].
  - split; lia.
Qed.

(** One attempt. *)
Lemma get_cookie_step n fuel kmalloc k again count c m :
  get_cookie n fuel kmalloc k again count c m =
  (r ← refill_cookies fuel kmalloc k again count c m;
   match r with
   | None => Some (None, c, m)
   | Some (k, c, m) =>
       found ← find_cookie count c (gref_cookies_free c);
       match found with
       | Some a => Some (Some a, take_cookie a c, m)
       | None => match n with O => Some (None, c, m) | S n => get_cookie n fuel kmalloc k true count c m end
       end
   end).
Proof. by destruct n. Qed.
Lemma refill_nothing fuel kmalloc k count c m : gref_cookies_free c <> [] ->
  refill_cookies fuel kmalloc k false count c m = Some (Some (k, c, m)).
Proof. intros Hc. destruct fuel; cbn; by rewrite bool_decide_eq_false_2 by done. Qed.

Lemma get_cookie_spec fuel kmalloc new count c m : cookies_ok c m -> kmalloc 0%nat = Some new -> alloc_ok new count c m -> (2 <= fuel)%nat ->
  exists a r cnt c' m', omx_xenfront_gref_get_cookie fuel kmalloc count c m = Some (Some a, c', m') /\ got_cookie a r cnt count new c m c' m'.
Proof.
  intros I Hk Hal Hfu. destruct fuel as [|[|fuel]]; [lia..|].
  destruct (really_alloc_spec new count c m I Hal) as (r & m1 & Ea & I1 & Hl & Hg & Hm & Hw & Hu).
  set (c1 := Cookies (<[new := Cookie r count]> (cookie_at c)) (gref_cookies_free c ++ [new]) (gref_cookies_inuse c)) in *.
  assert (Hnew : exists ck, cookie_at c1 !! new = Some ck /\ count <= ck_count ck) by (eexists; split; [apply lookup_insert_eq|cbn; lia]).
  assert (Hgot : exists r cnt, got_cookie new r cnt count new c m (take_cookie new c1) m1).
  { apply take_got; try done.
    - cbn. apply elem_of_app. right. by apply list_elem_of_singleton.
    - intros b Hb. cbn. by apply lookup_insert_ne.
    - intros b ck Hb. cbn. destruct Hal as [Hnone _]. rewrite lookup_insert_ne; [done|]. intros ->. congruence. }
  assert (Hfind : (forall a ck, a ∈ gref_cookies_free c -> cookie_at c !! a = Some ck -> ck_count ck < count) ->
    find_cookie count c1 (gref_cookies_free c1) = Some (Some new)).
  { intros Hno. destruct (find_cookie_spec count c1 (gref_cookies_free c1)) as (res & -> & Hres).
    { intros a Ha. apply (co_known _ _ I1), elem_of_app. by left. }
    destruct res as [a|].
    - destruct Hres as (Ha & ck & Hck & Hc). cbn in Ha. apply elem_of_app in Ha as [Ha| ->%list_elem_of_singleton]; [|done].
      assert (Hne : new <> a) by (intros <-; destruct (co_known _ _ I new) as [? E]; [apply elem_of_app; by left|]; destruct Hal; congruence).
      cbn in Hck. rewrite lookup_insert_ne in Hck by done. specialize (Hno a ck Ha Hck). lia.
    - destruct Hnew as (ck & Hck & Hc). exfalso. assert (ck_count ck < count); [|lia]. apply (Hres new); [|done].
      cbn. apply elem_of_app. right. by apply list_elem_of_singleton. }
  destruct Hgot as (r' & cnt & Hgot).
  assert (Hrefill : forall (again : bool), again = true \/ gref_cookies_free c = [] -> forall f,
    refill_cookies (S f) kmalloc 0 again count c m = Some (Some (1%nat, c1, m1))).
  { intros again Hag f. cbn [refill_cookies]. assert (E : negb (bool_decide (gref_cookies_free c = [])) && negb again = false).
    { destruct Hag as [->| ->]; [apply andb_false_r|done]. }
    rewrite E, Hk, Ea. cbn [Z.eqb ENOMEM]. apply (refill_nothing _ _ _ _ c1). cbn. by destruct (gref_cookies_free c). }
  unfold omx_xenfront_gref_get_cookie. assert (exists n, XEN_GRANT_TIMEOUT = S n) as [n ->] by (by exists 999%nat). rewrite get_cookie_step.
  destruct (decide (gref_cookies_free c = [])) as [Hc|Hc].
  - rewrite (Hrefill false (or_intror Hc)). cbn [mbind option_bind]. rewrite Hfind by (rewrite Hc; by intros a ck Ha%not_elem_of_nil).
    cbn [mbind option_bind]. exists new, r', cnt. eexists _, _. split; [done|exact Hgot].
  - rewrite refill_nothing by done. cbn [mbind option_bind].
    destruct (find_cookie_spec count c (gref_cookies_free c)) as (res & -> & Hres).
    { intros a Ha. apply (co_known _ _ I), elem_of_app. by left. }
    cbn [mbind option_bind]. destruct res as [a|].
    + destruct Hres as [Ha Hck]. destruct Hal as [_ Hal]. destruct (take_got a count new c m c m) as (ra & ca & Hga); try done; [lia|].
      exists a, ra, ca. eexists _, _. split; [done|exact Hga].
    + rewrite get_cookie_step, (Hrefill true (or_introl eq_refl)). cbn [mbind option_bind].
      rewrite Hfind by done. cbn [mbind option_bind]. exists new, r', cnt. eexists _, _. split; [done|exact Hgot].
Qed.

(** ** A segment *)

Lemma nr_parts_bounds n : 0 <= n <= 16384 -> 0 <= nr_parts_of n <= OMX_XEN_GRANT_PAGES_MAX /\ n <= NR_GREFS * nr_parts_of n.
Proof.
  intros Hn. unfold nr_parts_of, PAGE_ALIGN. rewrite (u64_small (n * 4)), u64_small by (unfold PAGE_SIZE; lia).
  rewrite RegPin.ldiff_page. change PAGE_SHIFT with 12. rewrite Z.shiftr_div_pow2 by lia. change (2 ^ 12) with PAGE_SIZE. rewrite Z.div_mul by done.
  unfold PAGE_SIZE, NR_GREFS, OMX_XEN_GRANT_PAGES_MAX. set (k := (n * 4 + 4096 - 1) / 4096).
  pose proof (Z.div_mod (n * 4 + 4096 - 1) 4096) as Hd. pose proof (Z.mod_pos_bound (n * 4 + 4096 - 1) 4096). fold k in Hd.
  assert (0 <= k <= 16) by lia. unfold u8. rewrite Z.mod_small by lia. lia.
Qed.

(** A segment whose pages are pinned. *)
Record seg_pinned (sg : segment) (ps : list Z) : Prop := {
  sp_pages : pages sg = Some <$> ps;
  sp_nr : nr_pages sg = Z.of_nat (length ps);
  sp_max : nr_pages sg <= 16384;
  sp_length : sg_length sg <> 0 }.
Definition refs_needed (n : Z) : Z := n + nr_parts_of n * nr_parts_of n.
Lemma refs_needed_u32 n : 0 <= n <= 16384 -> u32 (refs_needed n) = refs_needed n /\ n + nr_parts_of n <= refs_needed n.
Proof.
  intros Hn. destruct (nr_parts_bounds n Hn) as [Hk _]. unfold refs_needed, OMX_XEN_GRANT_PAGES_MAX in *. split; [|nia].
  apply u32_small. nia.
Qed.
(** The answers for a segment are good. *)
Record grant_env_ok (env : grant_env) (sg : segment) (new : Z) c m : Prop := {
  go_kmalloc : ge_kmalloc env 0%nat = Some new;
  go_alloc : alloc_ok new (refs_needed (nr_pages sg)) c m;
  go_fuel : (2 <= ge_fuel env)%nat;
  go_list : NoDup (ge_list env) /\ Z.of_nat (length (ge_list env)) = nr_parts_of (nr_pages sg) }.

(** The grants of a segment: the references [qs] of its pages are in its list,
    whose own pages have the references [xs_all_gref]. *)
Definition segment_grants (ps : list Z) (x : xsegment) (qs : list Z) : list (Z * Z) := zip (xs_all_gref x) (xs_gref_list x) ++ zip qs ps.
Record segment_listed (sg : segment) (ps : list Z) (x : xsegment) (qs : list Z) m : Prop := {
  sl_parts : xs_nr_parts x = nr_parts_of (nr_pages sg) /\ length (xs_all_gref x) = Z.to_nat (xs_nr_parts x) /\
    length (xs_gref_list x) = Z.to_nat (xs_nr_parts x);
  sl_nodup : NoDup (xs_all_gref x ++ qs);
  sl_length : length qs = length ps;
  sl_words i q : qs !! i = Some q -> read_list (xs_gref_list x) (Z.of_nat i) m = Some q }.

Lemma grant_segment_spec env id eid i sg ps new c m : cookies_ok c m -> seg_pinned sg ps -> grant_env_ok env sg new c m ->
  exists x qs r cnt c' m', grant_segment env id eid i sg c m = Some (inr (Some (x,
      RegisterMsg id eid (u32 (aligned_vaddr sg)) (u16 (first_page_offset sg)) (u32 (sg_length sg)) (u32 (nr_pages sg)) NR_GREFS
        (xs_all_gref x) i 0 (xs_nr_parts x))), c', m') /\
    cookies_ok c' m' /\ segment_listed sg ps x qs m' /\ xs_gref_list x = ge_list env /\
    cookie_at c' !! xs_cookie x = Some (Cookie r cnt) /\ xs_cookie x ∉ gref_cookies_free c' /\
    gref_cookies_inuse c' = gref_cookies_inuse c ++ [xs_cookie x] /\
    cnt <= Z.of_nat (length (xs_all_gref x ++ qs ++ refs r)) /\
    (forall b, b <> new -> b <> xs_cookie x -> cookie_at c' !! b = cookie_at c !! b) /\
    (xs_cookie x <> new -> is_Some (cookie_at c !! xs_cookie x)) /\
    (forall y, y ∈ (segment_grants ps x qs).*1 -> granted (gt m) !! y = None) /\
    (forall ck, cookie_at c !! xs_cookie x = Some ck -> refs (gref_head ck) = xs_all_gref x ++ qs ++ refs r /\ ck_count ck = cnt) /\
    granted (gt m') = list_to_map (segment_grants ps x qs) ∪ granted (gt m) /\ same_maps (gt m) (gt m') /\
    Z.of_nat (size (unreserved (gt m))) - refs_needed (nr_pages sg) <= Z.of_nat (size (unreserved (gt m'))) /\
    (forall g w, g ∉ ge_list env -> words m' g w = words m g w).
Proof.
  intros I [Hp Hnr Hmax Hlen] [Hk Hal Hfu [Hnd Hll]]. assert (Hn : 0 <= nr_pages sg <= 16384) by lia.
  destruct (nr_parts_bounds _ Hn) as [Hpb Hcov], (refs_needed_u32 _ Hn) as [Hu32 Hneed].
  destruct (get_cookie_spec (ge_fuel env) (ge_kmalloc env) new (refs_needed (nr_pages sg)) c m I Hk Hal Hfu) as (a & r0 & cnt & c0 & m0 & E0 & G).
  destruct (gc_enough _ _ _ _ _ _ _ _ _ G) as [He Hc], (gc_taken _ _ _ _ _ _ _ _ _ G) as [Hnf Hin], (gc_kept _ _ _ _ _ _ _ _ _ G) as (Kg & Km & Kw).
  destruct (grant_parts_spec a (ge_list env) 0 (Z.to_nat (nr_parts_of (nr_pages sg))) r0 cnt c0 m0 (gc_ok _ _ _ _ _ _ _ _ _ G) Hnf (gc_at _ _ _ _ _ _ _ _ _ G))
    as (parts & r1 & m1 & E1 & R1 & L1 & I1 & (A1 & U1 & M1) & W1); [lia..|].
  destruct (grant_pages_spec a (ge_list env) ps Hnd (Z.to_nat (nr_pages sg)) 0 r1 cnt _ m1 I1 Hnf (with_refs_at _ _ _))
    as (qs & r2 & m2 & E2 & R2 & L2 & I2 & (A2 & U2 & M2) & X2 & _ & O2); [rewrite R1, length_app in He; lia|lia..|].
  rewrite with_refs_twice in *. exists (XSegment a (nr_parts_of (nr_pages sg)) parts (ge_list env)), qs, r2, cnt, (with_refs a (Cookie r2 cnt) c0), m2.
  assert (Hrefs : refs r0 = parts ++ qs ++ refs r2) by (by rewrite R1, R2).
  destruct (co_fresh _ _ (gc_ok _ _ _ _ _ _ _ _ _ G) a _ (gc_at _ _ _ _ _ _ _ _ _ G)) as [Hd _]. cbn in Hd. rewrite Hrefs, (assoc_L (++)) in Hd.
  apply NoDup_app in Hd as (Hd & _).
  assert (Hkeys : (segment_grants ps (XSegment a (nr_parts_of (nr_pages sg)) parts (ge_list env)) qs).*1 = parts ++ qs).
  { unfold segment_grants. cbn. by rewrite fmap_app, !fst_zip by lia. }
  split_and!.
  - unfold grant_segment. fold (refs_needed (nr_pages sg)). rewrite Hu32, E0. cbn [mbind option_bind]. rewrite E1. cbn [mbind option_bind].
    rewrite (proj2 (Z.eqb_neq _ _)) by done. rewrite Hp, E2. cbn [mbind option_bind]. done.
  - done.
  - split; cbn.
    + split_and!; [done|lia|lia].
    + done.
    + lia.
    + intros k q Hq. apply (X2 k q Hq).
  - done.
  - apply with_refs_at.
  - done.
  - done.
  - cbn. by rewrite <- Hrefs.
  - intros b Hb Hb'. cbn in Hb' |- *. rewrite lookup_insert_ne by done. by apply (gc_cookies _ _ _ _ _ _ _ _ _ G).
  - cbn. intros Hne. rewrite <- (gc_cookies _ _ _ _ _ _ _ _ _ G a Hne). rewrite (gc_at _ _ _ _ _ _ _ _ _ G). by eexists.
  - rewrite Hkeys, <- Kg. intros y Hy. destruct (co_fresh _ _ (gc_ok _ _ _ _ _ _ _ _ _ G) a _ (gc_at _ _ _ _ _ _ _ _ _ G)) as [_ Hf].
    apply (Hf y). cbn. rewrite Hrefs, (assoc_L (++)). apply elem_of_app. by left.
  - intros ck Hck. cbn in Hck |- *. pose proof (gc_old _ _ _ _ _ _ _ _ _ G a ck Hck) as E. rewrite (gc_at _ _ _ _ _ _ _ _ _ G) in E.
    injection E as <-. split; [exact Hrefs|done].
  - change (drop (Z.to_nat 0) ps) with ps in A2. change (drop (Z.to_nat 0) (ge_list env)) with (ge_list env) in A1.
    unfold segment_grants in Hkeys |- *. cbn in Hkeys |- *. rewrite <- Kg. apply (grants_app _ _ m0 m1 m2); [by rewrite Hkeys|done..].
  - destruct Km as [? ?], M1 as [? ?], M2 as [? ?]. split; congruence.
  - rewrite U2, U1. pose proof (gc_left _ _ _ _ _ _ _ _ _ G). lia.
  - intros g w Hg. by rewrite O2, W1, Kw.
Qed.

(** ** Taking the grants back *)

(** The references [xs] are not granted any more; the rest is as before. *)
Definition grants_removed (xs : list Z) m m' : Prop :=
  (forall x, granted (gt m') !! x = if bool_decide (x ∈ xs) then None else granted (gt m) !! x) /\
  unreserved (gt m') = unreserved (gt m) /\ same_maps (gt m) (gt m') /\ words m' = words m.
(** They can be: they are granted and not mapped. *)
Definition removable (xs : list Z) m : Prop :=
  NoDup xs /\ forall x, x ∈ xs -> is_Some (granted (gt m) !! x) /\ forall h b, mapped (gt m) !! h <> Some (x, b).
Lemma removed_nil m : grants_removed [] m m.
Proof. by split_and!. Qed.
Lemma removed_app xs ys m m1 m2 : grants_removed xs m m1 -> grants_removed ys m1 m2 -> grants_removed (xs ++ ys) m m2.
Proof.
  intros (G1 & U1 & [M1 R1] & W1) (G2 & U2 & [M2 R2] & W2). split_and!; [|congruence|split; congruence|congruence].
  intros x. rewrite G2, G1. repeat case_bool_decide; try done; rewrite elem_of_app in *; tauto.
Qed.
Lemma removable_app xs ys m m1 : removable (xs ++ ys) m -> grants_removed xs m m1 -> removable ys m1.
Proof.
  intros [Hd Hx] (G & _ & [M _] & _). apply NoDup_app in Hd as (_ & Hd & Hy). split; [done|]. intros x Hin.
  destruct (Hx x) as [Hg Hm]; [apply elem_of_app; by right|]. rewrite G, M. split; [|done].
  rewrite bool_decide_eq_false_2; [done|]. intros Hin'. by apply (Hd x).
Qed.

Lemma release_one must a r n x c m : cookies_ok c m -> a ∉ gref_cookies_free c -> cookie_at c !! a = Some (Cookie r n) -> removable [x] m ->
  exists r' m', release_gref must a x c m = Some (with_refs a (Cookie r' n) c, m') /\ refs r' = x :: refs r /\
    cookies_ok (with_refs a (Cookie r' n) c) m' /\ grants_removed [x] m m'.
Proof.
  intros I Ha Hck [_ Hx]. destruct (Hx x (list_elem_of_here _ _)) as [Hg Hm].
  destruct (release_gref_spec must a r n x c m I Ha Hck Hg Hm) as (r' & m' & E & Hr & I' & G & U & M & W).
  exists r', m'. split_and!; try done. split; [|done]. intros y. rewrite G. case_bool_decide as Hy; rewrite list_elem_of_singleton in Hy.
  - subst y. apply lookup_delete_eq.
  - by apply lookup_delete_ne.
Qed.
Lemma release_pages_spec a frames : forall xs j r cnt c m, cookies_ok c m -> a ∉ gref_cookies_free c ->
  cookie_at c !! a = Some (Cookie r cnt) -> removable xs m ->
  (forall i x, xs !! i = Some x -> read_list frames (j + Z.of_nat i) m = Some x) ->
  exists r' m', release_pages a frames (length xs) j c m = Some (with_refs a (Cookie r' cnt) c, m') /\
    refs r' = rev xs ++ refs r /\ cookies_ok (with_refs a (Cookie r' cnt) c) m' /\ grants_removed xs m m'.
Proof.
  induction xs as [|x xs IH]; intros j r cnt c m I Ha Hck Hrm Hl.
  { exists r, m. rewrite with_refs_id by done. by split_and!. }
  assert (Hrm1 : removable [x] m).
  { destruct Hrm as [_ Hx]. split; [by apply NoDup_singleton|]. intros y ->%list_elem_of_singleton. apply Hx, list_elem_of_here. }
  destruct (release_one true a r cnt x c m I Ha Hck Hrm1) as (r1 & m1 & E1 & R1 & I1 & G1).
  cbn [release_pages length]. pose proof (Hl 0%nat x eq_refl) as H0. cbn [Z.of_nat] in H0. rewrite Z.add_0_r in H0. rewrite H0. cbn [mbind option_bind].
  rewrite E1. cbn [mbind option_bind].
  destruct (IH (j + 1) r1 cnt _ m1 I1 Ha (with_refs_at _ _ _)) as (r2 & m2 & E2 & R2 & I2 & G2).
  { by apply (removable_app [x] xs m). }
  { intros i y Hy. destruct G1 as (_ & _ & _ & W). pose proof (Hl (S i) y Hy) as Hy'. unfold read_list in *. rewrite W.
    by replace (j + 1 + Z.of_nat i) with (j + Z.of_nat (S i)) by lia. }
  rewrite E2, with_refs_twice in *. exists r2, m2. split_and!; [done| |done|by apply (removed_app [x] xs m m1 m2)].
  rewrite R2, R1. cbn. by rewrite <- (assoc_L (++)).
Qed.
Lemma release_parts_spec a : forall xs r cnt c m, cookies_ok c m -> a ∉ gref_cookies_free c ->
  cookie_at c !! a = Some (Cookie r cnt) -> removable xs m ->
  exists r' m', release_parts a xs c m = Some (with_refs a (Cookie r' cnt) c, m') /\
    refs r' = rev xs ++ refs r /\ cookies_ok (with_refs a (Cookie r' cnt) c) m' /\ grants_removed xs m m'.
Proof.
  induction xs as [|x xs IH]; intros r cnt c m I Ha Hck Hrm.
  { exists r, m. rewrite with_refs_id by done. by split_and!. }
  assert (Hrm1 : removable [x] m).
  { destruct Hrm as [_ Hx]. split; [by apply NoDup_singleton|]. intros y ->%list_elem_of_singleton. apply Hx, list_elem_of_here. }
  destruct (release_one false a r cnt x c m I Ha Hck Hrm1) as (r1 & m1 & E1 & R1 & I1 & G1).
  cbn [release_parts]. rewrite E1. cbn [mbind option_bind].
  destruct (IH r1 cnt _ m1 I1 Ha (with_refs_at _ _ _)) as (r2 & m2 & E2 & R2 & I2 & G2).
  { by apply (removable_app [x] xs m). }
  rewrite E2, with_refs_twice in *. exists r2, m2. split_and!; [done| |done|by apply (removed_app [x] xs m m1 m2)].
  rewrite R2, R1. cbn. by rewrite <- (assoc_L (++)).
Qed.

Lemma put_cookie_ok a r n c m : cookies_ok c m -> a ∉ gref_cookies_free c -> cookie_at c !! a = Some (Cookie r n) ->
  n <= Z.of_nat (length (refs r)) -> cookies_ok (omx_xenfront_gref_put_cookie a c) m.
Proof.
  intros I Ha Hck Hn. pose proof (co_nodup _ _ I) as Hd. apply NoDup_app in Hd as (Hd1 & Hd2 & Hd3).
  unfold omx_xenfront_gref_put_cookie. rewrite (remove_elt_notin a (gref_cookies_free c)) by done. split; cbn; try apply I.
  - intros b. rewrite !elem_of_app, elem_of_remove_elt, list_elem_of_singleton. intros Hb.
    destruct (decide (b = a)) as [->|]; [by eexists|]. apply (co_known _ _ I), elem_of_app. naive_solver.
  - apply NoDup_app. split; [apply NoDup_app; split; [done|]; split; [by intros b Hb ->%list_elem_of_singleton|by apply NoDup_singleton]|].
    split; [|by apply NoDup_remove_elt]. intros b Hb [Hne Hb']%elem_of_remove_elt.
    apply elem_of_app in Hb as [Hb| ->%list_elem_of_singleton]; [by apply (Hd2 b)|done].
  - intros b ck Hb Hbk. apply elem_of_app in Hb as [Hb| ->%list_elem_of_singleton]; [by apply (co_count _ _ I b)|].
    rewrite Hck in Hbk. by injection Hbk as <-.
Qed.

Lemma release_segment_spec sg ps x qs r cnt c m : cookies_ok c m -> seg_pinned sg ps -> segment_listed sg ps x qs m ->
  cookie_at c !! xs_cookie x = Some (Cookie r cnt) -> xs_cookie x ∉ gref_cookies_free c ->
  cnt <= Z.of_nat (length (xs_all_gref x ++ qs ++ refs r)) -> removable (qs ++ xs_all_gref x) m ->
  exists r' c' m', release_segment sg x c m = Some (c', m') /\ cookies_ok c' m' /\ grants_removed (qs ++ xs_all_gref x) m m' /\
    cookie_at c' = <[xs_cookie x := Cookie r' cnt]> (cookie_at c) /\ refs r' ≡ₚ xs_all_gref x ++ qs ++ refs r /\
    gref_cookies_free c' = gref_cookies_free c ++ [xs_cookie x] /\ gref_cookies_inuse c' = remove_elt (xs_cookie x) (gref_cookies_inuse c).
Proof.
  intros I [Hp Hnr Hmax Hlen] [(Hnp & Hlp & _) Hnd Hlq Hw] Hck Hf Hcnt Hrm. unfold release_segment.
  destruct (release_pages_spec (xs_cookie x) (xs_gref_list x) qs 0 r cnt c m I Hf Hck) as (r1 & m1 & E1 & R1 & I1 & G1); [|done|].
  { destruct Hrm as [Hd Hx]. apply NoDup_app in Hd as (Hd & _). split; [done|]. intros y Hy. apply Hx, elem_of_app. by left. }
  replace (Z.to_nat (nr_pages sg)) with (length qs) by lia. rewrite E1. cbn [mbind option_bind].
  rewrite take_ge by lia.
  destruct (release_parts_spec (xs_cookie x) (xs_all_gref x) r1 cnt _ m1 I1 Hf (with_refs_at _ _ _)) as (r2 & m2 & E2 & R2 & I2 & G2).
  { by apply (removable_app qs _ m). }
  rewrite E2, with_refs_twice in *. cbn [mbind option_bind].
  assert (Hperm : refs r2 ≡ₚ xs_all_gref x ++ qs ++ refs r) by (by rewrite R2, R1, <- !Permutation_rev).
  exists r2. eexists _, m2. split; [done|]. split_and!; try done.
  - apply (put_cookie_ok _ r2 cnt); [done|done|apply with_refs_at|]. by rewrite Hperm.
  - by apply (removed_app qs _ m m1 m2).
  - unfold omx_xenfront_gref_put_cookie. cbn [gref_cookies_free with_refs]. by rewrite remove_elt_notin.
Qed.
End guest.
End XenGuest.
