(* ===== verification/XenBack.v ===== *)
(** The backend's side of the user regions of a guest: it maps the pages that
    the references of a segment name, in order, and a destruction unmaps each. *)
From S2P Require Import Prelude Segments Reg RegTable XenGrant XenReg XenGuest.
Import XenGrant XenReg XenGuest.

Module XenBack.
Import Reg.

Section back.
Context {T R : Type} {grants : GrantTable T R} {laws : GrantTableLaws T R}.
Implicit Types (m : xmem T).

(** ** Mappings that come and go *)

(** The mappings [l], of new handles. *)
Definition maps_added (l : list (Z * (Z * Z))) m m' : Prop :=
  NoDup l.*1 /\ (forall h, h ∈ l.*1 -> mapped (gt m) !! h = None) /\
  mapped (gt m') = list_to_map l ∪ mapped (gt m) /\ room (gt m') = room (gt m) - Z.of_nat (length l) /\
  same_grants (gt m) (gt m') /\ words m' = words m.
Definition maps_removed (hs : list Z) m m' : Prop :=
  (forall h, mapped (gt m') !! h = if bool_decide (h ∈ hs) then None else mapped (gt m) !! h) /\
  room (gt m') = room (gt m) + Z.of_nat (length hs) /\ same_grants (gt m) (gt m') /\ words m' = words m.

Lemma maps_nil m : maps_added [] m m.
Proof.
  split_and!; try done; cbn.
  - constructor.
  - by intros h Hh%not_elem_of_nil.
  - by rewrite (left_id_L ∅ (∪)).
  - lia.
Qed.
Lemma maps_app l k m m1 m2 : maps_added l m m1 -> maps_added k m1 m2 -> maps_added (l ++ k) m m2.
Proof.
  intros (D1 & F1 & E1 & R1 & [G1 U1] & W1) (D2 & F2 & E2 & R2 & [G2 U2] & W2).
  assert (Hd : forall h, h ∈ l.*1 -> h ∉ k.*1).
  { intros h Hl Hk. specialize (F2 h Hk). rewrite E1 in F2. apply lookup_union_None in F2 as [F2 _].
    by apply not_elem_of_list_to_map in F2. }
  split_and!.
  - rewrite fmap_app. by apply NoDup_app.
  - intros h. rewrite fmap_app, elem_of_app. intros [Hh|Hh]; [by apply F1|]. specialize (F2 h Hh). rewrite E1 in F2.
    by apply lookup_union_None in F2 as [_ F2].
  - rewrite E2, E1, list_to_map_app, !(assoc_L (∪)). f_equal. apply map_union_comm, map_disjoint_spec.
    intros h v v' Hv Hv'. apply elem_of_list_to_map_2 in Hv, Hv'.
    apply (Hd h); apply list_elem_of_fmap; [by exists (h, v')|by exists (h, v)].
  - rewrite R2, R1, length_app. lia.
  - split; congruence.
  - congruence.
Qed.
Lemma maps_lookup l m m' h v : maps_added l m m' -> (h, v) ∈ l -> mapped (gt m') !! h = Some v.
Proof.
  intros (D & _ & E & _) Hin. rewrite E. apply lookup_union_Some_l. by apply elem_of_list_to_map.
Qed.
Lemma maps_kept l m m' h v : maps_added l m m' -> mapped (gt m) !! h = Some v -> mapped (gt m') !! h = Some v.
Proof.
  intros (_ & F & E & _) Hm. rewrite E. rewrite lookup_union_r; [done|]. apply not_elem_of_list_to_map. intros Hin.
  by rewrite (F h Hin) in Hm.
Qed.
Lemma maps_one x a f m : granted (gt m) !! x = Some f -> 0 < room (gt m) ->
  exists h t, map_grant_ref x a (gt m) = (0, h, t) /\ 0 <= h < 2 ^ 31 /\ maps_added [(h, (x, a))] m (XMem t (words m)).
Proof.
  intros Hf Hr. destruct (map_ref x a f (gt m) Hf Hr) as (h & t & E & Hh & Hn & Hm & Hr' & Hs). exists h, t. split; [done|]. split; [done|].
  split_and!; try done; cbn; try lia.
  - by apply NoDup_singleton.
  - by intros h' ->%list_elem_of_singleton.
  - rewrite Hm. by rewrite insert_union_singleton_l.
Qed.
Lemma removed_maps_app hs ks m m1 m2 : maps_removed hs m m1 -> maps_removed ks m1 m2 -> maps_removed (hs ++ ks) m m2.
Proof.
  intros (E1 & R1 & [G1 U1] & W1) (E2 & R2 & [G2 U2] & W2). split_and!; [|rewrite R2, R1, length_app; lia|split; congruence|congruence].
  intros h. rewrite E2, E1. repeat case_bool_decide; try done; rewrite elem_of_app in *; tauto.
Qed.
(** What was added is removed: the mappings are those of before. *)
Lemma maps_restored l m m1 m2 : maps_added l m m1 -> maps_removed l.*1 m1 m2 -> mapped (gt m2) = mapped (gt m).
Proof.
  intros (D & F & E & _) (E2 & _). apply map_eq. intros h. rewrite E2. case_bool_decide as Hh; [by rewrite F|].
  rewrite E. rewrite lookup_union_r; [done|]. by apply not_elem_of_list_to_map.
Qed.

(** ** Mapping *)

Lemma gnttab_map_refs_spec ops : forall m, (forall x a, (x, a) ∈ ops -> is_Some (granted (gt m) !! x)) ->
  Z.of_nat (length ops) <= room (gt m) ->
  exists hs m', gnttab_map_refs ops m = ((fun h => (0, h)) <$> hs, m') /\ length hs = length ops /\ maps_added (zip hs ops) m m'.
Proof.
  induction ops as [|[x a] ops IH]; intros m Hg Hr.
  { exists [], m. split; [done|]. split; [done|]. apply maps_nil. }
  destruct (Hg x a (list_elem_of_here _ _)) as [f Hf]. cbn [length] in Hr.
  destruct (maps_one x a f m Hf) as (h & t & E & _ & A); [lia|]. cbn [gnttab_map_refs]. rewrite E.
  destruct (IH (XMem t (words m))) as (hs & m' & E' & Hl & A').
  { intros y b Hy. destruct A as (_ & _ & _ & _ & [G _] & _). cbn [gt] in *. rewrite G. apply (Hg y b). by right. }
  { destruct A as (_ & _ & _ & Rm & _). cbn [gt length] in *. lia. }
  rewrite E'. exists (h :: hs), m'. split; [done|]. split; [cbn; lia|]. exact (maps_app [(h, (x, a))] (zip hs ops) m _ m' A A').
Qed.
Lemma take_handles_spec (addrs hs : list Z) : length addrs = length hs ->
  take_handles ((fun a => (a, -1)) <$> addrs) ((fun h => (0, h)) <$> hs) = (0, zip addrs hs).
Proof.
  revert hs. induction addrs as [|a addrs IH]; intros [|h hs] Hl; try done. cbn. rewrite IH; [done|]. cbn in Hl. lia.
Qed.

Lemma accept_gref_lists_spec area grefs : forall part seg m, (forall x, x ∈ grefs -> is_Some (granted (gt m) !! x)) ->
  Z.of_nat (length grefs) <= room (gt m) -> (forall k, is_Some (area k)) -> 0 <= part ->
  part + Z.of_nat (length grefs) <= OMX_XEN_GRANT_PAGES_MAX ->
  Z.of_nat (length (bs_vm_gref seg)) = part -> Z.of_nat (length (bs_all_handle seg)) = part ->
  exists hs addrs m', accept_gref_lists area grefs part seg m =
      Some (0, seg <| bs_vm_gref := bs_vm_gref seg ++ addrs |> <| bs_all_handle := bs_all_handle seg ++ hs |>, m') /\
    length hs = length grefs /\ length addrs = length grefs /\ maps_added (zip hs (zip grefs addrs)) m m'.
Proof.
  induction grefs as [|x grefs IH]; intros part seg m Hg Hr Har Hp Hmax Hv Hh.
  { exists [], [], m. rewrite !(right_id_L [] (++)). split; [by destruct seg|]. split_and!; try done. apply maps_nil. }
  cbn [length] in Hr, Hmax. destruct (Hg x (list_elem_of_here _ _)) as [f Hf], (Har (Z.to_nat part)) as [a Ha].
  destruct (maps_one x a f m Hf) as (h & t & E & Hb & A); [lia|]. cbn [accept_gref_lists]. unfold omx_xen_accept_gref_list.
  rewrite Ha, (proj2 (Z.leb_gt _ _)), E by lia. cbn [Z.eqb negb mbind option_bind]. rewrite (proj2 (Z.ltb_ge _ _)) by lia.
  match goal with |- context [accept_gref_lists area grefs _ ?s _] => set (seg1 := s) end.
  assert (Hs1 : seg1 = seg <| bs_vm_gref := bs_vm_gref seg ++ [a] |> <| bs_all_handle := bs_all_handle seg ++ [h] |>).
  { transitivity (seg <| bs_vm_gref := take (Z.to_nat part) (bs_vm_gref seg) ++ [a] |>
      <| bs_all_handle := take (Z.to_nat part) (bs_all_handle seg) ++ [h] |>); [done|]. by rewrite !take_ge by lia. }
  clearbody seg1. subst seg1.
  destruct (IH (part + 1) (seg <| bs_vm_gref := bs_vm_gref seg ++ [a] |> <| bs_all_handle := bs_all_handle seg ++ [h] |>) (XMem t (words m)))
    as (hs & addrs & m' & E' & Hl1 & Hl2 & A'); [| |done|lia|lia| | |].
  { intros y Hy. destruct A as (_ & _ & _ & _ & [G _] & _). cbn [gt] in *. rewrite G. apply Hg. by right. }
  { destruct A as (_ & _ & _ & Rm & _). cbn [gt length] in *. lia. }
  { change (bs_vm_gref (seg <| bs_vm_gref := bs_vm_gref seg ++ [a] |> <| bs_all_handle := bs_all_handle seg ++ [h] |>)) with (bs_vm_gref seg ++ [a]).
    rewrite length_app. cbn. lia. }
  { change (bs_all_handle (seg <| bs_vm_gref := bs_vm_gref seg ++ [a] |> <| bs_all_handle := bs_all_handle seg ++ [h] |>)) with (bs_all_handle seg ++ [h]).
    rewrite length_app. cbn. lia. }
  rewrite E'. exists (h :: hs), (a :: addrs), m'. split; [|split_and!; [cbn; lia|cbn; lia|exact (maps_app [(h, (x, a))] _ m _ m' A A')]].
  transitivity (Some (0, seg <| bs_vm_gref := (bs_vm_gref seg ++ [a]) ++ addrs |>
    <| bs_all_handle := (bs_all_handle seg ++ [h]) ++ hs |>, m')); [done|]. by rewrite <- !(assoc_L (++)).
Qed.

(** ** A segment *)

(** The references of a list, read through its mappings. *)
Lemma map_ops_spec seg pages qs m : length pages = length qs ->
  (forall i q, qs !! i = Some q -> read_gref seg (Z.of_nat i / NR_GREFS) (Z.of_nat i mod NR_GREFS) m = Some q) ->
  forall n i, (i + n = length qs)%nat ->
  map_ops n (Z.of_nat i) (Z.of_nat i / NR_GREFS) (Z.of_nat i mod NR_GREFS) NR_GREFS seg pages m = Some (zip (drop i qs) (drop i pages)).
Proof.
  intros Hl Hq n. induction n as [|n IH]; intros i Hi; [by rewrite !drop_ge by lia|].
  destruct (lookup_lt_is_Some_2 qs i) as [q Hqi]; [lia|]. destruct (lookup_lt_is_Some_2 pages i) as [a Ha]; [lia|].
  cbn [map_ops]. rewrite Nat2Z.id, Ha. cbn [mbind option_bind]. rewrite (Hq i q Hqi). cbn [mbind option_bind].
  change (NR_GREFS =? 0) with false. cbn match. specialize (IH (S i)). replace (Z.of_nat (S i)) with (Z.of_nat i + 1) in IH by lia.
  assert (Hstep : (if (Z.of_nat i + 1) mod NR_GREFS =? 0 then map_ops n (Z.of_nat i + 1) (Z.of_nat i / NR_GREFS + 1) 0 NR_GREFS seg pages m
    else map_ops n (Z.of_nat i + 1) (Z.of_nat i / NR_GREFS) (Z.of_nat i mod NR_GREFS + 1) NR_GREFS seg pages m)
    = map_ops n (Z.of_nat i + 1) ((Z.of_nat i + 1) / NR_GREFS) ((Z.of_nat i + 1) mod NR_GREFS) NR_GREFS seg pages m).
  { unfold NR_GREFS. pose proof (Z.div_mod (Z.of_nat i) 1024). pose proof (Z.mod_pos_bound (Z.of_nat i) 1024).
    pose proof (Z.div_mod (Z.of_nat i + 1) 1024). pose proof (Z.mod_pos_bound (Z.of_nat i + 1) 1024).
    destruct (Z.eqb_spec ((Z.of_nat i + 1) mod 1024) 0) as [E|E].
    - rewrite E. by replace ((Z.of_nat i + 1) / 1024) with (Z.of_nat i / 1024 + 1) by lia.
    - replace ((Z.of_nat i + 1) / 1024) with (Z.of_nat i / 1024) by lia. by replace ((Z.of_nat i + 1) mod 1024) with (Z.of_nat i mod 1024 + 1) by lia. }
  rewrite Hstep, IH by lia. cbn [mbind option_bind]. by rewrite (drop_S _ _ _ Hqi), (drop_S _ _ _ Ha).
Qed.

(** A segment that the guest granted. *)
Record listed_segment := Listed { ls_seg : segment; ls_pages : list Z; ls_x : xsegment; ls_refs : list Z }.
Definition ls_parts (g : listed_segment) : list Z := xs_all_gref (ls_x g).
Record listed (g : listed_segment) m : Prop := {
  ld_pinned : seg_pinned (ls_seg g) (ls_pages g);
  ld_listed : segment_listed (ls_seg g) (ls_pages g) (ls_x g) (ls_refs g) m;
  ld_granted x f : (x, f) ∈ segment_grants (ls_pages g) (ls_x g) (ls_refs g) -> granted (gt m) !! x = Some f }.
Definition segment_msg (id eid i : Z) (g : listed_segment) : register_msg :=
  RegisterMsg id eid (u32 (aligned_vaddr (ls_seg g))) (u16 (first_page_offset (ls_seg g))) (u32 (sg_length (ls_seg g)))
    (u32 (nr_pages (ls_seg g))) NR_GREFS (ls_parts g) i 0 (xs_nr_parts (ls_x g)).
(** Its segment at the backend: the handles and the addresses of the parts of
    the list, and of the pages. *)
Definition mapped_segment (g : listed_segment) (hs areas hs' addrs : list Z) : bsegment :=
  BSegment (u32 (nr_pages (ls_seg g))) (u32 (sg_length (ls_seg g))) (u16 (first_page_offset (ls_seg g))) 0 (xs_nr_parts (ls_x g))
    (ls_parts g) hs areas (At (zip addrs hs')) addrs.
Definition segment_maps (g : listed_segment) (hs areas hs' addrs : list Z) : list (Z * (Z * Z)) :=
  zip hs (zip (ls_parts g) areas) ++ zip hs' (zip (ls_refs g) addrs).
Record register_env_ok (env : register_env) (g : listed_segment) : Prop := {
  eo_alloc : re_gref_list env && re_map env && re_unmap env && re_page_list env = true;
  eo_pages : exists addrs, re_pages env = inr addrs /\ length addrs = length (ls_pages g);
  eo_area k : is_Some (re_area env k) }.
(** The mappings a segment needs. *)
Definition maps_needed (g : listed_segment) : Z := Z.of_nat (length (ls_parts g)) + Z.of_nat (length (ls_refs g)).

Lemma listed_kept g m m' : listed g m -> same_grants (gt m) (gt m') -> words m' = words m -> listed g m'.
Proof.
  intros [Hp [? ? ? Hw] Hg] [G _] W. split; [done| |by rewrite G]. split; try done. intros i q Hq. unfold read_list in *. rewrite W. by apply Hw.
Qed.
Lemma elem_zip_some {A B} (l : list A) (k : list B) x : x ∈ l -> length l = length k -> exists y, (x, y) ∈ zip l k.
Proof.
  intros [i Hi]%list_elem_of_lookup Hl. destruct (lookup_lt_is_Some_2 k i) as [y Hy]; [rewrite <- Hl; by eapply lookup_lt_Some|].
  exists y. apply list_elem_of_lookup. exists i. by apply lookup_zip_Some.
Qed.
Lemma elem_of_zip_lookup {A B} (l : list A) (k : list B) i x y : l !! i = Some x -> k !! i = Some y -> (x, y) ∈ zip l k.
Proof. intros Hx Hy. apply list_elem_of_lookup. exists i. by apply lookup_zip_Some. Qed.

Lemma read_gref_listed g seg hs areas m : listed g m -> bs_gref_offset seg = 0 -> bs_all_handle seg = hs ->
  length hs = length (ls_parts g) -> length areas = length (ls_parts g) ->
  (forall h v, (h, v) ∈ zip hs (zip (ls_parts g) areas) -> mapped (gt m) !! h = Some v) ->
  forall i q, ls_refs g !! i = Some q -> read_gref seg (Z.of_nat i / NR_GREFS) (Z.of_nat i mod NR_GREFS) m = Some q.
Proof.
  intros [Hp [(Hn & Hl & Hf) Hd Hlq Hw] Hg] Ho Hh Hlh Hla Hm i q Hq. unfold read_gref. rewrite Ho. change (0 / 4) with 0. change (0 mod 4 =? 0) with true.
  rewrite Z.add_0_r. pose proof (Z.mod_pos_bound (Z.of_nat i) NR_GREFS). rewrite (proj2 (Z.leb_gt _ _)) by (unfold NR_GREFS in *; lia). cbn [negb orb].
  specialize (Hw i q Hq). unfold read_list in Hw. destruct (xs_gref_list (ls_x g) !! _) as [f|] eqn:Hfr; [|done]. cbn [mbind option_bind] in Hw.
  set (k := Z.to_nat (Z.of_nat i / NR_GREFS)) in *. pose proof (lookup_lt_Some _ _ _ Hfr) as Hk.
  unfold ls_parts in *. destruct (lookup_lt_is_Some_2 hs k) as [h Hhk]; [lia|]. destruct (lookup_lt_is_Some_2 (xs_all_gref (ls_x g)) k) as [x Hx]; [lia|].
  destruct (lookup_lt_is_Some_2 areas k) as [a Ha]; [lia|]. rewrite Hh, Hhk. cbn [mbind option_bind].
  rewrite (Hm h (x, a)); [|apply (elem_of_zip_lookup _ _ k); [done|by apply lookup_zip_Some]]. cbn [mbind option_bind].
  rewrite (Hg x f); [done|]. apply elem_of_app. left. by apply (elem_of_zip_lookup _ _ k).
Qed.

Lemma register_segment_spec env g id eid i m : listed g m -> register_env_ok env g -> maps_needed g <= room (gt m) ->
  exists hs areas hs' addrs m', register_segment env (segment_msg id eid i g) zero_segment m =
      Some (0, mapped_segment g hs areas hs' addrs, m') /\
    length hs = length (ls_parts g) /\ length areas = length (ls_parts g) /\
    length hs' = length (ls_refs g) /\ length addrs = length (ls_refs g) /\
    maps_added (segment_maps g hs areas hs' addrs) m m'.
Proof.
  intros L [Ea (addrs & Ep & Hap) Har] Hroom. pose proof L as [[Hp Hnr Hmax Hlen] [(Hn & Hl & Hf) Hd Hlq Hw] Hg].
  unfold maps_needed in Hroom. destruct (nr_parts_bounds (nr_pages (ls_seg g))) as [Hb _]; [lia|].
  assert (Hparts : length (ls_parts g) = Z.to_nat (xs_nr_parts (ls_x g))) by done.
  unfold register_segment, segment_msg. cbn [rm_nr_parts rm_gref rm_nr_pages rm_gref_offset rm_first_page_offset rm_nr_grefs rm_length].
  rewrite bool_decide_eq_false_2 by lia. rewrite (proj2 (Z.ltb_ge _ _)) by lia. cbn [orb]. rewrite Ea, Ep. cbn [negb].
  rewrite take_ge by lia.
  match goal with |- context [accept_gref_lists _ _ _ ?s _] => set (seg0 := s) end.
  destruct (accept_gref_lists_spec (re_area env) (ls_parts g) 0 seg0 m) as (hs & areas & m1 & E1 & Hl1 & Hl2 & A1); try done; try lia.
  { intros x Hx. destruct (elem_zip_some (ls_parts g) (xs_gref_list (ls_x g)) x Hx) as [f Hfx]; [lia|]. rewrite (Hg x f); [done|].
    apply elem_of_app. by left. }
  rewrite E1. cbn [mbind option_bind]. change (0 <? 0) with false. cbn match.
  assert (L1 : listed g m1) by (destruct A1 as (_ & _ & _ & _ & G & W); by apply (listed_kept g m)).
  match goal with |- context [map_ops _ _ _ _ _ ?s _ _] => set (seg1 := s) end.
  pose proof (map_ops_spec seg1 addrs (ls_refs g) m1) as Hops.
  assert (Hu : u32 (nr_pages (ls_seg g)) = nr_pages (ls_seg g)) by (apply u32_small; lia).
  assert (Hrd : forall i q, ls_refs g !! i = Some q -> read_gref seg1 (Z.of_nat i / NR_GREFS) (Z.of_nat i mod NR_GREFS) m1 = Some q).
  { apply (read_gref_listed g seg1 hs areas m1); try done. intros h v Hv. exact (maps_lookup _ m m1 h v A1 Hv). }
  specialize (Hops ltac:(lia) Hrd (Z.to_nat (u32 (nr_pages (ls_seg g)))) 0%nat ltac:(lia)). change (Z.of_nat 0) with 0 in Hops. rewrite !drop_0 in Hops.
  change (0 / NR_GREFS) with 0 in Hops. change (0 mod NR_GREFS) with 0 in Hops. rewrite Hops. cbn [mbind option_bind].
  destruct (gnttab_map_refs_spec (zip (ls_refs g) addrs) m1) as (hs' & m2 & E2 & Hl3 & A2).
  { intros x a Hx. apply elem_of_zip_l in Hx. destruct (elem_zip_some (ls_refs g) (ls_pages g) x Hx) as [f Hfx]; [lia|].
    rewrite (ld_granted _ _ L1 x f); [done|]. apply elem_of_app. by right. }
  { destruct A1 as (_ & _ & _ & R1 & _). rewrite length_zip_with, R1, !length_zip_with. lia. }
  rewrite E2. rewrite length_zip_with in Hl3.
  assert (Hun : (fun op => (op.2, -1)) <$> zip (ls_refs g) addrs = (fun a => (a, -1)) <$> addrs).
  { rewrite <- (snd_zip (ls_refs g) addrs) at 2 by lia. by rewrite <- list_fmap_compose. }
  rewrite Hun, take_handles_spec by lia. change (0 <? 0) with false. cbn match.
  exists hs, areas, hs', addrs, m2. split; [done|]. split_and!; try done; try lia.
  by apply (maps_app _ _ m m1 m2).
Qed.

(** ** Unmapping *)

Lemma maps_removed_perm hs ks m m' : hs ≡ₚ ks -> maps_removed hs m m' -> maps_removed ks m m'.
Proof.
  intros Hp (E & R0 & G). split; [|split; [by rewrite <- Hp|done]]. intros h. rewrite E. by rewrite (bool_decide_ext _ (h ∈ ks)) by (by rewrite Hp).
Qed.
Lemma removed_maps_nil m : maps_removed [] m m.
Proof. split_and!; try done. cbn. lia. Qed.
Lemma unmap_one h x a m : mapped (gt m) !! h = Some (x, a) ->
  exists t, unmap_grant_ref a h (gt m) = (0, t) /\ maps_removed [h] m (XMem t (words m)).
Proof.
  intros Hm. destruct (unmap_ref h x a (gt m) Hm) as (t & E & Hd & Hr & Hs). exists t. split; [done|]. split_and!; try done.
  intros h'. cbn [gt]. rewrite Hd. case_bool_decide as Hh; rewrite list_elem_of_singleton in Hh; [subst; apply lookup_delete_eq|by apply lookup_delete_ne].
Qed.
(** The mappings of a list of addresses and handles are there. *)
Definition all_mapped (ops : list (Z * Z)) m : Prop := NoDup ops.*2 /\ forall a h, (a, h) ∈ ops -> exists x, mapped (gt m) !! h = Some (x, a).
Lemma all_mapped_tail a h ops m m1 : all_mapped ((a, h) :: ops) m -> maps_removed [h] m m1 -> all_mapped ops m1.
Proof.
  intros [Hd Hm] (E & _). cbn in Hd. apply NoDup_cons in Hd as [Hh Hd]. split; [done|]. intros b k Hin.
  destruct (Hm b k) as [x Hx]; [by right|]. exists x. rewrite E, bool_decide_eq_false_2; [done|].
  intros ->%list_elem_of_singleton. apply Hh, list_elem_of_fmap. by exists (b, h).
Qed.
Lemma gnttab_unmap_refs_spec ops : forall m, all_mapped ops m -> maps_removed ops.*2 m (gnttab_unmap_refs ops m).
Proof.
  induction ops as [|[a h] ops IH]; intros m Ha; [apply removed_maps_nil|]. destruct (proj2 Ha a h (list_elem_of_here _ _)) as [x Hx].
  destruct (unmap_one h x a m Hx) as (t & E & A). cbn [gnttab_unmap_refs]. rewrite E.
  change ((a, h) :: ops).*2 with ([h] ++ ops.*2). apply (removed_maps_app [h] ops.*2 m (XMem t (words m))); [done|]. apply IH. by apply (all_mapped_tail a h ops m).
Qed.
Lemma unmap_parts_spec ops : forall m, all_mapped ops m -> exists m', unmap_parts ops m = (0, m') /\ maps_removed ops.*2 m m'.
Proof.
  induction ops as [|[a h] ops IH]; intros m Ha; [exists m; split; [done|apply removed_maps_nil]|].
  destruct (proj2 Ha a h (list_elem_of_here _ _)) as [x Hx]. destruct (unmap_one h x a m Hx) as (t & E & A). cbn [unmap_parts]. rewrite E.
  cbn [Z.eqb negb]. destruct (IH (XMem t (words m))) as (m' & E' & A'); [by apply (all_mapped_tail a h ops m)|]. exists m'. split; [done|].
  exact (removed_maps_app [h] ops.*2 m (XMem t (words m)) m' A A').
Qed.

(** The shape of a mapped segment. *)
Record maps_shape (g : listed_segment) (hs areas hs' addrs : list Z) : Prop := {
  ms_hs : length hs = length (ls_parts g); ms_areas : length areas = length (ls_parts g);
  ms_hs' : length hs' = length (ls_refs g); ms_addrs : length addrs = length (ls_refs g) }.
Lemma segment_maps_handles g hs areas hs' addrs : maps_shape g hs areas hs' addrs -> (segment_maps g hs areas hs' addrs).*1 = hs ++ hs'.
Proof. intros []. unfold segment_maps. rewrite fmap_app, !fst_zip; [done|rewrite length_zip_with; lia..]. Qed.
Lemma segment_mapped g hs areas hs' addrs m : maps_shape g hs areas hs' addrs -> NoDup (hs ++ hs') ->
  (forall h v, (h, v) ∈ segment_maps g hs areas hs' addrs -> mapped (gt m) !! h = Some v) ->
  all_mapped (zip addrs hs') m /\ all_mapped (zip areas hs) m.
Proof.
  intros [H1 H2 H3 H4] Hd Hm. apply NoDup_app in Hd as (Hd1 & _ & Hd2).
  split; (split; [rewrite snd_zip by lia; done|]); intros a h (i & Hi)%list_elem_of_lookup; apply lookup_zip_Some in Hi as [Ha Hh].
  - destruct (lookup_lt_is_Some_2 (ls_refs g) i) as [x Hx]; [apply lookup_lt_Some in Ha; lia|]. exists x. apply Hm, elem_of_app. right.
    apply (elem_of_zip_lookup _ _ i); [done|]. by apply lookup_zip_Some.
  - destruct (lookup_lt_is_Some_2 (ls_parts g) i) as [x Hx]; [apply lookup_lt_Some in Ha; lia|]. exists x. apply Hm, elem_of_app. left.
    apply (elem_of_zip_lookup _ _ i); [done|]. by apply lookup_zip_Some.
Qed.

(** ** Regions *)

Inductive region_maps : list listed_segment -> list bsegment -> list (Z * (Z * Z)) -> Prop :=
  | region_maps_nil : region_maps [] [] []
  | region_maps_cons g gs hs areas hs' addrs bs l : maps_shape g hs areas hs' addrs -> region_maps gs bs l ->
      region_maps (g :: gs) (mapped_segment g hs areas hs' addrs :: bs) (segment_maps g hs areas hs' addrs ++ l).
Definition total_of (tot : Z) (gs : list listed_segment) : Z := fold_left (fun t g => u64 (t + u32 (sg_length (ls_seg g)))) gs tot.
Definition sum_needed (gs : list listed_segment) : Z := foldr (fun g n => maps_needed g + n) 0 gs.

Lemma get_region_in eid id x : 0 <= eid < OMX_XEN_MAX_ENDPOINTS -> 0 <= id < OMX_USER_REGION_MAX -> get_region eid id x = Some (x eid !! id).
Proof. intros He Hi. unfold get_region. by rewrite !(proj2 (Z.leb_gt _ _)) by lia. Qed.
Lemma set_region_same eid id r x : set_region eid id (Some r) x eid = <[id := r]> (x eid).
Proof. unfold set_region. by rewrite Z.eqb_refl. Qed.
Lemma set_region_other eid id r x e : e <> eid -> set_region eid id r x e = x e.
Proof. intros He. unfold set_region. by rewrite (proj2 (Z.eqb_neq _ _)) by done. Qed.

Section region.
Context (id eid nr : Z) (Hid : 0 <= id < OMX_USER_REGION_MAX) (Heid : 0 <= eid < OMX_XEN_MAX_ENDPOINTS).
Let Heid8 : u8 eid = eid.
Proof. apply Z.mod_small. unfold OMX_XEN_MAX_ENDPOINTS in Heid. lia. Qed.
(** Only the region [id] of endpoint [eid] is changed, to [r]. *)
Definition region_set (r : bregion) (x x' : xregions) : Prop := (forall e, e <> eid -> x' e = x e) /\ x' eid = <[id := r]> (x eid).
Lemma region_set_trans r r' x x1 x2 : region_set r x x1 -> region_set r' x1 x2 -> region_set r' x x2.
Proof.
  intros [H1 E1] [H2 E2]. split; [intros e He; by rewrite H2, H1|]. by rewrite E2, E1, insert_insert_eq.
Qed.

Lemma register_segments_spec env msgs : forall gs i pre tot x m,
  x eid !! id = Some (BRegion id eid 1 nr tot (pre ++ replicate (length gs) zero_segment)) -> length pre = i ->
  (forall k g, gs !! k = Some g -> msgs !! (i + k)%nat = Some (segment_msg id eid (Z.of_nat (i + k)) g)) ->
  Forall (fun g => listed g m) gs -> (forall k g, gs !! k = Some g -> register_env_ok (env (i + k)%nat) g) ->
  sum_needed gs <= room (gt m) ->
  exists bs l x' m', register_segments (length gs) i env msgs 0 id eid x m = Some (0, id, eid, x', m') /\
    region_set (BRegion id eid 1 nr (total_of tot gs) (pre ++ bs)) x x' /\ region_maps gs bs l /\ maps_added l m m'.
Proof.
  induction gs as [|g gs IH]; intros i pre tot x m Hx Hpre Hmsg HL Henv Hroom.
  { exists [], [], x, m. cbn in Hx. split; [done|]. split; [split; [done|by rewrite insert_id]|]. split; [constructor|apply maps_nil]. }
  cbn [sum_needed foldr] in Hroom. fold (sum_needed gs) in Hroom. assert (Hpos : 0 <= sum_needed gs).
  { clear. unfold sum_needed. induction gs as [|g gs IH]; cbn; [lia|]. assert (0 <= maps_needed g) by (unfold maps_needed; lia). lia. }
  apply Forall_cons in HL as [Lg HL]. pose proof (Henv 0%nat g eq_refl) as Eg. rewrite Nat.add_0_r in Eg.
  destruct (register_segment_spec (env i) g id eid (Z.of_nat i) m Lg Eg) as (hs & areas & hs' & addrs & m1 & E1 & L1 & L2 & L3 & L4 & A1); [lia|].
  pose proof (Hmsg 0%nat g eq_refl) as Hm0. rewrite Nat.add_0_r in Hm0. cbn [length register_segments]. rewrite Hm0. cbn [mbind option_bind].
  unfold omx_xen_register_user_segment. cbn [rm_eid rm_rid rm_sid segment_msg]. rewrite Heid8, get_region_in, Hx by done. cbn [mbind option_bind br_segments].
  rewrite Nat2Z.id, lookup_app_r, Hpre, Nat.sub_diag by lia. cbn [replicate length lookup list_lookup mbind option_bind].
  change (RegisterMsg id eid (u32 (aligned_vaddr (ls_seg g))) (u16 (first_page_offset (ls_seg g))) (u32 (sg_length (ls_seg g)))
    (u32 (nr_pages (ls_seg g))) NR_GREFS (ls_parts g) (Z.of_nat i) 0 (xs_nr_parts (ls_x g))) with (segment_msg id eid (Z.of_nat i) g).
  rewrite E1. cbn [mbind option_bind Z.eqb].
  match goal with |- context [set_region eid id (Some ?r) x] => set (r1 := r) end.
  assert (Hr1 : r1 = BRegion id eid 1 nr (u64 (tot + u32 (sg_length (ls_seg g))))
    ((pre ++ [mapped_segment g hs areas hs' addrs]) ++ replicate (length gs) zero_segment)).
  { transitivity (BRegion id eid 1 nr (u64 (tot + u32 (sg_length (ls_seg g)))) (<[i := mapped_segment g hs areas hs' addrs]> (pre ++ zero_segment :: replicate (length gs) zero_segment))); [done|].
    f_equal. rewrite insert_app_r_alt by lia. rewrite Hpre, Nat.sub_diag. cbn. by rewrite <- (assoc_L (++)). }
  clearbody r1. subst r1.
  destruct (IH (S i) (pre ++ [mapped_segment g hs areas hs' addrs]) (u64 (tot + u32 (sg_length (ls_seg g)))) (set_region eid id (Some
      (BRegion id eid 1 nr (u64 (tot + u32 (sg_length (ls_seg g)))) ((pre ++ [mapped_segment g hs areas hs' addrs]) ++ replicate (length gs) zero_segment))) x) m1) as (bs & l & x' & m' & E' & S' & M' & A').
  { rewrite set_region_same. apply lookup_insert_eq. }
  { rewrite length_app. cbn. lia. }
  { intros k g' Hg'. pose proof (Hmsg (S k) g' Hg') as H. by rewrite <- Nat.add_succ_comm in H. }
  { destruct A1 as (_ & _ & _ & _ & G & W). eapply Forall_impl; [exact HL|]. intros g' Hg'. by apply (listed_kept g' m). }
  { intros k g' Hg'. pose proof (Henv (S k) g' Hg') as H. by rewrite <- Nat.add_succ_comm in H. }
  { destruct A1 as (_ & _ & _ & R1 & _). rewrite R1. unfold segment_maps. rewrite length_app, !length_zip_with. unfold maps_needed in Hroom. lia. }
  rewrite E'. exists (mapped_segment g hs areas hs' addrs :: bs), (segment_maps g hs areas hs' addrs ++ l), x', m'. split; [done|]. split_and!.
  - eapply region_set_trans; [split; [by intros e He; apply set_region_other|apply set_region_same]|]. by rewrite <- (assoc_L (++)) in S'.
  - by constructor.
  - by apply (maps_app _ _ m m1 m').
Qed.

(** A segment whose arrays were freed. *)
Definition freed (b : bsegment) : bsegment := b <| bs_unmap := Freed |>.
Lemma deregister_segment_spec i r g hs areas hs' addrs x m : x eid !! id = Some r ->
  br_segments r !! i = Some (mapped_segment g hs areas hs' addrs) -> maps_shape g hs areas hs' addrs -> listed g m -> NoDup (hs ++ hs') ->
  (forall h v, (h, v) ∈ segment_maps g hs areas hs' addrs -> mapped (gt m) !! h = Some v) ->
  exists x' m', omx_xen_deregister_user_segment id (Z.of_nat i) eid x m = Some (0, x', m') /\
    region_set (r <| br_segments := <[i := freed (mapped_segment g hs areas hs' addrs)]> (br_segments r) |>) x x' /\
    maps_removed (segment_maps g hs areas hs' addrs).*1 m m'.
Proof.
  intros Hx Hs Hsh L Hd Hm. destruct (segment_mapped _ _ _ _ _ m Hsh Hd Hm) as [M1 M2]. pose proof Hsh as [H1 H2 H3 H4].
  pose proof L as [[Hp Hnr Hmax Hlen] [(Hn & Hl & Hf) Hdp Hlq Hw] Hg]. unfold ls_parts in H1, H2.
  unfold omx_xen_deregister_user_segment. rewrite get_region_in, Hx by done. cbn [mbind option_bind]. rewrite Nat2Z.id, Hs. cbn [mbind option_bind].
  cbn [bs_unmap mapped_segment bs_nr_pages bs_nr_parts bs_vm_gref bs_all_handle]. rewrite u32_small by lia.
  rewrite bool_decide_eq_false_2 by (rewrite length_zip_with; lia). rewrite take_ge by (rewrite length_zip_with; lia).
  rewrite !bool_decide_eq_false_2 by lia. cbn [orb]. rewrite take_ge by (rewrite length_zip_with; lia).
  pose proof (gnttab_unmap_refs_spec _ m M1) as A1. rewrite snd_zip in A1 by lia.
  assert (M2' : all_mapped (zip areas hs) (gnttab_unmap_refs (zip addrs hs') m)).
  { destruct M2 as [D2 M2]. split; [done|]. intros a h Hin. destruct (M2 a h Hin) as [y Hy]. exists y. destruct A1 as [-> _].
    rewrite bool_decide_eq_false_2; [done|]. intros Hh. apply NoDup_app in Hd as (_ & Hd & _). apply (Hd h); [|done].
    by apply elem_of_zip_r in Hin. }
  destruct (unmap_parts_spec _ _ M2') as (m' & E & A2). rewrite snd_zip in A2 by lia. rewrite E. cbn [Z.eqb negb].
  eexists _, m'. split; [done|]. split; [split; [by intros e He; apply set_region_other|apply set_region_same]|].
  rewrite segment_maps_handles by done. apply (maps_removed_perm (hs' ++ hs)); [apply Permutation_app_comm|]. exact (removed_maps_app _ _ _ _ _ A1 A2).
Qed.

Lemma listed_removed g hs m m' : listed g m -> maps_removed hs m m' -> listed g m'.
Proof. intros L (_ & _ & G & W). by apply (listed_kept g m). Qed.
Lemma deregister_segments_spec dmsgs r0 : forall gs bs l, region_maps gs bs l -> forall i pre x m,
  x eid !! id = Some (r0 <| br_segments := pre ++ bs |>) -> length pre = i ->
  (forall k, (k < length gs)%nat -> dmsgs !! (i + k)%nat = Some (DeregisterMsg id eid (Z.of_nat (i + k)))) ->
  Forall (fun g => listed g m) gs -> NoDup l.*1 -> (forall h v, (h, v) ∈ l -> mapped (gt m) !! h = Some v) ->
  exists x' m', deregister_segments (length gs) i dmsgs id eid x m = Some (id, eid, x', m') /\
    region_set (r0 <| br_segments := pre ++ (freed <$> bs) |>) x x' /\ maps_removed l.*1 m m'.
Proof.
  induction 1 as [|g gs hs areas hs' addrs bs l Hsh HM IH]; intros i pre x m Hx Hpre Hmsg HL Hd Hm.
  { exists x, m. split; [done|]. split; [split; [done|by rewrite insert_id]|apply removed_maps_nil]. }
  apply Forall_cons in HL as [Lg HL]. rewrite fmap_app, segment_maps_handles in Hd by done.
  pose proof Hd as Hd'. apply NoDup_app in Hd' as (Hd1 & Hd2 & Hd3).
  destruct (deregister_segment_spec i (r0 <| br_segments := pre ++ mapped_segment g hs areas hs' addrs :: bs |>) g hs areas hs' addrs x m)
    as (x1 & m1 & E1 & S1 & A1); [done| |done|done|done| |].
  { change (br_segments (r0 <| br_segments := pre ++ mapped_segment g hs areas hs' addrs :: bs |>)) with (pre ++ mapped_segment g hs areas hs' addrs :: bs).
    by rewrite lookup_app_r, Hpre, Nat.sub_diag by lia. }
  { intros h v Hin. apply Hm, elem_of_app. by left. }
  pose proof (Hmsg 0%nat) as Hm0. rewrite Nat.add_0_r in Hm0. cbn [length deregister_segments]. rewrite Hm0 by (cbn; lia). cbn [mbind option_bind dm_rid dm_sid dm_eid].
  rewrite Heid8, E1. cbn [mbind option_bind].
  set (r1 := r0 <| br_segments := pre ++ mapped_segment g hs areas hs' addrs :: bs |>) in *.
  assert (Hr1 : r1 <| br_segments := <[i := freed (mapped_segment g hs areas hs' addrs)]> (br_segments r1) |> =
    r0 <| br_segments := (pre ++ [freed (mapped_segment g hs areas hs' addrs)]) ++ bs |>).
  { transitivity (r0 <| br_segments := <[i := freed (mapped_segment g hs areas hs' addrs)]> (pre ++ mapped_segment g hs areas hs' addrs :: bs) |>); [done|].
    rewrite insert_app_r_alt by lia. rewrite Hpre, Nat.sub_diag. cbn [insert list_insert]. by rewrite <- (assoc_L (++)). }
  rewrite Hr1 in S1. clear Hr1.
  destruct (IH (S i) (pre ++ [freed (mapped_segment g hs areas hs' addrs)]) x1 m1) as (x' & m' & E' & S' & A').
  { destruct S1 as [_ ->]. apply lookup_insert_eq. }
  { rewrite length_app. cbn. lia. }
  { intros k Hk. pose proof (Hmsg (S k) ltac:(cbn; lia)) as H. by rewrite <- Nat.add_succ_comm in H. }
  { eapply Forall_impl; [exact HL|]. intros g' Hg'. exact (listed_removed g' _ m m1 Hg' A1). }
  { done. }
  { intros h v Hin. destruct A1 as [-> _]. rewrite segment_maps_handles, bool_decide_eq_false_2 by
      (done || (intros Hh; apply (Hd2 h Hh), list_elem_of_fmap; by exists (h, v))). apply Hm, elem_of_app. by right. }
  rewrite E'. exists x', m'. split; [done|]. split.
  - apply (region_set_trans _ _ x x1 x' S1).
    replace (pre ++ (freed <$> mapped_segment g hs areas hs' addrs :: bs)) with ((pre ++ [freed (mapped_segment g hs areas hs' addrs)]) ++ (freed <$> bs))
      by (by rewrite <- (assoc_L (++))). exact S'.
  - rewrite fmap_app. by apply (removed_maps_app _ _ m m1 m').
Qed.
End region.

(** ** The two commands *)

(** The answer to a creation, when the identifier is free: the region maps the
    pages of the segments. *)
Lemma create_spec env id eid gs msg x m : 0 <= id < OMX_USER_REGION_MAX -> 0 <= eid < OMX_XEN_MAX_ENDPOINTS ->
  cm_id msg = id -> cm_eid msg = eid -> cm_nr_segments msg = Z.of_nat (length gs) ->
  (forall k g, gs !! k = Some g -> cm_segs msg !! k = Some (segment_msg id eid (Z.of_nat k) g)) ->
  Forall (fun g => listed g m) gs -> (forall k g, gs !! k = Some g -> register_env_ok (env k) g) ->
  sum_needed gs <= room (gt m) -> x eid !! id = None ->
  exists bs l x' m', process_create_user_region true env msg x m =
      Some (msg <| cm_id := id |> <| cm_eid := eid |> <| cm_status := 0 |>, eid, x', m') /\
    region_set id eid (BRegion id eid 1 (Z.of_nat (length gs)) (total_of 0 gs) bs) x x' /\ region_maps gs bs l /\ maps_added l m m'.
Proof.
  intros Hi He Hmi Hme Hn Hmsg HL Henv Hroom Hx. unfold process_create_user_region, omx_xen_create_user_region. cbn [negb].
  rewrite Hmi, Hme, get_region_in, Hx by done. cbn [mbind option_bind]. rewrite Hn, Nat2Z.id.
  set (r0 := BRegion id eid 1 (Z.of_nat (length gs)) 0 (replicate (length gs) zero_segment)).
  destruct (register_segments_spec id eid (Z.of_nat (length gs)) Hi He env (cm_segs msg) gs 0 [] 0 (set_region eid id (Some r0) x) m)
    as (bs & l & x' & m' & E & S' & M & A); try done.
  { rewrite set_region_same. apply lookup_insert_eq. }
  rewrite E. cbn [mbind option_bind]. exists bs, l, x', m'. split; [done|]. split; [|done].
  eapply region_set_trans; [|exact S']. split; [by intros e Hne; apply set_region_other|apply set_region_same].
Qed.
(** The answer to a destruction of this region. *)
Lemma destroy_spec id eid gs bs l msg n tot x m : 0 <= id < OMX_USER_REGION_MAX -> 0 <= eid < OMX_XEN_MAX_ENDPOINTS ->
  dsm_id msg = id -> dsm_eid msg = eid -> dsm_nr_segments msg = Z.of_nat (length gs) ->
  (forall k, (k < length gs)%nat -> dsm_segs msg !! k = Some (DeregisterMsg id eid (Z.of_nat k))) ->
  Forall (fun g => listed g m) gs -> region_maps gs bs l -> NoDup l.*1 -> (forall h v, (h, v) ∈ l -> mapped (gt m) !! h = Some v) ->
  x eid !! id = Some (BRegion id eid 1 n tot bs) ->
  exists x' m', process_destroy_user_region msg x m = Some (msg <| dsm_id := id |> <| dsm_eid := eid |> <| dsm_status := 0 |>, eid, x', m') /\
    (forall e, e <> eid -> x' e = x e) /\ x' eid = delete id (x eid) /\ maps_removed l.*1 m m'.
Proof.
  intros Hi He Hmi Hme Hn Hmsg HL HM Hd Hm Hx. unfold process_destroy_user_region. rewrite Hn, Nat2Z.id, Hmi, Hme.
  destruct (deregister_segments_spec id eid Hi He (dsm_segs msg) (BRegion id eid 1 n tot bs) gs bs l HM 0 [] x m)
    as (x1 & m1 & E1 & [S1 S2] & A1); try done.
  rewrite E1. cbn [mbind option_bind]. unfold omx_xen_destroy_user_region. rewrite get_region_in, S2, lookup_insert_eq by done. cbn [mbind option_bind].
  eexists _, m1. split; [done|]. split_and!.
  - intros e Hne. unfold set_region. rewrite (proj2 (Z.eqb_neq _ _)) by done. by apply S1.
  - unfold set_region. rewrite Z.eqb_refl, S2. apply delete_insert_eq.
  - done.
Qed.
End back.
End XenBack.
