(* ===== verification/XenRegion.v ===== *)
(** A region of a guest, from its creation to its destruction: the backend maps
    exactly the pages of the user's buffers, and in the end neither domain has
    lost anything. *)
From S2P Require Import Prelude Segments Reg RegTable XenGrant XenReg XenGuest XenBack.
Import XenGrant XenReg XenGuest XenBack.

Module XenRegion.
Import Reg.

Section region.
Context {T R : Type} {grants : GrantTable T R} {laws : GrantTableLaws T R}.
Implicit Types (c : cookies R) (m : xmem T).

(** ** Granting the segments of a region *)

(** A segment that is granted, with its cookie in use. *)
Definition holds (g : listed_segment) (c0 : cookies R) c : Prop :=
  xs_cookie (ls_x g) ∉ gref_cookies_free c /\
  exists r cnt, cookie_at c !! xs_cookie (ls_x g) = Some (Cookie r cnt) /\ cnt <= Z.of_nat (length (ls_parts g ++ ls_refs g ++ refs r)) /\
    forall ck, cookie_at c0 !! xs_cookie (ls_x g) = Some ck -> refs (gref_head ck) ≡ₚ ls_parts g ++ ls_refs g ++ refs r /\ ck_count ck = cnt.

Definition refs_total (sgs : list segment) : Z := foldr (fun sg n => refs_needed (nr_pages sg) + n) 0 sgs.
(** The answers of the kernel are good: new cookies, enough references, pages
    for the lists that are different. *)
Record envs_ok (env : nat -> grant_env) (sgs : list segment) (i : nat) (news : list Z) c m : Prop := {
  es_kmalloc k new : news !! k = Some new -> ge_kmalloc (env (i + k)%nat) 0%nat = Some new /\ (2 <= ge_fuel (env (i + k)%nat))%nat;
  es_news : NoDup news /\ length news = length sgs /\ forall new, new ∈ news -> cookie_at c !! new = None;
  es_refs : refs_total sgs <= Z.of_nat (size (unreserved (gt m)));
  es_lists k sg : sgs !! k = Some sg -> NoDup (ge_list (env (i + k)%nat)) /\ Z.of_nat (length (ge_list (env (i + k)%nat))) = nr_parts_of (nr_pages sg);
  es_disjoint j k f : (j < k < length sgs)%nat -> f ∈ ge_list (env (i + j)%nat) -> f ∉ ge_list (env (i + k)%nat) }.

Definition cookies_of (gs : list listed_segment) : list Z := (fun g => xs_cookie (ls_x g)) <$> gs.
Definition grants_of (gs : list listed_segment) : list (Z * Z) := flat_map (fun g => segment_grants (ls_pages g) (ls_x g) (ls_refs g)) gs.

(** What granting the segments gives. *)
Record granted_all (env : nat -> grant_env) (sgs : list segment) (psl : list (list Z)) (i : nat) (news : list Z) (gs : list listed_segment)
    c m c' m' : Prop := {
  ga_ok : cookies_ok c' m';
  ga_segs : ls_seg <$> gs = sgs /\ ls_pages <$> gs = psl;
  ga_listed : Forall (fun g => listed g m') gs;
  ga_holds : Forall (fun g => holds g c c') gs;
  ga_inuse : gref_cookies_inuse c' = gref_cookies_inuse c ++ cookies_of gs;
  ga_granted : granted (gt m') = list_to_map (grants_of gs) ∪ granted (gt m);
  ga_fresh y : y ∈ (grants_of gs).*1 -> granted (gt m) !! y = None;
  ga_nodup : NoDup (grants_of gs).*1;
  ga_maps : same_maps (gt m) (gt m');
  ga_cookies b : b ∉ news -> b ∉ cookies_of gs -> cookie_at c' !! b = cookie_at c !! b;
  ga_words g w : (forall k, (k < length sgs)%nat -> g ∉ ge_list (env (i + k)%nat)) -> words m' g w = words m g w }.

Lemma refs_total_nonneg sgs psl : Forall2 seg_pinned sgs psl -> 0 <= refs_total sgs.
Proof.
  induction 1 as [|sg ps sgs psl [? ? ? ?] _ IH]; cbn; [lia|]. fold (refs_total sgs). unfold refs_needed. nia.
Qed.
Lemma union_new_l (A B : gmap Z Z) x f : A !! x = None -> B !! x = Some f -> (A ∪ B) !! x = Some f.
Proof. intros Ha Hb. by rewrite lookup_union_r. Qed.

Lemma granted_cons env sg ps sgs psl i new news x qs gs c m c1 m1 c' m' : NoDup (new :: news) -> cookie_at c !! new = None ->
  cookies_ok c1 m1 -> granted_all env sgs psl (S i) news gs c1 m1 c' m' -> seg_pinned sg ps ->
  (forall b, b ∈ news -> cookie_at c1 !! b = None) -> (forall k f, f ∈ ge_list (env i) -> (k < length sgs)%nat -> f ∉ ge_list (env (S i + k)%nat)) ->
  segment_listed sg ps x qs m1 -> xs_gref_list x = ge_list (env i) ->
  (exists r cnt, cookie_at c1 !! xs_cookie x = Some (Cookie r cnt) /\ cnt <= Z.of_nat (length (xs_all_gref x ++ qs ++ refs r)) /\
    forall ck, cookie_at c !! xs_cookie x = Some ck -> refs (gref_head ck) = xs_all_gref x ++ qs ++ refs r /\ ck_count ck = cnt) ->
  gref_cookies_inuse c1 = gref_cookies_inuse c ++ [xs_cookie x] ->
  (forall b, b <> new -> b <> xs_cookie x -> cookie_at c1 !! b = cookie_at c !! b) ->
  (forall y, y ∈ (segment_grants ps x qs).*1 -> granted (gt m) !! y = None) ->
  granted (gt m1) = list_to_map (segment_grants ps x qs) ∪ granted (gt m) -> same_maps (gt m) (gt m1) ->
  (forall g w, g ∉ ge_list (env i) -> words m1 g w = words m g w) ->
  granted_all env (sg :: sgs) (ps :: psl) i (new :: news) (Listed sg ps x qs :: gs) c m c' m'.
Proof.
  intros Hnews Hnew I1 G Hp Hn1 Hdis Hl Hgl (r & cnt & Hck & Hcnt & Hold) Hin Hck1 Hfr Hg1 Hm1 Hw1. destruct G as [I' [Gs Gp] GL GH Gi Gg Gf Gn Gm Gc Gw].
  apply NoDup_cons in Hnews as [Hnn Hnews].
  assert (Hkeys : (segment_grants ps x qs).*1 = xs_all_gref x ++ qs).
  { destruct Hl as [(H1 & H2 & H3) _ H4 _]. unfold segment_grants. rewrite fmap_app, !fst_zip by lia. done. }
  assert (Hg1in : forall y f, (y, f) ∈ segment_grants ps x qs -> granted (gt m1) !! y = Some f).
  { intros y f Hy. rewrite Hg1. apply lookup_union_Some_l, elem_of_list_to_map; [|done]. rewrite Hkeys. apply Hl. }
  assert (Hkeep : forall y f, granted (gt m1) !! y = Some f -> granted (gt m') !! y = Some f).
  { intros y f Hy. rewrite Gg. apply union_new_l; [|done]. apply not_elem_of_list_to_map. intros Hy'. by rewrite (Gf y Hy') in Hy. }
  pose proof (co_nodup _ _ I') as Hnd. rewrite Gi, Hin in Hnd.
  assert (Ha : xs_cookie x ∉ cookies_of gs /\ xs_cookie x ∉ gref_cookies_free c').
  { apply NoDup_app in Hnd as (_ & Hnd1 & Hnd2). split.
    - rewrite <- (assoc_L (++)) in Hnd2. apply NoDup_app in Hnd2 as (_ & _ & Hnd2). cbn in Hnd2. by apply NoDup_cons in Hnd2 as [? _].
    - intros Hf. apply (Hnd1 _ Hf). rewrite !elem_of_app, list_elem_of_singleton. tauto. }
  assert (Hckx : cookie_at c' !! xs_cookie x = Some (Cookie r cnt)).
  { rewrite Gc; [done| |apply Ha]. intros Hx. by rewrite (Hn1 _ Hx) in Hck. }
  split; try done.
  - cbn. by rewrite Gs, Gp.
  - constructor; [|done]. split; cbn; [done| |by intros y f Hy; apply Hkeep, Hg1in].
    destruct Hl as [H1 H2 H3 H4]. split; try done. intros j q Hq. specialize (H4 j q Hq). unfold read_list in *.
    destruct (xs_gref_list x !! _) as [f|] eqn:Hf; [|done]. cbn [mbind option_bind] in *. rewrite Gw; [done|].
    intros k Hk. apply Hdis; [|done]. rewrite <- Hgl. by eapply list_elem_of_lookup_2.
  - constructor.
    + split; [apply Ha|]. exists r, cnt. split; [exact Hckx|]. split; [done|]. intros ck Hc. cbn. destruct (Hold ck Hc) as [-> ->]. done.
    + apply Forall_forall. intros g Hg. destruct (proj1 (Forall_forall _ _) GH g Hg) as (Hf & r' & cnt' & Hc' & Hcn & Ho). split; [done|].
      exists r', cnt'. split; [done|]. split; [done|]. intros ck Hc. apply Ho. rewrite Hck1; [done| |].
      * intros E. rewrite E in Hc. congruence.
      * intros E. destruct Ha as [Ha _]. apply Ha. rewrite <- E. unfold cookies_of. apply list_elem_of_fmap. by exists g.
  - rewrite Gi, Hin. cbn. by rewrite <- (assoc_L (++)).
  - rewrite Gg, Hg1. cbn. rewrite list_to_map_app, !(assoc_L (∪)). f_equal. apply map_union_comm, map_disjoint_spec. intros y f f' Hy Hy'.
    apply elem_of_list_to_map_2 in Hy'. specialize (Hg1in y f' Hy'). apply elem_of_list_to_map_2 in Hy.
    rewrite (Gf y) in Hg1in; [done|]. apply list_elem_of_fmap. by exists (y, f).
  - intros y. cbn. rewrite fmap_app. intros [Hy|Hy]%elem_of_app; [by apply Hfr|]. specialize (Gf y Hy). rewrite Hg1 in Gf.
    by apply lookup_union_None in Gf as [_ Gf].
  - cbn. rewrite fmap_app. apply NoDup_app. split; [rewrite Hkeys; apply Hl|]. split; [|done]. intros y ([z f] & -> & Hz)%list_elem_of_fmap Hy.
    cbn in Hy. specialize (Gf z Hy). by rewrite (Hg1in z f Hz) in Gf.
  - destruct Hm1, Gm. split; congruence.
  - intros b Hb Hb'. apply not_elem_of_cons in Hb as [Hb1 Hb2]. cbn in Hb'. apply not_elem_of_cons in Hb' as [Hb3 Hb4]. rewrite Gc by done. by apply Hck1.
  - intros g w Hg. rewrite Gw, Hw1; [done| |].
    + specialize (Hg 0%nat). rewrite Nat.add_0_r in Hg. apply Hg. cbn. lia.
    + intros k Hk. specialize (Hg (S k)). rewrite <- Nat.add_succ_comm in Hg. apply Hg. cbn. lia.
Qed.

(** The message of the segments from the [i]-th. *)
Definition msg_has (id eid : Z) (i : nat) (gs : list listed_segment) (msg msg' : create_msg) : Prop :=
  cm_id msg' = cm_id msg /\ cm_eid msg' = cm_eid msg /\ cm_nr_segments msg' = cm_nr_segments msg /\
  (forall j, (j < i)%nat -> cm_segs msg' !! j = cm_segs msg !! j) /\
  forall k g, gs !! k = Some g -> cm_segs msg' !! (i + k)%nat = Some (segment_msg id eid (Z.of_nat (i + k)) g).

Lemma grant_segments_spec env id eid : forall sgs psl, Forall2 seg_pinned sgs psl -> forall i news msg c m, cookies_ok c m ->
  envs_ok env sgs i news c m -> (i + length sgs <= length (cm_segs msg))%nat ->
  exists gs msg' c' m', grant_segments (length sgs) env id eid (Z.of_nat i) sgs msg c m = Some (inr (msg', ls_x <$> gs), c', m') /\
    granted_all env sgs psl i news gs c m c' m' /\ msg_has id eid i gs msg msg'.
Proof.
  induction 1 as [|sg ps sgs psl Hp Hps IH]; intros i news msg c m I E Hlen.
  { exists [], msg, c, m. split; [done|]. destruct E as [_ (_ & En & _) _ _ _]. destruct news; [|done]. split; [|by split_and!].
    split; try done; cbn; [by rewrite (right_id_L [] (++))|by rewrite (left_id_L ∅ (∪))|by intros y Hy%not_elem_of_nil|constructor]. }
  destruct E as [Ek (End_ & Enl & Enew) Er El Ed]. destruct news as [|new news]; [done|]. cbn [length] in Enl, Hlen.
  pose proof (refs_total_nonneg _ _ Hps) as Hrest. cbn [refs_total foldr] in Er. fold (refs_total sgs) in Er.
  assert (Hneed : 0 <= refs_needed (nr_pages sg)) by (destruct Hp; unfold refs_needed; nia).
  pose proof (Ek 0%nat new eq_refl) as [Ek0 Ef0]. rewrite Nat.add_0_r in Ek0, Ef0.
  pose proof (El 0%nat sg eq_refl) as [El0 El1]. rewrite Nat.add_0_r in El0, El1.
  assert (Hnew : cookie_at c !! new = None) by (apply Enew, list_elem_of_here).
  assert (Henv : grant_env_ok (env i) sg new c m) by (split; [done|split; [done|lia]|done|done]).
  destruct (grant_segment_spec (env i) id eid (Z.of_nat i) sg ps new c m I Hp Henv)
    as (x & qs & r & cnt & c1 & m1 & E1 & I1 & Hl & Hgl & Hck & Hnf & Hin & Hcnt & Hoth & Hknown & Hfr & Hold & Hg1 & Hm1 & Hu1 & Hw1).
  cbn [length grant_segments]. rewrite Nat2Z.id. change (default no_segment (head (sg :: sgs))) with sg. change (tail (sg :: sgs)) with sgs.
  rewrite E1. cbn [mbind option_bind]. rewrite (proj2 (Z.leb_gt _ _)) by lia.
  match goal with |- context [grant_segments _ _ _ _ _ _ ?msg _ _] => set (msg1 := msg) end.
  assert (Hsegs1 : cm_segs msg1 = <[i := segment_msg id eid (Z.of_nat i) (Listed sg ps x qs)]> (cm_segs msg)) by done.
  assert (Hn1 : forall b, b ∈ news -> cookie_at c1 !! b = None).
  { apply NoDup_cons in End_ as [Hnn _]. intros b Hb. destruct (decide (b = xs_cookie x)) as [->|Hbx].
    - exfalso. assert (xs_cookie x <> new) as Hne by (intros E; by rewrite E in Hb). destruct (Hknown Hne) as [ck Hck'].
      rewrite Enew in Hck'; [done|]. by right.
    - rewrite Hoth by (done || by intros ->). apply Enew. by right. }
  destruct (IH (S i) news msg1 c1 m1 I1) as (gs & msg' & c' & m' & E' & G & Hmsg); [|rewrite Hsegs1, length_insert; lia|].
  { split.
    - intros k b Hb. rewrite Nat.add_succ_comm. by apply (Ek (S k)).
    - apply NoDup_cons in End_ as [_ ?]. split_and!; [done|lia|done].
    - lia.
    - intros k sg' Hs. rewrite Nat.add_succ_comm. by apply (El (S k)).
    - intros j k f Hjk. rewrite !Nat.add_succ_comm. apply Ed. cbn. lia. }
  replace (Z.of_nat i + 1) with (Z.of_nat (S i)) by lia. rewrite E'. cbn [mbind option_bind].
  exists (Listed sg ps x qs :: gs), msg', c', m'. split; [done|]. split.
  - apply (granted_cons env sg ps sgs psl i new news x qs gs c m c1 m1 c' m'); try done.
    + intros k f Hf Hk. rewrite Nat.add_succ_comm. apply (Ed 0%nat); [cbn; lia|by rewrite Nat.add_0_r].
    + by exists r, cnt.
  - destruct Hmsg as (M1 & M2 & M3 & M4 & M5). split_and!; [done|done|done| |].
    + intros j Hj. rewrite M4, Hsegs1 by lia. apply list_lookup_insert_ne. lia.
    + intros [|k] g; cbn [lookup list_lookup].
      * intros [= <-]. rewrite Nat.add_0_r, M4, Hsegs1 by lia. apply list_lookup_insert_eq. lia.
      * intros Hg. rewrite <- Nat.add_succ_comm. by apply M5.
Qed.

(** ** Taking the grants back *)

Lemma release_segments_spec : forall gs c0 c m, cookies_ok c m -> Forall (fun g => listed g m) gs -> Forall (fun g => holds g c0 c) gs ->
  NoDup (cookies_of gs) -> (forall a, a ∈ cookies_of gs -> a ∈ gref_cookies_inuse c) ->
  NoDup (grants_of gs).*1 -> (forall x, x ∈ (grants_of gs).*1 -> forall h b, mapped (gt m) !! h <> Some (x, b)) ->
  exists c' m', release_segments (ls_seg <$> gs) (ls_x <$> gs) c m = Some (c', m') /\ cookies_ok c' m' /\
    (forall x, granted (gt m') !! x = if bool_decide (x ∈ (grants_of gs).*1) then None else granted (gt m) !! x) /\
    unreserved (gt m') = unreserved (gt m) /\ same_maps (gt m) (gt m') /\
    gref_cookies_inuse c' = filter (fun a => a ∉ cookies_of gs) (gref_cookies_inuse c) /\
    (forall b, b ∉ cookies_of gs -> cookie_at c' !! b = cookie_at c !! b) /\
    (forall b ck, b ∈ cookies_of gs -> cookie_at c0 !! b = Some ck ->
       exists ck', cookie_at c' !! b = Some ck' /\ refs (gref_head ck') ≡ₚ refs (gref_head ck) /\ ck_count ck' = ck_count ck).
Proof.
  induction gs as [|g gs IH]; intros c0 c m I HL HH Hnd Hiu Hng Hmap.
  { exists c, m. split; [done|]. split_and!; try done.
    - rewrite list_filter_all; [done|]. apply Forall_forall. by intros a _ ?%not_elem_of_nil.
    - by intros b ck Hb%not_elem_of_nil. }
  apply Forall_cons in HL as [Lg HL]. apply Forall_cons in HH as [(Hf & r & cnt & Hck & Hcnt & Hold) HH].
  cbn in Hnd. apply NoDup_cons in Hnd as [Ha Hnd]. cbn in Hng, Hmap. rewrite fmap_app in Hng, Hmap.
  pose proof Lg as [Hp Hl Hgr]. pose proof Hl as [(H1 & H2 & H3) Hd Hlq Hw].
  assert (Hkeys : (segment_grants (ls_pages g) (ls_x g) (ls_refs g)).*1 = xs_all_gref (ls_x g) ++ ls_refs g).
  { unfold segment_grants. rewrite fmap_app, !fst_zip by lia. done. }
  rewrite Hkeys in Hng, Hmap. apply NoDup_app in Hng as (Hng1 & Hng2 & Hng3).
  destruct (release_segment_spec (ls_seg g) (ls_pages g) (ls_x g) (ls_refs g) r cnt c m I Hp Hl Hck Hf Hcnt) as
    (r' & c1 & m1 & E1 & I1 & (G1 & U1 & M1 & W1) & Hc1 & Hpr & Hf1 & Hi1).
  { split; [by rewrite Permutation_app_comm|]. intros x Hx. rewrite Permutation_app_comm in Hx. split.
    - rewrite <- Hkeys in Hx. apply list_elem_of_fmap in Hx as ([y f] & -> & Hy). cbn. by rewrite (Hgr _ _ Hy).
    - apply Hmap, elem_of_app. by left. }
  assert (Hne : forall g', g' ∈ gs -> xs_cookie (ls_x g') <> xs_cookie (ls_x g)).
  { intros g' Hg' E. apply Ha. unfold cookies_of. apply list_elem_of_fmap. by exists g'. }
  destruct (IH c0 c1 m1 I1) as (c' & m' & E' & I' & G' & U' & M' & Hi' & Hc' & Hold').
  { apply Forall_forall. intros g' Hg'. destruct (proj1 (Forall_forall _ _) HL g' Hg') as [Hp' [P1 P2 P3 P4] Hgr']. split; [done| |].
    - split; try done. intros j q Hq. unfold read_list in *. rewrite W1. by apply P4.
    - intros x f Hx. rewrite G1, bool_decide_eq_false_2; [by apply Hgr'|]. rewrite Permutation_app_comm. intros Hx'. apply (Hng2 x Hx').
      apply list_elem_of_fmap. exists (x, f). split; [done|]. unfold grants_of. apply list_elem_of_In, in_flat_map. exists g'.
      by rewrite <- !list_elem_of_In. }
  { apply Forall_forall. intros g' Hg'. destruct (proj1 (Forall_forall _ _) HH g' Hg') as (Q1 & r2 & cnt2 & Q2 & Q3). split.
    - rewrite Hf1, elem_of_app, list_elem_of_singleton. intros [?|E]; [done|]. by apply (Hne g').
    - exists r2, cnt2. split; [|done]. rewrite Hc1, lookup_insert_ne; [done|]. by apply not_eq_sym, Hne. }
  { done. }
  { intros a Hin. rewrite Hi1. apply elem_of_remove_elt. split; [by intros ->|]. apply Hiu. by right. }
  { done. }
  { intros x Hx h b. destruct M1 as [-> _]. apply Hmap, elem_of_app. by right. }
  cbn [fmap list_fmap release_segments head tail mbind option_bind]. rewrite (proj2 (Z.eqb_neq _ _)) by apply Hp. rewrite E1. cbn [mbind option_bind]. exists c', m'. split; [exact E'|]. split; [done|].
  split_and!.
  - intros x. rewrite G', G1. cbn. rewrite fmap_app, Hkeys. repeat case_bool_decide; try done; exfalso; rewrite ?elem_of_app in *; tauto.
  - congruence.
  - destruct M1, M'. split; congruence.
  - rewrite Hi', Hi1. unfold remove_elt. rewrite list_filter_filter. apply list_filter_iff. intros a. cbn. rewrite not_elem_of_cons. tauto.
  - intros b. cbn. intros [Hb Hb']%not_elem_of_cons. rewrite Hc', Hc1 by done. by apply lookup_insert_ne.
  - intros b ck Hb Hcb. cbn in Hb. apply elem_of_cons in Hb as [->|Hb]; [|by apply (Hold' b)].
    destruct (Hold ck Hcb) as [O1 O2]. exists (Cookie r' cnt). rewrite Hc', Hc1 by done. split; [apply lookup_insert_eq|]. cbn.
    split; [by rewrite Hpr, O1|done].
Qed.

(** ** The life of a region *)

(** The frames behind the pages of a segment of the backend. *)
Definition page_behind m (op : Z * Z) : option Z := '(x, _) ← mapped (gt m) !! op.2; granted (gt m) !! x.
Definition backend_pages m (b : bsegment) : list (option Z) :=
  match bs_unmap b with At ul => page_behind m <$> ul | _ => [] end.
(** A segment of the backend shows a segment of the guest. *)
Record shows m (sg : segment) (ps : list Z) (b : bsegment) : Prop := {
  sh_pages : backend_pages m b = Some <$> ps;
  sh_nr : bs_nr_pages b = nr_pages sg;
  sh_length : bs_length b = u32 (sg_length sg);
  sh_offset : bs_first_page_offset b = u16 (first_page_offset sg) }.
Inductive shows_all m : list segment -> list (list Z) -> list bsegment -> Prop :=
  | shows_nil : shows_all m [] [] []
  | shows_cons sg ps b sgs psl bs : shows m sg ps b -> shows_all m sgs psl bs -> shows_all m (sg :: sgs) (ps :: psl) (b :: bs).
Definition renvs_ok (renv : nat -> register_env) (psl : list (list Z)) : Prop :=
  forall k ps, psl !! k = Some ps -> re_gref_list (renv k) && re_map (renv k) && re_unmap (renv k) && re_page_list (renv k) = true /\
    (exists addrs, re_pages (renv k) = inr addrs /\ length addrs = length ps) /\ forall p, is_Some (re_area (renv k) p).
Definition maps_total (sgs : list segment) : Z := foldr (fun sg n => nr_parts_of (nr_pages sg) + nr_pages sg + n) 0 sgs.
Definition total_length_of (sgs : list segment) : Z := fold_left (fun t sg => u64 (t + u32 (sg_length sg))) sgs 0.

Lemma sum_needed_total gs m : Forall (fun g => listed g m) gs -> sum_needed gs = maps_total (ls_seg <$> gs).
Proof.
  induction 1 as [|g gs [[Hp Hnr Hmax Hlen] [(Hn & Hl & Hf) Hd Hlq Hw] Hg] _ IH]; [done|]. cbn. fold (sum_needed gs) (maps_total (ls_seg <$> gs)).
  rewrite IH. unfold maps_needed, ls_parts. destruct (nr_parts_bounds (nr_pages (ls_seg g))); lia.
Qed.
Lemma shows_mapped g hs areas hs' addrs m : listed g m -> maps_shape g hs areas hs' addrs ->
  (forall h v, (h, v) ∈ segment_maps g hs areas hs' addrs -> mapped (gt m) !! h = Some v) ->
  shows m (ls_seg g) (ls_pages g) (mapped_segment g hs areas hs' addrs).
Proof.
  intros [[Hp Hnr Hmax Hlen] [(Hn & Hl & Hf) Hd Hlq Hw] Hg] [H1 H2 H3 H4] Hm. split; cbn; try done; [|apply u32_small; lia].
  apply list_eq. intros i. rewrite !list_lookup_fmap. destruct (ls_pages g !! i) as [p|] eqn:Hpi; cbn.
  - pose proof (lookup_lt_Some _ _ _ Hpi). destruct (lookup_lt_is_Some_2 hs' i) as [h Hh]; [lia|]. destruct (lookup_lt_is_Some_2 addrs i) as [a Ha]; [lia|].
    destruct (lookup_lt_is_Some_2 (ls_refs g) i) as [x Hx]; [lia|].
    assert (Hz : zip addrs hs' !! i = Some (a, h)) by (by apply lookup_zip_Some). rewrite Hz. cbn. unfold page_behind. cbn.
    rewrite (Hm h (x, a)); [cbn|apply elem_of_app; right; apply (elem_of_zip_lookup _ _ i); [done|by apply lookup_zip_Some]].
    f_equal. apply Hg, elem_of_app. right. by apply (elem_of_zip_lookup _ _ i).
  - apply lookup_ge_None in Hpi. assert (Hz : zip addrs hs' !! i = None) by (apply lookup_ge_None; rewrite length_zip_with; lia). by rewrite Hz.
Qed.
Lemma shows_region gs bs l m : region_maps gs bs l -> Forall (fun g => listed g m) gs ->
  (forall h v, (h, v) ∈ l -> mapped (gt m) !! h = Some v) -> shows_all m (ls_seg <$> gs) (ls_pages <$> gs) bs.
Proof.
  induction 1 as [|g gs hs areas hs' addrs bs l Hsh HM IH]; intros HL Hm; [constructor|]. apply Forall_cons in HL as [Lg HL].
  cbn. constructor.
  - apply shows_mapped; [done|done|]. intros h v Hin. apply Hm, elem_of_app. by left.
  - apply IH; [done|]. intros h v Hin. apply Hm, elem_of_app. by right.
Qed.

Lemma total_of_segs gs n : total_of n gs = fold_left (fun t sg => u64 (t + u32 (sg_length sg))) (ls_seg <$> gs) n.
Proof. revert n. unfold total_of. induction gs as [|g gs IH]; intros n; cbn; [done|apply IH]. Qed.
Lemma segs_nonempty sgs psl : Forall2 seg_pinned sgs psl -> Forall (fun sg => sg_length sg <> 0) sgs.
Proof. induction 1 as [|sg ps sgs psl H _ IH]; constructor; [apply H|done]. Qed.
(** The message of the destruction names the segments in order. *)
Lemma destroy_message_spec id eid ptr sgs dslot : (length sgs <= 2)%nat -> length (dsm_segs dslot) = 2%nat ->
  Forall (fun sg => sg_length sg <> 0) sgs -> exists dmsg, destroy_message id eid ptr sgs dslot = Some dmsg /\ dsm_id dmsg = id /\ dsm_eid dmsg = eid /\ dsm_region dmsg = ptr /\
    dsm_nr_segments dmsg = Z.of_nat (length sgs) /\ forall k, (k < length sgs)%nat -> dsm_segs dmsg !! k = Some (DeregisterMsg id eid (Z.of_nat k)).
Proof.
  intros Hlen Hdslot Hne. unfold destroy_message. rewrite bool_decide_eq_false_2 by lia.
  destruct sgs as [|sg sgs]; [eexists; split; [done|]; split_and!; try done; cbn; lia|].
  apply Forall_cons in Hne as [Hne _]. cbn [head default from_option]. rewrite (proj2 (Z.eqb_neq _ _)) by done.
  set (n := length (sg :: sgs)) in *. eexists. split; [done|]. split_and!; try done.
  - transitivity (u16 (Z.of_nat n)); [done|]. by rewrite u16_small by lia.
  - intros k Hk. transitivity ((((fun i => DeregisterMsg id eid (Z.of_nat i)) <$> seq 0 n) ++ drop n (dsm_segs dslot)) !! k); [done|].
    rewrite lookup_app_l by (rewrite length_fmap, length_seq; lia). by rewrite list_lookup_fmap, lookup_seq_lt by lia.
Qed.
(** The cookies of the segments are new in the list of the used ones. *)
Lemma cookies_apart c m l gs : cookies_ok c m -> gref_cookies_inuse c = l ++ cookies_of gs ->
  NoDup (cookies_of gs) /\ filter (fun a => a ∉ cookies_of gs) (gref_cookies_inuse c) = l.
Proof.
  intros I Hi. pose proof (co_nodup _ _ I) as Hn. rewrite Hi in *. apply NoDup_app in Hn as (_ & _ & Hn). apply NoDup_app in Hn as (_ & Hd & Hn).
  split; [done|]. rewrite filter_app, list_filter_all, list_filter_none; [by rewrite (right_id_L [] (++))|..]; apply Forall_forall.
  - intros a Ha Hc. by apply Hc.
  - intros a Ha Hin. by apply (Hd a).
Qed.
(** What the two ends leave of the table: the grants of the segments are gone. *)
Lemma grants_restored gs m m3 m4 : (forall y, y ∈ (grants_of gs).*1 -> granted (gt m) !! y = None) ->
  granted (gt m3) = list_to_map (grants_of gs) ∪ granted (gt m) ->
  (forall y, granted (gt m4) !! y = if bool_decide (y ∈ (grants_of gs).*1) then None else granted (gt m3) !! y) ->
  granted (gt m4) = granted (gt m).
Proof.
  intros Gf Gg R1. apply map_eq. intros y. rewrite R1, Gg. case_bool_decide as Hy.
  - by rewrite (Gf y Hy).
  - by rewrite lookup_union_r by (by apply not_elem_of_list_to_map).
Qed.

(** C19. A region crosses to the backend and back, when it has at most two segments,
    none of them empty and none of more than 16384 pages, all pinned, the allocations
    and the hypercalls of the two sides succeed, and the grant table has enough
    references and room.  The guest's message makes the backend map, for each segment,
    exactly the pages of the segment in order, with its length and offset, and its
    answer is a success; the destruction unmaps all of them, and the guest then takes
    back every reference: the grant table and the mappings are those of before, every
    cookie has its references again, and the backend has forgotten the region.  The
    code does not handle the other regions: it writes a third segment behind the array
    of the message (omx_xenfront_reg.c:885), reads segments that are not in the region
    when one is empty (:742), and writes behind the 16 entries of the lists of a larger
    one (:832). *)
Theorem guest_region_crosses env renv id eid ptr sgs psl news slot dslot c m x :
  0 <= id < OMX_USER_REGION_MAX -> 0 <= eid < OMX_XEN_MAX_ENDPOINTS -> (length sgs <= 2)%nat ->
  length (cm_segs slot) = 2%nat -> length (dsm_segs dslot) = 2%nat ->
  cookies_ok c m -> Forall2 seg_pinned sgs psl -> envs_ok env sgs 0 news c m -> renvs_ok renv psl ->
  maps_total sgs <= room (gt m) -> x eid !! id = None ->
  exists msg xs c1 m1 ans x2 m2 r dmsg dans x3 m3 c4 m4,
    create_message env (Z.of_nat (length sgs)) id eid sgs slot c m = Some (inr (msg, xs), c1, m1) /\
    process_create_user_region true renv msg x m1 = Some (ans, eid, x2, m2) /\ cm_status ans = 0 /\ cm_id ans = id /\
    x2 eid !! id = Some r /\ shows_all m2 sgs psl (br_segments r) /\ br_total_length r = total_length_of sgs /\
    destroy_message id eid ptr sgs dslot = Some dmsg /\
    process_destroy_user_region dmsg x2 m2 = Some (dans, eid, x3, m3) /\ dsm_status dans = 0 /\ dsm_region dans = ptr /\
    (forall e, x3 e = x e) /\ mapped (gt m3) = mapped (gt m) /\
    release_segments sgs xs c1 m3 = Some (c4, m4) /\ cookies_ok c4 m4 /\
    granted (gt m4) = granted (gt m) /\ mapped (gt m4) = mapped (gt m) /\ gref_cookies_inuse c4 = gref_cookies_inuse c /\
    (forall a ck, cookie_at c !! a = Some ck -> exists ck', cookie_at c4 !! a = Some ck' /\
       refs (gref_head ck') ≡ₚ refs (gref_head ck) /\ ck_count ck' = ck_count ck).
Proof.
  intros Hid Heid Hlen Hslot Hdslot I Hp Henv Hrenv Hroom Hx.
  set (slot1 := slot <| cm_nr_segments := Z.of_nat (length sgs) |> <| cm_id := id |> <| cm_eid := eid |>).
  destruct (grant_segments_spec env id eid sgs psl Hp 0 news slot1 c m I Henv) as (gs & msg & c1 & m1 & E1 & G & (M1 & M2 & M3 & _ & M5)); [change (cm_segs slot1) with (cm_segs slot); rewrite Hslot; lia|].
  pose proof G as [I1 [Gs Gp] GL GH Gi Gg Gf Gn Gm Gc Gw].
  assert (Hl : length gs = length sgs) by (by rewrite <- Gs, length_fmap).
  destruct (create_spec renv id eid gs msg x m1 Hid Heid M1 M2) as (bs & l & x2 & m2 & E2 & [S1 S2] & RM & A2); try done.
  { rewrite M3. by rewrite Hl. }
  { intros k g Hg. assert (Hps : psl !! k = Some (ls_pages g)) by (by rewrite <- Gp, list_lookup_fmap, Hg).
    destruct (Hrenv k _ Hps) as (H1 & H2 & H3). by split. }
  { rewrite (sum_needed_total gs m1 GL), Gs. destruct Gm as [_ ->]. done. }
  assert (GL2 : Forall (fun g => listed g m2) gs).
  { destruct A2 as (_ & _ & _ & _ & HG & HW). eapply Forall_impl; [exact GL|]. intros g Hg. by apply (listed_kept g m1). }
  assert (Hmaps : forall h v, (h, v) ∈ l -> mapped (gt m2) !! h = Some v) by (intros h v Hin; exact (maps_lookup l m1 m2 h v A2 Hin)).
  set (r := BRegion id eid 1 (Z.of_nat (length gs)) (total_of 0 gs) bs) in *.
  destruct (destroy_message_spec id eid ptr sgs dslot Hlen Hdslot (segs_nonempty _ _ Hp)) as (dmsg & Ed & D1 & D2 & D3 & D4 & D5). rewrite <- Hl in D4, D5.
  destruct (destroy_spec id eid gs bs l dmsg (Z.of_nat (length gs)) (total_of 0 gs) x2 m2 Hid Heid D1 D2 D4 D5 GL2 RM (proj1 A2) Hmaps)
    as (x3 & m3 & E3 & T1 & T2 & A3); [rewrite S2; apply lookup_insert_eq|].
  assert (Hm3 : mapped (gt m3) = mapped (gt m)) by (rewrite (maps_restored l m1 m2 m3 A2 A3); by destruct Gm).
  assert (Hg3 : granted (gt m3) = granted (gt m1) /\ unreserved (gt m3) = unreserved (gt m1) /\ words m3 = words m1).
  { destruct A2 as (_ & _ & _ & _ & [H1 H2] & H3), A3 as (_ & _ & [H4 H5] & H6). split_and!; congruence. }
  assert (I3 : cookies_ok c1 m3).
  { destruct Hg3 as (Hg3 & Hu3 & _), Gm as [Gm _]. split; try rewrite Hg3; try rewrite Hu3; try rewrite Hm3; try apply I1. rewrite <- Gm. apply I1. }
  destruct (cookies_apart c1 m1 _ gs I1 Gi) as [Hnd Hfil].
  destruct (release_segments_spec gs c c1 m3 I3) as (c4 & m4 & E4 & I4 & R1 & R2 & R3 & R4 & R5 & R6); try done.
  { destruct A3 as (_ & _ & HG & HW). eapply Forall_impl; [exact GL2|]. intros g Hg. by apply (listed_kept g m2). }
  { intros a Ha. rewrite Gi. apply elem_of_app. by right. }
  { intros y Hy h b. rewrite Hm3. intros Hm. apply (co_mapped _ _ I) in Hm. rewrite (Gf y Hy) in Hm. by destruct Hm. }
  rewrite <- Gs. exists msg, (ls_x <$> gs), c1, m1. eexists _, x2, m2, r, dmsg. eexists _, x3, m3, c4, m4.
  split_and!; [|exact E2|done|done| | | |by rewrite Gs|exact E3|done|done| |done|exact E4|done| | | |].
  - unfold create_message. rewrite Nat2Z.id, Gs. exact E1.
  - rewrite S2. apply lookup_insert_eq.
  - rewrite <- Gp. by apply (shows_region gs bs l m2).
  - unfold total_length_of. apply total_of_segs.
  - intros e. destruct (decide (e = eid)) as [->|He]; [|by rewrite T1, S1]. rewrite T2, S2. by rewrite delete_insert_id.
  - apply (grants_restored gs m m3 m4 Gf); [|done]. destruct Hg3 as [-> _]. exact Gg.
  - destruct R3 as [-> _]. exact Hm3.
  - by rewrite R4.
  - intros a ck Hck. destruct (decide (a ∈ cookies_of gs)) as [Ha|Ha]; [by apply R6|]. exists ck. split; [|done].
    rewrite R5, Gc; [done| |done|done]. intros Hn. destruct Henv as [_ (_ & _ & En) _ _ _]. rewrite (En a Hn) in Hck. done.
Qed.
End region.

(** A region of one segment of two pages, a table of eight free references. *)
Definition w_segment : segment := Segment 4096 16 6000 2 2 false [Some 100; Some 101].
Definition w_mem : xmem table := XMem (Table ∅ ∅ (list_to_set (seqZ 5 8))) (fun _ _ => 0).
Definition w_cookies : cookies (list Z) := Cookies ∅ [] [].
Definition w_grant (k : nat) : grant_env := GrantEnv (fun _ => Some 77) 2 [200].
Definition w_register (k : nat) : register_env := RegisterEnv true true true true (inr [8192; 12288]) (fun _ => Some 4096).
Definition w_slot : create_msg := CreateMsg 0 0 0 0 (replicate 2 (RegisterMsg 0 0 0 0 0 0 0 [] 0 0 0)).
Definition w_dslot : destroy_msg := DestroyMsg 0 0 0 0 0 (replicate 2 (DeregisterMsg 0 0 0)).
Lemma w_cookies_ok : cookies_ok w_cookies w_mem.
Proof.
  split; cbn.
  - by intros a ?%not_elem_of_nil.
  - constructor.
  - by intros a ck ?%not_elem_of_nil.
  - done.
  - done.
  - done.
  - done.
Qed.
Lemma w_envs_ok : envs_ok w_grant [w_segment] 0 [77] w_cookies w_mem.
Proof.
  split.
  - intros [|k] new; [|done]. intros [= <-]. split; [done|]. cbn. lia.
  - split_and!; [apply NoDup_singleton|done|]. done.
  - vm_compute. discriminate.
  - intros [|k] sg; [|done]. intros [= <-]. split; [apply NoDup_singleton|done].
  - cbn. lia.
Qed.
Lemma w_renvs_ok : renvs_ok w_register [[100; 101]].
Proof.
  intros [|k] ps; [|done]. intros [= <-]. split; [done|]. split; [by exists [8192; 12288]|]. intros p. by exists 4096.
Qed.
Lemma w_pinned : Forall2 seg_pinned [w_segment] [[100; 101]].
Proof. constructor; [split; cbn; [done|done|lia|lia]|constructor]. Qed.

Lemma guest_region_crosses_witness : exists msg xs c1 m1 ans x2 m2 r,
  create_message w_grant 1 3 1 [w_segment] w_slot w_cookies w_mem = Some (inr (msg, xs), c1, m1) /\
  process_create_user_region true w_register msg (fun _ => ∅) m1 = Some (ans, 1, x2, m2) /\ cm_status ans = 0 /\
  x2 1 !! 3 = Some r /\ shows_all m2 [w_segment] [[100; 101]] (br_segments r) /\ br_total_length r = 6000.
Proof.
  destruct (guest_region_crosses w_grant w_register 3 1 9 [w_segment] [[100; 101]] [77] w_slot w_dslot w_cookies w_mem (fun _ => ∅))
    as (msg & xs & c1 & m1 & ans & x2 & m2 & r & _ & _ & _ & _ & _ & _ & H1 & H2 & H3 & _ & H4 & H5 & H6 & _).
  - unfold OMX_USER_REGION_MAX. lia.
  - unfold OMX_XEN_MAX_ENDPOINTS. lia.
  - cbn. lia.
  - done.
  - done.
  - exact w_cookies_ok.
  - exact w_pinned.
  - exact w_envs_ok.
  - exact w_renvs_ok.
  - vm_compute. discriminate.
  - done.
  - exists msg, xs, c1, m1, ans, x2, m2, r. by split_and!.
Defined.
End XenRegion.
