(* ===== verification/XenRing.v ===== *)
(** The rings of pages that a guest and the backend share
    ([DEFINE_RING_TYPES] in [common/omx_xen.h]). *)
From S2P Require Import Prelude.

Module XenRing.

(** ** Rings

    The macros of [xen/interface/io/ring.h]: the number of slots, the slot of an
    index, whether the other side must be told of a push from [old] to [new] when
    it asked for [event], and whether there is something to consume (for requests
    the last argument is the private index of the answers). *)
Class RingMacros := {
  RING_SIZE : Z;
  ring_slot : Z -> Z;
  push_notify : Z -> Z -> Z -> bool;
  unconsumed_requests : Z -> Z -> Z -> bool;
  unconsumed_responses : Z -> Z -> bool }.
(** What is documented: the slots are used in turn, a push that crosses the index
    asked for notifies, and what is there is seen as long as the ring is not
    overrun. *)
Class RingLaws (r : RingMacros) : Prop := {
  size_pos : 0 < RING_SIZE;
  size_index : (RING_SIZE | 2 ^ 32);
  size_page : RING_SIZE <= 4096;
  slot_eq : forall i j, ring_slot i = ring_slot j <-> i mod RING_SIZE = j mod RING_SIZE;
  notify_crossed : forall old new event, 0 < u32 (event - old) <= u32 (new - old) -> push_notify old new event = true;
  requests_seen : forall prod cons pvt, u32 (prod - cons) <= RING_SIZE - u32 (cons - pvt) -> 0 <= prod < 2 ^ 32 -> 0 <= cons < 2 ^ 32 ->
    unconsumed_requests prod cons pvt = negb (prod =? cons);
  requests_none : forall prod pvt, unconsumed_requests prod prod pvt = false;
  responses_seen : forall prod cons, 0 <= prod < 2 ^ 32 -> 0 <= cons < 2 ^ 32 -> unconsumed_responses prod cons = negb (prod =? cons) }.

(** The macros as the header of the kernel has them. *)
Definition ring_macros (size : Z) : RingMacros := {|
  RING_SIZE := size;
  ring_slot := fun i => i mod size;
  push_notify := fun old new event => u32 (new - event) <? u32 (new - old);
  unconsumed_requests := fun prod cons pvt =>
    let req := u32 (prod - cons) in let rsp := u32 (size - u32 (cons - pvt)) in negb ((if req <? rsp then req else rsp) =? 0);
  unconsumed_responses := fun prod cons => negb (u32 (prod - cons) =? 0) |}.
Lemma u32_sub_0 a b : 0 <= a < 2 ^ 32 -> 0 <= b < 2 ^ 32 -> (u32 (a - b) =? 0) = (a =? b).
Proof.
  intros Ha Hb. unfold u32. destruct (Z.eqb_spec a b) as [->|Hne]; [by rewrite Z.sub_diag|].
  apply Z.eqb_neq. destruct (Z.le_gt_cases b a).
  - rewrite Z.mod_small by lia. lia.
  - rewrite <- (Z.mod_add _ 1), Z.mod_small by lia. lia.
Qed.
#[export] Instance ring_laws size : 0 < size <= 4096 -> (size | 2 ^ 32) -> RingLaws (ring_macros size).
Proof.
  intros Hs Hd. split; cbn [RING_SIZE ring_slot push_notify unconsumed_requests unconsumed_responses ring_macros]; try done; try lia.
  - intros old new event H. apply Z.ltb_lt. pose proof (u32_range (new - old)).
    replace (new - event) with ((new - old) - (event - old)) by lia. rewrite <- u32_sub. rewrite u32_small by lia. lia.
  - intros prod cons pvt H Hp Hc. pose proof (u32_range (cons - pvt)). pose proof (u32_range (prod - cons)).
    rewrite (u32_small (size - _)) by lia. rewrite <- (u32_sub_0 prod cons) by done. f_equal.
    destruct (Z.ltb_spec (u32 (prod - cons)) (size - u32 (cons - pvt))) as [|Hge]; [done|]. f_equal. lia.
  - intros prod pvt. rewrite Z.sub_diag. change (u32 0) with 0. pose proof (u32_range (size - u32 (prod - pvt))).
    destruct (Z.ltb_spec 0 (u32 (size - u32 (prod - pvt)))); [done|]. apply negb_false_iff, Z.eqb_eq. lia.
  - intros prod cons Hp Hc. by rewrite u32_sub_0.
Qed.

(** The slots and the four shared indexes, the private indexes of the guest, then
    those of the backend. *)
Record ring {A : Type} := Ring {
  entries : Z -> A; req_prod : Z; req_event : Z; rsp_prod : Z; rsp_event : Z;
  req_prod_pvt : Z; rsp_cons : Z; rsp_prod_pvt : Z; req_cons : Z }.
Arguments ring : clear implicits.
#[export] Instance e_ring {A} : Settable (ring A) := fun r => Ring A (entries r) (req_prod r) (req_event r) (rsp_prod r)
  (rsp_event r) (req_prod_pvt r) (rsp_cons r) (rsp_prod_pvt r) (req_cons r).
#[export] Instance s_entries {A} : Setter (@entries A). Proof. mk_setter. Defined.
#[export] Instance s_req_prod {A} : Setter (@req_prod A). Proof. mk_setter. Defined.
#[export] Instance s_req_event {A} : Setter (@req_event A). Proof. mk_setter. Defined.
#[export] Instance s_rsp_prod {A} : Setter (@rsp_prod A). Proof. mk_setter. Defined.
#[export] Instance s_rsp_event {A} : Setter (@rsp_event A). Proof. mk_setter. Defined.
#[export] Instance s_req_prod_pvt {A} : Setter (@req_prod_pvt A). Proof. mk_setter. Defined.
#[export] Instance s_rsp_cons {A} : Setter (@rsp_cons A). Proof. mk_setter. Defined.
#[export] Instance s_rsp_prod_pvt {A} : Setter (@rsp_prod_pvt A). Proof. mk_setter. Defined.
#[export] Instance s_req_cons {A} : Setter (@req_cons A). Proof. mk_setter. Defined.
(** [SHARED_RING_INIT], [FRONT_RING_INIT] and [BACK_RING_INIT] on a page. *)
Definition ring_init {A} (page : Z -> A) : ring A := Ring A page 0 1 0 1 0 0 0 0.

Section macros.
Context {A : Type} {macros : RingMacros}.
Implicit Types (r : ring A).
Definition get_slot (i : Z) r : A := entries r (ring_slot i).
Definition set_slot (i : Z) (x : A) r : ring A := r <| entries ::= <[ring_slot i := x]> |>.
(** [RING_PUSH_REQUESTS_AND_CHECK_NOTIFY] and its like for answers: what was
    written is published. *)
Definition push_requests r : bool * ring A :=
  (push_notify (req_prod r) (req_prod_pvt r) (req_event r), r <| req_prod := req_prod_pvt r |>).
Definition push_responses r : bool * ring A :=
  (push_notify (rsp_prod r) (rsp_prod_pvt r) (rsp_event r), r <| rsp_prod := rsp_prod_pvt r |>).
(** [RING_FINAL_CHECK_FOR_REQUESTS] and [RING_FINAL_CHECK_FOR_RESPONSES]. *)
Definition has_requests r : bool := unconsumed_requests (req_prod r) (req_cons r) (rsp_prod_pvt r).
Definition has_responses r : bool := unconsumed_responses (rsp_prod r) (rsp_cons r).
Definition final_check_requests r : bool * ring A :=
  if has_requests r then (true, r)
  else let r := r <| req_event := u32 (req_cons r + 1) |> in (has_requests r, r).
Definition final_check_responses r : bool * ring A :=
  if has_responses r then (true, r)
  else let r := r <| rsp_event := u32 (rsp_cons r + 1) |> in (has_responses r, r).
End macros.
End XenRing.
