(* ===== verification/XenRingFifo.v ===== *)
(** A ring between a guest and the backend is three queues: the answers to
    consume, the requests to execute, and the slots taken and not published. *)
From S2P Require Import Prelude XenRing.
Import XenRing.

Module XenRingFifo.

Section fifo.
Context {A : Type} {macros : RingMacros} {laws : RingLaws macros}.
Implicit Types (r : ring A) (l : list A).

Lemma ring_slot_u32 i : ring_slot (u32 i) = ring_slot i.
Proof.
  apply slot_eq. apply Z.mod_mod_divide. exact size_index.
Qed.
Lemma ring_slot_inj b i j : 0 <= i < RING_SIZE -> 0 <= j < RING_SIZE -> ring_slot (b + i) = ring_slot (b + j) -> i = j.
Proof.
  intros Hi Hj H%slot_eq. pose proof (Z.div_mod (b + i) RING_SIZE). pose proof (Z.div_mod (b + j) RING_SIZE).
  assert (RING_SIZE * ((b + i) / RING_SIZE - (b + j) / RING_SIZE) = i - j) by lia.
  assert ((b + i) / RING_SIZE - (b + j) / RING_SIZE = 0) by nia. lia.
Qed.

(** The elements of [l] from the index [b]. *)
Definition stored r (b : Z) l : Prop := forall k x, l !! k = Some x -> get_slot (b + Z.of_nat k) r = x.
Lemma get_slot_u32 i r : get_slot (u32 i) r = get_slot i r.
Proof. unfold get_slot. by rewrite ring_slot_u32. Qed.

(** One slot changed. *)
Record updated (i : Z) (x : A) r r' : Prop := {
  up_slot : get_slot i r' = x;
  up_others j : ring_slot j <> ring_slot i -> get_slot j r' = get_slot j r;
  up_indexes : Ring A (entries r) (req_prod r') (req_event r') (rsp_prod r') (rsp_event r') (req_prod_pvt r') (rsp_cons r')
    (rsp_prod_pvt r') (req_cons r') = r }.
Lemma updated_set i x r : updated i x r (set_slot i x r).
Proof.
  destruct r. split; [apply fn_lookup_insert| |done]. intros j Hj. unfold get_slot, set_slot. cbn.
  by apply fn_lookup_insert_ne.
Qed.
Lemma updated_same i r : updated i (get_slot i r) r r.
Proof. by destruct r. Qed.
Lemma updated_trans i x y r r' r'' : updated i x r r' -> updated i y r' r'' -> updated i y r r''.
Proof.
  intros [H1 H2 H3] [H1' H2' H3']. split; [done|intros j Hj; by rewrite H2', H2|]. by rewrite <- H3, <- H3'.
Qed.

(** The answers [a], the requests [q], and what was taken [h], from the index
    [b]. *)
Record carried r (b : Z) (a q h : list A) : Prop := {
  ca_cons : rsp_cons r = u32 b;
  ca_rsp : rsp_prod r = u32 (b + Z.of_nat (length a));
  ca_rsp_pvt : rsp_prod_pvt r = u32 (b + Z.of_nat (length a));
  ca_req_cons : req_cons r = u32 (b + Z.of_nat (length a));
  ca_req : req_prod r = u32 (b + Z.of_nat (length (a ++ q)));
  ca_req_pvt : req_prod_pvt r = u32 (b + Z.of_nat (length (a ++ q ++ h)));
  ca_room : Z.of_nat (length (a ++ q ++ h)) <= RING_SIZE;
  ca_slots : stored r b (a ++ q ++ h) }.

Lemma stored_last r b l x r' : stored r b l -> Z.of_nat (length l) < RING_SIZE -> updated (u32 (b + Z.of_nat (length l))) x r r' ->
  stored r' b (l ++ [x]).
Proof.
  intros Hs Hl [Hx Ho _] k y Hk. destruct (decide (k = length l)) as [->|Hne].
  - rewrite list_lookup_middle in Hk by done. injection Hk as <-. by rewrite <- get_slot_u32.
  - pose proof (lookup_lt_Some _ _ _ Hk) as Hlt. rewrite length_app in Hlt. cbn in Hlt.
    rewrite lookup_app_l in Hk by lia. rewrite Ho; [by apply Hs|]. rewrite ring_slot_u32. intros E. apply ring_slot_inj in E; lia.
Qed.
Lemma stored_middle r b l1 x y l2 r' : stored r b (l1 ++ x :: l2) -> Z.of_nat (length (l1 ++ x :: l2)) <= RING_SIZE ->
  updated (u32 (b + Z.of_nat (length l1))) y r r' -> stored r' b (l1 ++ y :: l2).
Proof.
  intros Hs Hl [Hx Ho _] k z Hk. rewrite length_app in Hl. cbn in Hl. destruct (decide (k = length l1)) as [->|Hne].
  - rewrite list_lookup_middle in Hk by done. injection Hk as <-. by rewrite <- get_slot_u32.
  - pose proof (lookup_lt_Some _ _ _ Hk) as Hlt. rewrite length_app in Hlt. cbn in Hlt.
    rewrite Ho. 2:{ rewrite ring_slot_u32. intros E. apply ring_slot_inj in E; lia. }
    apply Hs. destruct (decide (k < length l1)%nat).
    + rewrite lookup_app_l in Hk |- * by lia. done.
    + rewrite lookup_app_r in Hk |- * by lia. destruct (k - length l1)%nat eqn:E; [lia|done].
Qed.
Lemma stored_entries r r' b l : entries r' = entries r -> stored r b l -> stored r' b l.
Proof. intros E H k x Hk. unfold get_slot. rewrite E. by apply H. Qed.
Lemma stored_drop r b l1 l2 : stored r b (l1 ++ l2) -> stored r (b + Z.of_nat (length l1)) l2.
Proof.
  intros H k x Hk. rewrite <- Z.add_assoc, <- Nat2Z.inj_add. apply H. rewrite lookup_app_r by lia. by rewrite Nat.add_comm, Nat.add_sub.
Qed.
Lemma stored_head r b x l : stored r b (x :: l) -> get_slot (u32 b) r = x.
Proof. intros H. rewrite get_slot_u32, <- (Z.add_0_r b). by apply (H O). Qed.

(** *** What each side does *)

(** The guest takes a slot and writes it. *)
Definition take_slot r : ring A := r <| req_prod_pvt ::= fun p => u32 (p + 1) |>.
Lemma u32_add_1 x : u32 (u32 x + 1) = u32 (x + 1).
Proof. unfold u32. by rewrite Zplus_mod_idemp_l. Qed.
Lemma u32_sub_1 x : u32 (u32 (x + 1) - 1) = u32 x.
Proof. unfold u32. rewrite Zminus_mod_idemp_l. f_equal. lia. Qed.
Lemma take_carried r b a q h x r' : carried r b a q h -> Z.of_nat (length (a ++ q ++ h)) < RING_SIZE ->
  updated (req_prod_pvt r) x (take_slot r) r' -> carried r' b a q (h ++ [x]).
Proof.
  intros [H1 H2 H3 H4 H5 H6 H7 H8] Hroom Hu. pose proof (up_indexes _ _ _ _ Hu) as Hi. rewrite H6 in Hu.
  assert (Hs : stored r' b ((a ++ q ++ h) ++ [x])).
  { eapply stored_last; [|exact Hroom|exact Hu]. by apply (stored_entries r). }
  unfold take_slot in Hi. destruct r, r'. cbn in *. injection Hi as I1 I2 I3 I4 I5 I6 I7 I8. subst.
  assert (E : a ++ q ++ h ++ [x] = (a ++ q ++ h) ++ [x]) by by rewrite <- !(assoc_L (++)).
  split; cbn; try done; rewrite ?E; [|rewrite (length_app _ [x]); cbn; lia|done].
  rewrite u32_add_1, (length_app _ [x]). cbn. f_equal. lia.
Qed.
(** The slot taken last is written again. *)
Lemma write_carried r b a q h x y r' : carried r b a q (h ++ [x]) -> updated (u32 (b + Z.of_nat (length (a ++ q ++ h)))) y r r' ->
  get_slot (u32 (b + Z.of_nat (length (a ++ q ++ h)))) r = x /\ carried r' b a q (h ++ [y]).
Proof.
  intros [H1 H2 H3 H4 H5 H6 H7 H8] Hu. pose proof (up_indexes _ _ _ _ Hu) as Hi.
  assert (E : forall z, a ++ q ++ h ++ [z] = (a ++ q ++ h) ++ z :: []) by (intros z; by rewrite <- !(assoc_L (++))).
  rewrite E in *. split.
  { rewrite get_slot_u32. apply H8. by rewrite list_lookup_middle. }
  pose proof (stored_middle _ _ _ _ _ _ _ H8 H7 Hu) as Hs. rewrite (length_app _ [x]) in H6, H7. cbn in H6, H7.
  destruct r, r'. cbn in *. injection Hi as <- <- <- <- <- <- <- <-.
  split; cbn; try done; rewrite ?E; [| |done]; rewrite (length_app _ [y]); cbn; lia || done.
Qed.
Lemma push_carried r b a q h : carried r b a q h -> carried (snd (push_requests r)) b a (q ++ h) [].
Proof.
  intros [H1 H2 H3 H4 H5 H6 H7 H8]. destruct r. cbn in *.
  split; cbn; try done; rewrite ?app_nil_r; try done.
Qed.
(** The backend sees the requests, and the guest the answers. *)
Lemma u32_diff x n : 0 <= n < 2 ^ 32 -> u32 (u32 (x + n) - u32 x) = n.
Proof. intros H. rewrite u32_sub. replace (x + n - x) with n by lia. by apply u32_small. Qed.
Lemma length_small l : Z.of_nat (length l) <= RING_SIZE -> 0 <= Z.of_nat (length l) < 2 ^ 32.
Proof. pose proof size_page. lia. Qed.
Lemma diff_eqb x n : 0 <= n < 2 ^ 32 -> (u32 (x + n) =? u32 x) = (n =? 0).
Proof.
  intros H. destruct (Z.eqb_spec n 0) as [->|Hn]; [rewrite Z.add_0_r; apply Z.eqb_refl|].
  apply Z.eqb_neq. intros E. pose proof (u32_diff x n H) as D. rewrite E, Z.sub_diag in D. by cbn in D.
Qed.
Lemma carried_has_requests r b a q h : carried r b a q h -> has_requests r = negb (bool_decide (q = [])).
Proof.
  intros [H1 H2 H3 H4 H5 H6 H7 H8]. unfold has_requests. rewrite !length_app in *. rewrite H3, H4, H5, Nat2Z.inj_add, Z.add_assoc.
  pose proof size_page.
  rewrite requests_seen; [|rewrite u32_diff by lia; rewrite Z.sub_diag; change (u32 0) with 0; lia|apply u32_range..].
  rewrite diff_eqb by lia. by destruct q.
Qed.
Lemma carried_has_responses r b a q h : carried r b a q h -> has_responses r = negb (bool_decide (a = [])).
Proof.
  intros [H1 H2 H3 H4 H5 H6 H7 H8]. unfold has_responses. rewrite !length_app in *. rewrite H1, H2.
  pose proof size_page. rewrite responses_seen by apply u32_range. rewrite diff_eqb by lia. by destruct a.
Qed.
Lemma carried_nr_requests r b a q h : carried r b a q h -> Z.to_nat (u32 (req_prod r - req_cons r)) = length q.
Proof.
  intros [H1 H2 H3 H4 H5 H6 H7 H8]. rewrite !length_app in *. rewrite H4, H5, Nat2Z.inj_add, Z.add_assoc. pose proof size_page.
  rewrite u32_diff by lia. lia.
Qed.
Lemma carried_nr_responses r b a q h : carried r b a q h -> Z.to_nat (u32 (rsp_prod r - rsp_cons r)) = length a.
Proof.
  intros [H1 H2 H3 H4 H5 H6 H7 H8]. rewrite !length_app in *. rewrite H1, H2. pose proof size_page. rewrite u32_diff by lia. lia.
Qed.
(** The guest consumed the answers. *)
Lemma consume_carried r b a q h : carried r b a q h -> carried (r <| rsp_cons := rsp_prod r |>) (b + Z.of_nat (length a)) [] q h.
Proof.
  intros [H1 H2 H3 H4 H5 H6 H7 H8]. pose proof (stored_drop _ _ _ _ H8) as Hs. rewrite !length_app in *. destruct r as [e p ev rp re pp rc rpp qc]. cbn in *.
  change ((Ring A e p ev rp re pp rc rpp qc) <| rsp_cons := rp |>) with (Ring A e p ev rp re pp rp rpp qc).
  split; cbn; rewrite ?length_app; try done; try lia; subst; try (f_equal; lia).
Qed.
(** Asking for a notification changes nothing of the queues. *)
Lemma responses_event r b a q h e : carried r b a q h -> carried (r <| rsp_event := e |>) b a q h.
Proof. intros [H1 H2 H3 H4 H5 H6 H7 H8]. destruct r. by split. Qed.
Lemma requests_event r b a q h e : carried r b a q h -> carried (r <| req_event := e |>) b a q h.
Proof. intros [H1 H2 H3 H4 H5 H6 H7 H8]. destruct r. by split. Qed.
(** The backend answered the requests, in their slots. *)
Lemma answer_carried r r' b a q a' h : carried r b a q h -> length a' = length q -> stored r' b (a ++ a' ++ h) ->
  rsp_cons r' = rsp_cons r -> req_prod r' = req_prod r -> req_prod_pvt r' = req_prod_pvt r ->
  rsp_prod_pvt r' = u32 (b + Z.of_nat (length (a ++ q))) -> req_cons r' = req_prod r -> rsp_prod r' = rsp_prod_pvt r' ->
  carried r' b (a ++ a') [] h.
Proof.
  intros [H1 H2 H3 H4 H5 H6 H7 H8] Hl Hs E1 E2 E3 E4 E5 E6.
  assert (Hla : length (a ++ a') = length (a ++ q)) by (rewrite !length_app; lia).
  assert (Hlh : length ((a ++ a') ++ [] ++ h) = length (a ++ q ++ h)) by (cbn; rewrite !length_app; lia).
  split; rewrite ?app_nil_r, ?Hla, ?Hlh; try congruence; try lia. cbn. by rewrite <- (assoc_L (++)).
Qed.
Lemma init_carried (page : Z -> A) : carried (ring_init page) 0 [] [] [].
Proof. pose proof size_pos. split; cbn; try done; lia. Qed.
End fifo.
End XenRingFifo.
