(* ===== verification/XenFront.v ===== *)
(** The guest's side of the ring of requests: the system calls that are forwarded
    to the backend and the handling of its answers
    ([driver/frontend/omx_xenfront.c], [driver/frontend/omx_xenfront_send.c]). *)
From S2P Require Import Prelude Io World Event Peer Reg Pull Wire Host SendMsg PeerTable Crossing XenGrant XenReg XenRing.
Import Host Crossing XenRing.

Module XenFront.

Definition EINVAL : Z := -22.
Definition EFAULT : Z := -14.

(** ** Messages *)

(* [common/omx_io.h:560-675] OMX_CMD_SEND_TINY *)
Inductive cmd_func :=
  | OMX_CMD_PEER_FROM_INDEX | OMX_CMD_PEER_FROM_ADDR | OMX_CMD_PEER_FROM_HOSTNAME | OMX_CMD_GET_ENDPOINT_INFO
  | OMX_CMD_XEN_GET_BOARD_COUNT | OMX_CMD_XEN_PEER_TABLE_GET_STATE | OMX_CMD_XEN_PEER_TABLE_SET_STATE
  | OMX_CMD_XEN_SET_HOSTNAME | OMX_CMD_GET_BOARD_INFO | OMX_CMD_XEN_OPEN_ENDPOINT | OMX_CMD_XEN_CLOSE_ENDPOINT
  | OMX_CMD_XEN_CREATE_USER_REGION | OMX_CMD_XEN_DESTROY_USER_REGION
  | OMX_CMD_PULL | OMX_CMD_SEND_RNDV | OMX_CMD_SEND_MEDIUMSQ_FRAG | OMX_CMD_SEND_MEDIUMVA | OMX_CMD_SEND_SMALL
  | OMX_CMD_SEND_TINY | OMX_CMD_SEND_NOTIFY | OMX_CMD_SEND_LIBACK | OMX_CMD_SEND_CONNECT_REQUEST | OMX_CMD_SEND_CONNECT_REPLY
  | OMX_CMD_RECV_CONNECT_REPLY | OMX_CMD_RECV_CONNECT_REQUEST | OMX_CMD_RECV_RNDV | OMX_CMD_RECV_NOTIFY
  | OMX_CMD_RECV_LIBACK | OMX_CMD_RECV_MEDIUM_FRAG | OMX_CMD_RECV_SMALL | OMX_CMD_RECV_TINY
  | OMX_CMD_XEN_DUMMY | OMX_CMD_XEN_RECV_PULL_DONE | OMX_CMD_RECV_PULL_REQUEST | OMX_CMD_XEN_SEND_MEDIUMSQ_DONE
  | OMX_CMD_OTHER (n : Z).
#[export] Instance cmd_func_eq_dec : EqDecision cmd_func. Proof. solve_decision. Defined.

(* [common/omx_io.h:261-269] omx_cmd_misc_peer_info *)
Record peer_info := PeerInfo { pi_board_addr : Z; pi_hostname : list Z; pi_index : Z }.
(* [common/omx_xen.h:251-262] omx_ring_msg_endpoint *)
Record endpoint_msg := EndpointMsg { em_endpoint : Z; em_session_id : Z; em_endpoint_gref : Z }.

Section xen.
Context {macros : RingMacros}.
(** What the two commands for information copy. *)
Context {board_info endpoint_info : Type}.

(** The union of a slot: the member that was written last, with the bytes behind
    the command for the small messages; [Blank] when it is none of them. *)
Inductive payload :=
  | Blank
  | Command (c : command) (data : list Z)
  | Pulling (c : Pull.cmd_pull)
  | Peer_info (p : peer_info)
  | Board_count (n : Z)
  | Table_state (s : PeerTable.omx_cmd_peer_table_state)
  | Hostname (name : list Z)
  | Board_info (b : board_info)
  | Endpoint_info (e : endpoint_info)
  | Endpoint_message (m : endpoint_msg)
  | Create_region (m : XenReg.create_msg)
  | Destroy_region (m : XenReg.destroy_msg)
  | Received (e : devt).
(** Requests and answers have the same layout and share the slots. *)
(* [common/omx_xen.h:263-348] omx_xenif_request *)
Record message := Message { func : cmd_func; board_index : Z; eid : Z; request_id : Z; ret : Z; data : payload }.
#[export] Instance e_message : Settable message := fun m => Message (func m) (board_index m) (eid m) (request_id m) (ret m) (data m).
#[export] Instance s_func : Setter func. Proof. mk_setter. Defined.
#[export] Instance s_board_index : Setter board_index. Proof. mk_setter. Defined.
#[export] Instance s_eid : Setter eid. Proof. mk_setter. Defined.
#[export] Instance s_request_id : Setter request_id. Proof. mk_setter. Defined.
#[export] Instance s_ret : Setter ret. Proof. mk_setter. Defined.
#[export] Instance s_data : Setter data. Proof. mk_setter. Defined.

(** A member that is not the one that was written last: what its bytes are. *)
Class Views := {
  as_peer_info : payload -> peer_info; as_board_count : payload -> Z; as_table_state : payload -> PeerTable.omx_cmd_peer_table_state;
  as_hostname : payload -> list Z; as_board_info : payload -> board_info; as_endpoint_info : payload -> endpoint_info;
  as_endpoint_message : payload -> endpoint_msg; as_create : payload -> XenReg.create_msg; as_destroy : payload -> XenReg.destroy_msg;
  as_received : payload -> devt }.
Context {views : Views}.
Definition mpi (p : payload) : peer_info := match p with Peer_info x => x | _ => as_peer_info p end.
Definition gbc (p : payload) : Z := match p with Board_count x => x | _ => as_board_count p end.
Definition pts (p : payload) : PeerTable.omx_cmd_peer_table_state := match p with Table_state x => x | _ => as_table_state p end.
Definition sh (p : payload) : list Z := match p with Hostname x => x | _ => as_hostname p end.
Definition gbi (p : payload) : board_info := match p with Board_info x => x | _ => as_board_info p end.
Definition gei (p : payload) : endpoint_info := match p with Endpoint_info x => x | _ => as_endpoint_info p end.
Definition endpoint (p : payload) : endpoint_msg := match p with Endpoint_message x => x | _ => as_endpoint_message p end.
Definition cur (p : payload) : XenReg.create_msg := match p with Create_region x => x | _ => as_create p end.
Definition dur (p : payload) : XenReg.destroy_msg := match p with Destroy_region x => x | _ => as_destroy p end.

Definition received (p : payload) : devt := match p with Received x => x | _ => as_received p end.

(** ** The guest *)

(* [driver/frontend/omx_xenfront.h:37-41] frontend_status *)
Definition OMX_XEN_FRONTEND_STATUS_DONE : Z := 0.
Definition OMX_XEN_FRONTEND_STATUS_DOING : Z := 1.
Definition OMX_XEN_FRONTEND_STATUS_FAILED : Z := 2.
(** They are written in the same array. *)
(* [driver/frontend/omx_reg.h:42-50] omx_user_region_status *)
Definition OMX_USER_REGION_STATUS_FAILED : Z := 2.
Definition OMX_USER_REGION_STATUS_REGISTERING : Z := 3.
Definition OMX_USER_REGION_STATUS_REGISTERED : Z := 4.
Definition OMX_USER_REGION_STATUS_DEREGISTERING : Z := 5.
Definition OMX_USER_REGION_STATUS_DEREGISTERED : Z := 6.
Definition OMX_ENDPOINT_STATUS_OK : Z := 2.
Definition OMX_ENDPOINT_STATUS_DOING : Z := 5.
Definition OMX_ENDPOINT_STATUS_DONE : Z := 6.
Definition OMX_MAX_INFLIGHT_REQUESTS : Z := 65536.

(** An endpoint of the guest: its numbers, status, regions (by identifier, as
    pointers), what it was told of itself, its event queues. *)
Record guest_endpoint := GuestEndpoint {
  g_board_index : Z; g_endpoint_index : Z; g_status : Z; g_regions : gmap Z Z; g_info : option endpoint_info;
  g_info_status : Z; g_queue : @Event.endpoint devt }.
#[export] Instance e_guest_endpoint : Settable guest_endpoint := fun g => GuestEndpoint (g_board_index g) (g_endpoint_index g)
  (g_status g) (g_regions g) (g_info g) (g_info_status g) (g_queue g).
#[export] Instance s_g_status : Setter g_status. Proof. mk_setter. Defined.
#[export] Instance s_g_info : Setter g_info. Proof. mk_setter. Defined.
#[export] Instance s_g_info_status : Setter g_info_status. Proof. mk_setter. Defined.
#[export] Instance s_g_queue : Setter g_queue. Proof. mk_setter. Defined.

(* [driver/frontend/omx_xenfront.h:42-78] omx_xenfront_info *)
Record omx_xenfront_info := XenFrontInfo {
  connected : bool; endpoints : gmap Z guest_endpoint; requests : Z -> Z; fe_board_count : Z;
  fe_state : option PeerTable.omx_cmd_peer_table_state; fe_board_info : option board_info; fe_peer_info : option peer_info }.
#[export] Instance e_front : Settable omx_xenfront_info := fun f => XenFrontInfo (connected f) (endpoints f) (requests f)
  (fe_board_count f) (fe_state f) (fe_board_info f) (fe_peer_info f).
#[export] Instance s_endpoints : Setter endpoints. Proof. mk_setter. Defined.
#[export] Instance s_requests : Setter requests. Proof. mk_setter. Defined.
#[export] Instance s_fe_board_count : Setter fe_board_count. Proof. mk_setter. Defined.
#[export] Instance s_fe_state : Setter fe_state. Proof. mk_setter. Defined.
#[export] Instance s_fe_board_info : Setter fe_board_info. Proof. mk_setter. Defined.
#[export] Instance s_fe_peer_info : Setter fe_peer_info. Proof. mk_setter. Defined.

(** The ring of requests, the ring of events, the guest, and the number of events
    sent to each side. *)
Record link := Link {
  requests_ring : ring message; recv_ring : ring message; fe : omx_xenfront_info; to_dom0 : Z; to_domU : Z }.
#[export] Instance e_link : Settable link := fun l => Link (requests_ring l) (recv_ring l) (fe l) (to_dom0 l) (to_domU l).
#[export] Instance s_requests_ring : Setter requests_ring. Proof. mk_setter. Defined.
#[export] Instance s_recv_ring : Setter recv_ring. Proof. mk_setter. Defined.
#[export] Instance s_fe : Setter fe. Proof. mk_setter. Defined.
#[export] Instance s_to_dom0 : Setter to_dom0. Proof. mk_setter. Defined.
#[export] Instance s_to_domU : Setter to_domU. Proof. mk_setter. Defined.

(** *** Requests *)

(** The next slot, whether or not it is free, and the status of its request. *)
(* [driver/frontend/omx_xenfront.c:82-96] omx_ring_get_request *)
Definition omx_ring_get_request (l : link) : Z * link :=
  let i := req_prod_pvt (requests_ring l) in
  let l := l <| requests_ring ::= set req_prod_pvt (fun p => u32 (p + 1)) |> in
  (i, l <| fe ::= set requests <[u32 (req_prod_pvt (requests_ring l) - 1) mod OMX_MAX_INFLIGHT_REQUESTS := OMX_XEN_FRONTEND_STATUS_DOING]> |>).
Definition on_slot (i : Z) (f : message -> message) (l : link) : link :=
  l <| requests_ring ::= fun r => set_slot i (f (get_slot i r)) r |>.

(** The number of polls, or an error after a second. *)
Definition OMX_XEN_POLL_HARD_LIMIT : Z := 1000000000.
(* [driver/frontend/omx_xenfront.c:98-131] wait_for_backend_response *)
Fixpoint wait_for_backend_response (polls : list Z) (status i : Z) : option Z :=
  match polls with
  | [] => None
  | poll :: polls =>
      if negb (poll =? status) then Some i
      else if OMX_XEN_POLL_HARD_LIMIT <? i + 1 then Some EINVAL
      else wait_for_backend_response polls status (i + 1)
  end.

Definition is_recv (f : cmd_func) : bool :=
  match f with
  | OMX_CMD_XEN_DUMMY | OMX_CMD_RECV_CONNECT_REPLY | OMX_CMD_RECV_CONNECT_REQUEST | OMX_CMD_RECV_RNDV | OMX_CMD_RECV_NOTIFY
  | OMX_CMD_RECV_LIBACK | OMX_CMD_RECV_MEDIUM_FRAG | OMX_CMD_RECV_SMALL | OMX_CMD_RECV_TINY => true
  | _ => false
  end.
(* [driver/frontend/omx_xenfront.c:132-188] omx_poke_dom0 *)
Definition omx_poke_dom0 (f : cmd_func) (l : link) : link :=
  if is_recv f then
    let '(notify, r) := push_requests (recv_ring l) in
    l <| recv_ring := r |> <| to_dom0 ::= fun n => if notify then n + 1 else n |>
  else
    let '(notify, r) := push_requests (requests_ring l) in
    l <| requests_ring := r |> <| to_dom0 ::= fun n => if notify then n + 1 else n |>.

(** A request that was sent, by the identifier it waits for, with the error its
    caller gets when it did not succeed. *)
Record call := Call { c_id : Z; c_fail : Z }.

(** The beginning of each request: a slot of the ring, whose other fields keep
    what they had. *)
Definition start_misc (f : cmd_func) (l : link) : Z * Z * link :=
  let '(i, l) := omx_ring_get_request l in
  let id := u32 (req_prod_pvt (requests_ring l) - 1) mod OMX_MAX_INFLIGHT_REQUESTS in
  (i, id, on_slot i (fun m => m <| request_id := id |> <| func := f |>) l).
Definition to_endpoint (g : guest_endpoint) (m : message) : message :=
  m <| board_index := g_board_index g |> <| eid := g_endpoint_index g |>.
(** The forwarded calls take it before their argument is read. *)
Definition start_request (f : cmd_func) (g : guest_endpoint) (l : link) : Z * Z * link :=
  let '(i, id, l) := start_misc f l in (i, id, on_slot i (to_endpoint g) l).
Definition write (i : Z) (p : payload -> payload) (l : link) : link := on_slot i (set data p) l.

(** *** Requests for information

    Each one is in two parts: the request, and what its caller gets when it saw
    [status] after [waited] polls. *)
Definition misc_result (waited status : Z) : Z :=
  if waited <? 0 then EINVAL else if status =? OMX_XEN_FRONTEND_STATUS_FAILED then EINVAL else 0.

(* [driver/frontend/omx_xenfront.c:1375-1388] omx_xen_ifaces_get_count *)
Definition omx_xen_ifaces_get_count (l : link) : call * link :=
  let '(i, id, l) := start_misc OMX_CMD_XEN_GET_BOARD_COUNT l in (Call id EINVAL, omx_poke_dom0 OMX_CMD_XEN_GET_BOARD_COUNT l).
(* [driver/frontend/omx_xenfront.c:1390-1409] omx_xen_ifaces_get_count *)
Definition ifaces_get_count_end (waited status : Z) (f : omx_xenfront_info) : Z * option Z :=
  let ret := misc_result waited status in (ret, if ret =? 0 then Some (fe_board_count f) else None).
(* [driver/frontend/omx_xenfront.c:1411-1425] omx_xen_peer_table_get_state *)
Definition omx_xen_peer_table_get_state (l : link) : call * link :=
  let '(i, id, l) := start_misc OMX_CMD_XEN_PEER_TABLE_GET_STATE l in
  (Call id EINVAL, omx_poke_dom0 OMX_CMD_XEN_PEER_TABLE_GET_STATE (on_slot i (fun m => m <| board_index := 0 |>) l)).
(** The number of polls is the result. *)
(* [driver/frontend/omx_xenfront.c:1427-1444] omx_xen_peer_table_get_state *)
Definition peer_table_get_state_end (waited status : Z) (f : omx_xenfront_info) : Z * option (option PeerTable.omx_cmd_peer_table_state) :=
  let ret := misc_result waited status in if ret =? 0 then (waited, Some (fe_state f)) else (ret, None).
(** What it sends is the state it got last, whatever its argument. *)
(* [driver/frontend/omx_xenfront.c:1446-1480] omx_xen_peer_table_set_state *)
Definition omx_xen_peer_table_set_state (state : PeerTable.omx_cmd_peer_table_state) (l : link) : call * link :=
  let '(i, id, l) := start_misc OMX_CMD_XEN_PEER_TABLE_SET_STATE l in
  let l := on_slot i (fun m => m <| board_index := 0 |>) l in
  let l := write i (fun old => match fe_state (fe l) with Some s => Table_state s | None => Blank end) l in
  (Call id EINVAL, omx_poke_dom0 OMX_CMD_XEN_PEER_TABLE_SET_STATE l).
(* [driver/frontend/omx_xenfront.c:1482-1517] omx_xen_set_hostname *)
Definition omx_xen_set_hostname (board : Z) (hostname : list Z) (l : link) : call * link :=
  let '(i, id, l) := start_misc OMX_CMD_XEN_SET_HOSTNAME l in
  let l := write i (fun _ => Hostname hostname) (on_slot i (fun m => m <| board_index := board |>) l) in
  (Call id EINVAL, omx_poke_dom0 OMX_CMD_XEN_SET_HOSTNAME l).
(** An endpoint that is not open reads its argument first. *)
(* [driver/frontend/omx_xenfront.c:1519-1562] omx_ioctl_xen_get_board_info *)
Definition omx_ioctl_xen_get_board_info (g : guest_endpoint) (arg : bool) (l : link) : (Z + call) * link :=
  if negb (g_status g =? OMX_ENDPOINT_STATUS_OK) && negb arg then (inl EFAULT, l)
  else
    let '(i, id, l) := start_request OMX_CMD_GET_BOARD_INFO g l in (inr (Call id EINVAL), omx_poke_dom0 OMX_CMD_GET_BOARD_INFO l).
(* [driver/frontend/omx_xenfront.c:1563-1594] omx_ioctl_xen_get_board_info *)
Definition get_board_info_end (copied : bool) (waited status : Z) (f : omx_xenfront_info) : Z * option (option board_info) :=
  let ret := misc_result waited status in
  if negb (ret =? 0) then (ret, None) else if negb copied then (EFAULT, None) else (0, Some (fe_board_info f)).
Definition on_endpoint (e : Z) (f : guest_endpoint -> guest_endpoint) (l : link) : link := l <| fe ::= set endpoints (alter f e) |>.
(** It waits for the status of the endpoint. *)
(* [driver/frontend/omx_xenfront.c:1600-1630] omx_xen_endpoint_get_info *)
Definition omx_xen_endpoint_get_info (endpoint_index : Z) (l : link) : option (call * link) :=
  g ← endpoints (fe l) !! endpoint_index;
  let l := on_endpoint endpoint_index (fun g => g <| g_info_status := OMX_ENDPOINT_STATUS_DOING |>) l in
  let '(i, id, l) := start_request OMX_CMD_GET_ENDPOINT_INFO g l in
  Some (Call id EINVAL, omx_poke_dom0 OMX_CMD_GET_ENDPOINT_INFO l).
(* [driver/frontend/omx_xenfront.c:1631-1645] omx_xen_endpoint_get_info *)
Definition endpoint_get_info_end (waited : Z) (g : guest_endpoint) : Z * option (option endpoint_info) :=
  if waited <? 0 then (EINVAL, None) else (0, Some (g_info g)).
(** A name, an address or an index is looked up; the others keep what the slot
    had. *)
(* [driver/frontend/omx_xenfront.c:1653-1688] omx_xen_peer_lookup *)
Definition omx_xen_peer_lookup (cmd : cmd_func) (index board_addr : option Z) (hostname : option (list Z)) (l : link) : call * link :=
  let '(i, id, l) := start_misc cmd l in
  let key p :=
    match cmd with
    | OMX_CMD_PEER_FROM_INDEX => match index with Some x => Peer_info (PeerInfo (pi_board_addr (mpi p)) (pi_hostname (mpi p)) x) | None => p end
    | OMX_CMD_PEER_FROM_ADDR => match board_addr with Some x => Peer_info (PeerInfo x (pi_hostname (mpi p)) (pi_index (mpi p))) | None => p end
    | OMX_CMD_PEER_FROM_HOSTNAME => match hostname with Some x => Peer_info (PeerInfo (pi_board_addr (mpi p)) x (pi_index (mpi p))) | None => p end
    | _ => p
    end in
  (Call id EINVAL, omx_poke_dom0 cmd (write i key l)).
(** The peer that was told last, even after a failure; the key is not told. *)
(* [driver/frontend/omx_xenfront.c:1689-1730] omx_xen_peer_lookup *)
Definition peer_lookup_end (waited status : Z) (f : omx_xenfront_info) : Z * option (option peer_info) :=
  if waited <? 0 then (EINVAL, None) else (misc_result waited status, Some (fe_peer_info f)).

(** *** Answers *)

Definition is_send (f : cmd_func) : bool :=
  match f with
  | OMX_CMD_SEND_MEDIUMSQ_FRAG | OMX_CMD_SEND_MEDIUMVA | OMX_CMD_SEND_SMALL | OMX_CMD_SEND_TINY | OMX_CMD_PULL | OMX_CMD_SEND_NOTIFY
  | OMX_CMD_SEND_RNDV | OMX_CMD_SEND_LIBACK | OMX_CMD_SEND_CONNECT_REQUEST | OMX_CMD_SEND_CONNECT_REPLY => true
  | _ => false
  end.
Definition set_request (id status : Z) (f : omx_xenfront_info) : omx_xenfront_info := f <| requests ::= <[id := status]> |>.
(** The result is kept on 16 bits. *)
Definition failed (m : message) : bool := negb (u16 (ret m) =? 0).
Definition settle (m : message) (f : omx_xenfront_info) : omx_xenfront_info :=
  set_request (request_id m) (if failed m then OMX_XEN_FRONTEND_STATUS_FAILED else OMX_XEN_FRONTEND_STATUS_DONE) f.
(* [driver/frontend/omx_xenfront.c:216-233] omx_xenfront_get_endpoint *)
Definition omx_xenfront_get_endpoint (f : omx_xenfront_info) (m : message) : option guest_endpoint := endpoints f !! eid m.
(** One answer; [None] leaves the handler at once. *)
(* [driver/frontend/omx_xenfront.c:685-1316] omx_xenif_interrupt *)
Definition handle_response (m : message) (f : omx_xenfront_info) : option omx_xenfront_info :=
  let endpoint := omx_xenfront_get_endpoint f m in
  if is_send (func m) then Some (if endpoint then settle m f else f)
  else
    match func m with
    | OMX_CMD_PEER_FROM_INDEX | OMX_CMD_PEER_FROM_ADDR | OMX_CMD_PEER_FROM_HOSTNAME =>
        Some (settle m (if failed m then f else f <| fe_peer_info := Some (mpi (data m)) |>))
    | OMX_CMD_GET_ENDPOINT_INFO =>
        Some (f <| endpoints ::= alter (fun g => g <| g_info := Some (gei (data m)) |> <| g_info_status := OMX_ENDPOINT_STATUS_DONE |>) (eid m) |>)
    | OMX_CMD_XEN_GET_BOARD_COUNT => Some (settle m (f <| fe_board_count := gbc (data m) |>))
    | OMX_CMD_XEN_PEER_TABLE_SET_STATE | OMX_CMD_XEN_SET_HOSTNAME => Some (settle m f)
    | OMX_CMD_XEN_PEER_TABLE_GET_STATE => Some (settle m (f <| fe_state := Some (pts (data m)) |>))
    | OMX_CMD_GET_BOARD_INFO => Some (settle m (f <| fe_board_info := Some (gbi (data m)) |>))
    | OMX_CMD_XEN_OPEN_ENDPOINT =>
        Some (set_request (request_id m) (if endpoint then OMX_XEN_FRONTEND_STATUS_DONE else OMX_XEN_FRONTEND_STATUS_FAILED) f)
    | OMX_CMD_XEN_CLOSE_ENDPOINT =>
        Some (if failed m || negb (bool_decide (is_Some endpoint)) then set_request (request_id m) OMX_XEN_FRONTEND_STATUS_FAILED f
              else set_request (request_id m) OMX_XEN_FRONTEND_STATUS_DONE
                     (f <| endpoints ::= alter (fun g => g <| g_status := OMX_ENDPOINT_STATUS_OK |>) (eid m) |>))
    | OMX_CMD_XEN_CREATE_USER_REGION =>
        Some (match endpoint with
              | None => f
              | Some g =>
                  match g_regions g !! XenReg.cm_id (cur (data m)) with
                  | None => f
                  | Some _ => set_request (request_id m)
                      (if XenReg.cm_status (cur (data m)) =? 0 then OMX_USER_REGION_STATUS_REGISTERED else OMX_USER_REGION_STATUS_FAILED) f
                  end
              end)
    | OMX_CMD_XEN_DESTROY_USER_REGION =>
        match endpoint with
        | None => Some f
        | Some g =>
            if XenReg.dsm_region (dur (data m)) =? 0 then None
            else Some (set_request (request_id m)
              (if XenReg.dsm_status (dur (data m)) =? 0 then OMX_USER_REGION_STATUS_DEREGISTERED else OMX_USER_REGION_STATUS_FAILED) f)
        end
    | _ => Some f
    end.
(** [n] answers from the index [cons]; [inl] when one of them left the handler. *)
Fixpoint handle_responses (n : nat) (cons : Z) (r : ring message) (f : omx_xenfront_info) : omx_xenfront_info + omx_xenfront_info :=
  match n with
  | O => inr f
  | S n =>
      match handle_response (get_slot cons r) f with
      | None => inl f
      | Some f => handle_responses n (u32 (cons + 1)) r f
      end
  end.
(** The answers that are there, until there are none. *)
Fixpoint again_send (passes : nat) (l : link) : option link :=
  match passes with
  | O => None
  | S passes =>
      let r := requests_ring l in
      match handle_responses (Z.to_nat (u32 (rsp_prod r - rsp_cons r))) (rsp_cons r) r (fe l) with
      | inl f => Some (l <| fe := f |>)
      | inr f =>
          let '(more_to_do, r) := final_check_responses (r <| rsp_cons := rsp_prod r |>) in
          let l := l <| fe := f |> <| requests_ring := r |> in
          if more_to_do then again_send passes l else Some l
      end
  end.
(* [driver/frontend/omx_xenfront.c:637-684] omx_xenif_interrupt *)
Definition omx_xenif_interrupt (passes : nat) (l : link) : option link :=
  if negb (connected (fe l)) then Some l
  else if has_responses (requests_ring l) then again_send passes l
  else Some l.

(** *** Messages to send *)

(** What a copy that faults leaves in a slot, and the bytes that the slot has
    behind a command. *)
Context (torn : payload -> payload) (behind : payload -> list Z).
(** The memory of the process. *)
Context (umem : Z -> option Z).

(** The end of a call: the slot is published, and the caller waits. *)
Definition send_request (f : cmd_func) (id fail : Z) (l : link) : (Z + call) * link := (inr (Call id fail), omx_poke_dom0 f l).
(** The calls that copy their argument in the slot and check nothing. *)
Definition forward {A} (f : cmd_func) (fail : Z) (member : A -> payload) (local_off : A -> A) (g : guest_endpoint) (arg : option A)
    (l : link) : (Z + call) * link :=
  let '(i, id, l) := start_request f g l in
  match arg with
  | None => (inl EFAULT, write i torn l)
  | Some c => send_request f id fail (write i (fun _ => member (local_off c)) l)
  end.
Definition not_shared (c : SendMsg.send_cmd) : SendMsg.send_cmd :=
  let '(SendMsg.SendCmd p d _ s q k cs m n v so fl fs ri rs) := c in SendMsg.SendCmd p d false s q k cs m n v so fl fs ri rs.
Definition not_shared_liback (c : SendMsg.liback_cmd) : SendMsg.liback_cmd :=
  let '(SendMsg.LibackCmd p d _ s a q n r) := c in SendMsg.LibackCmd p d false s a q n r.
Definition not_shared_connect (c : SendMsg.connect_cmd) : SendMsg.connect_cmd :=
  let '(SendMsg.ConnectCmd p d _ q s k t n cs st) := c in SendMsg.ConnectCmd p d true q s k t n cs st.
Definition not_shared_pull (c : Pull.cmd_pull) : Pull.cmd_pull :=
  let '(Pull.CmdPull p d _ s n t r o i q k) := c in Pull.CmdPull p d false s n t r o i q k.

(** What was refused stays in its slot, which the next call publishes. *)
(* [driver/frontend/omx_xenfront_send.c:63-140] omx_ioctl_xen_send_tiny *)
Definition omx_ioctl_xen_send_tiny (uparam : Z) (g : guest_endpoint) (cmd : option SendMsg.send_cmd) (l : link) : (Z + call) * link :=
  let '(i, id, l) := start_request OMX_CMD_SEND_TINY g l in
  match cmd with
  | None => (inl EFAULT, write i torn l)
  | Some c =>
      let l := write i (fun old => Command (CmdTiny c) (behind old)) l in
      let length := u8 (SendMsg.sc_length c) in
      if World.OMX_TINY_MSG_LENGTH_MAX <? length then (inl EINVAL, l)
      else
        match SendMsg.copy_from_user umem (uparam + 24) (Z.to_nat length) with
        | None => (inl EFAULT, write i torn l)
        | Some bytes => send_request OMX_CMD_SEND_TINY id EINVAL (write i (fun _ => Command (CmdTiny (not_shared c)) bytes) l)
        end
  end.
(* [driver/frontend/omx_xenfront_send.c:476-555] omx_ioctl_xen_send_small *)
Definition omx_ioctl_xen_send_small (g : guest_endpoint) (cmd : option SendMsg.send_cmd) (l : link) : (Z + call) * link :=
  let '(i, id, l) := start_request OMX_CMD_SEND_SMALL g l in
  match cmd with
  | None => (inl EFAULT, write i torn l)
  | Some c =>
      let l := write i (fun old => Command (CmdSmall c) (behind old)) l in
      let length := SendMsg.sc_length c in
      if World.OMX_SMALL_MSG_LENGTH_MAX <? length then (inl EINVAL, l)
      else
        let l := write i (fun old => Command (CmdSmall (not_shared c)) (behind old)) l in
        match SendMsg.copy_from_user umem (SendMsg.sc_vaddr c) (Z.to_nat length) with
        | None => (inl EFAULT, write i torn l)
        | Some bytes => send_request OMX_CMD_SEND_SMALL id EFAULT (write i (fun _ => Command (CmdSmall (not_shared c)) bytes) l)
        end
  end.
(* [driver/frontend/omx_xenfront_send.c:396-474] omx_ioctl_xen_send_mediumsq_frag *)
Definition omx_ioctl_xen_send_mediumsq_frag (g : guest_endpoint) (cmd : option SendMsg.send_cmd) (l : link) : (Z + call) * link :=
  let '(i, id, l) := start_request OMX_CMD_SEND_MEDIUMSQ_FRAG g l in
  match cmd with
  | None => (inl EFAULT, write i torn l)
  | Some c =>
      let l := write i (fun old => Command (CmdMediumsq c) (behind old)) l in
      if 2 ^ World.OMX_SENDQ_ENTRY_SHIFT <? SendMsg.sc_frag_length c then (inl EINVAL, l)
      else if SENDQ_SIZE <=? SendMsg.sc_sendq_offset c then (inl EINVAL, l)
      else send_request OMX_CMD_SEND_MEDIUMSQ_FRAG id EFAULT (write i (fun _ => Command (CmdMediumsq (not_shared c)) []) l)
  end.
(* [driver/frontend/omx_xenfront_send.c:557-611] omx_ioctl_xen_send_notify *)
Definition omx_ioctl_xen_send_notify : guest_endpoint -> option SendMsg.send_cmd -> link -> (Z + call) * link :=
  forward OMX_CMD_SEND_NOTIFY EFAULT (fun c => Command (CmdNotify c) []) not_shared.
(* [driver/frontend/omx_xenfront_send.c:613-671] omx_ioctl_xen_send_connect_request *)
Definition omx_ioctl_xen_send_connect_request : guest_endpoint -> option SendMsg.connect_cmd -> link -> (Z + call) * link :=
  forward OMX_CMD_SEND_CONNECT_REQUEST EFAULT (fun c => Command (CmdConnect false c) []) not_shared_connect.
(* [driver/frontend/omx_xenfront_send.c:673-729] omx_ioctl_xen_send_connect_reply *)
Definition omx_ioctl_xen_send_connect_reply : guest_endpoint -> option SendMsg.connect_cmd -> link -> (Z + call) * link :=
  forward OMX_CMD_SEND_CONNECT_REPLY EFAULT (fun c => Command (CmdConnect true c) []) not_shared_connect.
(* [driver/frontend/omx_xenfront_send.c:731-783] omx_ioctl_xen_pull *)
Definition omx_ioctl_xen_pull : guest_endpoint -> option Pull.cmd_pull -> link -> (Z + call) * link :=
  forward OMX_CMD_PULL EFAULT Pulling not_shared_pull.
(* [driver/frontend/omx_xenfront_send.c:785-848] omx_ioctl_xen_send_rndv *)
Definition omx_ioctl_xen_send_rndv : guest_endpoint -> option SendMsg.send_cmd -> link -> (Z + call) * link :=
  forward OMX_CMD_SEND_RNDV EINVAL (fun c => Command (CmdRndv c) []) not_shared.
(* [driver/frontend/omx_xenfront_send.c:850-907] omx_ioctl_xen_send_liback *)
Definition omx_ioctl_xen_send_liback : guest_endpoint -> option SendMsg.liback_cmd -> link -> (Z + call) * link :=
  forward OMX_CMD_SEND_LIBACK EFAULT (fun c => Command (CmdLiback c) []) not_shared_liback.

(** The end of these calls, with the last status they see. *)
Definition finish_call (c : call) (waited status : Z) : Z :=
  if waited <? 0 then EINVAL else if status =? OMX_XEN_FRONTEND_STATUS_DONE then 0 else c_fail c.
End xen.
End XenFront.
