(* ===== verification/XenServe.v ===== *)
(** The backend's side of the ring of requests: the requests of the guest are
    executed on its endpoints and answered ([driver/backend/omx_xenback.c]). *)
From S2P Require Import Prelude Io World Event Peer Reg Pull Wire Host SendMsg PeerTable Crossing XenGrant XenReg XenRing XenFront.
Import Host Crossing XenRing XenFront.

Module XenServe.

#[local] Existing Instances XenReg.e_create_msg XenReg.s_cm_id XenReg.s_cm_eid XenReg.s_cm_status XenReg.e_destroy_msg XenReg.s_dsm_id
  XenReg.s_dsm_eid XenReg.s_dsm_region XenReg.s_dsm_status.

Section serve.
Context {macros : RingMacros} {board_info endpoint_info : Type}.
#[local] Notation message := (@message board_info endpoint_info).
#[local] Notation payload := (@payload board_info endpoint_info).
Context {views : Views (board_info:=board_info) (endpoint_info:=endpoint_info)}.

(** ** What the requests call

    The interface of the backend to the rest of the driver, on its state: the
    endpoint that has an identifier (its board and its own index), the send
    ioctls on a command that is in a slot, the information, the endpoints and
    the regions of the guest.  [None] is a crash of the host. *)
Class Driver (D : Type) := {
  endpoint_at : Z -> D -> option (Z * Z);
  omx_ioctl : Z -> cmd_func -> payload -> D -> option (Z * D);
  omx_peer_lookup : cmd_func -> peer_info -> D -> option (Z * peer_info);
  omx_endpoint_get_info : Z -> Z -> D -> endpoint_info;
  omx_ifaces_get_count : D -> Z;
  omx_peer_table_get_state : D -> PeerTable.omx_cmd_peer_table_state;
  omx_iface_set_hostname : Z -> list Z -> D -> option (Z * D);
  omx_iface_get_info : Z -> D -> Z * board_info;
  omx_xen_endpoint_open : message -> D -> option (Z * D);
  omx_xen_endpoint_close : message -> D -> option (Z * D);
  process_create : XenReg.create_msg -> D -> option (XenReg.create_msg * Z * D);
  process_destroy : XenReg.destroy_msg -> D -> option (XenReg.destroy_msg * Z * D) }.
Context {D : Type} {driver : Driver D}.
(** The address of the data of the slot of an index. *)
Context (data_of_slot : Z -> Z).
Implicit Types (r : ring message) (d : D) (m : message).

(** ** Requests

    The request is in the slot of index [i], its answer goes to the slot of
    index [j]. *)
Definition on_entry (i : Z) (f : message -> message) r : ring message := set_slot i (f (get_slot i r)) r.
(* [driver/backend/omx_xenback.c:602-617] omx_xenback_get_endpoint *)
Definition omx_xenback_get_endpoint (m : message) (d : D) : option (Z * Z) := endpoint_at (eid m) d.
(* [driver/backend/omx_xenback.c:619-632] omx_xenback_prepare_response *)
Definition omx_xenback_prepare_response (endpoint : Z * Z) (i j : Z) (ret : Z) r : ring message :=
  let r := on_entry j (fun m => m <| func := func (get_slot i r) |>) r in
  let r := on_entry j (fun m => m <| eid := snd endpoint |> <| board_index := fst endpoint |>) r in
  let r := on_entry j (fun m => m <| request_id := request_id (get_slot i r) |>) r in
  on_entry j (fun m => m <| XenFront.ret := ret |>) r.

(** A small message is sent from the slot. *)
Definition locate (addr : Z) (p : payload) : payload :=
  match p with
  | Command (CmdSmall (SendMsg.SendCmd pi de s si q k cs m n v so fl fs ri rs)) bytes =>
      Command (CmdSmall (SendMsg.SendCmd pi de s si q k cs m n addr so fl fs ri rs)) bytes
  | p => p
  end.
(** The result of a small message is lost, a vectorial one is a [BUG]. *)
(* [driver/backend/omx_xenback.c:1067-1287] omx_xenback_process_specific *)
Definition omx_xenback_process_specific (f : cmd_func) (i j : Z) r d : option (Z * ring message * D) :=
  endpoint ← omx_xenback_get_endpoint (get_slot i r) d;
  '(ret, r, d) ←
    match f with
    | OMX_CMD_PULL | OMX_CMD_SEND_RNDV | OMX_CMD_SEND_MEDIUMSQ_FRAG | OMX_CMD_SEND_TINY | OMX_CMD_SEND_NOTIFY | OMX_CMD_SEND_LIBACK
    | OMX_CMD_SEND_CONNECT_REQUEST | OMX_CMD_SEND_CONNECT_REPLY =>
        '(ret, d) ← omx_ioctl (eid (get_slot i r)) f (data (get_slot i r)) d; Some (ret, r, d)
    | OMX_CMD_SEND_SMALL =>
        let r := on_entry i (set data (locate (data_of_slot i))) r in
        '(_, d) ← omx_ioctl (eid (get_slot i r)) f (data (get_slot i r)) d; Some (0, r, d)
    | OMX_CMD_SEND_MEDIUMVA => None
    | _ => Some (0, r, d)
    end;
  Some (ret, omx_xenback_prepare_response endpoint i j ret r, d).

Definition answer_region (j e id : Z) (f : cmd_func) (p : payload -> payload) r : ring message :=
  on_entry j (fun m => m <| func := f |> <| eid := e |> <| request_id := id |> <| data ::= p |>) r.
Definition region_created (c old : XenReg.create_msg) : XenReg.create_msg :=
  old <| XenReg.cm_id := XenReg.cm_id c |> <| XenReg.cm_eid := XenReg.cm_eid c |> <| XenReg.cm_status := XenReg.cm_status c |>.
Definition region_destroyed (c old : XenReg.destroy_msg) : XenReg.destroy_msg :=
  old <| XenReg.dsm_id := XenReg.dsm_id c |> <| XenReg.dsm_eid := XenReg.dsm_eid c |> <| XenReg.dsm_region := XenReg.dsm_region c |>
      <| XenReg.dsm_status := XenReg.dsm_status c |>.
(** What an answer does not say is what its slot had. *)
(* [driver/backend/omx_xenback.c:634-1065] omx_xenback_process_misc *)
Definition omx_xenback_process_misc (f : cmd_func) (i j : Z) r d : option (Z * ring message * D) :=
  let req := get_slot i r in
  match f with
  | OMX_CMD_PEER_FROM_INDEX | OMX_CMD_PEER_FROM_ADDR | OMX_CMD_PEER_FROM_HOSTNAME =>
      '(ret, info) ← omx_peer_lookup f (mpi (data req)) d;
      let r := if ret <? 0 then r else on_entry j (fun m => m <| data := Peer_info info |>) r in
      Some (ret, on_entry j (fun m => m <| func := func (get_slot i r) |> <| XenFront.ret := ret |>) r, d)
  | OMX_CMD_GET_ENDPOINT_INFO =>
      endpoint ← omx_xenback_get_endpoint req d;
      let r := on_entry j (fun m => m <| data := Endpoint_info (omx_endpoint_get_info (fst endpoint) (snd endpoint) d) |>) r in
      Some (0, omx_xenback_prepare_response endpoint i j 0 r, d)
  | OMX_CMD_XEN_GET_BOARD_COUNT =>
      Some (0, on_entry j (fun m => m <| func := OMX_CMD_XEN_GET_BOARD_COUNT |> <| data := Board_count (omx_ifaces_get_count d) |>) r, d)
  | OMX_CMD_XEN_PEER_TABLE_GET_STATE =>
      Some (0, on_entry j (fun m => m <| data := Table_state (omx_peer_table_get_state d) |> <| func := OMX_CMD_XEN_PEER_TABLE_GET_STATE |>
                 <| board_index := board_index req |> <| XenFront.ret := 0 |>) r, d)
  | OMX_CMD_XEN_PEER_TABLE_SET_STATE =>
      Some (0, on_entry j (fun m => m <| func := OMX_CMD_XEN_PEER_TABLE_SET_STATE |> <| board_index := board_index req |>
                 <| XenFront.ret := 0 |>) r, d)
  | OMX_CMD_XEN_SET_HOSTNAME =>
      '(ret, d) ← omx_iface_set_hostname (board_index req) (sh (data req)) d;
      Some (ret, on_entry j (fun m => m <| func := OMX_CMD_XEN_SET_HOSTNAME |> <| board_index := board_index req |>
                   <| XenFront.ret := ret |>) r, d)
  | OMX_CMD_GET_BOARD_INFO =>
      endpoint ← omx_xenback_get_endpoint req d;
      let '(ret, info) := omx_iface_get_info (fst endpoint) d in
      let r := if ret <? 0 then r else on_entry j (fun m => m <| data := Board_info info |>) r in
      Some (ret, omx_xenback_prepare_response endpoint i j ret r, d)
  | OMX_CMD_XEN_OPEN_ENDPOINT =>
      '(ret, d) ← omx_xen_endpoint_open req d;
      let r := on_entry j (fun m => m <| func := OMX_CMD_XEN_OPEN_ENDPOINT |>) r in
      let r := on_entry j (fun m =>
        m <| data := Endpoint_message (let e := endpoint (data m) in
               EndpointMsg (em_endpoint (endpoint (data (get_slot i r)))) (em_session_id e) (em_endpoint_gref e)) |>) r in
      Some (ret, on_entry j (fun m => m <| eid := eid (get_slot i r) |> <| request_id := request_id (get_slot i r) |>
                   <| board_index := board_index (get_slot i r) |> <| XenFront.ret := ret |>) r, d)
  | OMX_CMD_XEN_CLOSE_ENDPOINT =>
      '(ret, d) ← omx_xen_endpoint_close req d;
      Some (ret, on_entry j (fun m => m <| func := OMX_CMD_XEN_CLOSE_ENDPOINT |> <| eid := eid req |> <| request_id := request_id req |>
                   <| board_index := board_index req |> <| XenFront.ret := ret |>) r, d)
  | OMX_CMD_XEN_CREATE_USER_REGION =>
      '(c, e, d) ← process_create (cur (data req)) d;
      Some ((if XenReg.cm_status c =? 0 then 0 else EINVAL),
            answer_region j e (request_id req) OMX_CMD_XEN_CREATE_USER_REGION (fun p => Create_region (region_created c (cur p))) r, d)
  | OMX_CMD_XEN_DESTROY_USER_REGION =>
      '(c, e, d) ← process_destroy (dur (data req)) d;
      Some ((if XenReg.dsm_status c =? 0 then 0 else EINVAL),
            answer_region j e (request_id req) OMX_CMD_XEN_DESTROY_USER_REGION (fun p => Destroy_region (region_destroyed c (dur p))) r, d)
  | _ => Some (0, r, d)
  end.
Definition is_misc (f : cmd_func) : bool :=
  match f with
  | OMX_CMD_PEER_FROM_INDEX | OMX_CMD_PEER_FROM_ADDR | OMX_CMD_PEER_FROM_HOSTNAME | OMX_CMD_GET_ENDPOINT_INFO
  | OMX_CMD_XEN_GET_BOARD_COUNT | OMX_CMD_XEN_PEER_TABLE_GET_STATE | OMX_CMD_XEN_PEER_TABLE_SET_STATE | OMX_CMD_XEN_SET_HOSTNAME
  | OMX_CMD_GET_BOARD_INFO | OMX_CMD_XEN_OPEN_ENDPOINT | OMX_CMD_XEN_CLOSE_ENDPOINT | OMX_CMD_XEN_CREATE_USER_REGION
  | OMX_CMD_XEN_DESTROY_USER_REGION => true
  | _ => false
  end.

(** ** The loop *)

(** [RING_REQUEST_CONS_OVERFLOW]. *)
Definition cons_overflow (cons : Z) r : bool := RING_SIZE <=? u32 (cons - rsp_prod_pvt r).
(** [n] requests from the index [cons]; the boolean tells whether the loop came
    to its end, otherwise the requests are still to be consumed. *)
Fixpoint process_messages (n : nat) (cons : Z) r d : option (bool * ring message * D) :=
  match n with
  | O => Some (true, r, d)
  | S n =>
      if cons_overflow cons r then Some (false, r, d)
      else
        let f := func (get_slot cons r) in
        if bool_decide (f = OMX_CMD_OTHER 0) then Some (false, r, d)
        else
          let j := rsp_prod_pvt r in
          let r := r <| rsp_prod_pvt := u32 (j + 1) |> in
          '(ret, r, d) ← (if is_misc f then omx_xenback_process_misc f cons j r d else omx_xenback_process_specific f cons j r d);
          process_messages n (u32 (cons + 1)) r d
  end.
(* [driver/backend/omx_xenback.c:1288-1397] omx_xen_process_message *)
Definition omx_xen_process_message r d : option (ring message * D) :=
  let prod := req_prod r in
  '(all, r, d) ← process_messages (Z.to_nat (u32 (prod - req_cons r))) (req_cons r) r d;
  Some ((if (all : bool) then r <| req_cons := prod |> else r), d).

(* [driver/backend/omx_xenback.h:32-32] OMX_XEN_BACKEND_TIMEOUT *)
Definition OMX_XEN_BACKEND_TIMEOUT : Z := 1000 * 1000.
(** The loop waits a while for more requests; [idle] more turns without any end
    it.  [None] in the result of [Some] is a crash, and the events sent to the
    guest are counted. *)
Fixpoint poll_requests (fuel : nat) (idle sent : Z) r d : option (option (Z * ring message * D)) :=
  match fuel with
  | O => None
  | S fuel =>
      if has_requests r then
        match omx_xen_process_message r d with
        | None => Some None
        | Some (r, d) =>
            let '(notify, r) := push_responses r in
            poll_requests fuel idle (if notify then sent + 1 else sent) r d
        end
      else
        if idle <=? 0 then Some (Some (sent, r, d)) else poll_requests fuel (idle - 1) sent r d
  end.
(** What came after the wait is handled without waiting again. *)
Fixpoint again (passes fuel : nat) (idle sent : Z) r d : option (option (Z * ring message * D)) :=
  match passes with
  | O => None
  | S passes =>
      res ← poll_requests fuel idle sent r d;
      match res with
      | None => Some None
      | Some (sent, r, d) =>
          let '(more_to_do, r) := final_check_requests r in
          if more_to_do then again passes fuel 0 sent r d else Some (Some (sent, r, d))
      end
  end.
(* [driver/backend/omx_xenback.c:447-516] msg_workq_handler *)
Definition msg_workq_handler (passes fuel : nat) (sent : Z) r d : option (option (Z * ring message * D)) :=
  again passes fuel OMX_XEN_BACKEND_TIMEOUT sent r d.
(** The interrupt only queues the work when there is something. *)
(* [driver/backend/omx_xenback.c:362-390] omx_xenif_be_int *)
Definition omx_xenif_be_int (passes fuel : nat) (sent : Z) r d : option (option (Z * ring message * D)) :=
  if has_requests r then msg_workq_handler passes fuel sent r d else Some (Some (sent, r, d)).
End serve.
End XenServe.
