(* ===== verification/XenServed.v ===== *)
(** The backend executes each request of the ring once, in order, and its
    answers take the slots of the requests. *)
From S2P Require Import Prelude Io World Event Peer Reg Pull Wire Host SendMsg PeerTable Crossing XenGrant XenReg XenRing XenRingFifo XenFront XenServe.
Import Host Crossing XenRing XenRingFifo XenFront XenServe.

Module XenServed.

Section served.
Context {macros : RingMacros} {laws : RingLaws macros} {board_info endpoint_info : Type}.
#[local] Notation message := (@message board_info endpoint_info).
#[local] Notation payload := (@payload board_info endpoint_info).
Context {views : Views (board_info:=board_info) (endpoint_info:=endpoint_info)}.
Context {D : Type} {driver : Driver (board_info:=board_info) (endpoint_info:=endpoint_info) D}.
Context (data_of_slot : Z -> Z).
Implicit Types (r : ring message) (d : D) (m : message).

(** ** The answer to a request *)

Definition answer_of (endpoint : Z * Z) (res : Z) m : message := m <| eid := snd endpoint |> <| board_index := fst endpoint |> <| ret := res |>.
Definition serve_send (addr : Z) m d : option (message * D) :=
  endpoint ← endpoint_at (eid m) d;
  match func m with
  | OMX_CMD_PULL | OMX_CMD_SEND_RNDV | OMX_CMD_SEND_MEDIUMSQ_FRAG | OMX_CMD_SEND_TINY | OMX_CMD_SEND_NOTIFY | OMX_CMD_SEND_LIBACK
  | OMX_CMD_SEND_CONNECT_REQUEST | OMX_CMD_SEND_CONNECT_REPLY =>
      '(res, d) ← omx_ioctl (eid m) (func m) (data m) d; Some (answer_of endpoint res m, d)
  | OMX_CMD_SEND_SMALL =>
      let m := m <| data ::= locate addr |> in
      '(_, d) ← omx_ioctl (eid m) (func m) (data m) d; Some (answer_of endpoint 0 m, d)
  | OMX_CMD_SEND_MEDIUMVA => None
  | _ => Some (answer_of endpoint 0 m, d)
  end.
Definition serve_misc m d : option (message * D) :=
  match func m with
  | OMX_CMD_PEER_FROM_INDEX | OMX_CMD_PEER_FROM_ADDR | OMX_CMD_PEER_FROM_HOSTNAME =>
      '(res, info) ← omx_peer_lookup (func m) (mpi (data m)) d;
      Some ((if res <? 0 then m else m <| data := Peer_info info |>) <| ret := res |>, d)
  | OMX_CMD_GET_ENDPOINT_INFO =>
      endpoint ← endpoint_at (eid m) d;
      Some (answer_of endpoint 0 (m <| data := Endpoint_info (omx_endpoint_get_info (fst endpoint) (snd endpoint) d) |>), d)
  | OMX_CMD_XEN_GET_BOARD_COUNT => Some (m <| data := Board_count (omx_ifaces_get_count d) |>, d)
  | OMX_CMD_XEN_PEER_TABLE_GET_STATE => Some (m <| data := Table_state (omx_peer_table_get_state d) |> <| ret := 0 |>, d)
  | OMX_CMD_XEN_PEER_TABLE_SET_STATE => Some (m <| ret := 0 |>, d)
  | OMX_CMD_XEN_SET_HOSTNAME =>
      '(res, d) ← omx_iface_set_hostname (board_index m) (sh (data m)) d; Some (m <| ret := res |>, d)
  | OMX_CMD_GET_BOARD_INFO =>
      endpoint ← endpoint_at (eid m) d;
      let '(res, info) := omx_iface_get_info (fst endpoint) d in
      Some (answer_of endpoint res (if res <? 0 then m else m <| data := Board_info info |>), d)
  | OMX_CMD_XEN_OPEN_ENDPOINT =>
      '(res, d) ← omx_xen_endpoint_open m d; Some (m <| data ::= (fun p => Endpoint_message (endpoint p)) |> <| ret := res |>, d)
  | OMX_CMD_XEN_CLOSE_ENDPOINT => '(res, d) ← omx_xen_endpoint_close m d; Some (m <| ret := res |>, d)
  | OMX_CMD_XEN_CREATE_USER_REGION =>
      '(c, e, d) ← process_create (cur (data m)) d;
      Some (m <| eid := e |> <| data ::= (fun p => Create_region (region_created c (cur p))) |>, d)
  | OMX_CMD_XEN_DESTROY_USER_REGION =>
      '(c, e, d) ← process_destroy (dur (data m)) d;
      Some (m <| eid := e |> <| data ::= (fun p => Destroy_region (region_destroyed c (dur p))) |>, d)
  | _ => Some (m, d)
  end.
Definition serve (addr : Z) m d : option (message * D) := if is_misc (func m) then serve_misc m d else serve_send addr m d.
(** The requests from the index [c], in order. *)
Fixpoint serve_all (c : Z) (q : list message) d : option (list message * D) :=
  match q with
  | [] => Some ([], d)
  | m :: q => '(a, d) ← serve (data_of_slot (u32 c)) m d; '(l, d) ← serve_all (c + 1) q d; Some (a :: l, d)
  end.
Lemma length_serve_all q : forall c d l d', serve_all c q d = Some (l, d') -> length l = length q.
Proof.
  induction q as [|m q IH]; intros c d l d'; cbn [serve_all]; [by intros [= <- _]|].
  destruct (serve _ m d) as [[a d1]|]; cbn [mbind option_bind]; [|done].
  destruct (serve_all _ q d1) as [[l1 d2]|] eqn:E; cbn [mbind option_bind]; [|done]. intros [= <- _]. cbn. f_equal. by eapply IH.
Qed.

(** ** The handler *)

(** What one request gives, when its slot is also the one of its answer. *)
Definition gives (i : Z) r (x : option (Z * ring message * D)) (y : option (message * D)) : Prop :=
  match x, y with
  | None, None => True
  | Some (_, r', d'), Some (m', d'') => d' = d'' /\ updated i m' r r'
  | _, _ => False
  end.
Lemma on_entry_updated i f r m : get_slot i r = m -> updated i (f m) r (on_entry i f r).
Proof. intros <-. apply updated_set. Qed.
Lemma on_entry_again i f r0 r m : updated i m r0 r -> updated i (f m) r0 (on_entry i f r).
Proof. intros H. eapply updated_trans; [exact H|]. apply on_entry_updated, H. Qed.
Lemma updated_eq i m m' r r' : m = m' -> updated i m r r' -> updated i m' r r'.
Proof. by intros ->. Qed.
Lemma response_updated endpoint i res r0 r m : updated i m r0 r ->
  updated i (answer_of endpoint res m) r0 (omx_xenback_prepare_response endpoint i i res r).
Proof.
  intros H. unfold omx_xenback_prepare_response. set (r1 := on_entry i _ r).
  assert (H1 : updated i m r0 r1).
  { eapply updated_eq; [|apply on_entry_again, H]. cbn. rewrite (up_slot _ _ _ _ H). by destruct m. }
  clearbody r1. set (r2 := on_entry i _ r1). pose proof (on_entry_again i (fun m => m <| eid := snd endpoint |> <| board_index := fst endpoint |>) _ _ _ H1) as H2.
  fold r2 in H2. clearbody r2. set (r3 := on_entry i _ r2).
  assert (H3 : updated i (m <| eid := snd endpoint |> <| board_index := fst endpoint |>) r0 r3).
  { eapply updated_eq; [|apply on_entry_again, H2]. cbn. rewrite (up_slot _ _ _ _ H2). by destruct m. }
  clearbody r3. exact (on_entry_again i (fun m => m <| ret := res |>) _ _ _ H3).
Qed.
Lemma send_gives i r m d : get_slot i r = m ->
  gives i r (omx_xenback_process_specific data_of_slot (func m) i i r d) (serve_send (data_of_slot i) m d).
Proof.
  intros Hm. pose proof (updated_same i r) as H0. rewrite Hm in H0.
  unfold omx_xenback_process_specific, serve_send, omx_xenback_get_endpoint. rewrite !Hm.
  destruct (endpoint_at (eid m) d) as [ep|]; cbn [mbind option_bind]; [|done].
  destruct (func m) eqn:Hf; try done; cbn [mbind option_bind]; try (split; [done|by apply response_updated]);
    try (destruct (omx_ioctl _ _ _ _) as [[res d']|]; cbn [mbind option_bind]; [|done]; split; [done|by apply response_updated]).
  pose proof (on_entry_again i (set data (locate (data_of_slot i))) _ _ _ H0) as H1. set (r1 := on_entry i _ r) in *. clearbody r1.
  rewrite (up_slot _ _ _ _ H1). change (func (set data (locate (data_of_slot i)) m)) with (func m). rewrite Hf.
  destruct (omx_ioctl _ _ _ _) as [[res d']|]; cbn [mbind option_bind]; [|done]. split; [done|by apply response_updated].
Qed.
Lemma misc_gives i r m d : get_slot i r = m -> gives i r (omx_xenback_process_misc (func m) i i r d) (serve_misc m d).
Proof.
  intros Hm. pose proof (updated_same i r) as H0. rewrite Hm in H0.
  assert (Hset : forall f x, f m = x -> updated i x r (on_entry i f r)) by (intros f x <-; by apply on_entry_again).
  unfold omx_xenback_process_misc, serve_misc, omx_xenback_get_endpoint, answer_region. rewrite !Hm.
  destruct (func m) eqn:Hf; try done; cbn [mbind option_bind];
    try (split; [done|]; apply Hset; rewrite <- Hf; by destruct m).
  1-3: destruct (omx_peer_lookup _ _ _) as [[res info]|]; cbn [mbind option_bind]; [|done]; split; [done|];
    destruct (res <? 0); [rewrite Hm; apply Hset; by destruct m|];
    pose proof (on_entry_again i (fun m => m <| data := Peer_info info |>) _ _ _ H0) as H1; set (r1 := on_entry i _ r) in *; clearbody r1;
    rewrite (up_slot _ _ _ _ H1); (eapply updated_eq; [|apply on_entry_again, H1]); by destruct m.
  - destruct (endpoint_at _ _) as [ep|]; cbn [mbind option_bind]; [|done]. split; [done|]. apply response_updated. by apply on_entry_again.
  - destruct (omx_iface_set_hostname _ _ _) as [[res d']|]; cbn [mbind option_bind]; [|done]. split; [done|]. apply Hset. rewrite <- Hf. by destruct m.
  - destruct (endpoint_at _ _) as [ep|]; cbn [mbind option_bind]; [|done]. destruct (omx_iface_get_info _ _) as [res info].
    split; [done|]. apply response_updated. destruct (res <? 0); [done|]. by apply on_entry_again.
  - destruct (omx_xen_endpoint_open _ _) as [[res d']|]; cbn [mbind option_bind]; [|done]. split; [done|].
    pose proof (on_entry_again i (fun m => m <| func := OMX_CMD_XEN_OPEN_ENDPOINT |>) _ _ _ H0) as H1. set (r1 := on_entry i _ r) in *. clearbody r1.
    rewrite (up_slot _ _ _ _ H1). set (r2 := on_entry i _ r1).
    assert (H2 : updated i (m <| data ::= (fun p => Endpoint_message (endpoint p)) |>) r r2).
    { eapply updated_eq; [|apply on_entry_again, H1]. rewrite <- Hf. destruct m as [f b e q t p].
      assert (E : EndpointMsg (em_endpoint (endpoint p)) (em_session_id (endpoint p)) (em_endpoint_gref (endpoint p)) = endpoint p)
        by by destruct (endpoint p).
      transitivity (Message (board_info:=board_info) (endpoint_info:=endpoint_info) f b e q t (Endpoint_message (EndpointMsg (em_endpoint (endpoint p)) (em_session_id (endpoint p)) (em_endpoint_gref (endpoint p))))); [done|].
      by rewrite E. }
    clearbody r2. rewrite (up_slot _ _ _ _ H2). eapply updated_eq; [|apply on_entry_again, H2]. by destruct m.
  - destruct (omx_xen_endpoint_close _ _) as [[res d']|]; cbn [mbind option_bind]; [|done]. split; [done|]. apply Hset. rewrite <- Hf. by destruct m.
  - destruct (process_create _ _) as [[[c e] d']|]; cbn [mbind option_bind]; [|done]. split; [done|]. apply Hset. rewrite <- Hf. by destruct m.
  - destruct (process_destroy _ _) as [[[c e] d']|]; cbn [mbind option_bind]; [|done]. split; [done|]. apply Hset. rewrite <- Hf. by destruct m.
Qed.
Lemma message_gives i r m d : get_slot i r = m ->
  gives i r (if is_misc (func m) then omx_xenback_process_misc (func m) i i r d else omx_xenback_process_specific data_of_slot (func m) i i r d)
    (serve (data_of_slot i) m d).
Proof. intros H. unfold serve. destruct (is_misc (func m)); [by apply misc_gives|by apply send_gives]. Qed.

(** The answers take the place of the requests: nothing of the other slots and
    indexes changes. *)
Definition same_others r r' : Prop :=
  req_prod r' = req_prod r /\ rsp_prod r' = rsp_prod r /\ req_prod_pvt r' = req_prod_pvt r /\ rsp_cons r' = rsp_cons r /\ req_cons r' = req_cons r.
Lemma updated_others i m r r' : updated i m r r' -> same_others r r' /\ rsp_prod_pvt r' = rsp_prod_pvt r.
Proof. intros H. pose proof (up_indexes _ _ _ _ H) as E. destruct r, r'. cbn in *. injection E as <- <- <- <- <- <- <- <-. done. Qed.
Lemma others_trans r r' r'' : same_others r r' -> same_others r' r'' -> same_others r r''.
Proof. unfold same_others. intuition congruence. Qed.
Definition not_null m : Prop := func m <> OMX_CMD_OTHER 0.
Definition served (b : Z) (pre post : list message) (n : nat) r (x : option (bool * ring message * D)) (y : option (list message * D)) : Prop :=
  match x, y with
  | None, None => True
  | Some (all, r', d'), Some (l, d'') => all = true /\ d' = d'' /\ stored r' b (pre ++ l ++ post) /\
      rsp_prod_pvt r' = u32 (b + Z.of_nat (length pre + n)) /\ same_others r r'
  | _, _ => False
  end.
Lemma messages_served q : forall pre post r d b, stored r b (pre ++ q ++ post) -> Z.of_nat (length (pre ++ q ++ post)) <= RING_SIZE ->
  rsp_prod_pvt r = u32 (b + Z.of_nat (length pre)) -> Forall not_null q ->
  served b pre post (length q) r (process_messages data_of_slot (length q) (u32 (b + Z.of_nat (length pre))) r d)
    (serve_all (b + Z.of_nat (length pre)) q d).
Proof.
  induction q as [|m q IH]; intros pre post r d b Hs Hl Hp Hn; cbn [length process_messages serve_all].
  { split; [done|]. split; [done|]. rewrite Nat.add_0_r. done. }
  apply Forall_cons in Hn as [Hm Hn]. set (c := b + Z.of_nat (length pre)) in *.
  assert (Hc : cons_overflow (u32 c) r = false).
  { unfold cons_overflow. rewrite Hp, Z.sub_diag. apply Z.leb_gt. exact size_pos. }
  rewrite Hc. assert (Hg : get_slot (u32 c) r = m) by (apply stored_drop in Hs; by apply stored_head in Hs).
  rewrite Hg, bool_decide_eq_false_2 by done. rewrite Hp.
  assert (Hg' : get_slot (u32 c) (r <| rsp_prod_pvt := u32 (u32 c + 1) |>) = m) by (rewrite <- Hg; by destruct r).
  pose proof (message_gives (u32 c) _ m d Hg') as H. unfold gives in H.
  destruct (if is_misc (func m) then _ else _) as [[[res r'] d']|]; destruct (serve _ m d) as [[a d'']|]; cbn [mbind option_bind]; try done.
  destruct H as [-> Hu]. destruct (updated_others _ _ _ _ Hu) as [Ho Hpv].
  assert (Hs' : stored r' b (pre ++ a :: q ++ post)).
  { eapply (stored_middle _ _ _ m); [|exact Hl|exact Hu]. apply (stored_entries r); [by destruct r|exact Hs]. }
  specialize (IH (pre ++ [a]) post r' d'' b).
  assert (E : u32 (u32 c + 1) = u32 (b + Z.of_nat (length (pre ++ [a])))) by (rewrite u32_add_1, length_app; cbn; unfold c; f_equal; lia).
  assert (E' : c + 1 = b + Z.of_nat (length (pre ++ [a]))) by (rewrite length_app; cbn; unfold c; lia).
  rewrite E, E'. rewrite <- !(assoc_L (++)) in IH. cbn [app] in IH.
  specialize (IH Hs'). rewrite !length_app in Hl. cbn [length] in Hl. rewrite ?length_app in Hl.
  unfold served in IH |- *. destruct (process_messages _ _ _ r' d'') as [[[all r2] d2]|]; destruct (serve_all _ q d'') as [[l d3]|];
    cbn [mbind option_bind]; try (apply IH; try done; [rewrite length_app; cbn; rewrite length_app; lia|by rewrite Hpv, <- E; destruct r]).
  destruct IH as (-> & -> & Hs2 & Hp2 & Ho2); [rewrite length_app; cbn; rewrite length_app; lia|by rewrite Hpv, <- E; destruct r|done|].
  rewrite <- !(assoc_L (++)) in Hs2. split_and!; try done.
  - rewrite Hp2. f_equal. rewrite length_app. cbn. lia.
  - apply (others_trans r r' r2); [|done]. destruct Ho as (?&?&?&?&?). by destruct r.
Qed.

(** The requests that are there are answered. *)
Lemma process_message_served r b a q h d : carried r b a q h -> Forall not_null q ->
  match omx_xen_process_message data_of_slot r d, serve_all (b + Z.of_nat (length a)) q d with
  | None, None => True
  | Some (r', d'), Some (l, d'') => d' = d'' /\ carried (snd (push_responses r')) b (a ++ l) [] h
  | _, _ => False
  end.
Proof.
  intros Hc Hn. pose proof Hc as [H1 H2 H3 H4 H5 H6 H7 H8]. unfold omx_xen_process_message.
  rewrite (carried_nr_requests _ _ _ _ _ Hc), H4.
  pose proof (messages_served q a h r d b H8 H7 H3 Hn) as H. unfold served in H.
  destruct (process_messages _ _ _ r d) as [[[all r'] d']|]; destruct (serve_all _ q d) as [[l d'']|] eqn:E; cbn [mbind option_bind]; try done.
  destruct H as (-> & -> & Hs & Hp & (O1 & O2 & O3 & O4 & O5)). split; [done|].
  apply length_serve_all in E. apply (answer_carried r _ b a q l h); [done|done| |destruct r'; done..| | |].
  - apply (stored_entries r'); [by destruct r'|done].
  - rewrite length_app, <- Hp. by destruct r'.
  - by destruct r'.
  - by destruct r'.
Qed.
Lemma poll_idle fuel : forall idle sent r d, has_requests r = false -> (Z.to_nat idle < fuel)%nat ->
  poll_requests data_of_slot fuel idle sent r d = Some (Some (sent, r, d)).
Proof.
  induction fuel as [|fuel IH]; intros idle sent r d Hr Hf; cbn [poll_requests]; [lia|]. rewrite Hr.
  destruct (Z.leb_spec idle 0); [done|]. apply IH; [done|lia].
Qed.
Definition answered (b : Z) (a q h : list message) d (x : option (option (Z * ring message * D))) : Prop :=
  match x, serve_all (b + Z.of_nat (length a)) q d with
  | Some None, None => True
  | Some (Some (_, r', d')), Some (l, d'') => d' = d'' /\ carried r' b (a ++ l) [] h
  | _, _ => False
  end.
Lemma poll_served fuel idle sent r b a q h d : carried r b a q h -> Forall not_null q -> (Z.to_nat idle + 1 < fuel)%nat ->
  answered b a q h d (poll_requests data_of_slot fuel idle sent r d).
Proof.
  intros Hc Hn Hf. unfold answered. destruct (decide (q = [])) as [->|Hq].
  { rewrite poll_idle by (lia || by rewrite (carried_has_requests _ _ _ _ _ Hc)). cbn. by rewrite app_nil_r. }
  destruct fuel as [|fuel]; [lia|]. cbn [poll_requests]. rewrite (carried_has_requests _ _ _ _ _ Hc), bool_decide_eq_false_2 by done. cbn [negb].
  pose proof (process_message_served _ _ _ _ _ d Hc Hn) as H.
  destruct (omx_xen_process_message _ r d) as [[r' d']|]; destruct (serve_all _ q d) as [[l d'']|]; try done.
  destruct H as [-> H]. destruct (push_responses r') as [notify r'']. cbn [snd] in H.
  rewrite poll_idle by (lia || by rewrite (carried_has_requests _ _ _ _ _ H)). done.
Qed.
(** The handler serves the queue and comes back. *)
Lemma handler_served passes fuel sent r b a q h d : carried r b a q h -> Forall not_null q ->
  (passes <> 0)%nat -> (Z.to_nat OMX_XEN_BACKEND_TIMEOUT + 1 < fuel)%nat ->
  answered b a q h d (msg_workq_handler data_of_slot passes fuel sent r d).
Proof.
  intros Hc Hn Hp Hf. destruct passes as [|passes]; [done|]. unfold msg_workq_handler. cbn [again].
  pose proof (poll_served fuel OMX_XEN_BACKEND_TIMEOUT sent r b a q h d Hc Hn Hf) as H. unfold answered in *.
  destruct (poll_requests _ _ _ _ r d) as [[[[sent' r'] d']|]|]; [|done|done]. cbn [mbind option_bind].
  destruct (serve_all _ q d) as [[l d'']|]; [|done]. destruct H as [-> H].
  pose proof (requests_event r' b (a ++ l) [] h (u32 (req_cons r' + 1)) H) as H'. unfold final_check_requests.
  by rewrite (carried_has_requests _ _ _ _ _ H), (carried_has_requests _ _ _ _ _ H').
Qed.
(** When it comes back it asks to be woken up by the next request. *)
Definition asleep r : Prop := req_event r = u32 (req_cons r + 1).
Lemma handler_asleep passes fuel : forall idle sent r d sent' r' d',
  again data_of_slot passes fuel idle sent r d = Some (Some (sent', r', d')) -> asleep r'.
Proof.
  induction passes as [|passes IH]; intros idle sent r d sent' r' d'; cbn [again]; [done|].
  destruct (poll_requests _ _ _ _ r d) as [[[[s1 r1] d1]|]|]; cbn [mbind option_bind]; [|done|done].
  unfold final_check_requests. destruct (has_requests r1); [apply IH|].
  destruct (has_requests _); [apply IH|]. intros [= _ <- _]. by destruct r1.
Qed.
(** A request without a function keeps the handler for ever. *)
Lemma null_not_processed r d : rsp_prod_pvt r = req_cons r -> func (get_slot (req_cons r) r) = OMX_CMD_OTHER 0 ->
  u32 (req_prod r - req_cons r) <> 0 -> omx_xen_process_message data_of_slot r d = Some (r, d).
Proof.
  intros Hp Hf Hn. unfold omx_xen_process_message. pose proof (u32_range (req_prod r - req_cons r)).
  destruct (Z.to_nat _) as [|n] eqn:E; [lia|]. cbn [process_messages]. unfold cons_overflow. rewrite Hp, Z.sub_diag.
  rewrite (proj2 (Z.leb_gt _ _)) by exact size_pos. rewrite Hf, bool_decide_eq_true_2 by done. done.
Qed.
Lemma null_request_spins fuel : forall idle sent r d, rsp_prod_pvt r = req_cons r -> func (get_slot (req_cons r) r) = OMX_CMD_OTHER 0 ->
  u32 (req_prod r - req_cons r) <> 0 -> has_requests r = true -> poll_requests data_of_slot fuel idle sent r d = None.
Proof.
  induction fuel as [|fuel IH]; intros idle sent r d Hp Hf Hn Hr; cbn [poll_requests]; [done|].
  rewrite Hr, null_not_processed by done. cbn [push_responses]. apply IH; destruct r; done.
Qed.
(** A request without a function code stops the backend: the work of its
    queue never ends, whatever is behind the request. *)
Lemma null_request_hangs passes fuel sent r b a m q h d : carried r b a (m :: q) h -> func m = OMX_CMD_OTHER 0 ->
  msg_workq_handler data_of_slot passes fuel sent r d = None.
Proof.
  intros Hc Hm. pose proof Hc as [H1 H2 H3 H4 H5 H6 H7 H8]. unfold msg_workq_handler. destruct passes as [|passes]; [done|]. cbn [again].
  rewrite null_request_spins; [done|by rewrite H3, H4| | |by rewrite (carried_has_requests _ _ _ _ _ Hc)].
  - rewrite H4. apply stored_drop in H8. by rewrite (stored_head _ _ _ _ H8).
  - pose proof (carried_nr_requests _ _ _ _ _ Hc) as Hn. intros E. by rewrite E in Hn.
Qed.
End served.
End XenServed.
