(* ===== verification/XenCalls.v ===== *)
(** The calls of a guest are remote procedure calls: whatever the interleaving
    of its processes, of the backend and of the answers, each call is executed
    once, in the order in which it took its slot, and returns what its own
    execution gave. *)
From S2P Require Import Prelude Io World Event Peer Reg Pull Wire Host SendMsg PeerTable Crossing XenGrant XenReg XenRing XenRingFifo XenFront XenServe XenServed.
Import Host Crossing XenRing XenRingFifo XenFront XenServe XenServed.

Module XenCalls.

Section calls.
Context {macros : RingMacros} {laws : RingLaws macros} {board_info endpoint_info : Type}.
#[local] Notation message := (@message board_info endpoint_info).
#[local] Notation payload := (@payload board_info endpoint_info).
#[local] Notation link := (@link board_info endpoint_info).
#[local] Notation guest_endpoint := (@guest_endpoint endpoint_info).
#[local] Notation front := (@omx_xenfront_info board_info endpoint_info).
Context {views : Views (board_info:=board_info) (endpoint_info:=endpoint_info)}.
Context {D : Type} {driver : Driver (board_info:=board_info) (endpoint_info:=endpoint_info) D}.
Context (data_of_slot : Z -> Z) (torn : payload -> payload) (behind : payload -> list Z) (umem : Z -> option Z).

(** ** The calls *)

(** A call of a process, with its argument when it can be read. *)
Inductive request :=
  | ReqTiny (uparam : Z) (c : option SendMsg.send_cmd) | ReqSmall (c : option SendMsg.send_cmd)
  | ReqMediumsq (c : option SendMsg.send_cmd) | ReqNotify (c : option SendMsg.send_cmd) | ReqRndv (c : option SendMsg.send_cmd)
  | ReqConnect (reply : bool) (c : option SendMsg.connect_cmd) | ReqLiback (c : option SendMsg.liback_cmd)
  | ReqPull (c : option Pull.cmd_pull).
Definition issue (g : guest_endpoint) (rq : request) (l : link) : (Z + call) * link :=
  match rq with
  | ReqTiny uparam c => omx_ioctl_xen_send_tiny torn behind umem uparam g c l
  | ReqSmall c => omx_ioctl_xen_send_small torn behind umem g c l
  | ReqMediumsq c => omx_ioctl_xen_send_mediumsq_frag torn behind g c l
  | ReqNotify c => omx_ioctl_xen_send_notify torn g c l
  | ReqRndv c => omx_ioctl_xen_send_rndv torn g c l
  | ReqConnect false c => omx_ioctl_xen_send_connect_request torn g c l
  | ReqConnect true c => omx_ioctl_xen_send_connect_reply torn g c l
  | ReqLiback c => omx_ioctl_xen_send_liback torn g c l
  | ReqPull c => omx_ioctl_xen_pull torn g c l
  end.
Definition function_of (rq : request) : cmd_func :=
  match rq with
  | ReqTiny _ _ => OMX_CMD_SEND_TINY | ReqSmall _ => OMX_CMD_SEND_SMALL | ReqMediumsq _ => OMX_CMD_SEND_MEDIUMSQ_FRAG
  | ReqNotify _ => OMX_CMD_SEND_NOTIFY | ReqRndv _ => OMX_CMD_SEND_RNDV
  | ReqConnect false _ => OMX_CMD_SEND_CONNECT_REQUEST | ReqConnect true _ => OMX_CMD_SEND_CONNECT_REPLY
  | ReqLiback _ => OMX_CMD_SEND_LIBACK | ReqPull _ => OMX_CMD_PULL
  end.
(** What the guest's driver does of it: it refuses it, or sends a command, which
    it has made one for the network, with the error of the call if it fails. *)
Definition sent {A} (fail : Z) (member : A -> payload) (c : option A) : Z + Z * payload :=
  match c with None => inl EFAULT | Some c => inr (fail, member c) end.
Definition small_data (fail : Z) (member : list Z -> payload) (addr length : Z) : Z + Z * payload :=
  match SendMsg.copy_from_user umem addr (Z.to_nat length) with None => inl EFAULT | Some bytes => inr (fail, member bytes) end.
Definition decision (rq : request) : Z + Z * payload :=
  match rq with
  | ReqTiny _ None | ReqSmall None | ReqMediumsq None => inl EFAULT
  | ReqTiny uparam (Some c) =>
      let length := u8 (SendMsg.sc_length c) in
      if World.OMX_TINY_MSG_LENGTH_MAX <? length then inl EINVAL
      else small_data EINVAL (Command (CmdTiny (not_shared c))) (uparam + 24) length
  | ReqSmall (Some c) =>
      if World.OMX_SMALL_MSG_LENGTH_MAX <? SendMsg.sc_length c then inl EINVAL
      else small_data EFAULT (Command (CmdSmall (not_shared c))) (SendMsg.sc_vaddr c) (SendMsg.sc_length c)
  | ReqMediumsq (Some c) =>
      if (2 ^ World.OMX_SENDQ_ENTRY_SHIFT <? SendMsg.sc_frag_length c) || (SENDQ_SIZE <=? SendMsg.sc_sendq_offset c) then inl EINVAL
      else inr (EFAULT, Command (CmdMediumsq (not_shared c)) [])
  | ReqNotify c => sent EFAULT (fun c => Command (CmdNotify (not_shared c)) []) c
  | ReqRndv c => sent EINVAL (fun c => Command (CmdRndv (not_shared c)) []) c
  | ReqConnect reply c => sent EFAULT (fun c => Command (CmdConnect reply (not_shared_connect c)) []) c
  | ReqLiback c => sent EFAULT (fun c => Command (CmdLiback (not_shared_liback c)) []) c
  | ReqPull c => sent EFAULT (fun c => Pulling (not_shared_pull c)) c
  end.

(** ** The machine

    Calls have serial numbers.  The machine has the answers, the requests that
    are published and the slots that are taken only; the status of each call,
    and the state of the backend's host. *)
Record calls := Calls { issued : Z; answers : list message; queue : list message; held : list message; status : Z -> Z; host_state : D }.
Definition in_flight (s : calls) : Z := Z.of_nat (length (answers s ++ queue s ++ held s)).
Inductive op := Issue (g : guest_endpoint) (rq : request) | Serve | Answer | Return (serial fail : Z).
Inductive out := Issued (r : Z + call) | Served | Answered | Returned (r : option Z).
Definition recent (serial : Z) (s : calls) : Prop := issued s - OMX_MAX_INFLIGHT_REQUESTS <= serial < issued s.

(** The message of a call, what the slot had kept apart. *)
Record message_of (serial : Z) (g : guest_endpoint) (rq : request) (m : message) : Prop := {
  mo_func : func m = function_of rq; mo_board : board_index m = g_board_index g; mo_eid : eid m = g_endpoint_index g;
  mo_id : request_id m = serial mod OMX_MAX_INFLIGHT_REQUESTS }.
(** The answers settle the calls, from the serial number [n], of the endpoints
    that are open. *)
Fixpoint settle_all (open : Z -> bool) (n : Z) (l : list message) (st : Z -> Z) : Z -> Z :=
  match l with
  | [] => st
  | m :: l =>
      settle_all open (n + 1) l
        (if open (eid m) then <[n := if failed m then OMX_XEN_FRONTEND_STATUS_FAILED else OMX_XEN_FRONTEND_STATUS_DONE]> st else st)
  end.
Definition returned (fail st : Z) : option Z :=
  if st =? OMX_XEN_FRONTEND_STATUS_DOING then None else Some (if st =? OMX_XEN_FRONTEND_STATUS_DONE then 0 else fail).

(** A refused call keeps its slot; the next one that is accepted publishes it
    too. *)
Inductive step (open : Z -> bool) : calls -> op -> out -> calls -> Prop :=
  | step_accept n a q h st d g rq fail p m : decision rq = inr (fail, p) -> message_of n g rq m -> data m = p ->
      step open (Calls n a q h st d) (Issue g rq) (Issued (inr (Call (n mod OMX_MAX_INFLIGHT_REQUESTS) fail)))
        (Calls (n + 1) a (q ++ h ++ [m]) [] (<[n := OMX_XEN_FRONTEND_STATUS_DOING]> st) d)
  | step_refuse n a q h st d g rq err m : decision rq = inl err -> message_of n g rq m ->
      step open (Calls n a q h st d) (Issue g rq) (Issued (inl err))
        (Calls (n + 1) a q (h ++ [m]) (<[n := OMX_XEN_FRONTEND_STATUS_DOING]> st) d)
  | step_serve n a q h st d l d' :
      serve_all data_of_slot (n - Z.of_nat (length (q ++ h))) q d = Some (l, d') ->
      step open (Calls n a q h st d) Serve Served (Calls n (a ++ l) [] h st d')
  | step_answer n a q h st d :
      step open (Calls n a q h st d) Answer Answered
        (Calls n [] q h (settle_all open (n - Z.of_nat (length (a ++ q ++ h))) a st) d)
  | step_return n a q h st d serial fail :
      step open (Calls n a q h st d) (Return serial fail) (Returned (returned fail (st serial))) (Calls n a q h st d).

(** ** The drivers *)

Definition world : Type := link * D.
Definition call_return (c : call) (l : link) : option Z :=
  let st := requests (fe l) (c_id c) in
  waited ← wait_for_backend_response [st] OMX_XEN_FRONTEND_STATUS_DOING 0; Some (finish_call c waited st).
(** [fuel] is for the backend's handler. *)
Definition impl_step (fuel : nat) (o : op) (w : world) : option (out * world) :=
  let '(l, d) := w in
  match o with
  | Issue g rq => let '(r, l) := issue g rq l in Some (Issued r, (l, d))
  | Serve =>
      res ← omx_xenif_be_int data_of_slot 1 fuel (to_domU l) (requests_ring l) d;
      '(sent, r, d) ← res;
      Some (Served, (l <| requests_ring := r |> <| to_domU := sent |>, d))
  | Answer => l ← omx_xenif_interrupt 1 l; Some (Answered, (l, d))
  | Return serial fail => Some (Returned (call_return (Call (serial mod OMX_MAX_INFLIGHT_REQUESTS) fail) l), w)
  end.

(** *** The guest takes a slot, writes it and maybe publishes it *)

Definition doing (n : Z) (f : front) : front := set_request (n mod OMX_MAX_INFLIGHT_REQUESTS) OMX_XEN_FRONTEND_STATUS_DOING f.
(** The index that the backend sees and the one it waits for stay, no event is
    sent. *)
Definition unseen (l0 l : link) : Prop :=
  req_prod (requests_ring l) = req_prod (requests_ring l0) /\ req_event (requests_ring l) = req_event (requests_ring l0) /\ to_dom0 l = to_dom0 l0.
Record taken (n : Z) (l0 l : link) (b : Z) (a q h : list message) (m : message) : Prop := {
  tk_ring : carried (requests_ring l) b a q (h ++ [m]);
  tk_fe : fe l = doing n (fe l0);
  tk_next : n = b + Z.of_nat (length (a ++ q ++ h));
  tk_unseen : unseen l0 l }.
Lemma id_of n : u32 (u32 (u32 n + 1) - 1) mod OMX_MAX_INFLIGHT_REQUESTS = n mod OMX_MAX_INFLIGHT_REQUESTS.
Proof.
  rewrite u32_sub_1. unfold u32, OMX_MAX_INFLIGHT_REQUESTS. rewrite Z.mod_mod by lia. apply Z.mod_mod_divide. by exists 65536.
Qed.
Lemma write_taken i g n f l b a q h m : taken n f l b a q h m -> i = u32 n -> taken n f (on_slot i g l) b a q h (g m).
Proof.
  intros [H1 H2 H3 H4] ->. unfold on_slot. split; [|done|done|by destruct l as [[]]]. subst n.
  change (requests_ring (l <| requests_ring ::= _ |>)) with (set_slot (u32 (b + Z.of_nat (length (a ++ q ++ h)))) (g (get_slot (u32 (b + Z.of_nat (length (a ++ q ++ h)))) (requests_ring l))) (requests_ring l)).
  destruct (write_carried _ _ _ _ _ _ _ _ H1 (updated_set _ (g m) _)) as [-> Hc]. exact Hc.
Qed.
Lemma start_taken cmd l b a q h : carried (requests_ring l) b a q h -> Z.of_nat (length (a ++ q ++ h)) < RING_SIZE ->
  let n := b + Z.of_nat (length (a ++ q ++ h)) in
  exists m l', start_misc cmd l = (u32 n, n mod OMX_MAX_INFLIGHT_REQUESTS, l') /\ taken n l l' b a q h m /\
    func m = cmd /\ request_id m = n mod OMX_MAX_INFLIGHT_REQUESTS.
Proof.
  intros Hc Hr n. pose proof (ca_req_pvt _ _ _ _ _ Hc) as Hp. fold n in Hp. unfold start_misc, omx_ring_get_request.
  set (l1 := l <| requests_ring ::= set req_prod_pvt (fun p => u32 (p + 1)) |>).
  assert (E1 : req_prod_pvt (requests_ring l1) = u32 (u32 n + 1)) by (rewrite <- Hp; done).
  set (l2 := l1 <| fe ::= _ |>). change (requests_ring l2) with (requests_ring l1). rewrite E1, id_of, Hp.
  assert (E2 : fe l2 = doing n (fe l)) by (unfold l2; rewrite E1, id_of; done).
  assert (E3 : requests_ring l2 = take_slot (requests_ring l)) by done.
  assert (E4 : to_dom0 l2 = to_dom0 l) by done. clearbody l1 l2.
  set (k := n mod OMX_MAX_INFLIGHT_REQUESTS). set (m0 := get_slot (u32 n) (requests_ring l2)).
  exists (m0 <| request_id := k |> <| func := cmd |>). eexists. split; [reflexivity|]. split; [|done].
  split; [|exact E2|done|unfold unseen; change (requests_ring (on_slot _ _ l2)) with (set_slot (u32 n) (m0 <| request_id := k |> <| func := cmd |>) (requests_ring l2)); rewrite E3; split; [done|]; split; [done|exact E4]].
  apply (take_carried (requests_ring l) b a q h); [done|done|]. rewrite Hp, <- E3.
  exact (updated_set (u32 n) (m0 <| request_id := k |> <| func := cmd |>) (requests_ring l2)).
Qed.
Lemma request_taken cmd g l b a q h : carried (requests_ring l) b a q h -> Z.of_nat (length (a ++ q ++ h)) < RING_SIZE ->
  let n := b + Z.of_nat (length (a ++ q ++ h)) in
  exists m l', start_request cmd g l = (u32 n, n mod OMX_MAX_INFLIGHT_REQUESTS, l') /\ taken n l l' b a q h m /\
    func m = cmd /\ request_id m = n mod OMX_MAX_INFLIGHT_REQUESTS /\ board_index m = g_board_index g /\ eid m = g_endpoint_index g.
Proof.
  intros Hc Hr n. destruct (start_taken cmd l b a q h Hc Hr) as (m & l' & E & Ht & Hf & Hi). unfold start_request. rewrite E.
  exists (to_endpoint g m), (on_slot (u32 n) (to_endpoint g) l'). split; [done|]. split; [by apply write_taken|done].
Qed.
(** The end of an accepted call. *)
Record published (n : Z) (l0 l : link) (b : Z) (a q : list message) : Prop := {
  pb_ring : carried (requests_ring l) b a q [];
  pb_fe : fe l = doing n (fe l0);
  pb_event : to_dom0 l = to_dom0 l0 +
    (if push_notify (req_prod (requests_ring l0)) (req_prod (requests_ring l)) (req_event (requests_ring l0)) then 1 else 0) }.
Lemma poke_published cmd n f l b a q h m : is_recv cmd = false -> taken n f l b a q h m ->
  published n f (omx_poke_dom0 cmd l) b a (q ++ h ++ [m]).
Proof.
  intros Hr [H1 H2 _ (H3 & H4 & H5)]. unfold omx_poke_dom0. rewrite Hr. pose proof (push_carried _ _ _ _ _ H1) as Hc.
  unfold push_requests in *. split; [done|done|]. rewrite <- H3, <- H4, <- H5.
  change (req_prod (requests_ring (_ <| to_dom0 ::= _ |>))) with (req_prod_pvt (requests_ring l)).
  destruct (push_notify _ _ _); [done|]. rewrite Z.add_0_r. done.
Qed.
Lemma message_written n g rq m p : message_of n g rq m -> message_of n g rq (set data p m).
Proof. intros [H1 H2 H3 H4]. by split. Qed.

(** What the call does with the ring. *)
Definition issued_as (n : Z) (g : guest_endpoint) (rq : request) (f : link) (b : Z) (a q h : list message) (res : (Z + call) * link) : Prop :=
  exists m, message_of n g rq m /\
    match decision rq with
    | inl err => fst res = inl err /\ taken n f (snd res) b a q h m
    | inr (fail, p) => fst res = inr (Call (n mod OMX_MAX_INFLIGHT_REQUESTS) fail) /\ data m = p /\
        published n f (snd res) b a (q ++ h ++ [m])
    end.
Lemma refused_as n g rq f b a q h m i err p l : taken n f l b a q h m -> message_of n g rq m -> i = u32 n -> decision rq = inl err ->
  issued_as n g rq f b a q h (inl err, write i p l).
Proof.
  intros Ht Hm Hi E. exists (set data p m). split; [by apply message_written|]. rewrite E. split; [done|]. by apply write_taken.
Qed.
Lemma accepted_as cmd n g rq f b a q h m i fail p l : is_recv cmd = false -> taken n f l b a q h m -> message_of n g rq m -> i = u32 n ->
  decision rq = inr (fail, p) ->
  issued_as n g rq f b a q h (send_request cmd (n mod OMX_MAX_INFLIGHT_REQUESTS) fail (write i (fun _ => p) l)).
Proof.
  intros Hr Ht Hm Hi E. exists (set data (fun _ => p) m). split; [by apply message_written|]. rewrite E. split; [done|]. split; [done|].
  apply poke_published; [done|]. by apply write_taken.
Qed.
Lemma forward_as {A} cmd fail (member : A -> payload) (off : A -> A) g arg rq l b a q h : is_recv cmd = false -> function_of rq = cmd ->
  decision rq = sent fail (fun c => member (off c)) arg -> carried (requests_ring l) b a q h -> Z.of_nat (length (a ++ q ++ h)) < RING_SIZE ->
  issued_as (b + Z.of_nat (length (a ++ q ++ h))) g rq l b a q h (forward torn cmd fail member off g arg l).
Proof.
  intros Hr Hf Hd Hc Hl. destruct (request_taken cmd g l b a q h Hc Hl) as (m & l' & E & Ht & Hm1 & Hm2 & Hm3 & Hm4).
  unfold forward. rewrite E. assert (Hm : message_of (b + Z.of_nat (length (a ++ q ++ h))) g rq m) by (split; congruence).
  destruct arg as [c|]; [|by eapply refused_as]. by eapply accepted_as.
Qed.
Lemma issue_as g rq l b a q h : carried (requests_ring l) b a q h -> Z.of_nat (length (a ++ q ++ h)) < RING_SIZE ->
  issued_as (b + Z.of_nat (length (a ++ q ++ h))) g rq l b a q h (issue g rq l).
Proof.
  intros Hc Hl.
  assert (Hst : exists m l', start_request (function_of rq) g l = (u32 (b + Z.of_nat (length (a ++ q ++ h))),
      (b + Z.of_nat (length (a ++ q ++ h))) mod OMX_MAX_INFLIGHT_REQUESTS, l') /\
    taken (b + Z.of_nat (length (a ++ q ++ h))) l l' b a q h m /\ message_of (b + Z.of_nat (length (a ++ q ++ h))) g rq m).
  { destruct (request_taken (function_of rq) g l b a q h Hc Hl) as (m & l' & E & Ht & Hm1 & Hm2 & Hm3 & Hm4). by exists m, l'. }
  destruct Hst as (m & l' & E & Ht & Hm). set (n := b + _) in *.
  destruct rq as [uparam c|c|c|c|c|reply c|c|c]; cbn [issue]; try (by apply forward_as).
  - unfold omx_ioctl_xen_send_tiny. cbn [function_of] in E. rewrite E. destruct c as [c|]; [|by eapply refused_as].
    pose proof (write_taken _ (set data (fun old => Command (CmdTiny c) (behind old))) _ _ _ _ _ _ _ _ Ht eq_refl) as Ht1. fold (write (u32 n) (fun old => Command (CmdTiny c) (behind old)) l') in Ht1.
    pose proof (message_written _ _ _ _ (fun old => Command (CmdTiny c) (behind old)) Hm) as Hm1.
    destruct (Z.ltb_spec World.OMX_TINY_MSG_LENGTH_MAX (u8 (SendMsg.sc_length c))) as [Hlen|Hlen].
    { eexists. split; [exact Hm1|]. cbn [decision]. rewrite (proj2 (Z.ltb_lt _ _)) by done. by split. }
    destruct (SendMsg.copy_from_user _ _ _) as [bytes|] eqn:Eb.
    + eapply accepted_as; [done|done|done|done|]. cbn [decision]. rewrite (proj2 (Z.ltb_ge _ _)) by done. unfold small_data. by rewrite Eb.
    + eapply refused_as; [done|done|done|]. cbn [decision]. rewrite (proj2 (Z.ltb_ge _ _)) by done. unfold small_data. by rewrite Eb.
  - unfold omx_ioctl_xen_send_small. cbn [function_of] in E. rewrite E. destruct c as [c|]; [|by eapply refused_as].
    pose proof (write_taken _ (set data (fun old => Command (CmdSmall c) (behind old))) _ _ _ _ _ _ _ _ Ht eq_refl) as Ht1. fold (write (u32 n) (fun old => Command (CmdSmall c) (behind old)) l') in Ht1.
    pose proof (message_written _ _ _ _ (fun old => Command (CmdSmall c) (behind old)) Hm) as Hm1.
    destruct (Z.ltb_spec World.OMX_SMALL_MSG_LENGTH_MAX (SendMsg.sc_length c)) as [Hlen|Hlen].
    { eexists. split; [exact Hm1|]. cbn [decision]. rewrite (proj2 (Z.ltb_lt _ _)) by done. by split. }
    pose proof (write_taken _ (set data (fun old => Command (CmdSmall (not_shared c)) (behind old))) _ _ _ _ _ _ _ _ Ht1 eq_refl) as Ht2.
    pose proof (message_written _ _ _ _ (fun old => Command (CmdSmall (not_shared c)) (behind old)) Hm1) as Hm2.
    destruct (SendMsg.copy_from_user _ _ _) as [bytes|] eqn:Eb.
    + eapply accepted_as; [done|exact Ht2|done|done|]. cbn [decision]. rewrite (proj2 (Z.ltb_ge _ _)) by done. unfold small_data. by rewrite Eb.
    + eapply refused_as; [exact Ht2|done|done|]. cbn [decision]. rewrite (proj2 (Z.ltb_ge _ _)) by done. unfold small_data. by rewrite Eb.
  - unfold omx_ioctl_xen_send_mediumsq_frag. cbn [function_of] in E. rewrite E. destruct c as [c|]; [|by eapply refused_as].
    pose proof (write_taken _ (set data (fun old => Command (CmdMediumsq c) (behind old))) _ _ _ _ _ _ _ _ Ht eq_refl) as Ht1.
    pose proof (message_written _ _ _ _ (fun old => Command (CmdMediumsq c) (behind old)) Hm) as Hm1.
    destruct (2 ^ World.OMX_SENDQ_ENTRY_SHIFT <? SendMsg.sc_frag_length c) eqn:E1.
    { eexists. split; [exact Hm1|]. cbn [decision]. rewrite E1. by split. }
    destruct (SENDQ_SIZE <=? SendMsg.sc_sendq_offset c) eqn:E2.
    { eexists. split; [exact Hm1|]. cbn [decision]. rewrite E1, E2. by split. }
    eapply accepted_as; [done|exact Ht1|done|done|]. cbn [decision]. by rewrite E1, E2.
  - destruct reply; by apply forward_as.
Qed.

(** *** The guest consumes the answers *)

Definition is_open (open : Z -> bool) (f : front) : Prop := forall e, open e = bool_decide (is_Some (endpoints f !! e)).
Definition statuses (n : Z) (st : Z -> Z) (f : front) : Prop :=
  forall k, n - OMX_MAX_INFLIGHT_REQUESTS <= k < n -> requests f (k mod OMX_MAX_INFLIGHT_REQUESTS) = st k.
Lemma mod_inj n k k' : n - OMX_MAX_INFLIGHT_REQUESTS <= k < n -> n - OMX_MAX_INFLIGHT_REQUESTS <= k' < n ->
  k mod OMX_MAX_INFLIGHT_REQUESTS = k' mod OMX_MAX_INFLIGHT_REQUESTS -> k = k'.
Proof. unfold OMX_MAX_INFLIGHT_REQUESTS. intros H H' E. Z.to_euclidean_division_equations. lia. Qed.
Lemma set_request_statuses n st f k x : statuses n st f -> n - OMX_MAX_INFLIGHT_REQUESTS <= k < n ->
  statuses n (<[k := x]> st) (set_request (k mod OMX_MAX_INFLIGHT_REQUESTS) x f).
Proof.
  intros H Hk k' Hk'. change (requests (set_request _ x f)) with (<[k mod OMX_MAX_INFLIGHT_REQUESTS := x]> (requests f)).
  destruct (decide (k = k')) as [->|Hne]; [by rewrite !fn_lookup_insert|].
  rewrite !fn_lookup_insert_ne; [by apply H|done|]. intros E. by apply Hne, (mod_inj n).
Qed.
(** A new call takes the status of an old one. *)
Lemma doing_statuses n st f : statuses n st f -> statuses (n + 1) (<[n := OMX_XEN_FRONTEND_STATUS_DOING]> st) (doing n f).
Proof.
  intros H k Hk. change (requests (doing n f)) with (<[n mod OMX_MAX_INFLIGHT_REQUESTS := OMX_XEN_FRONTEND_STATUS_DOING]> (requests f)).
  destruct (decide (k = n)) as [->|Hne]; [by rewrite !fn_lookup_insert|].
  rewrite !fn_lookup_insert_ne; [apply H; lia|done|]. intros E. apply Hne. symmetry. revert E. apply (mod_inj (n + 1)); unfold OMX_MAX_INFLIGHT_REQUESTS in *; lia.
Qed.
Lemma handled r open n l : forall c f st, stored r c l -> Forall (fun m => is_send (func m) = true) l ->
  (forall k m, l !! k = Some m -> request_id m = (c + Z.of_nat k) mod OMX_MAX_INFLIGHT_REQUESTS) -> is_open open f ->
  n - OMX_MAX_INFLIGHT_REQUESTS <= c -> c + Z.of_nat (length l) <= n -> statuses n st f ->
  exists f', handle_responses (length l) (u32 c) r f = inr f' /\ connected f' = connected f /\ endpoints f' = endpoints f /\
    statuses n (settle_all open c l st) f'.
Proof.
  induction l as [|m l IH]; intros c f st Hs Hf Hi Ho H1 H2 Hst; cbn [length handle_responses settle_all].
  { by exists f. }
  apply Forall_cons in Hf as [Hm Hf]. rewrite (stored_head _ _ _ _ Hs). unfold handle_response. rewrite Hm.
  cbn [length] in H2. rewrite u32_add_1. apply (stored_drop _ _ [m]) in Hs. change (Z.of_nat (length [m])) with 1 in Hs.
  assert (Hi' : forall k m, l !! k = Some m -> request_id m = (c + 1 + Z.of_nat k) mod OMX_MAX_INFLIGHT_REQUESTS).
  { intros k x Hk. rewrite (Hi (S k) x Hk). f_equal. lia. }
  unfold omx_xenfront_get_endpoint. rewrite (Ho (eid m)). destruct (endpoints f !! eid m) as [g|]; cbn.
  - destruct (IH (c + 1) (settle m f) (<[c := if failed m then OMX_XEN_FRONTEND_STATUS_FAILED else OMX_XEN_FRONTEND_STATUS_DONE]> st))
      as (f' & E & E1 & E2 & E3); [done|done|done|done|lia|lia| |by exists f'].
    unfold settle. specialize (Hi O m eq_refl). change (Z.of_nat 0) with 0 in Hi. rewrite Z.add_0_r in Hi. rewrite Hi.
    apply set_request_statuses; [done|lia].
  - destruct (IH (c + 1) f st) as (f' & E & E1 & E2 & E3); [done|done|done|done|lia|lia|done|by exists f'].
Qed.

(** ** Refinement *)

Definition base (s : calls) : Z := issued s - in_flight s.
Definition slots (s : calls) : list message := answers s ++ queue s ++ held s.
Record runs (open : Z -> bool) (w : world) (s : calls) : Prop := {
  ru_ring : carried (requests_ring (fst w)) (base s) (answers s) (queue s) (held s);
  ru_state : snd w = host_state s;
  ru_connected : connected (fe (fst w)) = true;
  ru_open : is_open open (fe (fst w));
  ru_sends : Forall (fun m => is_send (func m) = true) (slots s);
  ru_ids k m : slots s !! k = Some m -> request_id m = (base s + Z.of_nat k) mod OMX_MAX_INFLIGHT_REQUESTS;
  ru_status : statuses (issued s) (status s) (fe (fst w)) }.
(** At most as many calls at a time as the ring has slots, whose results are not
    asked for long after. *)
Definition allowed (o : op) (s : calls) : Prop :=
  match o with Issue _ _ => in_flight s < RING_SIZE | Return serial _ => recent serial s | _ => True end.

Lemma serve_keeps addr m d a d' : is_send (func m) = true -> serve addr m d = Some (a, d') -> func a = func m /\ request_id a = request_id m.
Proof.
  intros Hs. unfold serve. assert (is_misc (func m) = false) as -> by (by destruct (func m)). unfold serve_send.
  destruct (endpoint_at _ _) as [ep|]; cbn [mbind option_bind]; [|done].
  destruct (func m) eqn:Hf; try done;
    (destruct (omx_ioctl _ _ _ _) as [[res d1]|]; cbn [mbind option_bind]; [|done]; intros [= <- _]; by split).
Qed.
Lemma serve_all_keeps q : forall c d l d', Forall (fun m => is_send (func m) = true) q -> serve_all data_of_slot c q d = Some (l, d') ->
  Forall2 (fun m a => func a = func m /\ request_id a = request_id m) q l.
Proof.
  induction q as [|m q IH]; intros c d l d' Hq; cbn [serve_all]; [intros [= <- _]; constructor|].
  apply Forall_cons in Hq as [Hm Hq]. destruct (serve _ m d) as [[a d1]|] eqn:E1; cbn [mbind option_bind]; [|done].
  destruct (serve_all _ _ q d1) as [[l1 d2]|] eqn:E2; cbn [mbind option_bind]; [|done]. intros [= <- _].
  constructor; [by eapply serve_keeps|by eapply IH].
Qed.
Lemma keeps_lookup (q l p t : list message) : Forall2 (fun m a => func a = func m /\ request_id a = request_id m) q l ->
  Forall2 (fun m a => func a = func m /\ request_id a = request_id m) (p ++ q ++ t) (p ++ l ++ t).
Proof. intros H. apply Forall2_app; [by apply Forall_Forall2_diag, Forall_forall|]. apply Forall2_app; [done|by apply Forall_Forall2_diag, Forall_forall]. Qed.
Lemma send_not_null q : Forall (fun m => is_send (func m) = true) q -> Forall (@not_null board_info endpoint_info) q.
Proof. intros H. eapply Forall_impl; [exact H|]. intros m Hm E. cbv beta in Hm. by rewrite E in Hm. Qed.

Lemma issue_step open fuel g rq w s : runs open w s -> in_flight s < RING_SIZE ->
  exists x w', impl_step fuel (Issue g rq) w = Some (x, w') /\ exists s', step open s (Issue g rq) x s' /\ runs open w' s'.
Proof.
  intros [Hr Hd Hc Ho Hse Hi Hst] Hroom. destruct w as [l d]. destruct s as [n a q h st d0]. cbn in Hd. subst d0.
  unfold in_flight, base, slots in *. cbn [answers queue held issued status host_state fst snd] in *.
  pose proof (issue_as g rq l _ a q h Hr Hroom) as (m & Hm & H). cbn [impl_step].
  unfold in_flight in *. cbn [answers queue held] in *. rewrite Z.sub_add in H, Hm. destruct (issue g rq l) as [r l'] eqn:E.
  eexists _, _. split; [reflexivity|]. cbn [fst snd] in H.
  assert (Hlen : forall b : list message, n + 1 - Z.of_nat (length (b ++ [m])) = n - Z.of_nat (length b)) by (intros b; rewrite length_app; cbn; lia).
  assert (Hse' : Forall (fun m => is_send (func m) = true) ((a ++ q ++ h) ++ [m])).
  { apply Forall_app. split; [done|]. apply Forall_singleton. rewrite (mo_func _ _ _ _ Hm). by destruct rq as [| | | | |[]| |]. }
  assert (Hi' : forall k x, ((a ++ q ++ h) ++ [m]) !! k = Some x ->
    request_id x = (n - Z.of_nat (length (a ++ q ++ h)) + Z.of_nat k) mod OMX_MAX_INFLIGHT_REQUESTS).
  { intros k x Hk. destruct (decide (k = length (a ++ q ++ h))) as [->|Hne].
    - rewrite list_lookup_middle in Hk by done. injection Hk as <-. rewrite (mo_id _ _ _ _ Hm). f_equal. lia.
    - pose proof (lookup_lt_Some _ _ _ Hk) as Hlt. rewrite length_app in Hlt. cbn in Hlt. apply Hi. rewrite lookup_app_l in Hk by lia. done. }
  assert (Ha : (a ++ q ++ h) ++ [m] = a ++ (q ++ h ++ [m]) ++ [] /\ (a ++ q ++ h) ++ [m] = a ++ q ++ (h ++ [m]))
    by (rewrite app_nil_r; split; by rewrite <- !(assoc_L (++))).
  destruct (decision rq) as [err|[fail p]] eqn:Ed.
  - destruct H as [-> [T1 T2 _ _]]. eexists. split; [by eapply step_refuse|].
    split; cbn [fst snd answers queue held issued status host_state]; unfold base, slots, in_flight; cbn [answers queue held issued]; rewrite <- ?(proj2 Ha), ?Hlen; try done.
    + by rewrite T2.
    + intros e. rewrite T2. apply Ho.
    + rewrite T2. by apply doing_statuses.
  - destruct H as (-> & Hp & [T1 T2 _]). eexists. split; [by eapply step_accept|].
    split; cbn [fst snd answers queue held issued status host_state]; unfold base, slots, in_flight; cbn [answers queue held issued]; rewrite <- ?(proj1 Ha), ?Hlen; try done.
    + by rewrite T2.
    + intros e. rewrite T2. apply Ho.
    + rewrite T2. by apply doing_statuses.
Qed.
Lemma serve_step open fuel w s : runs open w s -> (Z.to_nat OMX_XEN_BACKEND_TIMEOUT + 1 < fuel)%nat ->
  match impl_step fuel Serve w with
  | Some (x, w') => exists s', step open s Serve x s' /\ runs open w' s'
  | None => serve_all data_of_slot (base s + Z.of_nat (length (answers s))) (queue s) (host_state s) = None
  end.
Proof.
  intros [Hr Hd Hc Ho Hse Hi Hst] Hfuel. destruct w as [l d]. destruct s as [n a q h st d0]. cbn in Hd. subst d0.
  unfold base, in_flight, slots in *. cbn [answers queue held issued status host_state fst snd] in *.
  assert (Hq : Forall (fun m => is_send (func m) = true) q) by (by apply Forall_app in Hse as [_ [? _]%Forall_app]).
  assert (Hrun : answered data_of_slot (n - Z.of_nat (length (a ++ q ++ h))) a q h d
    (omx_xenif_be_int data_of_slot 1 fuel (to_domU l) (requests_ring l) d)).
  { unfold omx_xenif_be_int. rewrite (carried_has_requests _ _ _ _ _ Hr). destruct (decide (q = [])) as [->|Hne].
    - cbn. unfold answered. cbn. by rewrite app_nil_r.
    - rewrite bool_decide_eq_false_2 by done. apply handler_served; [done|by apply send_not_null|done|done]. }
  unfold answered in Hrun. cbn [impl_step].
  destruct (omx_xenif_be_int _ _ _ _ _ d) as [[[[sent' r'] d']|]|]; cbn [mbind option_bind]; [| |done].
  2:{ by destruct (serve_all _ _ q d) as [[? ?]|]. }
  destruct (serve_all _ _ q d) as [[ans d'']|] eqn:E; [|done]. destruct Hrun as [-> Hr'].
  pose proof (serve_all_keeps _ _ _ _ _ Hq E) as Hk. pose proof (keeps_lookup _ _ a h Hk) as Hk'.
  pose proof (Forall2_length _ _ _ Hk') as Hlen.
  assert (Hpos : n - Z.of_nat (length (a ++ q ++ h)) + Z.of_nat (length a) = n - Z.of_nat (length (q ++ h))) by (rewrite (length_app a); lia).
  rewrite Hpos in E. eexists. split; [by eapply step_serve|].
  split; cbn [fst snd answers queue held issued status host_state]; unfold base, slots, in_flight; cbn [answers queue held issued app];
    rewrite <- ?(assoc_L (++) a), <- ?Hlen; try done.
  - apply (Forall2_Forall_r _ _ _ _ Hk'). eapply Forall_impl; [exact Hse|]. intros m Hm x [Hx _]. by rewrite Hx.
  - intros k x Hx. destruct (Forall2_lookup_r _ _ _ _ _ Hk' Hx) as (m & Hm & _ & ->). by apply Hi.
Qed.
Lemma interrupt_end l f r b a q h : carried r b a q h ->
  exists r', (let '(more, r') := final_check_responses (r <| rsp_cons := rsp_prod r |>) in
      let l := l <| fe := f |> <| requests_ring := r' |> in if (more : bool) then again_send 0 l else Some l) =
    Some (l <| fe := f |> <| requests_ring := r' |>) /\ carried r' (b + Z.of_nat (length a)) [] q h.
Proof.
  intros H%consume_carried. pose proof (responses_event _ _ _ _ _ (u32 (rsp_cons (r <| rsp_cons := rsp_prod r |>) + 1)) H) as H'.
  unfold final_check_responses. rewrite (carried_has_responses _ _ _ _ _ H), (carried_has_responses _ _ _ _ _ H').
  eexists. by split.
Qed.
Lemma answer_step open fuel w s : runs open w s ->
  exists x w', impl_step fuel Answer w = Some (x, w') /\ exists s', step open s Answer x s' /\ runs open w' s'.
Proof.
  intros [Hr Hd Hc Ho Hse Hi Hst]. destruct w as [l d]. destruct s as [n a q h st d0]. cbn in Hd. subst d0.
  unfold base, in_flight, slots in *. cbn [answers queue held issued status host_state fst snd] in *. set (c := n - _) in *.
  assert (Hlen : n - Z.of_nat (length (q ++ h)) = c + Z.of_nat (length a)) by (unfold c; rewrite (length_app a); lia).
  cbn [impl_step]. unfold omx_xenif_interrupt. rewrite Hc. cbn [negb]. rewrite (carried_has_responses _ _ _ _ _ Hr).
  assert (Hstep : step open (Calls n a q h st d) Answer Answered (Calls n [] q h (settle_all open c a st) d)) by apply step_answer.
  destruct (decide (a = [])) as [->|Hne].
  { cbn [mbind option_bind]. eexists _, _. split; [reflexivity|]. exists (Calls n [] q h st d). split; [exact Hstep|]. by split. }
  rewrite bool_decide_eq_false_2 by done. cbn [negb]. pose proof Hse as [Ha Hqh]%Forall_app.
  assert (Hroom := ca_room _ _ _ _ _ Hr). pose proof size_page as Hpage.
  destruct (handled (requests_ring l) open n a c (fe l) st) as (f' & E & E1 & E2 & E3); try done.
  { intros k x Hk. apply (ca_slots _ _ _ _ _ Hr). rewrite lookup_app_l; [done|]. by eapply lookup_lt_Some. }
  { intros k x Hk. apply Hi. rewrite lookup_app_l; [done|]. by eapply lookup_lt_Some. }
  { unfold c, OMX_MAX_INFLIGHT_REQUESTS. lia. }
  { unfold c. rewrite (length_app a). lia. }
  destruct (interrupt_end l f' _ _ _ _ _ Hr) as (r' & Er & Hr').
  assert (again_send 1 l = Some (l <| fe := f' |> <| requests_ring := r' |>)) as ->.
  { cbn [again_send]. rewrite (carried_nr_responses _ _ _ _ _ Hr), (ca_cons _ _ _ _ _ Hr), E. exact Er. }
  cbn [mbind option_bind].
  eexists _, _. split; [reflexivity|]. eexists. split; [exact Hstep|].
  split; cbn [fst snd answers queue held issued status host_state]; unfold base, slots, in_flight; cbn [answers queue held issued app];
    rewrite ?Hlen; try done.
  - by rewrite <- Hc, <- E1.
  - intros e. change (fe _) with f'. rewrite E2. apply Ho.
  - intros k x Hk. rewrite <- Z.add_assoc, <- Nat2Z.inj_add. apply Hi. rewrite lookup_app_r by lia. by rewrite Nat.add_comm, Nat.add_sub.
Qed.
Lemma return_step open fuel serial fail w s : runs open w s -> recent serial s ->
  exists x w', impl_step fuel (Return serial fail) w = Some (x, w') /\ exists s', step open s (Return serial fail) x s' /\ runs open w' s'.
Proof.
  intros Hrun Hs. pose proof (ru_status _ _ _ Hrun serial Hs) as Hst. destruct w as [l d], s as [n a q h st d0]. cbn [impl_step fst status] in *.
  eexists _, _. split; [reflexivity|]. exists (Calls n a q h st d0). split; [|done].
  assert (call_return (Call (serial mod OMX_MAX_INFLIGHT_REQUESTS) fail) l = returned fail (st serial)) as ->; [|apply step_return].
  unfold call_return. cbn [c_id]. rewrite Hst. unfold wait_for_backend_response, returned, finish_call. cbn [c_fail].
  by destruct (st serial =? OMX_XEN_FRONTEND_STATUS_DOING).
Qed.

(** A run of the drivers, which stops when the backend's host crashes. *)
Fixpoint impl_run (fuel : nat) (os : list op) (w : world) : list out * option world :=
  match os with
  | [] => ([], Some w)
  | o :: os =>
      match impl_step fuel o w with
      | None => ([], None)
      | Some (x, w) => let '(xs, w) := impl_run fuel os w in (x :: xs, w)
      end
  end.
Inductive steps (open : Z -> bool) : calls -> list op -> list out -> calls -> Prop :=
  | steps_nil s : steps open s [] [] s
  | steps_cons s o x s1 os xs s2 : step open s o x s1 -> steps open s1 os xs s2 -> steps open s (o :: os) (x :: xs) s2.
(** Every operation of [os] is allowed, whatever the machine does. *)
Fixpoint all_allowed (open : Z -> bool) (os : list op) (s : calls) : Prop :=
  match os with
  | [] => True
  | o :: os => allowed o s /\ forall x s', step open s o x s' -> all_allowed open os s'
  end.
(** The request that crashes the host of the backend. *)
Definition crashes (s : calls) : Prop :=
  serve_all data_of_slot (base s + Z.of_nat (length (answers s))) (queue s) (host_state s) = None.

(** C16. Whatever the interleaving of the calls of the guest's processes, of the
    backend's work queue and of the guest's interrupts, the outcomes are those
    of a machine without rings or indexes, which executes each request once, in
    the order of the slots, and gives each call its own result.  The backend's
    handler always comes back, unless a request crashes its host.  This holds for the
    interleavings that are [allowed]: when a call begins fewer calls are in flight
    than the ring has slots, and its result is asked for before 65536 more calls; and
    a call fills its slot and pushes it in one step ([Issue]).  The driver does not
    ensure this: [omx_ring_get_request] takes a slot without looking whether one is
    free and without a lock, and its comment allows 65536 requests at the same time
    (omx_xenfront.c:80-96). *)
Theorem guest_calls_refine open fuel os w s : runs open w s -> all_allowed open os s ->
  (Z.to_nat OMX_XEN_BACKEND_TIMEOUT + 1 < fuel)%nat ->
  let '(xs, w') := impl_run fuel os w in
  exists s', steps open s (take (length xs) os) xs s' /\
    match w' with Some w' => length xs = length os /\ runs open w' s' | None => os !! length xs = Some Serve /\ crashes s' end.
Proof.
  intros Hrun Hall Hfuel. revert w s Hrun Hall. induction os as [|o os IH]; intros w s Hrun Hall; cbn [impl_run].
  { exists s. split; [constructor|done]. }
  destruct Hall as [Ho Hall].
  assert (Hstep : match impl_step fuel o w with
    | Some (x, w') => exists s', step open s o x s' /\ runs open w' s' | None => o = Serve /\ crashes s end).
  { destruct o as [g rq| | |serial fail].
    - destruct (issue_step open fuel g rq w s Hrun Ho) as (x & w' & -> & H). exact H.
    - pose proof (serve_step open fuel w s Hrun Hfuel) as H. by destruct (impl_step _ _ _) as [[x w']|] eqn:E; [assert (x = Served) as -> by
        (clear -E; destruct w; cbn in E; destruct (omx_xenif_be_int _ _ _ _ _ _) as [[[[? ?] ?]|]|]; cbn in E; congruence)|].
    - destruct (answer_step open fuel w s Hrun) as (x & w' & -> & H). exact H.
    - destruct (return_step open fuel serial fail w s Hrun Ho) as (x & w' & -> & H). exact H. }
  destruct (impl_step fuel o w) as [[x w1]|].
  - destruct Hstep as (s1 & Hs & Hr1). specialize (IH w1 s1 Hr1 (Hall x s1 Hs)).
    destruct (impl_run fuel os w1) as [xs w']. destruct IH as (s' & Hss & Hend). exists s'. split; [by econstructor|].
    destruct w'; [destruct Hend as [E H]; split; [cbn; by rewrite E|done]|exact Hend].
  - destruct Hstep as [-> Hcr]. exists s. split; [constructor|by split].
Qed.

(** What is enough for the operations to be allowed: few calls, whose results are
    asked for soon. *)
Definition weight (o : op) : Z := match o with Issue _ _ => 1 | _ => 0 end.
Fixpoint soon (n : Z) (os : list op) : Prop :=
  match os with
  | [] => True
  | o :: os => match o with Return serial _ => n - OMX_MAX_INFLIGHT_REQUESTS <= serial < n | _ => True end /\ soon (n + weight o) os
  end.
Lemma step_counts open s o x s' : step open s o x s' -> issued s' = issued s + weight o /\ in_flight s' <= in_flight s + weight o.
Proof.
  intros H. destruct H; unfold in_flight; cbn [issued answers queue held weight]; split; try lia; rewrite ?length_app; cbn; rewrite ?length_app; cbn; try lia.
  match goal with H : serve_all _ _ _ _ = _ |- _ => apply length_serve_all in H end. lia.
Qed.
Lemma few_allowed open os : forall s, in_flight s + foldr (fun o n => weight o + n) 0 os <= RING_SIZE -> soon (issued s) os -> all_allowed open os s.
Proof.
  induction os as [|o os IH]; intros s Hf Hs; cbn [all_allowed foldr soon] in *; [done|]. destruct Hs as [Ho Hs].
  assert (0 <= foldr (fun o n => weight o + n) 0 os) by (clear; induction os as [|[] os IH]; cbn [foldr weight]; lia).
  split.
  - destruct o; cbn [allowed weight] in *; [lia|done..].
  - intros x s' H1. destruct (step_counts _ _ _ _ _ H1) as [E Hle]. apply IH; [lia|by rewrite E].
Qed.

(** ** One call *)

(** Nothing is in flight. *)
Definition idle (open : Z -> bool) (w : world) (n : Z) (st : Z -> Z) : Prop := runs open w (Calls n [] [] [] st (snd w)).
Definition call_ops (g : guest_endpoint) (rq : request) (n fail : Z) : list op := [Issue g rq; Serve; Answer; Return n fail].
(** What the guest is told of the result of the backend: nothing of a small
    message. *)
Definition told (f : cmd_func) (fail res : Z) : Z := if bool_decide (f = OMX_CMD_SEND_SMALL) then 0 else if u16 res =? 0 then 0 else fail.
Definition placed (f : cmd_func) (i : Z) (p : payload) : payload :=
  if bool_decide (f = OMX_CMD_SEND_SMALL) then locate (data_of_slot i) p else p.
Lemma serve_request i n g rq m p d ep : message_of n g rq m -> data m = p -> endpoint_at (g_endpoint_index g) d = Some ep ->
  match omx_ioctl (g_endpoint_index g) (function_of rq) (placed (function_of rq) i p) d, serve (data_of_slot i) m d with
  | None, None => True
  | Some (res, d'), Some (a, d'') => d' = d'' /\ eid a = snd ep /\ request_id a = request_id m /\
      ret a = if bool_decide (function_of rq = OMX_CMD_SEND_SMALL) then 0 else res
  | _, _ => False
  end.
Proof.
  intros [Hf Hb He Hi] Hp Hep. unfold serve, serve_send, placed. rewrite <- He in Hep. rewrite <- Hf, <- He.
  assert (Hcase : func m = OMX_CMD_SEND_SMALL \/ (func m <> OMX_CMD_SEND_SMALL /\ is_misc (func m) = false /\ is_send (func m) = true /\
    func m <> OMX_CMD_SEND_MEDIUMVA)) by (rewrite Hf; destruct rq as [| | | | |[]| |]; cbn; intuition congruence).
  rewrite Hep. cbn [mbind option_bind]. destruct Hcase as [E|(E1 & E2 & E3 & E4)].
  - set (m1 := m <| data ::= locate (data_of_slot i) |>).
    assert (E1 : func m1 = func m /\ eid m1 = eid m /\ data m1 = locate (data_of_slot i) p) by (by subst p).
    destruct E1 as (-> & -> & ->). rewrite E. cbn [is_misc]. rewrite bool_decide_eq_true_2 by done.
    destruct (omx_ioctl _ _ _ _) as [[res d']|]; cbn [mbind option_bind]; [|done]. by split.
  - rewrite E2, bool_decide_eq_false_2 by done. rewrite Hp.
    destruct (func m); try done; (destruct (omx_ioctl _ _ _ _) as [[res d']|]; cbn [mbind option_bind]; [|done]; by split).
Qed.
Lemma call_alone open fuel g rq fail p ep l d n st : idle open (l, d) n st -> open (snd ep) = true ->
  endpoint_at (g_endpoint_index g) d = Some ep -> decision rq = inr (fail, p) -> (Z.to_nat OMX_XEN_BACKEND_TIMEOUT + 1 < fuel)%nat ->
  let '(xs, w) := impl_run fuel (call_ops g rq n fail) (l, d) in
  match omx_ioctl (g_endpoint_index g) (function_of rq) (placed (function_of rq) (u32 n) p) d with
  | None => w = None
  | Some (res, d') => exists l' st', w = Some (l', d') /\ idle open (l', d') (n + 1) st' /\
      xs = [Issued (inr (Call (n mod OMX_MAX_INFLIGHT_REQUESTS) fail)); Served; Answered; Returned (Some (told (function_of rq) fail res))]
  end.
Proof.
  intros Hrun Hopen Hep Hd Hfuel. unfold call_ops. cbn [impl_run].
  assert (Hroom : in_flight (Calls n [] [] [] st d) < RING_SIZE) by exact size_pos.
  destruct (issue_step open fuel g rq _ _ Hrun Hroom) as (x & w1 & -> & s1 & Hs1 & R1).
  inversion Hs1; subst; [|congruence].
  match goal with H1 : decision rq = inr _, H2 : decision rq = inr _ |- _ => rewrite H1 in H2; injection H2 as <- Hp end.
  cbn [app snd] in R1. pose proof (serve_request (u32 n) n g rq m p d ep) as Hserve.
  assert (Hall : serve_all data_of_slot n [m] d = '(a, d') ← serve (data_of_slot (u32 n)) m d; Some ([a], d')).
  { cbn [serve_all]. by destruct (serve _ m d) as [[a d']|]. }
  pose proof (serve_step open fuel w1 _ R1 Hfuel) as H2.
  destruct (impl_step fuel Serve w1) as [[x w2]|].
  2:{ unfold base, in_flight in H2. cbn [answers queue held issued host_state app length] in H2.
    replace (n + 1 - Z.of_nat 1 + Z.of_nat 0) with n in H2 by lia. rewrite Hall in H2.
    destruct (serve _ m d) as [[a d']|]; [done|].
    destruct (omx_ioctl _ _ _ d) as [[res d']|]; [destruct Hserve; done|done]. }
  destruct H2 as (s2 & Hs2 & R2). inversion Hs2; subst. clear Hs2.
  match goal with H : serve_all _ _ _ _ = Some _ |- _ => rename H into E end.
  cbn [app length] in E. replace (n + 1 - Z.of_nat 1) with n in E by lia. rewrite Hall in E.
  destruct (serve _ m d) as [[a d2]|]; [|done]. cbn [mbind option_bind] in E. injection E as <- <-.
  destruct (omx_ioctl _ _ _ d) as [[res d']|]; [|destruct Hserve; done].
  destruct Hserve as (-> & He & Hi & Hr); [done|done|done|]. cbn [app] in R2.
  destruct (answer_step open fuel w2 _ R2) as (x & w3 & -> & s3 & Hs3 & R3). inversion Hs3; subst. clear Hs3.
  cbn [app length settle_all] in R3. replace (n + 1 - Z.of_nat 1) with n in R3 by lia. rewrite He, Hopen in R3.
  set (st3 := <[n := _]> _) in R3.
  assert (Hrec : recent n (Calls (n + 1) [] [] [] st3 d2)) by (unfold recent, OMX_MAX_INFLIGHT_REQUESTS; cbn; lia).
  destruct (return_step open fuel n fail w3 _ R3 Hrec) as (x & w4 & -> & s4 & Hs4 & R4). inversion Hs4; subst. clear Hs4.
  destruct w4 as [l4 d4]. pose proof (ru_state _ _ _ R4) as E. cbn [snd host_state] in E. subst d4.
  exists l4, st3. split; [done|]. split; [exact R4|]. do 4 f_equal. unfold st3, returned, told, failed.
  rewrite fn_lookup_insert, Hr. do 2 f_equal.
  destruct (bool_decide _); [done|]. by destruct (u16 res =? 0).
Qed.

(** ** Waking the backend *)

Definition issue_all (rs : list (guest_endpoint * request)) (l : link) : link := fold_left (fun l x => snd (issue (fst x) (snd x) l)) rs l.
Definition refused (rq : request) : Prop := exists err, decision rq = inl err.
Lemma refused_unseen rs : forall l b a q h, carried (requests_ring l) b a q h -> Forall (fun x => refused (snd x)) rs ->
  Z.of_nat (length (a ++ q ++ h)) + Z.of_nat (length rs) <= RING_SIZE ->
  exists ms, length ms = length rs /\ carried (requests_ring (issue_all rs l)) b a q (h ++ ms) /\ unseen l (issue_all rs l).
Proof.
  induction rs as [|[g rq] rs IH]; intros l b a q h Hc Hr Hl; [exists []; by rewrite app_nil_r|].
  apply Forall_cons in Hr as [[err Hd] Hr]. cbn [length] in Hl.
  destruct (issue_as g rq l b a q h Hc ltac:(lia)) as (m & _ & H). cbn [snd] in Hd. rewrite Hd in H. destruct H as [_ [T1 _ _ T4]].
  destruct (IH _ b a q (h ++ [m]) T1 Hr) as (ms & Hms & Hc' & Hu).
  { rewrite !length_app in *. cbn. lia. }
  exists (m :: ms). split; [cbn; by rewrite Hms|]. unfold issue_all. cbn [fold_left fst snd].
  rewrite <- (assoc_L (++)) in Hc'. split; [exact Hc'|]. destruct T4 as (U1 & U2 & U3), Hu as (V1 & V2 & V3). unfold unseen, issue_all in *.
  by rewrite V1, V2, V3.
Qed.
(** C25. No request is left unseen: when the backend's handler has come back, the
    first call that the guest's driver accepts, whatever it refused before,
    sends the event that starts the handler again. *)
Theorem backend_woken passes fuel sent r d sent' d' l b a h rs g rq fail p :
  msg_workq_handler data_of_slot passes fuel sent r d = Some (Some (sent', requests_ring l, d')) ->
  carried (requests_ring l) b a [] h -> Forall (fun x => refused (snd x)) rs -> decision rq = inr (fail, p) ->
  Z.of_nat (length (a ++ h) + length rs) < RING_SIZE ->
  to_dom0 (snd (issue g rq (issue_all rs l))) = to_dom0 l + 1.
Proof.
  intros Hh Hc Hrs Hd Hl. unfold msg_workq_handler in Hh. apply (handler_asleep data_of_slot passes fuel OMX_XEN_BACKEND_TIMEOUT) in Hh. unfold asleep in Hh. rewrite !length_app in Hl.
  destruct (refused_unseen rs l b a [] h Hc Hrs) as (ms & Hms & Hc' & U1 & U2 & U3); [cbn; rewrite length_app; lia|].
  assert (Hroom : Z.of_nat (length (a ++ [] ++ h ++ ms)) < RING_SIZE) by (cbn; rewrite !length_app; lia).
  destruct (issue_as g rq _ b a [] (h ++ ms) Hc' Hroom) as (m & _ & H). rewrite Hd in H. destruct H as (_ & _ & [P1 _ P3]).
  set (l2 := snd (issue g rq _)) in *. clearbody l2. set (l1 := issue_all rs l) in *. clearbody l1.
  rewrite P3, U3, U1, U2. assert (push_notify (req_prod (requests_ring l)) (req_prod (requests_ring l2)) (req_event (requests_ring l)) = true) as ->; [|done].
  pose proof size_page. pose proof (ca_room _ _ _ _ _ P1) as Hr. rewrite app_nil_r in Hr.
  apply notify_crossed. rewrite Hh, (ca_req _ _ _ _ _ P1), (ca_req _ _ _ _ _ Hc), (ca_req_cons _ _ _ _ _ Hc), app_nil_r, u32_add_1.
  rewrite u32_diff by lia. rewrite (length_app a), Nat2Z.inj_add, Z.add_assoc, u32_diff by (rewrite (length_app a) in Hr; lia).
  cbn [app]. rewrite !length_app. cbn. lia.
Qed.
End calls.
End XenCalls.
