(* ===== verification/XenSend.v ===== *)
(** A command of a guest becomes the event of another host: the calls of the
    guest, the ring, the backend's ioctls, the network. *)
From S2P Require Import Prelude Io World Event EventFifo Peer Reg Pull Wire Host SendMsg RecvMsg PeerTable Crossing XenGrant XenReg XenRing XenRingFifo XenFront XenServe XenServed XenCalls.
Import Io Wire Host Crossing XenRing XenRingFifo XenFront XenServe XenServed XenCalls.

Module XenSend.

Section send.
Context {order : ByteOrder} {macros : RingMacros} {laws : RingLaws macros} {board_info endpoint_info : Type}.
#[local] Notation message := (@message board_info endpoint_info).
#[local] Notation payload := (@payload board_info endpoint_info).
#[local] Notation link := (@link board_info endpoint_info).
#[local] Notation guest_endpoint := (@guest_endpoint endpoint_info).
Context {views : Views (board_info:=board_info) (endpoint_info:=endpoint_info)}.

(** ** The backend's host

    The commands that only need the slot and the peers are executed by the send
    ioctls of the driver, which read the data behind them; the rest is
    [others]. *)
Context (others : Driver (board_info:=board_info) (endpoint_info:=endpoint_info) host).
Context (local : bool) (sk : option (nat -> Z)) (omx_skb_copy_max omx_skb_frags : Z) (alloc_event : bool)
  (get_user_pages : Z -> Z -> Z * list Z) (omx_pin_synchronous : bool) (chunk_min chunk_max : Z).
(** The address of the command of a slot. *)
Context (slot_at : Z).
Definition plain (f : cmd_func) (c : command) : bool :=
  match f, c with
  | OMX_CMD_SEND_TINY, CmdTiny _ | OMX_CMD_SEND_SMALL, CmdSmall _ | OMX_CMD_SEND_NOTIFY, CmdNotify _ | OMX_CMD_SEND_LIBACK, CmdLiback _
  | OMX_CMD_SEND_CONNECT_REQUEST, CmdConnect false _ | OMX_CMD_SEND_CONNECT_REPLY, CmdConnect true _ => true
  | _, _ => false
  end.
(** The memory of the slot, as far as the command reads it: its data. *)
Definition data_at (c : command) : Z :=
  match c with CmdTiny _ => slot_at + 24 | CmdSmall c => SendMsg.sc_vaddr c | _ => 0 end.
Definition slot_memory (c : command) (bytes : list Z) (a : Z) : option Z := if a <? data_at c then None else bytes !! Z.to_nat (a - data_at c).
#[local] Notation run c bytes := (run_command (slot_memory c bytes) slot_at local sk omx_skb_copy_max omx_skb_frags alloc_event get_user_pages
  omx_pin_synchronous chunk_min chunk_max c).
(* [driver/backend/omx_send.c:168-247] omx_ioctl_send_connect_request *)
Definition host_ioctl (e : Z) (f : cmd_func) (p : payload) (s : host) : option (Z * host) :=
  match p with
  | Command c bytes =>
      if plain f c then '(res, s) ← run c bytes s; res ← res; Some (res, s) else XenServe.omx_ioctl (Driver:=others) e f p s
  | _ => XenServe.omx_ioctl (Driver:=others) e f p s
  end.
#[local] Instance host_driver : Driver (board_info:=board_info) (endpoint_info:=endpoint_info) host := {|
  endpoint_at := endpoint_at (Driver:=others);
  XenServe.omx_ioctl := host_ioctl;
  omx_peer_lookup := omx_peer_lookup (Driver:=others);
  omx_endpoint_get_info := omx_endpoint_get_info (Driver:=others);
  omx_ifaces_get_count := omx_ifaces_get_count (Driver:=others);
  omx_peer_table_get_state := omx_peer_table_get_state (Driver:=others);
  omx_iface_set_hostname := omx_iface_set_hostname (Driver:=others);
  omx_iface_get_info := omx_iface_get_info (Driver:=others);
  omx_xen_endpoint_open := omx_xen_endpoint_open (Driver:=others);
  omx_xen_endpoint_close := omx_xen_endpoint_close (Driver:=others);
  process_create := process_create (Driver:=others);
  process_destroy := process_destroy (Driver:=others) |}.

Context (data_of_slot : Z -> Z) (torn : payload -> payload) (behind : payload -> list Z) (umem : Z -> option Z).

#[local] Notation verdict := (decision (board_info:=board_info) (endpoint_info:=endpoint_info) umem).

(** ** The ioctls of the backend on a slot *)

(** The guest's commands are not for the host of the backend itself. *)
Definition unshared (c : command) : bool :=
  match c with
  | CmdConnect _ c => SendMsg.cc_shared_disabled c
  | CmdTiny c | CmdSmall c | CmdMediumsq c | CmdRndv c | CmdNotify c => negb (SendMsg.sc_shared c)
  | CmdLiback c => negb (SendMsg.lc_shared c)
  end.
Lemma slot_read base bytes : forall n, n = length bytes ->
  SendMsg.copy_from_user (fun a => if a <? base then None else bytes !! Z.to_nat (a - base)) base n = Some bytes.
Proof.
  intros n ->. unfold SendMsg.copy_from_user. apply mapM_Some, Forall2_same_length_lookup. rewrite length_seqZ, Nat2Z.id. split; [done|].
  intros i x y Hx Hy. apply lookup_seqZ in Hx as [-> Hi]. cbv beta. rewrite (proj2 (Z.ltb_ge _ _)) by lia.
  replace (base + Z.of_nat i - base) with (Z.of_nat i) by lia. by rewrite Nat2Z.id.
Qed.
Lemma header_result hdr index fields s : exists res s', SendMsg.send_header hdr sk index fields s = (Some res, s') /\
  -65536 < res <= 0 /\ (res <> 0 -> s' = s).
Proof.
  unfold SendMsg.send_header, SendMsg.set_target_peer, Peer.omx_set_target_peer. destruct sk as [junk|]; [|by eexists _, _].
  destruct (_ <=? _); [by eexists _, _|]. destruct (Peer.omx_peer_array _ !! _) as [a|]; [|by eexists _, _].
  eexists 0, _. split; [done|]. split; [lia|done].
Qed.
Lemma data_result m addr length type c s : exists res s', SendMsg.send_with_data m addr length type sk c s = (Some res, s') /\
  -65536 < res <= 0 /\ (res <> 0 -> s' = s).
Proof.
  unfold SendMsg.send_with_data, SendMsg.set_target_peer, Peer.omx_set_target_peer. destruct sk as [junk|]; [|by eexists _, _].
  destruct (_ <=? _); [by eexists _, _|]. destruct (Peer.omx_peer_array _ !! _) as [a|]; [|by eexists _, _].
  destruct (SendMsg.copy_from_user _ _ _); [|by eexists _, _]. eexists 0, _. split; [done|]. split; [lia|done].
Qed.
Lemma plain_result f c bytes s : plain f c = true -> unshared c = true ->
  exists res s', run c bytes s = Some (Some res, s') /\ -65536 < res <= 0 /\ (res <> 0 -> s' = s).
Proof.
  intros Hp Hu. destruct c as [reply c|c|c|c|c|c|c]; try (by destruct f); cbn [run_command unshared] in *; try apply negb_true_iff in Hu.
  - destruct reply; [unfold SendMsg.omx_ioctl_send_connect_reply|unfold SendMsg.omx_ioctl_send_connect_request]; rewrite Hu; cbn [negb andb];
      edestruct header_result as (res & s' & -> & H); by exists res, s'.
  - unfold SendMsg.omx_ioctl_send_tiny. rewrite Hu. destruct (_ <? _); [by eexists _, _|].
    edestruct data_result as (res & s' & -> & H). by exists res, s'.
  - unfold SendMsg.omx_ioctl_send_small. rewrite Hu. destruct (_ <? _); [by eexists _, _|].
    edestruct data_result as (res & s' & -> & H). by exists res, s'.
  - unfold SendMsg.omx_ioctl_send_notify. rewrite Hu. edestruct header_result as (res & s' & -> & H). by exists res, s'.
  - unfold SendMsg.omx_ioctl_send_liback. rewrite Hu. edestruct header_result as (res & s' & -> & H). by exists res, s'.
Qed.
(** The backend can send: it has a packet, and knows the peer. *)
Definition reaches (index : Z) (s : host) : bool :=
  match sk, Peer.omx_set_target_peer (Pull.d_peers (drv s)) index with Some _, inr _ => true | _, _ => false end.
Lemma unknown_peer t index err : Peer.omx_set_target_peer t index = inl err -> err <> 0.
Proof. unfold Peer.omx_set_target_peer. destruct (_ <=? _); [by intros [= <-]|]. by destruct (Peer.omx_peer_array _ !! _); intros [= <-]. Qed.
Lemma header_reaches hdr index fields s res s' : SendMsg.send_header hdr sk index fields s = (Some res, s') ->
  res = 0 <-> reaches index s = true.
Proof.
  unfold SendMsg.send_header, SendMsg.set_target_peer, reaches. destruct sk as [junk|]; [|by intros [= <- _]].
  destruct (Peer.omx_set_target_peer _ _) as [err|[addr rv]] eqn:E; [|by intros [= <- _]].
  apply unknown_peer in E. intros [= <- _]. by split.
Qed.
Lemma data_reaches m addr length type c s res s' bytes : SendMsg.copy_from_user m addr (Z.to_nat length) = Some bytes ->
  SendMsg.send_with_data m addr length type sk c s = (Some res, s') -> res = 0 <-> reaches (SendMsg.sc_peer_index c) s = true.
Proof.
  intros Hb. unfold SendMsg.send_with_data, SendMsg.set_target_peer, reaches. rewrite Hb. destruct sk as [junk|]; [|by intros [= <- _]].
  destruct (Peer.omx_set_target_peer _ _) as [err|[addr' rv]] eqn:E; [|by intros [= <- _]].
  apply unknown_peer in E. intros [= <- _]. by split.
Qed.
Lemma plain_reaches f c bytes s res s' : plain f c = true -> unshared c = true -> command_ok c -> size_ok c ->
  message_data (slot_memory c bytes) slot_at c s = Some bytes -> run c bytes s = Some (Some res, s') ->
  res = 0 <-> reaches (target_index c) s = true.
Proof.
  intros Hp Hu Hok Hsize Hdata. destruct c as [reply c|c|c|c|c|c|c]; try (by destruct f); cbn [run_command unshared size_ok message_data target_index] in *;
    try apply negb_true_iff in Hu.
  - destruct reply; [unfold SendMsg.omx_ioctl_send_connect_reply|unfold SendMsg.omx_ioctl_send_connect_request]; rewrite Hu; cbn [negb andb];
      intros [= H]; by apply header_reaches in H.
  - destruct Hok as [Hok H8]. pose proof (ok_length _ Hok). unfold SendMsg.omx_ioctl_send_tiny, u8. rewrite Hu, Z.mod_small by lia.
    rewrite (proj2 (Z.ltb_ge _ _)) by lia. intros [= Hr]. by apply (data_reaches _ _ _ _ _ _ _ _ _ Hdata) in Hr.
  - unfold SendMsg.omx_ioctl_send_small. rewrite Hu, (proj2 (Z.ltb_ge _ _)) by lia. intros [= H].
    by apply (data_reaches _ _ _ _ _ _ _ _ _ Hdata) in H.
  - unfold SendMsg.omx_ioctl_send_notify. rewrite Hu. intros [= H]. by apply header_reaches in H.
  - unfold SendMsg.omx_ioctl_send_liback. rewrite Hu. intros [= H]. by apply header_reaches in H.
Qed.
(** What the guest's driver decided. *)
Lemma decided rq fail c bytes : verdict rq = inr (fail, Command c bytes) -> unshared c = true /\ (fail = EINVAL \/ fail = EFAULT).
Proof.
  destruct rq as [uparam [c0|]|[c0|]|[c0|]|[c0|]|[c0|]|reply [c0|]|[c0|]|[c0|]]; cbn [decision sent]; try done;
    try (intros [= <- <- _]; split; [by destruct c0|by auto]).
  - destruct (_ <? _); [done|]. unfold small_data. destruct (SendMsg.copy_from_user _ _ _); [|done]. intros [= <- <- _]. split; [by destruct c0|by auto].
  - destruct (_ <? _); [done|]. unfold small_data. destruct (SendMsg.copy_from_user _ _ _); [|done]. intros [= <- <- _]. split; [by destruct c0|by auto].
  - destruct (_ || _); [done|]. intros [= <- <- _]. split; [by destruct c0|by auto].
Qed.
Lemma decided_data rq fail c bytes s : verdict rq = inr (fail, Command c bytes) -> plain (function_of rq) c = true -> command_ok c ->
  message_data (slot_memory c bytes) slot_at c s = Some bytes.
Proof.
  intros Hd Hp Hok. destruct rq as [uparam [c0|]|[c0|]|[c0|]|[c0|]|[c0|]|reply [c0|]|[c0|]|[c0|]]; cbn [decision sent] in Hd; try done;
    try (by injection Hd as <- <- <-).
  - destruct (_ <? _); [done|]. unfold small_data in Hd. destruct (SendMsg.copy_from_user umem _ _) as [l|] eqn:El; [|done].
    injection Hd as <- <- <-. cbn [message_data]. apply slot_read. apply length_mapM in El. rewrite length_seqZ in El.
    destruct Hok as [Hok H8]. pose proof (ok_length _ Hok). destruct c0. unfold u8 in El. cbn in *. rewrite Z.mod_small in El by lia. lia.
  - destruct (_ <? _); [done|]. unfold small_data in Hd. destruct (SendMsg.copy_from_user umem _ _) as [l|] eqn:El; [|done].
    injection Hd as <- <- <-. cbn [message_data]. apply slot_read. apply length_mapM in El. rewrite length_seqZ in El. destruct c0. cbn in *. lia.
Qed.

Lemma decided_size rq fail c bytes : verdict rq = inr (fail, Command c bytes) -> plain (function_of rq) c = true -> command_ok c -> size_ok c.
Proof.
  intros Hd Hp Hok. destruct rq as [uparam [c0|]|[c0|]|[c0|]|[c0|]|[c0|]|reply [c0|]|[c0|]|[c0|]]; cbn [decision sent] in Hd; try done;
    try (by injection Hd as <- <- <-).
  - destruct (Z.ltb_spec World.OMX_TINY_MSG_LENGTH_MAX (u8 (SendMsg.sc_length c0))) as [|Hl]; [done|]. unfold small_data in Hd.
    destruct (SendMsg.copy_from_user umem _ _); [|done]. injection Hd as <- <- <-. destruct Hok as [Hok H8]. pose proof (ok_length _ Hok).
    destruct c0. unfold u8 in Hl. cbn in *. by rewrite Z.mod_small in Hl by lia.
  - destruct (Z.ltb_spec World.OMX_SMALL_MSG_LENGTH_MAX (SendMsg.sc_length c0)) as [|Hl]; [done|]. unfold small_data in Hd.
    destruct (SendMsg.copy_from_user umem _ _); [|done]. injection Hd as <- <- <-. by destruct c0.
Qed.

(** ** From the guest to the other host *)

(** The command leaves in one packet, which at its target is the event of the
    command, with its data. *)
Definition crosses (c : command) (bytes : list Z) (s s' : host) : Prop :=
  exists addr rev f, sent_frames s' = sent_frames s ++ [f] /\ take 6 f = List.rev (le_bytes 6 addr) /\
    Peer.omx_set_target_peer (Pull.d_peers (drv s)) (target_index c) = inr (addr, rev) /\
    forall nack_skb alloc_raw env b t x u fs peer, 0 <= rev < 65536 -> arrives c f b -> accepts c rev (dev_addr s) peer t ->
      EventFifo.system_ok (EventFifo.System (evq t) x u) fs -> EventFifo.reserved (snd fs) = O ->
      exists t', RecvMsg.omx_recv nack_skb alloc_raw env b t = Some t' /\ delivered c (SendMsg.index_of s) peer bytes t x u fs t'.
Lemma run_crosses c bytes s s' : command_ok c -> 0 <= SendMsg.index_of s < 256 -> message_data (slot_memory c bytes) slot_at c s = Some bytes ->
  run c bytes s = Some (Some 0, s') -> crosses c bytes s s'.
Proof.
  intros Hok Hme Hdata Hrun. pose proof (command_size _ _ _ _ _ _ _ _ _ _ _ _ _ _ Hok Hrun) as Hsize.
  apply command_sends in Hrun as ([addr rv] & data & f & Hf & Hp); [|done]. pose proof Hp as [Ht Hd Hh _].
  rewrite Hdata in Hd. injection Hd as <-. exists addr, rv, f. split; [done|]. split; [apply Hh|]. split; [done|].
  intros nack_skb alloc_raw env. by eapply packet_delivered.
Qed.
(** Where the data of a small message is makes no difference. *)
Definition located (addr : Z) (c : SendMsg.send_cmd) : SendMsg.send_cmd :=
  let '(SendMsg.SendCmd pi de sh si q k cs m n v so fl fs ri rs) := c in SendMsg.SendCmd pi de sh si q k cs m n addr so fl fs ri rs.
Lemma crosses_located addr c bytes s s' : crosses (CmdSmall (located addr c)) bytes s s' -> crosses (CmdSmall c) bytes s s'.
Proof.
  intros (a & rv & f & Hf & H6 & Ht & H). destruct c. exists a, rv, f. split; [done|]. split; [done|]. split; [done|].
  intros nack_skb alloc_raw env b t x u fs peer Hrev [A1 A2 A3 A4] [B1 B2 B3 B4 B5] Hq Hres.
  apply (H nack_skb alloc_raw env b t x u fs peer Hrev); [by split|by split|done|done].
Qed.

Section one_call.
Context (open : Z -> bool) (fuel : nat) (g : guest_endpoint) (rq : request) (fail : Z) (c : command) (bytes : list Z) (ep : Z * Z)
  (l : link) (s : host) (n : Z) (st : Z -> Z).
Context (Hidle : idle open (l, s) n st) (Hopen : open (snd ep) = true) (Hep : endpoint_at (g_endpoint_index g) s = Some ep).
Context (Hd : verdict rq = inr (fail, Command c bytes)) (Hp : plain (function_of rq) c = true).
Context (Hfuel : (Z.to_nat OMX_XEN_BACKEND_TIMEOUT + 1 < fuel)%nat).
Lemma plain_small : function_of rq = OMX_CMD_SEND_SMALL -> exists c', c = CmdSmall c'.
Proof. intros E. rewrite E in Hp. destruct c; try done. by eexists. Qed.
Lemma call_result : exists r l' s' st',
  impl_run data_of_slot torn behind umem fuel (call_ops g rq n fail) (l, s) =
    ([Issued (inr (Call (n mod OMX_MAX_INFLIGHT_REQUESTS) fail)); Served; Answered; Returned (Some r)], Some (l', s')) /\
  idle open (l', s') (n + 1) st' /\ exists c' res, run c' bytes s = Some (Some res, s') /\ -65536 < res <= 0 /\ (res <> 0 -> s' = s) /\
    r = told (function_of rq) fail res /\
    (c' = c \/ exists addr c0, c = CmdSmall c0 /\ c' = CmdSmall (located addr c0)).
Proof.
  pose proof (call_alone data_of_slot torn behind umem open fuel g rq fail (Command c bytes) ep l s n st Hidle Hopen Hep Hd Hfuel) as H.
  destruct (decided _ _ _ _ Hd) as [Hu _].
  assert (Hc : exists c', placed data_of_slot (function_of rq) (u32 n) (Command (board_info:=board_info) (endpoint_info:=endpoint_info) c bytes) = Command c' bytes /\
    plain (function_of rq) c' = true /\ unshared c' = true /\ (c' = c \/ exists addr c0, c = CmdSmall c0 /\ c' = CmdSmall (located addr c0))).
  { unfold placed. destruct (decide (function_of rq = OMX_CMD_SEND_SMALL)) as [E|E]; [|rewrite bool_decide_eq_false_2 by done; exists c; by auto].
    rewrite bool_decide_eq_true_2 by done. destruct (plain_small E) as [c0 ->]. exists (CmdSmall (located (data_of_slot (u32 n)) c0)).
    destruct c0. split; [done|]. split; [done|]. split; [done|]. right. by eexists _, _. }
  destruct Hc as (c' & E & Hp' & Hu' & Hcc). rewrite E in H.
  destruct (plain_result _ c' bytes s Hp' Hu') as (res & s' & Hrun & Hres & Hsame).
  change (XenServe.omx_ioctl (g_endpoint_index g) (function_of rq) (Command c' bytes) s) with
    (host_ioctl (g_endpoint_index g) (function_of rq) (Command c' bytes) s) in H.
  unfold host_ioctl in H. rewrite Hp', Hrun in H. cbn [mbind option_bind] in H.
  destruct (impl_run _ _ _ _ _ _ _) as [xs w]. destruct H as (l' & st' & -> & Hi & ->).
  eexists _, l', s', st'. split; [reflexivity|]. split; [done|]. exists c', res. by repeat (split; [done|]).
Qed.
End one_call.

(** The location of the data changes nothing else of a command. *)
Lemma located_ok addr c bytes s : command_ok (CmdSmall c) -> size_ok (CmdSmall c) ->
  message_data (slot_memory (CmdSmall c) bytes) slot_at (CmdSmall c) s = Some bytes ->
  command_ok (CmdSmall (located addr c)) /\ size_ok (CmdSmall (located addr c)) /\
  message_data (slot_memory (CmdSmall (located addr c)) bytes) slot_at (CmdSmall (located addr c)) s = Some bytes.
Proof.
  intros [H1 H2 H3 H4 H5 H6 H7 H8 H9 H10 H11 H12] Hs Hdata. split_and!; [by destruct c; split|by destruct c|].
  cbn [message_data] in *. destruct c. cbn in *. apply slot_read. apply length_mapM in Hdata. rewrite length_seqZ in Hdata. cbn. lia.
Qed.
(** C17. A command of a guest that its driver accepts crosses when it is [plain] and
    the ring is [idle].  Plain are tiny and small messages, notifications,
    acknowledgements and connection requests and replies; rendezvous, medium
    messages and pulls are not.  Idle: no other call is in flight, and none that the
    driver refused holds a slot (a refused call keeps the slot that it took,
    omx_xenfront_send.c:94).  The call goes through the ring, the backend and back.
    If the backend's host has a packet for it and knows the peer, the call returns 0
    and the command leaves the host in one packet, whose arrival at the target
    is exactly the event of the command, with the data that the guest's process
    had; otherwise the host does nothing and the call fails, except a small
    message, whose result is lost in the backend: the guest is told that it
    left. *)
Theorem guest_command_crosses open fuel g rq fail c bytes ep l s n st : idle open (l, s) n st -> open (snd ep) = true ->
  endpoint_at (g_endpoint_index g) s = Some ep -> verdict rq = inr (fail, Command c bytes) -> plain (function_of rq) c = true ->
  (Z.to_nat OMX_XEN_BACKEND_TIMEOUT + 1 < fuel)%nat -> command_ok c -> 0 <= SendMsg.index_of s < 256 ->
  exists r l' s' st',
    impl_run data_of_slot torn behind umem fuel (call_ops g rq n fail) (l, s) =
      ([Issued (inr (Call (n mod OMX_MAX_INFLIGHT_REQUESTS) fail)); Served; Answered; Returned (Some r)], Some (l', s')) /\
    idle open (l', s') (n + 1) st' /\
    if reaches (target_index c) s then r = 0 /\ crosses c bytes s s'
    else s' = s /\ r = (if bool_decide (function_of rq = OMX_CMD_SEND_SMALL) then 0 else fail).
Proof.
  intros Hi Ho He Hd Hp Hf Hok Hme.
  destruct (call_result open fuel g rq fail c bytes ep l s n st Hi Ho He Hd Hp Hf) as (r & l' & s' & st' & E & Hi' & c' & res & Hrun & Hres & Hsame & -> & Hc).
  exists (told (function_of rq) fail res), l', s', st'. split; [exact E|]. split; [done|]. unfold told.
  pose proof (decided_data _ _ _ _ s Hd Hp Hok) as Hdata. pose proof (decided_size _ _ _ _ Hd Hp Hok) as Hsize.
  destruct (decided _ _ _ _ Hd) as [Hu _].
  assert (H : (res = 0 <-> reaches (target_index c) s = true) /\ (res = 0 -> crosses c bytes s s')).
  { destruct Hc as [->|(addr & c0 & -> & ->)].
    - split; [by apply (plain_reaches (function_of rq) c bytes s res s')|]. intros ->. by apply run_crosses.
    - destruct (located_ok addr c0 bytes s Hok Hsize Hdata) as (Hok' & Hsize' & Hdata'). split.
      + replace (target_index (CmdSmall c0)) with (target_index (CmdSmall (located addr c0))) by (by destruct c0).
        apply (plain_reaches (function_of rq) _ bytes s res s'); [|by destruct c0|done..]. by destruct (function_of rq).
      + intros ->. apply (crosses_located addr). by apply run_crosses. }
  destruct H as [Hiff Hcr]. destruct (reaches _ s) eqn:Er.
  - rewrite (proj2 Hiff eq_refl) in *. split; [by destruct (bool_decide _)|by apply Hcr].
  - assert (Hne : res <> 0) by (intros E0; by apply Hiff in E0). split; [by apply Hsame|]. destruct (bool_decide _); [done|].
    assert (u16 res <> 0) as Hn by (unfold u16; Z.to_euclidean_division_equations; lia). by rewrite (proj2 (Z.eqb_neq _ _)).
Qed.
End send.
End XenSend.
