(* ===== verification/XenLookup.v ===== *)
(** The lookups of peers by a guest are those of the backend's table. *)
From S2P Require Import Prelude Io World Event Peer Reg Pull Wire Host SendMsg PeerTable Crossing XenGrant XenReg XenRing XenRingFifo XenFront XenServe XenServed XenCalls.
Import Wire Crossing XenRing XenRingFifo XenFront XenServe XenServed XenCalls.

Module XenLookup.

Section lookup.
Context {order : ByteOrder} {macros : RingMacros} {laws : RingLaws macros} {board_info endpoint_info : Type}.
#[local] Notation message := (@message board_info endpoint_info).
#[local] Notation payload := (@payload board_info endpoint_info).
#[local] Notation link := (@link board_info endpoint_info).
Context {views : Views (board_info:=board_info) (endpoint_info:=endpoint_info)}.
Context (others : Driver (board_info:=board_info) (endpoint_info:=endpoint_info) PeerTable.table).
Context (omx_peer_max : Z).

(** ** The backend's table *)

(* [driver/backend/omx_xenback.c:662-691] omx_xenback_process_misc *)
Definition table_lookup (cmd : cmd_func) (p : peer_info) (t : PeerTable.table) : option (Z * peer_info) :=
  match cmd with
  | OMX_CMD_PEER_FROM_INDEX =>
      r ← PeerTable.omx_peer_lookup_by_index omx_peer_max (pi_index p) t;
      Some (match r with inl err => (err, p) | inr (addr, name) => (0, PeerInfo addr name (pi_index p)) end)
  | OMX_CMD_PEER_FROM_ADDR =>
      r ← PeerTable.omx_peer_lookup_by_addr (pi_board_addr p) t;
      Some (match r with inl err => (err, p) | inr (index, name) => (0, PeerInfo (pi_board_addr p) name index) end)
  | OMX_CMD_PEER_FROM_HOSTNAME =>
      r ← PeerTable.omx_peer_lookup_by_hostname omx_peer_max (pi_hostname p) t;
      Some (match r with inl err => (err, p) | inr (index, addr) => (0, PeerInfo addr (pi_hostname p) index) end)
  | _ => None
  end.
#[local] Instance table_driver : Driver (board_info:=board_info) (endpoint_info:=endpoint_info) PeerTable.table := {|
  endpoint_at := endpoint_at (Driver:=others);
  omx_ioctl := omx_ioctl (Driver:=others);
  omx_peer_lookup := table_lookup;
  omx_endpoint_get_info := omx_endpoint_get_info (Driver:=others);
  omx_ifaces_get_count := omx_ifaces_get_count (Driver:=others);
  omx_peer_table_get_state := PeerTable.omx_peer_table_get_state;
  omx_iface_set_hostname := omx_iface_set_hostname (Driver:=others);
  omx_iface_get_info := omx_iface_get_info (Driver:=others);
  omx_xen_endpoint_open := omx_xen_endpoint_open (Driver:=others);
  omx_xen_endpoint_close := omx_xen_endpoint_close (Driver:=others);
  process_create := process_create (Driver:=others);
  process_destroy := process_destroy (Driver:=others) |}.
Context (data_of_slot : Z -> Z).

(** ** What a process looks up *)

Inductive key := ByIndex (i : Z) | ByAddr (a : Z) | ByName (n : list Z).
Definition request_lookup (k : key) (l : link) : call * link :=
  match k with
  | ByIndex i => omx_xen_peer_lookup OMX_CMD_PEER_FROM_INDEX (Some i) None None l
  | ByAddr a => omx_xen_peer_lookup OMX_CMD_PEER_FROM_ADDR None (Some a) None l
  | ByName n => omx_xen_peer_lookup OMX_CMD_PEER_FROM_HOSTNAME None None (Some n) l
  end.
Definition command_of (k : key) : cmd_func :=
  match k with ByIndex _ => OMX_CMD_PEER_FROM_INDEX | ByAddr _ => OMX_CMD_PEER_FROM_ADDR | ByName _ => OMX_CMD_PEER_FROM_HOSTNAME end.
(** The lookup in the table, for a process of the backend's host. *)
Definition table_result (k : key) (t : PeerTable.table) : option (option peer_info) :=
  match k with
  | ByIndex i =>
      r ← PeerTable.omx_peer_lookup_by_index omx_peer_max i t;
      Some (match r with inl _ => None | inr (addr, name) => Some (PeerInfo addr name i) end)
  | ByAddr a =>
      r ← PeerTable.omx_peer_lookup_by_addr a t;
      Some (match r with inl _ => None | inr (i, name) => Some (PeerInfo a name i) end)
  | ByName n =>
      r ← PeerTable.omx_peer_lookup_by_hostname omx_peer_max n t;
      Some (match r with inl _ => None | inr (i, addr) => Some (PeerInfo addr n i) end)
  end.

Lemma lookup_error_index i t err : PeerTable.omx_peer_lookup_by_index omx_peer_max i t = Some (inl err) -> err = EINVAL.
Proof.
  unfold PeerTable.omx_peer_lookup_by_index. destruct (_ <=? _); [by intros [= <-]|]. destruct (PeerTable.omx_peer_array t !! i); [|by intros [= <-]].
  destruct (PeerTable.deref _ _) as [o|]; cbn [mbind option_bind]; [|done]. by destruct (PeerTable.copy_hostname _).
Qed.
Lemma lookup_error_addr a t err : PeerTable.omx_peer_lookup_by_addr a t = Some (inl err) -> err = EINVAL.
Proof.
  unfold PeerTable.omx_peer_lookup_by_addr. destruct (PeerTable.omx_peer_lookup_by_addr_locked a t) as [[p|]|]; cbn [mbind option_bind]; [|by intros [= <-]|done].
  destruct (PeerTable.deref _ _) as [o|]; cbn [mbind option_bind]; [|done]. by destruct (PeerTable.copy_hostname _).
Qed.
Lemma lookup_error_name n t err : PeerTable.omx_peer_lookup_by_hostname omx_peer_max n t = Some (inl err) -> err = EINVAL.
Proof.
  unfold PeerTable.omx_peer_lookup_by_hostname. induction (seqZ 0 omx_peer_max) as [|i l IH]; cbn; [by intros [= <-]|].
  destruct (PeerTable.omx_peer_array t !! i); [|done]. destruct (PeerTable.deref _ _) as [o|]; cbn; [|done]. by destruct (bool_decide _).
Qed.

(** ** A request for information that is alone *)

Lemma misc_published cmd kf (l : link) b : is_recv cmd = false -> carried (requests_ring l) b [] [] [] ->
  exists i l1 m, start_misc cmd l = (i, b mod OMX_MAX_INFLIGHT_REQUESTS, l1) /\ func m = cmd /\ request_id m = b mod OMX_MAX_INFLIGHT_REQUESTS /\
    (exists p, data m = kf p) /\ published b l (omx_poke_dom0 cmd (write i kf l1)) b [] [m].
Proof.
  intros Hr Hc. destruct (start_taken cmd l b [] [] [] Hc) as (m & l1 & E & Ht & Hf & Hi); [exact size_pos|].
  cbn [app length] in *. change (Z.of_nat 0) with 0 in *. rewrite Z.add_0_r in *. exists (u32 b), l1, (set data kf m). split; [exact E|].
  split; [done|]. split; [done|]. split; [by exists (data m)|].
  apply (poke_published cmd b l _ b [] [] [] (set data kf m) Hr). by apply write_taken.
Qed.
Lemma misc_served fuel (m a : message) l0 f' l b t : published b l0 l b [] [m] -> is_misc (func m) = true -> serve_misc m t = Some (a, t) ->
  connected (fe l0) = true -> handle_response a (doing b (fe l0)) = Some f' -> (Z.to_nat OMX_XEN_BACKEND_TIMEOUT + 1 < fuel)%nat ->
  exists sent r2 l3, omx_xenif_be_int data_of_slot 1 fuel (to_domU l) (requests_ring l) t = Some (Some (sent, r2, t)) /\
    omx_xenif_interrupt 1 (l <| requests_ring := r2 |>) = Some l3 /\ carried (requests_ring l3) (b + 1) [] [] [] /\ fe l3 = f'.
Proof.
  intros [Hc Hfe _] Hm Hs Hcon Hh Hfuel. unfold omx_xenif_be_int. rewrite (carried_has_requests _ _ _ _ _ Hc). cbn [negb].
  rewrite bool_decide_eq_false_2 by done. cbn [negb].
  assert (Hn : Forall not_null [m]) by (apply Forall_singleton; unfold not_null; intros E; by rewrite E in Hm).
  pose proof (handler_served data_of_slot 1 fuel (to_domU l) _ _ _ _ _ t Hc Hn ltac:(done) Hfuel) as H. unfold answered in H.
  cbn [serve_all length app] in H. unfold serve in H. rewrite Hm, Hs in H. cbn [mbind option_bind] in H.
  destruct (msg_workq_handler _ _ _ _ _ _) as [[[[sent r2] t2]|]|]; try done. destruct H as [-> Hc2].
  destruct (interrupt_end (l <| requests_ring := r2 |>) f' r2 _ _ _ _ Hc2) as (r3 & E & Hc3).
  exists sent, r2, (l <| requests_ring := r2 |> <| fe := f' |> <| requests_ring := r3 |>). split; [done|].
  split; [|by split].
  unfold omx_xenif_interrupt. change (fe (l <| requests_ring := r2 |>)) with (fe l). change (requests_ring (l <| requests_ring := r2 |>)) with r2.
  rewrite Hfe. change (connected (doing b (fe l0))) with (connected (fe l0)). rewrite Hcon, (carried_has_responses _ _ _ _ _ Hc2). cbn [negb].
  rewrite bool_decide_eq_false_2 by done. cbn [negb again_send].
  change (requests_ring (l <| requests_ring := r2 |>)) with r2. change (fe (l <| requests_ring := r2 |>)) with (fe l).
  rewrite (carried_nr_responses _ _ _ _ _ Hc2), (ca_cons _ _ _ _ _ Hc2), Hfe. cbn [length handle_responses].
  pose proof (ca_slots _ _ _ _ _ Hc2) as Hsl. cbn [app] in Hsl. rewrite (stored_head _ _ _ _ Hsl), Hh. exact E.
Qed.
(** What the request for a key writes in its slot, over what the slot had. *)
Definition key_written (k : key) (p : payload) : payload :=
  Peer_info (match k with
             | ByIndex i => PeerInfo (pi_board_addr (mpi p)) (pi_hostname (mpi p)) i
             | ByAddr a => PeerInfo a (pi_hostname (mpi p)) (pi_index (mpi p))
             | ByName n => PeerInfo (pi_board_addr (mpi p)) n (pi_index (mpi p))
             end).
Definition looked_up (m : message) (res : option peer_info) (f : @omx_xenfront_info board_info endpoint_info) :=
  match res with
  | Some p => set_request (request_id m) OMX_XEN_FRONTEND_STATUS_DONE (f <| fe_peer_info := Some p |>)
  | None => set_request (request_id m) OMX_XEN_FRONTEND_STATUS_FAILED f
  end.
Lemma table_lookup_result k t res (p : payload) : table_result k t = Some res -> exists ret info,
  table_lookup (command_of k) (mpi (key_written k p)) t = Some (ret, info) /\
  match res with Some x => ret = 0 /\ info = x | None => ret = EINVAL end.
Proof.
  destruct k as [i|a|n]; cbn [table_result command_of table_lookup key_written mpi pi_index pi_board_addr pi_hostname].
  - destruct (PeerTable.omx_peer_lookup_by_index _ i t) as [[err|[addr name]]|] eqn:E; cbn [mbind option_bind]; [|by intros [= <-]; eexists _, _|done].
    apply lookup_error_index in E as ->. intros [= <-]. by eexists _, _.
  - destruct (PeerTable.omx_peer_lookup_by_addr a t) as [[err|[index name]]|] eqn:E; cbn [mbind option_bind]; [|by intros [= <-]; eexists _, _|done].
    apply lookup_error_addr in E as ->. intros [= <-]. by eexists _, _.
  - destruct (PeerTable.omx_peer_lookup_by_hostname _ n t) as [[err|[index addr]]|] eqn:E; cbn [mbind option_bind]; [|by intros [= <-]; eexists _, _|done].
    apply lookup_error_name in E as ->. intros [= <-]. by eexists _, _.
Qed.
Lemma lookup_served k t res (m : message) (p : payload) : table_result k t = Some res -> func m = command_of k -> data m = key_written k p ->
  exists a, serve_misc m t = Some (a, t) /\ request_id a = request_id m /\ forall f, handle_response a f = Some (looked_up m res f).
Proof.
  intros Hres Hf Hd. destruct (table_lookup_result k t res p Hres) as (ret & info & E & Hr).
  exists ((if ret <? 0 then m else m <| data := Peer_info info |>) <| XenFront.ret := ret |>). split; [|split].
  - unfold serve_misc. rewrite Hf, Hd. change (omx_peer_lookup (command_of k) (mpi (key_written k p)) t) with (table_lookup (command_of k) (mpi (key_written k p)) t).
    rewrite E. by destruct k.
  - by destruct (ret <? 0).
  - intros f. unfold handle_response.
    assert (Hfa : func ((if ret <? 0 then m else m <| data := Peer_info info |>) <| XenFront.ret := ret |>) = command_of k) by by destruct (ret <? 0).
    rewrite Hfa. destruct res as [x|]; [destruct Hr as [-> ->]|subst ret]; by destruct k.
Qed.
Lemma set_request_same id x (f : @omx_xenfront_info board_info endpoint_info) : requests (set_request id x f) id = x.
Proof. exact (fn_lookup_insert (requests f) id x). Qed.
(** C24. A process of the guest that looks up a peer by index, address or name,
    through the ring, gets exactly what a process of the backend's host gets
    from the table of peers there, or an error when there is none, and the
    ring is free again. *)
Theorem guest_lookup fuel k b (l : link) t res : carried (requests_ring l) b [] [] [] -> connected (fe l) = true -> table_result k t = Some res ->
  (Z.to_nat OMX_XEN_BACKEND_TIMEOUT + 1 < fuel)%nat ->
  let '(c, l1) := request_lookup k l in
  exists sent r2 l3, omx_xenif_be_int data_of_slot 1 fuel (to_domU l1) (requests_ring l1) t = Some (Some (sent, r2, t)) /\
    omx_xenif_interrupt 1 (l1 <| requests_ring := r2 |>) = Some l3 /\ carried (requests_ring l3) (b + 1) [] [] [] /\
    peer_lookup_end 0 (requests (fe l3) (c_id c)) (fe l3) =
      match res with Some p => (0, Some (Some p)) | None => (EINVAL, Some (fe_peer_info (fe l))) end.
Proof.
  intros Hc Hcon Hres Hfuel.
  destruct (misc_published (command_of k) (key_written k) l b ltac:(by destruct k) Hc) as (i & l1 & m & E & Hf & Hi & (p & Hd) & Hpub).
  assert (Hreq : request_lookup k l = (Call (b mod OMX_MAX_INFLIGHT_REQUESTS) EINVAL, omx_poke_dom0 (command_of k) (write i (key_written k) l1))).
  { unfold request_lookup, omx_xen_peer_lookup. destruct k; cbn [command_of] in E; by rewrite E. }
  rewrite Hreq. destruct (lookup_served k t res m p Hres Hf Hd) as (a & Hs & Hia & Hh).
  destruct (misc_served fuel m a l _ _ b t Hpub ltac:(rewrite Hf; by destruct k) Hs Hcon (Hh _) Hfuel) as (sent & r2 & l3 & E1 & E2 & Hc3 & Hfe).
  exists sent, r2, l3. split; [exact E1|]. split; [exact E2|]. split; [exact Hc3|]. rewrite Hfe. cbn [c_id]. unfold looked_up. rewrite Hi.
  unfold peer_lookup_end. destruct res as [x|]; rewrite set_request_same; done.
Qed.
End lookup.
End XenLookup.
