(* ===== verification/XenEvents.v ===== *)
(** The events of a guest's endpoints: the backend writes them in the second
    ring, the guest's interrupt reports them to the queues of the endpoints and
    answers each one ([driver/backend/omx_recv.c], [driver/backend/omx_xenback.c],
    [driver/frontend/omx_xenfront.c]). *)
From S2P Require Import Prelude Io World Event EventFifo Peer Reg Pull Wire Host SendMsg PeerTable Crossing XenGrant XenReg XenRing XenRingFifo XenFront.
Import Host Crossing XenRing XenRingFifo XenFront.

Module XenEvents.

Section events.
Context {macros : RingMacros} {laws : RingLaws macros} {board_info endpoint_info : Type}.
#[local] Notation message := (@message board_info endpoint_info).
#[local] Notation link := (@link board_info endpoint_info).
#[local] Notation guest_endpoint := (@guest_endpoint endpoint_info).
Context {views : Views (board_info:=board_info) (endpoint_info:=endpoint_info)}.
Implicit Types (l : link) (m : message).

(** ** The backend *)

(* [driver/backend/omx_xenback.c:319-360] omx_poke_domU *)
Definition omx_poke_domU l : link :=
  let '(notify, r) := push_responses (recv_ring l) in
  l <| recv_ring := r |> <| to_domU ::= fun n => if notify then n + 1 else n |>.
Definition write_event (f : cmd_func) (board endpoint : Z) (e : devt) m : message :=
  m <| func := f |> <| board_index := board |> <| eid := endpoint |> <| data := Received e |>.
(** The next slot, whether or not it is free, gets the event. *)
(* [driver/backend/omx_recv.c:316-359] omx_recv_tiny *)
Definition forward_event (f : cmd_func) (board endpoint : Z) (e : devt) l : link :=
  let i := rsp_prod_pvt (recv_ring l) in
  let l := l <| recv_ring ::= set rsp_prod_pvt (fun p => u32 (p + 1)) |> in
  omx_poke_domU (l <| recv_ring ::= fun r => set_slot i (write_event f board endpoint e (get_slot i r)) r |>).
(** The messages whose data is in the receive ring reserve their place in the
    queue of the guest, whose indexes the backend has mapped: it drops the
    message when there is none. *)
Definition with_data (f : cmd_func) : bool := match f with OMX_CMD_RECV_SMALL | OMX_CMD_RECV_MEDIUM_FRAG => true | _ => false end.
Definition reserve (f : cmd_func) (q : @Event.endpoint devt) : option Z * @Event.endpoint devt :=
  if with_data f then
    let '(r, q) := Event.omx_prepare_notify_unexp_event_with_recvq q in (match r with inl _ => None | inr off => Some off end, q)
  else (Some 0, q).
(** An event for an open endpoint, which may depend on the place of its data. *)
(* [driver/backend/omx_recv.c:478-544] omx_recv_small *)
Definition receive (f : cmd_func) (board endpoint : Z) (mk : Z -> devt) l : option link :=
  g ← endpoints (fe l) !! endpoint;
  let '(off, q) := reserve f (g_queue g) in
  let l := on_endpoint endpoint (fun g => g <| g_queue := q |>) l in
  Some (match off with None => l | Some off => forward_event f board endpoint (mk off) l end).
(** The answers are only counted.  One without a function code keeps the lock
    of the ring. *)
Fixpoint acknowledged (n : nat) (cons : Z) (r : ring message) : bool :=
  match n with
  | O => true
  | S n => if bool_decide (func (get_slot cons r) = OMX_CMD_OTHER 0) then false else acknowledged n (u32 (cons + 1)) r
  end.
(* [driver/backend/omx_xenback.c:518-599] omx_xen_process_incoming_response *)
Definition omx_xen_process_incoming_response (r : ring message) : option (ring message) :=
  if acknowledged (Z.to_nat (u32 (req_prod r - req_cons r))) (req_cons r) r then Some (r <| req_cons := req_prod r |>) else None.
(* [driver/backend/omx_xenback.c:392-445] response_workq_handler *)
Fixpoint response_workq_handler (passes : nat) l : option link :=
  match passes with
  | O => None
  | S passes =>
      r ← (if has_requests (recv_ring l) then omx_xen_process_incoming_response (recv_ring l) else Some (recv_ring l));
      let '(more_to_do, r) := final_check_requests r in
      let l := l <| recv_ring := r |> in
      if more_to_do then response_workq_handler passes l else Some l
  end.

(** ** The guest *)

(** What an event does to the queues of its endpoint, and its answer; a message
    whose data is in the receive ring has its slot in the queue since the
    backend reserved it.  [None] is a crash, a function that is not an event is
    ignored. *)
Definition notify_guest (f : cmd_func) (e : devt) (q : @Event.endpoint devt) : option (@Event.endpoint devt) :=
  match f with
  | OMX_CMD_XEN_RECV_PULL_DONE | OMX_CMD_XEN_SEND_MEDIUMSQ_DONE => Some (snd (Event.omx_notify_exp_event e q))
  | OMX_CMD_RECV_MEDIUM_FRAG | OMX_CMD_RECV_SMALL => Event.omx_commit_notify_unexp_event_with_recvq e q
  | OMX_CMD_RECV_TINY | OMX_CMD_RECV_LIBACK | OMX_CMD_RECV_NOTIFY | OMX_CMD_RECV_RNDV | OMX_CMD_RECV_CONNECT_REQUEST
  | OMX_CMD_RECV_CONNECT_REPLY => Some (snd (Event.omx_notify_unexp_event e q))
  | _ => Some q
  end.
Definition ack_of (f : cmd_func) : option cmd_func :=
  match f with
  | OMX_CMD_XEN_RECV_PULL_DONE | OMX_CMD_XEN_SEND_MEDIUMSQ_DONE | OMX_CMD_RECV_PULL_REQUEST => Some OMX_CMD_XEN_DUMMY
  | OMX_CMD_RECV_MEDIUM_FRAG | OMX_CMD_RECV_SMALL | OMX_CMD_RECV_TINY | OMX_CMD_RECV_LIBACK | OMX_CMD_RECV_NOTIFY | OMX_CMD_RECV_RNDV
  | OMX_CMD_RECV_CONNECT_REQUEST | OMX_CMD_RECV_CONNECT_REPLY => Some f
  | _ => None
  end.
(* [driver/frontend/omx_xenfront.c:235-250] omx_xenfront_ack *)
Definition omx_xenfront_ack (f : cmd_func) l : link :=
  let i := req_prod_pvt (recv_ring l) in
  let l := l <| recv_ring ::= set req_prod_pvt (fun p => u32 (p + 1)) |> in
  omx_poke_dom0 f (l <| recv_ring ::= fun r => set_slot i ((get_slot i r) <| func := f |>) r |>).
(* [driver/frontend/omx_xenfront.c:284-611] omx_xenif_interrupt_recv *)
Definition handle_event (cons : Z) l : option link :=
  let m := get_slot cons (recv_ring l) in
  match ack_of (func m), omx_xenfront_get_endpoint (fe l) m with
  | Some ack, Some g =>
      q ← notify_guest (func m) (received (data m)) (g_queue g);
      Some (omx_xenfront_ack ack (on_endpoint (eid m) (fun g => g <| g_queue := q |>) l))
  | _, _ => Some l
  end.
Fixpoint handle_events (n : nat) (cons : Z) l : option link :=
  match n with
  | O => Some l
  | S n => l ← handle_event cons l; handle_events n (u32 (cons + 1)) l
  end.
Fixpoint again_recv (passes : nat) l : option link :=
  match passes with
  | O => None
  | S passes =>
      let prod := rsp_prod (recv_ring l) in
      l ← handle_events (Z.to_nat (u32 (prod - rsp_cons (recv_ring l)))) (rsp_cons (recv_ring l)) l;
      let '(more_to_do, r) := final_check_responses ((recv_ring l) <| rsp_cons := prod |>) in
      let l := l <| recv_ring := r |> in
      if more_to_do then again_recv passes l else Some l
  end.
(* [driver/frontend/omx_xenfront.c:252-283] omx_xenif_interrupt_recv *)
Definition omx_xenif_interrupt_recv (passes : nat) l : option link := if has_responses (recv_ring l) then again_recv passes l else Some l.

(** ** The specification: a queue of events *)

Record event := MkEvent { ev_func : cmd_func; ev_endpoint : Z; ev_data : devt }.
Definition event_of_message m : event := MkEvent (func m) (eid m) (received (data m)).
Definition known (e : event) : Prop := is_Some (ack_of (ev_func e)).
(** Each endpoint gets its events in order. *)
Fixpoint notify_all (es : list event) (eps : gmap Z guest_endpoint) : option (gmap Z guest_endpoint) :=
  match es with
  | [] => Some eps
  | e :: es =>
      g ← eps !! ev_endpoint e;
      q ← notify_guest (ev_func e) (ev_data e) (g_queue g);
      notify_all es (<[ev_endpoint e := g <| g_queue := q |>]> eps)
  end.
Inductive eop := Receive (f : cmd_func) (board endpoint : Z) (mk : Z -> devt) | Interrupt | Acknowledge.
Definition espec_step (o : eop) (s : list event * gmap Z guest_endpoint) : option (list event * gmap Z guest_endpoint) :=
  match o with
  | Receive f _ i mk =>
      g ← snd s !! i;
      let '(off, q) := reserve f (g_queue g) in
      Some (match off with None => fst s | Some off => fst s ++ [MkEvent f i (mk off)] end, <[i := g <| g_queue := q |>]> (snd s))
  | Interrupt => eps ← notify_all (fst s) (snd s); Some ([], eps)
  | Acknowledge => Some s
  end.
Definition eimpl_step (o : eop) l : option link :=
  match o with
  | Receive f board i mk => receive f board i mk l
  | Interrupt => omx_xenif_interrupt_recv 1 l
  | Acknowledge => response_workq_handler 1 l
  end.
Fixpoint erun {S} (step : eop -> S -> option S) (os : list eop) (s : S) : option S :=
  match os with [] => Some s | o :: os => s ← step o s; erun step os s end.
(** The backend receives known events, and at most as many as the ring has slots
    between two interrupts. *)
Fixpoint eallowed (os : list eop) (s : list event * gmap Z guest_endpoint) : Prop :=
  match os with
  | [] => True
  | o :: os =>
      match o with
      | Receive f _ _ _ => is_Some (ack_of f) /\ Z.of_nat (length (fst s)) < RING_SIZE
      | _ => True
      end /\ forall s', espec_step o s = Some s' -> eallowed os s'
  end.

(** ** Refinement *)

Definition null m : Prop := func m = OMX_CMD_OTHER 0.
(** The answers that the backend did not consume have function codes. *)
Definition acks_ok (r : ring message) (b : Z) : Prop :=
  exists c, req_cons r = u32 c /\ c <= b /\ forall i, c <= i < b -> ~ null (get_slot i r).
(** The events [ms] are in the ring from the index [b], up to which the guest
    answered. *)
Record in_ring (r : ring message) (b : Z) (ms : list message) : Prop := {
  ir_req : req_prod r = u32 b; ir_req_pvt : req_prod_pvt r = u32 b;
  ir_room : Z.of_nat (length ms) <= RING_SIZE;
  ir_slots : stored r b ms; ir_acks : acks_ok r b }.
Record events_at l (b : Z) (s : list event * gmap Z guest_endpoint) (ms : list message) : Prop := {
  ea_ring : in_ring (recv_ring l) b ms;
  ea_cons : rsp_cons (recv_ring l) = u32 b;
  ea_rsp : rsp_prod (recv_ring l) = u32 (b + Z.of_nat (length ms));
  ea_rsp_pvt : rsp_prod_pvt (recv_ring l) = u32 (b + Z.of_nat (length ms));
  ea_events : fst s = event_of_message <$> ms;
  ea_known : Forall (fun e => known e /\ is_Some (snd s !! ev_endpoint e)) (fst s);
  ea_endpoints : endpoints (fe l) = snd s }.

Lemma known_not_null e m : known e -> func m = ev_func e -> ~ null m.
Proof. unfold known, null. intros [x Hx] -> E. by rewrite E in Hx. Qed.
Lemma ack_not_null f a m : ack_of f = Some a -> func m = a -> ~ null m.
Proof. unfold null. intros H -> ->. by destruct f. Qed.
Lemma acks_updated r r' b i m : acks_ok r b -> updated i m r r' -> ~ null m -> acks_ok r' b.
Proof.
  intros (c & H1 & H2 & H3) [U1 U2 U3] Hm. exists c. split; [by rewrite <- H1, <- U3|]. split; [done|]. intros j Hj.
  destruct (decide (ring_slot j = ring_slot i)) as [E|E]; [|rewrite U2 by done; by apply H3].
  assert (get_slot j r' = get_slot i r') as -> by (unfold get_slot; by rewrite E). by rewrite U1.
Qed.
Lemma acks_next r b : acks_ok r b -> ~ null (get_slot b r) -> acks_ok r (b + 1).
Proof.
  intros (c & H1 & H2 & H3) Hn. exists c. split; [done|]. split; [lia|]. intros i Hi. destruct (decide (i = b)) as [->|]; [done|]. apply H3. lia.
Qed.
Lemma acks_indexes r r' b : entries r' = entries r -> req_cons r' = req_cons r -> acks_ok r b -> acks_ok r' b.
Proof. intros E1 E2 (c & H1 & H2 & H3). exists c. split; [congruence|]. split; [done|]. intros i Hi. unfold get_slot. rewrite E1. by apply H3. Qed.

(** *** The backend reports *)
Lemma forward_at f board i e l b s ms : events_at l b s ms -> known (MkEvent f i e) -> is_Some (snd s !! i) ->
  Z.of_nat (length ms) < RING_SIZE ->
  exists m, events_at (forward_event f board i e l) b (fst s ++ [MkEvent f i e], snd s) (ms ++ [m]).
Proof.
  intros [[R1 R2 R3 R4 R5] E1 E2 E3 E4 E5 E6] Hk Hi Hroom.
  set (r0 := (recv_ring l) <| rsp_prod_pvt ::= fun p => u32 (p + 1) |>). set (j := rsp_prod_pvt (recv_ring l)).
  set (m := write_event f board i e (get_slot j r0)). exists m. set (r1 := set_slot j m r0).
  assert (Hu : updated j m r0 r1) by apply updated_set.
  assert (Hs : stored r1 b (ms ++ [m])).
  { eapply (stored_last r0); [apply (stored_entries (recv_ring l)); [done|exact R4]|done|]. unfold j in Hu |- *. rewrite <- E3. exact Hu. }
  assert (Ha : acks_ok r1 b).
  { eapply (acks_updated r0); [apply (acks_indexes (recv_ring l)); done|exact Hu|]. by apply (known_not_null (MkEvent f i e)). }
  assert (Hr : recv_ring (forward_event f board i e l) = r1 <| rsp_prod := rsp_prod_pvt r1 |>) by done.
  assert (Hf : endpoints (fe (forward_event f board i e l)) = endpoints (fe l)) by done.
  assert (Hp : rsp_prod_pvt r1 = u32 (b + Z.of_nat (length (ms ++ [m])))).
  { change (rsp_prod_pvt r1) with (u32 (rsp_prod_pvt (recv_ring l) + 1)). rewrite E3, u32_add_1, length_app. cbn. f_equal. lia. }
  split; rewrite ?Hr.
  - split; [exact R1|exact R2|rewrite length_app; cbn; lia|by apply (stored_entries r1)|by apply (acks_indexes r1)].
  - exact E1.
  - exact Hp.
  - exact Hp.
  - cbn [fst]. rewrite fmap_app, E4. done.
  - cbn [fst snd]. apply Forall_app. split; [done|]. by apply Forall_singleton.
  - by rewrite Hf.
Qed.
Lemma alter_endpoint i (h : guest_endpoint -> guest_endpoint) (eps : gmap Z guest_endpoint) g :
  eps !! i = Some g -> alter h i eps = <[i := h g]> eps.
Proof.
  intros Hg. apply map_eq. intros k. destruct (decide (i = k)) as [<-|Hne].
  - by rewrite lookup_alter_eq, lookup_insert_eq, Hg.
  - by rewrite lookup_alter_ne, lookup_insert_ne.
Qed.
Lemma receive_at f board i mk l b s ms : events_at l b s ms -> is_Some (ack_of f) -> Z.of_nat (length ms) < RING_SIZE ->
  match receive f board i mk l, espec_step (Receive f board i mk) s with
  | Some l', Some s' => exists ms', events_at l' b s' ms'
  | None, None => True
  | _, _ => False
  end.
Proof.
  intros H Hk Hroom. pose proof (ea_endpoints _ _ _ _ H) as He. unfold receive. cbn [espec_step]. rewrite He.
  destruct (snd s !! i) as [g|] eqn:Hg; cbn [mbind option_bind]; [|done]. destruct (reserve f (g_queue g)) as [off q].
  set (l1 := on_endpoint i _ l). set (eps := <[i := g <| g_queue := q |>]> (snd s)).
  assert (H1 : events_at l1 b (fst s, eps) ms).
  { destruct H as [R E1 E2 E3 E4 E5 E6]. split; [exact R|exact E1|exact E2|exact E3|exact E4| |].
    - cbn [fst snd]. eapply Forall_impl; [exact E5|]. intros e [K1 K2]. split; [done|]. unfold eps. destruct (decide (i = ev_endpoint e)) as [<-|Hne].
      + rewrite lookup_insert_eq. by eexists.
      + by rewrite lookup_insert_ne.
    - cbn [snd]. unfold eps. rewrite <- He. exact (alter_endpoint i _ _ g (eq_trans (f_equal (lookup i) He) Hg)). }
  destruct off as [off|]; [|by exists ms].
  destruct (forward_at f board i (mk off) l1 b _ ms H1) as [m Hm]; [done| |done|by exists (ms ++ [m])].
  cbn [snd]. unfold eps. rewrite lookup_insert_eq. by eexists.
Qed.

(** *** The guest consumes *)
Definition indexes (r : ring message) : Z * Z * Z := (rsp_cons r, rsp_prod r, rsp_prod_pvt r).
Lemma ack_is_recv f a : ack_of f = Some a -> is_recv a = true.
Proof. intros H. destruct f; cbn in H; simplify_eq; done. Qed.
Lemma poke_recv a l : is_recv a = true -> recv_ring (omx_poke_dom0 a l) = snd (push_requests (recv_ring l)) /\ fe (omx_poke_dom0 a l) = fe l.
Proof. intros H. unfold omx_poke_dom0. rewrite H. done. Qed.
(** The answer goes in the slot of its event. *)
Lemma ack_at f a l b m ms : ack_of f = Some a -> in_ring (recv_ring l) b (m :: ms) ->
  in_ring (recv_ring (omx_xenfront_ack a l)) (b + 1) ms /\ fe (omx_xenfront_ack a l) = fe l
  /\ indexes (recv_ring (omx_xenfront_ack a l)) = indexes (recv_ring l).
Proof.
  intros Hf [R1 R2 R3 R4 R5]. set (r0 := (recv_ring l) <| req_prod_pvt ::= fun p => u32 (p + 1) |>).
  set (m' := (get_slot (u32 b) r0) <| func := a |>). set (r1 := set_slot (u32 b) m' r0).
  set (l1 := l <| recv_ring := r1 |>). assert (E : omx_xenfront_ack a l = omx_poke_dom0 a l1).
  { unfold omx_xenfront_ack. rewrite R2. done. }
  rewrite E. destruct (poke_recv a l1) as [-> ->]; [by apply (ack_is_recv f)|]. split; [|done].
  assert (Hu : updated (u32 b) m' r0 r1) by apply updated_set.
  assert (Hn : ~ null m') by by apply (ack_not_null f a).
  assert (Hs : stored r1 b (m' :: ms)).
  { apply (stored_middle r0 b [] m m' ms); [by apply (stored_entries (recv_ring l))|done|]. cbn. by rewrite Z.add_0_r. }
  assert (Hp : req_prod_pvt r1 = u32 (b + 1)).
  { change (req_prod_pvt r1) with (u32 (req_prod_pvt (recv_ring l) + 1)). by rewrite R2, u32_add_1. }
  cbn in R3. split.
  - exact Hp.
  - exact Hp.
  - lia.
  - apply (stored_entries r1); [done|]. exact (stored_drop r1 b [m'] ms Hs).
  - apply (acks_indexes r1); [done..|]. apply acks_next.
    + eapply (acks_updated r0); [by apply (acks_indexes (recv_ring l))|exact Hu|exact Hn].
    + rewrite <- get_slot_u32, (up_slot _ _ _ _ Hu). exact Hn.
Qed.
Definition events_known (eps : gmap Z guest_endpoint) (es : list event) : Prop :=
  Forall (fun e => known e /\ is_Some (eps !! ev_endpoint e)) es.
Lemma events_known_insert i g eps es : events_known eps es -> events_known (<[i := g]> eps) es.
Proof.
  intros H. eapply Forall_impl; [exact H|]. intros e [K1 K2]. split; [done|]. destruct (decide (i = ev_endpoint e)) as [<-|Hne].
  - rewrite lookup_insert_eq. by eexists.
  - by rewrite lookup_insert_ne.
Qed.
Lemma handle_event_at l b m ms g : in_ring (recv_ring l) b (m :: ms) -> known (event_of_message m) ->
  endpoints (fe l) !! eid m = Some g ->
  match handle_event (u32 b) l, notify_guest (func m) (received (data m)) (g_queue g) with
  | Some l', Some q => in_ring (recv_ring l') (b + 1) ms /\ indexes (recv_ring l') = indexes (recv_ring l)
      /\ endpoints (fe l') = <[eid m := g <| g_queue := q |>]> (endpoints (fe l))
  | None, None => True
  | _, _ => False
  end.
Proof.
  intros Hr [a Ha] Hg. cbn in Ha. unfold handle_event, omx_xenfront_get_endpoint.
  rewrite (stored_head _ _ _ _ (ir_slots _ _ _ Hr)), Ha, Hg.
  destruct (notify_guest _ _ _) as [q|]; cbn [mbind option_bind]; [|done].
  set (l1 := on_endpoint _ _ l). destruct (ack_at (func m) a l1 b m ms Ha Hr) as (H1 & H2 & H3). split; [done|]. split; [exact H3|].
  rewrite H2. exact (alter_endpoint _ _ _ g Hg).
Qed.
Lemma handle_events_at ms : forall l b, in_ring (recv_ring l) b ms -> events_known (endpoints (fe l)) (event_of_message <$> ms) ->
  match handle_events (length ms) (u32 b) l, notify_all (event_of_message <$> ms) (endpoints (fe l)) with
  | Some l', Some eps => in_ring (recv_ring l') (b + Z.of_nat (length ms)) [] /\ indexes (recv_ring l') = indexes (recv_ring l)
      /\ endpoints (fe l') = eps
  | None, None => True
  | _, _ => False
  end.
Proof.
  induction ms as [|m ms IH]; intros l b Hr Hk; cbn [length handle_events fmap list_fmap notify_all].
  { by rewrite Z.add_0_r. }
  apply Forall_cons in Hk as [[Hm [g Hg]] Hk]. pose proof (handle_event_at l b m ms g Hr Hm Hg) as H. cbn [ev_endpoint event_of_message] in *.
  rewrite Hg. cbn [mbind option_bind ev_func ev_data].
  destruct (handle_event _ _) as [l'|], (notify_guest _ _ _) as [q|]; cbn [mbind option_bind]; try done.
  destruct H as (H1 & H2 & H3). rewrite u32_add_1. specialize (IH l' (b + 1) H1). rewrite H3 in IH. specialize (IH (events_known_insert _ _ _ _ Hk)).
  destruct (handle_events _ _ _) as [l''|], (notify_all _ _) as [eps|]; try done. destruct IH as (I1 & I2 & I3).
  split; [|by rewrite I2]. replace (b + Z.of_nat (S (length ms))) with (b + 1 + Z.of_nat (length ms)) by lia. done.
Qed.

Lemma u32_small_diff b n : 0 <= n <= RING_SIZE -> (u32 (b + n) =? u32 b) = (n =? 0) /\ u32 (u32 (b + n) - u32 b) = n.
Proof. intros H. pose proof size_page. split; [apply diff_eqb|apply u32_diff]; lia. Qed.
(** One pass reports all the events. *)
Lemma interrupt_at l b s ms : events_at l b s ms ->
  match omx_xenif_interrupt_recv 1 l, espec_step Interrupt s with
  | Some l', Some s' => events_at l' (b + Z.of_nat (length ms)) s' []
  | None, None => True
  | _, _ => False
  end.
Proof.
  intros [R E1 E2 E3 E4 E5 E6]. pose proof (ir_room _ _ _ R) as Hroom. cbn [espec_step]. rewrite E4, <- E6 in *.
  unfold omx_xenif_interrupt_recv, has_responses. rewrite E1, E2, responses_seen by apply u32_range.
  destruct (u32_small_diff b (Z.of_nat (length ms))) as [-> Hn]; [lia|].
  destruct (Z.eqb_spec (Z.of_nat (length ms)) 0) as [H0|_]; cbn [negb].
  { destruct ms; [|done]. change (events_at l (b + 0) ([], endpoints (fe l)) []). rewrite !Z.add_0_r in *. split; cbn; rewrite ?Z.add_0_r; done || by apply Forall_nil. }
  cbn [again_recv]. rewrite E1, E2, Hn, Nat2Z.id. pose proof (handle_events_at ms l b R E5) as H.
  destruct (handle_events _ _ _) as [l'|], (notify_all _ _) as [eps|]; cbn [mbind option_bind]; try done.
  destruct H as (R' & Hi & He). unfold indexes in Hi. injection Hi as I1 I2 I3. destruct R' as [R1 R2 R3 R4 R5].
  set (r := (recv_ring l') <| rsp_cons := _ |>).
  assert (Hh : forall e, has_responses (r <| rsp_event := e |>) = false).
  { intros e. unfold has_responses. change (unconsumed_responses (rsp_prod (recv_ring l')) (u32 (b + Z.of_nat (length ms))) = false).
    rewrite I2, E2, responses_seen by apply u32_range. by rewrite Z.eqb_refl. }
  unfold final_check_responses. change (has_responses r) with (has_responses (r <| rsp_event := rsp_event r |>)). rewrite !Hh.
  split; [split; [exact R1|exact R2|exact R3|by apply (stored_entries (recv_ring l'))|by apply (acks_indexes (recv_ring l'))]|done| | |done|by apply Forall_nil|exact He].
  - change (rsp_prod (recv_ring l') = u32 (b + Z.of_nat (length ms) + 0)). by rewrite I2, E2, Z.add_0_r.
  - change (rsp_prod_pvt (recv_ring l') = u32 (b + Z.of_nat (length ms) + 0)). by rewrite I3, E3, Z.add_0_r.
Qed.

(** *** The backend counts the answers *)
Lemma acknowledged_all r n : forall c, (forall i, c <= i < c + Z.of_nat n -> ~ null (get_slot i r)) -> acknowledged n (u32 c) r = true.
Proof.
  induction n as [|n IH]; intros c H; cbn [acknowledged]; [done|]. rewrite get_slot_u32. rewrite bool_decide_eq_false_2 by (apply H; lia).
  rewrite u32_add_1. apply IH. intros i Hi. apply H. lia.
Qed.
Lemma process_answers_at r b : req_prod r = u32 b -> acks_ok r b ->
  omx_xen_process_incoming_response r = Some (r <| req_cons := req_prod r |>).
Proof.
  intros Hp (c & Hc & Hle & Hs). unfold omx_xen_process_incoming_response. rewrite Hc, Hp, acknowledged_all; [done|].
  intros i Hi. apply Hs. rewrite u32_sub in Hi. pose proof (u32_range (b - c)). assert (u32 (b - c) <= b - c) by (apply Z.mod_le; lia). lia.
Qed.
Lemma acknowledge_at l b s ms : events_at l b s ms -> exists l', response_workq_handler 1 l = Some l' /\ events_at l' b s ms.
Proof.
  intros [[R1 R2 R3 R4 R5] E1 E2 E3 E4 E5 E6]. cbn [response_workq_handler].
  assert (exists r, (if has_requests (recv_ring l) then omx_xen_process_incoming_response (recv_ring l) else Some (recv_ring l)) = Some r
    /\ (forall e, has_requests (r <| req_event := e |>) = false) /\ acks_ok r b
    /\ exists c, r = (recv_ring l) <| req_cons := c |>) as (r & -> & Hh & Ha & c & Hr).
  { destruct (has_requests _) eqn:Hh.
    - exists ((recv_ring l) <| req_cons := req_prod (recv_ring l) |>). split; [by apply (process_answers_at _ b)|]. split; [|split; [|by eexists]].
      + intros e. apply requests_none.
      + exists b. split; [exact R1|]. split; [lia|]. intros i Hi. lia.
    - exists (recv_ring l). split; [done|]. split; [done|]. split; [done|]. exists (req_cons (recv_ring l)). by destruct (recv_ring l). }
  cbn [mbind option_bind]. unfold final_check_requests. change (has_requests r) with (has_requests (r <| req_event := req_event r |>)). rewrite !Hh.
  eexists. split; [done|]. rewrite Hr in *. split; done || (split; done || by apply (acks_indexes ((recv_ring l) <| req_cons := c |>))).
Qed.
Lemma estep_at o l b s ms : events_at l b s ms -> eallowed [o] s ->
  match eimpl_step o l, espec_step o s with
  | Some l', Some s' => exists b' ms', events_at l' b' s' ms'
  | None, None => True
  | _, _ => False
  end.
Proof.
  intros H [Ho _]. destruct o as [f board i mk| |]; cbn [eimpl_step].
  - destruct Ho as [Hf Hn]. rewrite (ea_events _ _ _ _ H), length_fmap in Hn. pose proof (receive_at f board i mk l b s ms H Hf Hn) as Hs.
    destruct (receive _ _ _ _ _), (espec_step _ _); try done. by exists b.
  - pose proof (interrupt_at l b s ms H) as Hs. destruct (omx_xenif_interrupt_recv _ _), (espec_step _ _); try done. by eexists _, _.
  - destruct (acknowledge_at l b s ms H) as (l' & -> & H'). by eexists _, _.
Qed.
Lemma erun_at os : forall l b s ms, events_at l b s ms -> eallowed os s ->
  match erun eimpl_step os l, erun espec_step os s with
  | Some l', Some s' => exists b' ms', events_at l' b' s' ms'
  | None, None => True
  | _, _ => False
  end.
Proof.
  induction os as [|o os IH]; intros l b s ms H Ha; cbn [erun]; [by eexists _, _|]. destruct Ha as [Ho Ha].
  pose proof (estep_at o l b s ms H (conj Ho (fun _ _ => I))) as Hs.
  destruct (eimpl_step o l) as [l'|], (espec_step o s) as [s'|] eqn:Hsp; cbn [mbind option_bind]; try done. destruct Hs as (b' & ms' & Hs).
  apply (IH l' b' s' ms' Hs). by apply Ha.
Qed.
Lemma init_events l page : recv_ring l = ring_init page -> events_at l 0 ([], endpoints (fe l)) [].
Proof.
  intros E. pose proof size_pos. split; try done; rewrite ?E; try done. split; try done; [cbn; lia|]. exists 0. split; [done|]. split; [done|]. intros i Hi. lia.
Qed.
(** Decidable, for concrete operations. *)
Fixpoint allowedb (os : list eop) (s : list event * gmap Z guest_endpoint) : bool :=
  match os with
  | [] => true
  | o :: os =>
      match o with
      | Receive f _ _ _ => bool_decide (is_Some (ack_of f)) && (Z.of_nat (length (fst s)) <? RING_SIZE)
      | _ => true
      end && match espec_step o s with Some s' => allowedb os s' | None => true end
  end.
Lemma allowedb_allowed os : forall s, allowedb os s = true -> eallowed os s.
Proof.
  induction os as [|o os IH]; intros s H; cbn [allowedb eallowed] in *; [done|]. apply andb_true_iff in H as [Ho H]. split.
  - destruct o; try done. apply andb_true_iff in Ho as [H1%bool_decide_eq_true H2%Z.ltb_lt]. done.
  - intros s' E. rewrite E in H. by apply IH.
Qed.
(** C18. From empty rings, whatever the backend receives for the endpoints of a guest
    and however its events, the guest's interrupts and the consumption of its
    answers interleave, the two sides behave like a queue of events: an interrupt
    gives each endpoint its events in the order in which the backend received
    them, one pass is enough on each side, the place that the backend reserved
    for the data of a message is the one of its event, and a crash (more messages
    with data than places) is a crash of both.  This holds for the interleavings that
    are [eallowed]: the events are of the kinds that the guest knows, and at most as
    many as the ring has slots come between two interrupts.  The backend does not
    ensure the latter: it takes a slot without looking whether one is free
    (omx_recv.c:319). *)
Theorem guest_events_refine os l page : recv_ring l = ring_init page -> eallowed os ([], endpoints (fe l)) ->
  match erun eimpl_step os l, erun espec_step os ([], endpoints (fe l)) with
  | Some l', Some (es, eps) => endpoints (fe l') = eps /\ exists b ms, es = event_of_message <$> ms /\ in_ring (recv_ring l') b ms
  | None, None => True
  | _, _ => False
  end.
Proof.
  intros Hl Ha. pose proof (erun_at os l 0 _ [] (init_events l page Hl) Ha) as H.
  destruct (erun eimpl_step _ _) as [l'|], (erun espec_step _ _) as [[es eps]|]; try done. destruct H as (b & ms & [H1 H2 H3 H4 H5 H6 H7]).
  split; [done|]. by exists b, ms.
Qed.
End events.
End XenEvents.
