(* ===== verification/XenSamples.v ===== *)
(** A guest and its backend with rings of eight slots: the theorems on the rings
    at concrete requests. *)
From S2P Require Import Prelude Io World Event EventFifo Peer Reg Pull Wire Host SendMsg RecvMsg PeerTable PeerSpec Crossing XenGrant XenReg XenRing XenRingFifo XenFront XenServe XenServed XenCalls XenSend XenLookup XenEvents.
Import Wire Host Crossing XenRing XenRingFifo XenFront XenServe XenServed XenCalls.

Module XenSamples.

#[local] Instance eight_slots : RingMacros := ring_macros 8.
#[local] Instance eight_slots_laws : RingLaws eight_slots.
Proof. apply ring_laws; [lia|]. exists (2 ^ 29). reflexivity. Defined.
#[local] Instance little_endian : ByteOrder := false.
(** The bytes of another member are zeroes. *)
#[local] Instance zeroes : Views (board_info:=unit) (endpoint_info:=unit) := {|
  as_peer_info := fun _ => PeerInfo 0 [] 0; as_board_count := fun _ => 0; as_table_state := fun _ => PeerTable.PeerTableState 0 0 0 0;
  as_hostname := fun _ => []; as_board_info := fun _ => tt; as_endpoint_info := fun _ => tt;
  as_endpoint_message := fun _ => EndpointMsg 0 0 0; as_create := fun _ => XenReg.CreateMsg 0 0 0 0 [];
  as_destroy := fun _ => XenReg.DestroyMsg 0 0 0 0 0 []; as_received := fun _ => EvtNone |}.
(** Every command of every endpoint succeeds and is logged. *)
Definition success {D} (log : Z -> cmd_func -> D -> D) : Driver (board_info:=unit) (endpoint_info:=unit) D := {|
  endpoint_at := fun e _ => Some (0, e);
  omx_ioctl := fun e f _ d => Some (0, log e f d);
  omx_peer_lookup := fun _ p _ => Some (0, p);
  omx_endpoint_get_info := fun _ _ _ => tt;
  omx_ifaces_get_count := fun _ => 1;
  omx_peer_table_get_state := fun _ => PeerTable.PeerTableState 0 0 0 0;
  omx_iface_set_hostname := fun _ _ d => Some (0, d);
  omx_iface_get_info := fun _ _ => (0, tt);
  omx_xen_endpoint_open := fun _ d => Some (0, d);
  omx_xen_endpoint_close := fun _ d => Some (0, d);
  process_create := fun c d => Some (c, 0, d);
  process_destroy := fun c d => Some (c, 0, d) |}.
#[local] Instance logging : Driver (board_info:=unit) (endpoint_info:=unit) (list (Z * cmd_func)) := success (fun e f d => d ++ [(e, f)]).

(** The guest has the endpoint 2 open. *)
#[local] Notation message := (@message unit unit).
#[local] Notation link := (@link unit unit).
#[local] Notation payload := (@payload unit unit).
Definition blank : message := Message (OMX_CMD_OTHER 0) 0 0 0 0 Blank.
Definition sample_queue : @Event.endpoint devt :=
  Event.omx_endpoint_queues_init (Event.Endpoint (fun _ => (0, EvtNone)) 0 0 (fun _ => (0, EvtNone)) 0 0 0 0 [] 0 0 0 0 0).
Definition sample_endpoint : @guest_endpoint unit := GuestEndpoint 0 2 OMX_ENDPOINT_STATUS_OK ∅ None 0 sample_queue.
Definition sample_front : @omx_xenfront_info unit unit := XenFrontInfo true {[ 2 := sample_endpoint ]} (fun _ => 0) 0 None None None.
Definition sample_link : link := Link (ring_init (fun _ => blank)) (ring_init (fun _ => blank)) sample_front 0 0.
Definition open (e : Z) : bool := e =? 2.
Definition fuel : nat := (Z.to_nat OMX_XEN_BACKEND_TIMEOUT + 2)%nat.
Lemma fuel_enough : (Z.to_nat OMX_XEN_BACKEND_TIMEOUT + 1 < fuel)%nat.
Proof. unfold fuel. generalize (Z.to_nat OMX_XEN_BACKEND_TIMEOUT). intros n. lia. Qed.
Lemma sample_idle {D} (d : D) :
  idle open (sample_link, d) 0 (fun _ => 0).
Proof.
  split; [exact (init_carried _)|done|done| |by apply Forall_nil|done|done]. intros e. unfold open. cbn [fst fe sample_link endpoints sample_front].
  destruct (Z.eqb_spec e 2) as [->|Hne].
  - rewrite lookup_singleton_eq. by rewrite bool_decide_eq_true_2.
  - rewrite lookup_singleton_ne by done. rewrite bool_decide_eq_false_2; [done|]. by intros [x Hx].
Qed.

(** A request that was never written. *)
Lemma null_request_hangs_witness : msg_workq_handler (views:=zeroes) (fun _ => 0) 3 fuel 0
  (snd (push_requests (take_slot (ring_init (fun _ => blank))))) ([] : list (Z * cmd_func)) = None.
Proof.
  apply (null_request_hangs (views:=zeroes) (fun _ => 0) 3 fuel 0 _ 0 [] blank [] []); [|reflexivity].
  apply (push_carried _ 0 [] [] [blank]). apply (take_carried (ring_init (fun _ => blank)) 0 [] [] [] blank); [apply init_carried|reflexivity|].
  exact (updated_same 0 (take_slot (ring_init (fun _ => blank)))).
Defined.
(** Two notifications of a process, whose arguments can and cannot be read. *)
Definition sample_notify : SendMsg.send_cmd := SendMsg.SendCmd 1 2 false 555 42 7 0x1234 0 4 0 0 0 0 3 1.
Definition bad_notify : request := ReqNotify None.
Definition good_notify : request := ReqNotify (Some sample_notify).
Definition no_memory (_ : Z) : option Z := None.
Lemma backend_woken_witness :
  to_dom0 (snd (issue id (fun _ => []) no_memory sample_endpoint good_notify
    (issue_all id (fun _ => []) no_memory [(sample_endpoint, bad_notify)] sample_link))) = to_dom0 sample_link + 1.
Proof.
  eapply (backend_woken (views:=zeroes) (fun _ => 0) id (fun _ => []) no_memory 1 fuel 0 (ring_init (fun _ => blank)) ([] : list (Z * cmd_func))
    0 [] sample_link 0 [] [] [(sample_endpoint, bad_notify)] sample_endpoint good_notify).
  - unfold msg_workq_handler. cbn [again]. rewrite poll_idle; [reflexivity|reflexivity|].
    pose proof fuel_enough as H. revert H. generalize (Z.to_nat OMX_XEN_BACKEND_TIMEOUT), fuel. intros n m. lia.
  - apply init_carried.
  - constructor; [by eexists|constructor].
  - reflexivity.
  - reflexivity.
Defined.

(** Three calls, of which the second is refused, served together. *)
Definition sample_ops : list op :=
  [Issue sample_endpoint good_notify; Issue sample_endpoint bad_notify; Return 0 EFAULT; Issue sample_endpoint good_notify; Serve; Answer;
   Return 0 EFAULT; Return 2 EFAULT].
Lemma guest_calls_refine_witness :
  let '(xs, w') := impl_run (fun _ => 0) id (fun _ => []) no_memory fuel sample_ops (sample_link, []) in
  exists s', steps (fun _ => 0) no_memory open (Calls 0 [] [] [] (fun _ => 0) []) (take (length xs) sample_ops) xs s' /\
    match w' with
    | Some w' => length xs = length sample_ops /\ runs open w' s'
    | None => sample_ops !! length xs = Some Serve /\ crashes (fun _ => 0) s'
    end.
Proof.
  apply (guest_calls_refine (fun _ => 0) id (fun _ => []) no_memory open fuel sample_ops (sample_link, []) (Calls 0 [] [] [] (fun _ => 0) [])).
  - exact (sample_idle []).
  - apply (few_allowed (fun _ => 0) no_memory open sample_ops (Calls 0 [] [] [] (fun _ => 0) [])); [by vm_compute|]. by vm_compute.
  - exact fuel_enough.
Defined.

(** A small message of the guest, in the host of [Crossing], and one for a peer
    that this host does not know. *)
Definition sample_small (peer : Z) : SendMsg.send_cmd := SendMsg.SendCmd peer 2 false 555 42 7 0x1234 0x1122334455667788 4 1000 0 0 0 0 0.
Definition small_command (peer : Z) : command := CmdSmall (not_shared (sample_small peer)).
#[local] Notation small_call peer := (impl_run (driver:=XenSend.host_driver (success (fun _ _ s => s)) false (Some (fun _ => 0)) 32 16 true
  (fun _ _ => (0, [])) true 1 1 0) (fun i => 5000 + i) id (fun _ => []) sample_umem fuel
  (call_ops sample_endpoint (ReqSmall (Some (sample_small peer))) 0 EFAULT) (sample_link, sample_sender)).
Lemma guest_command_crosses_witness :
  (exists l' s', small_call 1 = ([Issued (inr (Call 0 EFAULT)); Served; Answered; Returned (Some 0)], Some (l', s')) /\
    XenSend.crosses (small_command 1) [100; 101; 102; 103] sample_sender s') /\
  exists l', small_call 9 = ([Issued (inr (Call 0 EFAULT)); Served; Answered; Returned (Some 0)], Some (l', sample_sender)).
Proof.
  pose proof (fun peer => XenSend.guest_command_crosses (views:=zeroes) (success (fun _ _ s => s)) false (Some (fun _ => 0)) 32 16 true
    (fun _ _ => (0, [])) true 1 1 0 (fun i => 5000 + i) id (fun _ => []) sample_umem open fuel sample_endpoint (ReqSmall (Some (sample_small peer)))
    EFAULT (small_command peer) [100; 101; 102; 103] (0, 2) sample_link sample_sender 0 (fun _ => 0)) as H.
  split.
  - destruct (H 1) as (r & l' & s' & st' & E & _ & Hr); [apply sample_idle|reflexivity..|exact fuel_enough|split; cbn; lia|cbn; lia|].
    change (r = 0 /\ XenSend.crosses (small_command 1) [100; 101; 102; 103] sample_sender s') in Hr.
    destruct Hr as [-> Hr]. exists l', s'. split; [exact E|exact Hr].
  - destruct (H 9) as (r & l' & s' & st' & E & _ & Hr); [apply sample_idle|reflexivity..|exact fuel_enough|split; cbn; lia|cbn; lia|].
    change (s' = sample_sender /\ r = 0) in Hr. destruct Hr as [-> ->]. exists l'. exact E.
Defined.

(** The peer 11 of the host, and an address that it does not know. *)
Definition sample_table : PeerTable.table := PeerSpec.sample2 10 11 [97].
Definition finds (key : XenLookup.key) (res : option peer_info) : Prop :=
  exists c l1 sent r2 l3, XenLookup.request_lookup key sample_link = (c, l1) /\
    omx_xenif_be_int (driver:=XenLookup.table_driver (success (fun _ _ t => t)) 4) (fun _ => 0) 1 fuel (to_domU l1) (requests_ring l1) sample_table
      = Some (Some (sent, r2, sample_table)) /\
    omx_xenif_interrupt 1 (l1 <| requests_ring := r2 |>) = Some l3 /\
    peer_lookup_end 0 (requests (fe l3) (c_id c)) (fe l3) = match res with Some p => (0, Some (Some p)) | None => (EINVAL, Some None) end.
Lemma guest_lookup_witness : finds (XenLookup.ByAddr 11) (Some (PeerInfo 11 [] 1)) /\ finds (XenLookup.ByAddr 12) None.
Proof.
  assert (Hfind : forall key res, XenLookup.table_result 4 key sample_table = Some res -> finds key res).
  { intros key res Hres. unfold finds.
    pose proof (XenLookup.guest_lookup (success (fun _ _ t => t)) 4 (fun _ => 0) fuel key 0 sample_link sample_table res (init_carried _) eq_refl
      Hres fuel_enough) as H.
    destruct (XenLookup.request_lookup key sample_link) as [c l1]. destruct H as (sent & r2 & l3 & H1 & H2 & _ & H3).
    exists c, l1, sent, r2, l3. split; [done|]. split; [exact H1|]. split; [exact H2|exact H3]. }
  split; apply Hfind; vm_compute; reflexivity.
Defined.

(** A small and a tiny message, reported together, and another one after the
    answers were counted. *)
Definition sample_info : msg_info := MsgInfo 3 1 42 7 0x1234.
Definition sample_events : list XenEvents.eop :=
  [XenEvents.Receive OMX_CMD_RECV_SMALL 0 2 (fun off => RecvSmall sample_info 4 0 off);
   XenEvents.Receive OMX_CMD_RECV_TINY 0 2 (fun _ => RecvTiny sample_info 1 0 [5]); XenEvents.Interrupt; XenEvents.Acknowledge;
   XenEvents.Receive OMX_CMD_RECV_LIBACK 0 2 (fun _ => RecvLiback 3 1 0 0 0 0); XenEvents.Interrupt].
Lemma guest_events_refine_witness :
  match XenEvents.erun XenEvents.espec_step sample_events ([], endpoints (fe sample_link)) with
  | Some (es, eps) => es = [] /\ exists l', XenEvents.erun XenEvents.eimpl_step sample_events sample_link = Some l' /\ endpoints (fe l') = eps
  | None => False
  end.
Proof.
  assert (Ha : XenEvents.eallowed sample_events ([], endpoints (fe sample_link))) by (apply XenEvents.allowedb_allowed; vm_compute; reflexivity).
  pose proof (XenEvents.guest_events_refine sample_events sample_link (fun _ => blank) eq_refl Ha) as H.
  assert (Hs : fst <$> XenEvents.erun XenEvents.espec_step sample_events ([], endpoints (fe sample_link)) = Some []) by by vm_compute.
  destruct (XenEvents.erun XenEvents.espec_step _ _) as [[es eps]|]; [|discriminate Hs]. injection Hs as Hs.
  destruct (XenEvents.erun XenEvents.eimpl_step _ _) as [l'|]; [|destruct H].
  split; [exact Hs|]. exists l'. split; [reflexivity|apply H].
Defined.
End XenSamples.
